(* ===== verification/_CoqProject ===== *)
-Q . S2P
Prelude.v
GoStrings.v
Utf8.v
GoParse.v
Float64.v
Api.v
InvestigationApi.v
Guardrails.v
Thresholds.v
Escalation.v
Prog.v
Runtime.v
Digest.v
Executor.v
Effectiveness.v
AgentAction.v
ActionController.v
PlanController.v
ActionSafety.v
ActionEscalation.v
PlanSafety.v
PlanTTL.v
DataClassification.v
Scope.v
Observation.v
Diagnostic.v
Accounting.v
Egress.v
Gateway.v
GatewaySafety.v
Verifier.v
StatusBudget.v
InvestigationGate.v
InvestigationRCA.v
InvestigationExecution.v
InvestigationVerdict.v
InvestigationStatus.v
InvestigationSpec.v
Datasource.v
Network.v
QueryPolicy.v
Preflight.v
Redactor.v
Collection.v
Normalize.v
GoJson.v
DatasourceRequest.v
HttpAdapters.v
KubernetesAdapter.v
EvidenceCollection.v
SchedulingCollector.v
RuleEvaluator.v
RuleSelector.v
DatasourceController.v
InvestigationProjection.v
RiskRule.v
RiskRuleController.v
InvestigationController.v
InvestigationInvariant.v
InvestigationExamples.v
RiskSignalController.v
DeploymentRisk.v
InvestigationResume.v
InvestigationSafety.v
SkillQualifier.v
ShadowVerification.v
ModelProviders.v
DeepCopy.v
Report.v
Metrics.v
Offline.v
Harness.v
Pipeline.v
Commands.v
