(* ===== verification/Prelude.v ===== *)
(** * FluxSeer RCA: a verification library

    FluxSeer RCA is a Kubernetes operator that investigates incidents and runs
    the remediations they lead to.  A RiskRule, a Deployment's annotations or a
    user opens an InvestigationRequest, which makes the operator resolve the
    workload, collect evidence from data sources, ask a reasoning provider
    through the model gateway and verify the provider's claims against the
    evidence; a Confirmed investigation may be projected to a RiskSignal, and a
    RiskSignal to a RemediationPlan.  A plan is decided by guardrails, policies
    and thresholds and turned into an AgentAction, which is approved, executed
    once, and verified by a follow-up investigation.  This library models that
    pipeline from the Go sources, in the order of the files below, and proves
    what it promises.

    ** How to read the model

    Records and constants have the names of the source's types and fields (with
    a prefix for each record).  A pure function of the source is a function
    here; a pointer is an [option]; a Go [error] is the record [error] with the
    kinds the code tests for; (value, error) is [result].  Machine integers are
    [Z], with [wrap32] or [wrap64] wherever the source converts to a width that
    matters; durations and times are nanoseconds in [Z]; float64 values are
    binary64 numbers of SpecFloat (file Float64).  Strings are byte strings, and
    the functions of package strings are in GoStrings, Utf8 and GoParse; the
    Unicode tables behind ToLower, EqualFold and TrimSpace are the class
    [UnicodeTables].  A controller is a program [prog E R] (file Prog): a tree
    over the operations it performs on the outside world.  Its theorems hold for
    every answer of that world - stale reads, conflicts, failed writes - and for
    a stop before any operation, which is a crash.  Two worlds are used: stores
    with several versions per object (ActionSafety, PlanSafety), and the log of
    all operations and answers (InvestigationSafety and most others), where a
    property of every event in terms of the events before it is a property of
    every run.  The worker pool of the data source queries is a step relation
    (Collection).  Objects are values, as if no two of them shared memory; what
    that relies on, the hand-written copies of the resources, is the subject of
    DeepCopy, on a heap.

    ** Files

    - Prelude, GoStrings, Utf8, GoParse, Float64, GoJson: notations, tactics,
      hint databases, lemmas on lists and options, and the Go standard library.
    - Api: the custom resources of the remediation loop and domain types
      (api/v1alpha1, internal/domain).  InvestigationApi: the specs and statuses
      of InvestigationRequest and RiskSignal.  DeepCopy: how the resources are
      copied (the DeepCopyInto methods of api/v1alpha1).
    - Guardrails (internal/guardrails), Thresholds (internal/thresholds),
      Escalation (internal/escalation): the decisions on a plan.
    - Prog, Runtime: programs, runs, logs; reconcile results and owner
      references.  Digest (internal/canonicaldigest): canonical JSON and digests.
    - Executor (internal/executor): router and backends.  Effectiveness,
      AgentAction, ActionController (internal/controllers/effectiveness.go,
      agentaction_controller.go): the life of an action; ActionSafety and
      ActionEscalation prove its theorems.
    - PlanController, PlanSafety, PlanTTL (remediationplan_controller.go,
      remediationplan_ttl_controller.go): the life of a plan.
    - DataClassification (internal/dataclassification), Scope (internal/scope),
      Observation and Diagnostic (internal/domain, internal/diagnostic),
      Accounting (internal/diagnostic/accounting.go and the reconciliation of
      internal/investigation): evidence, its classification, the workload scope,
      the rule-based diagnostics and the accounting of candidate claims.
    - Egress, Gateway, GatewaySafety (internal/investigation/service.go,
      internal/modelgateway): what leaves for a provider, the fallback chain and
      its trace.  Verifier (internal/verifier): claims against evidence.
      ModelProviders (internal/model, internal/reasoning, internal/knowledge):
      the providers' requests and answers and the engine behind the gateway.
    - Datasource, Network, QueryPolicy (internal/datasource,
      internal/datasourceconfig, internal/querypolicy): the sources evidence is
      asked of, the addresses their clients may reach and the queries they may
      be asked.  DatasourceController (datasource_controller.go and the loader):
      the registry that follows the DataSource resources.
    - DatasourceRequest, HttpAdapters, KubernetesAdapter, SchedulingCollector
      (internal/datasource/do.go, prometheus, loki, kubernetes): how a source
      answers a query.
    - Preflight, Redactor, Collection, Normalize, EvidenceCollection
      (internal/investigation/service.go and scheduling.go, internal/evidence,
      internal/rule/template.go): target and plan of an investigation, redaction,
      the worker pool that asks the sources, the observations made of the
      answers, and the whole of CollectEvidence.  ShadowVerification
      (verifier_shadow.go, reconciliation.go): the report on candidates that
      CollectEvidence adds to its result.
    - StatusBudget (internal/statusbudget) and the Investigation files
      (internal/controllers/investigationrequest_controller.go): Gate, RCA,
      Execution, Status, Spec, Projection model its functions, Controller the
      reconciler; Verdict, Invariant, Resume and Safety prove its theorems, and
      Examples runs it.
    - RuleEvaluator, RuleSelector (internal/rule), RiskRule, RiskRuleController
      (riskrule_controller.go): what a rule's signals match, which workloads it
      selects, and what is written for a finding.  RiskSignalController
      (risksignal_controller.go, risksignal_notification_controller.go): the
      life of a RiskSignal.  DeploymentRisk (internal/detector,
      deployment_risk_controller.go): the risk observed of a Deployment.
    - Metrics (internal/rcametrics), Report (internal/cli/report.go), Offline
      (internal/replay, internal/adaptive, internal/solution), SkillQualifier
      (internal/skillqualifier), Harness (internal/runtimeharness): what is
      counted, reported, exported and qualified.
    - Commands (internal/cli/investigate.go, run.go, internal/version): arguments,
      the request the command writes and its wait.  Pipeline (internal/ingestion,
      internal/controlplane, internal/audit, internal/cli/demo.go): the
      in-process run of an incident.

    ** What the theorems show

    - Actions: executed at most once per granting decision under crashes, stale
      reads and concurrent writers, the plan reconciler's decisions included;
      only as decided and approved; deleted and escalated only in time;
      idempotent and confined at the cluster (ActionSafety, ActionEscalation,
      Executor).  Plans: decided only after their action, and never executed
      when a policy wants a human (PlanSafety); the policy, threshold and
      escalation route chosen are the best eligible ones.
    - Egress: in every run of RCA generation each request to a hosted provider
      is admitted by that provider's data policy and carries only what it
      allows, every attempt is audited faithfully, and the fallback chain ends
      (GatewaySafety); policy admission and claim verdicts are characterised
      exactly (DataClassification, Verifier); the analysis of a provider's
      answer is well formed whatever it sends, and a provider asks a bounded
      number of times (ModelProviders).
    - Evidence: every dial of a source's client goes to an address the network
      policy lets the host stand for (Network); the registry follows the
      resources, fail closed (DatasourceController); the query policy is
      characterised exactly for metrics, with reference definitions of what the
      scanners find (QueryPolicy); a preflight without issues has a plan of one
      query per reference, allowed by the source registered under it, and within
      budget (Preflight); under every schedule the worker
      pool ends, keeps its limits and, undisturbed, answers every query
      (Collection); observations are numbered apart, bounded, redacted and
      described by their references, scheduling evidence is correlated by UID,
      and retention is complete (EvidenceCollection).  Shadow verification has an
      entry for every resolution or says why it has none, and what it calls
      supported lies in the scope of its target (ShadowVerification).
    - Adapters: when a request is tried again and with which waits
      (DatasourceRequest); the answer of a metrics source is read exactly
      (HttpAdapters); the terminations read are those of Pods the target owns,
      of the first ten containers of each (KubernetesAdapter); scheduling evidence
      that is reported as complete was read to the end, where an event API that
      answers NotFound counts as one without events (SchedulingCollector).
    - Investigations: the provider is asked only when it may be, a RiskSignal
      written only for a Confirmed verdict that the evidence bears out, requests
      deleted only when expired; every stored status is well formed, fits the
      budget and carries conditions that agree with its outcome; every run that
      ends without error has reached an outcome; a run resumed from a checkpoint
      agrees with the uninterrupted one; validation, the gate, truncation and
      the stored provider result are characterised exactly.
    - Rules and signals: the evaluation of a signal meets a specification of its
      threshold and reasons (RuleEvaluator); what a rule writes is justified by a
      finding, whose identity does not depend on order or on what is said about
      digested evidence, and its analysis is verified (RiskRule,
      RiskRuleController); for the RiskSignal of an investigation a plan is asked
      for exactly when that is Confirmed, remediation is enabled and the TTL not
      over (RiskSignalController); an observed risk is the merge of what the three
      detectors found (DeploymentRisk).
    - Around them: copies of a resource share nothing with it, but for AgentAction
      and ApprovalPolicy, whose copies are shown to (DeepCopy); a report shows as root causes exactly the rule's (Report);
      series have a bounded number of labels (Metrics); an assessment never
      authorises and a bundle keeps its identity (Offline); several runs of the
      qualification are aggregated as their reference says (SkillQualifier); the
      command line writes one request, which the controller's validation admits,
      and reports success only when it was seen Completed (Commands); the
      in-process run executes only what its guardrails approved (Pipeline); the
      harness deletes only the scenario's objects and what the labels and names
      it goes by tie to them, which takes in too much (Harness).

    ** Parameters and their laws

    Code outside the repository is a parameter: [UnicodeTables] (package
    unicode), [DigestPrims] (SHA-256 and NFC; [hash_hex] says that the former is
    64 digits and lower-case letters), [LabelSelectors] and
    [ControllerReferences] and [StatusConditions] (apimachinery and
    controller-runtime; [ConditionLaws] states the documented behaviour of
    SetStatusCondition and is proved of an instance), [Quantities]
    (apimachinery's resource quantities), [Library] (the copies of the metav1
    types; [LibraryCopies] states that they are deep and is proved of an
    instance), [QueryTemplates] (text/template), [URLs] and [QueryURLs]
    (net/url), [HTTPDates] (net/http), [JSONErrors] (the texts of encoding/json's
    errors), [ValueText] and [LooseFloats] (fmt and strconv on values
    that are neither strings nor integers), [ResultSizes] (the length of a
    marshalled query result), [BundleJSON] (a marshalled bundle), [QueryFiles]
    (the YAML of a query file), [FloatScans] (fmt.Sscanf of a float64),
    [ModelPrompts] and [ModelEndpoints] (the indented JSON of a prompt's
    context, the check of a provider's URL), the JSON merge patch, the size of a marshalled
    status, and the operations of each [prog] (API server,
    clock, timers, HTTP, executors, reasoning engine).  Every theorem that needs
    more than totality of a parameter names it, and has a witness with a concrete
    one.

    ** Fuel

    The fallback recursion of the gateway takes a fuel larger than the number of
    providers, which its termination theorem shows enough, since a visited
    provider is never asked again.  Truncation takes the length of the string in
    bytes, and every rune has at least one; the loop that shrinks a status takes
    one more than its references and claims, and each turn drops one.  The
    scanners of a query, of a regular expression, of a JSON text and of an IPv6
    address take the
    length of what they scan (eight groups for the address), and each turn
    consumes some of it.  The theorems [truncate_longest_prefix] and
    [status_budget_enforced] show the two loops' fuel enough.  The harness waits
    for as many ticks as
    its deadline leaves, a number the environment decides; its theorems hold for
    every such number.  The wait of the command line takes one look per two seconds
    of its timeout and two more, which [wait_ends] shows enough for every clock that
    sleeping moves on.

    ** Not modelled

    - nil and empty slices and maps are identified, in comparisons of statuses
      and in digests too; metav1.Time keeps nanoseconds (the API server cuts to
      seconds); keys that NFC makes equal keep both entries.
    - Logs, events' texts where no decision reads them, RBAC and the
      wiring of SetupWithManager.
    - The goroutine and the deep copy of the shadow runner; its select is a
      choice.
    - The command line's kubeconfig and encodings of its output, and the
      operator's bootstrap.  The demonstration workload and the command line of
      the skill evaluation.
    - The CloudWatch and OpenTelemetry adapters, which answer that they are not
      implemented, and the HTTP request of the notification webhook.
    - Reading and decoding of the files of the skill corpus and of the harness. *)

From Stdlib Require Import ZArith Lia Sorting.Sorted Permutation.
From stdpp Require Import base list strings gmap pretty.


(** ** Scope of the development's notations *)

Declare Scope go_scope.
Delimit Scope go_scope with go.
Open Scope string_scope.
Open Scope list_scope.
Open Scope Z_scope.
Open Scope go_scope.

Notation "s == t" := (String.eqb s t) (at level 70, no associativity) : go_scope.
Notation "s != t" := (negb (String.eqb s t)) (at level 70, no associativity) : go_scope.

(** ** Hint databases and tactics *)

Create HintDb go_db.
Create Rewrite HintDb go_rw.

(** Turn boolean tests of the code that occur as hypotheses into propositions. *)
Ltac go_bool :=
  repeat match goal with
  | H : (_ && _)%bool = true |- _ => apply andb_true_iff in H; destruct H
  | H : (_ || _)%bool = false |- _ => apply orb_false_iff in H; destruct H
  | H : negb _ = true |- _ => apply negb_true_iff in H
  | H : negb _ = false |- _ => apply negb_false_iff in H
  | H : String.eqb _ _ = true |- _ => apply String.eqb_eq in H
  | H : String.eqb _ _ = false |- _ => apply String.eqb_neq in H
  | H : Z.eqb _ _ = true |- _ => apply Z.eqb_eq in H
  | H : Z.eqb _ _ = false |- _ => apply Z.eqb_neq in H
  | H : Z.leb _ _ = true |- _ => apply Z.leb_le in H
  | H : Z.leb _ _ = false |- _ => apply Z.leb_gt in H
  | H : Z.ltb _ _ = true |- _ => apply Z.ltb_lt in H
  | H : Z.ltb _ _ = false |- _ => apply Z.ltb_ge in H
  end.

(** Case analysis on every test of an unfolded handler. *)
Ltac go_cases := repeat (case_match; simplify_eq/=; go_bool; try done).

(** ** Go errors and fallible results

    [err_kind] is what the code can ask of an error through [errors.Is] and
    the [apierrors] predicates; wrapping with [%w] keeps it. *)

Inductive err_kind := ErrOther | ErrNotFound | ErrConflict | ErrDeadline.

#[export] Instance err_kind_eq_dec : EqDecision err_kind.
Proof. solve_decision. Defined.

Record error := mkError { err_of : err_kind; err_msg : string }.

#[export] Instance error_eq_dec : EqDecision error.
Proof. solve_decision. Defined.

Definition errorf (msg : string) : error := mkError ErrOther msg.
Definition wrapf (prefix : string) (e : error) : error :=
  mkError (err_of e) (prefix +:+ ": " +:+ err_msg e).
Definition is_not_found (e : error) : bool := bool_decide (err_of e = ErrNotFound).
Definition is_conflict (e : error) : bool := bool_decide (err_of e = ErrConflict).
Definition is_deadline (e : error) : bool := bool_decide (err_of e = ErrDeadline).

Inductive result (A : Type) := Ok (a : A) | Err (e : error).
Arguments Ok {A} _.
Arguments Err {A} _.

Definition rbind {A B} (m : result A) (k : A -> result B) : result B :=
  match m with Ok a => k a | Err e => Err e end.
Definition rmap_err {A} (f : error -> error) (m : result A) : result A :=
  match m with Ok a => Ok a | Err e => Err (f e) end.

Notation "x <-! m ; k" := (rbind m (fun x => k))
  (at level 100, m at level 80, k at level 200, right associativity) : go_scope.

Lemma rbind_Ok {A B} (m : result A) (k : A -> result B) b :
  rbind m k = Ok b -> exists a, m = Ok a /\ k a = Ok b.
Proof. destruct m; simpl; [eauto | done]. Qed.

(** ** Machine integers and time

    [int64] and [int32] arithmetic wraps; instants are nanoseconds since Go's
    zero time, so that [IsZero] is [t =? 0]; [Time.Sub] saturates. *)

Definition min_int64 : Z := - 2 ^ 63.
Definition max_int64 : Z := 2 ^ 63 - 1.
Definition wrap64 (z : Z) : Z := (z + 2 ^ 63) mod 2 ^ 64 - 2 ^ 63.
Definition wrap32 (z : Z) : Z := (z + 2 ^ 31) mod 2 ^ 32 - 2 ^ 31.
Definition sat64 (z : Z) : Z := Z.max min_int64 (Z.min max_int64 z).

Abbreviation time := Z (only parsing).
Abbreviation duration := Z (only parsing).

Definition nanosecond : duration := 1.
Definition second : duration := 1000000000.
Definition minute : duration := 60 * second.
Definition is_zero_time (t : time) : bool := t =? 0.
Definition time_before (a b : time) : bool := a <? b.
Definition time_after (a b : time) : bool := b <? a.
Definition time_add (t : time) (d : duration) : time := t + d.
Definition time_sub (a b : time) : duration := sat64 (a - b).
(** [time.Duration(n) * time.Second] for an [int64] n. *)
Definition seconds (n : Z) : duration := wrap64 (n * second).

Lemma wrap64_id z : min_int64 <= z <= max_int64 -> wrap64 z = z.
Proof. unfold wrap64, min_int64, max_int64. intros ?. rewrite Z.mod_small; lia. Qed.

Lemma wrap64_range z : min_int64 <= wrap64 z <= max_int64.
Proof.
  unfold wrap64, min_int64, max_int64.
  pose proof (Z.mod_pos_bound (z + 2 ^ 63) (2 ^ 64)). lia.
Qed.

Lemma sat64_id z : min_int64 <= z <= max_int64 -> sat64 z = z.
Proof. unfold sat64. lia. Qed.

Lemma seconds_exact n : 0 <= n <= 9223372036 -> seconds n = n * second.
Proof. intros ?. apply wrap64_id. unfold min_int64, max_int64, second. lia. Qed.

(** ** Byte-wise string order (Go's [<] on strings) *)

Fixpoint str_ltb (s t : string) : bool :=
  match s, t with
  | _, EmptyString => false
  | EmptyString, String _ _ => true
  | String a s', String b t' =>
      let x := Ascii.N_of_ascii a in
      let y := Ascii.N_of_ascii b in
      if (x <? y)%N then true else if (y <? x)%N then false else str_ltb s' t'
  end.

(** ** Strict orders and Go's stable sort *)

Class StrictTotal {K : Type} (lt : K -> K -> bool) : Prop := {
  st_irrefl k : lt k k = false;
  st_trans a b c : lt a b = true -> lt b c = true -> lt a c = true;
  st_total a b : lt a b = false -> lt b a = false -> a = b
}.

Class StrictWeak {A : Type} (less : A -> A -> bool) : Prop := {
  sw_irrefl a : less a a = false;
  sw_neg_trans a b c : less a b = false -> less b c = false -> less a c = false;
  sw_asym a b : less a b = true -> less b a = false
}.

#[export] Instance Z_lt_strict : StrictTotal Z.ltb.
Proof. split; intros; go_bool; try apply Z.ltb_lt; try apply Z.ltb_ge; lia. Qed.

#[export] Instance Z_gt_strict : StrictTotal (fun a b => b <? a).
Proof. split; intros; go_bool; try apply Z.ltb_lt; try apply Z.ltb_ge; lia. Qed.

#[export] Instance nat_lt_strict : StrictTotal Nat.ltb.
Proof.
  split; intros *; rewrite ?Nat.ltb_lt, ?Nat.ltb_ge; lia.
Qed.

#[export] Instance bool_first_strict : StrictTotal (fun a b : bool => a && negb b)%bool.
Proof. split; intros; repeat match goal with b : bool |- _ => destruct b end; done. Qed.

Lemma str_ltb_irrefl s : str_ltb s s = false.
Proof. induction s as [|a s IH]; simpl; [done|]. by rewrite N.ltb_irrefl. Qed.

Lemma str_ltb_trans s t u : str_ltb s t = true -> str_ltb t u = true -> str_ltb s u = true.
Proof.
  revert t u. induction s as [|a s IH]; intros [|b t] [|c u]; simpl; try done.
  repeat match goal with |- context [(?x <? ?y)%N] => destruct (N.ltb_spec x y) end;
    intros; try done; try lia; eauto.
Qed.

Lemma str_ltb_total s t : str_ltb s t = false -> str_ltb t s = false -> s = t.
Proof.
  revert t. induction s as [|a s IH]; intros [|b t]; simpl; try done.
  destruct (N.ltb_spec (Ascii.N_of_ascii a) (Ascii.N_of_ascii b)),
    (N.ltb_spec (Ascii.N_of_ascii b) (Ascii.N_of_ascii a)); try done.
  intros ??. assert (a = b) as ->; [|f_equal; eauto].
  rewrite <- (Ascii.ascii_N_embedding a), <- (Ascii.ascii_N_embedding b). f_equal. lia.
Qed.

#[export] Instance str_lt_strict : StrictTotal str_ltb.
Proof. split; eauto using str_ltb_irrefl, str_ltb_trans, str_ltb_total. Qed.

Lemma st_asym {K} (lt : K -> K -> bool) `{!StrictTotal lt} a b :
  lt a b = true -> lt b a = false.
Proof.
  intros H. destruct (lt b a) eqn:E; [|done].
  pose proof (st_trans _ _ _ H E). pose proof (st_irrefl (lt:=lt) a). congruence.
Qed.

(** A comparison on one key, and the lexicographic chain
    [if key(a) != key(b) { return key(a) < key(b) }; ...] of the code. *)
Lemma strict_weak_key {A K} (f : A -> K) (lt : K -> K -> bool) `{!StrictTotal lt} :
  StrictWeak (fun a b => lt (f a) (f b)).
Proof.
  split; intros *; [apply st_irrefl| |apply (st_asym lt)].
  intros H1 H2. destruct (lt (f a) (f c)) eqn:E; [|done].
  destruct (lt (f b) (f a)) eqn:E1.
  - pose proof (st_trans _ _ _ E1 E). congruence.
  - pose proof (st_total _ _ H1 E1) as Heq. rewrite Heq in E. congruence.
Qed.

Lemma strict_weak_lex {A K} (f : A -> K) (eqk lt : K -> K -> bool) (less : A -> A -> bool)
    `{!StrictTotal lt} `{!StrictWeak less} :
  (forall x y, eqk x y = true <-> x = y) ->
  StrictWeak (fun a b => if negb (eqk (f a) (f b)) then lt (f a) (f b) else less a b).
Proof.
  intros Heq.
  assert (Hd : forall x y, eqk x y = false <-> x <> y).
  { intros x y. rewrite <- Heq. destruct (eqk x y); naive_solver. }
  split; intros *.
  - rewrite (proj2 (Heq _ _) eq_refl). apply sw_irrefl.
  - destruct (eqk (f a) (f b)) eqn:Hab, (eqk (f b) (f c)) eqn:Hbc; simpl;
      repeat match goal with
      | H : eqk _ _ = true |- _ => apply (proj1 (Heq _ _)) in H
      | H : eqk _ _ = false |- _ => apply (proj1 (Hd _ _)) in H
      end.
    + rewrite Hab, Hbc, (proj2 (Heq _ _) eq_refl). apply sw_neg_trans.
    + rewrite Hab. rewrite (proj2 (Hd _ _) Hbc). simpl. auto.
    + rewrite <- Hbc. rewrite (proj2 (Hd _ _) Hab). simpl. auto.
    + intros H1 H2.
      assert (lt (f b) (f a) = true) as H1'.
      { destruct (lt (f b) (f a)) eqn:E; [done|]. destruct Hab. by apply st_total. }
      assert (lt (f c) (f b) = true) as H2'.
      { destruct (lt (f c) (f b)) eqn:E; [done|]. destruct Hbc. by apply st_total. }
      pose proof (st_trans _ _ _ H2' H1') as H3.
      assert (f a <> f c) as Hac.
      { intros E. rewrite E in H3. rewrite st_irrefl in H3. done. }
      rewrite (proj2 (Hd _ _) Hac). simpl. by apply (st_asym lt).
  - destruct (eqk (f a) (f b)) eqn:Hab; simpl.
    + apply Heq in Hab. rewrite Hab, (proj2 (Heq _ _) eq_refl). apply sw_asym.
    + apply Hd in Hab. rewrite (proj2 (Hd (f b) (f a)) (not_eq_sym Hab)). simpl.
      apply (st_asym lt).
Qed.

(** The instances of the chain that the comparators of the program use. *)
Lemma lex_desc {A} (f : A -> Z) (less : A -> A -> bool) :
  StrictWeak less -> StrictWeak (fun a b => if negb (f a =? f b) then f b <? f a else less a b).
Proof. intros ?. by apply (strict_weak_lex f Z.eqb (fun x y => y <? x) less Z.eqb_eq). Qed.

Lemma lex_asc {A} (f : A -> Z) (less : A -> A -> bool) :
  StrictWeak less -> StrictWeak (fun a b => if negb (f a =? f b) then f a <? f b else less a b).
Proof. intros ?. by apply (strict_weak_lex f Z.eqb Z.ltb less Z.eqb_eq). Qed.

Lemma lex_str {A} (f : A -> string) (less : A -> A -> bool) :
  StrictWeak less -> StrictWeak (fun a b => if f a != f b then str_ltb (f a) (f b) else less a b).
Proof. intros ?. by apply (strict_weak_lex f String.eqb str_ltb less String.eqb_eq). Qed.

(** [if a.flag != b.flag { return a.flag }]. *)
Lemma lex_flag {A} (f : A -> bool) (less : A -> A -> bool) :
  StrictWeak less -> StrictWeak (fun a b => if xorb (f a) (f b) then f a else less a b).
Proof.
  intros Hw.
  assert (StrictWeak (fun a b => if negb (Bool.eqb (f a) (f b)) then f a && negb (f b) else less a b))
    as [H1 H2 H3].
  { apply (strict_weak_lex f Bool.eqb (fun a b => a && negb b)%bool less). intros [] []; naive_solver. }
  split.
  - intros a. specialize (H1 a). by destruct (f a).
  - intros a b c. specialize (H2 a b c). by destruct (f a), (f b), (f c).
  - intros a b. specialize (H3 a b). by destruct (f a), (f b).
Qed.

(** [sort.SliceStable]: every element is inserted after the elements it is
    not less than.  For a strict weak order the stable result is unique, so the
    algorithm Go uses does not matter. *)
Section StableSort.
Context {A : Type} (less : A -> A -> bool).

Fixpoint insert_stable (x : A) (l : list A) : list A :=
  match l with
  | [] => [x]
  | y :: ys => if less x y then x :: y :: ys else y :: insert_stable x ys
  end.

Definition sort_stable (l : list A) : list A :=
  fold_left (fun acc x => insert_stable x acc) l [].

Definition no_later (a b : A) : Prop := less b a = false.

Lemma insert_stable_perm x l : insert_stable x l ≡ₚ x :: l.
Proof.
  induction l as [|y l IH]; simpl; [done|]. destruct (less x y); [done|].
  rewrite IH. apply Permutation_swap.
Qed.

Lemma fold_insert_perm l acc :
  fold_left (fun acc x => insert_stable x acc) l acc ≡ₚ acc ++ l.
Proof.
  revert acc. induction l as [|x l IH]; intros acc; simpl; [by rewrite app_nil_r|].
  rewrite IH, insert_stable_perm. simpl. apply Permutation_middle.
Qed.

Lemma sort_stable_perm l : sort_stable l ≡ₚ l.
Proof. apply fold_insert_perm. Qed.

Lemma sort_stable_elem x l : x ∈ sort_stable l <-> x ∈ l.
Proof. by rewrite sort_stable_perm. Qed.

Lemma sort_stable_length l : length (sort_stable l) = length l.
Proof. by rewrite sort_stable_perm. Qed.

Lemma sort_stable_nil l : sort_stable l = [] <-> l = [].
Proof.
  split; [|by intros ->]. intros H. apply Permutation_nil. rewrite <- H. apply sort_stable_perm.
Qed.

Context `{!StrictWeak less}.

Lemma insert_stable_sorted x l :
  StronglySorted no_later l -> StronglySorted no_later (insert_stable x l).
Proof.
  induction 1 as [|y l Hl IH Hall]; simpl; [repeat constructor|].
  destruct (less x y) eqn:E.
  - constructor; [by constructor|]. constructor.
    + by apply sw_asym.
    + eapply Forall_impl; [exact Hall|]. intros z Hz. unfold no_later in *.
      eapply sw_neg_trans; [exact Hz|]. by apply sw_asym.
  - constructor; [done|]. apply Forall_forall. intros z Hz.
    rewrite insert_stable_perm in Hz. apply elem_of_cons in Hz as [->|Hz]; [done|].
    rewrite Forall_forall in Hall. auto.
Qed.

Lemma sort_stable_sorted l : StronglySorted no_later (sort_stable l).
Proof.
  unfold sort_stable.
  assert (StronglySorted no_later []) as H by constructor. revert H.
  generalize (@nil A) as acc. induction l as [|x l IH]; intros acc H; simpl; [done|].
  apply IH. by apply insert_stable_sorted.
Qed.

(** The element the code picks with [sorted[0]] is in the input, and no
    element of the input precedes it. *)
Lemma sort_stable_head l x xs :
  sort_stable l = x :: xs -> x ∈ l /\ forall y, y ∈ l -> less y x = false.
Proof.
  intros H. pose proof (sort_stable_sorted l) as Hs. rewrite H in Hs. split.
  - apply sort_stable_elem. rewrite H. left.
  - intros y Hy. apply sort_stable_elem in Hy. rewrite H in Hy.
    apply elem_of_cons in Hy as [->|Hy]; [apply sw_irrefl|].
    inversion Hs as [|?? _ Hall]; subst. rewrite Forall_forall in Hall. by apply Hall.
Qed.

(** When distinct elements of the list are comparable, the sorted list does
    not depend on the order of the input. *)
Lemma sorted_perm_unique l1 l2 :
  (forall a b, a ∈ l1 -> b ∈ l1 -> less a b = false -> less b a = false -> a = b) ->
  StronglySorted no_later l1 -> StronglySorted no_later l2 -> l1 ≡ₚ l2 -> l1 = l2.
Proof.
  revert l2. induction l1 as [|a l1 IH]; intros l2 Htot H1 H2 Hp.
  - by apply Permutation_nil in Hp.
  - destruct l2 as [|b l2].
    { symmetry in Hp. by apply Permutation_nil in Hp. }
    inversion H1 as [|?? H1' Ha]; inversion H2 as [|?? H2' Hb]; subst.
    rewrite Forall_forall in Ha, Hb.
    assert (a = b) as ->.
    { assert (Hab : b ∈ a :: l1) by (rewrite Hp; left).
      assert (Hba : a ∈ b :: l2) by (rewrite <- Hp; left).
      apply elem_of_cons in Hab as [->|Hab]; [done|].
      apply elem_of_cons in Hba as [->|Hba]; [done|].
      apply Htot; [left|by right|by apply Hb|by apply Ha]. }
    f_equal. apply IH; [|done..|by apply Permutation_cons_inv in Hp].
    intros x y Hx Hy. apply Htot; by right.
Qed.

Lemma sort_stable_perm_eq l1 l2 :
  (forall a b, a ∈ l1 -> b ∈ l1 -> less a b = false -> less b a = false -> a = b) ->
  l1 ≡ₚ l2 -> sort_stable l1 = sort_stable l2.
Proof.
  intros Htot Hp. apply sorted_perm_unique; [|apply sort_stable_sorted..|].
  - intros a b Ha Hb. apply Htot; by apply sort_stable_elem.
  - by rewrite !sort_stable_perm.
Qed.
End StableSort.

(** The sort consults the comparator only on elements of the list. *)
Lemma sort_stable_ext {A} (less1 less2 : A -> A -> bool) l :
  (forall a b, a ∈ l -> b ∈ l -> less1 a b = less2 a b) ->
  sort_stable less1 l = sort_stable less2 l.
Proof.
  intros H. unfold sort_stable.
  assert (Hi : forall x acc, x ∈ l -> (forall y, y ∈ acc -> y ∈ l) ->
    insert_stable less1 x acc = insert_stable less2 x acc).
  { intros x acc Hx. induction acc as [|y acc IH]; intros Hacc; simpl; [done|].
    rewrite H by (done || apply Hacc; left). rewrite IH; [done|]. intros. apply Hacc. by right. }
  assert (forall l' acc, (forall y, y ∈ l' -> y ∈ l) -> (forall y, y ∈ acc -> y ∈ l) ->
    fold_left (fun acc x => insert_stable less1 x acc) l' acc =
    fold_left (fun acc x => insert_stable less2 x acc) l' acc) as Hf.
  { intros l'. induction l' as [|x l' IH]; intros acc Hl' Hacc; simpl; [done|].
    rewrite Hi by (done || apply Hl'; left). apply IH.
    - intros. apply Hl'. by right.
    - intros y. rewrite insert_stable_perm, elem_of_cons. intros [->|?]; [|by apply Hacc].
      apply Hl'. left. }
  apply Hf; [done|]. by intros ? ?%not_elem_of_nil.
Qed.

#[export] Hint Resolve sort_stable_perm sort_stable_sorted : go_db.
#[export] Hint Rewrite @sort_stable_length : go_rw.

(** [sort.Strings]. *)
Definition sort_strings : list string -> list string := sort_stable str_ltb.

#[export] Instance str_ltb_weak : StrictWeak str_ltb.
Proof. apply (strict_weak_key id str_ltb). Qed.

Lemma sort_strings_perm_eq l1 l2 : l1 ≡ₚ l2 -> sort_strings l1 = sort_strings l2.
Proof. intros. apply sort_stable_perm_eq; [apply _| |done]. intros. by apply st_total. Qed.

(** ** List idioms of the code *)

Lemma existsb_elem {A} (p : A -> bool) l : existsb p l = true <-> exists x, x ∈ l /\ p x = true.
Proof. rewrite existsb_exists. by setoid_rewrite list_elem_of_In. Qed.

Lemma existsb_none {A} (p : A -> bool) l x : existsb p l = false -> x ∈ l -> p x = false.
Proof.
  intros H Hx. destruct (p x) eqn:Hp; [|done].
  assert (existsb p l = true) as Ht by (apply existsb_elem; eauto). congruence.
Qed.

(** [slices.Contains] and the loops written out for it. *)
Definition mem_str (x : string) (l : list string) : bool := existsb (String.eqb x) l.

Lemma mem_str_spec x l : mem_str x l = true <-> x ∈ l.
Proof.
  unfold mem_str. rewrite existsb_exists. split.
  - intros (y & Hy & E). apply String.eqb_eq in E as ->. by apply list_elem_of_In.
  - intros H. exists x. split; [by apply list_elem_of_In|apply String.eqb_refl].
Qed.

Lemma mem_str_false x l : mem_str x l = false <-> x ∉ l.
Proof. rewrite <- mem_str_spec. destruct (mem_str x l); naive_solver. Qed.

(** The loop [if _, ok := seen[x]; ok { continue }; seen[x] = struct{}{}; out = append(out, x)]. *)
Fixpoint dedup_from (seen : list string) (l : list string) : list string :=
  match l with
  | [] => []
  | x :: xs => if mem_str x seen then dedup_from seen xs else x :: dedup_from (x :: seen) xs
  end.
Definition dedup_first : list string -> list string := dedup_from [].

Lemma dedup_from_elem x seen l : x ∈ dedup_from seen l <-> x ∈ l /\ x ∉ seen.
Proof.
  revert seen. induction l as [|y l IH]; intros seen; simpl.
  { rewrite elem_of_nil. tauto. }
  destruct (mem_str y seen) eqn:E.
  - apply mem_str_spec in E. rewrite IH, elem_of_cons. split; [tauto|].
    intros [[->|?] ?]; tauto.
  - apply mem_str_false in E. rewrite !elem_of_cons, IH, elem_of_cons.
    destruct (decide (x = y)) as [->|]; tauto.
Qed.

Lemma dedup_from_NoDup seen l : NoDup (dedup_from seen l).
Proof.
  revert seen. induction l as [|y l IH]; intros seen; simpl; [constructor|].
  destruct (mem_str y seen) eqn:E; [done|]. constructor; [|done].
  rewrite dedup_from_elem, elem_of_cons. tauto.
Qed.

Lemma dedup_first_elem x l : x ∈ dedup_first l <-> x ∈ l.
Proof. unfold dedup_first. rewrite dedup_from_elem, elem_of_nil. tauto. Qed.

Lemma dedup_first_NoDup l : NoDup (dedup_first l).
Proof. apply dedup_from_NoDup. Qed.

(** A set of strings ([map[string]struct{}]) read back in sorted order. *)
Definition sorted_set (l : list string) : list string := sort_strings (dedup_first l).

Lemma sorted_set_elem x l : x ∈ sorted_set l <-> x ∈ l.
Proof. unfold sorted_set, sort_strings. by rewrite sort_stable_elem, dedup_first_elem. Qed.

Lemma sorted_set_NoDup l : NoDup (sorted_set l).
Proof. unfold sorted_set, sort_strings. rewrite sort_stable_perm. apply dedup_first_NoDup. Qed.

Lemma sorted_set_nil l : sorted_set l = [] <-> l = [].
Proof.
  unfold sorted_set, sort_strings. rewrite sort_stable_nil. split; [|by intros ->].
  destruct l as [|x l]; [done|]. intros H.
  assert (x ∈ dedup_first (x :: l)) as Hx by (apply dedup_first_elem; left).
  rewrite H in Hx. by apply not_elem_of_nil in Hx.
Qed.

(** The set read back sorted depends only on its members. *)
Lemma sorted_set_ext l1 l2 : (forall x, x ∈ l1 <-> x ∈ l2) -> sorted_set l1 = sorted_set l2.
Proof.
  intros H. apply sort_strings_perm_eq. apply NoDup_Permutation; [apply dedup_first_NoDup..|].
  intros x. by rewrite !dedup_first_elem.
Qed.

(** A loop that returns at the first element for which [f] answers. *)
Fixpoint find_first {A B} (f : A -> option B) (l : list A) : option B :=
  match l with
  | [] => None
  | x :: xs => match f x with Some b => Some b | None => find_first f xs end
  end.

Lemma list_filter_elem {A} (P : A -> bool) (l : list A) x :
  x ∈ List.filter P l <-> x ∈ l /\ P x = true.
Proof. by rewrite !list_elem_of_In, filter_In. Qed.

Lemma find_first_Some {A B} (f : A -> option B) l b :
  find_first f l = Some b -> exists x, x ∈ l /\ f x = Some b.
Proof.
  induction l as [|x l IH]; simpl; [done|]. destruct (f x) eqn:E.
  - intros [= ->]. exists x. split; [left|done].
  - intros H. destruct (IH H) as (y & Hy & ?). exists y. split; [by right|done].
Qed.

Lemma find_first_None {A B} (f : A -> option B) l :
  find_first f l = None <-> forall x, x ∈ l -> f x = None.
Proof.
  induction l as [|x l IH]; simpl.
  - split; [|done]. intros _ x Hx. by apply not_elem_of_nil in Hx.
  - destruct (f x) eqn:E.
    + split; [done|]. intros H. rewrite H in E; [done|left].
    + rewrite IH. split; intros H y Hy.
      * apply elem_of_cons in Hy as [->|Hy]; auto.
      * apply H. by right.
Qed.

(** A loop over a slice that collects results and returns the first error. *)
Fixpoint collect {A B} (f : A -> result (option B)) (l : list A) : result (list B) :=
  match l with
  | [] => Ok []
  | x :: xs =>
      match f x with
      | Err e => Err e
      | Ok None => collect f xs
      | Ok (Some b) => match collect f xs with Ok bs => Ok (b :: bs) | Err e => Err e end
      end
  end.

Lemma collect_elem {A B} (f : A -> result (option B)) l bs b :
  collect f l = Ok bs -> b ∈ bs <-> exists x, x ∈ l /\ f x = Ok (Some b).
Proof.
  revert bs. induction l as [|x l IH]; intros bs; simpl.
  { intros [= <-]. split; [by intros ?%not_elem_of_nil|].
    intros (? & ?%not_elem_of_nil & _). done. }
  destruct (f x) as [[b'|]|e] eqn:E; [|intros H; rewrite (IH _ H)|done].
  - destruct (collect f l) as [bs'|]; [|done]. intros [= <-].
    rewrite elem_of_cons, (IH _ eq_refl). split.
    + intros [->|(y & ? & ?)]; [exists x|exists y]; split; try done; [left|by right].
    + intros (y & Hy & E'). apply elem_of_cons in Hy as [->|Hy]; [left; congruence|right; eauto].
  - split; intros (y & Hy & E'); [exists y; split; [by right|done]|].
    apply elem_of_cons in Hy as [->|Hy]; [congruence|eauto].
Qed.

Lemma collect_no_error {A B} (f : A -> result (option B)) l bs x :
  collect f l = Ok bs -> x ∈ l -> exists b, f x = Ok b.
Proof.
  revert bs. induction l as [|y l IH]; intros bs; simpl; [by intros _ ?%not_elem_of_nil|].
  intros H Hx. apply elem_of_cons in Hx as [->|Hx].
  - destruct (f y) as [b|e]; [eauto|done].
  - destruct (f y) as [[b|]|e]; [|by eauto|done].
    destruct (collect f l); [eauto|done].
Qed.

Lemma collect_perm {A B} (f : A -> result (option B)) l1 l2 bs1 :
  l1 ≡ₚ l2 -> collect f l1 = Ok bs1 -> exists bs2, collect f l2 = Ok bs2 /\ bs1 ≡ₚ bs2.
Proof.
  intros Hp. revert bs1. induction Hp as [|x l1 l2 Hp IH|x y l|l1 l2 l3 H1 IH1 H2 IH2]; simpl.
  - intros bs1 [= <-]. eauto.
  - intros bs1. destruct (f x) as [[b|]|e]; [|by apply IH|done].
    destruct (collect f l1) as [bs|]; [|done]. intros [= <-].
    destruct (IH _ eq_refl) as (bs2 & -> & ?). eexists. split; [done|]. by constructor.
  - intros bs1. destruct (f y) as [[by_|]|], (f x) as [[bx|]|]; simpl; try done;
      destruct (collect f l) as [bs|]; try done; intros [= <-];
      eexists; (split; [done|]); try done. apply Permutation_swap.
  - intros bs1 H. destruct (IH1 _ H) as (bs2 & Hb2 & ?).
    destruct (IH2 _ Hb2) as (bs3 & ? & ?). exists bs3. split; [done|]. by etrans.
Qed.
