(* ===== verification/GoStrings.v ===== *)
(** * Go strings

    A Go [string] is a sequence of bytes, here a [string] of [ascii].  This file
    models the functions of the packages [strings], [unicode/utf8], [strconv] and
    [fmt] the program uses.  UTF-8 decoding and encoding are written out; the
    Unicode property tables beyond ASCII (case mapping, letters, digits,
    printability, simple folding) are data of the standard library and enter as
    the class [UnicodeTables], so that every statement holds for any tables. *)

From Stdlib Require Import ZArith Lia.
From stdpp Require Import base list strings gmap pretty.
From S2P Require Import Prelude.

(** ** Bytes *)

Definition byte_val (c : Ascii.ascii) : Z := Z.of_N (Ascii.N_of_ascii c).
Definition byte_of (z : Z) : Ascii.ascii := Ascii.ascii_of_N (Z.to_N z).
Definition rune_self : Z := 128.
Definition rune_error : Z := 65533.
Definition max_rune : Z := 1114111.

Fixpoint str_all (p : Ascii.ascii -> bool) (s : string) : bool :=
  match s with EmptyString => true | String c s' => p c && str_all p s' end.
Fixpoint str_exists (p : Ascii.ascii -> bool) (s : string) : bool :=
  match s with EmptyString => false | String c s' => p c || str_exists p s' end.
Fixpoint str_map (f : Ascii.ascii -> Ascii.ascii) (s : string) : string :=
  match s with EmptyString => EmptyString | String c s' => String (f c) (str_map f s') end.
Definition is_ascii_byte (c : Ascii.ascii) : bool := byte_val c <? rune_self.
Definition is_ascii (s : string) : bool := str_all is_ascii_byte s.

Definition str_len (s : string) : Z := Z.of_nat (String.length s).

(** [s[n:]] for an [n] within bounds. *)
Fixpoint str_drop (n : nat) (s : string) : string :=
  match n, s with
  | O, _ => s
  | S n', String _ s' => str_drop n' s'
  | S _, EmptyString => EmptyString
  end.
(** [s[:n]] for an [n] within bounds. *)
Fixpoint str_take (n : nat) (s : string) : string :=
  match n, s with
  | O, _ => EmptyString
  | S n', String c s' => String c (str_take n' s')
  | S _, EmptyString => EmptyString
  end.

(** [strings.HasPrefix] and [strings.Contains]. *)
Fixpoint has_prefix (s p : string) : bool :=
  match p, s with
  | EmptyString, _ => true
  | String a p', String b s' => Ascii.eqb a b && has_prefix s' p'
  | String _ _, EmptyString => false
  end.
Fixpoint contains (s sub : string) : bool :=
  has_prefix s sub || match s with EmptyString => false | String _ s' => contains s' sub end.
Definition contains_any (text : string) (terms : list string) : bool :=
  existsb (fun term => contains text term) terms.
Definition trim_prefix (s p : string) : string :=
  if has_prefix s p then str_drop (String.length p) s else s.

(** [strings.HasSuffix] and [strings.TrimSuffix]. *)
Definition has_suffix (s p : string) : bool :=
  (String.length p <=? String.length s)%nat
    && (str_drop (String.length s - String.length p) s == p).
Definition trim_suffix (s p : string) : string :=
  if has_suffix s p then str_take (String.length s - String.length p) s else s.

(** [strings.Join]. *)
Fixpoint join (sep : string) (l : list string) : string :=
  match l with
  | [] => ""
  | [x] => x
  | x :: xs => x +:+ sep +:+ join sep xs
  end.

(** ** UTF-8 *)

Definition cont_in (lo hi : Z) (c : Ascii.ascii) : bool :=
  (lo <=? byte_val c) && (byte_val c <=? hi).

(** [utf8.DecodeRuneInString]: the rune and its width; an invalid or short
    encoding is [(RuneError, 1)], the empty string [(RuneError, 0)]. *)
Definition decode_rune (s : string) : Z * nat :=
  match s with
  | EmptyString => (rune_error, O)
  | String c0 s1 =>
      let b0 := byte_val c0 in
      let bad := (rune_error, 1%nat) in
      let low c := Z.land (byte_val c) 63 in
      if b0 <? 128 then (b0, 1%nat)
      else if b0 <? 194 then bad
      else if b0 <? 224 then
        match s1 with
        | String c1 _ =>
            if cont_in 128 191 c1
            then (Z.lor (Z.shiftl (Z.land b0 31) 6) (low c1), 2%nat) else bad
        | _ => bad
        end
      else if b0 <? 240 then
        let lo := if b0 =? 224 then 160 else 128 in
        let hi := if b0 =? 237 then 159 else 191 in
        match s1 with
        | String c1 (String c2 _) =>
            if cont_in lo hi c1 && cont_in 128 191 c2
            then (Z.lor (Z.lor (Z.shiftl (Z.land b0 15) 12) (Z.shiftl (low c1) 6)) (low c2), 3%nat)
            else bad
        | _ => bad
        end
      else if b0 <? 245 then
        let lo := if b0 =? 240 then 144 else 128 in
        let hi := if b0 =? 244 then 143 else 191 in
        match s1 with
        | String c1 (String c2 (String c3 _)) =>
            if cont_in lo hi c1 && cont_in 128 191 c2 && cont_in 128 191 c3
            then (Z.lor (Z.lor (Z.lor (Z.shiftl (Z.land b0 7) 18) (Z.shiftl (low c1) 12))
                   (Z.shiftl (low c2) 6)) (low c3), 4%nat)
            else bad
        | _ => bad
        end
      else bad
  end.

(** [utf8.AppendRune]. *)
Definition encode_rune (r : Z) : string :=
  let b z := byte_of z in
  let cont n := b (Z.lor 128 (Z.land (Z.shiftr r n) 63)) in
  let three q := String (b (Z.lor 224 (Z.shiftr q 12)))
    (String (b (Z.lor 128 (Z.land (Z.shiftr q 6) 63)))
    (String (b (Z.lor 128 (Z.land q 63))) "")) in
  if (r <? 0) || (max_rune <? r) || ((55296 <=? r) && (r <=? 57343)) then three rune_error
  else if r <? 128 then String (b r) ""
  else if r <? 2048 then String (b (Z.lor 192 (Z.shiftr r 6))) (String (cont 0) "")
  else if r <? 65536 then three r
  else String (b (Z.lor 240 (Z.shiftr r 18))) (String (cont 12) (String (cont 6) (String (cont 0) ""))).

(** The string cut at rune boundaries: each rune with the bytes that encode it
    (what [for _, r := range s] visits).  [fuel] is the byte length. *)
Fixpoint segments_fuel (fuel : nat) (s : string) : list (Z * string) :=
  match fuel, s with
  | _, EmptyString => []
  | O, _ => []
  | S f, _ =>
      let '(r, n) := decode_rune s in
      (r, str_take n s) :: segments_fuel f (str_drop n s)
  end.
Definition segments (s : string) : list (Z * string) := segments_fuel (String.length s) s.
Definition str_concat (l : list string) : string := fold_right String.append "" l.
Definition unsegment (l : list (Z * string)) : string := str_concat (map snd l).

(** ** Unicode properties *)

(** Tables of the package [unicode], consulted for runes from U+0080 on. *)
Class UnicodeTables := {
  tbl_lower : Z -> Z;
  tbl_letter : Z -> bool;
  tbl_digit : Z -> bool;
  tbl_print : Z -> bool;
  tbl_fold : Z -> Z -> bool
}.

(** Tables that know no property beyond ASCII: an instance for evaluation. *)
Definition plain_tables : UnicodeTables := {|
  tbl_lower := id; tbl_letter := fun _ => false; tbl_digit := fun _ => false;
  tbl_print := fun _ => true; tbl_fold := fun _ _ => false |}.

(** [unicode.IsSpace]. *)
Definition is_space_rune (r : Z) : bool :=
  (9 <=? r) && (r <=? 13) || (r =? 32) || (r =? 133) || (r =? 160) || (r =? 5760) ||
  (8192 <=? r) && (r <=? 8202) || (r =? 8232) || (r =? 8233) || (r =? 8239) ||
  (r =? 8287) || (r =? 12288).

Definition lower_byte_val (b : Z) : Z := if (65 <=? b) && (b <=? 90) then b + 32 else b.
Definition lower_byte (c : Ascii.ascii) : Ascii.ascii := byte_of (lower_byte_val (byte_val c)).

Section Unicode.
Context {U : UnicodeTables}.

Definition is_letter_rune (r : Z) : bool :=
  if r <? rune_self then (65 <=? r) && (r <=? 90) || (97 <=? r) && (r <=? 122) else tbl_letter r.
Definition is_digit_rune (r : Z) : bool :=
  if r <? rune_self then (48 <=? r) && (r <=? 57) else tbl_digit r.
Definition lower_rune (r : Z) : Z :=
  if r <? rune_self then lower_byte_val r else tbl_lower r.

(** [strings.ToLower]: bytewise on ASCII strings, rune by rune otherwise. *)
Definition to_lower (s : string) : string :=
  if is_ascii s then str_map lower_byte s
  else str_concat (map (fun seg => encode_rune (lower_rune (fst seg))) (segments s)).

(** [strings.EqualFold]. *)
Definition fold_rune_eq (r1 r2 : Z) : bool :=
  (r1 =? r2) ||
  (if (r1 <? rune_self) && (r2 <? rune_self) then lower_byte_val r1 =? lower_byte_val r2
   else tbl_fold r1 r2).
Fixpoint fold_eq_segs (l1 l2 : list (Z * string)) : bool :=
  match l1, l2 with
  | [], [] => true
  | (r1, _) :: l1', (r2, _) :: l2' => fold_rune_eq r1 r2 && fold_eq_segs l1' l2'
  | _, _ => false
  end.
Definition equal_fold (s t : string) : bool := fold_eq_segs (segments s) (segments t).
End Unicode.

(** [strings.TrimSpace]: leading and trailing white-space runes are dropped. *)
Fixpoint drop_space_segs (l : list (Z * string)) : list (Z * string) :=
  match l with
  | seg :: l' => if is_space_rune (fst seg) then drop_space_segs l' else l
  | [] => []
  end.
Definition trim_segs (l : list (Z * string)) : list (Z * string) :=
  rev (drop_space_segs (rev (drop_space_segs l))).
Definition trim_space (s : string) : string := unsegment (trim_segs (segments s)).

(** [strings.Fields]. *)
Fixpoint fields_segs (l : list (Z * string)) (cur : string) : list string :=
  match l with
  | [] => if cur == "" then [] else [cur]
  | (r, b) :: l' =>
      if is_space_rune r
      then (if cur == "" then fields_segs l' "" else cur :: fields_segs l' "")
      else fields_segs l' (cur +:+ b)
  end.
Definition fields (s : string) : list string := fields_segs (segments s) "".

(** The byte tests of code that converts a single byte with [rune(s[i])]: the
    code points U+0080..U+00FF of the Latin-1 table. *)
Definition is_space_byte (c : Ascii.ascii) : bool := is_space_rune (byte_val c).
Definition is_letter_byte (c : Ascii.ascii) : bool :=
  let b := byte_val c in
  (65 <=? b) && (b <=? 90) || (97 <=? b) && (b <=? 122) || (b =? 170) || (b =? 181) || (b =? 186) ||
  (192 <=? b) && (b <=? 214) || (216 <=? b) && (b <=? 246) || (248 <=? b) && (b <=? 255).
Definition is_digit_byte (c : Ascii.ascii) : bool :=
  (48 <=? byte_val c) && (byte_val c <=? 57).

(** ** [fmt]: the verbs [%q] and [%d] *)

Definition hex_digit (d : Z) : Ascii.ascii := byte_of (if d <? 10 then 48 + d else 87 + d).
Fixpoint hex_pad (n : nat) (z : Z) : string :=
  match n with
  | O => ""
  | S n' => hex_pad n' (Z.shiftr z 4) +:+ String (hex_digit (Z.land z 15)) ""
  end.

Section Quote.
Context {U : UnicodeTables}.

Definition str1 (z : Z) : string := String (byte_of z) "".
Definition backslash (z : Z) : string := String (byte_of 92) (str1 z).

Definition quote_seg (seg : Z * string) : string :=
  let '(r, b) := seg in
  if (r =? rune_error) && (String.length b =? 1)%nat
  then backslash 120 +:+ match b with String c _ => hex_pad 2 (byte_val c) | _ => "" end
  else if (r =? 34) || (r =? 92) then backslash r
  else if r <? rune_self then
    if (32 <=? r) && (r <? 127) then b
    else if r =? 7 then backslash 97 else if r =? 8 then backslash 98
    else if r =? 12 then backslash 102 else if r =? 10 then backslash 110
    else if r =? 13 then backslash 114 else if r =? 9 then backslash 116
    else if r =? 11 then backslash 118
    else backslash 120 +:+ hex_pad 2 r
  else if tbl_print r then b
  else if r <? 65536 then backslash 117 +:+ hex_pad 4 r
  else backslash 85 +:+ hex_pad 8 r.

(** [strconv.Quote], the verb [%q]. *)
Definition quote (s : string) : string :=
  str1 34 +:+ str_concat (map quote_seg (segments s)) +:+ str1 34.
End Quote.

(** The verb [%d]. *)
Definition itoa (z : Z) : string := pretty z.

(** [firstNonEmpty] of the querypolicy package: the first value that is not
    blank, trimmed. *)
Fixpoint first_non_blank (values : list string) : option string :=
  match values with
  | [] => None
  | v :: vs => if trim_space v != "" then Some (trim_space v) else first_non_blank vs
  end.
