(* ===== verification/Utf8.v ===== *)
(** * UTF-8 segmentation lemmas

    Facts about [decode_rune] and [segments] of GoStrings that the components
    share: segmentation loses no byte, and cutting a string at a rune boundary
    does not change the runes on either side.  [strings.TrimSpace] is
    idempotent. *)

From Stdlib Require Import ZArith Lia.
From stdpp Require Import base list strings.
From S2P Require Import Prelude GoStrings.

(** ** Taking and dropping bytes *)

Lemma str_take_drop n s : str_take n s +:+ str_drop n s = s.
Proof. revert s. induction n as [|n IH]; intros [|c s]; simpl; [done..|]. by rewrite <- (IH s) at 3. Qed.

Lemma str_take_length n s : (n <= String.length s)%nat -> String.length (str_take n s) = n.
Proof. revert s. induction n as [|n IH]; intros [|c s]; simpl; [lia..|]. intros. by rewrite IH by lia. Qed.

Lemma str_drop_length n s : String.length (str_drop n s) = (String.length s - n)%nat.
Proof. revert s. induction n as [|n IH]; intros [|c s]; simpl; auto. Qed.

Lemma str_take_all n s : (String.length s <= n)%nat -> str_take n s = s.
Proof. revert s. induction n as [|n IH]; intros [|c s]; simpl; [done|lia|done|]. intros. by rewrite IH by lia. Qed.

Lemma str_take_app s t : str_take (String.length s) (s +:+ t) = s.
Proof. induction s as [|c s IH]; simpl; [by destruct t|by rewrite IH]. Qed.

Lemma str_drop_app s t : str_drop (String.length s) (s +:+ t) = t.
Proof. induction s as [|c s IH]; simpl; auto. Qed.

Lemma append_length s t : String.length (s +:+ t) = (String.length s + String.length t)%nat.
Proof. induction s as [|c s IH]; simpl; auto. Qed.

Lemma append_assoc (s t u : string) : s +:+ (t +:+ u) = (s +:+ t) +:+ u.
Proof. induction s as [|c s IH]; [done|]. apply (f_equal (String c)), IH. Qed.

Lemma append_empty_r (s : string) : s +:+ "" = s.
Proof. induction s as [|c s IH]; [done|]. apply (f_equal (String c)), IH. Qed.

(** ** One rune *)

Ltac decode_cases :=
  repeat match goal with
  | |- context [if ?b then _ else _] => destruct b eqn:?
  | |- context [match ?s with EmptyString => _ | String _ _ => _ end] => destruct s
  end; simpl in *.

Lemma decode_rune_width c s :
  (1 <= (decode_rune (String c s)).2 <= String.length (String c s))%nat.
Proof. unfold decode_rune. decode_cases; lia. Qed.

(** The bytes after a rune do not influence it. *)
Lemma decode_rune_prefix s u :
  s <> "" -> ((decode_rune (s +:+ u)).2 <= String.length s)%nat ->
  decode_rune s = decode_rune (s +:+ u).
Proof.
  destruct s as [|c0 [|c1 [|c2 [|c3 s]]]]; [done|..]; intros _; simpl;
    destruct u as [|d0 [|d1 [|d2 u]]]; simpl; decode_cases; simpl; lia || congruence.
Qed.

(** ** Segments *)

Lemma unsegment_app l1 l2 : unsegment (l1 ++ l2) = unsegment l1 +:+ unsegment l2.
Proof.
  unfold unsegment. induction l1 as [|[r b] l1 IH]; simpl; [done|]. by rewrite IH, append_assoc.
Qed.

Lemma segments_fuel_S n c s :
  segments_fuel (S n) (String c s) =
    ((decode_rune (String c s)).1, str_take (decode_rune (String c s)).2 (String c s))
      :: segments_fuel n (str_drop (decode_rune (String c s)).2 (String c s)).
Proof.
  unfold segments_fuel at 1. fold segments_fuel. generalize (String c s). intros t.
  by destruct (decode_rune t) as [r k].
Qed.

Lemma drop_rune_shorter c s :
  (String.length (str_drop (decode_rune (String c s)).2 (String c s)) <= String.length s)%nat.
Proof.
  pose proof (decode_rune_width c s) as Hw. rewrite str_drop_length.
  change (String.length (String c s)) with (S (String.length s)) in *. lia.
Qed.

Lemma segments_fuel_irrel n s :
  (String.length s <= n)%nat -> segments_fuel n s = segments s.
Proof.
  unfold segments. assert (H : forall m n s, (String.length s <= n)%nat -> (String.length s <= m)%nat ->
    segments_fuel n s = segments_fuel m s).
  { clear. induction m as [|m IH]; intros [|n] [|c s] Hn Hm; try done; simpl in Hn, Hm; try lia.
    pose proof (drop_rune_shorter c s). rewrite !segments_fuel_S. f_equal. apply IH; lia. }
  intros. by apply H.
Qed.

Lemma segments_cons c s :
  segments (String c s) =
    ((decode_rune (String c s)).1, str_take (decode_rune (String c s)).2 (String c s))
      :: segments (str_drop (decode_rune (String c s)).2 (String c s)).
Proof.
  unfold segments at 1. change (String.length (String c s)) with (S (String.length s)).
  rewrite segments_fuel_S. f_equal.
  apply segments_fuel_irrel, drop_rune_shorter.
Qed.

Lemma segments_ind (P : string -> Prop) :
  P "" ->
  (forall c s, P (str_drop (decode_rune (String c s)).2 (String c s)) -> P (String c s)) ->
  forall s, P s.
Proof.
  intros H0 HS s. remember (String.length s) as n eqn:Hn. assert (Hle : (String.length s <= n)%nat) by lia.
  clear Hn. revert s Hle. induction n as [|n IH]; intros [|c s] Hle; simpl in Hle; [done|lia|done|].
  apply HS, IH. pose proof (drop_rune_shorter c s). lia.
Qed.

Lemma unsegment_segments s : unsegment (segments s) = s.
Proof.
  induction s as [|c s IH] using segments_ind; [done|].
  rewrite segments_cons.
  transitivity (str_take (decode_rune (String c s)).2 (String c s) +:+
    unsegment (segments (str_drop (decode_rune (String c s)).2 (String c s)))); [done|].
  by rewrite IH, str_take_drop.
Qed.

(** Cutting at a rune boundary keeps the runes on both sides. *)
Lemma segments_split s l1 l2 :
  segments s = l1 ++ l2 -> segments (unsegment l1) = l1 /\ segments (unsegment l2) = l2.
Proof.
  revert l1. induction s as [|c s IH] using segments_ind; intros l1 Hs.
  { symmetry in Hs. apply app_eq_nil in Hs as [-> ->]. done. }
  destruct l1 as [|seg l1]; simpl in Hs.
  { split; [done|]. by rewrite <- Hs, unsegment_segments. }
  pose proof (unsegment_segments (String c s)) as Hu. rewrite Hs in Hu.
  rewrite segments_cons in Hs. pose proof (decode_rune_width c s) as Hw.
  destruct (decode_rune (String c s)) as [r k] eqn:E. simpl in Hs, Hw. injection Hs as Hseg Hrest.
  cbn [snd] in IH. destruct (IH l1 Hrest) as [IH1 IH2]. split; [|done].
  assert (Hb : unsegment (seg :: l1) = str_take k (String c s) +:+ unsegment l1) by by rewrite <- Hseg.
  change (seg :: l1 ++ l2) with ((seg :: l1) ++ l2) in Hu. rewrite unsegment_app in Hu.
  set (b := str_take k (String c s)) in *.
  assert (Hlb : String.length b = k) by (apply str_take_length; simpl; lia).
  rewrite Hb. destruct (b +:+ unsegment l1) as [|c' s'] eqn:Hx.
  { pose proof (append_length b (unsegment l1)) as Hl. rewrite Hx in Hl. simpl in Hl. lia. }
  assert (Hd : decode_rune (String c' s') = (r, k)).
  { rewrite <- E, <- Hu, Hb. apply decode_rune_prefix; [done|].
    assert (Hl : String.length (String c' s') = (k + String.length (unsegment l1))%nat)
      by (rewrite <- Hx, append_length; lia).
    rewrite Hb in Hu. rewrite Hu, E. cbn [snd]. lia. }
  rewrite segments_cons, Hd. cbn [fst snd]. rewrite <- Hx, <- Hlb, str_take_app, str_drop_app, IH1.
  by rewrite <- Hseg.
Qed.

(** ** White space *)

Lemma drop_space_segs_suffix l : exists l1, l = l1 ++ drop_space_segs l.
Proof.
  induction l as [|[r b] l IH]; simpl; [by exists []|].
  destruct (is_space_rune r); [|by exists []]. destruct IH as [l1 H1]. exists ((r, b) :: l1).
  simpl. by rewrite <- H1.
Qed.

Lemma drop_space_segs_idem l : drop_space_segs (drop_space_segs l) = drop_space_segs l.
Proof.
  induction l as [|[r b] l IH]; simpl; [done|]. destruct (is_space_rune r) eqn:E; [done|].
  simpl. by rewrite E.
Qed.

Lemma drop_space_segs_prefix l m :
  drop_space_segs (l ++ m) = l ++ m -> l <> [] -> drop_space_segs l = l.
Proof.
  destruct l as [|[r b] l]; [done|]. simpl. destruct (is_space_rune r); [|done].
  intros H _. exfalso. destruct (drop_space_segs_suffix (l ++ m)) as [l1 Hl].
  rewrite H in Hl. apply (f_equal length) in Hl. rewrite !length_app in Hl. simpl in Hl.
  rewrite length_app in Hl. lia.
Qed.

Lemma trim_segs_infix l : exists l1 l2, l = l1 ++ trim_segs l ++ l2.
Proof.
  unfold trim_segs. destruct (drop_space_segs_suffix l) as [l1 H1].
  destruct (drop_space_segs_suffix (rev (drop_space_segs l))) as [l2 H2].
  apply (f_equal (@rev _)) in H2. rewrite rev_involutive, rev_app_distr in H2.
  exists l1, (rev l2). by rewrite <- H2.
Qed.

Lemma trim_segs_idem l : trim_segs (trim_segs l) = trim_segs l.
Proof.
  unfold trim_segs. set (d := drop_space_segs l).
  destruct (drop_space_segs_suffix (rev d)) as [l2 H2].
  apply (f_equal (@rev _)) in H2. rewrite rev_involutive, rev_app_distr in H2.
  set (t := rev (drop_space_segs (rev d))) in *.
  assert (Ht : drop_space_segs t = t).
  { destruct (decide (t = [])) as [->|Hne]; [done|]. apply (drop_space_segs_prefix t (rev l2)); [|done].
    rewrite <- H2. apply drop_space_segs_idem. }
  rewrite Ht. unfold t. by rewrite rev_involutive, drop_space_segs_idem.
Qed.

Lemma segments_trim s : segments (trim_space s) = trim_segs (segments s).
Proof.
  unfold trim_space. destruct (trim_segs_infix (segments s)) as (l1 & l2 & H).
  destruct (segments_split s l1 _ H) as [_ H2]. by apply (segments_split _ _ _ H2).
Qed.

Lemma trim_space_idem s : trim_space (trim_space s) = trim_space s.
Proof. unfold trim_space at 1. by rewrite segments_trim, trim_segs_idem, <- segments_trim, unsegment_segments. Qed.

#[export] Hint Rewrite trim_space_idem unsegment_segments : go_rw.

(** ** Bytes and substrings *)

Lemma str_all_app p (s t : string) : str_all p (s +:+ t) = str_all p s && str_all p t.
Proof. induction s as [|c s IH]; simpl; [done|]. by rewrite IH, andb_assoc. Qed.

Lemma str_all_unsegment p l : str_all p (unsegment l) = true -> Forall (fun seg => str_all p seg.2 = true) l.
Proof.
  induction l as [|seg l IH]; [constructor|]. unfold unsegment in *. simpl. rewrite str_all_app.
  intros [? ?]%andb_true_iff. constructor; auto.
Qed.

Lemma str_all_segments p s l1 l2 l3 :
  str_all p s = true -> segments s = l1 ++ l2 ++ l3 -> str_all p (unsegment l2) = true.
Proof.
  intros Hs Hl. rewrite <- (unsegment_segments s), Hl, !unsegment_app, !str_all_app in Hs. by go_bool.
Qed.

Lemma has_prefix_app p s : has_prefix (p +:+ s) p = true.
Proof. induction p as [|c p IH]; simpl; [by destruct s|]. by rewrite Ascii.eqb_refl. Qed.

Lemma has_prefix_spec s p : has_prefix s p = true <-> exists b, s = p +:+ b.
Proof.
  split; [|intros [b ->]; apply has_prefix_app]. revert s.
  induction p as [|c p IH]; intros s; simpl; [by exists s|]. destruct s as [|d s]; [done|].
  intros [Hc Hs]%andb_true_iff. apply Ascii.eqb_eq in Hc as ->. destruct (IH s Hs) as [b ->]. by exists b.
Qed.

Lemma contains_spec s sub : contains s sub = true <-> exists a b, s = a +:+ sub +:+ b.
Proof.
  split.
  - induction s as [|c s IH]; intros H; cbn [contains] in H; apply orb_true_iff in H as [H|H]; try done;
      try (apply has_prefix_spec in H as [b ->]; by exists "", b).
    destruct (IH H) as (a & b & ->). by exists (String c a), b.
  - intros (a & b & ->). induction a as [|c a IH].
    + change ("" +:+ sub +:+ b) with (sub +:+ b).
      destruct (sub +:+ b) eqn:E; cbn [contains]; rewrite <- E, has_prefix_app; done.
    + change (String c a +:+ sub +:+ b) with (String c (a +:+ sub +:+ b)). cbn [contains].
      by rewrite IH, orb_true_r.
Qed.

(** A byte below 128 is a rune of its own. *)
Lemma decode_rune_ascii c s : is_ascii_byte c = true -> decode_rune (String c s) = (byte_val c, 1%nat).
Proof. unfold is_ascii_byte, rune_self, decode_rune. by intros ->. Qed.

Lemma byte_val_range c : 0 <= byte_val c < 256.
Proof. unfold byte_val. pose proof (Ascii.N_ascii_bounded c). lia. Qed.

Lemma byte_of_val c : byte_of (byte_val c) = c.
Proof. unfold byte_of, byte_val. by rewrite N2Z.id, Ascii.ascii_N_embedding. Qed.

Lemma byte_val_of z : 0 <= z < 256 -> byte_val (byte_of z) = z.
Proof. intros ?. unfold byte_val, byte_of. rewrite Ascii.N_ascii_embedding; lia. Qed.
