(* ===== verification/GoParse.v ===== *)
(** * Parsing of the Go standard library that the code uses

    [strconv.ParseInt] in base 10, [strconv.ParseFloat] as far as its sign is
    asked for, and [time.Parse] with the layout [time.RFC3339]. *)

From Stdlib Require Import ZArith Lia.
From stdpp Require Import base list strings.
From S2P Require Import Prelude GoStrings.

Definition is_ascii_digit (c : Ascii.ascii) : bool := (48 <=? byte_val c) && (byte_val c <=? 57).
Definition digit_val (c : Ascii.ascii) : Z := byte_val c - 48.

(** The value of a string of digits; [None] on any other byte. *)
Fixpoint digits_from (acc : Z) (s : string) : option Z :=
  match s with
  | EmptyString => Some acc
  | String c s' => if is_ascii_digit c then digits_from (10 * acc + digit_val c) s' else None
  end.
Definition digits (s : string) : option Z := match s with EmptyString => None | _ => digits_from 0 s end.

(** [strconv.ParseInt(s, 10, bits)]: the value, 0 on a syntax error and the
    nearest bound on a range error, with whether there was no error. *)
Definition ParseInt (s : string) (bits : Z) : Z * bool :=
  let '(negative, rest) :=
    match s with
    | String c s' => if byte_val c =? 45 then (true, s') else if byte_val c =? 43 then (false, s') else (false, s)
    | _ => (false, s)
    end in
  match digits rest with
  | None => (0, false)
  | Some n =>
      let bound := 2 ^ (bits - 1) in
      if negative then if n <=? bound then (- n, true) else (- bound, false)
      else if n <? bound then (n, true) else (bound - 1, false)
  end.

(** ** Decimal numbers *)

(** The integer and the fractional digits of a number without exponent. *)
Fixpoint split_point (s : string) : string * option string :=
  match s with
  | EmptyString => (EmptyString, None)
  | String c s' =>
      if byte_val c =? 46 then (EmptyString, Some s')
      else let '(a, b) := split_point s' in (String c a, b)
  end.

(** [strconv.ParseFloat(s, 64)] of a token made of digits, [.] and [-]:
    [Some positive] when it is parsed without error.  The decimal value is
    [m / 10^k]; it overflows from [2^1024 - 2^970] on and rounds to zero up to
    [2^-1075]. *)
Definition ParseFloatSign (s : string) : option bool :=
  let '(negative, rest) :=
    match s with
    | String c s' => if byte_val c =? 45 then (true, s') else (false, s)
    | _ => (false, s)
    end in
  let '(whole, frac) := split_point rest in
  let all := whole +:+ default "" frac in
  match digits all with
  | None => None
  | Some m =>
      let scale := 10 ^ str_len (default "" frac) in
      if (2 ^ 1024 - 2 ^ 970) * scale <=? m then None
      else Some (negb negative && (scale <? m * 2 ^ 1075))
  end.

(** [strings.FieldsFunc] for a separator test on ASCII bytes. *)
Fixpoint fields_func (keep : Ascii.ascii -> bool) (s : string) (cur : string) : list string :=
  let flush := if cur == "" then [] else [cur] in
  match s with
  | EmptyString => flush
  | String c s' =>
      if keep c then fields_func keep s' (cur +:+ String c "")
      else flush ++ fields_func keep s' ""
  end.

(** ** RFC 3339 *)

(** [isDigit(s, 0)] and the two-digit numbers of the [time] package. *)
Definition getnum (s : string) (fixed : bool) : option (Z * string) :=
  match s with
  | String a s1 =>
      if is_ascii_digit a then
        match s1 with
        | String b s2 =>
            if is_ascii_digit b then Some (10 * digit_val a + digit_val b, s2)
            else if fixed then None else Some (digit_val a, s1)
        | EmptyString => if fixed then None else Some (digit_val a, s1)
        end
      else None
  | EmptyString => None
  end.

Definition literal (code : Z) (s : string) : option string :=
  match s with String c s' => if byte_val c =? code then Some s' else None | EmptyString => None end.

(** A number in a range, then a literal. *)
Definition field (s : string) (fixed : bool) (lo hi : Z) : option (Z * string) :=
  '(n, rest) ← getnum s fixed;
  if (lo <=? n) && (n <=? hi) then Some (n, rest) else None.

Definition leap (y : Z) : bool := (y mod 4 =? 0) && (negb (y mod 100 =? 0) || (y mod 400 =? 0)).
Definition days_in (m y : Z) : Z :=
  if m =? 2 then if leap y then 29 else 28
  else if (m =? 4) || (m =? 6) || (m =? 9) || (m =? 11) then 30 else 31.

(** Days from 0001-01-01 (proleptic Gregorian). *)
Definition days_from_civil (y m d : Z) : Z :=
  let y' := if m <=? 2 then y - 1 else y in
  let yoe := y' mod 400 in
  let doy := (153 * ((m + 9) mod 12) + 2) / 5 + d - 1 in
  y' / 400 * 146097 + (yoe * 365 + yoe / 4 - yoe / 100 + doy) - 306.

(** The optional fraction: digits after [.] or [,], the first nine kept. *)
Fixpoint take_digits (s : string) : string :=
  match s with
  | String c s' => if is_ascii_digit c then String c (take_digits s') else ""
  | EmptyString => ""
  end.
Definition fraction_of (s : string) : Z * string :=
  match s with
  | String c s' =>
      if (byte_val c =? 46) || (byte_val c =? 44) then
        match take_digits s' with
        | "" => (0, s)
        | ds =>
            let kept := str_take 9 ds in
            (default 0 (digits kept) * 10 ^ (9 - str_len kept), str_drop (String.length ds) s')
        end
      else (0, s)
  | EmptyString => (0, s)
  end.

(** The zone [Z], [+hh:mm] or [-hh:mm]: the offset in seconds. *)
Definition zone_of (s : string) : option (Z * string) :=
  match s with
  | String c s' =>
      if byte_val c =? 90 then Some (0, s')
      else if (byte_val c =? 43) || (byte_val c =? 45) then
        '(h, s1) ← field s' true 0 24;
        s2 ← literal 58 s1;
        '(m, s3) ← field s2 true 0 60;
        let off := (h * 60 + m) * 60 in
        Some (if byte_val c =? 45 then - off else off, s3)
      else None
  | EmptyString => None
  end.

(** [time.Parse(time.RFC3339, s)]. *)
Definition parseRFC3339 (s : string) : option time :=
  if (String.length s <? 4)%nat then None else
  y ← digits (str_take 4 s);
  s ← literal 45 (str_drop 4 s);
  '(mo, s) ← field s true 1 12;
  s ← literal 45 s;
  '(d, s) ← getnum s true;
  s ← literal 84 s;
  '(h, s) ← field s false 0 23;
  s ← literal 58 s;
  '(mi, s) ← field s true 0 59;
  s ← literal 58 s;
  '(se, s) ← field s true 0 59;
  let '(ns, s) := fraction_of s in
  '(off, s) ← zone_of s;
  if (s != "") || (d <? 1) || (days_in mo y <? d) then None
  else Some ((days_from_civil y mo d * 86400 + h * 3600 + mi * 60 + se - off) * second + ns).

(** ** Examples *)

Example parse_int_cases :
  map (fun s => ParseInt s 32) ["12"; "-7"; "+3"; ""; "1x"; "99999999999"; "-99999999999"] =
  [(12, true); (-7, true); (3, true); (0, false); (0, false); (2147483647, false); (-2147483648, false)].
Proof. reflexivity. Qed.

Example parse_float_cases :
  map ParseFloatSign ["1"; "0"; "-1"; "0.0"; "0.5"; ".5"; "5."; "."; "-"; "1.2.3"; "1-2"; ""] =
  [Some true; Some false; Some false; Some false; Some true; Some true; Some true; None; None; None; None; None].
Proof. vm_compute. reflexivity. Qed.

Example parse_time_cases :
  map parseRFC3339 ["0001-01-01T00:00:00Z"; "0001-01-02T01:00:00.5+01:00"; "2023-02-29T00:00:00Z"; "2024-13-01T00:00:00Z"]
  = [Some 0; Some (86400 * second + 500000000); None; None].
Proof. vm_compute. reflexivity. Qed.
