(* ===== verification/Float64.v ===== *)
(** * Go's float64

    [float64] values as the binary64 numbers of the Standard Library's
    executable specification of IEEE 754 ([SpecFloat], precision 53, maximal
    exponent 1024): conversion from an integer, division, multiplication,
    comparison and truncation to an integer, each rounded as the hardware
    rounds. *)

From Stdlib Require Import ZArith Lia Floats.SpecFloat.
From stdpp Require Import base decidable list strings.
From S2P Require Import Prelude.

Definition float64 : Type := spec_float.

#[export] Instance float64_eq_dec : EqDecision float64.
Proof. solve_decision. Defined.

Definition prec64 : Z := 53.
Definition emax64 : Z := 1024.

(** [float64(z)]. *)
Definition float_of_int (z : Z) : float64 := binary_normalize prec64 emax64 z 0 false.
Definition float_zero : float64 := float_of_int 0.
Definition float_div (a b : float64) : float64 := SFdiv prec64 emax64 a b.
Definition float_add (a b : float64) : float64 := SFadd prec64 emax64 a b.
Definition float_mul (a b : float64) : float64 := SFmul prec64 emax64 a b.
Definition float_gtb (a b : float64) : bool := SFltb b a.
Definition float_geb (a b : float64) : bool := SFleb b a.

(** [int(f)] for a finite [f] in range: the fraction is discarded. *)
Definition int_of_float (f : float64) : Z :=
  match f with
  | S754_finite sign m e =>
      let z := if 0 <=? e then Zpos m * 2 ^ e else Zpos m / 2 ^ (- e) in
      if sign then - z else z
  | _ => 0
  end.

Lemma float_gtb_irrefl (a : float64) : float_gtb a a = false.
Proof.
  unfold float_gtb, SFltb, SFcompare.
  destruct a as [s|s| |s m e]; [by destruct s..| |]; [done|].
  destruct s; rewrite Z.compare_refl; [|by rewrite Pos.compare_refl].
  by rewrite Pos.compare_refl.
Qed.

(** The smaller of two scores, as [if a > b { a = b }] computes it. *)
Definition float_cap (a b : float64) : float64 := if float_gtb a b then b else a.

Lemma float_cap_le a b : float_gtb (float_cap a b) b = false.
Proof. unfold float_cap. destruct (float_gtb a b) eqn:Hab; [apply float_gtb_irrefl | done]. Qed.
