(* ===== verification/Api.v ===== *)
(** * API types (api/v1alpha1) and domain types (internal/domain)

    The custom-resource structs the modelled components read and write, with the
    source's fields ([json] tags and the apimachinery [TypeMeta] aside).  A
    pointer field is an [option]; [*metav1.Time] is an optional instant;
    [map[string]string] is a [gmap]. *)

From stdpp Require Import base list strings gmap.
From S2P Require Import Prelude.

(** ** Object metadata (the fields of [metav1.ObjectMeta] the code uses) *)

Record OwnerReference := mkOwnerReference {
  or_Kind : string;
  or_Name : string;
  or_UID : string;
  or_Controller : option bool
}.

Record ObjectMeta := mkObjectMeta {
  om_Name : string;
  om_Namespace : string;
  om_UID : string;
  om_ResourceVersion : string;
  om_Generation : Z;
  om_Labels : gmap string string;
  om_Annotations : gmap string string;
  om_OwnerReferences : list OwnerReference
}.

(** [m[key]] on a [map[string]string]: the zero value when absent. *)
Definition map_get (m : gmap string string) (key : string) : string := default "" (m !! key).

(** ** Phases *)

Definition PhasePending : string := "Pending".
Definition PhaseObserved : string := "Observed".
Definition PhaseConfirmed : string := "Confirmed".
Definition PhaseNotified : string := "Notified".
Definition PhaseReadyForApproval : string := "ReadyForApproval".
Definition PhaseWaitingApproval : string := "WaitingApproval".
Definition PhaseApproved : string := "Approved".
Definition PhaseCollecting : string := "Collecting".
Definition PhaseReasoning : string := "Reasoning".
Definition PhaseExecuting : string := "Executing".
Definition PhaseSucceeded : string := "Succeeded".
Definition PhaseFailed : string := "Failed".
Definition PhaseRejected : string := "Rejected".
Definition PhaseCompleted : string := "Completed".
Definition PhaseEscalated : string := "Escalated".

Definition EffectivenessPhaseNotVerified : string := "NotVerified".
Definition EffectivenessPhaseVerifying : string := "Verifying".
Definition EffectivenessPhaseCompleted : string := "Completed".

Definition EffectivenessOutcomeEffective : string := "Effective".
Definition EffectivenessOutcomeIneffective : string := "Ineffective".
Definition EffectivenessOutcomeRegressed : string := "Regressed".
Definition EffectivenessOutcomeInconclusive : string := "Inconclusive".

(** ** Shared structs *)

Record TargetRef := mkTargetRef {
  tr_Cluster : string;
  tr_Namespace : string;
  tr_Kind : string;
  tr_Name : string;
  tr_APIVersion : string;
  tr_Service : string
}.

Record NamespacedObjectReference := mkNamespacedObjectReference {
  nor_Name : string;
  nor_Namespace : string
}.

Record DataClassification := mkDataClassification {
  dc_Level : string;
  dc_SensitivityTags : list string;
  dc_Source : string;
  dc_PolicyVersion : string
}.

Record PayloadRef := mkPayloadRef {
  pr_Scheme : string;
  pr_Digest : string;
  pr_Encrypted : bool;
  pr_ExpiresAt : option time;
  pr_RetentionClass : string
}.

Record EvidenceRef := mkEvidenceRef {
  er_ID : string;
  er_Kind : string;
  er_Source : string;
  er_Summary : string;
  er_Query : string;
  er_QueryDigest : string;
  er_ContentDigest : string;
  er_DigestAlgorithm : string;
  er_DigestCanonicalization : string;
  er_RedactionProfile : string;
  er_Classification : option DataClassification;
  er_Truncated : bool;
  er_TruncationReason : string;
  er_LimitDimension : string;
  er_Limit : Z;
  er_OriginalCount : Z;
  er_RetainedCount : Z;
  er_OriginalBytes : Z;
  er_RetainedBytes : Z;
  er_CollectedAt : option time;
  er_PayloadRef : option PayloadRef;
  er_Reason : string;
  er_Link : string;
  er_RelatedTargets : list TargetRef
}.

Record ResourceStatus := mkResourceStatus {
  rs_Phase : string;
  rs_Message : string;
  rs_ObservedGeneration : Z;
  rs_UpdatedAt : time
}.

#[export] Instance TargetRef_eq_dec : EqDecision TargetRef.
Proof. solve_decision. Defined.
#[export] Instance NamespacedObjectReference_eq_dec : EqDecision NamespacedObjectReference.
Proof. solve_decision. Defined.
#[export] Instance DataClassification_eq_dec : EqDecision DataClassification.
Proof. solve_decision. Defined.
#[export] Instance PayloadRef_eq_dec : EqDecision PayloadRef.
Proof. solve_decision. Defined.
#[export] Instance EvidenceRef_eq_dec : EqDecision EvidenceRef.
Proof. solve_decision. Defined.
#[export] Instance ResourceStatus_eq_dec : EqDecision ResourceStatus.
Proof. solve_decision. Defined.

(** An [EvidenceRef] literal that sets only these fields. *)
Definition evidence_ref (id kind source reason summary : string) : EvidenceRef :=
  mkEvidenceRef id kind source summary "" "" "" "" "" "" None false "" "" 0 0 0 0 0 None None reason "" [].

(** ** RemediationPlan *)

Record RemediationStep := mkRemediationStep {
  step_Name : string;
  step_ActionType : string;
  step_Description : string;
  step_Parameters : gmap string string
}.

Record RemediationPlanSpec := mkRemediationPlanSpec {
  ps_Target : TargetRef;
  ps_RecommendedBy : string;
  ps_Severity : string;
  ps_Confidence : Z;
  ps_DryRun : bool;
  ps_TTLSeconds : Z;
  ps_ApprovalTimeoutSeconds : Z;
  ps_Summary : string;
  ps_RollbackPlan : list string;
  ps_References : list string;
  ps_Steps : list RemediationStep
}.

Record RemediationPlanStatus := mkRemediationPlanStatus {
  pst_ResourceStatus : ResourceStatus;
  pst_FinishedAt : option time
}.

Record RemediationPlan := mkRemediationPlan {
  plan_Meta : ObjectMeta;
  plan_Spec : RemediationPlanSpec;
  plan_Status : RemediationPlanStatus
}.

Definition plan_Phase (p : RemediationPlan) : string := rs_Phase (pst_ResourceStatus (plan_Status p)).

(** ** AgentAction *)

Record AgentActionSpec := mkAgentActionSpec {
  as_Target : TargetRef;
  as_ActionType : string;
  as_Parameters : gmap string string;
  as_ApprovedBy : string;
  as_DryRunResult : string;
  as_TTLSeconds : Z;
  as_ApprovalTimeoutSeconds : Z;
  as_RollbackPlan : list string
}.

Record AgentActionApprovalStatus := mkApprovalStatus {
  ap_Approved : bool;
  ap_ApprovedBy : string;
  ap_Source : string;
  ap_ActionDigest : string;
  ap_ApprovedGeneration : Z;
  ap_ApprovedAt : option time;
  ap_EscalatedAt : option time;
  ap_DecidedAt : option time;
  ap_DecidedBy : string
}.

Record AgentActionNotificationStatus := mkNotificationStatus {
  nt_LastAttemptAt : option time;
  nt_RetryCount : Z;
  nt_LastError : string
}.

Record AgentActionDryRunStatus := mkDryRunStatus {
  dr_Result : string;
  dr_RecordedAt : option time
}.

Record AgentActionExecutionStatus := mkExecutionStatus {
  ex_Phase : string;
  ex_Outcome : string;
  ex_ExecutionID : string;
  ex_IdempotencyKey : string;
  ex_Attempt : Z;
  ex_FailureReason : string;
  ex_Executor : string;
  ex_Summary : string;
  ex_StartedAt : option time;
  ex_FinishedAt : option time;
  ex_ExternalRef : string;
  ex_Retryable : bool
}.

Record HealthCondition := mkHealthCondition {
  hc_Type : string;
  hc_Status : string;
  hc_Reason : string;
  hc_Message : string
}.

(** [EffectivenessHealthSnapshot] of the API and [HealthSnapshot] of the executor
    have the same fields; the conversions between them are the identity on them. *)
Record HealthSnapshot := mkHealthSnapshot {
  hs_Generation : Z;
  hs_ObservedGeneration : Z;
  hs_DesiredReplicas : Z;
  hs_UpdatedReplicas : Z;
  hs_AvailableReplicas : Z;
  hs_ReadyReplicas : Z;
  hs_Conditions : list HealthCondition
}.

Record EffectivenessBaseline := mkEffectivenessBaseline {
  eb_CapturedAt : option time;
  eb_Target : TargetRef;
  eb_TargetUID : string;
  eb_RiskSignalRef : option NamespacedObjectReference;
  eb_EvidenceRefs : list EvidenceRef;
  eb_Health : option HealthSnapshot;
  eb_Digest : string;
  eb_UnavailableReason : string
}.

Record AgentActionEffectivenessStatus := mkEffectivenessStatus {
  ef_Phase : string;
  ef_Outcome : string;
  ef_Message : string;
  ef_VerificationRef : option NamespacedObjectReference;
  ef_Baseline : option EffectivenessBaseline;
  ef_PostActionHealth : option HealthSnapshot;
  ef_StartedAt : option time;
  ef_FinishedAt : option time;
  ef_SettlingUntil : option time;
  ef_ObservationUntil : option time
}.

Record AgentActionStatus := mkAgentActionStatus {
  st_ResourceStatus : ResourceStatus;
  st_FinishedAt : option time;
  st_Approval : option AgentActionApprovalStatus;
  st_Notification : option AgentActionNotificationStatus;
  st_DryRunResult : option AgentActionDryRunStatus;
  st_Execution : option AgentActionExecutionStatus;
  st_Effectiveness : option AgentActionEffectivenessStatus
}.

Record AgentAction := mkAgentAction {
  act_Meta : ObjectMeta;
  act_Spec : AgentActionSpec;
  act_Status : AgentActionStatus
}.

#[export] Instance HealthCondition_eq_dec : EqDecision HealthCondition.
Proof. solve_decision. Defined.
#[export] Instance HealthSnapshot_eq_dec : EqDecision HealthSnapshot.
Proof. solve_decision. Defined.
#[export] Instance EffectivenessBaseline_eq_dec : EqDecision EffectivenessBaseline.
Proof. solve_decision. Defined.
#[export] Instance ApprovalStatus_eq_dec : EqDecision AgentActionApprovalStatus.
Proof. solve_decision. Defined.
#[export] Instance NotificationStatus_eq_dec : EqDecision AgentActionNotificationStatus.
Proof. solve_decision. Defined.
#[export] Instance DryRunStatus_eq_dec : EqDecision AgentActionDryRunStatus.
Proof. solve_decision. Defined.
#[export] Instance ExecutionStatus_eq_dec : EqDecision AgentActionExecutionStatus.
Proof. solve_decision. Defined.
#[export] Instance EffectivenessStatus_eq_dec : EqDecision AgentActionEffectivenessStatus.
Proof. solve_decision. Defined.
#[export] Instance AgentActionStatus_eq_dec : EqDecision AgentActionStatus.
Proof. solve_decision. Defined.
#[export] Instance AgentActionSpec_eq_dec : EqDecision AgentActionSpec.
Proof. solve_decision. Defined.

Definition act_Phase (a : AgentAction) : string := rs_Phase (st_ResourceStatus (act_Status a)).

(** Field updates of the action status (the assignments [action.Status.X = v]). *)
Definition set_status (a : AgentAction) (s : AgentActionStatus) : AgentAction :=
  mkAgentAction (act_Meta a) (act_Spec a) s.
Definition with_resource_status (s : AgentActionStatus) (r : ResourceStatus) : AgentActionStatus :=
  mkAgentActionStatus r (st_FinishedAt s) (st_Approval s) (st_Notification s) (st_DryRunResult s)
    (st_Execution s) (st_Effectiveness s).
Definition with_finished_at (s : AgentActionStatus) (t : option time) : AgentActionStatus :=
  mkAgentActionStatus (st_ResourceStatus s) t (st_Approval s) (st_Notification s) (st_DryRunResult s)
    (st_Execution s) (st_Effectiveness s).
Definition with_approval (s : AgentActionStatus) (a : option AgentActionApprovalStatus) : AgentActionStatus :=
  mkAgentActionStatus (st_ResourceStatus s) (st_FinishedAt s) a (st_Notification s) (st_DryRunResult s)
    (st_Execution s) (st_Effectiveness s).
Definition with_notification (s : AgentActionStatus) (n : option AgentActionNotificationStatus) : AgentActionStatus :=
  mkAgentActionStatus (st_ResourceStatus s) (st_FinishedAt s) (st_Approval s) n (st_DryRunResult s)
    (st_Execution s) (st_Effectiveness s).
Definition with_dry_run (s : AgentActionStatus) (d : option AgentActionDryRunStatus) : AgentActionStatus :=
  mkAgentActionStatus (st_ResourceStatus s) (st_FinishedAt s) (st_Approval s) (st_Notification s) d
    (st_Execution s) (st_Effectiveness s).
Definition with_execution (s : AgentActionStatus) (e : option AgentActionExecutionStatus) : AgentActionStatus :=
  mkAgentActionStatus (st_ResourceStatus s) (st_FinishedAt s) (st_Approval s) (st_Notification s)
    (st_DryRunResult s) e (st_Effectiveness s).
Definition with_effectiveness (s : AgentActionStatus) (e : option AgentActionEffectivenessStatus) : AgentActionStatus :=
  mkAgentActionStatus (st_ResourceStatus s) (st_FinishedAt s) (st_Approval s) (st_Notification s)
    (st_DryRunResult s) (st_Execution s) e.

(** ** Policy resources *)

Record ActionTypeRule := mkActionTypeRule {
  atr_ActionType : string;
  atr_Action : string;
  atr_Reason : string
}.

Record SeverityRule := mkSeverityRule {
  sr_MinSeverity : string;
  sr_MaxSeverity : string;
  sr_Action : string;
  sr_Reason : string;
  sr_TimeoutSec : Z
}.

Record EscalationRule := mkEscalationRule {
  esr_Trigger : string;
  esr_Condition : Z;
  esr_Action : string;
  esr_Targets : list string;
  esr_NotificationTemplate : string
}.

Record NotificationChannel := mkNotificationChannel {
  nc_Type : string;
  nc_URL : string;
  nc_Headers : gmap string string;
  nc_SlackTeams : list string;
  nc_EmailAddresses : list string;
  nc_PagerDutyKey : string;
  nc_Enabled : bool
}.

Record EscalationConfig := mkEscalationConfig {
  ec_EscalationChainRef : string;
  ec_Rules : list EscalationRule;
  ec_NotificationChannels : list NotificationChannel
}.

(** The label selector of a spec is apimachinery data that the code only hands
    to [metav1.LabelSelectorAsSelector]; [Sel] is its type. *)
Record ApprovalPolicySpec (Sel : Type) := mkApprovalPolicySpec {
  aps_Scope : string;
  aps_ResourceSelector : option Sel;
  aps_NamespaceSelector : option Sel;
  aps_ActionTypeRules : list ActionTypeRule;
  aps_SeverityRules : list SeverityRule;
  aps_DefaultApprovalTimeout : Z;
  aps_Escalation : option EscalationConfig;
  aps_Priority : Z;
  aps_Enabled : bool
}.
Arguments mkApprovalPolicySpec {Sel}.
Arguments aps_Scope {Sel}. Arguments aps_ResourceSelector {Sel}.
Arguments aps_NamespaceSelector {Sel}. Arguments aps_ActionTypeRules {Sel}.
Arguments aps_SeverityRules {Sel}. Arguments aps_DefaultApprovalTimeout {Sel}.
Arguments aps_Escalation {Sel}. Arguments aps_Priority {Sel}. Arguments aps_Enabled {Sel}.

Record ApprovalPolicy (Sel : Type) := mkApprovalPolicy {
  apol_Meta : ObjectMeta;
  apol_Spec : ApprovalPolicySpec Sel;
  apol_StatusPhase : string
}.
Arguments mkApprovalPolicy {Sel}.
Arguments apol_Meta {Sel}. Arguments apol_Spec {Sel}. Arguments apol_StatusPhase {Sel}.

Record NamespaceThresholdSpec (Sel : Type) := mkNamespaceThresholdSpec {
  nts_NamespaceSelector : option Sel;
  nts_ActivePlansLimit : Z;
  nts_PendingApprovalsLimit : Z;
  nts_DefaultTTLSeconds : Z;
  nts_DefaultApprovalTimeoutSeconds : Z;
  nts_ProtectionLevel : string;
  nts_Priority : Z;
  nts_Enabled : bool
}.
Arguments mkNamespaceThresholdSpec {Sel}.
Arguments nts_NamespaceSelector {Sel}. Arguments nts_ActivePlansLimit {Sel}.
Arguments nts_PendingApprovalsLimit {Sel}. Arguments nts_DefaultTTLSeconds {Sel}.
Arguments nts_DefaultApprovalTimeoutSeconds {Sel}. Arguments nts_ProtectionLevel {Sel}.
Arguments nts_Priority {Sel}. Arguments nts_Enabled {Sel}.

Record NamespaceThreshold (Sel : Type) := mkNamespaceThreshold {
  nth_Meta : ObjectMeta;
  nth_Spec : NamespaceThresholdSpec Sel;
  nth_StatusPhase : string
}.
Arguments mkNamespaceThreshold {Sel}.
Arguments nth_Meta {Sel}. Arguments nth_Spec {Sel}. Arguments nth_StatusPhase {Sel}.

Record EscalationStage := mkEscalationStage {
  es_Name : string;
  es_Delay : Z;
  es_NotificationTemplate : string;
  es_Timeout : Z
}.

Record EscalationChain (Sel : Type) := mkEscalationChain {
  ech_Meta : ObjectMeta;
  ech_ResourceSelector : option Sel;
  ech_Priority : Z;
  ech_Stages : list EscalationStage;
  ech_Enabled : bool;
  ech_StatusPhase : string
}.
Arguments mkEscalationChain {Sel}.
Arguments ech_Meta {Sel}. Arguments ech_ResourceSelector {Sel}. Arguments ech_Priority {Sel}.
Arguments ech_Stages {Sel}. Arguments ech_Enabled {Sel}. Arguments ech_StatusPhase {Sel}.

(** The apimachinery label-selector semantics, a parameter of the policy
    components: conversion may fail, the converted selector tests a label set. *)
Class LabelSelectors := {
  selector : Type;
  LabelSelectorAsSelector : selector -> result (gmap string string -> bool)
}.

(** ** Domain types (internal/domain/types.go) *)

Definition SeverityLow : string := "low".
Definition SeverityMedium : string := "medium".
Definition SeverityHigh : string := "high".
Definition SeverityUnsafe : string := "unsafe".

Record ResourceRef := mkResourceRef {
  rr_Cluster : string;
  rr_Namespace : string;
  rr_Kind : string;
  rr_Name : string;
  rr_APIVersion : string;
  rr_Service : string
}.

#[export] Instance ResourceRef_eq_dec : EqDecision ResourceRef.
Proof. solve_decision. Defined.

Record Remediation := mkRemediation {
  rem_ActionType : string;
  rem_Description : string;
  rem_Parameters : gmap string string;
  rem_RollbackPlan : list string
}.

Record Confidence := mkConfidence {
  cf_Score : Z;
  cf_Severity : string;
  cf_Rationale : string;
  cf_EvidenceCoverage : string
}.

Record RCASummary := mkRCASummary {
  rs_Hypothesis : string;
  rs_Causes : list string;
  rs_Evidence : list string
}.

Record ReasoningOutput := mkReasoningOutput {
  ro_RiskTitle : string;
  ro_RiskSummary : string;
  ro_Severity : string;
  ro_Confidence : Confidence;
  ro_RCA : RCASummary;
  ro_Remediation : Remediation;
  ro_RunbookRefs : list string;
  ro_ServiceDocs : list string;
  ro_Provider : string;
  ro_ProviderRequestID : string;
  ro_InputTokens : Z;
  ro_OutputTokens : Z
}.

(** A [ReasoningOutput] literal that sets only these fields. *)
Definition reasoning_output (severity : string) (remediation : Remediation) : ReasoningOutput :=
  mkReasoningOutput "" "" severity (mkConfidence 0 "" "" "") (mkRCASummary "" [] []) remediation [] [] "" "" 0 0.

Inductive ApprovalAction := ApprovalAuto | ApprovalManual | ApprovalReject.

#[export] Instance ApprovalAction_eq_dec : EqDecision ApprovalAction.
Proof. solve_decision. Defined.

Record ApprovalDecision := mkApprovalDecision {
  ad_Action : ApprovalAction;
  ad_ApprovedBy : string;
  ad_Reason : string;
  ad_DryRunResult : string
}.

#[export] Instance ApprovalDecision_eq_dec : EqDecision ApprovalDecision.
Proof. solve_decision. Defined.

Definition ExecutionOutcomeSucceeded : string := "Succeeded".
Definition ExecutionOutcomeFailed : string := "Failed".
Definition ExecutionOutcomeUnknown : string := "Unknown".

Record ExecutionResult := mkExecutionResult {
  xr_ExecutionID : string;
  xr_Outcome : string;
  xr_FailureReason : string;
  xr_StartedAt : time;
  xr_FinishedAt : time;
  xr_ExternalRef : string;
  xr_Retryable : bool;
  xr_Executor : string;
  xr_Status : string;
  xr_Summary : string;
  xr_Outputs : gmap string string
}.

(** ** Concrete instances, for evaluation on examples *)

(** Selectors that are label sets, matching every superset; none is malformed. *)
Definition label_subset : LabelSelectors := {|
  selector := gmap string string;
  LabelSelectorAsSelector s := Ok (fun labels => bool_decide (s ⊆ labels))
|}.

Definition sample_meta (namespace name : string) : ObjectMeta :=
  mkObjectMeta name namespace ("uid-" +:+ name) "v0" 1 ∅ ∅ [].

Definition sample_target : TargetRef := mkTargetRef "" "prod" "Deployment" "web" "apps/v1" "".
