(* ===== verification/InvestigationApi.v ===== *)
(** * InvestigationRequest and RiskSignal resources

    The custom resources of the investigation pipeline
    (api/v1alpha1/investigationrequest_types.go and types.go), with the source's
    fields, and the condition list of their statuses. *)

From Stdlib Require Import ZArith.
From stdpp Require Import base list strings gmap.
From coqutil Require Export Datatypes.RecordSetters.
From S2P Require Import Prelude Float64 Api.
Export TriangleBracketNotations.

(** ** Constants *)

Definition InvestigationOutcomeUnknown : string := "Unknown".
Definition InvestigationOutcomeConfirmed : string := "Confirmed".
Definition InvestigationOutcomeInconclusive : string := "Inconclusive".
Definition InvestigationOutcomeNoIssueFound : string := "NoIssueFound".

Definition InvestigationModeReadOnly : string := "readOnly".
Definition InvestigationPurposeEffectivenessVerification : string := "effectivenessVerification".

Definition EvidenceRetentionModeMetadataOnly : string := "MetadataOnly".
Definition EvidenceRetentionModeNormalizedSnapshot : string := "NormalizedSnapshot".
Definition EvidenceRetentionModeRawSnapshot : string := "RawSnapshot".
Definition QueryRetentionModeDigestOnly : string := "DigestOnly".
Definition QueryRetentionModeRedacted : string := "Redacted".
Definition QueryRetentionModeFull : string := "Full".
Definition EvidenceRetentionDeletionPolicyRetain : string := "Retain".
Definition EvidenceRetentionDeletionPolicyDelete : string := "Delete".

Definition InvestigationStageValidation : string := "Validation".
Definition InvestigationStageTargetResolution : string := "TargetResolution".
Definition InvestigationStageEvidenceCollection : string := "EvidenceCollection".
Definition InvestigationStageReasoning : string := "Reasoning".
Definition InvestigationStagePersistence : string := "Persistence".

(** ** Spec *)

Record InvestigationCorrelation := mkInvestigationCorrelation {
  corr_AgentActionRef : NamespacedObjectReference;
  corr_ExecutionID : string;
  corr_BaselineDigest : string
}.

(** A [LocalObjectReference] is its name. *)
Record InvestigationQuery := mkInvestigationQuery {
  iq_Name : string;
  iq_DatasourceRef : string;
  iq_QueryType : string;
  iq_Query : string;
  iq_QueryTemplate : string;
  iq_Reasons : list string
}.

Record EvidenceRetentionPolicy := mkEvidenceRetentionPolicy {
  rp_Mode : string;
  rp_Retention : duration;
  rp_StorageRef : string;
  rp_EncryptionRequired : bool;
  rp_DeletionPolicy : string;
  rp_NamespaceScoped : bool
}.

Record QueryResultLimits := mkQueryResultLimits {
  ql_MetricsMaxSeries : Z;
  ql_MetricsMaxSamples : Z;
  ql_LogsMaxStreams : Z;
  ql_LogsMaxEntries : Z;
  ql_LogsMaxLines : Z;
  ql_EventsMaxRecords : Z
}.

Record InvestigationQueryBudget := mkInvestigationQueryBudget {
  qb_MaxTimeRange : duration;
  qb_MaxQueriesTotal : Z;
  qb_MaxQueriesPerSource : Z;
  qb_MaxConcurrentQueries : Z;
  qb_MaxCumulativeDuration : duration;
  qb_MaxCumulativeResponseBytes : Z;
  qb_ResultLimits : QueryResultLimits
}.

Record InvestigationLoopPolicy := mkInvestigationLoopPolicy {
  lp_MaxDepth : Z;
  lp_AllowRiskSignalSource : bool
}.

Record InvestigationRequestSpec := mkInvestigationRequestSpec {
  irs_Target : TargetRef;
  irs_Purpose : string;
  irs_Correlation : option InvestigationCorrelation;
  irs_Lookback : duration;
  irs_Question : string;
  irs_DataSources : list string;
  irs_Queries : list InvestigationQuery;
  irs_ModelProviderRef : string;
  irs_Mode : string;
  irs_CreateRiskSignal : bool;
  irs_EvidenceProfile : string;
  irs_EvidenceRetention : EvidenceRetentionPolicy;
  irs_QueryRetention : string;
  irs_QueryBudget : InvestigationQueryBudget;
  irs_LoopPolicy : InvestigationLoopPolicy;
  irs_TTLSeconds : Z
}.

Definition zeroRetention : EvidenceRetentionPolicy := mkEvidenceRetentionPolicy "" 0 "" false "" false.
Definition zeroResultLimits : QueryResultLimits := mkQueryResultLimits 0 0 0 0 0 0.
Definition zeroBudget : InvestigationQueryBudget := mkInvestigationQueryBudget 0 0 0 0 0 0 zeroResultLimits.

(** A spec literal that sets only these fields. *)
Definition investigation_spec (target : TargetRef) (purpose : string) (correlation : option InvestigationCorrelation)
    (lookback : duration) (question : string) (queries : list InvestigationQuery) (mode : string)
    (createRiskSignal : bool) (profile : string) : InvestigationRequestSpec :=
  mkInvestigationRequestSpec target purpose correlation lookback question [] queries "" mode createRiskSignal profile
    zeroRetention "" zeroBudget (mkInvestigationLoopPolicy 0 false) 0.

(** ** Status *)

Record RCAConfidence := mkRCAConfidence {
  rcf_ProviderScore : float64;
  rcf_VerifiedScore : float64;
  rcf_Level : string;
  rcf_Method : string
}.

Record RCAVerdict := mkRCAVerdict {
  vd_Outcome : string;
  vd_Summary : string;
  vd_RootCauseEntity : TargetRef;
  vd_RootCauseType : string;
  vd_Confidence : float64;
  vd_ConfidenceDetail : option RCAConfidence
}.

Record RCAEvidenceCoverage := mkRCAEvidenceCoverage {
  ecv_Profile : string;
  ecv_RequiredChecks : list string;
  ecv_CompletedChecks : list string;
  ecv_IncompleteChecks : list string;
  ecv_IssueMatches : Z
}.

Record RCAEvidenceLink := mkRCAEvidenceLink { rel_EvidenceRef : string; rel_Role : string; rel_Strength : string }.

Record RCAClaim := mkRCAClaim {
  rc_ID : string;
  rc_Statement : string;
  rc_EvidenceRefs : list string;
  rc_EvidenceLinks : list RCAEvidenceLink;
  rc_Verification : string
}.

Record RCAAlternativeHypothesis := mkRCAAlternativeHypothesis {
  ah_Statement : string;
  ah_Disposition : string;
  ah_EvidenceRefs : list string
}.

Record RCAMissingEvidence := mkRCAMissingEvidence { me_Source : string; me_Reason : string }.

Record InvestigationFailure := mkInvestigationFailure {
  if_Code : string;
  if_Message : string;
  if_Stage : string;
  if_Retryable : bool
}.

Record RCADegradationReason := mkRCADegradationReason {
  dr_Code : string;
  dr_Stage : string;
  dr_SourceRef : option NamespacedObjectReference;
  dr_Message : string
}.

Record RCADegradation := mkRCADegradation {
  dg_Partial : bool;
  dg_UnavailableSources : list string;
  dg_Reasons : list RCADegradationReason
}.

Record RCAExecutionAttempt := mkRCAExecutionAttempt {
  xa_ID : string;
  xa_ProviderRequestID : string;
  xa_IdempotencyKey : string;
  xa_RetryReason : string;
  xa_Result : string;
  xa_StartedAt : option time;
  xa_CompletedAt : option time
}.

Record RCADigest := mkRCADigest { rdg_Algorithm : string; rdg_Canonicalization : string; rdg_Value : string }.

Record RCANormalizedResult := mkRCANormalizedResult {
  nr_RiskTitle : string;
  nr_RiskSummary : string;
  nr_Severity : string;
  nr_ConfidenceScore : Z;
  nr_ConfidenceReason : string;
  nr_EvidenceCoverage : string;
  nr_RCAHypothesis : string;
  nr_RCACauses : list string;
  nr_RCAEvidence : list string;
  nr_ActionType : string;
  nr_ActionDescription : string;
  nr_ActionParameters : gmap string string;
  nr_RollbackPlan : list string;
  nr_RunbookRefs : list string;
  nr_ServiceDocs : list string;
  nr_Provider : string
}.

Record RCAProviderResult := mkRCAProviderResult {
  prs_SchemaVersion : string;
  prs_ProviderRequestID : string;
  prs_Digest : option RCADigest;
  prs_Classification : option DataClassification;
  prs_NormalizedResult : option RCANormalizedResult
}.

Record ProviderEgressAudit := mkProviderEgressAudit {
  ea_Decision : string;
  ea_Reason : string;
  ea_ProviderType : string;
  ea_EvidenceBundleDigest : string;
  ea_EvidenceKinds : list string;
  ea_SensitivityTagsSent : list string;
  ea_LogSamplesIncluded : bool;
  ea_MaximumClassificationObserved : string;
  ea_MaximumClassificationAllowed : string;
  ea_MaximumClassificationSent : string;
  ea_ClassificationPolicyVersion : string
}.

Record ProviderEgressAttempt := mkProviderEgressAttempt {
  pea_Ordinal : Z;
  pea_ProviderRef : option NamespacedObjectReference;
  pea_ProviderGeneration : Z;
  pea_ProviderType : string;
  pea_Decision : string;
  pea_Result : string;
  pea_Reason : string;
  pea_EvidenceBundleDigest : string;
  pea_EvidenceKinds : list string;
  pea_SensitivityTagsSent : list string;
  pea_LogSamplesIncluded : bool;
  pea_MaximumClassificationObserved : string;
  pea_MaximumClassificationAllowed : string;
  pea_MaximumClassificationSent : string;
  pea_ClassificationPolicyVersion : string
}.

Record RCAExecution := mkRCAExecution {
  rx_ID : string;
  rx_State : string;
  rx_Provider : string;
  rx_ProviderRef : option NamespacedObjectReference;
  rx_ProviderGeneration : Z;
  rx_ProviderType : string;
  rx_Model : string;
  rx_RCASchemaVersion : string;
  rx_CanonicalizationVersion : string;
  rx_ReasoningPolicyVersion : string;
  rx_VerifierVersion : string;
  rx_EgressAudit : option ProviderEgressAudit;
  rx_EgressAttempts : list ProviderEgressAttempt;
  rx_ControllerVersion : string;
  rx_AttemptCount : Z;
  rx_Attempts : list RCAExecutionAttempt;
  rx_DurationSeconds : Z;
  rx_InputTokens : Z;
  rx_OutputTokens : Z;
  rx_ProviderResult : option RCAProviderResult
}.

Record InvestigationLineageSource := mkInvestigationLineageSource {
  ls_APIVersion : string;
  ls_Kind : string;
  ls_Namespace : string;
  ls_Name : string;
  ls_UID : string;
  ls_Generation : Z
}.

Record FindingIdentity := mkFindingIdentity {
  fi_SchemaVersion : string;
  fi_ObjectFindingIdentity : string;
  fi_LogicalFindingIdentity : string;
  fi_IncidentOccurrence : string;
  fi_FindingType : string;
  fi_TargetGeneration : Z;
  fi_WindowBucket : string
}.

Record InvestigationLineage := mkInvestigationLineage {
  ln_Source : InvestigationLineageSource;
  ln_TargetUID : string;
  ln_FindingFingerprint : string;
  ln_FindingIdentity : option FindingIdentity;
  ln_InvestigationDepth : Z
}.

(** [metav1.Condition]; its status is ["True"], ["False"] or ["Unknown"]. *)
Record Condition := mkCondition {
  cond_Type : string;
  cond_Status : string;
  cond_Reason : string;
  cond_Message : string;
  cond_ObservedGeneration : Z;
  cond_LastTransitionTime : time
}.

Definition ConditionTrue : string := "True".
Definition ConditionFalse : string := "False".
Definition ConditionUnknown : string := "Unknown".

Record InvestigationRequestStatus := mkInvestigationRequestStatus {
  ist_ResourceStatus : ResourceStatus;
  ist_Outcome : string;
  ist_Failure : option InvestigationFailure;
  ist_Summary : string;
  ist_Hypothesis : string;
  ist_Confidence : float64;
  ist_Provider : string;
  ist_Verdict : option RCAVerdict;
  ist_EvidenceCoverage : option RCAEvidenceCoverage;
  ist_Claims : list RCAClaim;
  ist_AlternativeHypotheses : list RCAAlternativeHypothesis;
  ist_MissingEvidence : list RCAMissingEvidence;
  ist_Degradation : option RCADegradation;
  ist_Execution : option RCAExecution;
  ist_StartedAt : option time;
  ist_CompletedAt : option time;
  ist_EvidenceRefs : list EvidenceRef;
  ist_Lineage : option InvestigationLineage;
  ist_LinkedRiskSignalRef : option NamespacedObjectReference;
  ist_Conditions : list Condition
}.

(** The two timestamps of [metadata] that only this resource's handlers read
    stand beside it; a zero [DeletionTimestamp] is [None]. *)
Record InvestigationRequest := mkInvestigationRequest {
  ir_Meta : ObjectMeta;
  ir_CreationTimestamp : time;
  ir_DeletionTimestamp : option time;
  ir_Spec : InvestigationRequestSpec;
  ir_Status : InvestigationRequestStatus
}.

Definition ir_Phase (r : InvestigationRequest) : string := rs_Phase (ist_ResourceStatus (ir_Status r)).
Definition ir_Outcome (r : InvestigationRequest) : string := ist_Outcome (ir_Status r).

Definition zeroResourceStatus : ResourceStatus := mkResourceStatus "" "" 0 0.
Definition zeroInvestigationStatus : InvestigationRequestStatus :=
  mkInvestigationRequestStatus zeroResourceStatus "" None "" "" float_zero "" None None [] [] [] None None
    None None [] None None [].

(** ** RiskSignal *)

Record RCACause := mkRCACause { cause_Cause : string; cause_Confidence : Z }.

Record RiskSignalRCAProjectionStatus := mkProjectionStatus {
  pj_Mode : string;
  pj_ProjectedFrom : option NamespacedObjectReference;
  pj_CompatibilityPath : bool;
  pj_Message : string
}.

Record RiskSignalStatus := mkRiskSignalStatus {
  rst_ResourceStatus : ResourceStatus;
  rst_RCASummary : string;
  rst_RCAHypothesis : string;
  rst_RCAProvider : string;
  rst_RCACauses : list RCACause;
  rst_Projection : option RiskSignalRCAProjectionStatus;
  rst_Conditions : list Condition
}.

Record RiskSignalSpec := mkRiskSignalSpec {
  rss_Target : TargetRef;
  rss_SignalType : string;
  rss_FindingIdentity : option FindingIdentity;
  rss_InvestigationRef : option NamespacedObjectReference;
  rss_ActionType : string;
  rss_Severity : string;
  rss_Confidence : Z;
  rss_DryRun : bool;
  rss_TTLSeconds : Z;
  rss_Evidence : list EvidenceRef;
  rss_Parameters : gmap string string;
  rss_ApprovalTimeoutSeconds : Z
}.

Record RiskSignal := mkRiskSignal {
  rsk_Meta : ObjectMeta;
  rsk_Spec : RiskSignalSpec;
  rsk_Status : RiskSignalStatus
}.

(** ** Decidable equality of the statuses *)

#[export] Instance RCAConfidence_eq_dec : EqDecision RCAConfidence.
Proof. solve_decision. Defined.
#[export] Instance RCAVerdict_eq_dec : EqDecision RCAVerdict.
Proof. solve_decision. Defined.
#[export] Instance RCAEvidenceCoverage_eq_dec : EqDecision RCAEvidenceCoverage.
Proof. solve_decision. Defined.
#[export] Instance RCAEvidenceLink_eq_dec : EqDecision RCAEvidenceLink.
Proof. solve_decision. Defined.
#[export] Instance RCAClaim_eq_dec : EqDecision RCAClaim.
Proof. solve_decision. Defined.
#[export] Instance RCAAlternativeHypothesis_eq_dec : EqDecision RCAAlternativeHypothesis.
Proof. solve_decision. Defined.
#[export] Instance RCAMissingEvidence_eq_dec : EqDecision RCAMissingEvidence.
Proof. solve_decision. Defined.
#[export] Instance InvestigationFailure_eq_dec : EqDecision InvestigationFailure.
Proof. solve_decision. Defined.
#[export] Instance RCADegradationReason_eq_dec : EqDecision RCADegradationReason.
Proof. solve_decision. Defined.
#[export] Instance RCADegradation_eq_dec : EqDecision RCADegradation.
Proof. solve_decision. Defined.
#[export] Instance RCAExecutionAttempt_eq_dec : EqDecision RCAExecutionAttempt.
Proof. solve_decision. Defined.
#[export] Instance RCADigest_eq_dec : EqDecision RCADigest.
Proof. solve_decision. Defined.
#[export] Instance RCANormalizedResult_eq_dec : EqDecision RCANormalizedResult.
Proof. solve_decision. Defined.
#[export] Instance RCAProviderResult_eq_dec : EqDecision RCAProviderResult.
Proof. solve_decision. Defined.
#[export] Instance ProviderEgressAudit_eq_dec : EqDecision ProviderEgressAudit.
Proof. solve_decision. Defined.
#[export] Instance ProviderEgressAttempt_eq_dec : EqDecision ProviderEgressAttempt.
Proof. solve_decision. Defined.
#[export] Instance RCAExecution_eq_dec : EqDecision RCAExecution.
Proof. solve_decision. Defined.
#[export] Instance InvestigationLineageSource_eq_dec : EqDecision InvestigationLineageSource.
Proof. solve_decision. Defined.
#[export] Instance FindingIdentity_eq_dec : EqDecision FindingIdentity.
Proof. solve_decision. Defined.
#[export] Instance InvestigationLineage_eq_dec : EqDecision InvestigationLineage.
Proof. solve_decision. Defined.
#[export] Instance Condition_eq_dec : EqDecision Condition.
Proof. solve_decision. Defined.
#[export] Instance InvestigationRequestStatus_eq_dec : EqDecision InvestigationRequestStatus.
Proof. solve_decision. Defined.
#[export] Instance RCACause_eq_dec : EqDecision RCACause.
Proof. solve_decision. Defined.
#[export] Instance RiskSignalRCAProjectionStatus_eq_dec : EqDecision RiskSignalRCAProjectionStatus.
Proof. solve_decision. Defined.
#[export] Instance RiskSignalStatus_eq_dec : EqDecision RiskSignalStatus.
Proof. solve_decision. Defined.
