(* ===== verification/Guardrails.v ===== *)
(** * Guardrails (internal/guardrails)

    [Engine]: the legacy engine of engine.go.  [PolicyEngine]: resolution of
    ApprovalPolicy resources and rule evaluation of policy_engine.go, with the
    legacy engine as fallback. *)

From Stdlib Require Import ZArith Lia Sorting.Sorted.
From stdpp Require Import base list strings gmap.
From S2P Require Import Prelude GoStrings Api.

(** ** engine.go *)

Record Policy := mkPolicy {
  AllowedActionTypes : list string;
  ProtectedNamespaces : list string;
  AutoApproveMaxSeverity : string;
  RequireApprovalAtOrAbove : string
}.

Record ReviewInput := mkReviewInput {
  ri_Resource : ResourceRef;
  ri_Reasoning : ReasoningOutput;
  ri_Environment : string
}.

Definition severityRank (severity : string) : Z :=
  if severity == SeverityLow then 1
  else if severity == SeverityMedium then 2
  else if severity == SeverityHigh then 3
  else if severity == SeverityUnsafe then 4
  else 99.

Section Engine.
Context {U : UnicodeTables}.

Definition engineEvaluate (p : Policy) (input : ReviewInput) : ApprovalDecision :=
  let action := rem_ActionType (ro_Remediation (ri_Reasoning input)) in
  let severity := ro_Severity (ri_Reasoning input) in
  if negb (mem_str action (AllowedActionTypes p)) then
    mkApprovalDecision ApprovalReject ""
      ("action type " +:+ quote action +:+ " is not allowlisted") ""
  else if mem_str (rr_Namespace (ri_Resource input)) (ProtectedNamespaces p)
            && (severity == SeverityHigh) then
    mkApprovalDecision ApprovalManual ""
      "high-severity action against protected namespace requires human approval"
      "dry-run: target exists, policy passes, approval required"
  else
    let autoApproveMax :=
      if AutoApproveMaxSeverity p == "" then SeverityLow else AutoApproveMaxSeverity p in
    let approvalMin :=
      if RequireApprovalAtOrAbove p == "" then SeverityMedium else RequireApprovalAtOrAbove p in
    if severityRank severity <=? severityRank autoApproveMax then
      mkApprovalDecision ApprovalAuto "fluxseer-rca-policy-engine"
        "low-risk recommendation auto approved" "dry-run: safe to execute"
    else if (severityRank approvalMin <=? severityRank severity) && (severity != SeverityUnsafe) then
      mkApprovalDecision ApprovalManual "" "severity threshold requires human approval"
        "dry-run: target exists, rollback plan present"
    else
      mkApprovalDecision ApprovalReject "" "unsafe or unsupported severity" "".
End Engine.

(** ** policy_engine.go *)

Definition PolicyMatchResource : string := "Resource".
Definition PolicyMatchNamespace : string := "Namespace".
Definition PolicyMatchCluster : string := "Cluster".
Definition PolicySourceCRD : string := "ApprovalPolicy".
Definition PolicySourceLegacy : string := "LegacyGuardrails".
Definition policyScopeCluster : string := "Cluster".

Record PolicyReviewInput := mkPolicyReviewInput {
  pri_ReviewInput : ReviewInput;
  pri_ResourceLabels : gmap string string;
  pri_NamespaceLabels : gmap string string
}.

Record PolicyReference := mkPolicyReference {
  pref_APIVersion : string;
  pref_Kind : string;
  pref_Name : string;
  pref_Namespace : string;
  pref_UID : string;
  pref_ResourceVersion : string;
  pref_Generation : Z;
  pref_Version : string;
  pref_MatchLevel : string;
  pref_Priority : Z
}.

Record PolicyEvaluation := mkPolicyEvaluation {
  pe_Decision : ApprovalDecision;
  pe_Policy : option PolicyReference;
  pe_Source : string;
  pe_ApprovalTimeoutSeconds : Z;
  pe_Escalation : option EscalationConfig
}.

Section PolicyEngine.
Context {U : UnicodeTables} {LS : LabelSelectors}.
Implicit Types (policy : ApprovalPolicy selector) (input : PolicyReviewInput).

(** A nil selector means the condition does not apply. *)
Definition selectorMatches (sel : option selector) (values : gmap string string) : result bool :=
  match sel with
  | None => Ok false
  | Some s => converted <-! LabelSelectorAsSelector s; Ok (converted values)
  end.

Definition normalizeSeverity (value : string) : string := to_lower (trim_space value).

Definition policySeverityRank (value : string) : Z :=
  let v := normalizeSeverity value in
  if v == "info" then 1 else if v == "low" then 2 else if v == "medium" then 3
  else if v == "high" then 4 else if v == "critical" then 5 else 0.

Definition severityInRange (value minimum maximum : string) : bool :=
  let rank := policySeverityRank value in
  if rank =? 0 then false
  else if (minimum != "") && ((policySeverityRank minimum =? 0) || (rank <? policySeverityRank minimum))
  then false
  else if (maximum != "") && ((policySeverityRank maximum =? 0) || (policySeverityRank maximum <? rank))
  then false
  else true.

Definition decisionFromRule (action reason fallbackReason : string) : ApprovalDecision :=
  let reason' := if reason == "" then fallbackReason else reason in
  if action == "auto" then
    mkApprovalDecision ApprovalAuto "fluxseer-rca-policy-engine" reason'
      "dry-run: policy approved for execution"
  else if action == "reject" then mkApprovalDecision ApprovalReject "" reason' ""
  else if (action == "manual") || (action == "") then
    mkApprovalDecision ApprovalManual "" reason' "dry-run: policy requires human approval"
  else mkApprovalDecision ApprovalReject ""
         ("unsupported ApprovalPolicy action " +:+ quote action) "".

Definition evaluatePolicy policy input : ApprovalDecision * Z :=
  let spec := apol_Spec policy in
  let reasoning := ri_Reasoning (pri_ReviewInput input) in
  let actionType := rem_ActionType (ro_Remediation reasoning) in
  let byAction rule :=
    if atr_ActionType rule == actionType
    then Some (decisionFromRule (atr_Action rule) (atr_Reason rule) "action type policy rule",
               aps_DefaultApprovalTimeout spec)
    else None in
  let severity := normalizeSeverity (ro_Severity reasoning) in
  let bySeverity rule :=
    if severityInRange severity (sr_MinSeverity rule) (sr_MaxSeverity rule)
    then Some (decisionFromRule (sr_Action rule) (sr_Reason rule) "severity policy rule",
               if 0 <? sr_TimeoutSec rule then sr_TimeoutSec rule
               else aps_DefaultApprovalTimeout spec)
    else None in
  match find_first byAction (aps_ActionTypeRules spec) with
  | Some r => r
  | None =>
      match find_first bySeverity (aps_SeverityRules spec) with
      | Some r => r
      | None =>
          (mkApprovalDecision ApprovalManual ""
             "matching ApprovalPolicy has no rule for this action or severity"
             "dry-run: policy match requires explicit review",
           aps_DefaultApprovalTimeout spec)
      end
  end.

(** The match level and its rank, or no match. *)
Definition matchApprovalPolicy policy input : result (option (string * Z)) :=
  let spec := apol_Spec policy in
  let ns := om_Namespace (apol_Meta policy) in
  let target := rr_Namespace (ri_Resource (pri_ReviewInput input)) in
  resourceMatch <-! selectorMatches (aps_ResourceSelector spec) (pri_ResourceLabels input);
  onResource <-!
    (if resourceMatch : bool then
       namespaceMatch <-! selectorMatches (aps_NamespaceSelector spec) (pri_NamespaceLabels input);
       Ok ((aps_Scope spec == policyScopeCluster) || (ns == target) || namespaceMatch)
     else Ok false);
  if onResource : bool then Ok (Some (PolicyMatchResource, 3))
  else
    namespaceMatch <-! selectorMatches (aps_NamespaceSelector spec) (pri_NamespaceLabels input);
    let namespaceMatch' :=
      if (aps_Scope spec != policyScopeCluster)
           && bool_decide (aps_NamespaceSelector spec = None) && (ns == target)
      then true else namespaceMatch in
    if namespaceMatch' then Ok (Some (PolicyMatchNamespace, 2))
    else if aps_Scope spec == policyScopeCluster then Ok (Some (PolicyMatchCluster, 1))
    else Ok None.

Record policyMatch := mkPolicyMatch {
  pm_policy : ApprovalPolicy selector;
  pm_level : string;
  pm_rank : Z
}.

Definition policyKey (m : policyMatch) : string :=
  om_Namespace (apol_Meta (pm_policy m)) +:+ "/" +:+ om_Name (apol_Meta (pm_policy m)).
Definition policyPriority (m : policyMatch) : Z := aps_Priority (apol_Spec (pm_policy m)).

Definition policyLess (a b : policyMatch) : bool :=
  if negb (pm_rank a =? pm_rank b) then pm_rank b <? pm_rank a
  else if negb (policyPriority a =? policyPriority b) then policyPriority b <? policyPriority a
  else str_ltb (policyKey a) (policyKey b).

Definition policyEligible policy : bool :=
  aps_Enabled (apol_Spec policy) && (apol_StatusPhase policy != "Invalid")
    && (apol_StatusPhase policy != "Disabled").

Definition candidateMatch input policy : result (option policyMatch) :=
  if negb (policyEligible policy) then Ok None
  else
    m <-! rmap_err (wrapf ("match ApprovalPolicy " +:+ om_Namespace (apol_Meta policy)
                      +:+ "/" +:+ om_Name (apol_Meta policy))) (matchApprovalPolicy policy input);
    Ok (match m with Some (level, rank) => Some (mkPolicyMatch policy level rank) | None => None end).

Definition selectApprovalPolicy (policies : list (ApprovalPolicy selector)) input
    : result (option policyMatch) :=
  matches <-! collect (candidateMatch input) policies;
  Ok (head (sort_stable policyLess matches)).

Definition policyReference policy (level : string) : PolicyReference :=
  let m := apol_Meta policy in
  mkPolicyReference "aiops.platform/v1alpha1" "ApprovalPolicy" (om_Name m)
    (om_Namespace m) (om_UID m) (om_ResourceVersion m) (om_Generation m)
    (if om_ResourceVersion m == "" then "generation-" +:+ itoa (om_Generation m)
     else om_ResourceVersion m)
    level (aps_Priority (apol_Spec policy)).

Record PolicyEngineConfig := mkPolicyEngineConfig {
  (** [Reader.List]: [None] when no reader is configured. *)
  pec_Reader : option (result (list (ApprovalPolicy selector)));
  pec_Legacy : option Policy;
  pec_Enabled : bool
}.

Definition evaluateLegacy (e : PolicyEngineConfig) input : PolicyEvaluation :=
  match pec_Legacy e with
  | None =>
      mkPolicyEvaluation
        (mkApprovalDecision ApprovalManual "" "no policy engine fallback is configured" "")
        None PolicySourceLegacy 0 None
  | Some legacy =>
      mkPolicyEvaluation (engineEvaluate legacy (pri_ReviewInput input)) None PolicySourceLegacy 0 None
  end.

Definition policyEngineEvaluate (e : PolicyEngineConfig) input : result PolicyEvaluation :=
  if negb (pec_Enabled e) then Ok (evaluateLegacy e input)
  else
    match pec_Reader e with
    | None => Err (errorf "policy engine requires a Kubernetes reader when enabled")
    | Some listed =>
        policies <-! rmap_err (wrapf "list ApprovalPolicy resources") listed;
        matched <-! selectApprovalPolicy policies input;
        match matched with
        | None => Ok (evaluateLegacy e input)
        | Some m =>
            let '(decision, timeout) := evaluatePolicy (pm_policy m) input in
            Ok (mkPolicyEvaluation decision (Some (policyReference (pm_policy m) (pm_level m)))
                  PolicySourceCRD timeout (aps_Escalation (apol_Spec (pm_policy m))))
        end
    end.

(** *** Ordering of matches *)

#[export] Instance policyLess_weak : StrictWeak policyLess.
Proof.
  apply (lex_desc pm_rank), (lex_desc policyPriority), (strict_weak_key policyKey str_ltb).
Qed.

Lemma policyLess_same a b :
  policyLess a b = false -> policyLess b a = false -> policyKey a = policyKey b.
Proof.
  unfold policyLess. rewrite (Z.eqb_sym (pm_rank b)), (Z.eqb_sym (policyPriority b)).
  destruct (pm_rank a =? pm_rank b) eqn:E1; simpl; [|intros; go_bool; lia].
  destruct (policyPriority a =? policyPriority b) eqn:E2; simpl; [|intros; go_bool; lia].
  apply st_total.
Qed.

Lemma candidateMatch_policy input policy m :
  candidateMatch input policy = Ok (Some m) ->
  pm_policy m = policy /\ policyEligible policy = true /\
  matchApprovalPolicy policy input = Ok (Some (pm_level m, pm_rank m)).
Proof.
  unfold candidateMatch. destruct (policyEligible policy); simpl; [|done].
  destruct (matchApprovalPolicy policy input) as [[[l r]|]|e]; simpl; [|done..].
  intros [= <-]. done.
Qed.

Lemma candidateMatch_complete input policy level rank :
  policyEligible policy = true ->
  matchApprovalPolicy policy input = Ok (Some (level, rank)) ->
  candidateMatch input policy = Ok (Some (mkPolicyMatch policy level rank)).
Proof. intros H1 H2. unfold candidateMatch. by rewrite H1, H2. Qed.

Lemma selectApprovalPolicy_inv policies input o :
  selectApprovalPolicy policies input = Ok o ->
  exists ms, collect (candidateMatch input) policies = Ok ms /\
    o = head (sort_stable policyLess ms).
Proof.
  unfold selectApprovalPolicy. intros (ms & H & [= <-])%rbind_Ok. eauto.
Qed.
End PolicyEngine.

(** ** Properties of the legacy engine *)

Section EngineProperties.
Context {U : UnicodeTables}.

(** How restrictive a decision is. *)
Definition strictness (a : ApprovalAction) : Z :=
  match a with ApprovalAuto => 0 | ApprovalManual => 1 | ApprovalReject => 2 end.

Definition withSeverity (input : ReviewInput) (severity : string) : ReviewInput :=
  mkReviewInput (ri_Resource input)
    (reasoning_output severity (ro_Remediation (ri_Reasoning input))) (ri_Environment input).

Definition knownSeverity (s : string) : Prop := severityRank s <= 4.

Lemma severityRank_low s : severityRank s <= severityRank SeverityLow <-> s = SeverityLow.
Proof. unfold severityRank. go_cases; split; intros; subst; try done; lia. Qed.

Lemma severity_high_test s : (s == SeverityHigh) = (severityRank s =? 3).
Proof. unfold severityRank. go_cases; by subst. Qed.

Lemma severity_unsafe_test s : (s == SeverityUnsafe) = (severityRank s =? 4).
Proof. unfold severityRank. go_cases; by subst. Qed.

(** Under the thresholds the operator ships (auto-approve up to "low",
    approval from "medium"), an action outside the allowlist is rejected; an
    allowlisted one is auto-approved exactly for severity "low", rejected
    exactly for "unsafe", and every other severity - unrecognised ones
    included - goes to a human. *)
Theorem default_thresholds_decision (p : Policy) (input : ReviewInput) :
  AutoApproveMaxSeverity p ∈ [""; SeverityLow] ->
  RequireApprovalAtOrAbove p ∈ [""; SeverityMedium] ->
  let action := rem_ActionType (ro_Remediation (ri_Reasoning input)) in
  let severity := ro_Severity (ri_Reasoning input) in
  ad_Action (engineEvaluate p input) =
    if decide (action ∈ AllowedActionTypes p) then
      if decide (severity = SeverityLow) then ApprovalAuto
      else if decide (severity = SeverityUnsafe) then ApprovalReject
      else ApprovalManual
    else ApprovalReject.
Proof.
  intros Hmax Hmin action severity. unfold engineEvaluate.
  fold action. fold severity.
  replace (if AutoApproveMaxSeverity p == "" then SeverityLow else AutoApproveMaxSeverity p)
    with SeverityLow
    by (apply elem_of_cons in Hmax as [->|[->|?%not_elem_of_nil]%elem_of_cons]; done).
  replace (if RequireApprovalAtOrAbove p == "" then SeverityMedium else RequireApprovalAtOrAbove p)
    with SeverityMedium
    by (apply elem_of_cons in Hmin as [->|[->|?%not_elem_of_nil]%elem_of_cons]; done).
  destruct (mem_str action _) eqn:Ha; simpl;
    [apply mem_str_spec in Ha|apply mem_str_false in Ha];
    [rewrite decide_True by done|by rewrite decide_False by done].
  destruct (severityRank severity <=? severityRank SeverityLow) eqn:Hl; go_bool.
  - apply severityRank_low in Hl. rewrite Hl, andb_false_r. done.
  - assert (severity <> SeverityLow) by (intros E; apply severityRank_low in E; lia).
    rewrite (decide_False (P := severity = SeverityLow)) by done.
    destruct (mem_str _ (ProtectedNamespaces p) && (severity == SeverityHigh))%bool eqn:Hp; simpl.
    { go_bool. match goal with H : severity = SeverityHigh |- _ => by rewrite H end. }
    replace (severityRank SeverityMedium <=? severityRank severity) with true
      by (symmetry; apply Z.leb_le; change (severityRank SeverityLow) with 1 in Hl;
          change (severityRank SeverityMedium) with 2; lia).
    simpl. destruct (severity == SeverityUnsafe) eqn:Eu; simpl; go_bool;
      [by rewrite decide_True|by rewrite decide_False].
Qed.

(** When the two thresholds leave no gap, a more severe finding never gets a
    less restrictive decision for the same action and target: the decision is
    monotone along low, medium, high, unsafe. *)
Theorem engine_monotone (p : Policy) (input : ReviewInput) (s1 s2 : string) :
  let maxRank := severityRank
    (if AutoApproveMaxSeverity p == "" then SeverityLow else AutoApproveMaxSeverity p) in
  let minRank := severityRank
    (if RequireApprovalAtOrAbove p == "" then SeverityMedium else RequireApprovalAtOrAbove p) in
  minRank <= maxRank + 1 -> maxRank < 4 ->
  knownSeverity s2 -> severityRank s1 <= severityRank s2 ->
  strictness (ad_Action (engineEvaluate p (withSeverity input s1))) <=
  strictness (ad_Action (engineEvaluate p (withSeverity input s2))).
Proof.
  intros maxRank minRank Hgap Hmax Hk Hle. unfold engineEvaluate. simpl.
  fold maxRank. fold minRank. unfold knownSeverity in Hk.
  rewrite !severity_high_test, !severity_unsafe_test.
  generalize dependent (severityRank s1). generalize dependent (severityRank s2).
  clearbody maxRank minRank. intros r2 ? r1 ?.
  destruct (mem_str _ (AllowedActionTypes p)); simpl; [|lia].
  destruct (mem_str _ (ProtectedNamespaces p)); simpl;
    destruct (Z.eqb_spec r1 3), (Z.eqb_spec r2 3), (Z.eqb_spec r1 4), (Z.eqb_spec r2 4),
      (Z.leb_spec r1 maxRank), (Z.leb_spec r2 maxRank), (Z.leb_spec minRank r1),
      (Z.leb_spec minRank r2); simpl; lia.
Qed.

(** An unrecognised, non-empty AutoApproveMaxSeverity fails open: every
    allowlisted action is auto-approved whatever its severity, "unsafe"
    included, unless it is a high-severity one in a protected namespace. *)
Theorem engine_unknown_max_fails_open (p : Policy) (input : ReviewInput) :
  AutoApproveMaxSeverity p <> "" -> ~ knownSeverity (AutoApproveMaxSeverity p) ->
  rem_ActionType (ro_Remediation (ri_Reasoning input)) ∈ AllowedActionTypes p ->
  ro_Severity (ri_Reasoning input) <> SeverityHigh ->
  ad_Action (engineEvaluate p input) = ApprovalAuto.
Proof.
  intros Hne Hk Hin Hs. unfold engineEvaluate.
  apply mem_str_spec in Hin. rewrite Hin. simpl.
  apply String.eqb_neq in Hne, Hs. rewrite Hne, Hs, andb_false_r.
  replace (_ <=? _) with true; [done|]. symmetry. apply Z.leb_le.
  unfold knownSeverity, severityRank in *. go_cases; lia.
Qed.
End EngineProperties.

(** An ApprovalPolicy the engine may use. *)
Definition usablePolicy {LS : LabelSelectors} (policy : ApprovalPolicy selector) : Prop :=
  aps_Enabled (apol_Spec policy) = true /\ apol_StatusPhase policy <> "Invalid" /\
  apol_StatusPhase policy <> "Disabled".

Section PolicyOrder.
Context {U : UnicodeTables} {LS : LabelSelectors}.

Lemma policyEligible_iff (policy : ApprovalPolicy selector) : policyEligible policy = true <-> usablePolicy policy.
Proof.
  unfold policyEligible, usablePolicy. rewrite !andb_true_iff, !negb_true_iff, !String.eqb_neq. tauto.
Qed.

Lemma policyLess_false (a b : policyMatch) :
  policyLess a b = false ->
  pm_rank a < pm_rank b \/
  pm_rank a = pm_rank b /\
    (policyPriority a < policyPriority b \/
     policyPriority a = policyPriority b /\ str_ltb (policyKey a) (policyKey b) = false).
Proof.
  unfold policyLess. destruct (pm_rank a =? pm_rank b) eqn:Hr; cbn [negb]; [|intros; go_bool; lia].
  destruct (policyPriority a =? policyPriority b) eqn:Hp; cbn [negb]; intros; go_bool; [|lia].
  right. split; [done|]. by right.
Qed.
End PolicyOrder.

(** ** Properties of the policy engine *)

Section PolicyProperties.
Context {U : UnicodeTables} {LS : LabelSelectors}.

(** The selected policy is one of the listed ones, enabled and neither
    Invalid nor Disabled, and matches the input; among all such policies none
    is better: it has the highest match rank, then the highest priority, then
    the smallest namespace/name.  Nothing is selected exactly when no usable
    policy matches. *)
Theorem select_policy_best (policies : list (ApprovalPolicy selector)) input o :
  selectApprovalPolicy policies input = Ok o ->
  match o with
  | Some m =>
      pm_policy m ∈ policies /\ usablePolicy (pm_policy m) /\
      matchApprovalPolicy (pm_policy m) input = Ok (Some (pm_level m, pm_rank m)) /\
      forall q level rank, q ∈ policies -> usablePolicy q ->
        matchApprovalPolicy q input = Ok (Some (level, rank)) ->
        rank < pm_rank m \/
        rank = pm_rank m /\
          (aps_Priority (apol_Spec q) < policyPriority m \/
           aps_Priority (apol_Spec q) = policyPriority m /\
           str_ltb (policyKey (mkPolicyMatch q level rank)) (policyKey m) = false)
  | None =>
      forall q, q ∈ policies -> usablePolicy q -> matchApprovalPolicy q input = Ok None
  end.
Proof.
  intros (ms & Hms & ->)%selectApprovalPolicy_inv.
  destruct (sort_stable policyLess ms) as [|m ms'] eqn:Hs; simpl.
  - apply sort_stable_nil in Hs as ->. intros q Hq He%policyEligible_iff.
    assert (forall m, candidateMatch input q <> Ok (Some m)) as Hno.
    { intros m Hm. assert (m ∈ []) as ?%not_elem_of_nil; [|done].
      apply (collect_elem _ _ _ _ Hms). eauto. }
    destruct (matchApprovalPolicy q input) as [[[l r]|]|e] eqn:Em; [|done|].
    + by destruct (Hno _ (candidateMatch_complete _ _ _ _ He Em)).
    + exfalso. assert (candidateMatch input q = Err (wrapf ("match ApprovalPolicy " +:+
          om_Namespace (apol_Meta q) +:+ "/" +:+ om_Name (apol_Meta q)) e)) as Hc
        by (unfold candidateMatch; by rewrite He, Em).
      clear -Hms Hq Hc. revert Hms Hq. generalize (@nil policyMatch) as bs. revert Hc.
      generalize (candidateMatch input) as f. intros f Hc bs Hms Hq.
      by destruct (collect_no_error f policies bs q Hms Hq) as [b E]; rewrite Hc in E.
  - destruct (sort_stable_head policyLess ms m ms' Hs) as [Hin Hbest].
    apply (collect_elem _ _ _ _ Hms) in Hin as (q & Hq & Hc).
    apply candidateMatch_policy in Hc as (<- & He%policyEligible_iff & Hm). split_and!; [done..|].
    intros q' level rank Hq' He'%policyEligible_iff Hm'.
    apply (policyLess_false (mkPolicyMatch q' level rank) m), Hbest. apply (collect_elem _ _ _ _ Hms).
    exists q'. split; [done|]. by apply candidateMatch_complete.
Qed.

(** The order in which the API server lists the policies is irrelevant:
    when namespace/name identifies a listed policy, every permutation of the
    list selects the same policy at the same match level. *)
Theorem select_policy_order_independent (l1 l2 : list (ApprovalPolicy selector)) input o :
  (forall p q, p ∈ l1 -> q ∈ l1 ->
     om_Namespace (apol_Meta p) +:+ "/" +:+ om_Name (apol_Meta p) =
     om_Namespace (apol_Meta q) +:+ "/" +:+ om_Name (apol_Meta q) -> p = q) ->
  l1 ≡ₚ l2 ->
  selectApprovalPolicy l1 input = Ok o -> selectApprovalPolicy l2 input = Ok o.
Proof.
  intros Hkey Hp (ms & Hms & ->)%selectApprovalPolicy_inv.
  destruct (collect_perm _ _ _ _ Hp Hms) as (ms2 & Hms2 & Hpm).
  unfold selectApprovalPolicy. rewrite Hms2. simpl. f_equal. f_equal.
  apply sort_stable_perm_eq; [apply _| |by symmetry].
  intros a b Ha Hb Hab Hba. rewrite <- Hpm in Ha, Hb.
  apply (collect_elem _ _ _ _ Hms) in Ha as (p & Hpl & Ha), Hb as (q & Hql & Hb).
  apply candidateMatch_policy in Ha as (<- & _ & Ha), Hb as (<- & _ & Hb).
  pose proof (Hkey _ _ Hpl Hql (policyLess_same _ _ Hab Hba)) as E.
  destruct a, b; simpl in *. subst. rewrite Ha in Hb. by simplify_eq.
Qed.

(** An ApprovalPolicy auto-approves only through a rule of its own whose
    action is "auto": the first rule for the action type or, when no rule
    names the action type, the first severity rule whose range contains the
    (recognised) severity. *)
Theorem policy_auto_needs_rule (policy : ApprovalPolicy selector) input :
  ad_Action (evaluatePolicy policy input).1 = ApprovalAuto ->
  let reasoning := ri_Reasoning (pri_ReviewInput input) in
  let actionType := rem_ActionType (ro_Remediation reasoning) in
  (exists rule, rule ∈ aps_ActionTypeRules (apol_Spec policy) /\
     atr_ActionType rule = actionType /\ atr_Action rule = "auto") \/
  ((forall rule, rule ∈ aps_ActionTypeRules (apol_Spec policy) ->
      atr_ActionType rule <> actionType) /\
   exists rule, rule ∈ aps_SeverityRules (apol_Spec policy) /\ sr_Action rule = "auto" /\
     policySeverityRank (normalizeSeverity (ro_Severity reasoning)) <> 0 /\
     severityInRange (normalizeSeverity (ro_Severity reasoning))
       (sr_MinSeverity rule) (sr_MaxSeverity rule) = true).
Proof.
  assert (Hauto : forall a r f, ad_Action (decisionFromRule a r f) = ApprovalAuto -> a = "auto").
  { intros a r f. unfold decisionFromRule. go_cases. }
  intros H reasoning actionType. unfold evaluatePolicy in H.
  destruct (find_first _ (aps_ActionTypeRules _)) as [r|] eqn:E1.
  - left. apply find_first_Some in E1 as (rule & Hin & Hr). exists rule.
    case_match; go_bool; [|done]. simplify_eq/=. split_and!; [done..|]. eauto.
  - right. split.
    + intros rule Hin Heq. pose proof (proj1 (find_first_None _ _) E1 _ Hin) as Hn. simpl in Hn.
      fold reasoning in Hn. fold actionType in Hn. rewrite Heq, String.eqb_refl in Hn. done.
    + destruct (find_first _ (aps_SeverityRules _)) as [r|] eqn:E2; [|done].
      apply find_first_Some in E2 as (rule & Hin & Hr). exists rule.
      case_match eqn:Hrange; [|done]. simplify_eq/=. split_and!; [done|eauto| |done].
      unfold severityInRange in Hrange. case_match eqn:E0; [done|]. by go_bool.
Qed.

(** With the policy engine enabled, a decision is reported as taken from an
    ApprovalPolicy only when such a policy was selected, and then decision and
    timeout are that policy's; otherwise it is exactly the legacy decision.
    A missing reader, a failed List or an unconvertible selector of an eligible
    policy yields an error and no decision. *)
Theorem policy_engine_decision (legacy : option Policy)
    (reader : option (result (list (ApprovalPolicy selector)))) input ev :
  let e := mkPolicyEngineConfig reader legacy true in
  policyEngineEvaluate e input = Ok ev ->
  exists policies, reader = Some (Ok policies) /\
    ((exists m, selectApprovalPolicy policies input = Ok (Some m) /\
        pe_Source ev = PolicySourceCRD /\
        pe_Policy ev = Some (policyReference (pm_policy m) (pm_level m)) /\
        (pe_Decision ev, pe_ApprovalTimeoutSeconds ev) = evaluatePolicy (pm_policy m) input) \/
     (selectApprovalPolicy policies input = Ok None /\ ev = evaluateLegacy e input)).
Proof.
  intros e. unfold policyEngineEvaluate. simpl. destruct reader as [[policies|err]|]; simpl; [|done..].
  destruct (selectApprovalPolicy policies input) as [[m|]|] eqn:Hs; simpl; [| |done].
  - destruct (evaluatePolicy (pm_policy m) input) as [d t] eqn:Ed. intros [= <-].
    exists policies. split; [done|]. left. exists m. simpl. by rewrite Ed.
  - intros [= <-]. exists policies. eauto.
Qed.
End PolicyProperties.

(** ** Examples *)

Section Witnesses.
#[local] Existing Instance plain_tables.
#[local] Existing Instance label_subset.

Definition sample_review (severity : string) : ReviewInput :=
  mkReviewInput (mkResourceRef "" "prod" "Deployment" "web" "apps/v1" "")
    (reasoning_output severity (mkRemediation "kubernetes.rolloutRestart" "restart" ∅ [])) "".
Definition sample_engine : Policy := mkPolicy ["kubernetes.rolloutRestart"] ["kube-system"] "" "".

Definition sample_policy (name action : string) (priority : Z) : ApprovalPolicy (selector) :=
  mkApprovalPolicy (sample_meta "prod" name)
    (mkApprovalPolicySpec "" None None [mkActionTypeRule "kubernetes.rolloutRestart" action ""] [] 300
       None priority true) "".
Definition sample_policy_input : PolicyReviewInput := mkPolicyReviewInput (sample_review "high") ∅ ∅.
Definition sample_policies : list (ApprovalPolicy selector) :=
  [sample_policy "b" "manual" 1; sample_policy "a" "auto" 7].

Lemma default_thresholds_decision_witness :
  ad_Action (engineEvaluate sample_engine (sample_review "medium")) = ApprovalManual.
Proof.
  refine (eq_trans (default_thresholds_decision sample_engine (sample_review "medium") _ _) _).
  - left.
  - left.
  - reflexivity.
Defined.

Lemma engine_monotone_witness :
  strictness (ad_Action (engineEvaluate sample_engine (withSeverity (sample_review "") "low"))) <=
  strictness (ad_Action (engineEvaluate sample_engine (withSeverity (sample_review "") "unsafe"))).
Proof.
  apply (engine_monotone sample_engine (sample_review "") "low" "unsafe"); vm_compute; congruence.
Defined.

Definition failing_open : Policy :=
  mkPolicy ["kubernetes.rolloutRestart"] ["kube-system"] "Low" "medium".

Lemma engine_unknown_max_fails_open_witness :
  ad_Action (engineEvaluate failing_open (sample_review "unsafe")) = ApprovalAuto.
Proof.
  apply (engine_unknown_max_fails_open failing_open (sample_review "unsafe"));
    [done|unfold knownSeverity; vm_compute; intros H; by apply H|left|done].
Defined.

Definition sample_match : policyMatch := mkPolicyMatch (sample_policy "a" "auto" 7) PolicyMatchNamespace 2.

Lemma select_policy_best_witness :
  selectApprovalPolicy sample_policies sample_policy_input = Ok (Some sample_match) /\
  pm_policy sample_match ∈ sample_policies.
Proof.
  assert (H : selectApprovalPolicy sample_policies sample_policy_input = Ok (Some sample_match))
    by reflexivity.
  split; [exact H|]. exact (proj1 (select_policy_best sample_policies sample_policy_input _ H)).
Defined.

Lemma select_policy_order_independent_witness :
  selectApprovalPolicy (rev sample_policies) sample_policy_input = Ok (Some sample_match).
Proof.
  apply (select_policy_order_independent sample_policies (rev sample_policies)).
  - intros p q [->|[->|?%not_elem_of_nil]%elem_of_cons]%elem_of_cons
      [->|[->|?%not_elem_of_nil]%elem_of_cons]%elem_of_cons; done.
  - apply Permutation_rev.
  - reflexivity.
Defined.

Lemma policy_auto_needs_rule_witness :
  let policy := sample_policy "a" "auto" 7 in
  ad_Action (evaluatePolicy policy sample_policy_input).1 = ApprovalAuto /\
  exists rule, rule ∈ aps_ActionTypeRules (apol_Spec policy) /\ atr_Action rule = "auto".
Proof.
  split; [reflexivity|].
  destruct (policy_auto_needs_rule (sample_policy "a" "auto" 7) sample_policy_input eq_refl)
    as [(rule & Hin & _ & Ha)|[_ (rule & Hin & _)]]; [by exists rule|by apply not_elem_of_nil in Hin].
Defined.

Lemma policy_engine_decision_witness :
  let e := mkPolicyEngineConfig (Some (Ok sample_policies)) None true in
  let ev := mkPolicyEvaluation (evaluatePolicy (sample_policy "a" "auto" 7) sample_policy_input).1
              (Some (policyReference (sample_policy "a" "auto" 7) PolicyMatchNamespace)) PolicySourceCRD 300 None in
  policyEngineEvaluate e sample_policy_input = Ok ev /\
  exists policies, Some (Ok sample_policies) = Some (Ok policies) /\
    ((exists m, selectApprovalPolicy policies sample_policy_input = Ok (Some m) /\
        pe_Source ev = PolicySourceCRD /\
        pe_Policy ev = Some (policyReference (pm_policy m) (pm_level m)) /\
        (pe_Decision ev, pe_ApprovalTimeoutSeconds ev) = evaluatePolicy (pm_policy m) sample_policy_input) \/
     (selectApprovalPolicy policies sample_policy_input = Ok None /\
      ev = evaluateLegacy e sample_policy_input)).
Proof.
  intros e ev.
  assert (H : policyEngineEvaluate e sample_policy_input = Ok ev) by reflexivity.
  split; [exact H|].
  exact (policy_engine_decision None (Some (Ok sample_policies)) sample_policy_input ev H).
Defined.
End Witnesses.
