(* ===== verification/Thresholds.v ===== *)
(** * Namespace thresholds (internal/thresholds/enforcer.go)

    Resolution of the NamespaceThreshold that applies to a namespace and
    enforcement of its limits on the namespace's usage. *)

From Stdlib Require Import ZArith Lia.
From stdpp Require Import base list strings gmap.
From S2P Require Import Prelude GoStrings Api.

Definition ThresholdMatchDirect : string := "DirectNamespace".
Definition ThresholdMatchSelector : string := "NamespaceSelector".

Record ResolveRequest := mkResolveRequest {
  rq_Namespace : string;
  rq_NamespaceLabels : gmap string string
}.

Record Usage := mkUsage { us_ActivePlans : Z; us_PendingApprovals : Z }.

Record ThresholdReference := mkThresholdReference {
  tref_APIVersion : string;
  tref_Kind : string;
  tref_Name : string;
  tref_Namespace : string;
  tref_UID : string;
  tref_ResourceVersion : string;
  tref_Generation : Z;
  tref_Version : string;
  tref_Priority : Z;
  tref_MatchType : string
}.

Record Violation := mkViolation {
  vi_Resource : string;
  vi_Current : Z;
  vi_Limit : Z;
  vi_Reason : string
}.

Section Thresholds.
Context {LS : LabelSelectors}.
Implicit Types (threshold : NamespaceThreshold selector) (request : ResolveRequest).

Record Resolution := mkResolution {
  res_Threshold : NamespaceThreshold selector;
  res_Reference : ThresholdReference
}.

Record EnforcementResult := mkEnforcementResult {
  enf_Allowed : bool;
  enf_Violations : list Violation;
  enf_Resolution : option Resolution
}.

(** Omitted selector: the threshold's own namespace only. *)
Definition matchThreshold threshold request : result (string * bool) :=
  match nts_NamespaceSelector (nth_Spec threshold) with
  | None => Ok (ThresholdMatchDirect, om_Namespace (nth_Meta threshold) == rq_Namespace request)
  | Some sel =>
      converted <-! LabelSelectorAsSelector sel;
      Ok (ThresholdMatchSelector, converted (rq_NamespaceLabels request))
  end.

Definition thresholdReference threshold (matchType : string) : ThresholdReference :=
  let m := nth_Meta threshold in
  mkThresholdReference "aiops.platform/v1alpha1" "NamespaceThreshold" (om_Name m) (om_Namespace m)
    (om_UID m) (om_ResourceVersion m) (om_Generation m)
    (if om_ResourceVersion m == "" then "generation-" +:+ itoa (om_Generation m)
     else om_ResourceVersion m)
    (nts_Priority (nth_Spec threshold)) matchType.

Record thresholdMatch := mkThresholdMatch {
  tm_threshold : NamespaceThreshold selector;
  tm_matchType : string
}.

Definition thresholdKey (m : thresholdMatch) : string :=
  om_Namespace (nth_Meta (tm_threshold m)) +:+ "/" +:+ om_Name (nth_Meta (tm_threshold m)).
Definition thresholdPriority (m : thresholdMatch) : Z := nts_Priority (nth_Spec (tm_threshold m)).

Definition thresholdLess (a b : thresholdMatch) : bool :=
  if negb (thresholdPriority a =? thresholdPriority b) then thresholdPriority b <? thresholdPriority a
  else if tm_matchType a != tm_matchType b then tm_matchType a == ThresholdMatchDirect
  else str_ltb (thresholdKey a) (thresholdKey b).

Definition thresholdEligible threshold : bool :=
  nts_Enabled (nth_Spec threshold) && (nth_StatusPhase threshold != "Invalid")
    && (nth_StatusPhase threshold != "Disabled").

Definition thresholdCandidate request threshold : result (option thresholdMatch) :=
  if negb (thresholdEligible threshold) then Ok None
  else
    m <-! rmap_err (wrapf ("match NamespaceThreshold " +:+ om_Namespace (nth_Meta threshold)
                      +:+ "/" +:+ om_Name (nth_Meta threshold))) (matchThreshold threshold request);
    let '(matchType, matched) := m in
    Ok (if matched : bool then Some (mkThresholdMatch threshold matchType) else None).

(** The [Reader] of the enforcer: [None] when nil. *)
Definition Enforcer : Type := option (result (list (NamespaceThreshold selector))).

Definition Resolve (e : Enforcer) request : result (option Resolution) :=
  match e with
  | None => Err (errorf "threshold enforcer requires a Kubernetes reader")
  | Some listed =>
      thresholds <-! rmap_err (wrapf "list NamespaceThreshold resources") listed;
      matches <-! collect (thresholdCandidate request) thresholds;
      Ok (match sort_stable thresholdLess matches with
          | [] => None
          | m :: _ => Some (mkResolution (tm_threshold m)
                             (thresholdReference (tm_threshold m) (tm_matchType m)))
          end)
  end.

(** The violations of a threshold spec, in the code's order. *)
Definition usageViolations (spec : NamespaceThresholdSpec selector) (usage : Usage) : list Violation :=
  (if (0 <? nts_ActivePlansLimit spec) && (nts_ActivePlansLimit spec <? us_ActivePlans usage)
   then [mkViolation "activePlans" (us_ActivePlans usage) (nts_ActivePlansLimit spec)
           "active RemediationPlan count exceeds namespace threshold"] else []) ++
  (if (0 <? nts_PendingApprovalsLimit spec)
        && (nts_PendingApprovalsLimit spec <? us_PendingApprovals usage)
   then [mkViolation "pendingApprovals" (us_PendingApprovals usage) (nts_PendingApprovalsLimit spec)
           "pending approval count exceeds namespace threshold"] else []).

Definition Evaluate (e : Enforcer) request (usage : Usage) : result EnforcementResult :=
  resolution <-! Resolve e request;
  match resolution with
  | None => Ok (mkEnforcementResult true [] None)
  | Some r =>
      let violations := usageViolations (nth_Spec (res_Threshold r)) usage in
      Ok (mkEnforcementResult (bool_decide (violations = [])) violations (Some r))
  end.

Definition Enforce := Evaluate.

(** ** Ordering *)

Lemma matchThreshold_type threshold request mt b :
  matchThreshold threshold request = Ok (mt, b) ->
  mt = ThresholdMatchDirect \/ mt = ThresholdMatchSelector.
Proof.
  unfold matchThreshold. destruct (nts_NamespaceSelector _).
  - intros (? & _ & [= <- _])%rbind_Ok. auto.
  - intros [= <- _]. auto.
Qed.

(** The comparator of the code agrees, on the match types that occur, with the
    chain that tests "is direct" as a flag. *)
Definition thresholdLess' (a b : thresholdMatch) : bool :=
  if negb (thresholdPriority a =? thresholdPriority b) then thresholdPriority b <? thresholdPriority a
  else if xorb (tm_matchType a == ThresholdMatchDirect) (tm_matchType b == ThresholdMatchDirect)
  then tm_matchType a == ThresholdMatchDirect
  else str_ltb (thresholdKey a) (thresholdKey b).

#[export] Instance thresholdLess'_weak : StrictWeak thresholdLess'.
Proof.
  apply (lex_desc thresholdPriority),
    (lex_flag (fun m => tm_matchType m == ThresholdMatchDirect)),
    (strict_weak_key thresholdKey str_ltb).
Qed.

Definition typed (m : thresholdMatch) : Prop :=
  tm_matchType m = ThresholdMatchDirect \/ tm_matchType m = ThresholdMatchSelector.

Lemma thresholdLess_typed a b : typed a -> typed b -> thresholdLess a b = thresholdLess' a b.
Proof. by unfold thresholdLess, thresholdLess'; intros [-> | ->] [-> | ->]. Qed.

Lemma thresholdCandidate_inv request threshold m :
  thresholdCandidate request threshold = Ok (Some m) ->
  tm_threshold m = threshold /\ thresholdEligible threshold = true /\ typed m /\
  matchThreshold threshold request = Ok (tm_matchType m, true).
Proof.
  unfold thresholdCandidate. destruct (thresholdEligible threshold); simpl; [|done].
  destruct (matchThreshold threshold request) as [[mt []]|e] eqn:E; simpl; [|done..].
  intros [= <-]. split_and!; [done..| |done]. by eapply matchThreshold_type.
Qed.

Lemma thresholdCandidate_complete request threshold mt :
  thresholdEligible threshold = true -> matchThreshold threshold request = Ok (mt, true) ->
  thresholdCandidate request threshold = Ok (Some (mkThresholdMatch threshold mt)).
Proof. intros H1 H2. unfold thresholdCandidate. by rewrite H1, H2. Qed.

Lemma Resolve_inv e request o :
  Resolve e request = Ok o ->
  exists thresholds ms, e = Some (Ok thresholds) /\
    collect (thresholdCandidate request) thresholds = Ok ms /\
    o = match sort_stable thresholdLess' ms with
        | [] => None
        | m :: _ => Some (mkResolution (tm_threshold m)
                            (thresholdReference (tm_threshold m) (tm_matchType m)))
        end.
Proof.
  unfold Resolve. destruct e as [[thresholds|err]|]; simpl; [|done..].
  intros (ms & Hms & [= <-])%rbind_Ok. exists thresholds, ms. split_and!; [done..|].
  rewrite (sort_stable_ext thresholdLess thresholdLess'); [done|].
  intros a b Ha Hb. apply thresholdLess_typed;
    [apply (collect_elem _ _ _ _ Hms) in Ha as (? & _ & (_ & _ & ? & _)%thresholdCandidate_inv)
    |apply (collect_elem _ _ _ _ Hms) in Hb as (? & _ & (_ & _ & ? & _)%thresholdCandidate_inv)];
    done.
Qed.
End Thresholds.

(** ** Properties *)

Section ThresholdProperties.
Context {LS : LabelSelectors}.
Implicit Types request : ResolveRequest.

(** The resolved threshold is enabled, neither Invalid nor Disabled, and
    applies to the namespace (its own namespace when it has no selector, else a
    matching selector); no applicable threshold has a higher priority, and at
    equal priority a direct threshold wins over a selector one.  Nothing is
    resolved only when no enabled threshold applies. *)
Theorem resolve_best (thresholds : list (NamespaceThreshold selector)) request o :
  Resolve (Some (Ok thresholds)) request = Ok o ->
  match o with
  | Some r =>
      res_Threshold r ∈ thresholds /\ thresholdEligible (res_Threshold r) = true /\
      exists mt, matchThreshold (res_Threshold r) request = Ok (mt, true) /\
        res_Reference r = thresholdReference (res_Threshold r) mt /\
        forall q mt', q ∈ thresholds -> thresholdEligible q = true ->
          matchThreshold q request = Ok (mt', true) ->
          nts_Priority (nth_Spec q) <= nts_Priority (nth_Spec (res_Threshold r)) /\
          (nts_Priority (nth_Spec q) = nts_Priority (nth_Spec (res_Threshold r)) ->
           mt' = ThresholdMatchDirect -> mt = ThresholdMatchDirect)
  | None =>
      forall q mt', q ∈ thresholds -> thresholdEligible q = true ->
        matchThreshold q request <> Ok (mt', true)
  end.
Proof.
  intros (? & ms & [= <-] & Hms & ->)%Resolve_inv.
  destruct (sort_stable thresholdLess' ms) as [|m ms'] eqn:Hs.
  - apply sort_stable_nil in Hs as ->. intros q mt' Hq He Hm.
    assert (mkThresholdMatch q mt' ∈ []) as ?%not_elem_of_nil; [|done].
    apply (collect_elem _ _ _ _ Hms). exists q. split; [done|]. by apply thresholdCandidate_complete.
  - destruct (sort_stable_head _ _ _ _ Hs) as [Hin Hbest].
    apply (collect_elem _ _ _ _ Hms) in Hin as (q & Hq & (<- & He & Ht & Hm)%thresholdCandidate_inv).
    split_and!; [done..|]. exists (tm_matchType m). split_and!; [done..|].
    intros q' mt' Hq' He' Hm'. simpl.
    assert (thresholdLess' (mkThresholdMatch q' mt') m = false) as Hl.
    { apply Hbest, (collect_elem _ _ _ _ Hms). exists q'.
      split; [done|]. by apply thresholdCandidate_complete. }
    unfold thresholdLess', thresholdPriority in Hl. simpl in Hl.
    destruct (Z.eqb_spec (nts_Priority (nth_Spec q')) (nts_Priority (nth_Spec (tm_threshold m))))
      as [E|E]; simpl in Hl; [|go_bool; split; [lia|]; intros; lia].
    split; [lia|]. intros _ ->. rewrite String.eqb_refl in Hl.
    destruct (tm_matchType m == ThresholdMatchDirect) eqn:Ed; [by go_bool|done].
Qed.

(** Enforcement allows a namespace exactly when no positive limit of the
    resolved threshold is exceeded (no threshold: always), each exceeded limit
    gives exactly one violation that reports the current usage and the limit,
    and a limit of zero never does. *)
Theorem enforce_allowed_iff (e : Enforcer) request usage r :
  Evaluate e request usage = Ok r ->
  (enf_Allowed r = true <-> enf_Violations r = []) /\
  match enf_Resolution r with
  | None => enf_Allowed r = true
  | Some res =>
      let spec := nth_Spec (res_Threshold res) in
      (enf_Allowed r = true <->
        (0 < nts_ActivePlansLimit spec -> us_ActivePlans usage <= nts_ActivePlansLimit spec) /\
        (0 < nts_PendingApprovalsLimit spec ->
           us_PendingApprovals usage <= nts_PendingApprovalsLimit spec)) /\
      forall v, v ∈ enf_Violations r <->
        (v = mkViolation "activePlans" (us_ActivePlans usage) (nts_ActivePlansLimit spec)
               "active RemediationPlan count exceeds namespace threshold" /\
           0 < nts_ActivePlansLimit spec < us_ActivePlans usage) \/
        (v = mkViolation "pendingApprovals" (us_PendingApprovals usage)
               (nts_PendingApprovalsLimit spec)
               "pending approval count exceeds namespace threshold" /\
           0 < nts_PendingApprovalsLimit spec < us_PendingApprovals usage)
  end.
Proof.
  unfold Evaluate. intros (o & _ & H)%rbind_Ok. destruct o as [res|]; simplify_eq/=; [|done].
  rewrite bool_decide_eq_true. split; [done|].
  set (spec := nth_Spec (res_Threshold res)). unfold usageViolations.
  destruct (Z.ltb_spec 0 (nts_ActivePlansLimit spec)),
    (Z.ltb_spec (nts_ActivePlansLimit spec) (us_ActivePlans usage)),
    (Z.ltb_spec 0 (nts_PendingApprovalsLimit spec)),
    (Z.ltb_spec (nts_PendingApprovalsLimit spec) (us_PendingApprovals usage)); simpl;
    (split; [split; [intros; split; intros; try done; lia|intros []; try done; exfalso; lia]|]);
    intros v; rewrite ?elem_of_cons, ?elem_of_nil;
    (split; [intros; destruct_or?; subst; auto; try done
            |intros [[-> ?]|[-> ?]]; auto; exfalso; lia]).
Qed.
End ThresholdProperties.

(** ** Examples *)

Section Witnesses.
#[local] Existing Instance label_subset.

Definition sample_threshold (name : string) (limit priority : Z) : NamespaceThreshold selector :=
  mkNamespaceThreshold (sample_meta "prod" name)
    (mkNamespaceThresholdSpec None limit 0 3600 600 "" priority true) "".
Definition sample_thresholds : list (NamespaceThreshold selector) :=
  [sample_threshold "low" 9 1; sample_threshold "high" 2 5].
Definition sample_resolve : ResolveRequest := mkResolveRequest "prod" ∅.
Definition sample_resolution : Resolution :=
  mkResolution (sample_threshold "high" 2 5)
    (thresholdReference (sample_threshold "high" 2 5) ThresholdMatchDirect).

Lemma resolve_best_witness :
  Resolve (Some (Ok sample_thresholds)) sample_resolve = Ok (Some sample_resolution) /\
  res_Threshold sample_resolution ∈ sample_thresholds.
Proof.
  assert (H : Resolve (Some (Ok sample_thresholds)) sample_resolve = Ok (Some sample_resolution))
    by reflexivity.
  split; [exact H|]. exact (proj1 (resolve_best sample_thresholds sample_resolve _ H)).
Defined.

Lemma enforce_allowed_iff_witness :
  exists r, Evaluate (Some (Ok sample_thresholds)) sample_resolve (mkUsage 3 0) = Ok r /\
    enf_Allowed r = false /\ enf_Violations r <> [].
Proof.
  set (r := mkEnforcementResult false
              (usageViolations (nth_Spec (sample_threshold "high" 2 5)) (mkUsage 3 0))
              (Some sample_resolution)).
  assert (H : Evaluate (Some (Ok sample_thresholds)) sample_resolve (mkUsage 3 0) = Ok r) by reflexivity.
  exists r. split; [exact H|]. split; [reflexivity|]. intros E.
  destruct (enforce_allowed_iff (Some (Ok sample_thresholds)) sample_resolve (mkUsage 3 0) r H) as [Hiff _].
  apply Hiff in E. discriminate E.
Defined.
End Witnesses.
