(* ===== verification/Escalation.v ===== *)
(** * Escalation routing (internal/escalation/router.go)

    Resolution of the EscalationChain for a resource, by explicit reference or by
    selector. *)

From Stdlib Require Import ZArith Lia.
From stdpp Require Import base list strings gmap.
From S2P Require Import Prelude GoStrings Api.

Record EscalationRequest := mkEscalationRequest {
  erq_Namespace : string;
  erq_EscalationChainRef : string;
  erq_ResourceLabels : gmap string string
}.

Record ChainReference := mkChainReference {
  cref_APIVersion : string;
  cref_Kind : string;
  cref_Name : string;
  cref_Namespace : string;
  cref_UID : string;
  cref_ResourceVersion : string;
  cref_Generation : Z;
  cref_Version : string;
  cref_Priority : Z
}.

Section Escalation.
Context {U : UnicodeTables} {LS : LabelSelectors}.
Implicit Types (chain : EscalationChain selector) (request : EscalationRequest).

Record Route := mkRoute { route_Chain : EscalationChain selector; route_Reference : ChainReference }.

(** The Kubernetes reader: [List] in a namespace and [Get] by name. *)
Record ChainReader := mkChainReader {
  cr_List : string -> result (list (EscalationChain selector));
  cr_Get : string -> string -> result (EscalationChain selector)
}.

(** A nil ResourceSelector applies to all resources. *)
Definition chainSelectorMatches (sel : option selector) (values : gmap string string) : result bool :=
  match sel with
  | None => Ok true
  | Some s => converted <-! LabelSelectorAsSelector s; Ok (converted values)
  end.

Definition chainUsable chain : bool :=
  ech_Enabled chain && (ech_StatusPhase chain != "Invalid") && (ech_StatusPhase chain != "Disabled").

Definition routeForChain chain : Route :=
  let m := ech_Meta chain in
  mkRoute chain
    (mkChainReference "aiops.platform/v1alpha1" "EscalationChain" (om_Name m) (om_Namespace m)
       (om_UID m) (om_ResourceVersion m) (om_Generation m)
       (if om_ResourceVersion m == "" then "generation-" +:+ itoa (om_Generation m)
        else om_ResourceVersion m)
       (ech_Priority chain)).

Definition chainSpecific chain : bool := bool_decide (is_Some (ech_ResourceSelector chain)).
Definition chainName chain : string := om_Name (ech_Meta chain).

Definition chainLess (a b : EscalationChain selector) : bool :=
  if negb (ech_Priority a =? ech_Priority b) then ech_Priority b <? ech_Priority a
  else if xorb (chainSpecific a) (chainSpecific b) then chainSpecific a
  else str_ltb (chainName a) (chainName b).

Definition chainCandidate request chain : result (option (EscalationChain selector)) :=
  if negb (chainUsable chain) then Ok None
  else
    matched <-! rmap_err (wrapf ("match EscalationChain " +:+ om_Namespace (ech_Meta chain)
                            +:+ "/" +:+ om_Name (ech_Meta chain)))
                  (chainSelectorMatches (ech_ResourceSelector chain) (erq_ResourceLabels request));
    Ok (if matched : bool then Some chain else None).

Definition resolveReference (r : ChainReader) (namespace name : string) : result (option Route) :=
  match cr_Get r namespace name with
  | Err e =>
      if is_not_found e
      then Err (errorf ("referenced EscalationChain " +:+ namespace +:+ "/" +:+ name +:+ " was not found"))
      else Err (wrapf ("get EscalationChain " +:+ namespace +:+ "/" +:+ name) e)
  | Ok chain =>
      if negb (chainUsable chain)
      then Err (errorf ("referenced EscalationChain " +:+ namespace +:+ "/" +:+ name
                          +:+ " is disabled or invalid"))
      else Ok (Some (routeForChain chain))
  end.

Definition resolveRoute (reader : option ChainReader) request : result (option Route) :=
  match reader with
  | None => Err (errorf "escalation router requires a Kubernetes reader")
  | Some r =>
      if erq_EscalationChainRef request != "" then
        resolveReference r (erq_Namespace request) (erq_EscalationChainRef request)
      else
        chains <-! rmap_err (wrapf ("list EscalationChain resources in namespace "
                               +:+ quote (erq_Namespace request)))
                     (cr_List r (erq_Namespace request));
        matches <-! collect (chainCandidate request) chains;
        Ok (match sort_stable chainLess matches with
            | [] => None
            | c :: _ => Some (routeForChain c)
            end)
  end.

Definition ResolveForPolicy (reader : option ChainReader) (namespace : string)
    (config : option EscalationConfig) (resourceLabels : gmap string string) : result (option Route) :=
  match config with
  | None => Ok None
  | Some c => resolveRoute reader (mkEscalationRequest namespace (ec_EscalationChainRef c) resourceLabels)
  end.

#[export] Instance chainLess_weak : StrictWeak chainLess.
Proof.
  apply (lex_desc ech_Priority), (lex_flag chainSpecific), (strict_weak_key chainName str_ltb).
Qed.

Lemma chainCandidate_Some request chain c :
  chainCandidate request chain = Ok (Some c) <->
  c = chain /\ chainUsable chain = true /\
  chainSelectorMatches (ech_ResourceSelector chain) (erq_ResourceLabels request) = Ok true.
Proof.
  unfold chainCandidate. destruct (chainUsable chain); simpl; [|naive_solver].
  destruct (chainSelectorMatches _ _) as [[]|e]; simpl; naive_solver.
Qed.
End Escalation.

Section EscalationProperties.
Context {U : UnicodeTables} {LS : LabelSelectors}.

(** An explicit chain reference is authoritative: it yields a route only for
    the named chain, and only when that chain is enabled, neither Invalid nor
    Disabled; every other outcome is an error, never a silent fallback to a
    selector match nor an empty route. *)
Theorem explicit_reference_authoritative (r : ChainReader) request o :
  erq_EscalationChainRef request <> "" ->
  resolveRoute (Some r) request = Ok o ->
  exists chain, cr_Get r (erq_Namespace request) (erq_EscalationChainRef request) = Ok chain /\
    chainUsable chain = true /\ o = Some (routeForChain chain).
Proof.
  intros Href. unfold resolveRoute. apply String.eqb_neq in Href. rewrite Href. simpl.
  unfold resolveReference. destruct (cr_Get r _ _) as [chain|e]; [|by case_match].
  destruct (chainUsable chain) eqn:E; simpl; [|done]. intros [= <-]. eauto.
Qed.

(** Without a reference, the route is the chain of the request's namespace
    listing that is usable and matches the resource labels, with the highest
    priority, a chain with a selector before a catch-all one, then the least
    name; there is no route only when no listed chain is usable and matches. *)
Theorem selector_route_best (r : ChainReader) request (chains : list (EscalationChain selector)) o :
  erq_EscalationChainRef request = "" ->
  cr_List r (erq_Namespace request) = Ok chains ->
  resolveRoute (Some r) request = Ok o ->
  match o with
  | None => forall c, c ∈ chains -> chainCandidate request c = Ok None
  | Some route =>
      exists c, c ∈ chains /\ route = routeForChain c /\ chainUsable c = true /\
        chainSelectorMatches (ech_ResourceSelector c) (erq_ResourceLabels request) = Ok true /\
        forall c', c' ∈ chains -> chainUsable c' = true ->
          chainSelectorMatches (ech_ResourceSelector c') (erq_ResourceLabels request) = Ok true ->
          chainLess c' c = false
  end.
Proof.
  intros Href Hlist. unfold resolveRoute. rewrite Href. simpl. rewrite Hlist. simpl.
  intros (ms & Hms & [= <-])%rbind_Ok.
  destruct (sort_stable chainLess ms) as [|c cs] eqn:Hs.
  - apply sort_stable_nil in Hs as ->. intros c Hc.
    destruct (collect_no_error _ _ _ _ Hms Hc) as [[c'|] Hc']; [|done].
    assert (c' ∈ []) as ?%not_elem_of_nil; [|done]. apply (collect_elem _ _ _ _ Hms). eauto.
  - destruct (sort_stable_head _ _ _ _ Hs) as [Hin Hbest].
    apply (collect_elem _ _ _ _ Hms) in Hin as (c0 & Hc0 & (-> & ? & ?)%chainCandidate_Some).
    exists c0. split_and!; [done..|]. intros c' Hc' Hu Hm. apply Hbest.
    apply (collect_elem _ _ _ _ Hms). exists c'. split; [done|]. by apply chainCandidate_Some.
Qed.
End EscalationProperties.

(** ** Examples *)

Section Witnesses.
#[local] Existing Instance plain_tables.
#[local] Existing Instance label_subset.

Definition sample_chain (name : string) (priority : Z) : EscalationChain selector :=
  mkEscalationChain (sample_meta "prod" name) None priority [mkEscalationStage "oncall" 0 "" 60] true "".
Definition sample_reader : ChainReader :=
  mkChainReader (fun _ => Ok [sample_chain "a" 1; sample_chain "b" 2])
    (fun _ name => Ok (sample_chain name 1)).

Lemma explicit_reference_authoritative_witness :
  exists chain, cr_Get sample_reader "prod" "x" = Ok chain /\ chainUsable chain = true /\
    Some (routeForChain (sample_chain "x" 1)) = Some (routeForChain chain).
Proof.
  apply (explicit_reference_authoritative sample_reader (mkEscalationRequest "prod" "x" ∅));
    [discriminate|reflexivity].
Defined.

Lemma selector_route_best_witness :
  exists c, c ∈ [sample_chain "a" 1; sample_chain "b" 2] /\
    routeForChain (sample_chain "b" 2) = routeForChain c /\ chainUsable c = true.
Proof.
  destruct (selector_route_best sample_reader (mkEscalationRequest "prod" "" ∅)
    [sample_chain "a" 1; sample_chain "b" 2] (Some (routeForChain (sample_chain "b" 2)))
    eq_refl eq_refl eq_refl) as (c & Hc & Hr & Hu & _).
  exists c. split; [exact Hc|]. split; [exact Hr|exact Hu].
Defined.
End Witnesses.
