(* ===== verification/Prog.v ===== *)
(** * Effectful programs

    A handler of the program is a [prog E R]: a tree of the operations [E] it
    performs on the outside world (API server, clock, executors), each
    continued with the answer it gets.  A world is a state type with a
    relation [env w e x w'] saying which answers and next states an operation
    may have; [exec] runs a program in a world and may stop before any
    operation, which is a crash of the process. *)

From stdpp Require Import base list relations.
From S2P Require Import Prelude.

Inductive prog (E : Type -> Type) (R : Type) : Type :=
| Ret (r : R)
| Vis {X : Type} (e : E X) (k : X -> prog E R).
Arguments Ret {E R} _.
Arguments Vis {E R X} _ _.

Fixpoint pbind {E R S} (p : prog E R) (f : R -> prog E S) : prog E S :=
  match p with
  | Ret r => f r
  | Vis e k => Vis e (fun x => pbind (k x) f)
  end.

Definition trigger {E X} (e : E X) : prog E X := Vis e Ret.

Notation "x <~ m ; k" := (pbind m (fun x => k))
  (at level 100, m at level 80, k at level 200, right associativity) : go_scope.
Notation "' p <~ m ; k" := (pbind m (fun x => match x with p => k end))
  (at level 100, p pattern, m at level 80, k at level 200, right associativity) : go_scope.

(** Perform [e], bind the answer. *)
Notation "x <~! e ; k" := (Vis e (fun x => k))
  (at level 100, e at level 80, k at level 200, right associativity) : go_scope.
Notation "' p <~! e ; k" := (Vis e (fun x => match x with p => k end))
  (at level 100, p pattern, e at level 80, k at level 200, right associativity) : go_scope.

Section Exec.
Context {E : Type -> Type} {W : Type} (env : W -> forall X, E X -> X -> W -> Prop).

(** [exec p w o w']: a run of [p] from [w] ends in [w'], with result [o]
    ([None]: the process stopped before finishing). *)
Fixpoint exec {R} (p : prog E R) (w : W) (o : option R) (w' : W) : Prop :=
  (o = None /\ w' = w) \/
  match p with
  | Ret r => o = Some r /\ w' = w
  | Vis e k => exists x w1, env w _ e x w1 /\ exec (k x) w1 o w'
  end.

(** [wp I p w Q]: [I] holds of the world at every point of every run, and [Q]
    of the result and the world at the end. *)
Fixpoint wp {R} (I : W -> Prop) (p : prog E R) (w : W) (Q : R -> W -> Prop) : Prop :=
  I w /\
  match p with
  | Ret r => Q r w
  | Vis e k => forall x w1, env w _ e x w1 -> wp I (k x) w1 Q
  end.

Lemma wp_inv {R} I (p : prog E R) w Q : wp I p w Q -> I w.
Proof. destruct p; simpl; tauto. Qed.

Lemma wp_ret {R} (I : W -> Prop) (r : R) w (Q : R -> W -> Prop) : I w -> Q r w -> wp I (Ret r) w Q.
Proof. simpl. auto. Qed.

Lemma wp_vis {R} (I : W -> Prop) {X} (e : E X) (k : X -> prog E R) w (Q : R -> W -> Prop) :
  I w -> (forall x w1, env w _ e x w1 -> wp I (k x) w1 Q) -> wp I (Vis e k) w Q.
Proof. simpl. auto. Qed.

Lemma wp_mono {R} (I : W -> Prop) (p : prog E R) w (Q Q' : R -> W -> Prop) :
  (forall r w', I w' -> Q r w' -> Q' r w') -> wp I p w Q -> wp I p w Q'.
Proof.
  intros HQ. revert w. induction p as [r|X e k IH]; simpl; intros w [HI H]; split; eauto.
Qed.

Lemma wp_weaken {R} (I I' : W -> Prop) (p : prog E R) w (Q : R -> W -> Prop) :
  (forall w', I w' -> I' w') -> wp I p w Q -> wp I' p w Q.
Proof. intros HI. revert w. induction p; simpl; intros w [? ?]; split; eauto. Qed.

Lemma wp_bind {R S} I (p : prog E R) (f : R -> prog E S) w Q :
  wp I p w (fun r w' => wp I (f r) w' Q) -> wp I (pbind p f) w Q.
Proof.
  revert w. induction p as [r|X e k IH]; simpl; intros w [HI H]; [done|]. eauto.
Qed.

(** Soundness: the invariant holds wherever a run stops, crashes included. *)
Lemma wp_exec {R} I (p : prog E R) w Q o w' :
  wp I p w Q -> exec p w o w' -> I w' /\ forall r, o = Some r -> Q r w'.
Proof.
  revert w. induction p as [r|X e k IH]; simpl; intros w [HI H].
  - intros [[-> ->]|[-> ->]]; (split; [done|]); naive_solver.
  - intros [[-> ->]|(x & w1 & He & Hk)]; [split; [done|naive_solver]|]. eauto.
Qed.

Lemma exec_bind {R S} (p : prog E R) (f : R -> prog E S) w r w1 o w2 :
  exec p w (Some r) w1 -> exec (f r) w1 o w2 -> exec (pbind p f) w o w2.
Proof.
  revert w. induction p as [r'|X e k IH]; simpl; intros w.
  - intros [[? ?]|[[= ->] ->]]; done.
  - intros [[? ?]|(x & w' & ? & ?)] ?; [done|]. right. eauto.
Qed.
End Exec.

(** ** Deterministic evaluation, for concrete runs

    A handler answers an operation or stops the process. *)

Section Run.
Context {E : Type -> Type} {W : Type} (h : W -> forall X, E X -> option (X * W)).

Fixpoint run {R} (p : prog E R) (w : W) : option R * W :=
  match p with
  | Ret r => (Some r, w)
  | Vis e k =>
      match h w _ e with
      | None => (None, w)
      | Some (x, w') => run (k x) w'
      end
  end.

Lemma run_exec (env : W -> forall X, E X -> X -> W -> Prop) {R} (p : prog E R) w :
  (forall w X (e : E X) x w', h w X e = Some (x, w') -> env w X e x w') ->
  exec env p w (run p w).1 (run p w).2.
Proof.
  intros Hh. revert w. induction p as [r|X e k IH]; simpl; intros w; [auto|].
  destruct (h w X e) as [[x w']|] eqn:He; [|by left]. right. exists x, w'. split; [by apply Hh|apply IH].
Qed.
End Run.

(** ** Operations a program may perform

    [may_do P p]: whatever the answers, every operation [p] performs satisfies [P]. *)
Fixpoint may_do {E R} (P : forall X, E X -> Prop) (p : prog E R) : Prop :=
  match p with
  | Ret _ => True
  | Vis e k => P _ e /\ forall x, may_do P (k x)
  end.

Lemma may_do_vis {E R} (P : forall X, E X -> Prop) {X} (e : E X) (k : X -> prog E R) :
  P _ e -> (forall x, may_do P (k x)) -> may_do P (Vis e k).
Proof. simpl. auto. Qed.

Lemma may_do_bind {E R S} P (p : prog E R) (f : R -> prog E S) :
  may_do P p -> (forall r, may_do P (f r)) -> may_do P (pbind p f).
Proof. induction p as [r|X e k IH]; simpl; [auto|]. intros [? ?] ?. split; [done|]. eauto. Qed.

(** [ends Q p]: whatever the answers, the result of [p] satisfies [Q]. *)
Fixpoint ends {E R} (Q : R -> Prop) (p : prog E R) : Prop :=
  match p with
  | Ret r => Q r
  | Vis e k => forall x, ends Q (k x)
  end.

Lemma ends_bind {E R S} (Q : S -> Prop) (p : prog E R) (f : R -> prog E S) :
  ends (fun r => ends Q (f r)) p -> ends Q (pbind p f).
Proof. induction p; simpl; auto. Qed.

Lemma ends_mono {E R} (Q Q' : R -> Prop) (p : prog E R) : (forall r, Q r -> Q' r) -> ends Q p -> ends Q' p.
Proof. intros H. induction p; simpl; auto. Qed.

(** The program with its operations renamed, as part of a larger one. *)
Fixpoint translate {E F R} (f : forall X, E X -> F X) (p : prog E R) : prog F R :=
  match p with
  | Ret r => Ret r
  | Vis e k => Vis (f _ e) (fun x => translate f (k x))
  end.

(** Steps of a [wp] proof: the invariant where the operation starts, then its answer. *)
Ltac wp_step_tac := simpl; split; [by auto|].
Tactic Notation "wp_step" "as" ident(x) ident(w) := wp_step_tac; intros x w; simpl.
Ltac wp_done := simpl; split; [by auto|].

(** ** Logged runs

    The world that accepts every answer and records what happened: a property of
    all runs of a program, in any environment, is a property of its logs. *)

Inductive event (E : Type -> Type) :=
  | Ev (X : Type) (e : E X) (x : X).
Arguments Ev {E X} _ _.

Definition log_env {E} (log : list (event E)) (X : Type) (e : E X) (x : X) (log' : list (event E)) : Prop :=
  log' = log ++ [Ev e x].

(** A run of the program with its log; without a result it stopped on the way. *)
Definition logged {E R} (p : prog E R) (o : option R) (log : list (event E)) : Prop := exec log_env p [] o log.

Section Justified.
Context {E : Type -> Type} (J : list (event E) -> event E -> Prop).

(** Every event is justified by those before it. *)
Definition all_justified (log : list (event E)) : Prop :=
  forall before ev after, log = before ++ ev :: after -> J before ev.

Lemma all_justified_nil : all_justified [].
Proof. intros [|? ?] ev after H; done. Qed.

Lemma all_justified_snoc log ev : all_justified log -> J log ev -> all_justified (log ++ [ev]).
Proof.
  intros Hl Hev before ev' after Heq. destruct (decide (after = [])) as [->|Hne].
  - apply app_inj_tail in Heq as [-> ->]. done.
  - destruct (exists_last Hne) as (after' & last & ->). rewrite app_comm_cons, app_assoc in Heq.
    apply app_inj_tail in Heq as [-> _]. by eapply Hl.
Qed.

(** Steps of a proof about logs. *)
Lemma wp_event {R X} (e : E X) (k : X -> prog E R) log Q :
  all_justified log -> (forall x, J log (Ev e x)) ->
  (forall x, all_justified (log ++ [Ev e x]) -> wp log_env all_justified (k x) (log ++ [Ev e x]) Q) ->
  wp log_env all_justified (Vis e k) log Q.
Proof.
  intros Hl He Hk. apply wp_vis; [done|]. intros x log' ->. apply Hk. by apply all_justified_snoc.
Qed.

(** A part all of whose operations are justified in any log. *)
Lemma wp_translate {F R} (f : forall X, F X -> E X) (p : prog F R) log (Q : R -> Prop) :
  ends Q p -> (forall log X e x, J log (Ev (f X e) x)) -> all_justified log ->
  wp log_env all_justified (translate f p) log (fun r _ => Q r).
Proof.
  intros Hq Hj. revert log. induction p as [r|X e k IH]; cbn; intros log Hl; [by split|].
  split; [done|]. intros x log' ->. apply IH; [apply Hq|by apply all_justified_snoc].
Qed.

Lemma logged_justified {R} (p : prog E R) o log :
  wp log_env all_justified p [] (fun _ _ => True) -> logged p o log -> all_justified log.
Proof. intros Hp Hrun. by apply (wp_exec _ _ _ _ _ _ _ Hp) in Hrun as [? _]. Qed.
End Justified.

(** [log'] continues [log]. *)
Definition continues {E} (log log' : list (event E)) : Prop := exists l, log' = log ++ l.

#[export] Instance continues_preorder {E} : PreOrder (@continues E).
Proof.
  split; [intros l; exists []; by rewrite app_nil_r|]. intros a b c [l ->] [m ->]. exists (l ++ m). by rewrite app_assoc.
Qed.

Lemma continues_elem {E} (log log' : list (event E)) ev : continues log log' -> ev ∈ log -> ev ∈ log'.
Proof. intros [l ->] H. apply elem_of_app. by left. Qed.

Lemma continues_snoc {E} (log : list (event E)) ev : continues log (log ++ [ev]).
Proof. by exists [ev]. Qed.

Lemma snoc_elem {E} (log : list (event E)) ev : ev ∈ log ++ [ev].
Proof. apply elem_of_app. right. apply list_elem_of_here. Qed.

(** Every program only extends the log. *)
Lemma wp_continues {E R} I (p : prog E R) log (Q : R -> list (event E) -> Prop) :
  wp log_env I p log Q -> wp log_env I p log (fun r log' => Q r log' /\ continues log log').
Proof.
  revert log. induction p as [r|X e k IH]; simpl; intros log [HI H].
  - by split.
  - split; [done|]. intros x log' ->. eapply wp_mono; [|apply IH, H; reflexivity].
    intros r log' _ [? ?]. split; [done|]. etrans; [apply continues_snoc|done].
Qed.

Lemma wp_any {E R} (p : prog E R) log : wp log_env (fun _ => True) p log (fun _ _ => True).
Proof. revert log. induction p as [r|X e k IH]; simpl; intros log; [done|]. split; [done|]. intros x log' _. apply IH. Qed.

(** What the first part establishes and the log it leaves, for the second. *)
Lemma wp_bind_log {E R S} I (p : prog E R) (f : R -> prog E S) log (P : R -> list (event E) -> Prop) Q :
  wp log_env I p log P ->
  (forall r log', I log' -> continues log log' -> P r log' -> wp log_env I (f r) log' Q) ->
  wp log_env I (pbind p f) log Q.
Proof.
  intros Hp Hf. apply wp_bind. eapply wp_mono; [|apply wp_continues, Hp]. intros r log' HI [HP Hc]. by apply Hf.
Qed.

(** Solves [continues log log'] by the steps from [log] to [log']. *)
Ltac log_steps :=
  first [reflexivity | eassumption | etrans; [|apply continues_snoc]; log_steps | etrans; [|eassumption]; log_steps].
