(* ===== verification/Runtime.v ===== *)
(** * What the reconcilers share of controller-runtime

    The result of a reconciliation, controller references, and labels and
    annotations of an object under a mutate function. *)

From stdpp Require Import base list strings gmap.
From S2P Require Import Prelude Api.

(** [ctrl.Result] with the returned error. *)
Record rresult := mkRResult { requeue_after : duration; rec_err : option error }.
Definition done_ok : rresult := mkRResult 0 None.
Definition done_err (e : error) : rresult := mkRResult 0 (Some e).
Definition requeue (d : duration) : rresult := mkRResult d None.
Definition ignoreNotFound (e : error) : rresult :=
  if is_not_found e then done_ok else done_err e.

(** [controllerutil.SetControllerReference(owner, object, scheme)]: the updated
    metadata of the object, or an error when another controller owns it. *)
Class ControllerReferences := {
  SetControllerReference : string -> ObjectMeta -> ObjectMeta -> result ObjectMeta
}.

Definition om_relabel (m : ObjectMeta) (labels annotations : gmap string string) : ObjectMeta :=
  mkObjectMeta (om_Name m) (om_Namespace m) (om_UID m) (om_ResourceVersion m) (om_Generation m)
    labels annotations (om_OwnerReferences m).

(** A controller reference that always takes ownership, for examples. *)
Definition plain_references : ControllerReferences := {|
  SetControllerReference kind owner object :=
    Ok (mkObjectMeta (om_Name object) (om_Namespace object) (om_UID object) (om_ResourceVersion object)
          (om_Generation object) (om_Labels object) (om_Annotations object)
          (mkOwnerReference kind (om_Name owner) (om_UID owner) (Some true) :: om_OwnerReferences object))
|}.
