(* ===== verification/Digest.v ===== *)
(** * Canonical digests (internal/canonicaldigest)

    [canonicaldigest.String(c, v)] marshals [v] to JSON, decodes it, normalises
    every key and string to NFC, marshals again and hashes the bytes.  The NFC
    tables (golang.org/x/text) and SHA-256 are the parameters [DigestPrims]; the
    encoder of encoding/json and the time format are written out. *)

From Stdlib Require Import ZArith Lia.
From stdpp Require Import base list strings gmap pretty.
From S2P Require Import Prelude GoStrings Api.

(** What a Go value marshals to; the decode keeps the text of a number ([UseNumber]),
    here the text of a float.  Objects list their fields; Go sorts the keys of
    a map and keeps the field order of a struct, and the canonical form sorts all. *)
Inductive json :=
| JNull
| JBool (b : bool)
| JNum (z : Z)
| JFloat (literal : string)
| JStr (s : string)
| JArr (l : list json)
| JObj (l : list (string * json)).

Class DigestPrims := {
  nfc : string -> string;
  sha256_hex : string -> string
}.

(** ** encoding/json *)

Definition json_quote : string := str1 34.

Definition unicode_escape (r : Z) : string := backslash 117 +:+ hex_pad 4 r.

(** The escapes of [json.Marshal] (HTML escaping on). *)
Definition json_escape_seg (seg : Z * string) : string :=
  let '(r, b) := seg in
  if (r =? rune_error) && (String.length b =? 1)%nat then unicode_escape rune_error
  else if (r =? 34) || (r =? 92) then backslash r
  else if r =? 8 then backslash 98 else if r =? 12 then backslash 102
  else if r =? 10 then backslash 110 else if r =? 13 then backslash 114
  else if r =? 9 then backslash 116
  else if (r <? 32) || (r =? 60) || (r =? 62) || (r =? 38) || (r =? 8232) || (r =? 8233)
  then unicode_escape r
  else b.
Definition json_string (s : string) : string :=
  json_quote +:+ str_concat (map json_escape_seg (segments s)) +:+ json_quote.

Definition field_less (a b : string * string) : bool := str_ltb a.1 b.1.

Fixpoint json_text (v : json) : string :=
  match v with
  | JNull => "null"
  | JBool b => if b then "true" else "false"
  | JNum z => itoa z
  | JFloat literal => literal
  | JStr s => json_string s
  | JArr l => "[" +:+ join "," (map json_text l) +:+ "]"
  | JObj l =>
      let fields := (fix go l := match l with
                                 | [] => []
                                 | (k, x) :: l' => (k, json_text x) :: go l'
                                 end) l in
      "{" +:+ join "," (map (fun f => json_string f.1 +:+ ":" +:+ f.2) (sort_stable field_less fields))
        +:+ "}"
  end.

(** ** CanonicalJSON and String *)

Section Canonical.
Context {D : DigestPrims}.

(** A string after the decode of the first pass: invalid bytes became U+FFFD. *)
Definition decoded_string (s : string) : string :=
  str_concat (map (fun seg => encode_rune seg.1) (segments s)).

Definition normalize_string (s : string) : string := nfc (decoded_string s).

Fixpoint normalize (v : json) : json :=
  match v with
  | JStr s => JStr (normalize_string s)
  | JArr l => JArr (map normalize l)
  | JObj l =>
      JObj ((fix go l := match l with
                         | [] => []
                         | (k, x) :: l' => (normalize_string k, normalize x) :: go l'
                         end) l)
  | _ => v
  end.

Definition CanonicalJSON (v : json) : string := json_text (normalize v).

Definition AlgorithmSHA256 : string := "sha256".
Definition RCAJSONV1 : string := "fluxseer-rca-json-v1".

(** The canonicalization name labels the result and is not hashed. *)
Definition digestString (canonicalization : string) (v : json) : string :=
  AlgorithmSHA256 +:+ ":" +:+ sha256_hex (CanonicalJSON v).

Lemma append_inj_l (a s t : string) : a +:+ s = a +:+ t -> s = t.
Proof. induction a as [|c a IH]; simpl; [done|]. intros [= H]. by apply IH. Qed.

(** Equal digests mean equal canonical JSON, for a collision-free hash. *)
Lemma digestString_inj c1 c2 v1 v2 :
  (forall x y, sha256_hex x = sha256_hex y -> x = y) ->
  digestString c1 v1 = digestString c2 v2 -> CanonicalJSON v1 = CanonicalJSON v2.
Proof. intros Hinj H. apply Hinj. unfold digestString in H. by do 2 apply append_inj_l in H. Qed.
End Canonical.

(** ** CanonicalTime: RFC 3339 with nanoseconds, UTC *)

Definition pad (n : nat) (z : Z) : string :=
  let s := itoa z in
  str_concat (replicate (n - String.length s) "0") +:+ s.

(** Year, month and day of the [days]-th day after 0001-01-01 (proleptic Gregorian). *)
Definition civil (days : Z) : Z * Z * Z :=
  let z := days + 306 in
  let era := z / 146097 in
  let doe := z mod 146097 in
  let yoe := (doe - doe / 1460 + doe / 36524 - doe / 146096) / 365 in
  let doy := doe - (365 * yoe + yoe / 4 - yoe / 100) in
  let mp := (5 * doy + 2) / 153 in
  let d := doy - (153 * mp + 2) / 5 + 1 in
  let m := if mp <? 10 then mp + 3 else mp - 9 in
  (yoe + era * 400 + (if m <=? 2 then 1 else 0), m, d).

Fixpoint strip_zeros (l : list Ascii.ascii) : list Ascii.ascii :=
  match l with
  | c :: l' => if byte_val c =? 48 then strip_zeros l' else l
  | [] => []
  end.
Definition fraction (ns : Z) : string :=
  let digits := rev (strip_zeros (rev (String.list_ascii_of_string (pad 9 ns)))) in
  match digits with [] => "" | _ => "." +:+ String.string_of_list_ascii digits end.

Definition CanonicalTime (t : time) : string :=
  let secs := t / second in
  let '(y, m, d) := civil (secs / 86400) in
  let sod := secs mod 86400 in
  pad 4 y +:+ "-" +:+ pad 2 m +:+ "-" +:+ pad 2 d +:+ "T" +:+ pad 2 (sod / 3600) +:+ ":"
    +:+ pad 2 (sod / 60 mod 60) +:+ ":" +:+ pad 2 (sod mod 60) +:+ fraction (t mod second) +:+ "Z".

(** [t.UTC().Format(time.RFC3339)]: without the fraction of a second. *)
Definition rfc3339_seconds (t : time) : string := CanonicalTime (t - t mod second).

(** ** Marshalling of the structs that are digested *)

(** A field with [omitempty]. *)
Definition str_field (key value : string) : list (string * json) :=
  if value == "" then [] else [(key, JStr value)].
Definition int_field (key : string) (value : Z) : list (string * json) :=
  if value =? 0 then [] else [(key, JNum value)].
Definition strings_json (l : list string) : json := JArr (map JStr l).
Definition string_map_json (m : gmap string string) : json :=
  JObj (map (fun kv => (kv.1, JStr kv.2)) (map_to_list m)).

Definition target_ref_json (t : TargetRef) : json :=
  JObj (str_field "cluster" (tr_Cluster t) ++ str_field "namespace" (tr_Namespace t)
     ++ str_field "kind" (tr_Kind t) ++ str_field "name" (tr_Name t)
     ++ str_field "apiVersion" (tr_APIVersion t) ++ str_field "service" (tr_Service t)).

Definition agent_action_spec_json (s : AgentActionSpec) : json :=
  JObj ([("target", target_ref_json (as_Target s)); ("actionType", JStr (as_ActionType s))]
     ++ (if bool_decide (as_Parameters s = ∅) then []
         else [("parameters", string_map_json (as_Parameters s))])
     ++ str_field "approvedBy" (as_ApprovedBy s) ++ str_field "dryRunResult" (as_DryRunResult s)
     ++ int_field "ttlSeconds" (as_TTLSeconds s)
     ++ int_field "approvalTimeoutSeconds" (as_ApprovalTimeoutSeconds s)
     ++ match as_RollbackPlan s with [] => [] | l => [("rollbackPlan", strings_json l)] end).

Definition resource_ref_json (r : ResourceRef) : json :=
  JObj [("cluster", JStr (rr_Cluster r)); ("namespace", JStr (rr_Namespace r));
        ("kind", JStr (rr_Kind r)); ("name", JStr (rr_Name r));
        ("apiVersion", JStr (rr_APIVersion r)); ("service", JStr (rr_Service r))].

Definition health_condition_json (c : HealthCondition) : json :=
  JObj (str_field "type" (hc_Type c) ++ str_field "status" (hc_Status c)
     ++ str_field "reason" (hc_Reason c) ++ str_field "message" (hc_Message c)).

Definition health_snapshot_json (h : HealthSnapshot) : json :=
  JObj (int_field "generation" (hs_Generation h)
     ++ int_field "observedGeneration" (hs_ObservedGeneration h)
     ++ int_field "desiredReplicas" (hs_DesiredReplicas h)
     ++ int_field "updatedReplicas" (hs_UpdatedReplicas h)
     ++ int_field "availableReplicas" (hs_AvailableReplicas h)
     ++ int_field "readyReplicas" (hs_ReadyReplicas h)
     ++ match hs_Conditions h with [] => [] | l => [("conditions", JArr (map health_condition_json l))] end).

(** An instance for evaluation: no NFC tables, and the identity as "hash". *)
Definition plain_digest : DigestPrims := {| nfc := id; sha256_hex := id |}.
