(* ===== verification/Executor.v ===== *)
(** * Executors (internal/executor)

    The execution request and its deterministic identity (contract.go), the
    router, and the four backends (router.go, notification.go) as programs over
    the operations they perform: the clock, the Deployment reads and merge
    patches of the Kubernetes client, and the webhook delivery. *)

From Stdlib Require Import ZArith Lia.
From stdpp Require Import base list strings gmap.
From S2P Require Import Prelude GoStrings Api Prog Digest.

(** ** Requests and results (contract.go) *)

Definition ExecutorIdentityJSONV1 : string := "fluxseer-rca-executor-identity-v1".

Record PolicySnapshot := mkPolicySnapshot {
  snap_Reference : string;
  snap_Version : string;
  snap_Digest : string;
  snap_ObservedGeneration : Z
}.
Definition zeroPolicySnapshot : PolicySnapshot := mkPolicySnapshot "" "" "" 0.

(** [Parameters map[string]any] only ever holds the strings of [StringParameters]. *)
Record ExecutorRequest := mkExecutorRequest {
  xq_ExecutionID : string;
  xq_IdempotencyKey : string;
  xq_ActionDigest : string;
  xq_ActionType : string;
  xq_ActionIndex : Z;
  xq_Target : ResourceRef;
  xq_TargetUID : string;
  xq_Parameters : gmap string string;
  xq_ApprovedPolicySnapshot : PolicySnapshot;
  xq_ApprovedBy : string;
  xq_DryRunResult : string;
  xq_RollbackPlan : list string;
  xq_Timeout : duration;
  xq_Attempt : Z
}.

Record IdentityInput := mkIdentityInput {
  ii_ActionRef : string;
  ii_AgentActionUID : string;
  ii_Generation : Z;
  ii_ActionIndex : Z;
  ii_Target : ResourceRef;
  ii_TargetUID : string;
  ii_ActionDigest : string;
  ii_ActionType : string;
  ii_Parameters : gmap string string
}.

Record ExecutionIdentity := mkExecutionIdentity { id_ExecutionID : string; id_IdempotencyKey : string }.

(** [StringParameters] maps an empty map to nil, which marshals to [null]. *)
Definition StringParameters (values : gmap string string) : gmap string string := values.
Definition parameters_json (m : gmap string string) : json :=
  if bool_decide (m = ∅) then JNull else string_map_json m.

Definition identity_input_json (i : IdentityInput) : json :=
  JObj [("ActionRef", JStr (ii_ActionRef i)); ("AgentActionUID", JStr (ii_AgentActionUID i));
        ("Generation", JNum (ii_Generation i)); ("ActionIndex", JNum (ii_ActionIndex i));
        ("Target", resource_ref_json (ii_Target i)); ("TargetUID", JStr (ii_TargetUID i));
        ("ActionDigest", JStr (ii_ActionDigest i)); ("ActionType", JStr (ii_ActionType i));
        ("Parameters", parameters_json (ii_Parameters i))].

Record ExecBaseline := mkExecBaseline {
  xb_CapturedAt : time;
  xb_Target : ResourceRef;
  xb_TargetUID : string;
  xb_Health : HealthSnapshot;
  xb_Digest : string
}.

(** Zero values of the Go result types. *)
Definition zeroResult : ExecutionResult := mkExecutionResult "" "" "" 0 0 "" false "" "" "" ∅.
Definition zeroHealth : HealthSnapshot := mkHealthSnapshot 0 0 0 0 0 0 [].
Definition zeroBaseline : ExecBaseline := mkExecBaseline 0 (mkResourceRef "" "" "" "" "" "") "" zeroHealth "".

(** ** Deployments and the operations of the backends *)

Record DeploymentCondition := mkDeploymentCondition {
  dcond_Type : string;
  dcond_Status : string;
  dcond_Reason : string;
  dcond_Message : string
}.

(** The fields of [appsv1.Deployment] the executor reads or writes. *)
Record Deployment := mkDeployment {
  dep_Namespace : string;
  dep_Name : string;
  dep_UID : string;
  dep_Generation : Z;
  dep_Replicas : option Z;
  dep_TemplateAnnotations : gmap string string;
  dep_ObservedGeneration : Z;
  dep_UpdatedReplicas : Z;
  dep_AvailableReplicas : Z;
  dep_ReadyReplicas : Z;
  dep_Conditions : list DeploymentCondition
}.

Record Message := mkMessage {
  msg_Title : string;
  msg_Summary : string;
  msg_Body : string;
  msg_Fields : list (string * json)
}.

Inductive exec_op : Type -> Type :=
| XNow : exec_op time
| XGetDeployment (namespace name : string) : exec_op (result Deployment)
(** [Client.Patch(ctx, modified, client.MergeFrom(original))]. *)
| XPatchDeployment (original modified : Deployment) : exec_op (result Deployment)
| XWebhook (url : string) (message : Message) : exec_op (option error).

Definition xprog := prog exec_op.

(** [Executor] with the optional interfaces a backend may implement
    ([ExecutionResolver], [BaselineCapturer], [HealthObserver]). *)
Record Executor := mkExecutor {
  xe_Name : string;
  xe_Execute : ExecutorRequest -> xprog (ExecutionResult * option error);
  xe_Resolve : option (ExecutorRequest -> xprog (ExecutionResult * bool * option error));
  xe_CaptureBaseline : option (ExecutorRequest -> xprog (ExecBaseline * bool * option error));
  xe_ObserveHealth : option (ExecutorRequest -> xprog (HealthSnapshot * bool * option error))
}.

Definition KubernetesRolloutRestartAction : string := "kubernetes.rolloutRestart".
Definition kubernetesRestartedByAnnotation : string := "fluxseer.io/restarted-by".
Definition KubernetesExecutionIDAnnotation : string := "fluxseer.io/execution-id".

Definition set_template_annotations (d : Deployment) (m : gmap string string) : Deployment :=
  mkDeployment (dep_Namespace d) (dep_Name d) (dep_UID d) (dep_Generation d) (dep_Replicas d) m
    (dep_ObservedGeneration d) (dep_UpdatedReplicas d) (dep_AvailableReplicas d)
    (dep_ReadyReplicas d) (dep_Conditions d).

Section Executors.
Context {U : UnicodeTables} {D : DigestPrims}.
Implicit Type action : ExecutorRequest.

Definition BuildExecutionIdentity (input : IdentityInput) : ExecutionIdentity :=
  let digest := digestString ExecutorIdentityJSONV1 (identity_input_json input) in
  let hexDigest := trim_prefix digest (AlgorithmSHA256 +:+ ":") in
  let shortDigest := if 32 <? str_len hexDigest then str_take 32 hexDigest else hexDigest in
  mkExecutionIdentity ("exec-" +:+ shortDigest) digest.

(** *** The Kubernetes backend *)

Definition validateKubernetesRestartRequest action : option error :=
  let t := xq_Target action in
  if xq_ActionType action != KubernetesRolloutRestartAction then
    Some (errorf ("unsupported Kubernetes action type " +:+ quote (xq_ActionType action)))
  else if rr_Kind t != "Deployment" then
    Some (errorf ("rollout restart requires Deployment target, got " +:+ quote (rr_Kind t)))
  else if (rr_APIVersion t != "") && (rr_APIVersion t != "apps/v1") then
    Some (errorf ("rollout restart requires apps/v1 target, got " +:+ quote (rr_APIVersion t)))
  else if (rr_Namespace t == "") || (rr_Name t == "") then
    Some (errorf "rollout restart requires namespace and name")
  else if xq_TargetUID action == "" then
    Some (errorf "rollout restart requires target UID")
  else if (xq_ExecutionID action == "") || (xq_IdempotencyKey action == "") then
    Some (errorf "rollout restart requires execution and idempotency identity")
  else None.

Definition kubernetesExecutorName : string := "kubernetes-executor".

(** The guarded assignment of [StartedAt] leaves the zero time otherwise. *)
Definition kubernetesSuccessResult (executorName : string) action (startedAt finishedAt : time)
    (deployment : Deployment) (summary : string) : ExecutionResult :=
  mkExecutionResult (xq_ExecutionID action) ExecutionOutcomeSucceeded ""
    (if is_zero_time startedAt then 0 else startedAt) finishedAt
    ("apps/v1/Deployment/" +:+ dep_Namespace deployment +:+ "/" +:+ dep_Name deployment) false
    executorName "succeeded" summary
    {[ "target" := dep_Name deployment; "targetUID" := dep_UID deployment;
       "executionID" := xq_ExecutionID action ]}.

Definition kubernetesFailureResult (executorName : string) action (startedAt finishedAt : time)
    (reason : string) (err : error) : ExecutionResult :=
  mkExecutionResult (xq_ExecutionID action) ExecutionOutcomeFailed reason
    (if is_zero_time startedAt then 0 else startedAt) finishedAt "" false
    executorName "failed" (err_msg err) ∅.

Definition with_outcome (r : ExecutionResult) (outcome : string) : ExecutionResult :=
  mkExecutionResult (xr_ExecutionID r) outcome (xr_FailureReason r) (xr_StartedAt r)
    (xr_FinishedAt r) (xr_ExternalRef r) (xr_Retryable r) (xr_Executor r) (xr_Status r)
    (xr_Summary r) (xr_Outputs r).

Definition simulatedResult action (startedAt finishedAt : time) : ExecutionResult :=
  mkExecutionResult (xq_ExecutionID action) ExecutionOutcomeSucceeded "" startedAt finishedAt "" false
    kubernetesExecutorName "succeeded"
    ("Simulated " +:+ xq_ActionType action +:+ " on " +:+ rr_Namespace (xq_Target action) +:+ "/"
       +:+ rr_Name (xq_Target action) +:+ " approved by " +:+ xq_ApprovedBy action)
    {[ "target" := rr_Name (xq_Target action); "dryRun" := xq_DryRunResult action ]}.

Definition uidMismatch (prefix : string) action (d : Deployment) : error :=
  errorf (prefix +:+ "target UID mismatch: expected " +:+ quote (xq_TargetUID action) +:+ ", got "
            +:+ quote (dep_UID d)).

Definition targetKey action : string :=
  rr_Namespace (xq_Target action) +:+ "/" +:+ rr_Name (xq_Target action).

(** Both annotations, written over the fetched template annotations. *)
Definition restartAnnotations action (m : gmap string string) : gmap string string :=
  <[KubernetesExecutionIDAnnotation := xq_ExecutionID action]>
    (<[kubernetesRestartedByAnnotation := "fluxseer-rca"]> m).

Definition recordedExecution action (d : Deployment) : bool :=
  match dep_TemplateAnnotations d !! KubernetesExecutionIDAnnotation with
  | Some id => id == xq_ExecutionID action
  | None => bool_decide (dep_TemplateAnnotations d <> ∅) && (xq_ExecutionID action == "")
  end.

Definition kubernetesExecute (hasClient : bool) action : xprog (ExecutionResult * option error) :=
  startedAt <~! XNow;
  if negb hasClient then
    finishedAt <~! XNow; Ret (simulatedResult action startedAt finishedAt, None)
  else
    let failure finishedAt reason err :=
      kubernetesFailureResult kubernetesExecutorName action startedAt finishedAt reason err in
    match validateKubernetesRestartRequest action with
    | Some err => n <~! XNow; Ret (failure n "ValidationFailed" err, Some err)
    | None =>
        got <~! XGetDeployment (rr_Namespace (xq_Target action)) (rr_Name (xq_Target action));
        match got with
        | Err err =>
            n <~! XNow;
            Ret (failure n "TargetNotFound" err, Some (wrapf ("get deployment " +:+ targetKey action) err))
        | Ok deployment =>
            if dep_UID deployment != xq_TargetUID action then
              let err := uidMismatch "" action deployment in
              n <~! XNow; Ret (failure n "TargetUIDMismatch" err, Some err)
            else if recordedExecution action deployment then
              n <~! XNow;
              Ret (kubernetesSuccessResult kubernetesExecutorName action startedAt n deployment
                     "rollout restart already recorded for execution identity", None)
            else
              let modified := set_template_annotations deployment
                                (restartAnnotations action (dep_TemplateAnnotations deployment)) in
              patched <~! XPatchDeployment deployment modified;
              match patched with
              | Err err =>
                  let '(reason, outcome) :=
                    if is_deadline err then ("TimeoutAfterDispatch", ExecutionOutcomeUnknown)
                    else ("KubernetesPatchFailed", ExecutionOutcomeFailed) in
                  n <~! XNow;
                  Ret (with_outcome (failure n reason err) outcome,
                       Some (wrapf ("patch deployment " +:+ targetKey action) err))
              | Ok deployment' =>
                  n <~! XNow;
                  Ret (kubernetesSuccessResult kubernetesExecutorName action startedAt n deployment'
                         "rollout restart annotation applied", None)
              end
        end
    end.

Definition deploymentHealthSnapshot (d : Deployment) : HealthSnapshot :=
  mkHealthSnapshot (dep_Generation d) (dep_ObservedGeneration d)
    (match dep_Replicas d with Some r => r | None => 1 end)
    (dep_UpdatedReplicas d) (dep_AvailableReplicas d) (dep_ReadyReplicas d)
    (map (fun c => mkHealthCondition (dcond_Type c) (dcond_Status c) (dcond_Reason c) (dcond_Message c))
       (dep_Conditions d)).

Definition baseline_json (b : ExecBaseline) : json :=
  JObj [("Target", resource_ref_json (xb_Target b)); ("TargetUID", JStr (xb_TargetUID b));
        ("Health", health_snapshot_json (xb_Health b))].

Definition kubernetesCaptureBaseline (hasClient : bool) action
    : xprog (ExecBaseline * bool * option error) :=
  if negb hasClient then Ret (zeroBaseline, false, None)
  else
    match validateKubernetesRestartRequest action with
    | Some err => Ret (zeroBaseline, false, Some err)
    | None =>
        got <~! XGetDeployment (rr_Namespace (xq_Target action)) (rr_Name (xq_Target action));
        match got with
        | Err err =>
            Ret (zeroBaseline, false, Some (wrapf ("get baseline deployment " +:+ targetKey action) err))
        | Ok d =>
            if dep_UID d != xq_TargetUID action then
              Ret (zeroBaseline, false, Some (uidMismatch "baseline " action d))
            else
              capturedAt <~! XNow;
              let b := mkExecBaseline capturedAt (xq_Target action) (dep_UID d)
                         (deploymentHealthSnapshot d) "" in
              Ret (mkExecBaseline capturedAt (xb_Target b) (xb_TargetUID b) (xb_Health b)
                     (digestString ExecutorIdentityJSONV1 (baseline_json b)), true, None)
        end
    end.

Definition kubernetesObserveHealth (hasClient : bool) action
    : xprog (HealthSnapshot * bool * option error) :=
  if negb hasClient then Ret (zeroHealth, false, None)
  else
    match validateKubernetesRestartRequest action with
    | Some err => Ret (zeroHealth, false, Some err)
    | None =>
        got <~! XGetDeployment (rr_Namespace (xq_Target action)) (rr_Name (xq_Target action));
        match got with
        | Err err =>
            Ret (zeroHealth, false, Some (wrapf ("get observed deployment " +:+ targetKey action) err))
        | Ok d =>
            if dep_UID d != xq_TargetUID action then
              Ret (zeroHealth, false, Some (uidMismatch "observed " action d))
            else Ret (deploymentHealthSnapshot d, true, None)
        end
    end.

Definition kubernetesResolve (hasClient : bool) action
    : xprog (ExecutionResult * bool * option error) :=
  if negb hasClient then Ret (zeroResult, false, None)
  else if xq_ActionType action != KubernetesRolloutRestartAction then Ret (zeroResult, false, None)
  else
    match validateKubernetesRestartRequest action with
    | Some err =>
        Ret (kubernetesFailureResult kubernetesExecutorName action 0 0 "ValidationFailed" err, false, Some err)
    | None =>
        got <~! XGetDeployment (rr_Namespace (xq_Target action)) (rr_Name (xq_Target action));
        match got with
        | Err err => Ret (zeroResult, false, if is_not_found err then None else Some err)
        | Ok d =>
            if dep_UID d != xq_TargetUID action then
              let err := uidMismatch "" action d in
              Ret (kubernetesFailureResult kubernetesExecutorName action 0 0 "TargetUIDMismatch" err,
                   false, Some err)
            else if negb (recordedExecution action d) then Ret (zeroResult, false, None)
            else
              n <~! XNow;
              Ret (kubernetesSuccessResult kubernetesExecutorName action 0 n d
                     "rollout restart recovered by read-after-write", true, None)
        end
    end.

Definition KubernetesExecutor (hasClient : bool) : Executor :=
  mkExecutor kubernetesExecutorName (kubernetesExecute hasClient)
    (Some (kubernetesResolve hasClient)) (Some (kubernetesCaptureBaseline hasClient))
    (Some (kubernetesObserveHealth hasClient)).

(** *** The simulated backends and the notification backend *)

Definition simulatedExecute (name summary : string) (outputs : gmap string string) action
    : xprog (ExecutionResult * option error) :=
  startedAt <~! XNow; finishedAt <~! XNow;
  Ret (mkExecutionResult (xq_ExecutionID action) ExecutionOutcomeSucceeded "" startedAt finishedAt ""
         false name "succeeded" summary outputs, None).

Definition gitOpsExecute action : xprog (ExecutionResult * option error) :=
  simulatedExecute "gitops-executor" ("Simulated GitOps change for " +:+ rr_Name (xq_Target action))
    {[ "branch" := "github.com/FluxSeer/fluxseer-rca/remediation";
       "actionType" := xq_ActionType action ]} action.
Definition GitOpsExecutor : Executor := mkExecutor "gitops-executor" gitOpsExecute None None None.

Definition runbookExecute action : xprog (ExecutionResult * option error) :=
  simulatedExecute "runbook-executor"
    ("Simulated runbook execution for " +:+ rr_Service (xq_Target action))
    {[ "workflow" := "incident-stabilization"; "actionType" := xq_ActionType action ]} action.
Definition RunbookExecutor : Executor := mkExecutor "runbook-executor" runbookExecute None None None.

Definition notificationExecute (webhookURL : string) action : xprog (ExecutionResult * option error) :=
  startedAt <~! XNow;
  let channel := if map_get (xq_Parameters action) "channel" == "" then "webhook"
                 else map_get (xq_Parameters action) "channel" in
  let name := rr_Name (xq_Target action) in
  let simulated := "Simulated notification sent to " +:+ channel +:+ " for " +:+ name in
  let succeed summary :=
    finishedAt <~! XNow;
    Ret (mkExecutionResult (xq_ExecutionID action) ExecutionOutcomeSucceeded "" startedAt finishedAt ""
           false "notification-executor" "succeeded" summary
           {[ "channel" := channel; "actionType" := xq_ActionType action ]}, None) in
  if webhookURL == "" then succeed simulated
  else
    err <~! XWebhook webhookURL
             (mkMessage "FluxSeer RCA Notification" simulated (xq_DryRunResult action)
                [("target", JStr name); ("namespace", JStr (rr_Namespace (xq_Target action)));
                 ("actionType", JStr (xq_ActionType action))]);
    match err with
    | Some e => Ret (zeroResult, Some e)
    | None => succeed ("Webhook notification sent to " +:+ channel +:+ " for " +:+ name)
    end.
Definition NotificationExecutor (webhookURL : string) : Executor :=
  mkExecutor "notification-executor" (notificationExecute webhookURL) None None None.

(** ** The router *)

Record Router := mkRouter {
  rt_Kubernetes : Executor;
  rt_GitOps : Executor;
  rt_Runbook : Executor;
  rt_Notify : Executor
}.

Definition executorFor (r : Router) (actionType : string) : result Executor :=
  if has_prefix actionType "kubernetes." then Ok (rt_Kubernetes r)
  else if has_prefix actionType "gitops." then Ok (rt_GitOps r)
  else if has_prefix actionType "runbook." then Ok (rt_Runbook r)
  else if has_prefix actionType "notification." then Ok (rt_Notify r)
  else Err (errorf ("no executor registered for action type " +:+ quote actionType)).

Definition routerExecute (r : Router) (request : ExecutorRequest)
    : xprog (ExecutionResult * option error) :=
  match executorFor r (xq_ActionType request) with
  | Err e => Ret (zeroResult, Some e)
  | Ok backend => xe_Execute backend request
  end.

(** A backend without the optional interface answers [found = false]. *)
Definition routerOptional {A} (zero : A) (pick : Executor -> option (ExecutorRequest -> xprog (A * bool * option error)))
    (r : Router) (request : ExecutorRequest) : xprog (A * bool * option error) :=
  match executorFor r (xq_ActionType request) with
  | Err e => Ret (zero, false, Some e)
  | Ok backend =>
      match pick backend with
      | None => Ret (zero, false, None)
      | Some f => f request
      end
  end.
Definition routerResolve := routerOptional zeroResult xe_Resolve.
Definition routerCaptureBaseline := routerOptional zeroBaseline xe_CaptureBaseline.
Definition routerObserveHealth := routerOptional zeroHealth xe_ObserveHealth.

(** The router the operator builds (cmd/operator: [executor.NewRouter]). *)
Definition operatorRouter (hasClient : bool) (webhookURL : string) : Router :=
  mkRouter (KubernetesExecutor hasClient) GitOpsExecutor RunbookExecutor (NotificationExecutor webhookURL).
End Executors.

(** ** A cluster of Deployments

    The server side of the two Kubernetes calls: reads answer with the stored
    object or an error; a patch either does not happen, or is applied, and its
    answer may be lost in both cases.  How a merge patch combines with the
    stored object is the API server's: [MergePatch] states what RFC 7386 says. *)

Class MergePatch := {
  merge : Deployment -> Deployment -> Deployment -> Deployment;
  merge_annotations orig new cur key :
    dep_TemplateAnnotations (merge orig new cur) !! key =
      if decide (dep_TemplateAnnotations orig !! key = dep_TemplateAnnotations new !! key)
      then dep_TemplateAnnotations cur !! key else dep_TemplateAnnotations new !! key;
  merge_identity orig new cur :
    dep_Namespace (merge orig new cur) = dep_Namespace cur /\
    dep_Name (merge orig new cur) = dep_Name cur /\ dep_UID (merge orig new cur) = dep_UID cur;
  merge_replicas orig new cur :
    dep_Replicas orig = dep_Replicas new -> dep_Replicas (merge orig new cur) = dep_Replicas cur
}.

Abbreviation cluster := (gmap (string * string) Deployment).

Section Cluster.
Context {U : UnicodeTables} {D : DigestPrims} {M : MergePatch}.
Implicit Types (action : ExecutorRequest) (w : cluster).

Definition cluster_env w (X : Type) (e : exec_op X) : X -> cluster -> Prop :=
  match e in exec_op X return X -> cluster -> Prop with
  | XNow => fun _ w' => w' = w
  | XGetDeployment ns name => fun r w' =>
      w' = w /\ match r with
                | Ok d => w !! (ns, name) = Some d
                | Err e => is_not_found e = true -> w !! (ns, name) = None
                end
  | XPatchDeployment orig new => fun r w' =>
      let key := (dep_Namespace new, dep_Name new) in
      (exists e, r = Err e /\ w' = w) \/
      (exists cur, w !! key = Some cur /\ w' = <[key := merge orig new cur]> w /\
         (r = Ok (merge orig new cur) \/ exists e, r = Err e))
  | XWebhook _ _ => fun _ w' => w' = w
  end.

(** Objects are stored under their own name. *)
Definition well_keyed w : Prop :=
  forall ns name d, w !! (ns, name) = Some d -> dep_Namespace d = ns /\ dep_Name d = name.

Definition runs {R} (p : xprog R) w (o : option R) w' : Prop := exec cluster_env p w o w'.

(** What one effective patch does to the cluster. *)
Definition restarted action w w' : Prop :=
  exists d, let key := (rr_Namespace (xq_Target action), rr_Name (xq_Target action)) in
    w !! key = Some d /\ dep_UID d = xq_TargetUID action /\
    validateKubernetesRestartRequest action = None /\ recordedExecution action d = false /\
    w' = <[key := merge d (set_template_annotations d
                            (restartAnnotations action (dep_TemplateAnnotations d))) d]> w.

Lemma set_template_annotations_ns d m : dep_Namespace (set_template_annotations d m) = dep_Namespace d.
Proof. done. Qed.

Lemma restart_recorded action d :
  validateKubernetesRestartRequest action = None -> recordedExecution action d = false ->
  recordedExecution action (merge d (set_template_annotations d
    (restartAnnotations action (dep_TemplateAnnotations d))) d) = true.
Proof.
  intros Hv Hr. unfold recordedExecution. rewrite merge_annotations. simpl.
  unfold restartAnnotations. rewrite lookup_insert_eq.
  destruct (decide _) as [E|E]; [|by rewrite String.eqb_refl].
  unfold recordedExecution in Hr. rewrite E, String.eqb_refl in Hr. done.
Qed.

Lemma restarted_well_keyed action w w' : well_keyed w -> restarted action w w' -> well_keyed w'.
Proof.
  intros Hk (d & Hd & _ & _ & _ & ->) ns name d'. rewrite lookup_insert_Some.
  intros [[[= <- <-] <-]|[_ ?]]; [|by apply Hk].
  destruct (merge_identity d (set_template_annotations d
    (restartAnnotations action (dep_TemplateAnnotations d))) d) as (-> & -> & _).
  by apply Hk.
Qed.

Lemma restarted_then_recorded action w w' :
  restarted action w w' ->
  exists d, w' !! (rr_Namespace (xq_Target action), rr_Name (xq_Target action)) = Some d /\
    dep_UID d = xq_TargetUID action /\ recordedExecution action d = true.
Proof.
  intros (d & Hd & Hu & Hv & Hr & ->). eexists. rewrite lookup_insert_eq. split; [done|].
  split; [|by apply restart_recorded].
  destruct (merge_identity d (set_template_annotations d
    (restartAnnotations action (dep_TemplateAnnotations d))) d) as (_ & _ & ->). done.
Qed.
Definition target_recorded action w : Prop :=
  exists d, w !! (rr_Namespace (xq_Target action), rr_Name (xq_Target action)) = Some d /\
    dep_UID d = xq_TargetUID action /\ recordedExecution action d = true.

(** What the result of [Execute] says about the run. *)
Definition execute_post action (re : ExecutionResult * option error) w : Prop :=
  let '(r, e) := re in
  xr_ExecutionID r = xq_ExecutionID action /\ xr_Retryable r = false /\
  match e with
  | None => xr_Outcome r = ExecutionOutcomeSucceeded /\
      validateKubernetesRestartRequest action = None /\ target_recorded action w
  | Some err =>
      (xr_Outcome r = ExecutionOutcomeUnknown /\ is_deadline err = true /\
         xr_FailureReason r = "TimeoutAfterDispatch") \/
      (xr_Outcome r = ExecutionOutcomeFailed /\
         (xr_FailureReason r = "KubernetesPatchFailed" -> is_deadline err = false))
  end.

(** Every run of [Execute] leaves the cluster alone or makes that one patch. *)
Lemma kubernetesExecute_wp action w :
  well_keyed w ->
  wp cluster_env (fun w' => w' = w \/ restarted action w w') (kubernetesExecute true action) w
    (execute_post action).
Proof.
  intros Hk. unfold kubernetesExecute. wp_step as st w1. intros ->. simpl.
  destruct (validateKubernetesRestartRequest action) as [err|] eqn:Hv.
  { wp_step as n w1. intros ->. wp_done. split_and!; [done..|right; done]. }
  wp_step as got w1. intros [-> Hg]. destruct got as [d|err].
  2:{ wp_step as n w1. intros ->. wp_done. split_and!; [done..|right; done]. }
  destruct (String.eqb_spec (dep_UID d) (xq_TargetUID action)) as [Hu|Hu]; simpl.
  2:{ split; [by left|]. intros n w1 ->. wp_done. split_and!; [done..|right; done]. }
  destruct (recordedExecution action d) eqn:Hr; simpl.
  { split; [by left|]. intros n w1 ->. wp_done. split_and!; [done..|by exists d]. }
  split; [by left|]. intros pr w1 Hp.
  assert (w1 = w /\ (exists e, pr = Err e) \/ restarted action w w1) as Hw.
  { destruct (Hk _ _ _ Hg) as [Hns Hn].
    destruct Hp as [(e & -> & ->)|(cur & Hcur & -> & _)]; [left; eauto|]. right.
    rewrite Hns, Hn in *. rewrite Hg in Hcur. injection Hcur as <-. by exists d. }
  assert (w1 = w \/ restarted action w w1) as HI by (destruct Hw as [[? _]|?]; auto).
  destruct pr as [d'|err]; [|destruct (is_deadline err) eqn:Hdl]; split;
    (try done); intros n w2 ->; simpl; split_and!; auto.
  destruct Hw as [[_ [? ?]]|?]; [done|]. by eapply restarted_then_recorded.
Qed.

Lemma kubernetesExecute_effect action w o w' :
  well_keyed w -> runs (kubernetesExecute true action) w o w' -> w' = w \/ restarted action w w'.
Proof. intros Hk H. by destruct (wp_exec _ _ _ _ _ _ _ (kubernetesExecute_wp action w Hk) H). Qed.

(** A run that finds its own identity recorded stops there. *)
Lemma recorded_no_effect action w o w' :
  target_recorded action w -> well_keyed w ->
  runs (kubernetesExecute true action) w o w' -> w' = w.
Proof.
  intros (d & Hd & _ & Hr) Hk H.
  destruct (kubernetesExecute_effect _ _ _ _ Hk H) as [->|(d' & Hd' & _ & _ & Hf & _)]; congruence.
Qed.
End Cluster.

(** ** Properties *)

Section ExecutorProperties.
Context {U : UnicodeTables} {D : DigestPrims} {M : MergePatch}.
Implicit Types (action : ExecutorRequest) (w : cluster).

(** Whatever answers get lost and wherever the process stops, a Kubernetes
    execution changes the cluster only if the request is a valid rollout
    restart, the target Deployment exists with exactly the requested UID and
    does not carry the execution ID; then it changes that Deployment only, in
    exactly the two template annotations, and keeps its replicas. *)
Theorem kubernetes_execute_scope action w o w' :
  well_keyed w -> runs (kubernetesExecute true action) w o w' -> w' <> w ->
  validateKubernetesRestartRequest action = None /\
  exists d d', let key := (rr_Namespace (xq_Target action), rr_Name (xq_Target action)) in
    w !! key = Some d /\ dep_UID d = xq_TargetUID action /\ recordedExecution action d = false /\
    w' = <[key := d']> w /\ dep_UID d' = dep_UID d /\ dep_Replicas d' = dep_Replicas d /\
    dep_TemplateAnnotations d' !! KubernetesExecutionIDAnnotation = Some (xq_ExecutionID action) /\
    dep_TemplateAnnotations d' !! kubernetesRestartedByAnnotation = Some "fluxseer-rca" /\
    forall k, k <> KubernetesExecutionIDAnnotation -> k <> kubernetesRestartedByAnnotation ->
      dep_TemplateAnnotations d' !! k = dep_TemplateAnnotations d !! k.
Proof.
  intros Hk H Hne. destruct (kubernetesExecute_effect _ _ _ _ Hk H) as [->|(d & Hd & Hu & Hv & Hr & ->)];
    [done|]. split; [done|].
  set (new := set_template_annotations d (restartAnnotations action (dep_TemplateAnnotations d))).
  exists d, (merge d new d). destruct (merge_identity d new d) as (_ & _ & HU).
  split_and!; [done..| | | |].
  - by apply merge_replicas.
  - rewrite merge_annotations. simpl. unfold restartAnnotations. rewrite lookup_insert_eq. by case_decide.
  - rewrite merge_annotations. simpl. unfold restartAnnotations.
    rewrite lookup_insert_ne, lookup_insert_eq by done. by case_decide.
  - intros k H1 H2. rewrite merge_annotations. simpl. unfold restartAnnotations.
    rewrite !lookup_insert_ne by done. by rewrite decide_True by done.
Qed.

(** A request is executed at most once: if any run of it (finished, failed,
    timed out or interrupted) changed the cluster, every later run with the
    same request leaves the cluster as it is. *)
Theorem kubernetes_execute_idempotent action w o1 w1 o2 w2 :
  well_keyed w -> runs (kubernetesExecute true action) w o1 w1 -> w1 <> w ->
  runs (kubernetesExecute true action) w1 o2 w2 -> w2 = w1.
Proof.
  intros Hk H1 Hne H2.
  destruct (kubernetesExecute_effect _ _ _ _ Hk H1) as [->|Hr]; [done|].
  apply (recorded_no_effect action w1 o2 w2);
    [by eapply restarted_then_recorded|by eapply restarted_well_keyed|done].
Qed.

(** Recovery is sound and read-only: [Resolve] never changes the cluster,
    and it reports a recovered execution only when the target has the requested
    UID and carries the execution ID. *)
Theorem kubernetes_resolve_sound action w o w' :
  runs (kubernetesResolve true action) w o w' ->
  w' = w /\
  forall r, o = Some (r, true, None) ->
    xr_Outcome r = ExecutionOutcomeSucceeded /\ xr_ExecutionID r = xq_ExecutionID action /\
    target_recorded action w.
Proof.
  intros H. refine ((fun Hwp => _) (wp_exec cluster_env (fun w' => w' = w)
    (kubernetesResolve true action) w (fun x _ => forall r, x = (r, true, None) ->
      xr_Outcome r = ExecutionOutcomeSucceeded /\ xr_ExecutionID r = xq_ExecutionID action /\
      target_recorded action w) o w' _ H)).
  { destruct Hwp as [-> Hq]. split; [done|]. intros r ->. by apply (Hq _ eq_refl). }
  unfold kubernetesResolve. simpl.
  destruct (xq_ActionType action == KubernetesRolloutRestartAction); simpl; [|done].
  destruct (validateKubernetesRestartRequest action) as [err|] eqn:Hv; simpl; [done|].
  split; [done|]. intros got w1 [-> Hg]. destruct got as [d|err]; simpl; [|by split].
  destruct (String.eqb_spec (dep_UID d) (xq_TargetUID action)) as [Hu|Hu]; simpl; [|done].
  destruct (recordedExecution action d) eqn:Hr; simpl; [|done].
  split; [done|]. intros n w1 ->. split; [done|]. intros r [= <-]. split_and!; [done..|by exists d].
Qed.

(** An execution that ends without error has taken effect: the target
    Deployment has the requested UID and carries the execution ID; and once it
    does, also after an execution whose answer was lost, a [Resolve] that can
    read the target reports success. *)
Theorem kubernetes_execute_success_recorded action w r w' :
  well_keyed w -> runs (kubernetesExecute true action) w (Some (r, None)) w' ->
  xr_Outcome r = ExecutionOutcomeSucceeded /\ target_recorded action w' /\
  exists r', runs (kubernetesResolve true action) w' (Some (r', true, None)) w' /\
     xr_Outcome r' = ExecutionOutcomeSucceeded.
Proof.
  intros Hk H. destruct (wp_exec _ _ _ _ _ _ _ (kubernetesExecute_wp action w Hk) H) as [_ Hq].
  destruct (Hq _ eq_refl) as (_ & _ & ? & Hv & d & Hd & Hu & Hr).
  split; [done|]. split; [by exists d|].
  eexists (kubernetesSuccessResult _ _ 0 0 d _). split; [|done].
  unfold runs, kubernetesResolve. simpl.
  assert (xq_ActionType action = KubernetesRolloutRestartAction) as ->.
  { unfold validateKubernetesRestartRequest in Hv.
    by destruct (String.eqb_spec (xq_ActionType action) KubernetesRolloutRestartAction). }
  simpl. rewrite Hv. right. exists (Ok d), w'. split; [done|]. simpl. rewrite Hu, String.eqb_refl, Hr. simpl.
  right. exists 0, w'. eauto.
Qed.

(** The reported outcome is Unknown only for an error that wraps a
    cancelled or expired context, reported as TimeoutAfterDispatch; a patch
    error of any other kind reports Failed, no error reports Succeeded, and
    no result is marked retryable. *)
Theorem kubernetes_execute_outcome action w r e w' :
  well_keyed w -> runs (kubernetesExecute true action) w (Some (r, e)) w' ->
  xr_ExecutionID r = xq_ExecutionID action /\ xr_Retryable r = false /\
  match e with
  | None => xr_Outcome r = ExecutionOutcomeSucceeded
  | Some err =>
      (xr_Outcome r = ExecutionOutcomeUnknown /\ is_deadline err = true /\
         xr_FailureReason r = "TimeoutAfterDispatch") \/
      (xr_Outcome r = ExecutionOutcomeFailed /\
         (xr_FailureReason r = "KubernetesPatchFailed" -> is_deadline err = false))
  end.
Proof.
  intros Hk H. destruct (wp_exec _ _ _ _ _ _ _ (kubernetesExecute_wp action w Hk) H) as [_ Hq].
  destruct (Hq _ eq_refl) as (? & ? & Hm). split_and!; [done..|]. destruct e; [done|]. by destruct Hm.
Qed.
End ExecutorProperties.

(** ** Examples: an API server that applies every patch *)

Definition changed_annotations (orig new : gmap string string) : gmap string (option string) :=
  base.merge (fun o n => if decide (o = n) then None else Some n) orig new.
Definition patched_annotations (orig new cur : gmap string string) : gmap string string :=
  base.merge (fun d c => match d with Some v => v | None => c end) (changed_annotations orig new) cur.

Lemma patched_annotations_lookup orig new cur key :
  patched_annotations orig new cur !! key =
    if decide (orig !! key = new !! key) then cur !! key else new !! key.
Proof.
  unfold patched_annotations, changed_annotations. rewrite !lookup_merge.
  destruct (orig !! key) as [o|], (new !! key) as [n|]; simpl;
    repeat case_decide; simplify_eq; by destruct (cur !! key).
Qed.

Definition rfc7386 : MergePatch.
Proof.
  refine {| merge orig new cur :=
    set_template_annotations cur
      (patched_annotations (dep_TemplateAnnotations orig) (dep_TemplateAnnotations new)
         (dep_TemplateAnnotations cur)) |}; [|done..].
  intros orig new cur key. apply patched_annotations_lookup.
Defined.

Section Witnesses.
#[local] Existing Instance plain_tables.
#[local] Existing Instance plain_digest.
#[local] Existing Instance rfc7386.

Definition patch_server (w : cluster) (X : Type) (e : exec_op X) : option (X * cluster) :=
  match e in exec_op X return option (X * cluster) with
  | XNow => Some (7, w)
  | XGetDeployment ns name =>
      Some (match w !! (ns, name) with
            | Some d => Ok d
            | None => Err (mkError ErrNotFound "not found")
            end, w)
  | XPatchDeployment orig new =>
      match w !! (dep_Namespace new, dep_Name new) with
      | Some cur => Some (Ok (merge orig new cur), <[(dep_Namespace new, dep_Name new) := merge orig new cur]> w)
      | None => Some (Err (mkError ErrNotFound "not found"), w)
      end
  | XWebhook _ _ => Some (None, w)
  end.

Lemma patch_server_env w X (e : exec_op X) x w' : patch_server w X e = Some (x, w') -> cluster_env w X e x w'.
Proof.
  destruct e; cbn [patch_server cluster_env]; intros H; simplify_eq; try done.
  - split; [done|]. by destruct (w' !! _).
  - destruct (w !! _) as [cur|] eqn:Hc; simplify_eq; [right|left; eauto]. exists cur. auto.
Qed.

Definition sample_deployment : Deployment := mkDeployment "prod" "web" "uid-web" 1 (Some 3) ∅ 1 3 3 3 [].
Definition sample_cluster : cluster := {[ ("prod", "web") := sample_deployment ]}.
Definition sample_request : ExecutorRequest :=
  mkExecutorRequest "exec-1" "key-1" "digest" KubernetesRolloutRestartAction 0
    (mkResourceRef "" "prod" "Deployment" "web" "apps/v1" "") "uid-web" ∅ zeroPolicySnapshot "alice" "" [] 0 1.

Definition sample_run : option (ExecutionResult * option error) * cluster :=
  run patch_server (kubernetesExecute true sample_request) sample_cluster.

Definition execution_id_of (w : cluster) : option string :=
  d ← w !! ("prod", "web"); dep_TemplateAnnotations d !! KubernetesExecutionIDAnnotation.

Lemma sample_cluster_keyed : well_keyed sample_cluster.
Proof.
  intros ns name d H. unfold sample_cluster in H.
  by apply lookup_singleton_Some in H as [[= <- <-] <-].
Qed.

Lemma sample_run_runs : runs (kubernetesExecute true sample_request) sample_cluster sample_run.1 sample_run.2.
Proof. apply (run_exec patch_server cluster_env), patch_server_env. Qed.

Lemma sample_run_changes : sample_run.2 <> sample_cluster.
Proof.
  intros E. assert (execution_id_of sample_run.2 = execution_id_of sample_cluster) as H by (by rewrite E).
  vm_compute in H. discriminate H.
Qed.

Lemma kubernetes_execute_scope_witness :
  exists d d', sample_cluster !! ("prod", "web") = Some d /\
    sample_run.2 = <[("prod", "web") := d']> sample_cluster /\ dep_Replicas d' = dep_Replicas d.
Proof.
  destruct (kubernetes_execute_scope sample_request sample_cluster sample_run.1 sample_run.2
    sample_cluster_keyed sample_run_runs sample_run_changes)
    as (_ & d & d' & Hd & _ & _ & Hw & _ & Hr & _).
  exists d, d'. split; [exact Hd|]. split; [exact Hw|exact Hr].
Defined.

Lemma sample_rerun : runs (kubernetesExecute true sample_request) sample_run.2
  (run patch_server (kubernetesExecute true sample_request) sample_run.2).1
  (run patch_server (kubernetesExecute true sample_request) sample_run.2).2.
Proof. apply (run_exec patch_server cluster_env), patch_server_env. Qed.

Lemma kubernetes_execute_idempotent_witness :
  (run patch_server (kubernetesExecute true sample_request) sample_run.2).2 = sample_run.2.
Proof.
  exact (kubernetes_execute_idempotent sample_request sample_cluster sample_run.1 sample_run.2 _ _
    sample_cluster_keyed sample_run_runs sample_run_changes sample_rerun).
Defined.

Lemma sample_resolve_runs : runs (kubernetesResolve true sample_request) sample_run.2
  (run patch_server (kubernetesResolve true sample_request) sample_run.2).1
  (run patch_server (kubernetesResolve true sample_request) sample_run.2).2.
Proof. apply (run_exec patch_server cluster_env), patch_server_env. Qed.

Lemma kubernetes_resolve_sound_witness :
  (run patch_server (kubernetesResolve true sample_request) sample_run.2).2 = sample_run.2.
Proof.
  exact (proj1 (kubernetes_resolve_sound sample_request sample_run.2 _ _ sample_resolve_runs)).
Defined.

Lemma sample_run_ok : exists r, sample_run.1 = Some (r, None).
Proof. by eexists. Qed.

Lemma kubernetes_execute_success_recorded_witness : target_recorded sample_request sample_run.2.
Proof.
  destruct sample_run_ok as [r Hr]. pose proof sample_run_runs as H. rewrite Hr in H.
  exact (proj1 (proj2 (kubernetes_execute_success_recorded sample_request sample_cluster r sample_run.2
    sample_cluster_keyed H))).
Defined.

Lemma kubernetes_execute_outcome_witness :
  exists r, sample_run.1 = Some (r, None) /\ xr_Retryable r = false.
Proof.
  destruct sample_run_ok as [r Hr]. pose proof sample_run_runs as H. rewrite Hr in H.
  exists r. split; [exact Hr|].
  exact (proj1 (proj2 (kubernetes_execute_outcome sample_request sample_cluster r None sample_run.2
    sample_cluster_keyed H))).
Defined.
End Witnesses.
