(* ===== verification/Effectiveness.v ===== *)
(** * Remediation effectiveness (internal/controllers/effectiveness.go)

    The verdict on an executed action from its pre-action baseline, the health
    observed after it, and the read-only verification investigation. *)

From Stdlib Require Import ZArith Lia.
From stdpp Require Import base list strings gmap.
From S2P Require Import Prelude GoStrings Api InvestigationApi.

Record effectivenessEvaluation := mkEffectivenessEvaluation {
  ev_Outcome : string;
  ev_Message : string
}.

Definition condition_blocks (c : HealthCondition) : bool :=
  ((hc_Type c == "Available") && (hc_Status c == "False"))
    || ((hc_Type c == "Progressing") && (hc_Status c == "False")).

Definition healthIsHealthy (s : HealthSnapshot) : bool :=
  let desired := hs_DesiredReplicas s in
  if desired <=? 0 then true
  else if (hs_AvailableReplicas s <? desired) || (hs_ReadyReplicas s <? desired)
          || (hs_UpdatedReplicas s <? desired) then false
  else if (0 <? hs_Generation s) && (hs_ObservedGeneration s <? hs_Generation s) then false
  else negb (existsb condition_blocks (hs_Conditions s)).

(** The copy of [healthSnapshotIsHealthy] between the two snapshot types. *)
Definition healthSnapshotIsHealthy (s : HealthSnapshot) : bool :=
  healthIsHealthy
    (mkHealthSnapshot (hs_Generation s) (hs_ObservedGeneration s) (hs_DesiredReplicas s)
       (hs_UpdatedReplicas s) (hs_AvailableReplicas s) (hs_ReadyReplicas s)
       (map (fun c => mkHealthCondition (hc_Type c) (hc_Status c) (hc_Reason c) (hc_Message c))
          (hs_Conditions s))).

Definition healthImproved (baseline post : HealthSnapshot) : bool :=
  if healthIsHealthy post && negb (healthSnapshotIsHealthy baseline) then true
  else (hs_AvailableReplicas baseline <? hs_AvailableReplicas post)
         || (hs_ReadyReplicas baseline <? hs_ReadyReplicas post)
         || (hs_UpdatedReplicas baseline <? hs_UpdatedReplicas post).

(** [baselineConditions[type]]: the last condition of the type, the zero one if none. *)
Definition conditions_by_type (l : list HealthCondition) : gmap string HealthCondition :=
  fold_left (fun m c => <[hc_Type c := c]> m) l ∅.
Definition condition_of (m : gmap string HealthCondition) (type : string) : HealthCondition :=
  default (mkHealthCondition "" "" "" "") (m !! type).

Section Effectiveness.
Context {U : UnicodeTables}.

Definition condition_regressed (before : gmap string HealthCondition) (c : HealthCondition) : bool :=
  ((hc_Type c == "Available") && (hc_Status c == "False")
     && (hc_Status (condition_of before (hc_Type c)) != "False"))
  || ((hc_Type c == "Progressing") && (hc_Status c == "False")
        && equal_fold (hc_Reason c) "ProgressDeadlineExceeded"
        && negb (equal_fold (hc_Reason (condition_of before (hc_Type c))) "ProgressDeadlineExceeded")).

Definition materiallyRegressed (baseline post : HealthSnapshot) : bool :=
  if (hs_AvailableReplicas post <? hs_AvailableReplicas baseline)
     || (hs_ReadyReplicas post <? hs_ReadyReplicas baseline)
     || (hs_UpdatedReplicas post <? hs_UpdatedReplicas baseline) then true
  else existsb (condition_regressed (conditions_by_type (hs_Conditions baseline))) (hs_Conditions post).

Definition inconclusive (message : string) : effectivenessEvaluation :=
  mkEffectivenessEvaluation EffectivenessOutcomeInconclusive message.

Definition evaluateEffectiveness (baseline : option EffectivenessBaseline) (post : HealthSnapshot)
    (observed : bool) (verification : option InvestigationRequest) : effectivenessEvaluation :=
  match b ← baseline; eb_Health b with
  | None => inconclusive "pre-action health baseline is missing"
  | Some before =>
      match verification with
      | None => inconclusive "verification investigation is missing"
      | Some v =>
          if negb observed then inconclusive "post-action health observation is unavailable"
          else if negb (hs_DesiredReplicas post =? hs_DesiredReplicas before) then
            inconclusive "target replica intent changed during the verification window"
          else if materiallyRegressed before post then
            mkEffectivenessEvaluation EffectivenessOutcomeRegressed
              "post-action workload health is objectively worse than the pre-action baseline"
          else if ir_Outcome v == InvestigationOutcomeNoIssueFound then
            if negb (healthIsHealthy post) then
              mkEffectivenessEvaluation EffectivenessOutcomeIneffective
                "verification found no new event but the target health is still below the desired state"
            else if negb (healthImproved before post) then
              inconclusive "verification found no issue but the post-action health did not improve over baseline"
            else
              mkEffectivenessEvaluation EffectivenessOutcomeEffective
                "target health improved and the original incident condition was not observed in the verification window"
          else if ir_Outcome v == InvestigationOutcomeConfirmed then
            mkEffectivenessEvaluation EffectivenessOutcomeIneffective
              "the original incident condition remains observed after the action"
          else if (ir_Outcome v == InvestigationOutcomeInconclusive)
                  || (ir_Outcome v == InvestigationOutcomeUnknown) then
            inconclusive "verification evidence was insufficient to establish remediation effectiveness"
          else inconclusive "verification returned an unsupported outcome"
      end
  end.

(** ** Lemmas *)

Lemma healthSnapshotIsHealthy_eq s : healthSnapshotIsHealthy s = healthIsHealthy s.
Proof.
  unfold healthSnapshotIsHealthy, healthIsHealthy. simpl.
  assert (map (fun c => mkHealthCondition (hc_Type c) (hc_Status c) (hc_Reason c) (hc_Message c))
            (hs_Conditions s) = hs_Conditions s) as ->; [|done].
  induction (hs_Conditions s) as [|[] l IH]; simpl; [done|]. by rewrite IH.
Qed.

Lemma healthy_replicas s :
  healthIsHealthy s = true -> 0 < hs_DesiredReplicas s ->
  hs_DesiredReplicas s <= hs_AvailableReplicas s /\ hs_DesiredReplicas s <= hs_ReadyReplicas s /\
  hs_DesiredReplicas s <= hs_UpdatedReplicas s.
Proof.
  unfold healthIsHealthy. intros H Hd. destruct (Z.leb_spec (hs_DesiredReplicas s) 0); [lia|].
  destruct (_ || _)%bool eqn:E in H; [done|]. go_bool. lia.
Qed.

Lemma not_regressed_replicas baseline post :
  materiallyRegressed baseline post = false ->
  hs_AvailableReplicas baseline <= hs_AvailableReplicas post /\
  hs_ReadyReplicas baseline <= hs_ReadyReplicas post /\
  hs_UpdatedReplicas baseline <= hs_UpdatedReplicas post.
Proof.
  unfold materiallyRegressed. intros H. destruct (_ || _)%bool eqn:E in H; [done|]. go_bool. lia.
Qed.
End Effectiveness.

(** ** Properties *)

Section EffectivenessProperties.
Context {U : UnicodeTables}.

(** An action is declared Effective exactly when its baseline health and the
    post-action health are both known for the same desired replicas, nothing
    regressed, the verification investigation ended in NoIssueFound, the
    target is healthy and it improved over the baseline. *)
Theorem effective_iff (baseline : option EffectivenessBaseline) post observed verification :
  ev_Outcome (evaluateEffectiveness baseline post observed verification)
    = EffectivenessOutcomeEffective <->
  exists b before v, baseline = Some b /\ eb_Health b = Some before /\ verification = Some v /\
    observed = true /\ hs_DesiredReplicas post = hs_DesiredReplicas before /\
    materiallyRegressed before post = false /\ ir_Outcome v = InvestigationOutcomeNoIssueFound /\
    healthIsHealthy post = true /\ healthImproved before post = true.
Proof.
  unfold evaluateEffectiveness. split.
  - destruct baseline as [b|]; simpl; [|done]. destruct (eb_Health b) as [before|] eqn:Eb; [|done].
    destruct verification as [v|]; [|done]. destruct observed; simpl; [|done].
    intros H. exists b, before, v. go_cases.
  - intros (b & before & v & -> & Hb & -> & -> & Hd & Hr & Ho & Hh & Hi). simpl.
    rewrite Hb, Hd, Z.eqb_refl. simpl. by rewrite Hr, Ho, Hh, Hi.
Qed.

(** An Effective verdict for a target with desired replicas guarantees that
    at least that many replicas are available, ready and updated, that none of
    the counts fell below the baseline, that no Available or Progressing
    condition is False, and that either the baseline was unhealthy or some
    count strictly grew. *)
Theorem effective_guarantees b before post verification :
  eb_Health b = Some before -> 0 < hs_DesiredReplicas before ->
  ev_Outcome (evaluateEffectiveness (Some b) post true verification) = EffectivenessOutcomeEffective ->
  hs_DesiredReplicas before
    <= hs_AvailableReplicas post `min` hs_ReadyReplicas post `min` hs_UpdatedReplicas post /\
  hs_AvailableReplicas before <= hs_AvailableReplicas post /\
  hs_ReadyReplicas before <= hs_ReadyReplicas post /\
  hs_UpdatedReplicas before <= hs_UpdatedReplicas post /\
  (forall c, c ∈ hs_Conditions post -> hc_Type c ∈ ["Available"; "Progressing"] -> hc_Status c <> "False") /\
  (healthIsHealthy before = false \/
     hs_AvailableReplicas before + hs_ReadyReplicas before + hs_UpdatedReplicas before
       < hs_AvailableReplicas post + hs_ReadyReplicas post + hs_UpdatedReplicas post).
Proof.
  intros Hb Hpos H. unfold evaluateEffectiveness in H. simpl in H. rewrite Hb in H.
  destruct verification as [v|]; [|done]. simpl in H.
  destruct (Z.eqb_spec (hs_DesiredReplicas post) (hs_DesiredReplicas before)) as [Hd|]; [|done]. simpl in H.
  destruct (materiallyRegressed before post) eqn:Hr; [done|].
  destruct (ir_Outcome v == InvestigationOutcomeNoIssueFound); [|by go_cases].
  destruct (healthIsHealthy post) eqn:Hh; [|done]. simpl in H.
  destruct (healthImproved before post) eqn:Hi; [|done].
  destruct (not_regressed_replicas _ _ Hr) as (? & ? & ?).
  destruct (healthy_replicas post Hh) as (? & ? & ?); [lia|].
  split_and!; [lia|lia|lia|lia| |].
  - intros c Hc Ht Hs. unfold healthIsHealthy in Hh.
    destruct (Z.leb_spec (hs_DesiredReplicas post) 0); [lia|].
    destruct (_ || _)%bool in Hh; [done|]. destruct (_ && _)%bool in Hh; [done|].
    apply negb_true_iff in Hh. assert (existsb condition_blocks (hs_Conditions post) = true); [|congruence].
    apply existsb_exists. exists c. split; [by apply list_elem_of_In|]. unfold condition_blocks. rewrite Hs.
    rewrite !elem_of_cons, elem_of_nil in Ht. by destruct Ht as [->|[->|[]]].
  - unfold healthImproved in Hi. rewrite healthSnapshotIsHealthy_eq in Hi.
    destruct (healthIsHealthy before); [right|by left]. rewrite Hh in Hi. simpl in Hi.
    apply orb_true_iff in Hi as [Hi|Hi]; [apply orb_true_iff in Hi as [Hi|Hi]|]; apply Z.ltb_lt in Hi; lia.
Qed.

(** A regression is never masked by the verification verdict: when the
    health was observed for unchanged desired replicas and any replica count
    fell or a listed condition got worse, the outcome is Regressed whatever the
    investigation concluded; and Regressed is reported for no other reason. *)
Theorem regressed_iff b before post v :
  eb_Health b = Some before ->
  ev_Outcome (evaluateEffectiveness (Some b) post true (Some v)) = EffectivenessOutcomeRegressed <->
  hs_DesiredReplicas post = hs_DesiredReplicas before /\
  (hs_AvailableReplicas post < hs_AvailableReplicas before \/
   hs_ReadyReplicas post < hs_ReadyReplicas before \/
   hs_UpdatedReplicas post < hs_UpdatedReplicas before \/
   exists c, c ∈ hs_Conditions post /\
     condition_regressed (conditions_by_type (hs_Conditions before)) c = true).
Proof.
  intros Hb. unfold evaluateEffectiveness. simpl. rewrite Hb.
  assert (materiallyRegressed before post = true <->
   (hs_AvailableReplicas post < hs_AvailableReplicas before \/
   hs_ReadyReplicas post < hs_ReadyReplicas before \/
   hs_UpdatedReplicas post < hs_UpdatedReplicas before \/
   exists c, c ∈ hs_Conditions post /\
     condition_regressed (conditions_by_type (hs_Conditions before)) c = true)) as Hm.
  { unfold materiallyRegressed.
    destruct (Z.ltb_spec (hs_AvailableReplicas post) (hs_AvailableReplicas before)),
      (Z.ltb_spec (hs_ReadyReplicas post) (hs_ReadyReplicas before)),
      (Z.ltb_spec (hs_UpdatedReplicas post) (hs_UpdatedReplicas before)); simpl; try tauto.
    rewrite existsb_exists. setoid_rewrite list_elem_of_In. split; [by auto|].
    intros [?|[?|[?|?]]]; [lia..|done]. }
  rewrite <- Hm. destruct (Z.eqb_spec (hs_DesiredReplicas post) (hs_DesiredReplicas before)); simpl;
    [|split; [done|tauto]].
  destruct (materiallyRegressed before post); [done|].
  split; [|by intros []]. repeat (case_match; simpl; try done).
Qed.
End EffectivenessProperties.

(** ** Examples *)

Section Witnesses.
#[local] Existing Instance plain_tables.

Definition sample_health (available : Z) : HealthSnapshot := mkHealthSnapshot 1 1 3 available available available [].
Definition sample_baseline : EffectivenessBaseline :=
  mkEffectivenessBaseline (Some 10) sample_target "uid" None [] (Some (sample_health 1)) "digest" "".
Definition sample_verification (outcome : string) : InvestigationRequest :=
  mkInvestigationRequest (sample_meta "prod" "verify") 0 None
    (investigation_spec sample_target "" None 0 "" [] "" false "")
    (zeroInvestigationStatus <| ist_ResourceStatus := mkResourceStatus PhaseCompleted "" 1 0 |>
                             <| ist_Outcome := outcome |>).

Lemma effective_guarantees_witness :
  hs_DesiredReplicas (sample_health 1)
    <= hs_AvailableReplicas (sample_health 3) `min` hs_ReadyReplicas (sample_health 3)
         `min` hs_UpdatedReplicas (sample_health 3).
Proof.
  assert (H : ev_Outcome (evaluateEffectiveness (Some sample_baseline) (sample_health 3) true
                (Some (sample_verification InvestigationOutcomeNoIssueFound)))
    = EffectivenessOutcomeEffective) by (vm_compute; reflexivity).
  exact (proj1 (effective_guarantees sample_baseline (sample_health 1) (sample_health 3) _
    eq_refl eq_refl H)).
Defined.

Lemma regressed_iff_witness :
  ev_Outcome (evaluateEffectiveness (Some sample_baseline) (sample_health 0) true
                (Some (sample_verification InvestigationOutcomeNoIssueFound)))
    = EffectivenessOutcomeRegressed.
Proof.
  apply (regressed_iff sample_baseline (sample_health 1) (sample_health 0)); [reflexivity|].
  split; [reflexivity|]. left. reflexivity.
Defined.
End Witnesses.
