(* ===== verification/AgentAction.v ===== *)
(** * AgentAction: approval, execution request and status assembly

    The pure parts of internal/controllers/agentaction_controller.go and
    helpers.go: what makes an action approved, the request and identity built
    from it, the statuses written at each stage, and the events of its phase
    transitions. *)

From Stdlib Require Import ZArith Lia.
From stdpp Require Import base list strings gmap.
From S2P Require Import Prelude GoStrings Api Digest Prog Executor.

(** ** Annotations, labels and small helpers (helpers.go) *)

Definition labelManagedBy : string := "fluxseer-rca.aiops.platform/managed-by".
Definition annotationLineageSource : string := "fluxseer-rca.aiops.platform/lineage-source".
Definition annotationLineageSourceKind : string := "fluxseer-rca.aiops.platform/lineage-source-kind".
Definition annotationLineageSourceAPI : string := "fluxseer-rca.aiops.platform/lineage-source-api-version".
Definition annotationLineageSourceUID : string := "fluxseer-rca.aiops.platform/lineage-source-uid".
Definition annotationTargetUID : string := "fluxseer-rca.aiops.platform/target-uid".
Definition annotationRiskSignalRef : string := "fluxseer-rca.aiops.platform/risk-signal-ref".
Definition annotationRiskSignalUID : string := "fluxseer-rca.aiops.platform/risk-signal-uid".
Definition annotationInvestigationDepth : string := "fluxseer-rca.aiops.platform/investigation-depth".
Definition annotationEscalationChainRef : string := "fluxseer-rca.aiops.platform/escalation-chain-ref".
Definition annotationRetain : string := "fluxseer-rca.aiops.platform/retain".

Definition targetToResource (t : TargetRef) : ResourceRef :=
  mkResourceRef (tr_Cluster t) (tr_Namespace t) (tr_Kind t) (tr_Name t) (tr_APIVersion t) (tr_Service t).

Definition setResourceStatus (phase message : string) (generation : Z) (now : time) : ResourceStatus :=
  mkResourceStatus phase message generation now.

Definition targetRefString (t : TargetRef) : string :=
  tr_Namespace t +:+ "/" +:+ tr_Name t +:+ " " +:+ tr_Kind t.

(** [statusChangedAction]: [!reflect.DeepEqual] of the statuses. *)
Definition statusChangedAction (before after : AgentAction) : bool :=
  negb (bool_decide (act_Status before = act_Status after)).

(** The text before and after the first slash ([strings.SplitN(s, "/", 2)]). *)
Fixpoint split_slash (s : string) : option (string * string) :=
  match s with
  | EmptyString => None
  | String c s' =>
      if (byte_val c =? 47)%Z then Some ("", s')
      else match split_slash s' with Some (a, b) => Some (String c a, b) | None => None end
  end.

(** ** Phase transitions *)

Definition EventTypeNormal : string := "Normal".
Definition EventTypeWarning : string := "Warning".

Section AgentActions.
Context {U : UnicodeTables} {D : DigestPrims}.
Implicit Type action : AgentAction.

Definition splitNamespacedName (value : string) : string * string :=
  match split_slash (trim_space value) with
  | Some p => p
  | None => ("", trim_space value)
  end.

Definition phaseTransitionEvent (originalPhase newPhase : string) : string * string * string :=
  if originalPhase == newPhase then ("", "", "")
  else
    let transition := originalPhase +:+ "→" +:+ newPhase in
    if transition == "→WaitingApproval" then
      (EventTypeNormal, "ApprovalRequired", "AgentAction is waiting for approval")
    else if transition == "→Approved" then
      (EventTypeNormal, "ApprovalGranted", "AgentAction has been approved")
    else if transition == "→Rejected" then
      (EventTypeWarning, "ApprovalDenied", "AgentAction was rejected by guardrails")
    else if (transition == "Approved→Executing") || (transition == "WaitingApproval→Executing") then
      (EventTypeNormal, "ExecutionStarted", "AgentAction is now executing")
    else if transition == "WaitingApproval→Escalated" then
      (EventTypeWarning, "EscalationTriggered",
       "AgentAction approval timeout reached; escalating for review")
    else if transition == "Executing→Succeeded" then
      (EventTypeNormal, "ExecutionSucceeded", "AgentAction execution completed successfully")
    else if transition == "Executing→Failed" then
      (EventTypeWarning, "ExecutionFailed", "AgentAction execution failed")
    else (EventTypeNormal, "PhaseTransition",
          "phase changed from " +:+ quote originalPhase +:+ " to " +:+ quote newPhase).

(** ** Approval *)

Definition clear_approved_by (s : AgentActionSpec) : AgentActionSpec :=
  mkAgentActionSpec (as_Target s) (as_ActionType s) (as_Parameters s) "" (as_DryRunResult s)
    (as_TTLSeconds s) (as_ApprovalTimeoutSeconds s) (as_RollbackPlan s).

Definition agentActionSpecDigest (s : AgentActionSpec) : string :=
  digestString RCAJSONV1 (agent_action_spec_json (clear_approved_by s)).

Definition isAgentActionApproved action : bool :=
  match st_Approval (act_Status action) with
  | None => false
  | Some approval =>
      if ap_ActionDigest approval != agentActionSpecDigest (act_Spec action) then false
      else if ap_Approved approval then true
      else (ap_Source approval == "ManualApprovalRequired") && (as_ApprovedBy (act_Spec action) != "")
  end.

(** ** The execution request *)

Definition actionTargetUID action : string :=
  trim_space (map_get (om_Annotations (act_Meta action)) annotationTargetUID).

Definition executionIdentity action : ExecutionIdentity :=
  BuildExecutionIdentity
    (mkIdentityInput (om_Namespace (act_Meta action) +:+ "/" +:+ om_Name (act_Meta action))
       (om_UID (act_Meta action)) (om_Generation (act_Meta action)) 0
       (targetToResource (as_Target (act_Spec action))) (actionTargetUID action)
       (agentActionSpecDigest (act_Spec action)) (as_ActionType (act_Spec action))
       (StringParameters (as_Parameters (act_Spec action)))).

Definition executionRequest action (approval : AgentActionApprovalStatus) : ExecutorRequest :=
  let identity := executionIdentity action in
  mkExecutorRequest (id_ExecutionID identity) (id_IdempotencyKey identity)
    (agentActionSpecDigest (act_Spec action)) (as_ActionType (act_Spec action)) 0
    (targetToResource (as_Target (act_Spec action))) (actionTargetUID action)
    (StringParameters (as_Parameters (act_Spec action))) zeroPolicySnapshot (ap_ApprovedBy approval)
    (as_DryRunResult (act_Spec action)) (as_RollbackPlan (act_Spec action)) 0 1.

Definition executorRequestForPersistedAction action : ExecutorRequest :=
  let spec := act_Spec action in
  let approval := st_Approval (act_Status action) in
  let execution := st_Execution (act_Status action) in
  mkExecutorRequest
    (match execution with Some e => ex_ExecutionID e | None => "" end)
    (match execution with Some e => ex_IdempotencyKey e | None => "" end)
    (match approval with Some a => ap_ActionDigest a | None => "" end)
    (as_ActionType spec) 0 (targetToResource (as_Target spec)) (actionTargetUID action)
    (StringParameters (as_Parameters spec)) zeroPolicySnapshot
    (match approval with Some a => ap_ApprovedBy a | None => as_ApprovedBy spec end)
    (as_DryRunResult spec) (as_RollbackPlan spec) 0
    (match execution with Some e => ex_Attempt e | None => 1 end).

(** ** Baselines *)

Definition riskSignalRefFromAction action : option NamespacedObjectReference :=
  let value := trim_space (map_get (om_Annotations (act_Meta action)) annotationRiskSignalRef) in
  if value == "" then None
  else
    let '(namespace, name) := splitNamespacedName value in
    if name == "" then None
    else Some (mkNamespacedObjectReference name
                 (if namespace == "" then om_Namespace (act_Meta action) else namespace)).

Definition effectivenessBaselineFromExecutor (baseline : ExecBaseline) action : EffectivenessBaseline :=
  mkEffectivenessBaseline (Some (xb_CapturedAt baseline)) (as_Target (act_Spec action))
    (xb_TargetUID baseline) (riskSignalRefFromAction action) [] (Some (xb_Health baseline))
    (xb_Digest baseline) "".

Definition with_evidence (b : EffectivenessBaseline) (evidence : list EvidenceRef) : EffectivenessBaseline :=
  mkEffectivenessBaseline (eb_CapturedAt b) (eb_Target b) (eb_TargetUID b) (eb_RiskSignalRef b)
    evidence (eb_Health b) (eb_Digest b) (eb_UnavailableReason b).

(** ** Statuses *)

Definition executionFinishedAt (execution : option AgentActionExecutionStatus) (now : time) : time :=
  match execution ≫= ex_StartedAt with
  | Some started => if negb (time_after now started) then time_add started nanosecond else now
  | None => now
  end.

(** The start recorded for an execution: strictly after the baseline capture. *)
Definition executionStart (baseline : ExecBaseline) (baselineFound : bool) (now : time) : time :=
  if baselineFound && negb (time_after now (xb_CapturedAt baseline))
  then time_add (xb_CapturedAt baseline) nanosecond else now.

(** The approval recorded when the dispatch starts. *)
Definition dispatchApproval action (approval : AgentActionApprovalStatus) (startedAt : time)
    : AgentActionApprovalStatus :=
  let confirmed := negb (ap_Approved approval) in
  mkApprovalStatus true
    (if confirmed then as_ApprovedBy (act_Spec action) else ap_ApprovedBy approval)
    (if confirmed then "ManualApprovalConfirmed" else ap_Source approval)
    (agentActionSpecDigest (act_Spec action)) (om_Generation (act_Meta action))
    (if confirmed then Some startedAt else ap_ApprovedAt approval)
    (ap_EscalatedAt approval) (ap_DecidedAt approval) (ap_DecidedBy approval).

Definition dispatchExecution (request : ExecutorRequest) (startedAt : time) : AgentActionExecutionStatus :=
  mkExecutionStatus "Executing" "" (xq_ExecutionID request) (xq_IdempotencyKey request)
    (wrap32 (xq_Attempt request)) "" "" "" (Some startedAt) None "" false.

Definition dispatchStatus action (approval : AgentActionApprovalStatus) (request : ExecutorRequest)
    (startedAt : time) : AgentActionStatus :=
  with_execution
    (with_approval
       (with_resource_status (act_Status action)
          (setResourceStatus PhaseExecuting "approved action is executing"
             (om_Generation (act_Meta action)) startedAt))
       (Some (dispatchApproval action approval startedAt)))
    (Some (dispatchExecution request startedAt)).

Definition capturedEffectiveness (b : EffectivenessBaseline) : AgentActionEffectivenessStatus :=
  mkEffectivenessStatus EffectivenessPhaseNotVerified ""
    "immutable pre-action health baseline captured before dispatch" None (Some b) None None None None None.

Definition notVerified (message : string) : AgentActionEffectivenessStatus :=
  mkEffectivenessStatus EffectivenessPhaseNotVerified "" message None None None None None None None.

Definition zeroExecution : AgentActionExecutionStatus :=
  mkExecutionStatus "" "" "" "" 0 "" "" "" None None "" false.

(** [failBeforeDispatch]: the status that ends an action before any dispatch. *)
Definition failBeforeDispatchStatus (status : AgentActionStatus) (generation : Z)
    (request : ExecutorRequest) (reason : string) (err : error) (now : time) : AgentActionStatus :=
  let finishedAt := executionFinishedAt (st_Execution status) now in
  with_effectiveness
    (with_execution
       (with_finished_at
          (with_resource_status status (setResourceStatus PhaseFailed (err_msg err) generation finishedAt))
          (Some finishedAt))
       (Some (mkExecutionStatus "Failed" ExecutionOutcomeFailed (xq_ExecutionID request)
                (xq_IdempotencyKey request) (wrap32 (xq_Attempt request)) reason "" (err_msg err)
                None (Some finishedAt) "" false)))
    (Some (notVerified "post-action verification was not started because the pre-action baseline could not be captured")).

(** The status after [Execute] failed with outcome Unknown. *)
Definition unknownStatus action (result : ExecutionResult) (err : error) (now : time) : AgentActionStatus :=
  let finishedAt := executionFinishedAt (st_Execution (act_Status action)) now in
  let e := default zeroExecution (st_Execution (act_Status action)) in
  with_execution
    (with_resource_status (act_Status action)
       (setResourceStatus PhaseExecuting "execution outcome is unknown; waiting for backend recovery"
          (om_Generation (act_Meta action)) finishedAt))
    (Some (mkExecutionStatus "Unknown" (xr_Outcome result) (ex_ExecutionID e) (ex_IdempotencyKey e)
             (ex_Attempt e) (if xr_FailureReason result == "" then err_msg err else xr_FailureReason result)
             (ex_Executor e) (err_msg err) (ex_StartedAt e) (Some finishedAt) (ex_ExternalRef e) false)).

(** The status after [Execute] failed otherwise. *)
Definition failedStatus action (err : error) (now : time) : AgentActionStatus :=
  let finishedAt := executionFinishedAt (st_Execution (act_Status action)) now in
  let e := default zeroExecution (st_Execution (act_Status action)) in
  with_execution
    (with_finished_at
       (with_resource_status (act_Status action)
          (setResourceStatus PhaseFailed (err_msg err) (om_Generation (act_Meta action)) finishedAt))
       (Some finishedAt))
    (Some (mkExecutionStatus "Failed" ExecutionOutcomeFailed (ex_ExecutionID e) (ex_IdempotencyKey e)
             (ex_Attempt e) (err_msg err) (ex_Executor e) (err_msg err) (ex_StartedAt e)
             (Some finishedAt) (ex_ExternalRef e) false)).

Definition effectivenessSettlingPeriod : duration := 5 * minute.
Definition effectivenessObservationWindow : duration := 2 * minute.

(** The status [recordExecutionSuccess] writes; [None] is the nil dereference
    of a baseline without capture time. *)
Definition successStatus action (request : ExecutorRequest) (result : ExecutionResult) (now : time)
    : option AgentActionStatus :=
  let status := act_Status action in
  let started0 :=
    match st_Execution status ≫= ex_StartedAt with
    | Some s => Some s
    | None => if is_zero_time (xr_StartedAt result) then None else Some (xr_StartedAt result)
    end in
  let finish (startedAt : option time) (effectiveness : AgentActionEffectivenessStatus) :=
    let executionAt (finishedAt : time) :=
      mkExecutionStatus "Succeeded"
        (if xr_Outcome result == "" then ExecutionOutcomeSucceeded else xr_Outcome result)
        (if xr_ExecutionID result == "" then xq_ExecutionID request else xr_ExecutionID result)
        (xq_IdempotencyKey request) (wrap32 (xq_Attempt request)) (xr_FailureReason result)
        (xr_Executor result) (xr_Summary result) startedAt (Some finishedAt) (xr_ExternalRef result)
        (xr_Retryable result) in
    let finishedAt := executionFinishedAt (Some (executionAt now)) now in
    let effectiveness' :=
      match ef_Baseline effectiveness with
      | None => effectiveness
      | Some _ =>
          mkEffectivenessStatus (ef_Phase effectiveness) (ef_Outcome effectiveness)
            (ef_Message effectiveness) (ef_VerificationRef effectiveness) (ef_Baseline effectiveness)
            (ef_PostActionHealth effectiveness) (Some finishedAt) (ef_FinishedAt effectiveness)
            (Some (time_add now effectivenessSettlingPeriod))
            (Some (time_add now (effectivenessSettlingPeriod + effectivenessObservationWindow)))
      end in
    with_effectiveness
      (with_execution
         (with_finished_at
            (with_resource_status status
               (setResourceStatus PhaseSucceeded (xr_Summary result) (om_Generation (act_Meta action)) finishedAt))
            (Some finishedAt))
         (Some (executionAt finishedAt)))
      (Some effectiveness') in
  match st_Effectiveness status with
  | Some e =>
      match ef_Baseline e with
      | Some baseline =>
          let verifying :=
            mkEffectivenessStatus EffectivenessPhaseVerifying ""
              "execution succeeded; waiting for the target to settle before read-only verification"
              (ef_VerificationRef e) (Some baseline) (ef_PostActionHealth e) (ef_StartedAt e)
              (ef_FinishedAt e) (ef_SettlingUntil e) (ef_ObservationUntil e) in
          match eb_CapturedAt baseline with
          | None => None
          | Some captured =>
              let startedAt :=
                match started0 with
                | Some s => if time_before captured s then s else time_add captured second
                | None => time_add captured second
                end in
              Some (finish (Some startedAt) verifying)
          end
      | None => Some (finish started0 (notVerified "post-action remediation effectiveness verification is unavailable without a pre-action baseline"))
      end
  | None => Some (finish started0 (notVerified "post-action remediation effectiveness verification is unavailable without a pre-action baseline"))
  end.

(** [reconcilePending]: the fresh waiting status of an action that was never
    validly evaluated. *)
Definition pendingStatus action (now : time) : AgentActionStatus :=
  with_approval
    (with_resource_status (act_Status action)
       (setResourceStatus PhaseWaitingApproval "waiting for human approval"
          (om_Generation (act_Meta action)) now))
    (Some (mkApprovalStatus false "" "Pending" (agentActionSpecDigest (act_Spec action))
             (om_Generation (act_Meta action)) None None None "")).

(** ** The verification investigation *)

Definition verification_name_json action (executionID : string) : json :=
  JObj [("ActionUID", JStr (om_UID (act_Meta action))); ("ExecutionID", JStr executionID)].

Definition effectivenessVerificationName action (executionID : string) : string :=
  let digest := digestString RCAJSONV1 (verification_name_json action executionID) in
  let suffix0 := trim_prefix digest (AlgorithmSHA256 +:+ ":") in
  let suffix := if 16 <? str_len suffix0 then str_take 16 suffix0 else suffix0 in
  let maxPrefix := 63 - str_len "-verify-" - str_len suffix in
  let prefix := if maxPrefix <? str_len (om_Name (act_Meta action))
                then str_take (Z.to_nat maxPrefix) (om_Name (act_Meta action))
                else om_Name (act_Meta action) in
  prefix +:+ "-verify-" +:+ suffix.
End AgentActions.
