(* ===== verification/ActionController.v ===== *)
(** * The AgentAction reconciler (internal/controllers/agentaction_controller.go)

    [reconcileAction] and the handlers it dispatches to, as programs over the
    operations of the reconciler: the clock, the API server (through the cached
    client), the executor router, the notifier and the event recorder. *)

From Stdlib Require Import ZArith Lia.
From stdpp Require Import base list strings gmap.
From S2P Require Import Prelude GoStrings Api InvestigationApi Digest Prog Runtime Executor Escalation Effectiveness AgentAction.

Section Operations.
Context {LS : LabelSelectors}.

Inductive act_op : Type -> Type :=
| ANow : act_op time
| AGetAction (namespace name : string) : act_op (result AgentAction)
(** [r.Status().Update]: on success the object as the server stored it. *)
| AUpdateStatus (a : AgentAction) : act_op (result AgentAction)
| ADelete (a : AgentAction) : act_op (option error)
| AListActions (namespace : string) : act_op (result (list AgentAction))
(** The evidence of a RiskSignal spec. *)
| AGetRiskSignal (namespace name : string) : act_op (result (list EvidenceRef))
| AGetChain (namespace name : string) : act_op (result (EscalationChain selector))
| AListChains (namespace : string) : act_op (result (list (EscalationChain selector)))
(** [controllerutil.CreateOrUpdate] with its mutate function. *)
| AEnsureVerification (namespace name : string)
    (mutate : InvestigationRequest -> result InvestigationRequest) : act_op (result InvestigationRequest)
| AGetInvestigation (namespace name : string) : act_op (result InvestigationRequest)
| AExecute (request : ExecutorRequest) : act_op (ExecutionResult * option error)
| AResolve (request : ExecutorRequest) : act_op (ExecutionResult * bool * option error)
| ACaptureBaseline (request : ExecutorRequest) : act_op (ExecBaseline * bool * option error)
| AObserveHealth (request : ExecutorRequest) : act_op (HealthSnapshot * bool * option error)
| ANotify (message : Message) : act_op (option error)
| AEvent (type reason message : string) : act_op unit
(** [rcametrics.RecordStatusUpdateConflict]. *)
| AConflictMetric (resource : string) : act_op unit
(** A nil dereference: no answer comes back. *)
| APanic : act_op Empty_set.

Definition aprog := prog act_op.
Definition panic {R} : aprog R := Vis APanic (fun x : Empty_set => match x with end).
End Operations.

(** What the reconciler is built with: which optional parts are non-nil. *)
Record ActionConfig := mkActionConfig {
  ac_Scheme : bool;
  ac_Executor : bool;
  ac_EscalationRouter : bool;
  ac_Notifier : bool;
  ac_EventRecorder : bool
}.

Section ActionReconciler.
Context {U : UnicodeTables} {D : DigestPrims} {LS : LabelSelectors} {CR : ControllerReferences}.
Context (cfg : ActionConfig).
Implicit Type action : AgentAction.

Definition recordStatusUpdateConflict (resource : string) (err : error) : aprog bool :=
  if negb (is_conflict err) then Ret false
  else _ <~! AConflictMetric resource; Ret true.

Definition recordPhaseTransition (fromPhase toPhase : string) : aprog unit :=
  if negb (ac_EventRecorder cfg) || (fromPhase == toPhase) then Ret tt
  else
    let '(type, reason, message) := phaseTransitionEvent fromPhase toPhase in
    if reason != "" then trigger (AEvent type reason message) else Ret tt.

(** The block [if err := r.Status().Update(..); err != nil { metric; return err }]. *)
Definition updateStatus action (k : AgentAction -> aprog rresult) : aprog rresult :=
  updated <~! AUpdateStatus action;
  match updated with
  | Err e => _ <~ recordStatusUpdateConflict "AgentAction" e; Ret (done_err e)
  | Ok action' => k action'
  end.

Definition failBeforeDispatch action (request : ExecutorRequest) (reason : string)
    (dispatchErr : error) (now : time) : aprog rresult :=
  updateStatus
    (set_status action (failBeforeDispatchStatus (act_Status action) (om_Generation (act_Meta action))
                          request reason dispatchErr now))
    (fun _ => Ret (done_err dispatchErr)).

Definition recordExecutionSuccess action (request : ExecutorRequest) (result : ExecutionResult)
    (now : time) : aprog rresult :=
  match successStatus action request result now with
  | None => panic
  | Some status =>
      updateStatus (set_status action status) (fun action' =>
        _ <~ recordPhaseTransition (act_Phase action) (act_Phase action');
        match st_Effectiveness status ≫= ef_SettlingUntil with
        | Some until => Ret (requeue (Z.max 0 (time_sub until now)))
        | None => Ret done_ok
        end)
  end.

Definition populateBaselineEvidence (baseline : EffectivenessBaseline)
    : aprog (result EffectivenessBaseline) :=
  match eb_RiskSignalRef baseline with
  | None => Ret (Ok baseline)
  | Some ref =>
      got <~! AGetRiskSignal (nor_Namespace ref) (nor_Name ref);
      match got with
      | Err e =>
          if is_not_found e then Ret (Ok baseline)
          else Ret (Err (wrapf ("get baseline RiskSignal " +:+ nor_Namespace ref +:+ "/" +:+ nor_Name ref) e))
      | Ok evidence => Ret (Ok (with_evidence baseline evidence))
      end
  end.

(** *** Waiting for approval *)

Definition escalationMessage action (route : option Route) : Message :=
  mkMessage "FluxSeer RCA approval escalation"
    (targetRefString (as_Target (act_Spec action)) +:+ " exceeded its "
       +:+ itoa (as_ApprovalTimeoutSeconds (act_Spec action)) +:+ "s approval timeout")
    (rs_Message (st_ResourceStatus (act_Status action)))
    ([("namespace", JStr (om_Namespace (act_Meta action)));
      ("name", JStr (om_Name (act_Meta action)));
      ("actionType", JStr (as_ActionType (act_Spec action)))]
     ++ match route with
        | None => []
        | Some r =>
            [("escalationChain", JStr (cref_Name (route_Reference r)));
             ("escalationChainVersion", JStr (cref_Version (route_Reference r)));
             ("escalationStageCount", JNum (Z.of_nat (length (ech_Stages (route_Chain r)))))]
        end).

(** [r.EscalationRouter.Resolve] with the router's reads as operations. *)
Definition resolveEscalation (request : EscalationRequest) : aprog (result (option Route)) :=
  let missing {A} : result A := Err (errorf "not read") in
  if erq_EscalationChainRef request != "" then
    got <~! AGetChain (erq_Namespace request) (erq_EscalationChainRef request);
    Ret (resolveRoute (Some (mkChainReader (fun _ => missing) (fun _ _ => got))) request)
  else
    listed <~! AListChains (erq_Namespace request);
    Ret (resolveRoute (Some (mkChainReader (fun _ => listed) (fun _ _ => missing))) request).

(** The notification attempt recorded before the delivery. *)
Definition notificationAttempt action (now : time) : AgentActionNotificationStatus :=
  mkNotificationStatus (Some now)
    (match st_Notification (act_Status action) with
     | Some n => wrap32 (nt_RetryCount n + 1)
     | None => 1
     end) "".

Definition with_last_error (n : option AgentActionNotificationStatus) (e : string)
    : option AgentActionNotificationStatus :=
  (fun n => mkNotificationStatus (nt_LastAttemptAt n) (nt_RetryCount n) e) <$> n.

(** Persist Escalated; the approval was read by the caller and must be there. *)
Definition escalate action (now : time) : aprog rresult :=
  match st_Approval (act_Status action) with
  | None => panic
  | Some ap =>
      let status :=
        with_approval
          (with_resource_status (act_Status action)
             (setResourceStatus PhaseEscalated "approval timeout exceeded, escalation notified"
                (om_Generation (act_Meta action)) now))
          (Some (mkApprovalStatus (ap_Approved ap) (ap_ApprovedBy ap) (ap_Source ap) (ap_ActionDigest ap)
                   (ap_ApprovedGeneration ap) (ap_ApprovedAt ap) (Some now) (ap_DecidedAt ap)
                   (ap_DecidedBy ap))) in
      if statusChangedAction action (set_status action status) then
        updateStatus (set_status action status) (fun action' =>
          _ <~ recordPhaseTransition (act_Phase action) (act_Phase action');
          Ret done_ok)
      else Ret done_ok
  end.

Definition reconcileApprovalTimeout action (now : time) : aprog rresult :=
  let spec := act_Spec action in
  let updatedAt := rs_UpdatedAt (st_ResourceStatus (act_Status action)) in
  if (act_Phase action == PhaseEscalated) || (as_ApprovalTimeoutSeconds spec <=? 0)
     || is_zero_time updatedAt then Ret done_ok
  else
    let deadline := time_add updatedAt (seconds (as_ApprovalTimeoutSeconds spec)) in
    if time_before now deadline then Ret (requeue (time_sub deadline now))
    else
      route <~ (if ac_Notifier cfg && ac_EscalationRouter cfg
                then resolveEscalation
                       (mkEscalationRequest (om_Namespace (act_Meta action))
                          (map_get (om_Annotations (act_Meta action)) annotationEscalationChainRef)
                          (om_Labels (act_Meta action)))
                else Ret (Ok None));
      match route with
      | Err e => Ret (done_err e)
      | Ok route =>
          if negb (ac_Notifier cfg) then escalate action now
          else
            let attempt := notificationAttempt action now in
            updateStatus (set_status action (with_notification (act_Status action) (Some attempt)))
              (fun action' =>
                 delivered <~! ANotify (escalationMessage action' route);
                 match delivered with
                 | Some notifyErr =>
                     updateStatus
                       (set_status action' (with_notification (act_Status action')
                          (with_last_error (st_Notification (act_Status action')) (err_msg notifyErr))))
                       (fun _ =>
                          _ <~ (if ac_EventRecorder cfg then
                                  trigger (AEvent EventTypeWarning "NotificationRetryFailed"
                                    ("escalation notification attempt " +:+ itoa (nt_RetryCount attempt)
                                       +:+ " failed: " +:+ err_msg notifyErr))
                                else Ret tt);
                          Ret (done_err notifyErr))
                 | None =>
                     escalate
                       (set_status action' (with_notification (act_Status action')
                          (with_last_error (st_Notification (act_Status action')) ""))) now
                 end)
      end.

Definition reconcilePending action (now : time) : aprog rresult :=
  let digest := agentActionSpecDigest (act_Spec action) in
  let evaluated :=
    match st_Approval (act_Status action) with
    | None => false
    | Some ap => ap_ActionDigest ap == digest
    end in
  if negb evaluated then
    let pending := set_status action (pendingStatus action now) in
    if statusChangedAction action pending then
      updateStatus pending (fun action' =>
        _ <~ recordPhaseTransition (act_Phase action) (act_Phase action');
        Ret done_ok)
    else Ret done_ok
  else reconcileApprovalTimeout action now.

(** *** Terminal actions *)

Definition reconcileTerminalStateTTL action (now : time) : aprog rresult :=
  if as_TTLSeconds (act_Spec action) =? 0 then Ret done_ok
  else if bool_decide (is_Some (om_Annotations (act_Meta action) !! annotationRetain)) then Ret done_ok
  else
    match st_FinishedAt (act_Status action) with
    | None => Ret done_ok
    | Some finishedAt =>
        let expireTime := time_add finishedAt (seconds (as_TTLSeconds (act_Spec action))) in
        if time_after now expireTime then
          deleted <~! ADelete action;
          Ret (match deleted with Some e => ignoreNotFound e | None => done_ok end)
        else Ret (requeue (time_sub expireTime now))
    end.

(** *** Effectiveness verification *)

Definition verificationSpec action (executionID baselineDigest : string) : InvestigationRequestSpec :=
  investigation_spec (as_Target (act_Spec action)) InvestigationPurposeEffectivenessVerification
    (Some (mkInvestigationCorrelation
             (mkNamespacedObjectReference (om_Name (act_Meta action)) (om_Namespace (act_Meta action)))
             executionID baselineDigest))
    effectivenessObservationWindow
    ("Verify whether " +:+ targetRefString (as_Target (act_Spec action)) +:+ " recovered after execution "
       +:+ executionID)
    [mkInvestigationQuery "post-action-workload-events" "kubernetes-events" "event" "" ""
       ["BackOff"; "Unhealthy"; "Failed"; "FailedCreate"; "ProgressDeadlineExceeded"]]
    InvestigationModeReadOnly false "effectivenessverification".

Definition mutateVerification action (executionID : string) (baseline : EffectivenessBaseline)
    (verification : InvestigationRequest) : result InvestigationRequest :=
  owned <-! SetControllerReference "AgentAction" (act_Meta action) (ir_Meta verification);
  let meta := act_Meta action in
  let annotations :=
    <[annotationInvestigationDepth := "0"]>
    (<[annotationTargetUID := eb_TargetUID baseline]>
    (<[annotationLineageSourceUID := om_UID meta]>
    (<[annotationLineageSourceAPI := "aiops.platform/v1alpha1"]>
    (<[annotationLineageSourceKind := "AgentAction"]>
    (<[annotationLineageSource := om_Namespace meta +:+ "/" +:+ om_Name meta]>
      (om_Annotations owned)))))) in
  Ok (mkInvestigationRequest
        (om_relabel owned (<[labelManagedBy := "agentaction-controller"]> (om_Labels owned)) annotations)
        (ir_CreationTimestamp verification) (ir_DeletionTimestamp verification)
        (verificationSpec action executionID (eb_Digest baseline)) (ir_Status verification)).

Definition createEffectivenessVerification action (executionID : string)
    (baseline : EffectivenessBaseline) : aprog (result InvestigationRequest) :=
  if negb (ac_Scheme cfg) then
    Ret (Err (errorf "AgentAction reconciler requires a scheme to create verification InvestigationRequest"))
  else
    trigger (AEnsureVerification (om_Namespace (act_Meta action))
               (effectivenessVerificationName action executionID)
               (mutateVerification action executionID baseline)).

(** The effectiveness record once a verification reference or a verdict is known. *)
Definition ef_with_verification (e : AgentActionEffectivenessStatus) (ref : NamespacedObjectReference)
    : AgentActionEffectivenessStatus :=
  mkEffectivenessStatus (ef_Phase e) (ef_Outcome e)
    "read-only verification investigation created; waiting for post-action evidence" (Some ref)
    (ef_Baseline e) (ef_PostActionHealth e) (ef_StartedAt e) (ef_FinishedAt e) (ef_SettlingUntil e)
    (ef_ObservationUntil e).

Definition ef_with_verdict (e : AgentActionEffectivenessStatus) (v : effectivenessEvaluation)
    (observation : option HealthSnapshot) (now : time) : AgentActionEffectivenessStatus :=
  mkEffectivenessStatus EffectivenessPhaseCompleted (ev_Outcome v) (ev_Message v) (ef_VerificationRef e)
    (ef_Baseline e) (match observation with Some h => Some h | None => ef_PostActionHealth e end)
    (ef_StartedAt e) (Some now) (ef_SettlingUntil e) (ef_ObservationUntil e).

(** A verification that finished: observe the target and record the verdict. *)
Definition concludeVerification action (effectiveness : AgentActionEffectivenessStatus)
    (baseline : EffectivenessBaseline) (verification : InvestigationRequest) (now : time)
    : aprog rresult :=
  '(postHealth, observed, observeErr) <~! AObserveHealth (executorRequestForPersistedAction action);
  let seen := observed && bool_decide (observeErr = None) in
  let evaluation :=
    match observeErr with
    | Some e => inconclusive ("post-action health observation failed: " +:+ err_msg e)
    | None => evaluateEffectiveness (Some baseline) postHealth seen (Some verification)
    end in
  updateStatus
    (set_status action (with_effectiveness (act_Status action)
       (Some (ef_with_verdict effectiveness evaluation (if seen then Some postHealth else None) now))))
    (fun _ => Ret done_ok).

(** After the settling period. *)
Definition reconcileSettled action (effectiveness : AgentActionEffectivenessStatus)
    (execution : AgentActionExecutionStatus) (baseline : EffectivenessBaseline) (now : time)
    : aprog rresult :=
  match ef_VerificationRef effectiveness with
  | None =>
      created <~ createEffectivenessVerification action (ex_ExecutionID execution) baseline;
      match created with
      | Err e => Ret (done_err e)
      | Ok verification =>
          let ref := mkNamespacedObjectReference (om_Name (ir_Meta verification))
                       (om_Namespace (ir_Meta verification)) in
          updateStatus
            (set_status action (with_effectiveness (act_Status action)
               (Some (ef_with_verification effectiveness ref))))
            (fun _ => Ret (requeue (5 * second)))
      end
  | Some ref =>
      let await :=
        got <~! AGetInvestigation (nor_Namespace ref) (nor_Name ref);
        match got with
        | Err e => Ret (if is_not_found e then requeue (5 * second) else done_err e)
        | Ok verification =>
            if (ir_Phase verification != PhaseCompleted) && (ir_Phase verification != PhaseFailed)
            then Ret (requeue (5 * second))
            else concludeVerification action effectiveness baseline verification now
        end in
      match ef_ObservationUntil effectiveness with
      | Some until => if time_before now until then Ret (requeue (time_sub until now)) else await
      | None => await
      end
  end.

Definition reconcileEffectivenessVerification action (now : time) : aprog rresult :=
  match st_Effectiveness (act_Status action), st_Execution (act_Status action) with
  | Some effectiveness, Some execution =>
      match ef_Baseline effectiveness with
      | None => Ret done_ok
      | Some baseline =>
          if ex_Outcome execution != ExecutionOutcomeSucceeded then Ret done_ok
          else
            match ef_SettlingUntil effectiveness with
            | Some until =>
                if time_before now until then Ret (requeue (time_sub until now))
                else reconcileSettled action effectiveness execution baseline now
            | None => reconcileSettled action effectiveness execution baseline now
            end
      end
  | _, _ => Ret done_ok
  end.

(** *** Dispatch of an approved action *)

(** After [Execute] returned an error. *)
Definition recordExecutionError (namespace name : string) (result : ExecutionResult) (err : error)
    : aprog rresult :=
  got <~! AGetAction namespace name;
  match got with
  | Err e => Ret (ignoreNotFound e)
  | Ok action =>
      now <~! ANow;
      if xr_Outcome result == ExecutionOutcomeUnknown then
        updateStatus (set_status action (unknownStatus action result err now))
          (fun _ => Ret (requeue (5 * second)))
      else
        (* the phase is read back after it was set to Failed *)
        let failed := set_status action (failedStatus action err now) in
        updateStatus failed (fun action' =>
          _ <~ recordPhaseTransition (act_Phase failed) (act_Phase action');
          Ret (done_err err))
  end.

Definition executeDispatched (namespace name : string) (request : ExecutorRequest) : aprog rresult :=
  '(result, err) <~! AExecute request;
  match err with
  | Some e => recordExecutionError namespace name result e
  | None =>
      got <~! AGetAction namespace name;
      match got with
      | Err e => Ret (ignoreNotFound e)
      | Ok action => now <~! ANow; recordExecutionSuccess action request result now
      end
  end.

(** Persist Executing with the execution identity, then execute. *)
Definition persistAndExecute (namespace name : string) original (status : AgentActionStatus)
    (request : ExecutorRequest) : aprog rresult :=
  let dispatched := set_status original status in
  if statusChangedAction original dispatched then
    updateStatus dispatched (fun action' =>
      _ <~ recordPhaseTransition (act_Phase original) (act_Phase action');
      executeDispatched namespace name request)
  else executeDispatched namespace name request.

Definition dispatchApproved (namespace name : string) action (approval : AgentActionApprovalStatus)
    : aprog rresult :=
  let request := executionRequest action approval in
  '(baseline, baselineFound, captureErr) <~! ACaptureBaseline request;
  match captureErr with
  | Some e =>
      now <~! ANow; failBeforeDispatch action request "BaselineCaptureFailed" e now
  | None =>
      now <~! ANow;
      let startedAt := executionStart baseline baselineFound now in
      let status := dispatchStatus action approval request startedAt in
      if baselineFound : bool then
        populated <~ populateBaselineEvidence (effectivenessBaselineFromExecutor baseline action);
        match populated with
        | Err e =>
            now' <~! ANow;
            failBeforeDispatch (set_status action status) request "BaselineEvidenceUnavailable" e now'
        | Ok apiBaseline =>
            persistAndExecute namespace name action
              (with_effectiveness status (Some (capturedEffectiveness apiBaseline))) request
        end
      else persistAndExecute namespace name action status request
  end.

(** *** Reconcile *)

Definition verifying action : bool :=
  match st_Effectiveness (act_Status action) with
  | Some e => ef_Phase e == EffectivenessPhaseVerifying
  | None => false
  end.

Definition terminal (phase : string) : bool :=
  (phase == PhaseSucceeded) || (phase == PhaseFailed) || (phase == PhaseRejected).

Definition inFlight action : bool :=
  (act_Phase action == PhaseExecuting) &&
  match st_Execution (act_Status action) with
  | Some e => ex_ExecutionID e != ""
  | None => false
  end.

Definition recoverExecution action : aprog rresult :=
  let request := executorRequestForPersistedAction action in
  if ac_Executor cfg then
    '(result, found, err) <~! AResolve request;
    match err with
    | Some e => Ret (done_err e)
    | None =>
        if found : bool then now <~! ANow; recordExecutionSuccess action request result now
        else Ret (requeue (5 * second))
    end
  else Ret (requeue (5 * second)).

Definition reconcileAction (namespace name : string) : aprog rresult :=
  got <~! AGetAction namespace name;
  match got with
  | Err e => Ret (ignoreNotFound e)
  | Ok action =>
      if verifying action then
        now <~! ANow; reconcileEffectivenessVerification action now
      else if terminal (act_Phase action) then
        now <~! ANow; reconcileTerminalStateTTL action now
      else if inFlight action then recoverExecution action
      else if negb (isAgentActionApproved action) then
        now <~! ANow; reconcilePending action now
      else
        match st_Approval (act_Status action) with
        | None => panic
        | Some approval => dispatchApproved namespace name action approval
        end
  end.

(** *** Requeue of waiting actions when an EscalationChain changes *)

Definition affectedByChain (chainName : string) action : bool :=
  (act_Phase action == PhaseWaitingApproval) &&
  (let ref := map_get (om_Annotations (act_Meta action)) annotationEscalationChainRef in
   negb ((ref != "") && (ref != chainName))).

Definition mapPendingEscalationActions (chain : ObjectMeta) : aprog (list (string * string)) :=
  listed <~! AListActions (om_Namespace chain);
  match listed with
  | Err _ => Ret []
  | Ok actions =>
      Ret (map (fun a => (om_Namespace (act_Meta a), om_Name (act_Meta a)))
             (filter (fun a => affectedByChain (om_Name chain) a = true) actions))
  end.
End ActionReconciler.
