(* ===== verification/PlanController.v ===== *)
(** * The RemediationPlan reconciler (internal/controllers/remediationplan_controller.go)

    A plan is decided once: namespace thresholds, then the guardrails or policy
    engine; the decision is written to the AgentAction it creates and then to
    the plan. *)

From Stdlib Require Import ZArith Lia.
From stdpp Require Import base list strings gmap.
From S2P Require Import Prelude GoStrings Api Guardrails Thresholds Digest Prog Runtime Executor Escalation Effectiveness AgentAction ActionController.

Definition approvalDecisionActor : string := "fluxseer-rca-policy-engine".

Definition plan_with_status (p : RemediationPlan) (s : RemediationPlanStatus) : RemediationPlan :=
  mkRemediationPlan (plan_Meta p) (plan_Spec p) s.

(** [plan.Spec.TTLSeconds = ..] and [plan.Spec.ApprovalTimeoutSeconds = ..]. *)
Definition plan_with_defaults (p : RemediationPlan) (ttl approvalTimeout : Z) : RemediationPlan :=
  let s := plan_Spec p in
  mkRemediationPlan (plan_Meta p)
    (mkRemediationPlanSpec (ps_Target s) (ps_RecommendedBy s) (ps_Severity s) (ps_Confidence s) (ps_DryRun s)
       ttl approvalTimeout (ps_Summary s) (ps_RollbackPlan s) (ps_References s) (ps_Steps s))
    (plan_Status p).

(** [before.Status != after.Status] compares the FinishedAt pointers: equal only
    when both are nil, since one of the statuses is a deep copy. *)
Definition statusChangedPlan (before after : RemediationPlan) : bool :=
  negb (bool_decide (pst_ResourceStatus (plan_Status before) = pst_ResourceStatus (plan_Status after) /\
                     pst_FinishedAt (plan_Status before) = None /\
                     pst_FinishedAt (plan_Status after) = None)).

Definition remediationFromPlan (p : RemediationPlan) : Remediation :=
  let step := match ps_Steps (plan_Spec p) with
              | s :: _ => s
              | [] => mkRemediationStep "" "" "" ∅
              end in
  mkRemediation (step_ActionType step) (step_Description step) (step_Parameters step)
    (ps_RollbackPlan (plan_Spec p)).

Definition targetNamespace (p : RemediationPlan) : string :=
  if tr_Namespace (ps_Target (plan_Spec p)) == "" then om_Namespace (plan_Meta p)
  else tr_Namespace (ps_Target (plan_Spec p)).

Section PlanOperations.
Context {LS : LabelSelectors}.

Inductive plan_op : Type -> Type :=
| PNow : plan_op time
| PGetPlan (namespace name : string) : plan_op (result RemediationPlan)
| PUpdatePlan (p : RemediationPlan) : plan_op (result RemediationPlan)
| PUpdatePlanStatus (p : RemediationPlan) : plan_op (result RemediationPlan)
| PDeletePlan (p : RemediationPlan) : plan_op (option error)
(** The labels of a Namespace. *)
| PGetNamespace (name : string) : plan_op (result (gmap string string))
| PListPlans (namespace : option string) : plan_op (result (list RemediationPlan))
| PListActions (namespace : string) : plan_op (result (list AgentAction))
| PListThresholds : plan_op (result (list (NamespaceThreshold selector)))
| PListPolicies : plan_op (result (list (ApprovalPolicy selector)))
| PEnsureAction (namespace name : string) (mutate : AgentAction -> result AgentAction)
    : plan_op (result AgentAction)
| PUpdateActionStatus (a : AgentAction) : plan_op (result AgentAction)
| PEvent (type reason message : string) : plan_op unit
| PConflictMetric (resource : string) : plan_op unit.

Definition pprog := prog plan_op.
End PlanOperations.

(** The policy engine a reconciler was built with ([None]: a nil PolicyEngine). *)
Record PolicyEngineSettings := mkPolicyEngineSettings {
  pes_Reader : bool;
  pes_Legacy : option Policy;
  pes_Enabled : bool
}.

Record PlanConfig := mkPlanConfig {
  pc_Guardrails : option Policy;
  pc_PolicyEngine : option PolicyEngineSettings;
  (** A threshold enforcer, with or without a reader. *)
  pc_Thresholds : option bool;
  pc_EventRecorder : bool
}.

Section PlanReconciler.
Context {U : UnicodeTables} {D : DigestPrims} {LS : LabelSelectors} {CR : ControllerReferences}.
Context (cfg : PlanConfig).
Implicit Type plan : RemediationPlan.

(** A read that treats a missing Namespace as one without labels. *)
Definition namespaceLabels (namespaceName : string) : pprog (result (gmap string string)) :=
  if namespaceName == "" then Ret (Ok ∅)
  else
    got <~! PGetNamespace namespaceName;
    Ret (match got with
         | Ok labels => Ok labels
         | Err e => if is_not_found e then Ok ∅
                    else Err (wrapf ("get target namespace " +:+ quote namespaceName) e)
         end).

Definition countsAsActive plan : bool :=
  negb (mem_str (plan_Phase plan) [PhaseSucceeded; PhaseFailed; PhaseRejected; PhaseCompleted]).
Definition countsAsPending (a : AgentAction) : bool :=
  (act_Phase a == PhaseWaitingApproval) || (act_Phase a == PhaseEscalated).

Definition namespaceUsage (namespaceName : string) : pprog (result Usage) :=
  plans <~! PListPlans (Some namespaceName);
  match plans with
  | Err e => Ret (Err (wrapf ("list remediation plans in namespace " +:+ quote namespaceName) e))
  | Ok plans =>
      actions <~! PListActions namespaceName;
      Ret (match actions with
           | Err e => Err (wrapf ("list agent actions in namespace " +:+ quote namespaceName) e)
           | Ok actions =>
               Ok (mkUsage (Z.of_nat (length (filter (fun p => countsAsActive p = true) plans)))
                     (Z.of_nat (length (filter (fun a => countsAsPending a = true) actions))))
           end)
  end.

Definition violationText (v : Violation) : string :=
  vi_Resource v +:+ "=" +:+ itoa (vi_Current v) +:+ " exceeds limit=" +:+ itoa (vi_Limit v).

Definition thresholdMessage (r : EnforcementResult) : string :=
  (match enf_Resolution r with
   | None => "namespace threshold exceeded"
   | Some res =>
       let ref := res_Reference res in
       "namespace threshold " +:+ tref_Namespace ref +:+ "/" +:+ tref_Name ref +:+ "@" +:+ tref_Version ref
         +:+ " exceeded"
   end) +:+ ": " +:+ join "; " (map violationText (enf_Violations r)).

Definition planRecordConflict (resource : string) (err : error) : pprog bool :=
  if negb (is_conflict err) then Ret false
  else _ <~! PConflictMetric resource; Ret true.

Definition planRecordPhaseTransition (fromPhase toPhase : string) : pprog unit :=
  if negb (pc_EventRecorder cfg) || (fromPhase == toPhase) then Ret tt
  else
    let '(type, reason, message) := phaseTransitionEvent fromPhase toPhase in
    if reason != "" then trigger (PEvent type reason message) else Ret tt.

(** A conflicting update is counted and then treated like a successful one. *)
Definition rejectForThreshold plan (r : EnforcementResult) (now : time) : pprog rresult :=
  let rejected :=
    plan_with_status plan
      (mkRemediationPlanStatus
         (setResourceStatus PhaseRejected (thresholdMessage r) (om_Generation (plan_Meta plan)) now) (Some now)) in
  if negb (statusChangedPlan plan rejected) then Ret done_ok
  else
    updated <~! PUpdatePlanStatus rejected;
    let finish (stored : RemediationPlan) : pprog rresult :=
      if pc_EventRecorder cfg then
        _ <~! PEvent EventTypeWarning "NamespaceThresholdExceeded"
               (rs_Message (pst_ResourceStatus (plan_Status stored)));
        Ret done_ok
      else Ret done_ok in
    match updated with
    | Ok stored => finish stored
    | Err e =>
        conflict <~ planRecordConflict "RemediationPlan" e;
        if conflict : bool then finish rejected else Ret (done_err e)
    end.

(** *** The guardrails decision *)

Definition reviewInput plan : ReviewInput :=
  mkReviewInput (targetToResource (ps_Target (plan_Spec plan)))
    (reasoning_output (ps_Severity (plan_Spec plan)) (remediationFromPlan plan)) "".

Definition planEvaluatePolicy plan : pprog (result PolicyEvaluation) :=
  match pc_PolicyEngine cfg with
  | None =>
      Ret (match pc_Guardrails cfg with
           | None => Err (errorf "remediation plan reconciler requires a guardrails evaluator")
           | Some policy =>
               Ok (mkPolicyEvaluation (engineEvaluate policy (reviewInput plan)) None PolicySourceLegacy 0 None)
           end)
  | Some engine =>
      labels <~ namespaceLabels (targetNamespace plan);
      match labels with
      | Err e => Ret (Err e)
      | Ok labels =>
          let input := mkPolicyReviewInput (reviewInput plan) (om_Labels (plan_Meta plan)) labels in
          if pes_Enabled engine && pes_Reader engine then
            listed <~! PListPolicies;
            Ret (policyEngineEvaluate
                   (mkPolicyEngineConfig (Some listed) (pes_Legacy engine) true) input)
          else
            Ret (policyEngineEvaluate
                   (mkPolicyEngineConfig None (pes_Legacy engine) (pes_Enabled engine)) input)
      end
  end.

Definition approvalSource (evaluation : PolicyEvaluation) (fallback : string) : string :=
  match pe_Policy evaluation with
  | None => fallback
  | Some p => pref_Kind p +:+ "/" +:+ pref_Namespace p +:+ "/" +:+ pref_Name p +:+ "@" +:+ pref_Version p
  end.

(** *** The AgentAction of a plan *)

Definition copy_annotation (key : string) (from to : gmap string string) : gmap string string :=
  if map_get from key != "" then <[key := map_get from key]> to else to.

Definition actionAnnotations plan (evaluation : PolicyEvaluation) (m : gmap string string)
    : gmap string string :=
  let source := om_Annotations (plan_Meta plan) in
  copy_annotation annotationRiskSignalUID source
    (copy_annotation annotationRiskSignalRef source
       (copy_annotation annotationTargetUID source
          (match pe_Escalation evaluation with
           | Some e => if ec_EscalationChainRef e != ""
                       then <[annotationEscalationChainRef := ec_EscalationChainRef e]> m else m
           | None => m
           end))).

Definition planApprovalTimeout plan (evaluation : PolicyEvaluation) : Z :=
  if 0 <? pe_ApprovalTimeoutSeconds evaluation then pe_ApprovalTimeoutSeconds evaluation
  else ps_ApprovalTimeoutSeconds (plan_Spec plan).

Definition planActionSpec plan (evaluation : PolicyEvaluation) (existing : AgentActionSpec) : AgentActionSpec :=
  let step := remediationFromPlan plan in
  let decision := pe_Decision evaluation in
  mkAgentActionSpec (ps_Target (plan_Spec plan)) (rem_ActionType step) (rem_Parameters step)
    (match ad_Action decision with
     | ApprovalAuto => ad_ApprovedBy decision
     | _ => as_ApprovedBy existing
     end)
    (ad_DryRunResult decision) (ps_TTLSeconds (plan_Spec plan)) (planApprovalTimeout plan evaluation)
    (ps_RollbackPlan (plan_Spec plan)).

Definition mutateAction plan (evaluation : PolicyEvaluation) (action : AgentAction) : result AgentAction :=
  owned <-! SetControllerReference "RemediationPlan" (plan_Meta plan) (act_Meta action);
  Ok (mkAgentAction
        (om_relabel owned (om_Labels (plan_Meta plan))
           (actionAnnotations plan evaluation (om_Annotations owned)))
        (planActionSpec plan evaluation (act_Spec action)) (act_Status action)).

(** *** Recording the decision *)

Definition decidedPlanStatus plan (decision : ApprovalDecision) (now finished : time) : RemediationPlanStatus :=
  let g := om_Generation (plan_Meta plan) in
  match ad_Action decision with
  | ApprovalAuto =>
      mkRemediationPlanStatus
        (setResourceStatus PhaseApproved "policy auto-approved remediation plan" g now)
        (pst_FinishedAt (plan_Status plan))
  | ApprovalManual =>
      mkRemediationPlanStatus
        (setResourceStatus PhaseWaitingApproval "human approval required before execution" g now)
        (pst_FinishedAt (plan_Status plan))
  | ApprovalReject =>
      mkRemediationPlanStatus (setResourceStatus PhaseRejected (ad_Reason decision) g now) (Some finished)
  end.

Definition decidedPhase (a : ApprovalAction) : string :=
  match a with
  | ApprovalAuto => PhaseApproved | ApprovalManual => PhaseWaitingApproval | ApprovalReject => PhaseRejected
  end.

Definition decidedApproval (action : AgentAction) (evaluation : PolicyEvaluation) (recordedAt : time)
    : AgentActionApprovalStatus :=
  let decision := pe_Decision evaluation in
  let record approved by_ fallback :=
    mkApprovalStatus approved by_ (approvalSource evaluation fallback)
      (agentActionSpecDigest (act_Spec action)) (om_Generation (act_Meta action)) None None
      (Some recordedAt) approvalDecisionActor in
  match ad_Action decision with
  | ApprovalAuto => record true (ad_ApprovedBy decision) "GuardrailsAutoApproval"
  | ApprovalManual => record false "" "ManualApprovalRequired"
  | ApprovalReject => record false "" "GuardrailsRejected"
  end.

Definition decidedActionStatus (action : AgentAction) (evaluation : PolicyEvaluation) (recordedAt : time)
    : AgentActionStatus :=
  let decision := pe_Decision evaluation in
  let s := act_Status action in
  let s := with_dry_run s (Some (mkDryRunStatus (ad_DryRunResult decision) (Some recordedAt))) in
  let s := with_resource_status s
             (setResourceStatus (decidedPhase (ad_Action decision)) (ad_Reason decision)
                (om_Generation (act_Meta action)) recordedAt) in
  let s := match ad_Action decision with ApprovalReject => with_finished_at s (Some recordedAt) | _ => s end in
  with_approval s (Some (decidedApproval action evaluation recordedAt)).

Definition recordPlanStatus original plan : pprog rresult :=
  if statusChangedPlan original plan then
    updated <~! PUpdatePlanStatus plan;
    match updated with
    | Err e => _ <~ planRecordConflict "RemediationPlan" e; Ret (done_err e)
    | Ok _ => Ret done_ok
    end
  else Ret done_ok.

(** First the action, then the plan. *)
Definition recordDecision plan (evaluation : PolicyEvaluation) (action : AgentAction) : pprog rresult :=
  let decision := pe_Decision evaluation in
  planNow <~! PNow;
  finishedAt <~ (match ad_Action decision with ApprovalReject => trigger PNow | _ => Ret 0 end);
  let plan' := plan_with_status plan (decidedPlanStatus plan decision planNow finishedAt) in
  recordedAt <~! PNow;
  let action' := set_status action (decidedActionStatus action evaluation recordedAt) in
  if statusChangedAction action action' then
    updated <~! PUpdateActionStatus action';
    match updated with
    | Err e => _ <~ planRecordConflict "AgentAction" e; Ret (done_err e)
    | Ok stored =>
        _ <~ planRecordPhaseTransition (act_Phase action) (act_Phase stored);
        recordPlanStatus plan plan'
    end
  else recordPlanStatus plan plan'.

Definition decidePlan plan : pprog rresult :=
  evaluated <~ planEvaluatePolicy plan;
  match evaluated with
  | Err e => Ret (done_err e)
  | Ok evaluation =>
      ensured <~! PEnsureAction (om_Namespace (plan_Meta plan)) (om_Name (plan_Meta plan) +:+ "-action")
                    (mutateAction plan evaluation);
      match ensured with
      | Err e => Ret (done_err e)
      | Ok action => recordDecision plan evaluation action
      end
  end.

(** The defaults of the resolved threshold, and whether they change the plan. *)
Definition applyDefaults plan (threshold : NamespaceThresholdSpec selector) : RemediationPlan * bool :=
  let s := plan_Spec plan in
  let ttl := (ps_TTLSeconds s =? 0) && (0 <? nts_DefaultTTLSeconds threshold) in
  let tmo := (ps_ApprovalTimeoutSeconds s =? 0) && (0 <? nts_DefaultApprovalTimeoutSeconds threshold) in
  (plan_with_defaults plan (if ttl then nts_DefaultTTLSeconds threshold else ps_TTLSeconds s)
     (if tmo then nts_DefaultApprovalTimeoutSeconds threshold else ps_ApprovalTimeoutSeconds s),
   ttl || tmo).

(** The three reads that precede enforcement. *)
Definition enforceThresholds (reader : bool) plan : pprog (result EnforcementResult) :=
  let ns := targetNamespace plan in
  labels <~ namespaceLabels ns;
  match labels with
  | Err e => Ret (Err e)
  | Ok labels =>
      usage <~ namespaceUsage ns;
      match usage with
      | Err e => Ret (Err e)
      | Ok usage =>
          if reader then
            listed <~! PListThresholds; Ret (Enforce (Some listed) (mkResolveRequest ns labels) usage)
          else Ret (Enforce None (mkResolveRequest ns labels) usage)
      end
  end.

Definition reconcilePlan (namespace name : string) : pprog rresult :=
  got <~! PGetPlan namespace name;
  match got with
  | Err e => Ret (ignoreNotFound e)
  | Ok plan =>
      if plan_Phase plan != "" then Ret done_ok
      else
        match pc_Thresholds cfg with
        | None => decidePlan plan
        | Some reader =>
            enforced <~ enforceThresholds reader plan;
            match enforced with
            | Err e => Ret (done_err e)
            | Ok r =>
                if negb (enf_Allowed r) then now <~! PNow; rejectForThreshold plan r now
                else
                  match enf_Resolution r with
                  | None => decidePlan plan
                  | Some res =>
                      let '(plan', changed) := applyDefaults plan (nth_Spec (res_Threshold res)) in
                      if changed : bool then
                        updated <~! PUpdatePlan plan';
                        match updated with
                        | Err e => Ret (done_err e)
                        | Ok stored => decidePlan stored
                        end
                      else decidePlan plan'
                  end
            end
        end
  end.

(** *** Requeue of undecided plans when a policy or threshold changes *)

Definition mapPendingPolicyPlans : pprog (list (string * string)) :=
  listed <~! PListPlans None;
  match listed with
  | Err _ => Ret []
  | Ok plans =>
      Ret (map (fun p => (om_Namespace (plan_Meta p), om_Name (plan_Meta p)))
             (filter (fun p => plan_Phase p = "") plans))
  end.
End PlanReconciler.
