(* ===== verification/ActionSafety.v ===== *)
(** * Safety of the AgentAction reconciler under faults

    The reconciler of ActionController runs against a world in which every read
    may be stale, every answer may be an error, the answer to a write that took
    effect may be lost, the process may stop between any two operations, and
    other writers edit the specification and metadata of the action or delete
    it at any moment.  The status has one more writer, the RemediationPlan
    reconciler, which records its decision in it - more than once, when the
    update of the plan's own status fails or its read of the plan is stale.
    Every status update goes through the API server's optimistic concurrency
    check. *)

From Stdlib Require Import ZArith Lia.
From stdpp Require Import base list strings gmap relations.
From S2P Require Import Prelude GoStrings Utf8 Api InvestigationApi Digest Prog Runtime Executor Escalation Guardrails Effectiveness AgentAction ActionController PlanController.

(** ** The world of one AgentAction *)

Record aworld := mkAWorld {
  (** The object in etcd; [None] when it does not exist. *)
  aw_stored : option AgentAction;
  (** Every version that was ever stored: what a cached read can return. *)
  aw_history : list AgentAction;
  aw_clock : time;
  (** The calls made so far: executions, delivered notifications, deletions. *)
  aw_executed : list ExecutorRequest;
  aw_delivered : nat;
  aw_deletes : list (AgentAction * time);
  (** The decisions the plan's reconciler has recorded in the status. *)
  aw_decided : list AgentActionApprovalStatus
}.

Definition rv (a : AgentAction) : string := om_ResourceVersion (act_Meta a).
Definition same_object (a b : AgentAction) : Prop :=
  om_UID (act_Meta a) = om_UID (act_Meta b) /\ om_Name (act_Meta a) = om_Name (act_Meta b) /\
  om_Namespace (act_Meta a) = om_Namespace (act_Meta b).

Definition store (w : aworld) (a : AgentAction) : aworld :=
  mkAWorld (Some a) (a :: aw_history w) (aw_clock w) (aw_executed w) (aw_delivered w) (aw_deletes w) (aw_decided w).
Definition absent (w : aworld) : aworld :=
  mkAWorld None (aw_history w) (aw_clock w) (aw_executed w) (aw_delivered w) (aw_deletes w) (aw_decided w).
Definition at_time (w : aworld) (t : time) : aworld :=
  mkAWorld (aw_stored w) (aw_history w) t (aw_executed w) (aw_delivered w) (aw_deletes w) (aw_decided w).
Definition did_execute (w : aworld) (r : ExecutorRequest) : aworld :=
  mkAWorld (aw_stored w) (aw_history w) (aw_clock w) (r :: aw_executed w) (aw_delivered w) (aw_deletes w) (aw_decided w).
Definition did_deliver (w : aworld) : aworld :=
  mkAWorld (aw_stored w) (aw_history w) (aw_clock w) (aw_executed w) (S (aw_delivered w)) (aw_deletes w) (aw_decided w).
Definition did_delete (w : aworld) (a : AgentAction) : aworld :=
  mkAWorld (aw_stored w) (aw_history w) (aw_clock w) (aw_executed w) (aw_delivered w)
    ((a, aw_clock w) :: aw_deletes w) (aw_decided w).
Definition did_decide (w : aworld) (ap : AgentActionApprovalStatus) : aworld :=
  mkAWorld (aw_stored w) (aw_history w) (aw_clock w) (aw_executed w) (aw_delivered w) (aw_deletes w) (ap :: aw_decided w).

(** etcd hands out every resource version once. *)
Definition fresh (w : aworld) (a : AgentAction) : Prop := forall b, b ∈ aw_history w -> rv b <> rv a.

(** The status subresource: the update is applied only to the version it was
    computed from, keeps specification and identity, and its answer may be lost. *)
Definition server_update (w : aworld) (a : AgentAction) (x : result AgentAction) (w' : aworld) : Prop :=
  (exists e, x = Err e /\ w' = w) \/
  exists cur new,
    aw_stored w = Some cur /\ rv cur = rv a /\ same_object cur new /\ fresh w new /\
    act_Spec new = act_Spec cur /\ act_Status new = act_Status a /\ w' = store w new /\
    (x = Ok new \/ exists e, x = Err e).

Section World.
Context {U : UnicodeTables} {D : DigestPrims} {LS : LabelSelectors} {CR : ControllerReferences}.
(** The evaluations the policy engine may come to about the plan of the action. *)
Context (decides : PolicyEvaluation -> Prop).

(** Other writers: any edit that keeps the status, a decision of the plan's
    reconciler, which overwrites approval and phase of the version it updates
    ([decidedActionStatus], remediationplan_controller.go:170), or a deletion. *)
Inductive interfere (w : aworld) : aworld -> Prop :=
| edit cur new :
    aw_stored w = Some cur -> same_object cur new -> act_Status new = act_Status cur -> fresh w new ->
    interfere w (store w new)
| decision_recorded cur new evaluation t :
    aw_stored w = Some cur -> decides evaluation -> same_object cur new -> act_Spec new = act_Spec cur ->
    act_Status new = decidedActionStatus cur evaluation t -> fresh w new ->
    interfere w (did_decide (store w new) (decidedApproval cur evaluation t))
| remove : interfere w (absent w).


Definition answer (w : aworld) (X : Type) (e : act_op X) : X -> aworld -> Prop :=
  match e in act_op X return X -> aworld -> Prop with
  | ANow => fun t w' => aw_clock w <= t /\ w' = at_time w t
  | AGetAction _ _ => fun x w' => w' = w /\ forall a, x = Ok a -> a ∈ aw_history w
  | AUpdateStatus a => fun x w' => server_update w a x w'
  | ADelete a => fun x w' => w' = did_delete w a \/ w' = did_delete (absent w) a
  | AListActions _ => fun _ w' => w' = w
  | AGetRiskSignal _ _ => fun _ w' => w' = w
  | AGetChain _ _ => fun _ w' => w' = w
  | AListChains _ => fun _ w' => w' = w
  | AEnsureVerification _ _ _ => fun _ w' => w' = w
  | AGetInvestigation _ _ => fun _ w' => w' = w
  | AExecute r => fun _ w' => w' = did_execute w r
  | AResolve _ => fun _ w' => w' = w
  | ACaptureBaseline _ => fun _ w' => w' = w
  | AObserveHealth _ => fun _ w' => w' = w
  | ANotify _ => fun x w' => w' = match x with None => did_deliver w | Some _ => w end
  | AEvent _ _ _ => fun _ w' => w' = w
  | AConflictMetric _ => fun _ w' => w' = w
  | APanic => fun _ _ => False
  end.

(** Before every operation the others may have moved. *)
Definition aenv (w : aworld) (X : Type) (e : act_op X) (x : X) (w2 : aworld) : Prop :=
  exists w1, rtc interfere w w1 /\ answer w1 X e x w2.

Context (cfg : ActionConfig) (origin : option AgentActionApprovalStatus).

(** The operator over time: reconciles of the action, one after another (each of
    which may stop anywhere), and the other writers. *)
Inductive astep (w w' : aworld) : Prop :=
| step_reconcile namespace name o :
    exec aenv (reconcileAction cfg namespace name) w o w' -> astep w w'
| step_others : interfere w w' -> astep w w'.

(** The action as it was created, with any status; nothing executed or decided yet. *)
Definition initial (w : aworld) (origin : option AgentActionApprovalStatus) : Prop :=
  exists a, aw_stored w = Some a /\ aw_history w = [a] /\ aw_executed w = [] /\ aw_deletes w = [] /\
    aw_decided w = [] /\ st_Approval (act_Status a) = origin.

(** ** The invariant *)

(** The status shows that an execution was dispatched. *)
Definition dispatched (a : AgentAction) : bool :=
  match st_Execution (act_Status a) with
  | Some e => (ex_ExecutionID e != "") &&
      ((act_Phase a == PhaseExecuting) || (act_Phase a == PhaseSucceeded) || (act_Phase a == PhaseFailed))
  | None => false
  end.

(** An executed request was computed from an approved version of the action,
    and a version with the same specification was stored as Executing under
    its execution ID. *)
Definition justified (w : aworld) (r : ExecutorRequest) : Prop :=
  exists v ap u, v ∈ aw_history w /\ isAgentActionApproved v = true /\
    st_Approval (act_Status v) = Some ap /\ r = executionRequest v ap /\
    u ∈ aw_history w /\ act_Spec u = act_Spec v /\ act_Phase u = PhaseExecuting /\
    exists e, st_Execution (act_Status u) = Some e /\ ex_ExecutionID e = xq_ExecutionID r.

(** What the code requires of an action it deletes at time [t]. *)
Definition expired (a : AgentAction) (t : time) : Prop :=
  terminal (act_Phase a) = true /\ as_TTLSeconds (act_Spec a) <> 0 /\
  om_Annotations (act_Meta a) !! annotationRetain = None /\
  exists f, st_FinishedAt (act_Status a) = Some f /\
    time_add f (seconds (as_TTLSeconds (act_Spec a))) < t.

(** An approval that lets an action run, now or once a person confirms it. *)
Definition granting (ap : AgentActionApprovalStatus) : Prop :=
  ap_Approved ap = true \/ ap_Source ap = "ManualApprovalRequired".
#[export] Instance granting_dec ap : Decision (granting ap).
Proof. unfold granting. apply _. Defined.

Definition could_run (a : AgentAction) : Prop :=
  exists ap, st_Approval (act_Status a) = Some ap /\ granting ap.

(** One execution may follow from the approval that the action was created with. *)
Definition granted_before (o : option AgentActionApprovalStatus) : nat :=
  match o with Some ap => if decide (granting ap) then 1%nat else 0%nat | None => 0%nat end.

(** The approvals that may stand behind an execution. *)
Definition origins (w : aworld) : list AgentActionApprovalStatus := aw_decided w ++ option_list origin.
Definition approved_by (l : list AgentActionApprovalStatus) (o : option AgentActionApprovalStatus) : Prop :=
  forall ap', o = Some ap' -> granting ap' ->
    exists ap, ap ∈ l /\ granting ap /\ ap_ActionDigest ap' = ap_ActionDigest ap.

(** One execution for each approval or decision that lets the action run. *)
Definition allowance (w : aworld) : nat :=
  (length (filter granting (aw_decided w)) + granted_before origin)%nat.

Definition approval_from (o o' : option AgentActionApprovalStatus) : Prop :=
  forall ap', o' = Some ap' -> granting ap' ->
    exists ap, o = Some ap /\ granting ap /\ ap_ActionDigest ap' = ap_ActionDigest ap.

Record inv (w : aworld) : Prop := mkInv {
  inv_rv a b : a ∈ aw_history w -> b ∈ aw_history w -> rv a = rv b -> a = b;
  inv_stored a : aw_stored w = Some a -> a ∈ aw_history w;
  inv_budget : (length (aw_executed w) <= allowance w)%nat;
  inv_ready a : aw_stored w = Some a -> dispatched a = false -> could_run a ->
    (length (aw_executed w) < allowance w)%nat;
  inv_justified r : r ∈ aw_executed w -> justified w r;
  inv_deletes a t : (a, t) ∈ aw_deletes w -> expired a t;
  inv_origin a : a ∈ aw_history w -> approved_by (origins w) (st_Approval (act_Status a));
  inv_decided ap : ap ∈ aw_decided w ->
    exists v evaluation t, v ∈ aw_history w /\ decides evaluation /\ ap = decidedApproval v evaluation t
}.

Lemma approval_from_refl o : approval_from o o.
Proof. intros ap' -> Hg. by exists ap'. Qed.

Lemma approval_from_trans o1 o2 o3 : approval_from o1 o2 -> approval_from o2 o3 -> approval_from o1 o3.
Proof.
  intros H1 H2 ap -> Hg. destruct (H2 ap eq_refl Hg) as (ap2 & -> & Hg2 & ->). by apply H1.
Qed.

Lemma approved_by_from l o o' : approved_by l o -> approval_from o o' -> approved_by l o'.
Proof. intros H1 H2 ap -> Hg. destruct (H2 ap eq_refl Hg) as (ap2 & -> & Hg2 & ->). by apply H1. Qed.

Lemma approved_by_incl l l' o : l ⊆ l' -> approved_by l o -> approved_by l' o.
Proof. intros Hl H ap Hap Hg. destruct (H ap Hap Hg) as (ap2 & ? & ?). exists ap2. split; [by apply Hl|done]. Qed.

Lemma could_run_from a b :
  approval_from (st_Approval (act_Status a)) (st_Approval (act_Status b)) -> could_run b -> could_run a.
Proof. intros H (ap & Hap & Hg). destruct (H ap Hap Hg) as (ap2 & ? & ? & _). by exists ap2. Qed.

(** One more execution fits, and another if the stored version can be dispatched again. *)
Definition pending (w : aworld) : Prop :=
  (length (aw_executed w) < allowance w)%nat /\
  forall a, aw_stored w = Some a -> dispatched a = false -> could_run a ->
    (S (length (aw_executed w)) < allowance w)%nat.

(** What is kept across every operation but [Execute]. *)
Record evolves (w w' : aworld) : Prop := mkEvolves {
  evo_inv : inv w';
  evo_history a : a ∈ aw_history w -> a ∈ aw_history w';
  evo_executed : aw_executed w' = aw_executed w;
  evo_clock : aw_clock w <= aw_clock w';
  evo_pending : pending w -> pending w'
}.

Lemma evolves_refl w : inv w -> evolves w w.
Proof. split; auto. lia. Qed.

Lemma evolves_trans w1 w2 w3 : evolves w1 w2 -> evolves w2 w3 -> evolves w1 w3.
Proof. intros [] []. split; auto; [congruence|lia]. Qed.

Lemma justified_mono w w' r :
  (forall a, a ∈ aw_history w -> a ∈ aw_history w') -> justified w r -> justified w' r.
Proof.
  intros H (v & ap & u & ? & ? & ? & ? & ? & ? & ? & ?). exists v, ap, u. split_and!; auto.
Qed.

(** Storing a version keeps the invariant when it keeps a recorded dispatch. *)
Lemma store_evolves w cur new :
  inv w -> aw_stored w = Some cur -> fresh w new ->
  approval_from (st_Approval (act_Status cur)) (st_Approval (act_Status new)) ->
  (dispatched cur = true -> dispatched new = true) -> evolves w (store w new).
Proof.
  intros Hi Hcur Hf Hap Hd.
  assert (Hh : forall a, a ∈ aw_history w -> a ∈ aw_history (store w new)) by (intros; by right).
  split; [split|done|done|simpl; lia|].
  - intros a b. simpl. rewrite !elem_of_cons. intros [->|Ha] [->|Hb]; [done| | |by apply (inv_rv w Hi)].
    + intros E. by destruct (Hf b Hb).
    + intros E. by destruct (Hf a Ha).
  - intros a [= <-]. left.
  - apply (inv_budget w Hi).
  - intros a [= <-] Hn Hc. apply (inv_ready w Hi cur); [done| |by eapply could_run_from].
    destruct (dispatched cur); [|done]. by rewrite Hd in Hn.
  - intros r Hr. eapply justified_mono; [exact Hh|]. by apply (inv_justified w Hi).
  - apply (inv_deletes w Hi).
  - intros a [->|Ha]%elem_of_cons; [|by apply (inv_origin w Hi)].
    eapply approved_by_from; [|exact Hap]. by apply (inv_origin w Hi), (inv_stored w Hi).
  - intros ap (v & ev & t & ? & ?)%(inv_decided w Hi). exists v, ev, t. split; [by apply Hh|done].
  - intros [Hp1 Hp2]. split; [done|]. intros a [= <-] Hn Hc. apply (Hp2 cur); [done| |by eapply could_run_from].
    destruct (dispatched cur); [|done]. by rewrite Hd in Hn.
Qed.

Lemma absent_evolves w : inv w -> evolves w (absent w).
Proof.
  intros Hi. split; [split|done|done|simpl; lia|]; simpl; try done; try apply Hi.
  intros [? _]. by split.
Qed.

Lemma allowance_decide w ap :
  allowance (did_decide w ap) = ((if decide (granting ap) then 1 else 0) + allowance w)%nat.
Proof. unfold allowance. simpl. rewrite filter_cons. by destruct (decide (granting ap)). Qed.

(** A granting decision is one more reason to execute, whatever it overwrites;
    another leaves nothing that can be executed. *)
Lemma decision_evolves w cur new evaluation t :
  inv w -> aw_stored w = Some cur -> decides evaluation -> fresh w new ->
  act_Status new = decidedActionStatus cur evaluation t ->
  evolves w (did_decide (store w new) (decidedApproval cur evaluation t)).
Proof.
  intros Hi Hcur Hdec Hf Hs.
  assert (Hh : forall a, a ∈ aw_history w -> a ∈ new :: aw_history w) by (intros; by right).
  pose proof (inv_budget w Hi) as Hb.
  assert (Hal : allowance (store w new) = allowance w) by done.
  assert (Hrun : could_run new -> granting (decidedApproval cur evaluation t)).
  { intros (ap & Hap & Hg). rewrite Hs in Hap. simpl in Hap. by injection Hap as <-. }
  split; [split|done|done|simpl; lia|]; unfold pending; rewrite ?allowance_decide, ?Hal; simpl.
  - intros a b. rewrite !elem_of_cons. intros [->|Ha] [->|Hb']; [done| | |by apply (inv_rv w Hi)].
    + intros E. by destruct (Hf b Hb').
    + intros E. by destruct (Hf a Ha).
  - intros a [= <-]. left.
  - lia.
  - intros a [= <-] _ Hc%Hrun. rewrite decide_True by done. lia.
  - intros r Hr. eapply justified_mono; [exact Hh|]. by apply (inv_justified w Hi).
  - apply (inv_deletes w Hi).
  - intros a [->|Ha]%elem_of_cons.
    + intros ap' Hap Hg. rewrite Hs in Hap. simpl in Hap. injection Hap as <-.
      exists (decidedApproval cur evaluation t). split; [|done]. unfold origins. simpl. left.
    + eapply approved_by_incl; [|by apply (inv_origin w Hi)]. unfold origins. simpl. set_solver.
  - intros ap [->|Hap]%elem_of_cons.
    + exists cur, evaluation, t. split; [by apply Hh, (inv_stored w Hi)|done].
    + apply (inv_decided w Hi) in Hap as (v & ev & t' & ? & ?). exists v, ev, t'. split; [by apply Hh|done].
  - intros [Hp _]. split; [lia|]. intros a [= <-] _ Hc%Hrun. rewrite decide_True by done. lia.
Qed.

Lemma dispatched_status a b : act_Status a = act_Status b -> dispatched a = dispatched b.
Proof. unfold dispatched, act_Phase. by intros ->. Qed.

Lemma interfere_evolves w w' : inv w -> interfere w w' -> evolves w w'.
Proof.
  intros Hi [cur new Hcur _ Hs Hf|cur new ev t Hcur Hdec _ _ Hs Hf|]; [|by eapply decision_evolves|by apply absent_evolves].
  eapply store_evolves; [done..|rewrite Hs; apply approval_from_refl|].
  by rewrite (dispatched_status new cur).
Qed.

Lemma interference_evolves w w' : inv w -> rtc interfere w w' -> evolves w w'.
Proof.
  intros Hi H. induction H as [|w w1 w2 H1 _ IH]; [by apply evolves_refl|].
  pose proof (interfere_evolves _ _ Hi H1) as He. eapply evolves_trans; [done|]. apply IH, He.
Qed.

(** A recorded decision lets its action run only when it approves it, or when the
    legacy engine asks for a human: a policy's name is never the source that an
    approver is honoured under. *)
Lemma decided_granting v evaluation t :
  granting (decidedApproval v evaluation t) ->
  ad_Action (pe_Decision evaluation) = ApprovalAuto \/
  ad_Action (pe_Decision evaluation) = ApprovalManual /\ pe_Policy evaluation = None.
Proof.
  assert (Hslash : forall a b, a +:+ "/" +:+ b <> "ManualApprovalRequired").
  { intros a b E. apply (f_equal (str_all (fun c => negb (byte_val c =? 47)))) in E.
    rewrite !str_all_app in E. simpl in E. by rewrite andb_false_r in E. }
  unfold granting, decidedApproval, approvalSource.
  destruct (ad_Action (pe_Decision evaluation)), (pe_Policy evaluation) as [p|]; simpl; intros [Hg|Hg];
    try done; try (by left); try (by right); by apply Hslash in Hg.
Qed.

(** *** Operations *)

Definition quiet {X} (e : act_op X) : Prop :=
  match e with
  | AUpdateStatus _ | ADelete _ | AExecute _ => False
  | _ => True
  end.

Lemma quiet_evolves w X (e : act_op X) x w' : inv w -> quiet e -> aenv w X e x w' -> evolves w w'.
Proof.
  intros Hi Hq (w1 & Hr & Ha). pose proof (interference_evolves _ _ Hi Hr) as He.
  eapply evolves_trans; [done|]. pose proof (evo_inv _ _ He) as Hi1.
  destruct e; simpl in *; try done; try (subst; by apply evolves_refl).
  - destruct Ha as [Hc ->]. split; [|done..]. split; apply Hi1.
  - destruct Ha as [-> _]. by apply evolves_refl.
  - subst. destruct x; [by apply evolves_refl|]. split; [|done|done|simpl; lia|done]. split; apply Hi1.
Qed.

Definition safe {R} (p : aprog R) (w : aworld) : Prop := wp aenv inv p w (fun _ _ => True).

Lemma safe_ret {R} (r : R) w : inv w -> safe (Ret r) w.
Proof. by split. Qed.

Lemma safe_panic {R} w : inv w -> safe (@panic LS R) w.
Proof. intros Hi. split; [done|]. intros []. Qed.

Lemma safe_quiet {R X} (e : act_op X) (k : X -> aprog R) w :
  inv w -> quiet e -> (forall x w', evolves w w' -> safe (k x) w') -> safe (Vis e k) w.
Proof. intros Hi Hq Hk. split; [done|]. intros x w' He. by apply Hk, (quiet_evolves w X e x). Qed.

Lemma safe_now {R} (k : time -> aprog R) w :
  inv w -> (forall t w', evolves w w' -> aw_clock w' = t -> safe (k t) w') -> safe (Vis ANow k) w.
Proof.
  intros Hi Hk. split; [done|]. intros t w' He. apply Hk; [by apply (quiet_evolves _ _ ANow t)|].
  by destruct He as (w1 & _ & _ & ->).
Qed.

Lemma safe_get {R} ns name (k : result AgentAction -> aprog R) w :
  inv w -> (forall e w', evolves w w' -> safe (k (Err e)) w') ->
  (forall a w', evolves w w' -> a ∈ aw_history w' -> safe (k (Ok a)) w') ->
  safe (Vis (AGetAction ns name) k) w.
Proof.
  intros Hi Herr Hok. split; [done|]. intros x w' He.
  pose proof (quiet_evolves _ _ (AGetAction ns name) x w' Hi I He) as Hev.
  destruct x as [a|e]; [|by apply Herr]. apply Hok; [done|]. destruct He as (w1 & _ & -> & H). by apply H.
Qed.

(** A program made of quiet operations only. *)
Lemma safe_all_quiet {R} (p : aprog R) w : inv w -> may_do (@quiet) p -> safe p w.
Proof.
  revert w. induction p as [r|X e k IH]; intros w Hi; [by intros _; apply safe_ret|].
  intros [Hq Hk]. apply safe_quiet; [done..|]. intros x w' He. apply IH; [apply He|apply Hk].
Qed.

Lemma safe_bind {R S} (p : aprog R) (f : R -> aprog S) w :
  inv w -> may_do (@quiet) p -> (forall r w', evolves w w' -> safe (f r) w') -> safe (pbind p f) w.
Proof.
  revert w. induction p as [r|X e k IH]; intros w Hi; simpl.
  - intros _ Hf. by apply Hf, evolves_refl.
  - intros [Hq Hk] Hf. apply safe_quiet; [done..|]. intros x w' He. apply IH; [apply He|apply Hk|].
    intros r w2 He2. apply Hf. by eapply evolves_trans.
Qed.

(** The guarded status update of every handler. *)
Lemma safe_update v a (k : AgentAction -> aprog rresult) w :
  inv w -> v ∈ aw_history w -> rv a = rv v ->
  approval_from (st_Approval (act_Status v)) (st_Approval (act_Status a)) ->
  (dispatched v = true -> dispatched a = true) ->
  (forall a' w', evolves w w' -> a' ∈ aw_history w' -> aw_stored w' = Some a' ->
     act_Status a' = act_Status a -> act_Spec a' = act_Spec v ->
     (dispatched v = false -> could_run v -> dispatched a = true -> pending w') -> safe (k a') w') ->
  safe (updateStatus a k) w.
Proof.
  intros Hi Hv Hrv Hap Hd Hk. split; [done|]. intros x w2 (w1 & Hr & Ha).
  pose proof (interference_evolves _ _ Hi Hr) as He. pose proof (evo_inv _ _ He) as Hi1.
  assert (Hstep : evolves w1 w2).
  { destruct Ha as [(e & _ & ->)|(cur & new & Hcur & Hrv' & _ & Hf & _ & Hs & -> & _)];
      [by apply evolves_refl|].
    assert (cur = v) as -> by (apply (inv_rv w1 Hi1); [by apply (inv_stored w1)|by apply (evo_history w)|congruence]).
    eapply store_evolves; [done..|by rewrite Hs|]. by rewrite (dispatched_status new a). }
  assert (He2 : evolves w w2) by (by eapply evolves_trans).
  destruct x as [a'|e].
  - destruct Ha as [(? & ? & _)|(cur & new & Hcur & Hrv' & _ & Hf & Hsp & Hs & -> & Hx)]; [done|].
    destruct Hx as [[= ->]|[? ?]]; [|done].
    assert (cur = v) as -> by (apply (inv_rv w1 Hi1); [by apply (inv_stored w1)|by apply (evo_history w)|congruence]).
    apply Hk; [done|left|done..|]. intros Hnd Hc Hda. split; [by apply (inv_ready w1 Hi1 v)|].
    intros b [= <-] Hb. by rewrite (dispatched_status new a Hs), Hda in Hb.
  - change (safe (pbind (recordStatusUpdateConflict "AgentAction" e) (fun _ => Ret (done_err e))) w2).
    apply safe_bind; [apply He2|by unfold recordStatusUpdateConflict; destruct (is_conflict e)|].
    intros b w3 He3. apply safe_ret, He3.
Qed.

Lemma recordPhaseTransition_quiet from to : may_do (@quiet) (recordPhaseTransition cfg from to).
Proof.
  unfold recordPhaseTransition. destruct (_ || _); [done|].
  destruct (phaseTransitionEvent from to) as [[? r] ?]. by destruct (r == "").
Qed.

(** *** Statuses that keep a recorded dispatch *)

Lemma dispatched_inv v : dispatched v = true -> exists e, st_Execution (act_Status v) = Some e /\
  ex_ExecutionID e <> "" /\
  (act_Phase v = PhaseExecuting \/ act_Phase v = PhaseSucceeded \/ act_Phase v = PhaseFailed).
Proof.
  unfold dispatched. destruct (st_Execution _) as [e|]; [|done]. intros H. apply andb_true_iff in H as [H1 H2].
  exists e. split; [done|]. go_bool. split; [done|].
  rewrite !orb_true_iff, !String.eqb_eq in H2. tauto.
Qed.

Lemma dispatched_intro v e :
  st_Execution (act_Status v) = Some e -> ex_ExecutionID e <> "" ->
  act_Phase v ∈ [PhaseExecuting; PhaseSucceeded; PhaseFailed] -> dispatched v = true.
Proof.
  unfold dispatched. intros -> Hid%String.eqb_neq. rewrite Hid. simpl.
  rewrite !elem_of_cons, elem_of_nil. by intros [->|[->|[->|[]]]].
Qed.

Lemma successStatus_dispatched v request result now s :
  successStatus v request result now = Some s -> xq_ExecutionID request <> "" ->
  dispatched (set_status v s) = true.
Proof.
  intros H Hid.
  assert (exists e, st_Execution s = Some e /\ ex_ExecutionID e <> "" /\
            rs_Phase (st_ResourceStatus s) = PhaseSucceeded) as (e & He & Hid' & Hp).
  { unfold successStatus in H. repeat (case_match; simplify_eq/=);
      (eexists; split_and!; [done| |done]); simpl; first [done|by apply String.eqb_neq|by case_match; [|apply String.eqb_neq]]. }
  eapply dispatched_intro; [exact He|done|]. unfold act_Phase. simpl. rewrite Hp. by right; left.
Qed.

Lemma successStatus_approval v request result now s :
  successStatus v request result now = Some s -> st_Approval s = st_Approval (act_Status v).
Proof. unfold successStatus. intros H. by repeat (case_match; simplify_eq/=). Qed.

Lemma unknownStatus_dispatched v result err now :
  dispatched v = true -> dispatched (set_status v (unknownStatus v result err now)) = true.
Proof.
  intros (e & He & Hid & _)%dispatched_inv. eapply dispatched_intro; simpl; rewrite ?He; [done|done|left].
Qed.

Lemma failedStatus_dispatched v err now :
  dispatched v = true -> dispatched (set_status v (failedStatus v err now)) = true.
Proof.
  intros (e & He & Hid & _)%dispatched_inv.
  eapply dispatched_intro; simpl; rewrite ?He; [done|done|by right; right; left].
Qed.

Lemma failBeforeDispatch_dispatched v g request reason err now :
  xq_ExecutionID request <> "" ->
  dispatched (set_status v (failBeforeDispatchStatus (act_Status v) g request reason err now)) = true.
Proof. intros Hid. eapply dispatched_intro; [done|done|by right; right; left]. Qed.

Lemma executionRequest_id v ap : xq_ExecutionID (executionRequest v ap) <> "".
Proof. done. Qed.

(** *** Handlers *)

Lemma safe_transition from to (r : rresult) w : inv w -> safe (pbind (recordPhaseTransition cfg from to) (fun _ => Ret r)) w.
Proof.
  intros Hi. apply safe_bind; [done|apply recordPhaseTransition_quiet|].
  intros _ w' He. apply safe_ret, He.
Qed.

Lemma safe_failBeforeDispatch v status request reason err now w :
  inv w -> v ∈ aw_history w -> xq_ExecutionID request <> "" ->
  approval_from (st_Approval (act_Status v)) (st_Approval status) ->
  safe (failBeforeDispatch (set_status v status) request reason err now) w.
Proof.
  intros Hi Hv Hid Hap. apply (safe_update v); [done..| |].
  - intros _. by apply (failBeforeDispatch_dispatched (set_status v status)).
  - intros a' w' He _ _ _ _ _. apply safe_ret, He.
Qed.

Lemma safe_recordExecutionSuccess v request result now w :
  inv w -> v ∈ aw_history w -> xq_ExecutionID request <> "" ->
  safe (recordExecutionSuccess cfg v request result now) w.
Proof.
  intros Hi Hv Hid. unfold recordExecutionSuccess.
  destruct (successStatus v request result now) as [s|] eqn:Hs; [|by apply safe_panic].
  apply (safe_update v); [done..| | |].
  - simpl. rewrite (successStatus_approval _ _ _ _ _ Hs). apply approval_from_refl.
  - intros _. by eapply successStatus_dispatched.
  - intros a' w' He _ _ _ _ _. apply safe_bind; [apply He|apply recordPhaseTransition_quiet|].
    intros _ w2 He2. destruct (_ ≫= _); apply safe_ret, He2.
Qed.

Lemma safe_escalate v action now w :
  inv w -> v ∈ aw_history w -> rv action = rv v -> dispatched v = false ->
  st_Approval (act_Status action) = st_Approval (act_Status v) ->
  safe (escalate cfg action now) w.
Proof.
  intros Hi Hv Hrv Hd Hap. unfold escalate.
  destruct (st_Approval (act_Status action)) as [ap|]; [|by apply safe_panic].
  destruct (statusChangedAction _ _); [|by apply safe_ret].
  apply (safe_update v); [done..| |by rewrite Hd|].
  { rewrite <- Hap. intros ap' [= <-] Hg. by exists ap. }
  intros a' w' He _ _ _ _ _. apply safe_transition, He.
Qed.

Lemma resolveEscalation_quiet request : may_do (@quiet) (resolveEscalation request).
Proof. unfold resolveEscalation. by case_match. Qed.

Lemma safe_reconcileApprovalTimeout v now w :
  inv w -> v ∈ aw_history w -> dispatched v = false -> safe (reconcileApprovalTimeout cfg v now) w.
Proof.
  intros Hi Hv Hd. unfold reconcileApprovalTimeout.
  destruct (_ || _); [by apply safe_ret|]. destruct (time_before _ _); [by apply safe_ret|].
  apply safe_bind; [done|destruct (_ && _); [apply resolveEscalation_quiet|done]|].
  intros [route|e] w1 He1; [|apply safe_ret, He1]. pose proof (evo_inv _ _ He1) as Hi1.
  assert (Hv1 : v ∈ aw_history w1) by (by apply (evo_history w)).
  destruct (ac_Notifier cfg); simpl; [|by apply (safe_escalate v)].
  apply (safe_update v); [done..|apply approval_from_refl|done|]. intros a' w2 He2 Ha' _ Hs _ _.
  assert (Hd' : dispatched a' = false) by (by rewrite (dispatched_status a' _ Hs)).
  apply safe_quiet; [apply He2|done|]. intros x w3 He3. pose proof (evo_inv _ _ He3) as Hi3.
  assert (Ha3 : a' ∈ aw_history w3) by (by apply (evo_history w2)).
  destruct x as [e|]; [|by apply (safe_escalate a')].
  apply (safe_update a'); [done..|apply approval_from_refl|done|]. intros a2 w4 He4 _ _ _ _ _.
  apply safe_bind; [apply He4|by destruct (ac_EventRecorder cfg)|].
  intros _ w5 He5. apply safe_ret, He5.
Qed.

Lemma safe_reconcilePending v now w :
  inv w -> v ∈ aw_history w -> dispatched v = false -> safe (reconcilePending cfg v now) w.
Proof.
  intros Hi Hv Hd. unfold reconcilePending. destruct (negb _); [|by apply safe_reconcileApprovalTimeout].
  destruct (statusChangedAction _ _); [|by apply safe_ret].
  apply (safe_update v); [done..| |by rewrite Hd|].
  { intros ap' [= <-] [?|?]; done. }
  intros a' w' He _ _ _ _ _. apply safe_transition, He.
Qed.

Lemma safe_delete {R} (k : option error -> aprog R) v w :
  inv w -> expired v (aw_clock w) -> (forall x w', inv w' -> safe (k x) w') -> safe (Vis (ADelete v) k) w.
Proof.
  intros Hi He Hk. split; [done|]. intros x w2 (w1 & Hr & Ha). apply Hk.
  pose proof (interference_evolves _ _ Hi Hr) as [Hi1 _ _ Hc _].
  assert (Hexp : expired v (aw_clock w1)).
  { destruct He as (? & ? & ? & f & ? & ?). split_and!; [done..|]. exists f. split; [done|lia]. }
  assert (Hdel : forall a t, (a, t) ∈ (v, aw_clock w1) :: aw_deletes w1 -> expired a t).
  { intros a t [[= -> ->]|?]%elem_of_cons; [done|by apply (inv_deletes w1)]. }
  destruct Ha as [-> | ->]; split; simpl; try done; apply Hi1.
Qed.

Lemma safe_reconcileTerminalStateTTL v w :
  inv w -> v ∈ aw_history w -> terminal (act_Phase v) = true ->
  safe (reconcileTerminalStateTTL v (aw_clock w)) w.
Proof.
  intros Hi Hv Ht. unfold reconcileTerminalStateTTL.
  destruct (Z.eqb_spec (as_TTLSeconds (act_Spec v)) 0); [by apply safe_ret|].
  destruct (om_Annotations (act_Meta v) !! annotationRetain) eqn:Hr; [by apply safe_ret|].
  destruct (st_FinishedAt (act_Status v)) as [f|] eqn:Hf; [|by apply safe_ret].
  rewrite bool_decide_eq_false_2 by (by intros [? ?]).
  unfold time_after. destruct (Z.ltb_spec (time_add f (seconds (as_TTLSeconds (act_Spec v)))) (aw_clock w));
    [|by apply safe_ret].
  apply safe_delete; [done| |intros x w' ?; by apply safe_ret]. split_and!; [done..|]. by exists f.
Qed.

Lemma safe_effectiveness_update v e (r : rresult) w :
  inv w -> v ∈ aw_history w ->
  safe (updateStatus (set_status v (with_effectiveness (act_Status v) e)) (fun _ => Ret r)) w.
Proof.
  intros Hi Hv. apply (safe_update v); [done..|apply approval_from_refl|done|].
  intros a' w' He _ _ _ _ _. apply safe_ret, He.
Qed.

Lemma safe_concludeVerification v eff baseline ir now w :
  inv w -> v ∈ aw_history w -> safe (concludeVerification v eff baseline ir now) w.
Proof.
  intros Hi Hv. apply safe_quiet; [done..|]. intros [[h o] err] w' He.
  apply safe_effectiveness_update; [apply He|by apply (evo_history w)].
Qed.

Lemma safe_reconcileSettled v eff ex baseline now w :
  inv w -> v ∈ aw_history w -> safe (reconcileSettled cfg v eff ex baseline now) w.
Proof.
  intros Hi Hv. unfold reconcileSettled. destruct (ef_VerificationRef eff) as [ref|].
  - assert (safe (got <~! AGetInvestigation (nor_Namespace ref) (nor_Name ref);
        match got with
        | Err e => Ret (if is_not_found e then requeue (5 * second) else done_err e)
        | Ok verification =>
            if (ir_Phase verification != PhaseCompleted) && (ir_Phase verification != PhaseFailed)
            then Ret (requeue (5 * second))
            else concludeVerification v eff baseline verification now
        end) w) as Hawait.
    { apply safe_quiet; [done..|]. intros [ir|e] w' He; [|apply safe_ret, He].
      destruct (_ && _); [apply safe_ret, He|].
      apply safe_concludeVerification; [apply He|by apply (evo_history w)]. }
    destruct (ef_ObservationUntil eff); [|done]. by destruct (time_before _ _); [apply safe_ret|].
  - apply safe_bind; [done|unfold createEffectivenessVerification; by destruct (ac_Scheme cfg)|].
    intros [ir|e] w' He; [|apply safe_ret, He].
    apply safe_effectiveness_update; [apply He|by apply (evo_history w)].
Qed.

Lemma safe_reconcileEffectiveness v now w :
  inv w -> v ∈ aw_history w -> safe (reconcileEffectivenessVerification cfg v now) w.
Proof.
  intros Hi Hv. unfold reconcileEffectivenessVerification.
  repeat (case_match; try by apply safe_ret); by apply safe_reconcileSettled.
Qed.

(** *** Dispatch *)

Lemma safe_recordExecutionError ns name result err w :
  inv w -> safe (recordExecutionError cfg ns name result err) w.
Proof.
  intros Hi. apply safe_get; [done|intros e w' He; apply safe_ret, He|].
  intros v w1 He1 Hv. apply safe_now; [apply He1|]. intros t w2 He2 _.
  pose proof (evo_inv _ _ He2) as Hi2. assert (Hv2 : v ∈ aw_history w2) by (by apply (evo_history w1)).
  destruct (xr_Outcome result == ExecutionOutcomeUnknown).
  - apply (safe_update v); [done..|apply approval_from_refl|apply unknownStatus_dispatched|].
    intros a' w' He _ _ _ _ _. apply safe_ret, He.
  - apply (safe_update v); [done..|apply approval_from_refl|apply failedStatus_dispatched|].
    intros a' w' He _ _ _ _ _. apply safe_transition, He.
Qed.

(** The only place where [Execute] is called. *)
Lemma safe_executeDispatched ns name request w :
  inv w -> pending w -> justified w request ->
  xq_ExecutionID request <> "" -> safe (executeDispatched cfg ns name request) w.
Proof.
  intros Hi Hpend Hj Hid. split; [done|]. intros [result err] w2 (w1 & Hr & Ha).
  pose proof (interference_evolves _ _ Hi Hr) as [Hi1 Hh Hx _ Hd]. simpl in Ha. subst w2.
  destruct (Hd Hpend) as [Hp1 Hp2].
  assert (Hi2 : inv (did_execute w1 request)).
  { split; simpl; try apply Hi1; try done.
    - intros r. rewrite elem_of_cons. intros [->|Hrr];
        [by apply (justified_mono w)|by apply (inv_justified w1)]. }
  destruct err as [e|]; [by apply safe_recordExecutionError|].
  apply safe_get; [done|intros e w' He; apply safe_ret, He|].
  intros v w3 He3 Hv. apply safe_now; [apply He3|]. intros t w4 He4 _.
  apply safe_recordExecutionSuccess; [apply He4|by apply (evo_history w3)|done].
Qed.

(** A version that is approved and not in flight: dispatch with a status that
    records the execution. *)
Definition dispatch_status (s : AgentActionStatus) (request : ExecutorRequest) : Prop :=
  rs_Phase (st_ResourceStatus s) = PhaseExecuting /\
  exists e, st_Execution s = Some e /\ ex_ExecutionID e = xq_ExecutionID request.

Lemma dispatch_status_dispatched v s request :
  dispatch_status s request -> xq_ExecutionID request <> "" -> dispatched (set_status v s) = true.
Proof.
  intros (Hp & e & He & Hid) Hne. eapply dispatched_intro; [exact He|congruence|].
  unfold act_Phase. simpl. rewrite Hp. left.
Qed.

Lemma approved_could_run v : isAgentActionApproved v = true -> could_run v.
Proof.
  unfold isAgentActionApproved, could_run. destruct (st_Approval (act_Status v)) as [ap|]; [|done]. intros H.
  exists ap. split; [done|]. unfold granting. destruct (_ != _); [done|]. destruct (ap_Approved ap); [by left|right].
  simpl in H. apply andb_true_iff in H as [??]. by go_bool.
Qed.

Lemma safe_persistAndExecute ns name v ap s w :
  inv w -> v ∈ aw_history w -> dispatched v = false -> isAgentActionApproved v = true ->
  st_Approval (act_Status v) = Some ap -> dispatch_status s (executionRequest v ap) ->
  approval_from (Some ap) (st_Approval s) ->
  safe (persistAndExecute cfg ns name v s (executionRequest v ap)) w.
Proof.
  intros Hi Hv Hd Happ Hap Hs Hkeep. set (request := executionRequest v ap).
  assert (Hdis : dispatched (set_status v s) = true).
  { eapply dispatch_status_dispatched; [exact Hs|apply executionRequest_id]. }
  unfold persistAndExecute. destruct (statusChangedAction v (set_status v s)) eqn:Hch.
  2:{ unfold statusChangedAction in Hch. apply negb_false_iff, bool_decide_eq_true in Hch.
      rewrite (dispatched_status _ (set_status v s) Hch) in Hd. congruence. }
  apply (safe_update v); [done..|by rewrite Hap|done|]. intros a' w1 He1 Ha' Hst Hsa Hsp Hx.
  apply safe_bind; [apply He1|apply recordPhaseTransition_quiet|]. intros _ w2 He2.
  destruct Hs as (Hp & e & Hex & Hid).
  apply safe_executeDispatched; [apply He2| | |done].
  - apply (evo_pending _ _ He2), Hx; [done|by apply approved_could_run|done].
  - apply (justified_mono w1); [apply (evo_history _ _ He2)|].
    exists v, ap, a'. split_and!; [by apply (evo_history w)|done..| |].
    + unfold act_Phase. by rewrite Hsa.
    + exists e. by rewrite Hsa.
Qed.

(** The approval recorded at dispatch confirms the one that was read. *)
Lemma dispatchApproval_from v ap t :
  isAgentActionApproved v = true -> st_Approval (act_Status v) = Some ap ->
  approval_from (Some ap) (Some (dispatchApproval v ap t)).
Proof.
  unfold isAgentActionApproved. intros Happ Hap ap' [= <-] _. rewrite Hap in Happ.
  destruct (String.eqb_spec (ap_ActionDigest ap) (agentActionSpecDigest (act_Spec v))) as [Hd|]; [|done].
  exists ap. split_and!; [done| |done]. unfold granting. simpl in Happ.
  destruct (ap_Approved ap); [by left|right]. apply andb_true_iff in Happ as [??]. by go_bool.
Qed.

Lemma safe_dispatchApproved ns name v ap w :
  inv w -> v ∈ aw_history w -> dispatched v = false -> isAgentActionApproved v = true ->
  st_Approval (act_Status v) = Some ap -> safe (dispatchApproved cfg ns name v ap) w.
Proof.
  intros Hi Hv Hd Happ Hap. apply safe_quiet; [done..|]. intros [[baseline found] captureErr] w1 He1.
  destruct captureErr as [e|].
  { apply safe_now; [apply He1|]. intros t w2 He2 _.
    apply (safe_failBeforeDispatch v (act_Status v)); [apply He2| |done|apply approval_from_refl].
    by apply (evo_history w1), (evo_history w). }
  apply safe_now; [apply He1|]. intros t w2 He2 _.
  assert (Hv2 : v ∈ aw_history w2) by (by apply (evo_history w1), (evo_history w)).
  pose proof (dispatchApproval_from v ap (executionStart baseline found t) Happ Hap) as Hkeep.
  destruct found.
  - apply safe_bind; [apply He2| |].
    { unfold populateBaselineEvidence. destruct (eb_RiskSignalRef _); [|done]. split; [done|].
      intros [x|e]; [done|]. by destruct (is_not_found e). }
    intros [b|e] w3 He3.
    + apply safe_persistAndExecute; [apply He3|by apply (evo_history w2)|done..| |].
      { split; [done|]. by eexists. } done.
    + apply safe_now; [apply He3|]. intros t' w4 He4 _.
      apply safe_failBeforeDispatch; [apply He4| |done|by rewrite Hap]. by apply (evo_history w3), (evo_history w2).
  - apply safe_persistAndExecute; [apply He2|done..| |done]. split; [done|]. by eexists.
Qed.

Lemma not_dispatched v : terminal (act_Phase v) = false -> inFlight v = false -> dispatched v = false.
Proof.
  intros Ht Hf. destruct (dispatched v) eqn:E; [|done].
  apply dispatched_inv in E as (e & He & Hid & Hp). exfalso.
  unfold terminal in Ht. unfold inFlight in Hf. rewrite He in Hf. apply String.eqb_neq in Hid.
  destruct Hp as [Hp|[Hp|Hp]]; rewrite Hp in *; try done. by rewrite Hid in Hf.
Qed.

Lemma safe_reconcile ns name w : inv w -> safe (reconcileAction cfg ns name) w.
Proof.
  intros Hi. apply safe_get; [done|intros e w' He; apply safe_ret, He|].
  intros v w1 He1 Hv. pose proof (evo_inv _ _ He1) as Hi1.
  destruct (verifying v).
  { apply safe_now; [done|]. intros t w2 He2 _.
    apply safe_reconcileEffectiveness; [apply He2|by apply (evo_history w1)]. }
  destruct (terminal (act_Phase v)) eqn:Ht.
  { apply safe_now; [done|]. intros t w2 He2 <-.
    apply safe_reconcileTerminalStateTTL; [apply He2|by apply (evo_history w1)|done]. }
  destruct (inFlight v) eqn:Hf.
  { unfold recoverExecution. destruct (ac_Executor cfg); [|by apply safe_ret].
    apply safe_quiet; [done..|]. intros [[result found] err] w2 He2.
    destruct err as [e|]; [apply safe_ret, He2|]. destruct found; [|apply safe_ret, He2].
    apply safe_now; [apply He2|]. intros t w3 He3 _.
    apply safe_recordExecutionSuccess; [apply He3|by apply (evo_history w2), (evo_history w1)|].
    unfold inFlight in Hf. apply andb_true_iff in Hf as [_ Hf]. simpl.
    destruct (st_Execution (act_Status v)); [|done]. by go_bool. }
  destruct (isAgentActionApproved v) eqn:Happ; simpl.
  - destruct (st_Approval (act_Status v)) as [ap|] eqn:Hap; [|by apply safe_panic].
    apply safe_dispatchApproved; [done..|by apply not_dispatched|done|done].
  - apply safe_now; [done|]. intros t w2 He2 _.
    apply safe_reconcilePending; [apply He2|by apply (evo_history w1)|by apply not_dispatched].
Qed.

Lemma initial_inv w : initial w origin -> inv w.
Proof.
  intros (a & Hs & Hh & Hx & Hd & Hdec & Ho).
  split; unfold allowance, origins; rewrite ?Hh, ?Hx, ?Hd, ?Hdec; try done; simpl; try lia.
  - intros b c. rewrite !list_elem_of_singleton. congruence.
  - intros b. rewrite Hs. intros [= ->]. left.
  - intros b. rewrite Hs. intros [= ->] _ (ap & Hap & Hg). rewrite Hap in Ho. subst origin. simpl.
    rewrite decide_True by done. lia.
  - intros r ?%not_elem_of_nil. done.
  - intros b t ?%not_elem_of_nil. done.
  - intros b ->%list_elem_of_singleton ap Hap Hg. exists ap. rewrite <- Ho, Hap. split; [left|done].
  - intros ap ?%not_elem_of_nil. done.
Qed.

Lemma step_inv w w' : inv w -> astep w w' -> inv w'.
Proof.
  intros Hi [ns name o Hx|Hr]; [|by apply (interfere_evolves w)].
  by destruct (wp_exec _ _ _ _ _ _ _ (safe_reconcile ns name w Hi) Hx).
Qed.

Lemma reachable_inv w w' : initial w origin -> rtc astep w w' -> inv w'.
Proof.
  intros Hw H. apply initial_inv in Hw. revert Hw.
  induction H as [|w w1 w2 H1 _ IH]; [done|]. intros Hi. by eapply IH, step_inv.
Qed.
End World.

(** ** An API server and executor that answer everything

    A deterministic member of the worlds above: reads return the last version,
    updates follow the resource version, executions succeed. *)

Section Honest.
Context {U : UnicodeTables} {D : DigestPrims} {LS : LabelSelectors} {CR : ControllerReferences}.
Context (decides : PolicyEvaluation -> Prop).

Definition next_version (w : aworld) (cur : AgentAction) (s : AgentActionStatus) : AgentAction :=
  let m := act_Meta cur in
  mkAgentAction
    (mkObjectMeta (om_Name m) (om_Namespace m) (om_UID m)
       ("v" +:+ itoa (Z.of_nat (length (aw_history w)))) (om_Generation m)
       (om_Labels m) (om_Annotations m) (om_OwnerReferences m))
    (act_Spec cur) s.

Definition fresh_test (w : aworld) (a : AgentAction) : bool :=
  forallb (fun b => rv b != rv a) (aw_history w).

Definition honest_update (w : aworld) (a : AgentAction) : result AgentAction * aworld :=
  match aw_stored w with
  | None => (Err (mkError ErrNotFound "not found"), w)
  | Some cur =>
      let new := next_version w cur (act_Status a) in
      if (rv cur == rv a) && fresh_test w new then (Ok new, store w new)
      else (Err (mkError ErrConflict "conflict"), w)
  end.

Definition honest (w : aworld) (X : Type) (e : act_op X) : option (X * aworld) :=
  match e in act_op X return option (X * aworld) with
  | ANow => Some (aw_clock w, at_time w (aw_clock w))
  | AGetAction _ _ =>
      Some (match aw_history w with a :: _ => Ok a | [] => Err (mkError ErrNotFound "not found") end, w)
  | AUpdateStatus a => Some (honest_update w a)
  | ADelete a => Some (None, did_delete (absent w) a)
  | AListActions _ => Some (Ok (aw_history w), w)
  | AGetRiskSignal _ _ => Some (Ok [], w)
  | AGetChain _ _ => Some (Err (mkError ErrNotFound "not found"), w)
  | AListChains _ => Some (Ok [], w)
  | AEnsureVerification _ _ _ => Some (Err (errorf "unavailable"), w)
  | AGetInvestigation _ _ => Some (Err (mkError ErrNotFound "not found"), w)
  | AExecute r => Some ((with_outcome zeroResult ExecutionOutcomeSucceeded, None), did_execute w r)
  | AResolve _ => Some ((zeroResult, false, None), w)
  | ACaptureBaseline _ => Some ((zeroBaseline, false, None), w)
  | AObserveHealth _ => Some ((zeroHealth, false, None), w)
  | ANotify _ => Some (None, did_deliver w)
  | AEvent _ _ _ => Some (tt, w)
  | AConflictMetric _ => Some (tt, w)
  | APanic => None
  end.

Lemma honest_aenv w X (e : act_op X) x w' : honest w X e = Some (x, w') -> aenv decides w X e x w'.
Proof.
  intros H. exists w. split; [apply rtc_refl|]. destruct e; simpl in *; simplify_eq; try done; auto.
  - split; [done|]. intros a Ha. destruct (aw_history w'); [done|]. injection Ha as <-. left.
  - unfold honest_update in *. destruct (aw_stored w) as [cur|] eqn:Hc; simplify_eq.
    2:{ left. eauto. }
    destruct (_ && _) eqn:Hb; simplify_eq; [|left; eauto]. apply andb_true_iff in Hb as [Hr Hf]. go_bool.
    right. exists cur, (next_version w cur (act_Status a)). split_and!; try done; [|by left].
    intros b Hb. unfold fresh_test in Hf. rewrite forallb_forall in Hf.
    apply list_elem_of_In in Hb. specialize (Hf _ Hb). by go_bool.
Qed.
Lemma honest_step cfg ns name w : astep decides cfg w (run honest (reconcileAction cfg ns name) w).2.
Proof. eapply step_reconcile. apply (run_exec honest (aenv decides)), honest_aenv. Qed.
End Honest.

(** ** Properties *)

Section ActionProperties.
Context {U : UnicodeTables} {D : DigestPrims} {LS : LabelSelectors} {CR : ControllerReferences}.
Context (decides : PolicyEvaluation -> Prop) (cfg : ActionConfig).

(** C1: an AgentAction is executed at most once for every granting decision on it.
    After any number of reconciles, with stale reads, failed or lost writes,
    crashes at any operation, concurrent edits of its specification and metadata
    or its deletion, and with the plan's reconciler recording its decision at any
    moment and any number of times, over any phase, the executor has been called
    at most once per recorded decision that lets the action run (approved, or
    left to a named approver by the legacy engine), and once more only if the
    action was created with such an approval.  An action that is decided on once
    is executed at most once, and a rejected one never; the bound is met when it
    is decided on twice ([second_decision_executes_again]). *)
Theorem action_executed_at_most_once w0 origin w :
  initial w0 origin -> rtc (astep decides cfg) w0 w ->
  (length (aw_executed w) <= length (filter granting (aw_decided w)) + granted_before origin)%nat.
Proof. intros H0 H. apply (inv_budget decides origin w), (reachable_inv decides cfg origin w0 w H0 H). Qed.

(** C3: what is executed was approved and recorded.  Every executed request is
    the request of a stored version whose status approves exactly its current
    specification (same digest; approved, or marked ManualApprovalRequired with
    an approver named), and before the call a version with that specification
    was stored in phase Executing under the execution ID of the request. *)
Theorem executed_request_approved w0 origin w r :
  initial w0 origin -> rtc (astep decides cfg) w0 w -> r ∈ aw_executed w ->
  exists v ap, v ∈ aw_history w /\ st_Approval (act_Status v) = Some ap /\
    ap_ActionDigest ap = agentActionSpecDigest (act_Spec v) /\
    (ap_Approved ap = true \/
     (ap_Source ap = "ManualApprovalRequired" /\ as_ApprovedBy (act_Spec v) <> "")) /\
    r = executionRequest v ap /\
    exists u e, u ∈ aw_history w /\ act_Spec u = act_Spec v /\ act_Phase u = PhaseExecuting /\
      st_Execution (act_Status u) = Some e /\ ex_ExecutionID e = xq_ExecutionID r.
Proof.
  intros H0 H Hr.
  destruct (inv_justified decides origin w (reachable_inv decides cfg origin w0 w H0 H) r Hr)
    as (v & ap & u & Hv & Happ & Hap & -> & Hu & Hsp & Hp & e & He & Hid).
  exists v, ap. unfold isAgentActionApproved in Happ. rewrite Hap in Happ.
  destruct (String.eqb_spec (ap_ActionDigest ap) (agentActionSpecDigest (act_Spec v))) as [Hdig|]; [|done].
  split_and!; [done..| |done|].
  - simpl in Happ. destruct (ap_Approved ap); [by left|right].
    apply andb_true_iff in Happ as [??]. by go_bool.
  - exists u, e. done.
Qed.

(** An action is only ever deleted by the reconciler when it is Succeeded,
    Failed or Rejected, its TTL is not zero, it carries no retain annotation,
    and its recorded finish time plus the TTL lies strictly in the past. *)
Theorem action_deleted_only_expired w0 origin w a t :
  initial w0 origin -> rtc (astep decides cfg) w0 w -> (a, t) ∈ aw_deletes w ->
  act_Phase a ∈ [PhaseSucceeded; PhaseFailed; PhaseRejected] /\
  as_TTLSeconds (act_Spec a) <> 0 /\ om_Annotations (act_Meta a) !! annotationRetain = None /\
  exists f, st_FinishedAt (act_Status a) = Some f /\
    time_add f (seconds (as_TTLSeconds (act_Spec a))) < t.
Proof.
  intros H0 H Hd. destruct (inv_deletes decides origin w (reachable_inv decides cfg origin w0 w H0 H) a t Hd) as (Ht & ? & ? & ?).
  split_and!; [|done..]. unfold terminal in Ht. rewrite !orb_true_iff, !String.eqb_eq in Ht.
  rewrite !elem_of_cons. tauto.
Qed.

End ActionProperties.

(** ** Examples *)

Section Witnesses.
#[local] Existing Instance plain_tables.
#[local] Existing Instance plain_digest.
#[local] Existing Instance label_subset.
#[local] Existing Instance plain_references.

Definition sample_spec (ttl : Z) : AgentActionSpec :=
  mkAgentActionSpec sample_target "gitops.createPullRequest" ∅ "alice" "" ttl 60 [].
Definition sample_approval (ttl : Z) : AgentActionApprovalStatus :=
  mkApprovalStatus true "policy" "GuardrailsAutoApproval" (agentActionSpecDigest (sample_spec ttl)) 1
    None None None "".
Definition sample_status (phase : string) (ttl : Z) (finished : option time) : AgentActionStatus :=
  mkAgentActionStatus (mkResourceStatus phase "" 1 5) finished (Some (sample_approval ttl)) None None None None.
Definition sample_action (phase : string) (ttl : Z) (finished : option time) : AgentAction :=
  mkAgentAction (sample_meta "prod" "web-action") (sample_spec ttl) (sample_status phase ttl finished).
Definition sample_world (a : AgentAction) (now : time) : aworld := mkAWorld (Some a) [a] now [] 0 [] [].
Definition sample_config : ActionConfig := mkActionConfig true true true true true.

(** One reconcile of the action with the honest server. *)
Definition reconciled (w : aworld) : aworld :=
  (run honest (reconcileAction sample_config "prod" "web-action") w).2.
Definition after_reconciles (a : AgentAction) (now : time) : aworld := reconciled (reconciled (sample_world a now)).

Lemma sample_initial a now : initial (sample_world a now) (st_Approval (act_Status a)).
Proof. by exists a. Qed.

Lemma after_reconciles_reachable decides a now :
  rtc (astep decides sample_config) (sample_world a now) (after_reconciles a now).
Proof. eapply rtc_l; [apply honest_step|]. apply rtc_once, honest_step. Qed.

(** The plan's reconciler records an evaluation in the status of the stored version. *)
Definition decide_next (w : aworld) (cur : AgentAction) (evaluation : PolicyEvaluation) : aworld :=
  did_decide (store w (next_version w cur (decidedActionStatus cur evaluation (aw_clock w))))
    (decidedApproval cur evaluation (aw_clock w)).
Definition decided (evaluation : PolicyEvaluation) (w : aworld) : aworld :=
  match aw_stored w with
  | Some cur =>
      if fresh_test w (next_version w cur (decidedActionStatus cur evaluation (aw_clock w)))
      then decide_next w cur evaluation else w
  | None => w
  end.

Lemma fresh_test_ok w a : fresh_test w a = true -> fresh w a.
Proof.
  unfold fresh_test. rewrite forallb_forall. intros H b Hb%list_elem_of_In. specialize (H b Hb). by go_bool.
Qed.

Lemma decided_step (decides : PolicyEvaluation -> Prop) evaluation w :
  decides evaluation -> rtc (astep decides sample_config) w (decided evaluation w).
Proof.
  intros Hd. unfold decided. destruct (aw_stored w) as [cur|] eqn:Hc; [|done].
  destruct (fresh_test _ _) eqn:Hf; [|done]. apply rtc_once, step_others.
  apply (decision_recorded _ w cur _ evaluation (aw_clock w)); [done..|by apply fresh_test_ok].
Qed.

(** An action as the plan's reconciler creates it, and what it decides: to approve. *)
Definition created_action : AgentAction :=
  set_status (sample_action "" 0 None)
    (mkAgentActionStatus (mkResourceStatus "" "" 0 0) None None None None None None).
Definition auto_evaluation : PolicyEvaluation :=
  mkPolicyEvaluation (mkApprovalDecision ApprovalAuto "low risk" "policy" "passed") None PolicySourceLegacy 0 None.
Definition decides_auto (e : PolicyEvaluation) : Prop := e = auto_evaluation.

(** Decided and dispatched once, and then decided and dispatched again, as it
    happens when the update of the plan's status fails after the first decision. *)
Definition decided_once : aworld := reconciled (decided auto_evaluation (sample_world created_action 100)).
Definition decided_twice : aworld := reconciled (decided auto_evaluation decided_once).

Lemma decided_once_reachable : rtc (astep decides_auto sample_config) (sample_world created_action 100) decided_once.
Proof. eapply rtc_r; [by apply (decided_step decides_auto)|]. apply honest_step. Qed.

Lemma decided_twice_reachable : rtc (astep decides_auto sample_config) (sample_world created_action 100) decided_twice.
Proof.
  etransitivity; [apply decided_once_reachable|].
  eapply rtc_r; [by apply (decided_step decides_auto)|]. apply honest_step.
Qed.

(** The bound is met: the second decision has the action executed a second time. *)
Example second_decision_executes_again :
  length (aw_executed decided_once) = 1%nat /\ length (aw_executed decided_twice) = 2%nat /\
  length (filter granting (aw_decided decided_twice)) = 2%nat.
Proof. split_and!; vm_compute; reflexivity. Qed.

Definition expired_action : AgentAction := sample_action PhaseSucceeded 1 (Some 5).

Lemma action_executed_at_most_once_witness :
  length (aw_executed decided_once) = 1%nat /\
  (length (aw_executed decided_once) <= length (filter granting (aw_decided decided_once)) + 0)%nat /\
  (length (aw_executed decided_twice) <= length (filter granting (aw_decided decided_twice)) + 0)%nat.
Proof.
  split; [vm_compute; reflexivity|]. split.
  - exact (action_executed_at_most_once decides_auto sample_config _ _ _ (sample_initial created_action 100)
             decided_once_reachable).
  - exact (action_executed_at_most_once decides_auto sample_config _ _ _ (sample_initial created_action 100)
             decided_twice_reachable).
Defined.

Lemma after_executed : exists r, r ∈ aw_executed decided_once.
Proof.
  assert (length (aw_executed decided_once) = 1%nat) as H by (vm_compute; reflexivity).
  destruct (aw_executed decided_once) as [|r rs]; [discriminate H|]. exists r. left.
Qed.

Lemma executed_request_approved_witness :
  exists r v, r ∈ aw_executed decided_once /\ v ∈ aw_history decided_once.
Proof.
  destruct after_executed as [r Hr].
  destruct (executed_request_approved decides_auto sample_config _ _ _ r (sample_initial created_action 100)
    decided_once_reachable Hr) as (v & ap & Hv & _).
  exists r, v. split; [exact Hr|exact Hv].
Defined.


Lemma after_deleted :
  exists a t, (a, t) ∈ aw_deletes (after_reconciles expired_action 3000000000).
Proof.
  assert (length (aw_deletes (after_reconciles expired_action 3000000000)) = 2%nat) as H
    by (vm_compute; reflexivity).
  destruct (aw_deletes (after_reconciles expired_action 3000000000)) as [|[a t] ds]; [discriminate H|].
  exists a, t. left.
Qed.

Lemma action_deleted_only_expired_witness :
  exists a, act_Phase a ∈ [PhaseSucceeded; PhaseFailed; PhaseRejected] /\ as_TTLSeconds (act_Spec a) <> 0.
Proof.
  destruct after_deleted as (a & t & Hd).
  destruct (action_deleted_only_expired decides_auto sample_config _ _ _ a t (sample_initial expired_action 3000000000)
    (after_reconciles_reachable decides_auto expired_action 3000000000) Hd) as (Hp & Ht & _).
  exists a. split; [exact Hp|exact Ht].
Defined.
End Witnesses.
