(* ===== verification/ActionEscalation.v ===== *)
(** * Approval timeouts of the AgentAction reconciler

    When a waiting action is left alone and when it is escalated, in an
    environment that answers reads arbitrarily and may fail every write and every
    delivery.  The world records the statuses submitted to the API server, each
    with the number of notifications delivered before it. *)

From Stdlib Require Import ZArith Lia.
From stdpp Require Import base list strings gmap.
From S2P Require Import Prelude GoStrings Api InvestigationApi Digest Prog Runtime Executor Escalation Effectiveness AgentAction ActionController.

Record eworld := mkEWorld {
  ew_delivered : nat;
  ew_submitted : list (AgentAction * nat)
}.

Section EscalationWorld.
Context {U : UnicodeTables} {D : DigestPrims} {LS : LabelSelectors} {CR : ControllerReferences}.
Context (cfg : ActionConfig).

Definition esc_env (w : eworld) (X : Type) (e : act_op X) : X -> eworld -> Prop :=
match e in act_op X return X -> eworld -> Prop with
| AUpdateStatus a => fun x w' =>
  w' = mkEWorld (ew_delivered w) ((a, ew_delivered w) :: ew_submitted w) /\
  forall a', x = Ok a' -> act_Status a' = act_Status a
| ANotify _ => fun x w' =>
  w' = match x with None => mkEWorld (S (ew_delivered w)) (ew_submitted w) | Some _ => w end
| _ => fun _ w' => w' = w
end.

(** The instant at which a waiting action times out. *)
Definition approvalDeadline (action : AgentAction) : time :=
time_add (rs_UpdatedAt (st_ResourceStatus (act_Status action)))
(seconds (as_ApprovalTimeoutSeconds (act_Spec action))).

(** The guardrails evaluated exactly the current content of the action. *)
Definition evaluated (action : AgentAction) : Prop :=
exists ap, st_Approval (act_Status action) = Some ap /\
ap_ActionDigest ap = agentActionSpecDigest (act_Spec action).

Definition escalation_ok (action : AgentAction) (now : time) (w : eworld) : Prop :=
forall a n, (a, n) ∈ ew_submitted w -> act_Phase a = PhaseEscalated ->
evaluated action /\ 0 < as_ApprovalTimeoutSeconds (act_Spec action) /\
approvalDeadline action <= now /\ (ac_Notifier cfg = true -> (0 < n)%nat) /\
exists ap, st_Approval (act_Status a) = Some ap /\ ap_EscalatedAt ap = Some now.

Definition unaffected {X} (e : act_op X) : Prop :=
match e with
| AUpdateStatus _ | ANotify _ => False
| _ => True
end.

Lemma esc_quiet {R} (p : aprog R) I w Q :
I w -> may_do (@unaffected) p -> (forall r, Q r w) -> wp esc_env I p w Q.
Proof.
intros HI. induction p as [r|X e k IH]; simpl; [auto|]. intros [Hu Hk] HQ. split; [done|].
intros x w1 He. assert (w1 = w) as -> by (by destruct e). by apply IH.
Qed.

Lemma esc_transition_quiet from to : may_do (@unaffected) (recordPhaseTransition cfg from to).
Proof.
unfold recordPhaseTransition. destruct (_ || _); [done|].
destruct (phaseTransitionEvent from to) as [[? r] ?]. by destruct (r == "").
Qed.

Lemma esc_conflict_quiet r e : may_do (@unaffected) (recordStatusUpdateConflict r e).
Proof. unfold recordStatusUpdateConflict. by destruct (is_conflict e). Qed.

(** A submission that does not break the rule, and then anything that keeps it. *)
Lemma esc_update action now a (k : AgentAction -> aprog rresult) w :
escalation_ok action now w ->
(act_Phase a = PhaseEscalated ->
 evaluated action /\ 0 < as_ApprovalTimeoutSeconds (act_Spec action) /\
 approvalDeadline action <= now /\ (ac_Notifier cfg = true -> (0 < ew_delivered w)%nat) /\
 exists ap, st_Approval (act_Status a) = Some ap /\ ap_EscalatedAt ap = Some now) ->
(forall a' w', act_Status a' = act_Status a -> escalation_ok action now w' ->
 ew_delivered w' = ew_delivered w -> wp esc_env (escalation_ok action now) (k a') w' (fun _ _ => True)) ->
wp esc_env (escalation_ok action now) (updateStatus a k) w (fun _ _ => True).
Proof.
intros Hw Ha Hk. split; [done|]. intros x w1 [-> Hx].
assert (Hw1 : escalation_ok action now (mkEWorld (ew_delivered w) ((a, ew_delivered w) :: ew_submitted w))).
{ intros b n [[= -> ->]|Hin]%elem_of_cons Hp; [by apply Ha|by apply Hw]. }
destruct x as [a'|e]; [exact (Hk a' _ (Hx a' eq_refl) Hw1 eq_refl)|].
apply wp_bind, esc_quiet; [done|apply esc_conflict_quiet|]. intros b. by split.
Qed.

Lemma esc_escalate action a now w :
escalation_ok action now w -> evaluated action -> 0 < as_ApprovalTimeoutSeconds (act_Spec action) ->
approvalDeadline action <= now -> (ac_Notifier cfg = true -> (0 < ew_delivered w)%nat) ->
wp esc_env (escalation_ok action now) (escalate cfg a now) w (fun _ _ => True).
Proof.
intros Hw He Ht Hd Hn. unfold escalate. destruct (st_Approval (act_Status a)) as [ap|]; [|by split].
destruct (statusChangedAction _ _); [|by split].
apply esc_update; [done| |].
- intros _. split_and!; [done..|]. eexists. split; reflexivity.
- intros a' w' _ Hw' _. apply wp_bind, esc_quiet; [done|apply esc_transition_quiet|]. intros []. by split.
Qed.

Lemma esc_reconcilePending action now w :
escalation_ok action now w -> act_Phase action <> PhaseEscalated ->
wp esc_env (escalation_ok action now) (reconcilePending cfg action now) w (fun _ _ => True).
Proof.
intros Hw Hp. unfold reconcilePending.
destruct (match st_Approval (act_Status action) with
        | Some ap => ap_ActionDigest ap == agentActionSpecDigest (act_Spec action)
        | None => false end) eqn:Hev; simpl.
2:{ destruct (statusChangedAction _ _); [|by split]. apply esc_update; [done|done|].
  intros a' w' _ Hw' _. apply wp_bind, esc_quiet; [done|apply esc_transition_quiet|]. intros []. by split. }
assert (He : evaluated action).
{ destruct (st_Approval (act_Status action)) as [ap|] eqn:Hap; [|done]. exists ap. split; [done|by go_bool]. }
unfold reconcileApprovalTimeout.
destruct ((act_Phase action == PhaseEscalated) || (as_ApprovalTimeoutSeconds (act_Spec action) <=? 0)
|| is_zero_time (rs_UpdatedAt (st_ResourceStatus (act_Status action)))) eqn:Hg; [by split|].
apply orb_false_iff in Hg as [[_ Ht%Z.leb_gt]%orb_false_iff _].
fold (approvalDeadline action).
destruct (time_before now (approvalDeadline action)) eqn:Hb; [by split|].
apply Z.ltb_ge in Hb. apply wp_bind, esc_quiet; [done|destruct (_ && _); [|done]|].
{ unfold resolveEscalation. by repeat case_match. }
intros [route|e]; [|by split].
destruct (ac_Notifier cfg) eqn:Hn; cbn [negb]; [|apply esc_escalate; congruence || done].
apply esc_update; [done|done|]. intros a' w1 Hs Hw1 _. split; [done|]. intros x w2 Hx. simpl in Hx.
destruct x as [e|]; subst w2.
- apply esc_update; [done| |].
+ intros Hpe. destruct Hp. unfold act_Phase in *. simpl in Hpe. by rewrite Hs in Hpe.
+ intros a2 w3 _ Hw3 _. apply wp_bind, esc_quiet; [done|by destruct (ac_EventRecorder cfg)|].
  intros []. by split.
- apply esc_escalate; [|done..|simpl; lia]. intros b n Hb'. by apply Hw1.
Qed.
End EscalationWorld.

(** ** Properties *)

Section EscalationProperties.
Context {U : UnicodeTables} {D : DigestPrims} {LS : LabelSelectors} {CR : ControllerReferences}.
Context (cfg : ActionConfig).

(** A waiting action is marked Escalated only when the guardrails evaluated
its current content, it has a positive approval timeout that has run out
since it started waiting, and, where a notifier is configured, after a
notification was delivered in this very pass; the escalation is stamped with
the time of the pass. *)
Theorem escalated_after_deadline_and_delivery (action : AgentAction) (now : time) o w' a n :
act_Phase action <> PhaseEscalated ->
exec esc_env (reconcilePending cfg action now) (mkEWorld 0 []) o w' ->
(a, n) ∈ ew_submitted w' -> act_Phase a = PhaseEscalated ->
evaluated action /\ 0 < as_ApprovalTimeoutSeconds (act_Spec action) /\
approvalDeadline action <= now /\ (ac_Notifier cfg = true -> (0 < n)%nat) /\
exists ap, st_Approval (act_Status a) = Some ap /\ ap_EscalatedAt ap = Some now.
Proof.
intros Hp Hx Hin Ha.
assert (H0 : escalation_ok cfg action now (mkEWorld 0 [])) by (by intros ?? ?%not_elem_of_nil).
destruct (wp_exec _ _ _ _ _ _ _ (esc_reconcilePending cfg action now _ H0 Hp) Hx) as [Hok _].
by apply (Hok a n).
Qed.

(** An evaluated action that waits within its approval timeout is left
untouched: the pass performs no operation at all and asks to run again when
the timeout ends, so the start of the wait never moves. *)
Theorem waiting_action_untouched (action : AgentAction) (now : time) :
evaluated action -> act_Phase action <> PhaseEscalated ->
0 < as_ApprovalTimeoutSeconds (act_Spec action) ->
rs_UpdatedAt (st_ResourceStatus (act_Status action)) <> 0 ->
now < approvalDeadline action ->
reconcilePending cfg action now = Ret (requeue (time_sub (approvalDeadline action) now)).
Proof.
intros (ap & Hap & Hd) Hp Ht Hu Hn. unfold reconcilePending. rewrite Hap, Hd, String.eqb_refl. simpl.
unfold reconcileApprovalTimeout, is_zero_time, time_before. fold (approvalDeadline action).
apply String.eqb_neq in Hp. rewrite Hp.
rewrite (proj2 (Z.leb_gt _ _) Ht), (proj2 (Z.eqb_neq _ _) Hu), (proj2 (Z.ltb_lt _ _) Hn). done.
Qed.
End EscalationProperties.

(** ** Examples *)

Section Witnesses.
#[local] Existing Instance plain_tables.
#[local] Existing Instance plain_digest.
#[local] Existing Instance label_subset.
#[local] Existing Instance plain_references.

Definition waiting_spec : AgentActionSpec :=
mkAgentActionSpec sample_target "kubernetes.rolloutRestart" ∅ "" "" 0 60 [].
Definition waiting_action : AgentAction :=
mkAgentAction (sample_meta "prod" "web-action") waiting_spec
(mkAgentActionStatus (mkResourceStatus PhaseWaitingApproval "" 1 5) None
   (Some (mkApprovalStatus false "" "ManualApprovalRequired" (agentActionSpecDigest waiting_spec) 1
            None None None "")) None None None None).
Definition notifying_config : ActionConfig := mkActionConfig true true false true false.

(** Every write and delivery succeeds. *)
Definition esc_server (w : eworld) (X : Type) (e : act_op X) : option (X * eworld) :=
match e in act_op X return option (X * eworld) with
| AUpdateStatus a => Some (Ok a, mkEWorld (ew_delivered w) ((a, ew_delivered w) :: ew_submitted w))
| ANotify _ => Some (None, mkEWorld (S (ew_delivered w)) (ew_submitted w))
| _ => None
end.

Lemma esc_server_env w X (e : act_op X) x w' : esc_server w X e = Some (x, w') -> esc_env w X e x w'.
Proof.
destruct e; simpl; intros H; simplify_eq; [|done]. split; [done|]. by intros a' [= <-].
Qed.

Definition escalation_run : option rresult * eworld :=
run esc_server (reconcilePending notifying_config waiting_action 70000000000) (mkEWorld 0 []).

Lemma escalated_after_deadline_and_delivery_witness :
exists a n, (a, n) ∈ ew_submitted escalation_run.2 /\ act_Phase a = PhaseEscalated /\
approvalDeadline waiting_action <= 70000000000 /\ (0 < n)%nat.
Proof.
assert (H : match ew_submitted escalation_run.2 with
          | (a, _) :: _ => act_Phase a == PhaseEscalated | [] => false end = true)
by (vm_compute; reflexivity).
assert (Hx : exec esc_env (reconcilePending notifying_config waiting_action 70000000000) (mkEWorld 0 [])
escalation_run.1 escalation_run.2) by (apply (run_exec esc_server esc_env), esc_server_env).
destruct (ew_submitted escalation_run.2) as [|[a n] l] eqn:Hl; [discriminate H|].
assert (Hin : (a, n) ∈ ew_submitted escalation_run.2) by (rewrite Hl; left).
apply String.eqb_eq in H. exists a, n. split; [rewrite <- Hl; exact Hin|]. split; [exact H|].
destruct (escalated_after_deadline_and_delivery notifying_config waiting_action 70000000000
escalation_run.1 escalation_run.2 a n ltac:(discriminate) Hx Hin H) as (_ & _ & Hd & Hn & _).
split; [exact Hd|exact (Hn eq_refl)].
Defined.

Lemma waiting_action_untouched_witness :
reconcilePending notifying_config waiting_action 10
= Ret (requeue (time_sub (approvalDeadline waiting_action) 10)).
Proof.
apply (waiting_action_untouched notifying_config waiting_action 10);
[eexists; split; reflexivity|discriminate|reflexivity|discriminate|reflexivity].
Defined.
End Witnesses.
