(* ===== verification/PlanSafety.v ===== *)
(** * Safety of the RemediationPlan reconciler

    The reconciler of PlanController runs against an environment that may give
    any answer to a read, and may fail a write, apply it, or apply it and lose
    the answer.  The world is the sequence of its effects on the API server. *)

From Stdlib Require Import ZArith Lia.
From stdpp Require Import base list strings gmap relations.
From S2P Require Import Prelude GoStrings Api Guardrails Thresholds Digest Prog Runtime Executor Escalation Effectiveness AgentAction ActionController ActionSafety PlanController.

(** An effect: an applied write, or the action [CreateOrUpdate] answered with. *)
Inductive plan_effect :=
| LSpec (p : RemediationPlan)
| LEnsured (a : AgentAction)
| LAction (a : AgentAction)
| LPlan (p : RemediationPlan).

Section PlanWorld.
Context {U : UnicodeTables} {D : DigestPrims} {LS : LabelSelectors} {CR : ControllerReferences}.
Context (cfg : PlanConfig).

(** An applied write appends its effect; a failed one does nothing; either way
    the answer may be an error. *)
Definition write_env {X} (w : list plan_effect) (eff : plan_effect) (ok : X -> Prop)
    (x : result X) (w' : list plan_effect) : Prop :=
  match x with
  | Ok v => ok v /\ w' = w ++ [eff]
  | Err _ => w' = w \/ w' = w ++ [eff]
  end.

Definition plan_env (w : list plan_effect) (X : Type) (e : plan_op X) : X -> list plan_effect -> Prop :=
  match e in plan_op X return X -> list plan_effect -> Prop with
  | PUpdatePlan p => fun x w' =>
      write_env w (LSpec p) (fun v => plan_Spec v = plan_Spec p) x w'
  | PUpdatePlanStatus p => fun x w' =>
      write_env w (LPlan p) (fun v => plan_Status v = plan_Status p) x w'
  | PUpdateActionStatus a => fun x w' =>
      write_env w (LAction a) (fun v => act_Status v = act_Status a) x w'
  | PEnsureAction _ _ _ => fun x w' => w' = match x with Ok a => w ++ [LEnsured a] | Err _ => w end
  | _ => fun _ w' => w' = w
  end.

(** The action status the reconciler writes for an evaluation. *)
Definition records (a : AgentAction) (evaluation : PolicyEvaluation) : Prop :=
  exists action t, act_Spec a = act_Spec action /\
    act_Status a = decidedActionStatus action evaluation t.

Definition plan_records (p : RemediationPlan) (evaluation : PolicyEvaluation) : Prop :=
  plan_Phase p = decidedPhase (ad_Action (pe_Decision evaluation)).

Definition threshold_rejected (p : RemediationPlan) : Prop :=
  plan_Phase p = PhaseRejected /\ is_Some (pst_FinishedAt (plan_Status p)).

(** The effects of one reconcile, in order. *)
Definition well_ordered (l : list plan_effect) : Prop :=
  (exists p, l = [LPlan p] /\ threshold_rejected p) \/
  exists specs tail, l = specs ++ tail /\ (specs = [] \/ exists p, specs = [LSpec p]) /\
    (tail = [] \/ (exists e, tail = [LEnsured e]) \/
     (exists e a ev, tail = [LEnsured e; LAction a] /\ records a ev) \/
     (exists e a p ev, tail = [LEnsured e; LAction a; LPlan p] /\ records a ev /\ plan_records p ev) \/
     (exists e p ev, tail = [LEnsured e; LPlan p] /\ records e ev /\ plan_records p ev)).

Definition psafe {R} (p : pprog R) (w : list plan_effect) : Prop :=
  wp plan_env well_ordered p w (fun _ _ => True).

Definition pquiet {X} (e : plan_op X) : Prop :=
  match e with
  | PUpdatePlan _ | PUpdatePlanStatus _ | PUpdateActionStatus _ | PEnsureAction _ _ _ => False
  | _ => True
  end.

Lemma psafe_ret {R} (r : R) w : well_ordered w -> psafe (Ret r) w.
Proof. by split. Qed.

Lemma psafe_quiet {R X} (e : plan_op X) (k : X -> pprog R) w :
  well_ordered w -> pquiet e -> (forall x, psafe (k x) w) -> psafe (Vis e k) w.
Proof. intros Hw Hq Hk. split; [done|]. intros x w' He. destruct e; simpl in *; try done; subst; apply Hk. Qed.

Lemma psafe_bind {R S} (p : pprog R) (f : R -> pprog S) w :
  well_ordered w -> may_do (@pquiet) p -> (forall r, psafe (f r) w) -> psafe (pbind p f) w.
Proof.
  intros Hw. induction p as [r|X e k IH]; simpl; [by intros _ Hf|].
  intros [Hq Hk] Hf. apply psafe_quiet; [done..|]. intros x. by apply IH.
Qed.

Lemma conflict_quiet r e : may_do (@pquiet) (planRecordConflict r e).
Proof. unfold planRecordConflict. by destruct (is_conflict e). Qed.

Lemma transition_quiet from to : may_do (@pquiet) (planRecordPhaseTransition cfg from to).
Proof.
  unfold planRecordPhaseTransition. destruct (_ || _); [done|].
  destruct (phaseTransitionEvent from to) as [[? r] ?]. by destruct (r == "").
Qed.

Lemma namespaceLabels_quiet ns : may_do (@pquiet) (namespaceLabels ns).
Proof. unfold namespaceLabels. by destruct (ns == ""). Qed.

Lemma enforceThresholds_quiet reader plan : may_do (@pquiet) (enforceThresholds reader plan).
Proof.
  unfold enforceThresholds. apply may_do_bind; [apply namespaceLabels_quiet|].
  intros [labels|e]; [|done]. apply may_do_bind.
  - unfold namespaceUsage. split; [done|]. intros [|]; simpl; [|done]. by split.
  - intros [usage|e]; [|done]. by destruct reader.
Qed.

Lemma planEvaluatePolicy_quiet plan : may_do (@pquiet) (planEvaluatePolicy cfg plan).
Proof.
  unfold planEvaluatePolicy. destruct (pc_PolicyEngine cfg) as [engine|]; [|done].
  apply may_do_bind; [apply namespaceLabels_quiet|].
  intros [labels|e]; [|done]. by destruct (_ && _).
Qed.

(** A write whose two outcomes keep the order. *)
Lemma psafe_write {R Y} (e : plan_op (result Y)) (eff : plan_effect) (ok : Y -> Prop) (k : result Y -> pprog R) w :
  (forall x w', plan_env w _ e x w' -> write_env w eff ok x w') ->
  well_ordered w -> well_ordered (w ++ [eff]) ->
  (forall v, ok v -> psafe (k (Ok v)) (w ++ [eff])) ->
  (forall err w', well_ordered w' -> psafe (k (Err err)) w') -> psafe (Vis e k) w.
Proof.
  intros Henv Hw Hw' Hok Herr. split; [done|]. intros x w1 He. apply Henv in He.
  destruct x as [v|err]; simpl in He.
  - destruct He as [? ->]. by apply Hok.
  - destruct He as [-> | ->]; by apply Herr.
Qed.

(** The handlers. *)
Lemma psafe_recordPlanStatus original plan w :
  well_ordered w -> well_ordered (w ++ [LPlan plan]) -> psafe (recordPlanStatus original plan) w.
Proof.
  intros Hw Hw'. unfold recordPlanStatus. destruct (statusChangedPlan original plan); [|by apply psafe_ret].
  eapply (psafe_write (PUpdatePlanStatus plan)); [intros x w1 H; exact H|done..|intros v _; by apply psafe_ret|].
  intros e w1 H1. apply psafe_bind; [done|apply conflict_quiet|]. intros ?. by apply psafe_ret.
Qed.

Lemma psafe_rejectForThreshold plan r now : psafe (rejectForThreshold cfg plan r now) [].
Proof.
  assert (Hnil : well_ordered []) by (right; exists [], []; naive_solver).
  unfold rejectForThreshold. destruct (negb _); [by apply psafe_ret|].
  eapply (psafe_write (PUpdatePlanStatus _)); [intros x w1 H; exact H|done| | |].
  - left. eexists. split; [done|]. split; [done|]. by eexists.
  - intros v _. destruct (pc_EventRecorder cfg); [apply psafe_quiet; [|done|intros ?]|];
      try apply psafe_ret; (left; eexists; split; [done|]; split; [done|]; by eexists).
  - intros e w1 H1. apply psafe_bind; [done|apply conflict_quiet|]. intros [|]; [|by apply psafe_ret].
    destruct (pc_EventRecorder cfg); [|by apply psafe_ret].
    apply psafe_quiet; [done..|]. intros ?. by apply psafe_ret.
Qed.

Definition spec_prefix (w : list plan_effect) : Prop := w = [] \/ exists p, w = [LSpec p].

Lemma psafe_recordDecision plan evaluation action w :
  spec_prefix w -> psafe (recordDecision cfg plan evaluation action) (w ++ [LEnsured action]).
Proof.
  intros Hw.
  assert (H1 : well_ordered (w ++ [LEnsured action])) by (right; exists w, [LEnsured action]; naive_solver).
  unfold recordDecision. apply psafe_quiet; [done..|]. intros planNow.
  apply psafe_bind; [done|by destruct (ad_Action _)|]. intros finishedAt.
  apply psafe_quiet; [done..|]. intros recordedAt.
  set (status := decidedActionStatus action evaluation recordedAt).
  set (plan' := plan_with_status plan _).
  assert (Hplan : plan_records plan' evaluation).
  { unfold plan_records, plan', plan_Phase, decidedPlanStatus. simpl. by destruct (ad_Action _). }
  destruct (statusChangedAction action (set_status action status)) eqn:Hch.
  - assert (Hrec : records (set_status action status) evaluation) by (by exists action, recordedAt).
    assert (H2 : well_ordered ((w ++ [LEnsured action]) ++ [LAction (set_status action status)])).
    { right. exists w, [LEnsured action; LAction (set_status action status)].
      rewrite <- app_assoc. split; [done|]. split; [done|]. do 2 right. left. by exists action, (set_status action status), evaluation. }
    eapply (psafe_write (PUpdateActionStatus _)); [intros x w1 H; exact H|done..| |].
    + intros stored _. apply psafe_bind; [done|apply transition_quiet|]. intros _.
      apply psafe_recordPlanStatus; [done|]. right.
      exists w, [LEnsured action; LAction (set_status action status); LPlan plan'].
      rewrite <- !app_assoc. split; [done|]. split; [done|]. do 3 right. left.
      by exists action, (set_status action status), plan', evaluation.
    + intros e w1 Hw1. apply psafe_bind; [done|apply conflict_quiet|]. intros ?. by apply psafe_ret.
  - apply psafe_recordPlanStatus; [done|]. right. exists w, [LEnsured action; LPlan plan'].
    rewrite <- app_assoc. split; [done|]. split; [done|]. do 4 right. exists action, plan', evaluation.
    split_and!; [done| |done]. exists action, recordedAt. split; [done|].
    unfold statusChangedAction in Hch. by apply negb_false_iff, bool_decide_eq_true in Hch.
Qed.

Lemma psafe_decidePlan plan w : spec_prefix w -> psafe (decidePlan cfg plan) w.
Proof.
  intros Hw.
  assert (H0 : well_ordered w).
  { right. exists w, []. rewrite app_nil_r. naive_solver. }
  apply psafe_bind; [done|apply planEvaluatePolicy_quiet|]. intros [evaluation|e]; [|by apply psafe_ret].
  split; [done|]. intros [a|e] w1 ->; [by apply psafe_recordDecision|by apply psafe_ret].
Qed.

Lemma psafe_reconcilePlan ns name : psafe (reconcilePlan cfg ns name) [].
Proof.
  assert (Hnil : well_ordered []) by (right; exists [], []; naive_solver).
  apply psafe_quiet; [done..|]. intros [plan|e]; [|by apply psafe_ret].
  destruct (plan_Phase plan == ""); [|by apply psafe_ret]. cbn [negb].
  destruct (pc_Thresholds cfg) as [reader|]; [|apply psafe_decidePlan; by left].
  apply psafe_bind; [done|apply enforceThresholds_quiet|]. intros [r|e]; [|by apply psafe_ret].
  destruct (enf_Allowed r); cbn [negb].
  2:{ apply psafe_quiet; [done..|]. intros now. apply psafe_rejectForThreshold. }
  destruct (enf_Resolution r) as [res|]; [|apply psafe_decidePlan; by left].
  destruct (applyDefaults plan (nth_Spec (res_Threshold res))) as [plan' [|]];
    [|apply psafe_decidePlan; by left].
  eapply (psafe_write (PUpdatePlan plan')); [intros x w1 H; exact H|done| | |].
  - right. exists [LSpec plan'], []. split_and!; [done|eauto|by left].
  - intros v _. apply psafe_decidePlan. right. eauto.
  - intros err w' Hw'. by apply psafe_ret.
Qed.

(** *** What a recorded decision means for the action *)

(** A human approval required by an ApprovalPolicy, not by the legacy engine. *)
Definition manual_by_policy (engine : PolicyEngineConfig) (input : PolicyReviewInput)
    (evaluation : PolicyEvaluation) : Prop :=
  policyEngineEvaluate engine input = Ok evaluation /\ is_Some (pe_Policy evaluation) /\
  ad_Action (pe_Decision evaluation) = ApprovalManual.

End PlanWorld.

(** ** Properties *)

Section PlanProperties.
Context {U : UnicodeTables} {D : DigestPrims} {LS : LabelSelectors} {CR : ControllerReferences}.
Context (cfg : PlanConfig).

(** C28: whatever the reads answer and whichever writes fail or lose their
    answer, a reconcile that stores a decided plan has either rejected it for a
    namespace threshold without touching any action, or has first brought the
    plan's action to the same decision: its phase equals the plan's phase, and
    its approval record carries the digest of its own specification and is
    approved exactly when the phase is Approved. *)
Theorem plan_decided_after_action ns name o l before p after :
  exec plan_env (reconcilePlan cfg ns name) [] o l -> l = before ++ LPlan p :: after ->
  after = [] /\
  ((before = [] /\ plan_Phase p = PhaseRejected /\ is_Some (pst_FinishedAt (plan_Status p))) \/
   exists a ap, last before ∈ [Some (LAction a); Some (LEnsured a)] /\
     act_Phase a = plan_Phase p /\
     st_Approval (act_Status a) = Some ap /\
     ap_ActionDigest ap = agentActionSpecDigest (act_Spec a) /\
     (ap_Approved ap = true <-> plan_Phase p = PhaseApproved) /\
     plan_Phase p ∈ [PhaseApproved; PhaseWaitingApproval; PhaseRejected]).
Proof.
  intros Hx ->. destruct (wp_exec _ _ _ _ _ _ _ (psafe_reconcilePlan cfg ns name) Hx) as [Hw _].
  assert (Hrec : forall a ev, records a ev -> plan_records p ev ->
    act_Phase a = plan_Phase p /\ exists ap, st_Approval (act_Status a) = Some ap /\
     ap_ActionDigest ap = agentActionSpecDigest (act_Spec a) /\
     (ap_Approved ap = true <-> plan_Phase p = PhaseApproved) /\
     plan_Phase p ∈ [PhaseApproved; PhaseWaitingApproval; PhaseRejected]).
  { intros a ev (action & t & Hsp & Hst) Hp. unfold plan_records in Hp. rewrite Hp.
    unfold act_Phase. rewrite Hst. split; [unfold decidedActionStatus; by destruct (ad_Action (pe_Decision ev))|].
    exists (decidedApproval action ev t). split; [done|]. rewrite Hsp. unfold decidedApproval.
    destruct (ad_Action (pe_Decision ev)); simpl; (split; [done|]); (split; [done|]);
      repeat first [left; done|right]. }
  destruct Hw as [(q & Heq & Hq)|(specs & tail & Heq & Hs & Ht)].
  - destruct before as [|x before]; simplify_eq/=; [|by destruct before].
    split; [done|]. left. destruct Hq. done.
  - destruct Hs as [->|(q & ->)]; destruct Ht as [->|[(e & ->)|[(e & a & ev & -> & _)|
      [(e & a & q' & ev & -> & Ha & Hp)|(e & q' & ev & -> & Ha & Hp)]]]];
      repeat (destruct before as [|? before]; simplify_eq/=; try done);
      split; try done; right;
      destruct (Hrec _ _ Ha Hp) as (? & ap & ? & ? & ? & ?);
      eexists _, ap; (split; [|done]); set_solver.
Qed.

(** A plan decided by an ApprovalPolicy that requires human approval can
    never run: the source recorded on its action names the policy, and the
    AgentAction reconciler honours an approver only under the source
    ManualApprovalRequired, so no sequence of reconciles, faults, edits of
    the specification (naming an approver included) and further decisions of
    this kind ever executes it. *)
Theorem policy_manual_approval_never_executes acfg engine w0 origin w :
  let decides := fun evaluation => exists input, manual_by_policy engine input evaluation in
  initial w0 origin -> granted_before origin = 0%nat ->
  rtc (astep decides acfg) w0 w -> aw_executed w = [].
Proof.
  intros decides H0 Ho H. pose proof (reachable_inv decides acfg origin w0 w H0 H) as Hi.
  assert (filter granting (aw_decided w) = []) as Hnone.
  { destruct (filter granting (aw_decided w)) as [|ap l] eqn:E; [done|].
    assert (ap ∈ filter granting (aw_decided w)) as [Hg Hin]%list_elem_of_filter by (rewrite E; left).
    destruct (inv_decided decides origin w Hi ap Hin) as (v & ev & t & _ & (input & Hev & [p Hp] & Hman) & ->).
    apply decided_granting in Hg as [Hg|[_ Hg]]; congruence. }
  pose proof (inv_budget decides origin w Hi) as Hb. unfold allowance in Hb.
  rewrite Hnone, Ho in Hb. destruct (aw_executed w); [done|simpl in Hb; lia].
Qed.
End PlanProperties.

(** ** Examples *)

Section Witnesses.
#[local] Existing Instance plain_tables.
#[local] Existing Instance plain_digest.
#[local] Existing Instance label_subset.
#[local] Existing Instance plain_references.

Definition sample_plan : RemediationPlan :=
  mkRemediationPlan (sample_meta "prod" "web")
    (mkRemediationPlanSpec sample_target "rca" "low" 90 false 0 60 "" [] []
       [mkRemediationStep "restart" "kubernetes.rolloutRestart" "" ∅])
    (mkRemediationPlanStatus (mkResourceStatus "" "" 0 0) None).

Definition empty_action (ns name : string) : AgentAction :=
  mkAgentAction (sample_meta ns name) (mkAgentActionSpec (mkTargetRef "" "" "" "" "" "") "" ∅ "" "" 0 0 [])
    (mkAgentActionStatus (mkResourceStatus "" "" 0 0) None None None None None None).

Definition plan_server (w : list plan_effect) (X : Type) (e : plan_op X) : option (X * list plan_effect) :=
  match e in plan_op X return option (X * list plan_effect) with
  | PNow => Some (9, w)
  | PGetPlan _ _ => Some (Ok sample_plan, w)
  | PUpdatePlan p => Some (Ok p, w ++ [LSpec p])
  | PUpdatePlanStatus p => Some (Ok p, w ++ [LPlan p])
  | PDeletePlan _ => Some (None, w)
  | PGetNamespace _ => Some (Ok ∅, w)
  | PListPlans _ => Some (Ok [], w)
  | PListActions _ => Some (Ok [], w)
  | PListThresholds => Some (Ok [], w)
  | PListPolicies => Some (Ok sample_policies, w)
  | PEnsureAction ns name mutate =>
      match mutate (empty_action ns name) with
      | Ok a => Some (Ok a, w ++ [LEnsured a])
      | Err e => Some (Err e, w)
      end
  | PUpdateActionStatus a => Some (Ok a, w ++ [LAction a])
  | PEvent _ _ _ => Some (tt, w)
  | PConflictMetric _ => Some (tt, w)
  end.

Lemma plan_server_env w X (e : plan_op X) x w' : plan_server w X e = Some (x, w') -> plan_env w X e x w'.
Proof.
  destruct e; cbn [plan_server plan_env write_env]; intros H; simplify_eq; try done.
  by destruct (mutate _); simplify_eq.
Qed.

Definition sample_plan_config : PlanConfig :=
  mkPlanConfig (Some sample_engine) None None true.
Definition plan_run : option rresult * list plan_effect :=
  run plan_server (reconcilePlan sample_plan_config "prod" "web") [].

Lemma plan_run_shape : exists e a p, plan_run.2 = [LEnsured e; LAction a; LPlan p].
Proof.
  assert (match plan_run.2 with [LEnsured _; LAction _; LPlan _] => true | _ => false end = true) as H
    by (vm_compute; reflexivity).
  destruct plan_run.2 as [|[] [|[] [|[] []]]]; try discriminate H. eauto.
Qed.

Lemma plan_decided_after_action_witness :
  exists p, LPlan p ∈ plan_run.2 /\
    ((plan_Phase p = PhaseRejected) \/ exists a, act_Phase a = plan_Phase p).
Proof.
  destruct plan_run_shape as (e & a & p & Hr). exists p. split.
  { rewrite Hr. right. right. left. }
  assert (Hx : exec plan_env (reconcilePlan sample_plan_config "prod" "web") [] plan_run.1 plan_run.2)
    by (apply (run_exec plan_server plan_env), plan_server_env).
  destruct (plan_decided_after_action sample_plan_config "prod" "web" plan_run.1 plan_run.2
    [LEnsured e; LAction a] p [] Hx Hr) as (_ & [(_ & Hp & _)|(a' & ap & _ & Ha & _)]);
    [left; exact Hp|right; exists a'; exact Ha].
Defined.

Definition manual_policy : ApprovalPolicy selector := sample_policy "a" "manual" 7.
Definition manual_engine : PolicyEngineConfig := mkPolicyEngineConfig (Some (Ok [manual_policy])) None true.
Definition manual_evaluation : PolicyEvaluation :=
  let '(decision, timeout) := evaluatePolicy manual_policy sample_policy_input in
  mkPolicyEvaluation decision (Some (policyReference manual_policy PolicyMatchNamespace))
    PolicySourceCRD timeout None.
(** The world in which the policy's decision is recorded and then reconciled. *)
Definition manual_world : aworld :=
  reconciled (decided manual_evaluation (sample_world created_action 100)).

Lemma policy_manual_approval_never_executes_witness :
  as_ApprovedBy (act_Spec created_action) = "alice" /\
  length (aw_decided manual_world) = 1%nat /\ aw_executed manual_world = [].
Proof.
  split; [reflexivity|]. split; [vm_compute; reflexivity|].
  assert (exists input, manual_by_policy manual_engine input manual_evaluation) as Hd
    by (exists sample_policy_input; exact (conj eq_refl (conj (mk_is_Some _ _ eq_refl) eq_refl))).
  refine (policy_manual_approval_never_executes sample_config manual_engine
    (sample_world created_action 100) None manual_world (sample_initial created_action 100) eq_refl _).
  eapply rtc_r; [apply (decided_step _ manual_evaluation); exact Hd|apply honest_step].
Defined.
End Witnesses.
