(* ===== verification/PlanTTL.v ===== *)
(** * The RemediationPlan TTL reconciler (internal/controllers/remediationplan_ttl_controller.go)

    Records when a plan finished, from the actions it owns, and deletes the plan
    once its TTL has passed. *)

From Stdlib Require Import ZArith Lia.
From stdpp Require Import base list strings gmap.
From S2P Require Import Prelude GoStrings Api Guardrails Thresholds Digest Prog Runtime Executor Escalation Effectiveness AgentAction ActionController PlanController.

Definition hasRetainAnnotation (p : RemediationPlan) : bool :=
  bool_decide (is_Some (om_Annotations (plan_Meta p) !! annotationRetain)).

Definition ownedByPlan (action : AgentAction) (p : RemediationPlan) : bool :=
  existsb (fun o => (or_Kind o == "RemediationPlan") && (or_Name o == om_Name (plan_Meta p)))
    (om_OwnerReferences (act_Meta action))
  || (om_Name (act_Meta action) == om_Name (plan_Meta p) +:+ "-action").

Definition isTerminalAgentActionPhase (phase : string) : bool :=
  (phase == PhaseSucceeded) || (phase == PhaseFailed) || (phase == PhaseRejected).

(** The loop over the listed actions: [None] when an owned action is not
    finished; the number of owned actions and the latest finish time. *)
Fixpoint ownedFinished (p : RemediationPlan) (actions : list AgentAction) (latest : time) (count : nat)
    : option (time * nat) :=
  match actions with
  | [] => Some (latest, count)
  | a :: rest =>
      if negb (ownedByPlan a p) then ownedFinished p rest latest count
      else if negb (isTerminalAgentActionPhase (act_Phase a)) then None
      else
        match st_FinishedAt (act_Status a) with
        | None => None
        | Some f => ownedFinished p rest (if time_after f latest then f else latest) (S count)
        end
  end.

Section TTL.
Context {LS : LabelSelectors}.

(** [Ok None]: not ready. *)
Definition terminalFinishedAt (p : RemediationPlan) : pprog (result (option time)) :=
  if plan_Phase p == PhaseRejected then Ret (Ok None)
  else
    listed <~! PListActions (om_Namespace (plan_Meta p));
    Ret (match listed with
         | Err e => Err e
         | Ok actions =>
             match ownedFinished p actions 0 0 with
             | None => Ok None
             | Some (latest, count) =>
                 if (count =? 0)%nat || is_zero_time latest then Ok None else Ok (Some latest)
             end
         end).

Definition expirePlan (p : RemediationPlan) : pprog rresult :=
  match pst_FinishedAt (plan_Status p) with
  | None => Ret done_ok
  | Some f =>
      let expiresAt := time_add f (seconds (ps_TTLSeconds (plan_Spec p))) in
      now <~! PNow;
      if negb (time_before now expiresAt) then
        deleted <~! PDeletePlan p;
        Ret (match deleted with Some e => ignoreNotFound e | None => done_ok end)
      else now' <~! PNow; Ret (requeue (time_sub expiresAt now'))
  end.

Definition reconcilePlanTTL (namespace name : string) : pprog rresult :=
  got <~! PGetPlan namespace name;
  match got with
  | Err e => Ret (ignoreNotFound e)
  | Ok p =>
      if (ps_TTLSeconds (plan_Spec p) <=? 0) || hasRetainAnnotation p then Ret done_ok
      else
        match pst_FinishedAt (plan_Status p) with
        | Some _ => expirePlan p
        | None =>
            finished <~ terminalFinishedAt p;
            match finished with
            | Err e => Ret (done_err e)
            | Ok None => Ret done_ok
            | Ok (Some f) =>
                updated <~! PUpdatePlanStatus
                  (plan_with_status p
                     (mkRemediationPlanStatus (pst_ResourceStatus (plan_Status p)) (Some f)));
                match updated with
                | Err e => Ret (ignoreNotFound e)
                | Ok stored => expirePlan stored
                end
            end
        end
  end.

(** ** The finish time of a plan *)

Lemma ownedFinished_spec p actions latest count latest' count' :
  ownedFinished p actions latest count = Some (latest', count') ->
  latest <= latest' /\
  count' = (count + length (filter (fun a => ownedByPlan a p = true) actions))%nat /\
  (forall a, a ∈ actions -> ownedByPlan a p = true ->
     isTerminalAgentActionPhase (act_Phase a) = true /\
     exists f, st_FinishedAt (act_Status a) = Some f /\ f <= latest') /\
  (latest' = latest \/ exists a, a ∈ actions /\ ownedByPlan a p = true /\
     st_FinishedAt (act_Status a) = Some latest').
Proof.
  revert latest count. induction actions as [|a actions IH]; intros latest count; simpl.
  { intros [= <- <-]. split_and!; [lia|simpl; lia| |by left].
    by intros a ?%not_elem_of_nil. }
  rewrite filter_cons. destruct (ownedByPlan a p) eqn:Ho; simpl.
  - destruct (isTerminalAgentActionPhase (act_Phase a)) eqn:Ht; [|done]. simpl.
    destruct (st_FinishedAt (act_Status a)) as [f|] eqn:Hf; [|done].
    intros H. destruct (IH _ _ H) as (H1 & H2 & H3 & H4). unfold time_after in *.
    split_and!.
    + destruct (Z.ltb_spec latest f); lia.
    + lia.
    + intros b [->|Hb]%elem_of_cons Hob; [|by apply H3]. split; [done|].
      exists f. split; [done|]. destruct (Z.ltb_spec latest f); lia.
    + destruct H4 as [->|(b & ? & ? & ?)]; [|right; exists b; split_and!; [by right|done..]].
      destruct (latest <? f); [|by left]. right. exists a. split_and!; [left|done..].
  - intros H. destruct (IH _ _ H) as (H1 & H2 & H3 & H4).
    split_and!; [done..| |].
    + intros b [->|Hb]%elem_of_cons Hob; [congruence|by apply H3].
    + destruct H4 as [->|(b & ? & ? & ?)]; [by left|]. right. exists b. split_and!; [by right|done..].
Qed.

(** ** A world of plans and their actions *)

Record tworld := mkTWorld {
  tw_clock : time;
  (** The version a successful read, or an applied status update, last gave. *)
  tw_seen : option RemediationPlan;
  tw_listed : list AgentAction;
  tw_deletes : list (RemediationPlan * time)
}.

Definition ttl_env (w : tworld) (X : Type) (e : plan_op X) : X -> tworld -> Prop :=
  match e in plan_op X return X -> tworld -> Prop with
  | PNow => fun t w' => tw_clock w <= t /\ w' = mkTWorld t (tw_seen w) (tw_listed w) (tw_deletes w)
  | PGetPlan _ _ => fun x w' =>
      w' = mkTWorld (tw_clock w) (match x with Ok p => Some p | Err _ => None end)
             (tw_listed w) (tw_deletes w)
  | PUpdatePlanStatus p => fun x w' =>
      w' = w /\ forall p', x = Ok p' ->
        plan_Status p' = plan_Status p /\ plan_Spec p' = plan_Spec p /\
        om_Annotations (plan_Meta p') = om_Annotations (plan_Meta p)
  | PListActions _ => fun x w' =>
      w' = mkTWorld (tw_clock w) (tw_seen w) (match x with Ok l => l | Err _ => [] end) (tw_deletes w)
  | PDeletePlan p => fun _ w' =>
      w' = mkTWorld (tw_clock w) (tw_seen w) (tw_listed w) ((p, tw_clock w) :: tw_deletes w)
  | _ => fun _ w' => w' = w
  end.

(** What justifies deleting [p] at [t]: TTL set, not retained, and finished at
    an instant whose TTL has passed, which the plan itself recorded or which is
    the latest finish time of its actions, all of them terminal. *)
Definition ttl_justified (w : tworld) (p : RemediationPlan) (t : time) : Prop :=
  0 < ps_TTLSeconds (plan_Spec p) /\ om_Annotations (plan_Meta p) !! annotationRetain = None /\
  exists f, pst_FinishedAt (plan_Status p) = Some f /\
    time_add f (seconds (ps_TTLSeconds (plan_Spec p))) <= t /\
    (tw_seen w = Some p \/
     exists q, tw_seen w = Some q /\ plan_Phase q <> PhaseRejected /\ pst_FinishedAt (plan_Status q) = None /\
       (exists a, a ∈ tw_listed w /\ ownedByPlan a q = true /\ st_FinishedAt (act_Status a) = Some f) /\
       forall a, a ∈ tw_listed w -> ownedByPlan a q = true ->
         isTerminalAgentActionPhase (act_Phase a) = true /\
         exists fa, st_FinishedAt (act_Status a) = Some fa /\ fa <= f).

Definition ttl_inv (w : tworld) : Prop := forall p t, (p, t) ∈ tw_deletes w -> ttl_justified w p t.

Lemma retained_false p : hasRetainAnnotation p = false -> om_Annotations (plan_Meta p) !! annotationRetain = None.
Proof. unfold hasRetainAnnotation. rewrite bool_decide_eq_false, <- eq_None_not_Some. done. Qed.

Lemma expirePlan_wp p w :
  tw_deletes w = [] ->
  (forall t f, pst_FinishedAt (plan_Status p) = Some f ->
     time_add f (seconds (ps_TTLSeconds (plan_Spec p))) <= t -> ttl_justified w p t) ->
  wp ttl_env ttl_inv (expirePlan p) w (fun _ _ => True).
Proof.
  intros Hd Hj. unfold expirePlan.
  assert (Hn : forall w', tw_deletes w' = [] -> ttl_inv w').
  { intros w' E q t. rewrite E. by intros ?%not_elem_of_nil. }
  destruct (pst_FinishedAt (plan_Status p)) as [f|] eqn:Hf; [|by split; [apply Hn|]].
  split; [by apply Hn|]. intros now w1 [Hc ->].
  unfold time_before. destruct (Z.ltb_spec now (time_add f (seconds (ps_TTLSeconds (plan_Spec p))))); simpl.
  - split; [by apply Hn|]. intros n w2 [_ ->]. split; [by apply Hn|done].
  - split; [by apply Hn|]. intros x w2 ->. split; [|done].
    intros q t. simpl. rewrite Hd, list_elem_of_singleton. intros [= -> ->].
    specialize (Hj now f eq_refl ltac:(done)). exact Hj.
Qed.

Lemma reconcilePlanTTL_wp ns name w :
  tw_deletes w = [] -> wp ttl_env ttl_inv (reconcilePlanTTL ns name) w (fun _ _ => True).
Proof.
  intros Hd.
  assert (Hn : forall w', tw_deletes w' = [] -> ttl_inv w').
  { intros w' E q t. rewrite E. by intros ?%not_elem_of_nil. }
  split; [by apply Hn|]. intros got w1 ->. destruct got as [p|e]; [|by split; [apply Hn|]].
  destruct ((ps_TTLSeconds (plan_Spec p) <=? 0) || hasRetainAnnotation p) eqn:Hg; [by split; [apply Hn|]|].
  apply orb_false_iff in Hg as [Httl%Z.leb_gt Hret%retained_false].
  destruct (pst_FinishedAt (plan_Status p)) as [f0|] eqn:Hf0.
  { apply expirePlan_wp; [done|]. intros t f Hf Ht. split_and!; [done..|]. exists f.
    split_and!; [done..|by left]. }
  unfold terminalFinishedAt. destruct (String.eqb_spec (plan_Phase p) PhaseRejected) as [|Hrej];
    [by split; [apply Hn|]|]. simpl.
  split; [by apply Hn|]. intros listed w1 ->. destruct listed as [actions|e]; [|by split; [apply Hn|]].
  destruct (ownedFinished p actions 0 0) as [[latest count]|] eqn:Ho; [|by split; [apply Hn|]].
  destruct ((count =? 0)%nat || is_zero_time latest) eqn:Hz; [by split; [apply Hn|]|].
  apply orb_false_iff in Hz as [_ Hz]. unfold is_zero_time in Hz. apply Z.eqb_neq in Hz.
  split; [by apply Hn|]. intros updated w1 [-> Hu]. destruct updated as [stored|e]; [|by split; [apply Hn|]].
  destruct (Hu _ eq_refl) as (Hst & Hsp & Han).
  apply expirePlan_wp; [done|]. intros t f Hf Ht. rewrite Hst in Hf. simpl in Hf. injection Hf as <-.
  destruct (ownedFinished_spec _ _ _ _ _ _ Ho) as (_ & _ & Hall & Hone).
  split_and!; [by rewrite Hsp|by rewrite Han|]. exists latest. split_and!; [by rewrite Hst|done|].
  right. exists p. split_and!; [done..| |done]. destruct Hone as [?|?]; [by destruct Hz|done].
Qed.
End TTL.

(** ** Properties *)

Section TTLProperties.
Context {LS : LabelSelectors}.

(** A plan is deleted by its TTL only when the TTL is positive, no retain
    annotation is set, and the plan finished at least that long ago; the
    finish time is the one recorded on the plan, or, for a plan that is not
    Rejected, the latest finish time of the actions it owns, of which there is
    at least one and which are all terminal. *)
Theorem plan_deleted_only_expired ns name w o w' p t :
  tw_deletes w = [] -> exec ttl_env (reconcilePlanTTL ns name) w o w' -> (p, t) ∈ tw_deletes w' ->
  0 < ps_TTLSeconds (plan_Spec p) /\ om_Annotations (plan_Meta p) !! annotationRetain = None /\
  exists f, pst_FinishedAt (plan_Status p) = Some f /\
    time_add f (seconds (ps_TTLSeconds (plan_Spec p))) <= t /\
    (tw_seen w' = Some p \/
     exists q, tw_seen w' = Some q /\ plan_Phase q <> PhaseRejected /\ pst_FinishedAt (plan_Status q) = None /\
       (exists a, a ∈ tw_listed w' /\ ownedByPlan a q = true /\ st_FinishedAt (act_Status a) = Some f) /\
       forall a, a ∈ tw_listed w' -> ownedByPlan a q = true ->
         isTerminalAgentActionPhase (act_Phase a) = true /\
         exists fa, st_FinishedAt (act_Status a) = Some fa /\ fa <= f).
Proof.
  intros Hd Hx Hp. destruct (wp_exec _ _ _ _ _ _ _ (reconcilePlanTTL_wp ns name w Hd) Hx) as [Hi _].
  exact (Hi p t Hp).
Qed.
End TTLProperties.

(** ** Examples *)

Section Witnesses.
#[local] Existing Instance label_subset.

Definition expired_plan : RemediationPlan :=
  mkRemediationPlan (sample_meta "prod" "web")
    (mkRemediationPlanSpec sample_target "rca" "low" 90 false 1 60 "" [] [] [])
    (mkRemediationPlanStatus (mkResourceStatus PhaseRejected "" 0 0) (Some 5)).

Definition ttl_world (now : time) : tworld := mkTWorld now None [] [].

Lemma plan_deleted_only_expired_witness :
  exists w', exec ttl_env (reconcilePlanTTL "prod" "web") (ttl_world 3000000000) (Some done_ok) w' /\
    (expired_plan, 3000000000) ∈ tw_deletes w' /\ 0 < ps_TTLSeconds (plan_Spec expired_plan).
Proof.
  set (w' := mkTWorld 3000000000 (Some expired_plan) [] [(expired_plan, 3000000000)]).
  assert (Hx : exec ttl_env (reconcilePlanTTL "prod" "web") (ttl_world 3000000000) (Some done_ok) w').
  { right. exists (Ok expired_plan), (mkTWorld 3000000000 (Some expired_plan) [] []). split; [reflexivity|].
    right. exists 3000000000, (mkTWorld 3000000000 (Some expired_plan) [] []). split; [done|].
    right. exists None, w'. split; [reflexivity|]. right. done. }
  exists w'. split; [exact Hx|]. split; [left|].
  exact (proj1 (plan_deleted_only_expired "prod" "web" (ttl_world 3000000000) (Some done_ok) w' expired_plan
    3000000000 eq_refl Hx ltac:(left))).
Defined.
End Witnesses.
