(* ===== verification/DataClassification.v ===== *)
(** * Data classification (internal/dataclassification/classification.go)

    Classification of evidence, its combination over a bundle, and the decision
    whether a hosted model provider's data policy lets the bundle leave the
    cluster. *)

From Stdlib Require Import ZArith Lia.
From stdpp Require Import base list strings gmap.
From S2P Require Import Prelude GoStrings Utf8 Api.

(** ** Constants of api/v1alpha1/types.go and of the package *)

Definition DataClassificationPolicyVersion : string := "fluxseer-rca-data-classification-v1".
Definition DataClassificationLevelPublic : string := "Public".
Definition DataClassificationLevelInternal : string := "Internal".
Definition DataClassificationLevelConfidential : string := "Confidential".
Definition DataClassificationLevelRestricted : string := "Restricted".
Definition DataClassificationSourceDefault : string := "Default".
Definition DataClassificationSourceInherited : string := "Inherited".
Definition DataClassificationSourceContentDetection : string := "ContentDetection".
Definition SensitivityTagCredentialLike : string := "CredentialLike".
Definition SensitivityTagPersonalData : string := "PersonalData".
Definition SensitivityTagCustomerData : string := "CustomerData".
Definition SensitivityTagSourceCode : string := "SourceCode".
Definition SensitivityTagInfrastructureMetadata : string := "InfrastructureMetadata".
Definition SensitivityTagSecuritySensitive : string := "SecuritySensitive".

Definition DecisionAllowed : string := "Allowed".
Definition DecisionRejected : string := "Rejected".
Definition ReasonAllowed : string := "Allowed".
Definition ReasonClassificationExceeded : string := "ClassificationExceeded".
Definition ReasonSensitivityTagDenied : string := "SensitivityTagDenied".
Definition ReasonRedactionRequired : string := "RedactionRequired".
Definition ReasonExternalTransmissionDeny : string := "ExternalTransmissionDisabled".

(** domain.QueryType. *)
Definition QueryTypeMetric : string := "metric".
Definition QueryTypeLog : string := "log".
Definition QueryTypeTrace : string := "trace".
Definition QueryTypeEvent : string := "event".
Definition QueryTypeDeploymentCondition : string := "deploymentCondition".
Definition QueryTypeServiceConfiguration : string := "serviceConfiguration".
Definition QueryTypeProbeConfiguration : string := "probeConfiguration".
Definition QueryTypeContainerTermination : string := "containerTermination".

Record ModelProviderDataPolicy := mkModelProviderDataPolicy {
  mp_AllowExternalTransmission : bool;
  mp_AllowedEvidenceKinds : list string;
  mp_DeniedSensitivityTags : list string;
  mp_AllowLogSamples : bool;
  mp_RequireRedaction : bool;
  mp_MaximumClassification : string
}.

Record ClassificationDecision := mkClassificationDecision {
  cd_Decision : string;
  cd_Reason : string;
  cd_Message : string;
  cd_MaximumObserved : string;
  cd_MaximumAllowed : string;
  cd_MaximumSent : string;
  cd_SensitivityTagsSent : list string;
  cd_ClassificationVersion : string
}.

Section Classification.
Context {U : UnicodeTables}.

(** ** Levels and tags *)

Definition NormalizeLevel (level : string) : string :=
  let l := to_lower (trim_space level) in
  if l == "public" then DataClassificationLevelPublic
  else if (l == "internal") || (l == "") then DataClassificationLevelInternal
  else if l == "confidential" then DataClassificationLevelConfidential
  else if l == "restricted" then DataClassificationLevelRestricted
  else trim_space level.

Definition levelRank (level : string) : option Z :=
  if level == to_lower DataClassificationLevelPublic then Some 0
  else if level == to_lower DataClassificationLevelInternal then Some 1
  else if level == to_lower DataClassificationLevelConfidential then Some 2
  else if level == to_lower DataClassificationLevelRestricted then Some 3
  else None.

Definition levelValue (level : string) : Z :=
  match levelRank (to_lower (NormalizeLevel level)) with
  | Some value => value
  | None =>
      match levelRank (to_lower DataClassificationLevelRestricted) with Some value => value | None => 0 end
  end.

Definition CompareLevels (a b : string) : Z := levelValue a - levelValue b.

Definition NormalizeSensitivityTag (tag : string) : string :=
  let t := to_lower (trim_space tag) in
  if (t == "credentiallike") || (t == "secretlike") then SensitivityTagCredentialLike
  else if t == "personaldata" then SensitivityTagPersonalData
  else if t == "customerdata" then SensitivityTagCustomerData
  else if t == "sourcecode" then SensitivityTagSourceCode
  else if t == "infrastructuremetadata" then SensitivityTagInfrastructureMetadata
  else if t == "securitysensitive" then SensitivityTagSecuritySensitive
  else trim_space tag.

Definition LooksCredentialLike (text : string) : bool :=
  let normalized := to_lower text in
  contains normalized "token=" || contains normalized "password=" ||
  contains normalized "api_key" || contains normalized "apikey" ||
  contains normalized "secret=" || contains normalized "bearer ".

(** ** Merge *)

Definition mergeBase : DataClassification :=
  mkDataClassification DataClassificationLevelInternal [] DataClassificationSourceDefault
    DataClassificationPolicyVersion.

(** One round of the loop; the tags are collected beside [out]. *)
Definition mergeStep (acc : DataClassification * list string) (item : DataClassification)
    : DataClassification * list string :=
  let '(out, tags) := acc in
  let level := if (trim_space (dc_Level item) != "")
                    && (0 <? CompareLevels (dc_Level item) (dc_Level out))
               then NormalizeLevel (dc_Level item) else dc_Level out in
  let source := if (trim_space (dc_Source item) != "")
                     && (dc_Source item != DataClassificationSourceDefault)
                then dc_Source item else dc_Source out in
  let version := if trim_space (dc_PolicyVersion item) != "" then dc_PolicyVersion item
                 else dc_PolicyVersion out in
  (mkDataClassification level (dc_SensitivityTags out) source version,
   tags ++ filter (fun tag => tag <> "") (map NormalizeSensitivityTag (dc_SensitivityTags item))).

Definition Merge (items : list DataClassification) : DataClassification :=
  let '(out, tags) := fold_left mergeStep items (mergeBase, []) in
  mkDataClassification (dc_Level out) (sorted_set tags) (dc_Source out) (dc_PolicyVersion out).

(** ** Defaults *)

Definition DefaultForObservation (queryType text : string) : DataClassification :=
  let level := if queryType == QueryTypeLog then DataClassificationLevelConfidential
               else DataClassificationLevelInternal in
  let classification := mkDataClassification level [SensitivityTagInfrastructureMetadata]
                          DataClassificationSourceDefault DataClassificationPolicyVersion in
  if LooksCredentialLike text then
    let merged := Merge [classification;
                         mkDataClassification DataClassificationLevelRestricted
                           [SensitivityTagCredentialLike] DataClassificationSourceContentDetection
                           DataClassificationPolicyVersion] in
    mkDataClassification (dc_Level merged) (dc_SensitivityTags merged)
      DataClassificationSourceContentDetection (dc_PolicyVersion merged)
  else classification.

Definition queryTypeForKind (kind : string) : string :=
  let k := trim_suffix (to_lower (trim_space kind)) "observation" in
  if k == "metric" then QueryTypeMetric
  else if k == "log" then QueryTypeLog
  else if (k == "event") || (k == "kubernetesevent") then QueryTypeEvent
  else if k == "deploymentcondition" then QueryTypeDeploymentCondition
  else if k == "serviceconfiguration" then QueryTypeServiceConfiguration
  else if k == "probeconfiguration" then QueryTypeProbeConfiguration
  else QueryTypeEvent.

Definition DefaultForEvidenceKind (kind text : string) : DataClassification :=
  DefaultForObservation (queryTypeForKind kind) text.

(** ** Bundles and policies *)

Definition refClassification (ref : EvidenceRef) : DataClassification :=
  match er_Classification ref with
  | Some c => c
  | None => DefaultForEvidenceKind (er_Kind ref) (er_Summary ref)
  end.

Definition BundleClassification (refs : list EvidenceRef) : DataClassification :=
  match refs with
  | [] => mergeBase
  | _ =>
      let classification := Merge (map refClassification refs) in
      mkDataClassification (dc_Level classification) (dc_SensitivityTags classification)
        DataClassificationSourceInherited (dc_PolicyVersion classification)
  end.

Definition deniedTag (tags denied : list string) : string :=
  let deniedSet := filter (fun tag => tag <> "") (map NormalizeSensitivityTag denied) in
  match find_first (fun tag => if mem_str (NormalizeSensitivityTag tag) deniedSet
                               then Some (NormalizeSensitivityTag tag) else None) tags with
  | Some tag => tag
  | None => ""
  end.

Definition allRefsRedacted (refs : list EvidenceRef) : bool :=
  forallb (fun ref => trim_space (er_RedactionProfile ref) != "") refs.

Definition EvaluateProviderPolicy (policy : ModelProviderDataPolicy) (refs : list EvidenceRef)
    : ClassificationDecision :=
  let observed := BundleClassification refs in
  let normalized := NormalizeLevel (mp_MaximumClassification policy) in
  let allowed := if normalized == "" then DataClassificationLevelInternal else normalized in
  let rejected reason message :=
    mkClassificationDecision DecisionRejected reason message (dc_Level observed) allowed "" []
      DataClassificationPolicyVersion in
  if 0 <? CompareLevels (dc_Level observed) allowed then
    rejected ReasonClassificationExceeded
      ("evidence classification " +:+ dc_Level observed +:+ " exceeds allowed maximum " +:+ allowed)
  else
    let denied := deniedTag (dc_SensitivityTags observed) (mp_DeniedSensitivityTags policy) in
    if denied != "" then
      rejected ReasonSensitivityTagDenied
        ("evidence sensitivity tag " +:+ denied +:+ " is denied by provider data policy")
    else if mp_RequireRedaction policy && negb (allRefsRedacted refs) then
      rejected ReasonRedactionRequired
        "provider data policy requires redaction metadata on all transmitted evidence"
    else
      mkClassificationDecision DecisionAllowed ReasonAllowed "" (dc_Level observed) allowed
        (dc_Level observed) (dc_SensitivityTags observed) DataClassificationPolicyVersion.
End Classification.

(** ** Levels *)

Section ClassificationLemmas.
Context {U : UnicodeTables}.

(** The four names of levels, and what else may be written. *)
Definition unknownLevel (level : string) : Prop :=
  to_lower (trim_space level) ∉ ["public"; "internal"; ""; "confidential"; "restricted"].

Lemma NormalizeLevel_cases level :
  NormalizeLevel level ∈ [DataClassificationLevelPublic; DataClassificationLevelInternal;
    DataClassificationLevelConfidential; DataClassificationLevelRestricted] \/
  NormalizeLevel level = trim_space level /\ unknownLevel level.
Proof.
  unfold NormalizeLevel, unknownLevel.
  destruct (_ == "public") eqn:E1; [left; set_solver|].
  destruct (_ || _)%bool eqn:E2; [left; set_solver|].
  destruct (_ == "confidential") eqn:E3; [left; set_solver|].
  destruct (_ == "restricted") eqn:E4; [left; set_solver|]. right. split; [done|].
  go_bool. rewrite !not_elem_of_cons. split_and!; [done..|]. apply not_elem_of_nil.
Qed.

Lemma NormalizeLevel_idem level : NormalizeLevel (NormalizeLevel level) = NormalizeLevel level.
Proof.
  destruct (NormalizeLevel_cases level) as [Hin|[H _]].
  - rewrite !elem_of_cons, elem_of_nil in Hin. by destruct Hin as [->|[->|[->|[->|[]]]]].
  - rewrite H at 1. unfold NormalizeLevel. by rewrite trim_space_idem.
Qed.

Lemma levelValue_normalize level : levelValue (NormalizeLevel level) = levelValue level.
Proof. unfold levelValue. by rewrite NormalizeLevel_idem. Qed.

Lemma levelValue_range level : 0 <= levelValue level <= 3.
Proof. unfold levelValue, levelRank. repeat case_match; simplify_eq; lia. Qed.

Lemma levelValue_internal : levelValue DataClassificationLevelInternal = 1.
Proof. reflexivity. Qed.

Lemma NormalizeLevel_blank level : trim_space level = "" -> NormalizeLevel level = DataClassificationLevelInternal.
Proof. unfold NormalizeLevel. by intros ->. Qed.

Lemma NormalizeLevel_nonempty level : NormalizeLevel level <> "".
Proof.
  destruct (decide (trim_space level = "")) as [H|H]; [by rewrite (NormalizeLevel_blank _ H)|].
  unfold NormalizeLevel. repeat case_match; done.
Qed.

Lemma levelValue_unknown level : unknownLevel level -> levelValue level = 3.
Proof.
  unfold unknownLevel, levelValue, NormalizeLevel, levelRank.
  change (to_lower DataClassificationLevelPublic) with "public".
  change (to_lower DataClassificationLevelInternal) with "internal".
  change (to_lower DataClassificationLevelConfidential) with "confidential".
  change (to_lower DataClassificationLevelRestricted) with "restricted".
  set (l := to_lower (trim_space level)). rewrite !not_elem_of_cons. intros (H1 & H2 & H3 & H4 & H5 & _).
  apply String.eqb_neq in H1, H2, H3, H4, H5. rewrite H1, H2, H3, H4, H5. cbn [orb]. fold l.
  by rewrite H1, H2, H4, H5.
Qed.

(** ** Merge *)

Lemma mergeStep_level acc item m :
  levelValue (dc_Level (mergeStep acc item).1) <= m /\ 1 <= m <->
  levelValue (dc_Level acc.1) <= m /\ levelValue (dc_Level item) <= m /\ 1 <= m.
Proof.
  destruct acc as [out tags]. unfold mergeStep, CompareLevels. cbn [fst dc_Level].
  destruct (trim_space (dc_Level item) == "") eqn:Hb; cbn [negb andb].
  - go_bool. assert (levelValue (dc_Level item) = 1) as ->; [|tauto].
    unfold levelValue. by rewrite (NormalizeLevel_blank _ Hb).
  - destruct (0 <? _) eqn:Hc; [rewrite levelValue_normalize|]; go_bool; lia.
Qed.

Lemma mergeStep_tags acc item tag :
  tag ∈ (mergeStep acc item).2 <->
  tag ∈ acc.2 \/ tag <> "" /\ exists t, t ∈ dc_SensitivityTags item /\ tag = NormalizeSensitivityTag t.
Proof.
  destruct acc as [out tags]. unfold mergeStep. cbn [snd].
  rewrite elem_of_app, list_elem_of_filter, list_elem_of_fmap. naive_solver.
Qed.

Lemma merge_fold items acc :
  (forall m, levelValue (dc_Level (fold_left mergeStep items acc).1) <= m /\ 1 <= m <->
     levelValue (dc_Level acc.1) <= m /\ 1 <= m /\
     forall item, item ∈ items -> levelValue (dc_Level item) <= m) /\
  (forall tag, tag ∈ (fold_left mergeStep items acc).2 <->
     tag ∈ acc.2 \/ tag <> "" /\ exists item t, item ∈ items /\ t ∈ dc_SensitivityTags item /\
       tag = NormalizeSensitivityTag t).
Proof.
  revert acc. induction items as [|item items IH]; intros acc; cbn [fold_left].
  { split; [intros m; split; [|tauto]; intros [? ?]; split_and!; [done..|]; by intros ? ?%not_elem_of_nil|]. intros tag. split; [tauto|]. intros [?|(_ & ? & ? & ?%not_elem_of_nil & _)]; done. }
  destruct (IH (mergeStep acc item)) as [IHl IHt]. split.
  - intros m. rewrite IHl. pose proof (mergeStep_level acc item m) as Hs.
    split; intros (H1 & H2 & H3).
    + destruct (proj1 Hs (conj H1 H2)) as (Ha & Hi & _). split_and!; [done..|].
      intros x [->|Hx]%elem_of_cons; [done|by apply H3].
    + assert (Hi : levelValue (dc_Level item) <= m) by (apply H3; left).
      destruct (proj2 Hs (conj H1 (conj Hi H2))). split_and!; [done..|].
      intros x Hx. apply H3. by right.
  - intros tag. rewrite IHt, mergeStep_tags. split.
    + intros [[?|(Hne & t & Ht & ->)]|(Hne & i & t & Hi & Ht)]; [by left|right..].
      * split; [done|]. exists item, t. split; [left|done].
      * split; [done|]. exists i, t. split; [by right|done].
    + intros [?|(Hne & i & t & [->|Hi]%elem_of_cons & Ht & ->)]; [by left; left|left; right|right]; eauto 10.
Qed.

(** A merged level is at most [m] exactly when [m] admits Internal and the
    level of every item. *)
Lemma Merge_level items m :
  levelValue (dc_Level (Merge items)) <= m /\ 1 <= m <->
  1 <= m /\ forall item, item ∈ items -> levelValue (dc_Level item) <= m.
Proof.
  unfold Merge. destruct (merge_fold items (mergeBase, [])) as [Hl _].
  destruct (fold_left mergeStep items (mergeBase, [])) as [out tags] eqn:E. simpl in *.
  rewrite Hl. change (levelValue DataClassificationLevelInternal) with 1. lia || tauto.
Qed.

Lemma mergeStep_level_ge acc item :
  levelValue (dc_Level acc.1) <= levelValue (dc_Level (mergeStep acc item).1).
Proof.
  destruct acc as [out tags]. unfold mergeStep, CompareLevels. cbn [fst dc_Level].
  destruct (_ && _)%bool eqn:Hc; [|lia]. go_bool. rewrite levelValue_normalize. lia.
Qed.

Lemma Merge_level_ge items : 1 <= levelValue (dc_Level (Merge items)).
Proof.
  unfold Merge.
  assert (H : forall acc, 1 <= levelValue (dc_Level acc.1) ->
    1 <= levelValue (dc_Level (fold_left mergeStep items acc).1)).
  { induction items as [|i items IH]; intros acc Ha; [done|]. apply IH.
    pose proof (mergeStep_level_ge acc i). lia. }
  specialize (H (mergeBase, []) ltac:(done)). by destruct (fold_left _ _ _).
Qed.

Lemma Merge_tags items tag :
  tag ∈ dc_SensitivityTags (Merge items) <->
  tag <> "" /\ exists item t, item ∈ items /\ t ∈ dc_SensitivityTags item /\ tag = NormalizeSensitivityTag t.
Proof.
  unfold Merge. destruct (merge_fold items (mergeBase, [])) as [_ Ht].
  destruct (fold_left mergeStep items (mergeBase, [])) as [out tags] eqn:E. simpl in *.
  rewrite sorted_set_elem, Ht. split; [intros [?%not_elem_of_nil|?]; done|by right].
Qed.
End ClassificationLemmas.

(** ** Properties *)

Section ClassificationProperties.
Context {U : UnicodeTables}.

Lemma NormalizeSensitivityTag_idem tag :
  NormalizeSensitivityTag (NormalizeSensitivityTag tag) = NormalizeSensitivityTag tag.
Proof.
  assert (H : NormalizeSensitivityTag tag ∈ [SensitivityTagCredentialLike; SensitivityTagPersonalData;
      SensitivityTagCustomerData; SensitivityTagSourceCode; SensitivityTagInfrastructureMetadata;
      SensitivityTagSecuritySensitive] \/ NormalizeSensitivityTag tag = trim_space tag).
  { unfold NormalizeSensitivityTag. repeat case_match; try (by right); left; rewrite !elem_of_cons; tauto. }
  destruct H as [H|H].
  - rewrite !elem_of_cons, elem_of_nil in H. by destruct H as [->|[->|[->|[->|[->|[->|[]]]]]]].
  - rewrite H at 1. unfold NormalizeSensitivityTag. by rewrite trim_space_idem.
Qed.

Lemma deniedTag_empty tags denied :
  deniedTag tags denied = "" <->
  forall t d, t ∈ tags -> d ∈ denied -> NormalizeSensitivityTag t <> "" ->
    NormalizeSensitivityTag t <> NormalizeSensitivityTag d.
Proof.
  unfold deniedTag. destruct (find_first _ tags) as [x|] eqn:Hf.
  - apply find_first_Some in Hf as (t & Ht & Hx). destruct (mem_str _ _) eqn:Hm; [|done].
    injection Hx as <-. apply mem_str_spec in Hm. apply list_elem_of_filter in Hm as [Hne Hm].
    apply list_elem_of_fmap in Hm as (d & Hd & Hin). split; [done|]. intros H. by destruct (H t d).
  - split; [|done]. intros _ t d Ht Hd Hne He. pose proof (proj1 (find_first_None _ _) Hf t Ht) as Hn. simpl in Hn.
    destruct (mem_str _ _) eqn:Hm; [done|]. apply mem_str_false in Hm. apply Hm.
    apply list_elem_of_filter. split; [done|]. rewrite He. by apply list_elem_of_fmap_2.
Qed.

Lemma Bundle_level refs m :
  levelValue (dc_Level (BundleClassification refs)) <= m <->
  1 <= m /\ forall ref, ref ∈ refs -> levelValue (dc_Level (refClassification ref)) <= m.
Proof.
  destruct refs as [|r refs].
  { cbn [BundleClassification mergeBase dc_Level]. rewrite levelValue_internal.
    split; [|tauto]. intros ?. split; [done|]. by intros ? ?%not_elem_of_nil. }
  unfold BundleClassification. cbn [dc_Level]. set (items := map refClassification (r :: refs)).
  pose proof (Merge_level items m) as H. pose proof (Merge_level_ge items) as Hge.
  split.
  - intros Hle. destruct (proj1 H) as [? Hi]; [lia|]. split; [done|]. intros ref Hr. apply Hi.
    by apply list_elem_of_fmap_2.
  - intros [H1 Hi]. apply H. split; [done|]. intros item Hit. apply list_elem_of_fmap in Hit as (ref & -> & Hr).
    by apply Hi.
Qed.

Lemma Bundle_tags refs tag :
  tag ∈ dc_SensitivityTags (BundleClassification refs) <->
  tag <> "" /\ exists ref t, ref ∈ refs /\ t ∈ dc_SensitivityTags (refClassification ref) /\
    tag = NormalizeSensitivityTag t.
Proof.
  destruct refs as [|r refs].
  { split; [by intros ?%not_elem_of_nil|]. by intros (_ & ? & ? & ?%not_elem_of_nil & _). }
  unfold BundleClassification. cbn [dc_SensitivityTags]. rewrite Merge_tags. split.
  - intros (Hne & i & t & Hi & Ht & He). apply list_elem_of_fmap in Hi as (ref & -> & Hr). eauto 10.
  - intros (Hne & ref & t & Hr & Ht & He). split; [done|]. exists (refClassification ref), t.
    split; [by apply list_elem_of_fmap_2|done].
Qed.

(** What a provider policy admits, in terms of the single evidence references. *)
Definition bundle_admitted (policy : ModelProviderDataPolicy) (refs : list EvidenceRef) : Prop :=
  levelValue DataClassificationLevelInternal <= levelValue (mp_MaximumClassification policy) /\
  (forall ref, ref ∈ refs ->
     levelValue (dc_Level (refClassification ref)) <= levelValue (mp_MaximumClassification policy)) /\
  (forall ref t d, ref ∈ refs -> t ∈ dc_SensitivityTags (refClassification ref) ->
     d ∈ mp_DeniedSensitivityTags policy -> NormalizeSensitivityTag t <> "" ->
     NormalizeSensitivityTag t <> NormalizeSensitivityTag d) /\
  (mp_RequireRedaction policy = true ->
     forall ref, ref ∈ refs -> trim_space (er_RedactionProfile ref) <> "").

Lemma allowedMaximum_value policy :
  levelValue (if NormalizeLevel (mp_MaximumClassification policy) == ""
              then DataClassificationLevelInternal else NormalizeLevel (mp_MaximumClassification policy))
  = levelValue (mp_MaximumClassification policy).
Proof.
  rewrite (proj2 (String.eqb_neq _ _) (NormalizeLevel_nonempty _)). apply levelValue_normalize.
Qed.

Lemma policy_admits (policy : ModelProviderDataPolicy) (refs : list EvidenceRef) :
  let d := EvaluateProviderPolicy policy refs in
  (cd_Decision d = DecisionAllowed <-> bundle_admitted policy refs) /\
  (cd_Decision d <> DecisionAllowed -> cd_Decision d = DecisionRejected).
Proof.
  cbv zeta. unfold EvaluateProviderPolicy, CompareLevels. rewrite allowedMaximum_value.
  set (m := levelValue (mp_MaximumClassification policy)).
  pose proof (Bundle_level refs m) as Hl.
  destruct (0 <? _) eqn:Hc; go_bool.
  { split; [|done]. split; [done|]. intros (H1 & H2 & _). 
    pose proof (proj2 Hl (conj H1 H2)). lia. }
  assert (Hle : levelValue (dc_Level (BundleClassification refs)) <= m) by lia. apply Hl in Hle as [H1 H2].
  pose proof (deniedTag_empty (dc_SensitivityTags (BundleClassification refs))
    (mp_DeniedSensitivityTags policy)) as Hd.
  destruct (deniedTag _ _ == "") eqn:Ht; cbn [negb]; go_bool.
  2:{ split; [|done]. split; [done|]. intros (_ & _ & H3 & _). destruct Ht. apply Hd.
      intros t d Hin Hdn Hne. apply Bundle_tags in Hin as (_ & ref & t' & Hr & Ht' & ->).
      rewrite NormalizeSensitivityTag_idem in Hne |- *. by apply (H3 ref t'). }
  assert (H3 : forall ref t d, ref ∈ refs -> t ∈ dc_SensitivityTags (refClassification ref) ->
     d ∈ mp_DeniedSensitivityTags policy -> NormalizeSensitivityTag t <> "" ->
     NormalizeSensitivityTag t <> NormalizeSensitivityTag d).
  { intros ref t d Hr Hin Hdn Hne. rewrite <- (NormalizeSensitivityTag_idem t). apply (proj1 Hd Ht); [|done|].
    - apply Bundle_tags. eauto 10.
    - by rewrite NormalizeSensitivityTag_idem. }
  destruct (mp_RequireRedaction policy) eqn:Hrr; cbn [andb].
  - destruct (allRefsRedacted refs) eqn:Ha; cbn [negb cd_Decision cd_MaximumSent].
    + split; [|done]. split; [|done]. intros _. split; [exact H1|]. split; [exact H2|]. split; [exact H3|].
      intros _ ref Hr.
      unfold allRefsRedacted in Ha. rewrite forallb_forall in Ha. apply list_elem_of_In in Hr.
      apply Ha in Hr. by go_bool.
    + split; [|done]. split; [done|]. intros (_ & _ & _ & H4). exfalso.
      assert (Hf : allRefsRedacted refs = true); [|congruence].
      apply forallb_forall. intros ref Hr%list_elem_of_In. apply negb_true_iff, String.eqb_neq. by apply H4.
  - split; [|done]. split; [|done]. intros _. split; [exact H1|]. split; [exact H2|].
    split; [exact H3|congruence].
Qed.

Lemma policy_rejected_empty (policy : ModelProviderDataPolicy) (refs : list EvidenceRef) :
  let d := EvaluateProviderPolicy policy refs in
  cd_Decision d <> DecisionAllowed -> cd_MaximumSent d = "" /\ cd_SensitivityTagsSent d = [].
Proof. cbv zeta. unfold EvaluateProviderPolicy. by repeat case_match. Qed.

(** A hosted provider's data policy admits an evidence bundle exactly when
    its maximum covers the Internal level and the level of every reference (its
    own classification, or the default for its kind and content), no reference
    carries a denied sensitivity tag up to the tags' spellings, and, where
    redaction is required, every reference names its redaction profile; a
    rejected bundle is reported as sending no level and no tags. *)
Theorem provider_policy_admits (policy : ModelProviderDataPolicy) (refs : list EvidenceRef) :
  let d := EvaluateProviderPolicy policy refs in
  (cd_Decision d = DecisionAllowed <-> bundle_admitted policy refs) /\
  (cd_Decision d <> DecisionAllowed ->
     cd_Decision d = DecisionRejected /\ cd_MaximumSent d = "" /\ cd_SensitivityTagsSent d = []).
Proof.
  cbv zeta. destruct (policy_admits policy refs) as [H1 H2]. split; [exact H1|].
  intros Hd. split; [by apply H2|by apply policy_rejected_empty].
Qed.

(** A level the program does not know counts as Restricted: evidence with it is
    held back by every lower maximum, and a maximum with it admits every level. *)
Lemma unknown_maximum_admits_all (policy : ModelProviderDataPolicy) (refs : list EvidenceRef) :
  unknownLevel (mp_MaximumClassification policy) ->
  cd_Reason (EvaluateProviderPolicy policy refs) <> ReasonClassificationExceeded.
Proof.
  intros Hu. unfold EvaluateProviderPolicy, CompareLevels. rewrite allowedMaximum_value, (levelValue_unknown _ Hu).
  pose proof (levelValue_range (dc_Level (BundleClassification refs))).
  destruct (0 <? _) eqn:Hc; [go_bool; lia|]. by repeat case_match.
Qed.

(** The maximum Public rejects every bundle, one of public references included. *)
Lemma public_maximum_rejects_all (policy : ModelProviderDataPolicy) (refs : list EvidenceRef) :
  mp_MaximumClassification policy = DataClassificationLevelPublic ->
  cd_Reason (EvaluateProviderPolicy policy refs) = ReasonClassificationExceeded.
Proof.
  intros Hp. unfold EvaluateProviderPolicy, CompareLevels. rewrite allowedMaximum_value, Hp.
  change (levelValue DataClassificationLevelPublic) with 0.
  destruct (0 <? _) eqn:Hc; [done|]. go_bool. exfalso.
  destruct (proj1 (Bundle_level refs 0)); lia.
Qed.
End ClassificationProperties.
