(* ===== verification/Scope.v ===== *)
(** * Workload scope (internal/scope/resolver.go)

    Resolution of the bounded Deployment -> ReplicaSet -> Pod ownership chain
    from three reads of the API server: the Deployment, the ReplicaSets and the
    Pods its selector matches. *)

From Stdlib Require Import ZArith Lia.
From stdpp Require Import base list strings gmap.
From S2P Require Import Prelude GoStrings Api.

Definition defaultMaxReplicaSets : Z := 20.
Definition defaultMaxPods : Z := 100.

Record Limits := mkLimits { lim_MaxReplicaSets : Z; lim_MaxPods : Z }.

Definition normalized (l : Limits) : Limits :=
  mkLimits (if lim_MaxReplicaSets l <=? 0 then defaultMaxReplicaSets else lim_MaxReplicaSets l)
    (if lim_MaxPods l <=? 0 then defaultMaxPods else lim_MaxPods l).

(** scope.ResourceRef. *)
Record ScopeRef := mkScopeRef {
  sref_APIVersion : string;
  sref_Kind : string;
  sref_Namespace : string;
  sref_Name : string;
  sref_UID : string
}.

Definition WarningOwnerMismatch : string := "OwnerMismatch".
Definition WarningSelectorMismatch : string := "SelectorMismatch".
Definition WarningReplicaSetLimit : string := "ReplicaSetLimitExceeded".
Definition WarningPodLimit : string := "PodLimitExceeded".
Definition WarningReplicaSetList : string := "ReplicaSetListFailed".
Definition WarningPodList : string := "PodListFailed".
Definition WarningResourceNotFound : string := "ResourceNotFound".
Definition WarningNamespaceMismatch : string := "NamespaceMismatch".
Definition WarningInvalidTarget : string := "InvalidTarget".

Record ScopeWarning := mkScopeWarning {
  sw_Code : string;
  sw_Message : string;
  sw_Resource : option ScopeRef
}.

(** scope.Result. *)
Record ScopeResult := mkScopeResult {
  sr_Deployment : ScopeRef;
  sr_ReplicaSets : list ScopeRef;
  sr_Pods : list ScopeRef;
  sr_Warnings : list ScopeWarning;
  sr_Complete : bool
}.

Definition zeroScopeRef : ScopeRef := mkScopeRef "" "" "" "" "".
Definition emptyScope : ScopeResult := mkScopeResult zeroScopeRef [] [] [] true.

Definition warn (r : ScopeResult) (w : ScopeWarning) : ScopeResult :=
  mkScopeResult (sr_Deployment r) (sr_ReplicaSets r) (sr_Pods r) (sr_Warnings r ++ [w]) (sr_Complete r).
Definition incomplete (r : ScopeResult) : ScopeResult :=
  mkScopeResult (sr_Deployment r) (sr_ReplicaSets r) (sr_Pods r) (sr_Warnings r) false.
Definition with_deployment (r : ScopeResult) (d : ScopeRef) : ScopeResult :=
  mkScopeResult d (sr_ReplicaSets r) (sr_Pods r) (sr_Warnings r) (sr_Complete r).
Definition add_replica_set (r : ScopeResult) (ref : ScopeRef) : ScopeResult :=
  mkScopeResult (sr_Deployment r) (sr_ReplicaSets r ++ [ref]) (sr_Pods r) (sr_Warnings r) (sr_Complete r).
Definition add_pod (r : ScopeResult) (ref : ScopeRef) : ScopeResult :=
  mkScopeResult (sr_Deployment r) (sr_ReplicaSets r) (sr_Pods r ++ [ref]) (sr_Warnings r) (sr_Complete r).

(** ** Owner references *)

Definition resourceRef (obj : ObjectMeta) (apiVersion kind : string) : ScopeRef :=
  mkScopeRef apiVersion kind (om_Namespace obj) (om_Name obj) (om_UID obj).

Definition controllerOwner (refs : list OwnerReference) (kind : string) : option OwnerReference :=
  find_first (fun ref =>
    if match or_Controller ref with Some true => true | _ => false end
       && (or_Kind ref == kind) && (or_UID ref != "")
    then Some ref else None) refs.

Definition controllerOwnerMatches (refs : list OwnerReference) (kind name uid : string) : bool :=
  match controllerOwner refs kind with
  | Some owner => (or_Name owner == name) && (or_UID owner == uid)
  | None => false
  end.

Definition scopeRefLess (a b : ScopeRef) : bool :=
  if sref_Namespace a != sref_Namespace b then str_ltb (sref_Namespace a) (sref_Namespace b)
  else if sref_Name a != sref_Name b then str_ltb (sref_Name a) (sref_Name b)
  else str_ltb (sref_UID a) (sref_UID b).

(** Every reference of one list has the same kind and version, so that the
    order of [sort.Slice] is total and its result that of the stable sort. *)
Definition sortResourceRefs : list ScopeRef -> list ScopeRef := sort_stable scopeRefLess.

Section Scope.
Context {LS : LabelSelectors}.

(** The Deployment fields read, and a list answer with its continue token. *)
Record ScopeDeployment := mkScopeDeployment {
  sd_Meta : ObjectMeta;
  sd_Selector : option selector
}.

Record ObjectList := mkObjectList { ol_Items : list ObjectMeta; ol_Continue : string }.

Record ScopeReader := mkScopeReader {
  sc_get : string -> string -> result ScopeDeployment;
  sc_list_replica_sets : string -> (gmap string string -> bool) -> Z -> result ObjectList;
  sc_list_pods : string -> (gmap string string -> bool) -> Z -> result ObjectList
}.

Definition objectKey (namespace name : string) : string := namespace +:+ "/" +:+ name.

(** One ReplicaSet of the loop; the second component is [ownedReplicaSetUIDs]. *)
Definition replicaStep (deployment : ObjectMeta) (matches : gmap string string -> bool)
    (acc : ScopeResult * list string) (replica : ObjectMeta) : ScopeResult * list string :=
  let '(result, owned) := acc in
  let ref := resourceRef replica "apps/v1" "ReplicaSet" in
  if negb (controllerOwnerMatches (om_OwnerReferences replica) "Deployment" (om_Name deployment)
             (om_UID deployment)) then
    (warn result (mkScopeWarning WarningOwnerMismatch
       "ReplicaSet selector matched but controller OwnerReference does not match the target Deployment UID"
       (Some ref)), owned)
  else if negb (matches (om_Labels replica)) then
    (warn result (mkScopeWarning WarningSelectorMismatch
       "ReplicaSet controller owner matched but labels failed the Deployment selector" (Some ref)), owned)
  else (add_replica_set result ref, om_UID replica :: owned).

Definition podStep (owned : list string) (result : ScopeResult) (pod : ObjectMeta) : ScopeResult :=
  let ref := resourceRef pod "v1" "Pod" in
  match controllerOwner (om_OwnerReferences pod) "ReplicaSet" with
  | None =>
      warn result (mkScopeWarning WarningOwnerMismatch
        "Pod selector matched but it has no controller ReplicaSet OwnerReference" (Some ref))
  | Some owner =>
      if negb (mem_str (or_UID owner) owned) then
        warn result (mkScopeWarning WarningOwnerMismatch
          "Pod controller ReplicaSet UID is not in the validated Deployment scope" (Some ref))
      else add_pod result ref
  end.

(** A listing cut to its bound, and whether it had to be. *)
Definition exceeds (l : ObjectList) (limit : Z) : bool :=
  (limit <? Z.of_nat (length (ol_Items l))) || (ol_Continue l != "").
Definition bounded (l : ObjectList) (limit : Z) : list ObjectMeta :=
  if exceeds l limit then take (Z.to_nat (Z.min (Z.of_nat (length (ol_Items l))) limit)) (ol_Items l)
  else ol_Items l.

Definition resolvePods (reader : ScopeReader) (limits : Limits) (namespace name : string)
    (matches : gmap string string -> bool) (result : ScopeResult) (owned : list string)
    : ScopeResult * option error :=
  let deploymentRef := Some (sr_Deployment result) in
  match sc_list_pods reader namespace matches (lim_MaxPods limits + 1) with
  | Err err =>
      (warn (incomplete result)
         (mkScopeWarning WarningPodList ("list Pods: " +:+ err_msg err) deploymentRef),
       Some (wrapf ("list Pods for Deployment " +:+ objectKey namespace name) err))
  | Ok pods =>
      let result :=
        if exceeds pods (lim_MaxPods limits) then
          warn (incomplete result) (mkScopeWarning WarningPodLimit
            ("Pod scope exceeded limit " +:+ itoa (lim_MaxPods limits)) deploymentRef)
        else result in
      let result := fold_left (podStep owned) (bounded pods (lim_MaxPods limits)) result in
      (mkScopeResult (sr_Deployment result) (sortResourceRefs (sr_ReplicaSets result))
         (sortResourceRefs (sr_Pods result)) (sr_Warnings result) (sr_Complete result), None)
  end.

Definition resolveReplicaSets (reader : ScopeReader) (limits : Limits) (namespace name : string)
    (deployment : ObjectMeta) (matches : gmap string string -> bool) (result : ScopeResult)
    : ScopeResult * option error :=
  let deploymentRef := Some (sr_Deployment result) in
  match sc_list_replica_sets reader namespace matches (lim_MaxReplicaSets limits + 1) with
  | Err err =>
      (warn (incomplete result)
         (mkScopeWarning WarningReplicaSetList ("list ReplicaSets: " +:+ err_msg err) deploymentRef),
       Some (wrapf ("list ReplicaSets for Deployment " +:+ objectKey namespace name) err))
  | Ok replicas =>
      let result :=
        if exceeds replicas (lim_MaxReplicaSets limits) then
          warn (incomplete result) (mkScopeWarning WarningReplicaSetLimit
            ("ReplicaSet scope exceeded limit " +:+ itoa (lim_MaxReplicaSets limits)) deploymentRef)
        else result in
      let '(result, owned) :=
        fold_left (replicaStep deployment matches) (bounded replicas (lim_MaxReplicaSets limits))
          (result, []) in
      resolvePods reader limits namespace name matches result owned
  end.

(** [ResolveDeployment] of a resolver whose limits [NewResolver] normalised. *)
Definition ResolveDeployment (reader : option ScopeReader) (limits : Limits) (namespace name : string)
    : ScopeResult * option error :=
  match reader with
  | None => (emptyScope, Some (errorf "scope resolver requires a Kubernetes reader"))
  | Some reader =>
      if (namespace == "") || (name == "") then
        (warn (incomplete emptyScope)
           (mkScopeWarning WarningInvalidTarget "Deployment namespace and name are required" None),
         Some (errorf "deployment namespace and name are required"))
      else
        match sc_get reader namespace name with
        | Err err =>
            (if is_not_found err then
               warn (incomplete emptyScope) (mkScopeWarning WarningResourceNotFound
                 ("Deployment " +:+ objectKey namespace name +:+ " was not found") None)
             else emptyScope,
             Some (wrapf ("get Deployment " +:+ objectKey namespace name) err))
        | Ok deployment =>
            let ref := resourceRef (sd_Meta deployment) "apps/v1" "Deployment" in
            let result := with_deployment emptyScope ref in
            if om_Namespace (sd_Meta deployment) != namespace then
              (warn (incomplete result) (mkScopeWarning WarningNamespaceMismatch
                 "resolved Deployment namespace differs from requested namespace" (Some ref)),
               Some (errorf ("deployment " +:+ objectKey namespace name
                             +:+ " resolved outside requested namespace")))
            else
              match sd_Selector deployment with
              | None =>
                  (warn (incomplete result) (mkScopeWarning WarningInvalidTarget
                     "Deployment has no selector" (Some ref)),
                   Some (errorf ("deployment " +:+ objectKey namespace name +:+ " has no selector")))
              | Some sel =>
                  match LabelSelectorAsSelector sel with
                  | Err err =>
                      (warn (incomplete result) (mkScopeWarning WarningInvalidTarget
                         ("Deployment selector is invalid: " +:+ err_msg err) (Some ref)),
                       Some (wrapf ("parse Deployment " +:+ objectKey namespace name +:+ " selector") err))
                  | Ok matches =>
                      resolveReplicaSets reader limits namespace name (sd_Meta deployment) matches result
                  end
              end
        end
  end.

Definition NewResolver (limits : Limits) : Limits := normalized limits.
End Scope.

(** ** The loops *)

Section ScopeLemmas.
Context {LS : LabelSelectors}.

(** A ReplicaSet the Deployment controls and selects. *)
Definition ownedReplicaSet (deployment : ObjectMeta) (matches : gmap string string -> bool)
    (replica : ObjectMeta) : bool :=
  controllerOwnerMatches (om_OwnerReferences replica) "Deployment" (om_Name deployment) (om_UID deployment)
    && matches (om_Labels replica).

Definition podOwnedBy (owned : list string) (pod : ObjectMeta) : bool :=
  match controllerOwner (om_OwnerReferences pod) "ReplicaSet" with
  | Some owner => mem_str (or_UID owner) owned
  | None => false
  end.

Lemma replicaStep_spec deployment matches res owned x :
  let acc' := replicaStep deployment matches (res, owned) x in
  if ownedReplicaSet deployment matches x
  then acc' = (add_replica_set res (resourceRef x "apps/v1" "ReplicaSet"), om_UID x :: owned)
  else exists w, acc' = (warn res w, owned).
Proof.
  unfold ownedReplicaSet, replicaStep. destruct (controllerOwnerMatches _ _ _ _); cbn [negb andb]; [|eauto].
  destruct (matches (om_Labels x)); cbn [negb]; eauto.
Qed.

Lemma replica_fold deployment matches l acc :
  let acc' := fold_left (replicaStep deployment matches) l acc in
  sr_ReplicaSets acc'.1 = sr_ReplicaSets acc.1 ++
    map (fun r => resourceRef r "apps/v1" "ReplicaSet") (List.filter (ownedReplicaSet deployment matches) l) /\
  sr_Pods acc'.1 = sr_Pods acc.1 /\ sr_Deployment acc'.1 = sr_Deployment acc.1 /\
  sr_Complete acc'.1 = sr_Complete acc.1 /\
  forall uid, uid ∈ acc'.2 <-> uid ∈ acc.2 \/
    exists r, r ∈ List.filter (ownedReplicaSet deployment matches) l /\ uid = om_UID r.
Proof.
  revert acc. induction l as [|x l IH]; intros [res owned]; cbn [fold_left List.filter map].
  { rewrite app_nil_r. split_and!; try done. intros uid. split; [tauto|].
    intros [?|(? & ?%not_elem_of_nil & _)]; done. }
  pose proof (replicaStep_spec deployment matches res owned x) as Hx. cbv zeta in Hx.
  destruct (ownedReplicaSet deployment matches x).
  - rewrite Hx. destruct (IH (add_replica_set res (resourceRef x "apps/v1" "ReplicaSet"), om_UID x :: owned))
      as (H1 & H2 & H3 & H4 & H5). cbn zeta. rewrite H1, H2, H3, H4.
    cbn [map add_replica_set sr_ReplicaSets fst snd] in *. rewrite <- app_assoc. split_and!; try done.
    intros uid. rewrite H5, elem_of_cons. setoid_rewrite elem_of_cons. naive_solver.
  - destruct Hx as [w ->]. destruct (IH (warn res w, owned)) as (H1 & H2 & H3 & H4 & H5).
    cbn zeta. rewrite H1, H2, H3, H4. done.
Qed.

Lemma podStep_spec owned res x :
  if podOwnedBy owned x then podStep owned res x = add_pod res (resourceRef x "v1" "Pod")
  else exists w, podStep owned res x = warn res w.
Proof.
  unfold podOwnedBy, podStep. destruct (controllerOwner _ _); [|eauto].
  destruct (mem_str _ _); cbn [negb]; eauto.
Qed.

Lemma pod_fold owned l r :
  let r' := fold_left (podStep owned) l r in
  sr_Pods r' = sr_Pods r ++ map (fun p => resourceRef p "v1" "Pod") (List.filter (podOwnedBy owned) l) /\
  sr_ReplicaSets r' = sr_ReplicaSets r /\ sr_Deployment r' = sr_Deployment r /\
  sr_Complete r' = sr_Complete r.
Proof.
  revert r. induction l as [|x l IH]; intros r; cbn [fold_left List.filter map]; [by rewrite app_nil_r|].
  pose proof (podStep_spec owned r x) as Hx. destruct (podOwnedBy owned x).
  - rewrite Hx. destruct (IH (add_pod r (resourceRef x "v1" "Pod"))) as (H1 & H2 & H3 & H4).
    cbn zeta. rewrite H1, H2, H3, H4. cbn [map add_pod sr_Pods]. by rewrite <- app_assoc.
  - destruct Hx as [w ->]. apply (IH (warn r w)).
Qed.

Lemma bounded_length l limit : 0 <= limit -> Z.of_nat (length (bounded l limit)) <= limit.
Proof.
  intros Hl. unfold bounded, exceeds. destruct (_ || _)%bool eqn:E.
  - rewrite length_take. lia.
  - go_bool. lia.
Qed.

Lemma bounded_elem l limit x : x ∈ bounded l limit -> x ∈ ol_Items l.
Proof. unfold bounded. destruct (exceeds _ _); [apply elem_of_take_drop_1 || apply subseteq_take|done]. Qed.

Lemma filter_map_elem {A B} (f : A -> B) (P : A -> bool) (l : list A) y :
  y ∈ map f (List.filter P l) <-> exists x, x ∈ l /\ P x = true /\ y = f x.
Proof.
  rewrite list_elem_of_In, in_map_iff. setoid_rewrite filter_In. setoid_rewrite list_elem_of_In.
  naive_solver.
Qed.
End ScopeLemmas.

(** ** Properties *)

Section ScopeProperties.
Context {LS : LabelSelectors}.

(** What the API server answered, and what of it belongs to the Deployment. *)
Record ScopeAnswers := mkScopeAnswers {
  an_deployment : ScopeDeployment;
  an_matches : gmap string string -> bool;
  an_replicas : ObjectList;
  an_pods : ObjectList
}.

Definition answered (reader : ScopeReader) (limits : Limits) (namespace name : string) (a : ScopeAnswers) : Prop :=
  sc_get reader namespace name = Ok (an_deployment a) /\
  (exists sel, sd_Selector (an_deployment a) = Some sel /\ LabelSelectorAsSelector sel = Ok (an_matches a)) /\
  sc_list_replica_sets reader namespace (an_matches a) (lim_MaxReplicaSets limits + 1) = Ok (an_replicas a) /\
  sc_list_pods reader namespace (an_matches a) (lim_MaxPods limits + 1) = Ok (an_pods a).

(** A ReplicaSet in scope: among the first listed ones, controlled by exactly
    this Deployment (name and UID) and selected by it. *)
Definition replica_in_scope (limits : Limits) (a : ScopeAnswers) (r : ObjectMeta) : Prop :=
  let d := sd_Meta (an_deployment a) in
  r ∈ bounded (an_replicas a) (lim_MaxReplicaSets limits) /\ an_matches a (om_Labels r) = true /\
  exists o, controllerOwner (om_OwnerReferences r) "Deployment" = Some o /\
    or_Name o = om_Name d /\ or_UID o = om_UID d.

(** A Pod in scope: among the first listed ones, controlled by a ReplicaSet in scope. *)
Definition pod_in_scope (limits : Limits) (a : ScopeAnswers) (p : ObjectMeta) : Prop :=
  p ∈ bounded (an_pods a) (lim_MaxPods limits) /\
  exists o r, controllerOwner (om_OwnerReferences p) "ReplicaSet" = Some o /\
    replica_in_scope limits a r /\ or_UID o = om_UID r.

Lemma ownedReplicaSet_spec limits a r :
  r ∈ bounded (an_replicas a) (lim_MaxReplicaSets limits) ->
  ownedReplicaSet (sd_Meta (an_deployment a)) (an_matches a) r = true <-> replica_in_scope limits a r.
Proof.
  intros Hr. unfold ownedReplicaSet, replica_in_scope, controllerOwnerMatches.
  destruct (controllerOwner _ _) as [o|]; [|split; [done|by intros (_ & _ & ? & ? & _)]].
  rewrite !andb_true_iff, !String.eqb_eq. naive_solver.
Qed.

(** C29: a scope resolved without error contains exactly the listed ReplicaSets
    controlled by the requested Deployment (its name and UID, and its selector)
    and exactly the listed Pods controlled by one of those, within the
    normalised limits; it is reported complete exactly when neither listing had
    to be cut. *)
Theorem scope_resolution_exact (reader : ScopeReader) (l : Limits) (namespace name : string) r :
  ResolveDeployment (Some reader) (NewResolver l) namespace name = (r, None) ->
  exists a, answered reader (NewResolver l) namespace name a /\
    sr_Deployment r = resourceRef (sd_Meta (an_deployment a)) "apps/v1" "Deployment" /\
    sref_Namespace (sr_Deployment r) = namespace /\
    (forall ref, ref ∈ sr_ReplicaSets r <->
       exists x, replica_in_scope (NewResolver l) a x /\ ref = resourceRef x "apps/v1" "ReplicaSet") /\
    (forall ref, ref ∈ sr_Pods r <->
       exists p, pod_in_scope (NewResolver l) a p /\ ref = resourceRef p "v1" "Pod") /\
    (sr_Complete r = true <->
       exceeds (an_replicas a) (lim_MaxReplicaSets (NewResolver l)) = false /\
       exceeds (an_pods a) (lim_MaxPods (NewResolver l)) = false).
Proof.
  generalize (NewResolver l) as limits. intros limits. unfold ResolveDeployment.
  destruct (_ || _)%bool; [done|]. destruct (sc_get reader namespace name) as [d|] eqn:Hget; [|done].
  destruct (om_Namespace (sd_Meta d) == namespace) eqn:Hns; cbn [negb]; [|done].
  destruct (sd_Selector d) as [sel|] eqn:Hsel; [|done].
  destruct (LabelSelectorAsSelector sel) as [matches|] eqn:Hm; [|done].
  unfold resolveReplicaSets. destruct (sc_list_replica_sets _ _ _ _) as [rs|] eqn:Hrs; [|done].
  set (res0 := if exceeds rs _ then _ else _).
  pose proof (replica_fold (sd_Meta d) matches (bounded rs (lim_MaxReplicaSets limits)) (res0, [])) as Hf.
  destruct (fold_left _ _ (res0, [])) as [res owned]. cbn [fst snd] in Hf.
  destruct Hf as (F1 & F2 & F3 & F4 & F5).
  unfold resolvePods. destruct (sc_list_pods _ _ _ _) as [ps|] eqn:Hps; [|done].
  set (res1 := if exceeds ps _ then _ else _).
  pose proof (pod_fold owned (bounded ps (lim_MaxPods limits)) res1) as (G1 & G2 & G3 & G4).
  intros [= <-]. exists (mkScopeAnswers d matches rs ps).
  assert (R0 : sr_ReplicaSets res0 = [] /\ sr_Pods res0 = [] /\
    sr_Deployment res0 = resourceRef (sd_Meta d) "apps/v1" "Deployment" /\
    (sr_Complete res0 = true <-> exceeds rs (lim_MaxReplicaSets limits) = false))
    by (unfold res0; destruct (exceeds rs _); done).
  assert (R1 : sr_ReplicaSets res1 = sr_ReplicaSets res /\ sr_Pods res1 = sr_Pods res /\
    sr_Deployment res1 = sr_Deployment res /\
    (sr_Complete res1 = true <-> sr_Complete res = true /\ exceeds ps (lim_MaxPods limits) = false))
    by (unfold res1; destruct (exceeds ps _); naive_solver).
  destruct R0 as (A1 & A2 & A3 & A4), R1 as (B1 & B2 & B3 & B4). rewrite A1 in F1. rewrite A2 in F2.
  cbn [app] in F1. refine (conj _ (conj _ (conj _ (conj _ (conj _ _)))));
    cbn [sr_Deployment sr_ReplicaSets sr_Pods sr_Complete an_deployment an_matches an_replicas an_pods].
  - split; [done|]. split; [by exists sel|done].
  - by rewrite G3, B3, F3, A3.
  - rewrite G3, B3, F3, A3. simpl. by go_bool.
  - intros ref. unfold sortResourceRefs. rewrite sort_stable_elem, G2, B1, F1, filter_map_elem.
    split; intros (x & Hx).
    + destruct Hx as (Hin & Ho & ->). exists x. split; [|done]. by apply ownedReplicaSet_spec.
    + destruct Hx as (Hsc & ->). exists x. split; [by apply Hsc|]. split; [|done].
      apply (ownedReplicaSet_spec limits (mkScopeAnswers d matches rs ps)); [by apply Hsc|done].
  - intros ref. unfold sortResourceRefs. rewrite sort_stable_elem, G1, B2, F2, app_nil_l, filter_map_elem.
    unfold pod_in_scope, podOwnedBy. cbn [an_pods]. split.
    + intros (p & Hin & Ho & ->). exists p. split; [|done]. split; [done|].
      destruct (controllerOwner _ "ReplicaSet") as [o|]; [|done]. apply mem_str_spec, F5 in Ho.
      destruct Ho as [?%not_elem_of_nil|(x & Hx & He)]; [done|]. exists o, x. split; [done|].
      apply list_filter_elem in Hx as [Hx Hox]. split; [|done]. by apply ownedReplicaSet_spec.
    + intros (p & (Hin & o & x & Ho & Hx & He) & ->). exists p. split; [done|]. split; [|done].
      rewrite Ho. apply mem_str_spec, F5. right. exists x. split; [|done].
      apply list_filter_elem. split; [by apply Hx|].
      apply (ownedReplicaSet_spec limits (mkScopeAnswers d matches rs ps)); [by apply Hx|done].
  - rewrite G4, B4, F4, A4. tauto.
Qed.

(** Resolved ReplicaSets and Pods stay within the limits, whatever the API
    server lists. *)
Lemma scope_resolution_bounded (reader : option ScopeReader) (l : Limits) (namespace name : string) :
  let r := (ResolveDeployment reader (NewResolver l) namespace name).1 in
  Z.of_nat (length (sr_ReplicaSets r)) <= lim_MaxReplicaSets (NewResolver l) /\
  Z.of_nat (length (sr_Pods r)) <= lim_MaxPods (NewResolver l).
Proof.
  cbv zeta. assert (L : 0 < lim_MaxReplicaSets (NewResolver l) /\ 0 < lim_MaxPods (NewResolver l)).
  { unfold NewResolver, normalized, defaultMaxReplicaSets, defaultMaxPods. simpl.
    destruct (lim_MaxReplicaSets l <=? 0) eqn:?, (lim_MaxPods l <=? 0) eqn:?; go_bool; lia. }
  revert L. generalize (NewResolver l) as limits. intros limits L.
  unfold ResolveDeployment. destruct reader as [reader|]; [|simpl; lia].
  destruct (_ || _)%bool; [simpl; lia|]. destruct (sc_get reader namespace name) as [d|e]; [|destruct (is_not_found e); simpl; lia].
  destruct (om_Namespace (sd_Meta d) == namespace); cbn [negb]; [|simpl; lia].
  destruct (sd_Selector d) as [sel|]; [|simpl; lia].
  destruct (LabelSelectorAsSelector sel) as [matches|]; [|simpl; lia].
  unfold resolveReplicaSets. destruct (sc_list_replica_sets _ _ _ _) as [rs|]; [|simpl; lia].
  set (res0 := if exceeds rs _ then _ else _).
  assert (A : sr_ReplicaSets res0 = [] /\ sr_Pods res0 = []) by (unfold res0; destruct (exceeds rs _); done).
  pose proof (replica_fold (sd_Meta d) matches (bounded rs (lim_MaxReplicaSets limits)) (res0, [])) as Hf.
  destruct (fold_left _ _ (res0, [])) as [res owned]. destruct Hf as (F1 & F2 & _). cbn [fst snd] in F1, F2.
  destruct A as [A1 A2]. rewrite A1 in F1. rewrite A2 in F2. cbn [app] in F1.
  assert (HR : Z.of_nat (length (sr_ReplicaSets res)) <= lim_MaxReplicaSets limits).
  { rewrite F1, length_map. pose proof (bounded_length rs (lim_MaxReplicaSets limits)).
    pose proof (List.filter_length_le (ownedReplicaSet (sd_Meta d) matches) (bounded rs (lim_MaxReplicaSets limits))).
    lia. }
  unfold resolvePods. destruct (sc_list_pods _ _ _ _) as [ps|]; [|simpl; rewrite F2; simpl; lia].
  set (res1 := if exceeds ps _ then _ else _).
  assert (B : sr_ReplicaSets res1 = sr_ReplicaSets res /\ sr_Pods res1 = sr_Pods res)
    by (unfold res1; destruct (exceeds ps _); done).
  pose proof (pod_fold owned (bounded ps (lim_MaxPods limits)) res1) as (G1 & G2 & _).
  destruct B as [B1 B2]. cbn [fst sr_ReplicaSets sr_Pods]. unfold sortResourceRefs.
  rewrite !sort_stable_length, G1, G2, B1, B2, F2. split; [done|]. cbn [app]. rewrite length_map.
  pose proof (bounded_length ps (lim_MaxPods limits)).
  pose proof (List.filter_length_le (podOwnedBy owned) (bounded ps (lim_MaxPods limits))). lia.
Qed.
End ScopeProperties.

(** ** Examples *)

Section ScopeWitness.
#[local] Existing Instance label_subset.

Definition controlled_meta (name uid ownerKind ownerName ownerUID : string) : ObjectMeta :=
  mkObjectMeta name "prod" uid "v1" 1 ∅ ∅ [mkOwnerReference ownerKind ownerName ownerUID (Some true)].

Definition scope_reader : ScopeReader := mkScopeReader
  (fun _ _ => Ok (mkScopeDeployment (mkObjectMeta "web" "prod" "d1" "v1" 1 ∅ ∅ []) (Some ∅)))
  (fun _ _ _ => Ok (mkObjectList [controlled_meta "web-b" "r2" "Deployment" "web" "d1";
                                  controlled_meta "web-a" "r1" "Deployment" "web" "d1";
                                  controlled_meta "old" "r0" "Deployment" "web" "d0"] ""))
  (fun _ _ _ => Ok (mkObjectList [controlled_meta "p2" "u2" "ReplicaSet" "old" "r0";
                                  controlled_meta "p1" "u1" "ReplicaSet" "web-a" "r1"] "")).

Definition scope_run : ScopeResult * option error :=
  ResolveDeployment (Some scope_reader) (NewResolver (mkLimits 0 0)) "prod" "web".

(** The Pod of the recreated Deployment's predecessor is left out. *)
Lemma scope_resolution_exact_witness :
  map sref_Name (sr_ReplicaSets scope_run.1) = ["web-a"; "web-b"] /\
  map sref_Name (sr_Pods scope_run.1) = ["p1"] /\
  exists a, answered scope_reader (NewResolver (mkLimits 0 0)) "prod" "web" a.
Proof.
  split; [vm_compute; reflexivity|]. split; [vm_compute; reflexivity|].
  destruct (scope_resolution_exact scope_reader (mkLimits 0 0) "prod" "web" scope_run.1) as (a & Ha & _);
    [reflexivity|exists a; exact Ha].
Defined.
End ScopeWitness.
