(* ===== verification/Observation.v ===== *)
(** * Evidence of an investigation (internal/domain, internal/diagnostic/types.go)

    The normalised observations, the scheduling records and the types shared by
    the diagnostics.  A [float64] sample is kept as its 64-bit pattern: the
    modelled code only copies it. *)

From stdpp Require Import base list strings gmap.
From S2P Require Import Prelude Api Scope.

(** ** domain.Observation *)

Record TimeRange := mkTimeRange { trg_Start : time; trg_End : time }.

Record MetricObservation := mkMetricObservation { mo_Name : string; mo_Value : Z; mo_Unit : string }.
Record LogObservation := mkLogObservation { lo_Line : string }.
Record EventObservation := mkEventObservation { eo_Reason : string; eo_Message : string }.

Record DeploymentConditionObservation := mkDeploymentConditionObservation {
  dco_Type : string;
  dco_Status : string;
  dco_Reason : string;
  dco_Message : string;
  dco_AvailableReplicas : Z;
  dco_DesiredReplicas : Z
}.

Record ServiceConfigurationObservation := mkServiceConfigurationObservation {
  sco_ServiceName : string;
  sco_ServicePortName : string;
  sco_ServicePort : Z;
  sco_TargetPortRaw : string;
  sco_TargetPortResolved : Z;
  sco_TargetPortNamed : bool;
  sco_WorkloadKind : string;
  sco_WorkloadName : string;
  sco_ContainerName : string;
  sco_ContainerPortName : string;
  sco_ContainerPort : Z;
  sco_Resolution : string;
  sco_MismatchConfirmed : bool;
  sco_Reason : string
}.

Record ProbeConfigurationObservation := mkProbeConfigurationObservation {
  pco_WorkloadKind : string;
  pco_WorkloadName : string;
  pco_ContainerName : string;
  pco_ProbeType : string;
  pco_ProbeScheme : string;
  pco_ProbePath : string;
  pco_ProbePortRaw : string;
  pco_ProbePortResolved : Z;
  pco_ProbePortNamed : bool;
  pco_ContainerPortName : string;
  pco_ContainerPort : Z;
  pco_Resolution : string;
  pco_MismatchConfirmed : bool;
  pco_Reason : string
}.

Record ContainerTerminationObservation := mkContainerTerminationObservation {
  cto_PodName : string;
  cto_PodUID : string;
  cto_ContainerName : string;
  cto_RestartCount : Z;
  cto_WaitingReason : string;
  cto_LastTerminatedReason : string;
  cto_LastTerminatedExitCode : Z;
  cto_LastTerminatedSignal : Z;
  cto_LastTerminatedFinishedAt : string
}.

Record ObservationValue := mkObservationValue {
  ov_Metric : option MetricObservation;
  ov_Log : option LogObservation;
  ov_Event : option EventObservation;
  ov_DeploymentCondition : option DeploymentConditionObservation;
  ov_ServiceConfiguration : option ServiceConfigurationObservation;
  ov_ProbeConfiguration : option ProbeConfigurationObservation;
  ov_ContainerTermination : option ContainerTerminationObservation
}.

Definition ObservationTypeMetric : string := "metric".
Definition ObservationTypeLog : string := "log".
Definition ObservationTypeEvent : string := "event".
Definition ObservationTypeDeploymentCondition : string := "deploymentCondition".
Definition ObservationTypeServiceConfiguration : string := "serviceConfiguration".
Definition ObservationTypeProbeConfiguration : string := "probeConfiguration".
Definition ObservationTypeContainerTermination : string := "containerTermination".

Record Observation := mkObservation {
  ob_ID : string;
  ob_SchemaVersion : string;
  ob_DataSourceRef : string;
  ob_Capability : string;
  ob_QueryDigest : string;
  ob_TimeRange : TimeRange;
  ob_Type : string;
  ob_Value : ObservationValue;
  ob_Summary : string;
  ob_ContentDigest : string;
  ob_DigestAlgorithm : string;
  ob_DigestCanonicalization : string;
  ob_RedactionProfile : string;
  ob_Classification : option DataClassification;
  ob_Truncated : bool;
  ob_TruncationReason : string;
  ob_LimitDimension : string;
  ob_Limit : Z;
  ob_OriginalCount : Z;
  ob_RetainedCount : Z;
  ob_OriginalBytes : Z;
  ob_RetainedBytes : Z;
  ob_CollectedAt : time;
  ob_RelatedTargets : list ResourceRef
}.

Definition with_observation_text (o : Observation) (value : ObservationValue) (summary : string) : Observation :=
  mkObservation (ob_ID o) (ob_SchemaVersion o) (ob_DataSourceRef o) (ob_Capability o) (ob_QueryDigest o)
    (ob_TimeRange o) (ob_Type o) value summary (ob_ContentDigest o) (ob_DigestAlgorithm o)
    (ob_DigestCanonicalization o) (ob_RedactionProfile o) (ob_Classification o) (ob_Truncated o)
    (ob_TruncationReason o) (ob_LimitDimension o) (ob_Limit o) (ob_OriginalCount o) (ob_RetainedCount o)
    (ob_OriginalBytes o) (ob_RetainedBytes o) (ob_CollectedAt o) (ob_RelatedTargets o).

(** ** domain.SchedulingEvidence (internal/domain/scheduling.go) *)

Definition SchedulingCoverageComplete : string := "Complete".
Definition SchedulingCoveragePartial : string := "Partial".
Definition SchedulingCoverageUnavailable : string := "Unavailable".
Definition SchedulingCoverageTruncated : string := "Truncated".
Definition SchedulingCoverageStale : string := "Stale".
Definition SchedulingCoverageUnauthorized : string := "Unauthorized".
Definition SchedulingCoverageCollectionFailed : string := "CollectionFailed".

Record SchedulingEvent := mkSchedulingEvent {
  sev_ID : string;
  sev_UID : string;
  sev_PodUID : string;
  sev_Source : string;
  sev_Reason : string;
  sev_Message : string;
  sev_Type : string;
  sev_ObservedAt : time;
  sev_LastObservedAt : time;
  sev_TimeKnown : bool;
  sev_Stale : bool
}.

Record SchedulingResourceRequirements := mkSchedulingResourceRequirements {
  srq_Requests : gmap string string;
  srq_Limits : gmap string string
}.

Record SchedulingContainerResources := mkSchedulingContainerResources {
  scr_Name : string;
  scr_Requests : gmap string string;
  scr_Limits : gmap string string
}.

Record SchedulingToleration := mkSchedulingToleration {
  stl_Key : string;
  stl_Operator : string;
  stl_Value : string;
  stl_Effect : string;
  stl_TolerationSeconds : option Z
}.

Record SchedulingNodeSelectorRequirement := mkSchedulingNodeSelectorRequirement {
  snr_Key : string;
  snr_Operator : string;
  snr_Values : list string
}.

Record SchedulingNodeSelectorTerm := mkSchedulingNodeSelectorTerm {
  snt_Weight : Z;
  snt_MatchExpressions : list SchedulingNodeSelectorRequirement;
  snt_MatchFields : list SchedulingNodeSelectorRequirement
}.

Record SchedulingEvidence := mkSchedulingEvidence {
  se_ID : string;
  se_PodUID : string;
  se_Namespace : string;
  se_Name : string;
  se_Source : string;
  se_Phase : string;
  se_NodeName : string;
  se_PodScheduledStatus : string;
  se_PodScheduledReason : string;
  se_PodScheduledMessage : string;
  se_SchedulingGates : list string;
  se_ResourceRequests : SchedulingResourceRequirements;
  se_ContainerResources : list SchedulingContainerResources;
  se_InitRequests : list SchedulingResourceRequirements;
  se_InitContainerResources : list SchedulingContainerResources;
  se_NodeSelector : gmap string string;
  se_NodeAffinityRequired : list SchedulingNodeSelectorTerm;
  se_NodeAffinityPreferred : list SchedulingNodeSelectorTerm;
  se_Tolerations : list SchedulingToleration;
  se_Events : list SchedulingEvent;
  se_Coverage : string;
  se_CoverageReason : string;
  se_IncidentStart : time;
  se_IncidentEnd : time;
  se_CollectedAt : time;
  se_Truncated : bool;
  se_Stale : bool
}.

Definition with_scheduling_events (e : SchedulingEvidence) (events : list SchedulingEvent) : SchedulingEvidence :=
  mkSchedulingEvidence (se_ID e) (se_PodUID e) (se_Namespace e) (se_Name e) (se_Source e) (se_Phase e)
    (se_NodeName e) (se_PodScheduledStatus e) (se_PodScheduledReason e) (se_PodScheduledMessage e)
    (se_SchedulingGates e) (se_ResourceRequests e) (se_ContainerResources e) (se_InitRequests e)
    (se_InitContainerResources e) (se_NodeSelector e) (se_NodeAffinityRequired e)
    (se_NodeAffinityPreferred e) (se_Tolerations e) events (se_Coverage e) (se_CoverageReason e)
    (se_IncidentStart e) (se_IncidentEnd e) (se_CollectedAt e) (se_Truncated e) (se_Stale e).

(** ** diagnostic types *)

Definition StatusSupported : string := "Supported".
Definition StatusConfirmed : string := "Confirmed".
Definition StatusRefuted : string := "Refuted".
Definition StatusInconclusive : string := "Inconclusive".
Definition StatusNotApplicable : string := "NotApplicable".
Definition StatusCollectionFail : string := "CollectionFailed".

Definition ClaimObservation : string := "Observation".
Definition ClaimFailureMechanism : string := "FailureMechanism".
Definition ClaimRootCause : string := "RootCause".

Record Requirement := mkRequirement {
  req_ID : string;
  req_Capability : string;
  req_Description : string;
  req_Required : bool
}.

Record CandidateClaim := mkCandidateClaim {
  cc_ID : string;
  cc_Type : string;
  cc_Statement : string;
  cc_TargetUID : string;
  cc_EvidenceRefs : list string
}.

Record SchedulingObservation := mkSchedulingObservation {
  so_ID : string;
  so_PodUID : string;
  so_PodNamespace : string;
  so_PodName : string;
  so_Source : string;
  so_EventPodUID : string;
  so_Phase : string;
  so_NodeName : string;
  so_PodScheduledStatus : string;
  so_PodScheduledReason : string;
  so_PodScheduledMessage : string;
  so_SchedulingGates : list string;
  so_EventReason : string;
  so_EventMessage : string;
  so_EvidenceRefs : list string;
  so_CollectedAt : time;
  so_IncidentStart : time;
  so_IncidentEnd : time;
  so_Coverage : string;
  so_CoverageReason : string;
  so_StateCollected : bool;
  so_Truncated : bool;
  so_Stale : bool
}.

Definition with_scheduling_refs (o : SchedulingObservation) (refs : list string) : SchedulingObservation :=
  mkSchedulingObservation (so_ID o) (so_PodUID o) (so_PodNamespace o) (so_PodName o) (so_Source o)
    (so_EventPodUID o) (so_Phase o) (so_NodeName o) (so_PodScheduledStatus o) (so_PodScheduledReason o)
    (so_PodScheduledMessage o) (so_SchedulingGates o) (so_EventReason o) (so_EventMessage o) refs
    (so_CollectedAt o) (so_IncidentStart o) (so_IncidentEnd o) (so_Coverage o) (so_CoverageReason o)
    (so_StateCollected o) (so_Truncated o) (so_Stale o).

Record EvidenceSet := mkEvidenceSet {
  es_Observations : list Observation;
  es_EvidenceRefs : list EvidenceRef;
  es_Scheduling : list SchedulingObservation;
  es_Scope : ScopeResult;
  es_IncidentStart : time;
  es_IncidentEnd : time
}.

Record MatchResult := mkMatchResult { mr_Applicable : bool; mr_Reason : string }.

(** diagnostic.Result. *)
Record DiagnosticResult := mkDiagnosticResult {
  dr_DiagnosticID : string;
  dr_DiagnosticVersion : string;
  dr_Status : string;
  dr_Summary : string;
  dr_Claims : list CandidateClaim;
  dr_MissingRequirements : list Requirement;
  dr_Warnings : list string
}.

(** The interface [diagnostic.Diagnostic]. *)
Record Diagnostic := mkDiagnostic {
  diag_ID : string;
  diag_Version : string;
  diag_Match : EvidenceSet -> MatchResult;
  diag_Requirements : EvidenceSet -> list Requirement;
  diag_Evaluate : EvidenceSet -> DiagnosticResult
}.

(** ** Samples, for examples *)

Definition sample_event (id reason message : string) : Observation :=
  mkObservation id "v1" "events" "event" "" (mkTimeRange 0 0) ObservationTypeEvent
    (mkObservationValue None None (Some (mkEventObservation reason message)) None None None None)
    "" "" "" "" "" None false "" "" 0 0 0 0 0 1 [].

Definition sample_ref (id kind summary : string) : EvidenceRef :=
  mkEvidenceRef id kind "" summary "" "" "" "" "" "" None false "" "" 0 0 0 0 0 None None "" "" [].

Definition single_pod_scope : ScopeResult :=
  mkScopeResult zeroScopeRef [] [mkScopeRef "v1" "Pod" "prod" "web-0" "pod-1"] [] true.
