(* ===== verification/Diagnostic.v ===== *)
(** * Diagnostics (internal/diagnostic)

    The three built-in diagnostics and the planner that selects and evaluates
    them.  A diagnostic turns normalised evidence into candidate claims; it reads
    nothing and decides nothing beyond its result. *)

From Stdlib Require Import ZArith Lia Sorting.Sorted.
From stdpp Require Import base list strings gmap.
From S2P Require Import Prelude GoStrings Utf8 Api Scope DataClassification Observation.

Section Diagnostics.
Context {U : UnicodeTables}.

(** The UID of the single Pod of a complete scope ([servicePortTargetUID],
    [imagePullTargetUID]). *)
Definition targetUID (evidence : EvidenceSet) : string :=
  if negb (sr_Complete (es_Scope evidence)) then ""
  else match sr_Pods (es_Scope evidence) with
       | [pod] => trim_space (sref_UID pod)
       | _ => ""
       end.

Definition newResult (id version : string) : DiagnosticResult :=
  mkDiagnosticResult id version StatusInconclusive "" [] [] [].
Definition with_result (r : DiagnosticResult) (status summary : string) : DiagnosticResult :=
  mkDiagnosticResult (dr_DiagnosticID r) (dr_DiagnosticVersion r) status summary (dr_Claims r)
    (dr_MissingRequirements r) (dr_Warnings r).
Definition add_claims (r : DiagnosticResult) (claims : list CandidateClaim) : DiagnosticResult :=
  mkDiagnosticResult (dr_DiagnosticID r) (dr_DiagnosticVersion r) (dr_Status r) (dr_Summary r)
    (dr_Claims r ++ claims) (dr_MissingRequirements r) (dr_Warnings r).
Definition add_missing (r : DiagnosticResult) (q : Requirement) : DiagnosticResult :=
  mkDiagnosticResult (dr_DiagnosticID r) (dr_DiagnosticVersion r) (dr_Status r) (dr_Summary r)
    (dr_Claims r) (dr_MissingRequirements r ++ [q]) (dr_Warnings r).
Definition add_warning (r : DiagnosticResult) (w : string) : DiagnosticResult :=
  mkDiagnosticResult (dr_DiagnosticID r) (dr_DiagnosticVersion r) (dr_Status r) (dr_Summary r)
    (dr_Claims r) (dr_MissingRequirements r) (dr_Warnings r ++ [w]).

(** ** serviceport.go *)

Definition servicePortDiagnosticID : string := "service-port".
Definition servicePortDiagnosticVersion : string := "v1".

(** The elements of the set [ids], with repetitions. *)
Definition servicePortObservationID (o : Observation) : option string :=
  match ov_ServiceConfiguration (ob_Value o) with
  | None => None
  | Some config =>
      if ob_Type o != ObservationTypeServiceConfiguration then None
      else if negb (sco_MismatchConfirmed config) || (trim_space (ob_ID o) == "") then None
      else Some (trim_space (ob_ID o))
  end.

Definition servicePortRefID (ref : EvidenceRef) : option string :=
  if equal_fold (trim_space (er_Kind ref)) "serviceConfiguration"
     && equal_fold (trim_space (er_Reason ref)) "ServicePortMismatch" && (trim_space (er_ID ref) != "")
  then Some (trim_space (er_ID ref)) else None.

Definition servicePortEvidenceIDs (evidence : EvidenceSet) : list string :=
  sorted_set (omap servicePortObservationID (es_Observations evidence)
              ++ omap servicePortRefID (es_EvidenceRefs evidence)).

Definition servicePortRequirements : list Requirement :=
  [mkRequirement "service-port-mismatch-evidence" QueryTypeServiceConfiguration
     "confirmed Service targetPort and resolved workload/container port evidence" true].

Definition servicePortMatch (evidence : EvidenceSet) : MatchResult :=
  match servicePortEvidenceIDs evidence with
  | [] => mkMatchResult false "no confirmed service-port mismatch evidence"
  | _ =>
      if targetUID evidence == "" then
        mkMatchResult false "service-port evidence has no single validated Pod scope"
      else mkMatchResult true "service-port mismatch evidence is present"
  end.

Definition servicePortEvaluate (evidence : EvidenceSet) : DiagnosticResult :=
  let result := newResult servicePortDiagnosticID servicePortDiagnosticVersion in
  match servicePortEvidenceIDs evidence with
  | [] =>
      fold_left add_missing (take 1 servicePortRequirements)
        (with_result result StatusNotApplicable
           "ServicePortDiagnostic did not find confirmed service-port mismatch evidence.")
  | ids =>
      if targetUID evidence == "" then
        add_warning
          (with_result result StatusInconclusive
             "Service-port mismatch evidence is not scoped to one validated Pod.")
          "a shared service configuration cannot be assigned to one Pod without a validated single-Pod scope"
      else
        with_result
          (add_claims result
             [mkCandidateClaim "service-port-mismatch" ClaimRootCause
                "ServicePortMismatch is confirmed by Kubernetes Service targetPort and resolved workload/container port evidence."
                (targetUID evidence) ids])
          StatusSupported
          "Service-port configuration evidence matched a bounded targetPort/container-port mismatch; final verification remains separate."
  end.

Definition ServicePortDiagnostic : Diagnostic :=
  mkDiagnostic servicePortDiagnosticID servicePortDiagnosticVersion servicePortMatch
    (fun _ => servicePortRequirements) servicePortEvaluate.

(** ** imagepull.go *)

Definition imagePullDiagnosticID : string := "image-pull".
Definition imagePullDiagnosticVersion : string := "v1".

Definition eventReason (o : Observation) : string :=
  match ov_Event (ob_Value o) with Some e => eo_Reason e | None => "" end.
Definition eventMessage (o : Observation) : string :=
  match ov_Event (ob_Value o) with Some e => eo_Message e | None => "" end.

Definition isImagePullReason (reason : string) : bool :=
  let r := to_lower (trim_space reason) in (r == "errimagepull") || (r == "imagepullbackoff").

Definition isImagePullEvidence (reason summary : string) : bool :=
  if isImagePullReason reason then true
  else contains_any (to_lower (trim_space (reason +:+ " " +:+ summary)))
         ["errimagepull"; "imagepullbackoff"; "failed to pull image"; "pull access denied";
          "failed to resolve reference"; "image pull failed"].

Definition imagePullDetailKinds (summary reason : string) : list string :=
  let text := to_lower (trim_space (summary +:+ " " +:+ reason)) in
  if contains_any text ["manifest unknown"; "image not found"; "not found"; "repository does not exist"]
  then ["manifest-missing"]
  else if contains_any text ["unauthorized"; "authentication required"; "pull access denied"; "denied"]
  then ["registry-auth"]
  else if contains_any text ["no such host"; "name resolution"; "dns"; "timeout"; "connection refused";
                             "network is unreachable"]
  then ["registry-network"]
  else [].

Definition imagePullCauseStatement (kind : string) : string :=
  if kind == "manifest-missing" then
    "The registry reported that the requested image manifest could not be found."
  else if kind == "registry-auth" then "The registry rejected access to the requested image."
  else if kind == "registry-network" then
    "Image retrieval encountered a registry or name-resolution failure."
  else "The image-pull failure has a specific provider detail.".

Definition imagePullObservationID (o : Observation) : option string :=
  if (ob_Type o != ObservationTypeEvent)
     || negb (isImagePullEvidence (eventReason o) (eventMessage o +:+ " " +:+ ob_Summary o)) then None
  else if ob_ID o != "" then Some (ob_ID o) else None.

Definition imagePullRefID (ref : EvidenceRef) : option string :=
  if equal_fold (trim_space (er_Kind ref)) "event" && isImagePullEvidence (er_Reason ref) (er_Summary ref)
     && (er_ID ref != "")
  then Some (er_ID ref) else None.

Definition imagePullEvidenceIDs (evidence : EvidenceSet) : list string :=
  sorted_set (omap imagePullObservationID (es_Observations evidence)
              ++ omap imagePullRefID (es_EvidenceRefs evidence)).

Definition imagePullEventRequirement : Requirement :=
  mkRequirement "image-pull-event" QueryTypeEvent
    "a target-scoped image-pull failure Event (for example ErrImagePull or ImagePullBackOff)" true.
Definition imagePullCauseRequirement : Requirement :=
  mkRequirement "image-pull-cause-detail" QueryTypeEvent
    "untruncated Event detail for a specific image-pull failure mechanism" false.

Definition imagePullMatch (evidence : EvidenceSet) : MatchResult :=
  if (sref_UID (sr_Deployment (es_Scope evidence)) != "") && sr_Complete (es_Scope evidence)
     && bool_decide (sr_Pods (es_Scope evidence) = []) then
    mkMatchResult false "validated Deployment scope has no Pods"
  else
    match imagePullEvidenceIDs evidence with
    | [] => mkMatchResult false "no image-pull failure evidence"
    | _ => mkMatchResult true "image-pull evidence is present"
    end.

(** The detail kinds named by the selected evidence, and whether any of it was
    truncated: the two loops over [containsString(ids, ...)]. *)
Definition selectedObservations (ids : list string) (evidence : EvidenceSet) : list Observation :=
  List.filter (fun o => mem_str (ob_ID o) ids) (es_Observations evidence).
Definition selectedRefs (ids : list string) (evidence : EvidenceSet) : list EvidenceRef :=
  List.filter (fun r => mem_str (er_ID r) ids) (es_EvidenceRefs evidence).

Definition imagePullDetails (ids : list string) (evidence : EvidenceSet) : list string :=
  sorted_set
    (flat_map (fun o => imagePullDetailKinds (eventMessage o +:+ " " +:+ ob_Summary o) (eventReason o))
       (selectedObservations ids evidence)
     ++ flat_map (fun r => imagePullDetailKinds (er_Summary r) (er_Reason r)) (selectedRefs ids evidence)).
Definition imagePullTruncated (ids : list string) (evidence : EvidenceSet) : bool :=
  existsb ob_Truncated (selectedObservations ids evidence)
  || existsb er_Truncated (selectedRefs ids evidence).

Definition imagePullCause (uid : string) (ids : list string) (kind : string) : CandidateClaim :=
  mkCandidateClaim ("image-pull-cause-" +:+ kind) ClaimRootCause (imagePullCauseStatement kind) uid ids.

Definition imagePullEvaluate (evidence : EvidenceSet) : DiagnosticResult :=
  let result := newResult imagePullDiagnosticID imagePullDiagnosticVersion in
  match imagePullEvidenceIDs evidence with
  | [] =>
      add_missing
        (with_result result StatusNotApplicable
           "ImagePullDiagnostic did not find target-scoped image-pull failure evidence.")
        imagePullEventRequirement
  | ids =>
      let uid := targetUID evidence in
      let result := add_claims result
        [mkCandidateClaim "image-pull-observed" ClaimObservation
           "A target container is waiting because Kubernetes reported an image-pull failure." uid ids;
         mkCandidateClaim "image-pull-failure" ClaimFailureMechanism
           "The target container could not retrieve its configured image." uid ids] in
      let details := imagePullDetails ids evidence in
      let truncated := imagePullTruncated ids evidence in
      let result :=
        if truncated then
          add_missing
            (add_warning result "image-pull evidence was truncated; specific failure verification is incomplete")
            imagePullCauseRequirement
        else result in
      let result :=
        match details with
        | [] =>
            add_warning (add_missing result imagePullCauseRequirement)
              "the image-pull event does not contain a specific failure detail"
        | _ => if truncated then result else add_claims result (map (imagePullCause uid ids) details)
        end in
      with_result result (if truncated then StatusInconclusive else StatusSupported)
        ("Image-pull failure evidence matched " +:+ itoa (Z.of_nat (length ids))
         +:+ " bounded observation(s); causal verification remains separate.")
  end.

Definition ImagePullDiagnostic : Diagnostic :=
  mkDiagnostic imagePullDiagnosticID imagePullDiagnosticVersion imagePullMatch
    (fun _ => [imagePullEventRequirement; imagePullCauseRequirement]) imagePullEvaluate.

(** ** scheduling.go *)

Definition schedulingDiagnosticID : string := "scheduling".
Definition schedulingDiagnosticVersion : string := "v1".

Definition schedulingStateRequirement : Requirement :=
  mkRequirement "scheduling-pod-state" "" "target-scoped Pod scheduling state with a Pod UID" true.
Definition schedulingFailureRequirement : Requirement :=
  mkRequirement "scheduling-failure-evidence" QueryTypeEvent
    "correlated PodScheduled or FailedScheduling evidence" false.

Definition firstNonEmptyScheduling (values : list string) : string :=
  match first_non_blank values with Some v => v | None => "unknown" end.

Definition eventMatchesPod (o : SchedulingObservation) : bool :=
  if (trim_space (so_EventReason o) == "") && (trim_space (so_EventMessage o) == "") then false
  else if (so_EventPodUID o != "") && (so_EventPodUID o != so_PodUID o) then false
  else negb (so_Stale o) && negb (so_Truncated o).

Definition schedulingEvidenceRefs (o : SchedulingObservation) : list string :=
  let refs := match so_EvidenceRefs o with
              | [] => if so_ID o != "" then [so_ID o] else []
              | refs => refs
              end in
  sorted_set (filter (fun r => r <> "") (map trim_space refs)).

Definition schedulingCandidate (cause podUID statement : string) (refs : list string) : CandidateClaim :=
  mkCandidateClaim ("scheduling-cause-" +:+ cause +:+ "/" +:+ podUID) ClaimRootCause statement podUID refs.

Definition schedulingCandidates (podUID text : string) (refs : list string) : list CandidateClaim :=
  let text := to_lower text in
  (if contains_any text ["insufficient cpu"; "insufficient vcpu"]
   then [schedulingCandidate "insufficient-cpu" podUID
           "The scheduler reported insufficient CPU for the Pod." refs] else [])
  ++ (if contains_any text ["insufficient memory"]
      then [schedulingCandidate "insufficient-memory" podUID
              "The scheduler reported insufficient memory for the Pod." refs] else [])
  ++ (if contains text "taint" && contains text "tolerat"
      then [schedulingCandidate "taint-mismatch" podUID
              "The scheduler reported an untolerated Node taint for the Pod." refs] else [])
  ++ (if contains_any text ["node selector"; "node affinity"; "affinity mismatch"; "didn't match node"]
      then [schedulingCandidate "node-affinity-mismatch" podUID
              "The scheduler reported a Node selector or affinity mismatch for the Pod." refs] else []).

(** [claimKeys] is the set of the IDs of the claims appended so far. *)
Definition appendSchedulingClaim (claims : list CandidateClaim) (claim : CandidateClaim)
    : list CandidateClaim :=
  if cc_ID claim == "" then claims
  else if mem_str (cc_ID claim) (map cc_ID claims) then claims
  else claims ++ [claim].

(** The variables of the loop. *)
Record schedulingState := mkSchedulingState {
  ss_claims : list CandidateClaim;
  ss_warnings : list string;
  ss_validState : bool;
  ss_observedFailure : bool;
  ss_observedGate : bool;
  ss_observedUnassigned : bool;
  ss_assignedPod : bool
}.

Definition ss_warn (s : schedulingState) (w : string) : schedulingState :=
  mkSchedulingState (ss_claims s) (ss_warnings s ++ [w]) (ss_validState s) (ss_observedFailure s)
    (ss_observedGate s) (ss_observedUnassigned s) (ss_assignedPod s).

Definition conditionUnschedulable (o : SchedulingObservation) (conditionText : string) : bool :=
  equal_fold (trim_space (so_PodScheduledStatus o)) "False" && contains_any conditionText ["unschedulable"].
Definition eventUnschedulable (eventText : string) : bool :=
  contains_any eventText ["failedscheduling"; "failed scheduling"].

Definition unassignedClaim (podUID : string) (refs : list string) : CandidateClaim :=
  mkCandidateClaim ("scheduling-observation-unassigned/" +:+ podUID) ClaimObservation
    "The Pod has not been assigned to a Node." podUID refs.
Definition gatedClaim (podUID : string) (refs : list string) : CandidateClaim :=
  mkCandidateClaim ("scheduling-mechanism-gated/" +:+ podUID) ClaimFailureMechanism
    "The Pod is blocked by an active scheduling gate." podUID refs.
Definition unschedulableClaim (podUID : string) (refs : list string) : CandidateClaim :=
  mkCandidateClaim ("scheduling-mechanism-unschedulable/" +:+ podUID) ClaimFailureMechanism
    "The scheduler reported that the Pod could not be scheduled." podUID refs.

(** A current, collected, authorised observation of the Pod [podUID]. *)
Definition schedulingUsable (s : schedulingState) (o : SchedulingObservation) (podUID : string)
    : schedulingState :=
  let refs := schedulingEvidenceRefs o in
  let unassigned := trim_space (so_NodeName o) == "" in
  let s := mkSchedulingState
             (if unassigned then appendSchedulingClaim (ss_claims s) (unassignedClaim podUID refs)
              else ss_claims s)
             (ss_warnings s) true (ss_observedFailure s) (ss_observedGate s)
             (ss_observedUnassigned s || unassigned) (ss_assignedPod s || negb unassigned) in
  if so_Truncated o then
    ss_warn s ("scheduling evidence for Pod UID " +:+ quote podUID +:+ " was truncated")
  else
    let gated := negb (bool_decide (so_SchedulingGates o = [])) in
    let claims := if gated then appendSchedulingClaim (ss_claims s) (gatedClaim podUID refs)
                  else ss_claims s in
    let eventText := if eventMatchesPod o
                     then to_lower (join " " [so_EventReason o; so_EventMessage o]) else "" in
    let conditionText := to_lower (join " " [so_PodScheduledStatus o; so_PodScheduledReason o;
                                             so_PodScheduledMessage o]) in
    let failed := conditionUnschedulable o conditionText || eventUnschedulable eventText in
    mkSchedulingState
      (if failed then
         fold_left appendSchedulingClaim
           (unschedulableClaim podUID refs
              :: schedulingCandidates podUID (eventText +:+ " " +:+ conditionText) refs) claims
       else claims)
      (ss_warnings s) (ss_validState s) (ss_observedFailure s || failed) (ss_observedGate s || gated)
      (ss_observedUnassigned s) (ss_assignedPod s).

Definition schedulingStep (s : schedulingState) (o : SchedulingObservation) : schedulingState :=
  let podUID := trim_space (so_PodUID o) in
  if podUID == "" then ss_warn s "scheduling evidence is missing a Pod UID"
  else if so_Stale o then
    ss_warn s ("scheduling evidence for Pod UID " +:+ quote podUID +:+ " is stale")
  else if (so_Coverage o == SchedulingCoverageUnauthorized) || (so_Coverage o == SchedulingCoverageUnavailable)
          || (so_Coverage o == SchedulingCoverageCollectionFailed) then
    ss_warn s ("scheduling evidence for Pod UID " +:+ quote podUID +:+ " is unavailable: "
               +:+ firstNonEmptyScheduling [so_CoverageReason o; so_Coverage o])
  else if negb (so_StateCollected o || (so_Coverage o != SchedulingCoverageTruncated)) then
    ss_warn s ("scheduling state for Pod UID " +:+ quote podUID +:+ " was not collected: "
               +:+ firstNonEmptyScheduling [so_CoverageReason o; "state unavailable"])
  else schedulingUsable s o podUID.

Definition claimPriority (claimType : string) : Z :=
  if claimType == ClaimObservation then 0
  else if claimType == ClaimFailureMechanism then 1
  else if claimType == ClaimRootCause then 2 else 3.

Definition schedulingClaimLess (a b : CandidateClaim) : bool :=
  if negb (claimPriority (cc_Type a) =? claimPriority (cc_Type b))
  then claimPriority (cc_Type a) <? claimPriority (cc_Type b)
  else if cc_TargetUID a != cc_TargetUID b then str_ltb (cc_TargetUID a) (cc_TargetUID b)
  else str_ltb (cc_ID a) (cc_ID b).

Definition sortSchedulingClaims : list CandidateClaim -> list CandidateClaim := sort_stable schedulingClaimLess.

Definition schedulingStart : schedulingState := mkSchedulingState [] [] false false false false false.

(** The status and missing requirements after the loop. *)
Definition schedulingVerdict (s : schedulingState) : string * list Requirement :=
  if ss_observedFailure s || ss_observedGate s then (StatusSupported, [])
  else if negb (ss_validState s) || ss_observedUnassigned s || negb (ss_assignedPod s) then
    (StatusInconclusive, [schedulingFailureRequirement])
  else (StatusNotApplicable, []).

Definition schedulingEvaluate (evidence : EvidenceSet) : DiagnosticResult :=
  let result := newResult schedulingDiagnosticID schedulingDiagnosticVersion in
  match es_Scheduling evidence with
  | [] =>
      add_missing
        (with_result result StatusNotApplicable
           "SchedulingDiagnostic did not find normalized Pod scheduling evidence.")
        schedulingStateRequirement
  | observations =>
      let s := fold_left schedulingStep observations schedulingStart in
      let '(status, missing) := schedulingVerdict s in
      let s := if negb (ss_observedFailure s) && ss_observedUnassigned s && negb (ss_observedGate s)
               then ss_warn s "Pod is unassigned but no scheduling failure evidence was collected" else s in
      let missing := if (status == StatusInconclusive) && bool_decide (missing = [])
                     then [schedulingFailureRequirement] else missing in
      mkDiagnosticResult schedulingDiagnosticID schedulingDiagnosticVersion status
        ("Scheduling evidence evaluated for " +:+ itoa (Z.of_nat (length observations))
         +:+ " normalized Pod record(s); causal verification remains separate.")
        (sortSchedulingClaims (ss_claims s)) missing (sort_strings (ss_warnings s))
  end.

Definition schedulingMatch (evidence : EvidenceSet) : MatchResult :=
  match es_Scheduling evidence with
  | [] => mkMatchResult false "no normalized scheduling evidence"
  | _ => mkMatchResult true "normalized scheduling evidence is present"
  end.

Definition SchedulingDiagnostic : Diagnostic :=
  mkDiagnostic schedulingDiagnosticID schedulingDiagnosticVersion schedulingMatch
    (fun _ => [schedulingStateRequirement; schedulingFailureRequirement]) schedulingEvaluate.

(** ** planner.go *)

Definition diagnosticKey (d : Diagnostic) : string := diag_ID d +:+ "@" +:+ diag_Version d.

(** The registration loop: nil candidates and repeated keys are skipped. *)
Fixpoint register (seen : list string) (diagnostics : list (option Diagnostic)) : list Diagnostic :=
  match diagnostics with
  | [] => []
  | None :: rest => register seen rest
  | Some d :: rest =>
      if mem_str (diagnosticKey d) seen then register seen rest
      else d :: register (diagnosticKey d :: seen) rest
  end.

Definition diagnosticLess (a b : Diagnostic) : bool :=
  if diag_ID a != diag_ID b then str_ltb (diag_ID a) (diag_ID b)
  else str_ltb (diag_Version a) (diag_Version b).

Definition NewPlanner (diagnostics : list (option Diagnostic)) : list Diagnostic :=
  sort_stable diagnosticLess (register [] diagnostics).

Definition DefaultPlanner : list Diagnostic :=
  NewPlanner [Some ImagePullDiagnostic; Some SchedulingDiagnostic; Some ServicePortDiagnostic].

(** A nil planner has no candidates. *)
Definition Candidates (p : option (list Diagnostic)) (evidence : EvidenceSet) : list Diagnostic :=
  match p with
  | None => []
  | Some diagnostics => List.filter (fun d => mr_Applicable (diag_Match d evidence)) diagnostics
  end.

Definition plannerEvaluate (p : option (list Diagnostic)) (evidence : EvidenceSet) : list DiagnosticResult :=
  map (fun d => diag_Evaluate d evidence) (Candidates p evidence).
End Diagnostics.

(** ** Lemmas *)

Section DiagnosticLemmas.
Context {U : UnicodeTables}.

(** An observation the scheduling diagnostic may draw claims from. *)
Definition usableObservation (o : SchedulingObservation) : Prop :=
  trim_space (so_PodUID o) <> "" /\ so_Stale o = false /\
  so_Coverage o ∉ [SchedulingCoverageUnauthorized; SchedulingCoverageUnavailable;
                   SchedulingCoverageCollectionFailed].

(** The scheduler's own word that the Pod could not be placed: its PodScheduled
    condition, or an event correlated with the Pod. *)
Definition reportedUnschedulable (o : SchedulingObservation) : Prop :=
  conditionUnschedulable o (to_lower (join " " [so_PodScheduledStatus o; so_PodScheduledReason o;
                                                so_PodScheduledMessage o])) = true \/
  eventMatchesPod o = true /\
    eventUnschedulable (to_lower (join " " [so_EventReason o; so_EventMessage o])) = true.

Definition claim_grounded (o : SchedulingObservation) (c : CandidateClaim) : Prop :=
  cc_TargetUID c = trim_space (so_PodUID o) /\ cc_EvidenceRefs c = schedulingEvidenceRefs o /\
  (cc_Type c = ClaimObservation -> trim_space (so_NodeName o) = "") /\
  (cc_Type c = ClaimFailureMechanism \/ cc_Type c = ClaimRootCause -> so_Truncated o = false) /\
  (cc_Type c = ClaimRootCause -> reportedUnschedulable o).

Definition claims_ok (l : list SchedulingObservation) (claims : list CandidateClaim) : Prop :=
  NoDup (map cc_ID claims) /\
  forall c, c ∈ claims -> exists o, o ∈ l /\ usableObservation o /\ claim_grounded o c.

Lemma append_ok l claims o c :
  claims_ok l claims -> o ∈ l -> usableObservation o -> claim_grounded o c ->
  claims_ok l (appendSchedulingClaim claims c).
Proof.
  intros [Hnd Hg] Ho Hu Hc. unfold appendSchedulingClaim.
  destruct (_ == ""); [done|]. destruct (mem_str _ _) eqn:Hm; [done|]. apply mem_str_false in Hm.
  split.
  - rewrite map_app. apply NoDup_app. split_and!; [done| |apply NoDup_singleton].
    intros x Hx ->%list_elem_of_singleton. done.
  - intros c' [Hin| ->%list_elem_of_singleton]%elem_of_app; [by apply Hg|eauto].
Qed.

Lemma appends_ok l o cs claims :
  (forall c, c ∈ cs -> claim_grounded o c) -> claims_ok l claims -> o ∈ l -> usableObservation o ->
  claims_ok l (fold_left appendSchedulingClaim cs claims).
Proof.
  intros Hcs H Ho Hu. revert claims H. induction cs as [|c cs IH]; intros claims H; [done|]. simpl.
  apply IH; [intros; apply Hcs; by right|]. apply (append_ok l claims o c); [done..|]. apply Hcs. left.
Qed.

Lemma schedulingCandidates_spec podUID text refs c :
  c ∈ schedulingCandidates podUID text refs ->
  cc_TargetUID c = podUID /\ cc_EvidenceRefs c = refs /\ cc_Type c = ClaimRootCause.
Proof.
  unfold schedulingCandidates. rewrite !elem_of_app.
  intros [H|[H|[H|H]]]; (destruct (contains_any _ _) in H || destruct (_ && _)%bool in H);
    (apply list_elem_of_singleton in H as -> || apply not_elem_of_nil in H); done.
Qed.

Lemma schedulingUsable_ok l s o :
  claims_ok l (ss_claims s) -> o ∈ l -> usableObservation o ->
  claims_ok l (ss_claims (schedulingUsable s o (trim_space (so_PodUID o)))).
Proof.
  intros H Ho Hu. unfold schedulingUsable. cbn zeta. cbn [ss_claims].
  set (claims1 := if trim_space (so_NodeName o) == "" then _ else _).
  assert (H1 : claims_ok l claims1).
  { unfold claims1. destruct (_ == "") eqn:Hn; [|done]. apply (append_ok l _ o); [done..|].
    go_bool. split_and!; [done|done|done|by intros [?|?]|done]. }
  destruct (so_Truncated o) eqn:Ht; [done|]. cbn [ss_claims].
  set (claims2 := if negb _ then _ else _).
  assert (H2 : claims_ok l claims2).
  { unfold claims2. destruct (negb _); [|done]. apply (append_ok l _ o); [done..|]. by split_and!. }
  destruct (_ || _)%bool eqn:Hf; [|done]. apply (appends_ok l o); [|done..].
  assert (Hr : reportedUnschedulable o).
  { unfold reportedUnschedulable. apply orb_true_iff in Hf as [Hf|Hf]; [by left|].
    destruct (eventMatchesPod o); [by right|]. by vm_compute in Hf. }
  intros c [->|Hc]%elem_of_cons; [by split_and!|].
  apply schedulingCandidates_spec in Hc as (H3 & H4 & H5). by split_and!; rewrite ?H5.
Qed.

Lemma schedulingStep_ok l s o :
  claims_ok l (ss_claims s) -> o ∈ l -> claims_ok l (ss_claims (schedulingStep s o)).
Proof.
  intros H Ho. unfold schedulingStep. destruct (_ == "") eqn:E1; [done|]. destruct (so_Stale o) eqn:E2; [done|].
  destruct (_ || _)%bool eqn:E3; [done|]. destruct (negb _); [done|]. apply schedulingUsable_ok; [done..|].
  go_bool. split_and!; [done..|]. rewrite !not_elem_of_cons. split_and!; [done..|]. apply not_elem_of_nil.
Qed.

Lemma scheduling_fold_ok l l' s :
  (forall o, o ∈ l' -> o ∈ l) -> claims_ok l (ss_claims s) ->
  claims_ok l (ss_claims (fold_left schedulingStep l' s)).
Proof.
  revert s. induction l' as [|o l' IH]; intros s Hl H; [done|]. simpl. apply IH.
  - intros x Hx. apply Hl. by right.
  - apply schedulingStep_ok; [done|]. apply Hl. left.
Qed.

Lemma ss_warn_claims s w : ss_claims (ss_warn s w) = ss_claims s.
Proof. done. Qed.

Lemma claims_ok_perm l c1 c2 : c1 ≡ₚ c2 -> claims_ok l c1 -> claims_ok l c2.
Proof.
  intros Hp [Hn Hg]. split.
  - eapply NoDup_Permutation_proper; [apply Permutation_map; symmetry; exact Hp|done].
  - intros c Hc. apply Hg. by rewrite Hp.
Qed.

Lemma existsb_false {A} (P : A -> bool) (l : list A) : existsb P l = false -> forall x, x ∈ l -> P x = false.
Proof.
  intros H x Hx. destruct (P x) eqn:E; [|done]. rewrite <- H. symmetry. apply existsb_exists. exists x.
  by rewrite <- list_elem_of_In.
Qed.

Lemma targetUID_spec evidence :
  targetUID evidence <> "" -> sr_Complete (es_Scope evidence) = true /\
  exists pod, sr_Pods (es_Scope evidence) = [pod] /\ targetUID evidence = trim_space (sref_UID pod).
Proof.
  unfold targetUID. destruct (sr_Complete _); [|done]. cbn [negb].
  destruct (sr_Pods _) as [|pod [|]]; [done| |done]. eauto.
Qed.

Lemma imagePullIDs_spec evidence id :
  id ∈ imagePullEvidenceIDs evidence ->
  (exists o, o ∈ es_Observations evidence /\ ob_ID o = id /\ ob_Type o = ObservationTypeEvent /\
     isImagePullEvidence (eventReason o) (eventMessage o +:+ " " +:+ ob_Summary o) = true) \/
  (exists r, r ∈ es_EvidenceRefs evidence /\ er_ID r = id /\
     isImagePullEvidence (er_Reason r) (er_Summary r) = true).
Proof.
  unfold imagePullEvidenceIDs. rewrite sorted_set_elem, elem_of_app, !list_elem_of_omap.
  intros [(o & Ho & Hid)|(r & Hr & Hid)]; [left; exists o|right; exists r].
  - unfold imagePullObservationID in Hid. destruct (_ || _)%bool eqn:E; [done|].
    destruct (_ != "") in Hid; [|done]. injection Hid as <-. by go_bool.
  - unfold imagePullRefID in Hid. destruct (_ && _)%bool eqn:E; [|done]. injection Hid as <-. by go_bool.
Qed.

Lemma imagePullClaims_spec evidence c :
  c ∈ dr_Claims (imagePullEvaluate evidence) ->
  imagePullEvidenceIDs evidence <> [] /\ cc_EvidenceRefs c = imagePullEvidenceIDs evidence /\
  cc_TargetUID c = targetUID evidence /\
  (cc_Type c = ClaimRootCause ->
     imagePullTruncated (imagePullEvidenceIDs evidence) evidence = false /\
     exists kind, kind ∈ imagePullDetails (imagePullEvidenceIDs evidence) evidence /\
       cc_Statement c = imagePullCauseStatement kind /\ dr_Status (imagePullEvaluate evidence) = StatusSupported).
Proof.
  unfold imagePullEvaluate. destruct (imagePullEvidenceIDs evidence) as [|id ids]; [by intros ?%not_elem_of_nil|].
  set (eids := id :: ids). generalize (imagePullDetails eids evidence) as details. intros details.
  destruct (imagePullTruncated eids evidence); destruct details as [|k ks]; simpl;
    rewrite ?elem_of_cons, ?elem_of_nil; intros Hc;
    repeat (destruct Hc as [->|Hc]; [done|]); try done.
  rewrite <- elem_of_cons in Hc. change (c ∈ map (imagePullCause (targetUID evidence) eids) (k :: ks)) in Hc.
  apply list_elem_of_fmap in Hc as (kind & -> & Hk). split_and!; [done..|]. intros _. split; [done|].
  exists kind. by split_and!.
Qed.

(** *** The planner *)

#[export] Instance diagnosticLess_weak : StrictWeak diagnosticLess.
Proof. apply (lex_str diag_ID), (strict_weak_key diag_Version str_ltb). Qed.

Lemma diagnosticLess_same a b :
  diagnosticLess a b = false -> diagnosticLess b a = false -> diagnosticKey a = diagnosticKey b.
Proof.
  unfold diagnosticLess, diagnosticKey. rewrite (String.eqb_sym (diag_ID b)).
  destruct (diag_ID a == diag_ID b) eqn:E; cbn [negb]; intros H1 H2.
  - go_bool. rewrite E. f_equal. f_equal. by apply str_ltb_total.
  - pose proof (str_ltb_total _ _ H1 H2). go_bool. congruence.
Qed.

Lemma register_elem seen l d :
  d ∈ register seen l -> Some d ∈ l /\ diagnosticKey d ∉ seen.
Proof.
  revert seen. induction l as [|[x|] l IH]; intros seen; simpl; [by intros ?%not_elem_of_nil| |].
  - destruct (mem_str _ _) eqn:E.
    + intros [??]%IH. split; [by right|done].
    + apply mem_str_false in E. intros [->|[??]%IH]%elem_of_cons; [split; [left|done]|].
      split; [by right|]. intros ?. set_solver.
  - intros [??]%IH. split; [by right|done].
Qed.

Lemma register_NoDup seen l : NoDup (map diagnosticKey (register seen l)).
Proof.
  revert seen. induction l as [|[x|] l IH]; intros seen; simpl; [apply NoDup_nil_2| |apply IH].
  destruct (mem_str _ _); [apply IH|]. simpl. apply NoDup_cons. split; [|apply IH].
  intros (d & He & Hd)%list_elem_of_fmap. apply register_elem in Hd as [_ Hd]. apply Hd. rewrite He. left.
Qed.

Lemma register_complete seen l d :
  (forall a b, Some a ∈ l -> Some b ∈ l -> diagnosticKey a = diagnosticKey b -> a = b) ->
  Some d ∈ l -> diagnosticKey d ∉ seen -> d ∈ register seen l.
Proof.
  revert seen. induction l as [|[x|] l IH]; intros seen Hk Hd Hs; simpl.
  - by apply not_elem_of_nil in Hd.
  - assert (Hk' : forall a b, Some a ∈ l -> Some b ∈ l -> diagnosticKey a = diagnosticKey b -> a = b)
      by (intros a b ??; apply Hk; by right).
    apply elem_of_cons in Hd as [[= <-]|Hd].
    + apply mem_str_false in Hs. rewrite Hs. left.
    + destruct (mem_str _ _) eqn:E; [by apply IH|].
      destruct (decide (diagnosticKey d = diagnosticKey x)) as [He|He].
      * rewrite (Hk d x); [left|by right|left|done].
      * right. apply IH; [done|done|]. intros [?|?]%elem_of_cons; done.
  - apply IH; [|by apply elem_of_cons in Hd as [?|?]|done]. intros a b ??. apply Hk; by right.
Qed.

Lemma register_elem_all l d :
  (forall a b, Some a ∈ l -> Some b ∈ l -> diagnosticKey a = diagnosticKey b -> a = b) ->
  d ∈ register [] l <-> Some d ∈ l.
Proof.
  intros Hk. split; [by intros [? _]%register_elem|]. intros Hd.
  apply register_complete; [done..|apply not_elem_of_nil].
Qed.
End DiagnosticLemmas.

(** ** Properties *)

Section DiagnosticProperties.
Context {U : UnicodeTables}.

(** The scheduling diagnostic proposes each claim ID at most once, and every
    claim is drawn from one observation that has a Pod UID, is current and was
    collected with authorisation: it names that Pod and exactly that
    observation's evidence; an unassigned Pod is claimed only without a node
    name, a mechanism or cause only from untruncated evidence, and a root cause
    only where the scheduler itself reported that Pod unschedulable. *)
Theorem scheduling_claims_grounded (evidence : EvidenceSet) :
  let claims := dr_Claims (schedulingEvaluate evidence) in
  NoDup (map cc_ID claims) /\
  forall c, c ∈ claims -> exists o, o ∈ es_Scheduling evidence /\ usableObservation o /\ claim_grounded o c.
Proof.
  cbv zeta. change (claims_ok (es_Scheduling evidence) (dr_Claims (schedulingEvaluate evidence))).
  unfold schedulingEvaluate. destruct (es_Scheduling evidence) as [|o l] eqn:He.
  { split; [apply NoDup_nil_2|]. by intros c ?%not_elem_of_nil. }
  assert (H : claims_ok (o :: l) (ss_claims (fold_left schedulingStep (o :: l) schedulingStart))).
  { apply scheduling_fold_ok; [done|]. split; [apply NoDup_nil_2|]. by intros c ?%not_elem_of_nil. }
  revert H. generalize (fold_left schedulingStep (o :: l) schedulingStart) as s. intros s H.
  destruct (schedulingVerdict s) as [status missing]. cbn [dr_Claims]. unfold sortSchedulingClaims.
  apply (claims_ok_perm _ (ss_claims s)); [|done]. symmetry.
  destruct (_ && _)%bool; apply sort_stable_perm.
Qed.

(** The image-pull diagnostic proposes claims only from image-pull evidence
    and cites exactly that evidence; it proposes a root cause only when none of
    the cited evidence was truncated and some of it names that failure detail,
    and it never names a Pod other than the single Pod of a complete scope. *)
Theorem image_pull_claims_grounded (evidence : EvidenceSet) (c : CandidateClaim) :
  c ∈ dr_Claims (imagePullEvaluate evidence) ->
  cc_EvidenceRefs c = imagePullEvidenceIDs evidence /\ cc_EvidenceRefs c <> [] /\
  (forall id, id ∈ cc_EvidenceRefs c ->
     (exists o, o ∈ es_Observations evidence /\ ob_ID o = id /\ ob_Type o = ObservationTypeEvent /\
        isImagePullEvidence (eventReason o) (eventMessage o +:+ " " +:+ ob_Summary o) = true) \/
     (exists r, r ∈ es_EvidenceRefs evidence /\ er_ID r = id /\
        isImagePullEvidence (er_Reason r) (er_Summary r) = true)) /\
  (cc_Type c = ClaimRootCause ->
     dr_Status (imagePullEvaluate evidence) = StatusSupported /\
     (forall o, o ∈ es_Observations evidence -> ob_ID o ∈ cc_EvidenceRefs c -> ob_Truncated o = false) /\
     (forall r, r ∈ es_EvidenceRefs evidence -> er_ID r ∈ cc_EvidenceRefs c -> er_Truncated r = false) /\
     exists kind, kind ∈ imagePullDetails (cc_EvidenceRefs c) evidence /\
       cc_Statement c = imagePullCauseStatement kind) /\
  (cc_TargetUID c <> "" -> sr_Complete (es_Scope evidence) = true /\
     exists pod, sr_Pods (es_Scope evidence) = [pod] /\ cc_TargetUID c = trim_space (sref_UID pod)).
Proof.
  intros Hc.
  assert (Hids : forall id, id ∈ imagePullEvidenceIDs evidence ->
     (exists o, o ∈ es_Observations evidence /\ ob_ID o = id /\ ob_Type o = ObservationTypeEvent /\
        isImagePullEvidence (eventReason o) (eventMessage o +:+ " " +:+ ob_Summary o) = true) \/
     (exists r, r ∈ es_EvidenceRefs evidence /\ er_ID r = id /\
        isImagePullEvidence (er_Reason r) (er_Summary r) = true)) by apply imagePullIDs_spec.
  assert (Huid : targetUID evidence <> "" -> sr_Complete (es_Scope evidence) = true /\
     exists pod, sr_Pods (es_Scope evidence) = [pod] /\ targetUID evidence = trim_space (sref_UID pod))
    by apply targetUID_spec.
  apply imagePullClaims_spec in Hc as (Hne & H1 & H2 & H3).
  rewrite H1, H2. split_and!; [done|done|done| |done]. intros Hr. apply H3 in Hr as (Ht & kind & Hk & Hs & Hst).
  unfold imagePullTruncated in Ht. apply orb_false_iff in Ht as [Ht1 Ht2]. split_and!; [done| | |eauto].
  - intros o Ho Hi. apply (existsb_false _ _ Ht1). apply list_filter_elem. by rewrite mem_str_spec.
  - intros r Hr Hi. apply (existsb_false _ _ Ht2). apply list_filter_elem. by rewrite mem_str_spec.
Qed.

(** The planner does not depend on the order of registration: for
    diagnostics identified by their ID and version, every permutation of the
    registrations gives the same registry, in which each one occurs once, sorted
    by ID and version; so the results of an evaluation are the same, too. *)
Theorem planner_order_independent (l1 l2 : list (option Diagnostic)) (evidence : EvidenceSet) :
  l1 ≡ₚ l2 ->
  (forall a b, Some a ∈ l1 -> Some b ∈ l1 -> diagnosticKey a = diagnosticKey b -> a = b) ->
  NewPlanner l1 = NewPlanner l2 /\ NoDup (map diagnosticKey (NewPlanner l1)) /\
  (forall d, d ∈ NewPlanner l1 <-> Some d ∈ l1) /\
  plannerEvaluate (Some (NewPlanner l1)) evidence = plannerEvaluate (Some (NewPlanner l2)) evidence.
Proof.
  intros Hp Hkey.
  assert (Hin : forall d, d ∈ register [] l1 <-> Some d ∈ l1) by (intros d; by apply register_elem_all).
  assert (Heq : NewPlanner l1 = NewPlanner l2).
  { apply sort_stable_perm_eq; [apply _| |].
    - intros a b Ha%Hin Hb%Hin H1 H2. apply Hkey; [done..|]. by apply diagnosticLess_same.
    - apply NoDup_Permutation.
      + eapply NoDup_fmap_1, register_NoDup.
      + eapply NoDup_fmap_1, register_NoDup.
      + intros d. rewrite Hin, (register_elem_all l2), Hp; [done|].
        intros a b. rewrite <- Hp. apply Hkey. }
  split; [done|]. split; [|split].
  - eapply NoDup_Permutation_proper; [apply Permutation_map, sort_stable_perm|]. apply register_NoDup.
  - intros d. unfold NewPlanner. by rewrite sort_stable_elem.
  - by rewrite Heq.
Qed.
End DiagnosticProperties.

(** ** Examples *)

Section DiagnosticWitnesses.
#[local] Existing Instance plain_tables.

Definition image_pull_evidence : EvidenceSet :=
  mkEvidenceSet [sample_event "e1" "Failed" "Failed to pull image: manifest unknown"] [] [] single_pod_scope 0 0.

Definition image_pull_cause : CandidateClaim := imagePullCause "pod-1" ["e1"] "manifest-missing".

Lemma image_pull_claims_grounded_witness :
  image_pull_cause ∈ dr_Claims (imagePullEvaluate image_pull_evidence) /\
  dr_Status (imagePullEvaluate image_pull_evidence) = StatusSupported.
Proof.
  assert (H : dr_Claims (imagePullEvaluate image_pull_evidence) =
    [mkCandidateClaim "image-pull-observed" ClaimObservation
       "A target container is waiting because Kubernetes reported an image-pull failure." "pod-1" ["e1"];
     mkCandidateClaim "image-pull-failure" ClaimFailureMechanism
       "The target container could not retrieve its configured image." "pod-1" ["e1"];
     image_pull_cause]) by (vm_compute; reflexivity).
  assert (Hin : image_pull_cause ∈ dr_Claims (imagePullEvaluate image_pull_evidence))
    by (rewrite H; right; right; left).
  split; [exact Hin|].
  destruct (image_pull_claims_grounded image_pull_evidence image_pull_cause Hin) as (_ & _ & _ & Hr & _).
  exact (proj1 (Hr eq_refl)).
Defined.

Definition built_in : list (option Diagnostic) :=
  [Some ImagePullDiagnostic; Some SchedulingDiagnostic; Some ServicePortDiagnostic].

Lemma built_in_keys a b :
  Some a ∈ built_in -> Some b ∈ built_in -> diagnosticKey a = diagnosticKey b -> a = b.
Proof.
  assert (K : forall d, Some d ∈ built_in ->
    d = ImagePullDiagnostic /\ diagnosticKey d = "image-pull@v1" \/
    d = SchedulingDiagnostic /\ diagnosticKey d = "scheduling@v1" \/
    d = ServicePortDiagnostic /\ diagnosticKey d = "service-port@v1").
  { intros d. unfold built_in. rewrite !elem_of_cons, elem_of_nil.
    intros [H|[H|[H|[]]]]; injection H as H; rewrite H; [left|right; left|right; right]; split; reflexivity. }
  intros [[-> Ha]|[[-> Ha]|[-> Ha]]]%K [[-> Hb]|[[-> Hb]|[-> Hb]]]%K; rewrite ?Ha, ?Hb; try reflexivity;
    intros Hk; discriminate Hk.
Qed.

Lemma planner_order_independent_witness :
  map diag_ID DefaultPlanner = ["image-pull"; "scheduling"; "service-port"] /\
  NewPlanner (rev built_in) = DefaultPlanner.
Proof.
  split; [vm_compute; reflexivity|]. symmetry.
  exact (proj1 (planner_order_independent built_in (rev built_in) image_pull_evidence
    (Permutation_rev _) built_in_keys)).
Defined.
End DiagnosticWitnesses.
