(* ===== verification/Accounting.v ===== *)
(** * Candidate accounting (internal/diagnostic/accounting.go, internal/investigation/reconciliation.go)

    Every claim a diagnostic proposes is validated against the trusted evidence
    inventory, fingerprinted and given exactly one disposition.  The adapter of
    reconciliation.go builds the records from diagnostic results. *)

From Stdlib Require Import ZArith Lia.
From stdpp Require Import base list strings gmap.
From S2P Require Import Prelude GoStrings Utf8 Api Digest Observation.

Definition candidateAccountingCanonicalization : string := "fluxseer-rca-diagnostic-candidate-accounting-v1".

Inductive CandidateDisposition :=
| CandidateDispositionProposedClaim
| CandidateDispositionRetainedHypothesis
| CandidateDispositionRejected
| CandidateDispositionDeduplicated.

#[export] Instance CandidateDisposition_eq_dec : EqDecision CandidateDisposition.
Proof. solve_decision. Defined.

(** The string constants, which order the resolutions. *)
Definition dispositionString (d : CandidateDisposition) : string :=
  match d with
  | CandidateDispositionProposedClaim => "ProposedClaim"
  | CandidateDispositionRetainedHypothesis => "RetainedHypothesis"
  | CandidateDispositionRejected => "Rejected"
  | CandidateDispositionDeduplicated => "Deduplicated"
  end.

Record EvidenceIdentity := mkEvidenceIdentity {
  ei_ID : string;
  ei_TargetUID : string;
  ei_IncidentStart : time;
  ei_IncidentEnd : time;
  ei_Authorized : bool;
  ei_Valid : bool;
  ei_Incomplete : bool
}.

Definition zeroIdentity : EvidenceIdentity := mkEvidenceIdentity "" "" 0 0 false false false.

Record CandidateRecord := mkCandidateRecord {
  cr_DiagnosticID : string;
  cr_DiagnosticVersion : string;
  cr_IncidentStart : time;
  cr_IncidentEnd : time;
  cr_Candidate : CandidateClaim;
  cr_Evidence : list EvidenceIdentity
}.

Record CandidateResolution := mkCandidateResolution {
  res_CandidateID : string;
  res_CandidateFingerprint : string;
  res_ClaimFingerprint : string;
  res_Disposition : CandidateDisposition;
  res_CanonicalClaimID : string;
  res_DuplicateOf : string;
  res_Reason : string
}.

(** [DispositionCoverage], a float64, is only ever 0 or 1. *)
Record DispositionSummary := mkDispositionSummary {
  sum_Total : Z;
  sum_ProposedClaimCount : Z;
  sum_RetainedHypothesisCount : Z;
  sum_RejectedCandidateCount : Z;
  sum_DeduplicatedCount : Z;
  sum_DispositionCoverage : Z;
  sum_CoverageKnown : bool
}.

Record AccountingResult := mkAccountingResult {
  ar_Resolutions : list CandidateResolution;
  ar_Summary : DispositionSummary
}.

Record accountingItem := mkAccountingItem {
  it_record : CandidateRecord;
  it_res : CandidateResolution;
  it_state : CandidateDisposition;
  it_reason : string;
  it_eligible : bool;
  it_identityKey : string
}.

Section Accounting.
Context {U : UnicodeTables} {D : DigestPrims}.

(** ** Normalisation and fingerprints *)

Definition uniqueStrings (values : list string) : list string :=
  sorted_set (filter (fun v => v <> "") (map trim_space values)).

Definition normalizeClaimStatement (value : string) : string :=
  join " " (fields (to_lower (trim_space value))).

Definition canonicalTime (t : time) : string := if is_zero_time t then "" else CanonicalTime t.

(** The first identity of each trimmed ID. *)
Definition evidenceIdentity (values : list EvidenceIdentity) (id : string) : option EvidenceIdentity :=
  find_first (fun v =>
    if (trim_space (ei_ID v) == id) && (trim_space (ei_ID v) != "")
    then Some (mkEvidenceIdentity id (ei_TargetUID v) (ei_IncidentStart v) (ei_IncidentEnd v)
                 (ei_Authorized v) (ei_Valid v) (ei_Incomplete v))
    else None) values.

Definition identityFingerprint (v : EvidenceIdentity) : string :=
  digestString candidateAccountingCanonicalization
    (JObj [("targetUID", JStr (trim_space (ei_TargetUID v)));
           ("incidentStart", JStr (canonicalTime (ei_IncidentStart v)));
           ("incidentEnd", JStr (canonicalTime (ei_IncidentEnd v)));
           ("authorized", JBool (ei_Authorized v));
           ("valid", JBool (ei_Valid v));
           ("incomplete", JBool (ei_Incomplete v))]).

(** The IDs with conflicting identities: the maps [first] and [result] of the loop. *)
Definition conflictStep (acc : gmap string string * list string) (v : EvidenceIdentity)
    : gmap string string * list string :=
  let '(first, conflicts) := acc in
  let id := trim_space (ei_ID v) in
  if id == "" then acc
  else
    let fingerprint := identityFingerprint v in
    match first !! id with
    | Some previous =>
        if previous != fingerprint then (first, id :: conflicts)
        else (<[id := fingerprint]> first, conflicts)
    | None => (<[id := fingerprint]> first, conflicts)
    end.
Definition evidenceIdentityConflicts (values : list EvidenceIdentity) : list string :=
  (fold_left conflictStep values (∅, [])).2.

Definition FingerprintCandidate (record : CandidateRecord) : string :=
  let evidence := map (fun id =>
      let identity := default zeroIdentity (evidenceIdentity (cr_Evidence record) id) in
      join "|" [id; ei_TargetUID identity; canonicalTime (ei_IncidentStart identity);
                canonicalTime (ei_IncidentEnd identity)])
    (uniqueStrings (cc_EvidenceRefs (cr_Candidate record))) in
  digestString candidateAccountingCanonicalization
    (JObj [("diagnosticID", JStr (trim_space (cr_DiagnosticID record)));
           ("diagnosticVersion", JStr (trim_space (cr_DiagnosticVersion record)));
           ("candidateID", JStr (trim_space (cc_ID (cr_Candidate record))));
           ("claimType", JStr (cc_Type (cr_Candidate record)));
           ("statement", JStr (normalizeClaimStatement (cc_Statement (cr_Candidate record))));
           ("targetUID", JStr (trim_space (cc_TargetUID (cr_Candidate record))));
           ("incidentStart", JStr (canonicalTime (cr_IncidentStart record)));
           ("incidentEnd", JStr (canonicalTime (cr_IncidentEnd record)));
           ("evidence", strings_json (sort_strings evidence))]).

Definition FingerprintClaim (record : CandidateRecord) : string :=
  digestString candidateAccountingCanonicalization
    (JObj [("claimType", JStr (cc_Type (cr_Candidate record)));
           ("statement", JStr (normalizeClaimStatement (cc_Statement (cr_Candidate record))));
           ("targetUID", JStr (trim_space (cc_TargetUID (cr_Candidate record))));
           ("incidentStart", JStr (canonicalTime (cr_IncidentStart record)));
           ("incidentEnd", JStr (canonicalTime (cr_IncidentEnd record)))]).

Definition normalizeCandidateRecord (record : CandidateRecord) : CandidateRecord :=
  let c := cr_Candidate record in
  mkCandidateRecord (trim_space (cr_DiagnosticID record)) (trim_space (cr_DiagnosticVersion record))
    (cr_IncidentStart record) (cr_IncidentEnd record)
    (mkCandidateClaim (trim_space (cc_ID c)) (cc_Type c) (trim_space (cc_Statement c))
       (trim_space (cc_TargetUID c)) (uniqueStrings (cc_EvidenceRefs c)))
    (cr_Evidence record).

(** ** Validation *)

Definition incidentWindowCompatible (candidateStart candidateEnd evidenceStart evidenceEnd : time) : bool :=
  if is_zero_time candidateStart && is_zero_time candidateEnd && is_zero_time evidenceStart
     && is_zero_time evidenceEnd then true
  else if is_zero_time candidateStart || is_zero_time candidateEnd || is_zero_time evidenceStart
          || is_zero_time evidenceEnd then false
  else if time_before candidateEnd candidateStart || time_before evidenceEnd evidenceStart then false
  else negb (time_before candidateEnd evidenceStart) && negb (time_before evidenceEnd candidateStart).

Definition rejected (reason : string) : CandidateDisposition * string * bool :=
  (CandidateDispositionRejected, reason, false).

(** The loop over the references; [incomplete] accumulates. *)
Fixpoint validateRefs (record : CandidateRecord) (conflicts : list string) (refs : list string)
    (incomplete : bool) : CandidateDisposition * string * bool :=
  match refs with
  | [] =>
      if incomplete then (CandidateDispositionRetainedHypothesis, "EvidenceIncomplete", false)
      else (CandidateDispositionProposedClaim, "CandidateAcceptedForVerification", true)
  | ref :: rest =>
      match evidenceIdentity (cr_Evidence record) ref with
      | None => rejected "EvidenceReferenceNotFound"
      | Some identity =>
          if mem_str ref conflicts then rejected "EvidenceIdentityConflict"
          else if negb (ei_Authorized identity) then rejected "EvidenceUnauthorized"
          else if negb (ei_Valid identity) then rejected "EvidenceInvalid"
          else if ei_TargetUID identity == "" then rejected "EvidenceTargetUIDMissing"
          else if ei_TargetUID identity != cc_TargetUID (cr_Candidate record) then
            rejected "EvidenceTargetUIDMismatch"
          else if negb (incidentWindowCompatible (cr_IncidentStart record) (cr_IncidentEnd record)
                          (ei_IncidentStart identity) (ei_IncidentEnd identity)) then
            rejected "EvidenceOutsideIncidentWindow"
          else validateRefs record conflicts rest (incomplete || ei_Incomplete identity)
      end
  end.

Definition validateCandidate (record : CandidateRecord) : CandidateDisposition * string * bool :=
  let candidate := cr_Candidate record in
  if cc_ID candidate == "" then rejected "MissingCandidateID"
  else if (cr_DiagnosticID record == "") || (cr_DiagnosticVersion record == "") then
    rejected "MissingDiagnosticIdentity"
  else if cc_TargetUID candidate == "" then rejected "MissingTargetUID"
  else if cc_Statement candidate == "" then rejected "MissingCandidateStatement"
  else if negb (mem_str (cc_Type candidate) [ClaimObservation; ClaimFailureMechanism; ClaimRootCause]) then
    rejected "InvalidClaimType"
  else
    match cc_EvidenceRefs candidate with
    | [] => (CandidateDispositionRetainedHypothesis, "EvidenceRefsMissing", false)
    | refs => validateRefs record (evidenceIdentityConflicts (cr_Evidence record)) refs false
    end.

(** ** AccountCandidates *)

Definition accountRecord (record : CandidateRecord) : accountingItem :=
  let record := normalizeCandidateRecord record in
  let '(state, reason, eligible) := validateCandidate record in
  mkAccountingItem record
    (mkCandidateResolution (cc_ID (cr_Candidate record)) (FingerprintCandidate record)
       (FingerprintClaim record) state "" "" reason)
    state reason eligible (cc_ID (cr_Candidate record)).

(** [identityFingerprints[key]]: the candidate fingerprints seen under an identity key. *)
Definition identityFingerprints (items : list accountingItem) (key : string) : list string :=
  dedup_first (map (fun item => res_CandidateFingerprint (it_res item))
                 (List.filter (fun item => it_identityKey item == key) items)).

Definition rejectConflict (items : list accountingItem) (item : accountingItem) : accountingItem :=
  if (it_identityKey item != "") && (1 <? Z.of_nat (length (identityFingerprints items (it_identityKey item))))
  then
    let r := it_res item in
    mkAccountingItem (it_record item)
      (mkCandidateResolution (res_CandidateID r) (res_CandidateFingerprint r) (res_ClaimFingerprint r)
         CandidateDispositionRejected (res_CanonicalClaimID r) (res_DuplicateOf r) "CandidateIdentityConflict")
      CandidateDispositionRejected "CandidateIdentityConflict" false (it_identityKey item)
  else item.

(** [byClaim[fingerprint]]: the indexes of the eligible items, in order. *)
Definition claimIndexes (items : list accountingItem) (fingerprint : string) : list nat :=
  List.filter (fun i => match items !! i with
                        | Some item => it_eligible item && (res_ClaimFingerprint (it_res item) == fingerprint)
                        | None => false
                        end) (seq 0 (length items)).
Definition claimFingerprints (items : list accountingItem) : list string :=
  dedup_first (map (fun item => res_ClaimFingerprint (it_res item)) (List.filter it_eligible items)).

Definition resolutionAt (items : list accountingItem) (index : nat) : string * string :=
  match items !! index with
  | Some item => (res_CandidateFingerprint (it_res item), res_CandidateID (it_res item))
  | None => ("", "")
  end.
Definition indexLess (items : list accountingItem) (i j : nat) : bool :=
  let '(leftFP, leftID) := resolutionAt items i in
  let '(rightFP, rightID) := resolutionAt items j in
  if leftFP != rightFP then str_ltb leftFP rightFP else str_ltb leftID rightID.

Definition propose (canonical : string) (item : accountingItem) : accountingItem :=
  let r := it_res item in
  mkAccountingItem (it_record item)
    (mkCandidateResolution (res_CandidateID r) (res_CandidateFingerprint r) (res_ClaimFingerprint r)
       CandidateDispositionProposedClaim canonical (res_DuplicateOf r) "CandidateAcceptedForVerification")
    CandidateDispositionProposedClaim (it_reason item) (it_eligible item) (it_identityKey item).
Definition deduplicate (canonical : string) (item : accountingItem) : accountingItem :=
  let r := it_res item in
  mkAccountingItem (it_record item)
    (mkCandidateResolution (res_CandidateID r) (res_CandidateFingerprint r) (res_ClaimFingerprint r)
       CandidateDispositionDeduplicated canonical canonical "DuplicateClaimFingerprint")
    CandidateDispositionDeduplicated (it_reason item) (it_eligible item) (it_identityKey item).

(** The groups of [byClaim]; Go visits them in no fixed order, and they are disjoint. *)
Definition byClaim (items : list accountingItem) : list (list nat) :=
  map (claimIndexes items) (claimFingerprints items).

(** One group: its first index in the order is canonical. *)
Definition accountGroup (items : list accountingItem) (indexes : list nat) : list accountingItem :=
  match sort_stable (indexLess items) indexes with
  | [] => items
  | first :: others =>
      let canonical := (resolutionAt items first).2 in
      fold_left (fun items index => alter (deduplicate canonical) index items) others
        (alter (propose canonical) first items)
  end.

Definition resolutionLess (left right : CandidateResolution) : bool :=
  if res_CandidateFingerprint left != res_CandidateFingerprint right
  then str_ltb (res_CandidateFingerprint left) (res_CandidateFingerprint right)
  else if res_CandidateID left != res_CandidateID right
  then str_ltb (res_CandidateID left) (res_CandidateID right)
  else str_ltb (dispositionString (res_Disposition left)) (dispositionString (res_Disposition right)).

Definition countDisposition (d : CandidateDisposition) (resolutions : list CandidateResolution) : Z :=
  Z.of_nat (length (List.filter (fun r => bool_decide (res_Disposition r = d)) resolutions)).

Definition summarizeDispositions (resolutions : list CandidateResolution) : DispositionSummary :=
  let total := Z.of_nat (length resolutions) in
  mkDispositionSummary total
    (countDisposition CandidateDispositionProposedClaim resolutions)
    (countDisposition CandidateDispositionRetainedHypothesis resolutions)
    (countDisposition CandidateDispositionRejected resolutions)
    (countDisposition CandidateDispositionDeduplicated resolutions)
    (if 0 <? total then 1 else 0) (0 <? total).

Definition accountedItems (records : list CandidateRecord) : list accountingItem :=
  let items := map accountRecord records in
  let items := map (rejectConflict items) items in
  fold_left accountGroup (byClaim items) items.

Definition AccountCandidates (records : list CandidateRecord) : AccountingResult :=
  let resolutions := sort_stable resolutionLess (map it_res (accountedItems records)) in
  mkAccountingResult resolutions (summarizeDispositions resolutions).
End Accounting.

(** ** One group *)

Section AccountingLemmas.
Context {U : UnicodeTables} {D : DigestPrims}.

(** What the grouping reads of an item, which no disposition changes. *)
Definition same_identity (a b : accountingItem) : Prop :=
  it_record a = it_record b /\ it_eligible a = it_eligible b /\
  res_CandidateID (it_res a) = res_CandidateID (it_res b) /\
  res_CandidateFingerprint (it_res a) = res_CandidateFingerprint (it_res b) /\
  res_ClaimFingerprint (it_res a) = res_ClaimFingerprint (it_res b).

Definition claimOf (item : accountingItem) : string := res_ClaimFingerprint (it_res item).

Lemma same_identity_refl_all items : Forall2 same_identity items items.
Proof. induction items; constructor; [by split_and!|done]. Qed.

Lemma same_identity_propose c a b : same_identity a b -> same_identity a (propose c b).
Proof. by intros (? & ? & ? & ? & ?). Qed.
Lemma same_identity_deduplicate c a b : same_identity a b -> same_identity a (deduplicate c b).
Proof. by intros (? & ? & ? & ? & ?). Qed.

Lemma resolutionAt_same l1 l2 i : Forall2 same_identity l1 l2 -> resolutionAt l1 i = resolutionAt l2 i.
Proof.
  intros H. unfold resolutionAt. destruct (l1 !! i) as [a|] eqn:Ha.
  - destruct (Forall2_lookup_l _ _ _ _ _ H Ha) as (b & -> & _ & _ & E1 & E2 & _). by rewrite E1, E2.
  - apply lookup_ge_None_1 in Ha. rewrite (Forall2_length _ _ _ H) in Ha.
    by rewrite (lookup_ge_None_2 _ _ Ha).
Qed.

Lemma alter_same f (i : nat) (l1 l2 : list accountingItem) :
  (forall a b, same_identity a b -> same_identity a (f b)) ->
  Forall2 same_identity l1 l2 -> Forall2 same_identity l1 (alter f i l2).
Proof. intros Hf H. apply Forall2_alter_r; [done|]. intros x y _ _. apply Hf. Qed.

Lemma alters_same f (others : list nat) (l1 l2 : list accountingItem) :
  (forall a b, same_identity a b -> same_identity a (f b)) ->
  Forall2 same_identity l1 l2 ->
  Forall2 same_identity l1 (fold_left (fun items index => alter f index items) others l2).
Proof. intros Hf. revert l2. induction others as [|i others IH]; intros l2 H; [done|]. by apply IH, alter_same. Qed.

Lemma alters_lookup (f : accountingItem -> accountingItem) (others : list nat) (items : list accountingItem) i :
  NoDup others ->
  fold_left (fun items index => alter f index items) others items !! i
  = if bool_decide (i ∈ others) then f <$> items !! i else items !! i.
Proof.
  revert items. induction others as [|j others IH]; intros items Hnd; [done|]. cbn [fold_left].
  apply NoDup_cons in Hnd as [Hj Hnd]. rewrite IH by done. destruct (decide (i = j)) as [->|Hne].
  - destruct (bool_decide_reflect (j ∈ others)); [done|]. rewrite list_lookup_alter, decide_True by done.
    destruct (bool_decide_reflect (j ∈ j :: others)) as [|Hn]; [reflexivity|]. destruct Hn. left.
  - rewrite list_lookup_alter_ne by done.
    destruct (bool_decide_reflect (i ∈ others)), (bool_decide_reflect (i ∈ j :: others)); set_solver.
Qed.

(** The disposition of the eligible item at [i] of a group. *)
Definition markAt (items : list accountingItem) (indexes : list nat) (i : nat) (item : accountingItem)
    : accountingItem :=
  match head (sort_stable (indexLess items) indexes) with
  | None => item
  | Some first =>
      let canonical := (resolutionAt items first).2 in
      if bool_decide (i = first) then propose canonical item else deduplicate canonical item
  end.

Lemma indexLess_same l1 l2 i j : Forall2 same_identity l1 l2 -> indexLess l1 i j = indexLess l2 i j.
Proof. intros H. unfold indexLess. by rewrite !(resolutionAt_same l1 l2). Qed.

Lemma accountGroup_same items0 items indexes :
  Forall2 same_identity items0 items -> Forall2 same_identity items0 (accountGroup items indexes).
Proof.
  intros H. unfold accountGroup. destruct (sort_stable _ _) as [|f o]; [done|].
  apply alters_same; [apply same_identity_deduplicate|]. apply alter_same; [apply same_identity_propose|done].
Qed.

Lemma accountGroup_lookup (items0 items : list accountingItem) (indexes : list nat) i :
  Forall2 same_identity items0 items -> NoDup indexes ->
  accountGroup items indexes !! i =
    if bool_decide (i ∈ indexes) then markAt items0 indexes i <$> items !! i else items !! i.
Proof.
  intros H Hnd. unfold accountGroup, markAt.
  rewrite (sort_stable_ext (indexLess items) (indexLess items0)) by (intros; symmetry; by apply indexLess_same).
  pose proof (sort_stable_perm (indexLess items0) indexes) as Hp.
  destruct (sort_stable _ indexes) as [|first others]; simpl.
  { apply Permutation_nil in Hp as ->. rewrite bool_decide_eq_false_2; [done|apply not_elem_of_nil]. }
  rewrite <- (resolutionAt_same items0 items) by done. rewrite <- Hp in Hnd.
  apply NoDup_cons in Hnd as [Hf Hnd]. rewrite alters_lookup by done.
  assert (Hin : i ∈ indexes <-> i = first \/ i ∈ others) by (rewrite <- Hp; apply elem_of_cons).
  destruct (decide (i = first)) as [->|Hne].
  - rewrite (bool_decide_eq_false_2 (first ∈ others)) by done. rewrite list_lookup_alter, decide_True by done.
    rewrite (bool_decide_eq_true_2 (first ∈ indexes)) by tauto.
    destruct (items !! first); simpl; [|done]. by rewrite bool_decide_eq_true_2.
  - rewrite list_lookup_alter_ne by done.
    destruct (decide (i ∈ others)) as [Ho|Ho].
    + rewrite !bool_decide_eq_true_2 by tauto. destruct (items !! i); simpl; [|done].
      by rewrite bool_decide_eq_false_2.
    + by rewrite !bool_decide_eq_false_2 by tauto.
Qed.

(** ** All groups *)

Lemma claimIndexes_NoDup items fp : NoDup (claimIndexes items fp).
Proof. apply NoDup_ListNoDup, List.NoDup_filter, NoDup_ListNoDup, NoDup_seq. Qed.

Lemma claimIndexes_elem items fp i :
  i ∈ claimIndexes items fp <->
  exists item, items !! i = Some item /\ it_eligible item = true /\ claimOf item = fp.
Proof.
  unfold claimIndexes. rewrite list_elem_of_In, filter_In, <- list_elem_of_In, elem_of_seq. unfold claimOf.
  destruct (items !! i) as [item|] eqn:Hi.
  - rewrite andb_true_iff, String.eqb_eq. apply lookup_lt_Some in Hi. split; [naive_solver|].
    intros (? & [= <-] & ? & ?). split; [lia|done].
  - split; [by intros [_ ?]|by intros (? & ? & _)].
Qed.

Lemma groups_lookup items0 fps items i item :
  NoDup fps -> Forall2 same_identity items0 items -> items !! i = Some item ->
  fold_left accountGroup (map (claimIndexes items0) fps) items !! i =
    Some (if it_eligible item && bool_decide (claimOf item ∈ fps)
          then markAt items0 (claimIndexes items0 (claimOf item)) i item else item).
Proof.
  revert items item. induction fps as [|fp fps IH]; intros items item Hnd Hs Hi; cbn [map fold_left].
  { rewrite bool_decide_eq_false_2 by apply not_elem_of_nil. by rewrite andb_false_r. }
  apply NoDup_cons in Hnd as [Hfp Hnd].
  destruct (Forall2_lookup_r _ _ _ _ _ Hs Hi) as (item0 & Hi0 & Hid).
  pose proof (accountGroup_lookup items0 items (claimIndexes items0 fp) i Hs (claimIndexes_NoDup _ _)) as Hg.
  rewrite Hi in Hg.
  assert (Hin : i ∈ claimIndexes items0 fp <-> it_eligible item = true /\ claimOf item = fp).
  { rewrite claimIndexes_elem, Hi0. destruct Hid as (_ & He & _ & _ & Hc). unfold claimOf. rewrite <- He, <- Hc.
    naive_solver. }
  destruct (bool_decide_reflect (i ∈ claimIndexes items0 fp)) as [Hy|Hn]; simpl in Hg.
  - apply Hin in Hy as [He Hc].
    assert (Hm : it_eligible (markAt items0 (claimIndexes items0 fp) i item) = true /\
                 claimOf (markAt items0 (claimIndexes items0 fp) i item) = fp).
    { unfold markAt. destruct (head _) as [f|]; [|done]. destruct (bool_decide (i = f)); done. }
    rewrite (IH _ _ Hnd (accountGroup_same _ _ _ Hs) Hg). destruct Hm as [He' Hc'].
    rewrite He, He', Hc', Hc. rewrite (bool_decide_eq_false_2 (fp ∈ fps)) by done.
    by rewrite bool_decide_eq_true_2 by left.
  - rewrite (IH _ _ Hnd (accountGroup_same _ _ _ Hs) Hg). f_equal.
    destruct (it_eligible item) eqn:He; [|done]. cbn [andb].
    destruct (bool_decide_reflect (claimOf item ∈ fps)), (bool_decide_reflect (claimOf item ∈ fp :: fps));
      set_solver.
Qed.

(** The items with conflicting identities rejected, before the grouping. *)
Definition validatedItems (records : list CandidateRecord) : list accountingItem :=
  let items := map accountRecord records in map (rejectConflict items) items.

Lemma accountedItems_lookup records i item :
  validatedItems records !! i = Some item ->
  accountedItems records !! i =
    Some (if it_eligible item
          then markAt (validatedItems records) (claimIndexes (validatedItems records) (claimOf item)) i item
          else item).
Proof.
  intros Hi. unfold accountedItems, byClaim, claimFingerprints. fold (validatedItems records).
  rewrite (groups_lookup _ _ _ i item (dedup_first_NoDup _) (same_identity_refl_all _) Hi).
  destruct (it_eligible item) eqn:He; [|done]. rewrite bool_decide_eq_true_2; [done|].
  apply dedup_first_elem, list_elem_of_fmap. exists item. split; [done|].
  rewrite list_elem_of_In, filter_In, <- list_elem_of_In. split; [|done]. by eapply list_elem_of_lookup_2.
Qed.

Lemma accountGroups_length items gs : length (fold_left accountGroup gs items) = length items.
Proof.
  assert (H : forall items, Forall2 same_identity items items) by apply same_identity_refl_all.
  revert items. induction gs as [|g gs IH]; intros items; [done|]. cbn [fold_left]. rewrite IH.
  symmetry. apply (Forall2_length same_identity), accountGroup_same, H.
Qed.

Lemma accountedItems_length records : length (accountedItems records) = length records.
Proof. unfold accountedItems. rewrite accountGroups_length. by rewrite !length_map. Qed.

(** ** Validation *)

(** Inventory entries of one reference that agree in everything but their ID's spelling. *)
Definition consistent (evidence : list EvidenceIdentity) (ref : string) : Prop :=
  forall v w, v ∈ evidence -> w ∈ evidence -> trim_space (ei_ID v) = ref -> trim_space (ei_ID w) = ref ->
    identityFingerprint v = identityFingerprint w.

Definition reference_accepted (record : CandidateRecord) (ref : string) : Prop :=
  consistent (cr_Evidence record) ref /\
  exists identity, evidenceIdentity (cr_Evidence record) ref = Some identity /\
    ei_Authorized identity = true /\ ei_Valid identity = true /\ ei_Incomplete identity = false /\
    ei_TargetUID identity = cc_TargetUID (cr_Candidate record) /\
    incidentWindowCompatible (cr_IncidentStart record) (cr_IncidentEnd record)
      (ei_IncidentStart identity) (ei_IncidentEnd identity) = true.

Definition candidate_accepted (record : CandidateRecord) : Prop :=
  let c := cr_Candidate record in
  cc_ID c <> "" /\ cr_DiagnosticID record <> "" /\ cr_DiagnosticVersion record <> "" /\
  cc_TargetUID c <> "" /\ cc_Statement c <> "" /\
  cc_Type c ∈ [ClaimObservation; ClaimFailureMechanism; ClaimRootCause] /\
  cc_EvidenceRefs c <> [] /\ forall ref, ref ∈ cc_EvidenceRefs c -> reference_accepted record ref.

Lemma conflict_fold l acc ref :
  ref <> "" ->
  let acc' := fold_left conflictStep l acc in
  ref ∉ acc'.2 ->
  ref ∉ acc.2 /\
  (forall fp, acc.1 !! ref = Some fp -> acc'.1 !! ref = Some fp) /\
  forall v, v ∈ l -> trim_space (ei_ID v) = ref -> acc'.1 !! ref = Some (identityFingerprint v).
Proof.
  intros Hne. revert acc. induction l as [|v l IH]; intros acc; cbn [fold_left].
  { intros H. split_and!; [done|done|]. by intros ? ?%not_elem_of_nil. }
  intros H. destruct (IH _ H) as (H1 & H2 & H3). clear IH H. destruct acc as [first conflicts].
  cbn [fst snd]. unfold conflictStep in H1, H2.
  assert (Hstep : ref ∉ conflicts /\
    (forall fp, first !! ref = Some fp -> (conflictStep (first, conflicts) v).1 !! ref = Some fp) /\
    (trim_space (ei_ID v) = ref -> (conflictStep (first, conflicts) v).1 !! ref = Some (identityFingerprint v))).
  { unfold conflictStep. destruct (trim_space (ei_ID v) == "") eqn:E; [go_bool; split_and!; [done|done|congruence]|].
    destruct (first !! trim_space (ei_ID v)) as [previous|] eqn:Hf.
    - destruct (previous != identityFingerprint v) eqn:Hp; cbn [fst snd] in *.
      + apply not_elem_of_cons in H1 as [Ha Hb]. split_and!; [done|done|congruence].
      + go_bool. rewrite insert_id by congruence. split_and!; [done|done|congruence].
    - cbn [fst snd] in *. split_and!; [done| |].
      + intros fp Hfp. rewrite lookup_insert_ne; [done|congruence].
      + intros <-. by rewrite lookup_insert, decide_True. }
  destruct Hstep as (S1 & S2 & S3). split_and!; [done| |].
  - intros fp Hfp. by apply H2, S2.
  - intros w [->|Hw]%elem_of_cons He; [by apply H2, S3|by apply H3].
Qed.

Lemma conflicts_consistent evidence ref :
  ref <> "" -> ref ∉ evidenceIdentityConflicts evidence -> consistent evidence ref.
Proof.
  intros Hne H v w Hv Hw Ev Ew. destruct (conflict_fold evidence (∅, []) ref Hne H) as (_ & _ & H3).
  pose proof (H3 v Hv Ev) as E1. pose proof (H3 w Hw Ew) as E2. congruence.
Qed.

Definition verdict_ok (record : CandidateRecord) (refs : list string)
    (v : CandidateDisposition * string * bool) : Prop :=
  let '(state, _, eligible) := v in
  if eligible : bool then
    state = CandidateDispositionProposedClaim /\ forall ref, ref ∈ refs -> reference_accepted record ref
  else state = CandidateDispositionRejected \/ state = CandidateDispositionRetainedHypothesis.

Lemma validateRefs_ok record refs incomplete :
  (forall ref, ref ∈ refs -> ref <> "") ->
  verdict_ok record refs
    (validateRefs record (evidenceIdentityConflicts (cr_Evidence record)) refs incomplete) /\
  (incomplete = true -> (validateRefs record (evidenceIdentityConflicts (cr_Evidence record)) refs incomplete).2 = false).
Proof.
  revert incomplete. induction refs as [|ref refs IH]; intros incomplete Hne; cbn [validateRefs].
  { destruct incomplete; simpl; [auto|]. split; [|done]. split; [done|]. by intros ? ?%not_elem_of_nil. }
  destruct (evidenceIdentity _ ref) as [identity|] eqn:Hid; [|simpl; auto].
  destruct (mem_str ref _) eqn:Hc; [simpl; auto|]. destruct (ei_Authorized identity) eqn:Ha; [|simpl; auto].
  destruct (ei_Valid identity) eqn:Hv; [|simpl; auto]. cbn [negb].
  destruct (ei_TargetUID identity == "") eqn:Ht; [simpl; auto|].
  destruct (ei_TargetUID identity != cc_TargetUID _) eqn:Hu; [simpl; auto|].
  destruct (incidentWindowCompatible _ _ _ _) eqn:Hw; cbn [negb]; [|simpl; auto].
  destruct (IH (incomplete || ei_Incomplete identity)) as [IH1 IH2]; [intros r Hr; apply Hne; by right|].
  destruct (validateRefs _ _ refs _) as [[state reason] eligible] eqn:Hr. cbn [snd] in IH2.
  split; [|intros ->; by apply IH2].
  unfold verdict_ok in *. destruct eligible; [|done]. destruct IH1 as [-> IH1]. split; [done|].
  intros r [->|Hin]%elem_of_cons; [|by apply IH1]. split.
  - apply conflicts_consistent; [apply Hne; left|by apply mem_str_false].
  - exists identity. go_bool. destruct (ei_Incomplete identity) eqn:Hi; [|done].
    rewrite orb_true_r in IH2. by specialize (IH2 eq_refl).
Qed.

Lemma uniqueStrings_nonempty values ref : ref ∈ uniqueStrings values -> ref <> "".
Proof. unfold uniqueStrings. rewrite sorted_set_elem, list_elem_of_filter. tauto. Qed.

Lemma validateCandidate_ok record :
  let r := normalizeCandidateRecord record in
  let '(state, _, eligible) := validateCandidate r in
  if eligible : bool then state = CandidateDispositionProposedClaim /\ candidate_accepted r
  else state = CandidateDispositionRejected \/ state = CandidateDispositionRetainedHypothesis.
Proof.
  cbn zeta. set (r := normalizeCandidateRecord record). unfold validateCandidate.
  destruct (_ == "") eqn:E1; [by left|]. destruct (_ || _)%bool eqn:E2; [by left|].
  destruct (cc_TargetUID _ == "") eqn:E3; [by left|]. destruct (cc_Statement _ == "") eqn:E4; [by left|].
  destruct (mem_str _ _) eqn:E5; cbn [negb]; [|by left].
  assert (Hne : forall ref, ref ∈ cc_EvidenceRefs (cr_Candidate r) -> ref <> "")
    by (intros ref; apply uniqueStrings_nonempty).
  unfold candidate_accepted. cbn zeta. destruct (cc_EvidenceRefs (cr_Candidate r)) as [|x xs] eqn:Hx; [by right|].
  destruct (validateRefs_ok r (x :: xs) false Hne) as [H _].
  destruct (validateRefs _ _ _ _) as [[state reason] eligible]. unfold verdict_ok in H.
  destruct eligible; [|done]. destruct H as [-> H]. apply mem_str_spec in E5. go_bool. by split_and!.
Qed.

(** What the items look like before the grouping. *)
Lemma validatedItems_spec records i item :
  validatedItems records !! i = Some item ->
  if it_eligible item
  then exists record, record ∈ records /\ it_record item = normalizeCandidateRecord record /\
         candidate_accepted (it_record item) /\
         res_CandidateID (it_res item) = cc_ID (cr_Candidate (it_record item)) /\
         res_CandidateFingerprint (it_res item) = FingerprintCandidate (it_record item) /\
         res_ClaimFingerprint (it_res item) = FingerprintClaim (it_record item)
  else res_Disposition (it_res item) = CandidateDispositionRejected \/
       res_Disposition (it_res item) = CandidateDispositionRetainedHypothesis.
Proof.
  unfold validatedItems. rewrite list_lookup_fmap. intros H. apply fmap_Some in H as (it0 & H & ->).
  rewrite list_lookup_fmap in H. apply fmap_Some in H as (record & Hr & ->).
  unfold rejectConflict. destruct (_ && _)%bool; [by left|]. unfold accountRecord.
  pose proof (validateCandidate_ok record) as Hv. cbn zeta in Hv.
  destruct (validateCandidate _) as [[state reason] eligible]. cbn [it_eligible it_record it_res].
  destruct eligible; [|done]. destruct Hv as [-> Hv]. exists record. split; [by eapply list_elem_of_lookup_2|].
  by split_and!.
Qed.
End AccountingLemmas.

(** ** Properties *)

Section AccountingProperties.
Context {U : UnicodeTables} {D : DigestPrims}.

Lemma resolution_origin records r :
  r ∈ ar_Resolutions (AccountCandidates records) <->
  exists i item, validatedItems records !! i = Some item /\
    r = it_res (if it_eligible item
                then markAt (validatedItems records) (claimIndexes (validatedItems records) (claimOf item)) i item
                else item).
Proof.
  unfold AccountCandidates. cbn [ar_Resolutions]. rewrite sort_stable_elem, list_elem_of_fmap.
  assert (Hlen : length (accountedItems records) = length (validatedItems records))
    by (rewrite accountedItems_length; unfold validatedItems; by rewrite !length_map).
  split.
  - intros (y & -> & [i Hi]%list_elem_of_lookup_1).
    assert (Hlt : (i < length (validatedItems records))%nat) by (rewrite <- Hlen; by eapply lookup_lt_Some).
    destruct (lookup_lt_is_Some_2 _ _ Hlt) as [item Hit]. exists i, item. split; [done|].
    pose proof (accountedItems_lookup _ _ _ Hit). congruence.
  - intros (i & item & Hit & ->). apply accountedItems_lookup in Hit. eexists. split; [done|].
    by eapply list_elem_of_lookup_2.
Qed.

(** The canonical index of a group is one of its members. *)
Lemma group_head items fp i :
  i ∈ claimIndexes items fp ->
  exists first, head (sort_stable (indexLess items) (claimIndexes items fp)) = Some first /\
    first ∈ claimIndexes items fp.
Proof.
  intros Hi. destruct (sort_stable (indexLess items) (claimIndexes items fp)) as [|f o] eqn:Hs.
  - apply sort_stable_nil in Hs. rewrite Hs in Hi. by apply not_elem_of_nil in Hi.
  - exists f. split; [done|]. apply (sort_stable_elem (indexLess items)). rewrite Hs. left.
Qed.

Lemma NoDup_filter_map {A B} (f : A -> B) (P : A -> bool) (l : list A) :
  (forall i j x y, l !! i = Some x -> l !! j = Some y -> P x = true -> P y = true -> f x = f y -> i = j) ->
  NoDup (map f (List.filter P l)).
Proof.
  induction l as [|a l IH]; intros H; simpl; [apply NoDup_nil_2|].
  assert (Hl : NoDup (map f (List.filter P l))).
  { apply IH. intros i j x y Hi Hj Px Py E. assert (S i = S j) by (by apply (H (S i) (S j) x y)). lia. }
  destruct (P a) eqn:Ha; [|done]. simpl. apply NoDup_cons. split; [|done].
  intros (b & E & Hb)%list_elem_of_fmap. rewrite list_elem_of_In, filter_In, <- list_elem_of_In in Hb.
  destruct Hb as [[j Hj]%list_elem_of_lookup_1 Hb]. by specialize (H 0%nat (S j) a b eq_refl Hj Ha Hb E).
Qed.

Definition proposed (r : CandidateResolution) : bool :=
  bool_decide (res_Disposition r = CandidateDispositionProposedClaim).

Lemma count_total (l : list CandidateResolution) :
  countDisposition CandidateDispositionProposedClaim l + countDisposition CandidateDispositionRetainedHypothesis l
  + countDisposition CandidateDispositionRejected l + countDisposition CandidateDispositionDeduplicated l
  = Z.of_nat (length l).
Proof.
  unfold countDisposition. induction l as [|r l IH]; [done|]. cbn [List.filter length].
  destruct (res_Disposition r); repeat case_bool_decide; try done; cbn [length]; lia.
Qed.

Lemma Permutation_filter_bool {A} (P : A -> bool) (l1 l2 : list A) :
  l1 ≡ₚ l2 -> List.filter P l1 ≡ₚ List.filter P l2.
Proof.
  induction 1; simpl; [done| | |by etrans].
  - destruct (P x); [by constructor|done].
  - destruct (P x), (P y); try done. constructor.
Qed.

(** The proposed items of different indexes make different claims. *)
Lemma proposed_unique records :
  NoDup (map res_ClaimFingerprint (List.filter proposed (map it_res (accountedItems records)))).
Proof.
  apply NoDup_filter_map. intros i j x y Hi Hj Px Py E. unfold proposed in Px, Py.
  apply bool_decide_eq_true_1 in Px, Py. rewrite list_lookup_fmap in Hi, Hj.
  apply fmap_Some in Hi as (a & Hi & ->), Hj as (b & Hj & ->).
  assert (Hk : forall k c, accountedItems records !! k = Some c ->
    res_Disposition (it_res c) = CandidateDispositionProposedClaim ->
    head (sort_stable (indexLess (validatedItems records))
            (claimIndexes (validatedItems records) (claimOf c))) = Some k).
  { intros k c Hk Hd.
    assert (Hlt : (k < length (validatedItems records))%nat).
    { unfold validatedItems. rewrite !length_map, <- accountedItems_length. by eapply lookup_lt_Some. }
    destruct (lookup_lt_is_Some_2 _ _ Hlt) as [item Hit].
    pose proof (accountedItems_lookup _ _ _ Hit) as Ha. rewrite Hk in Ha. injection Ha as ->.
    pose proof (validatedItems_spec _ _ _ Hit) as Hv. destruct (it_eligible item) eqn:He.
    2:{ destruct Hv as [Hv|Hv]; rewrite Hv in Hd; done. }
    destruct (group_head (validatedItems records) (claimOf item) k) as (f & Hf & _);
      [apply claimIndexes_elem; eauto|].
    unfold markAt in Hd |- *. rewrite Hf in *. case_bool_decide as Hkf; [subst|done].
    unfold claimOf in *. cbn [propose it_res res_ClaimFingerprint]. done. }
  pose proof (Hk _ _ Hi Px) as H1. pose proof (Hk _ _ Hj Py) as H2.
  change (claimOf a = claimOf b) in E. rewrite E in H1. congruence.
Qed.

(** Every candidate gets exactly one resolution and the summary counts each
    once; no claim is proposed twice, whatever diagnostics repeat it; and a
    deduplicated candidate points to the one proposed candidate that makes the
    same claim, and carries its ID as the canonical one. *)
Theorem accounting_partition (records : list CandidateRecord) :
  let '(mkAccountingResult resolutions summary) := AccountCandidates records in
  sum_Total summary = Z.of_nat (length records) /\
  sum_ProposedClaimCount summary + sum_RetainedHypothesisCount summary
    + sum_RejectedCandidateCount summary + sum_DeduplicatedCount summary = sum_Total summary /\
  NoDup (map res_ClaimFingerprint (List.filter proposed resolutions)) /\
  forall r, r ∈ resolutions -> res_Disposition r = CandidateDispositionDeduplicated ->
    exists p, p ∈ resolutions /\ proposed p = true /\ res_ClaimFingerprint p = res_ClaimFingerprint r /\
      res_DuplicateOf r = res_CandidateID p /\ res_CanonicalClaimID r = res_CandidateID p /\
      res_CanonicalClaimID p = res_CandidateID p.
Proof.
  pose proof (resolution_origin records) as Ho. unfold AccountCandidates in *. cbn [ar_Resolutions] in Ho.
  set (resolutions := sort_stable resolutionLess (map it_res (accountedItems records))) in *.
  assert (Hlen : length resolutions = length records)
    by (unfold resolutions; by rewrite sort_stable_length, length_map, accountedItems_length).
  unfold summarizeDispositions. cbn. rewrite Hlen. split; [done|]. split; [rewrite count_total; lia|]. split.
  - unfold resolutions. rewrite (Permutation_map _ (Permutation_filter_bool proposed _ _ (sort_stable_perm _ _))).
    apply proposed_unique.
  - intros r Hr Hd. apply Ho in Hr as (i & item & Hi & ->).
    pose proof (validatedItems_spec _ _ _ Hi) as Hv. destruct (it_eligible item) eqn:He.
    2:{ rewrite Hd in Hv. by destruct Hv. }
    destruct (group_head (validatedItems records) (claimOf item) i) as (f & Hf & Hin);
      [apply claimIndexes_elem; eauto|].
    unfold markAt in Hd |- *. rewrite Hf in *. case_bool_decide; [done|].
    apply claimIndexes_elem in Hin as (x & Hx & Hex & Hcx).
    exists (it_res (propose (resolutionAt (validatedItems records) f).2 x)).
    assert (Hid : (resolutionAt (validatedItems records) f).2 = res_CandidateID (it_res x))
      by (unfold resolutionAt; by rewrite Hx).
    split; [|split; [by apply bool_decide_eq_true_2|by split_and!]].
    apply Ho. exists f, x. split; [done|]. rewrite Hex. unfold markAt. rewrite Hcx, Hf.
    by rewrite bool_decide_eq_true_2.
Qed.

(** A candidate is proposed for verification, or deduplicated into a
    proposed one, only if it comes from an input record with a complete
    identity, cites evidence, and every cited reference is in the trusted
    inventory without conflicting entries, authorised, valid, complete, of the
    candidate's own target UID and within the incident window. *)
Theorem proposed_claims_grounded (records : list CandidateRecord) (r : CandidateResolution) :
  r ∈ ar_Resolutions (AccountCandidates records) ->
  res_Disposition r = CandidateDispositionProposedClaim \/
  res_Disposition r = CandidateDispositionDeduplicated ->
  exists record, record ∈ records /\ candidate_accepted (normalizeCandidateRecord record) /\
    res_CandidateID r = trim_space (cc_ID (cr_Candidate record)) /\
    res_ClaimFingerprint r = FingerprintClaim (normalizeCandidateRecord record).
Proof.
  intros (i & item & Hi & ->)%resolution_origin Hd.
  pose proof (validatedItems_spec _ _ _ Hi) as Hv. destruct (it_eligible item).
  2:{ destruct Hv as [Hv|Hv]; rewrite Hv in Hd; by destruct Hd. }
  destruct Hv as (record & Hr & Hrec & Hacc & Hid & _ & Hcl). exists record. rewrite <- Hrec.
  assert (Hm : forall x, res_CandidateID (it_res (markAt (validatedItems records) x i item)) = res_CandidateID (it_res item)
    /\ res_ClaimFingerprint (it_res (markAt (validatedItems records) x i item)) = res_ClaimFingerprint (it_res item)).
  { intros x. unfold markAt. destruct (head _); [|done]. by case_bool_decide. }
  destruct (Hm (claimIndexes (validatedItems records) (claimOf item))) as [E1 E2]. rewrite E1, E2.
  split_and!; [done|done| |done]. rewrite Hid, Hrec. done.
Qed.
End AccountingProperties.

(** ** ReconcileDiagnosticCandidates (internal/investigation/reconciliation.go) *)

Inductive ReconciliationStatus := ReconciliationCompleted | ReconciliationFailed | ReconciliationNoCandidates.

Record CandidateReconciliationInput := mkReconciliationInput {
  ri_Diagnostics : list DiagnosticResult;
  ri_Evidence : list EvidenceIdentity;
  ri_EvidenceInventoryReady : bool;
  ri_IncidentStart : time;
  ri_IncidentEnd : time
}.

Record CandidateReconciliationResult := mkReconciliationResult {
  rr_Status : ReconciliationStatus;
  rr_Records : list CandidateRecord;
  rr_Accounting : AccountingResult;
  rr_Error : string
}.

Section Reconciliation.
Context {U : UnicodeTables} {D : DigestPrims}.

Definition zeroSummary : DispositionSummary := mkDispositionSummary 0 0 0 0 0 0 false.
Definition reconciliationFailure (err : string) : CandidateReconciliationResult :=
  mkReconciliationResult ReconciliationFailed [] (mkAccountingResult [] zeroSummary) err.

Definition evidenceLess (a b : EvidenceIdentity) : bool :=
  if trim_space (ei_ID a) != trim_space (ei_ID b) then str_ltb (trim_space (ei_ID a)) (trim_space (ei_ID b))
  else if trim_space (ei_TargetUID a) != trim_space (ei_TargetUID b)
  then str_ltb (trim_space (ei_TargetUID a)) (trim_space (ei_TargetUID b))
  else time_before (ei_IncidentStart a) (ei_IncidentStart b).

Definition recordLess (a b : CandidateRecord) : bool :=
  if cr_DiagnosticID a != cr_DiagnosticID b then str_ltb (cr_DiagnosticID a) (cr_DiagnosticID b)
  else if cr_DiagnosticVersion a != cr_DiagnosticVersion b
  then str_ltb (cr_DiagnosticVersion a) (cr_DiagnosticVersion b)
  else if cc_ID (cr_Candidate a) != cc_ID (cr_Candidate b)
  then str_ltb (cc_ID (cr_Candidate a)) (cc_ID (cr_Candidate b))
  else str_ltb (cc_Statement (cr_Candidate a)) (cc_Statement (cr_Candidate b)).

Definition reconciliationRecord (input : CandidateReconciliationInput) (evidence : list EvidenceIdentity)
    (result : DiagnosticResult) (candidate : CandidateClaim) : CandidateRecord :=
  mkCandidateRecord (trim_space (dr_DiagnosticID result)) (trim_space (dr_DiagnosticVersion result))
    (ri_IncidentStart input) (ri_IncidentEnd input)
    (mkCandidateClaim (trim_space (cc_ID candidate)) (cc_Type candidate) (trim_space (cc_Statement candidate))
       (trim_space (cc_TargetUID candidate)) (sort_strings (cc_EvidenceRefs candidate)))
    evidence.

(** The loop over the diagnostic results; [None]: a result without identity. *)
Fixpoint reconciliationRecords (input : CandidateReconciliationInput) (evidence : list EvidenceIdentity)
    (results : list DiagnosticResult) : option (list CandidateRecord) :=
  match results with
  | [] => Some []
  | result :: rest =>
      match dr_Claims result with
      | [] => reconciliationRecords input evidence rest
      | claims =>
          if (trim_space (dr_DiagnosticID result) == "") || (trim_space (dr_DiagnosticVersion result) == "")
          then None
          else records ← reconciliationRecords input evidence rest;
               Some (map (reconciliationRecord input evidence result) claims ++ records)
      end
  end.

Definition ReconcileDiagnosticCandidates (input : CandidateReconciliationInput) : CandidateReconciliationResult :=
  let evidence := sort_stable evidenceLess (ri_Evidence input) in
  match reconciliationRecords input evidence (ri_Diagnostics input) with
  | None => reconciliationFailure "DiagnosticIdentityUnavailable"
  | Some [] => mkReconciliationResult ReconciliationNoCandidates [] (mkAccountingResult [] zeroSummary) ""
  | Some records =>
      if negb (ri_EvidenceInventoryReady input) then reconciliationFailure "EvidenceInventoryUnavailable"
      else
        let records := sort_stable recordLess records in
        mkReconciliationResult ReconciliationCompleted records (AccountCandidates records) ""
  end.

(** A completed reconciliation accounts for every claim of every diagnostic. *)
Lemma reconciliation_total (input : CandidateReconciliationInput) :
  rr_Status (ReconcileDiagnosticCandidates input) = ReconciliationCompleted ->
  length (rr_Records (ReconcileDiagnosticCandidates input))
    = length (flat_map dr_Claims (ri_Diagnostics input)) /\
  ri_EvidenceInventoryReady input = true.
Proof.
  unfold ReconcileDiagnosticCandidates. generalize (sort_stable evidenceLess (ri_Evidence input)) as evidence.
  intros evidence.
  assert (H : forall results records, reconciliationRecords input evidence results = Some records ->
    length records = length (flat_map dr_Claims results)).
  { induction results as [|r results IH]; intros records; simpl; [by intros [= <-]|].
    destruct (dr_Claims r) as [|c cs]; [apply IH|]. destruct (_ || _)%bool; [done|].
    destruct (reconciliationRecords input evidence results) as [rs|] eqn:E; [|done]. simpl. intros [= <-].
    simpl. by rewrite !length_app, length_map, (IH rs). }
  destruct (reconciliationRecords _ _ _) as [[|c cs]|] eqn:E; [done| |done].
  destruct (ri_EvidenceInventoryReady input); cbn [negb rr_Status rr_Records]; [|done]. intros _.
  rewrite sort_stable_length. split; [|done]. by apply H.
Qed.
End Reconciliation.

(** ** Examples *)

Section AccountingWitness.
#[local] Existing Instance plain_tables.
#[local] Existing Instance plain_digest.

Definition accounting_claim (id : string) : CandidateClaim :=
  mkCandidateClaim id ClaimRootCause "The Pod lacks CPU." "pod-1" ["e1"].
Definition accounting_record (diagnostic id : string) : CandidateRecord :=
  mkCandidateRecord diagnostic "v1" 5 9 (accounting_claim id)
    [mkEvidenceIdentity "e1" "pod-1" 5 9 true true false].
Definition accounting_records : list CandidateRecord :=
  [accounting_record "scheduling" "a"; accounting_record "other" "b"].

Lemma accounting_records_dispositions :
  map res_Disposition (ar_Resolutions (AccountCandidates accounting_records))
  = [CandidateDispositionProposedClaim; CandidateDispositionDeduplicated].
Proof. vm_compute. reflexivity. Qed.

Lemma proposed_claims_grounded_witness :
  exists r record, r ∈ ar_Resolutions (AccountCandidates accounting_records) /\
    record ∈ accounting_records /\ candidate_accepted (normalizeCandidateRecord record).
Proof.
  pose proof accounting_records_dispositions as H.
  destruct (ar_Resolutions (AccountCandidates accounting_records)) as [|r rs] eqn:Hr; [discriminate H|].
  assert (Hin : r ∈ ar_Resolutions (AccountCandidates accounting_records)) by (rewrite Hr; left).
  assert (Hd : res_Disposition r = CandidateDispositionProposedClaim) by (injection H; auto).
  destruct (proposed_claims_grounded accounting_records r Hin (or_introl Hd)) as (record & Hrec & Ha & _).
  exists r, record. split; [left|]. split; [exact Hrec|exact Ha].
Defined.
End AccountingWitness.
