(* ===== verification/Egress.v ===== *)
(** * Egress of evidence to model providers (internal/investigation/service.go)

    What an investigation may send to a model provider: the filters of the
    provider's data policy, the audit of a decision, and the model input built
    from the filtered evidence. *)

From Stdlib Require Import ZArith Lia.
From stdpp Require Import base list strings gmap.
From S2P Require Import Prelude GoStrings Utf8 Api InvestigationApi Digest DataClassification Observation.

(** ** Providers (api/v1alpha1/modelprovider_types.go) *)

Record SecretKeyRef := mkSecretKeyRef { skr_Name : string; skr_Key : string }.

(** The endpoint and the timeout, which only configure the client, are left out. *)
Record ModelProviderSpec := mkModelProviderSpec {
  mps_Provider : string;
  mps_Model : string;
  mps_APIKeySecretRef : option SecretKeyRef;
  mps_MaxTokens : Z;
  mps_DataPolicy : ModelProviderDataPolicy;
  mps_FallbackProviderRef : string
}.

Record ModelProvider := mkModelProvider { mpr_Meta : ObjectMeta; mpr_Spec : ModelProviderSpec }.

Definition policyOf (p : ModelProvider) : ModelProviderDataPolicy := mps_DataPolicy (mpr_Spec p).

Record Issue := mkIssue {
  iss_Reason : string;
  iss_Message : string;
  iss_EgressAudit : option ProviderEgressAudit
}.

(** The two shadow-mode results are left out: nothing here reads them. *)
Record EvidenceCollectionResult := mkEvidenceCollectionResult {
  ec_Summary : string;
  ec_EvidenceRefs : list EvidenceRef;
  ec_Observations : list Observation;
  ec_SchedulingEvidence : list SchedulingEvidence;
  ec_Scheduling : list SchedulingObservation;
  ec_Diagnostics : list DiagnosticResult;
  ec_Issue : option Issue
}.

(** ** The model input (internal/domain/types.go) *)

Record Signal := mkSignal {
  sig_ID : string;
  sig_Kind : string;
  sig_Source : string;
  sig_Severity : string;
  sig_Message : string;
  sig_Resource : ResourceRef;
  sig_Timestamp : time
}.

Record TimelineEvent := mkTimelineEvent { te_Timestamp : time; te_Kind : string; te_Summary : string }.

Record Evidence := mkEvidence {
  evd_Kind : string;
  evd_Source : string;
  evd_Summary : string;
  evd_Query : string;
  evd_Reason : string;
  evd_Link : string
}.

Record EvidenceBundle := mkEvidenceBundle {
  eb_Logs : list string;
  eb_Metrics : gmap string Z;
  eb_Events : list string;
  eb_References : list Evidence;
  eb_Observations : list Observation
}.

Record IncidentContext := mkIncidentContext {
  ic_ID : string;
  ic_Cluster : string;
  ic_Service : string;
  ic_Resource : ResourceRef;
  ic_Summary : string;
  ic_Signals : list Signal;
  ic_Metadata : gmap string string;
  ic_GeneratedAt : time
}.

Record IngestionOutput := mkIngestionOutput {
  io_Context : IncidentContext;
  io_Evidence : EvidenceBundle;
  io_Signals : list Signal;
  io_TimelineResource : ResourceRef;
  io_Timeline : list TimelineEvent;
  io_DedupedFrom : Z
}.

Definition logPlaceholder : string := "log sample omitted by provider data policy".

Section Egress.
Context {U : UnicodeTables} {D : DigestPrims}.

Definition isHostedProvider (providerType : string) : bool :=
  mem_str (to_lower (trim_space providerType)) ["openai"; "claude"; "gemini"].

(** ** Filters of the data policy *)

(** Every named case of the switch but [kubernetesevent] maps to itself. *)
Definition normalizeEvidencePolicyKind (kind : string) : string :=
  let k := trim_suffix (to_lower (trim_space kind)) "observation" in
  if k == "kubernetesevent" then "event" else k.

Definition evidenceKindAllowed (kind : string) (allowed : list string) : bool :=
  match allowed with
  | [] => true
  | _ => existsb (fun candidate => normalizeEvidencePolicyKind candidate == normalizeEvidencePolicyKind kind) allowed
  end.

Definition with_ref_text (r : EvidenceRef) (summary query link : string) : EvidenceRef :=
  mkEvidenceRef (er_ID r) (er_Kind r) (er_Source r) summary query (er_QueryDigest r) (er_ContentDigest r)
    (er_DigestAlgorithm r) (er_DigestCanonicalization r) (er_RedactionProfile r) (er_Classification r)
    (er_Truncated r) (er_TruncationReason r) (er_LimitDimension r) (er_Limit r) (er_OriginalCount r)
    (er_RetainedCount r) (er_OriginalBytes r) (er_RetainedBytes r) (er_CollectedAt r) (er_PayloadRef r)
    (er_Reason r) link (er_RelatedTargets r).

Definition filterRef (policy : ModelProviderDataPolicy) (r : EvidenceRef) : option EvidenceRef :=
  if negb (evidenceKindAllowed (er_Kind r) (mp_AllowedEvidenceKinds policy)) then None
  else if equal_fold (er_Kind r) "log" && negb (mp_AllowLogSamples policy) then
    Some (with_ref_text r logPlaceholder "" "")
  else Some r.
Definition filterEvidenceRefsForProviderPolicy (refs : list EvidenceRef) (policy : ModelProviderDataPolicy)
    : list EvidenceRef := omap (filterRef policy) refs.

Definition filterObservation (policy : ModelProviderDataPolicy) (o : Observation) : option Observation :=
  if negb (evidenceKindAllowed (ob_Type o) (mp_AllowedEvidenceKinds policy)) then None
  else if (ob_Type o == ObservationTypeLog) && negb (mp_AllowLogSamples policy) then
    let v := ob_Value o in
    Some (with_observation_text o
            (mkObservationValue (ov_Metric v)
               (match ov_Log v with Some _ => Some (mkLogObservation logPlaceholder) | None => None end)
               (ov_Event v) (ov_DeploymentCondition v) (ov_ServiceConfiguration v)
               (ov_ProbeConfiguration v) (ov_ContainerTermination v))
            logPlaceholder)
  else Some o.
Definition filterObservationsForProviderPolicy (observations : list Observation) (policy : ModelProviderDataPolicy)
    : list Observation := omap (filterObservation policy) observations.

(** The set [allowed] of the three filters below. *)
Definition retainedIDs (refs : list EvidenceRef) : list string :=
  filter (fun id => id <> "") (map er_ID refs).

Definition filterSchedulingEvidenceForEvidence (records : list SchedulingEvidence) (refs : list EvidenceRef)
    : list SchedulingEvidence :=
  omap (fun record =>
    let events := List.filter (fun e => mem_str (sev_ID e) (retainedIDs refs)) (se_Events record) in
    if negb (mem_str (se_ID record) (retainedIDs refs)) && bool_decide (events = []) then None
    else Some (with_scheduling_events record events)) records.

Definition filterSchedulingObservationsForEvidence (observations : list SchedulingObservation)
    (refs : list EvidenceRef) : list SchedulingObservation :=
  omap (fun o =>
    let kept := List.filter (fun id => mem_str id (retainedIDs refs)) (so_EvidenceRefs o) in
    if negb (bool_decide (so_EvidenceRefs o = [])) && bool_decide (kept = []) then None
    else Some (with_scheduling_refs o kept)) observations.

Definition filterClaim (refs : list EvidenceRef) (c : CandidateClaim) : option CandidateClaim :=
  let kept := List.filter (fun id => mem_str id (retainedIDs refs)) (cc_EvidenceRefs c) in
  if bool_decide (kept = []) && negb (bool_decide (cc_EvidenceRefs c = [])) then None
  else Some (mkCandidateClaim (cc_ID c) (cc_Type c) (cc_Statement c) (cc_TargetUID c) kept).
Definition filterDiagnosticResultsForEvidence (results : list DiagnosticResult) (refs : list EvidenceRef)
    : list DiagnosticResult :=
  omap (fun r =>
    let claims := omap (filterClaim refs) (dr_Claims r) in
    if bool_decide (claims = []) && bool_decide (dr_Warnings r = []) then None
    else Some (mkDiagnosticResult (dr_DiagnosticID r) (dr_DiagnosticVersion r) (dr_Status r) (dr_Summary r)
                 claims (dr_MissingRequirements r) (dr_Warnings r))) results.

(** ** The audit *)

Definition ObservationJSONV1 : string := "fluxseer-rca-observation-json-v1".

Definition bool_field (key : string) (value : bool) : list (string * json) :=
  if value then [(key, JBool true)] else [].
Definition strings_field (key : string) (value : list string) : list (string * json) :=
  match value with [] => [] | _ => [(key, strings_json value)] end.

Definition data_classification_json (c : DataClassification) : json :=
  JObj (str_field "level" (dc_Level c) ++ strings_field "sensitivityTags" (dc_SensitivityTags c)
        ++ str_field "source" (dc_Source c) ++ str_field "policyVersion" (dc_PolicyVersion c)).

(** [metav1.Time] marshals to whole seconds, its zero value to null. *)
Definition metav1_time_json (t : time) : json :=
  if is_zero_time t then JNull else JStr (CanonicalTime (t / second * second)).
Definition time_field (key : string) (value : option time) : list (string * json) :=
  match value with Some t => [(key, metav1_time_json t)] | None => [] end.

Definition payload_ref_json (p : PayloadRef) : json :=
  JObj (str_field "scheme" (pr_Scheme p) ++ str_field "digest" (pr_Digest p)
        ++ bool_field "encrypted" (pr_Encrypted p) ++ time_field "expiresAt" (pr_ExpiresAt p)
        ++ str_field "retentionClass" (pr_RetentionClass p)).

Definition evidence_ref_json (r : EvidenceRef) : json :=
  JObj (str_field "id" (er_ID r) ++ str_field "kind" (er_Kind r) ++ str_field "source" (er_Source r)
        ++ str_field "summary" (er_Summary r) ++ str_field "query" (er_Query r)
        ++ str_field "queryDigest" (er_QueryDigest r) ++ str_field "contentDigest" (er_ContentDigest r)
        ++ str_field "digestAlgorithm" (er_DigestAlgorithm r)
        ++ str_field "digestCanonicalization" (er_DigestCanonicalization r)
        ++ str_field "redactionProfile" (er_RedactionProfile r)
        ++ match er_Classification r with
           | Some c => [("classification", data_classification_json c)] | None => [] end
        ++ bool_field "truncated" (er_Truncated r) ++ str_field "truncationReason" (er_TruncationReason r)
        ++ str_field "limitDimension" (er_LimitDimension r) ++ int_field "limit" (er_Limit r)
        ++ int_field "originalCount" (er_OriginalCount r) ++ int_field "retainedCount" (er_RetainedCount r)
        ++ int_field "originalBytes" (er_OriginalBytes r) ++ int_field "retainedBytes" (er_RetainedBytes r)
        ++ time_field "collectedAt" (er_CollectedAt r)
        ++ match er_PayloadRef r with Some p => [("payloadRef", payload_ref_json p)] | None => [] end
        ++ str_field "reason" (er_Reason r) ++ str_field "link" (er_Link r)
        ++ match er_RelatedTargets r with
           | [] => [] | l => [("relatedTargets", JArr (map target_ref_json l))] end).

Definition evidenceKindsForAudit (refs : list EvidenceRef) : list string :=
  sorted_set (filter (fun k => k <> "") (map (fun r => trim_space (er_Kind r)) refs)).

Definition logSamplesIncludedForAudit (refs : list EvidenceRef) (policy : ModelProviderDataPolicy) : bool :=
  mp_AllowLogSamples policy
  && existsb (fun r => equal_fold (er_Kind r) "log" && (trim_space (er_Summary r) != "")) refs.

Definition providerDataPolicyAudit (provider : ModelProvider) (refs : list EvidenceRef)
    (decision : ClassificationDecision) (policy : ModelProviderDataPolicy) : ProviderEgressAudit :=
  mkProviderEgressAudit (cd_Decision decision) (cd_Reason decision)
    (to_lower (trim_space (mps_Provider (mpr_Spec provider))))
    (digestString ObservationJSONV1 (JArr (map evidence_ref_json refs)))
    (evidenceKindsForAudit refs) (cd_SensitivityTagsSent decision)
    (logSamplesIncludedForAudit refs policy) (cd_MaximumObserved decision) (cd_MaximumAllowed decision)
    (cd_MaximumSent decision) (cd_ClassificationVersion decision).

(** ** applyProviderDataPolicy *)

Definition filteredEvidence (policy : ModelProviderDataPolicy) (e : EvidenceCollectionResult)
    : EvidenceCollectionResult :=
  let refs := filterEvidenceRefsForProviderPolicy (ec_EvidenceRefs e) policy in
  mkEvidenceCollectionResult (ec_Summary e) refs
    (filterObservationsForProviderPolicy (ec_Observations e) policy)
    (filterSchedulingEvidenceForEvidence (ec_SchedulingEvidence e) refs)
    (filterSchedulingObservationsForEvidence (ec_Scheduling e) refs)
    (filterDiagnosticResultsForEvidence (ec_Diagnostics e) refs) (ec_Issue e).

Definition with_evidence_summary (e : EvidenceCollectionResult) (summary : string) : EvidenceCollectionResult :=
  mkEvidenceCollectionResult summary (ec_EvidenceRefs e) (ec_Observations e) (ec_SchedulingEvidence e)
    (ec_Scheduling e) (ec_Diagnostics e) (ec_Issue e).

(** The decision recorded when transmission is not allowed at all. *)
Definition transmissionDenied (d : ClassificationDecision) : ClassificationDecision :=
  mkClassificationDecision DecisionRejected ReasonExternalTransmissionDeny (cd_Message d)
    (cd_MaximumObserved d) (cd_MaximumAllowed d) "" [] (cd_ClassificationVersion d).

Definition applyProviderDataPolicy (provider : option ModelProvider) (evidence : EvidenceCollectionResult)
    : EvidenceCollectionResult * option Issue :=
  match provider with
  | None => (evidence, None)
  | Some provider =>
      let spec := mpr_Spec provider in
      let name := om_Name (mpr_Meta provider) in
      if negb (isHostedProvider (mps_Provider spec)) then (evidence, None)
      else
        let policy := mps_DataPolicy spec in
        let filtered := filteredEvidence policy evidence in
        let decision := EvaluateProviderPolicy policy (ec_EvidenceRefs filtered) in
        if negb (mp_AllowExternalTransmission policy) then
          (evidence,
           Some (mkIssue "ProviderDataPolicyDenied"
                   ("ModelProvider " +:+ quote name
                    +:+ " requires spec.dataPolicy.allowExternalTransmission=true before evidence can be sent to hosted provider "
                    +:+ quote (mps_Provider spec))
                   (Some (providerDataPolicyAudit provider (ec_EvidenceRefs filtered)
                            (transmissionDenied decision) policy))))
        else if cd_Decision decision == DecisionRejected then
          (filtered,
           Some (mkIssue "ProviderDataPolicyRejected"
                   ("ModelProvider " +:+ quote name +:+ " rejected hosted provider transmission: "
                    +:+ cd_Message decision)
                   (Some (providerDataPolicyAudit provider (ec_EvidenceRefs filtered) decision policy))))
        else
          (with_evidence_summary filtered
             (ec_Summary evidence +:+ "; provider data policy retained "
              +:+ itoa (Z.of_nat (length (ec_EvidenceRefs filtered))) +:+ " evidence refs"), None)
  end.

(** ** buildInvestigationIngestionOutput *)

(** [firstNonEmpty]: the first value that is not blank, as it is. *)
Fixpoint firstNonEmpty (values : list string) : string :=
  match values with
  | [] => ""
  | v :: vs => if trim_space v != "" then v else firstNonEmpty vs
  end.

Definition normalizeEvidenceKind (kind : string) : string :=
  let k := to_lower (trim_space kind) in
  if k == "metric" then "metric" else if k == "log" then "log" else if k == "event" then "event"
  else if k == "serviceconfiguration" then "serviceConfiguration"
  else if k == "probeconfiguration" then "probeConfiguration" else "signal".

Definition claimAdvisory (r : DiagnosticResult) (c : CandidateClaim) : list string :=
  let statement := trim_space (cc_Statement c) in
  if statement == "" then []
  else [dr_DiagnosticID r +:+ "/" +:+ dr_Status r +:+ " " +:+ cc_Type c +:+ " candidate: " +:+ statement].
Definition warningAdvisory (r : DiagnosticResult) (w : string) : list string :=
  let text := trim_space w in
  if text == "" then [] else [dr_DiagnosticID r +:+ "/" +:+ dr_Status r +:+ " warning: " +:+ text].

Definition diagnosticAdvisoryText (results : list DiagnosticResult) : string :=
  let parts := flat_map (fun r => flat_map (claimAdvisory r) (dr_Claims r)
                                  ++ flat_map (warningAdvisory r) (dr_Warnings r)) results in
  match parts with
  | [] => ""
  | _ => "UNVERIFIED diagnostic candidates; Claim Verification remains authoritative. " +:+ join " | " parts
  end.

Definition refSignal (target : ResourceRef) (now : time) (index : nat) (r : EvidenceRef) : Signal :=
  mkSignal ("investigation-signal-" +:+ itoa (Z.of_nat index + 1)) (normalizeEvidenceKind (er_Kind r))
    (firstNonEmpty [er_Source r; er_Kind r]) SeverityMedium (er_Summary r) target now.
Definition refTimeline (now : time) (r : EvidenceRef) : TimelineEvent :=
  mkTimelineEvent now (normalizeEvidenceKind (er_Kind r)) (er_Summary r).
Definition refEvidence (r : EvidenceRef) : Evidence :=
  mkEvidence (er_Kind r) (er_Source r) (er_Summary r) (er_Query r) (er_Reason r) (er_Link r).
Definition refLogs (r : EvidenceRef) : list string := if er_Kind r == "log" then [er_Summary r] else [].
Definition refEvents (r : EvidenceRef) : list string :=
  if mem_str (er_Kind r) ["event"; "serviceConfiguration"; "probeConfiguration"]
  then [firstNonEmpty [er_Reason r; er_Summary r]] else [].
Fixpoint refMetrics (index : nat) (refs : list EvidenceRef) (metrics : gmap string Z) : gmap string Z :=
  match refs with
  | [] => metrics
  | r :: rest =>
      refMetrics (S index) rest
        (if er_Kind r == "metric"
         then <[firstNonEmpty [er_Source r; "metric-" +:+ itoa (Z.of_nat index)] := Z.of_nat index + 1]> metrics
         else metrics)
  end.

Definition buildInvestigationIngestionOutput (spec : InvestigationRequestSpec) (target : ResourceRef)
    (evidence : EvidenceCollectionResult) (now : time) : IngestionOutput :=
  let refs := ec_EvidenceRefs evidence in
  let question := trim_space (irs_Question spec) in
  let signals := imap (refSignal target now) refs in
  let advisory := diagnosticAdvisoryText (ec_Diagnostics evidence) in
  let metadata : gmap string string :=
    <["question" := question]> (<["mode" := firstNonEmpty [irs_Mode spec; InvestigationModeReadOnly]]> ∅) in
  mkIngestionOutput
    (mkIncidentContext ("investigation-" +:+ rr_Namespace target +:+ "-" +:+ rr_Name target)
       (rr_Cluster target) (rr_Service target) target
       (if question != "" then question +:+ " | " +:+ ec_Summary evidence else ec_Summary evidence)
       signals
       (if advisory != "" then <["diagnosticAdvisories" := advisory]> metadata else metadata) now)
    (mkEvidenceBundle (flat_map refLogs refs) (refMetrics 0 refs ∅) (flat_map refEvents refs)
       (map refEvidence refs) (ec_Observations evidence))
    signals target (map (refTimeline now) refs) (Z.of_nat (length refs)).
End Egress.
