(* ===== verification/Gateway.v ===== *)
(** * The model gateway (internal/modelgateway, Service.GenerateRCA)

    Analysis of an incident by a model provider with its fallback chain, as a
    program over the provider registry, the API server (ModelProviders and
    Secrets) and the provider call, and the two callers: the investigation
    service, which applies each provider's data policy, and the direct path of
    the risk rules.  The fallback recursion runs on fuel. *)

From Stdlib Require Import ZArith Lia.
From stdpp Require Import base list strings gmap.
From S2P Require Import Prelude GoStrings Utf8 Api InvestigationApi Digest Prog DataClassification Observation Egress.

(** A Go error that may be an [*AnalyzeError]. *)
Inductive gw_error :=
| AnalyzeError (reason message : string)
| OtherError (e : error).

(** What the reasoning engine returns when it fails: a [*model.ProviderError]
    or another error. *)
Inductive engine_error :=
| ProviderError (reason message : string)
| EngineError.

(** A Go error that may be a [*ResolveError]. *)
Inductive resolve_error :=
| ResolveError (reason message : string)
| ReadError (e : error).

Definition DefaultSystemNamespace : string := "fluxseer-rca-system".

Record TraceAttempt := mkTraceAttempt { ta_Provider : ModelProvider; ta_Result : string; ta_Reason : string }.

Definition maxTraceAttempts : nat := 8.

(** What of the Gateway is configured. *)
Record GatewayConfig := mkGatewayConfig {
  gw_Providers : bool;
  gw_Secrets : bool;
  gw_SecretsClient : bool;
  gw_Resolver : bool;
  gw_ResolverClient : bool;
  gw_SystemNamespace : string
}.

Section Gateway.
Context {U : UnicodeTables} {D : DigestPrims} {Reasoning : Type}.
Context (cfg : GatewayConfig).

(** [GComplete] is the reasoning engine with the redactor in front of it: it
    gets the input as the gateway assembles it. *)
Inductive gw_op : Type -> Type :=
| GRegistered (providerType : string) : gw_op bool
| GConfigurable (providerType : string) : gw_op bool
| GGetProvider (namespace name : string) : gw_op (result ModelProvider)
| GGetSecret (namespace name : string) : gw_op (result (gmap string string))
| GComplete (provider : ModelProvider) (apiKey : string) (input : IngestionOutput)
      : gw_op (Reasoning + engine_error).

Definition gprog : Type -> Type := prog gw_op.

(** ** Providers *)

Definition providerKey (p : ModelProvider) : string :=
  om_Namespace (mpr_Meta p) +:+ "/" +:+ om_Name (mpr_Meta p).
Definition providerName (p : ModelProvider) : string := om_Name (mpr_Meta p).

Definition emptyDataPolicy : ModelProviderDataPolicy := mkModelProviderDataPolicy false [] [] false false "".
Definition DefaultHeuristicProvider (namespace : string) : ModelProvider :=
  mkModelProvider (mkObjectMeta "default-heuristic" namespace "" "" 0 ∅ ∅ [])
    (mkModelProviderSpec "heuristic" "built-in" None 512 emptyDataPolicy "").

(** The loop over the candidate namespaces. *)
Fixpoint resolveIn (name : string) (all namespaces : list string) : gprog (ModelProvider + resolve_error) :=
  match namespaces with
  | [] =>
      Ret (inr (ResolveError "ProviderNotFound"
        ("ModelProvider " +:+ quote name +:+ " was not found in namespaces [" +:+ join " " all +:+ "]")))
  | ns :: rest =>
      got <~! GGetProvider ns name;
      match got with
      | Ok p => Ret (inl p)
      | Err e => if is_not_found e then resolveIn name all rest else Ret (inr (ReadError e))
      end
  end.

(** [KubeResolver.Resolve]; an empty name is a missing reference. *)
Definition resolveProvider (namespace name : string) : gprog (ModelProvider + resolve_error) :=
  if name == "" then Ret (inl (DefaultHeuristicProvider namespace))
  else if negb (gw_ResolverClient cfg) then
    Ret (inr (ResolveError "ResolverUnavailable" "model provider resolver is not configured"))
  else
    let systemNamespace := if gw_SystemNamespace cfg == "" then DefaultSystemNamespace
                           else gw_SystemNamespace cfg in
    let namespaces := namespace :: (if namespace != systemNamespace then [systemNamespace] else []) in
    resolveIn name namespaces namespaces.

Definition secretError (provider : ModelProvider) (reason text : string) : gw_error :=
  AnalyzeError reason (text +:+ quote (providerName provider)).

(** [KubeSecretResolver.ResolveAPIKey]. *)
Definition ResolveAPIKey (provider : ModelProvider) : gprog (string + gw_error) :=
  match mps_APIKeySecretRef (mpr_Spec provider) with
  | None =>
      Ret (inr (AnalyzeError "SecretRefMissing"
                  ("ModelProvider " +:+ quote (providerName provider) +:+ " requires apiKeySecretRef")))
  | Some ref =>
      if negb (gw_SecretsClient cfg) then
        Ret (inr (AnalyzeError "SecretReaderUnavailable" "model provider secret resolver is not configured"))
      else
        let ns := om_Namespace (mpr_Meta provider) in
        let key := ns +:+ "/" +:+ skr_Name ref in
        got <~! GGetSecret ns (skr_Name ref);
        Ret (match got with
             | Err e =>
                 if is_not_found e then
                   inr (secretError provider "SecretNotFound"
                          ("secret " +:+ key +:+ " was not found for ModelProvider "))
                 else inr (AnalyzeError "SecretReadFailed"
                             ("read secret " +:+ key +:+ " for ModelProvider " +:+ quote (providerName provider)
                              +:+ ": " +:+ err_msg e))
             | Ok data =>
                 match data !! skr_Key ref with
                 | None =>
                     inr (secretError provider "SecretKeyMissing"
                            ("secret " +:+ key +:+ " missing key " +:+ quote (skr_Key ref)
                             +:+ " for ModelProvider "))
                 | Some value =>
                     if trim_space value == "" then
                       inr (secretError provider "SecretValueEmpty"
                              ("secret " +:+ key +:+ " key " +:+ quote (skr_Key ref)
                               +:+ " is empty for ModelProvider "))
                     else inl value
                 end
             end)
  end.

Definition requiresAPIKey (providerType : string) : bool :=
  mem_str (to_lower (trim_space providerType)) ["openai"; "gemini"; "claude"].

(** [configureProvider]: the key to call with. *)
Definition configureProvider (providerType : string) (provider : ModelProvider) : gprog (string + gw_error) :=
  configurable <~! GConfigurable providerType;
  if negb configurable then Ret (inl "")
  else if requiresAPIKey (mps_Provider (mpr_Spec provider)) then
    if negb (gw_Secrets cfg) then
      Ret (inr (AnalyzeError "SecretReaderUnavailable"
        ("model provider " +:+ quote (providerName provider)
         +:+ " requires apiKeySecretRef but no secret resolver is configured")))
    else ResolveAPIKey provider
  else Ret (inl "").

(** The engine's answer as the gateway reports it. *)
Definition completed (provider : ModelProvider) (answer : Reasoning + engine_error) : Reasoning + gw_error :=
  match answer with
  | inl r => inl r
  | inr (ProviderError reason message) => inr (AnalyzeError reason message)
  | inr EngineError =>
      inr (AnalyzeError "ProviderRequestFailed"
             ("model provider " +:+ quote (providerName provider) +:+ " request failed"))
  end.

Definition analyzeSingleProvider (provider : ModelProvider) (input : IngestionOutput)
    : gprog (Reasoning + gw_error) :=
  let spec := mpr_Spec provider in
  let providerType := to_lower (trim_space (mps_Provider spec)) in
  if requiresAPIKey providerType && negb (mp_AllowExternalTransmission (mps_DataPolicy spec)) then
    Ret (inr (AnalyzeError "ProviderDataPolicyDenied"
      ("ModelProvider " +:+ quote (providerName provider)
       +:+ " requires spec.dataPolicy.allowExternalTransmission=true before evidence can be sent to hosted provider "
       +:+ quote (mps_Provider spec))))
  else
    registered <~! GRegistered providerType;
    if negb registered then
      Ret (inr (AnalyzeError "ProviderUnsupported"
        ("model provider type " +:+ quote (mps_Provider spec) +:+ " is not supported by the gateway")))
    else
      configured <~ configureProvider providerType provider;
      match configured with
      | inr e => Ret (inr e)
      | inl apiKey =>
          answer <~! GComplete provider apiKey input;
          Ret (completed provider answer)
      end.

(** ** Fallback *)

Definition shouldAttemptProviderFallback (provider : ModelProvider) (reason : string) : bool :=
  if trim_space (mps_FallbackProviderRef (mpr_Spec provider)) == "" then false
  else mem_str reason
    ["ProviderUnavailable"; "ProviderUnsupported"; "ProviderDataPolicyDenied"; "ProviderAuthFailed";
     "ProviderRateLimited"; "ProviderRequestInvalid"; "InvalidProviderResponse"; "APIKeyMissing";
     "SecretRefMissing"; "SecretReaderUnavailable"; "SecretReadFailed"; "SecretNotFound";
     "SecretKeyMissing"; "SecretValueEmpty"].

Definition fallbackFailure (provider : ModelProvider) (primaryReason text : string) : string :=
  "ModelProvider " +:+ quote (providerName provider) +:+ " failed with " +:+ primaryReason
  +:+ " and fallback provider " +:+ quote (mps_FallbackProviderRef (mpr_Spec provider)) +:+ text.

Definition resolveFallbackProvider (provider : ModelProvider) (primaryReason : string) (visited : list string)
    : gprog (ModelProvider + gw_error) :=
  if negb (gw_Resolver cfg) then
    Ret (inr (AnalyzeError "ResolverUnavailable"
      (fallbackFailure provider primaryReason
         " cannot be resolved because the gateway resolver is not configured")))
  else
    resolved <~ resolveProvider (om_Namespace (mpr_Meta provider))
                  (mps_FallbackProviderRef (mpr_Spec provider));
    Ret (match resolved with
         | inr (ResolveError reason message) =>
             inr (AnalyzeError reason
                    (fallbackFailure provider primaryReason (" could not be resolved: " +:+ message)))
         | inr (ReadError e) => inr (OtherError e)
         | inl fallback =>
             if mem_str (providerKey fallback) visited then
               inr (AnalyzeError "ProviderFallbackLoop"
                      ("ModelProvider " +:+ quote (providerName provider) +:+ " fallback chain loops through "
                       +:+ quote (providerName fallback)))
             else inl fallback
         end).

Definition recordTraceAttempt (trace : list TraceAttempt) (provider : ModelProvider) (err : option gw_error)
    : list TraceAttempt :=
  if (maxTraceAttempts <=? length trace)%nat then trace
  else trace ++ [match err with
                 | None => mkTraceAttempt provider "Succeeded" "Completed"
                 | Some (AnalyzeError reason _) => mkTraceAttempt provider reason reason
                 | Some (OtherError _) => mkTraceAttempt provider "Failed" "ProviderRequestFailed"
                 end].

(** The answer, the trace, and the providers whose input was asked for. *)
Record Analysis := mkAnalysis {
  an_Result : Reasoning + gw_error;
  an_Trace : list TraceAttempt;
  an_Asked : list ModelProvider
}.

(** [analyzeIngestionWithFallback] of a provider that is not nil; [None] when the
    fuel is spent. *)
Fixpoint analyzeIngestionWithFallback (fuel : nat) (provider : ModelProvider)
    (inputForProvider : ModelProvider -> IngestionOutput + gw_error) (visited : list string)
    (trace : list TraceAttempt) (asked : list ModelProvider) : gprog (option Analysis) :=
  match fuel with
  | O => Ret None
  | S fuel =>
      if negb (gw_Providers cfg) then
        Ret (Some (mkAnalysis (inr (AnalyzeError "GatewayUnavailable"
          "model gateway provider registry is not configured")) trace asked))
      else
        let visited := providerKey provider :: visited in
        let asked := asked ++ [provider] in
        answer <~ match inputForProvider provider with
                  | inr e => Ret (inr e)
                  | inl input => analyzeSingleProvider provider input
                  end;
        match answer with
        | inl r => Ret (Some (mkAnalysis (inl r) (recordTraceAttempt trace provider None) asked))
        | inr e =>
            let trace := recordTraceAttempt trace provider (Some e) in
            match e with
            | AnalyzeError reason _ =>
                if shouldAttemptProviderFallback provider reason then
                  fallback <~ resolveFallbackProvider provider reason visited;
                  match fallback with
                  | inr e' => Ret (Some (mkAnalysis (inr e') trace asked))
                  | inl fallback =>
                      analyzeIngestionWithFallback fuel fallback inputForProvider visited trace asked
                  end
                else Ret (Some (mkAnalysis (inr e) trace asked))
            | OtherError _ => Ret (Some (mkAnalysis (inr e) trace asked))
            end
        end
  end.

(** [AnalyzeIngestionWithProviderInputTrace]. *)
Definition AnalyzeIngestionWithProviderInputTrace (fuel : nat) (provider : option ModelProvider)
    (inputForProvider : ModelProvider -> IngestionOutput + gw_error) : gprog (option Analysis) :=
  match provider with
  | None => Ret (Some (mkAnalysis (inr (AnalyzeError "ProviderUnavailable" "model provider is nil")) [] []))
  | Some p => analyzeIngestionWithFallback fuel p inputForProvider [] [] []
  end.

(** ** The direct path of the risk rules: [Gateway.Analyze] *)

(** The fields of rule.Match and of its signal that the gateway reads. *)
Record Match := mkMatch {
  mt_SignalName : string;
  mt_SignalType : string;
  mt_Summary : string;
  mt_Severity : string;
  mt_Evidence : list EvidenceRef
}.

Definition combineMatchSummaries (matches : list Match) : string := join " | " (map mt_Summary matches).

Definition signalKind (signalType : string) : string :=
  let t := to_lower (trim_space signalType) in
  if t == "prometheus" then "metric" else if t == "loki" then "log"
  else if t == "kubernetesevent" then "event" else "signal".
Definition signalSource (signalType : string) : string :=
  let t := to_lower (trim_space signalType) in
  if t == "prometheus" then "prometheus" else if t == "loki" then "loki"
  else if t == "kubernetesevent" then "kubernetes-events" else signalType.
Definition normalizeMatchSeverity (value : string) : string :=
  let v := to_lower (trim_space value) in
  if v == SeverityLow then SeverityLow else if v == SeverityHigh then SeverityHigh
  else if v == SeverityUnsafe then SeverityUnsafe else SeverityMedium.

Definition matchSignal (target : ResourceRef) (now : time) (index : nat) (m : Match) : Signal :=
  mkSignal ("rule-signal-" +:+ itoa (Z.of_nat index + 1)) (signalKind (mt_SignalType m))
    (signalSource (mt_SignalType m)) (normalizeMatchSeverity (mt_Severity m)) (mt_Summary m) target now.
Definition matchTimeline (now : time) (m : Match) : TimelineEvent :=
  mkTimelineEvent now (signalKind (mt_SignalType m)) (mt_Summary m).
Definition matchMetrics (metrics : gmap string Z) (m : Match) : gmap string Z :=
  if existsb (fun e => er_Kind e == "metric") (mt_Evidence m)
  then <[mt_SignalName m := Z.of_nat (length (mt_Evidence m))]> metrics else metrics.

Definition buildIngestionOutput (target : ResourceRef) (matches : list Match) (now : time) : IngestionOutput :=
  let evidence := flat_map mt_Evidence matches in
  let summaries kind := map er_Summary (List.filter (fun e => er_Kind e == kind) evidence) in
  let signals := imap (matchSignal target now) matches in
  mkIngestionOutput
    (mkIncidentContext ("riskrule-" +:+ rr_Namespace target +:+ "-" +:+ rr_Name target)
       (rr_Cluster target) (rr_Service target) target (combineMatchSummaries matches) signals ∅ now)
    (mkEvidenceBundle (summaries "log") (fold_left matchMetrics matches ∅) (summaries "event")
       (map refEvidence evidence) [])
    signals target (map (matchTimeline now) matches) (Z.of_nat (length matches)).

Definition Analyze (fuel : nat) (provider : option ModelProvider) (target : ResourceRef) (matches : list Match)
    (now : time) : gprog (option Analysis) :=
  AnalyzeIngestionWithProviderInputTrace fuel provider (fun _ => inl (buildIngestionOutput target matches now)).

(** ** The investigation service: [Service.GenerateRCA] *)

Record CollectionStep := mkCollectionStep {
  cs_Name : string;
  cs_DatasourceName : string;
  cs_QueryType : string;
  cs_Query : string;
  cs_Reasons : list string
}.

Record PreflightResult := mkPreflightResult {
  pf_Target : ResourceRef;
  pf_Labels : gmap string string;
  pf_DatasourceNames : list string;
  pf_CollectionPlan : list CollectionStep;
  pf_Provider : option ModelProvider;
  pf_TargetIssue : option Issue;
  pf_DatasourceIssue : option Issue;
  pf_QueryTypeIssue : option Issue;
  pf_ModelProviderIssue : option Issue
}.

Definition FirstIssue (p : PreflightResult) : option Issue :=
  match pf_TargetIssue p with
  | Some i => Some i
  | None =>
      match pf_DatasourceIssue p with
      | Some i => Some i
      | None =>
          match pf_QueryTypeIssue p with
          | Some i => Some i
          | None => pf_ModelProviderIssue p
          end
      end
  end.
Definition Successful (p : PreflightResult) : bool := bool_decide (FirstIssue p = None).

Record RCAResult := mkRCAResult {
  rca_Reasoning : option Reasoning;
  rca_Issue : option Issue;
  rca_EgressAttempts : list ProviderEgressAttempt;
  rca_PrimaryEgress : option ProviderEgressAudit
}.
Definition emptyRCA : RCAResult := mkRCAResult None None [] None.
Definition rcaIssue (reason message : string) : RCAResult :=
  mkRCAResult None (Some (mkIssue reason message None)) [] None.

Definition namespacedProviderRef (p : ModelProvider) : NamespacedObjectReference :=
  mkNamespacedObjectReference (om_Name (mpr_Meta p)) (om_Namespace (mpr_Meta p)).

(** An attempt with the fields of an audit, but a provider type, a result and a
    reason of its own. *)
Definition auditedAttempt (ordinal : Z) (p : ModelProvider) (providerType result reason : string)
    (audit : ProviderEgressAudit) : ProviderEgressAttempt :=
  mkProviderEgressAttempt ordinal (Some (namespacedProviderRef p)) (om_Generation (mpr_Meta p)) providerType
    (ea_Decision audit) result reason (ea_EvidenceBundleDigest audit) (ea_EvidenceKinds audit)
    (ea_SensitivityTagsSent audit) (ea_LogSamplesIncluded audit) (ea_MaximumClassificationObserved audit)
    (ea_MaximumClassificationAllowed audit) (ea_MaximumClassificationSent audit)
    (ea_ClassificationPolicyVersion audit).

Definition issueEgressAttempts (provider : ModelProvider) (issue : Issue) : list ProviderEgressAttempt :=
  match iss_EgressAudit issue with
  | None => []
  | Some audit => [auditedAttempt 1 provider (ea_ProviderType audit) "Rejected" (ea_Reason audit) audit]
  end.

Definition providerEgressAttemptFromTrace (attempt : TraceAttempt) (evidence : EvidenceCollectionResult)
    (ordinal : Z) : ProviderEgressAttempt :=
  let p := ta_Provider attempt in
  let policy := policyOf p in
  let providerType := mps_Provider (mpr_Spec p) in
  if negb (isHostedProvider providerType) then
    mkProviderEgressAttempt ordinal (Some (namespacedProviderRef p)) (om_Generation (mpr_Meta p)) providerType
      "NotApplicable" (ta_Result attempt) (if ta_Reason attempt == "" then "LocalProvider" else ta_Reason attempt)
      "" [] [] false "" "" "" ""
  else
    let refs := filterEvidenceRefsForProviderPolicy (ec_EvidenceRefs evidence) policy in
    let decision := EvaluateProviderPolicy policy refs in
    let decision := if negb (mp_AllowExternalTransmission policy) then transmissionDenied decision else decision in
    let audit := providerDataPolicyAudit p refs decision policy in
    auditedAttempt ordinal p providerType (ta_Result attempt)
      (if (ta_Reason attempt == "") || (ta_Reason attempt == "Completed") then ea_Reason audit
       else ta_Reason attempt) audit.

(** [evidenceByProvider]: the evidence last prepared for the provider's key. *)
Definition evidenceFor (asked : list ModelProvider) (evidence filtered : EvidenceCollectionResult)
    (p : ModelProvider) : EvidenceCollectionResult :=
  match find_first (fun q => if providerKey q == providerKey p
                             then Some (applyProviderDataPolicy (Some q) evidence).1 else None) (rev asked) with
  | Some e => e
  | None => filtered
  end.

Definition providerEgressAttemptsFromTrace (trace : list TraceAttempt) (asked : list ModelProvider)
    (evidence filtered : EvidenceCollectionResult) : list ProviderEgressAttempt :=
  imap (fun i a => providerEgressAttemptFromTrace a (evidenceFor asked evidence filtered (ta_Provider a))
                     (Z.of_nat i + 1)) trace.

Definition attemptAudit (a : ProviderEgressAttempt) : ProviderEgressAudit :=
  mkProviderEgressAudit (pea_Decision a) (pea_Reason a) (pea_ProviderType a) (pea_EvidenceBundleDigest a)
    (pea_EvidenceKinds a) (pea_SensitivityTagsSent a) (pea_LogSamplesIncluded a)
    (pea_MaximumClassificationObserved a) (pea_MaximumClassificationAllowed a)
    (pea_MaximumClassificationSent a) (pea_ClassificationPolicyVersion a).
Definition primaryEgressAudit (attempts : list ProviderEgressAttempt) : option ProviderEgressAudit :=
  find_first (fun a => if pea_EvidenceBundleDigest a == "" then None else Some (attemptAudit a)) attempts.

(** The input prepared for a provider: the closure of [GenerateRCA]. *)
Definition investigationInput (spec : InvestigationRequestSpec) (target : ResourceRef)
    (evidence : EvidenceCollectionResult) (now : time) (provider : ModelProvider) : IngestionOutput + gw_error :=
  match applyProviderDataPolicy (Some provider) evidence with
  | (_, Some issue) => inr (AnalyzeError (iss_Reason issue) (iss_Message issue))
  | (filtered, None) => inl (buildInvestigationIngestionOutput spec target filtered now)
  end.

Definition GenerateRCA (fuel : nat) (gateway : bool) (spec : InvestigationRequestSpec) (preflight : PreflightResult)
    (evidence : EvidenceCollectionResult) (now : time) : gprog (option (RCAResult * option error)) :=
  if negb (Successful preflight) then
    Ret (Some (mkRCAResult None (FirstIssue preflight) [] None, None))
  else
    match ec_Issue evidence with
    | Some issue => Ret (Some (mkRCAResult None (Some issue) [] None, None))
    | None =>
        match pf_Provider preflight with
        | None => Ret (Some (rcaIssue "ProviderUnavailable" "model provider is not available for RCA generation", None))
        | Some provider =>
            if negb gateway then
              Ret (Some (rcaIssue "GatewayUnavailable" "model gateway is not configured", None))
            else
              match applyProviderDataPolicy (Some provider) evidence with
              | (_, Some issue) =>
                  Ret (Some (mkRCAResult None (Some issue) (issueEgressAttempts provider issue)
                               (iss_EgressAudit issue), None))
              | (filtered, None) =>
                  analysis <~ AnalyzeIngestionWithProviderInputTrace fuel (Some provider)
                                (investigationInput spec (pf_Target preflight) evidence now);
                  Ret (match analysis with
                       | None => None
                       | Some a =>
                           let attempts := providerEgressAttemptsFromTrace (an_Trace a) (an_Asked a) evidence filtered in
                           let primary := primaryEgressAudit attempts in
                           Some (match an_Result a with
                                 | inl r => (mkRCAResult (Some r) None attempts primary, None)
                                 | inr (AnalyzeError reason message) =>
                                     (mkRCAResult None (Some (mkIssue reason message None)) attempts primary, None)
                                 | inr (OtherError e) => (mkRCAResult None None attempts primary, Some e)
                                 end)
                       end)
              end
        end
    end.
End Gateway.
Arguments gw_op : clear implicits.
Arguments gprog : clear implicits.
Arguments Analysis : clear implicits.
Arguments RCAResult : clear implicits.
