(* ===== verification/GatewaySafety.v ===== *)
(** * What reaches a model provider (theorems on Egress.v and Gateway.v)

    The data policy of a hosted provider holds of every request the
    investigation service makes, the fallback chain ends and asks no provider
    twice, and the egress audit describes the evidence that was sent. *)

From Stdlib Require Import ZArith Lia.
From stdpp Require Import base list strings gmap.
From S2P Require Import Prelude GoStrings Utf8 Api InvestigationApi Digest Prog DataClassification Observation Egress Gateway.

Section GatewaySafety.
Context {U : UnicodeTables} {D : DigestPrims} {Reasoning : Type}.

(** ** The data policy *)

(** A reference of [source] as the policy lets it out. *)
Definition permitted_ref (policy : ModelProviderDataPolicy) (source : list EvidenceRef) (r : EvidenceRef) : Prop :=
  exists r0, r0 ∈ source /\
    evidenceKindAllowed (er_Kind r0) (mp_AllowedEvidenceKinds policy) = true /\
    r = if equal_fold (er_Kind r0) "log" && negb (mp_AllowLogSamples policy)
        then with_ref_text r0 logPlaceholder "" "" else r0.

(** An observation of [source] as the policy lets it out. *)
Definition permitted_observation (policy : ModelProviderDataPolicy) (source : list Observation)
    (o : Observation) : Prop :=
  exists o0, o0 ∈ source /\
    evidenceKindAllowed (ob_Type o0) (mp_AllowedEvidenceKinds policy) = true /\
    (ob_Type o0 <> ObservationTypeLog \/ mp_AllowLogSamples policy = true -> o = o0) /\
    (ob_Type o0 = ObservationTypeLog -> mp_AllowLogSamples policy = false ->
       ob_Summary o = logPlaceholder /\
       forall l, ov_Log (ob_Value o) = Some l -> l = mkLogObservation logPlaceholder).

(** The input shows a hosted provider what its policy admits of [source]. *)
Definition input_within_policy (policy : ModelProviderDataPolicy) (source : EvidenceCollectionResult)
    (input : IngestionOutput) : Prop :=
  (exists refs,
     bundle_admitted policy refs /\
     (forall r, r ∈ refs -> permitted_ref policy (ec_EvidenceRefs source) r) /\
     eb_References (io_Evidence input) = map refEvidence refs /\
     map sig_Message (io_Signals input) = map er_Summary refs /\
     map te_Summary (io_Timeline input) = map er_Summary refs) /\
  (forall o, o ∈ eb_Observations (io_Evidence input) ->
     permitted_observation policy (ec_Observations source) o) /\
  (mp_AllowLogSamples policy = false ->
     forall text, text ∈ eb_Logs (io_Evidence input) -> text = logPlaceholder).

Definition egress_permitted (evidence : EvidenceCollectionResult) X (op : gw_op Reasoning X) : Prop :=
  match op with
  | GComplete p _ input =>
      isHostedProvider (mps_Provider (mpr_Spec p)) = true ->
      mp_AllowExternalTransmission (policyOf p) = true /\ input_within_policy (policyOf p) evidence input
  | _ => True
  end.

Lemma permitted_ref_filter (policy : ModelProviderDataPolicy) (source : list EvidenceRef) r :
  r ∈ filterEvidenceRefsForProviderPolicy source policy -> permitted_ref policy source r.
Proof.
  unfold filterEvidenceRefsForProviderPolicy. intros (r0 & Hr0 & Hf)%list_elem_of_omap. exists r0.
  unfold filterRef in Hf. destruct (evidenceKindAllowed _ _); [|done]. simpl in Hf.
  destruct (_ && _); by simplify_eq.
Qed.

Lemma permitted_observation_filter (policy : ModelProviderDataPolicy) (source : list Observation) o :
  o ∈ filterObservationsForProviderPolicy source policy -> permitted_observation policy source o.
Proof.
  unfold filterObservationsForProviderPolicy. intros (o0 & Ho0 & Hf)%list_elem_of_omap. exists o0.
  unfold filterObservation in Hf. destruct (evidenceKindAllowed _ _); [|done]. simpl in Hf.
  destruct (ob_Type o0 == ObservationTypeLog) eqn:Ht; go_bool; destruct (mp_AllowLogSamples policy);
    simplify_eq/=; split_and!; try done; try (intros [|]; congruence).
  intros _ _. split; [done|]. intros l. destruct (ov_Log (ob_Value o0)); congruence.
Qed.

Lemma filtered_logs (policy : ModelProviderDataPolicy) (source : list EvidenceRef) text :
  mp_AllowLogSamples policy = false ->
  text ∈ flat_map refLogs (filterEvidenceRefsForProviderPolicy source policy) -> text = logPlaceholder.
Proof.
  intros Hp Hin. apply list_elem_of_In, in_flat_map in Hin as (r & Hr%list_elem_of_In & Ht).
  apply permitted_ref_filter in Hr as (r0 & _ & _ & ->). rewrite Hp, andb_true_r in Ht.
  unfold refLogs in Ht. destruct (equal_fold (er_Kind r0) "log") eqn:He.
  - simpl in Ht. destruct (_ == _); simpl in Ht; naive_solver.
  - destruct (er_Kind r0 == "log") eqn:Hk; [|by destruct Ht]. go_bool. by rewrite Hk in He.
Qed.

Lemma map_imap {A B C} (f : nat -> A -> B) (g : B -> C) (l : list A) :
  map g (imap f l) = imap (fun i x => g (f i x)) l.
Proof. exact (fmap_imap f g l). Qed.

Lemma imap_forget {A B} (g : A -> B) (l : list A) : imap (fun _ x => g x) l = map g l.
Proof. exact (imap_const g l). Qed.

(** The evidence an admitted hosted provider gets. *)
Lemma admitted_evidence (provider : ModelProvider) (evidence filtered : EvidenceCollectionResult) :
  applyProviderDataPolicy (Some provider) evidence = (filtered, None) ->
  isHostedProvider (mps_Provider (mpr_Spec provider)) = true ->
  mp_AllowExternalTransmission (policyOf provider) = true /\
  bundle_admitted (policyOf provider) (ec_EvidenceRefs filtered) /\
  ec_EvidenceRefs filtered = filterEvidenceRefsForProviderPolicy (ec_EvidenceRefs evidence) (policyOf provider) /\
  ec_Observations filtered = filterObservationsForProviderPolicy (ec_Observations evidence) (policyOf provider).
Proof.
  intros Happ Hh. unfold applyProviderDataPolicy in Happ. rewrite Hh in Happ. simpl negb in Happ. cbv iota zeta in Happ.
  fold (policyOf provider) in Happ.
  destruct (mp_AllowExternalTransmission (policyOf provider)) eqn:Ht; [|done]. simpl negb in Happ. cbv iota in Happ.
  destruct (policy_admits (policyOf provider)
    (ec_EvidenceRefs (filteredEvidence (policyOf provider) evidence))) as [Hadm Hrej].
  destruct (cd_Decision _ == DecisionRejected) eqn:Hd; [done|]. apply String.eqb_neq in Hd.
  injection Happ as <-. split; [done|]. split; [|done]. apply Hadm.
  destruct (decide (cd_Decision (EvaluateProviderPolicy (policyOf provider)
    (ec_EvidenceRefs (filteredEvidence (policyOf provider) evidence))) = DecisionAllowed)) as [|Hn]; [done|].
  by apply Hrej in Hn.
Qed.

Lemma investigationInput_within (spec : InvestigationRequestSpec) (target : ResourceRef)
    (evidence : EvidenceCollectionResult) (now : time) (provider : ModelProvider) (input : IngestionOutput) :
  investigationInput spec target evidence now provider = inl input ->
  isHostedProvider (mps_Provider (mpr_Spec provider)) = true ->
  mp_AllowExternalTransmission (policyOf provider) = true /\
  input_within_policy (policyOf provider) evidence input.
Proof.
  unfold investigationInput. intros Hi Hh.
  destruct (applyProviderDataPolicy (Some provider) evidence) as [filtered [issue|]] eqn:Happ; [done|].
  injection Hi as <-. destruct (admitted_evidence _ _ _ Happ Hh) as (Ht & Hadm & Hrefs & Hobs).
  split; [done|]. split_and!; simpl.
  - exists (ec_EvidenceRefs filtered). split; [done|]. split.
    { rewrite Hrefs. apply permitted_ref_filter. }
    split; [done|]. rewrite map_imap, map_map. split; [apply (imap_forget er_Summary)|done].
  - rewrite Hobs. apply permitted_observation_filter.
  - rewrite Hrefs. intros Hl text. by apply filtered_logs.
Qed.

(** *** The programs *)

Section Operations.
Context (cfg : GatewayConfig) (P : forall X, gw_op Reasoning X -> Prop).
Hypothesis Hregistered : forall t, P _ (GRegistered t).
Hypothesis Hconfigurable : forall t, P _ (GConfigurable t).
Hypothesis Hprovider : forall ns n, P _ (GGetProvider ns n).
Hypothesis Hsecret : forall ns n, P _ (GGetSecret ns n).

Lemma may_do_resolveIn name all namespaces : may_do P (resolveIn name all namespaces).
Proof.
  induction namespaces as [|ns l IH]; simpl; [done|]. split; [done|].
  intros [p|e]; [done|]. by destruct (is_not_found e).
Qed.

Lemma may_do_resolveProvider namespace name : may_do P (resolveProvider cfg namespace name).
Proof.
  unfold resolveProvider. destruct (name == ""); [done|]. destruct (gw_ResolverClient cfg); [|done].
  apply may_do_resolveIn.
Qed.

Lemma may_do_resolveFallback provider reason visited :
  may_do P (resolveFallbackProvider cfg provider reason visited).
Proof.
  unfold resolveFallbackProvider. destruct (gw_Resolver cfg); [|done].
  apply may_do_bind; [apply may_do_resolveProvider|done].
Qed.

Lemma may_do_ResolveAPIKey provider : may_do P (ResolveAPIKey cfg provider).
Proof.
  unfold ResolveAPIKey. destruct (mps_APIKeySecretRef _); [|done]. destruct (gw_SecretsClient cfg); [|done].
  simpl. done.
Qed.

Lemma may_do_configure providerType provider : may_do P (configureProvider cfg providerType provider).
Proof.
  unfold configureProvider. simpl. split; [done|]. intros [|]; [|done]. simpl.
  destruct (requiresAPIKey _); [|done]. destruct (gw_Secrets cfg); [|done]. apply may_do_ResolveAPIKey.
Qed.

Lemma may_do_single provider input :
  (forall key, P _ (GComplete provider key input)) -> may_do P (analyzeSingleProvider cfg provider input).
Proof.
  intros Hc. unfold analyzeSingleProvider. destruct (_ && _); [done|]. apply may_do_vis; [done|].
  intros [|]; [|done]. cbn [negb]. apply may_do_bind; [apply may_do_configure|]. intros [key|e]; simpl; auto.
Qed.

Lemma may_do_analyze fuel inputForProvider :
  (forall p key input, inputForProvider p = inl input -> P _ (GComplete p key input)) ->
  forall provider visited trace asked,
    may_do P (analyzeIngestionWithFallback cfg fuel provider inputForProvider visited trace asked).
Proof.
  intros Hin. induction fuel as [|fuel IH]; intros provider visited trace asked; simpl; [done|].
  destruct (gw_Providers cfg); [|done]. simpl. apply may_do_bind.
  { destruct (inputForProvider provider) as [input|e] eqn:Hi; [|done]. apply may_do_single. eauto. }
  intros [r|[reason message|e]]; [done| |done]. destruct (shouldAttemptProviderFallback _ _); [|done].
  apply may_do_bind; [apply may_do_resolveFallback|]. intros [fallback|e]; [apply IH|done].
Qed.
End Operations.

(** C4: whatever the API server and the providers answer, every request an
    investigation makes to a hosted provider, the first choice or a fallback, is
    allowed by that provider's own data policy: external transmission is on,
    the references sent are admitted by the policy's maximum classification,
    denied tags and redaction requirement and are of allowed kinds, the
    observations too, and without [allowLogSamples] no log line, summary, query
    or link is in the references, the signals, the timeline, the logs or the
    observations of the input. *)
Theorem hosted_egress_within_policy (cfg : GatewayConfig) (fuel : nat) (gateway : bool)
    (spec : InvestigationRequestSpec) (preflight : PreflightResult) (evidence : EvidenceCollectionResult)
    (now : time) :
  may_do (egress_permitted evidence) (GenerateRCA cfg fuel gateway spec preflight evidence now).
Proof.
  unfold GenerateRCA. destruct (Successful preflight); [|done]. destruct (ec_Issue evidence); [done|].
  destruct (pf_Provider preflight) as [provider|]; [|done]. destruct gateway; [|done].
  simpl negb. cbv iota. destruct (applyProviderDataPolicy (Some provider) evidence) as [filtered [issue|]]; [done|].
  apply may_do_bind; [|by intros [|]]. apply may_do_analyze; try done.
  intros p key input Hi Hh. by apply (investigationInput_within spec (pf_Target preflight) evidence now).
Qed.

(** ** The fallback chain

    The world is the sequence of requests made to providers.  The API server
    holds the ModelProviders named by [K] ("namespace/name") and returns an
    object under its own name; every other answer is free. *)
Record Call := mkCall {
  call_Provider : ModelProvider;
  call_Input : IngestionOutput;
  call_Answer : Reasoning + engine_error
}.

Definition gw_env (K : list string) (w : list Call) X (op : gw_op Reasoning X) : X -> list Call -> Prop :=
  match op with
  | GComplete p _ input => fun x w' => w' = w ++ [mkCall p input x]
  | GGetProvider ns name => fun x w' =>
      w' = w /\ forall p, x = Ok p ->
        om_Namespace (mpr_Meta p) = ns /\ om_Name (mpr_Meta p) = name /\ providerKey p ∈ K
  | _ => fun _ w' => w' = w
  end.

Definition asked_once (w : list Call) : Prop := NoDup (map providerKey (map call_Provider w)).

(** Each provider after the first is the fallback its predecessor names. *)
Definition fallback_chain (asked : list ModelProvider) : Prop :=
  forall i p q, asked !! i = Some p -> asked !! S i = Some q ->
    om_Name (mpr_Meta q) = mps_FallbackProviderRef (mpr_Spec p) /\
    trim_space (om_Name (mpr_Meta q)) <> "".

Record chain_complete (inputForProvider : ModelProvider -> IngestionOutput + gw_error)
    (universe : list string) (a : Analysis Reasoning) (w : list Call) : Prop := {
  cc_universe : forall p, p ∈ an_Asked a -> providerKey p ∈ universe;
  cc_once : NoDup (map providerKey (an_Asked a));
  cc_chain : fallback_chain (an_Asked a);
  cc_trace : map ta_Provider (an_Trace a) = take maxTraceAttempts (an_Asked a);
  cc_calls : map call_Provider w `sublist_of` an_Asked a;
  cc_inputs : forall c, c ∈ w -> inputForProvider (call_Provider c) = inl (call_Input c);
  cc_answer : forall r, an_Result a = inl r ->
    exists p input, last w = Some (mkCall p input (inl r)) /\ last (an_Asked a) = Some p
}.

Section Chain.
Context (cfg : GatewayConfig) (K : list string).

(** Programs that make no request leave the sequence of requests as it is. *)
Definition no_request X (op : gw_op Reasoning X) : Prop :=
  match op with GComplete _ _ _ => False | _ => True end.

Lemma wp_no_request {R} (I : list Call -> Prop) (p : gprog Reasoning R) w :
  may_do no_request p -> I w -> wp (gw_env K) I p w (fun _ w' => w' = w).
Proof.
  intros Hp HI. induction p as [r|X e k IH]; simpl in *; [done|]. split; [done|].
  destruct Hp as [He Hk]. intros x w1 Henv. assert (w1 = w) as ->; [|by apply IH].
  destruct e; simpl in *; naive_solver.
Qed.

Lemma wp_resolveIn (I : list Call -> Prop) name all namespaces w :
  I w ->
  wp (gw_env K) I (resolveIn name all namespaces) w (fun r w' =>
    w' = w /\ forall p, r = inl p -> om_Name (mpr_Meta p) = name /\ providerKey p ∈ K).
Proof.
  intros HI. induction namespaces as [|ns l IH]; simpl; [done|]. split; [done|].
  intros x w1 [-> Hx]. destruct x as [p|e].
  - simpl. split; [done|]. split; [done|]. intros p' [= <-]. by destruct (Hx p eq_refl) as (_ & ? & ?).
  - by destruct (is_not_found e).
Qed.

Lemma wp_resolveFallback (I : list Call -> Prop) provider reason visited w :
  I w -> shouldAttemptProviderFallback provider reason = true ->
  wp (gw_env K) I (resolveFallbackProvider cfg provider reason visited) w (fun r w' =>
    w' = w /\ forall q, r = inl q ->
      om_Name (mpr_Meta q) = mps_FallbackProviderRef (mpr_Spec provider) /\
      trim_space (om_Name (mpr_Meta q)) <> "" /\ providerKey q ∈ K /\ providerKey q ∉ visited).
Proof.
  intros HI Hs. unfold shouldAttemptProviderFallback in Hs.
  destruct (trim_space (mps_FallbackProviderRef (mpr_Spec provider)) == "") eqn:Hb; [done|]. clear Hs.
  apply String.eqb_neq in Hb. unfold resolveFallbackProvider.
  destruct (gw_Resolver cfg); [|done]. cbn [negb]. apply wp_bind. unfold resolveProvider.
  destruct (mps_FallbackProviderRef (mpr_Spec provider) == "") eqn:Hn.
  { apply String.eqb_eq in Hn. by rewrite Hn in Hb. }
  destruct (gw_ResolverClient cfg); [|done]. cbn [negb]. cbv zeta.
  eapply wp_mono; [|by apply wp_resolveIn]. intros r w' HI' [-> Hr]. apply wp_ret; [done|]. split; [done|].
  destruct r as [p|[]]; [|done|done]. destruct (mem_str (providerKey p) visited) eqn:Hm; [done|].
  intros q [= <-]. destruct (Hr p eq_refl) as [Hname HK]. rewrite Hname. split_and!; try done.
  by apply mem_str_false.
Qed.

Lemma wp_single (I : list Call -> Prop) provider input w :
  I w -> (forall x, I (w ++ [mkCall provider input x])) ->
  wp (gw_env K) I (analyzeSingleProvider cfg provider input) w (fun r w' =>
    (w' = w /\ exists e, r = inr e) \/
    exists x, w' = w ++ [mkCall provider input x] /\ r = completed provider x).
Proof.
  intros HI Hcall. unfold analyzeSingleProvider. destruct (_ && _); [by simpl; eauto|].
  apply wp_vis; [done|]. intros registered w1 ->.
  destruct registered; [|by simpl; eauto]. cbn [negb].
  apply wp_bind. eapply wp_mono; [|apply wp_no_request; [by apply may_do_configure|done]].
  intros r w' HI' ->. destruct r as [key|e]; [|by simpl; eauto].
  apply wp_vis; [done|]. intros x w2 ->. apply wp_ret; eauto.
Qed.

(** What holds when a provider is about to be asked. *)
Record chain_state (inputForProvider : ModelProvider -> IngestionOutput + gw_error) (universe : list string)
    (provider : ModelProvider) (visited : list string) (trace : list TraceAttempt)
    (asked : list ModelProvider) (w : list Call) : Prop := {
  cs_once : NoDup (map providerKey (asked ++ [provider]));
  cs_universe : forall p, p ∈ asked ++ [provider] -> providerKey p ∈ universe;
  cs_visited : visited = rev (map providerKey asked);
  cs_chain : fallback_chain (asked ++ [provider]);
  cs_trace : map ta_Provider trace = take maxTraceAttempts asked;
  cs_calls : map call_Provider w `sublist_of` asked;
  cs_inputs : forall c, c ∈ w -> inputForProvider (call_Provider c) = inl (call_Input c)
}.

Lemma recordTraceAttempt_trace trace provider err asked :
  map ta_Provider trace = take maxTraceAttempts asked ->
  map ta_Provider (recordTraceAttempt trace provider err) = take maxTraceAttempts (asked ++ [provider]).
Proof.
  intros Ht. unfold recordTraceAttempt.
  assert (Hl : length trace = (maxTraceAttempts `min` length asked)%nat).
  { rewrite <- (length_map ta_Provider trace), Ht. apply length_take. }
  destruct (maxTraceAttempts <=? length trace)%nat eqn:Hc.
  - apply Nat.leb_le in Hc. rewrite take_app_le by lia. done.
  - apply Nat.leb_gt in Hc. rewrite map_app, Ht, (take_ge asked) by lia.
    rewrite take_ge by (rewrite length_app; simpl; lia). f_equal.
    destruct err as [[]|]; done.
Qed.

Lemma fallback_chain_app asked p q :
  fallback_chain (asked ++ [p]) ->
  om_Name (mpr_Meta q) = mps_FallbackProviderRef (mpr_Spec p) -> trim_space (om_Name (mpr_Meta q)) <> "" ->
  fallback_chain ((asked ++ [p]) ++ [q]).
Proof.
  intros Hc Hn Ht i x y Hx Hy.
  destruct (decide (S i < length (asked ++ [p]))%nat) as [Hi|Hi].
  - rewrite lookup_app_l in Hx by lia. rewrite lookup_app_l in Hy by lia. by apply (Hc i).
  - pose proof (lookup_lt_Some _ _ _ Hy) as Hlt.
    assert (i = length asked) as -> by (rewrite ?length_app in *; simpl in *; lia).
    rewrite lookup_app_l in Hx by (rewrite length_app; simpl; lia).
    rewrite lookup_app_r, Nat.sub_diag in Hx by lia.
    rewrite lookup_app_r in Hy by (rewrite length_app; simpl; lia).
    rewrite length_app in Hy. simpl in Hy. replace (S (length asked) - (length asked + 1))%nat with 0%nat in Hy by lia.
    simpl in Hx, Hy. by simplify_eq.
Qed.

Lemma asked_once_sublist w (asked : list ModelProvider) :
  NoDup (map providerKey asked) -> map call_Provider w `sublist_of` asked -> asked_once w.
Proof. intros Hn Hs. unfold asked_once. eapply sublist_NoDup; [done|]. by apply (fmap_sublist providerKey). Qed.

Lemma chain_state_bound inputForProvider universe provider visited trace asked w :
  chain_state inputForProvider universe provider visited trace asked w ->
  (length visited < length universe)%nat.
Proof.
  intros [Ho Hu -> _ _ _ _].
  assert (Hs : map providerKey (asked ++ [provider]) ⊆+ universe).
  { apply NoDup_submseteq; [done|]. intros x Hx. apply list_elem_of_fmap in Hx as (p & -> & Hp). by apply Hu. }
  apply submseteq_length in Hs. rewrite length_map, length_app in Hs. simpl in Hs.
  rewrite length_rev, length_map. lia.
Qed.

Lemma chain_state_complete inputForProvider universe provider visited trace asked w w' answer err result :
  chain_state inputForProvider universe provider visited trace asked w ->
  (w' = w /\ (exists e, answer = inr e)) \/
    (exists input x, inputForProvider provider = inl input /\ w' = w ++ [mkCall provider input x] /\
         answer = completed provider x) ->
  (forall r, result = inl r -> answer = inl r) ->
  chain_complete inputForProvider universe
    (mkAnalysis result (recordTraceAttempt trace provider err) (asked ++ [provider])) w'.
Proof.
  intros [Ho Hu _ Hc Ht Hs Hi] Hw Hr. split; simpl; [done|done|done|by apply recordTraceAttempt_trace| | |].
  - destruct Hw as [[-> _]|(input & x & _ & -> & _)]; [by apply sublist_inserts_r|].
    rewrite map_app. by apply sublist_app.
  - destruct Hw as [[-> _]|(input & x & Hin & -> & _)]; [done|]. intros c [Hc'|Hc']%elem_of_app; [by apply Hi|].
    by apply list_elem_of_singleton in Hc' as ->.
  - intros r Hres. specialize (Hr r Hres) as ->. destruct Hw as [[_ [e He]]|(input & x & _ & -> & Hx)]; [done|].
    exists provider, input. destruct x as [r'|[]]; simplify_eq/=. by rewrite !last_snoc.
Qed.

Lemma chain_state_next inputForProvider universe provider visited trace asked w w' answer err q :
  chain_state inputForProvider universe provider visited trace asked w ->
  (w' = w /\ (exists e, answer = inr e)) \/
    (exists input x, inputForProvider provider = inl input /\ w' = w ++ [mkCall provider input x] /\
         answer = completed provider x) ->
  om_Name (mpr_Meta q) = mps_FallbackProviderRef (mpr_Spec provider) ->
  trim_space (om_Name (mpr_Meta q)) <> "" -> providerKey q ∈ universe ->
  providerKey q ∉ providerKey provider :: visited ->
  chain_state inputForProvider universe q (providerKey provider :: visited)
    (recordTraceAttempt trace provider err) (asked ++ [provider]) w'.
Proof.
  intros Hst Hw Hname Htrim HqU Hq.
  assert (Hdone : chain_complete inputForProvider universe
    (mkAnalysis (inr (OtherError (errorf ""))) (recordTraceAttempt trace provider err)
       (asked ++ [provider])) w') by (by eapply chain_state_complete).
  destruct Hst as [Ho Hu -> Hc _ _ _], Hdone as [_ _ _ Ht Hs Hi _]. simpl in *. split; try done.
  - rewrite map_app. apply NoDup_app. split; [done|]. split; [|apply NoDup_singleton].
    intros x Hx Hx'. apply list_elem_of_singleton in Hx' as ->. apply Hq. rewrite map_app in Hx.
    apply elem_of_app in Hx as [Hx|Hx%list_elem_of_singleton]; [|rewrite Hx; by apply list_elem_of_here].
    apply list_elem_of_further. apply list_elem_of_In, in_rev. rewrite rev_involutive. by apply list_elem_of_In.
  - intros p [Hp|Hp%list_elem_of_singleton]%elem_of_app; [by apply Hu|]. by subst.
  - rewrite map_app, rev_app_distr. done.
  - by apply fallback_chain_app.
Qed.

Lemma wp_answer inputForProvider universe provider visited trace asked w :
  chain_state inputForProvider universe provider visited trace asked w ->
  wp (gw_env K) asked_once
    (match inputForProvider provider with
     | inr e => Ret (inr e)
     | inl input => analyzeSingleProvider cfg provider input
     end) w
    (fun answer w' => (w' = w /\ exists e, answer = inr e) \/
       exists input x, inputForProvider provider = inl input /\ w' = w ++ [mkCall provider input x] /\
         answer = completed provider x).
Proof.
  intros [Ho _ _ _ _ Hs _].
  assert (Hw : asked_once w) by (eapply asked_once_sublist; [done|]; by apply sublist_inserts_r).
  destruct (inputForProvider provider) as [input|e]; [|apply wp_ret; eauto].
  eapply wp_mono; [|apply wp_single; [done|]].
  - intros answer w' _ [?|(x & -> & ->)]; eauto 10.
  - intros x. apply (asked_once_sublist _ (asked ++ [provider])); [done|]. rewrite map_app. by apply sublist_app.
Qed.

Lemma wp_analyze inputForProvider universe fuel :
  K ⊆ universe ->
  forall provider visited trace asked w,
  gw_Providers cfg = true ->
  chain_state inputForProvider universe provider visited trace asked w ->
  (length universe <= fuel + length visited)%nat ->
  wp (gw_env K) asked_once (analyzeIngestionWithFallback cfg fuel provider inputForProvider visited trace asked) w
    (fun r w' => exists a, r = Some a /\ chain_complete inputForProvider universe a w').
Proof.
  intros HK. induction fuel as [|fuel IH]; intros provider visited trace asked w Hreg Hst Hfuel.
  { pose proof (chain_state_bound _ _ _ _ _ _ _ Hst). lia. }
  cbn [analyzeIngestionWithFallback]. rewrite Hreg. cbn [negb]. cbv zeta. apply wp_bind.
  eapply wp_mono; [|by eapply wp_answer]. intros answer w' HI Hw. simpl in Hw.
  destruct answer as [r|e].
  { apply wp_ret; [done|]. eexists. split; [done|]. eapply chain_state_complete; [done..|congruence]. }
  assert (Hend : forall e', exists a, Some (mkAnalysis (inr e') (recordTraceAttempt trace provider (Some e))
      (asked ++ [provider])) = Some a /\ chain_complete inputForProvider universe a w').
  { intros e'. eexists. split; [done|]. eapply chain_state_complete; [done..|congruence]. }
  destruct e as [reason message|e]; [|by apply wp_ret].
  destruct (shouldAttemptProviderFallback provider reason) eqn:Hf; [|by apply wp_ret].
  apply wp_bind. eapply wp_mono; [|by apply wp_resolveFallback]. intros fallback w1 _ [-> Hq]. simpl in Hq.
  destruct fallback as [q|e']; [|by apply wp_ret].
  destruct (Hq q eq_refl) as (Hname & Htrim & HqK & Hqv).
  apply IH; [done| |simpl; lia]. eapply chain_state_next; eauto.
Qed.
End Chain.

Lemma wp_start (cfg : GatewayConfig) (K : list string) (fuel : nat) (provider : ModelProvider)
    (inputForProvider : ModelProvider -> IngestionOutput + gw_error) :
  (length K < fuel)%nat ->
  wp (gw_env K) asked_once (AnalyzeIngestionWithProviderInputTrace cfg fuel (Some provider) inputForProvider) []
    (fun r w => exists a, r = Some a /\ chain_complete inputForProvider (providerKey provider :: K) a w).
Proof.
  intros Hfuel. cbn [AnalyzeIngestionWithProviderInputTrace]. destruct (gw_Providers cfg) eqn:Hreg.
  - apply (wp_analyze _ _ _ (providerKey provider :: K)); [set_solver|done| |simpl; lia].
    split; simpl; try done.
    + apply NoDup_singleton.
    + intros p ->%list_elem_of_singleton. apply list_elem_of_here.
    + intros c Hc. by apply elem_of_nil in Hc.
  - destruct fuel as [|fuel]; [lia|]. cbn [analyzeIngestionWithFallback]. rewrite Hreg. cbn [negb].
    apply wp_ret; [by apply NoDup_nil_2|]. eexists. split; [done|].
    split; simpl; try done; try by intros ? ?%elem_of_nil. by apply NoDup_nil_2.
Qed.

(** With the registry's ModelProviders named by a finite list [K], the
    fallback recursion ends after at most one provider more than [K] has: it
    never runs out of that much fuel.  No provider is asked twice, not even
    where a run is cut short; each provider after the first is the one its
    predecessor names as fallback; the trace lists the first eight providers
    asked, in order; every request carries the input prepared for its own
    provider; and a successful answer is that of the last request. *)
Theorem fallback_chain_terminates (cfg : GatewayConfig) (K : list string) (fuel : nat) (provider : ModelProvider)
    (inputForProvider : ModelProvider -> IngestionOutput + gw_error) (o : option (option (Analysis Reasoning)))
    (w : list Call) :
  (length K < fuel)%nat ->
  exec (gw_env K) (AnalyzeIngestionWithProviderInputTrace cfg fuel (Some provider) inputForProvider) [] o w ->
  asked_once w /\
  forall r, o = Some r -> exists a, r = Some a /\ chain_complete inputForProvider (providerKey provider :: K) a w.
Proof.
  intros Hfuel Hrun. exact (wp_exec _ _ _ _ _ _ _ (wp_start cfg K fuel provider inputForProvider Hfuel) Hrun).
Qed.

(** ** The audit *)

Lemma filter_refs_idem (policy : ModelProviderDataPolicy) (refs : list EvidenceRef) :
  filterEvidenceRefsForProviderPolicy (filterEvidenceRefsForProviderPolicy refs policy) policy
  = filterEvidenceRefsForProviderPolicy refs policy.
Proof.
  unfold filterEvidenceRefsForProviderPolicy. induction refs as [|r refs IH]; [done|]. cbn [omap list_omap].
  destruct (filterRef policy r) as [r'|] eqn:Hr; [|done]. cbn [omap list_omap].
  assert (filterRef policy r' = Some r') as ->; [|by f_equal].
  unfold filterRef in *. destruct (evidenceKindAllowed (er_Kind r) _) eqn:Hk; [|done]. cbn [negb] in Hr.
  destruct (equal_fold (er_Kind r) "log" && negb (mp_AllowLogSamples policy)) eqn:Hl; injection Hr as <-.
  - cbn [er_Kind with_ref_text]. by rewrite Hk, Hl.
  - by rewrite Hk, Hl.
Qed.

(** The references the attempt of a provider is audited with. *)
Lemma audited_refs (p : ModelProvider) (evidence : EvidenceCollectionResult) :
  filterEvidenceRefsForProviderPolicy (ec_EvidenceRefs (applyProviderDataPolicy (Some p) evidence).1) (policyOf p)
  = filterEvidenceRefsForProviderPolicy (ec_EvidenceRefs evidence) (policyOf p).
Proof.
  unfold applyProviderDataPolicy. fold (policyOf p). cbv zeta.
  destruct (isHostedProvider _); [|done]. cbn [negb].
  destruct (mp_AllowExternalTransmission (policyOf p)); [|done]. cbn [negb].
  by destruct (cd_Decision _ == DecisionRejected); apply filter_refs_idem.
Qed.

Lemma evidenceFor_asked (asked : list ModelProvider) (evidence filtered : EvidenceCollectionResult) p :
  NoDup (map providerKey asked) -> p ∈ asked ->
  evidenceFor asked evidence filtered p = (applyProviderDataPolicy (Some p) evidence).1.
Proof.
  intros Hn Hp. unfold evidenceFor. destruct (find_first _ _) as [e|] eqn:Hf.
  - apply find_first_Some in Hf as (q & Hq & Heq). destruct (providerKey q == providerKey p) eqn:Hk; [|done].
    injection Heq as <-. apply String.eqb_eq in Hk. apply list_elem_of_In, in_rev, list_elem_of_In in Hq.
    enough (q = p) as -> by done.
    apply list_elem_of_lookup in Hp as [i Hi]. apply list_elem_of_lookup in Hq as [j Hj].
    assert (i = j) as <-; [|congruence].
    eapply (NoDup_lookup (map providerKey asked)); [done| |].
    + change (map providerKey asked) with (providerKey <$> asked). by rewrite list_lookup_fmap, Hi.
    + change (map providerKey asked) with (providerKey <$> asked). rewrite list_lookup_fmap, Hj. simpl. by rewrite Hk.
  - rewrite find_first_None in Hf. exfalso. specialize (Hf p). cbv beta in Hf.
    rewrite String.eqb_refl in Hf. enough (p ∈ rev asked) as Hr by (by apply Hf in Hr).
    apply list_elem_of_In. rewrite <- in_rev. by apply list_elem_of_In.
Qed.

(** The attempt describes the request [c]. *)
Definition audit_describes (attempt : ProviderEgressAttempt) (c : Call) : Prop :=
  let p := call_Provider c in
  pea_ProviderRef attempt = Some (namespacedProviderRef p) /\
  pea_ProviderGeneration attempt = om_Generation (mpr_Meta p) /\
  (isHostedProvider (mps_Provider (mpr_Spec p)) = false -> pea_Decision attempt = "NotApplicable") /\
  (isHostedProvider (mps_Provider (mpr_Spec p)) = true ->
     exists refs,
       eb_References (io_Evidence (call_Input c)) = map refEvidence refs /\
       pea_Decision attempt = DecisionAllowed /\
       pea_EvidenceBundleDigest attempt = digestString ObservationJSONV1 (JArr (map evidence_ref_json refs)) /\
       pea_EvidenceKinds attempt = evidenceKindsForAudit refs /\
       pea_LogSamplesIncluded attempt = logSamplesIncludedForAudit refs (policyOf p)).

Lemma attempt_describes (spec : InvestigationRequestSpec) (target : ResourceRef)
    (evidence filtered : EvidenceCollectionResult) (now : time) (asked : list ModelProvider) (a : TraceAttempt)
    (ordinal : Z) (c : Call) :
  NoDup (map providerKey asked) -> ta_Provider a = call_Provider c -> call_Provider c ∈ asked ->
  investigationInput spec target evidence now (call_Provider c) = inl (call_Input c) ->
  audit_describes (providerEgressAttemptFromTrace a (evidenceFor asked evidence filtered (ta_Provider a)) ordinal) c.
Proof.
  intros Hn Hp Hin Hi. rewrite Hp, evidenceFor_asked by done.
  unfold providerEgressAttemptFromTrace, audit_describes. cbv zeta. rewrite Hp.
  destruct (isHostedProvider (mps_Provider (mpr_Spec (call_Provider c)))) eqn:Hh; cbn [negb].
  2:{ split; [done|]. split; [done|]. split; done. }
  fold (policyOf (call_Provider c)). rewrite audited_refs.
  unfold investigationInput in Hi. destruct (applyProviderDataPolicy (Some (call_Provider c)) evidence)
    as [sent [issue|]] eqn:Happ; [done|]. injection Hi as Hi.
  destruct (admitted_evidence _ _ _ Happ Hh) as (Ht & Hadm & Hrefs & _).
  rewrite Ht, <- Hrefs. cbn [negb]. split; [done|]. split; [done|]. split; [done|]. intros _. exists (ec_EvidenceRefs sent).
  destruct (policy_admits (policyOf (call_Provider c)) (ec_EvidenceRefs sent)) as [Hd _].
  apply Hd in Hadm. by rewrite <- Hi.
Qed.

Lemma attempts_describe (spec : InvestigationRequestSpec) (target : ResourceRef)
    (evidence filtered : EvidenceCollectionResult) (now : time) (universe : list string)
    (analysis : Analysis Reasoning) (w : list Call) (c : Call) :
  (length universe <= maxTraceAttempts)%nat ->
  chain_complete (investigationInput spec target evidence now) universe analysis w -> c ∈ w ->
  exists attempt,
    attempt ∈ providerEgressAttemptsFromTrace (an_Trace analysis) (an_Asked analysis) evidence filtered /\
    audit_describes attempt c.
Proof.
  intros HU [Hu Ho _ Ht Hs Hi _] Hc.
  assert (Hin : call_Provider c ∈ an_Asked analysis).
  { eapply sublist_subseteq; [done|]. apply list_elem_of_fmap. by exists c. }
  assert (Hlen : (length (an_Asked analysis) <= maxTraceAttempts)%nat).
  { rewrite <- (length_map providerKey). etrans; [|exact HU]. apply submseteq_length, NoDup_submseteq; [done|].
    intros x Hx. apply list_elem_of_fmap in Hx as (p & -> & Hp). by apply Hu. }
  rewrite take_ge in Ht by done. rewrite <- Ht in Hin. apply list_elem_of_fmap in Hin as (a & Ha & Hin).
  apply list_elem_of_lookup in Hin as [i Hlook].
  exists (providerEgressAttemptFromTrace a (evidenceFor (an_Asked analysis) evidence filtered (ta_Provider a))
            (Z.of_nat i + 1)).
  split.
  - apply list_elem_of_lookup. exists i. unfold providerEgressAttemptsFromTrace.
    by rewrite list_lookup_imap, Hlook.
  - eapply attempt_describes; [done|done| |by apply Hi]. rewrite <- Ht. apply list_elem_of_fmap.
    exists a. split; [done|]. by apply list_elem_of_lookup_2 with i.
Qed.

(** When the registry names fewer than eight ModelProviders, a finished
    investigation has an egress attempt for every request it made, and it
    describes that request: the provider's reference and generation, and for a
    hosted provider the decision Allowed with the digest, the kinds and the
    log-sample flag of exactly the references in the request; requests to local
    providers are recorded as not applicable. *)
Theorem egress_audit_faithful (cfg : GatewayConfig) (K : list string) (fuel : nat) (gateway : bool)
    (spec : InvestigationRequestSpec) (preflight : PreflightResult) (evidence : EvidenceCollectionResult)
    (now : time) (r : option (RCAResult Reasoning * option error)) (w : list Call) :
  (length K < maxTraceAttempts)%nat -> (length K < fuel)%nat ->
  exec (gw_env K) (GenerateRCA cfg fuel gateway spec preflight evidence now) [] (Some r) w ->
  exists result err, r = Some (result, err) /\
    forall c, c ∈ w -> exists attempt, attempt ∈ rca_EgressAttempts result /\ audit_describes attempt c.
Proof.
  intros HK Hfuel Hrun.
  eapply (wp_exec _ (fun _ => True) _ _ (fun r w => exists result err, r = Some (result, err) /\
    forall c, c ∈ w -> exists attempt, attempt ∈ rca_EgressAttempts result /\ audit_describes attempt c));
    [|exact Hrun|done].
  unfold GenerateRCA.
  assert (Hnone : forall result err, wp (gw_env K) (fun _ => True) (Ret (Some (result, err))) []
    (fun (r : option (RCAResult Reasoning * option error)) w => exists result err, r = Some (result, err) /\
     forall c, c ∈ w -> exists attempt, attempt ∈ rca_EgressAttempts result /\ audit_describes attempt c)).
  { intros result err. apply wp_ret; [done|]. exists result, err. split; [done|]. by intros c Hc%elem_of_nil. }
  destruct (Successful preflight); [|apply Hnone]. destruct (ec_Issue evidence); [apply Hnone|].
  destruct (pf_Provider preflight) as [provider|]; [|apply Hnone]. destruct gateway; [|apply Hnone]. cbn [negb].
  destruct (applyProviderDataPolicy (Some provider) evidence) as [filtered [issue|]]; [apply Hnone|].
  apply wp_bind. eapply wp_mono; [|eapply wp_weaken; [|by apply wp_start]; done].
  intros a w' _ (analysis & -> & Hcc). apply wp_ret; [done|].
  enough (Hall : forall c, c ∈ w' -> exists attempt,
    attempt ∈ providerEgressAttemptsFromTrace (an_Trace analysis) (an_Asked analysis) evidence filtered /\
    audit_describes attempt c).
  { destruct (an_Result analysis) as [reasoning|[reason message|e]]; eexists _, _; (split; [done|]); done. }
  intros c Hc. eapply attempts_describe; [|exact Hcc|exact Hc]. simpl. lia.
Qed.
End GatewaySafety.

(** ** Concrete runs *)
Section Examples.
#[local] Existing Instance plain_tables.
#[local] Existing Instance plain_digest.

Definition sample_policy (external logs : bool) : ModelProviderDataPolicy :=
  mkModelProviderDataPolicy external [] ["secret"] false logs "Confidential".
Definition sample_provider (name kind fallback : string) (policy : ModelProviderDataPolicy) : ModelProvider :=
  mkModelProvider (mkObjectMeta name "ops" "" "" 3 ∅ ∅ [])
    (mkModelProviderSpec kind "m" (Some (mkSecretKeyRef "key" "api")) 512 policy fallback).

Definition hosted_a : ModelProvider := sample_provider "a" "openai" "b" (sample_policy true false).
Definition hosted_b : ModelProvider := sample_provider "b" "claude" "a" (sample_policy true false).
Definition sample_keys : list string := ["ops/a"; "ops/b"].
Definition sample_config : GatewayConfig := mkGatewayConfig true true true true true "".

(** The registry has both providers; [up] says which one answers. *)
Definition sample_server (up : string) (w : list (@Call unit)) X (op : gw_op unit X)
    : option (X * list (@Call unit)) :=
  match op in gw_op _ Y return option (Y * list (@Call unit)) with
  | GRegistered _ => Some (true, w)
  | GConfigurable _ => Some (true, w)
  | GGetSecret _ _ => Some (Ok {[ "api" := "k" ]}, w)
  | GGetProvider ns name =>
      Some (if (ns == "ops") && (name == "a") then Ok hosted_a
            else if (ns == "ops") && (name == "b") then Ok hosted_b
            else Err (mkError ErrNotFound "not found"), w)
  | GComplete p _ input =>
      let answer := if om_Name (mpr_Meta p) == up then inl tt
                    else inr (ProviderError "ProviderUnavailable" "down") in
      Some (answer, w ++ [mkCall p input answer])
  end.

Lemma sample_server_env up w X (op : gw_op unit X) x w' :
  sample_server up w X op = Some (x, w') -> gw_env sample_keys w X op x w'.
Proof.
  destruct op; simpl; intros [= <- <-]; try done. split; [done|].
  destruct ((namespace == "ops") && (name == "a")) eqn:Ha; go_bool.
  { intros p [= <-]. split_and!; [done..|]. set_solver. }
  destruct ((namespace == "ops") && (name == "b")) eqn:Hb; go_bool; [|done].
  intros p [= <-]. split_and!; [done..|]. set_solver.
Qed.

Definition sample_resource : ResourceRef := mkResourceRef "c" "prod" "Deployment" "web" "apps/v1" "web".
Definition sample_spec : InvestigationRequestSpec :=
  investigation_spec (mkTargetRef "c" "prod" "Deployment" "web" "apps/v1" "web") "" None 0 "why?" [] "" false "".
Definition sample_evidence : EvidenceCollectionResult :=
  mkEvidenceCollectionResult "two references"
    [sample_ref "l1" "log" "user=alice"; sample_ref "e1" "event" "BackOff"] [] [] [] [] None.
Definition sample_preflight : PreflightResult :=
  mkPreflightResult sample_resource ∅ [] [] (Some hosted_a) None None None None.

(** Nobody answers: the chain goes from a to b and stops at the loop. *)
Definition loop_run : option (option (Analysis unit)) * list (@Call unit) :=
  run (sample_server "")
    (AnalyzeIngestionWithProviderInputTrace sample_config 3 (Some hosted_a)
       (investigationInput sample_spec sample_resource sample_evidence 7)) [].

Lemma loop_run_finished : match loop_run.1 with Some _ => true | None => false end = true.
Proof. vm_compute. reflexivity. Qed.
Lemma loop_run_asked : map (fun c => providerName (call_Provider c)) loop_run.2 = ["a"; "b"].
Proof. vm_compute. reflexivity. Qed.

Lemma fallback_chain_terminates_witness :
  asked_once loop_run.2 /\
  exists a, loop_run.1 = Some (Some a) /\
    chain_complete (investigationInput sample_spec sample_resource sample_evidence 7)
      (providerKey hosted_a :: sample_keys) a loop_run.2.
Proof.
  assert (Hrun : exec (gw_env sample_keys)
    (AnalyzeIngestionWithProviderInputTrace sample_config 3 (Some hosted_a)
       (investigationInput sample_spec sample_resource sample_evidence 7)) [] loop_run.1 loop_run.2)
    by (apply run_exec, sample_server_env).
  assert (HK : (length sample_keys < 3)%nat) by (simpl; lia).
  destruct (fallback_chain_terminates sample_config sample_keys 3 hosted_a
    (investigationInput sample_spec sample_resource sample_evidence 7) loop_run.1 loop_run.2 HK Hrun) as [Ho Hc].
  split; [exact Ho|]. pose proof loop_run_finished as Hf. revert Hc Hf. generalize loop_run.1.
  intros [r|] Hc Hf; [|discriminate Hf]. destruct (Hc r eq_refl) as (a & -> & Ha). exists a. split; [reflexivity|exact Ha].
Defined.

(** The first provider is down, its fallback answers. *)
Definition fallback_run : option (option (RCAResult unit * option error)) * list (@Call unit) :=
  run (sample_server "b") (GenerateRCA sample_config 3 true sample_spec sample_preflight sample_evidence 7) [].

Lemma fallback_run_finished : match fallback_run.1 with Some _ => true | None => false end = true.
Proof. vm_compute. reflexivity. Qed.
Lemma fallback_run_sent :
  map (fun c => (providerName (call_Provider c), eb_Logs (io_Evidence (call_Input c)))) fallback_run.2
  = [("a", [logPlaceholder]); ("b", [logPlaceholder])].
Proof. vm_compute. reflexivity. Qed.

Lemma egress_audit_faithful_witness :
  length fallback_run.2 = 2%nat /\
  exists result err, fallback_run.1 = Some (Some (result, err)) /\
    forall c, c ∈ fallback_run.2 ->
      exists attempt, attempt ∈ rca_EgressAttempts result /\ audit_describes attempt c.
Proof.
  split; [vm_compute; reflexivity|].
  assert (Hrun : exec (gw_env sample_keys)
    (GenerateRCA sample_config 3 true sample_spec sample_preflight sample_evidence 7) [] fallback_run.1 fallback_run.2)
    by (apply run_exec, sample_server_env).
  pose proof fallback_run_finished as Hf. revert Hrun Hf. generalize fallback_run.1.
  intros [r|] Hrun Hf; [|discriminate Hf].
  destruct (egress_audit_faithful sample_config sample_keys 3 true sample_spec sample_preflight sample_evidence 7
    r fallback_run.2 ltac:(vm_compute; lia) ltac:(simpl; lia) Hrun) as (result & err & -> & H).
  exists result, err. split; [reflexivity|exact H].
Defined.

(** The direct path of the risk rules applies no data policy: the same log line
    reaches the same provider, whose policy allows no log samples. *)
Definition sample_match : Match := mkMatch "errors" "Loki" "error rate" "High" [sample_ref "l1" "log" "user=alice"].
Definition direct_run : option (option (Analysis unit)) * list (@Call unit) :=
  run (sample_server "a") (Analyze sample_config 3 (Some hosted_a) sample_resource [sample_match] 7) [].
Lemma risk_rule_sends_log_samples :
  mp_AllowLogSamples (policyOf hosted_a) = false /\
  map (fun c => (providerName (call_Provider c), eb_Logs (io_Evidence (call_Input c)))) direct_run.2
  = [("a", ["user=alice"])].
Proof. vm_compute. split; reflexivity. Qed.
End Examples.
