(* ===== verification/Verifier.v ===== *)
(** * Claim verification (internal/verifier/heuristic.go)

    The verifier that decides which claims of an analysis are supported by the
    collected evidence, and what its verdicts say about the evidence. *)

From Stdlib Require Import ZArith Lia QArith.
From stdpp Require Import base list strings gmap.
From S2P Require Import Prelude GoStrings Utf8.

(** ** Constants and data *)

Definition VerificationSupported : string := "Supported".
Definition VerificationInferred : string := "Inferred".
Definition VerificationUnsupported : string := "Unsupported".
Definition VerificationContradicted : string := "Contradicted".
Definition VerificationUnverified : string := "Unverified".
Definition MethodDomainEvidenceCoverageV2 : string := "DomainEvidenceCoverageV2".
Definition EvidenceRoleSupports : string := "Supports".
Definition EvidenceRoleContradicts : string := "Contradicts".
Definition EvidenceStrengthDirect : string := "Direct".

Record Claim := mkClaim { cl_ID : string; cl_Statement : string }.

(** [verifier.EvidenceRef]. *)
Record VerifierRef := mkVerifierRef {
  ve_ID : string;
  ve_Kind : string;
  ve_Summary : string;
  ve_Source : string;
  ve_Reason : string
}.

Record EvidenceLink := mkEvidenceLink { el_EvidenceRef : string; el_Role : string; el_Strength : string }.

Record ClaimResult := mkClaimResult {
  cr_ID : string;
  cr_EvidenceRefs : list string;
  cr_EvidenceLinks : list EvidenceLink;
  cr_Verification : string
}.

(** The coverage score is the exact quotient that the code rounds to a float64. *)
Record VerificationResult := mkVerificationResult {
  vr_Claims : list ClaimResult;
  vr_CoverageScore : Q;
  vr_Method : string
}.

Section Verifier.
Context {U : UnicodeTables}.

(** ** Texts *)

Definition separator_byte (c : Ascii.ascii) : bool :=
  (byte_val c =? 95) || (byte_val c =? 45) || (byte_val c =? 46) || (byte_val c =? 47).

(** The replacer of [_], [-], [.] and [/] by spaces works byte by byte. *)
Definition replace_separators (s : string) : string :=
  str_map (fun c => if separator_byte c then byte_of 32 else c) s.
Definition normalizeText (text : string) : string :=
  join " " (fields (replace_separators (to_lower (trim_space text)))).

Definition evidenceText (ref : VerifierRef) : string :=
  normalizeText (ve_Kind ref +:+ " " +:+ ve_Source ref +:+ " " +:+ ve_Reason ref +:+ " " +:+ ve_Summary ref).

Definition importantTokens (text : string) : list string :=
  List.filter (fun part => (5 <=? String.length part)%nat) (fields text).

Definition evidenceTerms (statement : string) : list string :=
  if contains_any statement ["crash"; "restart"; "backoff"; "oom"; "pod"; "startup"]
  then ["crash"; "restart"; "backoff"; "oom"; "pod"; "startup"]
  else if contains_any statement ["cpu"; "memory"; "resource"; "pressure"]
  then ["cpu"; "memory"; "resource"; "pressure"; "oom"]
  else if contains_any statement ["latency"; "timeout"; "traffic"; "http"; "5xx"; "error"]
  then ["latency"; "timeout"; "traffic"; "http"; "5xx"; "error"]
  else if contains_any statement ["rollout"; "release"; "image"; "config"; "configuration"]
  then ["rollout"; "release"; "image"; "config"; "configuration"]
  else importantTokens statement.

Definition containsContradictionMarker (text : string) : bool :=
  contains_any text ["below threshold"; "no error"; "no errors"]
  || existsb (fun '(marker, negations) => mem_str marker (fields text) && negb (contains_any text negations))
       [("normal", ["not normal"]); ("healthy", ["not healthy"]);
        ("ready", ["not ready"; "never ready"]); ("available", ["not available"])].

Definition evidenceSupportsStatement (statement : string) (ref : VerifierRef) : bool :=
  (evidenceText ref != "") && contains_any (evidenceText ref) (evidenceTerms statement).
Definition evidenceContradictsStatement (statement : string) (ref : VerifierRef) : bool :=
  (evidenceText ref != "") && containsContradictionMarker (evidenceText ref)
  && contains_any (evidenceText ref) (evidenceTerms statement).

(** The identifiers of the evidence that passes a test; blank ones are skipped. *)
Definition selectIDs (test : VerifierRef -> bool) (evidence : list VerifierRef) : list string :=
  omap (fun ref => let id := trim_space (ve_ID ref) in
                   if id == "" then None else if test ref then Some id else None) evidence.

Definition matchingEvidenceIDs (statement : string) (evidence : list VerifierRef) : list string :=
  let statement := normalizeText statement in
  if statement == "" then [] else selectIDs (evidenceSupportsStatement statement) evidence.
Definition contradictoryEvidenceIDs (statement : string) (evidence : list VerifierRef) : list string :=
  let statement := normalizeText statement in
  if statement == "" then [] else selectIDs (evidenceContradictsStatement statement) evidence.

(** ** Domain profiles *)

Definition domainProfile (statement : string) : string :=
  let statement := normalizeText statement in
  let any := contains_any statement in
  let pull := any ["image"; "registry"; "pull"] in
  if pull && any ["missing image"; "missing container image"; "image is missing"; "image does not exist";
                  "image not found"; "repository does not exist"; "manifest unknown"] then "imagepullmissing"
  else if pull && any ["authentication"; "unauthorized"; "access denied"; "pull access denied"; "credential"]
  then "registryauth"
  else if pull && any ["dns"; "name resolution"; "no such host"; "host lookup"] then "registrydns"
  else if pull && any ["registry unavailable"; "registry is unavailable"; "registry was unavailable";
                       "registry outage"; "registry is down"; "registry timeout"; "registry connection refused"]
  then "registryunavailable"
  else if any ["imagepullbackoff"; "errimagepull"; "image pull"; "pull image"; "failed to pull"]
  then "imagepullbackoff"
  else if any ["failedscheduling"; "failed scheduling"; "unschedulable"; "untolerated taint"; "insufficient cpu";
               "insufficient memory"] then "schedulingsuccess"
  else if any ["crashloopbackoff"; "crash loop"; "crashloop"; "backoff"; "restarting"; "restart"]
  then "crashloopbackoff"
  else if any ["readiness probe"; "liveness probe"; "probe failure"; "probe failed"; "unhealthy probe"]
  then "probefailure"
  else if any ["targetport"; "target port"; "service port"; "container port"; "port mismatch"; "listener port";
               "targets port"; "listens on port"] then "serviceportmismatch"
  else if any ["high http error"; "http 5xx"; "5xx error"; "5xx rate"; "error rate"] then "highhttperror"
  else if any ["oomkilled"; "out of memory"; "memory limit"; "memory pressure"; "memory usage";
               "memory threshold"; "safe threshold"] then "memorypressure"
  else if any ["latency regression"; "high latency"; "p95 latency"; "p99 latency"; "timeout"; "slow response"]
  then "latencyregression"
  else if any ["rollout"; "release"; "image digest"; "pod template"; "replicaset"; "generation changed";
               "deployment change"] then "rollout"
  else "".

Definition requiredDomainKinds (profile : string) : list string :=
  if mem_str profile ["imagepullbackoff"; "imagepullmissing"; "registryauth"; "registrydns"; "registryunavailable"]
  then ["event"]
  else if profile == "crashloopbackoff" then ["event"; "log"]
  else if profile == "schedulingsuccess" then ["event"]
  else if profile == "probefailure" then ["event"; "probeconfiguration"]
  else if profile == "serviceportmismatch" then ["serviceConfiguration"]
  else if profile == "highhttperror" then ["metric"; "log"]
  else if profile == "memorypressure" then ["event"; "metric"]
  else if profile == "latencyregression" then ["metric"]
  else if profile == "rollout" then ["deploymentcondition"]
  else [].

Definition kindOf (ref : VerifierRef) : string := to_lower (trim_space (ve_Kind ref)).

Definition domainEvidenceSupports (profile : string) (ref : VerifierRef) : bool :=
  let kind := kindOf ref in
  let text := evidenceText ref in
  let any := contains_any text in
  if profile == "imagepullbackoff" then
    (kind == "event") && any ["imagepullbackoff"; "errimagepull"; "failed to pull image"; "pull access denied"]
  else if profile == "imagepullmissing" then
    (kind == "event") && any ["manifest unknown"; "image not found"; "image does not exist";
                              "repository does not exist"; "no such image"]
  else if profile == "registryauth" then
    (kind == "event") && any ["pull access denied"; "unauthorized"; "authentication required"; "access denied";
                              "denied: requested access"]
  else if profile == "registrydns" then
    (kind == "event") && any ["no such host"; "dns"; "name resolution"; "temporary failure in name resolution";
                              "host lookup"]
  else if profile == "registryunavailable" then
    (kind == "event") && any ["connection refused"; "i/o timeout"; "registry unavailable"; "service unavailable";
                              "registry timeout"]
  else if profile == "crashloopbackoff" then
    if kind == "event" then
      any ["crashloopbackoff"; "backoff"; "back off"; "container crashed"; "restarting failed container"]
    else (kind == "log") && any ["panic"; "fatal"; "startup error"; "startup failure"; "failed to initialize";
                                 "invalid configuration"; "configuration error"; "exception"; "segmentation fault"]
  else if profile == "schedulingsuccess" then
    ((kind == "event") || (kind == "scheduling")) &&
    (any ["failedscheduling"; "failed scheduling"; "unschedulable"; "untolerated taint"; "insufficient cpu";
          "insufficient memory"]
     || ((kind == "scheduling") && contains text "podschedul" && contains text "=false"))
  else if profile == "probefailure" then
    ((kind == "event") && any ["unhealthy"; "readiness"; "liveness"; "probe"; "not ready"])
    || ((kind == "probeconfiguration")
        && any ["probeconfigurationmismatch"; "probe configuration mismatch"; "mismatchconfirmed"])
  else if profile == "serviceportmismatch" then
    ((kind == "serviceconfiguration") || (kind == "event"))
    && any ["serviceportmismatch"; "service port mismatch"; "mismatchconfirmed"; "targetport"; "target port";
            "targets port"; "container port"; "listens on port"; "port mismatch"; "connection refused"]
  else if profile == "highhttperror" then
    if kind == "metric" then any ["http"; "5xx"; "error rate"; "error ratio"]
    else (kind == "log") && any ["connection refused"; "upstream unavailable"; "dependency unavailable";
                                 "service unavailable"; "upstream timeout"; "failed to connect"; "dial tcp";
                                 "connection reset"]
  else if profile == "memorypressure" then
    if kind == "event" then any ["oomkilled"; "out of memory"; "memory limit"]
    else (kind == "metric") && any ["memory"; "working set"; "rss"; "container_memory"]
  else if profile == "latencyregression" then
    (kind == "metric") && any ["latency"; "duration"; "response time"; "p95"; "p99"; "histogram"]
  else if profile == "rollout" then
    (kind == "deploymentcondition") && any ["generation"; "replicaset"; "replica set"; "pod template";
                                            "image digest"; "rollout"; "progressing"]
  else false.

(** The kinds of the selected evidence: [coveredKinds]. *)
Definition coveredKinds (profile : string) (evidence : list VerifierRef) : list string :=
  map kindOf (List.filter (fun ref => (trim_space (ve_ID ref) != "") && domainEvidenceSupports profile ref) evidence).

(** [None] when the statement has no profile. *)
Definition domainSupportEvidenceIDs (statement : string) (evidence : list VerifierRef) : option (list string) :=
  let profile := domainProfile statement in
  if profile == "" then None
  else
    let ids := selectIDs (domainEvidenceSupports profile) evidence in
    Some (if mem_str profile ["schedulingsuccess"; "serviceportmismatch"] then ids
          else if forallb (fun kind => mem_str kind (coveredKinds profile evidence)) (requiredDomainKinds profile)
          then ids else []).

(** ** VerifyClaims *)

Definition evidenceLinks (ids : list string) (role strength : string) : list EvidenceLink :=
  map (fun id => mkEvidenceLink id role strength) ids.

Definition claimMatches (statement : string) (evidence : list VerifierRef) : list string :=
  match domainSupportEvidenceIDs statement evidence with
  | Some ids => ids
  | None => matchingEvidenceIDs statement evidence
  end.

Definition nonempty {A} (l : list A) : bool := match l with [] => false | _ => true end.

Definition verifyClaim (evidence : list VerifierRef) (claim : Claim) : ClaimResult :=
  let found := claimMatches (cl_Statement claim) evidence in
  let contradictions := contradictoryEvidenceIDs (cl_Statement claim) evidence in
  let verification := if nonempty evidence then VerificationInferred else VerificationUnverified in
  let verification := if nonempty evidence && negb (nonempty found) then VerificationUnsupported else verification in
  let links := evidenceLinks found EvidenceRoleSupports EvidenceStrengthDirect in
  let verification := if nonempty found then VerificationSupported else verification in
  if nonempty contradictions then
    mkClaimResult (cl_ID claim) found
      (evidenceLinks contradictions EvidenceRoleContradicts EvidenceStrengthDirect) VerificationContradicted
  else mkClaimResult (cl_ID claim) found links verification.

(** What counts as supported in the score. *)
Definition countsAsSupported (evidence : list VerifierRef) (claim : Claim) : bool :=
  nonempty (claimMatches (cl_Statement claim) evidence)
  && negb (nonempty (contradictoryEvidenceIDs (cl_Statement claim) evidence)).

Definition VerifyClaims (claims : list Claim) (evidence : list VerifierRef) : VerificationResult :=
  mkVerificationResult (map (verifyClaim evidence) claims)
    (match claims with
     | [] => 0
     | _ => Z.of_nat (length (List.filter (countsAsSupported evidence) claims)) # Pos.of_nat (length claims)
     end)%Q
    MethodDomainEvidenceCoverageV2.
End Verifier.

(** ** What the verdicts say *)

Section Verdicts.
Context {U : UnicodeTables}.

(** A reference that bears on the statement, by its domain profile if it has one. *)
Definition bears_out (statement : string) (ref : VerifierRef) : Prop :=
  trim_space (ve_ID ref) <> "" /\
  if domainProfile statement == ""
  then normalizeText statement <> "" /\ evidenceSupportsStatement (normalizeText statement) ref = true
  else domainEvidenceSupports (domainProfile statement) ref = true.

(** The evidence bears the statement out, with every kind its profile asks for;
    the two profiles that ask for none are named. *)
Definition borne_out (statement : string) (evidence : list VerifierRef) : Prop :=
  (exists ref, ref ∈ evidence /\ bears_out statement ref) /\
  (domainProfile statement <> "schedulingsuccess" -> domainProfile statement <> "serviceportmismatch" ->
   forall kind, kind ∈ requiredDomainKinds (domainProfile statement) ->
     exists ref, ref ∈ evidence /\ bears_out statement ref /\ kindOf ref = kind).

Definition contradicts (statement : string) (ref : VerifierRef) : Prop :=
  trim_space (ve_ID ref) <> "" /\ normalizeText statement <> "" /\
  evidenceContradictsStatement (normalizeText statement) ref = true.

Definition contradicted (statement : string) (evidence : list VerifierRef) : Prop :=
  exists ref, ref ∈ evidence /\ contradicts statement ref.

Lemma selectIDs_spec test (evidence : list VerifierRef) id :
  id ∈ selectIDs test evidence <->
  exists ref, ref ∈ evidence /\ trim_space (ve_ID ref) <> "" /\ test ref = true /\ id = trim_space (ve_ID ref).
Proof.
  unfold selectIDs. rewrite list_elem_of_omap. split.
  - intros (ref & Hr & Hf). exists ref. destruct (trim_space (ve_ID ref) == "") eqn:He; [done|].
    apply String.eqb_neq in He. destruct (test ref); naive_solver.
  - intros (ref & Hr & Hne & Ht & ->). exists ref. split; [done|].
    rewrite (proj2 (String.eqb_neq _ _) Hne), Ht. done.
Qed.

Lemma nonempty_elem {A} (l : list A) : nonempty l = true <-> exists x, x ∈ l.
Proof.
  destruct l as [|x l]; simpl.
  - split; [done|]. by intros [x Hx%elem_of_nil].
  - split; [|done]. intros _. exists x. apply list_elem_of_here.
Qed.

Lemma coveredKinds_spec profile (evidence : list VerifierRef) kind :
  kind ∈ coveredKinds profile evidence <->
  exists ref, ref ∈ evidence /\ trim_space (ve_ID ref) <> "" /\ domainEvidenceSupports profile ref = true /\
              kindOf ref = kind.
Proof.
  unfold coveredKinds. rewrite (list_elem_of_fmap kindOf). split.
  - intros (ref & -> & Hr). apply list_filter_elem in Hr as [Hr Ht]. exists ref.
    go_bool. naive_solver.
  - intros (ref & Hr & Hne & Hd & <-). exists ref. split; [done|].
    apply list_filter_elem. split; [done|].
    rewrite (proj2 (String.eqb_neq _ _) Hne), Hd. done.
Qed.

(** Every cited identifier is that of a reference which bears the statement out. *)
Lemma claimMatches_bears_out statement (evidence : list VerifierRef) id :
  id ∈ claimMatches statement evidence ->
  exists ref, ref ∈ evidence /\ bears_out statement ref /\ id = trim_space (ve_ID ref).
Proof.
  unfold claimMatches, domainSupportEvidenceIDs, bears_out. destruct (domainProfile statement == "") eqn:Hp.
  - unfold matchingEvidenceIDs. destruct (normalizeText statement == "") eqn:Hn; [by intros ?%elem_of_nil|].
    apply String.eqb_neq in Hn. intros (ref & ? & ? & ? & ->)%selectIDs_spec. eauto 10.
  - assert (Hsel : id ∈ selectIDs (domainEvidenceSupports (domainProfile statement)) evidence ->
      exists ref, ref ∈ evidence /\ (trim_space (ve_ID ref) <> "" /\
        domainEvidenceSupports (domainProfile statement) ref = true) /\ id = trim_space (ve_ID ref)).
    { intros (ref & ? & ? & ? & ->)%selectIDs_spec. eauto 10. }
    destruct (mem_str _ _); [done|]. destruct (forallb _ _); [done|]. by intros ?%elem_of_nil.
Qed.

Lemma not_elem_pair {A} (x a b : A) : x <> a -> x <> b -> x ∉ [a; b].
Proof. set_solver. Qed.

Lemma claimMatches_nonempty statement (evidence : list VerifierRef) :
  nonempty (claimMatches statement evidence) = true <-> borne_out statement evidence.
Proof.
  unfold borne_out. split.
  - intros Hne. pose proof (proj1 (nonempty_elem _) Hne) as [id Hid].
    split; [by apply claimMatches_bears_out in Hid as (ref & ? & ? & _); eauto|].
    intros H1 H2 kind Hk. unfold claimMatches, domainSupportEvidenceIDs in Hid. unfold bears_out.
    destruct (domainProfile statement == "") eqn:Hp; [apply String.eqb_eq in Hp; by rewrite Hp in Hk; apply elem_of_nil in Hk|].
    rewrite (proj2 (mem_str_false _ _) (not_elem_pair _ _ _ H1 H2)) in Hid.
    destruct (forallb _ _) eqn:Hf; [|by apply elem_of_nil in Hid].
    rewrite forallb_forall in Hf. apply list_elem_of_In in Hk. apply Hf, mem_str_spec, coveredKinds_spec in Hk.
    destruct Hk as (r & ? & ? & ? & ?). eauto 10.
  - intros [(ref & Hr & Hb) Hk]. apply nonempty_elem. unfold claimMatches, domainSupportEvidenceIDs.
    unfold bears_out in *. destruct (domainProfile statement == "") eqn:Hp.
    + destruct Hb as (Hid & Hn & Hs). exists (trim_space (ve_ID ref)). unfold matchingEvidenceIDs.
      rewrite (proj2 (String.eqb_neq _ _) Hn). apply selectIDs_spec. eauto.
    + exists (trim_space (ve_ID ref)). destruct Hb as [Hid Hd].
      assert (Hsel : trim_space (ve_ID ref) ∈ selectIDs (domainEvidenceSupports (domainProfile statement)) evidence)
        by (apply selectIDs_spec; eauto).
      destruct (mem_str _ _) eqn:Hm; [done|]. apply mem_str_false in Hm.
      replace (forallb _ _) with true; [done|]. symmetry. apply forallb_forall. intros kind Hin.
      apply mem_str_spec, coveredKinds_spec. apply list_elem_of_In in Hin.
      apply not_elem_of_cons in Hm as [Hm1 Hm2]. apply not_elem_of_cons in Hm2 as [Hm2 _].
      destruct (Hk Hm1 Hm2 kind Hin) as (r & ? & [? ?] & ?). eauto.
Qed.

Lemma contradictory_nonempty statement (evidence : list VerifierRef) :
  nonempty (contradictoryEvidenceIDs statement evidence) = true <-> contradicted statement evidence.
Proof.
  rewrite nonempty_elem. unfold contradictoryEvidenceIDs, contradicted, contradicts.
  destruct (normalizeText statement == "") eqn:Hn.
  - apply String.eqb_eq in Hn. split; [by intros [? ?%elem_of_nil]|]. naive_solver.
  - apply String.eqb_neq in Hn. setoid_rewrite selectIDs_spec. naive_solver.
Qed.

Lemma contradictory_contradicts statement (evidence : list VerifierRef) id :
  id ∈ contradictoryEvidenceIDs statement evidence ->
  exists ref, ref ∈ evidence /\ contradicts statement ref /\ id = trim_space (ve_ID ref).
Proof.
  unfold contradictoryEvidenceIDs, contradicts. destruct (normalizeText statement == "") eqn:Hn; [by intros ?%elem_of_nil|].
  apply String.eqb_neq in Hn. intros (ref & ? & ? & ? & ->)%selectIDs_spec. eauto 10.
Qed.

Lemma evidenceLinks_elem ids role strength link :
  link ∈ evidenceLinks ids role strength -> el_EvidenceRef link ∈ ids /\ el_Role link = role.
Proof. intros (id & -> & Hid)%list_elem_of_fmap. done. Qed.

Lemma verifyClaim_verification (evidence : list VerifierRef) (claim : Claim) :
  cr_Verification (verifyClaim evidence claim) =
  if nonempty (contradictoryEvidenceIDs (cl_Statement claim) evidence) then VerificationContradicted
  else if nonempty (claimMatches (cl_Statement claim) evidence) then VerificationSupported
  else if nonempty evidence then VerificationUnsupported else VerificationUnverified.
Proof. unfold verifyClaim. by repeat case_match. Qed.

Lemma verifyClaim_links (evidence : list VerifierRef) (claim : Claim) link :
  let s := cl_Statement claim in
  let v := verifyClaim evidence claim in
  link ∈ cr_EvidenceLinks v ->
  exists ref, ref ∈ evidence /\ el_EvidenceRef link = trim_space (ve_ID ref) /\
    if cr_Verification v == VerificationContradicted
    then el_Role link = EvidenceRoleContradicts /\ contradicts s ref
    else el_Role link = EvidenceRoleSupports /\ bears_out s ref.
Proof.
  cbv zeta. rewrite verifyClaim_verification. unfold verifyClaim.
  destruct (nonempty (contradictoryEvidenceIDs _ _)) eqn:Hc; cbn [cr_EvidenceLinks];
    intros [Hid Hrole]%evidenceLinks_elem.
  - apply contradictory_contradicts in Hid as (ref & ? & ? & ?). exists ref. naive_solver.
  - apply claimMatches_bears_out in Hid as (ref & ? & ? & ?). exists ref. split; [done|]. split; [done|].
    by destruct (nonempty (claimMatches _ _)), (nonempty evidence).
Qed.

Lemma not_not_nil {A} (l : list A) : ~ (l <> []) <-> l = [].
Proof. destruct l; split; try done; intros H; [by intros H'; apply H'|exfalso; by apply H]. Qed.

(** The verdict as a function of three facts. *)
Definition verdict_of (contra supported some_evidence : bool) : string :=
  if contra then VerificationContradicted
  else if supported then VerificationSupported
  else if some_evidence then VerificationUnsupported else VerificationUnverified.

Lemma verdict_of_spec (c m e : bool) (C M E : Prop) :
  (c = true <-> C) -> (m = true <-> M) -> (e = true <-> E) -> (C -> E) -> (M -> E) ->
  (verdict_of c m e = VerificationContradicted <-> C) /\
  (verdict_of c m e = VerificationSupported <-> M /\ ~ C) /\
  (verdict_of c m e = VerificationUnverified <-> ~ E) /\
  (verdict_of c m e = VerificationUnsupported <-> E /\ ~ M /\ ~ C).
Proof.
  intros Hc Hm He HCE HME. destruct c, m, e; unfold verdict_of;
    repeat match goal with
    | H : true = true <-> _ |- _ => apply proj1 in H; specialize (H eq_refl)
    | H : false = true <-> ?P |- _ => assert (~ P) by (intros HP; apply H in HP; discriminate); clear H
    end; repeat split; intros; first [discriminate | tauto | reflexivity].
Qed.

(** The verdict of every claim, in order: Contradicted exactly when a
    reference contradicts the statement; otherwise Supported exactly when the
    evidence bears it out, with every kind of evidence its domain profile asks
    for; otherwise Unverified without evidence and Unsupported with some.  Every
    cited reference bears the statement out, and every link of a contradicted
    claim leads to a reference that contradicts it. *)
Theorem claim_verdicts_exact (claims : list Claim) (evidence : list VerifierRef) (i : nat) (claim : Claim)
    (verdict : ClaimResult) :
  claims !! i = Some claim -> vr_Claims (VerifyClaims claims evidence) !! i = Some verdict ->
  let s := cl_Statement claim in
  cr_ID verdict = cl_ID claim /\
  (cr_Verification verdict = VerificationContradicted <-> contradicted s evidence) /\
  (cr_Verification verdict = VerificationSupported <-> borne_out s evidence /\ ~ contradicted s evidence) /\
  (cr_Verification verdict = VerificationUnverified <-> evidence = []) /\
  (cr_Verification verdict = VerificationUnsupported <->
     evidence <> [] /\ ~ borne_out s evidence /\ ~ contradicted s evidence) /\
  (forall id, id ∈ cr_EvidenceRefs verdict ->
     exists ref, ref ∈ evidence /\ bears_out s ref /\ id = trim_space (ve_ID ref)) /\
  (forall link, link ∈ cr_EvidenceLinks verdict ->
     exists ref, ref ∈ evidence /\ el_EvidenceRef link = trim_space (ve_ID ref) /\
       if cr_Verification verdict == VerificationContradicted
       then el_Role link = EvidenceRoleContradicts /\ contradicts s ref
       else el_Role link = EvidenceRoleSupports /\ bears_out s ref).
Proof.
  intros Hc Hv. cbv zeta. simpl in Hv. change (map ?f claims) with (f <$> claims) in Hv.
  rewrite list_lookup_fmap, Hc in Hv. injection Hv as <-.
  assert (Hid : cr_ID (verifyClaim evidence claim) = cl_ID claim) by (unfold verifyClaim; by case_match).
  assert (Hrefs : cr_EvidenceRefs (verifyClaim evidence claim) = claimMatches (cl_Statement claim) evidence)
    by (unfold verifyClaim; by case_match).
  split; [exact Hid|]. rewrite Hrefs, verifyClaim_verification.
  fold (verdict_of (nonempty (contradictoryEvidenceIDs (cl_Statement claim) evidence))
    (nonempty (claimMatches (cl_Statement claim) evidence)) (nonempty evidence)).
  destruct (verdict_of_spec _ _ (nonempty evidence) _ _ (evidence <> [])
    (contradictory_nonempty (cl_Statement claim) evidence) (claimMatches_nonempty (cl_Statement claim) evidence))
    as (H1 & H2 & H3 & H4).
  { by destruct evidence. }
  { intros (ref & Hr & _) ->. by apply elem_of_nil in Hr. }
  { intros [(ref & Hr & _) _] ->. by apply elem_of_nil in Hr. }
  split; [exact H1|]. split; [exact H2|]. split; [by rewrite H3, not_not_nil|].
  split; [exact H4|]. split; [apply claimMatches_bears_out|].
  intros link Hl. pose proof (verifyClaim_links evidence claim link Hl) as Hlink. cbv zeta in Hlink.
  by rewrite verifyClaim_verification in Hlink.
Qed.

Lemma countsAsSupported_verdict (evidence : list VerifierRef) (claim : Claim) :
  countsAsSupported evidence claim = (cr_Verification (verifyClaim evidence claim) == VerificationSupported).
Proof.
  rewrite verifyClaim_verification. unfold countsAsSupported.
  by destruct (nonempty (contradictoryEvidenceIDs _ _)), (nonempty (claimMatches _ _)), (nonempty evidence).
Qed.

Lemma filter_length_all {A} (P : A -> bool) (l : list A) :
  length (List.filter P l) = length l <-> forall x, x ∈ l -> P x = true.
Proof.
  induction l as [|x l IH]; simpl; [split; [by intros _ y Hy%elem_of_nil|done]|].
  pose proof (List.filter_length_le P l) as Hle. destruct (P x) eqn:Hx; simpl.
  - rewrite Nat.succ_inj_wd, IH. setoid_rewrite elem_of_cons. naive_solver.
  - split; [lia|]. intros H. rewrite (H x) in Hx by apply list_elem_of_here. done.
Qed.

Lemma share_spec (k n : nat) :
  (0 < n)%nat -> (k <= n)%nat ->
  let q := (Z.of_nat k # Pos.of_nat n)%Q in
  (q * inject_Z (Z.of_nat n) == inject_Z (Z.of_nat k))%Q /\ (0 <= q <= 1)%Q /\ ((q == 1)%Q <-> k = n).
Proof.
  intros Hn Hk q. subst q. assert (Hp : Z.pos (Pos.of_nat n) = Z.of_nat n) by lia.
  unfold Qeq, Qle; simpl. rewrite Pos.mul_1_r, Hp. repeat split; lia.
Qed.

(** The coverage score is the share of the claims whose verdict is Supported:
    a number from 0 to 1, 0 without claims, and 1 exactly when there are claims
    and all of them are Supported. *)
Theorem coverage_score_share (claims : list Claim) (evidence : list VerifierRef) :
  let r := VerifyClaims claims evidence in
  let supported := List.filter (fun v => cr_Verification v == VerificationSupported) (vr_Claims r) in
  (vr_CoverageScore r * inject_Z (Z.of_nat (length claims)) == inject_Z (Z.of_nat (length supported)))%Q /\
  (0 <= vr_CoverageScore r <= 1)%Q /\
  ((vr_CoverageScore r == 1)%Q <->
   claims <> [] /\ forall v, v ∈ vr_Claims r -> cr_Verification v = VerificationSupported).
Proof.
  cbv zeta. cbn [VerifyClaims vr_Claims vr_CoverageScore].
  assert (Hlen : length (List.filter (fun v => cr_Verification v == VerificationSupported)
                           (map (verifyClaim evidence) claims))
                 = length (List.filter (countsAsSupported evidence) claims)).
  { induction claims as [|c cs IH]; simpl; [done|]. rewrite countsAsSupported_verdict.
    destruct (_ == _); simpl; by rewrite IH. }
  rewrite Hlen. pose proof (List.filter_length_le (countsAsSupported evidence) claims) as Hle.
  destruct claims as [|c cs]; [split; [reflexivity|split; [by split|]]; split; [done|by intros [? _]]|].
  destruct (share_spec _ _ (Nat.lt_0_succ (length cs)) Hle) as (Hmul & Hrange & Hone).
  split; [exact Hmul|]. split; [exact Hrange|]. change (S (length cs)) with (length (c :: cs)) in Hone.
  rewrite Hone, filter_length_all. split.
  - intros H. split; [done|]. intros v Hv. apply list_elem_of_fmap in Hv as (x & -> & Hx).
    apply String.eqb_eq. rewrite <- countsAsSupported_verdict. by apply H.
  - intros [_ H] x Hx. rewrite countsAsSupported_verdict. apply String.eqb_eq, H.
    apply list_elem_of_fmap. by exists x.
Qed.
End Verdicts.

(** ** Patterns that can never match

    [normalizeText] turns [/] into a space, so the pattern ["i/o timeout"] of
    the profile [registryunavailable] finds nothing in any evidence. *)
Section Separators.
Context {U : UnicodeTables}.

Definition plain_byte (c : Ascii.ascii) : bool := negb (separator_byte c).

Lemma fields_segs_all p l cur :
  Forall (fun seg : Z * string => str_all p seg.2 = true) l -> str_all p cur = true ->
  Forall (fun f => str_all p f = true) (fields_segs l cur).
Proof.
  intros Hl. revert cur. induction Hl as [|[r b] l Hb Hl IH]; intros cur Hcur; simpl in *.
  - destruct (cur == ""); auto.
  - destruct (is_space_rune r); [|apply IH; by rewrite str_all_app, Hcur].
    destruct (cur == ""); [by apply IH|]. constructor; [done|]. by apply IH.
Qed.

Lemma fields_all p (s : string) : str_all p s = true -> Forall (fun f => str_all p f = true) (fields s).
Proof. intros Hs. apply fields_segs_all; [|done]. apply str_all_unsegment. by rewrite unsegment_segments. Qed.

Lemma join_all p sep l :
  str_all p sep = true -> Forall (fun f => str_all p f = true) l -> str_all p (join sep l) = true.
Proof.
  intros Hsep Hl. induction Hl as [|x l Hx Hl IH]; [done|]. destruct l as [|y l]; [done|].
  change (join sep (x :: y :: l)) with (x +:+ sep +:+ join sep (y :: l)). by rewrite !str_all_app, Hx, Hsep, IH.
Qed.

Lemma replace_separators_plain (s : string) : str_all plain_byte (replace_separators s) = true.
Proof.
  induction s as [|c s IH]; [done|]. unfold replace_separators in *. simpl. rewrite IH, andb_true_r.
  unfold plain_byte. destruct (separator_byte c) eqn:Hc; [done|]. by rewrite Hc.
Qed.

Lemma normalizeText_plain (text : string) : str_all plain_byte (normalizeText text) = true.
Proof. apply join_all; [done|]. apply fields_all, replace_separators_plain. Qed.

Lemma has_prefix_all p s t : has_prefix s t = true -> str_all p s = true -> str_all p t = true.
Proof.
  revert s. induction t as [|a t IH]; intros s; [done|]. destruct s as [|b s]; [done|]. simpl.
  intros [->%Ascii.eqb_eq Ht]%andb_true_iff [Hb Hs]%andb_true_iff. rewrite Hb. simpl. by apply (IH s).
Qed.

Lemma contains_all p s t : contains s t = true -> str_all p s = true -> str_all p t = true.
Proof.
  induction s as [|c s IH]; cbn [contains]; intros [Hp|Hc]%orb_true_iff Hs; try done;
    try (by apply (has_prefix_all p _ _ Hp)).
  simpl in Hs. apply andb_true_iff in Hs as [_ Hs]. by apply IH.
Qed.

Lemma io_timeout_never_found (ref : VerifierRef) : contains (evidenceText ref) "i/o timeout" = false.
Proof.
  destruct (contains _ _) eqn:Hc; [|done]. exfalso.
  pose proof (contains_all plain_byte _ _ Hc (normalizeText_plain _)) as H. discriminate H.
Qed.
End Separators.

(** ** Concrete verdicts *)
Section Examples.
#[local] Existing Instance plain_tables.

Definition sample_claims : list Claim :=
  [mkClaim "c1" "Pods are in CrashLoopBackOff"; mkClaim "c2" "High latency after the release"].
Definition sample_evidence_refs : list VerifierRef :=
  [mkVerifierRef "e1" "event" "Back-off restarting failed container" "k8s" "BackOff";
   mkVerifierRef "e2" "log" "panic: invalid configuration" "loki" ""].

Lemma claim_verdicts_exact_witness :
  map cr_Verification (vr_Claims (VerifyClaims sample_claims sample_evidence_refs))
    = ["Supported"; "Unsupported"] /\
  borne_out "Pods are in CrashLoopBackOff" sample_evidence_refs /\
  ~ contradicted "Pods are in CrashLoopBackOff" sample_evidence_refs.
Proof.
  split; [vm_compute; reflexivity|].
  destruct (claim_verdicts_exact sample_claims sample_evidence_refs 0
    (mkClaim "c1" "Pods are in CrashLoopBackOff")
    (verifyClaim sample_evidence_refs (mkClaim "c1" "Pods are in CrashLoopBackOff")) eq_refl eq_refl)
    as (_ & _ & Hs & _).
  apply Hs. vm_compute. reflexivity.
Defined.
End Examples.
