(* ===== verification/StatusBudget.v ===== *)
(** * Status size budget (internal/statusbudget/limits.go)

    Truncation of status strings at rune boundaries and the bounds the
    controller enforces on the status of an investigation before it writes it.
    The size of a status is the length of its JSON encoding, which is a
    parameter here ([marshal]): no bound depends on how it encodes. *)

From Stdlib Require Import ZArith Lia.
From stdpp Require Import base list strings gmap.
From S2P Require Import Prelude GoStrings Utf8 Float64 Api InvestigationApi.

Definition MaxEvidenceRefs : nat := 32.
Definition MaxClaims : nat := 16.
Definition MaxEvidenceSummaryBytes : Z := 1024.
Definition MaxClaimStatementBytes : Z := 1024.
Definition MaxSummaryBytes : Z := 2048.
Definition MaxStatusBytes : Z := 65536.

(** ** Truncation *)

(** The loop that advances [retained] rune by rune; the length of [value] is
    fuel enough, every rune being at least one byte. *)
Fixpoint retain (fuel : nat) (value : string) (maxBytes : Z) (retained : nat) : nat :=
  match fuel with
  | O => retained
  | S f =>
      if Z.of_nat retained <? str_len value then
        let size := (decode_rune (str_drop retained value)).2 in
        if maxBytes <? Z.of_nat (retained + size) then retained
        else retain f value maxBytes (retained + size)
      else retained
  end.

(** The string, its original and its retained size, and whether it was cut. *)
Definition TruncateUTF8 (value : string) (maxBytes : Z) : string * Z * Z * bool :=
  let originalBytes := str_len value in
  if maxBytes <=? 0 then ("", wrap32 originalBytes, 0, 0 <? originalBytes)
  else if originalBytes <=? maxBytes then (value, wrap32 originalBytes, wrap32 originalBytes, false)
  else
    let retained := retain (String.length value) value maxBytes 0 in
    (str_take retained value, wrap32 originalBytes, wrap32 (Z.of_nat retained), true).

Definition CompactEvidenceRef (ref : EvidenceRef) : EvidenceRef * bool :=
  let '(summary, originalBytes, retainedBytes, truncated) :=
    TruncateUTF8 (er_Summary ref) MaxEvidenceSummaryBytes in
  let ref := ref <| er_Summary := summary |> in
  let ref := if er_OriginalBytes ref =? 0 then ref <| er_OriginalBytes := originalBytes |> else ref in
  let ref := if truncated || (er_RetainedBytes ref =? 0) then ref <| er_RetainedBytes := retainedBytes |> else ref in
  (ref <| er_Truncated := er_Truncated ref || truncated |>, truncated).

Definition CompactEvidenceRefs (refs : list EvidenceRef) : list EvidenceRef * bool :=
  let kept := take MaxEvidenceRefs refs in
  (map (fun r => (CompactEvidenceRef r).1) kept,
   bool_decide (MaxEvidenceRefs < length refs)%nat || existsb (fun r => (CompactEvidenceRef r).2) kept).

(** ** The status *)

Definition cut (value : string) (maxBytes : Z) : string := (TruncateUTF8 value maxBytes).1.1.1.
Definition cuts (value : string) (maxBytes : Z) : bool := (TruncateUTF8 value maxBytes).2.

Definition cutVerdict (v : RCAVerdict) : RCAVerdict := v <| vd_Summary := cut (vd_Summary v) MaxSummaryBytes |>.
Definition cutFailure (f : InvestigationFailure) : InvestigationFailure :=
  f <| if_Message := cut (if_Message f) MaxSummaryBytes |>.
Definition cutStatement (c : RCAClaim) : RCAClaim :=
  c <| rc_Statement := cut (rc_Statement c) MaxClaimStatementBytes |>.

(** [truncateStatusString] on each of the strings, then the two list bounds. *)
Definition compactStatus (s : InvestigationRequestStatus) : InvestigationRequestStatus * bool :=
  let truncated := cuts (ist_Summary s) MaxSummaryBytes in
  let s1 := s <| ist_Summary := cut (ist_Summary s) MaxSummaryBytes |> in
  let truncated := truncated || cuts (ist_Hypothesis s1) MaxSummaryBytes in
  let s2 := s1 <| ist_Hypothesis := cut (ist_Hypothesis s1) MaxSummaryBytes |> in
  let '(s3, truncated) :=
    match ist_Verdict s2 with
    | Some v => (s2 <| ist_Verdict := Some (cutVerdict v) |>,
                 truncated || cuts (vd_Summary v) MaxSummaryBytes)
    | None => (s2, truncated)
    end in
  let '(s4, truncated) :=
    match ist_Failure s3 with
    | Some f => (s3 <| ist_Failure := Some (cutFailure f) |>,
                 truncated || cuts (if_Message f) MaxSummaryBytes)
    | None => (s3, truncated)
    end in
  let truncated := truncated || existsb (fun c => cuts (rc_Statement c) MaxClaimStatementBytes) (ist_Claims s4) in
  let s5 := s4 <| ist_Claims := map cutStatement (ist_Claims s4) |> in
  let '(s6, truncated) :=
    if bool_decide (MaxClaims < length (ist_Claims s5))%nat
    then (s5 <| ist_Claims := take MaxClaims (ist_Claims s5) |>, true) else (s5, truncated) in
  let '(compacted, refsTruncated) := CompactEvidenceRefs (ist_EvidenceRefs s6) in
  if refsTruncated then (s6 <| ist_EvidenceRefs := compacted |>, true) else (s6, truncated).

Section Budget.
Context (marshal : InvestigationRequestStatus -> result string).

Definition statusSize (s : InvestigationRequestStatus) : Z :=
  match marshal s with Err _ => MaxStatusBytes + 1 | Ok payload => str_len payload end.

Definition drop_last {A} (l : list A) : list A := take (length l - 1) l.

(** The loop that drops references, then claims, while the status is too large;
    [None] if the fuel runs out. *)
Fixpoint shrink (fuel : nat) (s : InvestigationRequestStatus) (truncated : bool)
    : option (InvestigationRequestStatus * bool) :=
  match fuel with
  | O => None
  | S f =>
      if MaxStatusBytes <? statusSize s then
        if negb (bool_decide (ist_EvidenceRefs s = [])) then
          shrink f (s <| ist_EvidenceRefs := drop_last (ist_EvidenceRefs s) |>) true
        else if negb (bool_decide (ist_Claims s = [])) then
          shrink f (s <| ist_Claims := drop_last (ist_Claims s) |>) true
        else Some (s, true)
      else Some (s, truncated)
  end.

Definition shrinkFuel (s : InvestigationRequestStatus) : nat :=
  S (length (ist_EvidenceRefs s) + length (ist_Claims s)).

Definition EnforceInvestigationStatus (s : InvestigationRequestStatus)
    : option (InvestigationRequestStatus * bool) :=
  let '(compact, truncated) := compactStatus s in
  shrink (shrinkFuel compact) compact truncated.
End Budget.

(** ** Truncation keeps the longest prefix of whole runes that fits *)

(** [kept] is the longest run of leading runes within [maxBytes]. *)
Definition longest_fit (maxBytes : Z) (kept rest : list (Z * string)) : Prop :=
  str_len (unsegment kept) <= maxBytes /\
  match rest with
  | [] => True
  | (_, bytes) :: _ => maxBytes < str_len (unsegment kept) + str_len bytes
  end.

Lemma str_len_app (s t : string) : str_len (s +:+ t) = str_len s + str_len t.
Proof. unfold str_len. rewrite append_length. lia. Qed.

Lemma unsegment_cons r b l : unsegment ((r, b) :: l) = b +:+ unsegment l.
Proof. reflexivity. Qed.

Lemma segments_empty : segments "" = [].
Proof. reflexivity. Qed.

Lemma drop_app_shorter (s t : string) n :
  n = (String.length s)%nat -> str_drop n (s +:+ t) = t.
Proof. intros ->. apply str_drop_app. Qed.

(** The loop from the rune boundary after [done]. *)
Lemma retain_spec fuel maxBytes before after :
  str_len before <= maxBytes -> (String.length after <= fuel)%nat ->
  exists kept rest,
    segments after = kept ++ rest /\
    retain fuel (before +:+ after) maxBytes (String.length before)
      = String.length (before +:+ unsegment kept) /\
    longest_fit (maxBytes - str_len before) kept rest.
Proof.
  revert before after. induction fuel as [|f IH]; intros before after Hb Hf.
  { destruct after; simpl in Hf; [|lia]. exists [], []. rewrite segments_empty, append_empty_r.
    split; [done|]. split; [by rewrite append_empty_r|]. split; [|done]. unfold str_len in *. simpl. lia. }
  simpl. rewrite str_len_app. fold (str_len before).
  destruct after as [|c after].
  - exists [], []. rewrite segments_empty, append_empty_r.
    replace (str_len before <? str_len before + str_len "") with false
      by (symmetry; apply Z.ltb_ge; unfold str_len; simpl; lia).
    split; [done|]. split; [by rewrite append_empty_r|]. split; [|done]. unfold str_len in *. simpl. lia.
  - replace (str_len before <? str_len before + str_len (String c after)) with true
      by (symmetry; apply Z.ltb_lt; unfold str_len; simpl; lia).
    rewrite str_drop_app. set (cur := String c after).
    destruct (decode_rune cur) as [r n] eqn:Hd. simpl snd.
    assert (Hw := decode_rune_width c after). fold cur in Hw. rewrite Hd in Hw. cbn [snd] in Hw.
    destruct Hw as [Hpos Hn].
    assert (Hseg : segments cur = (r, str_take n cur) :: segments (str_drop n cur)).
    { unfold cur in *. rewrite segments_cons, Hd. reflexivity. }
    assert (Hl : str_len (str_take n cur) = Z.of_nat n)
      by (unfold str_len; rewrite str_take_length by done; done).
    destruct (maxBytes <? Z.of_nat (String.length before + n)) eqn:Hfit.
    + apply Z.ltb_lt in Hfit. exists [], (segments cur). split; [done|]. simpl unsegment.
      rewrite append_empty_r. split; [done|]. unfold longest_fit. rewrite Hseg, Hl.
      unfold str_len in *. simpl. lia.
    + apply Z.ltb_ge in Hfit.
      destruct (IH (before +:+ str_take n cur) (str_drop n cur)) as (kept & rest & Hk & Hr & Hlf).
      { rewrite str_len_app, Hl. unfold str_len. lia. }
      { rewrite str_drop_length. unfold cur in *. simpl in *. lia. }
      exists ((r, str_take n cur) :: kept), rest. split; [by rewrite Hseg, Hk|].
      rewrite unsegment_cons, append_assoc. split.
      * rewrite <- Hr. rewrite <- append_assoc, str_take_drop. f_equal.
        rewrite append_length, str_take_length by done. done.
      * destruct Hlf as [Hle Hrest]. split.
        -- rewrite str_len_app in Hle. rewrite unsegment_cons, str_len_app. lia.
        -- destruct rest as [|[r' b'] rest']; [done|].
           rewrite str_len_app in Hrest. rewrite unsegment_cons, str_len_app. lia.
Qed.

(** Truncation to [maxBytes > 0] bytes keeps the longest run of leading
    runes that fits, so it never cuts a rune in two: the result is made of the
    first runes of the value, is no longer than the bound, is the whole value
    exactly when nothing is reported cut, and otherwise the next rune would not
    have fitted.  The reported sizes are the byte lengths at 32 bits. *)
Theorem truncate_longest_prefix (value : string) (maxBytes : Z) :
  0 < maxBytes ->
  exists kept rest,
    segments value = kept ++ rest /\
    TruncateUTF8 value maxBytes =
      (unsegment kept, wrap32 (str_len value), wrap32 (str_len (unsegment kept)), negb (bool_decide (rest = []))) /\
    segments (unsegment kept) = kept /\
    longest_fit maxBytes kept rest.
Proof.
  intros Hpos. unfold TruncateUTF8.
  replace (maxBytes <=? 0) with false by (symmetry; apply Z.leb_gt; lia).
  destruct (str_len value <=? maxBytes) eqn:Hle.
  - apply Z.leb_le in Hle. exists (segments value), []. rewrite unsegment_segments, app_nil_r.
    repeat split; by try rewrite unsegment_segments.
  - apply Z.leb_gt in Hle.
    destruct (retain_spec (String.length value) maxBytes "" value) as (kept & rest & Hk & Hr & Hfit);
      [unfold str_len; simpl; lia | lia |].
    simpl in Hr. change ("" +:+ unsegment kept) with (unsegment kept) in Hr.
    change (str_len "") with 0 in Hfit. rewrite Z.sub_0_r in Hfit.
    assert (Hv : value = unsegment kept +:+ unsegment rest).
    { rewrite <- (unsegment_segments value), Hk, unsegment_app. done. }
    exists kept, rest. split; [done|]. split; [|split; [|done]].
    + change (retain (String.length value) value maxBytes 0) with
        (retain (String.length value) ("" +:+ value) maxBytes 0).
      rewrite Hr. fold (str_len (unsegment kept)). rewrite bool_decide_eq_false_2.
      2:{ intros ->. destruct Hfit as [Hfit _]. rewrite Hv, append_empty_r in Hle. lia. }
      rewrite Hv at 1. by rewrite str_take_app.
    + by apply (segments_split value kept rest) in Hk as [? _].
Qed.

(** ** The bounds the controller enforces *)

Lemma cut_id value maxBytes : cuts value maxBytes = false -> cut value maxBytes = value.
Proof.
  unfold cuts, cut, TruncateUTF8. destruct (maxBytes <=? 0); simpl.
  - intros H%Z.ltb_ge. destruct value; [done|]. unfold str_len in H. simpl in H. lia.
  - by destruct (str_len value <=? maxBytes).
Qed.

Lemma cut_len value maxBytes : 0 < maxBytes -> str_len (cut value maxBytes) <= maxBytes.
Proof.
  intros Hpos. unfold cut, TruncateUTF8.
  destruct (maxBytes <=? 0); [simpl; unfold str_len; simpl; lia|].
  destruct (str_len value <=? maxBytes) eqn:Hle; simpl; [by apply Z.leb_le|].
  destruct (retain_spec (String.length value) maxBytes "" value) as (kept & rest & Hk & Hr & [Hfit _]);
    [unfold str_len; simpl; lia | lia |].
  change ("" +:+ value) with value in Hr. change ("" +:+ unsegment kept) with (unsegment kept) in Hr.
  change (str_len "") with 0 in Hfit. simpl in Hr. rewrite Hr.
  rewrite <- (unsegment_segments value), Hk, unsegment_app, str_take_app. lia.
Qed.

Lemma cuts_false value maxBytes : 0 < maxBytes -> cuts value maxBytes = false <-> str_len value <= maxBytes.
Proof.
  intros Hpos. unfold cuts, TruncateUTF8.
  replace (maxBytes <=? 0) with false by (symmetry; apply Z.leb_gt; lia).
  destruct (str_len value <=? maxBytes) eqn:H; simpl; [apply Z.leb_le in H | apply Z.leb_gt in H]; split; done || lia.
Qed.

(** What a status within the budget's bounds satisfies. *)
Record within_bounds (s : InvestigationRequestStatus) : Prop := mkWithin {
  wb_summary : str_len (ist_Summary s) <= MaxSummaryBytes;
  wb_hypothesis : str_len (ist_Hypothesis s) <= MaxSummaryBytes;
  wb_verdict : forall v, ist_Verdict s = Some v -> str_len (vd_Summary v) <= MaxSummaryBytes;
  wb_failure : forall f, ist_Failure s = Some f -> str_len (if_Message f) <= MaxSummaryBytes;
  wb_claims : (length (ist_Claims s) <= MaxClaims)%nat;
  wb_statements : Forall (fun c => str_len (rc_Statement c) <= MaxClaimStatementBytes) (ist_Claims s);
  wb_refs : (length (ist_EvidenceRefs s) <= MaxEvidenceRefs)%nat;
  wb_summaries : Forall (fun r => str_len (er_Summary r) <= MaxEvidenceSummaryBytes) (ist_EvidenceRefs s)
}.

Lemma CompactEvidenceRef_summary r : er_Summary (CompactEvidenceRef r).1 = cut (er_Summary r) MaxEvidenceSummaryBytes.
Proof.
  unfold CompactEvidenceRef, cut. destruct (TruncateUTF8 _ _) as [[[summary ob] rb] t].
  cbv zeta. cbn [fst]. by repeat match goal with |- context [if ?b then _ else _] => destruct b end.
Qed.

Lemma CompactEvidenceRef_cut r : (CompactEvidenceRef r).2 = cuts (er_Summary r) MaxEvidenceSummaryBytes.
Proof. unfold CompactEvidenceRef, cuts. by destruct (TruncateUTF8 _ _) as [[[summary ob] rb] t]. Qed.

Lemma CompactEvidenceRefs_bounds refs :
  (length (CompactEvidenceRefs refs).1 <= MaxEvidenceRefs)%nat /\
  Forall (fun r => str_len (er_Summary r) <= MaxEvidenceSummaryBytes) (CompactEvidenceRefs refs).1.
Proof.
  simpl. rewrite length_map, length_take. split; [lia|].
  apply Forall_forall. intros r Hr. apply list_elem_of_fmap in Hr as (r0 & -> & _).
  rewrite CompactEvidenceRef_summary. by apply cut_len.
Qed.

Lemma existsb_Forall_false {A} (p : A -> bool) l : existsb p l = false <-> Forall (fun x => p x = false) l.
Proof.
  induction l as [|x l IH]; simpl; [by split|]. rewrite orb_false_iff, IH. split.
  - intros [? ?]. by constructor.
  - by inversion 1.
Qed.

Lemma CompactEvidenceRefs_cut refs :
  (CompactEvidenceRefs refs).2 = false <->
  (length refs <= MaxEvidenceRefs)%nat /\
  Forall (fun r => str_len (er_Summary r) <= MaxEvidenceSummaryBytes) refs.
Proof.
  unfold CompactEvidenceRefs. cbn [snd]. rewrite orb_false_iff, bool_decide_eq_false, existsb_Forall_false.
  assert (Heq : forall l, Forall (fun r => (CompactEvidenceRef r).2 = false) l <->
                     Forall (fun r => str_len (er_Summary r) <= MaxEvidenceSummaryBytes) l).
  { intros l. apply Forall_proper; [|done]. intros r. by rewrite CompactEvidenceRef_cut, cuts_false. }
  rewrite Heq. split; intros [Hlen Hall]; (split; [lia|]).
  - rewrite take_ge in Hall by lia. done.
  - by rewrite take_ge by lia.
Qed.

Lemma map_cut_id (claims : list RCAClaim) :
  Forall (fun c => cuts (rc_Statement c) MaxClaimStatementBytes = false) claims ->
  map cutStatement claims = claims.
Proof.
  induction 1 as [|c l Hc _ IH]; [done|]. cbn [map]. f_equal; [|done].
  destruct c as [i st er el v]. cbn in Hc |- *. unfold constant. by rewrite (cut_id _ _ Hc).
Qed.

Lemma Forall_take {A} (P : A -> Prop) n l : Forall P l -> Forall P (take n l).
Proof. intros H. rewrite <- (take_drop n l) in H. by apply Forall_app in H as [? _]. Qed.

Lemma cut_statements (claims : list RCAClaim) :
  Forall (fun c => str_len (rc_Statement c) <= MaxClaimStatementBytes)
    (map cutStatement claims).
Proof. induction claims as [|c l IH]; [done|]. cbn [map]. constructor; [by apply cut_len | done]. Qed.

(** Evaluation of a status whose fields are known, the bounds left folded. *)
Ltac status_cbn :=
  cbn -[cut cuts cutVerdict cutFailure cutStatement CompactEvidenceRefs take MaxClaims Nat.lt]; unfold constant.

Lemma compactStatus_bounds s : within_bounds (compactStatus s).1.
Proof.
  destruct s as [rs oc fl su hy cf pr vd cv cl ah me dg ex sa ca er li lk cd].
  assert (Hr := CompactEvidenceRefs_bounds er). assert (Hr' := CompactEvidenceRefs_cut er).
  destruct vd as [v|], fl as [f|]; unfold compactStatus; status_cbn;
    destruct (bool_decide _) eqn:Hc; status_cbn;
    destruct (CompactEvidenceRefs er) as [refs [|]]; cbn [fst snd] in *;
    destruct Hr as [Hr1 Hr2]; try (destruct (proj1 Hr' eq_refl) as [Hr3 Hr4]); clear Hr'.
  all: try apply bool_decide_eq_false in Hc; try apply bool_decide_eq_true in Hc.
  all: split; status_cbn; try done; try (by apply cut_len).
  all: try (by intros ? [= <-]; apply cut_len).
  all: try apply Forall_take; try apply cut_statements.
  all: rewrite ?length_take; lia.
Qed.

Lemma compactStatus_id s : (compactStatus s).2 = false -> (compactStatus s).1 = s.
Proof.
  destruct s as [rs oc fl su hy cf pr vd cv cl ah me dg ex sa ca er li lk cd].
  destruct vd as [v|], fl as [f|]; unfold compactStatus; status_cbn;
    destruct (bool_decide _) eqn:Hc; status_cbn;
    destruct (CompactEvidenceRefs er) as [refs [|]]; cbn [fst snd]; intros Hf; try done; go_bool.
  all: repeat match goal with
    | H : _ || _ = false |- _ => apply orb_false_iff in H; destruct H
    | H : existsb _ _ = false |- _ => apply existsb_Forall_false in H; rewrite (map_cut_id _ H)
    end.
  all: try (destruct v); try (destruct f); unfold cutVerdict, cutFailure in *; cbn in *; unfold constant.
  all: by rewrite ?cut_id by done.
Qed.

Lemma compactStatus_within s : within_bounds s -> (compactStatus s).2 = false.
Proof.
  destruct s as [rs oc fl su hy cf pr vd cv cl ah me dg ex sa ca er li lk cd].
  intros [Hsu Hhy Hvd Hfl Hcl Hst Her Hsm]. cbn in *.
  assert (Hsu' := proj2 (cuts_false _ MaxSummaryBytes eq_refl) Hsu). assert (Hhy' := proj2 (cuts_false _ MaxSummaryBytes eq_refl) Hhy).
  assert (Hr := proj2 (CompactEvidenceRefs_cut er) (conj Her Hsm)).
  assert (Hst' : existsb (fun c => cuts (rc_Statement c) MaxClaimStatementBytes) cl = false).
  { apply existsb_Forall_false. eapply Forall_impl; [exact Hst|]. intros c. cbn. by apply cuts_false. }
  assert (Hv' : forall v, vd = Some v -> cuts (vd_Summary v) MaxSummaryBytes = false)
    by (intros v Hv; apply cuts_false; [done | by apply Hvd]).
  assert (Hf' : forall f, fl = Some f -> cuts (if_Message f) MaxSummaryBytes = false)
    by (intros f Hf; apply cuts_false; [done | by apply Hfl]).
  destruct vd as [v|], fl as [f|]; unfold compactStatus; status_cbn;
    rewrite ?Hsu', ?Hhy', ?Hst', ?(Hv' _ eq_refl), ?(Hf' _ eq_refl);
    rewrite bool_decide_eq_false_2 by (rewrite length_map; lia); status_cbn;
    destruct (CompactEvidenceRefs er) as [refs [|]]; done.
Qed.

(** ** The loop that shrinks *)

Section Shrink.
Context (marshal : InvestigationRequestStatus -> result string).

(** [out] is [s] with references, then claims, dropped from the end. *)
Definition dropped_from (s out : InvestigationRequestStatus) : Prop :=
  exists n m,
    out = s <| ist_EvidenceRefs := take n (ist_EvidenceRefs s) |> <| ist_Claims := take m (ist_Claims s) |> /\
    ((m < length (ist_Claims s))%nat -> ist_EvidenceRefs out = []).

Lemma status_eta s : s <| ist_EvidenceRefs := ist_EvidenceRefs s |> <| ist_Claims := ist_Claims s |> = s.
Proof. by destruct s. Qed.

Lemma dropped_refl s : dropped_from s s.
Proof.
  exists (length (ist_EvidenceRefs s)), (length (ist_Claims s)). rewrite !firstn_all, status_eta. split; [done|lia].
Qed.

Lemma nil_length_pos {A} (l : list A) : l <> [] -> (0 < length l)%nat.
Proof. destruct l; [done|simpl; lia]. Qed.

Lemma drop_last_length {A} (l : list A) : length (drop_last l) = (length l - 1)%nat.
Proof. unfold drop_last. rewrite length_take. lia. Qed.

Lemma drop_ref s out :
  dropped_from (s <| ist_EvidenceRefs := drop_last (ist_EvidenceRefs s) |>) out -> dropped_from s out.
Proof.
  intros (n & m & -> & Hc). exists (Nat.min n (length (ist_EvidenceRefs s) - 1)), m. destruct s.
  cbn -[take drop_last] in *. unfold constant, drop_last in *. rewrite take_take in *. by split.
Qed.

Lemma drop_claim s out :
  ist_EvidenceRefs s = [] ->
  dropped_from (s <| ist_Claims := drop_last (ist_Claims s) |>) out -> dropped_from s out.
Proof.
  intros Hr (n & m & -> & Hc). exists n, (Nat.min m (length (ist_Claims s) - 1)). destruct s.
  cbn -[take drop_last] in *. unfold constant, drop_last in *. subst. rewrite take_take in *. split; [done|].
  by rewrite take_nil.
Qed.

Lemma shrink_spec fuel s truncated :
  (shrinkFuel s <= fuel)%nat ->
  exists out t, shrink marshal fuel s truncated = Some (out, t) /\
    dropped_from s out /\
    (statusSize marshal out <= MaxStatusBytes \/ ist_EvidenceRefs out = [] /\ ist_Claims out = []) /\
    (t = false -> out = s /\ truncated = false /\ statusSize marshal s <= MaxStatusBytes) /\
    (truncated = false -> statusSize marshal s <= MaxStatusBytes -> t = false).
Proof.
  revert s truncated. induction fuel as [|f IH]; intros s truncated Hf; unfold shrinkFuel in Hf; [lia|].
  cbn [shrink]. destruct (MaxStatusBytes <? statusSize marshal s) eqn:Hsz.
  - apply Z.ltb_lt in Hsz. destruct (bool_decide (ist_EvidenceRefs s = [])) eqn:Hr; cbn [negb].
    + apply bool_decide_eq_true in Hr. destruct (bool_decide (ist_Claims s = [])) eqn:Hc; cbn [negb].
      * apply bool_decide_eq_true in Hc. exists s, true. split; [done|]. split; [apply dropped_refl|].
        split; [by right|]. split; [done|lia].
      * apply bool_decide_eq_false in Hc.
        destruct (IH (s <| ist_Claims := drop_last (ist_Claims s) |>) true) as (out & t & H1 & H2 & H3 & H4 & H5).
        { apply nil_length_pos in Hc. unfold shrinkFuel. destruct s. cbn -[drop_last] in *. unfold constant.
          rewrite drop_last_length. lia. }
        exists out, t. split; [done|]. split; [by apply drop_claim|]. split; [done|].
        split; [intros Ht; by destruct (H4 Ht) as (_ & ? & _) | lia].
    + apply bool_decide_eq_false in Hr.
      destruct (IH (s <| ist_EvidenceRefs := drop_last (ist_EvidenceRefs s) |>) true)
        as (out & t & H1 & H2 & H3 & H4 & H5).
      { apply nil_length_pos in Hr. unfold shrinkFuel. destruct s. cbn -[drop_last] in *. unfold constant.
        rewrite drop_last_length. lia. }
      exists out, t. split; [done|]. split; [by apply drop_ref|]. split; [done|].
      split; [intros Ht; by destruct (H4 Ht) as (_ & ? & _) | lia].
  - apply Z.ltb_ge in Hsz. exists s, truncated. split; [done|]. split; [apply dropped_refl|].
    split; [by left|]. done.
Qed.

Lemma dropped_bounds s out : dropped_from s out -> within_bounds s -> within_bounds out.
Proof.
  intros (n & m & -> & _) [Hsu Hhy Hvd Hfl Hcl Hst Her Hsm].
  destruct s as [rs oc fl su hy cf pr vd cv cl ah me dg ex sa ca er li lk cd].
  split; status_cbn; cbn in *; try done; try (by apply Forall_take); rewrite length_take; lia.
Qed.
Lemma enforce_dropped s :
  exists out truncated, EnforceInvestigationStatus marshal s = Some (out, truncated) /\
    within_bounds out /\ dropped_from (compactStatus s).1 out.
Proof.
  unfold EnforceInvestigationStatus. assert (Hb := compactStatus_bounds s). destruct (compactStatus s) as [c t0].
  destruct (shrink_spec (shrinkFuel c) c t0) as (out & t & He & Hd & _); [done|].
  exists out, t. split; [done|]. split; [by eapply dropped_bounds|done].
Qed.
End Shrink.

(** C11: enforcing the budget always ends.  The status that comes out respects
    every bound on lengths; it encodes to at most [MaxStatusBytes] unless it has
    no reference and no claim left; what was dropped for size was dropped from
    the end, references before claims; and a status is reported untouched, and
    is untouched, exactly when it was within all the bounds. *)
Theorem status_budget_enforced (marshal : InvestigationRequestStatus -> result string) s :
  exists out truncated,
    EnforceInvestigationStatus marshal s = Some (out, truncated) /\
    within_bounds out /\
    dropped_from (compactStatus s).1 out /\
    (statusSize marshal out <= MaxStatusBytes \/ ist_EvidenceRefs out = [] /\ ist_Claims out = []) /\
    (truncated = false -> out = s) /\
    (truncated = false <-> within_bounds s /\ statusSize marshal s <= MaxStatusBytes).
Proof.
  unfold EnforceInvestigationStatus.
  assert (Hb := compactStatus_bounds s). assert (Hid := compactStatus_id s).
  assert (Hw := compactStatus_within s). destruct (compactStatus s) as [c t0]. cbn [fst snd] in *.
  destruct (shrink_spec marshal (shrinkFuel c) c t0) as (out & t & He & Hd & Hs & Hf & Ht); [done|].
  exists out, t. split; [done|]. split; [by eapply dropped_bounds|]. split; [done|]. split; [done|]. split.
  - intros Hnt. destruct (Hf Hnt) as (-> & Ht0 & _). by apply Hid.
  - split.
    + intros Hnt. destruct (Hf Hnt) as (-> & Ht0 & Hsz). rewrite (Hid Ht0) in *. done.
    + intros [Hin Hsz]. specialize (Hw Hin). rewrite (Hid Hw) in *. by apply Ht.
Qed.

(** ** Examples *)

Section Examples.
(** An encoding that charges 30000 bytes for each reference and claim. *)
Definition marshal_30k (s : InvestigationRequestStatus) : result string :=
  Ok (String.concat "" (repeat (String.concat "" (repeat "0123456789" 3000))
                          (length (ist_EvidenceRefs s) + length (ist_Claims s)))).

Example truncate_euro : TruncateUTF8 (String (byte_of 226) (String (byte_of 130) (String (byte_of 172) "x"))) 2
  = ("", 4, 0, true).
Proof. reflexivity. Qed.

Lemma truncate_longest_prefix_witness :
  0 < 2 /\
  exists kept rest, segments "abc" = kept ++ rest /\
    TruncateUTF8 "abc" 2 = (unsegment kept, wrap32 3, wrap32 (str_len (unsegment kept)), negb (bool_decide (rest = []))) /\
    segments (unsegment kept) = kept /\ longest_fit 2 kept rest.
Proof. split; [lia | exact (truncate_longest_prefix "abc" 2 ltac:(lia))]. Defined.

Definition sample_status : InvestigationRequestStatus :=
  zeroInvestigationStatus <| ist_EvidenceRefs := [evidence_ref "e1" "event" "k8s" "BackOff" "x";
                                                 evidence_ref "e2" "log" "loki" "" "y"] |>
                          <| ist_Claims := [mkRCAClaim "claim-001" "s" [] [] ""; mkRCAClaim "claim-002" "t" [] [] ""] |>.

Example references_go_first :
  option_map (fun r => (length (ist_EvidenceRefs r.1), length (ist_Claims r.1), r.2))
    (EnforceInvestigationStatus marshal_30k sample_status) = Some (0%nat, 2%nat, true).
Proof. vm_compute. reflexivity. Qed.
End Examples.
