(* ===== verification/InvestigationGate.v ===== *)
(** * The evidence gate (internal/controllers/investigationrequest_controller.go)

    The evidence profiles of an investigation: which kinds and checks a profile
    requires, whether the collected evidence satisfies them, whether it shows
    the issue the profile is about, and the gate [evaluateEvidenceRequirements]
    that stops an investigation before any model provider is asked. *)

From Stdlib Require Import ZArith Lia.
From stdpp Require Import base list strings gmap.
From S2P Require Import Prelude GoStrings Utf8 GoParse Float64 Api InvestigationApi DataClassification Scope Observation Egress.

Section Gate.
Context {U : UnicodeTables}.
Implicit Type ref : EvidenceRef.
Implicit Type spec : InvestigationRequestSpec.
Implicit Type evidence : EvidenceCollectionResult.

(** ** Texts *)

Definition profile_key (profile : string) : string := to_lower (trim_space profile).
Definition kind_key (kind : string) : string := to_lower (trim_space kind).
Definition lower_text (parts : list string) : string := to_lower (join " " parts).
Definition kind_is (ref : EvidenceRef) (kind : string) : bool := equal_fold (trim_space (er_Kind ref)) kind.

Definition crashLoopTerms : list string :=
  ["crashloopbackoff"; "backoff"; "back-off"; "unhealthy"; "killing"; "container crashed"].
Definition imagePullTerms : list string :=
  ["imagepullbackoff"; "errimagepull"; "failed to pull image"; "pull access denied"].
Definition oomTerms : list string := ["oomkilled"; "out of memory"; "memory pressure"; "memory limit"].
Definition probeTerms : list string := ["unhealthy"; "readiness probe"; "liveness probe"; "probe failed"].
Definition applicationFailureTerms : list string :=
  ["panic"; "fatal"; "startup error"; "startup failure"; "failed to initialize"; "invalid configuration";
   "configuration error"; "exception"; "segmentation fault"].
Definition httpErrorTerms : list string := ["http"; "5xx"; "error rate"; "error ratio"].
Definition dependencyTerms : list string :=
  ["connection refused"; "upstream unavailable"; "dependency unavailable"; "service unavailable";
   "upstream timeout"; "failed to connect"; "dial tcp"; "connection reset"].

(** ** Requirements of a profile *)

Definition requiredEvidenceKindsForProfile (profile : string) : list string :=
  let p := profile_key profile in
  if mem_str p ["crashloopbackoff"; "imagepullbackoff"] then [QueryTypeEvent]
  else if p == "crashloopbackoffv2" then [QueryTypeEvent; QueryTypeContainerTermination]
  else if p == "oomkilled" then [QueryTypeEvent; QueryTypeMetric]
  else if p == "latencyregression" then [QueryTypeMetric]
  else if p == "rolloutlatencyregression" then [QueryTypeMetric; "deploymentCondition"]
  else if mem_str p ["highhttperror"; "highhttperrorrate"] then [QueryTypeMetric; QueryTypeLog]
  else if p == "serviceportmismatch" then [QueryTypeServiceConfiguration]
  else if mem_str p ["failedscheduling"; "schedulingsuccess"] then [QueryTypeEvent]
  else if p == "effectivenessverification" then [QueryTypeEvent]
  else [].

Definition requiredEvidenceChecksForProfile (profile : string) : list string :=
  let p := profile_key profile in
  if p == "crashloopbackoff" then ["event:CrashLoopBackOff"; "log:ApplicationFailure"]
  else if p == "crashloopbackoffv2" then ["event:CrashLoopBackOff"; "containerTermination:LastTermination"]
  else if p == "imagepullbackoff" then ["event:ImagePullBackOff"]
  else if p == "oomkilled" then ["event:OOMKilled"; "metric:Memory"]
  else if p == "latencyregression" then ["metric:Latency"]
  else if p == "rolloutlatencyregression" then ["metric:Latency"; "deploymentCondition:Rollout"]
  else if p == "serviceportmismatch" then ["serviceConfiguration:ServicePortMismatch"]
  else if mem_str p ["failedscheduling"; "schedulingsuccess"] then ["event:FailedScheduling"]
  else if p == "probefailure" then ["event:Unhealthy"; "probeConfiguration:ProbeConfigurationMismatch"]
  else if mem_str p ["highhttperror"; "highhttperrorrate"] then ["metric:HTTP5xx"; "log:CausalDependency"]
  else [].

Definition isSchedulingProfile (profile : string) : bool :=
  mem_str (profile_key profile) ["failedscheduling"; "schedulingsuccess"].

(** ** Presence of evidence *)

Definition query_values (q : InvestigationQuery) : list string :=
  [iq_Name q; iq_Query q; iq_QueryTemplate q] ++ iq_Reasons q.

Definition evidenceKindPresent spec evidence (kind : string) (needles : list string) : bool :=
  let normalizedKind := kind_key kind in
  let matches text := bool_decide (needles = []) || contains_any text needles in
  existsb (fun r => (kind_key (er_Kind r) == normalizedKind)
                    && matches (lower_text [er_Source r; er_Reason r; er_Summary r; er_Query r])) (ec_EvidenceRefs evidence)
  || existsb (fun q => (kind_key (iq_QueryType q) == normalizedKind) && matches (lower_text (query_values q)))
       (irs_Queries spec).

Definition eventCoveragePresent spec evidence (needles : list string) : bool :=
  existsb (fun r => (kind_key (er_Kind r) == QueryTypeEvent)
                    && contains_any (lower_text [er_Reason r; er_Summary r; er_Query r]) needles)
    (ec_EvidenceRefs evidence)
  || existsb (fun q => (kind_key (iq_QueryType q) == QueryTypeEvent) && contains_any (lower_text (query_values q)) needles)
       (irs_Queries spec).

Definition applicationLogRef ref : bool :=
  kind_is ref QueryTypeLog
  && contains_any (lower_text [er_Source ref; er_Reason ref; er_Summary ref]) applicationFailureTerms.
Definition applicationLogEvidencePresent evidence : bool := existsb applicationLogRef (ec_EvidenceRefs evidence).

Definition servicePortMismatchRef ref : bool :=
  kind_is ref QueryTypeServiceConfiguration &&
  let text := lower_text [er_Reason ref; er_Summary ref] in
  if equal_fold (trim_space (er_Reason ref)) "ServicePortMismatch" then true
  else if contains_any text ["serviceportmismatch"; "service port mismatch"; "mismatchconfirmed=true"] then true
  else if contains_any text ["mismatchconfirmed=false"] then false
  else contains_any text ["does not match"; "doesn't match"; "not match"; "mismatch"]
       && contains_any text ["targetport"; "target port"] && contains_any text ["containerport"; "container port"].
Definition servicePortMismatchEvidencePresent evidence : bool :=
  existsb servicePortMismatchRef (ec_EvidenceRefs evidence).

Definition unscheduledText (text : string) : bool := contains text "podschedul" && contains text "=false".
Definition failedSchedulingRef ref : bool :=
  negb (er_Truncated ref) &&
  let kind := kind_key (er_Kind ref) in
  let text := lower_text [er_Reason ref; er_Summary ref] in
  (kind == QueryTypeEvent) && contains_any text ["failedscheduling"; "failed scheduling"]
  || (kind == "scheduling")
     && (contains_any text ["unschedulable"; "failedscheduling"; "failed scheduling"] || unscheduledText text).
Definition failedSchedulingEvidencePresent evidence : bool := existsb failedSchedulingRef (ec_EvidenceRefs evidence).

Definition schedulingFailureMechanismEvidencePresent evidence : bool :=
  existsb (fun r => (dr_DiagnosticID r == "scheduling")
    && existsb (fun c => (cc_Type c == ClaimFailureMechanism)
                         && contains (to_lower (cc_Statement c)) "could not be scheduled"
                         && negb (bool_decide (cc_EvidenceRefs c = []))) (dr_Claims r)) (ec_Diagnostics evidence).

Definition probeMismatchRef ref : bool :=
  kind_is ref QueryTypeProbeConfiguration &&
  (equal_fold (trim_space (er_Reason ref)) "ProbeConfigurationMismatch"
   || contains_any (lower_text [er_Reason ref; er_Summary ref])
        ["probeconfigurationmismatch"; "probe configuration mismatch"; "mismatchconfirmed"]).
Definition probeConfigurationMismatchEvidencePresent evidence : bool :=
  existsb probeMismatchRef (ec_EvidenceRefs evidence).

Definition http5xxRef ref : bool :=
  kind_is ref QueryTypeMetric
  && contains_any (lower_text [er_Source ref; er_Reason ref; er_Summary ref; er_Query ref]) httpErrorTerms.
Definition http5xxMetricEvidencePresent evidence : bool := existsb http5xxRef (ec_EvidenceRefs evidence).

Definition causalDependencyRef ref : bool :=
  kind_is ref QueryTypeLog && negb (bool_decide (er_RelatedTargets ref = []))
  && contains_any (lower_text [er_Source ref; er_Reason ref; er_Summary ref; er_Query ref]) dependencyTerms.
Definition causalDependencyLogEvidencePresent evidence : bool := existsb causalDependencyRef (ec_EvidenceRefs evidence).

(** What one observation says of the last termination: [inl tt] when it is
    usable, else whether it is a stale or a truncated one. *)
Inductive termination_verdict := TermUsable | TermTruncated | TermStale | TermNone.

Definition terminationVerdict (o : Observation) : termination_verdict :=
  if ob_Capability o != QueryTypeContainerTermination then TermNone
  else if ob_Truncated o then TermTruncated
  else match ov_ContainerTermination (ob_Value o) with
    | None => TermNone
    | Some t =>
        if (cto_LastTerminatedReason t == "") || (cto_LastTerminatedFinishedAt t == "") then TermNone
        else match parseRFC3339 (cto_LastTerminatedFinishedAt t) with
          | None => TermNone
          | Some finishedAt =>
              let range := ob_TimeRange o in
              if negb (is_zero_time (trg_Start range)) && time_before finishedAt (trg_Start range) then TermStale
              else if negb (is_zero_time (trg_End range)) && time_after finishedAt (trg_End range) then TermStale
              else TermUsable
          end
    end.

#[local] Instance termination_verdict_eq_dec : EqDecision termination_verdict.
Proof. solve_decision. Defined.

(** The loop returns at the first usable observation, whatever it met before. *)
Definition containerTerminationEvidenceMissingReason evidence : string :=
  let verdicts := map terminationVerdict (ec_Observations evidence) in
  let some v := existsb (fun x => bool_decide (x = v)) verdicts in
  if some TermUsable then ""
  else if some TermTruncated then "ContainerTerminationEvidenceTruncated"
  else if some TermStale then "ContainerTerminationEvidenceStale"
  else "ContainerTerminationEvidenceMissing".

Definition containerTerminationEvidencePresent evidence : bool :=
  containerTerminationEvidenceMissingReason evidence == "".

(** ** Relevance of a reference, and the issue it shows *)

Definition evidenceRefRelevantForProfile (profile : string) ref : bool :=
  let kind := kind_key (er_Kind ref) in
  if profile == "crashloopbackoff" then (kind == QueryTypeEvent) || (kind == QueryTypeLog)
  else if profile == "crashloopbackoffv2" then (kind == QueryTypeEvent) || (kind == QueryTypeContainerTermination)
  else if profile == "imagepullbackoff" then kind == QueryTypeEvent
  else if profile == "oomkilled" then (kind == QueryTypeEvent) || (kind == QueryTypeMetric)
  else if profile == "latencyregression" then kind == QueryTypeMetric
  else if profile == "rolloutlatencyregression" then
    (kind == QueryTypeMetric) || (kind == to_lower "deploymentCondition")
  else if profile == "serviceportmismatch" then kind == to_lower QueryTypeServiceConfiguration
  else if mem_str profile ["failedscheduling"; "schedulingsuccess"] then (kind == QueryTypeEvent) || (kind == "scheduling")
  else if profile == "effectivenessverification" then kind == QueryTypeEvent
  else if profile == "probefailure" then (kind == QueryTypeEvent) || (kind == to_lower QueryTypeProbeConfiguration)
  else if mem_str profile ["highhttperror"; "highhttperrorrate"] then (kind == QueryTypeMetric) || (kind == QueryTypeLog)
  else false.

Definition number_byte (c : Ascii.ascii) : bool :=
  (byte_val c =? 46) || (byte_val c =? 45) || is_ascii_digit c.

(** The last number of the summary decides. *)
Definition metricEvidenceValueAboveZero ref : bool :=
  if kind_key (er_Kind ref) != QueryTypeMetric then false
  else fold_left (fun last token => match ParseFloatSign (trim_space token) with Some p => p | None => last end)
         (fields_func number_byte (er_Summary ref) "") false.

Definition evidenceRefMatchesProfileIssue (profile : string) ref : bool :=
  let text := lower_text [er_Kind ref; er_Source ref; er_Reason ref; er_Summary ref] in
  if profile == "imagepullbackoff" then contains_any text imagePullTerms
  else if profile == "crashloopbackoff" then
    contains_any text (["crashloopbackoff"; "backoff"; "back-off"; "container crashed"; "unhealthy"; "killing"]
                       ++ applicationFailureTerms)
  else if profile == "crashloopbackoffv2" then
    contains_any text ["crashloopbackoff"; "backoff"; "back-off"; "container crashed"; "unhealthy"; "killing"]
  else if mem_str profile ["highhttperror"; "highhttperrorrate"] then
    contains_any text (httpErrorTerms ++ dependencyTerms)
  else if profile == "oomkilled" then contains_any text oomTerms || metricEvidenceValueAboveZero ref
  else if profile == "latencyregression" then metricEvidenceValueAboveZero ref
  else if profile == "rolloutlatencyregression" then
    metricEvidenceValueAboveZero ref
    || contains_any text ["progressdeadlinexceeded"; "unavailable"; "replicafailure"; "available=false"; "progressing=false"]
  else if profile == "serviceportmismatch" then
    contains_any text ["serviceportmismatch"; "service port mismatch"; "mismatchconfirmed"; "targetport"; "target port";
                       "container port"]
  else if mem_str profile ["failedscheduling"; "schedulingsuccess"] then
    contains_any text ["failedscheduling"; "failed scheduling"; "unschedulable"] || unscheduledText text
  else if profile == "effectivenessverification" then kind_is ref QueryTypeEvent
  else if profile == "probefailure" then
    contains_any text ["probeconfigurationmismatch"; "probe configuration mismatch"; "mismatchconfirmed"]
  else false.

Definition showsIssue (profileKey : string) ref : bool :=
  evidenceRefRelevantForProfile profileKey ref && evidenceRefMatchesProfileIssue profileKey ref.

Definition evidenceProfileIssueMatchCount (profile : string) evidence : Z :=
  let profileKey := profile_key profile in
  if profileKey == "" then 0
  else Z.of_nat (length (List.filter (showsIssue profileKey) (ec_EvidenceRefs evidence))).

Definition evidenceProfileHasNoIssue (profile : string) spec evidence : bool :=
  let profileKey := profile_key profile in
  if profileKey == "" then false
  else if profileKey == "effectivenessverification" then
    negb (existsb (fun r => kind_is r QueryTypeEvent) (ec_EvidenceRefs evidence))
  else if existsb (showsIssue profileKey) (ec_EvidenceRefs evidence) then false
  else if existsb (evidenceRefRelevantForProfile profileKey) (ec_EvidenceRefs evidence) then true
  else if profileKey == "crashloopbackoff" then
    eventCoveragePresent spec evidence crashLoopTerms && applicationLogEvidencePresent evidence
  else if profileKey == "crashloopbackoffv2" then
    eventCoveragePresent spec evidence crashLoopTerms && containerTerminationEvidencePresent evidence
  else if profileKey == "imagepullbackoff" then eventCoveragePresent spec evidence imagePullTerms
  else if profileKey == "oomkilled" then eventCoveragePresent spec evidence oomTerms
  else if mem_str profileKey ["highhttperror"; "highhttperrorrate"] then
    http5xxMetricEvidencePresent evidence && causalDependencyLogEvidencePresent evidence
  else false.

(** ** What is missing *)

Definition missingUnless (present : bool) (source reason : string) : list RCAMissingEvidence :=
  if present then [] else [mkRCAMissingEvidence source reason].

Definition kindSeen spec evidence (kind : string) : bool :=
  existsb (fun q => kind_key (iq_QueryType q) == kind) (irs_Queries spec)
  || existsb (fun r => kind_key (er_Kind r) == kind) (ec_EvidenceRefs evidence).

Definition missingSemanticEvidenceCoverage (profile : string) spec evidence : list RCAMissingEvidence :=
  let p := profile_key profile in
  if p == "crashloopbackoff" then
    missingUnless (eventCoveragePresent spec evidence crashLoopTerms) QueryTypeEvent "CrashLoopEvidenceCoverageMissing"
    ++ missingUnless (applicationLogEvidencePresent evidence) QueryTypeLog "CrashLoopApplicationEvidenceMissing"
  else if p == "crashloopbackoffv2" then
    missingUnless (eventCoveragePresent spec evidence crashLoopTerms) QueryTypeEvent "CrashLoopEvidenceCoverageMissing"
    ++ missingUnless (containerTerminationEvidenceMissingReason evidence == "") QueryTypeContainerTermination
         (containerTerminationEvidenceMissingReason evidence)
  else if p == "imagepullbackoff" then
    missingUnless (eventCoveragePresent spec evidence imagePullTerms) QueryTypeEvent "ImagePullEvidenceCoverageMissing"
  else if p == "oomkilled" then
    missingUnless (eventCoveragePresent spec evidence oomTerms) QueryTypeEvent "OOMEventEvidenceCoverageMissing"
  else if p == "serviceportmismatch" then
    missingUnless (servicePortMismatchEvidencePresent evidence) QueryTypeServiceConfiguration "ServicePortEvidenceMissing"
  else if mem_str p ["failedscheduling"; "schedulingsuccess"] then
    missingUnless (failedSchedulingEvidencePresent evidence) QueryTypeEvent "SchedulingPredicateEvidenceMissing"
  else if p == "probefailure" then
    missingUnless (eventCoveragePresent spec evidence probeTerms) QueryTypeEvent "ProbeFailureEventEvidenceMissing"
    ++ missingUnless (probeConfigurationMismatchEvidencePresent evidence) QueryTypeProbeConfiguration
         "ProbeConfigurationEvidenceMissing"
  else if mem_str p ["highhttperror"; "highhttperrorrate"] then
    missingUnless (negb (kindSeen spec evidence QueryTypeMetric) || http5xxMetricEvidencePresent evidence)
      QueryTypeMetric "HTTP5xxMetricEvidenceMissing"
    ++ missingUnless (negb (kindSeen spec evidence QueryTypeLog) || causalDependencyLogEvidencePresent evidence)
         QueryTypeLog "HTTPErrorCausalLogEvidenceMissing"
  else [].

Definition missingReasonPresent (missing : list RCAMissingEvidence) (reason : string) : bool :=
  existsb (fun m => me_Reason m == reason) missing.

Definition evidenceCoverageCheckComplete (check : string) spec evidence (missing : list RCAMissingEvidence) : bool :=
  let without reason := negb (missingReasonPresent missing reason) in
  if check == "event:CrashLoopBackOff" then
    without "CrashLoopEvidenceCoverageMissing" && eventCoveragePresent spec evidence crashLoopTerms
  else if check == "log:ApplicationFailure" then
    without "CrashLoopApplicationEvidenceMissing" && applicationLogEvidencePresent evidence
  else if check == "containerTermination:LastTermination" then
    without "ContainerTerminationEvidenceMissing" && without "ContainerTerminationEvidenceStale"
    && without "ContainerTerminationEvidenceTruncated" && containerTerminationEvidencePresent evidence
  else if check == "event:ImagePullBackOff" then
    without "ImagePullEvidenceCoverageMissing" && eventCoveragePresent spec evidence imagePullTerms
  else if check == "event:OOMKilled" then
    without "OOMEventEvidenceCoverageMissing" && eventCoveragePresent spec evidence oomTerms
  else if check == "metric:Memory" then
    evidenceKindPresent spec evidence QueryTypeMetric ["memory"; "oom"; "container_memory"]
  else if check == "metric:Latency" then
    evidenceKindPresent spec evidence QueryTypeMetric ["latency"; "duration"; "http_request"]
  else if check == "deploymentCondition:Rollout" then
    evidenceKindPresent spec evidence "deploymentCondition" ["rollout"; "deployment"; "progressing"; "available"]
  else if check == "serviceConfiguration:ServicePortMismatch" then servicePortMismatchEvidencePresent evidence
  else if check == "event:FailedScheduling" then failedSchedulingEvidencePresent evidence
  else if check == "event:Unhealthy" then eventCoveragePresent spec evidence probeTerms
  else if check == "probeConfiguration:ProbeConfigurationMismatch" then probeConfigurationMismatchEvidencePresent evidence
  else if check == "metric:HTTP5xx" then http5xxMetricEvidencePresent evidence
  else if check == "log:CausalDependency" then causalDependencyLogEvidencePresent evidence
  else false.

Definition evidenceCoverageAudit (profile : string) spec evidence (missing : list RCAMissingEvidence)
    : option RCAEvidenceCoverage :=
  match requiredEvidenceChecksForProfile profile with
  | [] => None
  | checks =>
      let complete c := evidenceCoverageCheckComplete c spec evidence missing in
      Some (mkRCAEvidenceCoverage (trim_space profile) checks
              (List.filter complete checks) (List.filter (fun c => negb (complete c)) checks)
              (wrap32 (evidenceProfileIssueMatchCount profile evidence)))
  end.

(** ** The gate *)

Record evidenceRequirementGate := mkGate {
  gt_Profile : string;
  gt_Complete : bool;
  gt_NoIssueFound : bool;
  gt_Missing : list RCAMissingEvidence;
  gt_Coverage : option RCAEvidenceCoverage;
  gt_Message : string
}.

(** [present[kind]]: a declared query or a collected reference has the kind. *)
Definition kindPresent spec evidence (kind : string) : bool :=
  (kind != "")
  && (existsb (fun q => trim_space (iq_QueryType q) == kind) (irs_Queries spec)
      || existsb (fun r => trim_space (er_Kind r) == kind) (ec_EvidenceRefs evidence)).

Definition missingKind (profile : string) spec evidence (kind : string) : bool :=
  let schedulingEventSatisfied :=
    isSchedulingProfile profile && (kind == QueryTypeEvent) && kindPresent spec evidence "scheduling" in
  negb (kindPresent spec evidence kind) && negb schedulingEventSatisfied.

Definition missingEvidence (profile : string) spec evidence : list RCAMissingEvidence :=
  map (fun kind => mkRCAMissingEvidence kind "RequiredEvidenceMissing")
    (List.filter (missingKind profile spec evidence) (requiredEvidenceKindsForProfile profile))
  ++ missingSemanticEvidenceCoverage profile spec evidence.

Definition evaluateEvidenceRequirements spec evidence : option evidenceRequirementGate :=
  let profile := trim_space (irs_EvidenceProfile spec) in
  if (profile == "") || bool_decide (ec_Issue evidence <> None) then None
  else
    match requiredEvidenceKindsForProfile profile with
    | [] => None
    | _ =>
        let missing := missingEvidence profile spec evidence in
        let coverage := evidenceCoverageAudit profile spec evidence missing in
        match missing with
        | [] => Some (mkGate profile true (evidenceProfileHasNoIssue profile spec evidence) [] coverage
                        ("required evidence profile " +:+ quote profile +:+ " is complete"))
        | _ => Some (mkGate profile false false missing coverage
                       ("required evidence profile " +:+ quote profile +:+ " is incomplete"))
        end
    end.
End Gate.

(** ** When the gate decides *)

Section GateProperties.
Context {U : UnicodeTables}.

(** The profiles for which the gate has required kinds. *)
Definition gatedProfiles : list string :=
  ["crashloopbackoff"; "imagepullbackoff"; "crashloopbackoffv2"; "oomkilled"; "latencyregression";
   "rolloutlatencyregression"; "highhttperror"; "highhttperrorrate"; "serviceportmismatch"; "failedscheduling";
   "schedulingsuccess"; "effectivenessverification"].

Lemma mem_str_cons x y l : mem_str x (y :: l) = (x == y) || mem_str x l.
Proof. reflexivity. Qed.

Lemma required_kinds_nil profile :
  requiredEvidenceKindsForProfile profile = [] <-> mem_str (profile_key profile) gatedProfiles = false.
Proof.
  unfold requiredEvidenceKindsForProfile, gatedProfiles. set (p := profile_key profile).
  rewrite !mem_str_cons. simpl (mem_str p []).
  repeat match goal with |- context [p == ?s] => destruct (p == s); simpl; [by split|] end.
  done.
Qed.

Lemma profile_key_trim profile : profile_key (trim_space profile) = profile_key profile.
Proof. unfold profile_key. by rewrite trim_space_idem. Qed.

Lemma gate_some_inv spec evidence g :
  evaluateEvidenceRequirements spec evidence = Some g ->
  let profile := trim_space (irs_EvidenceProfile spec) in
  gt_Profile g = profile /\ gt_Missing g = missingEvidence profile spec evidence /\
  gt_Complete g = bool_decide (gt_Missing g = []) /\
  gt_NoIssueFound g = gt_Complete g && evidenceProfileHasNoIssue profile spec evidence /\
  gt_Coverage g = evidenceCoverageAudit profile spec evidence (gt_Missing g).
Proof.
  unfold evaluateEvidenceRequirements. intros H. cbv zeta.
  destruct (_ || _); [done|]. destruct (requiredEvidenceKindsForProfile _); [done|].
  destruct (missingEvidence _ spec evidence) eqn:Hm; simplify_eq/=; rewrite ?Hm; done.
Qed.

(** The gate stays out of an investigation exactly when no profile is
    declared, the collection reported an issue, or the profile is none of the
    twelve it has requirements for - [ProbeFailure] among them, whose checks
    and semantic requirements are therefore never applied. *)
Theorem gate_skipped_iff (spec : InvestigationRequestSpec) (evidence : EvidenceCollectionResult) :
  (evaluateEvidenceRequirements spec evidence = None <->
     trim_space (irs_EvidenceProfile spec) = "" \/ ec_Issue evidence <> None \/
     profile_key (irs_EvidenceProfile spec) ∉ gatedProfiles) /\
  "probefailure" ∉ gatedProfiles.
Proof.
  split; [|by apply mem_str_false]. unfold evaluateEvidenceRequirements.
  destruct (trim_space (irs_EvidenceProfile spec) == "") eqn:Hb; cbn [orb].
  { apply String.eqb_eq in Hb. by split; [left|]. }
  apply String.eqb_neq in Hb. destruct (bool_decide (ec_Issue evidence <> None)) eqn:Hi.
  { apply bool_decide_eq_true in Hi. by split; [right; left|]. }
  apply bool_decide_eq_false in Hi.
  assert (Hk := required_kinds_nil (trim_space (irs_EvidenceProfile spec))).
  rewrite profile_key_trim in Hk. rewrite <- mem_str_false, <- Hk.
  destruct (requiredEvidenceKindsForProfile _) eqn:Hr; [by split; auto|].
  destruct (missingEvidence _ spec evidence); split; [done| | done|]; intros [?|[?|?]]; done.
Qed.

Lemma filter_none {A} (p : A -> bool) l : (forall x, x ∈ l -> p x = false) -> List.filter p l = [].
Proof.
  induction l as [|x l IH]; intros H; simpl; [done|]. rewrite (H x) by apply list_elem_of_here.
  apply IH. intros y Hy. by apply H, list_elem_of_further.
Qed.

(** A finding of no issue is backed by the whole collection: every
    requirement of the profile is met, no collected reference that is relevant
    to the profile shows its issue, and the audit it is stored with counts no
    issue match.  For the effectiveness profile no event at all was collected. *)
Theorem no_issue_sound (spec : InvestigationRequestSpec) (evidence : EvidenceCollectionResult) g :
  evaluateEvidenceRequirements spec evidence = Some g -> gt_NoIssueFound g = true ->
  let key := profile_key (irs_EvidenceProfile spec) in
  gt_Complete g = true /\ gt_Missing g = [] /\
  (forall r, r ∈ ec_EvidenceRefs evidence ->
     showsIssue key r = false /\ (key = "effectivenessverification" -> kind_is r QueryTypeEvent = false)) /\
  (forall coverage, gt_Coverage g = Some coverage -> ecv_IssueMatches coverage = 0).
Proof.
  intros Hg Hn key. destruct (gate_some_inv _ _ _ Hg) as (_ & _ & Hcomplete & Hno & Hcov).
  rewrite Hno in Hn. apply andb_true_iff in Hn as [Hc Hn]. rewrite Hc in Hcomplete.
  symmetry in Hcomplete. apply bool_decide_eq_true in Hcomplete.
  assert (Hshow : forall r, r ∈ ec_EvidenceRefs evidence ->
            showsIssue key r = false /\ (key = "effectivenessverification" -> kind_is r QueryTypeEvent = false)).
  { intros r Hr. unfold evidenceProfileHasNoIssue in Hn. rewrite profile_key_trim in Hn. fold key in Hn.
    destruct (key == ""); [done|]. destruct (key == "effectivenessverification") eqn:He.
    - apply String.eqb_eq in He. apply negb_true_iff in Hn. assert (Hk := existsb_none _ _ _ Hn Hr).
      split; [|done]. rewrite He. unfold showsIssue, evidenceRefMatchesProfileIssue. simpl.
      by rewrite Hk, andb_false_r.
    - apply String.eqb_neq in He. split; [|done].
      destruct (existsb (showsIssue key) _) eqn:Hs; [done|]. by apply (existsb_none _ _ r Hs). }
  repeat split; try done; try (by apply Hshow).
  intros coverage Hco. rewrite Hcov in Hco. unfold evidenceCoverageAudit in Hco.
  destruct (requiredEvidenceChecksForProfile _); [done|]. simplify_eq/=.
  unfold evidenceProfileIssueMatchCount. rewrite profile_key_trim. fold key.
  destruct (key == ""); [done|]. rewrite filter_none; [done|]. intros r Hr. by apply Hshow.
Qed.
End GateProperties.

(** ** Examples *)

Section GateExamples.
#[local] Existing Instance plain_tables.

Definition gate_spec (profile : string) (queries : list InvestigationQuery) : InvestigationRequestSpec :=
  investigation_spec sample_target "" None 0 "" queries "" false profile.
Definition gate_evidence (refs : list EvidenceRef) : EvidenceCollectionResult :=
  mkEvidenceCollectionResult "" refs [] [] [] [] None.

Definition quiet_metric : EvidenceRef := evidence_ref "m1" "metric" "prometheus" "" "latency p99 = 0".

Example latency_gate :
  option_map (fun g => (gt_Complete g, gt_NoIssueFound g))
    (evaluateEvidenceRequirements (gate_spec "LatencyRegression" []) (gate_evidence [quiet_metric])) = Some (true, true).
Proof. vm_compute. reflexivity. Qed.

Example crash_loop_gate :
  option_map (fun g => (gt_Complete g, map me_Reason (gt_Missing g)))
    (evaluateEvidenceRequirements (gate_spec "CrashLoopBackOff" [])
       (gate_evidence [evidence_ref "e1" "event" "k8s" "BackOff" "Back-off restarting"]))
  = Some (false, ["CrashLoopApplicationEvidenceMissing"]).
Proof. vm_compute. reflexivity. Qed.

Lemma no_issue_sound_witness :
  exists g, evaluateEvidenceRequirements (gate_spec "LatencyRegression" []) (gate_evidence [quiet_metric]) = Some g /\
    gt_Missing g = [] /\ showsIssue "latencyregression" quiet_metric = false.
Proof.
  eexists. split; [vm_compute; reflexivity|].
  destruct (no_issue_sound (gate_spec "LatencyRegression" []) (gate_evidence [quiet_metric]) _
              ltac:(vm_compute; reflexivity) ltac:(reflexivity)) as (_ & Hm & Hr & _).
  split; [exact Hm|]. exact (proj1 (Hr quiet_metric (list_elem_of_here _ _))).
Defined.
End GateExamples.
