(* ===== verification/InvestigationRCA.v ===== *)
(** * Root-cause claims and the canonical verdict

    How internal/controllers/investigationrequest_controller.go turns the
    answer of a model provider into verified claims, a verdict and an execution
    record: the provider's hypotheses become claims, the profile may add one
    that the evidence itself establishes, the verifier judges them all, and the
    verdict is Confirmed only on the strength of the causal ones. *)

From Stdlib Require Import ZArith Lia.
From stdpp Require Import base list strings gmap.
From S2P Require Import Prelude GoStrings Utf8 Float64 Api InvestigationApi Digest DataClassification Scope Observation Egress Gateway Verifier InvestigationGate.

Definition rcaSchemaVersion : string := "fluxseer-rca-result-v1".
Definition rcaCanonicalizationVersion : string := RCAJSONV1.
Definition reasoningPolicyVersion : string := "rca-v2-compat".
Definition executionStateProviderCompleted : string := "ProviderCompleted".
Definition executionStateFinalized : string := "Finalized".
Definition executionAttemptCompleted : string := "Completed".
Definition defaultExecutionAttemptID : string := "attempt-001".
Definition schedulingMechanismClaimStatement : string :=
  "SchedulingUnschedulable is confirmed by UID-correlated scheduler condition or FailedScheduling evidence.".

Abbreviation RCA := (@RCAResult ReasoningOutput) (only parsing).

Section Claims.
Context {U : UnicodeTables}.
Implicit Type evidence : EvidenceCollectionResult.
Implicit Type claims : list RCAClaim.

(** ** Claims *)

Definition zeroPad3 (index : Z) : string :=
  if index <? 10 then "00" +:+ itoa index else if index <? 100 then "0" +:+ itoa index else itoa index.
Definition claimID (index : Z) : string := "claim-" +:+ zeroPad3 index.
Definition evidenceID (index : Z) : string := "evidence-" +:+ zeroPad3 index.

(** A claim literal that sets only these fields. *)
Definition newClaim (id statement : string) : RCAClaim := mkRCAClaim id statement [] [] "".

Definition emptySpec : InvestigationRequestSpec :=
  investigation_spec (mkTargetRef "" "" "" "" "" "") "" None 0 "" [] "" false "".

Definition imagePullProfileClaim evidence : option string :=
  if negb (eventCoveragePresent emptySpec evidence imagePullTerms) then None
  else if existsb (fun r => kind_is r QueryTypeEvent
                            && (equal_fold (trim_space (er_Reason r)) "ImagePullBackOff"
                                || contains (lower_text [er_Reason r; er_Summary r]) "imagepullbackoff"))
            (ec_EvidenceRefs evidence)
  then Some "ImagePullBackOff is confirmed by explicit Kubernetes ImagePullBackOff event evidence."
  else Some "ImagePullFailure is confirmed by Kubernetes image-pull failure event evidence.".

Definition profileBackedRCAClaim (profile : string) evidence : option string :=
  let p := profile_key profile in
  let given (present : bool) statement := if present then Some statement else None in
  if p == "serviceportmismatch" then
    given (servicePortMismatchEvidencePresent evidence)
      "ServicePortMismatch is confirmed by Kubernetes Service targetPort and resolved workload/container port evidence."
  else if mem_str p ["failedscheduling"; "schedulingsuccess"] then
    given (schedulingFailureMechanismEvidencePresent evidence) schedulingMechanismClaimStatement
  else if p == "probefailure" then
    given (eventCoveragePresent emptySpec evidence probeTerms && probeConfigurationMismatchEvidencePresent evidence)
      "ProbeConfigurationMismatch is confirmed by probe failure and workload probe configuration evidence."
  else if p == "crashloopbackoff" then
    given (eventCoveragePresent emptySpec evidence crashLoopTerms && applicationLogEvidencePresent evidence)
      "CrashLoopBackOff is confirmed by a workload restart symptom and application failure evidence."
  else if p == "imagepullbackoff" then imagePullProfileClaim evidence
  else if p == "oomkilled" then
    given (eventCoveragePresent emptySpec evidence oomTerms
           && evidenceKindPresent emptySpec evidence QueryTypeMetric ["memory"; "oom"; "container_memory"])
      "OOMKilled is confirmed by Kubernetes OOM event and memory pressure evidence."
  else if mem_str p ["highhttperror"; "highhttperrorrate"] then
    given (http5xxMetricEvidencePresent evidence && causalDependencyLogEvidencePresent evidence)
      "HighHTTPErrorRate is confirmed by HTTP 5xx metric and causal dependency evidence."
  else if p == "effectivenessverification" then
    given (existsb (fun r => kind_is r QueryTypeEvent) (ec_EvidenceRefs evidence))
      "A post-action workload event remains observed during effectiveness verification."
  else None.

Definition schedulingMechanismRCAClaim evidence : option string :=
  if schedulingFailureMechanismEvidencePresent evidence then Some schedulingMechanismClaimStatement else None.

Definition verifierClaims claims : list Claim := map (fun c => mkClaim (rc_ID c) (rc_Statement c)) claims.

Fixpoint verifierRefsFrom (index : Z) (refs : list EvidenceRef) : list VerifierRef :=
  match refs with
  | [] => []
  | r :: rest =>
      let id := trim_space (er_ID r) in
      mkVerifierRef (if id == "" then evidenceID (index + 1) else id) (er_Kind r) (er_Summary r) (er_Source r)
        (er_Reason r) :: verifierRefsFrom (index + 1) rest
  end.
Definition verifierEvidenceRefs (refs : list EvidenceRef) : list VerifierRef := verifierRefsFrom 0 refs.

Definition verifierEvidenceLinks (links : list EvidenceLink) : list RCAEvidenceLink :=
  map (fun l => mkRCAEvidenceLink (el_EvidenceRef l) (el_Role l) (el_Strength l)) links.

Definition resultsByID (results : list ClaimResult) : gmap string ClaimResult :=
  fold_left (fun byID r => <[cr_ID r := r]> byID) results ∅.

Definition verifiedClaim (byID : gmap string ClaimResult) (c : RCAClaim) : RCAClaim :=
  match byID !! rc_ID c with
  | Some r => mkRCAClaim (rc_ID c) (rc_Statement c) (cr_EvidenceRefs r) (verifierEvidenceLinks (cr_EvidenceLinks r))
                (cr_Verification r)
  | None => c
  end.
Definition applyClaimVerification claims (verification : VerificationResult) : list RCAClaim :=
  map (verifiedClaim (resultsByID (vr_Claims verification))) claims.

(** The claims before verification: the risk summary, the non-blank causes, the
    claim of the profile, the scheduling mechanism when no profile is declared. *)
Definition summaryClaims (reasoning : ReasoningOutput) : list RCAClaim :=
  if trim_space (ro_RiskSummary reasoning) != "" then [newClaim "claim-001" (ro_RiskSummary reasoning)] else [].

Definition nextClaimID claims : string := claimID (Z.of_nat (length claims) + 1).
Definition addCause claims (cause : string) : list RCAClaim :=
  if trim_space cause == "" then claims else claims ++ [newClaim (nextClaimID claims) cause].
Definition addProfileClaim (profile : string) evidence claims : list RCAClaim :=
  match profileBackedRCAClaim profile evidence with
  | Some statement =>
      let id := if has_prefix statement "SchedulingUnschedulable is confirmed by"
                then "claim-scheduling-mechanism" else nextClaimID claims in
      claims ++ [newClaim id statement]
  | None => claims
  end.
Definition addMechanismClaim (profile : string) evidence claims : list RCAClaim :=
  if trim_space profile == "" then
    match schedulingMechanismRCAClaim evidence with
    | Some statement => claims ++ [newClaim "claim-scheduling-mechanism" statement]
    | None => claims
    end
  else claims.

Definition proposedClaims (reasoning : ReasoningOutput) evidence (profile : string) : list RCAClaim :=
  addMechanismClaim profile evidence
    (addProfileClaim profile evidence
       (fold_left addCause (rs_Causes (ro_RCA reasoning)) (summaryClaims reasoning))).

Definition buildRCAClaims (reasoning : ReasoningOutput) evidence (profile : string)
    : list RCAClaim * VerificationResult :=
  let claims := proposedClaims reasoning evidence profile in
  let verification := VerifyClaims (verifierClaims claims) (verifierEvidenceRefs (ec_EvidenceRefs evidence)) in
  (applyClaimVerification claims verification, verification).

Definition isSchedulingMechanismClaim (c : RCAClaim) : bool :=
  has_prefix (trim_space (rc_ID c)) "claim-scheduling-mechanism"
  || has_prefix (trim_space (rc_Statement c)) "SchedulingUnschedulable is confirmed by".

Definition rootCauseClaims (reasoning : ReasoningOutput) claims : list RCAClaim :=
  let start := if trim_space (ro_RiskSummary reasoning) != "" then 1%nat else 0%nat in
  List.filter (fun c => negb (isSchedulingMechanismClaim c)) (drop start claims).

Definition claimSupported (c : RCAClaim) : bool := rc_Verification c == VerificationSupported.
Definition claimContradicted (c : RCAClaim) : bool := rc_Verification c == VerificationContradicted.

(** The numbers of supported and of contradicted claims. *)
Definition countVerifiedRootCauseClaims claims : Z * Z :=
  (Z.of_nat (length (List.filter claimSupported claims)), Z.of_nat (length (List.filter claimContradicted claims))).
Definition supportedRootCauseClaims claims : list RCAClaim := List.filter claimSupported claims.
Definition verifiedCauseStatements claims : list string := map rc_Statement (List.filter claimSupported claims).

(** ** Texts of the verdict *)

Definition nonEmptyStrings (values : list string) : list string :=
  List.filter (fun v => v != "") (map trim_space values).

(** [firstNonEmptyString]: the first value that is not blank, as it is. *)
Definition firstNonEmptyString : list string -> string := firstNonEmpty.

Definition evidencePart (ref : EvidenceRef) : option string :=
  let label := trim_space (join " " (nonEmptyStrings [trim_space (er_Kind ref); trim_space (er_Reason ref);
                                                       trim_space (er_Source ref)])) in
  let detail := trim_space (er_Summary ref) in
  if (label != "") && (detail != "") then Some (label +:+ ": " +:+ detail)
  else if detail != "" then Some detail
  else if label != "" then Some label
  else None.
Definition observedEvidenceSummary evidence : string :=
  join "; " (take 3 (omap evidencePart (ec_EvidenceRefs evidence))).

Definition verifiedRCASummary evidence (supportedClaims : list RCAClaim) : string :=
  let statements := nonEmptyStrings (map rc_Statement supportedClaims) in
  let evidenceSummary := observedEvidenceSummary evidence in
  let some := negb (bool_decide (statements = [])) in
  if some && (evidenceSummary != "") then
    "Verified root-cause evidence supports: " +:+ join "; " statements +:+ ". Observed evidence: " +:+ evidenceSummary +:+ "."
  else if some then "Verified root-cause evidence supports: " +:+ join "; " statements +:+ "."
  else if evidenceSummary != "" then "Observed evidence: " +:+ evidenceSummary +:+ "."
  else "Root-cause claims were verified by collected evidence.".

Definition summaryTerms : list string :=
  ["crashloopbackoff"; "backoff"; "imagepullbackoff"; "errimagepull"; "invalidimagename"; "failedscheduling";
   "oomkilled"; "oom"; "unhealthy"; "failedcreate"; "failedreplicacreate"; "progressdeadlineexceeded";
   "minimumreplicasunavailable"].
Definition evidenceSummaryRank (ref : EvidenceRef) : Z :=
  if contains_any (to_lower (trim_space (er_Reason ref))) summaryTerms then 2
  else if contains_any (to_lower (trim_space (er_Summary ref +:+ " " +:+ er_Kind ref))) summaryTerms then 1
  else 0.
Definition rankedEvidenceRefsForSummary (refs : list EvidenceRef) : list EvidenceRef :=
  sort_stable (fun a b => evidenceSummaryRank b <? evidenceSummaryRank a) refs.

Definition observedDetail (ref : EvidenceRef) : option string :=
  let detail := firstNonEmptyString [trim_space (er_Summary ref); trim_space (er_Reason ref); trim_space (er_Source ref)] in
  if detail != "" then Some detail else None.
Definition unverifiedRCASummary evidence (providerSummary : string) : string :=
  match find_first observedDetail (rankedEvidenceRefsForSummary (ec_EvidenceRefs evidence)) with
  | Some detail => "Observed " +:+ detail +:+ ", but collected evidence is insufficient to confirm the proposed root cause."
  | None =>
      if trim_space providerSummary != "" then
        "Collected evidence is insufficient to confirm the proposed root cause: " +:+ trim_space providerSummary
      else "Collected evidence is insufficient to confirm the proposed root cause."
  end.

Definition portTerms : list string :=
  ["targetport"; "target port"; "service port"; "container port"; "port mismatch"; "listener port"; "targets port";
   "listens on port"].
Definition inferRootCauseTypeFromClaims claims evidence : string :=
  let text := to_lower (join " " (map rc_Statement claims)) in
  let mentions := contains_any text in
  if mentions ["imagepullbackoff"; "errimagepull"; "image pull"; "pull image"; "failed to pull"] then "ImagePullFailure"
  else if mentions ["failedscheduling"; "failed scheduling"; "unschedulable"; "untolerated taint"; "insufficient cpu";
                    "insufficient memory"] then "SchedulingFailure"
  else if servicePortMismatchEvidencePresent evidence
          && mentions (["serviceportmismatch"; "service port mismatch"] ++ portTerms) then "ServicePortMismatch"
  else if mentions portTerms then "ConfigurationMismatch"
  else if mentions ["readiness probe"; "liveness probe"; "probe failure"; "probe failed"; "unhealthy probe"] then "ProbeFailure"
  else if mentions ["high http error"; "http 5xx"; "5xx error"; "5xx rate"; "error rate"] then "HighHTTPErrorRate"
  else if mentions ["memory"; "oom"; "resource pressure"; "safe threshold"] then "ResourcePressure"
  else if mentions ["latency"; "timeout"; "http"; "5xx"] then "LatencyRegression"
  else if mentions ["rollout"; "release"; "pod template"; "replicaset"; "image digest"] then "DeploymentRegression"
  else if mentions ["crash"; "restart"; "backoff"; "startup"] then "CrashLoop"
  else "WorkloadDegradation".

Definition missingEvidenceForClaim (statement profile : string) : list RCAMissingEvidence :=
  let mentions := contains_any (to_lower statement) in
  if mentions ["rollout"; "release"; "image"; "config"; "configuration"] then
    [mkRCAMissingEvidence "deployment-history" "RolloutEvidenceRequired"]
  else if mentions ["memory"; "oom"; "resource pressure"] then
    [mkRCAMissingEvidence "prometheus" "MemoryMetricsRequired"; mkRCAMissingEvidence "kubernetes-events" "OOMEventRequired"]
  else if mentions ["crash"; "restart"; "backoff"] then
    if equal_fold (trim_space profile) "CrashLoopBackOffV2" then
      [mkRCAMissingEvidence "loki" "CrashLoopApplicationLogRequired"]
    else [mkRCAMissingEvidence "kubernetes-events" "CrashLoopEventRequired";
          mkRCAMissingEvidence "loki" "CrashLoopApplicationLogRequired"]
  else if mentions ["latency"; "timeout"; "http"; "5xx"] then
    [mkRCAMissingEvidence "prometheus" "LatencyMetricsRequired"; mkRCAMissingEvidence "loki" "ErrorLogEvidenceRequired"]
  else [mkRCAMissingEvidence "evidence" "SupportingEvidenceRequired"].

Definition missingKey (m : RCAMissingEvidence) : string := me_Source m +:+ "/" +:+ me_Reason m.
Definition addMissing (missing : list RCAMissingEvidence) (m : RCAMissingEvidence) : list RCAMissingEvidence :=
  if mem_str (missingKey m) (map missingKey missing) then missing else missing ++ [m].
Definition missingEvidenceForClaims claims (profile : string) : list RCAMissingEvidence :=
  fold_left addMissing
    (concat (map (fun c => missingEvidenceForClaim (rc_Statement c) profile)
               (List.filter (fun c => negb (claimSupported c)) claims))) [].

(** ** The entity *)

Definition sameTargetRef (a b : TargetRef) : bool :=
  (tr_Cluster a == tr_Cluster b) && (tr_Namespace a == tr_Namespace b) && (tr_Kind a == tr_Kind b)
  && (tr_Name a == tr_Name b) && (tr_APIVersion a == tr_APIVersion b).

Definition refsByID (refs : list EvidenceRef) : gmap string EvidenceRef :=
  fold_left (fun byID r => if er_ID r != "" then <[er_ID r := r]> byID else byID) refs ∅.

(** The target that a cited log reference names, if it names exactly one. *)
Definition citedTarget (byID : gmap string EvidenceRef) (evidenceID : string) : option TargetRef :=
  match byID !! evidenceID with
  | None => None
  | Some ref =>
      if negb (kind_is ref QueryTypeLog) then None
      else match er_RelatedTargets ref with
        | [target] => if (trim_space (tr_Kind target) == "") || (trim_space (tr_Name target) == "") then None else Some target
        | _ => None
        end
  end.
(** [None] once two cited targets differ. *)
Definition addCandidate (candidate : option (option TargetRef)) (target : TargetRef) : option (option TargetRef) :=
  match candidate with
  | Some None => Some (Some target)
  | Some (Some c) => if sameTargetRef c target then candidate else None
  | None => None
  end.
Definition causalRootCauseEntity claims evidence : option TargetRef :=
  let byID := refsByID (ec_EvidenceRefs evidence) in
  let cited := omap (citedTarget byID) (concat (map rc_EvidenceRefs (List.filter claimSupported claims))) in
  match fold_left addCandidate cited (Some None) with Some c => c | None => None end.

(** ** The verdict *)

Record canonicalVerdictEvaluation := mkEvaluation {
  ev_Outcome : string;
  ev_Summary : string;
  ev_RootCauseType : string;
  ev_RootCauseEntity : option TargetRef;
  ev_Confidence : float64;
  ev_VerifiedScore : float64;
  ev_MissingEvidence : list RCAMissingEvidence
}.

Definition verifiedScoreOf (supported causal : Z) (providerConfidence : float64) : float64 :=
  let score := if 0 <? causal then float_div (float_of_int supported) (float_of_int causal) else float_zero in
  float_cap score providerConfidence.

Definition evaluateCanonicalVerdict (reasoning : ReasoningOutput) evidence claims (providerConfidence : float64)
    (profile : string) : canonicalVerdictEvaluation :=
  let causalClaims := rootCauseClaims reasoning claims in
  let '(supported, contradicted) := countVerifiedRootCauseClaims causalClaims in
  let supportedClaims := supportedRootCauseClaims causalClaims in
  let causal := Z.of_nat (length causalClaims) in
  let verifiedScore := verifiedScoreOf supported causal providerConfidence in
  if (causal =? 0) || (supported =? 0) || (0 <? contradicted) then
    mkEvaluation InvestigationOutcomeInconclusive (unverifiedRCASummary evidence (ro_RiskSummary reasoning)) "" None
      float_zero float_zero (missingEvidenceForClaims causalClaims profile)
  else
    mkEvaluation InvestigationOutcomeConfirmed (verifiedRCASummary evidence supportedClaims)
      (inferRootCauseTypeFromClaims supportedClaims evidence) (causalRootCauseEntity supportedClaims evidence)
      verifiedScore verifiedScore [].

Definition confidenceLevel (score : float64) : string :=
  let percent n := float_div (float_of_int n) (float_of_int 10) in
  if float_geb score (percent 8) then "High"
  else if float_geb score (percent 5) then "Medium"
  else if float_gtb score float_zero then "Low"
  else "Unknown".

(** ** Degradation *)

Definition degradationReason (ref : EvidenceRef) : option RCADegradationReason :=
  let code := trim_space (er_TruncationReason ref) in
  if (code == "") && negb (er_Truncated ref) then None
  else
    let code := if code == "" then "EvidenceTruncated" else code in
    let message :=
      if code == "NativeResultLimitExceeded" then
        "evidence " +:+ er_ID ref +:+ " was truncated by native "
          +:+ firstNonEmptyString [er_LimitDimension ref; "result"] +:+ " limit"
      else if code == "InvestigationQueryBudgetExhausted" then
        "evidence " +:+ er_ID ref +:+ " is incomplete because the investigation query budget was exhausted"
      else "evidence " +:+ er_ID ref +:+ " was truncated: " +:+ code in
    Some (mkRCADegradationReason code InvestigationStageEvidenceCollection None message).
Definition evidenceCoverageDegradation evidence : option RCADegradation :=
  match omap degradationReason (ec_EvidenceRefs evidence) with
  | [] => None
  | reasons => Some (mkRCADegradation true [] reasons)
  end.

(** Its only callers are tests: the native-limit reasons alone. *)
Definition evidenceNativeLimitDegradation evidence : option RCADegradation :=
  match evidenceCoverageDegradation evidence with
  | None => None
  | Some d =>
      match List.filter (fun r => dr_Code r == "NativeResultLimitExceeded") (dg_Reasons d) with
      | [] => None
      | filtered => Some (d <| dg_Reasons := filtered |>)
      end
  end.

Definition evidenceDegradationCondition (degradation : option RCADegradation) : string * string :=
  match option_map dg_Reasons degradation with
  | Some (first :: _) =>
      if dr_Code first == "InvestigationQueryBudgetExhausted" then
        (dr_Code first,
         "evidence collection completed with incomplete coverage because the investigation query budget was exhausted")
      else (dr_Code first, "evidence collection completed with bounded evidence truncation")
  | _ => ("EvidenceCoverageIncomplete", "evidence collection completed with incomplete coverage")
  end.

(** ** Alternative hypotheses *)

Definition hypothesis (c : CandidateClaim) : option RCAAlternativeHypothesis :=
  if (cc_Type c == ClaimObservation) || (trim_space (cc_Statement c) == "") then None
  else Some (mkRCAAlternativeHypothesis (cc_Statement c) "DiagnosticCandidateUnverified" (cc_EvidenceRefs c)).
Definition diagnosticAlternativeHypotheses (results : list DiagnosticResult) : list RCAAlternativeHypothesis :=
  concat (map (fun r => omap hypothesis (dr_Claims r)) results).

Definition mechanismCandidate (r : DiagnosticResult) (c : CandidateClaim) : bool :=
  (dr_DiagnosticID r == "scheduling") && (cc_Type c == ClaimFailureMechanism)
  && contains (to_lower (cc_Statement c)) "could not be scheduled".
Definition diagnosticAlternativeHypothesesWithoutConfirmedMechanism (results : list DiagnosticResult) claims
    : list RCAAlternativeHypothesis :=
  if negb (existsb (fun c => isSchedulingMechanismClaim c && claimSupported c) claims) then
    diagnosticAlternativeHypotheses results
  else
    concat (map (fun r => omap (fun c => if mechanismCandidate r c then None else hypothesis c) (dr_Claims r)) results).

Definition investigationOutcomeAllowsRiskSignalProjection (outcome : string) : bool :=
  outcome == InvestigationOutcomeConfirmed.

Definition resourceToTargetRef (r : ResourceRef) : TargetRef :=
  mkTargetRef (rr_Cluster r) (rr_Namespace r) (rr_Kind r) (rr_Name r) (rr_APIVersion r) (rr_Service r).
Definition zeroTargetRef : TargetRef := mkTargetRef "" "" "" "" "" "".
Definition rootCauseEntityForInvestigationOutcome (outcome : string) (target : ResourceRef) : TargetRef :=
  if investigationOutcomeAllowsRiskSignalProjection outcome then resourceToTargetRef target else zeroTargetRef.
End Claims.
