(* ===== verification/InvestigationExecution.v ===== *)
(** * Execution records of an investigation

    The provider result the controller stores before it verifies it, the
    identity of an execution, the egress audit it synthesises, and the two
    execution records (internal/controllers/investigationrequest_controller.go). *)

From Stdlib Require Import ZArith Lia.
From stdpp Require Import base list strings gmap.
From S2P Require Import Prelude GoStrings Utf8 Float64 Api InvestigationApi Digest DataClassification Scope Observation Egress Gateway Verifier InvestigationGate InvestigationRCA.

Section Execution.
Context {U : UnicodeTables} {D : DigestPrims}.
(** [version.Current().Version], a link-time variable. *)
Context (controllerVersion : string).
Implicit Type evidence : EvidenceCollectionResult.
Implicit Type request : InvestigationRequest.
Implicit Type preflight : PreflightResult.
Implicit Type rca : RCA.

(** ** Provider results *)

Definition normalizedResultFromReasoning (reasoning : ReasoningOutput) : RCANormalizedResult :=
  mkRCANormalizedResult (ro_RiskTitle reasoning) (ro_RiskSummary reasoning) (ro_Severity reasoning)
    (cf_Score (ro_Confidence reasoning)) (cf_Rationale (ro_Confidence reasoning))
    (cf_EvidenceCoverage (ro_Confidence reasoning)) (rs_Hypothesis (ro_RCA reasoning)) (rs_Causes (ro_RCA reasoning))
    (rs_Evidence (ro_RCA reasoning)) (rem_ActionType (ro_Remediation reasoning))
    (rem_Description (ro_Remediation reasoning)) (rem_Parameters (ro_Remediation reasoning))
    (rem_RollbackPlan (ro_Remediation reasoning)) (ro_RunbookRefs reasoning) (ro_ServiceDocs reasoning)
    (ro_Provider reasoning).

(** A list field with [omitempty]. *)
Definition list_field (key : string) (l : list string) : list (string * json) :=
  match l with [] => [] | _ => [(key, strings_json l)] end.

Definition normalized_result_json (n : RCANormalizedResult) : json :=
  JObj (str_field "riskTitle" (nr_RiskTitle n) ++ str_field "riskSummary" (nr_RiskSummary n)
        ++ str_field "severity" (nr_Severity n) ++ int_field "confidenceScore" (nr_ConfidenceScore n)
        ++ str_field "confidenceReason" (nr_ConfidenceReason n) ++ str_field "evidenceCoverage" (nr_EvidenceCoverage n)
        ++ str_field "rcaHypothesis" (nr_RCAHypothesis n) ++ list_field "rcaCauses" (nr_RCACauses n)
        ++ list_field "rcaEvidence" (nr_RCAEvidence n) ++ str_field "actionType" (nr_ActionType n)
        ++ str_field "actionDescription" (nr_ActionDescription n)
        ++ (if bool_decide (nr_ActionParameters n = ∅) then []
            else [("actionParameters", string_map_json (nr_ActionParameters n))])
        ++ list_field "rollbackPlan" (nr_RollbackPlan n) ++ list_field "runbookRefs" (nr_RunbookRefs n)
        ++ list_field "serviceDocs" (nr_ServiceDocs n) ++ str_field "provider" (nr_Provider n)).

Definition providerResultFromReasoning rca : option RCAProviderResult :=
  match rca_Reasoning rca with
  | None => None
  | Some reasoning =>
      let normalized := normalizedResultFromReasoning reasoning in
      Some (mkRCAProviderResult rcaSchemaVersion (trim_space (ro_ProviderRequestID reasoning))
              (Some (mkRCADigest AlgorithmSHA256 RCAJSONV1 (digestString RCAJSONV1 (normalized_result_json normalized))))
              None (Some normalized))
  end.

Definition reasoningFromProviderResult (result : RCAProviderResult) : option ReasoningOutput :=
  match prs_NormalizedResult result with
  | None => None
  | Some n =>
      let severity := nr_Severity n in
      Some (mkReasoningOutput (nr_RiskTitle n) (nr_RiskSummary n) severity
              (mkConfidence (nr_ConfidenceScore n) severity (nr_ConfidenceReason n) (nr_EvidenceCoverage n))
              (mkRCASummary (nr_RCAHypothesis n) (nr_RCACauses n) (nr_RCAEvidence n))
              (mkRemediation (nr_ActionType n) (nr_ActionDescription n) (nr_ActionParameters n) (nr_RollbackPlan n))
              (nr_RunbookRefs n) (nr_ServiceDocs n) (nr_Provider n) (trim_space (prs_ProviderRequestID result)) 0 0)
  end.

(** The stored result that stands in for a provider call. *)
Definition reusableProviderResult (execution : option RCAExecution) (executionID : string) : option RCAProviderResult :=
  match execution with
  | None => None
  | Some x =>
      if rx_ID x != executionID then None
      else match rx_ProviderResult x with
        | None => None
        | Some result =>
            if bool_decide (prs_NormalizedResult result = None) then None
            else if mem_str (rx_State x) [executionStateProviderCompleted; executionStateFinalized] then Some result
            else None
        end
  end.

(** ** The identity of an execution *)

Definition lineageTargetUID (lineage : option InvestigationLineage) : string :=
  match lineage with None => "" | Some l => ln_TargetUID l end.

Definition providerRef (provider : option ModelProvider) : option NamespacedObjectReference :=
  option_map namespacedProviderRef provider.
Definition providerGeneration (provider : option ModelProvider) : Z :=
  match provider with None => 0 | Some p => om_Generation (mpr_Meta p) end.
Definition providerType (provider : option ModelProvider) : string :=
  match provider with None => "" | Some p => mps_Provider (mpr_Spec p) end.
Definition providerModel (provider : option ModelProvider) : string :=
  match provider with None => "" | Some p => mps_Model (mpr_Spec p) end.

Definition evidenceBundleDigest (refs : list EvidenceRef) : string :=
  digestString ObservationJSONV1 (JArr (map evidence_ref_json refs)).

Definition execution_input request preflight evidence : json :=
  JObj [("requestUID", JStr (om_UID (ir_Meta request)));
        ("requestGeneration", JNum (om_Generation (ir_Meta request)));
        ("target", resource_ref_json (pf_Target preflight));
        ("targetUID", JStr (lineageTargetUID (ist_Lineage (ir_Status request))));
        ("evidenceBundleDigest", JStr (evidenceBundleDigest (ec_EvidenceRefs evidence)));
        ("providerType", JStr (providerType (pf_Provider preflight)));
        ("providerGeneration", JNum (providerGeneration (pf_Provider preflight)));
        ("model", JStr (providerModel (pf_Provider preflight)));
        ("reasoningPolicyVersion", JStr reasoningPolicyVersion);
        ("rcaSchemaVersion", JStr rcaSchemaVersion);
        ("canonicalizationVersion", JStr rcaCanonicalizationVersion)].
Definition investigationExecutionID request preflight evidence : string :=
  digestString RCAJSONV1 (execution_input request preflight evidence).
Definition executionIdempotencyKey request preflight evidence (attemptID : string) : string :=
  digestString RCAJSONV1 (JObj [("executionID", JStr (investigationExecutionID request preflight evidence));
                                ("attemptID", JStr attemptID)]).

(** ** Egress audit *)

Definition normalizeEgressEvidenceKind (kind : string) : string :=
  let k := trim_suffix (to_lower (trim_space kind)) "observation" in
  if k == "kubernetesevent" then "event" else k.
Definition egressEvidenceKindAllowed (kind : string) (allowed : list string) : bool :=
  match allowed with
  | [] => true
  | _ => existsb (fun candidate => normalizeEgressEvidenceKind candidate == normalizeEgressEvidenceKind kind) allowed
  end.
Definition egressRef (policy : ModelProviderDataPolicy) (ref : EvidenceRef) : option EvidenceRef :=
  if negb (egressEvidenceKindAllowed (er_Kind ref) (mp_AllowedEvidenceKinds policy)) then None
  else if equal_fold (er_Kind ref) "log" && negb (mp_AllowLogSamples policy) then
    Some (ref <| er_Summary := "log sample omitted by provider data policy" |> <| er_Query := "" |> <| er_Link := "" |>)
  else Some ref.
Definition egressEvidenceRefsForAudit (refs : list EvidenceRef) (policy : ModelProviderDataPolicy) : list EvidenceRef :=
  omap (egressRef policy) refs.

(** The kinds in order of first occurrence, then sorted. *)
Definition evidenceKinds (refs : list EvidenceRef) : list string :=
  sort_strings (dedup_first (List.filter (fun k => k != "") (map (fun r => trim_space (er_Kind r)) refs))).

Definition logSamplesIncluded (refs : list EvidenceRef) (policy : ModelProviderDataPolicy) : bool :=
  if negb (mp_AllowLogSamples policy) then false
  else existsb (fun r => equal_fold (er_Kind r) "log" && (trim_space (er_Summary r) != "")) refs.

Definition isHostedProviderType (providerType : string) : bool :=
  mem_str (to_lower (trim_space providerType)) ["openai"; "claude"; "gemini"].

Definition providerEgressAudit (provider : option ModelProvider) evidence : option ProviderEgressAudit :=
  match provider with
  | None => None
  | Some p =>
      let policy := policyOf p in
      if negb (isHostedProviderType (mps_Provider (mpr_Spec p))) then None
      else
        let filteredRefs := egressEvidenceRefsForAudit (ec_EvidenceRefs evidence) policy in
        let decision := EvaluateProviderPolicy policy filteredRefs in
        Some (mkProviderEgressAudit (cd_Decision decision) (cd_Reason decision)
                (to_lower (trim_space (mps_Provider (mpr_Spec p)))) (evidenceBundleDigest filteredRefs)
                (evidenceKinds filteredRefs) (cd_SensitivityTagsSent decision) (logSamplesIncluded filteredRefs policy)
                (cd_MaximumObserved decision) (cd_MaximumAllowed decision) (cd_MaximumSent decision)
                (cd_ClassificationVersion decision))
  end.

Definition providerEgressAttempt (provider : option ModelProvider) (audit : ProviderEgressAudit) (ordinal : Z)
    (result : string) : ProviderEgressAttempt :=
  mkProviderEgressAttempt ordinal (providerRef provider) (providerGeneration provider)
    (if ea_ProviderType audit == "" then providerType provider else ea_ProviderType audit)
    (ea_Decision audit) result (ea_Reason audit) (ea_EvidenceBundleDigest audit) (ea_EvidenceKinds audit)
    (ea_SensitivityTagsSent audit) (ea_LogSamplesIncluded audit) (ea_MaximumClassificationObserved audit)
    (ea_MaximumClassificationAllowed audit) (ea_MaximumClassificationSent audit) (ea_ClassificationPolicyVersion audit).
Definition providerEgressAttempts (provider : option ModelProvider) (audit : option ProviderEgressAudit)
    (result : string) : list ProviderEgressAttempt :=
  match audit with None => [] | Some a => [providerEgressAttempt provider a 1 result] end.

Definition copyProviderEgressAttempts (attempts : list ProviderEgressAttempt) : list ProviderEgressAttempt :=
  take 8 attempts.

(** ** Execution records *)

Definition providerNameForStatus request preflight rca : string :=
  match rca_Reasoning rca with
  | Some reasoning =>
      if trim_space (ro_Provider reasoning) != "" then ro_Provider reasoning
      else if ist_Provider (ir_Status request) != "" then ist_Provider (ir_Status request)
      else match pf_Provider preflight with Some p => om_Name (mpr_Meta p) | None => "" end
  | None =>
      if ist_Provider (ir_Status request) != "" then ist_Provider (ir_Status request)
      else match pf_Provider preflight with Some p => om_Name (mpr_Meta p) | None => "" end
  end.

(** [d.Seconds()] of a non-negative duration. *)
Definition duration_seconds (d : duration) : float64 :=
  float_add (float_of_int (d / second)) (float_div (float_of_int (d mod second)) (float_of_int 1000000000)).
Definition investigationDurationSeconds request (now : time) : Z :=
  match ist_StartedAt (ir_Status request) with
  | None => 0
  | Some startedAt => let d := time_sub now startedAt in if d <? 0 then 0 else int_of_float (duration_seconds d)
  end.

Definition providerRequestIDFromRCA rca : string :=
  match rca_Reasoning rca with None => "" | Some reasoning => trim_space (ro_ProviderRequestID reasoning) end.
Definition reasoningInputTokens rca : Z :=
  match rca_Reasoning rca with None => 0 | Some reasoning => ro_InputTokens reasoning end.
Definition reasoningOutputTokens rca : Z :=
  match rca_Reasoning rca with None => 0 | Some reasoning => ro_OutputTokens reasoning end.

(** The provider result with the classification of what a hosted provider was sent. *)
Definition classifiedProviderResult preflight evidence rca : option RCAProviderResult :=
  match providerResultFromReasoning rca, pf_Provider preflight with
  | Some result, Some p =>
      if isHostedProviderType (mps_Provider (mpr_Spec p)) then
        Some (result <| prs_Classification :=
                Some (BundleClassification (egressEvidenceRefsForAudit (ec_EvidenceRefs evidence) (policyOf p))) |>)
      else Some result
  | result, _ => result
  end.

Definition buildRCAExecution request preflight evidence rca (executionID state : string) (now : time) : RCAExecution :=
  let egressAudit := match rca_PrimaryEgress rca with
                     | Some a => Some a | None => providerEgressAudit (pf_Provider preflight) evidence end in
  let egressAttempts := match rca_EgressAttempts rca with
                        | [] => providerEgressAttempts (pf_Provider preflight) egressAudit "Allowed"
                        | attempts => copyProviderEgressAttempts attempts
                        end in
  mkRCAExecution executionID state (providerNameForStatus request preflight rca) (providerRef (pf_Provider preflight))
    (providerGeneration (pf_Provider preflight)) (providerType (pf_Provider preflight))
    (providerModel (pf_Provider preflight)) rcaSchemaVersion rcaCanonicalizationVersion reasoningPolicyVersion ""
    egressAudit egressAttempts controllerVersion 1
    [mkRCAExecutionAttempt defaultExecutionAttemptID (providerRequestIDFromRCA rca)
       (executionIdempotencyKey request preflight evidence defaultExecutionAttemptID) "" executionAttemptCompleted
       (ist_StartedAt (ir_Status request)) (Some now)]
    (investigationDurationSeconds request now) (reasoningInputTokens rca) (reasoningOutputTokens rca)
    (classifiedProviderResult preflight evidence rca).

Definition buildRejectedRCAExecution request preflight (audit : option ProviderEgressAudit)
    (attempts : list ProviderEgressAttempt) (executionID : string) (now : time) : RCAExecution :=
  let egressAttempts := match attempts with
                        | [] => providerEgressAttempts (pf_Provider preflight) audit "Rejected"
                        | _ => copyProviderEgressAttempts attempts
                        end in
  mkRCAExecution executionID "ProviderDataPolicyRejected" (providerNameForStatus request preflight emptyRCA)
    (providerRef (pf_Provider preflight)) (providerGeneration (pf_Provider preflight))
    (providerType (pf_Provider preflight)) (providerModel (pf_Provider preflight)) rcaSchemaVersion
    rcaCanonicalizationVersion reasoningPolicyVersion "" audit egressAttempts controllerVersion 0 []
    (investigationDurationSeconds request now) 0 0 None.
End Execution.
