(* ===== verification/InvestigationVerdict.v ===== *)
(** * What a verdict says

    The theorems about the verdict of InvestigationRCA: claim identifiers are
    distinct, so that every claim gets its own verification; an investigation is
    Confirmed exactly when its causal claims are borne out by the evidence; the
    stored provider result gives the same verdict as the answer it was made
    from. *)

From Stdlib Require Import ZArith Lia.
From stdpp Require Import base list strings gmap pretty.
From S2P Require Import Prelude GoStrings Utf8 GoParse Float64 Api InvestigationApi Digest DataClassification Scope Observation Egress Gateway Verifier InvestigationGate InvestigationRCA InvestigationExecution.

(** ** Decimal identifiers *)

Lemma digits_from_char acc d s :
  (d < 10)%N ->
  digits_from acc (String (pretty_N_char d) s) = digits_from (10 * acc + Z.of_N d) s.
Proof.
  intros Hd. destruct d as [|p]; [done|].
  do 4 (destruct p as [p|p|]; try done; try lia).
Qed.

Lemma digits_from_pretty_go x : forall acc s,
  exists k, 0 < k /\ digits_from acc (pretty_N_go x s) = digits_from (acc * k + Z.of_N x) s.
Proof.
  induction (N.lt_wf_0 x) as [x _ IH]. intros acc s.
  destruct (decide (x = 0)%N) as [->|Hx].
  { exists 1. rewrite pretty_N_go_0. split; [lia|]. f_equal. lia. }
  rewrite pretty_N_go_step by lia.
  destruct (IH (x / 10)%N ltac:(apply N.div_lt; lia) acc (String (pretty_N_char (x mod 10)) s)) as (k & Hk & ->).
  exists (k * 10). split; [lia|]. rewrite digits_from_char by (apply N.mod_lt; lia). f_equal.
  pose proof (N.div_mod x 10 ltac:(lia)) as Hdiv.
  apply (f_equal Z.of_N) in Hdiv. rewrite N2Z.inj_add, N2Z.inj_mul in Hdiv. lia.
Qed.

Lemma digits_from_itoa n : 0 <= n -> digits_from 0 (itoa n) = Some n.
Proof.
  intros Hn. unfold itoa. destruct n as [|p|p]; [done| |lia].
  change (pretty (Zpos p)) with (pretty_N_go (Npos p) "").
  destruct (digits_from_pretty_go (Npos p) 0 "") as (k & _ & ->). done.
Qed.

Lemma digits_from_zero s : digits_from 0 ("0" +:+ s) = digits_from 0 s.
Proof. reflexivity. Qed.

Lemma digits_zeroPad3 n : 0 <= n -> digits_from 0 (zeroPad3 n) = Some n.
Proof.
  intros Hn. unfold zeroPad3. change ("00" +:+ itoa n) with ("0" +:+ ("0" +:+ itoa n)).
  destruct (n <? 10); [|destruct (n <? 100)]; rewrite ?digits_from_zero; by apply digits_from_itoa.
Qed.

Lemma claimID_inj n m : 0 <= n -> 0 <= m -> claimID n = claimID m -> n = m.
Proof.
  unfold claimID. intros Hn Hm Heq. apply append_inj_l in Heq.
  assert (Some n = Some m) as [= ->]; [|done].
  by rewrite <- (digits_zeroPad3 n Hn), <- (digits_zeroPad3 m Hm), Heq.
Qed.

(** The identifier of the scheduling mechanism is no number. *)
Lemma claimID_not_mechanism n : 0 <= n -> claimID n <> "claim-scheduling-mechanism".
Proof.
  unfold claimID. intros Hn Heq.
  change "claim-scheduling-mechanism" with ("claim-" +:+ "scheduling-mechanism") in Heq.
  apply append_inj_l in Heq. assert (H := digits_zeroPad3 n Hn). rewrite Heq in H. discriminate.
Qed.

(** ** The identifiers of the proposed claims *)

Section Verdict.
Context {U : UnicodeTables}.
Implicit Type evidence : EvidenceCollectionResult.
Implicit Type claims : list RCAClaim.

(** The numbered claims carry the identifiers [claim-001], [claim-002], ... *)
Definition numbered claims : Prop := map rc_ID claims = map (fun i => claimID (Z.of_nat i)) (seq 1 (length claims)).

Lemma numbered_snoc claims statement :
  numbered claims -> numbered (claims ++ [newClaim (nextClaimID claims) statement]).
Proof.
  unfold numbered, nextClaimID. intros H. rewrite !map_app, H, length_app. cbn [length].
  rewrite seq_app, map_app. f_equal. cbn [map seq rc_ID newClaim]. do 2 f_equal. lia.
Qed.

Lemma summaryClaims_numbered r : numbered (summaryClaims r).
Proof. unfold summaryClaims. by destruct (_ != _). Qed.

Lemma addCause_numbered causes claims : numbered claims -> numbered (fold_left addCause causes claims).
Proof.
  revert claims. induction causes as [|c causes IH]; intros claims H; [done|]. cbn [fold_left]. apply IH.
  unfold addCause. destruct (_ == _); [done|]. by apply numbered_snoc.
Qed.

Lemma numbered_nodup claims : numbered claims -> NoDup (map rc_ID claims).
Proof.
  intros ->. apply NoDup_fmap_2_strong; [|apply NoDup_ListNoDup, seq_NoDup].
  intros i j _ _ H%claimID_inj; lia.
Qed.

Lemma numbered_no_mechanism claims : numbered claims -> "claim-scheduling-mechanism" ∉ map rc_ID claims.
Proof.
  intros -> (i & Hi & _)%list_elem_of_fmap. symmetry in Hi. by apply claimID_not_mechanism in Hi; [|lia].
Qed.

Lemma nodup_snoc {A} (l : list A) x : NoDup l -> x ∉ l -> NoDup (l ++ [x]).
Proof.
  intros Hl Hx. apply NoDup_app. split; [done|]. split; [|apply NoDup_singleton].
  intros y Hy Hy'. apply list_elem_of_singleton in Hy'. by subst.
Qed.

Lemma profile_blank profile : trim_space profile = "" -> profile_key profile = "".
Proof. intros H. unfold profile_key. by rewrite H. Qed.

Lemma proposed_nodup r evidence profile : NoDup (map rc_ID (proposedClaims r evidence profile)).
Proof.
  unfold proposedClaims. set (base := fold_left addCause _ _).
  assert (Hb : numbered base) by apply addCause_numbered, summaryClaims_numbered.
  unfold addMechanismClaim. destruct (trim_space profile == "") eqn:Hp.
  - apply String.eqb_eq in Hp. assert (Hk := profile_blank _ Hp).
    unfold addProfileClaim, profileBackedRCAClaim. rewrite Hk. cbn.
    destruct (schedulingMechanismRCAClaim evidence); [|by apply numbered_nodup].
    rewrite map_app. apply nodup_snoc; [by apply numbered_nodup|by apply numbered_no_mechanism].
  - unfold addProfileClaim. destruct (profileBackedRCAClaim profile evidence) as [st|]; [|by apply numbered_nodup].
    destruct (has_prefix st _).
    + rewrite map_app. apply nodup_snoc; [by apply numbered_nodup|by apply numbered_no_mechanism].
    + by apply numbered_nodup, numbered_snoc.
Qed.

(** ** Every claim gets its own verification *)

Definition refs_of evidence : list VerifierRef := verifierEvidenceRefs (ec_EvidenceRefs evidence).

Lemma resultsByID_notin l acc id :
  id ∉ map cr_ID l -> fold_left (fun byID r => <[cr_ID r := r]> byID) l acc !! id = (acc : gmap string ClaimResult) !! id.
Proof.
  revert acc. induction l as [|r l IH]; intros acc Hid; [done|]. cbn [fold_left map] in *.
  rewrite not_elem_of_cons in Hid. destruct Hid as [Hne Hl]. rewrite IH by done. by apply lookup_insert_ne.
Qed.

Lemma resultsByID_lookup l acc r :
  NoDup (map cr_ID l) -> r ∈ l -> fold_left (fun byID r => <[cr_ID r := r]> byID) l (acc : gmap string ClaimResult) !! cr_ID r = Some r.
Proof.
  revert acc. induction l as [|r' l IH]; intros acc Hnd Hr; [by apply elem_of_nil in Hr|].
  cbn [fold_left map] in *. apply NoDup_cons in Hnd as [Hnot Hnd]. apply elem_of_cons in Hr as [->|Hr].
  - rewrite resultsByID_notin by done. apply lookup_insert_eq.
  - by apply IH.
Qed.

Lemma cr_ID_verify evs claims :
  map cr_ID (map (verifyClaim evs) (verifierClaims claims)) = map rc_ID claims.
Proof.
  unfold verifierClaims. rewrite !map_map. apply map_ext. intros c. unfold verifyClaim.
  by destruct (nonempty (contradictoryEvidenceIDs _ _)).
Qed.

(** The claim with the verification of its own statement. *)
Definition verified_as (evs : list VerifierRef) (c : RCAClaim) : RCAClaim :=
  let r := verifyClaim evs (mkClaim (rc_ID c) (rc_Statement c)) in
  mkRCAClaim (rc_ID c) (rc_Statement c) (cr_EvidenceRefs r) (verifierEvidenceLinks (cr_EvidenceLinks r)) (cr_Verification r).

Lemma applyClaimVerification_spec evs claims :
  NoDup (map rc_ID claims) ->
  applyClaimVerification claims (VerifyClaims (verifierClaims claims) evs) = map (verified_as evs) claims.
Proof.
  intros Hnd. unfold applyClaimVerification. cbn [vr_Claims VerifyClaims]. apply map_ext_in. intros c Hc.
  apply list_elem_of_In in Hc. unfold verifiedClaim, resultsByID.
  set (r := verifyClaim evs (mkClaim (rc_ID c) (rc_Statement c))).
  assert (Hid : cr_ID r = rc_ID c) by (unfold r, verifyClaim; by destruct (nonempty (contradictoryEvidenceIDs _ _))).
  rewrite <- Hid at 1. rewrite (resultsByID_lookup _ ∅ r); [done| |].
  - by rewrite cr_ID_verify.
  - apply list_elem_of_fmap. exists (mkClaim (rc_ID c) (rc_Statement c)). split; [done|].
    apply list_elem_of_fmap. by exists c.
Qed.

Lemma verified_supported evs c :
  claimSupported (verified_as evs c) = true <-> borne_out (rc_Statement c) evs /\ ~ contradicted (rc_Statement c) evs.
Proof.
  unfold claimSupported, verified_as. cbn [rc_Verification]. rewrite verifyClaim_verification. cbn [cl_Statement].
  rewrite <- claimMatches_nonempty, <- contradictory_nonempty.
  destruct (nonempty (contradictoryEvidenceIDs (rc_Statement c) evs)),
    (nonempty (claimMatches (rc_Statement c) evs)), (nonempty evs); cbn; naive_solver.
Qed.

Lemma verified_contradicted evs c :
  claimContradicted (verified_as evs c) = true <-> contradicted (rc_Statement c) evs.
Proof.
  unfold claimContradicted, verified_as. cbn [rc_Verification]. rewrite verifyClaim_verification. cbn [cl_Statement].
  rewrite <- contradictory_nonempty.
  destruct (nonempty (contradictoryEvidenceIDs (rc_Statement c) evs)),
    (nonempty (claimMatches (rc_Statement c) evs)), (nonempty evs); cbn; naive_solver.
Qed.

(** Which claims are causal depends on their texts alone. *)
Lemma rootCause_verified evs r claims :
  rootCauseClaims r (map (verified_as evs) claims) = map (verified_as evs) (rootCauseClaims r claims).
Proof.
  unfold rootCauseClaims. rewrite <- fmap_drop. set (l := drop _ claims). clearbody l.
  induction l as [|c l IH]; [done|]. cbn [map List.filter fmap list_fmap].
  change (isSchedulingMechanismClaim (verified_as evs c)) with (isSchedulingMechanismClaim c).
  destruct (isSchedulingMechanismClaim c); cbn [negb]; [exact IH|]. cbn [map]. f_equal. exact IH.
Qed.

Lemma count_zero {A} (p : A -> bool) l : Z.of_nat (length (List.filter p l)) = 0 <-> forall x, x ∈ l -> p x = false.
Proof.
  split.
  - intros H x Hx. destruct (p x) eqn:Hp; [|done].
    assert (x ∈ List.filter p l) by (apply list_filter_elem; done).
    destruct (List.filter p l); [by apply elem_of_nil in H0|simpl in H; lia].
  - intros H. by rewrite filter_none.
Qed.

Lemma outcome_of r evidence claims conf profile :
  ev_Outcome (evaluateCanonicalVerdict r evidence claims conf profile) =
  if (Z.of_nat (length (rootCauseClaims r claims)) =? 0)
     || (Z.of_nat (length (List.filter claimSupported (rootCauseClaims r claims))) =? 0)
     || (0 <? Z.of_nat (length (List.filter claimContradicted (rootCauseClaims r claims))))
  then InvestigationOutcomeInconclusive else InvestigationOutcomeConfirmed.
Proof. unfold evaluateCanonicalVerdict, countVerifiedRootCauseClaims. by destruct (_ || _). Qed.

Lemma outcome_confirmed (a b c : bool) :
  (a = true -> b = true) ->
  (if a || b || c then InvestigationOutcomeInconclusive else InvestigationOutcomeConfirmed)
    = InvestigationOutcomeConfirmed <-> b = false /\ c = false.
Proof. intros H. destruct a, b, c; cbn; split; try done; try (by intros []). by specialize (H eq_refl). Qed.

(** What the evidence says about a list of causal claims. *)
Definition some_borne_out evidence claims : Prop :=
  exists c, c ∈ claims /\ borne_out (rc_Statement c) (refs_of evidence) /\
            ~ contradicted (rc_Statement c) (refs_of evidence).
Definition none_contradicted evidence claims : Prop :=
  forall c, c ∈ claims -> ~ contradicted (rc_Statement c) (refs_of evidence).

Lemma none_contradicted_count evidence claims :
  (0 <? Z.of_nat (length (List.filter claimContradicted (map (verified_as (refs_of evidence)) claims)))) = false
    <-> none_contradicted evidence claims.
Proof.
  set (vs := map _ claims). rewrite Z.ltb_ge.
  transitivity (Z.of_nat (length (List.filter claimContradicted vs)) = 0); [lia|].
  rewrite count_zero. unfold vs. split.
  - intros H c Hc Hx. apply verified_contradicted in Hx. rewrite H in Hx; [done|].
    apply list_elem_of_fmap. eauto.
  - intros H v (c & -> & Hc)%list_elem_of_fmap. apply not_true_iff_false. intros Hx%verified_contradicted.
    by apply (H c).
Qed.

Lemma some_borne_out_count evidence claims :
  (Z.of_nat (length (List.filter claimSupported (map (verified_as (refs_of evidence)) claims))) =? 0) = false
    <-> some_borne_out evidence claims.
Proof.
  set (vs := map _ claims). rewrite Z.eqb_neq. split.
  - intros H. destruct (List.filter claimSupported vs) as [|v l] eqn:Hl; [done|].
    assert (Hv : v ∈ List.filter claimSupported vs) by (rewrite Hl; apply list_elem_of_here).
    apply list_filter_elem in Hv as [(c & -> & Hc)%list_elem_of_fmap Hs%verified_supported]. by exists c.
  - intros (c & Hc & Hs) H. apply (proj2 (verified_supported _ c)) in Hs.
    rewrite (proj1 (count_zero _ _) H) in Hs; [done|]. apply list_elem_of_fmap. eauto.
Qed.

Lemma confirmed_iff r evidence profile conf :
  let claims := (buildRCAClaims r evidence profile).1 in
  let causal := rootCauseClaims r (proposedClaims r evidence profile) in
  ev_Outcome (evaluateCanonicalVerdict r evidence claims conf profile) = InvestigationOutcomeConfirmed <->
    some_borne_out evidence causal /\ none_contradicted evidence causal.
Proof.
  cbv zeta. rewrite outcome_of. cbn [fst buildRCAClaims].
  rewrite applyClaimVerification_spec by apply proposed_nodup. rewrite rootCause_verified.
  fold (refs_of evidence). rewrite length_map, <- none_contradicted_count, <- some_borne_out_count.
  apply outcome_confirmed. intros He%Z.eqb_eq. by destruct (rootCauseClaims _ _).
Qed.

Lemma outcome_cases r evidence claims conf profile :
  ev_Outcome (evaluateCanonicalVerdict r evidence claims conf profile) ∈
    [InvestigationOutcomeConfirmed; InvestigationOutcomeInconclusive].
Proof. rewrite outcome_of. destruct (_ || _); [right; left | left]. Qed.

(** C10: an investigation is Confirmed exactly when some causal claim - a cause
    the provider proposed or the claim the profile adds, the risk summary and
    the scheduling mechanism excepted - is borne out by the collected evidence
    and not contradicted by it, and no causal claim is contradicted.  Otherwise
    it is Inconclusive with confidence zero.  The confidence of a Confirmed one
    never exceeds the provider's. *)
Theorem confirmed_iff_borne_out (r : ReasoningOutput) (evidence : EvidenceCollectionResult) (conf : float64)
    (profile : string) :
  let claims := (buildRCAClaims r evidence profile).1 in
  let causal := rootCauseClaims r (proposedClaims r evidence profile) in
  let ev := evaluateCanonicalVerdict r evidence claims conf profile in
  (ev_Outcome ev = InvestigationOutcomeConfirmed <->
     (exists c, c ∈ causal /\ borne_out (rc_Statement c) (refs_of evidence) /\
                ~ contradicted (rc_Statement c) (refs_of evidence)) /\
     (forall c, c ∈ causal -> ~ contradicted (rc_Statement c) (refs_of evidence))) /\
  (ev_Outcome ev <> InvestigationOutcomeConfirmed ->
     ev_Outcome ev = InvestigationOutcomeInconclusive /\ ev_Confidence ev = float_zero /\ ev_RootCauseEntity ev = None) /\
  (ev_Outcome ev = InvestigationOutcomeConfirmed -> float_gtb (ev_Confidence ev) conf = false).
Proof.
  cbv zeta. split; [apply confirmed_iff|].
  unfold evaluateCanonicalVerdict. destruct (countVerifiedRootCauseClaims _) as [sup con].
  destruct (_ || _); split; try done. intros _. apply float_cap_le.
Qed.
End Verdict.

(** ** The stored provider result *)

Section Stored.
Context {U : UnicodeTables} {D : DigestPrims}.

(** The reasoning that a stored result gives back: the severity of the
    confidence becomes that of the reasoning, the request identifier is trimmed,
    and the token counts are gone. *)
Definition restored (r : ReasoningOutput) : ReasoningOutput :=
  mkReasoningOutput (ro_RiskTitle r) (ro_RiskSummary r) (ro_Severity r)
    (mkConfidence (cf_Score (ro_Confidence r)) (ro_Severity r) (cf_Rationale (ro_Confidence r))
       (cf_EvidenceCoverage (ro_Confidence r)))
    (ro_RCA r) (ro_Remediation r) (ro_RunbookRefs r) (ro_ServiceDocs r) (ro_Provider r)
    (trim_space (ro_ProviderRequestID r)) 0 0.

Lemma restore_reasoning (rca : RCA) r :
  rca_Reasoning rca = Some r ->
  exists stored, providerResultFromReasoning rca = Some stored /\ reasoningFromProviderResult stored = Some (restored r).
Proof.
  intros Hr. unfold providerResultFromReasoning. rewrite Hr. eexists. split; [done|].
  unfold reasoningFromProviderResult, restored. cbn -[trim_space]. rewrite trim_space_idem.
  by destruct r as [? ? ? [? ? ? ?] [? ? ?] [? ? ? ?] ? ? ? ? ? ?].
Qed.

(** C30: what is stored of a provider's answer reads back as the answer, up to
    the fields named by [restored]; storing what was read back gives the same
    stored result, digest included, so any number of restarts agree. *)
Theorem provider_result_roundtrip (rca : RCA) (r : ReasoningOutput) :
  rca_Reasoning rca = Some r ->
  exists stored,
    providerResultFromReasoning rca = Some stored /\
    reasoningFromProviderResult stored = Some (restored r) /\
    providerResultFromReasoning (mkRCAResult (reasoningFromProviderResult stored) None [] None) = Some stored /\
    restored (restored r) = restored r.
Proof.
  intros Hr. destruct (restore_reasoning rca r Hr) as (stored & Hs & Hb). exists stored.
  split; [done|]. split; [done|]. rewrite Hb. split.
  - rewrite <- Hs. unfold providerResultFromReasoning. rewrite Hr. cbn -[trim_space]. by rewrite trim_space_idem.
  - unfold restored. cbn -[trim_space]. by rewrite trim_space_idem.
Qed.

Lemma proposed_restored r evidence profile : proposedClaims (restored r) evidence profile = proposedClaims r evidence profile.
Proof. reflexivity. Qed.

Lemma build_restored r evidence profile : buildRCAClaims (restored r) evidence profile = buildRCAClaims r evidence profile.
Proof. reflexivity. Qed.

Lemma evaluate_restored r evidence claims conf profile :
  evaluateCanonicalVerdict (restored r) evidence claims conf profile = evaluateCanonicalVerdict r evidence claims conf profile.
Proof. reflexivity. Qed.

(** ** The synthesised egress audit *)

Lemma filter_agree (l : list string) : List.filter (fun k => k != "") l = filter (fun k => k <> "") l.
Proof.
  induction l as [|x l IH]; [done|]. rewrite filter_cons. cbn [List.filter]. destruct (x == "") eqn:Hx; cbn [negb].
  - apply String.eqb_eq in Hx. rewrite decide_False by naive_solver. exact IH.
  - apply String.eqb_neq in Hx. rewrite decide_True by done. by rewrite IH.
Qed.

Lemma egressRefs_agree refs policy : egressEvidenceRefsForAudit refs policy = filterEvidenceRefsForProviderPolicy refs policy.
Proof.
  unfold egressEvidenceRefsForAudit, filterEvidenceRefsForProviderPolicy. apply list_omap_ext.
  apply Forall2_same_length_lookup_2; [done|]. intros i x y Hx Hy. simplify_eq. unfold egressRef, filterRef.
  change (egressEvidenceKindAllowed (er_Kind x) (mp_AllowedEvidenceKinds policy))
    with (evidenceKindAllowed (er_Kind x) (mp_AllowedEvidenceKinds policy)).
  destruct (evidenceKindAllowed _ _); [|done]. by destruct (equal_fold _ _ && _).
Qed.

(** The audit of the data policy where evidence leaves for a hosted provider. *)
Definition boundary_audit (p : ModelProvider) evidence : option ProviderEgressAudit :=
  let refs := filterEvidenceRefsForProviderPolicy (ec_EvidenceRefs evidence) (policyOf p) in
  if isHostedProvider (mps_Provider (mpr_Spec p))
  then Some (providerDataPolicyAudit p refs (EvaluateProviderPolicy (policyOf p) refs) (policyOf p)) else None.

(** The audit the controller synthesises for a hosted provider is the one
    the data policy computes where evidence leaves: the same references are
    kept and redacted, and decision, digest, kinds, tags and classifications
    are those of the policy's own audit; other providers have none. *)
Theorem controller_audit_agrees (p : ModelProvider) (evidence : EvidenceCollectionResult) :
  providerEgressAudit None evidence = None /\
  egressEvidenceRefsForAudit (ec_EvidenceRefs evidence) (policyOf p)
    = filterEvidenceRefsForProviderPolicy (ec_EvidenceRefs evidence) (policyOf p) /\
  providerEgressAudit (Some p) evidence = boundary_audit p evidence.
Proof.
  split; [done|]. split; [apply egressRefs_agree|]. unfold providerEgressAudit, boundary_audit. cbv zeta.
  change (isHostedProviderType (mps_Provider (mpr_Spec p))) with (isHostedProvider (mps_Provider (mpr_Spec p))).
  destruct (isHostedProvider _); cbn [negb]; [|done]. rewrite egressRefs_agree.
  unfold providerDataPolicyAudit, evidenceKindsForAudit, evidenceKinds, sorted_set, logSamplesIncluded,
    logSamplesIncludedForAudit, evidenceBundleDigest. rewrite filter_agree.
  by destruct (mp_AllowLogSamples (policyOf p)).
Qed.
End Stored.

Section Witness.
#[local] Existing Instance plain_tables.
#[local] Existing Instance plain_digest.

Definition sample_reasoning : ReasoningOutput :=
  mkReasoningOutput "t" "s" "high" (mkConfidence 80 "medium" "r" "c") (mkRCASummary "h" ["c1"] ["e1"])
    (mkRemediation "a" "d" {["k" := "v"]} ["b"]) ["rb"] ["sd"] "openai" " req-1 " 100 20.

Lemma provider_result_roundtrip_witness :
  let rca := mkRCAResult (Some sample_reasoning) None [] None in
  exists stored, providerResultFromReasoning rca = Some stored /\
    reasoningFromProviderResult stored = Some (restored sample_reasoning) /\
    ro_ProviderRequestID (restored sample_reasoning) = "req-1".
Proof.
  cbv zeta. destruct (provider_result_roundtrip (mkRCAResult (Some sample_reasoning) None [] None) sample_reasoning eq_refl)
    as (stored & Hs & Hb & _).
  exists stored. split; [exact Hs|]. split; [exact Hb|]. vm_compute. reflexivity.
Defined.
End Witness.
