(* ===== verification/InvestigationStatus.v ===== *)
(** * The status of an investigation

    The functions of internal/controllers/investigationrequest_controller.go
    that write the status of a request: outcome, verdict, failure, degradation
    and the conditions.  Metrics are not modelled. *)

From Stdlib Require Import ZArith Lia.
From stdpp Require Import base list strings gmap.
From S2P Require Import Prelude GoStrings Utf8 Float64 Api InvestigationApi Digest DataClassification Scope Observation Egress Gateway Verifier InvestigationGate InvestigationRCA InvestigationExecution StatusBudget.

(** [meta.SetStatusCondition] and [meta.RemoveStatusCondition] of apimachinery. *)
Class StatusConditions := {
  SetStatusCondition : list Condition -> Condition -> list Condition;
  RemoveStatusCondition : list Condition -> string -> list Condition
}.

(** Documented behaviour: the condition of the type is the one set, up to the
    transition time; the conditions of the other types are kept. *)
Definition find_condition (conditions : list Condition) (type : string) : option Condition :=
  List.find (fun c => cond_Type c == type) conditions.
Definition same_condition (a b : Condition) : Prop :=
  cond_Type a = cond_Type b /\ cond_Status a = cond_Status b /\ cond_Reason a = cond_Reason b /\
  cond_Message a = cond_Message b /\ cond_ObservedGeneration a = cond_ObservedGeneration b.
Class ConditionLaws (SC : StatusConditions) : Prop := {
  set_condition_same l c :
    exists c', find_condition (SetStatusCondition l c) (cond_Type c) = Some c' /\ same_condition c' c;
  set_condition_other l c type :
    type <> cond_Type c -> find_condition (SetStatusCondition l c) type = find_condition l type
}.

(** The list operations as apimachinery writes them, for examples: a condition
    of the type is overwritten in place, keeping its transition time unless the
    status changes; otherwise the condition is appended. *)
Definition overwrite_condition (old new : Condition) : Condition :=
  new <| cond_LastTransitionTime := if cond_Status old == cond_Status new then cond_LastTransitionTime old
                                    else cond_LastTransitionTime new |>.
Fixpoint set_condition (l : list Condition) (c : Condition) : list Condition :=
  match l with
  | [] => [c]
  | old :: rest => if cond_Type old == cond_Type c then overwrite_condition old c :: rest else old :: set_condition rest c
  end.
Definition plain_conditions : StatusConditions := {|
  SetStatusCondition := set_condition;
  RemoveStatusCondition l type := List.filter (fun c => cond_Type c != type) l
|}.

Lemma set_condition_found l c :
  exists c', find_condition (set_condition l c) (cond_Type c) = Some c' /\ same_condition c' c.
Proof.
  unfold find_condition. induction l as [|o l IH]; cbn -[String.eqb].
  - rewrite String.eqb_refl. by exists c.
  - destruct (cond_Type o == cond_Type c) eqn:Ho; cbn -[String.eqb overwrite_condition].
    + destruct o, c. cbn -[String.eqb]. unfold constant. rewrite String.eqb_refl. by eexists.
    + rewrite Ho. exact IH.
Qed.

Lemma set_condition_kept l c type :
  type <> cond_Type c -> find_condition (set_condition l c) type = find_condition l type.
Proof.
  intros Hne. assert (Hc : (cond_Type c == type) = false) by (apply String.eqb_neq; congruence).
  unfold find_condition. induction l as [|o l IH]; cbn -[String.eqb]; [by rewrite Hc|].
  destruct (cond_Type o == cond_Type c) eqn:Ho; cbn -[String.eqb]; [|by rewrite IH].
  apply String.eqb_eq in Ho. rewrite Ho, Hc. destruct o, c. cbn -[String.eqb] in *. unfold constant. by rewrite Hc.
Qed.

#[export] Instance plain_conditions_laws : ConditionLaws plain_conditions.
Proof. split; [exact set_condition_found|exact set_condition_kept]. Qed.

Definition conditionReady : string := "Ready".
Definition conditionDegraded : string := "Degraded".
Definition conditionTargetResolved : string := "TargetResolved".
Definition conditionDatasourceResolved : string := "DatasourceResolved".
Definition conditionQueryTypeSupported : string := "QueryTypeSupported".
Definition conditionQueryPolicyReady : string := "QueryPolicyReady".
Definition conditionEvidenceReady : string := "EvidenceCollectionReady".
Definition conditionRCAReady : string := "RCAReady".
Definition conditionRemediationReady : string := "RemediationReady".
Definition conditionVerified : string := "Verified".

Definition investigationStageDataSourceResolution : string := "DataSourceResolution".
Definition investigationStageQueryValidation : string := "QueryValidation".
Definition investigationStageProviderResolution : string := "ProviderResolution".
Definition investigationStageProviderEgressPolicy : string := "ProviderEgressPolicy".

(** ** Classification of failure reasons *)

Definition datasourceFailures : list string :=
  ["DatasourceQueryFailed"; "DatasourceAuthFailed"; "DatasourceRateLimited"; "DatasourceUnavailable";
   "DatasourceRequestInvalid"; "InvalidDatasourceResponse"].
Definition providerFailures : list string :=
  ["GatewayUnavailable"; "ProviderUnavailable"; "ProviderUnsupported"; "ProviderAuthFailed"; "ProviderRateLimited";
   "ProviderRequestInvalid"; "ProviderFallbackLoop"; "SecretReaderUnavailable"; "SecretReadFailed"; "SecretRefMissing";
   "SecretNotFound"; "SecretKeyMissing"; "SecretValueEmpty"; "APIKeyMissing"; "InvalidProviderResponse"].

Definition shouldMarkInvestigationDegraded (reason : string) : bool :=
  mem_str reason (datasourceFailures ++ ["ResolverUnavailable"] ++ providerFailures).

Definition investigationFailureStage (reason : string) : string :=
  if mem_str reason ["TargetNotFound"; "UnsupportedTargetKind"; "ResolverUnavailable"] then InvestigationStageTargetResolution
  else if mem_str reason ["DataSourceNotSpecified"; "DatasourceRegistryUnavailable"; "DataSourceNotFound"] then
    investigationStageDataSourceResolution
  else if mem_str reason ["CapabilityMismatch"; "QueryPolicyRejected"; "QueryTemplateInvalid"] then
    investigationStageQueryValidation
  else if mem_str reason datasourceFailures then InvestigationStageEvidenceCollection
  else if reason == "ProviderNotFound" then investigationStageProviderResolution
  else if mem_str reason ["ProviderDataPolicyDenied"; "ProviderDataPolicyRejected"] then
    investigationStageProviderEgressPolicy
  else InvestigationStageReasoning.

Definition investigationFailureRetryable (reason : string) : bool :=
  mem_str reason ["ResolverUnavailable"; "DatasourceRegistryUnavailable"; "DatasourceQueryFailed"; "DatasourceRateLimited";
                  "DatasourceUnavailable"; "GatewayUnavailable"; "ProviderUnavailable"; "ProviderRateLimited";
                  "SecretReaderUnavailable"; "SecretReadFailed"].

Definition validationFailureIsTargetResolution (reason : string) : bool :=
  mem_str reason ["TargetInvalid"; "UnsupportedTargetKind"].

Section Status.
Context {U : UnicodeTables} {D : DigestPrims} {SC : StatusConditions}.
Context (controllerVersion : string).
Implicit Type request : InvestigationRequest.
Implicit Type evidence : EvidenceCollectionResult.
Implicit Type preflight : PreflightResult.
Implicit Type rca : RCA.
Implicit Type now : time.

(** ** Assignments to the status *)

Definition on_status (f : InvestigationRequestStatus -> InvestigationRequestStatus) request : InvestigationRequest :=
  request <| ir_Status := f (ir_Status request) |>.

Definition generation request : Z := om_Generation (ir_Meta request).

Definition setInvestigationRequestStatus (phase message : string) now request : InvestigationRequest :=
  on_status (fun s => s <| ist_ResourceStatus := mkResourceStatus phase message (generation request) now |>) request.

Definition setStatusCondition (type status reason message : string) now request : InvestigationRequest :=
  on_status (fun s => s <| ist_Conditions :=
    SetStatusCondition (ist_Conditions s) (mkCondition type status reason message (generation request) now) |>) request.

Definition setCompletedAt now request : InvestigationRequest :=
  on_status (fun s => s <| ist_CompletedAt := Some now |>) request.

Definition setInvestigationRemediationBlocked (reason message : string) now : InvestigationRequest -> InvestigationRequest :=
  setStatusCondition conditionRemediationReady ConditionFalse reason message now.
Definition setInvestigationVerificationUnknown (reason message : string) now : InvestigationRequest -> InvestigationRequest :=
  setStatusCondition conditionVerified ConditionUnknown reason message now.

(** [f >>> g]: first [f], then [g]. *)
Definition andThen (f g : InvestigationRequest -> InvestigationRequest) : InvestigationRequest -> InvestigationRequest :=
  fun r => g (f r).
#[local] Notation "f >>> g" := (andThen f g) (at level 60, right associativity).

Definition setInvestigationNotRunnableConditions (reason message : string) now : InvestigationRequest -> InvestigationRequest :=
  setStatusCondition conditionDatasourceResolved ConditionUnknown reason message now >>>
  setStatusCondition conditionQueryTypeSupported ConditionUnknown reason message now >>>
  setStatusCondition conditionQueryPolicyReady ConditionUnknown reason message now >>>
  setStatusCondition conditionEvidenceReady ConditionUnknown reason message now.

(** ** Gate outcomes *)

Definition degradation_of (code stage message : string) : RCADegradation :=
  mkRCADegradation true [] [mkRCADegradationReason code stage None message].

Definition gateVerdict (outcome summary : string) : RCAVerdict :=
  mkRCAVerdict outcome summary zeroTargetRef "" float_zero
    (Some (mkRCAConfidence float_zero float_zero "None" "RequiredEvidenceProfileV1")).

(** The fields both gate outcomes write. *)
Definition gateStatus (outcome message : string) (missing : list RCAMissingEvidence) (degradation : option RCADegradation)
    evidence (gate : evidenceRequirementGate) now (s : InvestigationRequestStatus) : InvestigationRequestStatus :=
  s <| ist_Provider := "" |> <| ist_EvidenceRefs := ec_EvidenceRefs evidence |> <| ist_Summary := message |>
    <| ist_Hypothesis := "" |> <| ist_Confidence := float_zero |> <| ist_Outcome := outcome |> <| ist_Failure := None |>
    <| ist_MissingEvidence := missing |> <| ist_Degradation := degradation |>
    <| ist_Verdict := Some (gateVerdict outcome message) |> <| ist_EvidenceCoverage := gt_Coverage gate |>
    <| ist_Claims := [] |> <| ist_AlternativeHypotheses := [] |> <| ist_Execution := None |>
    <| ist_CompletedAt := Some now |>.

Definition setGatePreconditions now : InvestigationRequest -> InvestigationRequest :=
  setStatusCondition conditionTargetResolved ConditionTrue "TargetResolved" "target resource was resolved successfully" now >>>
  setStatusCondition conditionDatasourceResolved ConditionTrue "AllDatasourcesResolved"
    "all referenced datasources were resolved" now >>>
  setStatusCondition conditionQueryTypeSupported ConditionTrue "AllQueryTypesSupported"
    "all investigation query types were supported" now >>>
  setStatusCondition conditionQueryPolicyReady ConditionTrue "AllQueriesAllowed"
    "all investigation queries were allowed by datasource policy" now.

Definition applyEvidenceRequirementInconclusiveStatus evidence (gate : evidenceRequirementGate) now
    : InvestigationRequest -> InvestigationRequest :=
  let message := gt_Message gate in
  on_status (gateStatus InvestigationOutcomeInconclusive message (gt_Missing gate)
    (Some (degradation_of "RequiredEvidenceMissing" InvestigationStageEvidenceCollection message)) evidence gate now) >>>
  setInvestigationRequestStatus PhaseCompleted message now >>>
  setGatePreconditions now >>>
  setStatusCondition conditionEvidenceReady ConditionFalse "RequiredEvidenceMissing" message now >>>
  setStatusCondition conditionRCAReady ConditionFalse "RequiredEvidenceMissing"
    "RCA is inconclusive because required evidence is incomplete" now >>>
  setInvestigationRemediationBlocked "RCAUnavailable"
    "remediation is unavailable because required RCA evidence is incomplete" now >>>
  setInvestigationVerificationUnknown "RCAUnavailable"
    "verification was not performed because required RCA evidence is incomplete" now >>>
  setStatusCondition conditionReady ConditionTrue "InvestigationInconclusive" message now >>>
  setStatusCondition conditionDegraded ConditionTrue "RequiredEvidenceMissing" message now.

Definition applyEvidenceRequirementNoIssueFoundStatus evidence (gate : evidenceRequirementGate) now
    : InvestigationRequest -> InvestigationRequest :=
  let message := "required evidence profile " +:+ quote (gt_Profile gate)
                 +:+ " is complete and no matching issue evidence was found" in
  on_status (gateStatus InvestigationOutcomeNoIssueFound message [] None evidence gate now) >>>
  setInvestigationRequestStatus PhaseCompleted message now >>>
  setGatePreconditions now >>>
  setStatusCondition conditionEvidenceReady ConditionTrue "RequiredEvidenceComplete" (gt_Message gate) now >>>
  setStatusCondition conditionRCAReady ConditionTrue "NoIssueFound" message now >>>
  setStatusCondition conditionVerified ConditionTrue "NoIssueFindingSupported"
    "required evidence coverage supports the absence of a matching issue" now >>>
  setInvestigationRemediationBlocked "NoIssueFound" "remediation is not available because no issue was found" now >>>
  setStatusCondition conditionReady ConditionTrue "NoIssueFound" message now >>>
  setStatusCondition conditionDegraded ConditionFalse "NoDegradation" "investigation completed without degradation" now.

(** ** Requests that do not run *)

Definition applyLoopPreventedInvestigationStatus (failure : InvestigationFailure) now request : InvestigationRequest :=
  (on_status (fun s => s <| ist_ResourceStatus :=
       mkResourceStatus PhaseFailed (if_Message failure) (rs_ObservedGeneration (ist_ResourceStatus s))
         (rs_UpdatedAt (ist_ResourceStatus s)) |>
     <| ist_Outcome := InvestigationOutcomeUnknown |> <| ist_Failure := Some failure |>
     <| ist_CompletedAt := Some now |>) >>>
   setStatusCondition conditionReady ConditionFalse (if_Code failure) (if_Message failure) now >>>
   setStatusCondition conditionTargetResolved ConditionUnknown "InvestigationNotRunnable"
     "target resolution was not evaluated because loop prevention blocked execution" now >>>
   setInvestigationNotRunnableConditions "InvestigationNotRunnable"
     "investigation request was blocked before target, datasource, query, or evidence execution" now >>>
   setStatusCondition conditionRCAReady ConditionFalse (if_Code failure) (if_Message failure) now >>>
   setInvestigationRemediationBlocked "RCAUnavailable"
     ("remediation is unavailable because RCA execution was blocked: " +:+ if_Code failure) now >>>
   setInvestigationVerificationUnknown "RCAUnavailable"
     "verification was not performed because RCA execution was blocked" now >>>
   setStatusCondition conditionDegraded ConditionFalse "ValidationFailed"
     "request failed validation before evidence collection started" now) request.

Definition applyInvestigationFailure (code message stage : string) : InvestigationRequest -> InvestigationRequest :=
  on_status (fun s =>
    s <| ist_Outcome := InvestigationOutcomeUnknown |>
      <| ist_Failure := Some (mkInvestigationFailure code message stage (investigationFailureRetryable code)) |>
      <| ist_Degradation := if shouldMarkInvestigationDegraded code then Some (degradation_of code stage message)
                            else None |>).

Definition applyInvalidInvestigationStatus (reason message : string) now : InvestigationRequest -> InvestigationRequest :=
  let reason := if trim_space reason == "" then "InvalidSpec" else reason in
  setInvestigationRequestStatus PhaseFailed message now >>>
  applyInvestigationFailure reason message InvestigationStageValidation >>>
  setCompletedAt now >>>
  on_status (fun s => s <| ist_Provider := "" |>) >>>
  setStatusCondition conditionReady ConditionFalse reason message now >>>
  (if validationFailureIsTargetResolution reason then
     setStatusCondition conditionTargetResolved ConditionFalse reason message now
   else setStatusCondition conditionTargetResolved ConditionUnknown "InvestigationNotRunnable"
          "target resolution was not evaluated because request validation failed" now) >>>
  setInvestigationNotRunnableConditions "InvestigationNotRunnable"
    "investigation request did not pass basic validation" now >>>
  setStatusCondition conditionRCAReady ConditionFalse "InvestigationNotRunnable"
    "RCA execution is blocked because request validation failed" now >>>
  setInvestigationRemediationBlocked "RCAUnavailable"
    "remediation is unavailable because the investigation request is not runnable" now >>>
  setInvestigationVerificationUnknown "RCAUnavailable"
    "verification was not performed because the investigation request is not runnable" now >>>
  setStatusCondition conditionDegraded ConditionFalse "ValidationFailed"
    "request failed validation before evidence collection started" now.

(** ** The outcome of an execution *)

Definition scoreFraction (score : Z) : float64 := float_div (float_of_int score) (float_of_int 100).

Definition structuredVerdict (ev : canonicalVerdictEvaluation) preflight (confidence : float64)
    (verification : VerificationResult) : RCAVerdict :=
  mkRCAVerdict (ev_Outcome ev) (ev_Summary ev)
    (match ev_RootCauseEntity ev with
     | Some entity => entity
     | None => rootCauseEntityForInvestigationOutcome (ev_Outcome ev) (pf_Target preflight)
     end)
    (ev_RootCauseType ev) (ev_Confidence ev)
    (Some (mkRCAConfidence confidence (ev_VerifiedScore ev) (confidenceLevel (ev_VerifiedScore ev))
             (vr_Method verification))).

(** The record built last reads the status as the preceding assignments left it. *)
Definition applyStructuredRCAStatus preflight evidence rca (reasoning : ReasoningOutput) now request
    : InvestigationRequest :=
  let profile := irs_EvidenceProfile (ir_Spec request) in
  let confidence := scoreFraction (cf_Score (ro_Confidence reasoning)) in
  let '(claims, verification) := buildRCAClaims reasoning evidence profile in
  let ev := evaluateCanonicalVerdict reasoning evidence claims confidence profile in
  let request := on_status (fun s =>
    s <| ist_Verdict := Some (structuredVerdict ev preflight confidence verification) |>
      <| ist_Summary := ev_Summary ev |> <| ist_Confidence := ev_Confidence ev |> <| ist_Outcome := ev_Outcome ev |>
      <| ist_Claims := claims |>
      <| ist_AlternativeHypotheses :=
           diagnosticAlternativeHypothesesWithoutConfirmedMechanism (ec_Diagnostics evidence) claims |>
      <| ist_MissingEvidence := ev_MissingEvidence ev |>
      <| ist_Degradation := Some (mkRCADegradation false [] []) |>) request in
  let execution := buildRCAExecution controllerVersion request preflight evidence rca
                     (investigationExecutionID request preflight evidence) executionStateFinalized now in
  on_status (fun s => s <| ist_Execution := Some (execution <| rx_VerifierVersion := vr_Method verification |>) |>) request.

Definition setDatasourceConditions preflight evidence now request : InvestigationRequest :=
  match pf_DatasourceIssue preflight with
  | Some issue =>
      (setStatusCondition conditionDatasourceResolved ConditionFalse (iss_Reason issue) (iss_Message issue) now >>>
       setStatusCondition conditionEvidenceReady ConditionFalse (iss_Reason issue) (iss_Message issue) now) request
  | None =>
      (setStatusCondition conditionDatasourceResolved ConditionTrue "AllDatasourcesResolved"
         "all referenced datasources were resolved" now >>>
       match pf_ModelProviderIssue preflight, pf_QueryTypeIssue preflight, ec_Issue evidence with
       | Some _, _, _ => setStatusCondition conditionEvidenceReady ConditionUnknown "ProviderUnavailableBeforeCollection"
                           "evidence collection was not evaluated because provider resolution failed" now
       | None, Some _, _ => setStatusCondition conditionEvidenceReady ConditionUnknown "QueryValidationFailed"
                              "evidence collection was not evaluated because query validation failed" now
       | None, None, Some issue =>
           setStatusCondition conditionEvidenceReady ConditionFalse (iss_Reason issue) (iss_Message issue) now
       | None, None, None =>
           setStatusCondition conditionEvidenceReady ConditionTrue "EvidenceCollected" (ec_Summary evidence) now
       end) request
  end.

Definition setQueryConditions preflight now request : InvestigationRequest :=
  match pf_QueryTypeIssue preflight, pf_DatasourceIssue preflight with
  | Some issue, _ =>
      if iss_Reason issue == "QueryPolicyRejected" then
        (setStatusCondition conditionQueryTypeSupported ConditionTrue "AllQueryTypesSupported"
           "all investigation query types were supported" now >>>
         setStatusCondition conditionQueryPolicyReady ConditionFalse (iss_Reason issue) (iss_Message issue) now) request
      else
        (setStatusCondition conditionQueryTypeSupported ConditionFalse (iss_Reason issue) (iss_Message issue) now >>>
         setStatusCondition conditionQueryPolicyReady ConditionUnknown "QueryTypeUnsupported"
           "query policy was not evaluated because query type validation failed" now) request
  | None, Some _ =>
      (setStatusCondition conditionQueryTypeSupported ConditionUnknown "DataSourceUnavailable"
         "query type capability was not evaluated because datasource resolution failed" now >>>
       setStatusCondition conditionQueryPolicyReady ConditionUnknown "DataSourceUnavailable"
         "query policy was not evaluated because datasource resolution failed" now) request
  | None, None =>
      (setStatusCondition conditionQueryTypeSupported ConditionTrue "AllQueryTypesSupported"
         "all investigation query types were supported" now >>>
       setStatusCondition conditionQueryPolicyReady ConditionTrue "AllQueriesAllowed"
         "all investigation queries were allowed by datasource policy" now) request
  end.

Definition setRCACondition preflight evidence rca now : InvestigationRequest -> InvestigationRequest :=
  match pf_ModelProviderIssue preflight, ec_Issue evidence, rca_Issue rca with
  | Some issue, _, _ => setStatusCondition conditionRCAReady ConditionFalse (iss_Reason issue) (iss_Message issue) now
  | None, Some issue, _ => setStatusCondition conditionRCAReady ConditionFalse (iss_Reason issue)
                             "RCA execution is blocked until evidence collection succeeds" now
  | None, None, Some issue =>
      setStatusCondition conditionRCAReady ConditionFalse (iss_Reason issue) (iss_Message issue) now
  | None, None, None => setStatusCondition conditionRCAReady ConditionTrue "ProviderSucceeded"
                          "RCA generated successfully for investigation request" now
  end.

(** The part of the three failure branches that they share. *)
Definition failInvestigation (issue : Issue) (undegraded : string) now : InvestigationRequest -> InvestigationRequest :=
  setStatusCondition conditionReady ConditionFalse (iss_Reason issue) (iss_Message issue) now >>>
  (if shouldMarkInvestigationDegraded (iss_Reason issue) then
     setStatusCondition conditionDegraded ConditionTrue (iss_Reason issue) (iss_Message issue) now
   else setStatusCondition conditionDegraded ConditionFalse (iss_Reason issue) undegraded now).

Definition startFailure (issue : Issue) (stage : string) now : InvestigationRequest -> InvestigationRequest :=
  setInvestigationRequestStatus PhaseFailed (iss_Message issue) now >>>
  applyInvestigationFailure (iss_Reason issue) (iss_Message issue) stage.

Definition blockedByPreflight (issue : Issue) now : InvestigationRequest -> InvestigationRequest :=
  startFailure issue (investigationFailureStage (iss_Reason issue)) now >>>
  setCompletedAt now >>>
  failInvestigation issue "request failed without an optional dependency degradation" now >>>
  setInvestigationRemediationBlocked "RCAUnavailable"
    ("remediation is unavailable because RCA execution was blocked: " +:+ iss_Reason issue) now >>>
  setInvestigationVerificationUnknown "RCAUnavailable"
    "verification was not performed because RCA execution was blocked" now.

Definition failedByEvidence (issue : Issue) now : InvestigationRequest -> InvestigationRequest :=
  startFailure issue InvestigationStageEvidenceCollection now >>>
  on_status (fun s => s <| ist_Summary := "" |> <| ist_Hypothesis := "" |> <| ist_Confidence := float_zero |>) >>>
  setCompletedAt now >>>
  failInvestigation issue
    "request failed during evidence collection without an optional dependency degradation" now >>>
  setInvestigationRemediationBlocked "RCAUnavailable"
    ("remediation is unavailable because evidence collection did not complete: " +:+ iss_Reason issue) now.

Definition recordRejectedExecution preflight evidence rca (issue : Issue) now request : InvestigationRequest :=
  if bool_decide (iss_EgressAudit issue <> None) || negb (bool_decide (rca_EgressAttempts rca = [])) then
    let audit := match iss_EgressAudit issue with Some a => Some a | None => rca_PrimaryEgress rca end in
    let execution := buildRejectedRCAExecution controllerVersion request preflight audit (rca_EgressAttempts rca)
                       (investigationExecutionID request preflight evidence) now in
    on_status (fun s => s <| ist_Execution := Some (execution <| rx_State := iss_Reason issue |>) |>) request
  else request.

Definition failedByRCA preflight evidence rca (issue : Issue) now : InvestigationRequest -> InvestigationRequest :=
  startFailure issue (investigationFailureStage (iss_Reason issue)) now >>>
  recordRejectedExecution preflight evidence rca issue now >>>
  on_status (fun s => s <| ist_Summary := ec_Summary evidence |> <| ist_Hypothesis := "" |>
                        <| ist_Confidence := float_zero |>) >>>
  setCompletedAt now >>>
  failInvestigation issue "request failed during RCA generation without an optional dependency degradation" now >>>
  setInvestigationRemediationBlocked "RCAUnavailable"
    ("remediation is unavailable because RCA generation failed: " +:+ iss_Reason issue) now.

Definition applyReasoning preflight evidence rca now request : InvestigationRequest :=
  match rca_Reasoning rca with
  | None => request
  | Some reasoning =>
      let request := on_status (fun s =>
        s <| ist_Summary := ro_RiskSummary reasoning |> <| ist_Hypothesis := rs_Hypothesis (ro_RCA reasoning) |>
          <| ist_Confidence := scoreFraction (cf_Score (ro_Confidence reasoning)) |>
          <| ist_Provider := if trim_space (ro_Provider reasoning) != "" then ro_Provider reasoning
                             else ist_Provider s |>) request in
      applyStructuredRCAStatus preflight evidence rca reasoning now request
  end.

Definition setOutcomeConditions now request : InvestigationRequest :=
  let outcome := ist_Outcome (ir_Status request) in
  let summary := ist_Summary (ir_Status request) in
  if outcome == InvestigationOutcomeConfirmed then
    (setStatusCondition conditionRCAReady ConditionTrue "ProviderSucceeded"
       "RCA generated successfully for investigation request" now >>>
     setStatusCondition conditionVerified ConditionTrue "RootCauseClaimsSupported"
       "root-cause claims are supported by collected evidence" now >>>
     setStatusCondition conditionRemediationReady ConditionTrue "RootCauseVerified"
       "remediation planning is allowed after verified root-cause evidence" now >>>
     setStatusCondition conditionReady ConditionTrue "InvestigationCompleted"
       "evidence collection and RCA generation completed successfully" now) request
  else if outcome == InvestigationOutcomeInconclusive then
    (setStatusCondition conditionRCAReady ConditionFalse "RCAUnverified"
       "RCA completed but proposed root-cause claims were not supported by collected evidence" now >>>
     setStatusCondition conditionVerified ConditionFalse "NoSupportedRootCauseClaims"
       "no proposed root-cause claim was supported by collected evidence" now >>>
     setInvestigationRemediationBlocked "RCAUnverified"
       "remediation is not allowed without verified root-cause evidence" now >>>
     setStatusCondition conditionReady ConditionTrue "InvestigationInconclusive" summary now) request
  else
    (setInvestigationRemediationBlocked "RCAUnavailable"
       "remediation is unavailable because the investigation outcome is not confirmed" now >>>
     setStatusCondition conditionReady ConditionTrue "InvestigationCompleted"
       "evidence collection and RCA generation completed successfully" now) request.

Definition completeInvestigation evidence now request : InvestigationRequest :=
  let degradation := evidenceCoverageDegradation evidence in
  (on_status (fun s =>
     s <| ist_Degradation := match degradation with Some d => Some d | None => ist_Degradation s end |>
       <| ist_CompletedAt := Some now |>
       <| ist_Outcome := if ist_Outcome s == "" then InvestigationOutcomeUnknown else ist_Outcome s |>
       <| ist_Failure := None |>) >>>
   (fun r => setInvestigationRequestStatus PhaseCompleted (ist_Summary (ir_Status r)) now r) >>>
   setOutcomeConditions now >>>
   match degradation with
   | Some _ =>
       let '(reason, message) := evidenceDegradationCondition degradation in
       setStatusCondition conditionDegraded ConditionTrue reason message now
   | None => setStatusCondition conditionDegraded ConditionFalse "NoDegradation"
               "request completed successfully without degradation" now
   end) request.

Definition setTargetCondition preflight now : InvestigationRequest -> InvestigationRequest :=
  match pf_TargetIssue preflight with
  | Some issue => setStatusCondition conditionTargetResolved ConditionFalse (iss_Reason issue) (iss_Message issue) now
  | None => setStatusCondition conditionTargetResolved ConditionTrue "TargetResolved"
              "target resource was resolved successfully" now
  end.

Definition applyInvestigationExecutionStatus preflight evidence rca now : InvestigationRequest -> InvestigationRequest :=
  on_status (fun s => s <| ist_Provider := "" |> <| ist_EvidenceRefs := ec_EvidenceRefs evidence |>) >>>
  setTargetCondition preflight now >>>
  setDatasourceConditions preflight evidence now >>>
  setQueryConditions preflight now >>>
  setRCACondition preflight evidence rca now >>>
  match FirstIssue preflight, ec_Issue evidence, rca_Issue rca with
  | Some issue, _, _ => blockedByPreflight issue now
  | None, Some issue, _ => failedByEvidence issue now
  | None, None, Some issue => failedByRCA preflight evidence rca issue now
  | None, None, None => applyReasoning preflight evidence rca now >>> completeInvestigation evidence now
  end.

(** ** The status budget *)

Definition appendDegradationReason (reasons : list RCADegradationReason) (reason : RCADegradationReason)
    : list RCADegradationReason :=
  if existsb (fun r => (dr_Code r == dr_Code reason) && (dr_Stage r == dr_Stage reason)) reasons then reasons
  else reasons ++ [reason].

Definition budgetReason : RCADegradationReason :=
  mkRCADegradationReason "StatusBudgetExceeded" InvestigationStagePersistence None
    "investigation status exceeded compact metadata budget and was truncated".

Definition markBudgetExceeded (s : InvestigationRequestStatus) : InvestigationRequestStatus :=
  let d := default (mkRCADegradation true [] []) (ist_Degradation s) in
  s <| ist_Degradation := Some (d <| dg_Partial := true |>
                                  <| dg_Reasons := appendDegradationReason (dg_Reasons d) budgetReason |>) |>.

(** [None] only if the loop of the budget ran out of fuel, which it does not. *)
Definition applyInvestigationStatusBudget (marshal : InvestigationRequestStatus -> result string) now request
    : option InvestigationRequest :=
  match EnforceInvestigationStatus marshal (ir_Status request) with
  | None => None
  | Some (s, truncated) =>
      let request := request <| ir_Status := s |> in
      if truncated then
        Some ((on_status markBudgetExceeded >>>
               setStatusCondition conditionDegraded ConditionTrue (dr_Code budgetReason) (dr_Message budgetReason) now)
                request)
      else Some request
  end.
End Status.
