(* ===== verification/InvestigationSpec.v ===== *)
(** * Admission of an investigation

    Validation of the spec, the loop policy over the lineage, the lineage read
    from annotations, and retention
    (internal/controllers/investigationrequest_controller.go). *)

From Stdlib Require Import ZArith Lia.
From stdpp Require Import base list strings gmap.
From S2P Require Import Prelude GoStrings Utf8 GoParse Float64 Api InvestigationApi Digest AgentAction.

(** ** [time.Duration.String] *)

(** The last [n] decimal digits of [v] as a fraction, without trailing zeros. *)
Definition fraction_digits (n : nat) (v : Z) : string :=
  let ds := rev (strip_zeros (rev (String.list_ascii_of_string (pad n (v mod 10 ^ Z.of_nat n))))) in
  match ds with [] => "" | _ => "." +:+ String.string_of_list_ascii ds end.

Definition micro_sign : string := String (byte_of 194) (str1 181).

Definition DurationString (d : duration) : string :=
  let u := Z.abs d in
  let text :=
    if u =? 0 then "0s"
    else if u <? 1000 then itoa u +:+ "ns"
    else if u <? 1000000 then itoa (u / 1000) +:+ fraction_digits 3 u +:+ micro_sign +:+ "s"
    else if u <? second then itoa (u / 1000000) +:+ fraction_digits 6 u +:+ "ms"
    else
      let s := u / second in
      let secs := itoa (s mod 60) +:+ fraction_digits 9 u +:+ "s" in
      let m := s / 60 in
      if m =? 0 then secs
      else if m / 60 =? 0 then itoa m +:+ "m" +:+ secs
      else itoa (m / 60) +:+ "h" +:+ itoa (m mod 60) +:+ "m" +:+ secs in
  if d <? 0 then "-" +:+ text else text.

Example duration_strings :
  map DurationString [0; 15 * minute; 90 * minute; 1500000; second + 5 * 100000000; - minute] =
  ["0s"; "15m0s"; "1h30m0s"; "1.5ms"; "1.5s"; "-1m0s"].
Proof. vm_compute. reflexivity. Qed.

(** ** Annotations *)

Definition annotationLineageGeneration : string := "fluxseer-rca.aiops.platform/lineage-generation".
Definition annotationFindingFingerprint : string := "fluxseer-rca.aiops.platform/finding-fingerprint".
Definition annotationFindingSchema : string := "fluxseer-rca.aiops.platform/finding-schema".
Definition annotationFindingType : string := "fluxseer-rca.aiops.platform/finding-type".
Definition annotationObjectFindingID : string := "fluxseer-rca.aiops.platform/object-finding-identity".
Definition annotationLogicalFindingID : string := "fluxseer-rca.aiops.platform/logical-finding-identity".
Definition annotationIncidentOccurrence : string := "fluxseer-rca.aiops.platform/incident-occurrence".
Definition annotationTargetGeneration : string := "fluxseer-rca.aiops.platform/target-generation".
Definition annotationWindowBucket : string := "fluxseer-rca.aiops.platform/window-bucket".
Definition SchemeGroupVersion : string := "aiops.platform/v1alpha1".

Definition LocalFilesystemStoreName : string := "local-filesystem".
Definition defaultMaxInvestigationDepth : Z := 1.

Section Spec.
Context {U : UnicodeTables}.
Implicit Type spec : InvestigationRequestSpec.

(** ** Lineage *)

Definition findingIdentityFromAnnotations (annotations : gmap string string) : option FindingIdentity :=
  let get key := trim_space (map_get annotations key) in
  let '(targetGeneration, ok) := ParseInt (get annotationTargetGeneration) 64 in
  let identity := mkFindingIdentity (get annotationFindingSchema) (get annotationObjectFindingID)
    (get annotationLogicalFindingID) (get annotationIncidentOccurrence) (get annotationFindingType)
    (if ok then targetGeneration else 0) (get annotationWindowBucket) in
  if (fi_SchemaVersion identity == "") && (fi_ObjectFindingIdentity identity == "")
     && (fi_LogicalFindingIdentity identity == "") && (fi_IncidentOccurrence identity == "") then None
  else Some identity.

Definition lineageFromAnnotations (annotations : gmap string string) : option InvestigationLineage :=
  let get key := trim_space (map_get annotations key) in
  let sourceRef := get annotationLineageSource in
  let fingerprint := get annotationFindingFingerprint in
  let targetUID := get annotationTargetUID in
  if (sourceRef == "") && (fingerprint == "") && (targetUID == "") then None
  else
    let '(namespace, name) := splitNamespacedName sourceRef in
    let generation := (ParseInt (get annotationLineageGeneration) 64).1 in
    let depth := (ParseInt (get annotationInvestigationDepth) 32).1 in
    let kind := get annotationLineageSourceKind in
    let api := get annotationLineageSourceAPI in
    Some (mkInvestigationLineage
            (mkInvestigationLineageSource (if api == "" then SchemeGroupVersion else api)
               (if kind == "" then "RiskRule" else kind) namespace name (get annotationLineageSourceUID) generation)
            targetUID fingerprint (findingIdentityFromAnnotations annotations) (wrap32 depth)).

(** A recorded lineage is kept, whatever the annotations say now. *)
Definition lineageForReconcile (existing : option InvestigationLineage) (annotations : gmap string string)
    : option InvestigationLineage :=
  match existing with Some l => Some l | None => lineageFromAnnotations annotations end.

(** ** The loop policy *)

Definition maxDepthOf spec : Z :=
  if lp_MaxDepth (irs_LoopPolicy spec) <=? 0 then defaultMaxInvestigationDepth else lp_MaxDepth (irs_LoopPolicy spec).

Definition investigationLoopFailure (request : InvestigationRequest) : option InvestigationFailure :=
  let spec := ir_Spec request in
  match ist_Lineage (ir_Status request) with
  | None => None
  | Some lineage =>
      let maxDepth := maxDepthOf spec in
      let fromRiskSignal := equal_fold (ls_Kind (ln_Source lineage)) "RiskSignal" in
      if maxDepth <=? ln_InvestigationDepth lineage then
        Some (mkInvestigationFailure "InvestigationDepthLimitExceeded"
                ("investigation lineage depth " +:+ itoa (ln_InvestigationDepth lineage) +:+ " reached maxDepth "
                 +:+ itoa maxDepth) InvestigationStageValidation false)
      else if fromRiskSignal && negb (lp_AllowRiskSignalSource (irs_LoopPolicy spec)) then
        Some (mkInvestigationFailure "RiskSignalSourceBlocked"
                "default loop policy blocks investigations sourced from RiskSignal" InvestigationStageValidation false)
      else if fromRiskSignal && (trim_space (ls_UID (ln_Source lineage)) == "") then
        Some (mkInvestigationFailure "RiskSignalSourceUIDRequired"
                "RiskSignal-sourced investigations require lineage source UID for loop prevention"
                InvestigationStageValidation false)
      else None
  end.

(** ** Validation of the spec *)

Record specValidationIssue := mkSpecIssue { svi_Reason : string; svi_Message : string }.

Definition validateEvidenceRetention (policy : EvidenceRetentionPolicy) : string :=
  let mode := trim_space (rp_Mode policy) in
  let deletion := trim_space (rp_DeletionPolicy policy) in
  if (mode == "") || (mode == EvidenceRetentionModeMetadataOnly) then ""
  else if rp_EncryptionRequired policy then
    "spec.evidenceRetention.encryption.required is not supported by the current evidence retention adapters"
  else if negb (mem_str deletion [""; EvidenceRetentionDeletionPolicyRetain; EvidenceRetentionDeletionPolicyDelete]) then
    "unsupported evidence retention deletionPolicy: " +:+ deletion
  else if mode == EvidenceRetentionModeNormalizedSnapshot then
    if trim_space (rp_StorageRef policy) != LocalFilesystemStoreName then
      "spec.evidenceRetention.mode=NormalizedSnapshot requires spec.evidenceRetention.storageRef.name=local-filesystem"
    else ""
  else if mode == EvidenceRetentionModeRawSnapshot then
    "spec.evidenceRetention.mode=RawSnapshot requires explicit raw evidence retention support and is not supported in this release"
  else "unsupported evidence retention mode: " +:+ mode.

Definition validateQueryRetention (mode : string) : string :=
  let mode := trim_space mode in
  if mem_str mode [""; QueryRetentionModeDigestOnly; QueryRetentionModeRedacted; QueryRetentionModeFull] then ""
  else "unsupported queryRetention mode: " +:+ mode.

(** The first limit of the budget that is negative. *)
Definition negativeLimits (b : InvestigationQueryBudget) : list (Z * string) :=
  let l := qb_ResultLimits b in
  [(qb_MaxTimeRange b, "maxTimeRange"); (qb_MaxQueriesTotal b, "maxQueriesTotal");
   (qb_MaxQueriesPerSource b, "maxQueriesPerSource"); (qb_MaxConcurrentQueries b, "maxConcurrentQueries");
   (qb_MaxCumulativeDuration b, "maxCumulativeDuration"); (qb_MaxCumulativeResponseBytes b, "maxCumulativeResponseBytes");
   (ql_MetricsMaxSeries l, "resultLimits.metrics.maxSeries"); (ql_MetricsMaxSamples l, "resultLimits.metrics.maxSamples");
   (ql_LogsMaxLines l, "resultLimits.logs.maxLines"); (ql_LogsMaxStreams l, "resultLimits.logs.maxStreams");
   (ql_LogsMaxEntries l, "resultLimits.logs.maxEntries"); (ql_EventsMaxRecords l, "resultLimits.events.maxRecords")].
Definition negativeLimit (limit : Z * string) : option string :=
  if limit.1 <? 0 then Some ("queryBudget." +:+ limit.2 +:+ " must not be negative") else None.

(** The first source whose count passes the limit, with the count. *)
Fixpoint overusedSource (limit : Z) (counts : gmap string Z) (names : list string) : option (string * Z) :=
  match names with
  | [] => None
  | n :: rest =>
      let name := trim_space n in
      if name == "" then overusedSource limit counts rest
      else
        let count := default 0 (counts !! name) + 1 in
        if limit <? count then Some (name, count) else overusedSource limit (<[name := count]> counts) rest
  end.

Definition queryCount spec : Z :=
  match irs_Queries spec with
  | [] => Z.of_nat (length (irs_DataSources spec))
  | queries => Z.of_nat (length queries)
  end.

Definition validateInvestigationQueryBudget spec : string :=
  let budget := irs_QueryBudget spec in
  match find_first negativeLimit (negativeLimits budget) with
  | Some message => message
  | None =>
      if (0 <? qb_MaxTimeRange budget) && (qb_MaxTimeRange budget <? irs_Lookback spec) then
        "spec.timeRange.lookback " +:+ DurationString (irs_Lookback spec) +:+ " exceeds queryBudget.maxTimeRange "
          +:+ DurationString (qb_MaxTimeRange budget)
      else if (0 <? qb_MaxQueriesTotal budget) && (qb_MaxQueriesTotal budget <? wrap32 (queryCount spec)) then
        "investigation query count " +:+ itoa (queryCount spec) +:+ " exceeds queryBudget.maxQueriesTotal "
          +:+ itoa (qb_MaxQueriesTotal budget)
      else if 0 <? qb_MaxQueriesPerSource budget then
        match overusedSource (qb_MaxQueriesPerSource budget) ∅
                (irs_DataSources spec ++ map iq_DatasourceRef (irs_Queries spec)) with
        | Some (name, count) =>
            "datasource " +:+ quote name +:+ " query count " +:+ itoa count
              +:+ " exceeds queryBudget.maxQueriesPerSource " +:+ itoa (qb_MaxQueriesPerSource budget)
        | None => ""
        end
      else ""
  end.

Definition missingTargetFields (target : TargetRef) : list string :=
  (if trim_space (tr_Namespace target) == "" then ["spec.target.namespace"] else [])
  ++ (if trim_space (tr_Kind target) == "" then ["spec.target.kind"] else [])
  ++ (if trim_space (tr_Name target) == "" then ["spec.target.name"] else []).

Definition invalid (reason message : string) : option specValidationIssue := Some (mkSpecIssue reason message).

(** The rules for the verification of a remediation. *)
Definition effectivenessIssue spec : option specValidationIssue :=
  if irs_Purpose spec != InvestigationPurposeEffectivenessVerification then None
  else if irs_Mode spec != InvestigationModeReadOnly then
    invalid "UnsupportedInvestigationMode" "effectiveness verification must use readOnly mode"
  else if irs_CreateRiskSignal spec then
    invalid "InvalidSpec" "effectiveness verification must not create a RiskSignal"
  else match irs_Correlation spec with
    | None => invalid "InvalidSpec" "effectiveness verification requires correlation.agentActionRef"
    | Some c =>
        if (trim_space (nor_Name (corr_AgentActionRef c)) == "") || (trim_space (nor_Namespace (corr_AgentActionRef c)) == "")
        then invalid "InvalidSpec" "effectiveness verification requires correlation.agentActionRef"
        else if (trim_space (corr_ExecutionID c) == "") || (trim_space (corr_BaselineDigest c) == "") then
          invalid "InvalidSpec"
            "effectiveness verification requires correlation.executionID and correlation.baselineDigest"
        else None
    end.

Definition queryIssue (q : InvestigationQuery) : option specValidationIssue :=
  if trim_space (iq_DatasourceRef q) == "" then
    invalid "InvalidSpec" "investigation queries require spec.queries[].datasourceRef.name"
  else if trim_space (iq_QueryType q) == "" then
    invalid "InvalidSpec" "investigation queries require spec.queries[].queryType"
  else None.

Definition validateInvestigationRequestSpecIssue spec : option specValidationIssue :=
  let mode := trim_space (irs_Mode spec) in
  match missingTargetFields (irs_Target spec) with
  | (_ :: _) as missing => invalid "TargetInvalid" ("missing required target fields: " +:+ join ", " missing)
  | [] =>
      if (mode != "") && (mode != InvestigationModeReadOnly) then
        invalid "UnsupportedInvestigationMode" ("unsupported investigation mode: " +:+ mode)
      else match effectivenessIssue spec with
      | Some issue => Some issue
      | None =>
          let sources := negb (bool_decide (irs_DataSources spec = [])) in
          let queries := negb (bool_decide (irs_Queries spec = [])) in
          if negb sources && negb queries then
            invalid "InvalidSpec" "spec.dataSources or spec.queries must include at least one datasource reference"
          else if sources && queries then
            invalid "InvalidSpec" "spec.dataSources and spec.queries are mutually exclusive; use dataSources for controller-planned evidence or queries for user-planned evidence"
          else if validateEvidenceRetention (irs_EvidenceRetention spec) != "" then
            invalid (if rp_Mode (irs_EvidenceRetention spec) == EvidenceRetentionModeRawSnapshot
                     then "UnsupportedRetentionMode" else "InvalidSpec")
              (validateEvidenceRetention (irs_EvidenceRetention spec))
          else if validateQueryRetention (irs_QueryRetention spec) != "" then
            invalid "InvalidSpec" (validateQueryRetention (irs_QueryRetention spec))
          else if validateInvestigationQueryBudget spec != "" then
            invalid "InvalidSpec" (validateInvestigationQueryBudget spec)
          else find_first queryIssue (irs_Queries spec)
      end
  end.

Definition validateInvestigationRequestSpec spec : string :=
  match validateInvestigationRequestSpecIssue spec with Some issue => svi_Message issue | None => "" end.

(** ** Retention *)

Definition isTerminalInvestigationPhase (phase : string) : bool :=
  mem_str phase [PhaseCompleted; PhaseFailed; PhaseRejected].
Definition shouldSkipInvestigationExecution (request : InvestigationRequest) : bool :=
  (rs_ObservedGeneration (ist_ResourceStatus (ir_Status request)) =? om_Generation (ir_Meta request))
  && isTerminalInvestigationPhase (ir_Phase request).

Definition investigationExpiryTime (request : InvestigationRequest) (now : time) : time :=
  let updatedAt := rs_UpdatedAt (ist_ResourceStatus (ir_Status request)) in
  let baseTime :=
    match ist_CompletedAt (ir_Status request) with
    | Some t => t
    | None => if negb (is_zero_time updatedAt) then updatedAt
              else if negb (is_zero_time (ir_CreationTimestamp request)) then ir_CreationTimestamp request
              else now
    end in
  time_add baseTime (seconds (irs_TTLSeconds (ir_Spec request))).
End Spec.

(** ** Which specs are admitted *)

Section Admission.
Context {U : UnicodeTables}.

Definition blank (s : string) : Prop := trim_space s = "".

Definition retention_ok (p : EvidenceRetentionPolicy) : Prop :=
  blank (rp_Mode p) \/ trim_space (rp_Mode p) = EvidenceRetentionModeMetadataOnly \/
  trim_space (rp_Mode p) = EvidenceRetentionModeNormalizedSnapshot /\ rp_EncryptionRequired p = false /\
  trim_space (rp_DeletionPolicy p) ∈ [""; EvidenceRetentionDeletionPolicyRetain; EvidenceRetentionDeletionPolicyDelete] /\
  trim_space (rp_StorageRef p) = LocalFilesystemStoreName.

(** How often a source is named, blanks around it aside. *)
Definition source_count (name : string) (names : list string) : Z :=
  Z.of_nat (length (List.filter (fun n => trim_space n == name) names)).

Record budget_ok (spec : InvestigationRequestSpec) : Prop := mkBudgetOk {
  bo_limits : Forall (fun limit => 0 <= limit.1) (negativeLimits (irs_QueryBudget spec));
  bo_range : 0 < qb_MaxTimeRange (irs_QueryBudget spec) -> irs_Lookback spec <= qb_MaxTimeRange (irs_QueryBudget spec);
  bo_total : 0 < qb_MaxQueriesTotal (irs_QueryBudget spec) ->
    wrap32 (queryCount spec) <= qb_MaxQueriesTotal (irs_QueryBudget spec);
  bo_per_source : 0 < qb_MaxQueriesPerSource (irs_QueryBudget spec) ->
    forall name, name <> "" ->
      source_count name (irs_DataSources spec ++ map iq_DatasourceRef (irs_Queries spec))
        <= qb_MaxQueriesPerSource (irs_QueryBudget spec)
}.

Definition effectiveness_ok (spec : InvestigationRequestSpec) : Prop :=
  irs_Purpose spec = InvestigationPurposeEffectivenessVerification ->
  irs_Mode spec = InvestigationModeReadOnly /\ irs_CreateRiskSignal spec = false /\
  exists c, irs_Correlation spec = Some c /\
    ~ blank (nor_Name (corr_AgentActionRef c)) /\ ~ blank (nor_Namespace (corr_AgentActionRef c)) /\
    ~ blank (corr_ExecutionID c) /\ ~ blank (corr_BaselineDigest c).

Record valid_spec (spec : InvestigationRequestSpec) : Prop := mkValidSpec {
  vs_target : ~ blank (tr_Namespace (irs_Target spec)) /\ ~ blank (tr_Kind (irs_Target spec)) /\
              ~ blank (tr_Name (irs_Target spec));
  vs_mode : blank (irs_Mode spec) \/ trim_space (irs_Mode spec) = InvestigationModeReadOnly;
  vs_effectiveness : effectiveness_ok spec;
  vs_sources : irs_DataSources spec = [] /\ irs_Queries spec <> [] \/ irs_DataSources spec <> [] /\ irs_Queries spec = [];
  vs_retention : retention_ok (irs_EvidenceRetention spec);
  vs_query_retention : trim_space (irs_QueryRetention spec) ∈
    [""; QueryRetentionModeDigestOnly; QueryRetentionModeRedacted; QueryRetentionModeFull];
  vs_budget : budget_ok spec;
  vs_queries : Forall (fun q => ~ blank (iq_DatasourceRef q) /\ ~ blank (iq_QueryType q)) (irs_Queries spec)
}.

Lemma blank_spec s : (trim_space s == "") = true <-> blank s.
Proof. apply String.eqb_eq. Qed.

Lemma not_blank_spec s : (trim_space s == "") = false <-> ~ blank s.
Proof. apply String.eqb_neq. Qed.

Lemma missing_target_nil t :
  missingTargetFields t = [] <-> ~ blank (tr_Namespace t) /\ ~ blank (tr_Kind t) /\ ~ blank (tr_Name t).
Proof.
  unfold missingTargetFields. rewrite <- !not_blank_spec.
  destruct (_ == _), (trim_space (tr_Kind t) == ""), (trim_space (tr_Name t) == ""); cbn; naive_solver.
Qed.

Lemma effectiveness_none spec : effectivenessIssue spec = None <-> effectiveness_ok spec.
Proof.
  unfold effectivenessIssue, effectiveness_ok, invalid.
  destruct (irs_Purpose spec == _) eqn:Hp; cbn [negb]; [apply String.eqb_eq in Hp | apply String.eqb_neq in Hp; naive_solver].
  destruct (irs_Mode spec == _) eqn:Hm; cbn [negb]; [apply String.eqb_eq in Hm | apply String.eqb_neq in Hm; naive_solver].
  destruct (irs_CreateRiskSignal spec); [naive_solver|].
  destruct (irs_Correlation spec) as [c|]; [|naive_solver].
  setoid_rewrite <- not_blank_spec.
  destruct (trim_space (nor_Name _) == "") eqn:?, (trim_space (nor_Namespace _) == "") eqn:?,
    (trim_space (corr_ExecutionID c) == "") eqn:?, (trim_space (corr_BaselineDigest c) == "") eqn:?; cbn;
    split; intros H; try done; try (by eauto 10);
    destruct (H Hp) as (_ & _ & ? & [= <-] & ? & ? & ? & ?); congruence.
Qed.

Lemma retention_none p : validateEvidenceRetention p = "" <-> retention_ok p.
Proof.
  unfold validateEvidenceRetention, retention_ok, blank.
  destruct (trim_space (rp_Mode p) == "") eqn:Hb; [apply String.eqb_eq in Hb; split; [by left|done]|apply String.eqb_neq in Hb].
  destruct (trim_space (rp_Mode p) == EvidenceRetentionModeMetadataOnly) eqn:Hm; cbn [orb];
    [apply String.eqb_eq in Hm; split; [by right; left|done]|apply String.eqb_neq in Hm].
  destruct (rp_EncryptionRequired p); [split; [done|naive_solver]|].
  destruct (mem_str _ _) eqn:Hd; cbn [negb]; [apply mem_str_spec in Hd | apply mem_str_false in Hd; split; [done|naive_solver]].
  destruct (trim_space (rp_Mode p) == EvidenceRetentionModeNormalizedSnapshot) eqn:Hn; [apply String.eqb_eq in Hn|apply String.eqb_neq in Hn].
  - destruct (trim_space (rp_StorageRef p) == LocalFilesystemStoreName) eqn:Hs; cbn [negb];
      [apply String.eqb_eq in Hs; split; [naive_solver|done]|apply String.eqb_neq in Hs; split; [done|naive_solver]].
  - destruct (_ == _); split; try done; naive_solver.
Qed.

Lemma query_retention_none mode :
  validateQueryRetention mode = "" <->
  trim_space mode ∈ [""; QueryRetentionModeDigestOnly; QueryRetentionModeRedacted; QueryRetentionModeFull].
Proof.
  unfold validateQueryRetention. rewrite <- mem_str_spec. by destruct (mem_str _ _).
Qed.

Lemma source_count_cons name n names :
  source_count name (n :: names) = (if trim_space n == name then 1 else 0) + source_count name names.
Proof. unfold source_count. cbn [List.filter]. destruct (_ == _); cbn [length]; lia. Qed.

Lemma source_count_nonneg name names : 0 <= source_count name names.
Proof. unfold source_count. lia. Qed.

Lemma overused_none limit names counts :
  (forall name, default 0 (counts !! name) <= limit) ->
  overusedSource limit counts names = None <->
  forall name, name <> "" -> default 0 (counts !! name) + source_count name names <= limit.
Proof.
  revert counts. induction names as [|n names IH]; intros counts Hle; cbn [overusedSource].
  { split; [|done]. intros _ name _. unfold source_count. cbn. rewrite Z.add_0_r. apply Hle. }
  setoid_rewrite source_count_cons. destruct (trim_space n == "") eqn:Hn.
  - apply String.eqb_eq in Hn. rewrite Hn, (IH counts Hle). apply forall_proper. intros name.
    split; intros H Hne; specialize (H Hne); destruct ("" == name) eqn:He; try (by apply String.eqb_eq in He; subst); lia.
  - apply String.eqb_neq in Hn. set (nm := trim_space n) in *. cbv zeta.
    assert (Hstep : forall name, default 0 (<[nm := default 0 (counts !! nm) + 1]> counts !! name)
              = default 0 (counts !! name) + (if nm == name then 1 else 0)).
    { intros name. destruct (nm == name) eqn:He.
      - apply String.eqb_eq in He as <-. by rewrite lookup_insert_eq.
      - apply String.eqb_neq in He. rewrite lookup_insert_ne by done. lia. }
    destruct (limit <? default 0 (counts !! nm) + 1) eqn:Hlt.
    + apply Z.ltb_lt in Hlt. split; [done|]. intros H. specialize (H nm Hn).
      rewrite String.eqb_refl in H. assert (Hc := source_count_nonneg nm names). lia.
    + apply Z.ltb_ge in Hlt. rewrite IH.
      * setoid_rewrite Hstep. apply forall_proper. intros name. split; intros H Hne; specialize (H Hne); lia.
      * intros name. rewrite Hstep. destruct (nm == name) eqn:He; [apply String.eqb_eq in He as <-; done|].
        specialize (Hle name). lia.
Qed.

Lemma negative_limits_none b :
  find_first negativeLimit (negativeLimits b) = None <-> Forall (fun limit => 0 <= limit.1) (negativeLimits b).
Proof.
  rewrite find_first_None, Forall_forall. apply forall_proper. intros l. unfold negativeLimit.
  destruct (l.1 <? 0) eqn:H; [apply Z.ltb_lt in H | apply Z.ltb_ge in H]; split; intros Hl Hx; specialize (Hl Hx); done || lia.
Qed.

Lemma negativeLimit_message b message :
  find_first negativeLimit (negativeLimits b) = Some message -> message <> "".
Proof.
  intros (l & _ & Hl)%find_first_Some. unfold negativeLimit in Hl. by destruct (l.1 <? 0); simplify_eq/=.
Qed.

(** [limit > 0 && limit < value]: a limit that is set and passed. *)
Lemma over_limit limit value :
  (0 <? limit) && (limit <? value) = false <-> (0 < limit -> value <= limit).
Proof. destruct (0 <? limit) eqn:Ha, (limit <? value) eqn:Hb; cbn; split; intros; try done; lia. Qed.

Lemma budget_none spec : validateInvestigationQueryBudget spec = "" <-> budget_ok spec.
Proof.
  unfold validateInvestigationQueryBudget. destruct (find_first negativeLimit _) as [message|] eqn:Hneg.
  { assert (Hm := negativeLimit_message _ _ Hneg). split; [done|]. intros [Hl _ _ _].
    apply negative_limits_none in Hl. congruence. }
  apply negative_limits_none in Hneg.
  destruct ((0 <? qb_MaxTimeRange _) && _) eqn:Hr.
  { split; [done|]. intros [_ Hr' _ _]. rewrite <- over_limit in Hr'. congruence. }
  rewrite over_limit in Hr.
  destruct ((0 <? qb_MaxQueriesTotal _) && _) eqn:Ht.
  { split; [done|]. intros [_ _ Ht' _]. rewrite <- over_limit in Ht'. congruence. }
  rewrite over_limit in Ht.
  destruct (0 <? qb_MaxQueriesPerSource _) eqn:Hp; [apply Z.ltb_lt in Hp | apply Z.ltb_ge in Hp].
  - assert (Ho := overused_none (qb_MaxQueriesPerSource (irs_QueryBudget spec))
                    (irs_DataSources spec ++ map iq_DatasourceRef (irs_Queries spec)) ∅
                    ltac:(intros name; rewrite lookup_empty; cbn; lia)).
    setoid_rewrite lookup_empty in Ho. cbn [default from_option id] in Ho.
    destruct (overusedSource _ _ _) as [[name count]|].
    + split; [done|]. intros [_ _ _ Hs]. specialize (Hs Hp). assert (Some (name, count) = None) by (apply Ho; exact Hs). done.
    + split; [|done]. intros _. constructor; try done. intros _. by apply Ho.
  - split; [|done]. intros _. constructor; try done. intros; lia.
Qed.

Lemma queries_none queries :
  find_first queryIssue queries = None <->
  Forall (fun q => ~ blank (iq_DatasourceRef q) /\ ~ blank (iq_QueryType q)) queries.
Proof.
  rewrite find_first_None, Forall_forall. apply forall_proper. intros q. unfold queryIssue, invalid.
  rewrite <- !not_blank_spec.
  destruct (trim_space (iq_DatasourceRef q) == ""), (trim_space (iq_QueryType q) == ""); naive_solver.
Qed.

Lemma spec_valid (spec : InvestigationRequestSpec) :
  validateInvestigationRequestSpecIssue spec = None <-> valid_spec spec.
Proof.
  unfold validateInvestigationRequestSpecIssue, invalid. destruct (missingTargetFields (irs_Target spec)) eqn:Hmt.
  2:{ split; [done|]. intros [Ht _ _ _ _ _ _ _]. apply missing_target_nil in Ht. congruence. }
  apply missing_target_nil in Hmt.
  destruct ((trim_space (irs_Mode spec) != "") && (trim_space (irs_Mode spec) != InvestigationModeReadOnly)) eqn:Hmode.
  { go_bool. split; [done|]. intros [_ [Hb|Hb] _ _ _ _ _ _]; unfold blank in *; congruence. }
  assert (Hm : blank (irs_Mode spec) \/ trim_space (irs_Mode spec) = InvestigationModeReadOnly).
  { apply andb_false_iff in Hmode as [H|H]; go_bool; auto. }
  destruct (effectivenessIssue spec) eqn:Heff.
  { split; [done|]. intros [_ _ He _ _ _ _ _]. apply effectiveness_none in He. congruence. }
  apply effectiveness_none in Heff.
  destruct (bool_decide (irs_DataSources spec = [])) eqn:Hd, (bool_decide (irs_Queries spec = [])) eqn:Hq; cbn [negb andb];
    try apply bool_decide_eq_true in Hd; try apply bool_decide_eq_false in Hd;
    try apply bool_decide_eq_true in Hq; try apply bool_decide_eq_false in Hq;
    try (split; [done|]; intros [_ _ _ [[? ?]|[? ?]] _ _ _ _]; done).
  all: destruct (validateEvidenceRetention _ == "") eqn:Hr; cbn [negb];
    [apply String.eqb_eq in Hr; apply retention_none in Hr |
     apply String.eqb_neq in Hr; split; [done|]; intros [_ _ _ _ H _ _ _]; by apply retention_none in H].
  all: destruct (validateQueryRetention _ == "") eqn:Hqr; cbn [negb];
    [apply String.eqb_eq in Hqr; apply query_retention_none in Hqr |
     apply String.eqb_neq in Hqr; split; [done|]; intros [_ _ _ _ _ H _ _]; by apply query_retention_none in H].
  all: destruct (validateInvestigationQueryBudget _ == "") eqn:Hb; cbn [negb];
    [apply String.eqb_eq in Hb; apply budget_none in Hb |
     apply String.eqb_neq in Hb; split; [done|]; intros [_ _ _ _ _ _ H _]; by apply budget_none in H].
  all: rewrite queries_none; split; [intros Hqs; split; auto | by intros []].
Qed.

(** C27: a spec passes validation exactly when it is [valid_spec]: a complete
    target; no mode but readOnly; for the verification of a remediation the
    read-only mode, no RiskSignal and a complete correlation; data sources or
    queries but not both; a supported retention; a budget of non-negative limits
    that look-back, number of queries and queries per source respect; and
    queries that name source and type. *)
Theorem spec_valid_iff (spec : InvestigationRequestSpec) :
  validateInvestigationRequestSpecIssue spec = None <-> valid_spec spec.
Proof. exact (spec_valid spec). Qed.
End Admission.
