(* ===== verification/Datasource.v ===== *)
(** * Data sources (internal/datasource/interface.go, internal/datasourceconfig)

    The adapters the evidence queries go to: what one can be asked, the query
    policy and classification it carries, the registry that names them, and
    how a DataSource resource becomes a registered source.  The [Query] method
    of a source is an operation of the programs that call it. *)

From Stdlib Require Import ZArith Lia.
From stdpp Require Import base list strings gmap.
From S2P Require Import Prelude GoStrings Api InvestigationApi DataClassification.

(** ** Query policies (api/v1alpha1/datasource_types.go) *)

Definition DataSourceQueryPolicyModeLegacyUnrestricted : string := "LegacyUnrestricted".
Definition DataSourceQueryPolicyModeTemplatesOnly : string := "TemplatesOnly".

Record PromQLPolicy := mkPromQLPolicy {
  pq_AllowedFunctions : list string;
  pq_DeniedFunctions : list string;
  pq_AllowSubqueries : option bool;
  pq_AllowOffset : option bool;
  pq_AllowAtModifier : option bool
}.

Record LogQLPolicy := mkLogQLPolicy {
  lq_AllowedPipelineStages : list string;
  lq_DeniedPipelineStages : list string
}.

Record DataSourceQueryPolicy := mkDataSourceQueryPolicy {
  dq_Mode : string;
  dq_AllowedTemplates : list string;
  dq_MaxRange : duration;
  dq_AllowRegexMatchers : bool;
  dq_RequireTargetScope : bool;
  dq_Prometheus : PromQLPolicy;
  dq_Loki : LogQLPolicy
}.

(** ** Sources *)

Record Capabilities := mkCapabilities {
  cap_Metrics : bool;
  cap_Logs : bool;
  cap_Events : bool;
  cap_DeploymentConditions : bool;
  cap_ServiceConfiguration : bool;
  cap_ProbeConfiguration : bool;
  cap_ContainerTermination : bool;
  cap_Traces : bool;
  cap_RangeQuery : bool;
  cap_InstantQuery : bool;
  cap_LabelQuery : bool
}.

Definition SupportsQueryType (c : Capabilities) (queryType : string) : bool :=
  if queryType == QueryTypeMetric then cap_Metrics c
  else if queryType == QueryTypeLog then cap_Logs c
  else if queryType == QueryTypeEvent then cap_Events c
  else if queryType == QueryTypeDeploymentCondition then cap_DeploymentConditions c
  else if queryType == QueryTypeServiceConfiguration then cap_ServiceConfiguration c
  else if queryType == QueryTypeProbeConfiguration then cap_ProbeConfiguration c
  else if queryType == QueryTypeContainerTermination then cap_ContainerTermination c
  else if queryType == QueryTypeTrace then cap_Traces c
  else false.

(** A value of the interface [DataSource]: the answers of its methods, with
    those of the optional interfaces ([QueryPolicyProvider],
    [ClassificationProvider]) it may implement, whether its type implements
    [SchedulingEvidenceCollector], and whether a call of that method reaches an
    adapter that collects. *)
Record DataSource := mkDataSource {
  ds_Name : string;
  ds_Type : string;
  ds_Capabilities : Capabilities;
  ds_QueryPolicy : option DataSourceQueryPolicy;
  ds_DataClassification : option DataClassification;
  ds_SchedulingCollector : bool;
  ds_SchedulingSupported : bool
}.

Record QueryRequest := mkQueryRequest {
  qr_Query : string;
  qr_StartTime : time;
  qr_EndTime : time;
  qr_Step : duration;
  qr_Labels : gmap string string;
  qr_Target : ResourceRef;
  qr_QueryType : string;
  qr_Reasons : list string;
  qr_ResultLimits : QueryResultLimits;
  qr_Classification : DataClassification
}.

(** A value of type [any] in a record: what the adapters put there and the rest. *)
Inductive any_value :=
| AnyNil
| AnyString (s : string)
| AnyBool (b : bool)
| AnyInt (z : Z)  (* int, int32, int64 *)
| AnyFloat (bits : Z)  (* float64, float32 *)
| AnyStringMap (m : gmap string string)
| AnyMap (fields : list (string * any_value))
| AnyOther (tag : string).

Record NativeResultCounts := mkNativeResultCounts {
  nc_ResultType : string;
  nc_Series : Z;
  nc_Samples : Z;
  nc_Streams : Z;
  nc_Entries : Z;
  nc_Records : Z
}.

Record NativeResultLimit := mkNativeResultLimit {
  nl_Reason : string;
  nl_Dimension : string;
  nl_Limit : Z;
  nl_OriginalCount : Z;
  nl_RetainedCount : Z
}.

Record QueryResult := mkQueryResult {
  qs_Source : string;
  qs_QueryType : string;
  qs_Summary : string;
  qs_Records : list (gmap string any_value);
  qs_Truncated : bool;
  qs_TruncationReason : string;
  qs_LimitDimension : string;
  qs_Limit : Z;
  qs_OriginalRecordCount : Z;
  qs_RetainedRecordCount : Z;
  qs_NativeCounts : NativeResultCounts;
  qs_NativeLimit : option NativeResultLimit
}.

(** An error of a query: a [*QueryError] or another. *)
Inductive query_error :=
| QueryError (reason message : string)
| QueryOther (e : error).

(** ** The registry *)

Abbreviation Registry := (gmap string DataSource) (only parsing).

Definition RegisterNamed (name : string) (source : DataSource) (r : Registry) : Registry := <[name := source]> r.
Definition Register (source : DataSource) (r : Registry) : Registry := RegisterNamed (ds_Name source) source r.
Definition NewRegistry (items : list DataSource) : Registry :=
  fold_left (fun r item => Register item r) items ∅.
Definition Get (r : Registry) (name : string) : option DataSource := r !! name.
(** A nil registry is left alone. *)
Definition Unregister (name : string) (r : option Registry) : option Registry := delete name <$> r.

(** ** Adapters (internal/datasource/prometheus, loki, kubernetes) *)

Definition prometheusCapabilities : Capabilities :=
  mkCapabilities true false false false false false false false true true false.
Definition lokiCapabilities : Capabilities :=
  mkCapabilities false true false false false false false false true false true.
Definition kubernetesCapabilities : Capabilities :=
  mkCapabilities false false true true true true true false false false false.

Definition prometheusAdapter : DataSource :=
  mkDataSource "prometheus" "prometheus" prometheusCapabilities None None false false.
Definition lokiAdapter : DataSource := mkDataSource "loki" "loki" lokiCapabilities None None false false.
Definition kubernetesAdapter : DataSource :=
  mkDataSource "kubernetes-events" "kubernetesEvents" kubernetesCapabilities None None true true.

(** ** Query types (internal/rule/evaluator.go) *)

(** [strings.ReplaceAll(s, c, _)] with the empty string, for a single byte. *)
Fixpoint remove_byte (c : Ascii.ascii) (s : string) : string :=
  match s with
  | EmptyString => EmptyString
  | String d s' => if Ascii.eqb d c then remove_byte c s' else String d (remove_byte c s')
  end.

Section Names.
Context {U : UnicodeTables}.

Definition normalizeSignalType (value : string) : string :=
  to_lower (remove_byte (byte_of 95) (remove_byte (byte_of 45) (trim_space value))).

Definition ParseQueryType (raw : string) : option string :=
  let t := normalizeSignalType raw in
  if mem_str t ["metric"; "metrics"; "prometheus"] then Some QueryTypeMetric
  else if mem_str t ["log"; "logs"; "loki"] then Some QueryTypeLog
  else if mem_str t ["event"; "events"; "kubernetesevent"] then Some QueryTypeEvent
  else if mem_str t ["deploymentcondition"; "deploymentconditions"] then Some QueryTypeDeploymentCondition
  else if mem_str t ["serviceconfiguration"; "serviceconfig"; "kubernetesserviceconfiguration"]
    then Some QueryTypeServiceConfiguration
  else if mem_str t ["probeconfiguration"; "probeconfig"; "kubernetesprobeconfiguration"]
    then Some QueryTypeProbeConfiguration
  else if mem_str t ["containertermination"; "containerterminationstatus"; "kubernetescontainertermination"]
    then Some QueryTypeContainerTermination
  else if mem_str t ["trace"; "traces"; "opentelemetry"] then Some QueryTypeTrace
  else None.

(** [QueryErrorReason]. *)
Definition QueryErrorReason (err : query_error) (fallback : string) : string :=
  match err with
  | QueryError reason _ => if trim_space reason != "" then reason else fallback
  | QueryOther _ => fallback
  end.
Definition query_error_text (err : query_error) : string :=
  match err with QueryError _ message => message | QueryOther e => err_msg e end.

(** ** Sources from DataSource resources (internal/datasourceconfig/loader.go) *)

Definition normalizeResourceType (value : string) : string :=
  let t := normalizeSignalType value in
  if t == "prometheus" then "prometheus"
  else if t == "loki" then "loki"
  else if (t == "kubernetesevents") || (t == "kubernetesevent") then "kubernetes-events"
  else trim_space value.

Definition normalizedName (item : string) : string := to_lower (trim_space item).

(** The set built from [left] holds no empty string. *)
Fixpoint firstNormalizedOverlap (left right : list string) : string :=
  match right with
  | [] => ""
  | item :: right' =>
      if normalizedName item == "" then firstNormalizedOverlap left right'
      else if mem_str (normalizedName item) (map normalizedName left) then normalizedName item
      else firstNormalizedOverlap left right'
  end.

(** A [*ValidationError]. *)
Record ValidationError := mkValidationError { ve_Reason : string; ve_Message : string }.

Definition validateQueryPolicy (policy : DataSourceQueryPolicy) : option ValidationError :=
  let invalid message := Some (mkValidationError "QueryPolicyInvalid" message) in
  let mode := trim_space (dq_Mode policy) in
  let functions := firstNormalizedOverlap (pq_AllowedFunctions (dq_Prometheus policy))
                     (pq_DeniedFunctions (dq_Prometheus policy)) in
  let stages := firstNormalizedOverlap (lq_AllowedPipelineStages (dq_Loki policy))
                  (lq_DeniedPipelineStages (dq_Loki policy)) in
  if negb (mem_str mode [""; DataSourceQueryPolicyModeLegacyUnrestricted; DataSourceQueryPolicyModeTemplatesOnly])
  then invalid ("unsupported datasource queryPolicy.mode " +:+ quote (dq_Mode policy))
  else if dq_MaxRange policy <? 0 then invalid "datasource queryPolicy.maxRange must not be negative"
  else if functions != ""
  then invalid ("datasource queryPolicy.prometheus function " +:+ quote functions
                +:+ " cannot be both allowed and denied")
  else if stages != ""
  then invalid ("datasource queryPolicy.loki pipeline stage " +:+ quote stages
                +:+ " cannot be both allowed and denied")
  else None.

(** [policyDataSource]: it embeds the adapter's interface, and has a method
    [CollectSchedulingEvidence] whatever the adapter, which fails when the
    adapter has none. *)
Definition policyDataSource (source : DataSource) (policy : DataSourceQueryPolicy)
    (classification : DataClassification) : DataSource :=
  mkDataSource (ds_Name source) (ds_Type source) (ds_Capabilities source) (Some policy) (Some classification) true
    (ds_SchedulingCollector source).
End Names.
