(* ===== verification/Network.v ===== *)
(** * Network policy of data sources (internal/datasourceconfig/loader.go)

    Which addresses the HTTP client of a data source may reach: the endpoint and
    every redirect are checked by host and scheme, and each dial checks the
    addresses the host resolves to and connects to the first of them.  The parts
    of package net that this uses - addresses, their text and CIDRs - are written
    out; [url.Parse] is a parameter.  An address is its list of 4 or 16 bytes. *)

From Stdlib Require Import ZArith Lia.
From stdpp Require Import base list strings gmap.
From S2P Require Import Prelude GoStrings Utf8 GoParse Api Prog Datasource.

Abbreviation ip_addr := (list Z) (only parsing).

(** ** Package net: addresses *)

Definition v4InV6Prefix : list Z := [0; 0; 0; 0; 0; 0; 0; 0; 0; 0; 255; 255].
(** [IP.To4]. *)
Definition To4 (ip : ip_addr) : option ip_addr :=
  if bool_decide (length ip = 4%nat) then Some ip
  else if bool_decide (length ip = 16%nat /\ take 12 ip = v4InV6Prefix) then Some (drop 12 ip)
  else None.
Definition byte_at (i : nat) (ip : ip_addr) : Z := nth i ip 0.

Definition IsLoopback (ip : ip_addr) : bool :=
  match To4 ip with
  | Some v4 => byte_at 0 v4 =? 127
  | None => bool_decide (ip = replicate 15 0 ++ [1])
  end.
Definition IsUnspecified (ip : ip_addr) : bool :=
  match To4 ip with
  | Some v4 => bool_decide (v4 = [0; 0; 0; 0])
  | None => bool_decide (ip = replicate 16 0)
  end.
Definition IsPrivate (ip : ip_addr) : bool :=
  match To4 ip with
  | Some v4 =>
      let a := byte_at 0 v4 in let b := byte_at 1 v4 in
      (a =? 10) || (a =? 172) && (Z.land b 240 =? 16) || (a =? 192) && (b =? 168)
  | None => bool_decide (length ip = 16%nat) && (Z.land (byte_at 0 ip) 254 =? 252)
  end.
Definition IsLinkLocalMulticast (ip : ip_addr) : bool :=
  match To4 ip with
  | Some v4 => (byte_at 0 v4 =? 224) && (byte_at 1 v4 =? 0) && (byte_at 2 v4 =? 0)
  | None => bool_decide (length ip = 16%nat) && (byte_at 0 ip =? 255) && (Z.land (byte_at 1 ip) 15 =? 2)
  end.
Definition IsLinkLocalUnicast (ip : ip_addr) : bool :=
  match To4 ip with
  | Some v4 => (byte_at 0 v4 =? 169) && (byte_at 1 v4 =? 254)
  | None => bool_decide (length ip = 16%nat) && (byte_at 0 ip =? 254) && (Z.land (byte_at 1 ip) 192 =? 128)
  end.

(** ** Package net: text *)

(** The pieces between the bytes [c]. *)
Fixpoint split_byte (c : Z) (s : string) : list string :=
  match s with
  | EmptyString => [""]
  | String d s' =>
      if byte_val d =? c then "" :: split_byte c s'
      else match split_byte c s' with p :: ps => String d p :: ps | [] => [String d ""] end
  end.
Definition has_byte (c : Z) (s : string) : bool := str_exists (fun d => byte_val d =? c) s.

(** The bytes before and after the last byte [c]. *)
Fixpoint cut_last (c : Z) (s : string) : option (string * string) :=
  match s with
  | EmptyString => None
  | String d s' =>
      match cut_last c s' with
      | Some (a, b) => Some (String d a, b)
      | None => if byte_val d =? c then Some ("", s') else None
      end
  end.
(** The bytes before and after the first byte [c]. *)
Fixpoint cut_first (c : Z) (s : string) : option (string * string) :=
  match s with
  | EmptyString => None
  | String d s' =>
      if byte_val d =? c then Some ("", s')
      else match cut_first c s' with Some (a, b) => Some (String d a, b) | None => None end
  end.

(** A decimal field without leading zeros up to 255. *)
Definition octet (s : string) : option Z :=
  match digits s with
  | Some z =>
      if (z <=? 255) && ((str_len s =? 1) || negb (has_prefix s "0")) then Some z else None
  | None => None
  end.
Definition parseIPv4 (s : string) : option ip_addr :=
  match mapM octet (split_byte 46 s) with
  | Some bytes => if bool_decide (length bytes = 4%nat) then Some bytes else None
  | None => None
  end.

Definition hex_val (c : Ascii.ascii) : option Z :=
  let b := byte_val c in
  if (48 <=? b) && (b <=? 57) then Some (b - 48)
  else if (97 <=? b) && (b <=? 102) then Some (b - 87)
  else if (65 <=? b) && (b <=? 70) then Some (b - 55)
  else None.
(** The leading hexadecimal digits: how many, their value, and the rest. *)
Fixpoint hex_run (s : string) (count acc : Z) : Z * Z * string :=
  match s with
  | String c s' => match hex_val c with Some d => hex_run s' (count + 1) (acc * 16 + d) | None => (count, acc, s) end
  | EmptyString => (count, acc, s)
  end.

Definition next_byte (c : Z) (s : string) : bool := match s with String d _ => byte_val d =? c | EmptyString => false end.

(** The loop of [netip.parseIPv6]: the bytes so far, where the ellipsis stands, and
    what is left of the text.  A turn adds two or four bytes, so that [fuel] turns
    suffice for 2 [fuel] bytes; the loop ends at 16. *)
Fixpoint ipv6_fields (fuel : nat) (bytes : list Z) (ellipsis : option nat) (s : string)
    : option (list Z * option nat) :=
  match fuel with
  | O => if s == "" then Some (bytes, ellipsis) else None
  | S f =>
      let '(count, value, rest) := hex_run s 0 0 in
      if (count =? 0) || (4 <? count) then None
      else if next_byte 46 rest then
        if bool_decide (ellipsis = None) && negb (bool_decide (length bytes = 12%nat)) then None
        else if bool_decide (16 < length bytes + 4)%nat then None
        else match parseIPv4 s with Some v4 => Some (bytes ++ v4, ellipsis) | None => None end
      else
        let bytes := bytes ++ [Z.shiftr value 8; Z.land value 255] in
        match rest with
        | EmptyString => Some (bytes, ellipsis)
        | String c rest =>
            if negb (byte_val c =? 58) || (rest == "") then None
            else if next_byte 58 rest then
              if bool_decide (ellipsis <> None) then None
              else
                let after := str_drop 1 rest in
                if after == "" then Some (bytes, Some (length bytes))
                else ipv6_fields f bytes (Some (length bytes)) after
            else ipv6_fields f bytes ellipsis rest
        end
  end.

(** The ellipsis stands for at least one group of zeros. *)
Definition parseIPv6 (s : string) : option ip_addr :=
  let expand fields :=
    match fields with
    | None => None
    | Some (bytes, None) => if bool_decide (length bytes = 16%nat) then Some bytes else None
    | Some (bytes, Some at_) =>
        if bool_decide (length bytes < 16)%nat
        then Some (take at_ bytes ++ replicate (16 - length bytes) 0 ++ drop at_ bytes)
        else None
    end in
  if has_byte 37 s then None
  else if has_prefix s "::" then
    let rest := str_drop 2 s in
    if rest == "" then Some (replicate 16 0) else expand (ipv6_fields 8 [] (Some 0%nat) rest)
  else expand (ipv6_fields 8 [] None s).

(** [netip.ParseAddr] without zones: the first of the bytes [.] and [:] decides. *)
Definition ParseAddr (s : string) : option ip_addr :=
  let fix scan t :=
    match t with
    | EmptyString => None
    | String c t' =>
        if byte_val c =? 46 then parseIPv4 s
        else if byte_val c =? 58 then parseIPv6 s
        else if byte_val c =? 37 then None
        else scan t'
    end in
  scan s.
(** [Addr.As16]. *)
Definition As16 (ip : ip_addr) : ip_addr :=
  if bool_decide (length ip = 4%nat) then v4InV6Prefix ++ ip else ip.
Definition ParseIP (s : string) : option ip_addr := As16 <$> ParseAddr s.

Definition hexDigits (z : Z) : string :=
  let digit d := String (hex_digit d) "" in
  (if 4096 <=? z then digit (Z.shiftr z 12) else "")
  +:+ (if 256 <=? z then digit (Z.land (Z.shiftr z 8) 15) else "")
  +:+ (if 16 <=? z then digit (Z.land (Z.shiftr z 4) 15) else "")
  +:+ digit (Z.land z 15).
(** [Addr.v6u16]. *)
Definition group (ip : ip_addr) (i : nat) : Z := 256 * byte_at (2 * i) ip + byte_at (2 * i + 1) ip.
(** The length of the run of zero groups from [i]. *)
Definition zero_run (ip : ip_addr) (i : nat) : nat :=
  (fix run groups := match groups with 0 :: rest => S (run rest) | _ => O end) (map (group ip) (seq i (8 - i))).
(** The longest of the runs of at least two zero groups, the first of several:
    its start and its length. *)
Definition longest_zeros (ip : ip_addr) : nat * nat :=
  fold_left (fun best i =>
    let l := zero_run ip i in
    if bool_decide (2 <= l /\ snd best < l)%nat then (i, l) else best) (seq 0 8) (255%nat, 0%nat).

(** [Addr.appendTo6]: the groups in hexadecimal, the longest zeros as two colons. *)
Definition text6 (ip : ip_addr) : string :=
  let '(start, len) := longest_zeros ip in
  let groups from to_ := join ":" (map (fun i => hexDigits (group ip i)) (seq from (to_ - from))) in
  if bool_decide (len = 0%nat) then groups 0%nat 8%nat
  else groups 0%nat start +:+ "::" +:+ groups (start + len)%nat 8%nat.

(** [IP.String]. *)
Definition IPString (ip : ip_addr) : string :=
  if bool_decide (ip = []) then "<nil>"
  else if negb (bool_decide (length ip = 4%nat) || bool_decide (length ip = 16%nat))
  then "?" +:+ str_concat (map (hex_pad 2) ip)
  else
    match To4 ip with
    | Some v4 => join "." (map itoa v4)
    | None => text6 ip
    end.

(** ** Package net: CIDRs *)

Record IPNet := mkIPNet { in_IP : ip_addr; in_Mask : list Z }.

(** [CIDRMask]: [ones] bits set of the first [size] bytes. *)
Definition CIDRMask (ones : Z) (size : nat) : list Z :=
  map (fun i => let bits := Z.max 0 (Z.min 8 (ones - 8 * Z.of_nat i)) in 256 - 2 ^ (8 - bits)) (seq 0 size).
Definition mask_bytes (ip mask : list Z) : list Z := zip_with Z.land ip mask.
(** [IP.Mask] of an address and a mask of the lengths that [ParseCIDR] builds. *)
Definition Mask (ip mask : list Z) : list Z :=
  if bool_decide (length mask = 4%nat) && bool_decide (take 12 ip = v4InV6Prefix)
  then mask_bytes (drop 12 ip) mask
  else mask_bytes ip mask.

Definition ParseCIDR (s : string) : option IPNet :=
  match cut_first 47 s with
  | None => None
  | Some (addr, mask) =>
      match ParseAddr addr, digits mask with
      | Some ip, Some n =>
          let size := length ip in
          if (16777215 <=? n) || (8 * Z.of_nat size <? n) then None
          else let m := CIDRMask n size in Some (mkIPNet (Mask (As16 ip) m) m)
      | _, _ => None
      end
  end.

(** [networkNumberAndMask] and [IPNet.Contains]. *)
Definition networkNumberAndMask (n : IPNet) : ip_addr * list Z :=
  let ip := default (in_IP n) (To4 (in_IP n)) in
  let m := in_Mask n in
  if bool_decide (length m = 4%nat) then if bool_decide (length ip = 4%nat) then (ip, m) else ([], [])
  else if bool_decide (length m = 16%nat)
  then (ip, if bool_decide (length ip = 4%nat) then drop 12 m else m)
  else ([], []).
Definition Contains (n : IPNet) (ip : ip_addr) : bool :=
  let '(nn, m) := networkNumberAndMask n in
  let ip := default ip (To4 ip) in
  bool_decide (length ip = length nn) && bool_decide (mask_bytes nn m = mask_bytes ip m).

(** ** Package net: hosts and ports *)

(** [net.SplitHostPort]; its error is an [*AddrError]. *)
Definition SplitHostPort (hostport : string) : result (string * string) :=
  let fail why := Err (errorf ("address " +:+ hostport +:+ ": " +:+ why)) in
  let missingPort := fail "missing port in address" in
  let tooManyColons := fail "too many colons in address" in
  let checked host port before after :=
    if has_byte 91 before then fail "unexpected '[' in address"
    else if has_byte 93 after then fail "unexpected ']' in address"
    else Ok (host, port) in
  match cut_last 58 hostport with
  | None => missingPort
  | Some (before, port) =>
      if next_byte 91 hostport then
        match cut_first 93 hostport with
        | None => fail "missing ']' in address"
        | Some (host, behind) =>
            if behind == "" then missingPort
            else if bool_decide (String.length behind = S (String.length port)) && next_byte 58 behind
            then checked (str_drop 1 host) port (str_drop 1 hostport) behind
            else if next_byte 58 behind then tooManyColons
            else missingPort
        end
      else if has_byte 58 before then tooManyColons
      else checked before port hostport hostport
  end.

Definition JoinHostPort (host port : string) : string :=
  if has_byte 58 host then "[" +:+ host +:+ "]:" +:+ port else host +:+ ":" +:+ port.

(** A parsed URL, as far as the code reads it, and [URL.Hostname]. *)
Record URL := mkURL { url_Scheme : string; url_Host : string }.
Definition Hostname (u : URL) : string :=
  let host :=
    match cut_last 58 (url_Host u) with
    | Some (before, port) => if str_all is_ascii_digit port then before else url_Host u
    | None => url_Host u
    end in
  if has_prefix host "[" && has_suffix host "]"
  then str_take (String.length host - 2) (str_drop 1 host) else host.

(** [url.Parse]. *)
Class URLs := { url_Parse : string -> result URL }.

(** ** The network policy *)

Record DataSourceNetworkPolicy := mkDataSourceNetworkPolicy {
  np_AllowedHosts : list string;
  np_AllowedCIDRs : list string;
  np_DeniedCIDRs : list string
}.

Definition ipForNetworkPolicy (ip : ip_addr) : ip_addr := default ip (To4 ip).
Definition ipInCIDR (ip : ip_addr) (cidr : string) : bool :=
  match ParseCIDR (trim_space cidr) with Some network => Contains network ip | None => false end.
Definition ipAllowedByCIDR (ip : ip_addr) (cidrs : list string) : bool := existsb (ipInCIDR ip) cidrs.

Definition isClusterServiceHost (host : string) : bool :=
  has_suffix host ".svc" || has_suffix host ".svc.cluster.local".

Definition metadataCIDRs : list string := ["169.254.169.254/32"; "fd00:ec2::254/128"].

Definition deniedByNetworkPolicy (message : string) : ValidationError :=
  mkValidationError "DatasourceNetworkPolicyDenied" message.

Definition validateDatasourceIP (ip : ip_addr) (policy : DataSourceNetworkPolicy) (allowPrivate : bool)
    : option ValidationError :=
  let policyIP := ipForNetworkPolicy ip in
  if existsb (ipInCIDR policyIP) (metadataCIDRs ++ np_DeniedCIDRs policy)
  then Some (deniedByNetworkPolicy
               ("endpoint IP " +:+ IPString policyIP +:+ " is denied by datasource network policy"))
  else if IsLoopback policyIP || IsLinkLocalUnicast policyIP || IsLinkLocalMulticast policyIP
          || IsUnspecified policyIP
  then Some (deniedByNetworkPolicy
               ("endpoint IP " +:+ IPString policyIP +:+ " is loopback, link-local, or unspecified"))
  else if IsPrivate policyIP && negb allowPrivate && negb (ipAllowedByCIDR policyIP (np_AllowedCIDRs policy))
  then Some (deniedByNetworkPolicy
               ("private endpoint IP " +:+ IPString policyIP
                +:+ " requires datasource networkPolicy.allowedCIDRs"))
  else None.

Section Policy.
Context {U : UnicodeTables} {UP : URLs}.

Fixpoint hostMatches (host : string) (allowedHosts : list string) : bool :=
  match allowedHosts with
  | [] => false
  | item :: rest =>
      let allowed := normalizedName item in
      if allowed == "" then hostMatches host rest
      else if allowed == host then true
      else if has_prefix allowed "*." && has_suffix host (trim_prefix allowed "*") then true
      else hostMatches host rest
  end.
Definition hostAllowed (host : string) (allowedHosts : list string) : bool :=
  bool_decide (allowedHosts = []) || isClusterServiceHost host || hostMatches host allowedHosts.

Definition wrapResolvedIPError (host : string) (ip : ip_addr) (err : ValidationError) : ValidationError :=
  mkValidationError (ve_Reason err)
    ("datasource host " +:+ quote host +:+ " resolved to denied IP " +:+ IPString ip +:+ ": " +:+ ve_Message err).

Definition validateDatasourceResolvedIP (host : string) (ip : ip_addr) (policy : DataSourceNetworkPolicy)
    : option ValidationError :=
  let host := if trim_space host == "" then "<empty>" else host in
  wrapResolvedIPError host ip <$> validateDatasourceIP ip policy (isClusterServiceHost host).

Definition validateDatasourceURL (parsed : URL) (policy : DataSourceNetworkPolicy) : option ValidationError :=
  let host := to_lower (trim_space (Hostname parsed)) in
  if trim_space (Hostname parsed) == "" then Some (deniedByNetworkPolicy "endpoint host is empty")
  else if (url_Scheme parsed != "http") && (url_Scheme parsed != "https")
  then Some (deniedByNetworkPolicy ("endpoint scheme " +:+ quote (url_Scheme parsed) +:+ " is not allowed"))
  else if negb (hostAllowed host (np_AllowedHosts policy))
  then Some (deniedByNetworkPolicy
               ("endpoint host " +:+ quote host +:+ " is not allowed by datasource networkPolicy.allowedHosts"))
  else
    match ParseIP host with
    | Some ip => validateDatasourceResolvedIP host ip policy
    | None => None
    end.

Definition validateDatasourceEndpoint (endpoint : string) (policy : DataSourceNetworkPolicy)
    : option ValidationError :=
  match url_Parse (trim_space endpoint) with
  | Err e => Some (deniedByNetworkPolicy ("endpoint URL is invalid: " +:+ err_msg e))
  | Ok parsed => validateDatasourceURL parsed policy
  end.

(** [CheckRedirect] of the client: the redirects followed so far, and the next.
    [Ok false] stops at the last response. *)
Definition CheckRedirect (policy : DataSourceNetworkPolicy) (via : nat) (next : URL)
    : result bool :=
  if (10 <=? via)%nat then Ok false
  else
    match validateDatasourceURL next policy with
    | Some e =>
        Err (errorf ("redirect target " +:+ quote (url_Host next)
                     +:+ " rejected by datasource network policy: " +:+ ve_Message e))
    | None => Ok true
    end.

(** ** Dialling *)

(** What the dialer does: the resolver's addresses of a host, and a connection
    to an address written as text. *)
Inductive net_op : Type -> Type :=
| NLookup (host : string) : net_op (result (list ip_addr))
| NDial (network address : string) : net_op (result string).

(** An error of the policy, or one of the connection itself. *)
Definition dial_error : Type := ValidationError + error.
Definition dialed (answer : result string) : string + dial_error :=
  match answer with Ok conn => inl conn | Err e => inr (inr e) end.
Definition dial_denied (e : ValidationError) : prog net_op (string + dial_error) := Ret (inr (inl e)).

(** [strings.Trim(host, "[]")]. *)
Definition is_bracket (c : Ascii.ascii) : bool := (byte_val c =? 91) || (byte_val c =? 93).
Fixpoint trim_left_brackets (s : string) : string :=
  match s with String c s' => if is_bracket c then trim_left_brackets s' else s | EmptyString => s end.
Fixpoint trim_right_brackets (s : string) : string :=
  match s with
  | EmptyString => s
  | String c s' =>
      let t := trim_right_brackets s' in
      if is_bracket c && (t == "") then "" else String c t
  end.
Definition dialHost (host : string) : string :=
  to_lower (trim_space (trim_right_brackets (trim_left_brackets host))).

Fixpoint firstDeniedAddress (host : string) (policy : DataSourceNetworkPolicy) (addrs : list ip_addr)
    : option ValidationError :=
  match addrs with
  | [] => None
  | ip :: rest =>
      match validateDatasourceResolvedIP host ip policy with
      | Some e => Some e
      | None => firstDeniedAddress host policy rest
      end
  end.

(** The function [datasourcePolicyDialContext] returns. *)
Definition datasourcePolicyDialContext (policy : DataSourceNetworkPolicy) (network address : string)
    : prog net_op (string + dial_error) :=
  match SplitHostPort address with
  | Err e =>
      dial_denied (deniedByNetworkPolicy ("dial address " +:+ quote address +:+ " is invalid: " +:+ err_msg e))
  | Ok (host, port) =>
      let host := dialHost host in
      if negb (hostAllowed host (np_AllowedHosts policy))
      then dial_denied (deniedByNetworkPolicy
             ("dial host " +:+ quote host +:+ " is not allowed by datasource networkPolicy.allowedHosts"))
      else
        match ParseIP host with
        | Some ip =>
            match validateDatasourceResolvedIP host ip policy with
            | Some e => dial_denied e
            | None => conn <~! NDial network (JoinHostPort (IPString ip) port); Ret (dialed conn)
            end
        | None =>
            addrs <~! NLookup host;
            match addrs with
            | Err e =>
                dial_denied (deniedByNetworkPolicy
                  ("resolve datasource host " +:+ quote host +:+ ": " +:+ err_msg e))
            | Ok [] =>
                dial_denied (deniedByNetworkPolicy
                  ("resolve datasource host " +:+ quote host +:+ " returned no IP addresses"))
            | Ok (ip :: rest) =>
                match firstDeniedAddress host policy (ip :: rest) with
                | Some e => dial_denied e
                | None => conn <~! NDial network (JoinHostPort (IPString ip) port); Ret (dialed conn)
                end
            end
        end
  end.

(** ** What the policy promises *)

(** The addresses a host may stand for, read off the policy. *)
Record reachable (policy : DataSourceNetworkPolicy) (host : string) (ip : ip_addr) : Prop := {
  reach_host : np_AllowedHosts policy = [] \/ isClusterServiceHost host = true
    \/ hostMatches host (np_AllowedHosts policy) = true;
  reach_denied cidr network : cidr ∈ metadataCIDRs ++ np_DeniedCIDRs policy ->
    ParseCIDR (trim_space cidr) = Some network -> Contains network ip = false;
  reach_local : IsLoopback ip = false /\ IsLinkLocalUnicast ip = false
    /\ IsLinkLocalMulticast ip = false /\ IsUnspecified ip = false;
  reach_private : IsPrivate ip = true -> isClusterServiceHost host = false ->
    exists cidr network, cidr ∈ np_AllowedCIDRs policy
      /\ ParseCIDR (trim_space cidr) = Some network /\ Contains network ip = true
}.

Lemma hostAllowed_spec host allowed :
  hostAllowed host allowed = true <->
  allowed = [] \/ isClusterServiceHost host = true \/ hostMatches host allowed = true.
Proof. unfold hostAllowed. rewrite !orb_true_iff, bool_decide_eq_true. tauto. Qed.

Lemma To4_length ip v4 : To4 ip = Some v4 -> length v4 = 4%nat.
Proof.
  unfold To4. repeat case_bool_decide; intros [= <-]; [done|].
  rewrite length_drop. destruct_and!. lia.
Qed.

Lemma To4_stable ip : To4 (ipForNetworkPolicy ip) = To4 ip.
Proof.
  unfold ipForNetworkPolicy. destruct (To4 ip) as [v4|] eqn:H; [|done]. cbn.
  apply To4_length in H. unfold To4. by rewrite bool_decide_eq_true_2.
Qed.

(** The tests read an address through its four-byte form. *)
Lemma Contains_policy_ip n ip : Contains n (ipForNetworkPolicy ip) = Contains n ip.
Proof.
  unfold Contains. destruct (networkNumberAndMask n). rewrite To4_stable. unfold ipForNetworkPolicy.
  by destruct (To4 ip).
Qed.

Lemma tests_policy_ip ip :
  IsLoopback (ipForNetworkPolicy ip) = IsLoopback ip /\
  IsLinkLocalUnicast (ipForNetworkPolicy ip) = IsLinkLocalUnicast ip /\
  IsLinkLocalMulticast (ipForNetworkPolicy ip) = IsLinkLocalMulticast ip /\
  IsUnspecified (ipForNetworkPolicy ip) = IsUnspecified ip /\
  IsPrivate (ipForNetworkPolicy ip) = IsPrivate ip.
Proof.
  unfold IsLoopback, IsLinkLocalUnicast, IsLinkLocalMulticast, IsUnspecified, IsPrivate.
  rewrite !To4_stable. unfold ipForNetworkPolicy. by destruct (To4 ip).
Qed.

Lemma existsb_ipInCIDR ip cidrs :
  existsb (ipInCIDR (ipForNetworkPolicy ip)) cidrs = true <->
  exists cidr network, cidr ∈ cidrs /\ ParseCIDR (trim_space cidr) = Some network /\ Contains network ip = true.
Proof.
  rewrite existsb_elem. unfold ipInCIDR. split.
  - intros (cidr & Hc & H). destruct (ParseCIDR (trim_space cidr)) as [n|] eqn:Hp; [|done].
    rewrite Contains_policy_ip in H. eauto.
  - intros (cidr & n & Hc & Hp & H). exists cidr. rewrite Hp, Contains_policy_ip. done.
Qed.

Lemma validateDatasourceIP_None ip policy allowPrivate :
  validateDatasourceIP ip policy allowPrivate = None <->
  existsb (ipInCIDR (ipForNetworkPolicy ip)) (metadataCIDRs ++ np_DeniedCIDRs policy) = false /\
  (IsLoopback ip = false /\ IsLinkLocalUnicast ip = false /\ IsLinkLocalMulticast ip = false
   /\ IsUnspecified ip = false) /\
  (IsPrivate ip = true -> allowPrivate = false ->
   existsb (ipInCIDR (ipForNetworkPolicy ip)) (np_AllowedCIDRs policy) = true).
Proof.
  unfold validateDatasourceIP, ipAllowedByCIDR.
  destruct (tests_policy_ip ip) as (-> & -> & -> & -> & ->).
  destruct (existsb _ (metadataCIDRs ++ _)); [split; [done|intros (? & _); done]|].
  destruct (IsLoopback ip), (IsLinkLocalUnicast ip), (IsLinkLocalMulticast ip), (IsUnspecified ip); cbn;
    try (split; [done|intros (_ & (? & ? & ? & ?) & _); done]).
  destruct (IsPrivate ip), allowPrivate, (existsb _ (np_AllowedCIDRs policy)); cbn; split;
    first [done|intros (_ & _ & H); by specialize (H eq_refl eq_refl)|intros _; split_and!; try done; by intros].
Qed.

(** The validator lets through the addresses the policy promises. *)
Lemma validated_reachable policy host ip :
  hostAllowed host (np_AllowedHosts policy) = true ->
  validateDatasourceResolvedIP host ip policy = None -> reachable policy host ip.
Proof.
  unfold validateDatasourceResolvedIP. rewrite hostAllowed_spec, fmap_None, validateDatasourceIP_None.
  set (host' := if trim_space host == "" then _ else _). intros Hh (Hd & Hl & Hp). split; [done| |done|].
  - intros cidr n Hc Hn. apply not_true_is_false. intros Hi. revert Hd. apply not_false_iff_true.
    apply existsb_ipInCIDR. eauto.
  - intros Hi Hs. apply existsb_ipInCIDR, (Hp Hi). subst host'. by destruct (trim_space host == "").
Qed.

Lemma reachable_validated policy host ip :
  trim_space host <> "" -> reachable policy host ip ->
  hostAllowed host (np_AllowedHosts policy) = true /\ validateDatasourceResolvedIP host ip policy = None.
Proof.
  intros Hb [Hh Hd Hl Hp]. split; [by apply hostAllowed_spec|].
  unfold validateDatasourceResolvedIP. rewrite fmap_None, validateDatasourceIP_None.
  destruct (String.eqb_spec (trim_space host) "") as [?|_]; [done|]. split; [|split; [done|]].
  - apply not_true_is_false. intros (cidr & n & Hc & Hn & Hi)%existsb_ipInCIDR.
    by rewrite (Hd cidr n Hc Hn) in Hi.
  - intros Hi Hs. apply existsb_ipInCIDR. by apply Hp.
Qed.

Lemma firstDenied_None host policy addrs :
  firstDeniedAddress host policy addrs = None <->
  Forall (fun ip => validateDatasourceResolvedIP host ip policy = None) addrs.
Proof.
  induction addrs as [|ip addrs IH]; cbn; [by split|].
  rewrite Forall_cons, <-IH. destruct (validateDatasourceResolvedIP host ip policy); intuition congruence.
Qed.

(** The event is a dial to an address that the policy lets the dialled host stand
    for: the one written in the address, or the first the resolver gave. *)
Definition dial_allowed (policy : DataSourceNetworkPolicy) (network address : string)
    (before : list (event net_op)) (ev : event net_op) : Prop :=
  let '(Ev e _) := ev in
  match e with
  | NLookup _ => True
  | NDial n target =>
      exists host port ip,
        SplitHostPort address = Ok (host, port) /\
        n = network /\ target = JoinHostPort (IPString ip) port /\
        reachable policy (dialHost host) ip /\
        (ParseIP (dialHost host) = Some ip \/
         exists rest, Ev (NLookup (dialHost host)) (Ok (ip :: rest)) ∈ before)
  end.

Lemma dial_safe policy network address :
  wp log_env (all_justified (dial_allowed policy network address))
    (datasourcePolicyDialContext policy network address) [] (fun _ _ => True).
Proof.
  assert (H0 : all_justified (dial_allowed policy network address) []) by apply all_justified_nil.
  unfold datasourcePolicyDialContext.
  destruct (SplitHostPort address) as [[host port]|e] eqn:Hs; [|by apply wp_ret].
  destruct (hostAllowed (dialHost host) (np_AllowedHosts policy)) eqn:Hh; [|by apply wp_ret]. cbn [negb].
  destruct (ParseIP (dialHost host)) as [ip|] eqn:Hip.
  - destruct (validateDatasourceResolvedIP (dialHost host) ip policy) eqn:Hv; [by apply wp_ret|].
    apply wp_event; [done| |intros; by apply wp_ret]. intros conn. exists host, port, ip.
    split_and!; [done..|by apply validated_reachable|by left].
  - apply wp_event; [done|done|]. intros addrs Hj.
    destruct addrs as [[|ip rest]|e]; [by apply wp_ret| |by apply wp_ret].
    destruct (firstDeniedAddress (dialHost host) policy (ip :: rest)) eqn:Hf; [by apply wp_ret|].
    apply firstDenied_None, Forall_cons in Hf as [Hv _].
    apply wp_event; [done| |intros; by apply wp_ret]. intros conn. exists host, port, ip.
    split_and!; [done..|by apply validated_reachable|]. right. exists rest. apply snoc_elem.
Qed.

(** C12: every connection of a data source's client is to an address the network
    policy allows the host to stand for - none of the denied and metadata CIDRs,
    no loopback, link-local or unspecified address, a private one only in an
    allowed CIDR or for a cluster service, and only for an allowed host - and it
    is the address that was checked: the literal of the host, or the first answer
    of the one lookup of the dial, never a second resolution. *)
Theorem dial_only_reachable policy network address o log before n target answer after :
  logged (datasourcePolicyDialContext policy network address) o log ->
  log = before ++ Ev (NDial n target) answer :: after ->
  exists host port ip,
    SplitHostPort address = Ok (host, port) /\
    n = network /\ target = JoinHostPort (IPString ip) port /\
    reachable policy (dialHost host) ip /\
    (ParseIP (dialHost host) = Some ip \/
     exists rest, Ev (NLookup (dialHost host)) (Ok (ip :: rest)) ∈ before).
Proof.
  intros Hrun Heq. exact (logged_justified _ _ _ _ (dial_safe policy network address) Hrun before _ after Heq).
Qed.
End Policy.

(** ** A concrete policy *)

#[local] Existing Instance plain_tables.

Definition net_policy : DataSourceNetworkPolicy :=
  mkDataSourceNetworkPolicy ["*.example.com"] ["10.1.0.0/16"] ["10.1.2.0/24"].

(** The resolver answers two addresses, and every connection succeeds. *)
Definition net_handler (log : list (event net_op)) (X : Type) (op : net_op X) : option (X * list (event net_op)) :=
  match op in net_op X return option (X * list (event net_op)) with
  | NLookup host =>
      let answer := Ok [[10; 1; 3; 4]; [10; 1; 9; 9]] in Some (answer, log ++ [Ev (NLookup host) answer])
  | NDial network address => Some (Ok "conn", log ++ [Ev (NDial network address) (Ok "conn")])
  end.
Definition net_run : option (string + dial_error) * list (event net_op) :=
  run net_handler (datasourcePolicyDialContext net_policy "tcp" "prom.example.com:9090") [].

Lemma net_logged : logged (datasourcePolicyDialContext net_policy "tcp" "prom.example.com:9090") net_run.1 net_run.2.
Proof. apply run_exec. intros w X op x w' H. destruct op; cbn in H; by simplify_eq. Qed.

Lemma dial_only_reachable_witness :
  exists host port ip,
    SplitHostPort "prom.example.com:9090" = Ok (host, port) /\
    "tcp" = "tcp" /\ "10.1.3.4:9090" = JoinHostPort (IPString ip) port /\
    reachable net_policy (dialHost host) ip /\
    (ParseIP (dialHost host) = Some ip \/
     exists rest, Ev (NLookup (dialHost host)) (Ok (ip :: rest)) ∈
       [Ev (NLookup "prom.example.com") (Ok [[10; 1; 3; 4]; [10; 1; 9; 9]])]).
Proof.
  apply (dial_only_reachable net_policy "tcp" "prom.example.com:9090" net_run.1 net_run.2
    [Ev (NLookup "prom.example.com") (Ok [[10; 1; 3; 4]; [10; 1; 9; 9]])] "tcp" "10.1.3.4:9090" (Ok "conn") [] net_logged).
  vm_compute. reflexivity.
Defined.

(** Denied addresses in every spelling, and a private one outside the allowed CIDRs. *)
Example denied_addresses :
  map (fun ip => match validateDatasourceResolvedIP "prom.example.com" ip net_policy with Some _ => true | None => false end)
    [[10; 1; 2; 3]; As16 [10; 1; 2; 3]; [169; 254; 169; 254]; As16 [127; 0; 0; 1]; [192; 168; 0; 1];
     [10; 1; 3; 4]; [8; 8; 8; 8]]
  = [true; true; true; true; true; false; false].
Proof. vm_compute. reflexivity. Qed.
