(* ===== verification/QueryPolicy.v ===== *)
(** * Query policies (internal/querypolicy)

    What a data source's policy lets an investigation ask: the mode, the named
    templates, the time range, the target scope, and the syntax of the rendered
    PromQL or LogQL query, whose function calls and pipeline stages are found by
    scanning the query with its quoted parts blanked out.  A scan works on the
    rest of the query: an index of the code is the suffix that starts there. *)

From Stdlib Require Import ZArith Lia.
From stdpp Require Import base list strings gmap.
From S2P Require Import Prelude GoStrings Utf8 Api InvestigationApi DataClassification InvestigationSpec Datasource.

(** ** Decisions (internal/querypolicy/policy.go) *)

Definition PolicyAllowed : string := "allowed".
Definition PolicyRejected : string := "rejected".
Definition ReasonPolicyAllowed : string := "allowed".
Definition ReasonLegacyUnrestricted : string := "legacy_unrestricted".
Definition ReasonNoPolicy : string := "no_policy".
Definition ReasonModeUnsupported : string := "mode_unsupported".
Definition ReasonTemplateRequired : string := "template_required".
Definition ReasonTemplateNotAllowed : string := "template_not_allowed".
Definition ReasonRangeExceeded : string := "range_exceeded".
Definition ReasonRegexDenied : string := "regex_denied".
Definition ReasonTargetScopeRequired : string := "target_scope_required".
Definition ReasonFunctionDenied : string := "function_denied".
Definition ReasonFunctionNotAllowed : string := "function_not_allowed".
Definition ReasonSubqueryDenied : string := "subquery_denied".
Definition ReasonOffsetDenied : string := "offset_denied".
Definition ReasonAtModifierDenied : string := "at_modifier_denied".
Definition ReasonPipelineStageDenied : string := "pipeline_stage_denied".
Definition ReasonPipelineStageNotAllowed : string := "pipeline_stage_not_allowed".

Record PolicyRequest := mkPolicyRequest {
  pr_DatasourceName : string;
  pr_TemplateName : string;
  pr_FromTemplate : bool;
  pr_Query : string;
  pr_QueryType : string;
  pr_Lookback : duration;
  pr_Target : ResourceRef;
  pr_Labels : gmap string string
}.

Record PolicyDecision := mkPolicyDecision { pd_Decision : string; pd_Reason : string; pd_Message : string }.
Definition allowed (reason message : string) : PolicyDecision := mkPolicyDecision PolicyAllowed reason message.
Definition policyRejected (reason message : string) : PolicyDecision := mkPolicyDecision PolicyRejected reason message.

(** ** Quoted content (internal/querypolicy/syntax.go) *)

Definition is_quote (r : Z) : bool := (r =? 34) || (r =? 39) || (r =? 96).

(** The loop over the runes; [quote] is 0 outside a quotation. *)
Fixpoint strip_runes (quote : Z) (escaped : bool) (l : list Z) : list Z :=
  match l with
  | [] => []
  | r :: l' =>
      if quote =? 0 then
        if is_quote r then 32 :: strip_runes r escaped l' else r :: strip_runes quote escaped l'
      else if negb (quote =? 96) && (r =? 92) && negb escaped then 32 :: strip_runes quote true l'
      else 32 :: strip_runes (if (r =? quote) && negb escaped then 0 else quote) false l'
  end.
Definition runes_of (s : string) : list Z := map fst (segments s).
Definition string_of (l : list Z) : string := str_concat (map encode_rune l).
Definition stripQuotedContent (value : string) : string := string_of (strip_runes 0 false (runes_of value)).

(** ** Scanning helpers (internal/querypolicy/promql.go) *)

Fixpoint skipSpaces (s : string) : string :=
  match s with
  | String c s' => if is_space_byte c then skipSpaces s' else s
  | EmptyString => EmptyString
  end.
(** [query[i] == c] with the bounds check. *)
Definition next_is (c : Z) (s : string) : bool :=
  match s with String d _ => byte_val d =? c | EmptyString => false end.

(** What follows the parenthesis that closes the one [value] starts with. *)
Fixpoint afterParen (depth : Z) (value : string) : option string :=
  match value with
  | EmptyString => None
  | String c rest =>
      if byte_val c =? 40 then afterParen (depth + 1) rest
      else if byte_val c =? 41 then
        if depth - 1 =? 0 then Some rest else afterParen (depth - 1) rest
      else afterParen depth rest
  end.
Definition matchingParen (value : string) : option string := afterParen 0 value.

(** [s] cut at the first byte [c]. *)
Fixpoint cut_byte (c : Z) (s : string) : option (string * string) :=
  match s with
  | EmptyString => None
  | String d s' =>
      if byte_val d =? c then Some ("", s')
      else match cut_byte c s' with Some (a, b) => Some (String d a, b) | None => None end
  end.

Fixpoint hasPromQLSubquery_fuel (fuel : nat) (query : string) : bool :=
  match fuel, query with
  | S f, String c rest =>
      if byte_val c =? 91 then
        match cut_byte 93 rest with
        | None => false
        | Some (inside, after) => contains inside ":" || hasPromQLSubquery_fuel f after
        end
      else hasPromQLSubquery_fuel f rest
  | _, _ => false
  end.
Definition hasPromQLSubquery (query : string) : bool := hasPromQLSubquery_fuel (String.length query) query.

Fixpoint hasPromQLAtModifier (query : string) : bool :=
  match query with
  | EmptyString => false
  | String c rest =>
      if negb (byte_val c =? 64) then hasPromQLAtModifier rest
      else if next_is 64 rest then hasPromQLAtModifier rest
      else true
  end.

Section Policy.
Context {U : UnicodeTables}.

Definition isIdentifierStart (r : Z) : bool := (r =? 95) || is_letter_rune r.
Definition isIdentifierPart (r : Z) : bool := (r =? 95) || (r =? 58) || is_letter_rune r || is_digit_rune r.
(** The same test of a single byte, converted with [rune(query[i])]. *)
Definition isIdentifierByte (c : Ascii.ascii) : bool :=
  (byte_val c =? 95) || (byte_val c =? 58) || is_letter_byte c || is_digit_byte c.

(** The loop over the positions; [before] is the byte in front. *)
Fixpoint word_token_at (token : string) (before : option Ascii.ascii) (lower : string) : bool :=
  has_prefix lower token
    && match before with Some c => negb (isIdentifierByte c) | None => true end
    && match str_drop (String.length token) lower with
       | String c _ => negb (isIdentifierByte c)
       | EmptyString => true
       end
  || match lower with String c rest => word_token_at token (Some c) rest | EmptyString => false end.
Definition hasWordToken (query token : string) : bool := word_token_at (to_lower token) None (to_lower query).

(** ** PromQL function calls *)

Definition promQLAggregators : list string :=
  ["sum"; "min"; "max"; "avg"; "group"; "stddev"; "stdvar"; "count"; "count_values"; "bottomk"; "topk"; "quantile"].
Definition promQLNonFunctions : list string :=
  ["bool"; "by"; "group_left"; "group_right"; "ignoring"; "offset"; "on"; "without"].

(** The modifier loop: where the argument list may start, or [None] for
    [return false]. *)
Fixpoint after_modifier (modifiers : list string) (query : string) : option string :=
  match modifiers with
  | [] => Some query
  | modifier :: more =>
      if negb (has_prefix (to_lower query) modifier) then after_modifier more query
      else
        let after := str_drop (String.length modifier) query in
        if match after with String c _ => isIdentifierByte c | EmptyString => false end
        then after_modifier more query
        else if next_is 40 (skipSpaces after) then skipSpaces <$> matchingParen (skipSpaces after)
        else None
  end.
Definition hasPromQLAggregatorCall (query : string) : bool :=
  match after_modifier ["by"; "without"] (skipSpaces query) with
  | Some rest => next_is 40 rest
  | None => false
  end.

(** Whether an identifier, in lower case, followed by [after] is a call. *)
Definition isCall (identifier after : string) : bool :=
  negb (mem_str identifier promQLNonFunctions)
    && (next_is 40 (skipSpaces after)
        || mem_str identifier promQLAggregators && hasPromQLAggregatorCall (skipSpaces after)).

Fixpoint span_part (l : list (Z * string)) : list (Z * string) * list (Z * string) :=
  match l with
  | seg :: l' =>
      if isIdentifierPart (fst seg) then let '(a, b) := span_part l' in (seg :: a, b) else ([], l)
  | [] => ([], [])
  end.

(** The identifiers called, in order; [promQLFunctions] keeps the first of each. *)
Fixpoint calls_fuel (fuel : nat) (l : list (Z * string)) : list string :=
  match fuel, l with
  | S f, seg :: l' =>
      if negb (isIdentifierStart (fst seg)) then calls_fuel f l'
      else
        let '(parts, rest) := span_part l' in
        let identifier := to_lower (unsegment (seg :: parts)) in
        if isCall identifier (unsegment rest) then identifier :: calls_fuel f rest else calls_fuel f rest
  | _, _ => []
  end.
Definition calls (l : list (Z * string)) : list string := calls_fuel (length l) l.
Definition promQLFunctions (query : string) : list string := dedup_first (calls (segments query)).

(** ** Allow and deny lists *)

Definition normalizedSet (items : list string) : list string :=
  List.filter (fun n => n != "") (map normalizedName items).
Fixpoint firstDenied (items denied : list string) : string :=
  match items with
  | [] => ""
  | item :: more => if mem_str (normalizedName item) (normalizedSet denied) then normalizedName item else firstDenied more denied
  end.
Fixpoint firstOutside (items allowedSet : list string) : string :=
  match items with
  | [] => ""
  | item :: more => if mem_str (normalizedName item) allowedSet then firstOutside more allowedSet else normalizedName item
  end.
Definition firstNotAllowed (items allowed : list string) : string :=
  match allowed with [] => "" | _ => firstOutside items (normalizedSet allowed) end.

Definition explicitlyFalse (value : option bool) : bool := match value with Some b => negb b | None => false end.

Definition validatePromQLPolicy (policy : PromQLPolicy) (req : PolicyRequest) : PolicyDecision :=
  let query := stripQuotedContent (pr_Query req) in
  let functions := promQLFunctions query in
  let denied := firstDenied functions (pq_DeniedFunctions policy) in
  let notAllowed := firstNotAllowed functions (pq_AllowedFunctions policy) in
  if denied != "" then
    policyRejected ReasonFunctionDenied
      ("PromQL function " +:+ quote denied +:+ " is denied by datasource queryPolicy.prometheus")
  else if notAllowed != "" then
    policyRejected ReasonFunctionNotAllowed
      ("PromQL function " +:+ quote notAllowed
       +:+ " is not allowed by datasource queryPolicy.prometheus.allowedFunctions")
  else if explicitlyFalse (pq_AllowSubqueries policy) && hasPromQLSubquery query then
    policyRejected ReasonSubqueryDenied
      "PromQL subquery syntax is denied by datasource queryPolicy.prometheus.allowSubqueries=false"
  else if explicitlyFalse (pq_AllowOffset policy) && hasWordToken query "offset" then
    policyRejected ReasonOffsetDenied
      "PromQL offset modifier is denied by datasource queryPolicy.prometheus.allowOffset=false"
  else if explicitlyFalse (pq_AllowAtModifier policy) && hasPromQLAtModifier query then
    policyRejected ReasonAtModifierDenied
      "PromQL @ modifier is denied by datasource queryPolicy.prometheus.allowAtModifier=false"
  else allowed ReasonPolicyAllowed "PromQL syntax policy allowed query".

(** ** LogQL pipeline stages (internal/querypolicy/logql.go) *)

Definition isLogQLStageStart (c : Ascii.ascii) : bool := (byte_val c =? 95) || is_letter_byte c.
Definition isLogQLStagePart (c : Ascii.ascii) : bool := (byte_val c =? 95) || is_letter_byte c || is_digit_byte c.

Fixpoint span_stage (s : string) : string * string :=
  match s with
  | String c s' => if isLogQLStagePart c then let '(a, b) := span_stage s' in (String c a, b) else ("", s)
  | EmptyString => ("", "")
  end.

(** The stage that starts at the query's first byte, and the rest from [next]. *)
Definition nextLogQLStage (query : string) : option (string * string) :=
  if has_prefix query "|=" || has_prefix query "!=" then Some ("line_filter", str_drop 1 query)
  else if has_prefix query "|~" || has_prefix query "!~" then Some ("regex_filter", str_drop 1 query)
  else if negb (next_is 124 query) then None
  else
    match skipSpaces (str_drop 1 query) with
    | String c _ as stage =>
        if isLogQLStageStart c
        then Some (to_lower (span_stage stage).1, (span_stage stage).2)
        else None
    | EmptyString => None
    end.

(** After a stage the loop goes on one byte past [next]. *)
Fixpoint stages_fuel (fuel : nat) (query : string) : list string :=
  match fuel, query with
  | S f, String _ rest =>
      match nextLogQLStage query with
      | None => stages_fuel f rest
      | Some (stage, next) => stage :: stages_fuel f (str_drop 1 next)
      end
  | _, _ => []
  end.
Definition logQLPipelineStages (query : string) : list string :=
  dedup_first (stages_fuel (String.length query) query).

Definition validateLogQLPolicy (policy : LogQLPolicy) (req : PolicyRequest) : PolicyDecision :=
  let stages := logQLPipelineStages (stripQuotedContent (pr_Query req)) in
  let denied := firstDenied stages (lq_DeniedPipelineStages policy) in
  let notAllowed := firstNotAllowed stages (lq_AllowedPipelineStages policy) in
  if denied != "" then
    policyRejected ReasonPipelineStageDenied
      ("LogQL pipeline stage " +:+ quote denied +:+ " is denied by datasource queryPolicy.loki")
  else if notAllowed != "" then
    policyRejected ReasonPipelineStageNotAllowed
      ("LogQL pipeline stage " +:+ quote notAllowed
       +:+ " is not allowed by datasource queryPolicy.loki.allowedPipelineStages")
  else allowed ReasonPolicyAllowed "LogQL syntax policy allowed query".

(** ** [Validate] *)

Definition validateBackendSyntax (source : DataSource) (policy : DataSourceQueryPolicy) (req : PolicyRequest)
    : PolicyDecision :=
  let backend := normalizedName (ds_Type source) in
  if (backend == "prometheus") || (pr_QueryType req == QueryTypeMetric)
  then validatePromQLPolicy (dq_Prometheus policy) req
  else if (backend == "loki") || (pr_QueryType req == QueryTypeLog)
  then validateLogQLPolicy (dq_Loki policy) req
  else allowed ReasonPolicyAllowed "query policy has no backend-specific syntax restrictions for datasource".

Definition templateAllowed (templateName : string) (allowedTemplates : list string) : bool :=
  existsb (fun candidate => equal_fold (trim_space candidate) templateName) allowedTemplates.

Definition containsRegexMatcher (query : string) : bool :=
  contains query "=~" || contains query "!~" || contains query "|~".

(** [key] of a label matcher with a quoted value. *)
Definition matcher (key value : string) : string := key +:+ "=" +:+ str1 34 +:+ value +:+ str1 34.

Definition hasTargetScope (req : PolicyRequest) : bool :=
  if mem_str (pr_QueryType req)
       [QueryTypeEvent; QueryTypeDeploymentCondition; QueryTypeServiceConfiguration; QueryTypeProbeConfiguration;
        QueryTypeContainerTermination]
  then true
  else
    let query := pr_Query req in
    let namespace := default "" (first_non_blank [rr_Namespace (pr_Target req); map_get (pr_Labels req) "namespace"]) in
    if (namespace != "") && negb (contains query (matcher "namespace" namespace)) then false
    else existsb (fun value =>
           let value := trim_space value in
           (value != "") && (contains query (matcher "app" value) || contains query (matcher "workload" value)
                             || contains query (matcher "pod" value) || contains query (matcher "container" value)))
         [map_get (pr_Labels req) "app"; rr_Service (pr_Target req); rr_Name (pr_Target req)].

Definition validateTemplatesOnly (source : DataSource) (policy : DataSourceQueryPolicy) (req : PolicyRequest)
    : PolicyDecision :=
  let templateName := trim_space (pr_TemplateName req) in
  if (templateName == "") || negb (pr_FromTemplate req) then
    policyRejected ReasonTemplateRequired "datasource queryPolicy.mode=TemplatesOnly requires a named query template"
  else if negb (templateAllowed templateName (dq_AllowedTemplates policy)) then
    policyRejected ReasonTemplateNotAllowed
      ("query template " +:+ quote templateName +:+ " is not allowed by datasource queryPolicy.allowedTemplates")
  else if (0 <? dq_MaxRange policy) && (dq_MaxRange policy <? pr_Lookback req) then
    policyRejected ReasonRangeExceeded
      ("query lookback " +:+ DurationString (pr_Lookback req) +:+ " exceeds datasource queryPolicy.maxRange "
       +:+ DurationString (dq_MaxRange policy))
  else if negb (dq_AllowRegexMatchers policy) && containsRegexMatcher (pr_Query req) then
    policyRejected ReasonRegexDenied
      ("query template " +:+ quote templateName +:+ " rendered a regex matcher denied by datasource queryPolicy")
  else if dq_RequireTargetScope policy && negb (hasTargetScope req) then
    policyRejected ReasonTargetScopeRequired
      ("query template " +:+ quote templateName +:+ " did not render required target scope")
  else
    let decision := validateBackendSyntax source policy req in
    if pd_Decision decision == PolicyRejected then decision
    else allowed ReasonPolicyAllowed "query policy allowed datasource query".

Definition Validate (source : option DataSource) (req : PolicyRequest) : PolicyDecision :=
  match source with
  | None => allowed ReasonNoPolicy "datasource has no query policy"
  | Some source =>
      match ds_QueryPolicy source with
      | None => allowed ReasonNoPolicy "datasource has no query policy"
      | Some policy =>
          let mode := trim_space (dq_Mode policy) in
          if (mode == "") || (mode == DataSourceQueryPolicyModeLegacyUnrestricted) then
            allowed ReasonLegacyUnrestricted "datasource query policy allows legacy unrestricted queries"
          else if mode == DataSourceQueryPolicyModeTemplatesOnly then validateTemplatesOnly source policy req
          else policyRejected ReasonModeUnsupported
                 ("datasource queryPolicy.mode " +:+ quote (dq_Mode policy) +:+ " is not supported")
      end
  end.
End Policy.

(** ** Tokens of a PromQL query

    The scan is inside an identifier after [pre], or outside. *)
Section Tokens.
Context {U : UnicodeTables}.

Definition inside_step (inside : bool) (seg : Z * string) : bool :=
  if inside then isIdentifierPart (fst seg) else isIdentifierStart (fst seg).
Definition inside_identifier (pre : list (Z * string)) : bool := fold_left inside_step pre false.
(** The identifier ends where [post] starts. *)
Definition ends_identifier (post : list (Z * string)) : Prop :=
  match post with seg :: _ => isIdentifierPart (fst seg) = false | [] => True end.

(** [name] is the lower-case text of an identifier of [l] that is called. *)
Definition call_site (l : list (Z * string)) (name : string) : Prop :=
  exists pre seg parts post,
    l = pre ++ (seg :: parts) ++ post /\ inside_identifier pre = false /\
    isIdentifierStart (fst seg) = true /\ Forall (fun p => isIdentifierPart (fst p) = true) parts /\
    ends_identifier post /\ name = to_lower (unsegment (seg :: parts)) /\ isCall name (unsegment post) = true.

Lemma start_is_part r : isIdentifierStart r = true -> isIdentifierPart r = true.
Proof.
  unfold isIdentifierStart, isIdentifierPart. intros [->| ->]%orb_true_iff; [done|].
  by rewrite !orb_true_r.
Qed.

Lemma span_part_spec l :
  l = (span_part l).1 ++ (span_part l).2 /\
  Forall (fun p => isIdentifierPart (fst p) = true) (span_part l).1 /\ ends_identifier (span_part l).2.
Proof.
  induction l as [|seg l (Hl & Hp & He)]; [done|]. cbn [span_part].
  destruct (isIdentifierPart seg.1) eqn:E; [|by repeat split; try constructor].
  destruct (span_part l) as [a b]. cbn [fst snd] in *. split; [|split; [by constructor|done]].
  simpl. by rewrite Hl at 1.
Qed.

Lemma span_part_app parts post :
  Forall (fun p => isIdentifierPart (fst p) = true) parts -> ends_identifier post ->
  span_part (parts ++ post) = (parts, post).
Proof.
  intros Hp He. induction Hp as [|seg parts Hs Hp IH]; simpl.
  - destruct post as [|seg post]; simpl in *; [done|]. by rewrite He.
  - by rewrite Hs, IH.
Qed.

Lemma inside_parts parts : Forall (fun p => isIdentifierPart (fst p) = true) parts ->
  fold_left inside_step parts true = true.
Proof. induction 1 as [|seg parts Hs Hp IH]; simpl; [done|]. by rewrite Hs. Qed.

Lemma inside_boundary l : l <> [] -> ends_identifier l ->
  fold_left inside_step l true = fold_left inside_step l false.
Proof.
  destruct l as [|seg l]; [done|]. simpl. intros _ Hs. rewrite Hs.
  destruct (isIdentifierStart seg.1) eqn:E; [|done]. apply start_is_part in E. congruence.
Qed.

Lemma calls_fuel_sound n l name : name ∈ calls_fuel n l -> call_site l name.
Proof.
  revert l. induction n as [|n IH]; intros [|seg l]; simpl; try by intros ?%elem_of_nil.
  destruct (isIdentifierStart seg.1) eqn:Hstart; simpl.
  2:{ intros (pre & sg & parts & post & -> & Hpre & H)%IH. exists (seg :: pre), sg, parts, post.
      split; [done|]. split; [|done]. unfold inside_identifier in *. simpl. by rewrite Hstart. }
  destruct (span_part l) as [parts rest] eqn:E. pose proof (span_part_spec l) as (Hl & Hp & He).
  rewrite E in Hl, Hp, He. cbn [fst snd] in *. intros Hin.
  assert (Hcase : (name = to_lower (unsegment (seg :: parts)) /\ isCall name (unsegment rest) = true)
                  \/ name ∈ calls_fuel n rest).
  { destruct (isCall _ (unsegment rest)) eqn:Hc; [|by right].
    apply elem_of_cons in Hin as [->|Hin]; [by left|by right]. }
  destruct Hcase as [[Hn Hc]|(pre & sg & ps & post & -> & Hpre & Hsg & H)%IH].
  - exists [], seg, parts, rest. by rewrite Hl.
  - exists (seg :: parts ++ pre), sg, ps, post.
    split; [rewrite Hl; simpl; by rewrite <- app_assoc|]. split; [|done].
    unfold inside_identifier in *. simpl. rewrite Hstart, fold_left_app, inside_parts by done.
    destruct pre as [|s pre].
    { simpl in He. apply start_is_part in Hsg. congruence. }
    by rewrite inside_boundary.
Qed.

Lemma calls_fuel_complete n l name : (length l <= n)%nat -> call_site l name -> name ∈ calls_fuel n l.
Proof.
  revert l. induction n as [|n IH]; intros l Hn (pre & seg & parts & post & -> & Hpre & Hs & Hp & He & Hname & Hc).
  { rewrite !length_app in Hn. simpl in Hn. lia. }
  rewrite length_app in Hn. unfold inside_identifier in Hpre.
  destruct pre as [|s0 pre]; cbn [app calls_fuel]; simpl in Hn.
  { rewrite Hs, span_part_app by done. cbn [negb]. rewrite <- Hname, Hc. apply list_elem_of_here. }
  simpl in Hpre. destruct (isIdentifierStart s0.1) eqn:Hs0; simpl.
  2:{ apply IH; [rewrite length_app; simpl; lia|]. by exists pre, seg, parts, post. }
  destruct (span_part (pre ++ seg :: parts ++ post)) as [ps rest] eqn:E.
  pose proof (span_part_spec (pre ++ seg :: parts ++ post)) as (Hl & Hps & Hrest). rewrite E in Hl, Hps, Hrest.
  cbn [fst snd] in *.
  assert (exists pre', pre' <> [] /\ pre = ps ++ pre' /\ rest = pre' ++ (seg :: parts) ++ post) as (pre' & Hne & -> & ->).
  { apply app_eq_app in Hl as (mid & [[H1 H2]|[H1 H2]]); [|].
    - destruct mid as [|m mid]; [|by exists (m :: mid)]. exfalso.
      rewrite app_nil_r in H1. subst pre. by rewrite inside_parts in Hpre.
    - exfalso. subst ps. apply Forall_app in Hps as [Hps _]. by rewrite inside_parts in Hpre. }
  assert (Hin : name ∈ calls_fuel n (pre' ++ (seg :: parts) ++ post)).
  { apply IH; [rewrite !length_app in *; simpl in *; lia|]. exists pre', seg, parts, post.
    split; [done|]. split; [|done]. unfold inside_identifier.
    rewrite fold_left_app, (inside_parts ps) in Hpre by done. rewrite <- inside_boundary; [done|done|].
    by destruct pre'. }
  destruct (isCall (to_lower (unsegment (s0 :: ps))) _); [by apply list_elem_of_further|done].
Qed.

Lemma calls_spec l name : name ∈ calls l <-> call_site l name.
Proof. split; [apply calls_fuel_sound|by apply calls_fuel_complete]. Qed.

(** The functions of a query are the names of its calls, each once. *)
Lemma functions_spec query name : name ∈ promQLFunctions query <-> call_site (segments query) name.
Proof. unfold promQLFunctions. by rewrite dedup_first_elem, calls_spec. Qed.
End Tokens.



(** ** Exact meaning of the syntax checks *)

Definition no_byte (c : Z) (s : string) : bool := str_all (fun d => negb (byte_val d =? c)) s.

Lemma contains_cons d s t : contains (String d s) t = has_prefix (String d s) t || contains s t.
Proof. done. Qed.

Lemma no_byte_app c s t : no_byte c (s +:+ t) = no_byte c s && no_byte c t.
Proof. apply str_all_app. Qed.

Lemma cut_byte_app c a d b : no_byte c a = true -> byte_val d = c -> cut_byte c (a +:+ String d b) = Some (a, b).
Proof.
  intros Ha Hd. induction a as [|x a IH]; [simpl; by rewrite Hd, Z.eqb_refl|].
  unfold no_byte in *. cbn [str_all] in Ha. change (String x a +:+ String d b) with (String x (a +:+ String d b)).
  cbn [cut_byte]. go_bool. rewrite (proj2 (Z.eqb_neq _ _)) by done. by rewrite IH.
Qed.

Lemma cut_byte_Some c s a b : cut_byte c s = Some (a, b) ->
  exists d, byte_val d = c /\ s = a +:+ String d b /\ no_byte c a = true.
Proof.
  revert a. induction s as [|d s IH]; simpl; intros a H; [done|].
  destruct (Z.eqb_spec (byte_val d) c) as [E|E]; [by simplify_eq; exists d|].
  destruct (cut_byte c s) as [[a' b']|]; [|done]. simplify_eq. destruct (IH a' eq_refl) as (d' & Hd & -> & Ha).
  exists d'. split; [done|]. split; [done|]. cbn [no_byte str_all]. by rewrite (proj2 (Z.eqb_neq _ _) E).
Qed.

Lemma cut_byte_None c s : cut_byte c s = None -> no_byte c s = true.
Proof.
  induction s as [|d s IH]; simpl; [done|]. unfold no_byte in *. cbn [str_all].
  destruct (Z.eqb_spec (byte_val d) c); [done|]. destruct (cut_byte c s) as [[? ?]|]; [done|]. intros _. by apply IH.
Qed.

Lemma no_byte_cons c d s : no_byte c (String d s) = negb (byte_val d =? c) && no_byte c s.
Proof. done. Qed.

(** A subquery of the query: a bracketed range with a colon. *)
Definition has_subquery (query : string) : Prop :=
  exists a o b d c, query = a +:+ String o (b +:+ String d c) /\ byte_val o = 91 /\ byte_val d = 93 /\
    no_byte 93 b = true /\ contains b ":" = true.


Lemma has_subquery_cons o rest : has_subquery (String o rest) <->
  (byte_val o = 91 /\ exists b c, cut_byte 93 rest = Some (b, c) /\ contains b ":" = true) \/ has_subquery rest.
Proof.
  split.
  - intros (a & o' & b & d & c & Hq & Ho & Hd & Hb & Hc). destruct a as [|x a]; injection Hq as -> ->.
    + left. split; [done|]. exists b, c. by rewrite cut_byte_app.
    + right. by exists a, o', b, d, c.
  - intros [(Ho & b & c & Hcut & Hc)|(a & o' & b & d & c & -> & H)].
    + apply cut_byte_Some in Hcut as (d & Hd & -> & Hb). by exists "", o, b, d, c.
    + by exists (String o a), o', b, d, c.
Qed.

Lemma has_subquery_closed inside d after : byte_val d = 93 -> no_byte 93 inside = true ->
  has_subquery (inside +:+ String d after) -> contains inside ":" = true \/ has_subquery after.
Proof.
  intros Hd. induction inside as [|x inside IH]; intros Hi Hs; apply has_subquery_cons in Hs as [(Ho & b & c & Hcut & Hc)|Hs].
  - congruence.
  - by right.
  - unfold no_byte in Hi. cbn [str_all] in Hi. go_bool. rewrite cut_byte_app in Hcut by done. simplify_eq.
    left. by rewrite contains_cons, Hc, orb_true_r.
  - unfold no_byte in Hi. cbn [str_all] in Hi. go_bool.
    destruct (IH ltac:(done) Hs) as [H1|H1]; [left; by rewrite contains_cons, H1, orb_true_r|by right].
Qed.

Lemma has_subquery_fuel n query : (String.length query <= n)%nat ->
  hasPromQLSubquery_fuel n query = true <-> has_subquery query.
Proof.
  assert (H0 : ~ has_subquery "") by (intros ([|] & ? & ? & ? & ? & ? & _); done).
  revert query. induction n as [|n IH]; intros [|o rest] Hn; simpl in *; try done; try lia.
  rewrite has_subquery_cons. destruct (Z.eqb_spec (byte_val o) 91) as [Ho|Ho].
  2:{ rewrite IH by lia. tauto. }
  destruct (cut_byte 93 rest) as [[inside after]|] eqn:Hcut.
  - apply cut_byte_Some in Hcut as Hs. destruct Hs as (d & Hd & -> & Hi).
    rewrite orb_true_iff, IH by (rewrite append_length in Hn; simpl in Hn; lia). split.
    + intros [H|(a & o' & b & d' & c & -> & H)]; [left; eauto|]. right.
      exists (inside +:+ String d a), o', b, d', c. by rewrite <- append_assoc.
    + intros [(_ & b & c & Hb & Hc)|H]; [left; congruence|]. by apply (has_subquery_closed inside d).
  - split; [done|]. intros [(_ & b & c & Hb & _)|(a & o' & b & d & c & -> & _ & Hd & _)]; [done|].
    apply cut_byte_None in Hcut. rewrite no_byte_app, no_byte_cons, no_byte_app, no_byte_cons, Hd in Hcut.
    by go_bool.
Qed.

Lemma subquery_spec query : hasPromQLSubquery query = true <-> has_subquery query.
Proof. by apply has_subquery_fuel. Qed.

(** The look-ahead for a second [@] changes nothing: the last of a run counts. *)
Lemma at_modifier_spec query : hasPromQLAtModifier query = negb (no_byte 64 query).
Proof.
  unfold no_byte. induction query as [|c rest IH]; [done|]. cbn [hasPromQLAtModifier str_all].
  destruct (byte_val c =? 64); cbn [negb andb]; [|done]. destruct (next_is 64 rest) eqn:E; [|done].
  rewrite IH. destruct rest as [|d rest]; [done|]. simpl in *. by rewrite E.
Qed.

Section Exact.
Context {U : UnicodeTables}.

Fixpoint last_byte (before : option Ascii.ascii) (s : string) : option Ascii.ascii :=
  match s with String c s' => last_byte (Some c) s' | EmptyString => before end.
Definition first_byte (s : string) : option Ascii.ascii :=
  match s with String c _ => Some c | EmptyString => None end.
Definition word_boundary (c : option Ascii.ascii) : bool :=
  match c with Some c => negb (isIdentifierByte c) | None => true end.

Lemma word_token_step token before s : word_token_at token before s =
  has_prefix s token && word_boundary before && word_boundary (first_byte (str_drop (String.length token) s))
  || match s with String c rest => word_token_at token (Some c) rest | EmptyString => false end.
Proof. by destruct s; cbn [word_token_at]; destruct (str_drop _ _). Qed.

Lemma word_token_spec token before s : word_token_at token before s = true <->
  exists a b, s = a +:+ token +:+ b /\ word_boundary (last_byte before a) = true
              /\ word_boundary (first_byte b) = true.
Proof.
  assert (Hhere : forall before s,
    has_prefix s token && word_boundary before && word_boundary (first_byte (str_drop (String.length token) s)) = true
    <-> exists b, s = token +:+ b /\ word_boundary before = true /\ word_boundary (first_byte b) = true).
  { clear. intros before s. rewrite !andb_true_iff, has_prefix_spec. split.
    - intros [[[b ->] Hb] Hf]. rewrite str_drop_app in Hf. by exists b.
    - intros (b & -> & Hb & Hf). rewrite str_drop_app. eauto. }
  revert before. induction s as [|c s IH]; intros before; rewrite word_token_step, orb_true_iff, Hhere.
  - split.
    + intros [(b & Hs & H)|]; [|done]. by exists "", b.
    + intros (a & b & Hs & H1 & H2). left. destruct a; [|done]. by exists b.
  - rewrite IH. split.
    + intros [(b & Hs & H)|(a & b & -> & H)]; [by exists "", b|by exists (String c a), b].
    + intros (a & b & Hs & H1 & H2). destruct a as [|x a]; [left; by exists b|].
      injection Hs as -> ->. right. by exists a, b.
Qed.

(** The text [token] stands in [query] as a word of its own, in any case. *)
Definition word_occurs (query token : string) : Prop :=
  exists a b, to_lower query = a +:+ to_lower token +:+ b /\
    word_boundary (last_byte None a) = true /\ word_boundary (first_byte b) = true.

Lemma has_word_spec query token : hasWordToken query token = true <-> word_occurs query token.
Proof. apply word_token_spec. Qed.

(** *** Allow and deny lists *)

Lemma normalizedSet_elem n items : n ∈ normalizedSet items <-> n <> "" /\ n ∈ map normalizedName items.
Proof.
  unfold normalizedSet. rewrite list_filter_elem. destruct (String.eqb_spec n ""); simpl; naive_solver.
Qed.

Lemma firstDenied_none items denied : firstDenied items denied = "" <->
  forall x, x ∈ items -> normalizedName x ∉ normalizedSet denied.
Proof.
  induction items as [|item items IH]; simpl; [split; [intros _ x []%elem_of_nil|done]|].
  destruct (mem_str (normalizedName item) (normalizedSet denied)) eqn:E.
  - apply mem_str_spec in E. split.
    + intros He. apply normalizedSet_elem in E as [? _]. done.
    + intros H. destruct (H item (list_elem_of_here _ _)). done.
  - apply mem_str_false in E. rewrite IH. split.
    + intros H x [->|Hx]%elem_of_cons; auto.
    + intros H x Hx. apply H. by apply list_elem_of_further.
Qed.

Lemma firstOutside_none items allowedSet : (forall x, x ∈ items -> normalizedName x <> "") ->
  firstOutside items allowedSet = "" <-> forall x, x ∈ items -> normalizedName x ∈ allowedSet.
Proof.
  intros Hne. induction items as [|item items IH]; simpl; [split; [intros _ x []%elem_of_nil|done]|].
  destruct (mem_str (normalizedName item) allowedSet) eqn:E.
  - apply mem_str_spec in E. rewrite IH by (intros x Hx; apply Hne; by apply list_elem_of_further). split.
    + intros H x [->|Hx]%elem_of_cons; auto.
    + intros H x Hx. apply H. by apply list_elem_of_further.
  - apply mem_str_false in E. split.
    + intros He. destruct (Hne item (list_elem_of_here _ _)). done.
    + intros H. destruct E. apply H, list_elem_of_here.
Qed.

(** A name passes the two lists of a policy. *)
Definition permitted (allowedNames deniedNames : list string) (name : string) : Prop :=
  normalizedName name ∉ map normalizedName deniedNames /\
  (allowedNames = [] \/ normalizedName name ∈ map normalizedName allowedNames).

Lemma lists_spec items allowedNames deniedNames : (forall x, x ∈ items -> normalizedName x <> "") ->
  firstDenied items deniedNames = "" /\ firstNotAllowed items allowedNames = "" <->
  forall x, x ∈ items -> permitted allowedNames deniedNames x.
Proof.
  intros Hne. rewrite firstDenied_none. unfold firstNotAllowed, permitted.
  assert (Hset : forall x l, x ∈ items -> normalizedName x ∈ normalizedSet l <-> normalizedName x ∈ map normalizedName l).
  { intros x l Hx. rewrite normalizedSet_elem. specialize (Hne x Hx). tauto. }
  destruct allowedNames as [|a allowedNames].
  - split.
    + intros [H _] x Hx. split; [|by left]. rewrite <- Hset by done. auto.
    + intros H. split; [|done]. intros x Hx. rewrite Hset by done. by apply H.
  - rewrite firstOutside_none by done. split.
    + intros [H1 H2] x Hx. rewrite <- !Hset by done. split; [auto|]. right. auto.
    + intros H. split; intros x Hx; rewrite Hset by done; destruct (H x Hx) as [? [?|?]]; done.
Qed.

(** *** Names of ASCII queries are not blank *)

Lemma drop_space_last l x : is_space_rune (fst x) = false -> exists l', drop_space_segs (l ++ [x]) = l' ++ [x].
Proof.
  intros Hx. induction l as [|y l [l' IH]]; simpl; [rewrite Hx; by exists []|].
  destruct (is_space_rune y.1); [by exists l'|by exists (y :: l)].
Qed.

Lemma trim_space_nonblank c s : is_ascii_byte c = true -> is_space_byte c = false -> trim_space (String c s) <> "".
Proof.
  intros Ha Hs. unfold trim_space, trim_segs. rewrite segments_cons, decode_rune_ascii by done.
  cbn [fst snd drop_space_segs]. unfold is_space_byte in Hs. rewrite Hs. cbn [rev].
  destruct (drop_space_last (rev (segments (str_drop 1 (String c s)))) (byte_val c, str_take 1 (String c s)))
    as [l' ->]; [done|]. by rewrite rev_app_distr.
Qed.

Lemma to_lower_nonempty s : is_ascii s = true -> s <> "" -> to_lower s <> "".
Proof. unfold to_lower. intros -> ?. by destruct s. Qed.

Lemma trim_ascii s : is_ascii s = true -> is_ascii (trim_space s) = true.
Proof.
  intros Hs. unfold trim_space. destruct (trim_segs_infix (segments s)) as (l1 & l2 & H).
  by apply (str_all_segments _ s l1 _ l2).
Qed.

Lemma lower_byte_ascii c : is_ascii_byte c = true ->
  is_ascii_byte (lower_byte c) = true /\ byte_val (lower_byte c) = lower_byte_val (byte_val c).
Proof.
  unfold is_ascii_byte, rune_self, lower_byte. intros H%Z.ltb_lt. pose proof (byte_val_range c).
  assert (0 <= lower_byte_val (byte_val c) < 128) by (unfold lower_byte_val; case_match; go_bool; lia).
  rewrite byte_val_of by lia. split; [apply Z.ltb_lt; lia|done].
Qed.

Lemma str_map_lower_ascii s : is_ascii s = true -> is_ascii (str_map lower_byte s) = true.
Proof.
  unfold is_ascii. induction s as [|c s IH]; simpl; [done|]. intros [Hc Hs]%andb_true_iff.
  rewrite IH by done. by destruct (lower_byte_ascii c Hc) as [-> _].
Qed.

Lemma lower_start_not_space r : 0 <= r < 128 -> isIdentifierStart r = true ->
  is_space_rune (lower_byte_val r) = false.
Proof.
  unfold isIdentifierStart, is_letter_rune, rune_self, lower_byte_val, is_space_rune. intros Hr.
  rewrite (proj2 (Z.ltb_lt r 128)) by lia. intros H.
  repeat (apply orb_true_iff in H as [H|H]); go_bool; try (apply andb_true_iff in H as [H1 H2]); go_bool;
    repeat apply orb_false_intro; repeat case_match; go_bool; try (apply Z.eqb_neq); lia.
Qed.

Lemma call_name_nonblank query name : is_ascii query = true -> call_site (segments query) name -> normalizedName name <> "".
Proof.
  intros Ha (pre & seg & parts & post & Hl & _ & Hs & _ & _ & -> & _).
  pose proof (str_all_segments _ _ _ _ _ Ha Hl) as Hid.
  destruct (segments_split _ _ _ Hl) as [_ Hrest]. destruct (segments_split _ _ _ Hrest) as [Hseg _].
  destruct (unsegment (seg :: parts)) as [|c t] eqn:E; [done|].
  unfold str_all in Hid. fold str_all in Hid. apply andb_true_iff in Hid as Hid'. destruct Hid' as [Hc Ht].
  rewrite segments_cons, decode_rune_ascii in Hseg by done. injection Hseg as <- _. cbn [fst] in Hs.
  assert (Hlow : to_lower (String c t) = String (lower_byte c) (str_map lower_byte t)).
  { unfold to_lower. change (is_ascii (String c t)) with (is_ascii_byte c && is_ascii t).
    unfold is_ascii. by rewrite Hc, Ht. }
  pose proof (byte_val_range c). destruct (lower_byte_ascii c Hc) as [Hlc Hlv].
  unfold normalizedName. rewrite Hlow. apply to_lower_nonempty.
  - apply trim_ascii. rewrite <- Hlow. apply (str_map_lower_ascii (String c t)) in Hid. rewrite Hlow. exact Hid.
  - apply trim_space_nonblank; [done|]. unfold is_space_byte. rewrite Hlv. apply lower_start_not_space; [|done].
    unfold is_ascii_byte, rune_self in Hc. go_bool. lia.
Qed.

(** *** The policy of a PromQL query *)

(** A chain of early returns allows only when no test holds. *)
Lemma reject_if (b : bool) reason message d :
  pd_Decision (if b then policyRejected reason message else d) = PolicyAllowed <->
  b = false /\ pd_Decision d = PolicyAllowed.
Proof. destruct b; simpl; naive_solver. Qed.

Lemma nonempty_false s : (s != "") = false <-> s = "".
Proof. destruct (String.eqb_spec s ""); naive_solver. Qed.

(** What a policy lets a query, its quoted parts blanked out, do. *)
Definition promql_respects (policy : PromQLPolicy) (query : string) : Prop :=
  (forall name, call_site (segments query) name ->
     permitted (pq_AllowedFunctions policy) (pq_DeniedFunctions policy) name) /\
  (pq_AllowSubqueries policy = Some false -> ~ has_subquery query) /\
  (pq_AllowOffset policy = Some false -> ~ word_occurs query "offset") /\
  (pq_AllowAtModifier policy = Some false -> no_byte 64 query = true).

Lemma flag_spec (value : option bool) (found : bool) (P : Prop) : (found = true <-> P) ->
  explicitlyFalse value && found = false <-> (value = Some false -> ~ P).
Proof. intros HP. destruct value as [[]|], found; simpl; naive_solver. Qed.

Lemma validatePromQL_spec policy req : is_ascii (stripQuotedContent (pr_Query req)) = true ->
  pd_Decision (validatePromQLPolicy policy req) = PolicyAllowed <->
  promql_respects policy (stripQuotedContent (pr_Query req)).
Proof.
  intros Ha. set (query := stripQuotedContent (pr_Query req)) in *. unfold promql_respects.
  assert (Hne : forall x, x ∈ promQLFunctions query -> normalizedName x <> "").
  { intros x Hx. apply functions_spec in Hx. by apply call_name_nonblank in Hx. }
  rewrite <- (flag_spec _ (hasPromQLSubquery query)) by apply subquery_spec.
  rewrite <- (flag_spec _ (hasWordToken query "offset")) by apply has_word_spec.
  assert (Hat : (pq_AllowAtModifier policy = Some false -> no_byte 64 query = true) <->
    explicitlyFalse (pq_AllowAtModifier policy) && hasPromQLAtModifier query = false).
  { rewrite at_modifier_spec. destruct (pq_AllowAtModifier policy) as [[]|], (no_byte 64 query); naive_solver. }
  rewrite Hat. setoid_rewrite <- functions_spec. rewrite <- (lists_spec _ _ _ Hne).
  unfold validatePromQLPolicy. fold query. rewrite !reject_if, !nonempty_false. simpl. tauto.
Qed.

(** The conditions of the mode that do not read the query's syntax. *)
Definition template_respects (policy : DataSourceQueryPolicy) (req : PolicyRequest) : Prop :=
  trim_space (pr_TemplateName req) <> "" /\ pr_FromTemplate req = true /\
  (exists t, t ∈ dq_AllowedTemplates policy
             /\ equal_fold (trim_space t) (trim_space (pr_TemplateName req)) = true) /\
  (0 < dq_MaxRange policy -> pr_Lookback req <= dq_MaxRange policy) /\
  (dq_AllowRegexMatchers policy = false -> containsRegexMatcher (pr_Query req) = false) /\
  (dq_RequireTargetScope policy = true -> hasTargetScope req = true).

Lemma backend_decision source policy req :
  pd_Decision (validateBackendSyntax source policy req) = PolicyAllowed \/
  pd_Decision (validateBackendSyntax source policy req) = PolicyRejected.
Proof. unfold validateBackendSyntax, validatePromQLPolicy, validateLogQLPolicy. repeat case_match; auto. Qed.

Lemma templates_only_spec source policy req :
  pd_Decision (validateTemplatesOnly source policy req) = PolicyAllowed <->
  template_respects policy req /\ pd_Decision (validateBackendSyntax source policy req) = PolicyAllowed.
Proof.
  unfold validateTemplatesOnly, template_respects. cbv zeta. rewrite !reject_if.
  assert (Hlast : forall d, pd_Decision d = PolicyAllowed \/ pd_Decision d = PolicyRejected ->
    pd_Decision (if pd_Decision d == PolicyRejected then d
                 else allowed ReasonPolicyAllowed "query policy allowed datasource query") = PolicyAllowed
    <-> pd_Decision d = PolicyAllowed) by (intros d [H|H]; rewrite !H; cbn; rewrite ?H; done).
  rewrite (Hlast _ (backend_decision source policy req)).
  assert (Ht : negb (templateAllowed (trim_space (pr_TemplateName req)) (dq_AllowedTemplates policy)) = false <->
    (exists t, t ∈ dq_AllowedTemplates policy
      /\ equal_fold (trim_space t) (trim_space (pr_TemplateName req)) = true)).
  { unfold templateAllowed. by rewrite negb_false_iff, existsb_elem. }
  rewrite Ht, orb_false_iff, negb_false_iff, String.eqb_neq, !andb_false_iff, !negb_false_iff.
  rewrite Z.ltb_ge, Z.ltb_ge.
  assert (Hr : dq_MaxRange policy <= 0 \/ pr_Lookback req <= dq_MaxRange policy <->
    (0 < dq_MaxRange policy -> pr_Lookback req <= dq_MaxRange policy)) by lia.
  rewrite Hr. destruct (dq_AllowRegexMatchers policy), (dq_RequireTargetScope policy); intuition congruence.
Qed.
End Exact.

(** ** Quotations

    A query cut into unquoted text and quoted literals; in single and double
    quotes a backslash takes the next rune along, backquotes are raw. *)

Inductive piece :=
| Plain (text : list Z)
| Quoted (quote : Z) (body : list (bool * Z)).

Definition render_item (item : bool * Z) : list Z := if fst item then [92; snd item] else [snd item].
Definition render_piece (p : piece) : list Z :=
  match p with Plain text => text | Quoted q body => q :: flat_map render_item body ++ [q] end.
Definition blank_piece (p : piece) : list Z :=
  match p with Plain text => text | Quoted _ _ => map (fun _ => 32) (render_piece p) end.
Definition item_ok (q : Z) (item : bool * Z) : Prop :=
  if q =? 96 then fst item = false /\ snd item <> q
  else fst item = false -> snd item <> q /\ snd item <> 92.
Definition piece_ok (p : piece) : Prop :=
  match p with
  | Plain text => Forall (fun r => is_quote r = false) text
  | Quoted q body => is_quote q = true /\ Forall (item_ok q) body
  end.

Lemma strip_plain text rest : Forall (fun r => is_quote r = false) text ->
  strip_runes 0 false (text ++ rest) = text ++ strip_runes 0 false rest.
Proof. induction 1 as [|r text Hr Ht IH]; simpl; [done|]. by rewrite Hr, IH. Qed.

Lemma strip_item q item rest : q <> 0 -> item_ok q item ->
  strip_runes q false (render_item item ++ rest) = map (fun _ => 32) (render_item item) ++ strip_runes q false rest.
Proof.
  intros Hq. rewrite <- Z.eqb_neq in Hq. unfold item_ok, render_item. destruct item as [[] r]; cbn [fst snd].
  - destruct (Z.eqb_spec q 96); [by intros [? _]|]. intros _. simpl. rewrite Hq.
    rewrite (proj2 (Z.eqb_neq q 96)) by done. simpl. rewrite ?Hq. simpl. by rewrite ?andb_false_r.
  - intros H. simpl. rewrite Hq. assert (r <> q /\ (q = 96 \/ r <> 92)) as [Hr H'].
    { destruct (Z.eqb_spec q 96); [|specialize (H eq_refl)]; intuition. }
    rewrite (proj2 (Z.eqb_neq r q)) by done. simpl.
    destruct H' as [->|H']; [done|]. by rewrite (proj2 (Z.eqb_neq r 92)), andb_false_r.
Qed.

Lemma strip_body q body rest : q <> 0 -> Forall (item_ok q) body ->
  strip_runes q false (flat_map render_item body ++ rest) =
    map (fun _ => 32) (flat_map render_item body) ++ strip_runes q false rest.
Proof.
  intros Hq. induction 1 as [|item body Hi Hb IH]; [done|]. simpl. rewrite map_app, <- !app_assoc.
  by rewrite strip_item, IH.
Qed.

Lemma strip_quoted q body rest : is_quote q = true -> Forall (item_ok q) body ->
  strip_runes 0 false (render_piece (Quoted q body) ++ rest) = blank_piece (Quoted q body) ++ strip_runes 0 false rest.
Proof.
  intros Hq Hb. assert (Hq0 : q <> 0) by (intros ->; done). assert (Hq92 : q <> 92) by (intros ->; done).
  simpl. rewrite Hq, <- app_assoc, strip_body, map_app, <- app_assoc by done. f_equal. f_equal.
  simpl. by rewrite (proj2 (Z.eqb_neq q 0)), (proj2 (Z.eqb_neq q 92)), Z.eqb_refl, andb_false_r.
Qed.

(** Blanking out the quoted parts of a query keeps the unquoted text where it is
    and replaces each quoted literal, escaped quotes included, by blanks of the same
    length. *)
Theorem quoted_content_blanked pieces : Forall piece_ok pieces ->
  strip_runes 0 false (flat_map render_piece pieces) = flat_map blank_piece pieces.
Proof.
  induction 1 as [|p pieces Hp Hps IH]; [done|]. cbn [flat_map]. destruct p as [text|q body].
  - simpl. by rewrite strip_plain, IH.
  - destruct Hp. by rewrite strip_quoted, IH.
Qed.

Lemma quoted_content_blanked_witness :
  let p := [Plain [97; 61]; Quoted 34 [(false, 120); (true, 34); (false, 40)]; Plain [41]] in
  Forall piece_ok p /\ strip_runes 0 false (flat_map render_piece p) = [97; 61; 32; 32; 32; 32; 32; 32; 41].
Proof.
  intros p. assert (H : Forall piece_ok p) by (repeat constructor; vm_compute; (discriminate || auto)).
  split; [done|]. rewrite (quoted_content_blanked p H). reflexivity.
Defined.

(** ** LogQL stages *)
Section Stages.
Context {U : UnicodeTables}.

Definition stage_name (name : string) : Prop :=
  str_all isLogQLStagePart name = true /\
  match name with String c _ => isLogQLStageStart c = true | EmptyString => False end.
(** Text without a pipe or an exclamation mark. *)
Definition no_stage (text : string) : bool := no_byte 124 text && no_byte 33 text.
Definition render_stage (stage : string * string) : string := "| " +:+ fst stage +:+ " " +:+ snd stage.

Lemma has_prefix_other c rest k d : (byte_val c =? k) = false -> 0 <= k < 256 ->
  has_prefix (String c rest) (String (byte_of k) d) = false.
Proof.
  intros Hc Hk. cbn [has_prefix]. destruct (Ascii.eqb_spec (byte_of k) c) as [<-|]; [|done].
  by rewrite byte_val_of, Z.eqb_refl in Hc.
Qed.

Lemma next_stage_none c rest : (byte_val c =? 124) = false -> (byte_val c =? 33) = false ->
  nextLogQLStage (String c rest) = None.
Proof.
  intros Hp He. unfold nextLogQLStage. cbn [next_is].
  pose proof (fun d => has_prefix_other c rest 124 d Hp ltac:(lia)) as H1.
  pose proof (fun d => has_prefix_other c rest 33 d He ltac:(lia)) as H2.
  change "|=" with (String (byte_of 124) "="). change "|~" with (String (byte_of 124) "~").
  change "!=" with (String (byte_of 33) "="). change "!~" with (String (byte_of 33) "~").
  by rewrite !H1, !H2, Hp.
Qed.

Lemma stages_skip text : forall n rest, no_stage text = true ->
  (String.length (text +:+ rest) <= n)%nat -> exists m, (String.length rest <= m)%nat /\
  stages_fuel n (text +:+ rest) = stages_fuel m rest.
Proof.
  induction text as [|c text IH]; intros n rest Hno Hn; [by exists n|].
  change (String c text +:+ rest) with (String c (text +:+ rest)) in *.
  destruct n as [|n]; simpl in Hn; [lia|]. unfold no_stage in Hno. rewrite !no_byte_cons in Hno.
  assert (no_stage text = true /\ (byte_val c =? 124) = false /\ (byte_val c =? 33) = false) as (Ht & H1 & H2).
  { unfold no_stage. destruct (byte_val c =? 124), (byte_val c =? 33), (no_byte 124 text), (no_byte 33 text); done. }
  cbn [stages_fuel]. rewrite next_stage_none by done. apply IH; [done|lia].
Qed.

Lemma span_stage_app name rest : str_all isLogQLStagePart name = true ->
  span_stage (name +:+ String (byte_of 32) rest) = (name, String (byte_of 32) rest).
Proof. induction name as [|c name IH]; simpl; [done|]. intros [-> Hn]%andb_true_iff. by rewrite IH. Qed.

Lemma stage_start_not_space c : isLogQLStageStart c = true -> is_space_byte c = false.
Proof.
  unfold isLogQLStageStart, is_letter_byte, is_space_byte, is_space_rune. intros H.
  repeat (apply orb_true_iff in H as [H|H]); go_bool; try (apply andb_true_iff in H as [H1 H2]); go_bool;
    repeat apply orb_false_intro; repeat case_match; go_bool; try (apply Z.eqb_neq); lia.
Qed.

Lemma render_stage_app name args rest :
  render_stage (name, args) +:+ rest
    = String (byte_of 124) (String (byte_of 32) (name +:+ String (byte_of 32) (args +:+ rest))).
Proof. unfold render_stage. cbn [fst snd]. by rewrite <- !append_assoc. Qed.

Lemma next_stage_rendered name args rest : stage_name name ->
  nextLogQLStage (render_stage (name, args) +:+ rest) = Some (to_lower name, " " +:+ (args +:+ rest)).
Proof.
  intros [Hall Hfirst]. destruct name as [|c name]; [done|].
  rewrite render_stage_app.
  unfold nextLogQLStage. cbn [str_drop skipSpaces]. change (is_space_byte (byte_of 32)) with true. cbv iota.
  change (next_is 124 (String (byte_of 124) _)) with true. cbn [negb].
  change (String c name +:+ ?s) with (String c (name +:+ s)). cbn [skipSpaces].
  rewrite stage_start_not_space, Hfirst by done.
  change (String c (name +:+ ?s)) with (String c name +:+ s). by rewrite span_stage_app.
Qed.

(** When a space follows the name of each pipeline stage and no stage has a pipe
    or an exclamation mark in its arguments, the scan of a LogQL query finds all its
    stages, in order, each once. *)
Theorem rendered_stages_found selector stages :
  no_stage selector = true -> Forall (fun s => stage_name (fst s) /\ no_stage (snd s) = true) stages ->
  logQLPipelineStages (selector +:+ str_concat (map render_stage stages))
    = dedup_first (map (fun s => to_lower (fst s)) stages).
Proof.
  intros Hsel Hst. unfold logQLPipelineStages. f_equal.
  assert (Hloop : forall n text, no_stage text = true ->
    (String.length (text +:+ str_concat (map render_stage stages)) <= n)%nat ->
    stages_fuel n (text +:+ str_concat (map render_stage stages)) = map (fun s => to_lower (fst s)) stages).
  { clear Hsel selector. induction Hst as [|[name args] stages [Hn Ha] _ IH]; intros n text Htext Hlen.
    - destruct (stages_skip text n _ Htext Hlen) as (m & _ & ->). simpl. by destruct m.
    - cbn [map str_concat fold_right] in *. fold (str_concat (map render_stage stages)) in *.
      destruct (stages_skip text n _ Htext Hlen) as (m & Hm & ->).
      pose proof (next_stage_rendered name args (str_concat (map render_stage stages)) Hn) as Hnext.
      assert (Hl : (String.length (args +:+ str_concat (map render_stage stages)) < m)%nat).
      { unfold render_stage at 1 in Hm. cbn [fst snd] in Hm. rewrite !append_length in Hm. simpl in Hm.
        rewrite append_length. lia. }
      destruct m as [|m]; [lia|]. rewrite render_stage_app in Hnext |- *.
      cbn [stages_fuel]. rewrite Hnext. f_equal. apply IH; [done|lia]. }
  by apply Hloop.
Qed.
End Stages.

Section Metric.
Context {U : UnicodeTables}.

(** C21: A query for a Prometheus source (or of type metric) under a TemplatesOnly policy
    is allowed exactly when it renders a named, listed template within the
    policy's range, matcher and scope restrictions, and, outside quotations, every
    function it calls is permitted and it has no subquery, [offset] or [@] the
    policy denies. *)
Theorem metric_query_allowed_iff (source : DataSource) (policy : DataSourceQueryPolicy) (req : PolicyRequest) :
  ds_QueryPolicy source = Some policy ->
  trim_space (dq_Mode policy) = DataSourceQueryPolicyModeTemplatesOnly ->
  normalizedName (ds_Type source) = "prometheus" \/ pr_QueryType req = QueryTypeMetric ->
  is_ascii (stripQuotedContent (pr_Query req)) = true ->
  pd_Decision (Validate (Some source) req) = PolicyAllowed <->
  template_respects policy req /\ promql_respects (dq_Prometheus policy) (stripQuotedContent (pr_Query req)).
Proof.
  intros Hp Hm Hb Ha. unfold Validate. rewrite Hp, Hm.
  change (pd_Decision (validateTemplatesOnly source policy req) = PolicyAllowed <->
    template_respects policy req /\ promql_respects (dq_Prometheus policy) (stripQuotedContent (pr_Query req))).
  rewrite templates_only_spec.
  unfold validateBackendSyntax.
  assert ((normalizedName (ds_Type source) == "prometheus") || (pr_QueryType req == QueryTypeMetric) = true) as ->.
  { destruct Hb as [-> | ->]; rewrite String.eqb_refl; [done|apply orb_true_r]. }
  by rewrite validatePromQL_spec.
Qed.
End Metric.

(** ** Concrete queries *)
Section Examples.
#[local] Existing Instance plain_tables.

Definition ex_promql : PromQLPolicy := mkPromQLPolicy ["sum"; "rate"] ["label_replace"] (Some false) None (Some false).
Definition ex_policy : DataSourceQueryPolicy :=
  mkDataSourceQueryPolicy "TemplatesOnly" ["errors"] (60 * minute) false true ex_promql (mkLogQLPolicy [] ["json"; "line_format"]).
Definition ex_source (adapter : DataSource) : DataSource :=
  policyDataSource adapter ex_policy (mkDataClassification "" [] "" "").
Definition ex_request (query queryType : string) : PolicyRequest :=
  mkPolicyRequest "prom" "errors" true query queryType (15 * minute)
    (mkResourceRef "in-cluster" "prod" "Deployment" "web" "apps/v1" "web") ∅.
Definition ex_selector : string :=
  "{namespace=" +:+ str1 34 +:+ "prod" +:+ str1 34 +:+ ",app=" +:+ str1 34 +:+ "web" +:+ str1 34 +:+ "}".

Lemma metric_query_allowed_iff_witness :
  let req := ex_request ("sum(rate(errors" +:+ ex_selector +:+ "[5m]))") QueryTypeMetric in
  template_respects ex_policy req /\ promql_respects ex_promql (stripQuotedContent (pr_Query req)).
Proof.
  intros req. apply (metric_query_allowed_iff (ex_source prometheusAdapter) ex_policy req);
    [reflexivity|vm_compute; reflexivity|left; vm_compute; reflexivity|vm_compute; reflexivity|vm_compute; reflexivity].
Defined.

Lemma rendered_stages_found_witness :
  logQLPipelineStages ("{app=x} " +:+ str_concat (map render_stage [("Json", ""); ("line_format", "x "); ("json", "")]))
    = ["json"; "line_format"].
Proof.
  rewrite (rendered_stages_found "{app=x} " [("Json", ""); ("line_format", "x "); ("json", "")]).
  - reflexivity.
  - reflexivity.
  - repeat constructor.
Defined.

(** PromQL ends a comment at the line feed; the scan takes an apostrophe in it for
    the start of a quotation and does not see the call that follows. *)
Theorem comment_hides_call :
  let query := "sum(errors" +:+ ex_selector +:+ ") # it's" +:+ str1 10 +:+ "+ label_replace(up)" in
  pd_Decision (Validate (Some (ex_source prometheusAdapter)) (ex_request query QueryTypeMetric)) = PolicyAllowed.
Proof. vm_compute. reflexivity. Qed.

(** The loop steps over the byte after a stage: a stage that starts right there
    is not seen. *)
Theorem adjacent_stage_missed :
  let decision query := pd_Decision (Validate (Some (ex_source lokiAdapter)) (ex_request query QueryTypeLog)) in
  decision (ex_selector +:+ " | logfmt | line_format x") = PolicyRejected /\
  decision (ex_selector +:+ " | logfmt|line_format x") = PolicyAllowed.
Proof. vm_compute. by split. Qed.
End Examples.
