(* ===== verification/Preflight.v ===== *)
(** * Preflight of an investigation (internal/investigation/service.go)

    [Service.Preflight]: the target is read from the API server, the queries of
    the investigation are planned against the registered data sources and their
    policies, and the model provider is resolved.  [PreflightResult] and its
    issues are in Gateway. *)

From Stdlib Require Import ZArith Lia.
From stdpp Require Import base list strings gmap.
From S2P Require Import Prelude GoStrings Utf8 Api InvestigationApi Prog DataClassification Observation Egress Gateway InvestigationSpec Datasource QueryPolicy.

(** text/template: [execute_template raw target app labels] parses [raw] and
    executes it on the map [RenderQuery] builds of the target, the app and the
    labels. *)
Class QueryTemplates := {
  execute_template : string -> ResourceRef -> string -> gmap string string -> result string
}.

(** Templates without actions, for examples. *)
Definition plain_templates : QueryTemplates := {| execute_template raw _ _ _ := Ok raw |}.

(** What the service reads of a workload: its metadata and the labels of its pod
    template (none for a Pod). *)
Record Workload := mkWorkload { wl_Meta : ObjectMeta; wl_TemplateLabels : gmap string string }.

(** The reads of preflight; [PResolve] is the interface [ProviderResolver], with
    an empty name for a missing reference. *)
Inductive preflight_op : Type -> Type :=
| PGetWorkload (kind namespace name : string) : preflight_op (result Workload)
| PResolve (namespace name : string) : preflight_op (ModelProvider + resolve_error).

(** What of the Service preflight uses. *)
Record ServiceConfig := mkServiceConfig {
  sv_Client : bool;
  sv_Registry : option (gmap string DataSource);
  sv_Resolver : bool
}.

Definition emptyResource : ResourceRef := mkResourceRef "" "" "" "" "" "".
Definition plainIssue (reason message : string) : Issue := mkIssue reason message None.

(** The map literals built from two label maps: the second wins. *)
Definition workloadLabels (objectLabels templateLabels : gmap string string) : gmap string string :=
  templateLabels ∪ objectLabels.

Definition labelApp (labels : gmap string string) (target : ResourceRef) : string :=
  if map_get labels "app" != "" then map_get labels "app"
  else if rr_Service target != "" then rr_Service target
  else rr_Name target.

Definition appendIfMissing (items : list string) (candidate : string) : list string :=
  if mem_str candidate items then items else items ++ [candidate].

Definition effectiveInvestigationLookback (spec : InvestigationRequestSpec) : duration :=
  if 0 <? irs_Lookback spec then irs_Lookback spec else 15 * minute.

(** The default queries; the quotes of the literals are byte 34. *)
Definition metricQuery (target : ResourceRef) (labels : gmap string string) : string :=
  "sum(rate(http_requests_total{" +:+ matcher "namespace" (rr_Namespace target) +:+ ","
  +:+ matcher "app" (labelApp labels target) +:+ ",status=~" +:+ str1 34 +:+ "5.." +:+ str1 34 +:+ "}[5m]))".
Definition logQuery (target : ResourceRef) (labels : gmap string string) : string :=
  "{" +:+ matcher "namespace" (rr_Namespace target) +:+ "," +:+ matcher "app" (labelApp labels target)
  +:+ "} |= " +:+ str1 34 +:+ "error" +:+ str1 34.

Section Preflight.
Context {U : UnicodeTables} {Q : QueryTemplates}.
Context (cfg : ServiceConfig).

(** ** The target *)

Definition normalizeTargetKind (kind : string) : string :=
  to_lower (remove_byte (byte_of 95) (remove_byte (byte_of 45) (trim_space kind))).

(** The kind and API version of a supported target. *)
Definition targetKinds : list (string * (string * string)) :=
  [("deployment", ("Deployment", "apps/v1")); ("statefulset", ("StatefulSet", "apps/v1"));
   ("daemonset", ("DaemonSet", "apps/v1")); ("replicaset", ("ReplicaSet", "apps/v1")); ("pod", ("Pod", "v1"));
   ("job", ("Job", "batch/v1")); ("cronjob", ("CronJob", "batch/v1"))].
Definition targetKind (kind : string) : option (string * string) :=
  find_first (fun k => if normalizeTargetKind kind == fst k then Some (snd k) else None) targetKinds.

Definition workloadToResource (kind apiVersion name namespace : string)
    (objectLabels templateLabels : gmap string string) : ResourceRef :=
  mkResourceRef "in-cluster" namespace kind name apiVersion
    (firstNonEmpty [map_get objectLabels "app"; map_get templateLabels "app"; name]).

(** The target, its labels and an issue. *)
Definition targetAnswer : Type := ResourceRef * gmap string string * option Issue.
Definition noTarget (issue : Issue) : targetAnswer := (emptyResource, ∅, Some issue).

Definition targetNotFoundOrError (kind namespace name : string) (err : error) : result targetAnswer :=
  if is_not_found err then
    Ok (noTarget (plainIssue "TargetNotFound" ("target " +:+ kind +:+ " " +:+ namespace +:+ "/" +:+ name +:+ " was not found")))
  else Err err.

Definition resolveTarget (target : TargetRef) : prog preflight_op (result targetAnswer) :=
  if negb (sv_Client cfg) then
    Ret (Ok (noTarget (plainIssue "TargetResolverUnavailable" "investigation service client is not configured")))
  else
    match targetKind (tr_Kind target) with
    | None =>
        Ret (Ok (noTarget (plainIssue "UnsupportedTargetKind"
          ("target kind " +:+ quote (tr_Kind target) +:+ " is not supported; supported kinds are Deployment, StatefulSet, DaemonSet, ReplicaSet, Pod, Job, and CronJob"))))
    | Some (kind, apiVersion) =>
        got <~! PGetWorkload kind (tr_Namespace target) (tr_Name target);
        Ret (match got with
             | Err err => targetNotFoundOrError kind (tr_Namespace target) (tr_Name target) err
             | Ok w =>
                 let m := wl_Meta w in
                 Ok (workloadToResource kind apiVersion (om_Name m) (om_Namespace m) (om_Labels m) (wl_TemplateLabels w),
                     workloadLabels (om_Labels m) (wl_TemplateLabels w), None)
             end)
    end.

(** ** The collection plan *)

(** [rule.RenderQuery]. *)
Definition RenderQuery (raw : string) (target : ResourceRef) (labels : gmap string string) : result string :=
  if trim_space raw == "" then Ok ""
  else
    rendered <-! execute_template raw target
                   (firstNonEmpty [map_get labels "app"; rr_Service target; rr_Name target]) labels;
    Ok (trim_space rendered).

Definition investigationQueryText (q : InvestigationQuery) (queryType : string) (target : ResourceRef)
    (labels : gmap string string) : string :=
  if trim_space (iq_QueryTemplate q) != "" then iq_QueryTemplate q
  else if trim_space (iq_Query q) != "" then iq_Query q
  else if queryType == QueryTypeMetric then metricQuery target labels
  else if queryType == QueryTypeLog then logQuery target labels
  else if queryType == QueryTypeEvent then "recent-events"
  else if queryType == QueryTypeServiceConfiguration then "service-port-configuration"
  else if queryType == QueryTypeProbeConfiguration then "probe-configuration"
  else if queryType == QueryTypeContainerTermination then "container-termination-status"
  else "".

Definition buildDefaultCollectionStep (source : DataSource) (target : ResourceRef) (labels : gmap string string)
    : CollectionStep + Issue :=
  let c := ds_Capabilities source in
  let step queryType query := inl (mkCollectionStep (ds_Name source) (ds_Name source) queryType query []) in
  if cap_Events c then step QueryTypeEvent "recent-events"
  else if cap_Metrics c then step QueryTypeMetric (metricQuery target labels)
  else if cap_Logs c then step QueryTypeLog (logQuery target labels)
  else if cap_ProbeConfiguration c then step QueryTypeProbeConfiguration "probe-configuration"
  else inr (plainIssue "CapabilityMismatch"
              ("datasource " +:+ quote (ds_Name source) +:+ " does not support a default investigation query type")).

(** What the loop makes of one reference: a missing source, an issue that ends the
    planning, or a step for the named source. *)
Inductive planned :=
| Missing (name : string)
| Stop (issue : Issue)
| Step (name : string) (step : CollectionStep).

Section Plan.
Context (sources : gmap string DataSource) (spec : InvestigationRequestSpec).
Context (target : ResourceRef) (labels : gmap string string).

Definition policyRequest (name templateName : string) (fromTemplate : bool) (query queryType : string) : PolicyRequest :=
  mkPolicyRequest name templateName fromTemplate query queryType (effectiveInvestigationLookback spec) target labels.

Definition admitStep (source : DataSource) (req : PolicyRequest) (name : string) (step : CollectionStep) : planned :=
  let decision := Validate (Some source) req in
  if pd_Decision decision == PolicyRejected then Stop (plainIssue "QueryPolicyRejected" (pd_Message decision))
  else Step name step.

Definition planSource (ref : string) : planned :=
  let name := trim_space ref in
  if name == "" then Missing "<empty>"
  else
    match sources !! name with
    | None => Missing name
    | Some source =>
        match buildDefaultCollectionStep source target labels with
        | inr issue => Stop issue
        | inl step =>
            admitStep source (policyRequest name (cs_Name step) true (cs_Query step) (cs_QueryType step)) name step
        end
    end.

Definition planQuery (q : InvestigationQuery) : planned :=
  let name := trim_space (iq_DatasourceRef q) in
  let queryName := firstNonEmpty [iq_Name q; name] in
  if name == "" then Missing "<empty>"
  else
    match sources !! name with
    | None => Missing name
    | Some source =>
        match ParseQueryType (iq_QueryType q) with
        | None =>
            Stop (plainIssue "CapabilityMismatch"
              ("investigation query " +:+ quote queryName +:+ " used unsupported queryType " +:+ quote (iq_QueryType q)))
        | Some queryType =>
            if negb (SupportsQueryType (ds_Capabilities source) queryType) then
              Stop (plainIssue "CapabilityMismatch"
                ("datasource " +:+ quote name +:+ " does not support queryType " +:+ quote (iq_QueryType q)
                 +:+ " for investigation query " +:+ quote queryName))
            else
              match RenderQuery (investigationQueryText q queryType target labels) target labels with
              | Err err =>
                  Stop (plainIssue "QueryTemplateInvalid"
                    ("render investigation query " +:+ quote queryName +:+ " failed: " +:+ err_msg err))
              | Ok text =>
                  admitStep source
                    (policyRequest name queryName (trim_space (iq_QueryTemplate q) != "") text queryType) name
                    (mkCollectionStep queryName name queryType text (iq_Reasons q))
              end
        end
    end.

(** Names, plan, datasource issue and query type issue. *)
Record PlanResult := mkPlanResult {
  pl_Names : list string;
  pl_Plan : list CollectionStep;
  pl_DatasourceIssue : option Issue;
  pl_QueryTypeIssue : option Issue
}.

(** The loop of both planners; [add] appends a name. *)
Fixpoint planLoop {A} (add : list string -> string -> list string) (plan1 : A -> planned) (items : list A)
    (names : list string) (plan : list CollectionStep) (missing : list string) : PlanResult :=
  match items with
  | [] =>
      mkPlanResult names plan
        (match missing with
         | [] => None
         | _ => Some (plainIssue "DataSourceNotFound"
                        ("datasource references were not found in the active registry: " +:+ join ", " missing))
         end) None
  | item :: more =>
      match plan1 item with
      | Missing name => planLoop add plan1 more names plan (missing ++ [name])
      | Stop issue => mkPlanResult names plan None (Some issue)
      | Step name step => planLoop add plan1 more (add names name) (plan ++ [step]) missing
      end
  end.

Definition resolveDefaultDatasourcePlan : PlanResult :=
  planLoop (fun names name => names ++ [name]) planSource (irs_DataSources spec) [] [] [].
Definition resolveQueryPlan : PlanResult := planLoop appendIfMissing planQuery (irs_Queries spec) [] [] [].

(** The default event step of the crash-loop profile asks for back-off events. *)
Definition crashLoopReasons (step : CollectionStep) : CollectionStep :=
  match cs_Reasons step with
  | [] =>
      if (cs_DatasourceName step == "kubernetes-events") && (cs_QueryType step == QueryTypeEvent)
      then mkCollectionStep (cs_Name step) (cs_DatasourceName step) (cs_QueryType step) (cs_Query step) ["BackOff"]
      else step
  | _ => step
  end.

Definition countForSource (name : string) (plan : list CollectionStep) : Z :=
  Z.of_nat (length (List.filter (fun step => cs_DatasourceName step == name) plan)).

Definition terminationStep (source : DataSource) : CollectionStep :=
  mkCollectionStep "container-termination-status" (ds_Name source) QueryTypeContainerTermination
    "container-termination-status" [].

(** The end of [resolveCollectionPlan] for the profile CrashLoopBackOffV2. *)
Definition addTermination (names : list string) (plan : list CollectionStep) : PlanResult :=
  let budget := irs_QueryBudget spec in
  let stop issue := mkPlanResult names plan None (Some issue) in
  if existsb (fun step => cs_QueryType step == QueryTypeContainerTermination) plan then mkPlanResult names plan None None
  else
    match sources !! "kubernetes-events" with
    | None =>
        mkPlanResult names plan (Some (plainIssue "DataSourceNotFound"
          "CrashLoopBackOffV2 requires the built-in kubernetes-events datasource for container termination status")) None
    | Some source =>
        if negb (SupportsQueryType (ds_Capabilities source) QueryTypeContainerTermination) then
          stop (plainIssue "CapabilityMismatch"
            "the kubernetes-events datasource does not support containerTermination queries required by CrashLoopBackOffV2")
        else if (0 <? qb_MaxQueriesTotal budget)
                && (qb_MaxQueriesTotal budget <? wrap32 (Z.of_nat (length plan) + 1)) then
          stop (plainIssue "QueryBudgetExceeded"
            "CrashLoopBackOffV2 container termination query exceeds queryBudget.maxQueriesTotal")
        else if (0 <? qb_MaxQueriesPerSource budget)
                && (qb_MaxQueriesPerSource budget <? wrap32 (countForSource (ds_Name source) plan + 1)) then
          stop (plainIssue "QueryBudgetExceeded"
            "CrashLoopBackOffV2 container termination query exceeds queryBudget.maxQueriesPerSource for kubernetes-events")
        else mkPlanResult (appendIfMissing names (ds_Name source)) (plan ++ [terminationStep source]) None None
    end.
End Plan.

Definition basePlan (sources : gmap string DataSource) (spec : InvestigationRequestSpec) (target : ResourceRef)
    (labels : gmap string string) : PlanResult :=
  match irs_Queries spec with
  | [] => resolveDefaultDatasourcePlan sources spec target labels
  | _ => resolveQueryPlan sources spec target labels
  end.

Definition crashLoopProfile (spec : InvestigationRequestSpec) : bool :=
  equal_fold (trim_space (irs_EvidenceProfile spec)) "CrashLoopBackOffV2".
Definition crashLoopSteps (spec : InvestigationRequestSpec) (plan : list CollectionStep) : list CollectionStep :=
  match irs_Queries spec with [] => map crashLoopReasons plan | _ => plan end.

Definition profilePlan (sources : gmap string DataSource) (spec : InvestigationRequestSpec) (r : PlanResult) : PlanResult :=
  match pl_DatasourceIssue r, pl_QueryTypeIssue r with
  | None, None =>
      if crashLoopProfile spec then addTermination sources spec (pl_Names r) (crashLoopSteps spec (pl_Plan r)) else r
  | _, _ => r
  end.

Definition resolveCollectionPlan (spec : InvestigationRequestSpec) (target : ResourceRef) (labels : gmap string string)
    : PlanResult :=
  match irs_Queries spec, irs_DataSources spec with
  | [], [] =>
      mkPlanResult [] [] (Some (plainIssue "DataSourceNotSpecified"
        "spec.dataSources or spec.queries must include at least one datasource reference")) None
  | _ :: _, _ :: _ =>
      mkPlanResult [] [] (Some (plainIssue "InvalidSpec"
        "spec.dataSources and spec.queries are mutually exclusive; use dataSources for controller-planned evidence or queries for user-planned evidence")) None
  | _, _ =>
      match sv_Registry cfg with
      | None =>
          mkPlanResult [] [] (Some (plainIssue "DatasourceRegistryUnavailable" "datasource registry is not configured")) None
      | Some sources => profilePlan sources spec (basePlan sources spec target labels)
      end
  end.

(** ** The provider *)

Definition resolvePreflightProvider (namespace ref : string) : prog preflight_op (result (option ModelProvider * option Issue)) :=
  if negb (sv_Resolver cfg) then
    Ret (Ok (None, Some (plainIssue "ResolverUnavailable" "model provider resolver is not configured")))
  else
    resolved <~! PResolve namespace (if trim_space ref == "" then "" else ref);
    Ret (match resolved with
         | inl provider => Ok (Some provider, None)
         | inr (ResolveError reason message) => Ok (None, Some (plainIssue reason message))
         | inr (ReadError e) => Err e
         end).

(** ** [Service.Preflight] *)

Definition Preflight (namespace : string) (spec : InvestigationRequestSpec) : prog preflight_op (result PreflightResult) :=
  resolved <~ resolveTarget (irs_Target spec);
  match resolved with
  | Err e => Ret (Err e)
  | Ok (target, labels, targetIssue) =>
      let plan := resolveCollectionPlan spec target labels in
      provided <~ resolvePreflightProvider namespace (irs_ModelProviderRef spec);
      Ret (match provided with
           | Err e => Err e
           | Ok (provider, providerIssue) =>
               Ok (mkPreflightResult target labels (pl_Names plan) (pl_Plan plan) provider targetIssue
                     (pl_DatasourceIssue plan) (pl_QueryTypeIssue plan) providerIssue)
           end)
  end.
End Preflight.

(** ** What a plan without issues promises *)

Section Allowed.
Context {U : UnicodeTables} {Q : QueryTemplates}.

Lemma validate_decision source req :
  pd_Decision (Validate source req) = PolicyAllowed \/ pd_Decision (Validate source req) = PolicyRejected.
Proof.
  unfold Validate, validateTemplatesOnly. destruct source as [source|]; [|by left].
  destruct (ds_QueryPolicy source) as [policy|]; [|by left]. cbv zeta.
  destruct (_ || _); [by left|]. destruct (_ == _); [|by right].
  repeat (match goal with |- context [pd_Decision (if ?b then _ else _)] => destruct b eqn:?; [by right|] end).
  destruct (backend_decision source policy req) as [H|H]; rewrite !H; cbn; rewrite ?H; auto.
Qed.

Context (sources : gmap string DataSource) (spec : InvestigationRequestSpec).
Context (target : ResourceRef) (labels : gmap string string).

(** The source is registered under the name, supports the type of the step, and its
    policy allowed the query of the step. *)
Definition allowed_by (name : string) (source : DataSource) (st : CollectionStep) : Prop :=
  sources !! name = Some source /\
  SupportsQueryType (ds_Capabilities source) (cs_QueryType st) = true /\
  exists fromTemplate,
    pd_Decision (Validate (Some source)
      (policyRequest spec target labels name (cs_Name st) fromTemplate (cs_Query st) (cs_QueryType st))) = PolicyAllowed.

Lemma admitStep_Step source req name step n st :
  admitStep source req name step = Step n st ->
  n = name /\ st = step /\ pd_Decision (Validate (Some source) req) = PolicyAllowed.
Proof.
  unfold admitStep. destruct (validate_decision (Some source) req) as [H|H]; rewrite H; [|done].
  intros [= -> ->]. done.
Qed.

Lemma planQuery_Step q n st : planQuery sources spec target labels q = Step n st ->
  exists source, allowed_by (trim_space (iq_DatasourceRef q)) source st /\
    cs_DatasourceName st = trim_space (iq_DatasourceRef q).
Proof.
  unfold planQuery. cbv zeta. destruct (_ == ""); [done|].
  destruct (sources !! _) as [source|] eqn:Hs; [|done].
  destruct (ParseQueryType _) as [ty|]; [|done]. destruct (SupportsQueryType _ ty) eqn:Hsup; [|done].
  cbn [negb]. destruct (RenderQuery _ _ _) as [text|]; [|done].
  intros (-> & -> & Ha)%admitStep_Step. exists source. split; [|done]. split; [done|]. split; [done|].
  by exists (trim_space (iq_QueryTemplate q) != "").
Qed.

Lemma buildDefault_step source st : buildDefaultCollectionStep source target labels = inl st ->
  SupportsQueryType (ds_Capabilities source) (cs_QueryType st) = true /\ cs_DatasourceName st = ds_Name source.
Proof.
  unfold buildDefaultCollectionStep. cbv zeta.
  destruct (cap_Events _) eqn:He; [by intros [= <-]|]. destruct (cap_Metrics _) eqn:Hm; [by intros [= <-]|].
  destruct (cap_Logs _) eqn:Hl; [by intros [= <-]|]. destruct (cap_ProbeConfiguration _) eqn:Hp; [by intros [= <-]|done].
Qed.

Lemma planSource_Step ref n st : planSource sources spec target labels ref = Step n st ->
  exists source, allowed_by (trim_space ref) source st /\ cs_DatasourceName st = ds_Name source.
Proof.
  unfold planSource. cbv zeta. destruct (_ == ""); [done|].
  destruct (sources !! _) as [source|] eqn:Hs; [|done].
  destruct (buildDefaultCollectionStep _ _ _) as [step|] eqn:Hb; [|done].
  intros (-> & -> & Ha)%admitStep_Step. apply buildDefault_step in Hb as [Hsup Hn].
  exists source. split; [|done]. split; [done|]. split; [done|]. by exists true.
Qed.

Lemma planLoop_ok {A} add (plan1 : A -> planned) items names plan missing :
  pl_DatasourceIssue (planLoop add plan1 items names plan missing) = None ->
  pl_QueryTypeIssue (planLoop add plan1 items names plan missing) = None ->
  missing = [] /\ exists steps, pl_Plan (planLoop add plan1 items names plan missing) = plan ++ steps /\
    Forall2 (fun item st => exists n, plan1 item = Step n st) items steps.
Proof.
  revert names plan missing. induction items as [|item items IH]; intros names plan missing; simpl.
  - destruct missing; [|done]. intros _ _. split; [done|]. exists []. by rewrite app_nil_r.
  - destruct (plan1 item) as [name|issue|name step] eqn:E; [|done|].
    + intros H1 H2. destruct (IH _ _ _ H1 H2) as [Hm _]. by destruct missing.
    + intros H1 H2. destruct (IH _ _ _ H1 H2) as (Hm & steps & -> & Hf). split; [done|].
      exists (step :: steps). split; [by rewrite <- app_assoc|]. constructor; [by exists name|done].
Qed.

Lemma crashLoopReasons_same st :
  cs_Name (crashLoopReasons st) = cs_Name st /\ cs_DatasourceName (crashLoopReasons st) = cs_DatasourceName st /\
  cs_QueryType (crashLoopReasons st) = cs_QueryType st /\ cs_Query (crashLoopReasons st) = cs_Query st.
Proof. unfold crashLoopReasons. by repeat case_match. Qed.

Lemma crashLoopReasons_allowed name source st :
  allowed_by name source st -> allowed_by name source (crashLoopReasons st).
Proof.
  destruct (crashLoopReasons_same st) as (H1 & _ & H3 & H4). unfold allowed_by. by rewrite H1, H3, H4.
Qed.

(** The step [addTermination] appends. *)
Definition termination_step (st : CollectionStep) : Prop :=
  exists source, sources !! "kubernetes-events" = Some source /\ st = terminationStep source.

Lemma addTermination_ok names plan :
  let r := addTermination sources spec names plan in
  pl_DatasourceIssue r = None -> pl_QueryTypeIssue r = None ->
  (pl_Plan r = plan /\ exists st, st ∈ plan /\ cs_QueryType st = QueryTypeContainerTermination) \/
  (exists source, sources !! "kubernetes-events" = Some source /\ pl_Plan r = plan ++ [terminationStep source] /\
     (0 < qb_MaxQueriesTotal (irs_QueryBudget spec) ->
        wrap32 (Z.of_nat (length plan) + 1) <= qb_MaxQueriesTotal (irs_QueryBudget spec)) /\
     (0 < qb_MaxQueriesPerSource (irs_QueryBudget spec) ->
        wrap32 (countForSource (ds_Name source) plan + 1) <= qb_MaxQueriesPerSource (irs_QueryBudget spec))).
Proof.
  unfold addTermination. cbv zeta. destruct (existsb _ plan) eqn:He.
  { intros _ _. left. split; [done|]. apply existsb_elem in He as (st & Hst & Ht). apply String.eqb_eq in Ht. eauto. }
  destruct (sources !! "kubernetes-events") as [source|] eqn:Hs; [|done].
  destruct (SupportsQueryType _ _); [|done]. cbn [negb].
  destruct (_ && _) eqn:Ht; [done|]. rewrite over_limit in Ht.
  destruct ((0 <? qb_MaxQueriesPerSource _) && _) eqn:Hp; [done|]. rewrite over_limit in Hp.
  intros _ _. right. by exists source.
Qed.
End Allowed.

Section Promises.
Context {U : UnicodeTables} {Q : QueryTemplates}.
Context (cfg : ServiceConfig) (spec : InvestigationRequestSpec).
Context (target : ResourceRef) (labels : gmap string string).

(** The steps that answer the spec's references, one each and in order.  A query is
    checked by the source registered under its reference, and names it; a reference
    without a query likewise, but its step has the source's own name, under which
    another source may be registered. *)
Definition answers (sources : gmap string DataSource) (steps : list CollectionStep) : Prop :=
  (irs_DataSources spec = [] /\
   Forall2 (fun q st => exists source, allowed_by sources spec target labels (trim_space (iq_DatasourceRef q)) source st /\
              cs_DatasourceName st = trim_space (iq_DatasourceRef q)) (irs_Queries spec) steps) \/
  (irs_Queries spec = [] /\
   Forall2 (fun ref st => exists source, allowed_by sources spec target labels (trim_space ref) source st /\
              cs_DatasourceName st = ds_Name source) (irs_DataSources spec) steps).

(** What may follow them. *)
Definition termination_extra (sources : gmap string DataSource) (steps extra : list CollectionStep) : Prop :=
  extra = [] /\ (crashLoopProfile spec = true -> exists st, st ∈ steps /\ cs_QueryType st = QueryTypeContainerTermination) \/
  exists source, sources !! "kubernetes-events" = Some source /\ extra = [terminationStep source] /\
    (0 < qb_MaxQueriesTotal (irs_QueryBudget spec) ->
       wrap32 (Z.of_nat (length steps) + 1) <= qb_MaxQueriesTotal (irs_QueryBudget spec)) /\
    (0 < qb_MaxQueriesPerSource (irs_QueryBudget spec) ->
       wrap32 (countForSource (ds_Name source) steps + 1) <= qb_MaxQueriesPerSource (irs_QueryBudget spec)).

Lemma answers_reasons sources steps : (irs_Queries spec = [] -> irs_DataSources spec <> []) ->
  answers sources steps -> answers sources (crashLoopSteps spec steps).
Proof.
  unfold crashLoopSteps. destruct (irs_Queries spec) eqn:Hq; [|done]. intros Hd [[H _]|[_ H]].
  { by destruct (Hd eq_refl). }
  right. split; [done|]. apply Forall2_fmap_r.
  eapply Forall2_impl; [exact H|]. intros ref st (source & Ha & Hs). exists source.
  split; [by apply crashLoopReasons_allowed|]. by rewrite (proj1 (proj2 (crashLoopReasons_same st))).
Qed.

Lemma basePlan_answers sources : irs_Queries spec = [] \/ irs_DataSources spec = [] ->
  pl_DatasourceIssue (basePlan sources spec target labels) = None ->
  pl_QueryTypeIssue (basePlan sources spec target labels) = None ->
  answers sources (pl_Plan (basePlan sources spec target labels)).
Proof.
  intros Hone. unfold answers, basePlan, resolveDefaultDatasourcePlan, resolveQueryPlan.
  destruct (irs_Queries spec) as [|q qs]; intros H1 H2; destruct (planLoop_ok _ _ _ _ _ _ H1 H2) as (_ & steps & -> & Hf).
  - right. split; [done|]. eapply Forall2_impl; [exact Hf|]. intros ref st [n Hst]. by apply planSource_Step in Hst.
  - left. destruct Hone as [|Hd]; [done|]. split; [done|].
    eapply Forall2_impl; [exact Hf|]. intros q' st [n Hst]. by apply planQuery_Step in Hst.
Qed.

Lemma profilePlan_ok sources base : (irs_Queries spec = [] -> irs_DataSources spec <> []) ->
  (pl_DatasourceIssue base = None -> pl_QueryTypeIssue base = None -> answers sources (pl_Plan base)) ->
  let r := profilePlan sources spec base in
  pl_DatasourceIssue r = None -> pl_QueryTypeIssue r = None ->
  exists steps extra, pl_Plan r = steps ++ extra /\ answers sources steps /\ termination_extra sources steps extra.
Proof.
  intros Hd Hbase. unfold profilePlan. destruct (pl_DatasourceIssue base) eqn:H1; [cbv zeta; congruence|].
  destruct (pl_QueryTypeIssue base) eqn:H2; [cbv zeta; congruence|]. specialize (Hbase eq_refl eq_refl).
  destruct (crashLoopProfile spec) eqn:Hc.
  - intros I1 I2. pose proof (answers_reasons _ _ Hd Hbase) as Hs.
    destruct (addTermination_ok sources spec _ _ I1 I2) as [[-> Ht]|(source & Hk & -> & Hb)].
    + eexists _, []. rewrite app_nil_r. split; [done|]. split; [done|]. by left.
    + eexists _, [terminationStep source]. split; [done|]. split; [done|]. right. by exists source.
  - intros _ _. exists (pl_Plan base), []. rewrite app_nil_r. split; [done|]. split; [done|]. left.
    split; [done|congruence].
Qed.

(** A plan without issues is the answers to the references and perhaps the
    termination query. *)
Lemma collection_plan_ok :
  let r := resolveCollectionPlan cfg spec target labels in
  pl_DatasourceIssue r = None -> pl_QueryTypeIssue r = None ->
  exists sources steps extra, sv_Registry cfg = Some sources /\ pl_Plan r = steps ++ extra /\
    (irs_Queries spec <> [] \/ irs_DataSources spec <> []) /\
    answers sources steps /\ termination_extra sources steps extra.
Proof.
  unfold resolveCollectionPlan.
  destruct (irs_Queries spec) as [|q qs] eqn:Hq, (irs_DataSources spec) as [|d ds] eqn:Hd; try done;
    destruct (sv_Registry cfg) as [sources|]; try done; intros H1 H2; exists sources;
    destruct (profilePlan_ok sources (basePlan sources spec target labels)) as (steps & extra & Hp & Ha & He);
    try done; try congruence; try (apply basePlan_answers; rewrite ?Hq, ?Hd; auto);
    exists steps, extra; (split; [done|]; split; [done|]; split; [|done]); [by right|by left].
Qed.
End Promises.

(** ** Preflight as a whole *)

Lemma ends_always {E R} (P : R -> Prop) (p : prog E R) : (forall r, P r) -> ends P p.
Proof. intros H. induction p; simpl; auto. Qed.

Lemma successful_issues pf : Successful pf = true ->
  pf_TargetIssue pf = None /\ pf_DatasourceIssue pf = None /\ pf_QueryTypeIssue pf = None /\
  pf_ModelProviderIssue pf = None.
Proof.
  unfold Successful, FirstIssue. intros H%bool_decide_eq_true. by repeat case_match.
Qed.

Section Ready.
Context {U : UnicodeTables} {Q : QueryTemplates}.

(** Every source is registered under its own name. *)
Definition well_named (sources : gmap string DataSource) : Prop :=
  forall name source, sources !! name = Some source -> ds_Name source = name.

(** The source that the step will be sent to has admitted it. *)
Definition receiver_allowed (sources : gmap string DataSource) (spec : InvestigationRequestSpec) (pf : PreflightResult)
    (st : CollectionStep) : Prop :=
  exists source, allowed_by sources spec (pf_Target pf) (pf_Labels pf) (cs_DatasourceName st) source st.

Record ready (sources : gmap string DataSource) (spec : InvestigationRequestSpec) (pf : PreflightResult) : Prop := {
  rd_provider : pf_Provider pf <> None;
  rd_plan : exists steps extra, pf_CollectionPlan pf = steps ++ extra /\ steps <> [] /\
    answers spec (pf_Target pf) (pf_Labels pf) sources steps /\ termination_extra spec sources steps extra;
  rd_receivers st : irs_Queries spec <> [] \/ well_named sources -> st ∈ pf_CollectionPlan pf ->
    receiver_allowed sources spec pf st \/ termination_step sources st;
  rd_termination : crashLoopProfile spec = true ->
    exists st, st ∈ pf_CollectionPlan pf /\ cs_QueryType st = QueryTypeContainerTermination
}.

Lemma answers_length sources spec target labels steps : answers spec target labels sources steps ->
  length steps = (length (irs_Queries spec) + length (irs_DataSources spec))%nat.
Proof. intros [[Hn Hf]|[Hn Hf]]; rewrite Hn; apply Forall2_length in Hf; simpl; lia. Qed.

Lemma answers_received sources spec target labels steps st : irs_Queries spec <> [] \/ well_named sources ->
  answers spec target labels sources steps -> st ∈ steps ->
  exists source, allowed_by sources spec target labels (cs_DatasourceName st) source st.
Proof.
  intros Hw [[_ Hf]|[Hn Hf]] Hst; apply list_elem_of_lookup in Hst as [i Hi];
    destruct (Forall2_lookup_r _ _ _ _ _ Hf Hi) as (ref & _ & source & Ha & ->); exists source; [done|].
  destruct Hw as [|Hw]; [done|]. by rewrite (Hw _ _ (proj1 Ha)).
Qed.


(** *** Budgets *)

Lemma register_well_named source sources : well_named sources -> well_named (Register source sources).
Proof.
  intros H name s. unfold Register, RegisterNamed. destruct (decide (ds_Name source = name)) as [<-|Hne].
  - rewrite lookup_insert_eq. by intros [= ->].
  - rewrite lookup_insert_ne by done. apply H.
Qed.

Lemma countForSource_source_count name refs steps :
  Forall2 (fun ref st => cs_DatasourceName st = trim_space ref) refs steps ->
  countForSource name steps = source_count name refs.
Proof.
  unfold countForSource, source_count. induction 1 as [|ref st refs steps Hn _ IH]; [done|]. simpl. rewrite Hn.
  destruct (_ == name); simpl; lia.
Qed.

Lemma countForSource_app name l1 l2 : countForSource name (l1 ++ l2) = countForSource name l1 + countForSource name l2.
Proof. unfold countForSource. rewrite List.filter_app, length_app. lia. Qed.

Lemma countForSource_length name l : 0 <= countForSource name l <= Z.of_nat (length l).
Proof. unfold countForSource. pose proof (List.filter_length_le (fun st => cs_DatasourceName st == name) l). lia. Qed.

Lemma answers_counted spec target labels sources steps name : well_named sources ->
  answers spec target labels sources steps ->
  countForSource name steps = source_count name (irs_DataSources spec ++ map iq_DatasourceRef (irs_Queries spec)).
Proof.
  intros Hw [[-> Hf]|[-> Hf]]; simpl; rewrite ?app_nil_r; apply countForSource_source_count.
  - apply Forall2_fmap_l. eapply Forall2_impl; [exact Hf|]. by intros q st (? & _ & ?).
  - eapply Forall2_impl; [exact Hf|]. intros ref st (source & [Hs _] & ->). by apply Hw.
Qed.

Lemma wrap32_id z : - 2 ^ 31 <= z < 2 ^ 31 -> wrap32 z = z.
Proof. unfold wrap32. intros ?. rewrite Z.mod_small; lia. Qed.

(** For a spec that passes validation and sources registered under their own
    names, a plan without issues keeps the query budget: in total and, for each
    source, in the number of queries, the termination query of the crash-loop
    profile included. *)
Theorem plan_within_budget (cfg : ServiceConfig) (spec : InvestigationRequestSpec) (target : ResourceRef)
    (labels : gmap string string) :
  let r := resolveCollectionPlan cfg spec target labels in
  let budget := irs_QueryBudget spec in
  valid_spec spec -> queryCount spec < 2 ^ 31 - 1 ->
  (forall sources, sv_Registry cfg = Some sources -> well_named sources) ->
  pl_DatasourceIssue r = None -> pl_QueryTypeIssue r = None ->
  (0 < qb_MaxQueriesTotal budget -> Z.of_nat (length (pl_Plan r)) <= qb_MaxQueriesTotal budget) /\
  (0 < qb_MaxQueriesPerSource budget -> forall name, name <> "" ->
     countForSource name (pl_Plan r) <= qb_MaxQueriesPerSource budget).
Proof.
  intros r budget Hv Hcount Hwell H1 H2. subst r budget.
  destruct (collection_plan_ok cfg spec target labels H1 H2) as (sources & steps & extra & Hr & -> & _ & Ha & He).
  specialize (Hwell _ Hr). pose proof (vs_budget _ Hv) as [_ _ Htot Hper].
  pose proof (answers_length _ _ _ _ _ Ha) as Hlen.
  assert (Hq : Z.of_nat (length steps) = queryCount spec).
  { unfold queryCount. rewrite Hlen. destruct (vs_sources _ Hv) as [[-> ?]|[? ->]]; [|done].
    destruct (irs_Queries spec); [done|]. simpl. lia. }
  rewrite wrap32_id in Htot by lia.
  assert (Hsteps : 0 < qb_MaxQueriesPerSource (irs_QueryBudget spec) -> forall name, name <> "" ->
    countForSource name steps <= qb_MaxQueriesPerSource (irs_QueryBudget spec)).
  { intros Hp name Hn. rewrite (answers_counted _ _ _ _ _ name Hwell Ha). auto. }
  destruct He as [[-> _]|(source & Hk & -> & Hb1 & Hb2)].
  { rewrite app_nil_r. split; [lia|done]. }
  rewrite length_app. simpl. split.
  - intros Hp. specialize (Hb1 Hp). rewrite wrap32_id in Hb1 by lia. lia.
  - intros Hp name Hn. specialize (Hb2 Hp). specialize (Hsteps Hp name Hn). rewrite countForSource_app.
    pose proof (countForSource_length (ds_Name source) steps). rewrite wrap32_id in Hb2 by lia.
    unfold countForSource at 2. simpl. destruct (String.eqb_spec (ds_Name source) name) as [<-|]; simpl; lia.
Qed.
End Ready.

(** ** Concrete preflights *)
Section PreflightExamples.
#[local] Existing Instance plain_tables.
#[local] Existing Instance plain_templates.

Definition pf_target : TargetRef := mkTargetRef "" "prod" "Deployment" "web" "" "".
Definition pf_resource : ResourceRef := mkResourceRef "in-cluster" "prod" "Deployment" "web" "apps/v1" "web".
Definition pf_budget : InvestigationQueryBudget := mkInvestigationQueryBudget 0 3 2 0 0 0 zeroResultLimits.
Definition pf_spec (sources : list string) (profile : string) : InvestigationRequestSpec :=
  mkInvestigationRequestSpec pf_target "" None (15 * minute) "why" sources [] "" "readOnly" false profile
    zeroRetention "" pf_budget (mkInvestigationLoopPolicy 0 false) 0.
Definition pf_sources : gmap string DataSource :=
  NewRegistry [prometheusAdapter; kubernetesAdapter].
Definition pf_config : ServiceConfig := mkServiceConfig true (Some pf_sources) true.

(** The API server has the Deployment, the resolver the provider. *)
Definition pf_world (_ : unit) (X : Type) (op : preflight_op X) : option (X * unit) :=
  match op with
  | PGetWorkload _ namespace name => Some (Ok (mkWorkload (mkObjectMeta name namespace "uid" "1" 1 ∅ ∅ []) ∅), tt)
  | PResolve namespace _ => Some (inl (DefaultHeuristicProvider namespace), tt)
  end.

Example preflight_succeeds :
  exists pf, (run pf_world (Preflight pf_config "ops" (pf_spec ["prometheus"; "kubernetes-events"] "CrashLoopBackOffV2")) tt).1
    = Some (Ok pf) /\ Successful pf = true /\ pf_Target pf = pf_resource /\
      map cs_QueryType (pf_CollectionPlan pf) = ["metric"; "event"; "containerTermination"].
Proof. eexists. split; [vm_compute; reflexivity|]. by vm_compute. Qed.

Lemma plan_within_budget_witness :
  let r := resolveCollectionPlan pf_config (pf_spec ["prometheus"; "kubernetes-events"] "CrashLoopBackOffV2") pf_resource ∅ in
  length (pl_Plan r) = 3%nat /\ Z.of_nat (length (pl_Plan r)) <= 3.
Proof.
  intros r. split; [reflexivity|]. refine (proj1 (plan_within_budget pf_config
    (pf_spec ["prometheus"; "kubernetes-events"] "CrashLoopBackOffV2") pf_resource ∅ _ _ _ _ _) _).
  - apply spec_valid. reflexivity.
  - reflexivity.
  - intros sources [= <-]. intros name source. unfold pf_sources, NewRegistry. cbn [fold_left].
    repeat apply register_well_named. intros ? ? Hl. by rewrite lookup_empty in Hl.
  - reflexivity.
  - reflexivity.
  - reflexivity.
Defined.

(** A DataSource resource is registered under its own name while the default plan
    uses the adapter's name: the query of the reference "prom-prod" is checked
    against the policy of that source, and collected from the source named
    "prometheus", if any. *)
Theorem default_plan_misdirected :
  let prod := policyDataSource prometheusAdapter
                (mkDataSourceQueryPolicy "" [] 0 false false (mkPromQLPolicy [] [] None None None) (mkLogQLPolicy [] []))
                (mkDataClassification "" [] "" "") in
  let strict := ex_source prometheusAdapter in
  let sources := RegisterNamed "prom-prod" prod (RegisterNamed "prometheus" strict ∅) in
  let r := resolveCollectionPlan (mkServiceConfig true (Some sources) true) (pf_spec ["prom-prod"] "") pf_resource ∅ in
  exists st, pl_Plan r = [st] /\ pl_DatasourceIssue r = None /\ pl_QueryTypeIssue r = None /\
    Get sources (cs_DatasourceName st) = Some strict /\
    pd_Decision (Validate (Some strict)
      (policyRequest (pf_spec ["prom-prod"] "") pf_resource ∅ "prometheus" (cs_Name st) true (cs_Query st) (cs_QueryType st)))
      = PolicyRejected.
Proof. eexists. split; [vm_compute; reflexivity|]. by vm_compute. Qed.
End PreflightExamples.
