(* ===== verification/Redactor.v ===== *)
(** * Redaction (internal/evidence/redactor.go)

    The two regular expressions of [PatternRedactor] as matchers on runes, and
    [ReplaceAllString] as the scan for the leftmost match.  Neither expression
    is ambiguous: white space, the separator and the value have no rune in
    common, so that the greedy match is the only one, but for the choice between
    the two alternatives of a separator, which are tried in order. *)

From Stdlib Require Import ZArith Lia.
From stdpp Require Import base list strings gmap.
From S2P Require Import Prelude GoStrings Utf8 Api DataClassification Observation Egress.

Abbreviation text := (list (Z * string)) (only parsing).

(** [\s]. *)
Definition re_space (r : Z) : bool := (r =? 9) || (r =? 10) || (r =? 12) || (r =? 13) || (r =? 32).
(** A word character of [\b]. *)
Definition re_word (r : Z) : bool :=
  (48 <=? r) && (r <=? 57) || (65 <=? r) && (r <=? 90) || (97 <=? r) && (r <=? 122) || (r =? 95).
(** A lower-case letter under [(?i)]: the Kelvin sign folds to k, the long s to s. *)
Definition re_fold (c r : Z) : bool :=
  (r =? c) || (r =? c - 32) || (c =? 107) && (r =? 8490) || (c =? 115) && (r =? 383).
Definition next_rune (p : Z -> bool) (l : text) : bool := match l with seg :: _ => p (fst seg) | [] => false end.

(** A literal word, and what follows it; the matched segments are kept. *)
Fixpoint match_word (w : string) (l : text) : option (text * text) :=
  match w, l with
  | EmptyString, _ => Some ([], l)
  | String c w', seg :: l' =>
      if re_fold (byte_val c) (fst seg)
      then match match_word w' l' with Some (a, b) => Some (seg :: a, b) | None => None end
      else None
  | String _ _, [] => None
  end.

Fixpoint span (p : Z -> bool) (l : text) : text * text :=
  match l with
  | seg :: l' => if p (fst seg) then let '(a, b) := span p l' in (seg :: a, b) else ([], l)
  | [] => ([], [])
  end.

(** One rune that satisfies [p]. *)
Definition match_one (p : Z -> bool) (l : text) : option (text * text) :=
  match l with seg :: l' => if p (fst seg) then Some ([seg], l') else None | [] => None end.
Definition match_spaces (l : text) : option (text * text) := Some (span re_space l).
Definition match_some (p : Z -> bool) (l : text) : option (text * text) :=
  let '(a, b) := span p l in match a with [] => None | _ => Some (a, b) end.

(** Matches in sequence. *)
Definition then_match (m1 m2 : text -> option (text * text)) (l : text) : option (text * text) :=
  match m1 l with
  | Some (a, l1) => match m2 l1 with Some (b, l2) => Some (a ++ b, l2) | None => None end
  | None => None
  end.
Definition or_match (m1 m2 : text -> option (text * text)) (l : text) : option (text * text) :=
  match m1 l with Some x => Some x | None => m2 l end.

(** A matcher of a rule: from the rune in front and the text, what is kept of the
    match and what follows the match. *)
Definition rule : Type := option Z -> text -> option (text * text).

(** [(authorization\s*:\s*bearer\s+)] and a value without white space and quotes. *)
Definition bearerPrefix : text -> option (text * text) :=
  then_match (match_word "authorization") (then_match match_spaces (then_match (match_one (Z.eqb 58))
    (then_match match_spaces (then_match (match_word "bearer") (match_some re_space))))).
Definition bearerValue (r : Z) : bool := negb (re_space r || (r =? 34) || (r =? 39)).
Definition bearerRule : rule := fun _ l =>
  match bearerPrefix l with
  | Some (kept, rest) => match match_some bearerValue rest with Some (_, after) => Some (kept, after) | None => None end
  | None => None
  end.

(** [\b(api[-_ ]?key|token|password|secret)(\s*[=:]\s*|\s+)] and a value without white
    space, double quotes, commas and semicolons. *)
Definition keyword : text -> option (text * text) :=
  or_match (then_match (match_word "api")
              (fun l => match then_match (match_one (fun r => (r =? 45) || (r =? 95) || (r =? 32))) (match_word "key") l with
                        | Some x => Some x
                        | None => match_word "key" l
                        end))
    (or_match (match_word "token") (or_match (match_word "password") (match_word "secret"))).
Definition secretValue (r : Z) : bool := negb (re_space r || (r =? 34) || (r =? 44) || (r =? 59)).
Definition word_edge (before : option Z) (l : text) : bool :=
  xorb (match before with Some r => re_word r | None => false end) (next_rune re_word l).
Definition secretRule : rule := fun before l =>
  if negb (word_edge before l) then None
  else
    match keyword l with
    | None => None
    | Some (word, rest) =>
        let value separator :=
          match separator rest with
          | Some (sep, l1) => match match_some secretValue l1 with Some (_, after) => Some (word ++ sep, after) | None => None end
          | None => None
          end in
        match value (then_match match_spaces
                       (then_match (match_one (fun r => (r =? 61) || (r =? 58))) match_spaces)) with
        | Some x => Some x
        | None => value (match_some re_space)
        end
    end.

Definition placeholder : string := "[REDACTED]".

Definition last_rune (before : option Z) (l : text) : option Z :=
  match rev l with seg :: _ => Some (fst seg) | [] => before end.

(** [ReplaceAllString]: leftmost matches that do not overlap.  Every turn consumes
    at least one rune. *)
Fixpoint replace_fuel (fuel : nat) (rl : rule) (before : option Z) (l : text) : string :=
  match fuel, l with
  | S f, seg :: l' =>
      match rl before l with
      | Some (kept, after) =>
          let consumed := take (length l - length after) l in
          unsegment kept +:+ placeholder +:+ replace_fuel f rl (last_rune before consumed) after
      | None => snd seg +:+ replace_fuel f rl (Some (fst seg)) l'
      end
  | _, _ => ""
  end.
Definition ReplaceAllString (rl : rule) (input : string) : string :=
  replace_fuel (length (segments input)) rl None (segments input).

Definition RedactText (input : string) : string := ReplaceAllString secretRule (ReplaceAllString bearerRule input).

Definition redactSignal (s : Signal) : Signal :=
  mkSignal (sig_ID s) (sig_Kind s) (sig_Source s) (sig_Severity s) (RedactText (sig_Message s)) (sig_Resource s)
    (sig_Timestamp s).
Definition redactReference (e : Evidence) : Evidence :=
  mkEvidence (evd_Kind e) (evd_Source e) (RedactText (evd_Summary e)) (RedactText (evd_Query e))
    (RedactText (evd_Reason e)) (RedactText (evd_Link e)).

(** [RedactIngestion]: the metrics and the observations are left as they are. *)
Definition RedactIngestion (input : IngestionOutput) : IngestionOutput :=
  let c := io_Context input in
  let e := io_Evidence input in
  mkIngestionOutput
    (mkIncidentContext (ic_ID c) (ic_Cluster c) (ic_Service c) (ic_Resource c) (RedactText (ic_Summary c))
       (map redactSignal (ic_Signals c)) (RedactText <$> ic_Metadata c) (ic_GeneratedAt c))
    (mkEvidenceBundle (map RedactText (eb_Logs e)) (eb_Metrics e) (map RedactText (eb_Events e))
       (map redactReference (eb_References e)) (eb_Observations e))
    (map redactSignal (io_Signals input)) (io_TimelineResource input)
    (map (fun t => mkTimelineEvent (te_Timestamp t) (te_Kind t) (RedactText (te_Summary t))) (io_Timeline input))
    (io_DedupedFrom input).

Example redacted_texts :
  map RedactText ["Authorization: Bearer abc.def x"; "api-key = k1, token:t2;PASSWORD p3"; "mytoken=x secret==y"]
  = ["Authorization: Bearer [REDACTED] x"; "api-key = [REDACTED], token:[REDACTED];PASSWORD [REDACTED]";
     "mytoken=x secret=[REDACTED]"].
Proof. vm_compute. reflexivity. Qed.

(** A secret in double quotes, as in JSON or in [password="..."], is not matched,
    and with white space around the separator only the separator is replaced; the
    classification does not see the JSON form either. *)
Theorem quoted_secret_kept (U : UnicodeTables := plain_tables) :
  let q := str1 34 in
  let json := "{" +:+ q +:+ "password" +:+ q +:+ ":" +:+ q +:+ "abc" +:+ q +:+ "}" in
  RedactText json = json /\ LooksCredentialLike json = false /\
  RedactText ("password=" +:+ q +:+ "abc" +:+ q) = "password=" +:+ q +:+ "abc" +:+ q /\
  RedactText ("token : " +:+ q +:+ "abc" +:+ q) = "token [REDACTED] " +:+ q +:+ "abc" +:+ q.
Proof. vm_compute. by repeat split. Qed.
