(* ===== verification/Collection.v ===== *)
(** * Collection of evidence (internal/investigation/service.go)

    The queries of a plan are run by a pool of workers: a job channel holds the
    plan's indexes, each worker takes one, asks the source and sends the result,
    and the caller drains the results, keeps the budgets and cancels the rest
    after the first issue.  The pool is a step relation, so that the theorems
    hold for every schedule of the workers. *)

From Stdlib Require Import ZArith Lia Permutation.
From stdpp Require Import base list strings gmap relations.
From S2P Require Import Prelude GoStrings Api InvestigationApi DataClassification Observation Egress Gateway InvestigationSpec Datasource Preflight.

(** ** One query *)

Record collectedQuery := mkCollectedQuery {
  cq_index : nat;
  cq_step : CollectionStep;
  cq_request : QueryRequest;
  cq_result : option QueryResult;
  cq_duration : duration;
  cq_bytes : Z;
  cq_issue : option Issue
}.

(** What a query meets: no source under its name, or a source and its answer
    after some time. *)
Inductive reply :=
| NoSource
| Replied (source : DataSource) (answer : QueryResult + query_error) (elapsed : duration).

(** encoding/json: the length of a marshalled result, if it marshals. *)
Class ResultSizes := { marshalled_size : QueryResult -> option Z }.

(** A size for examples: one byte for each record. *)
Definition record_sizes : ResultSizes := {| marshalled_size r := Some (Z.of_nat (length (qs_Records r))) |}.

Definition effectiveDatasourceQueryConcurrency (budget : InvestigationQueryBudget) (planSize : nat) : nat :=
  let concurrency := if qb_MaxConcurrentQueries budget <=? 0 then 1%nat else Z.to_nat (qb_MaxConcurrentQueries budget) in
  Nat.min concurrency planSize.

Definition noClassification : DataClassification := mkDataClassification "" [] "" "".

Section Collect.
Context {U : UnicodeTables} {J : ResultSizes}.

Definition queryResultResponseBytes (result : option QueryResult) : Z :=
  match result with Some r => default 0 (marshalled_size r) | None => 0 end.

Context (budget : InvestigationQueryBudget) (preflight : PreflightResult) (now : time) (window : duration).

Definition emptyStep : CollectionStep := mkCollectionStep "" "" "" "" [].
Definition planStep (index : nat) : CollectionStep := nth index (pf_CollectionPlan preflight) emptyStep.

Definition stepRequest (step : CollectionStep) (classification : DataClassification) : QueryRequest :=
  mkQueryRequest (cs_Query step) (time_add now (wrap64 (- window))) now minute (pf_Labels preflight) (pf_Target preflight)
    (cs_QueryType step) (cs_Reasons step) (qb_ResultLimits budget) classification.

Definition collectDatasourceQuery (index : nat) (r : reply) : collectedQuery :=
  let step := planStep index in
  match r with
  | NoSource =>
      mkCollectedQuery index step (stepRequest step noClassification) None 0 0
        (Some (plainIssue "DataSourceNotFound"
          ("datasource " +:+ quote (cs_DatasourceName step)
           +:+ " disappeared from the active registry before evidence collection")))
  | Replied source answer elapsed =>
      let request := stepRequest step (default noClassification (ds_DataClassification source)) in
      match answer with
      | inr err =>
          mkCollectedQuery index step request None elapsed 0
            (Some (plainIssue (QueryErrorReason err "DatasourceQueryFailed")
              ("query datasource " +:+ quote (cs_DatasourceName step) +:+ " failed: " +:+ query_error_text err)))
      | inl result =>
          mkCollectedQuery index step request (Some result) elapsed (queryResultResponseBytes (Some result)) None
      end
  end.

(** ** The caller's loop over the results *)

Record drained := mkDrained {
  dr_collected : gmap nat collectedQuery;
  dr_duration : duration;
  dr_bytes : Z;
  dr_issue : option Issue
}.
Definition nothing : drained := mkDrained ∅ 0 0 None.

Definition over (limit value : Z) : bool := (0 <? limit) && (limit <? value).

(** One result; the issue is set at most once. *)
Definition drain (d : drained) (q : collectedQuery) : drained :=
  match dr_issue d with
  | Some _ => d
  | None =>
      let stop issue := mkDrained (dr_collected d) (dr_duration d) (dr_bytes d) (Some issue) in
      match cq_issue q with
      | Some issue => stop issue
      | None =>
          let total := wrap64 (dr_duration d + cq_duration q) in
          if over (qb_MaxCumulativeDuration budget) total then
            mkDrained (dr_collected d) total (dr_bytes d) (Some (plainIssue "QueryBudgetExceeded"
              ("datasource query cumulative duration " +:+ DurationString total
               +:+ " exceeds queryBudget.maxCumulativeDuration " +:+ DurationString (qb_MaxCumulativeDuration budget))))
          else
            let bytes := wrap64 (dr_bytes d + cq_bytes q) in
            if over (qb_MaxCumulativeResponseBytes budget) bytes then
              mkDrained (dr_collected d) total bytes (Some (plainIssue "QueryBudgetExceeded"
                ("datasource query cumulative response bytes " +:+ itoa bytes
                 +:+ " exceeds queryBudget.maxCumulativeResponseBytes " +:+ itoa (qb_MaxCumulativeResponseBytes budget))))
            else mkDrained (<[cq_index q := q]> (dr_collected d)) total bytes None
      end
  end.

(** ** The pool

    The channels, the queries in flight and the caller's variables; the last
    three fields record what has happened: the results drained so far, the
    indexes skipped after a cancellation, and whether the caller's own context
    was cancelled. *)

Record pool := mkPool {
  po_jobs : list nat;
  po_running : list nat;
  po_results : list collectedQuery;
  po_drained : drained;
  po_cancelled : bool;
  po_history : list collectedQuery;
  po_skipped : list nat;
  po_parent : bool
}.

Definition planSize : nat := length (pf_CollectionPlan preflight).
Definition concurrency : nat := effectiveDatasourceQueryConcurrency budget planSize.
Definition initialPool : pool := mkPool (seq 0 planSize) [] [] nothing false [] [] false.

(** [replies index r]: the query at [index] may meet [r]. *)
Context (replies : nat -> reply -> Prop).

(** A worker receives a job and then tests for cancellation, after any delay.  A job
    counts as one of [po_jobs] until its worker has made the test, so although the
    jobs are received in order, any of them may be the next to start or to be skipped. *)
Inductive pool_step : pool -> pool -> Prop :=
| step_take j1 i j2 running results d history skipped parent :
    (length running < concurrency)%nat ->
    pool_step (mkPool (j1 ++ i :: j2) running results d false history skipped parent)
              (mkPool (j1 ++ j2) (i :: running) results d false history skipped parent)
| step_skip j1 i j2 running results d history skipped parent :
    (length running < concurrency)%nat ->
    pool_step (mkPool (j1 ++ i :: j2) running results d true history skipped parent)
              (mkPool (j1 ++ j2) running results d true history (i :: skipped) parent)
| step_finish js l1 i l2 results d cancelled history skipped parent r :
    replies i r ->
    pool_step (mkPool js (l1 ++ i :: l2) results d cancelled history skipped parent)
              (mkPool js (l1 ++ l2) (results ++ [collectDatasourceQuery i r]) d cancelled history skipped parent)
| step_drain js running q results d cancelled history skipped parent :
    pool_step (mkPool js running (q :: results) d cancelled history skipped parent)
              (mkPool js running results (drain d q)
                 (cancelled || bool_decide (dr_issue (drain d q) <> None)) (history ++ [q]) skipped parent)
| step_cancel js running results d cancelled history skipped :
    pool_step (mkPool js running results d cancelled history skipped false)
              (mkPool js running results d true history skipped true).

Definition reachable (p : pool) : Prop := rtc pool_step initialPool p.
(** The result channel is closed and empty. *)
Definition finished (p : pool) : Prop := po_jobs p = [] /\ po_running p = [] /\ po_results p = [].

(** What [collectDatasourceQueries] returns at the end. *)
Definition outcome (p : pool) : list collectedQuery + Issue :=
  match dr_issue (po_drained p) with
  | Some issue => inr issue
  | None => inl (omap (fun index => dr_collected (po_drained p) !! index) (seq 0 planSize))
  end.
End Collect.

(** ** What holds of every schedule *)

Section Schedules.
Context {U : UnicodeTables} {J : ResultSizes}.
Context (budget : InvestigationQueryBudget) (preflight : PreflightResult) (now : time) (window : duration).
Context (replies : nat -> reply -> Prop).

#[local] Abbreviation step := (pool_step budget preflight now window replies).
#[local] Abbreviation collect := (collectDatasourceQuery budget preflight now window).

(** A result of the query at its own index. *)
Definition genuine (q : collectedQuery) : Prop :=
  exists r, replies (cq_index q) r /\ q = collect (cq_index q) r.

Lemma collect_index i r : cq_index (collect i r) = i.
Proof. by destruct r as [|source [result|err] elapsed]. Qed.

Record pool_invariant (p : pool) : Prop := {
  pi_indexes : po_jobs p ++ po_running p ++ map cq_index (po_results p) ++ map cq_index (po_history p) ++ po_skipped p
               ≡ₚ seq 0 (planSize preflight);
  pi_drained : po_drained p = fold_left (drain budget) (po_history p) nothing;
  pi_cancelled : po_cancelled p = true -> po_parent p = true \/ dr_issue (po_drained p) <> None;
  pi_skipped : po_skipped p <> [] -> po_cancelled p = true;
  pi_running : (length (po_running p) <= concurrency budget preflight)%nat;
  pi_genuine : Forall genuine (po_results p ++ po_history p)
}.

Lemma drain_issue d q : dr_issue d <> None -> drain budget d q = d.
Proof. unfold drain. by destruct (dr_issue d). Qed.

Lemma initial_invariant : pool_invariant (initialPool preflight).
Proof. constructor; simpl; rewrite ?app_nil_r; (done || lia || constructor). Qed.

Lemma step_invariant p p' : step p p' -> pool_invariant p -> pool_invariant p'.
Proof.
  destruct 1 as [j1 i j2 running results d history skipped parent Hl
    |j1 i j2 running results d history skipped parent Hl
    |js l1 i l2 results d cancelled history skipped parent r Hr
    |js running q results d cancelled history skipped parent
    |js running results d cancelled history skipped]; intros [Hi Hd Hc Hs Hn Hg]; constructor; simpl in *.
  - rewrite <- Hi. solve_Permutation.
  - done.
  - done.
  - done.
  - lia.
  - done.
  - rewrite <- Hi. solve_Permutation.
  - done.
  - done.
  - done.
  - done.
  - done.
  - rewrite <- Hi, map_app. simpl. rewrite collect_index. solve_Permutation.
  - done.
  - done.
  - done.
  - rewrite length_app in *. simpl in Hn. lia.
  - rewrite !Forall_app in *. destruct Hg as [Hg1 Hg2]. split; [|done]. split; [done|]. constructor; [|done].
    exists r. by rewrite collect_index.
  - rewrite <- Hi, map_app. simpl. solve_Permutation.
  - by rewrite fold_left_app, <- Hd.
  - intros [Hx|Hx]%orb_true_iff.
    + destruct (Hc Hx) as [?|Hne]; [by left|]. right. by rewrite drain_issue.
    + right. by apply bool_decide_eq_true in Hx.
  - intros Hx. by rewrite Hs.
  - done.
  - apply Forall_cons in Hg as [Hq Hg]. rewrite app_assoc. apply Forall_app. auto.
  - done.
  - done.
  - by left.
  - done.
  - done.
  - done.
Qed.

Lemma reachable_invariant p : reachable budget preflight now window replies p -> pool_invariant p.
Proof.
  intros Hr. apply (rtc_ind_r pool_invariant (initialPool preflight) (initial_invariant)) in Hr; [done|].
  eauto using step_invariant.
Qed.

(** *** The caller's loop *)

Lemma fold_drain_issue l d : dr_issue d <> None -> fold_left (drain budget) l d = d.
Proof. revert d. induction l as [|q l IH]; intros d H; [done|]. simpl. by rewrite drain_issue, IH. Qed.

(** A result drained without an issue is stored, and the totals stay in the budget. *)
Record drained_ok (d d' : drained) (q : collectedQuery) : Prop := {
  do_before : dr_issue d = None;
  do_issue : cq_issue q = None;
  do_collected : dr_collected d' = <[cq_index q := q]> (dr_collected d);
  do_duration : dr_duration d' = wrap64 (dr_duration d + cq_duration q);
  do_bytes : dr_bytes d' = wrap64 (dr_bytes d + cq_bytes q);
  do_within : over (qb_MaxCumulativeDuration budget) (dr_duration d') = false /\
              over (qb_MaxCumulativeResponseBytes budget) (dr_bytes d') = false
}.

Lemma drain_ok d q : dr_issue (drain budget d q) = None -> drained_ok d (drain budget d q) q.
Proof.
  unfold drain. destruct (dr_issue d) eqn:Hd; [congruence|]. destruct (cq_issue q) eqn:Hq; [done|]. cbv zeta.
  destruct (over _ _) eqn:H1; [done|]. destruct (over (qb_MaxCumulativeResponseBytes budget) _) eqn:H2; [done|].
  intros _. by constructor.
Qed.

Definition totalDuration (l : list collectedQuery) : duration :=
  fold_left (fun total q => wrap64 (total + cq_duration q)) l 0.
Definition totalBytes (l : list collectedQuery) : Z :=
  fold_left (fun total q => wrap64 (total + cq_bytes q)) l 0.

Definition within_totals (duration bytes : Z) : Prop :=
  (0 < qb_MaxCumulativeDuration budget -> duration <= qb_MaxCumulativeDuration budget) /\
  (0 < qb_MaxCumulativeResponseBytes budget -> bytes <= qb_MaxCumulativeResponseBytes budget).

Lemma fold_drain_ok l : let d := fold_left (drain budget) l nothing in
  dr_issue d = None ->
  Forall (fun q => cq_issue q = None) l /\ dr_duration d = totalDuration l /\ dr_bytes d = totalBytes l /\
  within_totals (dr_duration d) (dr_bytes d) /\
  dr_collected d = fold_left (fun m q => <[cq_index q := q]> m) l ∅.
Proof.
  induction l as [|q l IH] using rev_ind; cbv zeta.
  { intros _. unfold within_totals, totalDuration, totalBytes. simpl. repeat split; [constructor|lia|lia]. }
  unfold totalDuration, totalBytes. rewrite !fold_left_app. simpl. intros H%drain_ok.
  destruct H as [Hb Hq Hc Hdur Hby [Hw1 Hw2]]. destruct (IH Hb) as (Hf & Ht1 & Ht2 & _ & Hcol).
  rewrite Hc, Hdur, Hby in *. unfold over in Hw1, Hw2. rewrite over_limit in Hw1, Hw2.
  split; [apply Forall_app; by repeat constructor|]. rewrite Ht1, Ht2, Hcol in *. by repeat split.
Qed.

Lemma collected_lookup l i q : NoDup (map cq_index l) ->
  fold_left (fun (m : gmap nat collectedQuery) q => <[cq_index q := q]> m) l ∅ !! i = Some q <-> q ∈ l /\ cq_index q = i.
Proof.
  induction l as [|x l IH] using rev_ind; [intros _; split; [intros Hl; cbn in Hl; by rewrite lookup_empty in Hl|by intros [?%elem_of_nil _]]|].
  rewrite map_app, NoDup_app, fold_left_app. intros (Hl & Hx & _). simpl. rewrite elem_of_app, list_elem_of_singleton.
  destruct (decide (cq_index x = i)) as [<-|Hne].
  - rewrite lookup_insert_eq. split; [intros [= ->]; auto|]. intros [[Hq|Hq] Hi]; [|congruence]. exfalso.
    apply (Hx (cq_index q)); [by apply list_elem_of_fmap_2|]. rewrite Hi. apply list_elem_of_here.
  - rewrite lookup_insert_ne, IH by done. split; [intros [? ?]; auto|]. intros [[?|?] ?]; [auto|congruence].
Qed.

Lemma omap_indexes (m : gmap nat collectedQuery) l : (forall i, i ∈ l -> exists q, m !! i = Some q /\ cq_index q = i) ->
  map cq_index (omap (fun i => m !! i) l) = l.
Proof.
  induction l as [|i l IH]; intros H; [done|]. destruct (H i (list_elem_of_here _ _)) as (q & Hq & Hi).
  assert (omap (fun i => m !! i) (i :: l) = q :: omap (fun i => m !! i) l) as -> by (simpl; by rewrite Hq).
  cbn [map]. rewrite Hi. f_equal. apply IH. intros j Hj. apply H. by apply list_elem_of_further.
Qed.

Lemma history_NoDup p : pool_invariant p -> NoDup (map cq_index (po_history p)).
Proof.
  intros [Hi _ _ _ _ _]. assert (NoDup (seq 0 (planSize preflight))) as Hn by apply NoDup_ListNoDup, List.seq_NoDup.
  rewrite <- Hi in Hn. rewrite !NoDup_app in Hn. naive_solver.
Qed.

(** C23: Under every schedule of the workers, when the collection ends without an issue
    and its context was not cancelled from outside, the result has one entry for each
    query of the plan, in the plan's order, and each is a successful answer to its own
    query. *)
Theorem collection_complete (p : pool) (out : list collectedQuery) :
  reachable budget preflight now window replies p -> finished p -> po_parent p = false ->
  outcome preflight p = inl out ->
  map cq_index out = seq 0 (planSize preflight) /\ Forall (fun q => genuine q /\ cq_issue q = None) out.
Proof.
  intros Hp%reachable_invariant (Hj & Hr & Hq) Hpar. pose proof (history_NoDup p Hp) as Hnd.
  destruct Hp as [Hi Hd Hc Hs _ Hg]. rewrite Hj, Hr, Hq in *. simpl in *.
  unfold outcome. destruct (dr_issue (po_drained p)) eqn:Hiss; [done|]. intros [= <-].
  assert (po_cancelled p = false) as Hcan.
  { destruct (po_cancelled p); [|done]. destruct (Hc eq_refl); congruence. }
  assert (po_skipped p = []) as Hsk.
  { destruct (po_skipped p); [done|]. rewrite Hs in Hcan; done. }
  rewrite Hsk, app_nil_r in Hi. rewrite Hd in *. destruct (fold_drain_ok _ Hiss) as (Hf & _ & _ & _ & Hcol).
  rewrite Hcol. split.
  - apply omap_indexes. intros i Hin. rewrite <- Hi in Hin. apply list_elem_of_fmap in Hin as (q & -> & Hin).
    exists q. by rewrite collected_lookup.
  - apply Forall_forall. intros q (i & _ & Hl)%list_elem_of_omap. apply collected_lookup in Hl as [Hl _]; [|done].
    rewrite Forall_forall in Hf, Hg. auto.
Qed.

(** *** Budgets *)

Lemma wrap64_add a b : wrap64 (wrap64 a + b) = wrap64 (a + b).
Proof.
  unfold wrap64. f_equal.
  replace ((a + 2 ^ 63) mod 2 ^ 64 - 2 ^ 63 + b + 2 ^ 63) with ((a + 2 ^ 63) mod 2 ^ 64 + b) by ring.
  rewrite Zplus_mod_idemp_l. f_equal. ring.
Qed.

Lemma total_sum {A} (f : A -> Z) l : fold_left (fun total q => wrap64 (total + f q)) l 0 = wrap64 (fold_right Z.add 0 (map f l)).
Proof.
  induction l as [|q l IH] using rev_ind; [done|]. rewrite fold_left_app, map_app, fold_right_app. simpl.
  rewrite IH, wrap64_add. f_equal. clear IH. induction l as [|x l IH]; simpl in *; lia.
Qed.

Lemma sum_permutation (l l' : list Z) : l ≡ₚ l' -> fold_right Z.add 0 l = fold_right Z.add 0 l'.
Proof. induction 1; simpl; lia. Qed.

Lemma total_permutation {A} (f : A -> Z) l l' : l ≡ₚ l' ->
  fold_left (fun total q => wrap64 (total + f q)) l 0 = fold_left (fun total q => wrap64 (total + f q)) l' 0.
Proof. intros H. rewrite !total_sum. f_equal. by apply sum_permutation, Permutation_map. Qed.

Lemma NoDup_omap_inj {A B} (f : A -> option B) l : (forall x y b, f x = Some b -> f y = Some b -> x = y) ->
  NoDup l -> NoDup (omap f l).
Proof.
  intros Hf. induction 1 as [|x l Hx _ IH]; [constructor|]. simpl. destruct (f x) as [b|] eqn:E; [|done].
  constructor; [|done]. intros (y & Hy & Hfy)%list_elem_of_omap. by rewrite (Hf x y b E Hfy) in Hx.
Qed.

(** Without an issue the result is what has been drained, reordered. *)
Lemma outcome_permutation p out : pool_invariant p -> outcome preflight p = inl out -> out ≡ₚ po_history p.
Proof.
  intros Hp. pose proof (history_NoDup p Hp) as Hnd. destruct Hp as [Hi Hd _ _ _ _].
  unfold outcome. destruct (dr_issue (po_drained p)) eqn:Hiss; [done|]. intros [= <-].
  rewrite Hd in *. destruct (fold_drain_ok _ Hiss) as (_ & _ & _ & _ & ->).
  assert (Hmem : forall q, q ∈ po_history p -> cq_index q ∈ seq 0 (planSize preflight)).
  { intros q Hq. rewrite <- Hi, !elem_of_app. right. right. right. left. by apply list_elem_of_fmap_2. }
  apply NoDup_Permutation.
  - apply NoDup_omap_inj; [|apply NoDup_ListNoDup, List.seq_NoDup].
    intros i j q Hi1 Hj1. apply collected_lookup in Hi1 as [_ <-]; [|done]. by apply collected_lookup in Hj1 as [_ <-].
  - by apply NoDup_fmap_1 in Hnd.
  - intros q. rewrite list_elem_of_omap. split.
    + intros (i & _ & Hl). by apply collected_lookup in Hl as [? _].
    + intros Hq. exists (cq_index q). split; [auto|]. by apply collected_lookup.
Qed.

Lemma concurrency_bound : (concurrency budget preflight <= planSize preflight)%nat /\
  Z.of_nat (concurrency budget preflight) <= Z.max 1 (qb_MaxConcurrentQueries budget) /\
  (0 < planSize preflight -> 0 < concurrency budget preflight)%nat.
Proof.
  unfold concurrency, effectiveDatasourceQueryConcurrency. destruct (Z.leb_spec (qb_MaxConcurrentQueries budget) 0); lia.
Qed.

(** Under every schedule no more queries are in flight than maxConcurrentQueries
    (one when it is not set), and a result without an issue keeps the budgets of
    cumulative duration and cumulative response bytes. *)
Theorem collection_within_budget (p : pool) :
  reachable budget preflight now window replies p ->
  Z.of_nat (length (po_running p)) <= Z.max 1 (qb_MaxConcurrentQueries budget) /\
  forall out, outcome preflight p = inl out -> within_totals (totalDuration out) (totalBytes out).
Proof.
  intros Hp%reachable_invariant. split.
  - destruct Hp as [_ _ _ _ Hn _]. destruct concurrency_bound as (_ & ? & _). lia.
  - intros out Ho. pose proof (outcome_permutation p out Hp Ho) as Hperm. destruct Hp as [_ Hd _ _ _ _].
    unfold outcome in Ho. destruct (dr_issue (po_drained p)) eqn:Hiss; [done|]. rewrite Hd in Hiss.
    destruct (fold_drain_ok _ Hiss) as (_ & H1 & H2 & Hw & _). rewrite H1, H2 in Hw.
    unfold totalDuration, totalBytes in *. by rewrite !(total_permutation _ _ _ Hperm).
Qed.

(** *** Termination *)

Definition work (p : pool) : nat :=
  3 * length (po_jobs p) + 2 * length (po_running p) + length (po_results p) + (if po_parent p then 0 else 1).

Lemma step_work p p' : step p p' -> (work p' < work p)%nat.
Proof. destruct 1; unfold work; simpl; rewrite ?length_app; simpl; lia. Qed.

Lemma nsteps_work n p p' : nsteps step n p p' -> (n + work p' <= work p)%nat.
Proof. induction 1 as [|n p1 p2 p3 Hs _ IH]; [lia|]. apply step_work in Hs. lia. Qed.

Lemma pool_progress p : (forall i, exists r, replies i r) -> pool_invariant p -> ~ finished p ->
  exists p', step p p' /\ po_parent p' = po_parent p.
Proof.
  intros Htotal [Hi _ _ _ _ _] Hnf. destruct p as [jobs running results d cancelled history skipped parent].
  unfold finished in Hnf. simpl in *.
  destruct results as [|q results]; [|by eexists; split; [apply step_drain|]].
  destruct running as [|i running].
  2:{ destruct (Htotal i) as [r Hr]. eexists. split; [by apply (step_finish _ _ _ _ _ jobs [] i running)|done]. }
  destruct jobs as [|i jobs]; [by destruct Hnf|].
  assert (0 < concurrency budget preflight)%nat as Hc.
  { apply concurrency_bound. apply Permutation_length in Hi. rewrite List.length_seq in Hi. simpl in Hi. lia. }
  destruct cancelled; eexists; (split; [first [by apply (step_take _ _ _ _ _ [])|by apply (step_skip _ _ _ _ _ [])]|done]).
Qed.

(** C24: The collection ends: no schedule has more than three steps for each query and
    one for a cancellation from outside, and, if every query gets some reply, a pool
    that has not finished can go on. *)
Theorem collection_terminates :
  (forall n p, nsteps step n (initialPool preflight) p -> (n <= 3 * planSize preflight + 1)%nat) /\
  ((forall i, exists r, replies i r) ->
   forall p, reachable budget preflight now window replies p -> ~ finished p ->
   exists p', step p p' /\ po_parent p' = po_parent p).
Proof.
  split.
  - intros n p H%nsteps_work. unfold work at 2 in H. simpl in H. rewrite List.length_seq in H. lia.
  - intros Htotal p Hp%reachable_invariant. by apply pool_progress.
Qed.
End Schedules.

(** ** A schedule *)
Section ScheduleExamples.
#[local] Existing Instance plain_tables.
#[local] Existing Instance record_sizes.

Definition ex_step (name : string) : CollectionStep := mkCollectionStep name "prometheus" QueryTypeMetric "up" [].
Definition ex_preflight : PreflightResult :=
  mkPreflightResult pf_resource ∅ ["prometheus"] [ex_step "first"; ex_step "second"] None None None None None.
Definition ex_budget : InvestigationQueryBudget := mkInvestigationQueryBudget 0 0 0 2 (10 * second) 100 zeroResultLimits.
Definition ex_result : QueryResult :=
  mkQueryResult "prometheus" QueryTypeMetric "one" [∅] false "" "" 0 0 0 (mkNativeResultCounts "" 0 0 0 0 0) None.
Definition ex_replies (_ : nat) (r : reply) : Prop := r = Replied prometheusAdapter (inl ex_result) second.
Definition ex_collected (i : nat) : collectedQuery :=
  collectDatasourceQuery ex_budget ex_preflight 0 minute i (Replied prometheusAdapter (inl ex_result) second).

(** Both queries are taken, the second answers first. *)
Definition ex_finished : pool :=
  mkPool [] [] [] (mkDrained (<[0%nat := ex_collected 0]> (<[1%nat := ex_collected 1]> ∅)) (2 * second) 2 None) false
    [ex_collected 1; ex_collected 0] [] false.

Lemma ex_schedule : reachable ex_budget ex_preflight 0 minute ex_replies ex_finished.
Proof.
  unfold reachable, initialPool. change (seq 0 (planSize ex_preflight)) with [0%nat; 1%nat].
  eapply rtc_l; [apply (step_take _ _ _ _ _ []); vm_compute; lia|]. eapply rtc_l; [apply (step_take _ _ _ _ _ []); vm_compute; lia|].
  eapply rtc_l; [by apply (step_finish _ _ _ _ _ [] [] 1%nat [0%nat])|].
  eapply rtc_l; [by apply (step_finish _ _ _ _ _ [] [] 0%nat [])|].
  eapply rtc_l; [apply step_drain|]. eapply rtc_l; [apply step_drain|]. apply rtc_refl.
Qed.

Lemma collection_complete_witness :
  exists out, outcome ex_preflight ex_finished = inl out /\ map cq_index out = [0%nat; 1%nat].
Proof.
  exists [ex_collected 0; ex_collected 1]. split; [reflexivity|].
  exact (proj1 (collection_complete ex_budget ex_preflight 0 minute ex_replies ex_finished
    [ex_collected 0; ex_collected 1] ex_schedule ltac:(by vm_compute) eq_refl eq_refl)).
Defined.

Lemma collection_within_budget_witness :
  within_totals ex_budget (totalDuration [ex_collected 0; ex_collected 1]) (totalBytes [ex_collected 0; ex_collected 1]).
Proof.
  exact (proj2 (collection_within_budget ex_budget ex_preflight 0 minute ex_replies ex_finished ex_schedule)
    [ex_collected 0; ex_collected 1] eq_refl).
Defined.

(** When the caller's context is cancelled before the workers start, the collection
    ends without an issue and without an answer. *)
Theorem cancelled_collection_partial :
  exists p, reachable ex_budget ex_preflight 0 minute ex_replies p /\ finished p /\ outcome ex_preflight p = inl [].
Proof.
  exists (mkPool [] [] [] nothing true [] [1%nat; 0%nat] true). split; [|done].
  unfold reachable, initialPool. change (seq 0 (planSize ex_preflight)) with [0%nat; 1%nat].
  eapply rtc_l; [apply step_cancel|]. eapply rtc_l; [apply (step_skip _ _ _ _ _ []); vm_compute; lia|].
  eapply rtc_l; [apply (step_skip _ _ _ _ _ []); vm_compute; lia|]. apply rtc_refl.
Qed.
End ScheduleExamples.
