(* ===== verification/Normalize.v ===== *)
(** * Normalization of query results (internal/investigation/service.go)

    A query result is cut to the result limits, filtered to the event reasons the
    step asks for, and its first records become observations and evidence
    references: with a redacted and truncated summary, a classification, and a
    digest of the content. *)

From Stdlib Require Import ZArith Lia.
From stdpp Require Import base list strings gmap.
From S2P Require Import Prelude GoStrings Utf8 GoParse Api InvestigationApi Digest DataClassification Observation Egress Gateway StatusBudget InvestigationSpec Datasource Preflight Redactor.

(** Text of values beyond strings, integers and booleans: fmt's [%v] of floats and
    composite values and [%.2f], [strconv.ParseFloat] (the bits, without an error),
    the conversion of a float64 to int32, the literal of encoding/json ([None] for
    the values it rejects), and fmt's text of a digest payload, which replaces the
    JSON of a payload that does not marshal. *)
Class ValueText := {
  sprint_other : any_value -> string;
  fixed2 : Z -> string;
  ParseFloat64 : string -> option Z;
  int32_of_float64 : Z -> Z;
  float_literal : Z -> option string;
  sprint_payload : Observation -> string
}.

(** Floats kept as integers, for examples. *)
Definition plain_values : ValueText := {|
  sprint_other _ := "?"; fixed2 bits := itoa bits +:+ ".00";
  ParseFloat64 s := digits s; int32_of_float64 bits := wrap32 bits;
  float_literal bits := Some (itoa bits); sprint_payload _ := "map" |}.

Abbreviation record := (gmap string any_value) (only parsing).

Definition maxEvidencePerDatasource : nat := 5.

(** ** Result limits and filter *)

Definition minPositiveLimit (limits : list Z) : Z :=
  fold_left (fun m limit => if limit <=? 0 then m else if (m =? 0) || (limit <? m) then limit else m) limits 0.
Definition firstPositiveLimit (limits : list Z) : Z :=
  default 0 (find_first (fun limit => if 0 <? limit then Some limit else None) limits).

Definition maxQueryResultRecords (queryType : string) (limits : QueryResultLimits) : Z :=
  if queryType == QueryTypeMetric then minPositiveLimit [ql_MetricsMaxSamples limits; ql_MetricsMaxSeries limits]
  else if queryType == QueryTypeLog then firstPositiveLimit [ql_LogsMaxEntries limits; ql_LogsMaxLines limits]
  else if mem_str queryType [QueryTypeEvent; QueryTypeDeploymentCondition; QueryTypeServiceConfiguration;
                             QueryTypeProbeConfiguration; QueryTypeContainerTermination]
  then ql_EventsMaxRecords limits
  else 0.

Definition with_records (r : QueryResult) (summary : string) (records : list record) : QueryResult :=
  mkQueryResult (qs_Source r) (qs_QueryType r) summary records (qs_Truncated r) (qs_TruncationReason r)
    (qs_LimitDimension r) (qs_Limit r) (qs_OriginalRecordCount r) (qs_RetainedRecordCount r) (qs_NativeCounts r)
    (qs_NativeLimit r).

(** A nil result, or one without records, is returned as it is. *)
Definition applyQueryResultLimits (result : QueryResult) (queryType : string) (limits : QueryResultLimits) : QueryResult :=
  let records := qs_Records result in
  let count := Z.of_nat (length records) in
  let maxRecords := maxQueryResultRecords queryType limits in
  if (maxRecords <=? 0) || (count <=? maxRecords) then result
  else
    mkQueryResult (qs_Source result) (qs_QueryType result)
      (qs_Summary result +:+ "; result limit retained " +:+ itoa maxRecords +:+ " of " +:+ itoa count +:+ " records")
      (take (Z.to_nat maxRecords) records) true "ResultLimitExceeded" "records" maxRecords count maxRecords
      (qs_NativeCounts result) (qs_NativeLimit result).

Definition any_string (r : record) (key : string) : string :=
  match r !! key with Some (AnyString s) => s | _ => "" end.

Section Normalize.
Context {U : UnicodeTables} {D : DigestPrims} {V : ValueText}.

Definition eventReasonAllowed (reason : string) (allowed : list string) : bool :=
  match allowed with
  | [] => true
  | _ =>
      let normalizedReason := trim_space reason in
      (normalizedReason != "") && existsb (fun expected => equal_fold normalizedReason (trim_space expected)) allowed
  end.

Definition filterQueryResult (result : QueryResult) (step : CollectionStep) : QueryResult :=
  if (cs_QueryType step != QueryTypeEvent) || bool_decide (cs_Reasons step = []) then result
  else
    let records := List.filter (fun r => eventReasonAllowed (any_string r "reason") (cs_Reasons step)) (qs_Records result) in
    with_records result
      (firstNonEmpty [cs_Name step; qs_Source result] +:+ " filtered to " +:+ itoa (Z.of_nat (length records))
       +:+ " matching records") records.

(** ** Reading a record *)

(** [fmt.Sprint]. *)
Definition sprint (v : any_value) : string :=
  match v with
  | AnyNil => "<nil>"
  | AnyString s => s
  | AnyBool b => if b then "true" else "false"
  | AnyInt z => itoa z
  | _ => sprint_other v
  end.

Definition recordText (r : record) (key : string) : option string :=
  match r !! key with None | Some AnyNil => None | Some v => Some (trim_space (sprint v)) end.
Definition observationRecordString (r : record) (key : string) : string := default "" (recordText r key).
Definition observationRecordInt32 (r : record) (key : string) : Z :=
  match r !! key with
  | Some (AnyInt z) => wrap32 z
  | Some (AnyFloat bits) => int32_of_float64 bits
  | _ =>
      match recordText r key with
      | None => 0
      | Some text => let '(z, ok) := ParseInt text 32 in if ok then z else 0
      end
  end.
(** [strconv.ParseBool] accepts exactly these texts as true. *)
Definition observationRecordBool (r : record) (key : string) : bool :=
  match r !! key with
  | Some (AnyBool b) => b
  | _ => mem_str (observationRecordString r key) ["1"; "t"; "T"; "TRUE"; "true"; "True"]
  end.

Definition rawObservationSummary (r : record) (result : QueryResult) : string :=
  join " " (omap (fun key => sprint <$> r !! key)
              ["line"; "message"; "reason"; "metric"; "value"; "serviceName"; "targetPortRaw"; "targetPortResolved";
               "containerPort"; "resolution"; "mismatchConfirmed"] ++ [qs_Summary result]).

Definition recordLabels (r : record) : option (list (string * any_value)) :=
  match r !! "labels" with
  | Some (AnyMap fields) => Some fields
  | Some (AnyStringMap m) => Some (map (fun kv => (fst kv, AnyString (snd kv))) (map_to_list m))
  | _ => None
  end.
Definition firstLabelValue (labels : list (string * any_value)) (keys : list string) : string :=
  default "" (find_first (fun key =>
    match find_first (fun f => if fst f == key then Some (snd f) else None) labels with
    | None | Some AnyNil => None
    | Some v => if trim_space (sprint v) != "" then Some (trim_space (sprint v)) else None
    end) keys).
Definition or_else (value fallback : string) : string := if value == "" then fallback else value.
Definition relatedTargetsFromRecord (r : record) (req : QueryRequest) : list ResourceRef :=
  match recordLabels r with
  | None => []
  | Some labels =>
      let get key := firstLabelValue labels ["dependency_" +:+ key; "causal_dependency_" +:+ key] in
      if (get "kind" == "") || (get "name" == "") then []
      else [mkResourceRef (rr_Cluster (qr_Target req)) (or_else (get "namespace") (rr_Namespace (qr_Target req)))
              (get "kind") (get "name") (or_else (get "api_version") "v1") ""]
  end.

(** ** The value of an observation *)

Definition noValue : ObservationValue := mkObservationValue None None None None None None None.

(** Type, summary and value for the type of the result. *)
Definition observationContent (r : record) (result : QueryResult) : string * string * ObservationValue :=
  let text := observationRecordString r in
  let int := observationRecordInt32 r in
  let flag := observationRecordBool r in
  let message := RedactText (firstNonEmpty [trim_space (any_string r "message"); qs_Summary result]) in
  let unknown s := firstNonEmpty [s; "unknown"] in
  let bool_text (b : bool) := if b then "true" else "false" in
  let ty := qs_QueryType result in
  if ty == QueryTypeMetric then
    let name := unknown (any_string r "metric") in
    let raw := sprint (default AnyNil (r !! "value")) in
    match ParseFloat64 raw with
    | Some bits =>
        (ObservationTypeMetric, RedactText ("metric " +:+ name +:+ " returned value " +:+ fixed2 bits),
         mkObservationValue (Some (mkMetricObservation name bits "")) None None None None None None)
    | None =>
        (ObservationTypeMetric, RedactText ("metric " +:+ name +:+ " returned value " +:+ raw),
         mkObservationValue (Some (mkMetricObservation name 0 "")) None None None None None None)
    end
  else if ty == QueryTypeLog then
    let line := RedactText (firstNonEmpty [trim_space (any_string r "line"); qs_Summary result]) in
    (ObservationTypeLog, line, mkObservationValue None (Some (mkLogObservation line)) None None None None None)
  else if ty == QueryTypeEvent then
    (ObservationTypeEvent, message,
     mkObservationValue None None (Some (mkEventObservation (RedactText (any_string r "reason")) message)) None None None None)
  else if ty == QueryTypeDeploymentCondition then
    (ObservationTypeDeploymentCondition, message,
     mkObservationValue None None None
       (Some (mkDeploymentConditionObservation (RedactText (any_string r "type")) (RedactText (any_string r "status"))
                (RedactText (any_string r "reason")) message 0 0)) None None None)
  else if ty == QueryTypeServiceConfiguration then
    (ObservationTypeServiceConfiguration,
     RedactText ("Service " +:+ text "serviceName" +:+ " targetPort=" +:+ text "targetPortRaw" +:+ " resolved="
       +:+ itoa (int "targetPortResolved") +:+ "; " +:+ text "workloadKind" +:+ "/" +:+ text "workloadName"
       +:+ " container " +:+ text "containerName" +:+ " " +:+ or_else (text "containerPortName") "port" +:+ "="
       +:+ itoa (int "containerPort") +:+ "; resolution=" +:+ text "resolution" +:+ "; mismatchConfirmed="
       +:+ bool_text (flag "mismatchConfirmed")),
     mkObservationValue None None None None
       (Some (mkServiceConfigurationObservation (text "serviceName") (text "servicePortName") (int "servicePort")
                (text "targetPortRaw") (int "targetPortResolved") (flag "targetPortNamed") (text "workloadKind")
                (text "workloadName") (text "containerName") (text "containerPortName") (int "containerPort")
                (text "resolution") (flag "mismatchConfirmed") (text "reason"))) None None)
  else if ty == QueryTypeProbeConfiguration then
    (ObservationTypeProbeConfiguration,
     RedactText (text "workloadKind" +:+ "/" +:+ text "workloadName" +:+ " container " +:+ text "containerName" +:+ " "
       +:+ text "probeType" +:+ " probe " +:+ text "probeScheme" +:+ "://" +:+ text "probePath" +:+ ":"
       +:+ text "probePortRaw" +:+ "; resolved=" +:+ itoa (int "probePortResolved") +:+ "; container "
       +:+ text "containerPortName" +:+ "=" +:+ itoa (int "containerPort") +:+ "; resolution=" +:+ text "resolution"
       +:+ "; mismatchConfirmed=" +:+ bool_text (flag "mismatchConfirmed")),
     mkObservationValue None None None None None
       (Some (mkProbeConfigurationObservation (text "workloadKind") (text "workloadName") (text "containerName")
                (text "probeType") (text "probeScheme") (text "probePath") (text "probePortRaw")
                (int "probePortResolved") (flag "probePortNamed") (text "containerPortName") (int "containerPort")
                (text "resolution") (flag "mismatchConfirmed") (text "reason"))) None)
  else if ty == QueryTypeContainerTermination then
    (ObservationTypeContainerTermination,
     (if qs_Truncated result && (text "podName" == "") && (text "containerName" == "")
      then RedactText (qs_Summary result)
      else RedactText ("Pod " +:+ text "podName" +:+ " container " +:+ text "containerName" +:+ " restartCount="
             +:+ itoa (int "restartCount") +:+ " waitingReason=" +:+ unknown (text "waitingReason")
             +:+ " lastTerminatedReason=" +:+ unknown (text "lastTerminatedReason") +:+ " exitCode="
             +:+ itoa (int "lastTerminatedExitCode") +:+ " signal=" +:+ itoa (int "lastTerminatedSignal")
             +:+ " finishedAt=" +:+ unknown (text "lastTerminatedFinishedAt"))),
     mkObservationValue None None None None None None
       (Some (mkContainerTerminationObservation (text "podName") (text "podUID") (text "containerName")
                (int "restartCount") (text "waitingReason") (text "lastTerminatedReason")
                (int "lastTerminatedExitCode") (int "lastTerminatedSignal") (text "lastTerminatedFinishedAt"))))
  else
    let summary := RedactText (qs_Summary result) in
    (ObservationTypeEvent, summary,
     mkObservationValue None None (Some (mkEventObservation "" summary)) None None None None).

(** The truncated summary replaces the text of a log, an event or a condition. *)
Definition with_summary (summary : string) (v : ObservationValue) : ObservationValue :=
  mkObservationValue (ov_Metric v) ((fun _ => mkLogObservation summary) <$> ov_Log v)
    ((fun e => mkEventObservation (eo_Reason e) summary) <$> ov_Event v)
    ((fun c => mkDeploymentConditionObservation (dco_Type c) (dco_Status c) (dco_Reason c) summary
                 (dco_AvailableReplicas c) (dco_DesiredReplicas c)) <$> ov_DeploymentCondition v)
    (ov_ServiceConfiguration v) (ov_ProbeConfiguration v) (ov_ContainerTermination v).

(** ** The content digest *)

(** Fields with [omitempty]; a struct field without it is written directly. *)
Definition int32_fields (l : list (string * Z)) : list (string * json) := flat_map (fun f => int_field (fst f) (snd f)) l.
Definition str_fields (l : list (string * string)) : list (string * json) := flat_map (fun f => str_field (fst f) (snd f)) l.
Definition opt_field {A} (key : string) (f : A -> json) (v : option A) : list (string * json) :=
  match v with Some x => [(key, f x)] | None => [] end.

Definition time_range_json (t : TimeRange) : json :=
  JObj [("start", JStr (CanonicalTime (trg_Start t))); ("end", JStr (CanonicalTime (trg_End t)))].

(** [literal] is the text of the sample. *)
Definition metric_json (literal : string) (m : MetricObservation) : json :=
  JObj (str_field "name" (mo_Name m) ++ [("value", JFloat literal)] ++ str_field "unit" (mo_Unit m)).
Definition event_json (e : EventObservation) : json :=
  JObj (str_fields [("reason", eo_Reason e); ("message", eo_Message e)]).
Definition condition_json (c : DeploymentConditionObservation) : json :=
  JObj (str_fields [("type", dco_Type c); ("status", dco_Status c); ("reason", dco_Reason c); ("message", dco_Message c)]
        ++ int32_fields [("availableReplicas", dco_AvailableReplicas c); ("desiredReplicas", dco_DesiredReplicas c)]).
Definition service_json (v : ServiceConfigurationObservation) : json :=
  JObj (str_fields [("serviceName", sco_ServiceName v); ("servicePortName", sco_ServicePortName v);
                    ("targetPortRaw", sco_TargetPortRaw v); ("workloadKind", sco_WorkloadKind v);
                    ("workloadName", sco_WorkloadName v); ("containerName", sco_ContainerName v);
                    ("containerPortName", sco_ContainerPortName v); ("resolution", sco_Resolution v);
                    ("reason", sco_Reason v)]
        ++ int32_fields [("servicePort", sco_ServicePort v); ("targetPortResolved", sco_TargetPortResolved v);
                         ("containerPort", sco_ContainerPort v)]
        ++ bool_field "targetPortNamed" (sco_TargetPortNamed v)
        ++ bool_field "mismatchConfirmed" (sco_MismatchConfirmed v)).
Definition probe_json (v : ProbeConfigurationObservation) : json :=
  JObj (str_fields [("workloadKind", pco_WorkloadKind v); ("workloadName", pco_WorkloadName v);
                    ("containerName", pco_ContainerName v); ("probeType", pco_ProbeType v);
                    ("probeScheme", pco_ProbeScheme v); ("probePath", pco_ProbePath v);
                    ("probePortRaw", pco_ProbePortRaw v); ("containerPortName", pco_ContainerPortName v);
                    ("resolution", pco_Resolution v); ("reason", pco_Reason v)]
        ++ int32_fields [("probePortResolved", pco_ProbePortResolved v); ("containerPort", pco_ContainerPort v)]
        ++ bool_field "probePortNamed" (pco_ProbePortNamed v)
        ++ bool_field "mismatchConfirmed" (pco_MismatchConfirmed v)).
Definition termination_json (v : ContainerTerminationObservation) : json :=
  JObj (str_fields [("podName", cto_PodName v); ("podUID", cto_PodUID v); ("containerName", cto_ContainerName v);
                    ("waitingReason", cto_WaitingReason v); ("lastTerminatedReason", cto_LastTerminatedReason v);
                    ("lastTerminatedFinishedAt", cto_LastTerminatedFinishedAt v)]
        ++ int32_fields [("restartCount", cto_RestartCount v); ("lastTerminatedExitCode", cto_LastTerminatedExitCode v);
                         ("lastTerminatedSignal", cto_LastTerminatedSignal v)]).

(** [None]: the sample is NaN or infinite and the value does not marshal. *)
Definition observation_value_json (v : ObservationValue) : option json :=
  let rest := opt_field "log" (fun l => JObj (str_field "line" (lo_Line l))) (ov_Log v)
    ++ opt_field "event" event_json (ov_Event v) ++ opt_field "deploymentCondition" condition_json (ov_DeploymentCondition v)
    ++ opt_field "serviceConfiguration" service_json (ov_ServiceConfiguration v)
    ++ opt_field "probeConfiguration" probe_json (ov_ProbeConfiguration v)
    ++ opt_field "containerTermination" termination_json (ov_ContainerTermination v) in
  match ov_Metric v with
  | None => Some (JObj rest)
  | Some m =>
      match float_literal (mo_Value m) with
      | Some literal => Some (JObj (("metric", metric_json literal m) :: rest))
      | None => None
      end
  end.

Definition observation_payload (o : Observation) (value : json) : json :=
  JObj ([("schemaVersion", JStr (ob_SchemaVersion o)); ("dataSourceRef", JStr (ob_DataSourceRef o));
         ("capability", JStr (ob_Capability o)); ("queryDigest", JStr (ob_QueryDigest o));
         ("timeRange", time_range_json (ob_TimeRange o)); ("type", JStr (ob_Type o)); ("value", value);
         ("summary", JStr (ob_Summary o)); ("redactionProfile", JStr (ob_RedactionProfile o));
         ("classification", match ob_Classification o with Some c => data_classification_json c | None => JNull end);
         ("truncated", JBool (ob_Truncated o)); ("originalCount", JNum (ob_OriginalCount o));
         ("retainedCount", JNum (ob_RetainedCount o)); ("originalBytes", JNum (ob_OriginalBytes o));
         ("retainedBytes", JNum (ob_RetainedBytes o))]
        ++ str_field "truncationReason" (ob_TruncationReason o) ++ str_field "limitDimension" (ob_LimitDimension o)
        ++ int_field "limit" (ob_Limit o)
        ++ match ob_RelatedTargets o with [] => [] | l => [("relatedTargets", JArr (map resource_ref_json l))] end).

(** A payload that does not marshal is hashed as fmt prints it. *)
Definition contentDigest (o : Observation) : string :=
  match observation_value_json (ob_Value o) with
  | Some value => digestString ObservationJSONV1 (observation_payload o value)
  | None => AlgorithmSHA256 +:+ ":" +:+ sha256_hex (sprint_payload o)
  end.

(** ** [normalizeObservation] *)

Definition nativeText (f : NativeResultLimit -> string) (r : QueryResult) : string :=
  match qs_NativeLimit r with Some l => f l | None => "" end.
Definition firstNonZeroInt64 (values : list Z) : Z :=
  default 0 (find_first (fun v => if v =? 0 then None else Some v) values).

(** The verb [%03d] of a positive number. *)
Definition observationID (number : Z) : string := "evidence-" +:+ pad 3 number.

(** The observation before its content digest. *)
Definition undigested (r : record) (result : QueryResult) (req : QueryRequest) (index : nat)
    (originalCount retainedCount : Z) (truncated : bool) (collectedAt : time) : Observation :=
  let '(ty, text, value) := observationContent r result in
  let '(summary, originalBytes, retainedBytes, cutShort) := TruncateUTF8 text MaxEvidenceSummaryBytes in
  mkObservation (observationID (Z.of_nat index + 1)) "observation.fluxseer.io/v1alpha1"
    (firstNonEmpty [qs_Source result; rr_Service (qr_Target req); rr_Name (qr_Target req)])
    (qr_QueryType req)
    (digestString ObservationJSONV1 (JObj [("capability", JStr (qr_QueryType req)); ("query", JStr (qr_Query req))]))
    (mkTimeRange (qr_StartTime req) (qr_EndTime req)) ty (with_summary summary value) summary ""
    AlgorithmSHA256 ObservationJSONV1 "default-v1"
    (Some (Merge [DefaultForObservation (qs_QueryType result) (rawObservationSummary r result); qr_Classification req]))
    (truncated || cutShort)
    (firstNonEmpty [qs_TruncationReason result; nativeText nl_Reason result])
    (firstNonEmpty [qs_LimitDimension result; nativeText nl_Dimension result])
    (firstNonZeroInt64 [qs_Limit result; match qs_NativeLimit result with Some l => nl_Limit l | None => 0 end])
    originalCount retainedCount originalBytes retainedBytes collectedAt (relatedTargetsFromRecord r req).

Definition with_digest (digest : string) (o : Observation) : Observation :=
  mkObservation (ob_ID o) (ob_SchemaVersion o) (ob_DataSourceRef o) (ob_Capability o) (ob_QueryDigest o)
    (ob_TimeRange o) (ob_Type o) (ob_Value o) (ob_Summary o) digest (ob_DigestAlgorithm o)
    (ob_DigestCanonicalization o) (ob_RedactionProfile o) (ob_Classification o) (ob_Truncated o)
    (ob_TruncationReason o) (ob_LimitDimension o) (ob_Limit o) (ob_OriginalCount o) (ob_RetainedCount o)
    (ob_OriginalBytes o) (ob_RetainedBytes o) (ob_CollectedAt o) (ob_RelatedTargets o).

Definition normalizeObservation (r : record) (result : QueryResult) (req : QueryRequest) (index : nat)
    (originalCount retainedCount : Z) (truncated : bool) (collectedAt : time) : Observation :=
  let o := undigested r result req index originalCount retainedCount truncated collectedAt in
  with_digest (contentDigest o) o.

(** At most five records become observations; [offset] numbers them. *)
Definition normalizeObservations (result : QueryResult) (req : QueryRequest) (offset : nat) (collectedAt : time)
    : list Observation :=
  let count := Z.of_nat (length (qs_Records result)) in
  let kept := Z.min count (Z.of_nat maxEvidencePerDatasource) in
  let truncated := qs_Truncated result || (kept <? count) in
  let originalCount := if count <? qs_OriginalRecordCount result then qs_OriginalRecordCount result else count in
  let retainedCount := if (0 <? qs_RetainedRecordCount result) && (qs_RetainedRecordCount result <? kept)
                       then qs_RetainedRecordCount result else kept in
  match qs_Records result with
  | [] =>
      if qs_Truncated result && (qs_QueryType result == QueryTypeContainerTermination)
      then [normalizeObservation ∅ result req offset (qs_OriginalRecordCount result) (qs_RetainedRecordCount result)
              true collectedAt]
      else []
  | records =>
      imap (fun index r => normalizeObservation r result req (offset + index) originalCount retainedCount truncated collectedAt)
        (take maxEvidencePerDatasource records)
  end.

(** ** Evidence references *)

Definition retainedQuery (query retention : string) : string :=
  let mode := trim_space retention in
  if mode == QueryRetentionModeFull then query
  else if mode == QueryRetentionModeRedacted then RedactText query
  else "".

Definition targetRefFromResourceRef (t : ResourceRef) : TargetRef :=
  mkTargetRef (rr_Cluster t) (rr_Namespace t) (rr_Kind t) (rr_Name t) (rr_APIVersion t) "".

(** The reason of the last of the values that are set. *)
Definition valueReason (v : ObservationValue) : string :=
  let r := match ov_Event v with Some e => eo_Reason e | None => "" end in
  let r := match ov_DeploymentCondition v with Some c => dco_Reason c | None => r end in
  let r := match ov_ServiceConfiguration v with Some c => sco_Reason c | None => r end in
  match ov_ProbeConfiguration v with Some c => pco_Reason c | None => r end.

Definition evidenceRefFromObservation (req : QueryRequest) (retention : string) (o : Observation) : EvidenceRef :=
  mkEvidenceRef (ob_ID o) (ob_Type o) (ob_DataSourceRef o) (ob_Summary o) (retainedQuery (qr_Query req) retention)
    (ob_QueryDigest o) (ob_ContentDigest o) (ob_DigestAlgorithm o) (ob_DigestCanonicalization o)
    (ob_RedactionProfile o) (ob_Classification o) (ob_Truncated o) (ob_TruncationReason o) (ob_LimitDimension o)
    (ob_Limit o) (wrap32 (ob_OriginalCount o)) (wrap32 (ob_RetainedCount o)) (wrap32 (ob_OriginalBytes o))
    (wrap32 (ob_RetainedBytes o)) (Some (ob_CollectedAt o)) None (valueReason (ob_Value o)) ""
    (map targetRefFromResourceRef (ob_RelatedTargets o)).
Definition evidenceRefsFromObservations (observations : list Observation) (req : QueryRequest) (retention : string)
    : list EvidenceRef :=
  map (evidenceRefFromObservation req retention) observations.
End Normalize.
