(* ===== verification/GoJson.v ===== *)
(** * JSON texts (encoding/json)

    The decoder of the standard library, which the adapters and the model
    providers read their answers with: the grammar of RFC 8259, strings with
    their escapes and with U+FFFD for what is not valid UTF-8, and the limit on
    nesting.  What a text is stored into is written with the readers below: a
    field of a struct is matched without regard to case, [null] leaves the
    destination as it is, and a value of another type is an error. *)

From Stdlib Require Import ZArith Lia.
From stdpp Require Import base list strings gmap.
From S2P Require Import Prelude GoStrings GoParse Digest Datasource Normalize.

(** A value of a text, numbers as they are written. *)
Inductive jvalue :=
| JvNull
| JvBool (b : bool)
| JvNumber (literal : string)
| JvString (s : string)
| JvArray (items : list jvalue)
| JvObject (fields : list (string * jvalue)).

(** ** The scanner *)

Definition is_byte (code : Z) (c : Ascii.ascii) : bool := byte_val c =? code.

Fixpoint skip_blanks (s : string) : string :=
  match s with
  | String c s' => if existsb (fun code => is_byte code c) [32; 9; 10; 13] then skip_blanks s' else s
  | EmptyString => s
  end.

(** The four hexadecimal digits of an escape. *)
Definition hex_value (c : Ascii.ascii) : option Z :=
  let b := byte_val c in
  if (48 <=? b) && (b <=? 57) then Some (b - 48)
  else if (97 <=? b) && (b <=? 102) then Some (b - 87)
  else if (65 <=? b) && (b <=? 70) then Some (b - 55)
  else None.
Definition hex4 (s : string) : option (Z * string) :=
  match s with
  | String a (String b (String c (String d rest))) =>
      match hex_value a, hex_value b, hex_value c, hex_value d with
      | Some a, Some b, Some c, Some d => Some (((a * 16 + b) * 16 + c) * 16 + d, rest)
      | _, _, _, _ => None
      end
  | _ => None
  end.

Definition is_surrogate (r : Z) : bool := (55296 <=? r) && (r <? 57344).

(** The rune of an escape after [u]: a pair of surrogates is one rune, and half a
    pair is U+FFFD. *)
Definition unicode_rune (s : string) : option (Z * string) :=
  match hex4 s with
  | None => None
  | Some (r, rest) =>
      if negb (is_surrogate r) then Some (r, rest)
      else
        match rest with
        | String b (String u rest') =>
            if is_byte 92 b && is_byte 117 u then
              match hex4 rest' with
              | Some (r2, rest2) =>
                  if (r <? 56320) && (56320 <=? r2) && (r2 <? 57344)
                  then Some (Z.lor (Z.shiftl (r - 55296) 10) (r2 - 56320) + 65536, rest2)
                  else Some (rune_error, rest)
              | None => Some (rune_error, rest)
              end
            else Some (rune_error, rest)
        | _ => Some (rune_error, rest)
        end
  end.

Definition simple_escape (c : Ascii.ascii) : option Z :=
  let b := byte_val c in
  if (b =? 34) || (b =? 92) || (b =? 47) then Some b
  else if b =? 98 then Some 8 else if b =? 102 then Some 12 else if b =? 110 then Some 10
  else if b =? 114 then Some 13 else if b =? 116 then Some 9 else None.

(** A string after its opening quote, and what follows the closing one. *)
Fixpoint string_from (fuel : nat) (s : string) : option (string * string) :=
  match fuel, s with
  | S fuel, String c rest =>
      if is_byte 34 c then Some ("", rest)
      else if is_byte 92 c then
        match rest with
        | String e rest' =>
            match if is_byte 117 e then unicode_rune rest'
                  else (fun r => (r, rest')) <$> simple_escape e with
            | Some (r, rest'') => (fun p => (encode_rune r +:+ fst p, snd p)) <$> string_from fuel rest''
            | None => None
            end
        | EmptyString => None
        end
      else if byte_val c <? 32 then None
      else
        let '(r, n) := decode_rune s in
        (fun p => (encode_rune r +:+ fst p, snd p)) <$> string_from fuel (str_drop n s)
  | _, _ => None
  end.

(** The digits a text starts with, and the rest. *)
Fixpoint span_digits (s : string) : string * string :=
  match s with
  | String c s' =>
      if is_ascii_digit c then let '(d, rest) := span_digits s' in (String c d, rest) else ("", s)
  | EmptyString => ("", s)
  end.

Definition optional_byte (codes : list Z) (s : string) : string * string :=
  match s with
  | String c s' => if existsb (fun code => is_byte code c) codes then (String c "", s') else ("", s)
  | EmptyString => ("", s)
  end.

(** The integer part of a number: one zero, or digits that do not start with one. *)
Definition integer_part (s : string) : option (string * string) :=
  match s with
  | String c s' =>
      if is_byte 48 c then Some (String c "", s')
      else if is_ascii_digit c then Some (span_digits s) else None
  | EmptyString => None
  end.

(** A mark and the digits it needs after it, when the text starts with the mark. *)
Definition marked_digits (marks signs : list Z) (s : string) : option (string * string) :=
  let '(mark, rest) := optional_byte marks s in
  if mark == "" then Some ("", s)
  else
    let '(sign, rest) := optional_byte signs rest in
    let '(d, rest) := span_digits rest in
    if d == "" then None else Some (mark +:+ sign +:+ d, rest).

Definition number_from (s : string) : option (string * string) :=
  let '(sign, rest) := optional_byte [45] s in
  match integer_part rest with
  | None => None
  | Some (whole, rest) =>
      match marked_digits [46] [] rest with
      | None => None
      | Some (frac, rest) =>
          match marked_digits [101; 69] [43; 45] rest with
          | None => None
          | Some (expo, rest) => Some (sign +:+ whole +:+ frac +:+ expo, rest)
          end
      end
  end.

Definition json_keyword (s : string) : option (jvalue * string) :=
  if has_prefix s "null" then Some (JvNull, str_drop 4 s)
  else if has_prefix s "true" then Some (JvBool true, str_drop 4 s)
  else if has_prefix s "false" then Some (JvBool false, str_drop 5 s)
  else None.

Definition maxNestingDepth : nat := 10000.

(** A value, with [depth] more levels allowed; [fuel] bounds the steps. *)
Fixpoint value_from (fuel : nat) (depth : Z) (s : string) {struct fuel} : option (jvalue * string) :=
  match fuel with
  | O => None
  | S fuel =>
      match skip_blanks s with
      | EmptyString => None
      | String c rest as text =>
          if is_byte 34 c then
            (fun p => (JvString (fst p), snd p)) <$> string_from (String.length rest) rest
          else if is_byte 123 c then
            if depth <=? 0 then None
            else (fun p => (JvObject (fst p), snd p)) <$> members_from fuel (depth - 1) true rest
          else if is_byte 91 c then
            if depth <=? 0 then None
            else (fun p => (JvArray (fst p), snd p)) <$> items_from fuel (depth - 1) true rest
          else match json_keyword text with
               | Some p => Some p
               | None => (fun p => (JvNumber (fst p), snd p)) <$> number_from text
               end
      end
  end
(** The items of an array, up to its end; [first]: none was read. *)
with items_from (fuel : nat) (depth : Z) (first : bool) (s : string) {struct fuel} : option (list jvalue * string) :=
  match fuel with
  | O => None
  | S fuel =>
      let item s :=
        match value_from fuel depth s with
        | Some (v, rest) => (fun p => (v :: fst p, snd p)) <$> items_from fuel depth false rest
        | None => None
        end in
      match skip_blanks s with
      | String c rest as text =>
          if is_byte 93 c then Some ([], rest)
          else if first then item text
          else if is_byte 44 c then item rest else None
      | EmptyString => None
      end
  end
(** The members of an object. *)
with members_from (fuel : nat) (depth : Z) (first : bool) (s : string) {struct fuel}
    : option (list (string * jvalue) * string) :=
  match fuel with
  | O => None
  | S fuel =>
      let member s :=
        match skip_blanks s with
        | String q rest =>
            if is_byte 34 q then
              match string_from (String.length rest) rest with
              | Some (key, rest) =>
                  match skip_blanks rest with
                  | String c rest =>
                      if is_byte 58 c then
                        match value_from fuel depth rest with
                        | Some (v, rest) => (fun p => ((key, v) :: fst p, snd p)) <$> members_from fuel depth false rest
                        | None => None
                        end
                      else None
                  | EmptyString => None
                  end
              | None => None
              end
            else None
        | EmptyString => None
        end in
      match skip_blanks s with
      | String c rest as text =>
          if is_byte 125 c then Some ([], rest)
          else if first then member text
          else if is_byte 44 c then member rest else None
      | EmptyString => None
      end
  end.

(** The value a whole text is; a text without its closing quote or bracket, or with
    something after the value, is none. *)
Definition parse_json (s : string) : option jvalue :=
  match value_from (2 * String.length s + 2) (Z.of_nat maxNestingDepth) s with
  | Some (v, rest) => if skip_blanks rest == "" then Some v else None
  | None => None
  end.

(** ** Reading values *)

(** The text of the error encoding/json reports for a text it does not decode. *)
Class JSONErrors := { json_error_text : string -> string }.

Section Readers.
Context {U : UnicodeTables} {V : ValueText}.

(** The destination [any]; a number that is out of range for float64 is an error. *)
Fixpoint read_any (v : jvalue) : option any_value :=
  match v with
  | JvNull => Some AnyNil
  | JvBool b => Some (AnyBool b)
  | JvNumber literal => AnyFloat <$> ParseFloat64 literal
  | JvString s => Some (AnyString s)
  | JvArray items =>
      (fun l => AnyOther ("[" +:+ join " " (map sprint l) +:+ "]")) <$>
      (fix go (items : list jvalue) : option (list any_value) :=
         match items with
         | [] => Some []
         | x :: rest => match read_any x, go rest with Some a, Some l => Some (a :: l) | _, _ => None end
         end) items
  | JvObject fields =>
      (fun m => AnyMap (map_to_list m)) <$>
      (fix go (fields : list (string * jvalue)) : option (gmap string any_value) :=
         match fields with
         | [] => Some ∅
         | (k, x) :: rest =>
             match read_any x, go rest with
             | Some a, Some m => Some (if decide (is_Some (m !! k)) then m else <[k := a]> m)
             | _, _ => None
             end
         end) fields
  end.

(** What a value does to a destination that holds [old]. *)
Definition read_string (v : jvalue) (old : string) : option string :=
  match v with JvNull => Some old | JvString s => Some s | _ => None end.

Definition read_list {A} (read : jvalue -> option A) (v : jvalue) : option (list A) :=
  match v with JvNull => Some [] | JvArray items => mapM read items | _ => None end.

(** A [map[string]any]: the entries are added to those it has. *)
Definition read_map (v : jvalue) (old : gmap string any_value) : option (gmap string any_value) :=
  match v with
  | JvNull => Some ∅
  | JvObject fields =>
      fold_left (fun m f => match m, read_any (snd f) with Some m, Some a => Some (<[fst f := a]> m) | _, _ => None end)
        fields (Some old)
  | _ => None
  end.

(** A struct: [field] is what its decoder does with a key and a value. *)
Definition read_struct {A} (field : string -> jvalue -> A -> option A) (v : jvalue) (old : A) : option A :=
  match v with
  | JvNull => Some old
  | JvObject fields => fold_left (fun a f => match a with Some a => field (fst f) (snd f) a | None => None end) fields (Some old)
  | _ => None
  end.
End Readers.

(** ** Examples *)

Definition dq : string := str1 34.

Example parse_nested :
  parse_json ("{" +:+ dq +:+ "a" +:+ dq +:+ " : [1, -2.5e3, null, {}, [] ], " +:+ dq +:+ "b" +:+ dq +:+ ":true}")
  = Some (JvObject [("a", JvArray [JvNumber "1"; JvNumber "-2.5e3"; JvNull; JvObject []; JvArray []]); ("b", JvBool true)]).
Proof. vm_compute. reflexivity. Qed.

Example parse_escapes :
  parse_json (dq +:+ "a" +:+ backslash 110 +:+ backslash 117 +:+ "00e9" +:+ backslash 117 +:+ "d83d" +:+ backslash 117
              +:+ "de00" +:+ backslash 117 +:+ "d800x" +:+ str1 255 +:+ dq)
  = Some (JvString ("a" +:+ str1 10 +:+ encode_rune 233 +:+ encode_rune 128512 +:+ encode_rune rune_error +:+ "x"
                    +:+ encode_rune rune_error)).
Proof. vm_compute. reflexivity. Qed.

Example rejected_texts :
  map parse_json [""; "01"; "1."; "[1,]"; "[1 2]"; "{,}"; "tru"; "1 1"; dq +:+ str1 10 +:+ dq; "-"; "[1"]
  = replicate 11 None.
Proof. vm_compute. reflexivity. Qed.
