(* ===== verification/DatasourceRequest.v ===== *)
(** * Requests to a data source, with retries (internal/datasource/do.go)

    [DoRequestWithRetry] sends a request up to three times: an answer is the
    body of a successful response or a [QueryError] that may be retried, and a
    retry waits as long as the server asks for, or a little longer each time.
    Sending, the clock and the timer are operations of a program. *)

From Stdlib Require Import ZArith Lia.
From stdpp Require Import base list strings.
From S2P Require Import Prelude GoStrings Utf8 GoParse Prog Datasource.

Definition defaultDatasourceMaxAttempts : nat := 3.
Definition defaultDatasourceRetryDelay : duration := 100 * 1000000.
Definition defaultDatasourceMaxResponseBytes : Z := 4 * 1024 * 1024.

(** A response: its status, the header [Retry-After], the bytes its body gives
    until it ends, or until reading it fails. *)
Record HTTPResponse := mkHTTPResponse {
  hp_StatusCode : Z;
  hp_RetryAfter : string;
  hp_Body : string;
  hp_ReadError : option string
}.

(** What [errors.Is] and [errors.As] tell apart of an error of [http.Client.Do], and its text. *)
Inductive transport_error :=
| TransportCanceled (text : string)
| TransportDeadline (text : string)
| TransportNet (text : string)
| TransportOther (text : string).

(** ** One answer *)

Section Answers.
Context {U : UnicodeTables}.

(** [io.ReadAll] of a reader limited to one byte more than a body may have. *)
Definition readLimited (resp : HTTPResponse) : string * option string :=
  if defaultDatasourceMaxResponseBytes <? str_len (hp_Body resp)
  then (str_take (Z.to_nat (defaultDatasourceMaxResponseBytes + 1)) (hp_Body resp), None)
  else (hp_Body resp, hp_ReadError resp).

Definition classifyTransportError (source : string) (err : transport_error) : query_error * bool :=
  match err with
  | TransportCanceled text =>
      (QueryError "DatasourceUnavailable" (source +:+ " datasource request was canceled: " +:+ text), false)
  | TransportDeadline text =>
      (QueryError "DatasourceUnavailable" (source +:+ " datasource request timed out: " +:+ text), true)
  | TransportNet text | TransportOther text =>
      (QueryError "DatasourceUnavailable" (source +:+ " datasource transport error: " +:+ text), true)
  end.

Definition classifyHTTPStatus (source : string) (statusCode : Z) (body : string) : query_error * bool :=
  let detail := trim_space body in
  let returned := source +:+ " datasource returned " +:+ itoa statusCode in
  let message := if detail != "" then returned +:+ ": " +:+ detail else returned in
  if (statusCode =? 401) || (statusCode =? 403) then (QueryError "DatasourceAuthFailed" message, false)
  else if statusCode =? 429 then (QueryError "DatasourceRateLimited" message, true)
  else if (statusCode =? 408) || (statusCode =? 425) then (QueryError "DatasourceUnavailable" message, true)
  else if (500 <=? statusCode) && (statusCode <=? 599) then (QueryError "DatasourceUnavailable" message, true)
  else if (400 <=? statusCode) && (statusCode <=? 499) then (QueryError "DatasourceRequestInvalid" message, false)
  else (QueryError "DatasourceUnavailable" message, false).

(** The body, or an error and whether the request may be sent again. *)
Definition readResponse (resp : HTTPResponse) (source : string) : string + query_error * bool :=
  let '(body, failed) := readLimited resp in
  match failed with
  | Some text =>
      inr (QueryError "DatasourceUnavailable" (source +:+ " datasource read response: " +:+ text), true)
  | None =>
      if defaultDatasourceMaxResponseBytes <? str_len body
      then inr (QueryError "InvalidDatasourceResponse"
                  (source +:+ " datasource response exceeded " +:+ itoa defaultDatasourceMaxResponseBytes +:+ " bytes"),
                false)
      else if (200 <=? hp_StatusCode resp) && (hp_StatusCode resp <? 300) then inl body
      else inr (classifyHTTPStatus source (hp_StatusCode resp) body)
  end.

Definition withAttemptContext (err : query_error) (attempts : Z) : query_error :=
  if attempts <=? 1 then err
  else match err with
       | QueryError reason message =>
           QueryError reason (message +:+ " after " +:+ itoa attempts +:+ " attempts")
       | QueryOther e => QueryOther e
       end.
End Answers.

(** ** The program *)

(** [http.ParseTime], one of the three date formats of HTTP. *)
Class HTTPDates := { ParseHTTPTime : string -> option time }.

Definition no_dates : HTTPDates := {| ParseHTTPTime _ := None |}.

Inductive request_op (Req : Type) : Type -> Type :=
| QDo (req : Req) : request_op Req (HTTPResponse + transport_error)
| QClose : request_op Req unit
| QNow : request_op Req time
| QSleep (delay : duration) : request_op Req (option string).
Arguments QDo {Req} _.
Arguments QClose {Req}.
Arguments QNow {Req}.
Arguments QSleep {Req} _.

Section Requests.
Context {U : UnicodeTables} {DT : HTTPDates} {Req : Type}.

Abbreviation request_prog := (prog (request_op Req)).

Definition backoff (attempt : Z) : duration :=
  (if attempt <=? 0 then 1 else attempt) * defaultDatasourceRetryDelay.

(** [time.Duration(seconds) * time.Second] wraps around at 64 bits. *)
Definition retryDelay (attempt : Z) (resp : option HTTPResponse) : request_prog duration :=
  let retryAfter := match resp with Some r => trim_space (hp_RetryAfter r) | None => "" end in
  if retryAfter == "" then Ret (backoff attempt)
  else
    let '(n, ok) := ParseInt retryAfter 64 in
    if ok && (0 <? n) then Ret (seconds n)
    else
      match ParseHTTPTime retryAfter with
      | None => Ret (backoff attempt)
      | Some when =>
          now <~! QNow;
          Ret (if 0 <? time_sub when now then time_sub when now else backoff attempt)
      end.

(** The wait before the next attempt: whether the context still allows it. *)
Definition sleepForRetry (attempts : Z) (resp : option HTTPResponse) : request_prog bool :=
  delay <~ retryDelay attempts resp;
  stopped <~! QSleep delay;
  Ret (match stopped with Some _ => false | None => true end).

Definition retryOrFail (attempts : Z) (resp : option HTTPResponse) (failure : query_error * bool)
    (again : request_prog (string + query_error)) : request_prog (string + query_error) :=
  if negb (snd failure) || (Z.of_nat defaultDatasourceMaxAttempts <=? attempts)
  then Ret (inr (withAttemptContext (fst failure) attempts))
  else
    proceed <~ sleepForRetry attempts resp;
    if proceed : bool then again else Ret (inr (withAttemptContext (fst failure) attempts)).

(** [left] more attempts are allowed after [attempts]. *)
Fixpoint requestLoop (source : string) (build : result Req) (left : nat) (attempts : Z)
    : request_prog (string + query_error) :=
  match left with
  | O => Ret (inr (QueryError "DatasourceUnavailable" (source +:+ " datasource request exhausted retry budget")))
  | S left' =>
      match build with
      | Err e =>
          Ret (inr (QueryError "DatasourceRequestInvalid" (source +:+ " datasource create request: " +:+ err_msg e)))
      | Ok req =>
          answer <~! QDo req;
          match answer with
          | inr err =>
              retryOrFail (attempts + 1) None (classifyTransportError source err)
                (requestLoop source build left' (attempts + 1))
          | inl resp =>
              _ <~! QClose;
              match readResponse resp source with
              | inl body => Ret (inl body)
              | inr failure =>
                  retryOrFail (attempts + 1) (Some resp) failure (requestLoop source build left' (attempts + 1))
              end
          end
      end
  end.

Definition DoRequestWithRetry (source : string) (build : result Req) : request_prog (string + query_error) :=
  requestLoop source build defaultDatasourceMaxAttempts 0.
End Requests.

(** ** Runs *)

(** What an answer gives: a body, or an error and whether it may be retried. *)
Definition attemptOutcome `{U : UnicodeTables} (source : string) (answer : HTTPResponse + transport_error)
    : string + query_error * bool :=
  match answer with
  | inl resp => readResponse resp source
  | inr err => inr (classifyTransportError source err)
  end.

Definition retryable `{U : UnicodeTables} (source : string) (answer : HTTPResponse + transport_error) : Prop :=
  exists err, attemptOutcome source answer = inr (err, true).

(** The result of a request whose [n]th answer is the last. *)
Definition finalOutcome `{U : UnicodeTables} (source : string) (answer : HTTPResponse + transport_error) (n : Z)
    : string + query_error :=
  match attemptOutcome source answer with
  | inl body => inl body
  | inr (err, _) => inr (withAttemptContext err n)
  end.

(** The answers a log has, in order; the requests; whether the last wait was cut short. *)
Definition answer_of {Req} (ev : event (request_op Req)) : option (HTTPResponse + transport_error) :=
  match ev with
  | Ev op x =>
      match op in request_op _ X return X -> option (HTTPResponse + transport_error) with
      | QDo _ => fun x => Some x
      | _ => fun _ => None
      end x
  end.
Definition sent_of {Req} (ev : event (request_op Req)) : option Req :=
  match ev with Ev (QDo req) _ => Some req | _ => None end.
Definition interrupted {Req} (log : list (event (request_op Req))) : Prop :=
  exists delay text, last log = Some (Ev (QSleep delay) (Some text)).

Section Runs.
Context {U : UnicodeTables} {DT : HTTPDates} {Req : Type}.
Implicit Types (log : list (event (request_op Req))) (answer : HTTPResponse + transport_error).

(** [log] after [log0] is a wait: nothing is sent. *)
Definition only_waits log0 log : Prop :=
  exists l, log = log0 ++ l /\ omap answer_of l = [] /\ omap sent_of l = [].

Lemma sleepForRetry_waits attempts resp log0 :
  wp log_env (fun _ => True) (sleepForRetry (Req := Req) attempts resp) log0
    (fun proceed log => only_waits log0 log /\ (proceed = false -> interrupted log)).
Proof.
  assert (Hsleep : forall d l, omap answer_of l = [] -> omap sent_of l = [] ->
    wp log_env (fun _ => True) (stopped <~! QSleep (Req := Req) d; Ret (match stopped with Some _ => false | None => true end))
      (log0 ++ l) (fun proceed log => only_waits log0 log /\ (proceed = false -> interrupted log))).
  { intros d l Ha Hs. split; [done|]. intros stopped log ->. split; [done|]. split.
    - exists (l ++ [Ev (QSleep d) stopped]). by rewrite app_assoc, !omap_app, Ha, Hs.
    - destruct stopped as [text|]; [|done]. intros _. exists d, text. by rewrite last_snoc. }
  unfold sleepForRetry, retryDelay. set (retryAfter := match resp with Some _ => _ | None => _ end).
  specialize (Hsleep (backoff attempts) []) as Hb. rewrite app_nil_r in Hb.
  destruct (retryAfter == ""); [by apply Hb|]. destruct (ParseInt retryAfter 64) as [n ok].
  destruct (ok && (0 <? n)); [by specialize (Hsleep (seconds n) []); rewrite app_nil_r in Hsleep; apply Hsleep|].
  destruct (ParseHTTPTime retryAfter) as [when|]; [|by apply Hb].
  split; [done|]. intros now log ->. by apply Hsleep.
Qed.

(** What a complete run of the loop did after [log0], with [left] attempts allowed
    after [attempts]. *)
Definition loop_report (source : string) (req : Req) (left : nat) (attempts : Z) log0 (r : string + query_error) log : Prop :=
  exists l earlier final,
    log = log0 ++ l /\ omap answer_of l = earlier ++ [final] /\
    omap sent_of l = replicate (S (length earlier)) req /\
    Forall (retryable source) earlier /\ (length earlier < left)%nat /\
    r = finalOutcome source final (attempts + 1 + Z.of_nat (length earlier)) /\
    (retryable source final -> S (length earlier) = left \/ interrupted log).

(** A report of the attempts after the first, with that first answer. *)
Lemma report_further source req left attempts log0 l answer r log :
  omap answer_of l = [answer] -> omap sent_of l = [req] -> retryable source answer ->
  loop_report source req left (attempts + 1) (log0 ++ l) r log -> loop_report source req (S left) attempts log0 r log.
Proof.
  intros Ha Hs Hr (l' & earlier & final & -> & Ha' & Hs' & He & Hn & -> & Hf).
  exists (l ++ l'), (answer :: earlier), final. rewrite app_assoc, !omap_app, Ha, Ha', Hs, Hs'. cbn [length].
  split_and!; [done|done|done|by constructor|lia|f_equal; lia|]. intros H. destruct (Hf H) as [?|?]; [left; lia|by right].
Qed.

(** The report of a run that stops at its first answer. *)
Lemma report_final source req left attempts log0 l answer :
  omap answer_of l = [answer] -> omap sent_of l = [req] ->
  (retryable source answer -> left = O \/ interrupted (log0 ++ l)) ->
  loop_report source req (S left) attempts log0 (finalOutcome source answer (attempts + 1)) (log0 ++ l).
Proof.
  intros Ha Hs Hr. exists l, [], answer. split_and!; [done|done|done|constructor|simpl; lia|f_equal; simpl; lia|].
  intros H. destruct (Hr H) as [->|?]; [by left|by right].
Qed.

Lemma retryOrFail_report source req left attempts log0 l answer resp failure (again : prog (request_op Req) (string + query_error)) :
  omap answer_of l = [answer] -> omap sent_of l = [req] -> attemptOutcome source answer = inr failure ->
  Z.of_nat (S left) + attempts = Z.of_nat defaultDatasourceMaxAttempts ->
  (forall log, left <> O -> wp log_env (fun _ => True) again log (loop_report source req left (attempts + 1) log)) ->
  wp log_env (fun _ => True) (retryOrFail (attempts + 1) resp failure again) (log0 ++ l)
    (loop_report source req (S left) attempts log0).
Proof.
  intros Ha Hs Ho Hleft Hagain. unfold retryOrFail.
  assert (Hfinal : inr (withAttemptContext (fst failure) (attempts + 1)) = finalOutcome source answer (attempts + 1)).
  { unfold finalOutcome. rewrite Ho. by destruct failure. }
  destruct (negb (snd failure) || _) eqn:Hstop.
  - apply wp_ret; [done|]. rewrite Hfinal. apply report_final; [done..|]. intros [err Herr]. left.
    rewrite Ho in Herr. injection Herr as ->. simpl in Hstop. lia.
  - apply orb_false_iff in Hstop as [Hr Hlt]. apply wp_bind. eapply wp_mono; [|apply sleepForRetry_waits].
    intros proceed log' _ [(w & -> & Hwa & Hws) Hint]. rewrite <- app_assoc. rewrite <- app_assoc in Hint.
    assert (Hla : omap answer_of (l ++ w) = [answer]) by (by rewrite omap_app, Ha, Hwa).
    assert (Hls : omap sent_of (l ++ w) = [req]) by (by rewrite omap_app, Hs, Hws).
    destruct proceed.
    + eapply wp_mono; [|apply Hagain; lia]. intros r log'' _. apply (report_further _ _ _ _ _ _ answer); [done..|].
      exists (fst failure). rewrite Ho. destruct failure as [? []]; done.
    + apply wp_ret; [done|]. rewrite Hfinal. apply report_final; [done..|]. intros _. right. by apply Hint.
Qed.

Lemma requestLoop_report source req left attempts log0 :
  Z.of_nat left + attempts = Z.of_nat defaultDatasourceMaxAttempts -> left <> O ->
  wp log_env (fun _ => True) (requestLoop source (Ok req) left attempts) log0 (loop_report source req left attempts log0).
Proof.
  revert attempts log0. induction left as [|left IH]; intros attempts log0 Hleft Hpos; [done|].
  cbn [requestLoop]. split; [done|]. intros answer log ->. destruct answer as [resp|err].
  - split; [done|]. intros u log ->. rewrite <- app_assoc.
    destruct (readResponse resp source) as [body|failure] eqn:Hr.
    + apply wp_ret; [done|]. assert (inl body = finalOutcome source (inl resp) (attempts + 1)) as ->.
      { unfold finalOutcome. cbn [attemptOutcome]. by rewrite Hr. }
      apply report_final; [done..|]. intros [e He]. cbn [attemptOutcome] in He. by rewrite Hr in He.
    + apply (retryOrFail_report _ _ _ _ _ _ (inl resp)); [done|done|exact Hr|done|]. intros log Hne. apply IH; lia.
  - apply (retryOrFail_report _ _ _ _ _ _ (inr err)); [done..|]. intros log Hne. apply IH; lia.
Qed.

(** C31: a request is sent at most three times, always the same one; it is sent again
    only after an answer that may be retried, and given up while another attempt is
    allowed only when the context ends the wait.  The result is what the last answer
    gives: its body, or its error with the number of attempts. *)
Theorem request_retries source req r log :
  logged (DoRequestWithRetry source (Ok req)) (Some r) log ->
  exists earlier final,
    omap answer_of log = earlier ++ [final] /\ omap sent_of log = replicate (S (length earlier)) req /\
    (length earlier < 3)%nat /\ Forall (retryable source) earlier /\
    r = finalOutcome source final (1 + Z.of_nat (length earlier)) /\
    (retryable source final -> length earlier = 2%nat \/ interrupted log).
Proof.
  intros Hrun. pose proof (requestLoop_report source req defaultDatasourceMaxAttempts 0 [] eq_refl ltac:(done)) as Hwp.
  apply (wp_exec _ _ _ _ _ _ _ Hwp) in Hrun as [_ Hr]. specialize (Hr r eq_refl).
  destruct Hr as (l & earlier & final & -> & Ha & Hs & He & Hn & Hres & Hf). exists earlier, final.
  split_and!; [done|done|done|done|done|]. intros H. destruct (Hf H) as [Heq|?]; [left; by injection Heq|by right].
Qed.
End Runs.

(** ** Waiting *)

Section Waits.
Context {U : UnicodeTables} {DT : HTTPDates} {Req : Type}.

(** The seconds the server asks for, when its header is a positive number. *)
Definition requestedSeconds (resp : option HTTPResponse) : option Z :=
  match resp with
  | Some r =>
      let '(n, ok) := ParseInt (trim_space (hp_RetryAfter r)) 64 in
      if ok && (0 <? n) then Some n else None
  | None => None
  end.

(** The wait of an attempt is what the server asks for in seconds, and positive
    whenever that number of seconds fits 64 bits of nanoseconds. *)
Theorem retry_delay_honoured attempt resp :
  ends (fun delay =>
          match requestedSeconds resp with
          | Some n => delay = seconds n /\ (n * second <= max_int64 -> 0 < delay)
          | None => 0 < delay
          end) (retryDelay (Req := Req) attempt resp).
Proof.
  assert (Hb : 0 < backoff attempt).
  { unfold backoff. destruct (Z.leb_spec attempt 0); unfold defaultDatasourceRetryDelay; lia. }
  unfold retryDelay, requestedSeconds. destruct resp as [r|]; [|by cbn].
  set (text := trim_space (hp_RetryAfter r)). destruct (text == "") eqn:He.
  { apply String.eqb_eq in He. rewrite He. by cbn. }
  destruct (ParseInt text 64) as [n ok]. destruct (ok && (0 <? n)) eqn:Hn.
  - cbn. split; [done|]. intros Hle. unfold seconds, wrap64, second, max_int64 in *.
    apply andb_true_iff in Hn as [_ Hn]. apply Z.ltb_lt in Hn. rewrite Z.mod_small; lia.
  - destruct (ParseHTTPTime text) as [when|]; [|by cbn]. cbn. intros now.
    destruct (0 <? time_sub when now) eqn:Ht; [by apply Z.ltb_lt in Ht|done].
Qed.
End Waits.

(** ** Concrete runs *)

Section Examples.
#[local] Existing Instance plain_tables.
#[local] Existing Instance no_dates.

Definition busy (retryAfter : string) : HTTPResponse := mkHTTPResponse 503 retryAfter "overloaded" None.
Definition answered (body : string) : HTTPResponse := mkHTTPResponse 200 "" body None.

(** A server that gives these answers one after another; the clock stands still. *)
Definition server (answers : list (HTTPResponse + transport_error)) (log : list (event (request_op string)))
    (X : Type) (op : request_op string X) : option (X * list (event (request_op string))) :=
  match op in request_op _ Y return option (Y * list (event (request_op string))) with
  | QDo req =>
      match nth_error answers (length (omap answer_of log)) with
      | Some a => Some (a, log ++ [Ev (QDo req) a])
      | None => None
      end
  | QClose => Some (tt, log ++ [Ev QClose tt])
  | QNow => Some (0, log ++ [Ev QNow 0])
  | QSleep d => Some (None, log ++ [Ev (QSleep d) None])
  end.

Lemma server_logs answers log X op x log' :
  server answers log X op = Some (x, log') -> log_env log X op x log'.
Proof.
  destruct op; cbn; unfold log_env; try (by intros [= <- <-]).
  destruct (nth_error _ _); [by intros [= <- <-]|done].
Qed.

Definition get_series : prog (request_op string) (string + query_error) := DoRequestWithRetry "prometheus" (Ok "GET").

Example second_attempt :
  (run (server [inl (busy "2"); inl (answered "ok")]) get_series []).1 = Some (inl "ok").
Proof. vm_compute. reflexivity. Qed.

Example three_attempts :
  (run (server [inl (busy ""); inr (TransportDeadline "deadline exceeded"); inl (busy "")]) get_series []).1
  = Some (inr (QueryError "DatasourceUnavailable"
                 "prometheus datasource returned 503: overloaded after 3 attempts")).
Proof. vm_compute. reflexivity. Qed.

(** A large Retry-After wraps around: three centuries become no wait at all. *)
Example retry_after_wraps :
  retryDelay (Req := string) 1 (Some (busy "9223372037")) = Ret (-9223372036709551616).
Proof. vm_compute. reflexivity. Qed.

Lemma request_retries_witness :
  exists earlier final,
    omap answer_of (run (server [inl (busy "2"); inl (answered "ok")]) get_series []).2 = earlier ++ [final] /\
    (length earlier < 3)%nat.
Proof.
  assert (Hrun : logged get_series (Some (inl "ok")) (run (server [inl (busy "2"); inl (answered "ok")]) get_series []).2).
  { rewrite <- second_attempt. apply run_exec. apply server_logs. }
  destruct (request_retries _ _ _ _ Hrun) as (earlier & final & Ha & _ & Hn & _). by exists earlier, final.
Defined.
End Examples.
