(* ===== verification/HttpAdapters.v ===== *)
(** * The Prometheus and Loki adapters (internal/datasource/prometheus, loki)

    [Adapter.Query] of both: a range query over HTTP, the decode of the answer,
    and the records with the native limits applied.  Indexing outside a slice
    panics; a result of [None] is a panic. *)

From Stdlib Require Import ZArith Lia.
From stdpp Require Import base list strings gmap.
From S2P Require Import Prelude GoStrings Utf8 GoParse Api InvestigationApi Digest Prog DataClassification InvestigationSpec Datasource Normalize GoJson DatasourceRequest.

(** ** Requests *)

(** A URL as far as the adapters change it: [url.Parse], its query parameters, and
    [http.NewRequestWithContext] of its text. *)
Record QueryURL := mkQueryURL { qu_Location : string; qu_Values : gmap string (list string) }.

Class QueryURLs (Req : Type) := {
  ParseQueryURL : string -> result QueryURL;
  NewGetRequest : QueryURL -> result Req
}.

(** [url.Values.Set]. *)
Definition set_param (key value : string) (u : QueryURL) : QueryURL :=
  mkQueryURL (qu_Location u) (<[key := [value]]> (qu_Values u)).

(** [strings.TrimRight(s, cutset)] for the cutset [/]. *)
Fixpoint trim_right_slash (s : string) : string :=
  match s with
  | EmptyString => EmptyString
  | String c s' => if (trim_right_slash s' == "") && is_byte 47 c then "" else String c (trim_right_slash s')
  end.

Definition metricURL (req : QueryRequest) (u : QueryURL) : QueryURL :=
  let u := set_param "end" (rfc3339_seconds (qr_EndTime req))
             (set_param "start" (rfc3339_seconds (qr_StartTime req)) (set_param "query" (qr_Query req) u)) in
  if 0 <? qr_Step req then set_param "step" (DurationString (qr_Step req)) u else u.

(** ** The answer *)

Record promSeries := mkPromSeries {
  psr_Metric : gmap string any_value;
  psr_Values : list (list any_value);
  psr_Value : list any_value
}.

(** [promResponse]; the raw message of the result is the value it holds, none when absent. *)
Record promResponse := mkPromResponse {
  prr_Status : string;
  prr_ResultType : string;
  prr_Result : option jvalue
}.

Section Decode.
Context {U : UnicodeTables} {V : ValueText}.

Definition read_promSeries (v : jvalue) : option promSeries :=
  read_struct (fun key x s =>
    if equal_fold key "metric"
    then (fun m => mkPromSeries m (psr_Values s) (psr_Value s)) <$> read_map x (psr_Metric s)
    else if equal_fold key "values"
    then (fun l => mkPromSeries (psr_Metric s) l (psr_Value s)) <$> read_list (read_list read_any) x
    else if equal_fold key "value"
    then (fun l => mkPromSeries (psr_Metric s) (psr_Values s) l) <$> read_list read_any x
    else Some s) v (mkPromSeries ∅ [] []).

Definition read_promData (v : jvalue) (r : promResponse) : option promResponse :=
  read_struct (fun key x r =>
    if equal_fold key "resultType"
    then (fun t => mkPromResponse (prr_Status r) t (prr_Result r)) <$> read_string x (prr_ResultType r)
    else if equal_fold key "result" then Some (mkPromResponse (prr_Status r) (prr_ResultType r) (Some x))
    else Some r) v r.

Definition read_promResponse (v : jvalue) : option promResponse :=
  read_struct (fun key x r =>
    if equal_fold key "status"
    then (fun s => mkPromResponse s (prr_ResultType r) (prr_Result r)) <$> read_string x (prr_Status r)
    else if equal_fold key "data" then read_promData x r
    else Some r) v (mkPromResponse "" "" None).
End Decode.

(** ** Records *)

Section Records.
Context {V : ValueText}.

Definition promRecord (metric : any_value) (labels : gmap string any_value) (value : any_value) : record :=
  <["metric" := metric]> (<["labels" := AnyMap (map_to_list labels)]> (<["value" := value]> ∅)).

(** The label [__name__], empty unless it is a string. *)
Definition metricName (s : promSeries) : any_value := AnyString (any_string (psr_Metric s) "__name__").

(** The text a sample is ordered by; a sample without a timestamp panics when it is compared. *)
Definition sampleText (sample : list any_value) : string := match sample with t :: _ => sprint t | [] => "" end.

Definition sortedPromValues (values : list (list any_value)) : option (list (list any_value)) :=
  if (2 <=? length values)%nat && existsb (fun v => (length v =? 0)%nat) values then None
  else Some (sort_stable (fun a b => str_ltb (sampleText a) (sampleText b)) values).

Definition promCounts (resultType : string) (series samples : Z) : NativeResultCounts :=
  mkNativeResultCounts resultType series samples 0 0 0.

Definition zlen {A} (l : list A) : Z := Z.of_nat (length l).

(** The samples of a series that the limit leaves room for, after [samples] of the
    series before it. *)
Definition roomFor (limits : QueryResultLimits) (samples : Z) (values : list (list any_value)) : option (list (list any_value)) :=
  if 0 <? ql_MetricsMaxSamples limits then
    let remaining := ql_MetricsMaxSamples limits - samples in
    if remaining <=? 0 then None else Some (take (Z.to_nat remaining) values)
  else Some values.

(** The loop over the series, with the series and samples retained so far. *)
Fixpoint matrixRecordsFrom (limits : QueryResultLimits) (items : list promSeries) (series samples : Z)
    : option (list record * NativeResultCounts) :=
  let stop := Some ([], promCounts "matrix" series samples) in
  match items with
  | [] => stop
  | item :: rest =>
      if (0 <? ql_MetricsMaxSeries limits) && (ql_MetricsMaxSeries limits <=? series) then stop
      else
        match sortedPromValues (psr_Values item) with
        | None => None
        | Some [] => matrixRecordsFrom limits rest series samples
        | Some values =>
            match roomFor limits samples values with
            | None => stop
            | Some values =>
                match last values with
                | Some (_ :: value :: _) =>
                    (fun p => (promRecord (metricName item) (psr_Metric item) value :: fst p, snd p)) <$>
                    matrixRecordsFrom limits rest (series + 1) (samples + zlen values)
                | _ => None
                end
            end
        end
  end.
Definition matrixRecords (items : list promSeries) (limits : QueryResultLimits) : option (list record * NativeResultCounts) :=
  matrixRecordsFrom limits items 0 0.

Fixpoint vectorRecordsFrom (limits : QueryResultLimits) (items : list promSeries) (series samples : Z)
    : list record * NativeResultCounts :=
  let stop := ([], promCounts "vector" series samples) in
  match items with
  | [] => stop
  | item :: rest =>
      if (0 <? ql_MetricsMaxSeries limits) && (ql_MetricsMaxSeries limits <=? series) then stop
      else if (0 <? ql_MetricsMaxSamples limits) && (ql_MetricsMaxSamples limits <=? samples) then stop
      else
        match psr_Value item with
        | _ :: value :: _ =>
            let '(records, counts) := vectorRecordsFrom limits rest (series + 1) (samples + 1) in
            (promRecord (metricName item) (psr_Metric item) value :: records, counts)
        | _ => vectorRecordsFrom limits rest series samples
        end
  end.
Definition vectorRecords (items : list promSeries) (limits : QueryResultLimits) : list record * NativeResultCounts :=
  vectorRecordsFrom limits items 0 0.

Definition prometheusLimit (original retained : NativeResultCounts) (limits : QueryResultLimits) : option NativeResultLimit :=
  let exceeded dimension limit originalCount retainedCount :=
    mkNativeResultLimit "NativeResultLimitExceeded" dimension limit originalCount retainedCount in
  if (0 <? ql_MetricsMaxSeries limits) && (ql_MetricsMaxSeries limits <? nc_Series original)
  then Some (exceeded "series" (ql_MetricsMaxSeries limits) (nc_Series original) (nc_Series retained))
  else if (0 <? ql_MetricsMaxSamples limits) && (ql_MetricsMaxSamples limits <? nc_Samples original)
  then Some (exceeded "samples" (ql_MetricsMaxSamples limits) (nc_Samples original) (nc_Samples retained))
  else None.

Definition sampleCount (series : list promSeries) : Z := fold_left (fun n item => n + zlen (psr_Values item)) series 0.
End Records.

Section Query.
Context {U : UnicodeTables} {V : ValueText} {DT : HTTPDates} {JE : JSONErrors} {Req : Type} {QU : QueryURLs Req}.

(** A result that cannot be decoded, or of another type, has no records. *)
Definition prometheusRecords (resultType : string) (raw : option jvalue) (limits : QueryResultLimits)
    : option (list record * NativeResultCounts * option NativeResultLimit) :=
  let undecoded := Some ([], promCounts resultType 0 0, None) in
  let series := raw ≫= read_list read_promSeries in
  if mem_str resultType ["matrix"; ""] then
    match series with
    | None => undecoded
    | Some series =>
        let counts := promCounts resultType (zlen series) (sampleCount series) in
        (fun p => (fst p, counts, prometheusLimit counts (snd p) limits)) <$> matrixRecords series limits
    end
  else if resultType == "vector" then
    match series with
    | None => undecoded
    | Some series =>
        let counts := promCounts resultType (zlen series) (zlen series) in
        let '(records, retained) := vectorRecords series limits in
        Some (records, counts, prometheusLimit counts retained limits)
    end
  else if mem_str resultType ["scalar"; "string"] then
    match raw ≫= read_list read_any with
    | Some (_ :: value :: _) =>
        let counts := promCounts resultType 1 1 in
        Some ([promRecord (AnyString resultType) {["resultType" := AnyString resultType]} value], counts,
              prometheusLimit counts counts limits)
    | _ => undecoded
    end
  else undecoded.

(** The fields of a result that its native limit sets. *)
Definition nativeResult (source queryType summary : string) (records : list record) (counts : NativeResultCounts)
    (limit : option NativeResultLimit) : QueryResult :=
  match limit with
  | None => mkQueryResult source queryType summary records false "" "" 0 0 0 counts None
  | Some l =>
      mkQueryResult source queryType
        (summary +:+ "; native " +:+ nl_Dimension l +:+ " limit retained " +:+ itoa (nl_RetainedCount l) +:+ " of "
         +:+ itoa (nl_OriginalCount l))
        records true (nl_Reason l) (nl_Dimension l) (nl_Limit l) (nl_OriginalCount l) (nl_RetainedCount l) counts (Some l)
  end.

(** What an answer's body gives. *)
Definition prometheusAnswer (req : QueryRequest) (body : string) : option (QueryResult + query_error) :=
  match parse_json body ≫= read_promResponse with
  | None => Some (inr (QueryError "InvalidDatasourceResponse" ("decode prometheus response: " +:+ json_error_text body)))
  | Some payload =>
      if (prr_Status payload != "") && (prr_Status payload != "success")
      then Some (inr (QueryError "InvalidDatasourceResponse" ("prometheus response status " +:+ quote (prr_Status payload))))
      else
        (fun p =>
           let '(records, counts, limit) := p in
           inl (nativeResult "prometheus" QueryTypeMetric
                  ("Prometheus returned " +:+ itoa (nc_Series counts) +:+ " series for " +:+ rr_Name (qr_Target req))
                  records counts limit))
        <$> prometheusRecords (prr_ResultType payload) (prr_Result payload) (qr_ResultLimits req)
  end.

(** [HealthCheck] of an adapter with a base URL. *)
Definition baseURLMissing (kind baseURL : string) : option query_error :=
  if trim_space baseURL == "" then Some (QueryOther (errorf (kind +:+ " base URL is empty"))) else None.

(** The part the two HTTP adapters share: the request, its retries, and what the
    body of the answer gives. *)
Definition adapterQuery (source path baseURL : string) (params : QueryURL -> QueryURL)
    (answer : string -> option (QueryResult + query_error)) : prog (request_op Req) (option (QueryResult + query_error)) :=
  match baseURLMissing source baseURL with
  | Some e => Ret (Some (inr e))
  | None =>
      match ParseQueryURL (trim_right_slash baseURL +:+ path) with
      | Err e => Ret (Some (inr (QueryOther (wrapf ("build " +:+ source +:+ " endpoint") e))))
      | Ok endpoint =>
          match NewGetRequest (params endpoint) with
          | Err e => Ret (Some (inr (QueryOther (wrapf ("create " +:+ source +:+ " request") e))))
          | Ok httpReq =>
              body <~ DoRequestWithRetry source (Ok httpReq);
              Ret (match body with inl body => answer body | inr e => Some (inr e) end)
          end
      end
  end.

Definition prometheusQueryRange (baseURL : string) (req : QueryRequest)
    : prog (request_op Req) (option (QueryResult + query_error)) :=
  adapterQuery "prometheus" "/api/v1/query_range" baseURL (metricURL req) (prometheusAnswer req).
End Query.

(** ** Loki *)

Record lokiStream := mkLokiStream { ls_Stream : gmap string any_value; ls_Values : list (list string) }.

Record lokiResponse := mkLokiResponse { lkr_Status : string; lkr_ResultType : string; lkr_Result : list lokiStream }.

Definition logURL (req : QueryRequest) (u : QueryURL) : QueryURL :=
  set_param "limit" "50" (set_param "end" (CanonicalTime (qr_EndTime req))
    (set_param "start" (CanonicalTime (qr_StartTime req)) (set_param "query" (qr_Query req) u))).

Section Loki.
Context {U : UnicodeTables} {V : ValueText} {DT : HTTPDates} {JE : JSONErrors} {Req : Type} {QU : QueryURLs Req}.

Definition read_lokiStream (v : jvalue) : option lokiStream :=
  read_struct (fun key x s =>
    if equal_fold key "stream" then (fun m => mkLokiStream m (ls_Values s)) <$> read_map x (ls_Stream s)
    else if equal_fold key "values"
    then mkLokiStream (ls_Stream s) <$> read_list (read_list (fun x => read_string x "")) x
    else Some s) v (mkLokiStream ∅ []).

Definition read_lokiData (v : jvalue) (r : lokiResponse) : option lokiResponse :=
  read_struct (fun key x r =>
    if equal_fold key "resultType"
    then (fun t => mkLokiResponse (lkr_Status r) t (lkr_Result r)) <$> read_string x (lkr_ResultType r)
    else if equal_fold key "result"
    then mkLokiResponse (lkr_Status r) (lkr_ResultType r) <$> read_list read_lokiStream x
    else Some r) v r.

Definition read_lokiResponse (v : jvalue) : option lokiResponse :=
  read_struct (fun key x r =>
    if equal_fold key "status"
    then (fun s => mkLokiResponse s (lkr_ResultType r) (lkr_Result r)) <$> read_string x (lkr_Status r)
    else if equal_fold key "data" then read_lokiData x r
    else Some r) v (mkLokiResponse "" "" []).

Definition lokiStreamKey (s : lokiStream) : string :=
  let keys := sort_strings (map fst (map_to_list (ls_Stream s))) in
  join (str1 255)
    (map (fun key => key +:+ "=" +:+ sprint (default AnyNil (ls_Stream s !! key))) keys
     ++ match ls_Values s with (ts :: _) :: _ => [ts] | _ => [] end).

Definition sortedLokiStreams (streams : list lokiStream) : list lokiStream :=
  sort_stable (fun a b => str_ltb (lokiStreamKey a) (lokiStreamKey b)) streams.

(** The comparison of two entries: one without a timestamp comes first. *)
Definition lokiValueLess (a b : list string) : bool :=
  match a, b with
  | [], _ => true
  | _ :: _, [] => false
  | x :: _, y :: _ => str_ltb x y
  end.
Definition sortedLokiValues (values : list (list string)) : list (list string) := sort_stable lokiValueLess values.

Definition maxLokiEntries (limits : QueryResultLimits) : Z :=
  if ql_LogsMaxEntries limits <=? 0 then ql_LogsMaxLines limits else ql_LogsMaxEntries limits.

Definition lokiCounts (resultType : string) (streams entries : Z) : NativeResultCounts :=
  mkNativeResultCounts resultType 0 0 streams entries 0.

(** The records of the entries of a stream that have a timestamp and a line. *)
Definition lokiEntryRecords (s : lokiStream) (values : list (list string)) : list record :=
  omap (fun value =>
    match value with
    | ts :: line :: _ =>
        Some (<["labels" := AnyMap (map_to_list (ls_Stream s))]> (<["ts" := AnyString ts]> (<["line" := AnyString line]> ∅)) : record)
    | _ => None
    end) values.

(** The loop over the sorted streams, with the streams and entries retained so far. *)
Fixpoint lokiRecordsFrom (resultType : string) (limits : QueryResultLimits) (items : list lokiStream) (streams entries : Z)
    : list record * NativeResultCounts :=
  let stop := ([], lokiCounts resultType streams entries) in
  let maxEntries := maxLokiEntries limits in
  match items with
  | [] => stop
  | item :: rest =>
      if (0 <? ql_LogsMaxStreams limits) && (ql_LogsMaxStreams limits <=? streams) then stop
      else if (0 <? maxEntries) && (maxEntries - entries <=? 0) then stop
      else
        let values := sortedLokiValues (ls_Values item) in
        let values := if 0 <? maxEntries then take (Z.to_nat (maxEntries - entries)) values else values in
        match values with
        | [] => lokiRecordsFrom resultType limits rest streams entries
        | _ =>
            let found := lokiEntryRecords item values in
            let '(records, counts) := lokiRecordsFrom resultType limits rest (streams + 1) (entries + zlen found) in
            (found ++ records, counts)
        end
  end.

Definition lokiLimit (original retained : NativeResultCounts) (limits : QueryResultLimits) : option NativeResultLimit :=
  let exceeded dimension limit originalCount retainedCount :=
    mkNativeResultLimit "NativeResultLimitExceeded" dimension limit originalCount retainedCount in
  if (0 <? ql_LogsMaxStreams limits) && (ql_LogsMaxStreams limits <? nc_Streams original)
  then Some (exceeded "streams" (ql_LogsMaxStreams limits) (nc_Streams original) (nc_Streams retained))
  else if (0 <? maxLokiEntries limits) && (maxLokiEntries limits <? nc_Entries original)
  then Some (exceeded "entries" (maxLokiEntries limits) (nc_Entries original) (nc_Entries retained))
  else None.

Definition entryCount (streams : list lokiStream) : Z := fold_left (fun n s => n + zlen (ls_Values s)) streams 0.

Definition lokiRecords (resultType : string) (streams : list lokiStream) (limits : QueryResultLimits)
    : list record * NativeResultCounts * option NativeResultLimit :=
  let counts := lokiCounts resultType (zlen streams) (entryCount streams) in
  let '(records, retained) := lokiRecordsFrom resultType limits (sortedLokiStreams streams) 0 0 in
  (records, counts, lokiLimit counts retained limits).

Definition lokiAnswer (req : QueryRequest) (body : string) : option (QueryResult + query_error) :=
  match parse_json body ≫= read_lokiResponse with
  | None => Some (inr (QueryError "InvalidDatasourceResponse" ("decode loki response: " +:+ json_error_text body)))
  | Some payload =>
      if (lkr_Status payload != "") && (lkr_Status payload != "success")
      then Some (inr (QueryError "InvalidDatasourceResponse" ("loki response status " +:+ quote (lkr_Status payload))))
      else
        let '(records, counts, limit) := lokiRecords (lkr_ResultType payload) (lkr_Result payload) (qr_ResultLimits req) in
        Some (inl (nativeResult "loki" QueryTypeLog
          ("Loki returned " +:+ itoa (nc_Entries counts) +:+ " log lines for " +:+ rr_Name (qr_Target req))
          records counts limit))
  end.

Definition lokiQueryRange (baseURL : string) (req : QueryRequest)
    : prog (request_op Req) (option (QueryResult + query_error)) :=
  adapterQuery "loki" "/loki/api/v1/query_range" baseURL (logURL req) (lokiAnswer req).
End Loki.

(** ** What the limits keep *)

Lemma zlen_cons {A} (x : A) l : zlen (x :: l) = zlen l + 1.
Proof. unfold zlen. simpl. lia. Qed.
Lemma zlen_app {A} (l k : list A) : zlen (l ++ k) = zlen l + zlen k.
Proof. unfold zlen. rewrite length_app. lia. Qed.
Lemma zlen_nonneg {A} (l : list A) : 0 <= zlen l.
Proof. unfold zlen. lia. Qed.

(** The sum of a size over a list, as the loops that count compute it. *)
Lemma fold_sum {A} (f : A -> Z) l n : fold_left (fun n x => n + f x) l n = n + fold_left (fun n x => n + f x) l 0.
Proof.
  revert n. induction l as [|x l IH]; intros n; simpl; [lia|]. rewrite (IH (n + f x)), (IH (0 + f x)). lia.
Qed.

(** [max] bounds [n] when it is a limit at all. *)
Definition bounded_by (max n : Z) : Prop := 0 < max -> n <= max.

Section Metrics.
Context {V : ValueText}.
Implicit Types (item : promSeries) (items : list promSeries).

(** The record of a series: the value of its last sample. *)
Definition seriesRecord item : option record :=
  match last (sort_stable (fun a b => str_ltb (sampleText a) (sampleText b)) (psr_Values item)) with
  | Some (_ :: value :: _) => Some (promRecord (metricName item) (psr_Metric item) value)
  | _ => None
  end.

Lemma sampleCount_cons item items : sampleCount (item :: items) = zlen (psr_Values item) + sampleCount items.
Proof. unfold sampleCount. simpl. by rewrite fold_sum. Qed.

Lemma sampleCount_nonneg items : 0 <= sampleCount items.
Proof.
  induction items as [|item items IH]; [done|]. rewrite sampleCount_cons. pose proof (zlen_nonneg (psr_Values item)). lia.
Qed.

Lemma roomFor_bounded limits samples values kept :
  roomFor limits samples values = Some kept ->
  zlen kept <= zlen values /\ (0 < ql_MetricsMaxSamples limits -> samples + zlen kept <= ql_MetricsMaxSamples limits).
Proof.
  unfold roomFor, zlen. destruct (Z.ltb_spec 0 (ql_MetricsMaxSamples limits)) as [H|H]; [|intros [= <-]; lia].
  destruct (Z.leb_spec (ql_MetricsMaxSamples limits - samples) 0); intros [= <-]. rewrite length_take. lia.
Qed.

Lemma roomFor_whole limits samples values :
  values <> [] -> bounded_by (ql_MetricsMaxSamples limits) (samples + zlen values) ->
  roomFor limits samples values = Some values.
Proof.
  intros Hne Hb. unfold roomFor, bounded_by, zlen in *. destruct (Z.ltb_spec 0 (ql_MetricsMaxSamples limits)) as [H|H]; [|done].
  destruct values as [|v l]; [done|]. specialize (Hb H). cbn [length] in *.
  destruct (Z.leb_spec (ql_MetricsMaxSamples limits - samples) 0); [lia|]. f_equal. apply take_ge. cbn [length]. lia.
Qed.

Lemma sortedPromValues_sort values sorted :
  sortedPromValues values = Some sorted ->
  sorted = sort_stable (fun a b => str_ltb (sampleText a) (sampleText b)) values /\ zlen sorted = zlen values.
Proof.
  unfold sortedPromValues. destruct (_ && _); [done|]. intros [= <-]. split; [done|]. unfold zlen.
  by rewrite (Permutation_length (sort_stable_perm _ _)).
Qed.

(** The loop never keeps more than its limits, and says what it keeps. *)
Lemma matrix_bounded limits items series samples records counts :
  matrixRecordsFrom limits items series samples = Some (records, counts) ->
  nc_Series counts = series + zlen records /\
  (series <= ql_MetricsMaxSeries limits -> bounded_by (ql_MetricsMaxSeries limits) (nc_Series counts)) /\
  (samples <= ql_MetricsMaxSamples limits -> bounded_by (ql_MetricsMaxSamples limits) (nc_Samples counts)).
Proof.
  revert series samples records counts. induction items as [|item items IH]; intros series samples records counts; cbn [matrixRecordsFrom].
  { intros [= <- <-]. unfold zlen, bounded_by. cbn. lia. }
  assert (Hstop : forall (records : list record) counts, Some ([], promCounts "matrix" series samples) = Some (records, counts) ->
    nc_Series counts = series + zlen records /\
    (series <= ql_MetricsMaxSeries limits -> bounded_by (ql_MetricsMaxSeries limits) (nc_Series counts)) /\
    (samples <= ql_MetricsMaxSamples limits -> bounded_by (ql_MetricsMaxSamples limits) (nc_Samples counts))).
  { intros r c [= <- <-]. unfold zlen, bounded_by. cbn. lia. }
  destruct (_ && _) eqn:Hmax; [apply Hstop|].
  destruct (sortedPromValues (psr_Values item)) as [[|v values]|]; [apply IH| |done].
  destruct (roomFor limits samples (v :: values)) as [kept|] eqn:Hroom; [|apply Hstop].
  destruct (last kept) as [[|t [|value rest]]|]; [done..| |done].
  destruct (matrixRecordsFrom limits items (series + 1) (samples + zlen kept)) as [[records' counts']|] eqn:Hrest; [|done].
  intros [= <- <-]. apply IH in Hrest as (Hs & Hbs & Hbm). apply roomFor_bounded in Hroom as [_ Hroom].
  rewrite zlen_cons. cbn [snd]. split; [lia|]. split.
  - intros Hle Hpos. apply Hbs; [|done]. destruct (Z.leb_spec (ql_MetricsMaxSeries limits) series); [|lia].
    destruct (Z.ltb_spec 0 (ql_MetricsMaxSeries limits)); simpl in Hmax; [done|lia].
  - intros Hle Hpos. apply Hbm; [|done]. auto.
Qed.

(** Within the limits every series has its record. *)
Lemma matrix_within limits items series samples records counts :
  matrixRecordsFrom limits items series samples = Some (records, counts) ->
  bounded_by (ql_MetricsMaxSeries limits) (series + zlen items) ->
  bounded_by (ql_MetricsMaxSamples limits) (samples + sampleCount items) ->
  records = omap seriesRecord items.
Proof.
  revert series samples records counts. induction items as [|item items IH]; intros series samples records counts; cbn [matrixRecordsFrom].
  { by intros [= <- <-]. }
  rewrite zlen_cons, sampleCount_cons. intros Hrun Hs Hm. pose proof (zlen_nonneg items). pose proof (sampleCount_nonneg items).
  destruct (_ && _) eqn:Hmax.
  { unfold bounded_by in Hs. apply andb_true_iff in Hmax as [H1%Z.ltb_lt H2%Z.leb_le]. specialize (Hs H1). lia. }
  destruct (sortedPromValues (psr_Values item)) as [sorted|] eqn:Hsort; [|done].
  apply sortedPromValues_sort in Hsort as [Hsorted Hlen]. pose proof (zlen_nonneg sorted).
  destruct sorted as [|v values].
  - cbn [omap list_omap]. unfold seriesRecord at 1. rewrite <- Hsorted. cbn [last].
    eapply IH; [exact Hrun| |]; unfold bounded_by in *; lia.
  - rewrite roomFor_whole in Hrun by (try done; unfold bounded_by in *; lia).
    cbn [omap list_omap]. unfold seriesRecord at 1. rewrite <- Hsorted.
    destruct (last (v :: values)) as [[|t [|value rest]]|]; [done..| |done].
    destruct (matrixRecordsFrom limits items _ _) as [[records' counts']|] eqn:Hrest; [|done].
    injection Hrun as <- <-. f_equal. eapply IH; [exact Hrest| |]; unfold bounded_by in *; lia.
Qed.
End Metrics.

Section Logs.
Context {V : ValueText}.
Implicit Types (item : lokiStream) (items : list lokiStream).

Lemma entryCount_cons item items : entryCount (item :: items) = zlen (ls_Values item) + entryCount items.
Proof. unfold entryCount. simpl. by rewrite fold_sum. Qed.

Lemma entryCount_nonneg items : 0 <= entryCount items.
Proof.
  induction items as [|item items IH]; [done|]. rewrite entryCount_cons. pose proof (zlen_nonneg (ls_Values item)). lia.
Qed.

Lemma entryCount_perm items items' : items ≡ₚ items' -> entryCount items = entryCount items'.
Proof. induction 1; rewrite ?entryCount_cons; lia. Qed.

Lemma sortedLokiValues_perm values : sortedLokiValues values ≡ₚ values.
Proof. apply sort_stable_perm. Qed.

(** The records of a stream without a limit. *)
Definition streamRecords item : list record := lokiEntryRecords item (sortedLokiValues (ls_Values item)).

Lemma lokiEntryRecords_length item values : zlen (lokiEntryRecords item values) <= zlen values.
Proof.
  unfold zlen, lokiEntryRecords. induction values as [|[|ts [|line rest]] values IH]; cbn [omap list_omap length] in *; lia.
Qed.

Lemma loki_bounded resultType limits items streams entries :
  let '(records, counts) := lokiRecordsFrom resultType limits items streams entries in
  nc_Entries counts = entries + zlen records /\
  (streams <= ql_LogsMaxStreams limits -> bounded_by (ql_LogsMaxStreams limits) (nc_Streams counts)) /\
  (entries <= maxLokiEntries limits -> bounded_by (maxLokiEntries limits) (nc_Entries counts)).
Proof.
  revert streams entries. induction items as [|item items IH]; intros streams entries; cbn [lokiRecordsFrom].
  { unfold zlen, bounded_by. cbn. lia. }
  destruct (_ && _) eqn:Hs; [unfold zlen, bounded_by; cbn; lia|].
  destruct (_ && (_ <=? 0)) eqn:He; [unfold zlen, bounded_by; cbn; lia|].
  set (kept := if 0 <? maxLokiEntries limits then _ else _).
  destruct kept as [|v values] eqn:Hkept; [apply IH|].
  specialize (IH (streams + 1) (entries + zlen (lokiEntryRecords item (v :: values)))).
  destruct (lokiRecordsFrom _ _ _ _ _) as [records counts]. destruct IH as (Hn & Hbs & Hbe).
  pose proof (lokiEntryRecords_length item (v :: values)) as Hle. rewrite zlen_app. unfold bounded_by in *. split; [lia|]. split.
  - intros H1 H2. apply Hbs; [|done]. destruct (Z.leb_spec (ql_LogsMaxStreams limits) streams); [|lia].
    destruct (Z.ltb_spec 0 (ql_LogsMaxStreams limits)); [done|lia].
  - intros H1 H2. apply Hbe; [|done]. subst kept. destruct (Z.ltb_spec 0 (maxLokiEntries limits)); [|lia].
    assert (zlen (v :: values) <= maxLokiEntries limits - entries); [|lia].
    rewrite <- Hkept. unfold zlen. rewrite length_take. destruct (Z.leb_spec (maxLokiEntries limits - entries) 0); [done|lia].
Qed.

Lemma loki_within resultType limits items streams entries :
  bounded_by (ql_LogsMaxStreams limits) (streams + zlen items) ->
  bounded_by (maxLokiEntries limits) (entries + entryCount items) ->
  fst (lokiRecordsFrom resultType limits items streams entries) = flat_map streamRecords items.
Proof.
  revert streams entries. induction items as [|item items IH]; intros streams entries Hs He; [done|].
  cbn [lokiRecordsFrom flat_map]. rewrite zlen_cons in Hs. rewrite entryCount_cons in He.
  pose proof (zlen_nonneg items). pose proof (entryCount_nonneg items). pose proof (zlen_nonneg (ls_Values item)).
  assert (Hlen : zlen (sortedLokiValues (ls_Values item)) = zlen (ls_Values item)).
  { unfold zlen. by rewrite (Permutation_length (sortedLokiValues_perm _)). }
  destruct (_ && _) eqn:Hstop.
  { apply andb_true_iff in Hstop as [Hpos%Z.ltb_lt Hmax%Z.leb_le]. specialize (Hs Hpos). lia. }
  destruct (_ && (_ <=? 0)) eqn:Hfull.
  { apply andb_true_iff in Hfull as [Hpos%Z.ltb_lt Hmax%Z.leb_le]. specialize (He Hpos).
    assert (Hnone : ls_Values item = [] /\ entryCount items = 0).
    { destruct (ls_Values item) as [|v l]; [|rewrite zlen_cons in He; pose proof (zlen_nonneg l); lia]. unfold zlen in *. cbn in *. split; [done|lia]. }
    destruct Hnone as [Hv Hi]. unfold streamRecords at 1. rewrite Hv. cbn [fst]. symmetry. clear -Hi.
    induction items as [|i items IH]; [done|]. rewrite entryCount_cons in Hi. pose proof (entryCount_nonneg items).
    destruct (ls_Values i) as [|v l] eqn:Hv; [|rewrite zlen_cons in Hi; pose proof (zlen_nonneg l); lia].
    cbn [flat_map]. unfold streamRecords at 1. rewrite Hv. cbn. apply IH. unfold zlen in Hi. cbn in Hi. lia. }
  assert (Hkept : (if 0 <? maxLokiEntries limits then take (Z.to_nat (maxLokiEntries limits - entries)) (sortedLokiValues (ls_Values item))
                   else sortedLokiValues (ls_Values item)) = sortedLokiValues (ls_Values item)).
  { destruct (Z.ltb_spec 0 (maxLokiEntries limits)) as [Hpos|]; [|done]. specialize (He Hpos). apply take_ge. unfold zlen in *. lia. }
  rewrite Hkept. unfold streamRecords at 1. pose proof (lokiEntryRecords_length item (sortedLokiValues (ls_Values item))) as Hle.
  destruct (sortedLokiValues (ls_Values item)) as [|v values].
  - cbn [lokiEntryRecords omap list_omap app]. apply IH; unfold bounded_by in *; unfold zlen in Hlen at 1; cbn in Hlen; lia.
  - specialize (IH (streams + 1) (entries + zlen (lokiEntryRecords item (v :: values)))).
    destruct (lokiRecordsFrom _ _ _ _ _) as [records counts]. cbn [fst] in *. f_equal. apply IH; unfold bounded_by in *; lia.
Qed.
End Logs.

(** ** Answers *)

Lemma nativeResult_truncated source queryType summary records counts limit :
  qs_Truncated (nativeResult source queryType summary records counts limit) = false <-> limit = None.
Proof. destruct limit; simpl; split; congruence. Qed.

Lemma nativeResult_records source queryType summary records counts limit :
  let result := nativeResult source queryType summary records counts limit in
  qs_Records result = records /\ qs_NativeCounts result = counts.
Proof. by destruct limit. Qed.

Lemma within_limit max n : (0 <? max) && (max <? n) = false <-> bounded_by max n.
Proof. unfold bounded_by. destruct (Z.ltb_spec 0 max), (Z.ltb_spec max n); simpl; split; (done || lia). Qed.

Lemma no_limit_iff {A} (b1 b2 : bool) (x y : A) :
  (if b1 then Some x else if b2 then Some y else None) = None <-> b1 = false /\ b2 = false.
Proof. destruct b1, b2; naive_solver. Qed.

Section Answers.
Context {U : UnicodeTables} {V : ValueText} {JE : JSONErrors}.

(** C32: an answer Prometheus gives to a range query: its counts are those of the
    series and samples it has, the records never exceed the series limit, and the
    result is marked truncated exactly when the answer exceeds one of the limits;
    otherwise every series with samples has its record, the value of its last
    sample, and there are no others. *)
Theorem metric_answer_exact req body result :
  prometheusAnswer req body = Some (inl result) ->
  exists payload, parse_json body ≫= read_promResponse = Some payload /\
    forall series, prr_Result payload ≫= read_list read_promSeries = Some series ->
      prr_ResultType payload = "matrix" ->
      let limits := qr_ResultLimits req in
      nc_Series (qs_NativeCounts result) = zlen series /\ nc_Samples (qs_NativeCounts result) = sampleCount series /\
      bounded_by (ql_MetricsMaxSeries limits) (zlen (qs_Records result)) /\
      (qs_Truncated result = false <->
         bounded_by (ql_MetricsMaxSeries limits) (zlen series) /\ bounded_by (ql_MetricsMaxSamples limits) (sampleCount series)) /\
      (qs_Truncated result = false -> qs_Records result = omap seriesRecord series).
Proof.
  unfold prometheusAnswer. destruct (parse_json body ≫= read_promResponse) as [payload|] eqn:Hp; [|done].
  destruct (_ && _); [done|]. intros Hrun. exists payload. split; [done|]. intros series Hser Htype. set (limits := qr_ResultLimits req).
  unfold prometheusRecords in Hrun. rewrite Htype, Hser in Hrun. cbn [mem_str existsb String.eqb orb] in Hrun.
  destruct (matrixRecords series (qr_ResultLimits req)) as [[records retained]|] eqn:Hm; [|done].
  simpl in Hrun. injection Hrun as <-. fold limits in Hm.
  rewrite nativeResult_truncated.
  rewrite (proj1 (nativeResult_records _ _ _ _ _ _)), (proj2 (nativeResult_records _ _ _ _ _ _)).
  unfold prometheusLimit. rewrite no_limit_iff, !within_limit. cbn [nc_Series nc_Samples promCounts].
  unfold matrixRecords in Hm. destruct (matrix_bounded _ _ _ _ _ _ Hm) as (Hn & Hb & _).
  split_and!; [done|done| |done|].
  - intros Hpos. unfold bounded_by in Hb. simpl in Hn. lia.
  - intros [Hs Hc]. by apply (matrix_within _ _ _ _ _ _ Hm).
Qed.

(** An answer Loki gives: its counts are those of the streams and entries it has,
    the records never exceed the entry limit, and the result is marked truncated exactly
    when the answer exceeds one of the limits; otherwise the records are those of all its
    entries that have a timestamp and a line, each as often as the answer has it. *)
Theorem log_answer_exact req body result :
  lokiAnswer req body = Some (inl result) ->
  exists payload, parse_json body ≫= read_lokiResponse = Some payload /\
    let limits := qr_ResultLimits req in
    let streams := lkr_Result payload in
    nc_Streams (qs_NativeCounts result) = zlen streams /\ nc_Entries (qs_NativeCounts result) = entryCount streams /\
    bounded_by (maxLokiEntries limits) (zlen (qs_Records result)) /\
    (qs_Truncated result = false <->
       bounded_by (ql_LogsMaxStreams limits) (zlen streams) /\ bounded_by (maxLokiEntries limits) (entryCount streams)) /\
    (qs_Truncated result = false ->
       qs_Records result ≡ₚ flat_map (fun s => lokiEntryRecords s (ls_Values s)) streams).
Proof.
  unfold lokiAnswer. destruct (parse_json body ≫= read_lokiResponse) as [payload|] eqn:Hp; [|done].
  destruct (_ && _); [done|]. intros Hrun. exists payload. split; [done|]. cbv zeta.
  set (limits := qr_ResultLimits req) in *. set (streams := lkr_Result payload) in *. unfold lokiRecords in Hrun.
  pose proof (loki_bounded (lkr_ResultType payload) limits (sortedLokiStreams streams) 0 0) as Hb.
  pose proof (loki_within (lkr_ResultType payload) limits (sortedLokiStreams streams) 0 0) as Hw.
  destruct (lokiRecordsFrom _ limits (sortedLokiStreams streams) 0 0) as [records retained]. injection Hrun as <-.
  rewrite nativeResult_truncated.
  rewrite (proj1 (nativeResult_records _ _ _ _ _ _)), (proj2 (nativeResult_records _ _ _ _ _ _)).
  unfold lokiLimit. rewrite no_limit_iff, !within_limit. cbn [nc_Streams nc_Entries lokiCounts].
  assert (Hperm : sortedLokiStreams streams ≡ₚ streams) by apply sort_stable_perm.
  destruct Hb as (Hn & _ & Hbe). split_and!; [done|done| |done|].
  - intros Hpos. unfold bounded_by in Hbe. lia.
  - intros [Hs He]. cbn [fst] in Hw. rewrite Hw.
    + etrans; [by apply Permutation_flat_map|]. clear. induction streams as [|s l IH]; [done|]. cbn [flat_map].
      apply Permutation_app; [|done]. unfold streamRecords, lokiEntryRecords. by rewrite sortedLokiValues_perm.
    + unfold zlen. by rewrite (Permutation_length Hperm).
    + by rewrite (entryCount_perm _ _ Hperm).
Qed.
End Answers.

(** ** Concrete answers *)

Section Examples.
#[local] Existing Instance plain_tables.

(** Floats that are small integers, printed as integers. *)
#[local] Instance integer_values : ValueText := {|
  sprint_other v := match v with AnyFloat bits => itoa bits | _ => "?" end; fixed2 bits := itoa bits +:+ ".00";
  ParseFloat64 s := digits s; int32_of_float64 bits := wrap32 bits;
  float_literal bits := Some (itoa bits); sprint_payload _ := "map" |}.
#[local] Instance no_error_text : JSONErrors := {| json_error_text _ := "invalid" |}.

Definition range_request (series samples streams entries : Z) : QueryRequest :=
  mkQueryRequest "q" 0 minute minute ∅ (mkResourceRef "" "prod" "Deployment" "web" "apps/v1" "") QueryTypeMetric []
    (mkQueryResultLimits series samples streams entries 0 0) (mkDataClassification "" [] "" "").

Definition answer_body (resultType : string) (answers : json) : string :=
  json_text (JObj [("status", JStr "success"); ("data", JObj [("resultType", JStr resultType); ("result", answers)])]).
Definition series_json (pod : string) (samples : list (Z * string)) : json :=
  JObj [("metric", JObj [("__name__", JStr "latency"); ("pod", JStr pod)]);
        ("values", JArr (map (fun s => JArr [JNum (fst s); JStr (snd s)]) samples))].
Definition stream_json (pod : string) (entries : list (string * string)) : json :=
  JObj [("stream", JObj [("pod", JStr pod)]); ("values", JArr (map (fun e => JArr [JStr (fst e); JStr (snd e)]) entries))].

(** The test of the repository: three series cut to two, and four samples. *)
Definition three_series : string :=
  answer_body "matrix" (JArr [series_json "a" [(1, "1"); (3, "3"); (2, "2")]; series_json "b" [(1, "4"); (2, "5")];
                              series_json "c" [(1, "6")]]).
Definition metric_values (answer : option (QueryResult + query_error)) : option (list (option any_value) * bool) :=
  match answer with
  | Some (inl r) => Some (map (fun x : record => x !! "value") (qs_Records r), qs_Truncated r)
  | _ => None
  end.

Example limited_series :
  metric_values (prometheusAnswer (range_request 2 4 0 0) three_series)
  = Some ([Some (AnyString "3"); Some (AnyString "4")], true).
Proof. vm_compute. reflexivity. Qed.

(** Timestamps are ordered as text: 10 comes before 9, so the last sample is not the latest. *)
Example last_sample_by_text :
  metric_values (prometheusAnswer (range_request 0 0 0 0)
    (answer_body "matrix" (JArr [series_json "a" [(9, "old"); (10, "new")]])))
  = Some ([Some (AnyString "old")], false).
Proof. vm_compute. reflexivity. Qed.

(** A sample without a value panics; a result that is not a list of series is an empty answer. *)
Example malformed_answers :
  map (fun result => metric_values (prometheusAnswer (range_request 0 0 0 0) (answer_body "matrix" result)))
    [JArr [JObj [("values", JArr [JArr [JNum 1]])]]; JObj []]
  = [None; Some ([], false)] /\
  prometheusAnswer (range_request 0 0 0 0) (answer_body "matrix" (JArr [JObj [("values", JArr [JArr [JNum 1]])]])) = None.
Proof. split; vm_compute; reflexivity. Qed.

Lemma metric_answer_exact_witness :
  exists result, prometheusAnswer (range_request 2 4 0 0) three_series = Some (inl result) /\
    exists payload, parse_json three_series ≫= read_promResponse = Some payload /\
      exists series, prr_Result payload ≫= read_list read_promSeries = Some series /\
        prr_ResultType payload = "matrix" /\ nc_Series (qs_NativeCounts result) = zlen series.
Proof.
  destruct (prometheusAnswer (range_request 2 4 0 0) three_series) as [[result|]|] eqn:Hr; [|vm_compute in Hr; done..].
  exists result. split; [done|]. destruct (metric_answer_exact _ _ _ Hr) as (payload & Hp & H). exists payload.
  split; [done|]. destruct (prr_Result payload ≫= read_list read_promSeries) as [series|] eqn:Hs.
  - exists series. assert (Ht : prr_ResultType payload = "matrix") by (vm_compute in Hp; by injection Hp as <-).
    split; [done|]. split; [done|]. by apply (H series).
  - vm_compute in Hp. injection Hp as <-. vm_compute in Hs. done.
Defined.

Definition two_streams : string :=
  answer_body "streams" (JArr [stream_json "b" [("2", "second"); ("1", "first")]; stream_json "a" [("3", "third")]]).

Example ordered_lines :
  match lokiAnswer (range_request 0 0 0 0) two_streams with
  | Some (inl r) => map (fun x : record => x !! "line") (qs_Records r)
  | _ => []
  end = map (fun s => Some (AnyString s)) ["third"; "first"; "second"].
Proof. vm_compute. reflexivity. Qed.

Lemma log_answer_exact_witness :
  exists result payload, lokiAnswer (range_request 0 0 0 2) two_streams = Some (inl result) /\
    parse_json two_streams ≫= read_lokiResponse = Some payload /\
    nc_Entries (qs_NativeCounts result) = entryCount (lkr_Result payload) /\
    (qs_Truncated result = false -> False).
Proof.
  destruct (lokiAnswer (range_request 0 0 0 2) two_streams) as [[result|]|] eqn:Hr; [|vm_compute in Hr; done..].
  destruct (log_answer_exact _ _ _ Hr) as (payload & Hp & _ & Hn & _ & Ht & _). exists result, payload.
  split; [done|]. split; [done|]. split; [done|]. rewrite Ht. intros [_ H].
  assert (Hc : entryCount (lkr_Result payload) = 3) by (vm_compute in Hp; injection Hp as <-; vm_compute; reflexivity).
  rewrite Hc in H. exact (H eq_refl eq_refl).
Defined.

(** Whatever entry limit the query has, Loki is asked for fifty lines. *)
Example fifty_lines limit :
  qu_Values (logURL (range_request 0 0 0 limit) (mkQueryURL "http://loki" ∅)) !! "limit" = Some ["50"].
Proof. vm_compute. reflexivity. Qed.
End Examples.
