(* ===== verification/KubernetesAdapter.v ===== *)
(** * The Kubernetes adapter (internal/datasource/kubernetes/adapter.go)

    [Adapter.Query]: events about a target and its Pods, workload conditions,
    the resolution of Service and probe ports, and the termination status of the
    containers of the Pods a target owns.  Reads of the API server are
    operations of a program; the records have the fields the adapter reads. *)

From Stdlib Require Import ZArith Lia Sorting.Sorted.
From stdpp Require Import base list strings gmap sorting.
From S2P Require Import Prelude GoStrings Utf8 GoParse Api InvestigationApi Digest Prog DataClassification Datasource Normalize HttpAdapters.

(** ** Objects *)

Inductive IntOrString :=
| IntPort (z : Z)
| NamedPort (s : string).

(** [IntOrString.String]. *)
Definition port_text (p : IntOrString) : string := match p with IntPort z => itoa z | NamedPort s => s end.
Definition port_named (p : IntOrString) : bool := match p with IntPort _ => false | NamedPort _ => true end.

Record ContainerPort := mkContainerPort { cpt_Name : string; cpt_ContainerPort : Z }.
Record HTTPGetAction := mkHTTPGetAction { hga_Path : string; hga_Scheme : string; hga_Port : IntOrString }.
(** A probe, by its HTTP action when it has one. *)
Record Probe := mkProbe { pb_HTTPGet : option HTTPGetAction }.
Record Container := mkContainer {
  ctn_Name : string;
  ctn_Ports : list ContainerPort;
  ctn_ReadinessProbe : option Probe;
  ctn_LivenessProbe : option Probe
}.

Record ContainerStateTerminated := mkTerminated {
  tm_Reason : string;
  tm_ExitCode : Z;
  tm_Signal : Z;
  tm_FinishedAt : time
}.
(** A container status: the reason it waits for, and its last termination. *)
Record ContainerStatus := mkContainerStatus {
  cst_Name : string;
  cst_RestartCount : Z;
  cst_Waiting : option string;
  cst_LastTerminated : option ContainerStateTerminated
}.
Record KubePod := mkKubePod { kp_Meta : ObjectMeta; kp_Containers : list Container; kp_Statuses : list ContainerStatus }.

Record KubeCondition := mkKubeCondition { kc_Type : string; kc_Status : string; kc_Reason : string; kc_Message : string }.

(** What is read of a Deployment, StatefulSet, DaemonSet, ReplicaSet, Job or CronJob:
    the [matchLabels] of its selector ([None] without a selector), the containers of
    its template and its status. *)
Record KubeWorkload := mkKubeWorkload {
  kw_Meta : ObjectMeta;
  kw_MatchLabels : option (gmap string string);
  kw_Containers : list Container;
  kw_Conditions : list KubeCondition;
  kw_Replicas : option Z;
  kw_Ready : Z;
  kw_DesiredScheduled : Z;
  kw_Active : Z;
  kw_Succeeded : Z;
  kw_FailedPods : Z;
  kw_LastSchedule : option time;
  kw_ActiveJobs : Z
}.

Record ServicePort := mkServicePort { svp_Name : string; svp_Port : Z; svp_TargetPort : IntOrString }.
Record KubeService := mkKubeService { ksv_Meta : ObjectMeta; ksv_Selector : gmap string string; ksv_Ports : list ServicePort }.

Record KubeEvent := mkKubeEvent {
  kev_Meta : ObjectMeta;
  kev_CreationTimestamp : time;
  kev_Reason : string;
  kev_Message : string;
  kev_Type : string;
  kev_InvolvedKind : string;
  kev_InvolvedName : string;
  kev_InvolvedUID : string;
  kev_EventTime : time;
  kev_FirstTimestamp : time;
  kev_LastTimestamp : time;
  kev_Count : Z;
  kev_ReportingController : string;
  kev_ReportingInstance : string;
  kev_SourceComponent : string;
  kev_SourceHost : string
}.

(** A page of a list: its items and the token of the next page. *)
Record Page (A : Type) := mkPage { pg_Items : list A; pg_Continue : string }.
Arguments mkPage {A} _ _.
Arguments pg_Items {A} _.
Arguments pg_Continue {A} _.

(** Which clients the adapter has. *)
Record KubernetesReaders := mkKubernetesReaders { kr_Client : bool; kr_APIReader : bool }.

(** Reads; [direct]: through the reader that does not cache. *)
Inductive kube_op : Type -> Type :=
| AGetWorkload (kind namespace name : string) : kube_op (result KubeWorkload)
| AGetPod (namespace name : string) : kube_op (result KubePod)
| AGetService (namespace name : string) : kube_op (result KubeService)
| AListServices (namespace : string) : kube_op (result (list KubeService))
| AListEvents (namespace : string) : kube_op (result (list KubeEvent))
| AListPods (namespace : string) : kube_op (result (list KubePod))
| AListReplicaSets (direct : bool) (namespace : string) (selector : gmap string string) (limit : Z)
    : kube_op (result (Page ObjectMeta))
| AListPodPage (direct : bool) (namespace : string) (selector : gmap string string) (limit : Z) (token : string)
    : kube_op (result (Page KubePod)).

Abbreviation kube_prog := (prog kube_op).

(** The value of a read, its error wrapped. *)
Definition read_or {A B} (op : kube_op (result A)) (what : string) (k : A -> kube_prog (result B)) : kube_prog (result B) :=
  got <~! op;
  match got with Ok a => k a | Err e => Ret (Err (wrapf what e)) end.

Section Adapter.
Context {U : UnicodeTables}.

Definition normalizeKind (value : string) : string := normalizeSignalType value.

Definition labelsMatch (labels required : gmap string string) : bool :=
  forallb (fun kv => map_get labels (fst kv) == snd kv) (map_to_list required).

Definition nativeRecordLimit (dimension : string) (limit original : Z) : option NativeResultLimit :=
  if (limit <=? 0) || (original <=? limit) then None
  else Some (mkNativeResultLimit "NativeResultLimitExceeded" dimension limit original limit).

Definition recordCounts (resultType : string) (records : Z) : NativeResultCounts :=
  mkNativeResultCounts resultType 0 0 0 0 records.

Definition kubernetesSource : string := "kubernetes-events".

(** The records a limit leaves, in a result that says so. *)
Definition limitedResult (queryType summary resultType : string) (records : list record) (maxRecords : Z) : QueryResult :=
  let limit := nativeRecordLimit "records" maxRecords (zlen records) in
  let retain := match limit with Some l => Z.to_nat (nl_RetainedCount l) | None => length records end in
  nativeResult kubernetesSource queryType summary (take retain records) (recordCounts resultType (zlen records)) limit.

Definition wholeResult (queryType summary resultType : string) (records : list record) : QueryResult :=
  nativeResult kubernetesSource queryType summary records (recordCounts resultType (zlen records)) None.

(** ** Events *)

(** The first of the times that is set. *)
Definition firstTime (times : list time) : time :=
  default 0 (find_first (fun t => if is_zero_time t then None else Some t) times).

Definition eventWithinTimeRange (event : KubeEvent) (start stop : time) : bool :=
  if is_zero_time start && is_zero_time stop then true
  else
    let eventTime := firstTime [kev_EventTime event; kev_LastTimestamp event; kev_FirstTimestamp event;
                                kev_CreationTimestamp event] in
    if is_zero_time eventTime then false
    else if negb (is_zero_time start) && time_before eventTime start then false
    else if negb (is_zero_time stop) && time_after eventTime stop then false
    else true.

Definition eventMatchesTarget (event : KubeEvent) (target : ResourceRef) (relatedNames : list string) : bool :=
  let involved := to_lower (kev_InvolvedName event) in
  contains involved (to_lower (rr_Name target))
  || existsb (fun relatedName => (relatedName != "") && contains involved relatedName) relatedNames.

(** The same code as in the investigation service. *)
Definition adapterReasonAllowed (reason : string) (allowed : list string) : bool := eventReasonAllowed reason allowed.

Definition eventSortKey (event : KubeEvent) : string :=
  CanonicalTime (firstTime [kev_EventTime event; kev_LastTimestamp event; kev_FirstTimestamp event])
  +:+ str1 255 +:+ om_Namespace (kev_Meta event) +:+ str1 255 +:+ om_Name (kev_Meta event).

Definition eventRecord (event : KubeEvent) : record :=
  list_to_map
    [("reason", AnyString (kev_Reason event)); ("message", AnyString (kev_Message event));
     ("type", AnyString (kev_Type event)); ("object", AnyString (kev_InvolvedName event));
     ("eventUID", AnyString (om_UID (kev_Meta event))); ("eventName", AnyString (om_Name (kev_Meta event)));
     ("eventNamespace", AnyString (om_Namespace (kev_Meta event)));
     ("involvedObjectKind", AnyString (kev_InvolvedKind event)); ("involvedObjectName", AnyString (kev_InvolvedName event));
     ("involvedObjectUID", AnyString (kev_InvolvedUID event));
     ("firstTimestamp", AnyString (rfc3339_seconds (kev_FirstTimestamp event)));
     ("lastTimestamp", AnyString (rfc3339_seconds (kev_LastTimestamp event)));
     ("count", AnyInt (kev_Count event)); ("reportingComponent", AnyString (kev_ReportingController event));
     ("reportingInstance", AnyString (kev_ReportingInstance event));
     ("sourceComponent", AnyString (kev_SourceComponent event)); ("sourceHost", AnyString (kev_SourceHost event));
     ("resourceVersion", AnyString (om_ResourceVersion (kev_Meta event)))].

(** The names events may be about: the target's, and those of the Pods with its labels. *)
Definition relatedObjectNames (req : QueryRequest) : kube_prog (list string) :=
  let target := qr_Target req in
  let names := [to_lower (rr_Name target)] in
  if (normalizeKind (rr_Kind target) == "pod") || bool_decide (qr_Labels req = ∅) then Ret names
  else
    pods <~! AListPods (rr_Namespace target);
    Ret (match pods with
         | Err _ => names
         | Ok pods =>
             names ++ map (fun p => to_lower (om_Name (kp_Meta p)))
                        (List.filter (fun p => labelsMatch (om_Labels (kp_Meta p)) (qr_Labels req)) pods)
         end).

Definition matchedEvent (req : QueryRequest) (relatedNames : list string) (event : KubeEvent) : bool :=
  eventMatchesTarget event (qr_Target req) relatedNames
  && eventWithinTimeRange event (qr_StartTime req) (qr_EndTime req)
  && adapterReasonAllowed (kev_Reason event) (qr_Reasons req).

Definition eventLess (a b : KubeEvent) : bool := str_ltb (eventSortKey a) (eventSortKey b).

Definition eventResult (req : QueryRequest) (relatedNames : list string) (events : list KubeEvent) : QueryResult :=
  let matched := sort_stable eventLess (List.filter (matchedEvent req relatedNames) events) in
  limitedResult QueryTypeEvent
    ("Kubernetes returned " +:+ itoa (zlen matched) +:+ " matching events for " +:+ rr_Name (qr_Target req))
    "events" (map eventRecord matched) (ql_EventsMaxRecords (qr_ResultLimits req)).

Definition queryEvents (req : QueryRequest) : kube_prog (result QueryResult) :=
  read_or (AListEvents (rr_Namespace (qr_Target req))) "list kubernetes events" (fun events =>
    relatedNames <~ relatedObjectNames req;
    Ret (Ok (eventResult req relatedNames events))).

(** ** Workload conditions *)

Definition conditionRecord (conditionType status reason message : string) : record :=
  list_to_map [("type", AnyString conditionType); ("status", AnyString status); ("reason", AnyString reason);
               ("message", AnyString message)].

Definition statusBool (ok : bool) : string := if ok then "True" else "False".

Definition sortedConditionRecords (conditions : list KubeCondition) : list record :=
  map (fun c => conditionRecord (kc_Type c) (kc_Status c) (kc_Reason c) (kc_Message c))
    (sort_stable (fun a b => str_ltb (kc_Type a) (kc_Type b)) conditions).

Definition ratioText (ready desired : Z) (what : string) : string := itoa ready +:+ "/" +:+ itoa desired +:+ what.

(** The records and the type of the result; a kind of another name has neither. *)
Definition queryWorkloadStatusRecords (req : QueryRequest) : kube_prog (result (list record * string)) :=
  let ns := rr_Namespace (qr_Target req) in
  let name := rr_Name (qr_Target req) in
  let kind := normalizeKind (rr_Kind (qr_Target req)) in
  if kind == "deployment" then
    read_or (AGetWorkload "Deployment" ns name) "get deployment conditions" (fun w =>
      Ret (Ok (sortedConditionRecords (kw_Conditions w), "deploymentConditions")))
  else if kind == "statefulset" then
    read_or (AGetWorkload "StatefulSet" ns name) "get statefulset status" (fun w =>
      let desired := default 1 (kw_Replicas w) in
      Ret (Ok ([conditionRecord "Ready" (statusBool (desired <=? kw_Ready w)) "ReadyReplicas"
                  (ratioText (kw_Ready w) desired " StatefulSet replicas are ready")], "statefulSetStatus")))
  else if kind == "daemonset" then
    read_or (AGetWorkload "DaemonSet" ns name) "get daemonset status" (fun w =>
      Ret (Ok ([conditionRecord "Ready" (statusBool (kw_DesiredScheduled w <=? kw_Ready w)) "NumberReady"
                  (ratioText (kw_Ready w) (kw_DesiredScheduled w) " DaemonSet pods are ready")], "daemonSetStatus")))
  else if kind == "job" then
    read_or (AGetWorkload "Job" ns name) "get job status" (fun w =>
      Ret (Ok (sortedConditionRecords (kw_Conditions w)
               ++ [conditionRecord "Failed" (statusBool (0 <? kw_FailedPods w)) "FailedPods"
                     ("Job has active=" +:+ itoa (kw_Active w) +:+ " succeeded=" +:+ itoa (kw_Succeeded w) +:+ " failed="
                      +:+ itoa (kw_FailedPods w) +:+ " pods")], "jobStatus")))
  else if kind == "cronjob" then
    read_or (AGetWorkload "CronJob" ns name) "get cronjob status" (fun w =>
      Ret (Ok ([conditionRecord "Scheduled" (statusBool (bool_decide (is_Some (kw_LastSchedule w)))) "LastScheduleTime"
                  ("CronJob has " +:+ itoa (kw_ActiveJobs w) +:+ " active jobs")], "cronJobStatus")))
  else Ret (Ok ([], "")).

(** The text of the target in the summaries. *)
Definition targetText (req : QueryRequest) : string :=
  rr_Kind (qr_Target req) +:+ " " +:+ rr_Namespace (qr_Target req) +:+ "/" +:+ rr_Name (qr_Target req).

Definition rbind_prog {A B} (p : kube_prog (result A)) (k : A -> kube_prog (result B)) : kube_prog (result B) :=
  got <~ p;
  match got with Ok a => k a | Err e => Ret (Err e) end.

Definition queryDeploymentConditions (req : QueryRequest) : kube_prog (result QueryResult) :=
  rbind_prog (queryWorkloadStatusRecords req) (fun '(records, resultType) =>
    Ret (Ok (limitedResult QueryTypeDeploymentCondition
               ("Kubernetes returned " +:+ itoa (zlen records) +:+ " workload status records for " +:+ targetText req)
               resultType records (ql_EventsMaxRecords (qr_ResultLimits req))))).

(** ** Ports of Services and probes *)

Record workloadContainerSet := mkWorkloadContainerSet { wcs_Kind : string; wcs_Name : string; wcs_Containers : list Container }.
Record workloadContainerPort := mkWorkloadContainerPort {
  wcp_WorkloadKind : string;
  wcp_WorkloadName : string;
  wcp_ContainerName : string;
  wcp_ContainerPortName : string;
  wcp_ContainerPort : Z
}.

Definition containersOf (kind : string) (w : KubeWorkload) : workloadContainerSet :=
  mkWorkloadContainerSet kind (om_Name (kw_Meta w)) (kw_Containers w).

Definition workloadContainers (req : QueryRequest) : kube_prog (result workloadContainerSet) :=
  let ns := rr_Namespace (qr_Target req) in
  let name := rr_Name (qr_Target req) in
  let kind := normalizeKind (rr_Kind (qr_Target req)) in
  if kind == "deployment" then
    read_or (AGetWorkload "Deployment" ns name) "get Deployment configuration" (fun w => Ret (Ok (containersOf "Deployment" w)))
  else if kind == "statefulset" then
    read_or (AGetWorkload "StatefulSet" ns name) "get StatefulSet configuration" (fun w => Ret (Ok (containersOf "StatefulSet" w)))
  else if kind == "daemonset" then
    read_or (AGetWorkload "DaemonSet" ns name) "get DaemonSet configuration" (fun w => Ret (Ok (containersOf "DaemonSet" w)))
  else if kind == "pod" then
    read_or (AGetPod ns name) "get Pod configuration" (fun p =>
      Ret (Ok (mkWorkloadContainerSet "Pod" (om_Name (kp_Meta p)) (kp_Containers p))))
  else Ret (Err (errorf ("workload kind " +:+ quote (rr_Kind (qr_Target req)) +:+ " does not expose probe configuration"))).

Definition containerPortsOf (w : workloadContainerSet) : list workloadContainerPort :=
  flat_map (fun c => map (fun p => mkWorkloadContainerPort (wcs_Kind w) (wcs_Name w) (ctn_Name c) (cpt_Name p)
                                     (cpt_ContainerPort p)) (ctn_Ports c)) (wcs_Containers w).

Definition workloadContainerPorts (req : QueryRequest) : kube_prog (result (list workloadContainerPort)) :=
  rbind_prog (workloadContainers req) (fun w => Ret (Ok (containerPortsOf w))).

(** The Service of the target's service name or name, else the first of the namespace
    whose labels select it. *)
Definition findService (req : QueryRequest) : kube_prog (result KubeService) :=
  let target := qr_Target req in
  let ns := rr_Namespace target in
  let serviceName := if trim_space (rr_Service target) == "" then rr_Name target else trim_space (rr_Service target) in
  got <~! AGetService ns serviceName;
  match got with
  | Ok service => Ret (Ok service)
  | Err e =>
      if negb (is_not_found e) then Ret (Err (wrapf ("get Service " +:+ ns +:+ "/" +:+ serviceName) e))
      else
        read_or (AListServices ns) ("list Services in " +:+ ns) (fun services =>
          Ret (match find_first (fun s => if bool_decide (ksv_Selector s = ∅) then None
                                          else if labelsMatch (qr_Labels req) (ksv_Selector s) then Some s else None) services with
               | Some service => Ok service
               | None => Err (errorf ("service " +:+ ns +:+ "/" +:+ serviceName +:+ " was not found for workload " +:+ rr_Name target))
               end))
  end.

Definition servicePortReason (mismatch unresolved : bool) : string :=
  if mismatch then "ServicePortMismatch" else if unresolved then "TargetPortUnresolved" else "ServicePortResolved".

Definition noContainerPort : workloadContainerPort := mkWorkloadContainerPort "" "" "" "" 0.

Definition serviceConfigurationRecord (service : KubeService) (servicePort : ServicePort) (resolved : Z) (unresolved : bool)
    (resolution : string) (port : workloadContainerPort) : record :=
  let mismatch := negb unresolved && (resolution == "NumericTargetPortDoesNotMatchContainerPort") in
  list_to_map
    [("serviceName", AnyString (om_Name (ksv_Meta service))); ("servicePortName", AnyString (svp_Name servicePort));
     ("servicePort", AnyInt (svp_Port servicePort)); ("targetPortRaw", AnyString (port_text (svp_TargetPort servicePort)));
     ("targetPortResolved", AnyInt resolved); ("targetPortNamed", AnyBool (port_named (svp_TargetPort servicePort)));
     ("workloadKind", AnyString (wcp_WorkloadKind port)); ("workloadName", AnyString (wcp_WorkloadName port));
     ("containerName", AnyString (wcp_ContainerName port)); ("containerPortName", AnyString (wcp_ContainerPortName port));
     ("containerPort", AnyInt (wcp_ContainerPort port)); ("resolution", AnyString resolution);
     ("mismatchConfirmed", AnyBool mismatch); ("reason", AnyString (servicePortReason mismatch unresolved))].

(** Whether a target port is that of a container port with this name and number. *)
Definition port_matches (target : IntOrString) (name : string) (number : Z) : bool :=
  match target with NamedPort s => name == s | IntPort z => number =? z end.

Definition declared_number (target : IntOrString) : Z := match target with IntPort z => z | NamedPort _ => 0 end.

Definition servicePortRecords (service : KubeService) (ports : list workloadContainerPort) (servicePort : ServicePort)
    : list record :=
  let target := svp_TargetPort servicePort in
  let resolved := declared_number target in
  let matched := List.filter (fun p => port_matches target (wcp_ContainerPortName p) (wcp_ContainerPort p)) ports in
  match matched, ports with
  | [], _ =>
      if port_named target
      then [serviceConfigurationRecord service servicePort resolved true "UnresolvedNamedTargetPort" noContainerPort]
      else
        match ports with
        | [] => [serviceConfigurationRecord service servicePort resolved true "NoDeclaredContainerPort" noContainerPort]
        | fallback :: _ =>
            [serviceConfigurationRecord service servicePort resolved false "NumericTargetPortDoesNotMatchContainerPort" fallback]
        end
  | _, _ =>
      map (fun p => serviceConfigurationRecord service servicePort (if port_named target then wcp_ContainerPort p else resolved)
                      false "Resolved" p) matched
  end.

Definition queryServiceConfiguration (req : QueryRequest) : kube_prog (result QueryResult) :=
  rbind_prog (findService req) (fun service =>
  rbind_prog (workloadContainerPorts req) (fun ports =>
    let records := flat_map (servicePortRecords service ports) (ksv_Ports service) in
    Ret (Ok (wholeResult QueryTypeServiceConfiguration
               ("Kubernetes resolved " +:+ itoa (zlen records) +:+ " Service ports for " +:+ targetText req)
               "serviceConfiguration" records)))).

Definition probeConfigurationRecord (w : workloadContainerSet) (c : Container) (probeType : string)
    (httpGet : option HTTPGetAction) (resolved : Z) (named : bool) (resolution : string) (mismatch : bool) (reason : string) : record :=
  list_to_map
    [("workloadKind", AnyString (wcs_Kind w)); ("workloadName", AnyString (wcs_Name w)); ("containerName", AnyString (ctn_Name c));
     ("probeType", AnyString probeType); ("probeScheme", AnyString (match httpGet with Some h => hga_Scheme h | None => "" end));
     ("probePath", AnyString (match httpGet with Some h => hga_Path h | None => "" end));
     ("probePortRaw", AnyString (match httpGet with Some h => port_text (hga_Port h) | None => "" end));
     ("probePortResolved", AnyInt resolved); ("probePortNamed", AnyBool named);
     ("containerPortName", AnyString (match ctn_Ports c with p :: _ => cpt_Name p | [] => "" end));
     ("containerPort", AnyInt (match ctn_Ports c with p :: _ => cpt_ContainerPort p | [] => 0 end));
     ("resolution", AnyString resolution); ("mismatchConfirmed", AnyBool mismatch); ("reason", AnyString reason)].

Definition probeRecords (w : workloadContainerSet) (c : Container) (probeType : string) (probe : option Probe) : list record :=
  match probe with
  | None => []
  | Some p =>
      match pb_HTTPGet p with
      | None => [probeConfigurationRecord w c probeType None 0 false "UnsupportedProbeHandler" false "ProbeHandlerUnsupported"]
      | Some httpGet =>
          let port := hga_Port httpGet in
          let named := port_named port in
          let resolved := declared_number port in
          match List.filter (fun p => port_matches port (cpt_Name p) (cpt_ContainerPort p)) (ctn_Ports c) with
          | [] =>
              if named
              then [probeConfigurationRecord w c probeType (Some httpGet) resolved named "UnresolvedNamedProbePort" false
                      "ProbePortUnresolved"]
              else [probeConfigurationRecord w c probeType (Some httpGet) resolved named
                      "NumericProbePortDoesNotMatchContainerPort" true "ProbeConfigurationMismatch"]
          | matched =>
              map (fun p => probeConfigurationRecord w c probeType (Some httpGet) (if named then cpt_ContainerPort p else resolved)
                              named "Resolved" false "ProbeConfigurationResolved") matched
          end
      end
  end.

Definition containerProbeRecords (w : workloadContainerSet) (c : Container) : list record :=
  probeRecords w c "readiness" (ctn_ReadinessProbe c) ++ probeRecords w c "liveness" (ctn_LivenessProbe c).

Definition queryProbeConfiguration (req : QueryRequest) : kube_prog (result QueryResult) :=
  rbind_prog (workloadContainers req) (fun w =>
    let records := flat_map (containerProbeRecords w) (wcs_Containers w) in
    Ret (Ok (wholeResult QueryTypeProbeConfiguration
               ("Kubernetes inspected " +:+ itoa (zlen records) +:+ " HTTP probe configurations for " +:+ wcs_Kind w +:+ " "
                +:+ wcs_Name w +:+ "/" +:+ rr_Namespace (qr_Target req))
               "probeConfiguration" records))).

(** ** Terminations of the target's containers *)

Definition maxTerminationPods : nat := 20.
Definition maxTerminationReplicaSets : nat := 100.
Definition maxTerminationContainers : nat := 10.
Definition maxTerminationPodListPages : nat := 10.

(** An owner reference whose controller flag is set. *)
Definition isControllerRef (owner : OwnerReference) : bool := bool_decide (or_Controller owner = Some true).

Definition hasControllerOwner (owners : list OwnerReference) (kind name uid : string) : bool :=
  existsb (fun o => isControllerRef o && (or_Kind o == kind) && (or_Name o == name) && (or_UID o == uid)) owners.

Definition ownedByReplicaSets (replicaUIDs : list string) (pod : KubePod) : bool :=
  existsb (fun o => isControllerRef o && (or_Kind o == "ReplicaSet") && mem_str (or_UID o) replicaUIDs)
    (om_OwnerReferences (kp_Meta pod)).

Definition podHasCrashLoopContainer (pod : KubePod) : bool :=
  existsb (fun s => match cst_Waiting s with Some reason => reason == "CrashLoopBackOff" | None => false end) (kp_Statuses pod).

(** The owned Pods of a page after [found], cut at the first that is one too many. *)
Fixpoint takeOwned (owned : KubePod -> bool) (found : list KubePod) (items : list KubePod) : list KubePod * bool :=
  match items with
  | [] => (found, false)
  | pod :: rest =>
      if owned pod then
        if (maxTerminationPods <? length (found ++ [pod]))%nat then (found ++ [pod], true)
        else takeOwned owned (found ++ [pod]) rest
      else takeOwned owned found rest
  end.

(** [pages] more pages are read at most. *)
Fixpoint listOwnedPodsFrom (direct : bool) (namespace : string) (selector : gmap string string) (owned : KubePod -> bool)
    (pages : nat) (token : string) (found : list KubePod) : kube_prog (result (list KubePod * bool)) :=
  match pages with
  | O => Ret (Ok (found, token != ""))
  | S pages =>
      read_or (AListPodPage direct namespace selector (Z.of_nat maxTerminationPods + 1) token) "list target-owned Pods" (fun page =>
        let '(found, over) := takeOwned owned found (pg_Items page) in
        if over : bool then Ret (Ok (found, true))
        else if pg_Continue page == "" then Ret (Ok (found, false))
        else listOwnedPodsFrom direct namespace selector owned pages (pg_Continue page) found)
  end.
Definition listOwnedPods (direct : bool) (namespace : string) (selector : gmap string string) (owned : KubePod -> bool)
    : kube_prog (result (list KubePod * bool)) :=
  listOwnedPodsFrom direct namespace selector owned maxTerminationPodListPages "" [].

(** The workload of a kind, with the labels its selector matches, of which there must be some. *)
Definition selectedWorkload (kind : string) (req : QueryRequest)
    (k : KubeWorkload -> gmap string string -> kube_prog (result (list KubePod * bool))) : kube_prog (result (list KubePod * bool)) :=
  let ns := rr_Namespace (qr_Target req) in
  let name := rr_Name (qr_Target req) in
  read_or (AGetWorkload kind ns name) ("get target " +:+ kind +:+ " selector") (fun w =>
    match kw_MatchLabels w with
    | Some labels =>
        if bool_decide (labels = ∅)
        then Ret (Err (errorf ("target " +:+ kind +:+ " " +:+ ns +:+ "/" +:+ name +:+ " has no matchLabels selector")))
        else k w labels
    | None => Ret (Err (errorf ("target " +:+ kind +:+ " " +:+ ns +:+ "/" +:+ name +:+ " has no matchLabels selector")))
    end).

Definition directlyOwnedPods (readers : KubernetesReaders) (kind : string) (req : QueryRequest)
    : kube_prog (result (list KubePod * bool)) :=
  selectedWorkload kind req (fun w labels =>
    listOwnedPods (kr_APIReader readers) (rr_Namespace (qr_Target req)) labels (fun pod =>
      hasControllerOwner (om_OwnerReferences (kp_Meta pod)) kind (om_Name (kw_Meta w)) (om_UID (kw_Meta w)))).

Definition deploymentPods (readers : KubernetesReaders) (req : QueryRequest) : kube_prog (result (list KubePod * bool)) :=
  let ns := rr_Namespace (qr_Target req) in
  selectedWorkload "Deployment" req (fun w labels =>
    read_or (AListReplicaSets (kr_APIReader readers) ns labels (Z.of_nat maxTerminationReplicaSets + 1))
      "list target Deployment ReplicaSets" (fun replicas =>
        let replicaUIDs := map om_UID (List.filter (fun m =>
          hasControllerOwner (om_OwnerReferences m) "Deployment" (om_Name (kw_Meta w)) (om_UID (kw_Meta w))) (pg_Items replicas)) in
        rbind_prog (listOwnedPods (kr_APIReader readers) ns labels (ownedByReplicaSets replicaUIDs)) (fun '(pods, truncated) =>
          Ret (Ok (pods, truncated || ((pg_Continue replicas != "")
                         || (maxTerminationReplicaSets <? length (pg_Items replicas))%nat)))))).

Definition targetPods (readers : KubernetesReaders) (req : QueryRequest) : kube_prog (result (list KubePod * bool)) :=
  let kind := normalizeKind (rr_Kind (qr_Target req)) in
  if kind == "pod" then
    read_or (AGetPod (rr_Namespace (qr_Target req)) (rr_Name (qr_Target req))) "get target Pod termination status"
      (fun pod => Ret (Ok ([pod], false)))
  else if kind == "deployment" then deploymentPods readers req
  else if kind == "statefulset" then directlyOwnedPods readers "StatefulSet" req
  else if kind == "daemonset" then directlyOwnedPods readers "DaemonSet" req
  else if kind == "replicaset" then directlyOwnedPods readers "ReplicaSet" req
  else Ret (Err (errorf ("target kind " +:+ quote (rr_Kind (qr_Target req)) +:+ " does not support container termination queries"))).

(** Pods with a crash loop first, then by name and UID. *)
Definition podTerminationLess (a b : KubePod) : bool :=
  if eqb (podHasCrashLoopContainer a) (podHasCrashLoopContainer b) then
    if om_Name (kp_Meta a) == om_Name (kp_Meta b) then str_ltb (om_UID (kp_Meta a)) (om_UID (kp_Meta b))
    else str_ltb (om_Name (kp_Meta a)) (om_Name (kp_Meta b))
  else podHasCrashLoopContainer a.

Definition terminationRecord (pod : KubePod) (status : ContainerStatus) : record :=
  list_to_map
    ([("podName", AnyString (om_Name (kp_Meta pod))); ("podUID", AnyString (om_UID (kp_Meta pod)));
      ("containerName", AnyString (cst_Name status)); ("restartCount", AnyInt (cst_RestartCount status))]
     ++ match cst_Waiting status with Some reason => [("waitingReason", AnyString reason)] | None => [] end
     ++ match cst_LastTerminated status with
        | Some t =>
            [("lastTerminatedReason", AnyString (tm_Reason t)); ("lastTerminatedExitCode", AnyInt (tm_ExitCode t));
             ("lastTerminatedSignal", AnyInt (tm_Signal t))]
            ++ (if is_zero_time (tm_FinishedAt t) then []
                else [("lastTerminatedFinishedAt", AnyString (rfc3339_seconds (tm_FinishedAt t)))])
        | None => []
        end).

Definition reported (status : ContainerStatus) : bool :=
  bool_decide (is_Some (cst_Waiting status)) || bool_decide (is_Some (cst_LastTerminated status)).

Definition podTerminationRecords (pod : KubePod) : list record :=
  map (terminationRecord pod)
    (List.filter reported
       (take maxTerminationContainers (sort_stable (fun a b => str_ltb (cst_Name a) (cst_Name b)) (kp_Statuses pod)))).

Definition terminationResult (pods : list KubePod) (listTruncated : bool) : QueryResult :=
  let selected := take maxTerminationPods (sort_stable podTerminationLess pods) in
  let records := flat_map podTerminationRecords selected in
  let original := zlen pods in
  let truncated := (Z.of_nat maxTerminationPods <? original) || listTruncated in
  let limit := mkNativeResultLimit "TargetPodLimitExceeded" "pods" (Z.of_nat maxTerminationPods) original (zlen selected) in
  mkQueryResult kubernetesSource QueryTypeContainerTermination
    ("Kubernetes inspected termination status for " +:+ itoa (zlen records) +:+ " containers across " +:+ itoa (zlen selected)
     +:+ " target Pods")
    records truncated (if truncated then nl_Reason limit else "") (if truncated then nl_Dimension limit else "")
    (if truncated then nl_Limit limit else 0) (if truncated then original else 0) (if truncated then zlen selected else 0)
    (recordCounts "containerTermination" (zlen records)) (if truncated then Some limit else None).

Definition queryContainerTermination (readers : KubernetesReaders) (req : QueryRequest) : kube_prog (result QueryResult) :=
  rbind_prog (targetPods readers req) (fun '(pods, listTruncated) => Ret (Ok (terminationResult pods listTruncated))).

(** ** Query *)

Definition kubernetesQuery (readers : KubernetesReaders) (req : QueryRequest) : kube_prog (result QueryResult) :=
  if negb (kr_Client readers) then Ret (Err (errorf "kubernetes client is nil"))
  else if qr_QueryType req == QueryTypeDeploymentCondition then queryDeploymentConditions req
  else if qr_QueryType req == QueryTypeServiceConfiguration then queryServiceConfiguration req
  else if qr_QueryType req == QueryTypeProbeConfiguration then queryProbeConfiguration req
  else if qr_QueryType req == QueryTypeContainerTermination then queryContainerTermination readers req
  else queryEvents req.
End Adapter.

(** ** Events: which, in what order, how many *)

Section Events.
Context {U : UnicodeTables}.
Implicit Types (event : KubeEvent) (events : list KubeEvent).

#[export] Instance eventLess_strict_weak : StrictWeak eventLess.
Proof. apply (strict_weak_key eventSortKey str_ltb). Qed.

(** The time of an event, zero when it has none. *)
Definition eventTimeOf event : time :=
  firstTime [kev_EventTime event; kev_LastTimestamp event; kev_FirstTimestamp event; kev_CreationTimestamp event].

Lemma eventWithinTimeRange_iff event start stop :
  eventWithinTimeRange event start stop = true <->
  (start = 0 /\ stop = 0) \/
  (eventTimeOf event <> 0 /\ (start <> 0 -> start <= eventTimeOf event) /\ (stop <> 0 -> eventTimeOf event <= stop)).
Proof.
  unfold eventWithinTimeRange. fold (eventTimeOf event). generalize (eventTimeOf event) as t. intros t.
  unfold is_zero_time, time_before, time_after.
  repeat match goal with |- context [?a =? ?b] => destruct (Z.eqb_spec a b) end;
    repeat match goal with |- context [?a <? ?b] => destruct (Z.ltb_spec a b) end; cbn; split; intros; try done; try lia.
Qed.

Lemma limitedResult_records queryType summary resultType records maxRecords :
  let result := limitedResult queryType summary resultType records maxRecords in
  (qs_Truncated result = true <-> 0 < maxRecords < zlen records) /\
  qs_Records result = (if 0 <? maxRecords then take (Z.to_nat maxRecords) records else records).
Proof.
  unfold limitedResult, nativeRecordLimit. set (n := zlen records).
  assert (Hlen : Z.of_nat (length records) = n) by done.
  destruct (Z.leb_spec maxRecords 0) as [H1|H1], (Z.leb_spec n maxRecords) as [H2|H2], (Z.ltb_spec 0 maxRecords) as [H3|H3];
    cbn; try lia; (split; [split; intros; (done || (exfalso; lia) || lia)|]); try done.
  all: try (rewrite firstn_all); try done; by rewrite take_ge by lia.
Qed.

(** What a related name is: the target's, or that of a Pod with its labels. *)
Definition related_by (log : list (event kube_op)) (req : QueryRequest) (relatedNames : list string) : Prop :=
  forall name, name ∈ relatedNames -> name = to_lower (rr_Name (qr_Target req)) \/
    exists pods pod, Ev (AListPods (rr_Namespace (qr_Target req))) (Ok pods) ∈ log /\ pod ∈ pods /\
      labelsMatch (om_Labels (kp_Meta pod)) (qr_Labels req) = true /\ name = to_lower (om_Name (kp_Meta pod)).

Lemma relatedObjectNames_ok req log :
  wp log_env (fun _ => True) (relatedObjectNames req) log
    (fun names log' => related_by log' req names /\ continues log log').
Proof.
  apply wp_continues. unfold relatedObjectNames.
  assert (Hone : forall log', related_by log' req [to_lower (rr_Name (qr_Target req))]).
  { intros log' name ->%list_elem_of_singleton. by left. }
  destruct (_ || _); [by apply wp_ret|]. split; [done|]. intros pods log' ->. apply wp_ret; [done|].
  destruct pods as [pods|e]; [|apply Hone]. intros name [Hn|Hn]%elem_of_app; [by apply (Hone (log ++ [Ev (AListPods (rr_Namespace (qr_Target req))) (Ok pods)]))|].
  apply list_elem_of_fmap in Hn as (pod & -> & Hp). apply list_filter_elem in Hp as [Hp Hl]. right. exists pods, pod.
  split_and!; [apply snoc_elem|done|done|done].
Qed.

(** The events of a query are those of the namespace that are about the target or
    one of the Pods with its labels, lie in the time range and have a reason asked
    for; they are ordered by their sort key and cut to the record limit, and the
    result is marked truncated exactly when something was cut. *)
Theorem event_query_exact req result log :
  logged (queryEvents req) (Some (Ok result)) log ->
  exists events relatedNames matched,
    Ev (AListEvents (rr_Namespace (qr_Target req))) (Ok events) ∈ log /\ related_by log req relatedNames /\
    matched ≡ₚ List.filter (fun event =>
      eventMatchesTarget event (qr_Target req) relatedNames && eventWithinTimeRange event (qr_StartTime req) (qr_EndTime req)
      && eventReasonAllowed (kev_Reason event) (qr_Reasons req)) events /\
    StronglySorted (fun a b => str_ltb (eventSortKey b) (eventSortKey a) = false) matched /\
    let maxRecords := ql_EventsMaxRecords (qr_ResultLimits req) in
    qs_Records result = map eventRecord (if 0 <? maxRecords then take (Z.to_nat maxRecords) matched else matched) /\
    (qs_Truncated result = true <-> 0 < maxRecords < zlen matched).
Proof.
  intros Hrun.
  assert (Hwp : wp log_env (fun _ => True) (queryEvents req) [] (fun r log => forall result, r = Ok result ->
    exists events relatedNames, Ev (AListEvents (rr_Namespace (qr_Target req))) (Ok events) ∈ log /\
      related_by log req relatedNames /\ result = eventResult req relatedNames events)).
  { unfold queryEvents, read_or. split; [done|]. intros got log' ->. destruct got as [events|e]; [|by apply wp_ret].
    apply wp_bind. eapply wp_mono; [|apply relatedObjectNames_ok]. intros names log'' _ [Hrel Hc]. apply wp_ret; [done|].
    intros r [= <-]. exists events, names. split_and!; [|done|done]. eapply continues_elem; [exact Hc|apply snoc_elem]. }
  apply (wp_exec _ _ _ _ _ _ _ Hwp) in Hrun as [_ Hr]. destruct (Hr _ eq_refl _ eq_refl) as (events & names & He & Hrel & ->).
  exists events, names, (sort_stable eventLess (List.filter (matchedEvent req names) events)).
  split_and!; [done|done|apply sort_stable_perm|apply (sort_stable_sorted eventLess)|].
  unfold eventResult. set (matched := sort_stable eventLess (List.filter (matchedEvent req names) events)).
  match goal with |- context [limitedResult ?a ?b ?c ?d ?e] => destruct (limitedResult_records a b c d e) as [Ht Hrec] end.
  split.
  - rewrite Hrec. destruct (0 <? _); [|done]. by rewrite <- fmap_take.
  - rewrite Ht. unfold zlen. by rewrite length_map.
Qed.
End Events.

(** ** Confirmed mismatches *)

Section Ports.
Context {U : UnicodeTables}.

(** A record that confirms a mismatch. *)
Definition confirms_mismatch (records : list record) : Prop :=
  exists r, r ∈ records /\ r !! "mismatchConfirmed" = Some (AnyBool true).

Lemma service_record_mismatch service sp resolved unresolved resolution port :
  serviceConfigurationRecord service sp resolved unresolved resolution port !! "mismatchConfirmed"
  = Some (AnyBool (negb unresolved && (resolution == "NumericTargetPortDoesNotMatchContainerPort"))).
Proof. reflexivity. Qed.

Lemma probe_record_mismatch w c probeType httpGet resolved named resolution mismatch reason :
  probeConfigurationRecord w c probeType httpGet resolved named resolution mismatch reason !! "mismatchConfirmed"
  = Some (AnyBool mismatch).
Proof. reflexivity. Qed.

(** No record of a map confirms, when no item does. *)
Lemma map_confirms {A} (f : A -> record) (l : list A) :
  (forall x, f x !! "mismatchConfirmed" = Some (AnyBool false)) -> ~ confirms_mismatch (map f l).
Proof. intros Hf (r & Hr & Hc). apply list_elem_of_fmap in Hr as (x & -> & _). by rewrite Hf in Hc. Qed.

Lemma one_confirms (r : record) b :
  r !! "mismatchConfirmed" = Some (AnyBool b) -> confirms_mismatch [r] <-> b = true.
Proof.
  intros Hr. split.
  - intros (r' & ->%list_elem_of_singleton & Hc). rewrite Hr in Hc. by injection Hc.
  - intros ->. exists r. split; [apply list_elem_of_here|done].
Qed.

Lemma unmatched_iff {A} (f : A -> bool) (l : list A) : List.filter f l = [] <-> forall x, x ∈ l -> f x = false.
Proof.
  induction l as [|x l IH]; simpl; [split; [intros _ y Hy; by apply elem_of_nil in Hy|done]|].
  destruct (f x) eqn:Hx; split; intros H; try done.
  - specialize (H x (list_elem_of_here _ _)). congruence.
  - intros y [->|Hy]%elem_of_cons; [done|]. by apply IH.
  - apply IH. intros y Hy. apply H. by right.
Qed.

Lemma service_port_confirmed service ports sp :
  confirms_mismatch (servicePortRecords service ports sp) <->
  exists z, svp_TargetPort sp = IntPort z /\ ports <> [] /\ forall p, p ∈ ports -> wcp_ContainerPort p <> z.
Proof.
  unfold servicePortRecords. destruct (svp_TargetPort sp) as [z|name] eqn:Hport; cbn [port_named port_matches declared_number].
  - destruct (List.filter _ ports) as [|m ms] eqn:Hf.
    + rewrite unmatched_iff in Hf. destruct ports as [|p ports].
      * rewrite (one_confirms _ false) by apply service_record_mismatch. split; [done|]. by intros (? & _ & ? & _).
      * rewrite (one_confirms _ true) by apply service_record_mismatch. split; [|done]. intros _. exists z.
        split_and!; [done|done|]. intros q Hq. specialize (Hf q Hq). cbn in Hf. by apply Z.eqb_neq.
    + split.
      * intros H. exfalso. destruct ports; revert H; apply map_confirms; intros x; by rewrite service_record_mismatch.
      * intros (z' & [= <-] & _ & Hne). assert (Hm : m ∈ List.filter (fun p => wcp_ContainerPort p =? z) ports) by (rewrite Hf; left).
        apply list_filter_elem in Hm as [Hin Heq]. apply Z.eqb_eq in Heq. by destruct (Hne m Hin).
  - split; [|by intros (? & ? & _)]. intros H. exfalso.
    destruct (List.filter _ ports) as [|m ms].
    + destruct ports; revert H; rewrite (one_confirms _ false) by apply service_record_mismatch; done.
    + destruct ports; revert H; apply map_confirms; intros x; by rewrite service_record_mismatch.
Qed.

Lemma probe_confirmed w c probeType probe :
  confirms_mismatch (probeRecords w c probeType probe) <->
  exists p httpGet z, probe = Some p /\ pb_HTTPGet p = Some httpGet /\ hga_Port httpGet = IntPort z /\
    forall port, port ∈ ctn_Ports c -> cpt_ContainerPort port <> z.
Proof.
  unfold probeRecords. destruct probe as [p|]; [|split; [intros (r & Hr & _); by apply elem_of_nil in Hr|by intros (? & ? & ? & ? & _)]].
  destruct (pb_HTTPGet p) as [h|] eqn:Hh.
  2: { rewrite (one_confirms _ false) by apply probe_record_mismatch. split; [done|]. intros (? & ? & ? & [= <-] & Hh' & _). congruence. }
  destruct (List.filter _ (ctn_Ports c)) as [|m ms] eqn:Hf.
  - rewrite unmatched_iff in Hf. destruct (hga_Port h) as [z|name] eqn:Hp; cbn [port_named].
    + rewrite (one_confirms _ true) by apply probe_record_mismatch. split; [|done]. intros _. exists p, h, z.
      split_and!; [done|done|done|]. intros q Hq. specialize (Hf q Hq). cbn in Hf. by apply Z.eqb_neq.
    + rewrite (one_confirms _ false) by apply probe_record_mismatch. split; [done|].
      intros (? & h' & z & [= <-] & Hh' & Hp' & _). rewrite Hh in Hh'. injection Hh' as <-. congruence.
  - split.
    + intros H. exfalso. revert H. apply map_confirms. intros x. apply probe_record_mismatch.
    + intros (? & h' & z & [= <-] & Hh' & Hp' & Hne). rewrite Hh in Hh'. injection Hh' as <-.
      assert (Hm : m ∈ List.filter (fun q => port_matches (hga_Port h) (cpt_Name q) (cpt_ContainerPort q)) (ctn_Ports c)) by (rewrite Hf; left).
      apply list_filter_elem in Hm as [Hin Heq]. rewrite Hp' in Heq. cbn in Heq. apply Z.eqb_eq in Heq. by destruct (Hne m Hin).
Qed.

(** A mismatch of a Service port is confirmed exactly when its target port is a
    number, the workload declares container ports, and none of them has that number;
    that of a probe exactly when it is an HTTP probe of a number that no port of its
    container has, also of a container that declares none. *)
Theorem port_mismatch_confirmed_iff service ports w c probeType probe :
  (forall sp, confirms_mismatch (servicePortRecords service ports sp) <->
     exists z, svp_TargetPort sp = IntPort z /\ ports <> [] /\ forall p, p ∈ ports -> wcp_ContainerPort p <> z) /\
  (confirms_mismatch (probeRecords w c probeType probe) <->
     exists p httpGet z, probe = Some p /\ pb_HTTPGet p = Some httpGet /\ hga_Port httpGet = IntPort z /\
       forall port, port ∈ ctn_Ports c -> cpt_ContainerPort port <> z).
Proof. split; [intros sp; apply service_port_confirmed|apply probe_confirmed]. Qed.
End Ports.

(** ** Whose containers a termination query reports *)

Section Terminations.
Context {U : UnicodeTables}.
Implicit Types (log l : list (event kube_op)) (pod : KubePod).

(** The Pods a read answered: the page's of a list, or the one that was asked for. *)
Definition answered_pods (ev : event kube_op) : list KubePod :=
  match ev with
  | Ev op x =>
      match op in kube_op X return X -> list KubePod with
      | AListPodPage _ _ _ _ _ => fun r => match r with Ok page => pg_Items page | Err _ => [] end
      | AGetPod _ _ => fun r => match r with Ok pod => [pod] | Err _ => [] end
      | _ => fun _ => []
      end x
  end.
Definition pods_of log : list KubePod := flat_map answered_pods log.

Lemma pods_of_app log l : pods_of (log ++ l) = pods_of log ++ pods_of l.
Proof. apply flat_map_app. Qed.

(** [pods] are owned Pods in the order they were answered, up to the place where the
    search stopped; all of them when it was not cut. *)
Definition owned_so_far (owned : KubePod -> bool) (candidates pods : list KubePod) (truncated : bool) : Prop :=
  pods `prefix_of` List.filter owned candidates /\ (truncated = false -> pods = List.filter owned candidates).

Lemma takeOwned_prefix owned found items :
  let '(pods, over) := takeOwned owned found items in
  pods `prefix_of` found ++ List.filter owned items /\ (over = false -> pods = found ++ List.filter owned items).
Proof.
  revert found. induction items as [|pod items IH]; intros found; cbn [takeOwned List.filter].
  { rewrite app_nil_r. by split. }
  destruct (owned pod).
  - destruct (_ <? _)%nat.
    + split; [|done]. exists (List.filter owned items). by rewrite <- app_assoc.
    + specialize (IH (found ++ [pod])). by rewrite <- app_assoc in IH.
  - apply IH.
Qed.

Lemma listOwnedPodsFrom_ok direct ns selector owned pages token found log before :
  found = List.filter owned before ->
  wp log_env (fun _ => True) (listOwnedPodsFrom direct ns selector owned pages token found) log
    (fun r log' => exists l, log' = log ++ l /\
       forall pods truncated, r = Ok (pods, truncated) -> owned_so_far owned (before ++ pods_of l) pods truncated).
Proof.
  revert token found log before. induction pages as [|pages IH]; intros token found log before Hfound; cbn [listOwnedPodsFrom].
  { apply wp_ret; [done|]. exists []. split; [by rewrite app_nil_r|]. intros pods t [= <- <-]. unfold pods_of. cbn. rewrite app_nil_r.
    subst. by split. }
  unfold read_or. split; [done|]. intros got log' ->. destruct got as [page|e].
  2: { apply wp_ret; [done|]. eexists. by split. }
  pose proof (takeOwned_prefix owned found (pg_Items page)) as Htake. destruct (takeOwned owned found (pg_Items page)) as [found' over].
  set (ev := Ev (AListPodPage direct ns selector _ token) (Ok page)).
  assert (Hev : pods_of [ev] = pg_Items page) by (cbn; by rewrite app_nil_r).
  subst found. rewrite <- List.filter_app in Htake. destruct Htake as [Hpre Hall].
  assert (Hstop : forall truncated, (truncated = false -> over = false) ->
    wp log_env (fun _ => True) (Ret (Ok (found', truncated))) (log ++ [ev])
      (fun r log' => exists l, log' = log ++ l /\
         forall pods truncated, r = Ok (pods, truncated) -> owned_so_far owned (before ++ pods_of l) pods truncated)).
  { intros t Ht. apply wp_ret; [done|]. exists [ev]. split; [done|]. intros pods t' [= <- <-]. rewrite Hev. split; [done|]. auto. }
  destruct over; [by apply Hstop|]. destruct (_ == ""); [by apply Hstop|].
  eapply wp_mono; [|apply (IH _ _ _ (before ++ pg_Items page)); by apply Hall].
  intros r log'' _ (l & -> & Hl). exists ([ev] ++ l). split; [by rewrite <- app_assoc|]. intros pods t Hr.
  rewrite pods_of_app, Hev, app_assoc. by apply Hl.
Qed.

(** Which Pods belong to the target, by the objects a run read. *)
Inductive target_owner (req : QueryRequest) log : (KubePod -> bool) -> Prop :=
| owner_pod :
    normalizeKind (rr_Kind (qr_Target req)) = "pod" -> target_owner req log (fun _ => true)
| owner_controller kind w :
    mem_str kind ["StatefulSet"; "DaemonSet"; "ReplicaSet"] = true ->
    Ev (AGetWorkload kind (rr_Namespace (qr_Target req)) (rr_Name (qr_Target req))) (Ok w) ∈ log ->
    target_owner req log (fun pod =>
      hasControllerOwner (om_OwnerReferences (kp_Meta pod)) kind (om_Name (kw_Meta w)) (om_UID (kw_Meta w)))
| owner_deployment w direct selector limit page :
    Ev (AGetWorkload "Deployment" (rr_Namespace (qr_Target req)) (rr_Name (qr_Target req))) (Ok w) ∈ log ->
    Ev (AListReplicaSets direct (rr_Namespace (qr_Target req)) selector limit) (Ok page) ∈ log ->
    target_owner req log (ownedByReplicaSets (map om_UID (List.filter (fun m =>
      hasControllerOwner (om_OwnerReferences m) "Deployment" (om_Name (kw_Meta w)) (om_UID (kw_Meta w))) (pg_Items page)))).

Lemma target_owner_app req log l owned : target_owner req log owned -> target_owner req (log ++ l) owned.
Proof.
  intros []; [by apply owner_pod| |]; econstructor; try done; apply elem_of_app; by left.
Qed.

(** What the search for the target's Pods gives. *)
Definition found_pods req (r : result (list KubePod * bool)) log : Prop :=
  forall pods truncated, r = Ok (pods, truncated) ->
    exists owned, target_owner req log owned /\ owned_so_far owned (pods_of log) pods truncated.

Lemma listOwnedPods_found req direct ns selector owned log :
  target_owner req log owned -> pods_of log = [] ->
  wp log_env (fun _ => True) (listOwnedPods direct ns selector owned) log (found_pods req).
Proof.
  intros Ho Hp. eapply wp_mono; [|apply (listOwnedPodsFrom_ok _ _ _ _ _ _ _ _ []); done]. intros r log' _ (l & -> & Hl) p t Hr.
  exists owned. split; [by apply target_owner_app|]. rewrite pods_of_app, Hp. by apply Hl.
Qed.

(** A search may only be called cut more often. *)
Lemma found_or req (p : kube_prog (result (list KubePod * bool))) log (more : bool) :
  wp log_env (fun _ => True) p log (found_pods req) ->
  wp log_env (fun _ => True) (rbind_prog p (fun '(pods, truncated) => Ret (Ok (pods, truncated || more)))) log (found_pods req).
Proof.
  intros Hp. unfold rbind_prog. apply wp_bind. eapply wp_mono; [|exact Hp]. intros r log' _ Hr.
  destruct r as [[pods truncated]|e]; [|by apply wp_ret]. apply wp_ret; [done|]. intros p' t [= <- <-].
  destruct (Hr _ _ eq_refl) as (owned & Ho & Hpre & Hall). exists owned. split; [done|]. split; [done|].
  intros [Ht _]%orb_false_iff. by apply Hall.
Qed.

Lemma selectedWorkload_found kind req k log :
  (forall w labels, wp log_env (fun _ => True) (k w labels)
     (log ++ [Ev (AGetWorkload kind (rr_Namespace (qr_Target req)) (rr_Name (qr_Target req))) (Ok w)]) (found_pods req)) ->
  wp log_env (fun _ => True) (selectedWorkload kind req k) log (found_pods req).
Proof.
  intros Hk. unfold selectedWorkload, read_or. split; [done|]. intros got log' ->. destruct got as [w|e]; [|by apply wp_ret].
  destruct (kw_MatchLabels w) as [labels|]; [|by apply wp_ret]. case_bool_decide; [by apply wp_ret|]. apply Hk.
Qed.

Lemma targetPods_found readers req : wp log_env (fun _ => True) (targetPods readers req) [] (found_pods req).
Proof.
  unfold targetPods.
  assert (Hdirect : forall kind, mem_str kind ["StatefulSet"; "DaemonSet"; "ReplicaSet"] = true ->
    wp log_env (fun _ => True) (directlyOwnedPods readers kind req) [] (found_pods req)).
  { intros kind Hkind. apply selectedWorkload_found. intros w labels. apply listOwnedPods_found; [|done].
    eapply (owner_controller _ _ kind w); [done|apply snoc_elem]. }
  destruct (_ == "pod") eqn:Hpod.
  { unfold read_or. split; [done|]. intros got log' ->. destruct got as [pod|e]; [|by apply wp_ret]. apply wp_ret; [done|].
    intros p t [= <- <-]. exists (fun _ => true). split; [by apply owner_pod, String.eqb_eq|]. by split. }
  destruct (_ == "deployment"); [|repeat case_match; try (by apply Hdirect); by apply wp_ret].
  apply selectedWorkload_found. intros w labels. unfold read_or. split; [done|]. intros got log' ->.
  destruct got as [page|e]; [|by apply wp_ret].
  apply found_or, listOwnedPods_found; [|done]. eapply owner_deployment; [|apply snoc_elem]. apply elem_of_app. left. apply snoc_elem.
Qed.
End Terminations.

Section TerminationQuery.
Context {U : UnicodeTables}.

Lemma podTerminationRecords_bounded pod : (length (podTerminationRecords pod) <= maxTerminationContainers)%nat.
Proof.
  unfold podTerminationRecords. rewrite length_map. etrans; [apply filter_length_le|]. rewrite length_take. lia.
Qed.

Lemma flat_map_bounded {A B} (f : A -> list B) (n : nat) (l : list A) :
  (forall x, length (f x) <= n)%nat -> (length (flat_map f l) <= n * length l)%nat.
Proof.
  intros Hf. induction l as [|x l IH]; simpl; [lia|]. rewrite length_app. specialize (Hf x). lia.
Qed.

(** The statuses of a Pod that are looked at: ten of them at most, first by name. *)
Definition first_by_name (n : nat) (all shown : list ContainerStatus) : Prop :=
  exists rest, all ≡ₚ shown ++ rest /\ length shown = Nat.min n (length all) /\
    forall a b, a ∈ shown -> b ∈ rest -> str_ltb (cst_Name b) (cst_Name a) = false.

Definition looked_at (pod : KubePod) : list ContainerStatus :=
  take maxTerminationContainers (sort_stable (fun a b => str_ltb (cst_Name a) (cst_Name b)) (kp_Statuses pod)).

Lemma looked_at_first pod : first_by_name maxTerminationContainers (kp_Statuses pod) (looked_at pod).
Proof.
  unfold looked_at. set (less := fun a b => _).
  assert (HW : StrictWeak less) by apply (strict_weak_key cst_Name str_ltb).
  exists (drop maxTerminationContainers (sort_stable less (kp_Statuses pod))). split_and!.
  - rewrite take_drop. symmetry. apply sort_stable_perm.
  - by rewrite length_take, sort_stable_length.
  - intros a b Ha Hb. pose proof (sort_stable_sorted less (kp_Statuses pod)) as Hs.
    rewrite <- (take_drop maxTerminationContainers (sort_stable less (kp_Statuses pod))) in Hs.
    exact (StronglySorted_app_1_elem_of _ _ _ a b Hs Ha Hb).
Qed.

Lemma podTerminationRecords_shown pod :
  podTerminationRecords pod = map (terminationRecord pod) (List.filter reported (looked_at pod)).
Proof. done. Qed.

End TerminationQuery.

(** ** Concrete runs *)

Section Examples.
#[local] Existing Instance plain_tables.

Definition ka_request (queryType kind : string) (maxRecords : Z) : QueryRequest :=
  mkQueryRequest "" 0 0 0 {["app" := "web"]} (mkResourceRef "" "prod" kind "web" "apps/v1" "") queryType []
    (mkQueryResultLimits 0 0 0 0 0 maxRecords) (mkDataClassification "" [] "" "").
Definition ka_meta (name uid : string) (owners : list OwnerReference) : ObjectMeta :=
  mkObjectMeta name "prod" uid "1" 1 {["app" := "web"]} ∅ owners.
Definition ka_container (ports : list Z) (probe : IntOrString) : Container :=
  mkContainer "app" (map (mkContainerPort "http") ports) (Some (mkProbe (Some (mkHTTPGetAction "/ready" "HTTP" probe)))) None.
Definition ka_workload (ports : list Z) (probe : IntOrString) : KubeWorkload :=
  mkKubeWorkload (ka_meta "web" "d1" []) (Some {["app" := "web"]}) [ka_container ports probe] [] None 0 0 0 0 0 None 0.
Definition ka_controller (kind name uid : string) : OwnerReference := mkOwnerReference kind name uid (Some true).
Definition ka_pod (name uid owner : string) (waiting : option string) : KubePod :=
  mkKubePod (ka_meta name uid [ka_controller "ReplicaSet" "web-1" owner]) []
    [mkContainerStatus "app" 3 waiting (Some (mkTerminated "OOMKilled" 137 9 0))].
Definition ka_event (name involved reason : string) (at_ : time) : KubeEvent :=
  mkKubeEvent (ka_meta name name []) 0 reason "text" "Warning" "Pod" involved "u" at_ 0 0 1 "kubelet" "n1" "" "".

(** A cluster with one Deployment, a ReplicaSet of it and one of a namesake, three
    Pods on two pages, two events. *)
Record ka_cluster := mkKaCluster { kac_workload : KubeWorkload; kac_events : list KubeEvent; kac_service : option KubeService }.
Definition ka_answer (c : ka_cluster) X (op : kube_op X) : X :=
  match op in kube_op Y return Y with
  | AGetWorkload _ _ _ => Ok (kac_workload c)
  | AGetPod _ _ => Err (mkError ErrNotFound "no pod")
  | AGetService _ _ => match kac_service c with Some s => Ok s | None => Err (mkError ErrNotFound "no service") end
  | AListServices _ => Ok []
  | AListEvents _ => Ok (kac_events c)
  | AListPods _ => Ok [ka_pod "web-1-x" "p1" "r1" None]
  | AListReplicaSets _ _ _ _ =>
      Ok (mkPage [ka_meta "web-1" "r1" [ka_controller "Deployment" "web" "d1"];
                  ka_meta "web-0" "r0" [ka_controller "Deployment" "web" "d0"]] "")
  | AListPodPage _ _ _ _ token =>
      if token == "" then Ok (mkPage [ka_pod "web-1-x" "p1" "r1" None; ka_pod "web-0-y" "p0" "r0" None] "next")
      else Ok (mkPage [ka_pod "web-1-z" "p2" "r1" (Some "CrashLoopBackOff")] "")
  end.
Definition ka_handler (c : ka_cluster) (log : list (event kube_op)) X (op : kube_op X) : option (X * list (event kube_op)) :=
  Some (ka_answer c X op, log ++ [Ev op (ka_answer c X op)]).

Lemma ka_handler_logs c log X op x log' : ka_handler c log X op = Some (x, log') -> log_env log X op x log'.
Proof. by intros [= <- <-]. Qed.

Definition ka_readers : KubernetesReaders := mkKubernetesReaders true true.
Definition ka_run {A} (c : ka_cluster) (p : kube_prog A) : option A * list (event kube_op) := run (ka_handler c) p [].
Definition plain_cluster : ka_cluster := mkKaCluster (ka_workload [8080] (IntPort 9090)) [] None.

Definition field_texts (key : string) (r : option (result QueryResult)) : list (option any_value) :=
  match r with Some (Ok r) => map (fun x : record => x !! key) (qs_Records r) | _ => [] end.

(** Only the Pods of the Deployment's own ReplicaSet, the crash loop first. *)
Example terminations :
  field_texts "podName" (ka_run plain_cluster (kubernetesQuery ka_readers (ka_request QueryTypeContainerTermination "Deployment" 0))).1
  = map (fun s => Some (AnyString s)) ["web-1-z"; "web-1-x"].
Proof. vm_compute. reflexivity. Qed.

(** A numeric probe port of a container that declares no port is a confirmed mismatch;
    a numeric target port of a workload that declares none is not. *)
Example undeclared_ports :
  let c := mkKaCluster (ka_workload [] (IntPort 9090)) []
             (Some (mkKubeService (ka_meta "web" "s1" []) ∅ [mkServicePort "http" 80 (IntPort 9090)])) in
  field_texts "mismatchConfirmed" (ka_run c (kubernetesQuery ka_readers (ka_request QueryTypeProbeConfiguration "Deployment" 0))).1
  = [Some (AnyBool true)] /\
  field_texts "mismatchConfirmed" (ka_run c (kubernetesQuery ka_readers (ka_request QueryTypeServiceConfiguration "Deployment" 0))).1
  = [Some (AnyBool false)].
Proof. split; vm_compute; reflexivity. Qed.

(** Half a second later comes first: the fraction sorts before the Z it replaces. *)
Example events_out_of_order :
  let c := mkKaCluster (ka_workload [] (IntPort 0))
             [ka_event "first" "web-1-x" "BackOff" minute; ka_event "second" "web-1-x" "BackOff" (minute + 500000000)] None in
  field_texts "eventName" (ka_run c (kubernetesQuery ka_readers (ka_request QueryTypeEvent "Deployment" 0))).1
  = map (fun s => Some (AnyString s)) ["second"; "first"].
Proof. vm_compute. reflexivity. Qed.

Definition two_events : ka_cluster :=
  mkKaCluster (ka_workload [] (IntPort 0)) [ka_event "a" "web-1-x" "BackOff" minute; ka_event "b" "other" "BackOff" minute] None.

(** A complete run that satisfies a test of its result. *)
Lemma ka_run_ok c (p : kube_prog (result QueryResult)) (test : QueryResult -> bool) :
  match (ka_run c p).1 with Some (Ok r) => test r | _ => false end = true ->
  exists result, logged p (Some (Ok result)) (ka_run c p).2 /\ test result = true.
Proof.
  intros Hok. pose proof (run_exec _ log_env p [] (ka_handler_logs c)) as H. unfold ka_run in *.
  destruct (run _ p []) as [[[r|]|] log]; try done. by exists r.
Qed.

Lemma event_query_exact_witness :
  exists result log, logged (queryEvents (ka_request QueryTypeEvent "Deployment" 1)) (Some (Ok result)) log /\
    exists matched : list KubeEvent, qs_Records result = map eventRecord (take 1 matched).
Proof.
  destruct (ka_run_ok two_events (queryEvents (ka_request QueryTypeEvent "Deployment" 1))
              (fun r => negb (qs_Truncated r))) as (result & Hl & _); [vm_compute; reflexivity|].
  eexists result, _. split; [exact Hl|].
  destruct (event_query_exact _ _ _ Hl) as (events & names & matched & _ & _ & _ & _ & Hr & _). by exists matched.
Defined.

End Examples.
