(* ===== verification/EvidenceCollection.v ===== *)
(** * Evidence of an investigation (internal/investigation/service.go, scheduling.go)

    [Service.CollectEvidence]: the answers of the collection pool are normalized
    and numbered, one shared scheduling collection is adapted, snapshots are
    stored when the retention policy asks for them, and the diagnostics run on
    the result.  The two shadow-mode results are in ShadowVerification. *)

From Stdlib Require Import ZArith Lia.
From stdpp Require Import base list strings gmap.
From S2P Require Import Prelude GoStrings Utf8 GoParse Api InvestigationApi Digest Prog DataClassification Scope Observation Diagnostic Egress Gateway StatusBudget InvestigationSpec Datasource Preflight Redactor InvestigationVerdict Collection Normalize.

(** ** Scheduling records (internal/investigation/scheduling.go) *)

Record SchedulingPodRef := mkSchedulingPodRef { sp_Namespace : string; sp_Name : string; sp_UID : string }.

Record SchedulingEvidenceLimits := mkSchedulingEvidenceLimits {
  slm_MaxPods : Z;
  slm_MaxEvents : Z;
  slm_MaxPages : Z;
  slm_MaxAPIRequests : Z
}.

Record SchedulingEvidenceRequest := mkSchedulingEvidenceRequest {
  sreq_Namespace : string;
  sreq_Pods : list SchedulingPodRef;
  sreq_StartTime : time;
  sreq_EndTime : time;
  sreq_Limits : SchedulingEvidenceLimits
}.

Definition noRequirements : SchedulingResourceRequirements := mkSchedulingResourceRequirements ∅ ∅.

Section Scheduling.
Context {U : UnicodeTables}.

Definition schedulingStateFieldsPresent (r : SchedulingEvidence) : bool :=
  (trim_space (se_Phase r) != "") || (trim_space (se_NodeName r) != "") || (trim_space (se_PodScheduledStatus r) != "")
  || (trim_space (se_PodScheduledReason r) != "") || (trim_space (se_PodScheduledMessage r) != "")
  || negb (bool_decide (se_SchedulingGates r = [])).

Definition schedulingCollectedAt (t : time) : option time := if is_zero_time t then None else Some t.

Definition podTarget (r : SchedulingEvidence) : list TargetRef :=
  [mkTargetRef "" (se_Namespace r) "Pod" (se_Name r) "v1" ""].

Definition schedulingRef (id kind source summary reason : string) (truncated : bool) (truncationReason : string)
    (collectedAt : time) (targets : list TargetRef) : EvidenceRef :=
  mkEvidenceRef id kind source summary "" "" "" "" "" "" None truncated truncationReason "" 0 0 0 0 0
    (schedulingCollectedAt collectedAt) None reason "" targets.

Definition schedulingEvidenceRef (r : SchedulingEvidence) (o : SchedulingObservation) : EvidenceRef :=
  let summary :=
    if negb (so_StateCollected o) && (trim_space (se_CoverageReason r) != "")
    then "Scheduling evidence for Pod " +:+ se_Namespace r +:+ "/" +:+ se_Name r +:+ " UID " +:+ se_PodUID r
         +:+ " is incomplete: " +:+ se_CoverageReason r
    else "Pod " +:+ se_Namespace r +:+ "/" +:+ se_Name r +:+ " UID " +:+ se_PodUID r +:+ " scheduling state: phase="
         +:+ se_Phase r +:+ " nodeName=" +:+ se_NodeName r +:+ " podScheduled=" +:+ se_PodScheduledStatus r
         +:+ " coverage=" +:+ so_Coverage o in
  schedulingRef (so_ID o) "scheduling" (firstNonEmpty [se_Source r; "kubernetes/pod"]) (RedactText summary)
    (RedactText (se_CoverageReason r)) (so_Truncated o) (se_CoverageReason r) (se_CollectedAt r) (podTarget r).

Definition schedulingEventRef (r : SchedulingEvidence) (e : SchedulingEvent) (o : SchedulingObservation) : EvidenceRef :=
  let collectedAt :=
    if negb (is_zero_time (sev_LastObservedAt e)) then sev_LastObservedAt e
    else if negb (is_zero_time (sev_ObservedAt e)) then sev_ObservedAt e
    else se_CollectedAt r in
  schedulingRef (sev_ID e) "event" (firstNonEmpty [sev_Source e; se_Source r; "kubernetes-events"])
    (RedactText (sev_Message e)) (RedactText (sev_Reason e)) (so_Truncated o) (se_CoverageReason r) collectedAt
    (podTarget r).

Definition failedScheduling (e : SchedulingEvent) : bool := equal_fold (trim_space (sev_Reason e)) "FailedScheduling".
Definition eventFirst (a b : SchedulingEvent) : bool :=
  if xorb (failedScheduling a) (failedScheduling b) then failedScheduling a else str_ltb (sev_ID a) (sev_ID b).
Definition selectSchedulingEvent (events : list SchedulingEvent) : option SchedulingEvent :=
  head (sort_stable eventFirst events).

Definition uniqueSortedStrings (values : list string) : list string :=
  sorted_set (List.filter (fun v => v != "") (map trim_space values)).

(** The first reference of each identifier. *)
Fixpoint dedup_refs (seen : list string) (refs : list EvidenceRef) : list EvidenceRef :=
  match refs with
  | [] => []
  | ref :: more =>
      if (er_ID ref == "") || mem_str (er_ID ref) seen then dedup_refs seen more
      else ref :: dedup_refs (er_ID ref :: seen) more
  end.
Definition deduplicateEvidenceRefs : list EvidenceRef -> list EvidenceRef := dedup_refs [].

Definition recordCoverage (r : SchedulingEvidence) : string :=
  if se_Coverage r == "" then SchedulingCoverageUnavailable else se_Coverage r.

(** An event of the record's own Pod that is not stale. *)
Definition currentEvent (r : SchedulingEvidence) (e : SchedulingEvent) : bool :=
  negb (sev_Stale e || (sev_PodUID e != "") && (sev_PodUID e != se_PodUID r)).

(** The observation of a record and its references; [None]: the record is skipped. *)
Definition adaptRecord (r : SchedulingEvidence) : option (SchedulingObservation * list EvidenceRef) :=
  let coverage := recordCoverage r in
  if (trim_space (se_PodUID r) == "") || (coverage == SchedulingCoverageUnauthorized) then None
  else
    let events := List.filter (currentEvent r) (se_Events r) in
    let selected f := match selectSchedulingEvent events with Some e => f e | None => "" end in
    let id := trim_space (se_ID r) in
    let o := mkSchedulingObservation id (trim_space (se_PodUID r)) (trim_space (se_Namespace r))
      (trim_space (se_Name r)) (trim_space (se_Source r)) (selected sev_PodUID) (se_Phase r) (se_NodeName r)
      (se_PodScheduledStatus r) (se_PodScheduledReason r) (se_PodScheduledMessage r) (se_SchedulingGates r)
      (selected sev_Reason) (selected sev_Message)
      (uniqueSortedStrings (id :: map sev_ID events))
      (se_CollectedAt r) (se_IncidentStart r) (se_IncidentEnd r) coverage (se_CoverageReason r)
      ((coverage == SchedulingCoverageComplete) || schedulingStateFieldsPresent r)
      (se_Truncated r || (coverage == SchedulingCoverageTruncated))
      (se_Stale r || (coverage == SchedulingCoverageStale)) in
    Some (o, (if id == "" then [] else [schedulingEvidenceRef r o])
             ++ map (fun e => schedulingEventRef r e o) (List.filter (fun e => sev_ID e != "") events)).

Definition observationFirst (a b : SchedulingObservation) : bool :=
  if so_PodUID a != so_PodUID b then str_ltb (so_PodUID a) (so_PodUID b) else str_ltb (so_ID a) (so_ID b).
Definition refFirst (a b : EvidenceRef) : bool := str_ltb (er_ID a) (er_ID b).

Definition adaptSchedulingEvidence (records : list SchedulingEvidence) : list SchedulingObservation * list EvidenceRef :=
  let adapted := omap adaptRecord records in
  (sort_stable observationFirst (map fst adapted),
   deduplicateEvidenceRefs (sort_stable refFirst (flat_map snd adapted))).

(** ** The shared scheduling collection *)

Definition schedulingBudgetExhaustionEvidence (pods : list SchedulingPodRef) (now : time) (window : duration)
    : list SchedulingEvidence :=
  omap (fun pod =>
    let uid := trim_space (sp_UID pod) in
    if uid == "" then None
    else Some (mkSchedulingEvidence ("scheduling/budget/" +:+ uid) uid (sp_Namespace pod) (sp_Name pod)
                 "fluxseer/investigation" "" "" "" "" "" [] noRequirements [] [] [] ∅ [] [] [] []
                 SchedulingCoverageTruncated "InvestigationQueryBudgetExhausted" (time_add now (wrap64 (- window))) now
                 now true false)) pods.

Definition schedulingCollectionWithinBudget (budget : InvestigationQueryBudget) (plan : list CollectionStep)
    (sourceName : string) : bool :=
  if over (qb_MaxQueriesTotal budget) (wrap32 (Z.of_nat (length plan) + 1)) then false
  else if qb_MaxQueriesPerSource budget <=? 0 then true
  else wrap32 (countForSource sourceName plan + 1) <=? qb_MaxQueriesPerSource budget.
End Scheduling.

(** ** Snapshots (internal/evidence/store.go) *)

Record NormalizedSnapshot := mkNormalizedSnapshot {
  ns_Policy : EvidenceRetentionPolicy;
  ns_Observation : Observation;
  ns_CreatedAt : time;
  ns_ExpiresAt : option time
}.

Definition NormalizedSnapshotExpiry (now : time) (policy : EvidenceRetentionPolicy) : option time :=
  if rp_Retention policy <=? 0 then None else Some (time_add now (rp_Retention policy)).

(** ** The operations of [CollectEvidence]

    [ECollect] is the pool of Collection, [EGetPod] reads the metadata of a Pod,
    [EResolveDeployment] is the scope resolver, and [EScheduling] asks the
    source for scheduling evidence. *)
Inductive evidence_op : Type -> Type :=
| ECollect (preflight : PreflightResult) (now : time) (window : duration) : evidence_op (list collectedQuery + Issue)
| EGetPod (namespace name : string) : evidence_op (result ObjectMeta)
| EResolveDeployment (namespace name : string) : evidence_op (ScopeResult * option error)
| EScheduling (source : DataSource) (request : SchedulingEvidenceRequest)
    : evidence_op (list SchedulingEvidence * option error)
| EStore (snapshot : NormalizedSnapshot) : evidence_op (result PayloadRef).

(** What of the Service is configured: its client, registry, scope resolver,
    diagnostics and the name of its snapshot store. *)
Record EvidenceConfig := mkEvidenceConfig {
  ev_Client : bool;
  ev_Registry : option (gmap string DataSource);
  ev_ScopeResolver : bool;
  ev_Planner : option (list Diagnostic);
  ev_Store : option string
}.

Section CollectEvidence.
Context {U : UnicodeTables} {D : DigestPrims} {V : ValueText}.
Context (cfg : EvidenceConfig).

Definition eprog : Type -> Type := prog evidence_op.

Definition targetIs (preflight : PreflightResult) (kind : string) : bool :=
  equal_fold (trim_space (rr_Kind (pf_Target preflight))) kind.

Definition podRefLess (a b : SchedulingPodRef) : bool :=
  if sp_Namespace a != sp_Namespace b then str_ltb (sp_Namespace a) (sp_Namespace b)
  else str_ltb (sp_Name a) (sp_Name b).
Definition scopePodRef (p : ScopeRef) : option SchedulingPodRef :=
  if sref_UID p == "" then None else Some (mkSchedulingPodRef (sref_Namespace p) (sref_Name p) (sref_UID p)).

(** [None] is [false]: no Pods were resolved. *)
Definition resolveSchedulingPodRefs (preflight : PreflightResult) : eprog (option (list SchedulingPodRef)) :=
  let target := pf_Target preflight in
  if negb (ev_Client cfg) then Ret None
  else if targetIs preflight "Pod" then
    got <~! EGetPod (rr_Namespace target) (rr_Name target);
    Ret (match got with
         | Err _ => None
         | Ok m => if om_UID m == "" then None
                   else Some [mkSchedulingPodRef (om_Namespace m) (om_Name m) (om_UID m)]
         end)
  else if negb (targetIs preflight "Deployment") || negb (ev_ScopeResolver cfg) then Ret None
  else
    '(resolved, err) <~! EResolveDeployment (rr_Namespace target) (rr_Name target);
    Ret (if bool_decide (err <> None) && bool_decide (sr_Pods resolved = []) then None
         else Some (sort_stable podRefLess (omap scopePodRef (sr_Pods resolved)))).

(** The sources that may collect: those of the plan when no names were planned. *)
Definition schedulingSources (preflight : PreflightResult) : list string :=
  match pf_DatasourceNames preflight with
  | [] => dedup_first (List.filter (fun n => n != "") (map cs_DatasourceName (pf_CollectionPlan preflight)))
  | names => names
  end.

(** The first registered source whose type has the collecting method. *)
Definition schedulingSource (sources : gmap string DataSource) (names : list string) : option (string * DataSource) :=
  find_first (fun name => match sources !! name with
                          | Some source => if ds_SchedulingCollector source then Some (name, source) else None
                          | None => None
                          end) names.

Definition schedulingAnswer : Type := list SchedulingEvidence * list SchedulingObservation * list EvidenceRef.
Definition adapted (records : list SchedulingEvidence) : schedulingAnswer :=
  (records, (adaptSchedulingEvidence records).1, (adaptSchedulingEvidence records).2).

Definition collectSchedulingEvidence (spec : InvestigationRequestSpec) (preflight : PreflightResult) (now : time)
    (window : duration) : eprog schedulingAnswer :=
  match ev_Registry cfg with
  | None => Ret ([], [], [])
  | Some sources =>
      resolved <~ resolveSchedulingPodRefs preflight;
      match resolved with
      | None | Some [] => Ret ([], [], [])
      | Some pods =>
          match schedulingSource sources (schedulingSources preflight) with
          | None => Ret ([], [], [])
          | Some (name, source) =>
              if negb (schedulingCollectionWithinBudget (irs_QueryBudget spec) (pf_CollectionPlan preflight) name)
              then Ret (adapted (schedulingBudgetExhaustionEvidence pods now window))
              else
                '(records, err) <~! EScheduling source
                  (mkSchedulingEvidenceRequest (rr_Namespace (pf_Target preflight)) pods
                     (time_add now (wrap64 (- window))) now
                     (mkSchedulingEvidenceLimits (Z.of_nat (length pods))
                        (ql_EventsMaxRecords (qb_ResultLimits (irs_QueryBudget spec))) 10 64));
                Ret (adapted records)
          end
      end
  end.

(** ** Normalizing what the pool collected *)

(** The observations and references so far, and the number of records kept. *)
Definition normalizeCollected (spec : InvestigationRequestSpec) (now : time)
    (acc : list Observation * list EvidenceRef * Z) (q : collectedQuery) : list Observation * list EvidenceRef * Z :=
  let '(observations, refs, total) := acc in
  match cq_result q with
  | None => acc
  | Some result =>
      let limited := applyQueryResultLimits result (cs_QueryType (cq_step q)) (qb_ResultLimits (irs_QueryBudget spec)) in
      let filtered := filterQueryResult limited (cq_step q) in
      let normalized := normalizeObservations filtered (cq_request q) (length observations) now in
      (observations ++ normalized,
       refs ++ evidenceRefsFromObservations normalized (cq_request q) (irs_QueryRetention spec),
       total + Z.of_nat (length (qs_Records filtered)))
  end.
Definition normalizeAll (spec : InvestigationRequestSpec) (now : time) (collected : list collectedQuery)
    : list Observation * list EvidenceRef * Z :=
  fold_left (normalizeCollected spec now) collected ([], [], 0).

(** ** Retention *)

Definition with_payload (r : EvidenceRef) (p : PayloadRef) : EvidenceRef :=
  mkEvidenceRef (er_ID r) (er_Kind r) (er_Source r) (er_Summary r) (er_Query r) (er_QueryDigest r)
    (er_ContentDigest r) (er_DigestAlgorithm r) (er_DigestCanonicalization r) (er_RedactionProfile r)
    (er_Classification r) (er_Truncated r) (er_TruncationReason r) (er_LimitDimension r) (er_Limit r)
    (er_OriginalCount r) (er_RetainedCount r) (er_OriginalBytes r) (er_RetainedBytes r) (er_CollectedAt r)
    (Some p) (er_Reason r) (er_Link r) (er_RelatedTargets r).

(** The loop over the observations, beside the references; an error keeps what
    has been stored so far. *)
Fixpoint storeSnapshots (policy : EvidenceRetentionPolicy) (now : time) (observations : list Observation)
    (refs : list EvidenceRef) : eprog (list EvidenceRef * option Issue) :=
  match observations, refs with
  | o :: observations', r :: refs' =>
      stored <~! EStore (mkNormalizedSnapshot policy o now (NormalizedSnapshotExpiry now policy));
      match stored with
      | Err e =>
          Ret (refs, Some (plainIssue "EvidenceRetentionWriteFailed"
                             ("failed to store normalized evidence snapshot: " +:+ err_msg e)))
      | Ok payload =>
          '(rest, issue) <~ storeSnapshots policy now observations' refs';
          Ret (with_payload r payload :: rest, issue)
      end
  | _, _ => Ret (refs, None)
  end.

Definition applyEvidenceRetention (policy : EvidenceRetentionPolicy) (observations : list Observation)
    (refs : list EvidenceRef) (now : time) : eprog (list EvidenceRef * option Issue) :=
  let mode := trim_space (rp_Mode policy) in
  let refuse reason message := Ret (refs, Some (plainIssue reason message)) in
  if (mode == "") || (mode == EvidenceRetentionModeMetadataOnly) then Ret (refs, None)
  else if mode != EvidenceRetentionModeNormalizedSnapshot then
    refuse "EvidenceRetentionUnsupported" ("evidence retention mode " +:+ quote mode +:+ " is not supported")
  else
    match ev_Store cfg with
    | None =>
        refuse "EvidenceRetentionStoreUnavailable"
          "evidenceRetention.mode=NormalizedSnapshot requires a configured evidence snapshot store"
    | Some storeName =>
        let storageName := trim_space (rp_StorageRef policy) in
        if (storageName != "") && (storageName != storeName) then
          refuse "EvidenceRetentionStoreUnavailable"
            ("evidence retention storageRef " +:+ quote storageName +:+ " does not match configured store " +:+ quote storeName)
        else storeSnapshots policy now observations refs
    end.

(** ** Diagnostics *)

Definition zeroScope : ScopeResult := mkScopeResult zeroScopeRef [] [] [] false.

Definition diagnosticScope (preflight : PreflightResult) : eprog ScopeResult :=
  if ev_ScopeResolver cfg && targetIs preflight "Deployment" then
    '(resolved, _) <~! EResolveDeployment (rr_Namespace (pf_Target preflight)) (rr_Name (pf_Target preflight));
    Ret resolved
  else if targetIs preflight "Pod" then
    resolved <~ resolveSchedulingPodRefs preflight;
    Ret (match resolved with
         | Some [pod] =>
             if trim_space (sp_UID pod) != ""
             then mkScopeResult zeroScopeRef [] [mkScopeRef "v1" "Pod" (sp_Namespace pod) (sp_Name pod) (sp_UID pod)] [] true
             else zeroScope
         | _ => zeroScope
         end)
  else Ret zeroScope.

Definition evaluateDiagnostics (preflight : PreflightResult) (observations : list Observation)
    (refs : list EvidenceRef) (scheduling : list SchedulingObservation) : eprog (list DiagnosticResult) :=
  match ev_Planner cfg with
  | None => Ret []
  | Some planner =>
      resolved <~ diagnosticScope preflight;
      Ret (plannerEvaluate (Some planner) (mkEvidenceSet observations refs scheduling resolved 0 0))
  end.

(** ** [Service.CollectEvidence] *)

Definition issueResult (observations : list Observation) (refs : list EvidenceRef) (records : list SchedulingEvidence)
    (scheduling : list SchedulingObservation) (issue : option Issue) : EvidenceCollectionResult :=
  mkEvidenceCollectionResult "" refs observations records scheduling [] issue.

Definition CollectEvidence (spec : InvestigationRequestSpec) (preflight : PreflightResult) (now : time)
    : eprog EvidenceCollectionResult :=
  if negb (Successful preflight) then Ret (issueResult [] [] [] [] (FirstIssue preflight))
  else if bool_decide (ev_Registry cfg = None) then
    Ret (issueResult [] [] [] [] (Some (plainIssue "DatasourceRegistryUnavailable" "datasource registry is not configured")))
  else
    let window := effectiveInvestigationLookback spec in
    collected <~! ECollect preflight now window;
    match collected with
    | inr issue => Ret (issueResult [] [] [] [] (Some issue))
    | inl collected =>
        let '(observations, refs, total) := normalizeAll spec now collected in
        '(records, scheduling, schedulingRefs) <~ collectSchedulingEvidence spec preflight now window;
        let some := negb (bool_decide (records = [])) || negb (bool_decide (scheduling = [])) in
        let records := if some then records else [] in
        let scheduling := if some then scheduling else [] in
        let refs := if some then refs ++ schedulingRefs else refs in
        '(refs, issue) <~ applyEvidenceRetention (irs_EvidenceRetention spec) observations refs now;
        match issue with
        | Some issue => Ret (issueResult observations refs records scheduling (Some issue))
        | None =>
            diagnostics <~ evaluateDiagnostics preflight observations refs scheduling;
            Ret (mkEvidenceCollectionResult
                   ("collected " +:+ itoa (total + Z.of_nat (length records)) +:+ " evidence records from "
                    +:+ itoa (Z.of_nat (length (pf_CollectionPlan preflight))) +:+ " investigation queries")
                   refs observations records scheduling diagnostics None)
        end
    end.
End CollectEvidence.

(** ** Observations and their references *)

Section Numbered.
Context {U : UnicodeTables} {D : DigestPrims} {V : ValueText}.

Lemma digits_from_zeros n s : digits_from 0 (str_concat (replicate n "0") +:+ s) = digits_from 0 s.
Proof. induction n as [|n IH]; [done|]. simpl. exact IH. Qed.

Lemma pad_inj n a b : 0 <= a -> 0 <= b -> pad n a = pad n b -> a = b.
Proof.
  intros Ha Hb H. apply (f_equal (digits_from 0)) in H. unfold pad in H.
  rewrite !digits_from_zeros, !digits_from_itoa in H by done. congruence.
Qed.

Lemma evidenceID_inj (i j : nat) : observationID (Z.of_nat i + 1) = observationID (Z.of_nat j + 1) -> i = j.
Proof. unfold observationID. intros H%append_inj_l%pad_inj; lia. Qed.

(** An observation fit for the status: numbered, its summary within the budget, and
    its digest the one of its content. *)
Record observation_ok (number : nat) (o : Observation) : Prop := {
  oo_id : ob_ID o = observationID (Z.of_nat number + 1);
  oo_summary : str_len (ob_Summary o) <= MaxEvidenceSummaryBytes;
  oo_digest : forall value, observation_value_json (ob_Value o) = Some value ->
    ob_ContentDigest o = digestString ObservationJSONV1 (observation_payload o value)
}.

Lemma normalizeObservation_ok r result req index original retained truncated now :
  observation_ok index (normalizeObservation r result req index original retained truncated now).
Proof.
  unfold normalizeObservation, undigested. destruct (observationContent r result) as [[ty text] value].
  pose proof (cut_len text MaxEvidenceSummaryBytes ltac:(done)) as Hc. unfold cut in Hc.
  destruct (TruncateUTF8 text MaxEvidenceSummaryBytes) as [[[summary ob] rb] c]. simpl in Hc.
  constructor; simpl; [done|done|]. intros v Hv. unfold contentDigest. simpl. by rewrite Hv.
Qed.

Lemma normalizeObservations_ok result req offset now :
  (length (normalizeObservations result req offset now) <= maxEvidencePerDatasource)%nat /\
  forall i o, normalizeObservations result req offset now !! i = Some o -> observation_ok (offset + i) o.
Proof.
  unfold normalizeObservations. cbv zeta. destruct (qs_Records result) as [|r rs].
  - destruct (_ && _); simpl; (split; [unfold maxEvidencePerDatasource; lia|]); intros [|i] o; simpl; intros H; simplify_eq.
    rewrite Nat.add_0_r. apply normalizeObservation_ok.
  - split.
    + rewrite length_imap, length_take. lia.
    + intros i o. rewrite list_lookup_imap. intros (x & _ & ->)%fmap_Some_1. apply normalizeObservation_ok.
Qed.

(** A reference describes its observation. *)
Definition describes (o : Observation) (r : EvidenceRef) : Prop :=
  er_ID r = ob_ID o /\ er_Kind r = ob_Type o /\ er_Summary r = ob_Summary o /\
  er_ContentDigest r = ob_ContentDigest o /\ er_QueryDigest r = ob_QueryDigest o /\
  er_Classification r = ob_Classification o /\ er_PayloadRef r = None.

Definition numbered (observations : list Observation) : Prop :=
  forall i o, observations !! i = Some o -> observation_ok i o.

Lemma numbered_app l1 l2 : numbered l1 -> (forall i o, l2 !! i = Some o -> observation_ok (length l1 + i) o) ->
  numbered (l1 ++ l2).
Proof.
  intros H1 H2 i o. rewrite lookup_app. destruct (l1 !! i) as [o'|] eqn:E; [intros [= <-]; auto|].
  apply lookup_ge_None in E. intros H%H2. by replace (length l1 + (i - length l1))%nat with i in H by lia.
Qed.

Lemma numbered_NoDup l : numbered l -> NoDup (map ob_ID l).
Proof.
  intros H. apply NoDup_alt. intros i j id Hi Hj.
  change (map ob_ID l) with (ob_ID <$> l) in Hi, Hj. rewrite list_lookup_fmap in Hi, Hj.
  apply fmap_Some_1 in Hi as (o1 & Ho1 & ->). apply fmap_Some_1 in Hj as (o2 & Ho2 & He).
  rewrite (oo_id _ _ (H _ _ Ho1)), (oo_id _ _ (H _ _ Ho2)) in He. by apply evidenceID_inj in He.
Qed.

(** The records of an answer that are kept: within its limits, and those that its step
    looks for. *)
Definition kept_result (spec : InvestigationRequestSpec) (q : collectedQuery) (result : QueryResult) : QueryResult :=
  filterQueryResult (applyQueryResultLimits result (cs_QueryType (cq_step q)) (qb_ResultLimits (irs_QueryBudget spec)))
    (cq_step q).

(** What one query contributes: nothing without an answer; otherwise an observation for
    each of the first five kept records, or a single one for a truncated listing of
    container terminations without records; each says what was asked. *)
Definition block_of (spec : InvestigationRequestSpec) (q : collectedQuery) (block : list Observation) : Prop :=
  match cq_result q with
  | None => block = []
  | Some result =>
      let kept := kept_result spec q result in
      (length block = Nat.min 5 (length (qs_Records kept)) \/
       qs_Records kept = [] /\ qs_Truncated kept = true /\ qs_QueryType kept = QueryTypeContainerTermination /\
         length block = 1%nat) /\
      Forall (fun o => ob_Capability o = qr_QueryType (cq_request q) /\
        ob_QueryDigest o = digestString ObservationJSONV1
          (JObj [("capability", JStr (qr_QueryType (cq_request q))); ("query", JStr (qr_Query (cq_request q)))]) /\
        ob_TimeRange o = mkTimeRange (qr_StartTime (cq_request q)) (qr_EndTime (cq_request q))) block
  end.

Lemma normalizeObservation_asked r result req index original retained truncated now :
  let o := normalizeObservation r result req index original retained truncated now in
  ob_Capability o = qr_QueryType req /\
  ob_QueryDigest o = digestString ObservationJSONV1
    (JObj [("capability", JStr (qr_QueryType req)); ("query", JStr (qr_Query req))]) /\
  ob_TimeRange o = mkTimeRange (qr_StartTime req) (qr_EndTime req).
Proof.
  unfold normalizeObservation, undigested. destruct (observationContent r result) as [[ty text] value].
  by destruct (TruncateUTF8 text MaxEvidenceSummaryBytes) as [[[summary ob] rb] c].
Qed.

Lemma normalizeObservations_block spec now q result offset : cq_result q = Some result ->
  block_of spec q (normalizeObservations (kept_result spec q result) (cq_request q) offset now).
Proof.
  intros Hq. unfold block_of. rewrite Hq. set (kept := kept_result spec q result). cbv zeta.
  unfold normalizeObservations. destruct (qs_Records kept) as [|r rs] eqn:Hr; cbv zeta.
  - destruct (qs_Truncated kept && _) eqn:Ht; [|by split; [left|constructor]].
    apply andb_true_iff in Ht as [H1 H2%String.eqb_eq]. split; [by right|].
    repeat constructor; apply normalizeObservation_asked.
  - split; [left; rewrite length_imap, length_take; done|]. apply Forall_lookup. intros k o.
    rewrite list_lookup_imap. intros (x & _ & ->)%fmap_Some_1. apply normalizeObservation_asked.
Qed.

Lemma normalizeCollected_ok spec now collected obs refs total : numbered obs -> Forall2 describes obs refs ->
  let '(obs', refs', _) := fold_left (normalizeCollected spec now) collected (obs, refs, total) in
  numbered obs' /\ Forall2 describes obs' refs' /\
  exists blocks, obs' = obs ++ concat blocks /\ Forall2 (block_of spec) collected blocks.
Proof.
  revert obs refs total. induction collected as [|q l IH]; intros obs refs total Hn Hd; cbn [fold_left].
  { split_and!; [done..|]. exists []. cbn. by rewrite app_nil_r. }
  cbn [normalizeCollected]. destruct (cq_result q) as [result|] eqn:Hq.
  - fold (kept_result spec q result).
    pose proof (normalizeObservations_block spec now q result (length obs) Hq) as Hb.
    destruct (normalizeObservations_ok (kept_result spec q result) (cq_request q) (length obs) now) as [_ Hok].
    set (l' := normalizeObservations _ _ _ _) in *.
    specialize (IH (obs ++ l') (refs ++ evidenceRefsFromObservations l' (cq_request q) (irs_QueryRetention spec))
      (total + Z.of_nat (length (qs_Records (kept_result spec q result))))).
    destruct (fold_left _ _ _) as [[obs' refs'] t']. destruct IH as (Hn' & Hd' & blocks & -> & Hf).
    + by apply numbered_app.
    + apply Forall2_app; [done|]. unfold evidenceRefsFromObservations. apply Forall2_fmap_r, Forall_Forall2_diag.
      apply Forall_forall. intros o _. by repeat split.
    + split_and!; [done..|]. exists (l' :: blocks). split; [cbn; by rewrite <- app_assoc|by constructor].
  - specialize (IH obs refs total Hn Hd). destruct (fold_left _ _ _) as [[obs' refs'] t'].
    destruct IH as (Hn' & Hd' & blocks & -> & Hf). split_and!; [done..|]. exists ([] :: blocks). split; [done|].
    constructor; [|done]. unfold block_of. by rewrite Hq.
Qed.

End Numbered.

(** ** Scheduling evidence keeps to its Pod *)

Section Correlated.
Context {U : UnicodeTables}.

#[local] Instance eventFirst_weak : StrictWeak eventFirst.
Proof. apply (lex_flag failedScheduling), (strict_weak_key sev_ID str_ltb). Qed.

#[local] Instance observationFirst_weak : StrictWeak observationFirst.
Proof. apply (lex_str so_PodUID), (strict_weak_key so_ID str_ltb). Qed.

(** What an observation may take from a record: the Pod, the coverage, and one
    current event, a failed scheduling if there is one. *)
Definition drawn_from (r : SchedulingEvidence) (o : SchedulingObservation) : Prop :=
  trim_space (se_PodUID r) <> "" /\ recordCoverage r <> SchedulingCoverageUnauthorized /\
  so_PodUID o = trim_space (se_PodUID r) /\ so_Coverage o = recordCoverage r /\
  ((so_EventPodUID o = "" /\ so_EventReason o = "" /\ so_EventMessage o = "" /\
    forall e, e ∈ se_Events r -> currentEvent r e = false) \/
   exists e, e ∈ se_Events r /\ currentEvent r e = true /\
     so_EventPodUID o = sev_PodUID e /\ so_EventReason o = sev_Reason e /\ so_EventMessage o = sev_Message e /\
     ((exists f, f ∈ se_Events r /\ currentEvent r f = true /\ failedScheduling f = true) -> failedScheduling e = true)).

Lemma selected_event events :
  match selectSchedulingEvent events with
  | None => events = []
  | Some e => e ∈ events /\ ((exists f, f ∈ events /\ failedScheduling f = true) -> failedScheduling e = true)
  end.
Proof.
  unfold selectSchedulingEvent. destruct (sort_stable eventFirst events) as [|e l] eqn:E; simpl.
  - by apply sort_stable_nil in E.
  - destruct (sort_stable_head eventFirst _ _ _ E) as [He Hmin]. split; [done|]. intros (f & Hf & Hff). specialize (Hmin f Hf).
    unfold eventFirst in Hmin. rewrite Hff in Hmin. by destruct (failedScheduling e).
Qed.

Lemma adaptRecord_drawn r o refs : adaptRecord r = Some (o, refs) -> drawn_from r o.
Proof.
  unfold adaptRecord. cbv zeta. destruct (_ || _) eqn:E; [done|]. go_bool. intros [= <- _].
  split; [done|]. split; [done|]. split; [done|]. split; [done|]. cbn [so_EventPodUID so_EventReason so_EventMessage].
  pose proof (selected_event (List.filter (currentEvent r) (se_Events r))) as Hs.
  destruct (selectSchedulingEvent _) as [e|].
  - destruct Hs as [He Hf]. apply list_filter_elem in He as [Hin Hc]. right. exists e. repeat split; try done.
    intros (f & Hf1 & Hf2 & Hf3). apply Hf. exists f. by rewrite list_filter_elem.
  - left. repeat split. intros e He. destruct (currentEvent r e) eqn:Hc; [|done]. exfalso.
    assert (e ∈ List.filter (currentEvent r) (se_Events r)) as Hin by by rewrite list_filter_elem.
    rewrite Hs in Hin. by apply elem_of_nil in Hin.
Qed.

Lemma adaptRecord_some r : trim_space (se_PodUID r) <> "" -> recordCoverage r <> SchedulingCoverageUnauthorized ->
  exists x, adaptRecord r = Some x.
Proof.
  intros Hu Hc. unfold adaptRecord. cbv zeta.
  rewrite (proj2 (String.eqb_neq _ _) Hu), (proj2 (String.eqb_neq _ _) Hc). cbn [orb]. eauto.
Qed.

Lemma dedup_refs_ok seen refs :
  NoDup (map er_ID (dedup_refs seen refs)) /\
  forall id, id ∈ map er_ID (dedup_refs seen refs) -> id <> "" /\ id ∉ seen.
Proof.
  revert seen. induction refs as [|r refs IH]; intros seen; simpl; [split; [constructor|by intros id ?%elem_of_nil]|].
  destruct (_ || _) eqn:E; [auto|]. apply orb_false_iff in E as [E1%String.eqb_neq E2%mem_str_false].
  destruct (IH (er_ID r :: seen)) as [Hn Hi]. split.
  - simpl. constructor; [|done]. intros [_ Hx]%Hi. apply Hx, list_elem_of_here.
  - intros id [->|Hin]%elem_of_cons; [done|]. apply Hi in Hin as [? Hx]. split; [done|].
    intros Hs. by apply Hx, list_elem_of_further.
Qed.

End Correlated.

(** ** Every retained observation has its snapshot *)

Section Retention.
Context {U : UnicodeTables} {D : DigestPrims} {V : ValueText}.

(** A snapshot store that answers a snapshot with [store]. *)
Definition store_env (store : NormalizedSnapshot -> result PayloadRef) (_ : unit) (X : Type) (op : evidence_op X) : X -> unit -> Prop :=
  match op in evidence_op X return X -> unit -> Prop with
  | EStore snapshot => fun answer _ => answer = store snapshot
  | _ => fun _ _ => True
  end.

(** Each observation's snapshot was stored and its reference points to it; the
    references after those of the observations are unchanged. *)
Definition retained (store : NormalizedSnapshot -> result PayloadRef) (policy : EvidenceRetentionPolicy) (now : time)
    (observations : list Observation) (refs refs' : list EvidenceRef) : Prop :=
  exists payloads,
    Forall2 (fun o p => store (mkNormalizedSnapshot policy o now (NormalizedSnapshotExpiry now policy)) = Ok p)
      observations payloads /\
    refs' = zip_with with_payload refs payloads ++ drop (length observations) refs.

Lemma storeSnapshots_retained store policy now observations : forall refs, (length observations <= length refs)%nat ->
  wp (store_env store) (fun _ => True) (storeSnapshots policy now observations refs) tt
    (fun answer _ => answer.2 = None -> retained store policy now observations refs answer.1).
Proof.
  induction observations as [|o observations IH]; intros refs Hl.
  { simpl. split; [done|]. intros _. exists []. split; [constructor|]. by destruct refs. }
  destruct refs as [|r refs]; simpl in Hl; [lia|]. simpl. split; [done|]. intros answer [] ->.
  destruct (store _) as [payload|e] eqn:Hs; [|simpl; done].
  apply wp_bind. eapply wp_mono; [|apply (IH refs); lia]. intros [rest issue] [] _ Hrest. simpl in *.
  split; [done|]. intros ->. destruct (Hrest eq_refl) as (payloads & Hp & ->).
  exists (payload :: payloads). split; [by constructor|done].
Qed.

(** With the retention mode NormalizedSnapshot, a retention that reports no issue has
    stored the snapshot of every observation with the policy's expiry, and each
    observation's evidence reference, and no other, points to the stored payload. *)
Theorem retention_complete (cfg : EvidenceConfig) (store : NormalizedSnapshot -> result PayloadRef)
    (policy : EvidenceRetentionPolicy) (observations : list Observation) (refs : list EvidenceRef) (now : time)
    (answer : list EvidenceRef * option Issue) :
  trim_space (rp_Mode policy) = EvidenceRetentionModeNormalizedSnapshot ->
  (length observations <= length refs)%nat ->
  exec (store_env store) (applyEvidenceRetention cfg policy observations refs now) tt (Some answer) tt ->
  answer.2 = None -> retained store policy now observations refs answer.1.
Proof.
  intros Hm Hl Hrun Hnone. unfold applyEvidenceRetention in Hrun. rewrite Hm in Hrun.
  change ((EvidenceRetentionModeNormalizedSnapshot == "") ||
    (EvidenceRetentionModeNormalizedSnapshot == EvidenceRetentionModeMetadataOnly)) with false in Hrun.
  change (EvidenceRetentionModeNormalizedSnapshot != EvidenceRetentionModeNormalizedSnapshot) with false in Hrun.
  cbv iota zeta in Hrun. destruct (ev_Store cfg) as [name|].
  2:{ destruct Hrun as [[? _]|[[= ->] _]]; done. }
  destruct (_ && _).
  { destruct Hrun as [[? _]|[[= ->] _]]; done. }
  destruct (wp_exec _ _ _ _ _ _ _ (storeSnapshots_retained store policy now observations refs Hl) Hrun) as [_ H].
  by apply H.
Qed.
End Retention.

(** ** Concrete collections *)
Section CollectionExamples.
#[local] Existing Instance plain_tables.
#[local] Existing Instance plain_digest.
#[local] Existing Instance plain_values.
#[local] Existing Instance record_sizes.

Definition ec_policy : EvidenceRetentionPolicy := mkEvidenceRetentionPolicy "NormalizedSnapshot" (60 * minute) "" false "" false.
Definition ec_payload : PayloadRef := mkPayloadRef "file" "sha256:x" false (Some (60 * minute + 5)) "normalized-snapshot".
Definition ec_spec : InvestigationRequestSpec :=
  mkInvestigationRequestSpec pf_target "" None (15 * minute) "why" ["prometheus"] [] "" "readOnly" false ""
    ec_policy "" zeroBudget (mkInvestigationLoopPolicy 0 false) 0.
Definition ec_store (_ : NormalizedSnapshot) : result PayloadRef := Ok ec_payload.

Definition ec_observation : Observation :=
  normalizeObservation (<["line" := AnyString "error token=abc"]> ∅) (mkQueryResult "loki" QueryTypeLog "" [] false "" "" 0 0 0
    (mkNativeResultCounts "" 0 0 0 0 0) None)
    (mkQueryRequest "{}" 0 5 minute ∅ pf_resource QueryTypeLog [] zeroResultLimits noClassification) 0 1 1 false 5.

Example observation_redacted :
  ob_ID ec_observation = "evidence-001" /\ ob_Summary ec_observation = "error token=[REDACTED]" /\
  (dc_Level <$> ob_Classification ec_observation) = Some "Restricted".
Proof. vm_compute. by repeat split. Qed.

Lemma retention_complete_witness :
  retained ec_store ec_policy 5 [ec_observation] [sample_ref "evidence-001" "log" "x"; sample_ref "s" "scheduling" "y"]
    [with_payload (sample_ref "evidence-001" "log" "x") ec_payload; sample_ref "s" "scheduling" "y"].
Proof.
  refine (retention_complete (mkEvidenceConfig false None false None (Some "local-filesystem")) ec_store ec_policy
    [ec_observation] [sample_ref "evidence-001" "log" "x"; sample_ref "s" "scheduling" "y"] 5
    ([with_payload (sample_ref "evidence-001" "log" "x") ec_payload; sample_ref "s" "scheduling" "y"], None)
    eq_refl _ _ eq_refl); [simpl; lia|].
  right. exists (Ok ec_payload), tt. split; [reflexivity|]. right. by split.
Defined.

(** The wrapper of a DataSource resource has the collecting method whatever its
    adapter: with a Prometheus resource planned first, the scheduling evidence is
    asked of it, and not of the Kubernetes source that collects it. *)
Theorem scheduling_collector_shadowed :
  let classification := noClassification in
  let policy := mkDataSourceQueryPolicy "" [] 0 false false (mkPromQLPolicy [] [] None None None) (mkLogQLPolicy [] []) in
  let prom := policyDataSource prometheusAdapter policy classification in
  let k8s := policyDataSource kubernetesAdapter policy classification in
  let sources := RegisterNamed "prometheus" prom (RegisterNamed "kubernetes-events" k8s ∅) in
  schedulingSource sources ["prometheus"; "kubernetes-events"] = Some ("prometheus", prom) /\
  ds_SchedulingSupported prom = false /\ ds_SchedulingSupported k8s = true.
Proof. vm_compute. by repeat split. Qed.
End CollectionExamples.
