(* ===== verification/SchedulingCollector.v ===== *)
(** * The scheduling collector (internal/datasource/kubernetes/scheduling.go)

    [Adapter.CollectSchedulingEvidence]: the Pods of a request are read one by
    one, their scheduling state is normalized, and the events about each are
    listed through both event APIs, within budgets of requests, events and
    pages.  The coverage of every record, and of the whole, says what is
    missing.  Quantities of resources (apimachinery) are a parameter. *)

From Stdlib Require Import ZArith Lia Sorting.Sorted.
From stdpp Require Import base list strings gmap.
From S2P Require Import Prelude GoStrings Utf8 GoParse Api InvestigationApi Digest Prog DataClassification Scope Observation Diagnostic Egress Gateway StatusBudget InvestigationSpec Datasource Preflight Redactor InvestigationVerdict Collection Normalize HttpAdapters KubernetesAdapter EvidenceCollection.

(** ** What is read *)

(** [resource.Quantity]. *)
Class Quantities := {
  quantity : Type;
  quantity_add : quantity -> quantity -> quantity;
  quantity_text : quantity -> string
}.

(** Errors of the API server and of the context, as far as the collector tells them apart;
    [ApiCanceled] and [ApiDeadline] are the two values of package context themselves. *)
Inductive api_error_kind := ApiNotFound | ApiForbidden | ApiUnauthorized | ApiCanceled | ApiDeadline | ApiOther.
Record api_error := mkApiError { ae_kind : api_error_kind; ae_text : string }.

#[export] Instance api_error_kind_eq_dec : EqDecision api_error_kind.
Proof. solve_decision. Defined.

Definition is_auth_error (e : api_error) : bool :=
  bool_decide (ae_kind e = ApiForbidden) || bool_decide (ae_kind e = ApiUnauthorized).

Record SelectorRequirement := mkSelectorRequirement { slr_Key : string; slr_Operator : string; slr_Values : list string }.
Record SelectorTerm := mkSelectorTerm { slt_Expressions : list SelectorRequirement; slt_Fields : list SelectorRequirement }.

Section Objects.
Context {QT : Quantities}.

Record PodContainer := mkPodContainer {
  pdc_Name : string;
  pdc_Requests : gmap string quantity;
  pdc_Limits : gmap string quantity
}.
Record SchedulingPod := mkSchedulingPod {
  spd_Meta : ObjectMeta;
  spd_Phase : string;
  spd_NodeName : string;
  spd_SchedulingGates : list string;
  spd_NodeSelector : gmap string string;
  spd_Tolerations : list SchedulingToleration;
  spd_Conditions : list KubeCondition;
  spd_Containers : list PodContainer;
  spd_InitContainers : list PodContainer;
  spd_AffinityRequired : list SelectorTerm;
  spd_AffinityPreferred : list (Z * SelectorTerm)
}.
(** A core or events.k8s.io event: whom it regards, its note, and the times either has. *)
Record ClusterEvent := mkClusterEvent {
  cev_Meta : ObjectMeta;
  cev_CreationTimestamp : time;
  cev_Reason : string;
  cev_Note : string;
  cev_Type : string;
  cev_RegardingUID : string;
  cev_EventTime : time;
  cev_FirstTimestamp : time;
  cev_LastTimestamp : time;
  cev_SeriesLastObserved : option time
}.

(** [TContext] is [ctx.Err()]. *)
Inductive scheduling_op : Type -> Type :=
| TGetPod (namespace name : string) : scheduling_op (SchedulingPod + api_error)
| TListEvents (v1 : bool) (namespace uid : string) (limit : Z) (token : string)
    : scheduling_op (Page ClusterEvent + api_error)
| TContext : scheduling_op (option api_error)
| TNow : scheduling_op time.
End Objects.

Abbreviation tprog := (prog scheduling_op).

(** ** Budgets *)

Record SchedulingEvidenceResult := mkSchedulingEvidenceResult {
  ser_Evidence : list SchedulingEvidence;
  ser_Coverage : string;
  ser_CoverageReason : string;
  ser_APIRequests : Z;
  ser_ScannedPods : Z;
  ser_ScannedEvents : Z;
  ser_Truncated : bool
}.
Record SchedulingCollectionError := mkSchedulingCollectionError { sce_Reason : string; sce_Text : string }.

Record schedulingCollectionBudget := mkBudget {
  bg_Limits : SchedulingEvidenceLimits;
  bg_APIRequests : Z;
  bg_Scanned : Z;
  bg_LastScanned : Z;
  bg_Exhausted : bool
}.

Definition positive_or (value fallback : Z) : Z := if value <=? 0 then fallback else value.
Definition defaultSchedulingMaxPods : Z := 20.
Definition defaultSchedulingMaxEvents : Z := 100.
Definition defaultSchedulingMaxPages : Z := 10.
Definition defaultSchedulingMaxAPIRequests : Z := 64.
Definition normalizeSchedulingLimits (l : SchedulingEvidenceLimits) : SchedulingEvidenceLimits :=
  mkSchedulingEvidenceLimits (positive_or (slm_MaxPods l) defaultSchedulingMaxPods)
    (positive_or (slm_MaxEvents l) defaultSchedulingMaxEvents) (positive_or (slm_MaxPages l) defaultSchedulingMaxPages)
    (positive_or (slm_MaxAPIRequests l) defaultSchedulingMaxAPIRequests).

Definition exhaust (b : schedulingCollectionBudget) : schedulingCollectionBudget :=
  mkBudget (bg_Limits b) (bg_APIRequests b) (bg_Scanned b) (bg_LastScanned b) true.
(** Whether another request is allowed, and the budget after it. *)
Definition consumeAPI (b : schedulingCollectionBudget) : bool * schedulingCollectionBudget :=
  if slm_MaxAPIRequests (bg_Limits b) <=? bg_APIRequests b then (false, exhaust b)
  else (true, mkBudget (bg_Limits b) (bg_APIRequests b + 1) (bg_Scanned b) (bg_LastScanned b) (bg_Exhausted b)).
Definition scan_events (n : Z) (b : schedulingCollectionBudget) : schedulingCollectionBudget :=
  mkBudget (bg_Limits b) (bg_APIRequests b) (bg_Scanned b + n) (bg_LastScanned b + n) (bg_Exhausted b).
Definition forget_last (b : schedulingCollectionBudget) : schedulingCollectionBudget :=
  mkBudget (bg_Limits b) (bg_APIRequests b) (bg_Scanned b) 0 (bg_Exhausted b).

Section Collector.
Context {U : UnicodeTables} {QT : Quantities}.

(** ** The scope *)

Fixpoint uniqueRefs (namespace : string) (seen : list string) (refs : list SchedulingPodRef) : result (list SchedulingPodRef) :=
  match refs with
  | [] => Ok []
  | ref :: rest =>
      let ns := if trim_space (sp_Namespace ref) == "" then namespace else trim_space (sp_Namespace ref) in
      let name := trim_space (sp_Name ref) in
      let uid := trim_space (sp_UID ref) in
      if ns != namespace
      then Err (errorf ("pod " +:+ ns +:+ "/" +:+ name +:+ " is outside authorized namespace " +:+ quote namespace))
      else if name == "" then Err (errorf "pod name is required")
      else
        let key := ns +:+ "/" +:+ name +:+ "/" +:+ uid in
        if mem_str key seen then uniqueRefs namespace seen rest
        else
          others <-! uniqueRefs namespace (key :: seen) rest;
          Ok (mkSchedulingPodRef ns name uid :: others)
  end.

Definition refLess (a b : SchedulingPodRef) : bool :=
  if sp_Name a == sp_Name b then str_ltb (sp_UID a) (sp_UID b) else str_ltb (sp_Name a) (sp_Name b).

Definition normalizeSchedulingPodRefs (namespace : string) (refs : list SchedulingPodRef) : result (list SchedulingPodRef) :=
  unique <-! uniqueRefs namespace [] refs;
  Ok (sort_stable refLess unique).

(** ** Normalization of a Pod *)

Definition quantitiesToStrings (m : gmap string quantity) : gmap string string := quantity_text <$> m.
Definition addQuantities (target values : gmap string quantity) : gmap string quantity :=
  union_with (fun a b => Some (quantity_add a b)) target values.

Definition normalizeResourceRequirements (c : PodContainer) : SchedulingResourceRequirements :=
  mkSchedulingResourceRequirements (quantitiesToStrings (pdc_Requests c)) (quantitiesToStrings (pdc_Limits c)).
Definition containerResources (c : PodContainer) : SchedulingContainerResources :=
  mkSchedulingContainerResources (pdc_Name c) (quantitiesToStrings (pdc_Requests c)) (quantitiesToStrings (pdc_Limits c)).

Definition normalizeContainerResources (containers : list PodContainer)
    : list SchedulingContainerResources * SchedulingResourceRequirements :=
  (map containerResources containers,
   mkSchedulingResourceRequirements
     (quantitiesToStrings (fold_left (fun m c => addQuantities m (pdc_Requests c)) containers ∅))
     (quantitiesToStrings (fold_left (fun m c => addQuantities m (pdc_Limits c)) containers ∅))).
Definition normalizeInitResources (containers : list PodContainer)
    : list SchedulingContainerResources * list SchedulingResourceRequirements :=
  (map containerResources containers, map normalizeResourceRequirements containers).

Definition selectorRequirementKey (r : SchedulingNodeSelectorRequirement) : string :=
  snr_Key r +:+ "/" +:+ snr_Operator r +:+ "/" +:+ join "," (snr_Values r).
Definition sortedRequirements (l : list SelectorRequirement) : list SchedulingNodeSelectorRequirement :=
  sort_stable (fun a b => str_ltb (selectorRequirementKey a) (selectorRequirementKey b))
    (map (fun r => mkSchedulingNodeSelectorRequirement (slr_Key r) (slr_Operator r) (slr_Values r)) l).
Definition normalizeNodeSelectorTerm (term : SelectorTerm) (weight : Z) : SchedulingNodeSelectorTerm :=
  mkSchedulingNodeSelectorTerm weight (sortedRequirements (slt_Expressions term)) (sortedRequirements (slt_Fields term)).

Definition tolerationKey (t : SchedulingToleration) : string :=
  stl_Key t +:+ "/" +:+ stl_Operator t +:+ "/" +:+ stl_Value t +:+ "/" +:+ stl_Effect t.
Definition normalizeTolerations (l : list SchedulingToleration) : list SchedulingToleration :=
  sort_stable (fun a b => str_ltb (tolerationKey a) (tolerationKey b)) l.

Definition podScheduled (pod : SchedulingPod) : option KubeCondition :=
  find_first (fun c => if kc_Type c == "PodScheduled" then Some c else None) (spd_Conditions pod).

Definition normalizeSchedulingPod (pod : SchedulingPod) (start stop now : time) : SchedulingEvidence :=
  let m := spd_Meta pod in
  let condition f := match podScheduled pod with Some c => f c | None => "" end in
  let '(containers, requests) := normalizeContainerResources (spd_Containers pod) in
  let '(initContainers, initRequests) := normalizeInitResources (spd_InitContainers pod) in
  mkSchedulingEvidence ("pod/" +:+ om_UID m) (om_UID m) (om_Namespace m) (om_Name m) "kubernetes/pod" (spd_Phase pod)
    (spd_NodeName pod) (condition kc_Status) (condition kc_Reason) (condition kc_Message)
    (sort_strings (spd_SchedulingGates pod)) requests containers initRequests initContainers (spd_NodeSelector pod)
    (map (fun term => normalizeNodeSelectorTerm term 0) (spd_AffinityRequired pod))
    (map (fun p => normalizeNodeSelectorTerm (snd p) (fst p)) (spd_AffinityPreferred pod))
    (normalizeTolerations (spd_Tolerations pod)) [] SchedulingCoverageComplete "" start stop now false false.

Definition schedulingEvidenceID (ref : SchedulingPodRef) : string :=
  if sp_UID ref != "" then "pod/" +:+ sp_UID ref else "pod/" +:+ sp_Namespace ref +:+ "/" +:+ sp_Name ref.

Definition unavailableSchedulingEvidence (ref : SchedulingPodRef) (coverage reason : string) (now : time) : SchedulingEvidence :=
  mkSchedulingEvidence (schedulingEvidenceID ref) (sp_UID ref) (sp_Namespace ref) (sp_Name ref) "kubernetes/pod" "" "" "" "" ""
    [] noRequirements [] [] [] ∅ [] [] [] [] coverage reason 0 0 now (coverage == SchedulingCoverageTruncated)
    (coverage == SchedulingCoverageStale).

(** ** Events *)

Definition schedulingEventReason (reason : string) : bool :=
  mem_str (to_lower (trim_space reason)) ["failedscheduling"; "scheduled"; "preempted"; "nominated"; "schedulinggated"].

Definition schedulingEventID (source : string) (m : ObjectMeta) : string :=
  if om_UID m != "" then source +:+ "/" +:+ om_UID m
  else source +:+ "/" +:+ om_Namespace m +:+ "/" +:+ om_Name m.

(** The observed and the last time of a core event. *)
Definition coreEventTimes (e : ClusterEvent) : time * time :=
  let observed := firstTime [cev_EventTime e; cev_FirstTimestamp e; cev_CreationTimestamp e] in
  (observed, if is_zero_time (cev_LastTimestamp e) then observed else cev_LastTimestamp e).

Definition normalizeCoreSchedulingEvent (e : ClusterEvent) : SchedulingEvent :=
  let '(observed, lastObserved) := coreEventTimes e in
  mkSchedulingEvent (schedulingEventID "core" (cev_Meta e)) (om_UID (cev_Meta e)) (cev_RegardingUID e) "kubernetes/core-v1"
    (cev_Reason e) (cev_Note e) (cev_Type e) observed lastObserved (negb (is_zero_time observed)) false.

Definition normalizeV1SchedulingEvent (e : ClusterEvent) : SchedulingEvent :=
  let observed := cev_EventTime e in
  let lastObserved := match cev_SeriesLastObserved e with
                      | Some t => if is_zero_time t then observed else t
                      | None => observed
                      end in
  mkSchedulingEvent (schedulingEventID "events" (cev_Meta e)) (om_UID (cev_Meta e)) (cev_RegardingUID e) "kubernetes/events-v1"
    (cev_Reason e) (cev_Note e) (cev_Type e) observed lastObserved (negb (is_zero_time observed)) false.

Definition normalizeClusterEvent (v1 : bool) (e : ClusterEvent) : SchedulingEvent :=
  if v1 then normalizeV1SchedulingEvent e else normalizeCoreSchedulingEvent e.

(** The scheduling events about a Pod among those listed. *)
Definition relevantEvents (v1 : bool) (podUID : string) (items : list ClusterEvent) : list SchedulingEvent :=
  map (normalizeClusterEvent v1)
    (List.filter (fun e => schedulingEventReason (cev_Reason e) && (cev_RegardingUID e == podUID)) items).

(** What a listing gives: events, whether it was cut, an error. *)
Record EventListing := mkEventListing { el_Events : list SchedulingEvent; el_Truncated : bool; el_Error : option api_error }.

Definition maxEventPage : Z := 100.

Fixpoint listSchedulingEventsFrom (v1 : bool) (namespace podUID : string) (pages : nat) (token : string)
    (found : list SchedulingEvent) (b : schedulingCollectionBudget) : tprog (EventListing * schedulingCollectionBudget) :=
  match pages with
  | O => Ret (mkEventListing found true None, b)
  | S pages =>
      let '(allowed, b) := consumeAPI b in
      if negb allowed then Ret (mkEventListing found true None, b)
      else
        let room := slm_MaxEvents (bg_Limits b) - bg_Scanned b in
        if room <=? 0 then Ret (mkEventListing found true None, exhaust b)
        else
          let pageLimit := Z.min room maxEventPage in
          got <~! TListEvents v1 namespace podUID (pageLimit + 1) token;
          match got with
          | inr e => Ret (mkEventListing found false (Some e), b)
          | inl page =>
              if pageLimit <? zlen (pg_Items page)
              then Ret (mkEventListing (found ++ relevantEvents v1 podUID (take (Z.to_nat pageLimit) (pg_Items page))) true None,
                        scan_events pageLimit b)
              else
                let found := found ++ relevantEvents v1 podUID (pg_Items page) in
                let b := scan_events (zlen (pg_Items page)) b in
                if pg_Continue page == "" then Ret (mkEventListing found false None, b)
                else listSchedulingEventsFrom v1 namespace podUID pages (pg_Continue page) found b
          end
  end.
Definition listSchedulingEvents (v1 : bool) (namespace podUID : string) (b : schedulingCollectionBudget)
    : tprog (EventListing * schedulingCollectionBudget) :=
  listSchedulingEventsFrom v1 namespace podUID (Z.to_nat (slm_MaxPages (bg_Limits b))) "" [] b.

Definition schedulingEventWithinWindow (e : SchedulingEvent) (start stop : time) : bool :=
  if negb (sev_TimeKnown e) then false
  else if negb (is_zero_time start) && time_before (sev_ObservedAt e) start then false
  else if negb (is_zero_time stop) && time_after (sev_ObservedAt e) stop then false
  else true.

Definition schedulingEventSortKey (e : SchedulingEvent) : string := CanonicalTime (sev_ObservedAt e) +:+ "/" +:+ sev_ID e.

(** Events of the window first, then by time and ID. *)
Definition schedulingEventLess (start stop : time) (a b : SchedulingEvent) : bool :=
  if eqb (schedulingEventWithinWindow a start stop) (schedulingEventWithinWindow b start stop)
  then str_ltb (schedulingEventSortKey a) (schedulingEventSortKey b)
  else schedulingEventWithinWindow a start stop.

Definition eventFingerprint (e : SchedulingEvent) : string :=
  join (str1 0) [sev_PodUID e; to_lower (trim_space (sev_Reason e)); trim_space (sev_Message e);
                 CanonicalTime (sev_ObservedAt e); CanonicalTime (sev_LastObservedAt e)].

(** A repeated UID is dropped before the fingerprint is looked at. *)
Fixpoint deduplicateFrom (seenUID seenFingerprint : list string) (events : list SchedulingEvent) : list SchedulingEvent :=
  match events with
  | [] => []
  | e :: rest =>
      if (sev_UID e != "") && mem_str (sev_UID e) seenUID then deduplicateFrom seenUID seenFingerprint rest
      else
        let seenUID := if sev_UID e != "" then sev_UID e :: seenUID else seenUID in
        if mem_str (eventFingerprint e) seenFingerprint then deduplicateFrom seenUID seenFingerprint rest
        else e :: deduplicateFrom seenUID (eventFingerprint e :: seenFingerprint) rest
  end.
Definition deduplicateSchedulingEvents (events : list SchedulingEvent) : list SchedulingEvent := deduplicateFrom [] [] events.

Definition with_stale (e : SchedulingEvent) (stale : bool) : SchedulingEvent :=
  mkSchedulingEvent (sev_ID e) (sev_UID e) (sev_PodUID e) (sev_Source e) (sev_Reason e) (sev_Message e) (sev_Type e)
    (sev_ObservedAt e) (sev_LastObservedAt e) (sev_TimeKnown e) stale.

(** ** Failures *)

Definition isContextFailure (e : api_error) : bool :=
  bool_decide (ae_kind e = ApiCanceled) || bool_decide (ae_kind e = ApiDeadline)
  || contains (to_lower (ae_text e)) "context deadline exceeded".

Definition isUnsupportedEventAPI (e : api_error) : bool :=
  bool_decide (ae_kind e = ApiNotFound)
  || contains (to_lower (ae_text e)) "no kind is registered"
  || contains (to_lower (ae_text e)) "the server could not find the requested resource".

Definition schedulingCoverageReason (e : api_error) : string :=
  if is_auth_error e then "EventReadUnauthorized"
  else if isContextFailure e then "CollectionTimeout" else "EventReadFailed".

Definition schedulingFirstNonEmpty (values : list string) : string :=
  default "" (find_first (fun v => if trim_space v != "" then Some v else None) values).

(** Coverage, its reason, the truncation and stale flags and the events of a record changed. *)
Definition with_coverage (r : SchedulingEvidence) (coverage reason : string) (truncated stale : bool) (events : list SchedulingEvent)
    : SchedulingEvidence :=
  mkSchedulingEvidence (se_ID r) (se_PodUID r) (se_Namespace r) (se_Name r) (se_Source r) (se_Phase r) (se_NodeName r)
    (se_PodScheduledStatus r) (se_PodScheduledReason r) (se_PodScheduledMessage r) (se_SchedulingGates r) (se_ResourceRequests r)
    (se_ContainerResources r) (se_InitRequests r) (se_InitContainerResources r) (se_NodeSelector r) (se_NodeAffinityRequired r)
    (se_NodeAffinityPreferred r) (se_Tolerations r) events coverage reason (se_IncidentStart r) (se_IncidentEnd r)
    (se_CollectedAt r) truncated stale.
Definition cover (coverage reason : string) (r : SchedulingEvidence) : SchedulingEvidence :=
  with_coverage r coverage reason (se_Truncated r) (se_Stale r) (se_Events r).

Definition failureCoverage (e : api_error) : string :=
  if is_auth_error e then SchedulingCoverageUnauthorized
  else if isContextFailure e then SchedulingCoverageCollectionFailed else SchedulingCoverageUnavailable.
Definition applySchedulingSourceFailure (e : option api_error) (r : SchedulingEvidence) : SchedulingEvidence :=
  match e with
  | None => r
  | Some e =>
      cover (failureCoverage e) (schedulingFirstNonEmpty [se_CoverageReason r; schedulingCoverageReason e]) r
  end.

Definition markCollected (coverage reason : string) (r : SchedulingEvidence) : SchedulingEvidence :=
  if mem_str (se_Coverage r) [SchedulingCoverageComplete; SchedulingCoveragePartial] then cover coverage reason r else r.
Definition markSchedulingCoverage (coverage reason : string) (evidence : list SchedulingEvidence) : list SchedulingEvidence :=
  map (markCollected coverage reason) evidence.

Definition coverageRank (coverage : string) : Z :=
  if coverage == SchedulingCoverageCollectionFailed then 7
  else if coverage == SchedulingCoverageUnauthorized then 6
  else if coverage == SchedulingCoverageTruncated then 5
  else if coverage == SchedulingCoverageStale then 4
  else if coverage == SchedulingCoverageUnavailable then 3
  else if coverage == SchedulingCoveragePartial then 2
  else if coverage == SchedulingCoverageComplete then 1 else 0.

(** The worst coverage of the records, and the reason of the first that has it. *)
Definition worstCoverage (evidence : list SchedulingEvidence) : string * string :=
  fold_left (fun best r => if coverageRank (fst best) <? coverageRank (se_Coverage r) then (se_Coverage r, se_CoverageReason r) else best)
    evidence (SchedulingCoverageComplete, "").
Definition summarizeSchedulingCoverage (evidence : list SchedulingEvidence) (truncated : bool) : string * string :=
  match evidence with
  | [] => if truncated then (SchedulingCoverageTruncated, "CollectionBudgetExceeded") else (SchedulingCoverageComplete, "NoPodsInScope")
  | _ =>
      let '(best, reason) := worstCoverage evidence in
      let '(best, reason) :=
        if truncated && (coverageRank best <? coverageRank SchedulingCoverageTruncated)
        then (SchedulingCoverageTruncated, "CollectionBudgetExceeded") else (best, reason) in
      (best, schedulingFirstNonEmpty [reason; "CollectionComplete"])
  end.

(** What has been collected so far. *)
Record CollectorState := mkCollectorState {
  col_Evidence : list SchedulingEvidence;
  col_Valid : list nat;  (* the positions of the records whose Pod was read *)
  col_ScannedPods : Z;
  col_ScannedEvents : Z;
  col_Cut : bool;
  col_Budget : schedulingCollectionBudget
}.

Definition finalizeSchedulingEvidence (s : CollectorState) : SchedulingEvidenceResult :=
  let b := col_Budget s in
  let truncated := col_Cut s || bg_Exhausted b in
  let '(coverage, reason) := summarizeSchedulingCoverage (col_Evidence s) truncated in
  mkSchedulingEvidenceResult (col_Evidence s) coverage reason (bg_APIRequests b) (col_ScannedPods s)
    (Z.max (col_ScannedEvents s) (bg_Scanned b)) truncated.

(** ** The collection *)

Abbreviation scheduling_answer := (SchedulingEvidenceResult * option SchedulingCollectionError)%type.

Definition set_evidence (s : CollectorState) (evidence : list SchedulingEvidence) : CollectorState :=
  mkCollectorState evidence (col_Valid s) (col_ScannedPods s) (col_ScannedEvents s) (col_Cut s) (col_Budget s).
Definition with_budget (s : CollectorState) (b : schedulingCollectionBudget) : CollectorState :=
  mkCollectorState (col_Evidence s) (col_Valid s) (col_ScannedPods s) (col_ScannedEvents s) (col_Cut s) b.
Definition mark_cut (s : CollectorState) : CollectorState :=
  mkCollectorState (col_Evidence s) (col_Valid s) (col_ScannedPods s) (col_ScannedEvents s) true (col_Budget s).
Definition add_record (s : CollectorState) (r : SchedulingEvidence) : CollectorState := set_evidence s (col_Evidence s ++ [r]).

(** The collection stopped by a failure: the records that were collected inherit it. *)
Definition stopped (s : CollectorState) (coverage reason : string) (failure : SchedulingCollectionError) : scheduling_answer :=
  (finalizeSchedulingEvidence (set_evidence s (markSchedulingCoverage coverage reason (col_Evidence s))), Some failure).

(** [contextError]. *)
Definition contextErrorText (ctx : option api_error) (e : api_error) : string := ae_text (default e ctx).

Fixpoint budgetRecords (refs : list SchedulingPodRef) (s : CollectorState) : tprog CollectorState :=
  match refs with
  | [] => Ret s
  | ref :: rest =>
      now <~! TNow;
      budgetRecords rest
        (add_record s (unavailableSchedulingEvidence ref SchedulingCoverageTruncated "API request budget exhausted" now))
  end.

Definition podFailed (s : CollectorState) (ref : SchedulingPodRef) (e : api_error) : tprog scheduling_answer :=
  let failed coverage reason failure :=
    now <~! TNow;
    Ret (stopped (add_record s (unavailableSchedulingEvidence ref coverage reason now)) coverage reason failure) in
  if is_auth_error e
  then failed SchedulingCoverageUnauthorized "PodReadUnauthorized" (mkSchedulingCollectionError "Unauthorized" (ae_text e))
  else
    timedOut <~ (if isContextFailure e then Ret true else ctx <~! TContext; Ret (bool_decide (is_Some ctx)));
    if timedOut : bool then
      now <~! TNow;
      ctx <~! TContext;
      Ret (stopped (add_record s (unavailableSchedulingEvidence ref SchedulingCoverageCollectionFailed "CollectionTimeout" now))
             SchedulingCoverageCollectionFailed "CollectionTimeout"
             (mkSchedulingCollectionError "CollectionTimeout" (contextErrorText ctx e)))
    else failed SchedulingCoverageUnavailable "PodReadFailed" (mkSchedulingCollectionError "CollectionFailed" (ae_text e)).

(** The first loop: a record for every Pod, until the budget or a failure ends it. *)
Fixpoint readPods (req : SchedulingEvidenceRequest) (refs : list SchedulingPodRef) (s : CollectorState)
    : tprog (CollectorState + scheduling_answer) :=
  match refs with
  | [] => Ret (inl s)
  | ref :: rest =>
      let '(allowed, b) := consumeAPI (col_Budget s) in
      let s := with_budget s b in
      if negb allowed then s' <~ budgetRecords refs (mark_cut s); Ret (inl s')
      else
        got <~! TGetPod (sreq_Namespace req) (sp_Name ref);
        match got with
        | inr e =>
            if bool_decide (ae_kind e = ApiNotFound) then
              now <~! TNow;
              readPods req rest (add_record s (unavailableSchedulingEvidence ref SchedulingCoverageUnavailable "PodNotFound" now))
            else answer <~ podFailed s ref e; Ret (inr answer)
        | inl pod =>
            let s := mkCollectorState (col_Evidence s) (col_Valid s) (col_ScannedPods s + 1) (col_ScannedEvents s) (col_Cut s)
                       (col_Budget s) in
            now <~! TNow;
            if (sp_UID ref != "") && (om_UID (spd_Meta pod) != sp_UID ref)
            then readPods req rest (add_record s (unavailableSchedulingEvidence ref SchedulingCoverageStale "PodUIDMismatch" now))
            else
              let record := normalizeSchedulingPod pod (sreq_StartTime req) (sreq_EndTime req) now in
              readPods req rest
                (mkCollectorState (col_Evidence s ++ [record]) (col_Valid s ++ [length (col_Evidence s)]) (col_ScannedPods s)
                   (col_ScannedEvents s) (col_Cut s) (col_Budget s))
        end
  end.

(** Errors of an API that the cluster does not serve are not failures. *)
Definition supportedError (e : option api_error) : option api_error :=
  match e with Some e => if isUnsupportedEventAPI e then None else Some e | None => None end.

(** The events of a record: sorted, without repetitions, cut to the limit, marked. *)
Definition recordEvents (r : SchedulingEvidence) (events : list SchedulingEvent) : list SchedulingEvent :=
  deduplicateSchedulingEvents (sort_stable (schedulingEventLess (se_IncidentStart r) (se_IncidentEnd r)) events).
Definition markStale (r : SchedulingEvidence) (e : SchedulingEvent) : SchedulingEvent :=
  with_stale e (negb (schedulingEventWithinWindow e (se_IncidentStart r) (se_IncidentEnd r))).

(** The record after the failures of its two listings. *)
Definition afterFailures (r : SchedulingEvidence) (core v1 : EventListing) : SchedulingEvidence :=
  applySchedulingSourceFailure (supportedError (el_Error v1)) (applySchedulingSourceFailure (supportedError (el_Error core)) r).

(** Its coverage when something may be missing. *)
Definition coverShort (r : SchedulingEvidence) : SchedulingEvidence :=
  if se_Coverage r == SchedulingCoverageComplete
  then with_coverage r SchedulingCoverageTruncated
         (schedulingFirstNonEmpty [se_CoverageReason r; "EventCollectionBoundExceeded"]) true (se_Stale r) (se_Events r)
  else with_coverage r (se_Coverage r) (se_CoverageReason r) true (se_Stale r) (se_Events r).

(** Its coverage when one of its events lies outside the incident. *)
Definition coverStale (r : SchedulingEvidence) : SchedulingEvidence :=
  if (se_Coverage r == SchedulingCoverageComplete) && existsb sev_Stale (se_Events r)
  then with_coverage r SchedulingCoverageStale "EventOutsideIncidentWindow" (se_Truncated r) true (se_Events r) else r.

(** The record with the events of both listings, cut to the limit, and whether it was cut. *)
Definition withEvents (limits : SchedulingEvidenceLimits) (r : SchedulingEvidence) (events : list SchedulingEvent)
    : SchedulingEvidence * bool :=
  let events := recordEvents r events in
  let kept := se_Events r ++ map (markStale r) (take (Z.to_nat (slm_MaxEvents limits)) events) in
  if slm_MaxEvents limits <? zlen events
  then (with_coverage r SchedulingCoverageTruncated "EventRecordBudgetExceeded" true (se_Stale r) kept, true)
  else (with_coverage r (se_Coverage r) (se_CoverageReason r) (se_Truncated r) (se_Stale r)
          (se_Events r ++ map (markStale r) events), false).

(** The record with its events, and whether the result is cut, from the two listings
    and whether the budget is exhausted. *)
Definition recordWithEvents (limits : SchedulingEvidenceLimits) (r : SchedulingEvidence) (core v1 : EventListing) (exhausted : bool)
    : SchedulingEvidence * bool :=
  let '(r, over) := withEvents limits (afterFailures r core v1) (el_Events core ++ el_Events v1) in
  let short := el_Truncated core || el_Truncated v1 || exhausted in
  (coverStale (if short then coverShort r else r), over || short).

(** Whether the failures of the listings end the collection. *)
Definition stopAfter (coreErr v1Err : option api_error) : tprog (option (string * string * SchedulingCollectionError)) :=
  match match coreErr with Some e => Some e | None => v1Err end with
  | None => Ret None
  | Some first =>
      let any p := match coreErr with Some e => p e | None => false end || match v1Err with Some e => p e | None => false end in
      timedOut <~ (if any isContextFailure then Ret true else ctx <~! TContext; Ret (bool_decide (is_Some ctx)));
      if timedOut : bool then
        ctx <~! TContext;
        Ret (Some (SchedulingCoverageCollectionFailed, "CollectionTimeout",
                   mkSchedulingCollectionError "CollectionTimeout" (contextErrorText ctx first)))
      else if any is_auth_error
      then Ret (Some (SchedulingCoverageUnauthorized, "EventReadUnauthorized", mkSchedulingCollectionError "Unauthorized" (ae_text first)))
      else Ret None
  end.

(** The second loop: the events of the Pods that were read. *)
Fixpoint readEvents (req : SchedulingEvidenceRequest) (valid : list nat) (s : CollectorState) : tprog scheduling_answer :=
  match valid with
  | [] => Ret (finalizeSchedulingEvidence s, None)
  | i :: rest =>
      match col_Evidence s !! i with
      | None => readEvents req rest s
      | Some r =>
          if se_Coverage r != SchedulingCoverageComplete then readEvents req rest s
          else
            '(core, b) <~ listSchedulingEvents false (sreq_Namespace req) (se_PodUID r) (col_Budget s);
            '(v1, b) <~ listSchedulingEvents true (sreq_Namespace req) (se_PodUID r) b;
            let '(r, short) := recordWithEvents (bg_Limits b) r core v1 (bg_Exhausted b) in
            let s := mkCollectorState (<[i := r]> (col_Evidence s)) (col_Valid s) (col_ScannedPods s)
                       (col_ScannedEvents s + bg_LastScanned b) (col_Cut s || short) (forget_last b) in
            stop <~ stopAfter (supportedError (el_Error core)) (supportedError (el_Error v1));
            match stop with
            | Some (coverage, reason, failure) => Ret (stopped s coverage reason failure)
            | None => readEvents req rest s
            end
      end
  end.

Definition noSchedulingResult : SchedulingEvidenceResult := mkSchedulingEvidenceResult [] "" "" 0 0 0 false.

Definition CollectSchedulingEvidence (readers : KubernetesReaders) (req : SchedulingEvidenceRequest) : tprog scheduling_answer :=
  let limits := normalizeSchedulingLimits (sreq_Limits req) in
  if trim_space (sreq_Namespace req) == ""
  then Ret (noSchedulingResult, Some (mkSchedulingCollectionError "InvalidScope" "scheduling evidence namespace is required"))
  else
    match normalizeSchedulingPodRefs (sreq_Namespace req) (sreq_Pods req) with
    | Err e => Ret (noSchedulingResult, Some (mkSchedulingCollectionError "InvalidScope" (err_msg e)))
    | Ok refs =>
        if negb (kr_APIReader readers || kr_Client readers)
        then Ret (noSchedulingResult, Some (mkSchedulingCollectionError "CollectionFailed" "kubernetes reader is nil"))
        else
          let over := slm_MaxPods limits <? zlen refs in
          let refs := if over then take (Z.to_nat (slm_MaxPods limits)) refs else refs in
          read <~ readPods req refs (mkCollectorState [] [] 0 0 over (mkBudget limits 0 0 0 false));
          match read with
          | inr answer => Ret answer
          | inl s => readEvents req (col_Valid s) s
          end
    end.
End Collector.

(** ** Bounds and scope of the reads *)

Section Reads.
Context {U : UnicodeTables} {QT : Quantities} (req : SchedulingEvidenceRequest).
Implicit Types (log l : list (event scheduling_op)) (b : schedulingCollectionBudget).

Abbreviation limits := (normalizeSchedulingLimits (sreq_Limits req)).
Abbreviation ns := (sreq_Namespace req).

Definition is_read (ev : event scheduling_op) : bool :=
  match ev with Ev (TGetPod _ _) _ | Ev (TListEvents _ _ _ _ _) _ => true | _ => false end.
Definition read_count log : Z := zlen (List.filter is_read log).

(** A Pod the request names, in its namespace. *)
Definition requested_pod (name : string) : Prop :=
  exists ref, ref ∈ sreq_Pods req /\ trim_space (sp_Name ref) = name /\
    (trim_space (sp_Namespace ref) = "" \/ trim_space (sp_Namespace ref) = ns).

Definition pod_read log (uid : string) : Prop :=
  exists name pod, Ev (TGetPod ns name) (inl pod) ∈ log /\ om_UID (spd_Meta pod) = uid.

Definition read_justified log (ev : event scheduling_op) : Prop :=
  match ev with
  | Ev op _ =>
      match op with
      | TGetPod n name => n = ns /\ requested_pod name /\ read_count log < slm_MaxAPIRequests limits
      | TListEvents v1 n uid limit token =>
          n = ns /\ pod_read log uid /\ limit <= maxEventPage + 1 /\ read_count log < slm_MaxAPIRequests limits
      | _ => True
      end
  end.

Abbreviation all_ok := (all_justified read_justified).

Lemma limits_positive :
  0 < slm_MaxPods limits /\ 0 < slm_MaxEvents limits /\ 0 < slm_MaxPages limits /\ 0 < slm_MaxAPIRequests limits.
Proof.
  cbn. unfold positive_or, defaultSchedulingMaxPods, defaultSchedulingMaxEvents, defaultSchedulingMaxPages,
    defaultSchedulingMaxAPIRequests.
  repeat match goal with |- context [?a <=? ?b] => destruct (Z.leb_spec a b) end; lia.
Qed.

(** The budget covers the reads of the log and has kept to its limits. *)
Definition reads_budget_ok b log : Prop :=
  bg_Limits b = limits /\ read_count log <= bg_APIRequests b <= slm_MaxAPIRequests limits /\
  0 <= bg_Scanned b <= slm_MaxEvents limits.

Lemma read_count_snoc log ev : read_count (log ++ [ev]) = read_count log + if is_read ev then 1 else 0.
Proof. unfold read_count, zlen. rewrite List.filter_app, length_app. simpl. destruct (is_read ev); simpl; lia. Qed.

Lemma reads_budget_ok_quiet b log ev : is_read ev = false -> reads_budget_ok b log -> reads_budget_ok b (log ++ [ev]).
Proof. intros Hq (Hl & Hr & Hs). split; [done|]. rewrite read_count_snoc, Hq. split; [lia|done]. Qed.

(** The fields of a budget, with the limits left as they are. *)
Ltac budget := unfold reads_budget_ok, exhaust, scan_events; cbn [bg_Limits bg_APIRequests bg_Scanned bg_LastScanned bg_Exhausted fst snd].

Lemma consumeAPI_ok b log : reads_budget_ok b log ->
  let '(allowed, b') := consumeAPI b in
  reads_budget_ok b' log /\ bg_Scanned b' = bg_Scanned b /\ bg_LastScanned b' = bg_LastScanned b /\
  (allowed = true -> read_count log < slm_MaxAPIRequests limits /\
     forall ev, reads_budget_ok b' (log ++ [ev])).
Proof.
  intros (Hl & Hr & Hs). unfold consumeAPI. rewrite Hl. destruct (Z.leb_spec (slm_MaxAPIRequests limits) (bg_APIRequests b)).
  - budget. split_and!; (done || lia).
  - budget. split_and!; try (done || lia). intros _. split; [lia|]. intros ev. rewrite read_count_snoc.
    destruct (is_read ev); split_and!; (done || lia).
Qed.

Lemma pod_read_app log l uid : pod_read log uid -> pod_read (log ++ l) uid.
Proof. intros (name & pod & Hin & Hu). exists name, pod. split; [apply elem_of_app; by left|done]. Qed.

(** ** Listings *)

(** The pages of a listing from a token on, as far as the collector takes it to go: every
    page whole, up to the one without a further token, or up to an error that it takes
    for an API that is not served, after which there is nothing more. *)
Inductive listed (v1 : bool) (uid : string) : string -> list (event scheduling_op) -> list ClusterEvent -> Prop :=
| listed_end limit token page :
    pg_Continue page = "" -> zlen (pg_Items page) < limit ->
    listed v1 uid token [Ev (TListEvents v1 ns uid limit token) (inl page)] (pg_Items page)
| listed_unsupported limit token e :
    isUnsupportedEventAPI e = true -> listed v1 uid token [Ev (TListEvents v1 ns uid limit token) (inr e)] []
| listed_more limit token page l items :
    pg_Continue page <> "" -> zlen (pg_Items page) < limit -> listed v1 uid (pg_Continue page) l items ->
    listed v1 uid token (Ev (TListEvents v1 ns uid limit token) (inl page) :: l) (pg_Items page ++ items).

(** Events that are about a Pod, and about its scheduling. *)
Definition about (uid : string) (e : SchedulingEvent) : Prop :=
  sev_PodUID e = uid /\ schedulingEventReason (sev_Reason e) = true.

Lemma relevantEvents_about v1 uid items : Forall (about uid) (relevantEvents v1 uid items).
Proof.
  unfold relevantEvents. rewrite List.Forall_map. apply List.Forall_forall. intros e He.
  apply List.filter_In in He as [_ [Hr Hu%String.eqb_eq]%andb_true_iff].
  unfold about, normalizeClusterEvent. destruct v1; done.
Qed.

Lemma relevantEvents_app v1 uid items items' :
  relevantEvents v1 uid (items ++ items') = relevantEvents v1 uid items ++ relevantEvents v1 uid items'.
Proof. unfold relevantEvents. by rewrite List.filter_app, map_app. Qed.

(** What a listing leaves after [log]. *)
Definition listing_post v1 uid token (found : list SchedulingEvent) b log
    (r : EventListing * schedulingCollectionBudget) log' : Prop :=
  let '(el, b') := r in
  exists l, log' = log ++ l /\ reads_budget_ok b' log' /\ bg_Scanned b' - bg_Scanned b = bg_LastScanned b' - bg_LastScanned b /\
    (Forall (about uid) found -> Forall (about uid) (el_Events el)) /\
    (el_Truncated el = false -> supportedError (el_Error el) = None ->
       exists items, listed v1 uid token l items /\ el_Events el = found ++ relevantEvents v1 uid items).

Lemma zlen_take_le {A} (n : Z) (l : list A) : 0 <= n -> zlen (take (Z.to_nat n) l) <= n.
Proof. unfold zlen. rewrite length_take. lia. Qed.

Lemma listing_ok v1 uid pages token found b log :
  all_ok log -> reads_budget_ok b log -> pod_read log uid ->
  wp log_env all_ok (listSchedulingEventsFrom v1 ns uid pages token found b) log (listing_post v1 uid token found b log).
Proof.
  revert token found b log. induction pages as [|pages IH]; intros token found b log Hok Hb Hp; cbn [listSchedulingEventsFrom].
  { apply wp_ret; [done|]. exists []. rewrite app_nil_r. split_and!; [done|done|lia|done|done]. }
  pose proof (consumeAPI_ok b log Hb) as Hc. destruct (consumeAPI b) as [allowed b1]. destruct Hc as (Hb1 & Hs1 & Hl1 & Hallowed).
  assert (Hstop : forall b', reads_budget_ok b' log -> bg_Scanned b' = bg_Scanned b -> bg_LastScanned b' = bg_LastScanned b ->
    wp log_env all_ok (Ret (mkEventListing found true None, b')) log (listing_post v1 uid token found b log)).
  { intros b' Hb' Hs' Hl'. apply wp_ret; [done|]. exists []. rewrite app_nil_r. split_and!; [done|done|lia|done|done]. }
  destruct allowed; [|by apply Hstop]. destruct (Hallowed eq_refl) as [Hcount Hnext]. cbn [negb].
  assert (Hlim : bg_Limits b1 = limits) by apply Hb1. rewrite Hlim.
  destruct (Z.leb_spec (slm_MaxEvents limits - bg_Scanned b1) 0) as [|Hroom].
  { apply Hstop; [|done|done]. destruct Hb1 as (? & ? & ?). budget. split_and!; (done || lia). }
  set (pageLimit := Z.min _ maxEventPage). assert (Hpos : 0 < pageLimit <= slm_MaxEvents limits - bg_Scanned b1).
  { subst pageLimit. unfold maxEventPage. lia. }
  apply wp_event; [done| |].
  { intros x. split_and!; [done|done|subst pageLimit; unfold maxEventPage; lia|done]. }
  intros [page|e] Hok1.
  2: { apply wp_ret; [done|]. eexists. split_and!; [done|apply Hnext|lia|done|]. cbn [el_Truncated el_Error el_Events].
       intros _. unfold supportedError. destruct (isUnsupportedEventAPI e) eqn:He; [|done]. intros _. exists []. split; [by constructor|].
       by rewrite app_nil_r. }
  set (ev := Ev (TListEvents v1 ns uid (pageLimit + 1) token) (inl page)) in *. cbn zeta.
  assert (Hscan : forall n, 0 <= n <= pageLimit -> reads_budget_ok (scan_events n b1) (log ++ [ev])).
  { intros n Hn. destruct (Hnext ev) as (? & ? & ?). budget. split_and!; (done || lia). }
  destruct (Z.ltb_spec pageLimit (zlen (pg_Items page))) as [Hover|Hfit].
  { apply wp_ret; [done|]. eexists. split_and!; [done|apply Hscan; lia|budget; lia| |done].
    intros Hf. apply Forall_app_2; [done|apply relevantEvents_about]. }
  pose proof (zlen_nonneg (pg_Items page)). specialize (Hscan (zlen (pg_Items page)) ltac:(lia)).
  destruct (pg_Continue page == "") eqn:Hcont.
  - apply String.eqb_eq in Hcont. apply wp_ret; [done|]. eexists. split_and!; [done|done|budget; lia| |].
    + intros Hf. apply Forall_app_2; [done|apply relevantEvents_about].
    + intros _ _. exists (pg_Items page). split; [|done]. constructor; [done|lia].
  - eapply wp_mono; [|apply IH; [done|done|by apply pod_read_app]].
    intros [el b'] log' _ (l & -> & Hb' & Hs' & Hab & Hend). exists (ev :: l). rewrite <- app_assoc.
    split_and!; [done|by rewrite <- app_assoc in Hb'|unfold scan_events in Hs'; cbn [bg_Scanned bg_LastScanned] in Hs'; lia| |].
    + intros Hf. apply Hab. apply Forall_app_2; [done|apply relevantEvents_about].
    + intros Ht He. destruct (Hend Ht He) as (items & Hl & Heq). exists (pg_Items page ++ items). split.
      * apply listed_more; [by apply String.eqb_neq|lia|done].
      * by rewrite Heq, relevantEvents_app, app_assoc.
Qed.

(** ** Records *)

Definition read_to_end log v1 uid (items : list ClusterEvent) : Prop :=
  exists before l after, log = before ++ l ++ after /\ listed v1 uid "" l items.

(** The two ways a listing comes to its end: a last page without any error, or an
    answer that is taken for an API that is not served (any NotFound is). *)
Inductive paged (v1 : bool) (uid : string) : string -> list (event scheduling_op) -> Prop :=
| paged_end limit token page :
    pg_Continue page = "" -> zlen (pg_Items page) < limit ->
    paged v1 uid token [Ev (TListEvents v1 ns uid limit token) (inl page)]
| paged_more limit token page l :
    pg_Continue page <> "" -> zlen (pg_Items page) < limit -> paged v1 uid (pg_Continue page) l ->
    paged v1 uid token (Ev (TListEvents v1 ns uid limit token) (inl page) :: l).
Definition paged_to_end log v1 uid : Prop := exists before l after, log = before ++ l ++ after /\ paged v1 uid "" l.
Definition unserved log v1 uid : Prop :=
  exists limit token e, Ev (TListEvents v1 ns uid limit token) (inr e) ∈ log /\ isUnsupportedEventAPI e = true.

Lemma listed_paged v1 uid token l items : listed v1 uid token l items ->
  paged v1 uid token l \/
  exists limit token e, Ev (TListEvents v1 ns uid limit token) (inr e) ∈ l /\ isUnsupportedEventAPI e = true.
Proof.
  induction 1 as [limit token page H1 H2|limit token e He|limit token page l items H1 H2 _ [IH|(lim & t & e & Hin & He)]].
  - left. by apply paged_end.
  - right. exists limit, token, e. split; [left|done].
  - left. by apply paged_more.
  - right. exists lim, t, e. split; [by right|done].
Qed.

Lemma read_to_end_cases log v1 uid items :
  read_to_end log v1 uid items -> paged_to_end log v1 uid \/ unserved log v1 uid.
Proof.
  intros (before & l & after & -> & [H|(lim & t & e & Hin & He)]%listed_paged).
  - left. by exists before, l, after.
  - right. exists lim, t, e. split; [|done]. apply elem_of_app. right. apply elem_of_app. by left.
Qed.

(** A record of a Pod that was read, before its events are. *)
Definition just_read log (r : SchedulingEvidence) : Prop := pod_read log (se_PodUID r) /\ se_Events r = [].

(** A record whose Pod was read and whose events are those both APIs have about it,
    read to the end, none of them outside the incident. *)
Definition fully_collected log (r : SchedulingEvidence) : Prop :=
  pod_read log (se_PodUID r) /\
  exists core v1, read_to_end log false (se_PodUID r) core /\ read_to_end log true (se_PodUID r) v1 /\
    se_Events r = map (markStale r)
      (recordEvents r (relevantEvents false (se_PodUID r) core ++ relevantEvents true (se_PodUID r) v1)) /\
    Forall (fun e => sev_Stale e = false) (se_Events r).

Lemma fully_collected_cases log r v1 :
  fully_collected log r -> paged_to_end log v1 (se_PodUID r) \/ unserved log v1 (se_PodUID r).
Proof. intros (_ & core & v & Hc & Hv & _). destruct v1; by eapply read_to_end_cases. Qed.

Lemma read_to_end_app log l v1 uid items : read_to_end log v1 uid items -> read_to_end (log ++ l) v1 uid items.
Proof. intros (before & m & after & -> & Hm). exists before, m, (after ++ l). by rewrite <- !app_assoc. Qed.

Lemma fully_collected_app log l r : fully_collected log r -> fully_collected (log ++ l) r.
Proof.
  intros (Hp & core & v1 & Hc & Hv & He & Hs). split; [by apply pod_read_app|]. exists core, v1.
  split_and!; [by apply read_to_end_app|by apply read_to_end_app|done|done].
Qed.

Definition record_ok log (pending : list nat) (i : nat) (r : SchedulingEvidence) : Prop :=
  1 <= coverageRank (se_Coverage r) /\ Forall (about (se_PodUID r)) (se_Events r) /\
  (se_Coverage r = SchedulingCoverageComplete -> (i ∈ pending -> just_read log r) /\ (i ∉ pending -> fully_collected log r)).

Lemma record_ok_app log l pending i r : record_ok log pending i r -> record_ok (log ++ l) pending i r.
Proof.
  intros (Hr & Ha & Hc). split_and!; [done|done|]. intros H. destruct (Hc H) as [Hf Hd]. split.
  - intros Hi. destruct (Hf Hi) as [Hp He]. split; [by apply pod_read_app|done].
  - intros Hi. by apply fully_collected_app, Hd.
Qed.

Lemma deduplicate_elem e seenUID seenFingerprint events : e ∈ deduplicateFrom seenUID seenFingerprint events -> e ∈ events.
Proof.
  revert seenUID seenFingerprint. induction events as [|x events IH]; intros su sf; cbn [deduplicateFrom]; [done|].
  destruct (_ && _); [intros H; right; by eapply IH|]. cbn zeta. destruct (mem_str _ sf); [intros H; right; by eapply IH|].
  intros [->|H]%elem_of_cons; [by left|right; by eapply IH].
Qed.

Lemma recordEvents_elem r e events : e ∈ recordEvents r events -> e ∈ events.
Proof. intros H%deduplicate_elem. by apply sort_stable_elem in H. Qed.

Lemma markStale_about uid r e : about uid e -> about uid (markStale r e).
Proof. done. Qed.

(** A failure of a listing is never complete, and keeps the Pod and the events. *)
Lemma source_failure e r :
  let r' := applySchedulingSourceFailure e r in
  se_PodUID r' = se_PodUID r /\ se_Events r' = se_Events r /\ se_IncidentStart r' = se_IncidentStart r /\
  se_IncidentEnd r' = se_IncidentEnd r /\ (1 <= coverageRank (se_Coverage r) -> 1 <= coverageRank (se_Coverage r')) /\
  (se_Coverage r' = SchedulingCoverageComplete -> e = None /\ se_Coverage r = SchedulingCoverageComplete).
Proof.
  destruct e as [e|]; cbn; [|by split_and!]. split_and!; [done..| |].
  - intros _. unfold failureCoverage. destruct (is_auth_error e), (isContextFailure e); done.
  - unfold failureCoverage. destruct (is_auth_error e), (isContextFailure e); done.
Qed.

(** A field of a record whose coverage was changed. *)
Ltac coverage_fields :=
  cbn [with_coverage cover se_PodUID se_Coverage se_CoverageReason se_Events se_IncidentStart se_IncidentEnd se_Truncated se_Stale fst snd].

(** What a step may do to a record: its Pod and events stay, and it is Complete after the
    step only if it was before. *)
Definition kept_by (complete : Prop) (r r' : SchedulingEvidence) : Prop :=
  se_PodUID r' = se_PodUID r /\ se_Events r' = se_Events r /\ markStale r' = markStale r /\
  recordEvents r' = recordEvents r /\ (1 <= coverageRank (se_Coverage r) -> 1 <= coverageRank (se_Coverage r')) /\
  (se_Coverage r' = SchedulingCoverageComplete -> complete /\ se_Coverage r = SchedulingCoverageComplete).

Lemma source_failure_kept e r : kept_by (e = None) r (applySchedulingSourceFailure e r).
Proof.
  destruct (source_failure e r) as (Hu & He & Hs & Hn & Hr & Hc). split_and!; try done.
  - unfold markStale. by rewrite Hs, Hn.
  - unfold recordEvents. by rewrite Hs, Hn.
Qed.

Lemma coverShort_kept r : kept_by False r (coverShort r).
Proof.
  unfold coverShort. destruct (_ == _) eqn:He; (split_and!; [done..| |]); coverage_fields; try done.
  intros H. by rewrite H in He.
Qed.

Lemma coverStale_kept r : kept_by (existsb sev_Stale (se_Events r) = false) r (coverStale r).
Proof.
  unfold coverStale. destruct (_ && _) eqn:He; (split_and!; [done..| |]); coverage_fields; try done.
  intros H. rewrite H in He. by split.
Qed.

Lemma withEvents_ok lim r events :
  se_Events r = [] -> Forall (about (se_PodUID r)) events -> 1 <= coverageRank (se_Coverage r) ->
  let r' := fst (withEvents lim r events) in
  se_PodUID r' = se_PodUID r /\ markStale r' = markStale r /\ recordEvents r' = recordEvents r /\
  1 <= coverageRank (se_Coverage r') /\ Forall (about (se_PodUID r)) (se_Events r') /\
  (se_Coverage r' = SchedulingCoverageComplete ->
     se_Coverage r = SchedulingCoverageComplete /\ se_Events r' = map (markStale r) (recordEvents r events)).
Proof.
  intros He Ha Hr. unfold withEvents. rewrite He. cbn [app].
  assert (Hkept : forall kept, (forall e, e ∈ kept -> e ∈ recordEvents r events) -> Forall (about (se_PodUID r)) (map (markStale r) kept)).
  { intros kept Hk. apply Forall_forall. intros e (x & -> & Hx)%list_elem_of_fmap. apply markStale_about.
    rewrite Forall_forall in Ha. by apply Ha, (recordEvents_elem r), Hk. }
  destruct (_ <? _); cbn [fst]; (split_and!; [done..| |]); coverage_fields; try done; [|by apply Hkept].
  apply Hkept. intros e Hx. apply elem_of_take in Hx as (i & Hi & _). by apply list_elem_of_lookup_2 in Hi.
Qed.

Lemma recordWithEvents_ok lim r core v1 exhausted :
  se_Events r = [] -> se_Coverage r = SchedulingCoverageComplete ->
  Forall (about (se_PodUID r)) (el_Events core) -> Forall (about (se_PodUID r)) (el_Events v1) ->
  let r' := fst (recordWithEvents lim r core v1 exhausted) in
  se_PodUID r' = se_PodUID r /\ 1 <= coverageRank (se_Coverage r') /\ Forall (about (se_PodUID r)) (se_Events r') /\
  (se_Coverage r' = SchedulingCoverageComplete ->
     supportedError (el_Error core) = None /\ supportedError (el_Error v1) = None /\
     el_Truncated core = false /\ el_Truncated v1 = false /\
     se_Events r' = map (markStale r') (recordEvents r' (el_Events core ++ el_Events v1)) /\
     Forall (fun e => sev_Stale e = false) (se_Events r')).
Proof.
  intros He Hc Hcore Hv1. unfold recordWithEvents, afterFailures.
  destruct (source_failure_kept (supportedError (el_Error core)) r) as (Hu1 & He1 & _ & _ & Hr1 & Hf1).
  set (r1 := applySchedulingSourceFailure (supportedError (el_Error core)) r) in *. clearbody r1.
  destruct (source_failure_kept (supportedError (el_Error v1)) r1) as (Hu2 & He2 & _ & _ & Hr2 & Hf2).
  set (r2 := applySchedulingSourceFailure (supportedError (el_Error v1)) r1) in *. clearbody r2.
  destruct (withEvents_ok lim r2 (el_Events core ++ el_Events v1)) as (Hu3 & Hm3 & Hre3 & Hr3 & Ha3 & Hf3).
  { congruence. }
  { apply Forall_app. split; by rewrite Hu2, Hu1. }
  { apply Hr2, Hr1. by rewrite Hc. }
  destruct (withEvents lim r2 _) as [r3 over]. cbn [fst] in *. set (short := el_Truncated core || el_Truncated v1 || exhausted).
  assert (H4 : kept_by (short = false) r3 (if short then coverShort r3 else r3)).
  { destruct short; [|by split_and!]. destruct (coverShort_kept r3) as (? & ? & ? & ? & ? & Hno). split_and!; try done. by intros [[] _]%Hno. }
  set (r4 := if short then coverShort r3 else r3) in *. clearbody r4. destruct H4 as (Hu4 & He4 & Hm4 & Hre4 & Hr4 & Hf4).
  destruct (coverStale_kept r4) as (Hu5 & He5 & Hm5 & Hre5 & Hr5 & Hf5). split_and!.
  - congruence.
  - auto.
  - rewrite He5, He4. by rewrite <- Hu1, <- Hu2.
  - intros H. destruct (Hf5 H) as [Hst H4c]. destruct (Hf4 H4c) as [Hsh H3c]. destruct (Hf3 H3c) as [H2c Hev].
    destruct (Hf2 H2c) as [Hn2 H1c]. destruct (Hf1 H1c) as [Hn1 _]. subst short.
    apply orb_false_iff in Hsh as [[Ht1 Ht2]%orb_false_iff _]. split_and!; [done|done|done|done| |].
    + rewrite He5, He4, Hev, Hm5, Hm4, Hm3, Hre5, Hre4, Hre3. done.
    + rewrite He5. apply Forall_forall. intros e Hin. by apply (existsb_none sev_Stale _ e Hst).
Qed.

(** ** The state of a collection *)

Definition state_ok (pending : list nat) (s : CollectorState) log : Prop :=
  reads_budget_ok (col_Budget s) log /\ col_ScannedEvents s + bg_LastScanned (col_Budget s) = bg_Scanned (col_Budget s) /\
  NoDup pending /\ (forall i, i ∈ pending -> (i < length (col_Evidence s))%nat) /\
  forall i r, col_Evidence s !! i = Some r -> record_ok log pending i r.

(** What an answer may claim, for [n] Pods. *)
Definition answer_ok (n : nat) (answer : SchedulingEvidenceResult * option SchedulingCollectionError) log : Prop :=
  let '(result, failure) := answer in
  read_count log <= ser_APIRequests result <= slm_MaxAPIRequests limits /\
  ser_ScannedEvents result <= slm_MaxEvents limits /\ (length (ser_Evidence result) <= n)%nat /\
  (failure = None -> length (ser_Evidence result) = n) /\
  (forall r, r ∈ ser_Evidence result ->
     Forall (about (se_PodUID r)) (se_Events r) /\ (se_Coverage r = SchedulingCoverageComplete -> fully_collected log r)) /\
  (ser_Coverage result = SchedulingCoverageComplete ->
     ser_Truncated result = false /\ forall r, r ∈ ser_Evidence result -> se_Coverage r = SchedulingCoverageComplete).

Lemma coverageRank_complete coverage : coverageRank coverage = 1 -> coverage = SchedulingCoverageComplete.
Proof. unfold coverageRank. repeat case_match; try done. intros _. by apply String.eqb_eq. Qed.

Lemma worst_from best evidence :
  let final := fold_left (fun best r => if coverageRank (fst best) <? coverageRank (se_Coverage r) then (se_Coverage r, se_CoverageReason r) else best)
                 evidence best in
  coverageRank (fst best) <= coverageRank (fst final) /\
  forall r, r ∈ evidence -> coverageRank (se_Coverage r) <= coverageRank (fst final).
Proof.
  revert best. induction evidence as [|x evidence IH]; intros best; cbn [fold_left].
  - split; [lia|]. intros r Hr. by apply elem_of_nil in Hr.
  - match goal with |- context [fold_left ?f evidence ?b] => specialize (IH b); set (next := b) in * end. cbn zeta in IH.
    assert (Hnext : coverageRank (fst best) <= coverageRank (fst next) /\ coverageRank (se_Coverage x) <= coverageRank (fst next)).
    { subst next. destruct (Z.ltb_spec (coverageRank (fst best)) (coverageRank (se_Coverage x))); cbn [fst]; lia. }
    destruct IH as [H1 H2]. split; [lia|]. intros r [->|Hr]%elem_of_cons; [lia|by apply H2].
Qed.

(** The whole is complete only when every record is and nothing was cut. *)
Lemma summary_complete evidence truncated :
  (forall r, r ∈ evidence -> 1 <= coverageRank (se_Coverage r)) ->
  fst (summarizeSchedulingCoverage evidence truncated) = SchedulingCoverageComplete ->
  truncated = false /\ forall r, r ∈ evidence -> se_Coverage r = SchedulingCoverageComplete.
Proof.
  intros Hrank. unfold summarizeSchedulingCoverage. destruct evidence as [|x evidence].
  { destruct truncated; [done|]. intros _. split; [done|]. intros r Hr. by apply elem_of_nil in Hr. }
  pose proof (worst_from (SchedulingCoverageComplete, "") (x :: evidence)) as Hw. cbn zeta in Hw. unfold worstCoverage.
  destruct (fold_left _ (x :: evidence) _) as [best reason]. cbn [fst] in Hw.
  destruct (truncated && _) eqn:Ht; [done|]. cbn [fst]. intros ->. destruct Hw as [_ Hw]. split.
  - apply andb_false_iff in Ht as [Ht|Ht]; [done|by vm_compute in Ht].
  - intros r Hr. apply coverageRank_complete. specialize (Hw r Hr). specialize (Hrank r Hr).
    change (coverageRank SchedulingCoverageComplete) with 1 in Hw. lia.
Qed.

Lemma finalize_ok n s log failure :
  state_ok [] s log -> (length (col_Evidence s) <= n)%nat -> (failure = None -> length (col_Evidence s) = n) ->
  0 <= bg_LastScanned (col_Budget s) ->
  answer_ok n (finalizeSchedulingEvidence s, failure) log.
Proof.
  intros ((Hl & Hreq & Hsc) & Hsum & _ & _ & Hrec) Hn Hnone Hlast. unfold finalizeSchedulingEvidence.
  set (truncated := col_Cut s || bg_Exhausted (col_Budget s)).
  assert (Hin : forall r, r ∈ col_Evidence s -> exists i, record_ok log [] i r).
  { intros r [i Hi]%list_elem_of_lookup. exists i. by apply Hrec. }
  assert (Hrank : forall r, r ∈ col_Evidence s -> 1 <= coverageRank (se_Coverage r)).
  { intros r Hr. destruct (Hin r Hr) as (i & H & _). done. }
  pose proof (summary_complete (col_Evidence s) truncated Hrank) as Hsummary.
  destruct (summarizeSchedulingCoverage (col_Evidence s) truncated) as [coverage reason]. cbn [fst] in Hsummary.
  unfold answer_ok. cbn [ser_APIRequests ser_ScannedEvents ser_Evidence ser_Coverage ser_Truncated].
  split_and!; [lia..|done|done| |done].
  intros r Hr. destruct (Hin r Hr) as (i & _ & Ha & Hc). split; [done|]. intros H. destruct (Hc H) as [_ Hd]. apply Hd.
  intros Hi. by apply elem_of_nil in Hi.
Qed.

(** After a failure no record claims to be complete. *)
Lemma stopped_ok n pending s log coverage reason failure :
  state_ok pending s log -> (length (col_Evidence s) <= n)%nat -> 0 <= bg_LastScanned (col_Budget s) ->
  1 < coverageRank coverage -> answer_ok n (stopped s coverage reason failure) log.
Proof.
  intros (Hb & Hsum & _ & _ & Hrec) Hn Hlast Hrank. unfold stopped.
  apply finalize_ok; cbn [set_evidence col_Evidence col_Budget]; [|unfold markSchedulingCoverage; by rewrite length_map|done|done].
  split_and!; [done|done|by apply NoDup_nil_2|intros i Hi; by apply elem_of_nil in Hi|].
  cbn [set_evidence col_Evidence]. intros i r Hi. unfold markSchedulingCoverage in Hi. rewrite list_lookup_fmap in Hi.
  destruct (col_Evidence s !! i) as [x|] eqn:Hx; [|done]. apply (inj Some) in Hi. subst r. destruct (Hrec i x Hx) as (Hr & Ha & _).
  unfold markCollected. destruct (mem_str (se_Coverage x) [SchedulingCoverageComplete; SchedulingCoveragePartial]) eqn:Hm.
  - split_and!; [coverage_fields; lia|done|]. coverage_fields. intros ->. by vm_compute in Hrank.
  - split_and!; [done|done|]. intros H. rewrite H in Hm. done.
Qed.

(** ** The loops *)

Lemma add_record_ok pending s log log' r :
  state_ok pending s log -> (exists l, log' = log ++ l) -> reads_budget_ok (col_Budget s) log' ->
  1 <= coverageRank (se_Coverage r) -> se_Coverage r <> SchedulingCoverageComplete -> se_Events r = [] ->
  state_ok pending (add_record s r) log'.
Proof.
  intros (_ & Hsum & Hnd & Hlt & Hrec) [l ->] Hb Hrank Hne Hev. split_and!; [done|done|done| |].
  - intros i Hi. cbn. rewrite length_app. specialize (Hlt i Hi). lia.
  - intros i x Hx. cbn in Hx. apply lookup_app_Some in Hx as [Hx|[Hge Hx]]; [by apply record_ok_app, Hrec|].
    apply list_lookup_singleton_Some in Hx as [_ <-]. split_and!; [done|by rewrite Hev|done].
Qed.

(** A budget that changed, or a log that grew by something that is no read. *)
Lemma state_ok_quiet pending s log ev : is_read ev = false -> state_ok pending s log -> state_ok pending s (log ++ [ev]).
Proof.
  intros Hq (Hb & Hsum & Hnd & Hlt & Hrec). split_and!; [by apply reads_budget_ok_quiet|done|done|done|].
  intros i r Hi. by apply record_ok_app, Hrec.
Qed.

Lemma state_ok_budget pending s log b :
  reads_budget_ok b log -> bg_Scanned b = bg_Scanned (col_Budget s) -> bg_LastScanned b = bg_LastScanned (col_Budget s) ->
  state_ok pending s log -> state_ok pending (with_budget s b) log.
Proof.
  intros Hb Hs Hl (_ & Hsum & Hnd & Hlt & Hrec). split_and!; [done|cbn; lia|done|done|done].
Qed.

Lemma budgetRecords_ok pending refs s log :
  all_ok log -> state_ok pending s log ->
  wp log_env all_ok (budgetRecords refs s) log (fun s' log' =>
    state_ok pending s' log' /\ col_Valid s' = col_Valid s /\ bg_LastScanned (col_Budget s') = bg_LastScanned (col_Budget s) /\
    length (col_Evidence s') = (length (col_Evidence s) + length refs)%nat).
Proof.
  revert s log. induction refs as [|ref refs IH]; intros s log Hok Hs; cbn [budgetRecords].
  { apply wp_ret; [done|]. split_and!; [done|done|done|simpl; lia]. }
  apply wp_event; [done|done|]. intros now Hok'.
  eapply wp_mono; [|apply IH; [done|apply (add_record_ok _ _ log); [done|by eexists|apply reads_budget_ok_quiet; [done|apply Hs]|done..]]].
  intros s' log' _ (H1 & H2 & H3 & H4). split_and!; [done|done|done|]. rewrite H4. cbn. rewrite length_app. simpl. lia.
Qed.

(** The answer of a failure to read a Pod. *)
Lemma podFailed_ok n pending s ref e log :
  all_ok log -> state_ok pending s log -> (length (col_Evidence s) < n)%nat -> 0 <= bg_LastScanned (col_Budget s) ->
  wp log_env all_ok (podFailed s ref e) log (fun answer log' => answer_ok n answer log' /\ snd answer <> None).
Proof.
  intros Hok Hs Hn Hlast.
  assert (Hstop : forall log' coverage reason now failure, (exists l, log' = log ++ l) -> all_ok log' ->
    state_ok pending s log' -> 1 < coverageRank coverage ->
    wp log_env all_ok (Ret (stopped (add_record s (unavailableSchedulingEvidence ref coverage reason now)) coverage reason failure)) log'
      (fun answer log' => answer_ok n answer log' /\ snd answer <> None)).
  { intros log' coverage reason now failure Hl Hok' Hs' Hrank. apply wp_ret; [done|]. split; [|done].
    apply (stopped_ok _ pending); [|cbn; rewrite length_app; simpl; lia|done|done].
    apply (add_record_ok _ _ log'); [done|exists []; by rewrite app_nil_r|apply Hs'|cbn; lia| |done].
    cbn. intros ->. by vm_compute in Hrank. }
  unfold podFailed. destruct (is_auth_error e).
  { apply wp_event; [done|done|]. intros now Hok'. apply Hstop; [by eexists|done|by apply state_ok_quiet|done]. }
  apply (wp_bind_log _ _ _ _ (fun _ log' => state_ok pending s log')).
  { destruct (isContextFailure e); [by apply wp_ret|]. apply wp_event; [done|done|]. intros ctx Hok'.
    apply wp_ret; [done|by apply state_ok_quiet]. }
  intros timedOut log' Hok' [l ->] Hs'. destruct timedOut.
  - apply wp_event; [done|done|]. intros now Hok2. apply wp_event; [done|done|]. intros ctx Hok3.
    apply Hstop; [rewrite <- !app_assoc; by eexists|done|by apply state_ok_quiet, state_ok_quiet|done].
  - apply wp_event; [done|done|]. intros now Hok2. apply Hstop; [rewrite <- app_assoc; by eexists|done|by apply state_ok_quiet|done].
Qed.

(** A record of the Pod just read, pending until its events are. *)
Lemma fresh_record_ok s log name pod now :
  state_ok (col_Valid s) s log -> Ev (TGetPod ns name) (inl pod) ∈ log -> reads_budget_ok (col_Budget s) log ->
  let s' := mkCollectorState (col_Evidence s ++ [normalizeSchedulingPod pod (sreq_StartTime req) (sreq_EndTime req) now])
              (col_Valid s ++ [length (col_Evidence s)]) (col_ScannedPods s) (col_ScannedEvents s) (col_Cut s) (col_Budget s) in
  state_ok (col_Valid s') s' log.
Proof.
  intros (_ & Hsum & Hnd & Hlt & Hrec) Hpod Hb. split_and!; [done|done| | |]; cbn.
  - apply NoDup_app. split_and!; [done| |apply NoDup_singleton]. intros i Hi ->%list_elem_of_singleton. specialize (Hlt _ Hi). lia.
  - intros i [Hi| ->%list_elem_of_singleton]%elem_of_app; rewrite length_app; simpl; [specialize (Hlt i Hi)|]; lia.
  - intros i x Hx. apply lookup_app_Some in Hx as [Hx|[Hge Hx]].
    + destruct (Hrec i x Hx) as (Hr & Ha & Hc). split_and!; [done|done|]. intros H. destruct (Hc H) as [Hf Hd]. split.
      * intros [Hi| ->%list_elem_of_singleton]%elem_of_app; [by apply Hf|]. apply lookup_lt_Some in Hx. lia.
      * intros Hi. apply Hd. intros Hi'. apply Hi, elem_of_app. by left.
    + apply list_lookup_singleton_Some in Hx as [Heq <-].
      assert (Hi : i = length (col_Evidence s)) by lia. subst i.
      unfold normalizeSchedulingPod. destruct (normalizeContainerResources (spd_Containers pod)), (normalizeInitResources (spd_InitContainers pod)).
      split_and!; [done|by apply Forall_nil|]. intros _. split.
      * intros _. split; [by exists name, pod|done].
      * intros Hi. destruct Hi. apply elem_of_app. right. by apply list_elem_of_singleton.
Qed.

Lemma readPods_ok refs s log n :
  all_ok log -> state_ok (col_Valid s) s log -> bg_LastScanned (col_Budget s) = 0 ->
  (forall ref, ref ∈ refs -> requested_pod (sp_Name ref)) -> n = (length (col_Evidence s) + length refs)%nat ->
  wp log_env all_ok (readPods req refs s) log (fun r log' =>
    match r with
    | inl s' => state_ok (col_Valid s') s' log' /\ bg_LastScanned (col_Budget s') = 0 /\ length (col_Evidence s') = n
    | inr answer => answer_ok n answer log' /\ snd answer <> None
    end).
Proof.
  revert s log. induction refs as [|ref refs IH]; intros s log Hok Hs Hlast Href ->; cbn [readPods].
  { apply wp_ret; [done|]. split_and!; [done|done|simpl; lia]. }
  pose proof (consumeAPI_ok (col_Budget s) log ltac:(apply Hs)) as Hc.
  destruct (consumeAPI (col_Budget s)) as [allowed b] eqn:Hcons. destruct Hc as (Hb & Hbs & Hbl & Hallowed).
  assert (Hs1 : state_ok (col_Valid s) (with_budget s b) log) by by apply state_ok_budget.
  destruct allowed; cbn [negb].
  2: { apply (wp_bind_log _ _ _ _ (fun s' log' => state_ok (col_Valid s) s' log' /\ col_Valid s' = col_Valid s /\
          bg_LastScanned (col_Budget s') = bg_LastScanned b /\ length (col_Evidence s') = (length (col_Evidence s) + length (ref :: refs))%nat)).
       - apply (budgetRecords_ok (col_Valid s) (ref :: refs) (mark_cut (with_budget s b))); [done|exact Hs1].
       - intros s' log' Hok' _ (H1 & H2 & H3 & H4). apply wp_ret; [done|]. rewrite H2. split_and!; [done|congruence|done]. }
  destruct (Hallowed eq_refl) as [Hcount Hnext]. apply wp_event; [done| |].
  { intros x. split_and!; [done|apply Href; by left|done]. }
  intros got Hok1. set (ev := Ev (TGetPod ns (sp_Name ref)) got) in *.
  assert (Hs2 : state_ok (col_Valid s) (with_budget s b) (log ++ [ev])).
  { destruct Hs1 as (_ & H2 & H3 & H4 & H5). split_and!; [apply Hnext|done|done|done|]. intros i r Hi. by apply record_ok_app, H5. }
  assert (Hrefs : forall r, r ∈ refs -> requested_pod (sp_Name r)) by (intros r Hr; apply Href; by right).
  assert (Hskip : forall s' log' coverage reason now, state_ok (col_Valid s') s' log' -> all_ok log' ->
    bg_LastScanned (col_Budget s') = 0 -> length (col_Evidence s') = length (col_Evidence s) ->
    1 <= coverageRank coverage -> coverage <> SchedulingCoverageComplete ->
    wp log_env all_ok (readPods req refs (add_record s' (unavailableSchedulingEvidence ref coverage reason now))) log' (fun r log' =>
      match r with
      | inl s' => state_ok (col_Valid s') s' log' /\ bg_LastScanned (col_Budget s') = 0 /\
                  length (col_Evidence s') = (length (col_Evidence s) + length (ref :: refs))%nat
      | inr answer => answer_ok (length (col_Evidence s) + length (ref :: refs)) answer log' /\ snd answer <> None
      end)).
  { intros s' log' coverage reason now Hs' Hok' Hl' Hlen Hrank Hne. apply IH; [done| |done|done|].
    - apply (add_record_ok _ _ log'); [done|exists []; by rewrite app_nil_r|apply Hs'|done..].
    - cbn. rewrite length_app, Hlen. simpl. lia. }
  destruct got as [pod|e].
  - apply wp_event; [done|done|]. intros now Hok2. destruct (_ && _).
    { apply Hskip; [|done|cbn; congruence|done|done|done]. apply state_ok_quiet; [done|]. destruct Hs2 as (H1 & H2 & H3 & H4 & H5). by split_and!. }
    apply IH; [done| |cbn; congruence|done|cbn; rewrite length_app; simpl; lia].
    apply (fresh_record_ok (mkCollectorState (col_Evidence s) (col_Valid s) (col_ScannedPods s + 1) (col_ScannedEvents s) (col_Cut s) b)
             ((log ++ [ev]) ++ [Ev TNow now]) (sp_Name ref)).
    + apply state_ok_quiet; [done|]. destruct Hs2 as (H1 & H2 & H3 & H4 & H5). by split_and!.
    + apply elem_of_app. left. apply snoc_elem.
    + apply reads_budget_ok_quiet; [done|]. apply Hs2.
  - case_bool_decide.
    { apply wp_event; [done|done|]. intros now Hok2. apply Hskip; [by apply state_ok_quiet|done|cbn; congruence|done|done|done]. }
    apply (wp_bind_log _ _ _ _ (fun answer log' => answer_ok (length (col_Evidence s) + length (ref :: refs)) answer log' /\ snd answer <> None)).
    { apply (podFailed_ok _ (col_Valid s)); [done|done|cbn; lia|cbn; lia]. }
    intros answer log' Hok' _ Ha. by apply wp_ret.
Qed.

Lemma drop_pending i rest s log :
  state_ok (i :: rest) s log -> (forall r, col_Evidence s !! i = Some r -> se_Coverage r <> SchedulingCoverageComplete) ->
  state_ok rest s log.
Proof.
  intros (Hb & Hsum & Hnd & Hlt & Hrec) Hi. split_and!; [done|done|by inversion Hnd|intros j Hj; apply Hlt; by right|].
  intros j r Hj. destruct (Hrec j r Hj) as (Hr & Ha & Hc). split_and!; [done|done|]. intros H. destruct (Hc H) as [Hf Hd]. split.
  - intros Hin. apply Hf. by right.
  - intros Hin. apply Hd. intros [->|Hin']%elem_of_cons; [by apply (Hi r Hj)|done].
Qed.

Lemma stopAfter_ok pending s log coreErr v1Err :
  all_ok log -> state_ok pending s log ->
  wp log_env all_ok (stopAfter coreErr v1Err) log (fun r log' =>
    state_ok pending s log' /\ match r with Some (coverage, _, _) => 1 < coverageRank coverage | None => True end).
Proof.
  intros Hok Hs. unfold stopAfter. destruct (match coreErr with Some e => Some e | None => v1Err end) as [first|]; [|by apply wp_ret].
  apply (wp_bind_log _ _ _ _ (fun _ log' => state_ok pending s log')).
  { destruct (_ || _); [by apply wp_ret|]. apply wp_event; [done|done|]. intros ctx Hok'. apply wp_ret; [done|by apply state_ok_quiet]. }
  intros timedOut log' Hok' _ Hs'. destruct timedOut.
  - apply wp_event; [done|done|]. intros ctx Hok2. apply wp_ret; [done|]. split; [by apply state_ok_quiet|done].
  - destruct (_ || _); by apply wp_ret.
Qed.

(** The state after the events of the record at [i] were read. *)
Lemma collected_record_ok i rest s r log l1 l2 core v1 b1 b2 :
  state_ok (i :: rest) s log -> col_Evidence s !! i = Some r -> se_Coverage r = SchedulingCoverageComplete ->
  listing_post false (se_PodUID r) "" [] (col_Budget s) log (core, b1) (log ++ l1) ->
  listing_post true (se_PodUID r) "" [] b1 (log ++ l1) (v1, b2) ((log ++ l1) ++ l2) ->
  bg_LastScanned (col_Budget s) = 0 ->
  let '(r', short) := recordWithEvents (bg_Limits b2) r core v1 (bg_Exhausted b2) in
  state_ok rest (mkCollectorState (<[i := r']> (col_Evidence s)) (col_Valid s) (col_ScannedPods s)
                   (col_ScannedEvents s + bg_LastScanned b2) (col_Cut s || short) (forget_last b2)) ((log ++ l1) ++ l2).
Proof.
  intros (Hb & Hsum & Hnd & Hlt & Hrec) Hi Hcov Hcore Hv1 Hlast.
  destruct (Hrec i r Hi) as (Hrank & _ & Hc). destruct (Hc Hcov) as [Hfresh _]. destruct (Hfresh ltac:(by left)) as [Hpod Hev].
  destruct Hcore as (m1 & Hm1 & Hb1 & Hs1 & Ha1 & Hend1), Hv1 as (m2 & Hm2 & Hb2 & Hs2 & Ha2 & Hend2).
  apply app_inv_head in Hm1, Hm2. subst m1 m2.
  specialize (Ha1 (List.Forall_nil _)). specialize (Ha2 (List.Forall_nil _)).
  pose proof (recordWithEvents_ok (bg_Limits b2) r core v1 (bg_Exhausted b2) Hev Hcov Ha1 Ha2) as Hrw.
  destruct (recordWithEvents _ r core v1 _) as [r' short]. cbn [fst] in Hrw. cbn zeta in Hrw. destruct Hrw as (Hu & Hr' & Hab & Hcomplete).
  assert (Hir : i ∉ rest) by (by inversion Hnd).
  split_and!.
  - destruct Hb2 as (? & ? & ?). cbn [col_Budget]. unfold forget_last. budget. split_and!; (done || lia).
  - cbn. lia.
  - by inversion Hnd.
  - cbn. intros j Hj. rewrite length_insert. apply Hlt. by right.
  - cbn. intros j x Hx. apply list_lookup_insert_Some in Hx as [(<- & <- & Hilt)|[Hne Hx]].
    + split_and!; [done|by rewrite Hu|]. intros H. destruct (Hcomplete H) as (He1 & He2 & Ht1 & Ht2 & Hevents & Hstale).
      split; [done|]. intros _. split; [rewrite Hu; by do 2 apply pod_read_app|].
      destruct (Hend1 Ht1 He1) as (items1 & Hl1 & Heq1), (Hend2 Ht2 He2) as (items2 & Hl2 & Heq2).
      exists items1, items2. rewrite Hu. split_and!.
      * exists log, l1, l2. by rewrite app_assoc.
      * exists (log ++ l1), l2, []. by rewrite app_nil_r.
      * by rewrite Hevents, Heq1, Heq2.
      * done.
    + apply record_ok_app, record_ok_app. destruct (Hrec j x Hx) as (Hr2 & Ha & Hc2). split_and!; [done|done|].
      intros H. destruct (Hc2 H) as [Hf Hd]. split; [intros Hin; apply Hf; by right|].
      intros Hin. apply Hd. by intros [->|?]%elem_of_cons.
Qed.

Lemma readEvents_ok valid s log :
  all_ok log -> state_ok valid s log -> bg_LastScanned (col_Budget s) = 0 ->
  wp log_env all_ok (readEvents req valid s) log (answer_ok (length (col_Evidence s))).
Proof.
  revert s log. induction valid as [|i rest IH]; intros s log Hok Hs Hlast; cbn [readEvents].
  { apply wp_ret; [done|]. apply finalize_ok; [done|lia|done|lia]. }
  destruct (col_Evidence s !! i) as [r|] eqn:Hi.
  2: { apply IH; [done| |done]. apply (drop_pending i); [done|]. intros r Hr. congruence. }
  destruct (se_Coverage r != SchedulingCoverageComplete) eqn:Hne.
  { apply IH; [done| |done]. apply (drop_pending i); [done|]. intros x Hx. rewrite Hi in Hx. injection Hx as <-. intros Heq. by rewrite Heq in Hne. }
  apply negb_false_iff, String.eqb_eq in Hne.
  assert (Hpod : pod_read log (se_PodUID r)).
  { destruct Hs as (_ & _ & _ & _ & Hrec). destruct (Hrec i r Hi) as (_ & _ & Hc). destruct (Hc Hne) as [Hf _]. by apply Hf; left. }
  apply (wp_bind_log _ _ _ _ (fun x log' => listing_post false (se_PodUID r) "" [] (col_Budget s) log x log')).
  { apply listing_ok; [done|apply Hs|done]. }
  intros [core b1] log1 Hok1 _ Hcore. destruct (Hcore) as (l1 & -> & Hb1 & Hs1 & _).
  apply (wp_bind_log _ _ _ _ (fun x log' => listing_post true (se_PodUID r) "" [] b1 (log ++ l1) x log')).
  { apply listing_ok; [done|done|by apply pod_read_app]. }
  intros [v1 b2] log2 Hok2 _ Hv1. destruct (Hv1) as (l2 & -> & Hb2 & Hs2 & _).
  pose proof (collected_record_ok i rest s r log l1 l2 core v1 b1 b2 Hs Hi Hne Hcore Hv1 Hlast) as Hnext.
  destruct (recordWithEvents (bg_Limits b2) r core v1 (bg_Exhausted b2)) as [r' short].
  match type of Hnext with state_ok _ ?st _ => set (s' := st) in * end.
  assert (Hlen : length (col_Evidence s') = length (col_Evidence s)) by (subst s'; cbn; by rewrite length_insert).
  apply (wp_bind_log _ _ _ _ (fun stop log' => state_ok rest s' log' /\
    match stop with Some (coverage, _, _) => 1 < coverageRank coverage | None => True end)); [by apply stopAfter_ok|].
  intros stop log3 Hok3 _ [Hs3 Hrank]. destruct stop as [[[coverage reason] failure]|].
  - apply wp_ret; [done|]. by apply (stopped_ok _ rest); [|rewrite Hlen| |].
  - rewrite <- Hlen. by apply IH.
Qed.

(** ** The whole collection *)

Lemma uniqueRefs_requested seen refs unique :
  uniqueRefs ns seen refs = Ok unique ->
  forall ref, ref ∈ unique -> exists r, r ∈ refs /\ trim_space (sp_Name r) = sp_Name ref /\
    (trim_space (sp_Namespace r) = "" \/ trim_space (sp_Namespace r) = ns).
Proof.
  revert seen unique. induction refs as [|x refs IH]; intros seen unique; cbn [uniqueRefs].
  { intros [= <-] ref Hin. by apply elem_of_nil in Hin. }
  cbn zeta. set (n := if trim_space (sp_Namespace x) == "" then ns else trim_space (sp_Namespace x)).
  destruct (n != ns) eqn:Hns; [done|]. destruct (trim_space (sp_Name x) == ""); [done|].
  assert (Hx : trim_space (sp_Namespace x) = "" \/ trim_space (sp_Namespace x) = ns).
  { apply negb_false_iff, String.eqb_eq in Hns. subst n. destruct (trim_space (sp_Namespace x) == "") eqn:He; [|by right].
    left. by apply String.eqb_eq. }
  destruct (mem_str _ seen).
  { intros Hu ref Hin. destruct (IH _ _ Hu ref Hin) as (r & Hr & Hrest). exists r. split; [by right|done]. }
  destruct (uniqueRefs ns _ refs) as [others|e] eqn:Hu; cbn [rbind]; [|done]. intros [= <-] ref [->|Hin]%elem_of_cons.
  - exists x. split_and!; [by left|done|done].
  - destruct (IH _ _ Hu ref Hin) as (r & Hr & Hrest). exists r. split; [by right|done].
Qed.

Lemma normalized_requested refs :
  normalizeSchedulingPodRefs ns (sreq_Pods req) = Ok refs -> forall ref, ref ∈ refs -> requested_pod (sp_Name ref).
Proof.
  unfold normalizeSchedulingPodRefs. destruct (uniqueRefs ns [] (sreq_Pods req)) as [unique|e] eqn:Hu; cbn [rbind]; [|done].
  intros [= <-] ref Hin%sort_stable_elem. destruct (uniqueRefs_requested _ _ _ Hu ref Hin) as (r & Hr & Hn & Hns).
  by exists r.
Qed.

Lemma collect_ok readers :
  wp log_env all_ok (CollectSchedulingEvidence readers req) [] (fun answer log =>
    exists n, Z.of_nat n <= slm_MaxPods limits /\ answer_ok n answer log).
Proof.
  pose proof limits_positive as Hlim.
  assert (Hnone : forall failure, wp log_env all_ok (Ret (noSchedulingResult, Some failure)) [] (fun answer log =>
    exists n, Z.of_nat n <= slm_MaxPods limits /\ answer_ok n answer log)).
  { intros failure. apply wp_ret; [apply all_justified_nil|]. exists O. split; [lia|].
    unfold answer_ok, noSchedulingResult. cbn [ser_APIRequests ser_ScannedEvents ser_Evidence ser_Coverage ser_Truncated length].
    change (read_count []) with 0. split_and!; try (done || lia). intros r Hr. by apply elem_of_nil in Hr. }
  unfold CollectSchedulingEvidence. destruct (_ == ""); [apply Hnone|].
  destruct (normalizeSchedulingPodRefs _ _) as [refs|e] eqn:Hrefs; [|apply Hnone]. destruct (negb _); [apply Hnone|].
  set (over := slm_MaxPods limits <? zlen refs). cbn zeta.
  set (kept := if over then take (Z.to_nat (slm_MaxPods limits)) refs else refs).
  assert (Hkept : Z.of_nat (length kept) <= slm_MaxPods limits /\ forall ref, ref ∈ kept -> ref ∈ refs).
  { subst kept. destruct over eqn:Ho.
    - split; [rewrite length_take; lia|]. intros ref Hin. apply elem_of_take in Hin as (i & Hi & _). by apply list_elem_of_lookup_2 in Hi.
    - apply Z.ltb_ge in Ho. unfold zlen in Ho. by split; [lia|]. }
  destruct Hkept as [Hlen Hkept].
  assert (Hs : state_ok [] (mkCollectorState [] [] 0 0 over (mkBudget limits 0 0 0 false)) []).
  { split_and!; [|done|by apply NoDup_nil_2|intros i Hi; by apply elem_of_nil in Hi|done]. cbn [col_Budget]. budget.
    change (read_count []) with 0. split_and!; (done || lia). }
  apply (wp_bind_log _ _ _ _ (fun r log' => match r with
    | inl s' => state_ok (col_Valid s') s' log' /\ bg_LastScanned (col_Budget s') = 0 /\ length (col_Evidence s') = length kept
    | inr answer => answer_ok (length kept) answer log' /\ snd answer <> None end)).
  { apply readPods_ok; [apply all_justified_nil|exact Hs|done| |done].
    intros ref Hin. apply (normalized_requested refs Hrefs). by apply Hkept. }
  intros [s|answer] log' Hok' _ Hr.
  - destruct Hr as (Hs' & Hl & Hn). eapply wp_mono; [|apply readEvents_ok; [done|exact Hs'|done]].
    intros answer log'' _ Ha. exists (length kept). split; [done|]. by rewrite <- Hn.
  - apply wp_ret; [done|]. exists (length kept). split; [done|apply Hr].
Qed.

(** Every read of the collector is in the namespace of the request: a Pod it names,
    or a page of the events about a Pod that was read; and no more reads are made than
    the limit of the request allows. *)
Theorem scheduling_reads_bounded readers outcome log before ev after :
  logged (CollectSchedulingEvidence readers req) outcome log -> log = before ++ ev :: after -> read_justified before ev.
Proof.
  intros Hrun Heq. pose proof (wp_exec _ _ _ _ _ _ _ (collect_ok readers) Hrun) as [Hok _]. by apply (Hok before ev after).
Qed.

(** C34: coverage is honest.  The events of a record are scheduling events about its Pod.
    A record that is Complete is of a Pod that was read; for each of the two event APIs
    its events were read to the last page, or the listing was answered with an error
    that the code takes for an API the cluster does not serve - any NotFound is one -
    and which counts as no further events; its events are all that came, within the
    incident.  No other error and no limit leaves a record Complete.  An answer that is
    Complete is not truncated and has only such records.  The answer keeps to the
    limits of requests, events and Pods.  With both APIs answering NotFound the record
    is Complete and empty ([unserved_is_complete]). *)
Theorem scheduling_coverage_honest readers result failure log :
  logged (CollectSchedulingEvidence readers req) (Some (result, failure)) log ->
  (forall r, r ∈ ser_Evidence result ->
     Forall (about (se_PodUID r)) (se_Events r) /\
     (se_Coverage r = SchedulingCoverageComplete ->
        fully_collected log r /\ forall v1, paged_to_end log v1 (se_PodUID r) \/ unserved log v1 (se_PodUID r))) /\
  (ser_Coverage result = SchedulingCoverageComplete ->
     ser_Truncated result = false /\ forall r, r ∈ ser_Evidence result -> se_Coverage r = SchedulingCoverageComplete) /\
  read_count log <= ser_APIRequests result <= slm_MaxAPIRequests limits /\
  ser_ScannedEvents result <= slm_MaxEvents limits /\ zlen (ser_Evidence result) <= slm_MaxPods limits.
Proof.
  intros Hrun. pose proof (wp_exec _ _ _ _ _ _ _ (collect_ok readers) Hrun) as [_ Hr].
  destruct (Hr _ eq_refl) as (n & Hn & Hreq & Hev & Hlen & _ & Hrec & Hall). split_and!; [|done|lia|lia|done|].
  - intros r Hin. destruct (Hrec r Hin) as [Ha Hc]. split; [done|]. intros H. specialize (Hc H). split; [done|]. intros v1. by apply fully_collected_cases.
  - unfold zlen. lia.
Qed.
End Reads.

(** ** Concrete collections *)

Section Examples.
#[local] Existing Instance plain_tables.
#[local] Instance plain_quantities : Quantities := {| quantity := Z; quantity_add := Z.add; quantity_text := itoa |}.

Definition sc_pod (name uid : string) : SchedulingPod :=
  mkSchedulingPod (mkObjectMeta name "prod" uid "1" 1 ∅ ∅ []) "Pending" "" ["gate-b"; "gate-a"] ∅ []
    [mkKubeCondition "PodScheduled" "False" "Unschedulable" "0/3 nodes are available"]
    [mkPodContainer "app" {["cpu" := 2%Z]} ∅; mkPodContainer "proxy" {["cpu" := 1%Z]} ∅] [] [] [].
Definition sc_event (uid reason : string) (at_ : time) : ClusterEvent :=
  mkClusterEvent (mkObjectMeta ("e-" +:+ uid) "prod" uid "1" 1 ∅ ∅ []) 0 reason "0/3 nodes are available" "Warning" "p1" at_ 0 0 None.
Definition sc_request : SchedulingEvidenceRequest :=
  mkSchedulingEvidenceRequest "prod" [mkSchedulingPodRef "" "web-1" "p1"; mkSchedulingPodRef "" "web-1" "p1"] minute (60 * minute)
    (mkSchedulingEvidenceLimits 0 0 0 0).

(** A cluster with one Pod; [events] answers the listings. *)
Definition sc_handler (events : bool -> Page ClusterEvent + api_error) (log : list (event scheduling_op)) X (op : scheduling_op X)
    : option (X * list (event scheduling_op)) :=
  match op in scheduling_op Y return option (Y * list (event scheduling_op)) with
  | TGetPod n name => Some (inl (sc_pod name "p1"), log ++ [Ev (TGetPod n name) (inl (sc_pod name "p1"))])
  | TListEvents v1 n uid limit token => Some (events v1, log ++ [Ev (TListEvents v1 n uid limit token) (events v1)])
  | TContext => Some (None, log ++ [Ev TContext None])
  | TNow => Some (minute, log ++ [Ev TNow minute])
  end.
Lemma sc_handler_logs events log X op x log' : sc_handler events log X op = Some (x, log') -> log_env log X op x log'.
Proof. destruct op; cbn; by intros [= <- <-]. Qed.

Definition sc_run (events : bool -> Page ClusterEvent + api_error) :=
  run (sc_handler events) (CollectSchedulingEvidence (mkKubernetesReaders true false) sc_request) [].
Definition sc_summary (events : bool -> Page ClusterEvent + api_error) : option (string * string * list (string * list string) * option string) :=
  match fst (sc_run events) with
  | Some (r, failure) =>
      Some (ser_Coverage r, ser_CoverageReason r, map (fun e => (se_Coverage e, map sev_ID (se_Events e))) (ser_Evidence r),
            sce_Reason <$> failure)
  | None => None
  end.

(** The same event through both APIs is one event. *)
Definition both_apis (v1 : bool) : Page ClusterEvent + api_error :=
  inl (mkPage [sc_event "e1" "FailedScheduling" (2 * minute); sc_event "e2" "Pulled" (2 * minute)] "").
Example one_event_of_two : sc_summary both_apis = Some ("Complete", "CollectionComplete", [("Complete", ["core/e1"])], None).
Proof. vm_compute. reflexivity. Qed.

(** A forbidden listing is not an empty one. *)
Example forbidden_events :
  sc_summary (fun v1 => inr (mkApiError ApiForbidden "events is forbidden"))
  = Some ("Unauthorized", "EventReadUnauthorized", [("Unauthorized", [])], Some "Unauthorized").
Proof. vm_compute. reflexivity. Qed.

(** A NotFound answer of both listings is. *)
Example unserved_is_complete :
  sc_summary (fun v1 => inr (mkApiError ApiNotFound "not found")) = Some ("Complete", "CollectionComplete", [("Complete", [])], None).
Proof. vm_compute. reflexivity. Qed.

Example summed_requests :
  match fst (sc_run both_apis) with
  | Some (r, _) => map (fun e => (map_to_list (srq_Requests (se_ResourceRequests e)), se_SchedulingGates e)) (ser_Evidence r)
  | None => []
  end = [([("cpu", "3")], ["gate-a"; "gate-b"])].
Proof. vm_compute. reflexivity. Qed.

Lemma sc_run_logged events : logged (CollectSchedulingEvidence (mkKubernetesReaders true false) sc_request) (sc_run events).1 (sc_run events).2.
Proof. apply run_exec. apply sc_handler_logs. Qed.

Lemma scheduling_reads_bounded_witness :
  exists before ev after, (sc_run both_apis).2 = before ++ ev :: after /\ is_read ev = true /\ read_justified sc_request before ev.
Proof.
  destruct ((sc_run both_apis).2 !! 2%nat) as [ev|] eqn:Hi; [|vm_compute in Hi; done].
  pose proof (take_drop_middle _ _ _ Hi) as Hlog. do 3 eexists. split; [symmetry; exact Hlog|]. split.
  - assert (Hr : is_read <$> (sc_run both_apis).2 !! 2%nat = Some true) by (vm_compute; reflexivity). rewrite Hi in Hr. by injection Hr.
  - exact (scheduling_reads_bounded sc_request _ _ _ _ _ _ (sc_run_logged both_apis) (eq_sym Hlog)).
Defined.

Lemma scheduling_coverage_honest_witness :
  exists result log, logged (CollectSchedulingEvidence (mkKubernetesReaders true false) sc_request) (Some (result, None)) log /\
    ser_Truncated result = false /\ forall r, r ∈ ser_Evidence result -> fully_collected sc_request log r.
Proof.
  pose proof (sc_run_logged both_apis) as Hl.
  assert (Hok : match (sc_run both_apis).1 with Some (r, None) => ser_Coverage r == "Complete" | _ => false end = true)
    by (vm_compute; reflexivity).
  destruct (sc_run both_apis) as [[[result [failure|]]|] log]; try done. apply String.eqb_eq in Hok. exists result, log. split; [exact Hl|].
  destruct (scheduling_coverage_honest sc_request _ _ _ _ Hl) as (Hrec & Hall & _). destruct (Hall Hok) as [Ht Hc].
  split; [done|]. intros r Hr. apply Hrec; [done|]. by apply Hc.
Defined.
End Examples.
