(* ===== verification/RuleEvaluator.v ===== *)
(** * Evaluation of the signals of a RiskRule (internal/rule/evaluator.go)

    Which source a signal asks, and what a query result matches: a threshold on a
    metric value or on the number of records that the signal looks for; and a
    specification of it in terms of the comparison of the standard library's
    floats, filtering and counting.  float64 values are carried as their bits. *)

From Stdlib Require Import ZArith Lia SpecFloat.
From stdpp Require Import base list strings gmap.
From S2P Require Import Prelude GoStrings Utf8 GoParse Float64 Api InvestigationApi Digest DataClassification Datasource Normalize.

(** ** Rules (api/v1alpha1/riskrule_types.go) *)

Record RiskThreshold := mkRiskThreshold { th_Operator : string; th_Value : Z }.

Record RiskRuleSignal := mkRiskRuleSignal {
  sig_Name : string;
  sig_Type : string;
  sig_DatasourceRef : string;
  sig_QueryType : string;
  sig_Query : string;
  sig_QueryTemplate : string;
  sig_Reasons : list string;
  sig_Threshold : RiskThreshold
}.

Record Match := mkMatch {
  m_Signal : RiskRuleSignal;
  m_Summary : string;
  m_Severity : string;
  m_Evidence : list EvidenceRef
}.

(** ** binary64 *)

Definition exponent_ones : Z := 2047.
(** The number of 64 bits, and the bits of an integer converted to float64. *)
Definition float_of_bits (bits : Z) : float64 :=
  let sign := Z.testbit bits 63 in
  let e := Z.land (Z.shiftr bits 52) exponent_ones in
  let m := Z.land bits (Z.ones 52) in
  if e =? 0 then match m with Zpos p => S754_finite sign p (-1074) | _ => S754_zero sign end
  else if e =? exponent_ones then if m =? 0 then S754_infinity sign else S754_nan
  else match Z.lor (Z.shiftl 1 52) m with Zpos p => S754_finite sign p (e - 1075) | _ => S754_nan end.
Definition bits_of_float (f : float64) : Z :=
  let signed s z := (if s : bool then Z.shiftl 1 63 else 0) + z in
  match f with
  | S754_zero s => signed s 0
  | S754_infinity s => signed s (Z.shiftl exponent_ones 52)
  | S754_nan => 9221120237041090561
  | S754_finite s m e =>
      if Zpos m <? Z.shiftl 1 52 then signed s (Zpos m)
      else signed s (Z.shiftl (e + 1075) 52 + (Zpos m - Z.shiftl 1 52))
  end.
Definition bits_of_int (z : Z) : Z := bits_of_float (float_of_int z).

Definition float_lt (a b : Z) : bool := SFltb (float_of_bits a) (float_of_bits b).
Definition float_le (a b : Z) : bool := SFleb (float_of_bits a) (float_of_bits b).

Definition compareThreshold (value : Z) (threshold : RiskThreshold) : bool :=
  let op := trim_space (th_Operator threshold) in
  let limit := th_Value threshold in
  if mem_str op [">"; "gt"; ""] then float_lt limit value
  else if mem_str op [">="; "gte"; "count_gte"] then float_le limit value
  else if mem_str op ["<"; "lt"] then float_lt value limit
  else if mem_str op ["<="; "lte"] then float_le value limit
  else float_lt limit value.

(** The value is zero or negative zero. *)
Definition float_is_zero (bits : Z) : bool := (bits =? 0) || (bits =? Z.shiftl 1 63).

Definition normalizeCountThreshold (threshold : RiskThreshold) : RiskThreshold :=
  if (trim_space (th_Operator threshold) != "") || negb (float_is_zero (th_Value threshold)) then threshold
  else mkRiskThreshold "count_gt" 0.

Definition countThreshold (count : nat) (threshold : RiskThreshold) : bool :=
  compareThreshold (bits_of_int (Z.of_nat count)) (normalizeCountThreshold threshold).

Section Evaluator.
Context {U : UnicodeTables} {D : DigestPrims} {V : ValueText}.

(** ** Sources of a signal *)

Definition LegacySourceForSignalType (signalType : string) : option (string * string) :=
  let t := normalizeSignalType signalType in
  if t == "prometheus" then Some (QueryTypeMetric, "prometheus")
  else if t == "loki" then Some (QueryTypeLog, "loki")
  else if t == "kubernetesevent" then Some (QueryTypeEvent, "kubernetes-events")
  else None.

Definition QueryTypeForSignal (signal : RiskRuleSignal) : option string :=
  match ParseQueryType (sig_QueryType signal) with
  | Some queryType => Some queryType
  | None => fst <$> LegacySourceForSignalType (sig_Type signal)
  end.

Definition QueryTemplateForSignal (signal : RiskRuleSignal) : string :=
  if trim_space (sig_QueryTemplate signal) != "" then sig_QueryTemplate signal else sig_Query signal.

(** The source's name and the query type. *)
Definition SourceRefForSignal (signal : RiskRuleSignal) : option (string * string) :=
  let name := trim_space (sig_DatasourceRef signal) in
  if name != "" then (fun queryType => (name, queryType)) <$> QueryTypeForSignal signal
  else (fun p => (snd p, fst p)) <$> LegacySourceForSignalType (sig_Type signal).

Definition SignalTypeForSignal (signal : RiskRuleSignal) : string :=
  if trim_space (sig_QueryType signal) != "" then to_lower (trim_space (sig_QueryType signal))
  else if trim_space (sig_Type signal) != "" then trim_space (sig_Type signal)
  else default "" (QueryTypeForSignal signal).

(** ** Evidence *)

Definition plainRef (kind source query summary reason digest algorithm canonicalization : string) : EvidenceRef :=
  mkEvidenceRef "" kind source summary query "" digest algorithm canonicalization "" None false "" "" 0 0 0 0 0 None
    None reason "" [].

Definition recordString (r : record) (key : string) : string :=
  match r !! key with None | Some AnyNil => "" | Some v => trim_space (sprint v) end.

(** [digestPayload]: the payloads have only strings and always marshal. *)
Definition digestPayload (payload : list (string * json)) : string := sha256_hex (json_text (JObj payload)).

Definition kubernetesEventEvidenceDigest (r : record) : string :=
  let text key := (key, JStr (recordString r key)) in
  let eventUID := recordString r "eventUID" in
  "sha256:" +:+ digestPayload
    ([text "eventUID"; text "eventName"; text "eventNamespace"; text "involvedObjectKind"; text "involvedObjectName";
      text "involvedObjectUID"; text "reason"; text "firstTimestamp"; text "reportingComponent"; text "sourceComponent";
      ("messageDigest", JStr (sha256_hex (recordString r "message")))]
     ++ if eventUID == "" then [text "lastTimestamp"; text "count"] else []).

(** The matching records of a result, and the evidence of the first three. *)
Fixpoint collectEvidence (matching : record -> bool) (ref : record -> EvidenceRef) (records : list record)
    (evidence : list EvidenceRef) (count : nat) : list EvidenceRef * nat :=
  match records with
  | [] => (evidence, count)
  | r :: rest =>
      if matching r then
        collectEvidence matching ref rest
          (if (length evidence <? 3)%nat then evidence ++ [ref r] else evidence) (S count)
      else collectEvidence matching ref rest evidence count
  end.

(** The evaluators that count: the threshold, then at least one record. *)
Definition countMatch (signal : RiskRuleSignal) (severity : string) (summary : list EvidenceRef -> nat -> string)
    (collected : list EvidenceRef * nat) : option Match :=
  let '(evidence, count) := collected in
  if negb (countThreshold count (sig_Threshold signal)) || (count =? 0)%nat then None
  else Some (mkMatch signal (summary evidence count) severity evidence).

(** ** Metrics and logs *)

(** A value of a metric record; the adapter puts strings and floats there. *)
Definition parseFloat (value : option any_value) : Z :=
  match value with
  | Some (AnyFloat bits) => bits
  | Some (AnyInt z) => bits_of_int z
  | Some (AnyString s) => default 0 (ParseFloat64 (trim_space s))
  | _ => 0
  end.

Definition evaluatePrometheusSignal (signal : RiskRuleSignal) (result : QueryResult) (target : ResourceRef)
    (severity : string) : option Match :=
  find_first (fun r =>
    let value := parseFloat (r !! "value") in
    if negb (compareThreshold value (sig_Threshold signal)) then None
    else Some (mkMatch signal (sig_Name signal +:+ " crossed threshold for " +:+ rr_Name target) severity
      [plainRef "metric" (qs_Source result) (sig_Query signal)
         ("metric value " +:+ fixed2 value +:+ " matched " +:+ th_Operator (sig_Threshold signal) +:+ " "
          +:+ fixed2 (th_Value (sig_Threshold signal))) "" "" "" ""])) (qs_Records result).

Definition evaluateLokiSignal (signal : RiskRuleSignal) (result : QueryResult) (target : ResourceRef)
    (severity : string) : option Match :=
  let records := qs_Records result in
  let count := itoa (Z.of_nat (length records)) in
  if negb (countThreshold (length records) (sig_Threshold signal)) then None
  else
    let line := match records with r :: _ => any_string r "line" | [] => "" end in
    let summary :=
      if line != "" then line
      else sig_Name signal +:+ " matched " +:+ count +:+ " log lines for " +:+ rr_Name target in
    Some (mkMatch signal (sig_Name signal +:+ " triggered for " +:+ rr_Name target) severity
      [plainRef "log" (qs_Source result) (sig_Query signal) (summary +:+ " (matched " +:+ count +:+ " log lines)") "" "" "" ""]).

(** ** Events *)

Definition expectedReasons (signal : RiskRuleSignal) (defaults : list string) : list string :=
  match sig_Reasons signal with
  | [] => defaults
  | reasons => map (fun reason => to_lower (trim_space reason)) reasons
  end.

Definition eventReasonMatches (reason message expected : string) : bool :=
  let expected := normalizeSignalType expected in
  if expected == "" then false
  else if trim_space reason != "" then normalizeSignalType reason == expected
  else contains (normalizeSignalType message) expected.

Definition kubernetesEventMatchSummary (signal : RiskRuleSignal) (target : ResourceRef) (evidence : list EvidenceRef)
    (matchCount : nat) : string :=
  let described :=
    match evidence with
    | [] => None
    | ref :: _ =>
        let reason := normalizeSignalType (er_Reason ref) in
        if reason == "backoff" then Some "container restart backoff"
        else if reason == "crashloopbackoff" then Some "crashloop-backoff"
        else if mem_str reason ["imagepullbackoff"; "errimagepull"; "invalidimagename"] then Some "image-pull-failure"
        else if (reason == "oomkilled") || (reason == "oom") then Some "oom-killed"
        else if reason == "unhealthy" then Some "unhealthy-probe"
        else if reason == "failedscheduling" then Some "failed-scheduling"
        else None
    end in
  let description := default (trim_space (sig_Name signal)) described in
  (if description == "" then "kubernetes-event" else description)
  +:+ " detected " +:+ itoa (Z.of_nat matchCount) +:+ " matching "
  +:+ (if (matchCount =? 1)%nat then "event" else "events") +:+ " for " +:+ rr_Name target.

Definition eventRecordMatches (signal : RiskRuleSignal) (r : record) : bool :=
  existsb (eventReasonMatches (any_string r "reason") (any_string r "message"))
    (expectedReasons signal ["unhealthy"; "backoff"; "failed"; "oomkilled"]).
Definition eventRecordRef (result : QueryResult) (r : record) : EvidenceRef :=
  plainRef "event" (qs_Source result) "" (any_string r "message") (any_string r "reason")
    (kubernetesEventEvidenceDigest r) "sha256" "fluxseer-rca-kubernetes-event-identity-v1".

Definition evaluateKubernetesEventSignal (signal : RiskRuleSignal) (result : QueryResult) (target : ResourceRef)
    (severity : string) : option Match :=
  countMatch signal severity (kubernetesEventMatchSummary signal target)
    (collectEvidence (eventRecordMatches signal) (eventRecordRef result) (qs_Records result) [] 0).

(** ** Deployment conditions *)

Definition conditionRecordMatches (signal : RiskRuleSignal) (r : record) : bool :=
  let lower := to_lower (any_string r "type" +:+ "=" +:+ any_string r "status" +:+ " " +:+ any_string r "reason"
                         +:+ " " +:+ any_string r "message") in
  existsb (contains lower)
    (expectedReasons signal
       ["available=false"; "progressing=false"; "replicafailure=true"; "progressdeadlineexceeded";
        "minimumreplicasunavailable"]).
Definition conditionRecordRef (result : QueryResult) (r : record) : EvidenceRef :=
  plainRef "deploymentCondition" (qs_Source result) ""
    (any_string r "type" +:+ "=" +:+ any_string r "status" +:+ " " +:+ any_string r "message") (any_string r "reason") "" "" "".

Definition detected (signal : RiskRuleSignal) (target : ResourceRef) (what : string) (_ : list EvidenceRef) (count : nat)
    : string :=
  sig_Name signal +:+ " detected " +:+ itoa (Z.of_nat count) +:+ " " +:+ what +:+ " for " +:+ rr_Name target.

Definition evaluateDeploymentConditionSignal (signal : RiskRuleSignal) (result : QueryResult) (target : ResourceRef)
    (severity : string) : option Match :=
  countMatch signal severity (detected signal target "matching deployment conditions")
    (collectEvidence (conditionRecordMatches signal) (conditionRecordRef result) (qs_Records result) [] 0).

(** ** Service and probe configurations *)

Definition mismatchConfirmed (r : record) : bool := equal_fold (recordString r "mismatchConfirmed") "true".

Definition serviceConfigurationEvidenceSummary (r : record) : string :=
  let text := recordString r in
  "Service " +:+ text "serviceName" +:+ " targetPort=" +:+ text "targetPortRaw" +:+ " resolved="
  +:+ text "targetPortResolved" +:+ "; " +:+ text "workloadKind" +:+ "/" +:+ text "workloadName" +:+ " container "
  +:+ text "containerName" +:+ " port=" +:+ text "containerPort" +:+ "; mismatchConfirmed=true".
Definition probeConfigurationEvidenceSummary (r : record) : string :=
  let text := recordString r in
  text "workloadKind" +:+ "/" +:+ text "workloadName" +:+ " " +:+ text "probeType" +:+ " probe " +:+ text "probeScheme"
  +:+ "://" +:+ text "probePath" +:+ ":" +:+ text "probePortRaw" +:+ "; container port=" +:+ text "containerPort"
  +:+ "; resolution=" +:+ text "resolution" +:+ "; mismatchConfirmed=true".

Definition configurationRef (kind : string) (summary : record -> string) (result : QueryResult) (r : record) : EvidenceRef :=
  plainRef kind (qs_Source result) "" (summary r) (recordString r "reason") "" "" "".

Definition evaluateServiceConfigurationSignal (signal : RiskRuleSignal) (result : QueryResult) (target : ResourceRef)
    (severity : string) : option Match :=
  countMatch signal severity (detected signal target "confirmed Service/targetPort mismatches")
    (collectEvidence mismatchConfirmed
       (configurationRef "serviceConfiguration" serviceConfigurationEvidenceSummary result) (qs_Records result) [] 0).
Definition evaluateProbeConfigurationSignal (signal : RiskRuleSignal) (result : QueryResult) (target : ResourceRef)
    (severity : string) : option Match :=
  countMatch signal severity (detected signal target "confirmed probe configuration mismatches")
    (collectEvidence mismatchConfirmed
       (configurationRef "probeConfiguration" probeConfigurationEvidenceSummary result) (qs_Records result) [] 0).

Definition EvaluateSignal (signal : RiskRuleSignal) (queryType : string) (result : QueryResult) (target : ResourceRef)
    (severity : string) : option Match :=
  if queryType == QueryTypeMetric then evaluatePrometheusSignal signal result target severity
  else if queryType == QueryTypeLog then evaluateLokiSignal signal result target severity
  else if queryType == QueryTypeEvent then evaluateKubernetesEventSignal signal result target severity
  else if queryType == QueryTypeDeploymentCondition then evaluateDeploymentConditionSignal signal result target severity
  else if queryType == QueryTypeServiceConfiguration then evaluateServiceConfigurationSignal signal result target severity
  else if queryType == QueryTypeProbeConfiguration then evaluateProbeConfigurationSignal signal result target severity
  else None.
End Evaluator.

(** ** What the evaluators compute *)

Section Reference.
Context {U : UnicodeTables} {D : DigestPrims} {V : ValueText}.

Lemma collectEvidence_spec matching ref records evidence count :
  (length evidence <= 3)%nat ->
  collectEvidence matching ref records evidence count =
  (evidence ++ take (3 - length evidence) (map ref (List.filter matching records)),
   (count + length (List.filter matching records))%nat).
Proof.
  revert evidence count. induction records as [|r records IH]; intros evidence count Hl; cbn -[Nat.ltb Nat.sub].
  { rewrite take_nil, app_nil_r, Nat.add_0_r. done. }
  destruct (matching r); [|by rewrite IH]. cbn -[Nat.ltb Nat.sub].
  destruct (Nat.ltb_spec (length evidence) 3) as [Hlt|Hge].
  - rewrite IH by (rewrite length_app; cbn; lia). rewrite length_app. cbn [length].
    f_equal; [|lia]. rewrite <- app_assoc. f_equal.
    replace (3 - length evidence)%nat with (S (3 - (length evidence + 1)))%nat by lia. done.
  - rewrite IH by done. replace (3 - length evidence)%nat with 0%nat by lia. f_equal. lia.
Qed.

(** *** The specification *)

(** What the operators mean, of the comparison of a value with the limit; a value or
    limit that is not a number compares with nothing. *)
Inductive passes : string -> option comparison -> Prop :=
| passes_at_least op c : op ∈ [">="; "gte"; "count_gte"] -> c <> Lt -> passes op (Some c)
| passes_less op : op ∈ ["<"; "lt"] -> passes op (Some Lt)
| passes_at_most op c : op ∈ ["<="; "lte"] -> c <> Gt -> passes op (Some c)
| passes_more op : op ∉ [">="; "gte"; "count_gte"; "<"; "lt"; "<="; "lte"] -> passes op (Some Gt).

Definition reaches (value : Z) (threshold : RiskThreshold) : Prop :=
  passes (trim_space (th_Operator threshold)) (SFcompare (float_of_bits value) (float_of_bits (th_Value threshold))).

(** The reasons looked for: those of the signal in lower case, or the defaults. *)
Definition reason_wanted (signal : RiskRuleSignal) (defaults : list string) (wanted : string) : Prop :=
  sig_Reasons signal = [] /\ wanted ∈ defaults \/
  exists reason, reason ∈ sig_Reasons signal /\ wanted = to_lower (trim_space reason).

(** The records that a signal looks for. *)
Definition looked_for (signal : RiskRuleSignal) (queryType : string) (r : record) : Prop :=
  if queryType == QueryTypeMetric then reaches (parseFloat (r !! "value")) (sig_Threshold signal)
  else if queryType == QueryTypeLog then True
  else if queryType == QueryTypeEvent then
    exists wanted, reason_wanted signal ["unhealthy"; "backoff"; "failed"; "oomkilled"] wanted /\
      normalizeSignalType wanted <> "" /\
      (trim_space (any_string r "reason") <> "" /\ normalizeSignalType (any_string r "reason") = normalizeSignalType wanted \/
       trim_space (any_string r "reason") = "" /\
         contains (normalizeSignalType (any_string r "message")) (normalizeSignalType wanted) = true)
  else if queryType == QueryTypeDeploymentCondition then
    exists wanted, reason_wanted signal ["available=false"; "progressing=false"; "replicafailure=true";
                                         "progressdeadlineexceeded"; "minimumreplicasunavailable"] wanted /\
      contains (to_lower (any_string r "type" +:+ "=" +:+ any_string r "status" +:+ " " +:+ any_string r "reason"
                          +:+ " " +:+ any_string r "message")) wanted = true
  else queryType ∈ [QueryTypeServiceConfiguration; QueryTypeProbeConfiguration] /\
    equal_fold (recordString r "mismatchConfirmed") "true" = true.

(** [found] are the records looked for, in the order of the result. *)
Inductive selects (P : record -> Prop) : list record -> list record -> Prop :=
| selects_nil : selects P [] []
| selects_take r records found : P r -> selects P records found -> selects P (r :: records) (r :: found)
| selects_skip r records found : ~ P r -> selects P records found -> selects P (r :: records) found.

(** When the signal is raised: a metric by one value, the others by their number,
    which for all but log lines has to be one at least. *)
Definition raised (signal : RiskRuleSignal) (queryType : string) (found : list record) : Prop :=
  let enough := reaches (bits_of_int (Z.of_nat (length found))) (sig_Threshold signal) in
  if queryType == QueryTypeMetric then found <> []
  else if queryType == QueryTypeLog then enough
  else found <> [] /\ enough.

(** The evidence of a raised signal: the first value, all log lines in one, or the
    first three records; each is named with what it says. *)
Definition metric_text (threshold : RiskThreshold) (value : Z) : string :=
  "metric value " +:+ fixed2 value +:+ " matched " +:+ th_Operator threshold +:+ " " +:+ fixed2 (th_Value threshold).
Definition log_text (signal : RiskRuleSignal) (target : ResourceRef) (found : list record) : string :=
  let n := itoa (Z.of_nat (length found)) in
  let first := match found with r :: _ => any_string r "line" | [] => "" end in
  (if first == "" then sig_Name signal +:+ " matched " +:+ n +:+ " log lines for " +:+ rr_Name target else first)
  +:+ " (matched " +:+ n +:+ " log lines)".
Definition raised_evidence (signal : RiskRuleSignal) (queryType source : string) (target : ResourceRef) (found : list record)
    : list (string * string * string) :=
  let first_three kind (text : record -> string) := map (fun r => (kind, source, text r)) (take 3 found) in
  if queryType == QueryTypeMetric then
    map (fun r => ("metric", source, metric_text (sig_Threshold signal) (parseFloat (r !! "value")))) (take 1 found)
  else if queryType == QueryTypeLog then [("log", source, log_text signal target found)]
  else if queryType == QueryTypeEvent then first_three "event" (fun r => any_string r "message")
  else if queryType == QueryTypeDeploymentCondition then
    first_three "deploymentCondition" (fun r =>
      any_string r "type" +:+ "=" +:+ any_string r "status" +:+ " " +:+ any_string r "message")
  else if queryType == QueryTypeServiceConfiguration then first_three "serviceConfiguration" serviceConfigurationEvidenceSummary
  else first_three "probeConfiguration" probeConfigurationEvidenceSummary.

(** What a match says. *)
Definition shown_evidence (m : Match) : list (string * string * string) :=
  map (fun ref => (er_Kind ref, er_Source ref, er_Summary ref)) (m_Evidence m).
Definition raised_match (signal : RiskRuleSignal) (queryType : string) (result : QueryResult) (target : ResourceRef)
    (severity : string) (found : list record) (m : Match) : Prop :=
  m_Signal m = signal /\ m_Severity m = severity /\
  shown_evidence m = raised_evidence signal queryType (qs_Source result) target found.

(** *** The evaluators meet it *)

Lemma compare_swap a b : SFcompare b a = CompOpp <$> SFcompare a b.
Proof.
  destruct a as [sa|sa| |sa ma ea], b as [sb|sb| |sb mb eb]; cbn -[Pos.compare_cont]; try done; try (by destruct sa);
    try (by destruct sb); try (by destruct sa, sb).
  rewrite (Z.compare_antisym ea eb). change (Pos.compare_cont Eq mb ma) with (Pos.compare mb ma).
  change (Pos.compare_cont Eq ma mb) with (Pos.compare ma mb). rewrite (Pos.compare_antisym ma mb).
  destruct sa, sb; try done; destruct (ea ?= eb); cbn; try done; by destruct (Pos.compare ma mb).
Qed.

Lemma float_lt_compare a b : float_lt a b = true <-> SFcompare (float_of_bits b) (float_of_bits a) = Some Gt.
Proof.
  unfold float_lt, SFltb. rewrite (compare_swap (float_of_bits a) (float_of_bits b)).
  by destruct (SFcompare (float_of_bits a) _) as [[]|].
Qed.
Lemma float_le_compare a b :
  float_le a b = true <-> exists c, SFcompare (float_of_bits b) (float_of_bits a) = Some c /\ c <> Lt.
Proof.
  unfold float_le, SFleb. rewrite (compare_swap (float_of_bits a) (float_of_bits b)).
  destruct (SFcompare (float_of_bits a) _) as [[]|]; cbn; naive_solver.
Qed.

Lemma passes_iff op c : passes op c <->
  mem_str op [">="; "gte"; "count_gte"] = true /\ (exists x, c = Some x /\ x <> Lt) \/
  mem_str op ["<"; "lt"] = true /\ c = Some Lt \/
  mem_str op ["<="; "lte"] = true /\ (exists x, c = Some x /\ x <> Gt) \/
  mem_str op [">="; "gte"; "count_gte"; "<"; "lt"; "<="; "lte"] = false /\ c = Some Gt.
Proof.
  rewrite !mem_str_spec, mem_str_false. split.
  - intros [op' x H1 H2|op' H|op' x H1 H2|op' H]; [left|right; left|right; right; left|right; right; right]; eauto.
  - intros [[H (x & -> & Hx)]|[[H ->]|[[H (x & -> & Hx)]|[H ->]]]];
      [by apply passes_at_least|by apply passes_less|by apply passes_at_most|by apply passes_more].
Qed.

Lemma compareThreshold_reaches value threshold : compareThreshold value threshold = true <-> reaches value threshold.
Proof.
  unfold compareThreshold, reaches. generalize (trim_space (th_Operator threshold)) as op. intros op. rewrite passes_iff.
  rewrite <- float_le_compare, <- float_lt_compare.
  assert (Hlt : SFcompare (float_of_bits value) (float_of_bits (th_Value threshold)) = Some Lt <->
                float_lt value (th_Value threshold) = true).
  { rewrite float_lt_compare, compare_swap. destruct (SFcompare (float_of_bits (th_Value _)) _) as [[]|]; done. }
  assert (Hle : (exists x, SFcompare (float_of_bits value) (float_of_bits (th_Value threshold)) = Some x /\ x <> Gt) <->
                float_le value (th_Value threshold) = true).
  { rewrite float_le_compare, (compare_swap (float_of_bits value)).
    destruct (SFcompare (float_of_bits value) _) as [[]|]; cbn;
      (split; [intros (x & [= <-] & Hx)|intros (x & [= <-] & Hx)]; eauto; done). }
  rewrite Hlt, Hle. unfold mem_str. cbn [existsb].
  repeat match goal with |- context [op == ?s] => destruct (String.eqb_spec op s) as [->|?]; cbn end; intuition congruence.
Qed.

Lemma countThreshold_reaches n threshold :
  countThreshold n threshold = true <-> reaches (bits_of_int (Z.of_nat n)) threshold.
Proof.
  unfold countThreshold, normalizeCountThreshold. generalize (bits_of_int (Z.of_nat n)) as value. intros value.
  rewrite <- (compareThreshold_reaches value threshold).
  destruct (String.eqb_spec (trim_space (th_Operator threshold)) "") as [Hop|]; [|done]. cbn [negb orb].
  destruct (float_is_zero (th_Value threshold)) eqn:Hz; [|done]. cbn [negb].
  unfold compareThreshold. cbn [th_Operator th_Value]. rewrite Hop.
  change (mem_str (trim_space "count_gt") _) with false. cbn -[float_lt float_le].
  rewrite !float_lt_compare. unfold float_is_zero in Hz.
  destruct (float_of_bits value) as [| | |], (Z.eqb_spec (th_Value threshold) 0) as [->|]; try done;
    apply Z.eqb_eq in Hz as ->; done.
Qed.

Lemma expectedReasons_wanted signal defaults wanted :
  wanted ∈ expectedReasons signal defaults <-> reason_wanted signal defaults wanted.
Proof.
  unfold expectedReasons, reason_wanted. destruct (sig_Reasons signal) as [|r l] eqn:E.
  - split; [by left|]. intros [[_ H]|(x & Hx & _)]; [done|by apply not_elem_of_nil in Hx].
  - rewrite list_elem_of_fmap. split; [intros (x & -> & Hx); right; eauto|].
    intros [[? _]|(x & Hx & ->)]; [done|eauto].
Qed.

Lemma existsb_wanted f signal defaults :
  existsb f (expectedReasons signal defaults) = true <-> exists wanted, reason_wanted signal defaults wanted /\ f wanted = true.
Proof.
  split.
  - intros (x & Hx%expectedReasons_wanted & Hf)%existsb_elem. eauto.
  - intros (x & Hx%expectedReasons_wanted & Hf). apply existsb_elem. eauto.
Qed.

Lemma eventReasonMatches_spec reason message wanted :
  eventReasonMatches reason message wanted = true <->
  normalizeSignalType wanted <> "" /\
  (trim_space reason <> "" /\ normalizeSignalType reason = normalizeSignalType wanted \/
   trim_space reason = "" /\ contains (normalizeSignalType message) (normalizeSignalType wanted) = true).
Proof.
  unfold eventReasonMatches. destruct (String.eqb_spec (normalizeSignalType wanted) ""); [naive_solver|].
  destruct (String.eqb_spec (trim_space reason) ""); cbn [negb]; [naive_solver|]. rewrite String.eqb_eq. naive_solver.
Qed.

(** The records that the evaluator of a type tests for. *)
Definition tested (signal : RiskRuleSignal) (queryType : string) (r : record) : bool :=
  if queryType == QueryTypeMetric then compareThreshold (parseFloat (r !! "value")) (sig_Threshold signal)
  else if queryType == QueryTypeLog then true
  else if queryType == QueryTypeEvent then eventRecordMatches signal r
  else if queryType == QueryTypeDeploymentCondition then conditionRecordMatches signal r
  else if mem_str queryType [QueryTypeServiceConfiguration; QueryTypeProbeConfiguration] then mismatchConfirmed r
  else false.

Lemma tested_looked_for signal queryType r : tested signal queryType r = true <-> looked_for signal queryType r.
Proof.
  unfold tested, looked_for. destruct (_ == _); [apply compareThreshold_reaches|]. destruct (_ == _); [done|].
  destruct (_ == _); [unfold eventRecordMatches; rewrite existsb_wanted; by setoid_rewrite eventReasonMatches_spec|].
  destruct (_ == _); [apply existsb_wanted|]. rewrite <- mem_str_spec. unfold mismatchConfirmed.
  destruct (mem_str _ _); naive_solver.
Qed.

Lemma selects_tested signal queryType records :
  selects (looked_for signal queryType) records (List.filter (tested signal queryType) records).
Proof.
  induction records as [|r records IH]; cbn; [constructor|]. destruct (tested signal queryType r) eqn:E.
  - apply selects_take; [by apply tested_looked_for|done].
  - apply selects_skip; [|done]. intros H%tested_looked_for. congruence.
Qed.

(** The evaluators that count. *)
Lemma countMatch_spec signal severity matching ref summary records :
  let found := List.filter matching records in
  let m := mkMatch signal (summary (map ref (take 3 found)) (length found)) severity (map ref (take 3 found)) in
  countMatch signal severity summary (collectEvidence matching ref records [] 0) = Some m /\
    found <> [] /\ reaches (bits_of_int (Z.of_nat (length found))) (sig_Threshold signal) \/
  countMatch signal severity summary (collectEvidence matching ref records [] 0) = None /\
    ~ (found <> [] /\ reaches (bits_of_int (Z.of_nat (length found))) (sig_Threshold signal)).
Proof.
  intros found m. unfold countMatch. rewrite collectEvidence_spec by (cbn; lia). fold found. cbn [length app Nat.add].
  change (3 - 0)%nat with 3%nat. rewrite <- countThreshold_reaches.
  destruct (countThreshold _ _); cbn; [|naive_solver]. rewrite firstn_map. subst m.
  destruct found; cbn; [right; naive_solver|by left].
Qed.

(** What an evaluator answers, given the records it found. *)
Definition evaluated signal queryType (result : QueryResult) target severity (found : list record) (m : option Match) : Prop :=
  (is_Some m <-> raised signal queryType found) /\
  forall x, m = Some x -> raised_match signal queryType result target severity found x.

Lemma metric_evaluated signal result target severity :
  evaluated signal QueryTypeMetric result target severity
    (List.filter (tested signal QueryTypeMetric) (qs_Records result)) (evaluatePrometheusSignal signal result target severity).
Proof.
  unfold evaluated, raised_match, raised_evidence, evaluatePrometheusSignal. cbn -[take find_first List.filter].
  generalize (qs_Source result) as source. intros source. 
  induction (qs_Records result) as [|r records IH]; cbn [find_first List.filter].
  { split; [split; [by intros []|done]|done]. }
  unfold tested at 1. cbn -[take find_first List.filter compareThreshold].
  destruct (compareThreshold _ _) eqn:E; cbn [negb]; [|exact IH].
  split; [split; [done|by eexists]|]. intros x [= <-]. done.
Qed.

Lemma log_evaluated signal result target severity :
  evaluated signal QueryTypeLog result target severity (qs_Records result) (evaluateLokiSignal signal result target severity).
Proof.
  unfold evaluated, evaluateLokiSignal. change (raised signal QueryTypeLog (qs_Records result)) with
    (reaches (bits_of_int (Z.of_nat (length (qs_Records result)))) (sig_Threshold signal)).
  rewrite <- countThreshold_reaches. destruct (countThreshold _ _); cbn [negb].
  2:{ split; [split; [by intros []|done]|done]. }
  split; [split; [done|by eexists]|]. intros x [= <-]. split; [done|]. split; [done|].
  unfold raised_evidence, shown_evidence, log_text. cbn. by destruct (_ == "").
Qed.

Lemma counted_evaluated signal queryType result target severity matching ref summary kind text :
  queryType ∈ [QueryTypeEvent; QueryTypeDeploymentCondition; QueryTypeServiceConfiguration; QueryTypeProbeConfiguration] ->
  let found := List.filter matching (qs_Records result) in
  (forall r, (er_Kind (ref r), er_Source (ref r), er_Summary (ref r)) = (kind, qs_Source result, text r)) ->
  raised_evidence signal queryType (qs_Source result) target found = map (fun r => (kind, qs_Source result, text r)) (take 3 found) ->
  evaluated signal queryType result target severity found
    (countMatch signal severity summary (collectEvidence matching ref (qs_Records result) [] 0)).
Proof.
  intros Hq found Href Hev. unfold evaluated, raised_match. rewrite Hev.
  assert (Hr : raised signal queryType found <->
    found <> [] /\ reaches (bits_of_int (Z.of_nat (length found))) (sig_Threshold signal)).
  { unfold raised. rewrite !elem_of_cons, elem_of_nil in Hq. destruct Hq as [->|[->|[->|[->|[]]]]]; done. }
  rewrite Hr. destruct (countMatch_spec signal severity matching ref summary (qs_Records result)) as [[-> H]|[-> H]].
  - split; [split; [done|by eexists]|]. intros x [= <-]. split; [done|]. split; [done|].
    unfold shown_evidence. cbn [m_Evidence]. rewrite map_map. by apply map_ext.
  - split; [split; [by intros []|done]|done].
Qed.

Lemma evaluate_meets signal queryType result target severity :
  evaluated signal queryType result target severity
    (List.filter (tested signal queryType) (qs_Records result)) (EvaluateSignal signal queryType result target severity).
Proof.
  unfold EvaluateSignal.
  destruct (String.eqb_spec queryType QueryTypeMetric) as [->|H1]; [apply metric_evaluated|].
  destruct (String.eqb_spec queryType QueryTypeLog) as [->|H2].
  { replace (List.filter _ _) with (qs_Records result); [apply log_evaluated|].
    induction (qs_Records result) as [|r l IH]; [done|]. cbn. by rewrite <- IH. }
  destruct (String.eqb_spec queryType QueryTypeEvent) as [->|H3].
  { by apply (counted_evaluated _ _ _ _ _ _ _ _ "event"
      (fun r => any_string r "message")); [left|..]. }
  destruct (String.eqb_spec queryType QueryTypeDeploymentCondition) as [->|H4].
  { by apply (counted_evaluated _ _ _ _ _ _ _ _ "deploymentCondition"
      (fun r => any_string r "type" +:+ "=" +:+ any_string r "status" +:+ " " +:+ any_string r "message")); [right; left|..]. }
  destruct (String.eqb_spec queryType QueryTypeServiceConfiguration) as [->|H5].
  { by apply (counted_evaluated _ _ _ _ _ _ _ _ "serviceConfiguration"
      serviceConfigurationEvidenceSummary); [right; right; left|..]. }
  destruct (String.eqb_spec queryType QueryTypeProbeConfiguration) as [->|H6].
  { by apply (counted_evaluated _ _ _ _ _ _ _ _ "probeConfiguration"
      probeConfigurationEvidenceSummary); [right; right; right; left|..]. }
  assert (List.filter (tested signal queryType) (qs_Records result) = []) as ->.
  { induction (qs_Records result) as [|r l IH]; [done|]. cbn. unfold tested at 1.
    apply String.eqb_neq in H1 as ->, H2 as ->, H3 as ->, H4 as ->.
    assert (mem_str queryType [QueryTypeServiceConfiguration; QueryTypeProbeConfiguration] = false) as ->; [|done].
    apply mem_str_false. set_solver. }
  unfold evaluated, raised. apply String.eqb_neq in H1 as ->, H2 as ->. split; [split; [by intros []|naive_solver]|done].
Qed.

(** C20: A signal is raised by what its threshold and reasons say.  Of the records of
    an answer those count that the signal looks for: values that the operator holds
    of, all log lines, events whose reason (or, without one, message) is a wanted one,
    conditions whose text has a wanted one in it, and confirmed mismatches of Service
    and probe configurations.  A metric is raised by one such record; log lines when
    their number passes the threshold, which zero may; the others when there is at
    least one and their number passes.  The match then has the signal, the severity
    and, by kind, source and text, the first value, the log lines in one piece, or
    the first three of the records as its evidence. *)
Theorem evaluate_signal_reference signal queryType result target severity :
  exists found, selects (looked_for signal queryType) (qs_Records result) found /\
    (is_Some (EvaluateSignal signal queryType result target severity) <-> raised signal queryType found) /\
    forall m, EvaluateSignal signal queryType result target severity = Some m ->
      raised_match signal queryType result target severity found m.
Proof.
  exists (List.filter (tested signal queryType) (qs_Records result)).
  split; [apply selects_tested|apply evaluate_meets].
Qed.
End Reference.

(** ** Examples *)

Example float_bits : map bits_of_int [0; 1; 3; -2] =
  [0; 4607182418800017408; 4613937818241073152; -4611686018427387904 + 2 ^ 64].
Proof. vm_compute. reflexivity. Qed.

Example thresholds :
  map (fun t => countThreshold (fst t) (mkRiskThreshold (snd t) (bits_of_int 3)))
    [(3%nat, ">"); (4%nat, "gt"); (3%nat, "count_gte"); (2%nat, "<"); (3%nat, "lte"); (3%nat, "other")]
  = [false; true; true; true; true; false] /\
  countThreshold 0 (mkRiskThreshold "" 0) = false /\ countThreshold 1 (mkRiskThreshold "" 0) = true.
Proof. vm_compute. done. Qed.
