(* ===== verification/RuleSelector.v ===== *)
(** * Targets of a RiskRule (internal/rule/selector.go)

    The workloads a rule's selector means: the objects of the selected kinds,
    Pods resolved to the workload that owns them, filtered by labels, merged and
    sorted; and the kinds that are selected but not supported, with their count. *)

From Stdlib Require Import ZArith Lia Sorting.Sorted.
From stdpp Require Import base list strings gmap.
From S2P Require Import Prelude GoStrings Api Prog InvestigationSpec Egress Datasource Preflight.

(** ** Objects, as far as the code reads them *)

Record WorkloadObject := mkWorkloadObject { k_Meta : ObjectMeta; k_TemplateLabels : gmap string string }.
Record DeploymentObject := mkDeploymentObject {
  dpo_Workload : WorkloadObject; dpo_Replicas : option Z; dpo_ReadyReplicas : Z; dpo_AvailableReplicas : Z
}.
Record StatefulSetObject := mkStatefulSetObject { sto_Workload : WorkloadObject; sto_Replicas : option Z; sto_ReadyReplicas : Z }.
Record DaemonSetObject := mkDaemonSetObject { dso_Workload : WorkloadObject; dso_NumberReady : Z; dso_DesiredNumberScheduled : Z }.
Record JobObject := mkJobObject { jo_Workload : WorkloadObject; jo_Active : Z; jo_Succeeded : Z; jo_Failed : Z }.

(** The reads of the API server; a blank namespace is all of them. *)
Inductive select_op : Type -> Type :=
| LDeployments (namespace : string) : select_op (result (list DeploymentObject))
| LStatefulSets (namespace : string) : select_op (result (list StatefulSetObject))
| LDaemonSets (namespace : string) : select_op (result (list DaemonSetObject))
| LJobs (namespace : string) : select_op (result (list JobObject))
| LCronJobs (namespace : string) : select_op (result (list WorkloadObject))
| LPods (namespace : string) : select_op (result (list ObjectMeta))
| LReplicaSet (namespace name : string) : select_op (result WorkloadObject)
| LDeployment (namespace name : string) : select_op (result DeploymentObject)
| LStatefulSet (namespace name : string) : select_op (result StatefulSetObject)
| LDaemonSet (namespace name : string) : select_op (result DaemonSetObject)
| LJob (namespace name : string) : select_op (result JobObject)
| LCount (kind namespace : string) : select_op (result Z).

Definition lprog : Type -> Type := prog select_op.

(** ** Targets *)

Record PodReference := mkPodReference { pdr_Namespace : string; pdr_Name : string; pdr_UID : string }.
Record WorkloadStatus := mkWorkloadStatus {
  ws_ReadyReplicas : Z; ws_AvailableReplicas : Z; ws_DesiredReplicas : Z;
  ws_Succeeded : Z; ws_Failed : Z; ws_Active : Z
}.
Record Target := mkTarget {
  tg_Resource : ResourceRef;
  tg_Labels : gmap string string;
  tg_UID : string;
  tg_Generation : Z;
  tg_Pods : list PodReference;
  tg_Status : WorkloadStatus;
  tg_OwnerChain : list ResourceRef
}.

Record TargetSelector := mkTargetSelector {
  ts_MatchNames : list string;
  ts_MatchLabels : gmap string string;
  ts_Kinds : list string
}.

Definition noStatus : WorkloadStatus := mkWorkloadStatus 0 0 0 0 0 0.
Definition desiredReplicas (replicas : option Z) : Z := default 1 replicas.

(** The owner marked as controller, or else the first. *)
Definition selectorOwner (refs : list OwnerReference) : option OwnerReference :=
  match List.find (fun o => default false (or_Controller o)) refs with
  | Some o => Some o
  | None => head refs
  end.

Definition workloadTarget (kind apiVersion : string) (w : WorkloadObject) (status : WorkloadStatus) : Target :=
  let m := k_Meta w in
  mkTarget (workloadToResource kind apiVersion (om_Name m) (om_Namespace m) (om_Labels m) (k_TemplateLabels w))
    (workloadLabels (om_Labels m) (k_TemplateLabels w)) (om_UID m) (om_Generation m) [] status [].

Definition deploymentTarget (d : DeploymentObject) : Target :=
  workloadTarget "Deployment" "apps/v1" (dpo_Workload d)
    (mkWorkloadStatus (dpo_ReadyReplicas d) (dpo_AvailableReplicas d) (desiredReplicas (dpo_Replicas d)) 0 0 0).
Definition statefulSetTarget (s : StatefulSetObject) : Target :=
  workloadTarget "StatefulSet" "apps/v1" (sto_Workload s)
    (mkWorkloadStatus (sto_ReadyReplicas s) 0 (desiredReplicas (sto_Replicas s)) 0 0 0).
Definition daemonSetTarget (d : DaemonSetObject) : Target :=
  workloadTarget "DaemonSet" "apps/v1" (dso_Workload d)
    (mkWorkloadStatus (dso_NumberReady d) 0 (dso_DesiredNumberScheduled d) 0 0 0).
Definition jobTarget (j : JobObject) : Target :=
  workloadTarget "Job" "batch/v1" (jo_Workload j) (mkWorkloadStatus 0 0 0 (jo_Succeeded j) (jo_Failed j) (jo_Active j)).
Definition cronJobTarget (w : WorkloadObject) : Target := workloadTarget "CronJob" "batch/v1" w noStatus.

Definition owned (t : Target) (pods : list PodReference) (chain : list ResourceRef) : Target :=
  mkTarget (tg_Resource t) (tg_Labels t) (tg_UID t) (tg_Generation t) pods (tg_Status t) chain.

(** The CronJob that owns a Job, for the chain of the Job's target. *)
Definition cronJobOwner (j : JobObject) (t : Target) : list ResourceRef :=
  let m := k_Meta (jo_Workload j) in
  match selectorOwner (om_OwnerReferences m) with
  | Some owner =>
      if or_Kind owner == "CronJob"
      then [mkResourceRef "in-cluster" (om_Namespace m) "CronJob" (or_Name owner) "batch/v1"
              (firstNonEmpty [map_get (tg_Labels t) "app"; or_Name owner])]
      else []
  | None => []
  end.

Definition replicaSetResource (w : WorkloadObject) : ResourceRef := tg_Resource (workloadTarget "ReplicaSet" "apps/v1" w noStatus).
Definition replicaSetTarget (w : WorkloadObject) (pod : Target) : Target :=
  owned (workloadTarget "ReplicaSet" "apps/v1" w noStatus) (tg_Pods pod) [tg_Resource pod].

(** ** Pods *)

Definition barePodTarget (pod : ObjectMeta) : Target :=
  mkTarget (mkResourceRef "in-cluster" (om_Namespace pod) "Pod" (om_Name pod) "v1"
              (firstNonEmpty [map_get (om_Labels pod) "app"; om_Name pod]))
    (workloadLabels (om_Labels pod) ∅) (om_UID pod) (om_Generation pod)
    [mkPodReference (om_Namespace pod) (om_Name pod) (om_UID pod)] noStatus [].

(** An owner that could not be read: the fallback, unless the error is another
    than not found. *)
Definition unlessMissing (fallback : Target) (err : error) : result Target :=
  if is_not_found err then Ok fallback else Err err.

Definition podCanonicalTarget (pod : ObjectMeta) : lprog (result Target) :=
  let base := barePodTarget pod in
  let podRef := tg_Resource base in
  match selectorOwner (om_OwnerReferences pod) with
  | None => Ret (Ok base)
  | Some owner =>
      let kind := or_Kind owner in
      if kind == "ReplicaSet" then
        got <~! LReplicaSet (om_Namespace pod) (or_Name owner);
        match got with
        | Err e => Ret (unlessMissing base e)
        | Ok rs =>
            match selectorOwner (om_OwnerReferences (k_Meta rs)) with
            | Some rsOwner =>
                if or_Kind rsOwner == "Deployment" then
                  deployment <~! LDeployment (om_Namespace pod) (or_Name rsOwner);
                  Ret (match deployment with
                       | Err e => unlessMissing (replicaSetTarget rs base) e
                       | Ok d => Ok (owned (deploymentTarget d) (tg_Pods base) [podRef; replicaSetResource rs])
                       end)
                else Ret (Ok (replicaSetTarget rs base))
            | None => Ret (Ok (replicaSetTarget rs base))
            end
        end
      else if kind == "StatefulSet" then
        got <~! LStatefulSet (om_Namespace pod) (or_Name owner);
        Ret (match got with
             | Err e => unlessMissing base e
             | Ok s => Ok (owned (statefulSetTarget s) (tg_Pods base) [podRef])
             end)
      else if kind == "DaemonSet" then
        got <~! LDaemonSet (om_Namespace pod) (or_Name owner);
        Ret (match got with
             | Err e => unlessMissing base e
             | Ok d => Ok (owned (daemonSetTarget d) (tg_Pods base) [podRef])
             end)
      else if kind == "Job" then
        got <~! LJob (om_Namespace pod) (or_Name owner);
        Ret (match got with
             | Err e => unlessMissing base e
             | Ok j => Ok (owned (jobTarget j) (tg_Pods base) (podRef :: cronJobOwner j (jobTarget j)))
             end)
      else Ret (Ok (owned base (tg_Pods base) [podRef]))
  end.

Fixpoint canonicalPods (pods : list ObjectMeta) : lprog (result (list Target)) :=
  match pods with
  | [] => Ret (Ok [])
  | pod :: rest =>
      target <~ podCanonicalTarget pod;
      match target with
      | Err e => Ret (Err e)
      | Ok t =>
          targets <~ canonicalPods rest;
          Ret (ts <-! targets; Ok (t :: ts))
      end
  end.

(** ** Discovery *)

(** The loop over the namespaces: one list each, its items made targets. *)
Fixpoint discoverIn {A} (list1 : string -> select_op (result (list A))) (made : list A -> lprog (result (list Target)))
    (namespaces : list string) : lprog (result (list Target)) :=
  match namespaces with
  | [] => Ret (Ok [])
  | namespace :: rest =>
      listed <~! list1 namespace;
      match listed with
      | Err e => Ret (Err e)
      | Ok items =>
          here <~ made items;
          match here with
          | Err e => Ret (Err e)
          | Ok ts =>
              more <~ discoverIn list1 made rest;
              Ret (us <-! more; Ok (ts ++ us))
          end
      end
  end.

Definition pure_targets {A} (f : A -> Target) (items : list A) : lprog (result (list Target)) := Ret (Ok (map f items)).
Definition discoveredJob (j : JobObject) : Target := owned (jobTarget j) [] (cronJobOwner j (jobTarget j)).

Definition discoverDeployments := discoverIn LDeployments (pure_targets deploymentTarget).
Definition discoverStatefulSets := discoverIn LStatefulSets (pure_targets statefulSetTarget).
Definition discoverDaemonSets := discoverIn LDaemonSets (pure_targets daemonSetTarget).
Definition discoverJobs := discoverIn LJobs (pure_targets discoveredJob).
Definition discoverCronJobs := discoverIn LCronJobs (pure_targets cronJobTarget).
Definition discoverPods := discoverIn LPods canonicalPods.

Definition selectedKinds (kinds : list string) : list string :=
  match kinds with [] => ["Deployment"] | _ => List.filter (fun k => k != "") (map trim_space kinds) end.
Definition selectedNamespaces (namespaces : list string) : list string :=
  match namespaces with [] => [""] | _ => namespaces end.

Definition matchesLabels (labels required : gmap string string) : bool :=
  forallb (fun kv => map_get labels (fst kv) == snd kv) (map_to_list required).
Definition filterTargets (targets : list Target) (requiredLabels : gmap string string) : list Target :=
  List.filter (fun t => matchesLabels (tg_Labels t) requiredLabels) targets.

Definition resourceKey (t : Target) : string :=
  let r := tg_Resource t in
  rr_APIVersion r +:+ "/" +:+ rr_Kind r +:+ "/" +:+ rr_Namespace r +:+ "/" +:+ rr_Name r.

Definition mergeTarget (existing t : Target) : Target :=
  mkTarget (tg_Resource existing) (tg_Labels existing) (if tg_UID existing == "" then tg_UID t else tg_UID existing)
    (tg_Generation existing) (tg_Pods existing ++ tg_Pods t) (tg_Status existing) (tg_OwnerChain existing).

(** The map [seen], in the order of its insertions. *)
Fixpoint addTarget (t : Target) (seen : list Target) : list Target :=
  match seen with
  | [] => [t]
  | existing :: rest =>
      if resourceKey existing == resourceKey t then mergeTarget existing t :: rest else existing :: addTarget t rest
  end.
Definition dedupeTargets (targets : list Target) : list Target := fold_left (fun seen t => addTarget t seen) targets [].

Definition targetLess (a b : Target) : bool :=
  let ra := tg_Resource a in let rb := tg_Resource b in
  if rr_Namespace ra == rr_Namespace rb then
    if rr_Kind ra == rr_Kind rb then str_ltb (rr_Name ra) (rr_Name rb) else str_ltb (rr_Kind ra) (rr_Kind rb)
  else str_ltb (rr_Namespace ra) (rr_Namespace rb).

Section Discover.
Context {U : UnicodeTables}.

(** The kinds that are supported, with the name that stands for them. *)
Definition supportedKinds : list (string * string) :=
  [("deployment", "Deployment"); ("statefulset", "StatefulSet"); ("daemonset", "DaemonSet"); ("job", "Job");
   ("cronjob", "CronJob"); ("pod", "Pod")].
Definition canonicalSupportedKind (kind : string) : option string :=
  find_first (fun k => if normalizeTargetKind kind == fst k then Some (snd k) else None) supportedKinds.

Definition discoverKind (kind : string) (namespaces : list string) : option (lprog (result (list Target))) :=
  let k := normalizeTargetKind kind in
  if k == "deployment" then Some (discoverDeployments namespaces)
  else if k == "statefulset" then Some (discoverStatefulSets namespaces)
  else if k == "daemonset" then Some (discoverDaemonSets namespaces)
  else if k == "job" then Some (discoverJobs namespaces)
  else if k == "cronjob" then Some (discoverCronJobs namespaces)
  else if k == "pod" then Some (discoverPods namespaces)
  else None.

Fixpoint discoverKinds (selector : TargetSelector) (kinds : list string) (targets : list Target)
    : lprog (result (list Target)) :=
  match kinds with
  | [] => Ret (Ok targets)
  | kind :: rest =>
      match discoverKind kind (selectedNamespaces (ts_MatchNames selector)) with
      | None => discoverKinds selector rest targets
      | Some discover =>
          discovered <~ discover;
          match discovered with
          | Err e => Ret (Err e)
          | Ok found => discoverKinds selector rest (targets ++ filterTargets found (ts_MatchLabels selector))
          end
      end
  end.

Definition DiscoverTargets (selector : TargetSelector) : lprog (result (list Target)) :=
  found <~ discoverKinds selector (selectedKinds (ts_Kinds selector)) [];
  Ret (targets <-! found; Ok (sort_stable targetLess (dedupeTargets targets))).

(** ** Coverage *)

Record CoverageReport := mkCoverageReport {
  cr_SupportedTargetKinds : list string;
  cr_UnsupportedDiscoveredKinds : gmap string Z;
  cr_Partial : bool
}.

Definition canonicalUnsupportedKind (kind : string) : string :=
  let k := normalizeTargetKind kind in
  if k == "node" then "Node"
  else if mem_str k ["persistentvolumeclaim"; "pvc"] then "PersistentVolumeClaim"
  else if mem_str k ["persistentvolume"; "pv"] then "PersistentVolume"
  else if k == "service" then "Service"
  else if k == "endpointslice" then "EndpointSlice"
  else if k == "ingress" then "Ingress"
  else if mem_str k ["hpa"; "horizontalpodautoscaler"] then "HorizontalPodAutoscaler"
  else if mem_str k ["pdb"; "poddisruptionbudget"] then "PodDisruptionBudget"
  else trim_space kind.

Fixpoint countNamespaced (kind : string) (namespaces : list string) (total : Z) : lprog (result Z) :=
  match namespaces with
  | [] => Ret (Ok total)
  | namespace :: rest =>
      counted <~! LCount kind namespace;
      match counted with
      | Err e => Ret (Err e)
      | Ok n => countNamespaced kind rest (wrap32 (total + wrap32 n))
      end
  end.

Definition countUnsupportedKind (kind : string) (namespaces : list string) : lprog (result Z) :=
  let k := normalizeTargetKind kind in
  let clusterWide kind := counted <~! LCount kind ""; Ret (n <-! counted; Ok (wrap32 n)) in
  if k == "node" then clusterWide "Node"
  else if mem_str k ["persistentvolumeclaim"; "pvc"] then countNamespaced "PersistentVolumeClaim" namespaces 0
  else if mem_str k ["persistentvolume"; "pv"] then clusterWide "PersistentVolume"
  else if k == "service" then countNamespaced "Service" namespaces 0
  else Ret (Ok 0).

Fixpoint coverKinds (namespaces kinds : list string) (report : CoverageReport) : lprog (result CoverageReport) :=
  match kinds with
  | [] => Ret (Ok report)
  | kind :: rest =>
      match canonicalSupportedKind kind with
      | Some canonical =>
          coverKinds namespaces rest
            (mkCoverageReport (appendIfMissing (cr_SupportedTargetKinds report) canonical)
               (cr_UnsupportedDiscoveredKinds report) (cr_Partial report))
      | None =>
          counted <~ countUnsupportedKind kind namespaces;
          match counted with
          | Err e => Ret (Err e)
          | Ok n =>
              coverKinds namespaces rest
                (mkCoverageReport (cr_SupportedTargetKinds report)
                   (<[canonicalUnsupportedKind kind := n]> (cr_UnsupportedDiscoveredKinds report)) true)
          end
      end
  end.

Definition DiscoverCoverage (selector : TargetSelector) : lprog (result CoverageReport) :=
  report <~ coverKinds (selectedNamespaces (ts_MatchNames selector)) (selectedKinds (ts_Kinds selector))
              (mkCoverageReport [] ∅ false);
  Ret (r <-! report;
       Ok (mkCoverageReport (sort_stable str_ltb (cr_SupportedTargetKinds r)) (cr_UnsupportedDiscoveredKinds r) (cr_Partial r))).
End Discover.

(** ** Theorems *)

(** *** The order *)

#[export] Instance targetLess_weak : StrictWeak targetLess.
Proof.
  pose proof (lex_str (fun t => rr_Namespace (tg_Resource t)) _
    (lex_str (fun t => rr_Kind (tg_Resource t)) _
      (strict_weak_key (fun t => rr_Name (tg_Resource t)) str_ltb))) as [H1 H2 H3].
  assert (E : forall a b, targetLess a b =
    (if rr_Namespace (tg_Resource a) != rr_Namespace (tg_Resource b)
     then str_ltb (rr_Namespace (tg_Resource a)) (rr_Namespace (tg_Resource b))
     else if rr_Kind (tg_Resource a) != rr_Kind (tg_Resource b)
          then str_ltb (rr_Kind (tg_Resource a)) (rr_Kind (tg_Resource b))
          else str_ltb (rr_Name (tg_Resource a)) (rr_Name (tg_Resource b)))).
  { intros a b. unfold targetLess. by repeat destruct (_ == _). }
  split; intros *; rewrite !E; [apply H1|apply H2|apply H3].
Qed.

Definition targetPlace (t : Target) : string * string * string :=
  (rr_Namespace (tg_Resource t), rr_Kind (tg_Resource t), rr_Name (tg_Resource t)).

Lemma targetLess_total a b : targetLess a b = false -> targetLess b a = false -> targetPlace a = targetPlace b.
Proof.
  unfold targetLess, targetPlace. rewrite (String.eqb_sym (rr_Namespace (tg_Resource b))).
  destruct (String.eqb_spec (rr_Namespace (tg_Resource a)) (rr_Namespace (tg_Resource b))) as [->|Hn].
  2: { intros H1 H2. destruct Hn. by apply str_ltb_total. }
  rewrite (String.eqb_sym (rr_Kind (tg_Resource b))).
  destruct (String.eqb_spec (rr_Kind (tg_Resource a)) (rr_Kind (tg_Resource b))) as [->|Hk].
  2: { intros H1 H2. destruct Hk. by apply str_ltb_total. }
  intros H1 H2. by rewrite (str_ltb_total _ _ H1 H2).
Qed.

(** The API version of a kind: with it the place of a target is its key. *)
Definition apiVersionOf (kind : string) : string :=
  if kind == "Pod" then "v1" else if mem_str kind ["Job"; "CronJob"] then "batch/v1" else "apps/v1".
Definition versioned (t : Target) : Prop := rr_APIVersion (tg_Resource t) = apiVersionOf (rr_Kind (tg_Resource t)).

Lemma place_key a b : versioned a -> versioned b -> targetPlace a = targetPlace b -> resourceKey a = resourceKey b.
Proof.
  unfold versioned, targetPlace, resourceKey. intros Ha Hb [= -> Hk ->]. by rewrite Ha, Hb, Hk.
Qed.

(** *** One target a key *)

Definition podsAt (key : string) (targets : list Target) : list PodReference :=
  concat (map (fun t => if resourceKey t == key then tg_Pods t else []) targets).

Lemma mergeTarget_key e t : resourceKey (mergeTarget e t) = resourceKey e.
Proof. done. Qed.

Lemma addTarget_keys t seen :
  map resourceKey (addTarget t seen) =
  map resourceKey seen ++ (if mem_str (resourceKey t) (map resourceKey seen) then [] else [resourceKey t]).
Proof.
  induction seen as [|e seen IH]; [done|]. cbn [addTarget map]. destruct (String.eqb_spec (resourceKey e) (resourceKey t)) as [E|E].
  - cbn [map]. rewrite mergeTarget_key. unfold mem_str. cbn [existsb]. rewrite E, String.eqb_refl. cbn. by rewrite app_nil_r.
  - cbn [map app]. rewrite IH. unfold mem_str. cbn [existsb].
    by rewrite (proj2 (String.eqb_neq (resourceKey t) (resourceKey e))) by congruence.
Qed.

Lemma addTarget_NoDup t seen : NoDup (map resourceKey seen) -> NoDup (map resourceKey (addTarget t seen)).
Proof.
  intros H. rewrite addTarget_keys. destruct (mem_str (resourceKey t) (map resourceKey seen)) eqn:E; [by rewrite app_nil_r|].
  apply mem_str_false in E. apply NoDup_app. split; [done|]. split; [|apply NoDup_singleton].
  intros k Hk Hs. apply list_elem_of_singleton in Hs as ->. done.
Qed.

Lemma podsAt_app key l1 l2 : podsAt key (l1 ++ l2) = podsAt key l1 ++ podsAt key l2.
Proof. unfold podsAt. by rewrite map_app, concat_app. Qed.

Lemma podsAt_absent key l : key ∉ map resourceKey l -> podsAt key l = [].
Proof.
  unfold podsAt. induction l as [|t l IH]; [done|]. cbn. rewrite not_elem_of_cons. intros [H1 H2].
  rewrite (proj2 (String.eqb_neq (resourceKey t) key)) by congruence. by apply IH.
Qed.

Lemma addTarget_pods key t seen : NoDup (map resourceKey seen) ->
  podsAt key (addTarget t seen) = podsAt key seen ++ podsAt key [t].
Proof.
  induction seen as [|e seen IH]; [done|]. cbn [addTarget map]. intros [Hn Hd]%NoDup_cons.
  destruct (String.eqb_spec (resourceKey e) (resourceKey t)) as [E|E].
  - unfold podsAt. cbn [map concat]. rewrite mergeTarget_key, <- E.
    destruct (String.eqb_spec (resourceKey e) key) as [<-|]; [|by rewrite !app_nil_r].
    change (concat (map _ seen)) with (podsAt (resourceKey e) seen). rewrite (podsAt_absent _ _ Hn). cbn. by rewrite !app_nil_r.
  - change (podsAt key (e :: addTarget t seen)) with ((if resourceKey e == key then tg_Pods e else []) ++ podsAt key (addTarget t seen)).
    rewrite (IH Hd), app_assoc. done.
Qed.

Lemma addTarget_prop (P : Target -> Prop) t seen :
  (forall a b, P a -> P b -> P (mergeTarget a b)) -> P t -> Forall P seen -> Forall P (addTarget t seen).
Proof.
  intros Hm Ht. induction 1 as [|e seen He Hs IH]; [by repeat constructor|]. cbn [addTarget].
  destruct (_ == _); constructor; auto.
Qed.

(** What the loop keeps, from the targets already seen. *)
Lemma dedupe_from seen ts : NoDup (map resourceKey seen) ->
  let out := fold_left (fun seen t => addTarget t seen) ts seen in
  NoDup (map resourceKey out) /\ (forall key, podsAt key out = podsAt key seen ++ podsAt key ts) /\
  (forall key, key ∈ map resourceKey out <-> key ∈ map resourceKey (seen ++ ts)).
Proof.
  revert seen. induction ts as [|t ts IH]; intros seen Hd; cbn -[podsAt].
  - split; [done|]. split; [intros; change (podsAt key []) with (@nil PodReference)|intros]; by rewrite app_nil_r.
  - destruct (IH _ (addTarget_NoDup t seen Hd)) as (H1 & H2 & H3). split; [done|]. split; intros key.
    + rewrite H2, (addTarget_pods key t seen Hd). by rewrite <- app_assoc, <- podsAt_app.
    + rewrite H3, !map_app, !elem_of_app, addTarget_keys, elem_of_app. cbn. rewrite elem_of_cons.
      destruct (mem_str (resourceKey t) (map resourceKey seen)) eqn:E.
      * apply mem_str_spec in E. rewrite elem_of_nil. naive_solver.
      * rewrite list_elem_of_singleton. tauto.
Qed.

Lemma dedupe_prop (P : Target -> Prop) ts :
  (forall a b, P a -> P b -> P (mergeTarget a b)) -> Forall P ts -> Forall P (dedupeTargets ts).
Proof.
  intros Hm. unfold dedupeTargets. assert (Hn : Forall P []) by constructor. revert Hn. generalize (@nil Target).
  induction ts as [|t ts IH]; intros seen Hs Ht; [done|]. inversion Ht; subst. cbn. apply IH; [|done].
  by apply addTarget_prop.
Qed.

(** *** What discovery finds *)

Lemma pure_targets_ends {A} (f : A -> Target) (P : Target -> Prop) items : (forall a, P (f a)) ->
  ends (fun r => forall ts, r = Ok ts -> Forall P ts) (pure_targets f items).
Proof. intros H. cbn. intros ts [= <-]. induction items; constructor; auto. Qed.

Lemma discoverIn_ends {A} (list1 : string -> select_op (result (list A))) made (P : Target -> Prop) namespaces :
  (forall items, ends (fun r => forall ts, r = Ok ts -> Forall P ts) (made items)) ->
  ends (fun r => forall ts, r = Ok ts -> Forall P ts) (discoverIn list1 made namespaces).
Proof.
  intros Hm. induction namespaces as [|n ns IH]; cbn; [intros ts [= <-]; constructor|]. intros [items|e]; [|done].
  apply ends_bind. eapply ends_mono; [|apply Hm]. intros [here|e] Hh; [|done]. apply ends_bind.
  eapply ends_mono; [|apply IH]. intros [more|e] Hm2; [|done]. cbn. intros ts [= <-].
  apply Forall_app. split; [by apply Hh|by apply Hm2].
Qed.

(** A Pod's target is versioned and carries that Pod. *)
Lemma podCanonicalTarget_ends pod :
  ends (fun r => forall t, r = Ok t ->
          versioned t /\ tg_Pods t = [mkPodReference (om_Namespace pod) (om_Name pod) (om_UID pod)])
    (podCanonicalTarget pod).
Proof.
  unfold podCanonicalTarget. destruct (selectorOwner (om_OwnerReferences pod)) as [owner|]; [|by intros t [= <-]].
  repeat first
    [ progress cbn [ends]
    | match goal with |- forall t, Ok _ = Ok t -> _ => by intros t [= <-]; split
                    | |- forall t, Err _ = Ok t -> _ => done end
    | match goal with |- forall t, _ = Ok t -> _ => unfold unlessMissing; case_match | |- ends _ _ => case_match end
    | intros ? ].
Qed.

Lemma canonicalPods_ends pods : ends (fun r => forall ts, r = Ok ts -> Forall versioned ts) (canonicalPods pods).
Proof.
  induction pods as [|pod pods IH]; cbn [canonicalPods]; [intros ts [= <-]; constructor|].
  apply ends_bind. eapply ends_mono; [|apply podCanonicalTarget_ends]. intros [t|e] Ht; [|done]. apply ends_bind.
  eapply ends_mono; [|apply IH]. intros [ts|e] Hts; [|done]. cbn. intros us [= <-].
  constructor; [by apply Ht|by apply Hts].
Qed.

Section Promises.
Context {U : UnicodeTables}.

Lemma discoverKind_ends kind namespaces p : discoverKind kind namespaces = Some p ->
  ends (fun r => forall ts, r = Ok ts -> Forall versioned ts) p.
Proof.
  unfold discoverKind.
  repeat (case_match;
    [intros [= <-]; apply discoverIn_ends; intros items; first [by apply pure_targets_ends | apply canonicalPods_ends]|]).
  done.
Qed.

Definition selected (selector : TargetSelector) (t : Target) : Prop :=
  versioned t /\ matchesLabels (tg_Labels t) (ts_MatchLabels selector) = true.

Lemma discoverKinds_ends selector kinds targets : Forall (selected selector) targets ->
  ends (fun r => forall ts, r = Ok ts -> Forall (selected selector) ts) (discoverKinds selector kinds targets).
Proof.
  revert targets. induction kinds as [|kind kinds IH]; intros targets Ht; cbn [discoverKinds]; [by intros ts [= <-]|].
  destruct (discoverKind kind _) as [p|] eqn:E; [|by apply IH]. apply ends_bind.
  eapply ends_mono; [|by eapply discoverKind_ends]. intros [found|e] Hf; [|done]. apply IH.
  apply Forall_app. split; [done|]. apply Forall_forall. intros t [Hin Hl]%list_filter_elem. split; [|done].
  specialize (Hf _ eq_refl). rewrite Forall_forall in Hf. by apply Hf.
Qed.

Lemma strictly_sorted ts : NoDup (map resourceKey ts) -> Forall versioned ts ->
  StronglySorted (fun a b => targetLess a b = true) (sort_stable targetLess ts).
Proof.
  intros Hd Hv. rewrite <- (sort_stable_perm targetLess ts) in Hd. rewrite <- (sort_stable_perm targetLess ts) in Hv.
  pose proof (sort_stable_sorted targetLess ts) as Hs. induction Hs as [|a l Hs IH Ha]; constructor.
  - cbn in Hd. apply NoDup_cons in Hd as [_ Hd]. inversion Hv. by apply IH.
  - cbn in Hd. apply NoDup_cons in Hd as [Hn _]. inversion Hv as [|?? Hva Hvl]; subst.
    rewrite Forall_forall in Ha, Hvl |- *. intros b Hb. specialize (Ha b Hb). specialize (Hvl b Hb). cbn in Ha.
    destruct (targetLess a b) eqn:E; [done|]. destruct Hn. apply list_elem_of_fmap. exists b. split; [|done].
    apply place_key; [done..|]. by apply targetLess_total.
Qed.

(** The targets of a selector are in strict order of namespace, kind and name
    - so no workload appears twice, and the order in which the map of the code
    is walked cannot be seen - and each has the selector's labels, whatever the
    API server answers. *)
Theorem targets_strictly_ordered selector :
  ends (fun found => match found with
                     | Err _ => True
                     | Ok targets =>
                         StronglySorted (fun a b => targetLess a b = true) targets /\
                         NoDup (map targetPlace targets) /\
                         Forall (fun t => matchesLabels (tg_Labels t) (ts_MatchLabels selector) = true) targets
                     end) (DiscoverTargets selector).
Proof.
  unfold DiscoverTargets. apply ends_bind. eapply ends_mono; [|by apply discoverKinds_ends, Forall_nil].
  intros [found|e] Hf; [|done]. specialize (Hf _ eq_refl). cbn [ends rbind].
  destruct (dedupe_from [] found NoDup_nil_2) as (Hd & _ & _). fold (dedupeTargets found) in Hd.
  assert (Forall (selected selector) (dedupeTargets found)) as Hs by (by apply dedupe_prop; [intros a b Ha Hb|]).
  assert (StronglySorted (fun a b => targetLess a b = true) (sort_stable targetLess (dedupeTargets found))) as Hso.
  { apply strictly_sorted; [done|]. eapply Forall_impl; [exact Hs|]. by intros t [? ?]. }
  split; [done|]. split.
  - clear -Hso. induction Hso as [|a l Hs IH Ha]; [constructor|]. cbn. apply NoDup_cons. split; [|done].
    intros (b & Heq & Hb)%list_elem_of_fmap. rewrite Forall_forall in Ha. specialize (Ha b Hb).
    unfold targetPlace in Heq. simplify_eq. unfold targetLess in Ha.
    repeat match goal with H : _ = _ :> string |- _ => rewrite H in Ha end.
    by rewrite !String.eqb_refl, str_ltb_irrefl in Ha.
  - rewrite sort_stable_perm. eapply Forall_impl; [exact Hs|]. by intros t [_ ?].
Qed.

(** Of the targets with one key, merging makes one, with the pods of all of
    them in the order they were found; no key appears or is lost. *)
Theorem dedupe_keeps_pods ts :
  NoDup (map resourceKey (dedupeTargets ts)) /\
  (forall key, podsAt key (dedupeTargets ts) = podsAt key ts) /\
  (forall key, key ∈ map resourceKey (dedupeTargets ts) <-> key ∈ map resourceKey ts).
Proof. exact (dedupe_from [] ts NoDup_nil_2). Qed.
End Promises.
