(* ===== verification/DatasourceController.v ===== *)
(** * DataSource resources (internal/datasourceconfig/loader.go, internal/controllers/datasource_controller.go)

    How a DataSource resource becomes a registered source: its query policy and
    endpoint are checked, the HTTP client with its network policy and bearer token
    is built, and the reconciler keeps the registry in step with the resource -
    fail closed, an invalid or deleted resource leaves no source behind. *)

From Stdlib Require Import ZArith Lia.
From stdpp Require Import base list strings gmap.
From S2P Require Import Prelude GoStrings Api InvestigationApi Prog Runtime DataClassification Egress InvestigationStatus Datasource Network.

(** ** The resource (api/v1alpha1/datasource_types.go) *)

Record DataSourceAuthSpec := mkDataSourceAuthSpec { das_Type : string; das_SecretRef : option SecretKeyRef }.

Record DataSourceSpec := mkDataSourceSpec {
  dsp_Type : string;
  dsp_Endpoint : string;
  dsp_Timeout : duration;
  dsp_NetworkPolicy : DataSourceNetworkPolicy;
  dsp_QueryPolicy : DataSourceQueryPolicy;
  dsp_DataClassification : DataClassification;
  dsp_Auth : option DataSourceAuthSpec;
  (** [spec.tls] is set, and its [insecureSkipVerify]. *)
  dsp_TLS : option bool
}.

Record DataSourceStatus := mkDataSourceStatus {
  dss_ResourceStatus : ResourceStatus;
  dss_Conditions : list Condition
}.

#[export] Instance Condition_eq_dec : EqDecision Condition.
Proof. solve_decision. Defined.
#[export] Instance DataSourceStatus_eq_dec : EqDecision DataSourceStatus.
Proof. solve_decision. Defined.

Record DataSourceResource := mkDataSourceResource {
  dsr_Meta : ObjectMeta;
  dsr_Spec : DataSourceSpec;
  dsr_Status : DataSourceStatus
}.

Definition with_source_status (r : DataSourceResource) (s : DataSourceStatus) : DataSourceResource :=
  mkDataSourceResource (dsr_Meta r) (dsr_Spec r) s.

(** ** The loader *)

(** What the code sets of the [*http.Client] of an adapter: the transport has no
    proxy and dials through the network policy. *)
Record HTTPClient := mkHTTPClient {
  hc_Timeout : duration;
  hc_Policy : DataSourceNetworkPolicy;
  hc_InsecureSkipVerify : bool;
  hc_Token : option string
}.

(** The adapter with its base URL and client, behind [policyDataSource]. *)
Record BuiltSource := mkBuiltSource {
  bs_Source : DataSource;
  bs_HTTP : option (string * HTTPClient)
}.

(** The operations of the loader and the reconciler. *)
Inductive source_op : Type -> Type :=
| SNow : source_op time
| SGet (namespace name : string) : source_op (result DataSourceResource)
| SList : source_op (result (list DataSourceResource))
| SGetSecret (namespace name : string) : source_op (result (gmap string string))
| SUpdateStatus (r : DataSourceResource) : source_op (option error)
| SRegister (name : string) (built : BuiltSource) : source_op unit
| SUnregister (name : string) : source_op unit.

Definition sprog : Type -> Type := prog source_op.

(** [bearerRoundTripper.RoundTrip]: the Authorization header of the request sent,
    on every request of the client, redirected ones included. *)
Definition roundTripAuthorization (token header : string) : string :=
  if header == "" then "Bearer " +:+ token else header.

Section Loader.
Context {U : UnicodeTables} {UP : URLs}.
(** Whether the reader and the client of the cluster are given. *)
Context (reader kubeReader : bool).

Definition loader_error (reason message : string) : ValidationError := mkValidationError reason message.

Definition resolveBearerToken (item : DataSourceResource) : sprog (string + ValidationError) :=
  let fail reason message := Ret (inr (loader_error reason message)) in
  if negb reader then fail "SecretReaderUnavailable" "secret reader is nil"
  else
    match dsp_Auth (dsr_Spec item) ≫= das_SecretRef with
    | None => fail "SecretRefMissing" "bearerToken auth requires secretRef"
    | Some ref =>
        let key := om_Namespace (dsr_Meta item) +:+ "/" +:+ skr_Name ref in
        got <~! SGetSecret (om_Namespace (dsr_Meta item)) (skr_Name ref);
        match got with
        | Err e => fail "SecretNotFound" ("get secret " +:+ key +:+ ": " +:+ err_msg e)
        | Ok data =>
            match data !! skr_Key ref with
            | None => fail "SecretKeyMissing" ("secret " +:+ key +:+ " missing key " +:+ quote (skr_Key ref))
            | Some value =>
                if trim_space value == ""
                then fail "SecretValueEmpty" ("secret " +:+ key +:+ " key " +:+ quote (skr_Key ref) +:+ " is empty")
                else Ret (inl value)
            end
        end
    end.

Definition usesBearerToken (spec : DataSourceSpec) : bool :=
  match dsp_Auth spec with Some auth => equal_fold (das_Type auth) "bearerToken" | None => false end.

Definition plainClient (spec : DataSourceSpec) (token : option string) : HTTPClient :=
  mkHTTPClient (if 0 <? dsp_Timeout spec then dsp_Timeout spec else 10 * second) (dsp_NetworkPolicy spec)
    (default false (dsp_TLS spec)) token.

Definition buildHTTPClient (item : DataSourceResource) : sprog (HTTPClient + ValidationError) :=
  let spec := dsr_Spec item in
  if trim_space (dsp_Endpoint spec) == "" then Ret (inr (loader_error "EndpointMissing" "endpoint is empty"))
  else
    match validateDatasourceEndpoint (dsp_Endpoint spec) (dsp_NetworkPolicy spec) with
    | Some err => Ret (inr err)
    | None =>
        if usesBearerToken spec then
          token <~ resolveBearerToken item;
          Ret (match token with
               | inl value => inl (plainClient spec (Some value))
               | inr err => inr err
               end)
        else Ret (inl (plainClient spec None))
    end.

Definition policied (spec : DataSourceSpec) (adapter : DataSource) : DataSource :=
  policyDataSource adapter (dsp_QueryPolicy spec) (dsp_DataClassification spec).

Definition buildHTTPSource (item : DataSourceResource) (adapter : DataSource) : sprog (BuiltSource + ValidationError) :=
  client <~ buildHTTPClient item;
  Ret (match client with
       | inl c => inl (mkBuiltSource (policied (dsr_Spec item) adapter) (Some (dsp_Endpoint (dsr_Spec item), c)))
       | inr err => inr err
       end).

Definition BuildSourceFromResource (item : DataSourceResource) : sprog (BuiltSource + ValidationError) :=
  let spec := dsr_Spec item in
  let type := normalizeResourceType (dsp_Type spec) in
  match validateQueryPolicy (dsp_QueryPolicy spec) with
  | Some err => Ret (inr err)
  | None =>
      if type == "prometheus" then buildHTTPSource item prometheusAdapter
      else if type == "loki" then buildHTTPSource item lokiAdapter
      else if type == "kubernetes-events" then
        Ret (if kubeReader then inl (mkBuiltSource (policied spec kubernetesAdapter) None)
             else inr (loader_error "KubernetesClientUnavailable" "kubernetes datasource requires an in-cluster client"))
      else Ret (inr (loader_error "AdapterNotRegistered"
                       ("unsupported datasource type " +:+ quote (dsp_Type spec))))
  end.

(** The loop of [RegisterFromResources]; what it logs is left out. *)
Fixpoint registerAll (items : list DataSourceResource) : sprog unit :=
  match items with
  | [] => Ret tt
  | item :: rest =>
      built <~ BuildSourceFromResource item;
      match built with
      | inr _ => registerAll rest
      | inl source => _ <~! SRegister (om_Name (dsr_Meta item)) source; registerAll rest
      end
  end.

Definition RegisterFromResources (registry : bool) : sprog (option error) :=
  if negb reader || negb registry then Ret None
  else
    listed <~! SList;
    match listed with
    | Err e => Ret (Some (wrapf "list datasource resources" e))
    | Ok items => _ <~ registerAll items; Ret None
    end.
End Loader.

(** ** The reconciler *)

Definition conditionUnsupported : string := "Unsupported".

(** The loader returns only ValidationErrors. *)
Definition classifyDataSourceError (err : ValidationError) : string * string * bool :=
  (ve_Reason err, ve_Message err, ve_Reason err == "AdapterNotRegistered").

Section Reconcile.
Context {U : UnicodeTables} {UP : URLs} {SC : StatusConditions}.
(** A reconciler with a registry or without; its API reader and client are set. *)
Context (registry : bool).

Definition setDataSourceStatus (phase message : string) (generation : Z) (now : time) (s : DataSourceStatus)
    : DataSourceStatus :=
  mkDataSourceStatus (mkResourceStatus phase message generation now) (dss_Conditions s).

(** [setStatusCondition] on the conditions of the status. *)
Definition setSourceCondition (type status reason message : string) (generation : Z) (now : time)
    (s : DataSourceStatus) : DataSourceStatus :=
  mkDataSourceStatus (dss_ResourceStatus s)
    (SetStatusCondition (dss_Conditions s) (mkCondition type status reason message generation now)).

Definition unsupportedCondition (generation : Z) (now : time) (unsupported : option (string * string))
    (s : DataSourceStatus) : DataSourceStatus :=
  match unsupported with
  | Some (reason, message) => setSourceCondition conditionUnsupported ConditionTrue reason message generation now s
  | None =>
      setSourceCondition conditionUnsupported ConditionFalse "SupportedType" "datasource type is supported" generation now s
  end.

(** The three writes of either branch, each at its own reading of the clock. *)
Definition sourceStatus (item : DataSourceResource) (phase message readiness reason : string)
    (unsupported : option (string * string)) : sprog DataSourceStatus :=
  let generation := om_Generation (dsr_Meta item) in
  t1 <~! SNow;
  t2 <~! SNow;
  t3 <~! SNow;
  Ret (unsupportedCondition generation t3 unsupported
         (setSourceCondition conditionReady readiness reason message generation t2
            (setDataSourceStatus phase message generation t1 (dsr_Status item)))).

Definition whenRegistry (op : source_op unit) : sprog unit := if registry then trigger op else Ret tt.

Definition observeSource (item : DataSourceResource) (built : BuiltSource + ValidationError) : sprog DataSourceStatus :=
  let name := om_Name (dsr_Meta item) in
  match built with
  | inr err =>
      _ <~ whenRegistry (SUnregister name);
      let '(reason, message, unsupported) := classifyDataSourceError err in
      sourceStatus item PhaseFailed message ConditionFalse reason
        (if unsupported then Some (reason, message) else None)
  | inl source =>
      _ <~ whenRegistry (SRegister name source);
      sourceStatus item PhaseObserved "datasource configuration validated" ConditionTrue "ConfigValidated" None
  end.

Definition updateSourceStatus (item : DataSourceResource) (status : DataSourceStatus) : sprog rresult :=
  if bool_decide (status = dsr_Status item) then Ret done_ok
  else
    updated <~! SUpdateStatus (with_source_status item status);
    Ret (match updated with
         | Some e => if is_conflict e then done_ok else done_err e
         | None => done_ok
         end).

Definition reconcileDataSource (namespace name : string) : sprog rresult :=
  got <~! SGet namespace name;
  match got with
  | Err e =>
      _ <~ (if is_not_found e then whenRegistry (SUnregister name) else Ret tt);
      Ret (ignoreNotFound e)
  | Ok item =>
      built <~ BuildSourceFromResource true true item;
      status <~ observeSource item built;
      updateSourceStatus item status
  end.
End Reconcile.

(** ** What the registry promises *)

Section Spec.
Context {U : UnicodeTables} {UP : URLs}.
(** The secrets of the cluster. *)
Context (secrets : string -> string -> result (gmap string string)).

(** The bearer token a resource names can be read and is not blank. *)
Definition has_token (item : DataSourceResource) : Prop :=
  exists ref data value,
    dsp_Auth (dsr_Spec item) ≫= das_SecretRef = Some ref /\
    secrets (om_Namespace (dsr_Meta item)) (skr_Name ref) = Ok data /\
    data !! skr_Key ref = Some value /\ trim_space value <> "".

Definition http_ok (item : DataSourceResource) : Prop :=
  trim_space (dsp_Endpoint (dsr_Spec item)) <> "" /\
  validateDatasourceEndpoint (dsp_Endpoint (dsr_Spec item)) (dsp_NetworkPolicy (dsr_Spec item)) = None /\
  (usesBearerToken (dsr_Spec item) = true -> has_token item).

(** The adapter a valid resource stands for. *)
Inductive admits (item : DataSourceResource) : DataSource -> Prop :=
| admits_prometheus :
    normalizeResourceType (dsp_Type (dsr_Spec item)) = "prometheus" -> http_ok item -> admits item prometheusAdapter
| admits_loki :
    normalizeResourceType (dsp_Type (dsr_Spec item)) = "loki" -> http_ok item -> admits item lokiAdapter
| admits_kubernetes :
    normalizeResourceType (dsp_Type (dsr_Spec item)) = "kubernetes-events" -> admits item kubernetesAdapter.

(** The source the registry should hold for a resource. *)
Definition registered_as (item : DataSourceResource) (entry : option DataSource) : Prop :=
  match entry with
  | Some source =>
      exists adapter, admits item adapter /\ validateQueryPolicy (dsp_QueryPolicy (dsr_Spec item)) = None /\
        source = policied (dsr_Spec item) adapter
  | None => validateQueryPolicy (dsp_QueryPolicy (dsr_Spec item)) <> None \/ forall adapter, ~ admits item adapter
  end.

(** A world of one resource: what was read of it, its entry of the registry, and
    the statuses sent. *)
Record sworld := mkSWorld {
  sw_read : option (result DataSourceResource);
  sw_entry : option DataSource;
  sw_sent : list DataSourceStatus
}.

(** [name] is the resource that is reconciled; an object is stored under its name. *)
Definition source_env (name : string) (w : sworld) (X : Type) (op : source_op X) : X -> sworld -> Prop :=
  match op in source_op X return X -> sworld -> Prop with
  | SNow => fun _ w' => w' = w
  | SGet _ n => fun x w' =>
      (forall item, x = Ok item -> om_Name (dsr_Meta item) = n) /\ w' = mkSWorld (Some x) (sw_entry w) (sw_sent w)
  | SList => fun _ w' => w' = w
  | SGetSecret namespace n => fun x w' => x = secrets namespace n /\ w' = w
  | SUpdateStatus r => fun _ w' => w' = mkSWorld (sw_read w) (sw_entry w) (sw_sent w ++ [dsr_Status r])
  | SRegister n built => fun _ w' =>
      w' = mkSWorld (sw_read w) (if n == name then Some (bs_Source built) else sw_entry w) (sw_sent w)
  | SUnregister n => fun _ w' => w' = mkSWorld (sw_read w) (if n == name then None else sw_entry w) (sw_sent w)
  end.

Abbreviation env name := (source_env name) (only parsing).
Abbreviation always := (fun _ : sworld => True) (only parsing).

(** What a build answers for the item, in a world it leaves alone. *)
Definition built_as (item : DataSourceResource) (built : BuiltSource + ValidationError) : Prop :=
  registered_as item (match built with inl b => Some (bs_Source b) | inr _ => None end).

Lemma token_spec name item w :
  wp (env name) always (resolveBearerToken true item) w
    (fun r w' => w' = w /\ match r with inl _ => has_token item | inr _ => ~ has_token item end).
Proof.
  unfold resolveBearerToken. cbn [negb].
  destruct (dsp_Auth (dsr_Spec item) ≫= das_SecretRef) as [ref|] eqn:Hr.
  2:{ apply wp_ret; [done|]. split; [done|]. intros (ref & _ & _ & He & _). congruence. }
  apply wp_vis; [done|]. intros got w' [-> ->].
  destruct (secrets (om_Namespace (dsr_Meta item)) (skr_Name ref)) as [data|e] eqn:Hs.
  2:{ apply wp_ret; [done|]. split; [done|]. intros (? & ? & ? & He & Hd & _). simplify_eq. congruence. }
  destruct (data !! skr_Key ref) as [value|] eqn:Hk.
  2:{ apply wp_ret; [done|]. split; [done|]. intros (? & ? & ? & He & Hd & Hl & _). simplify_eq. congruence. }
  destruct (String.eqb_spec (trim_space value) "") as [Hv|Hv]; (apply wp_ret; [done|]); (split; [done|]).
  - intros (? & ? & ? & He & Hd & Hl & ?). simplify_eq. congruence.
  - by exists ref, data, value.
Qed.

Lemma client_spec name item w :
  wp (env name) always (buildHTTPClient true item) w
    (fun r w' => w' = w /\ match r with inl _ => http_ok item | inr _ => ~ http_ok item end).
Proof.
  unfold buildHTTPClient, http_ok.
  destruct (String.eqb_spec (trim_space (dsp_Endpoint (dsr_Spec item))) "") as [He|He].
  { apply wp_ret; [done|]. split; [done|]. by intros (? & _). }
  destruct (validateDatasourceEndpoint _ _) as [err|].
  { apply wp_ret; [done|]. split; [done|]. by intros (_ & ? & _). }
  destruct (usesBearerToken (dsr_Spec item)).
  - apply wp_bind. eapply wp_mono; [|apply token_spec]. intros [value|err] w' _ [-> Ht]; (apply wp_ret; [done|]);
      (split; [done|]); [done|]. intros (_ & _ & H). by apply Ht, H.
  - apply wp_ret; [done|]. split; [done|]. split_and!; done.
Qed.

Lemma http_source_spec name item adapter w :
  validateQueryPolicy (dsp_QueryPolicy (dsr_Spec item)) = None ->
  (http_ok item -> admits item adapter) -> ((exists a, admits item a) -> http_ok item) ->
  wp (env name) always (buildHTTPSource true item adapter) w (fun r w' => w' = w /\ built_as item r).
Proof.
  intros Hp Ha Hb. apply wp_bind. eapply wp_mono; [|apply client_spec].
  intros [c|err] w' _ [-> Hc]; (apply wp_ret; [done|]); (split; [done|]).
  - exists adapter. auto.
  - right. intros a Hadm. apply Hc, Hb. by exists a.
Qed.

Lemma build_spec name item w :
  wp (env name) always (BuildSourceFromResource true true item) w (fun r w' => w' = w /\ built_as item r).
Proof.
  unfold BuildSourceFromResource. set (type := normalizeResourceType _).
  destruct (validateQueryPolicy _) as [err|] eqn:Hp; [apply wp_ret; [done|]; split; [done|left; congruence]|].
  destruct (String.eqb_spec type "prometheus") as [Ht|Hn1].
  { apply http_source_spec; [done|by apply admits_prometheus|]. intros [a [| |Hk]]; try done. subst type. congruence. }
  destruct (String.eqb_spec type "loki") as [Ht|Hn2].
  { apply http_source_spec; [done|by apply admits_loki|]. intros [a [| |Hk]]; try done. subst type. congruence. }
  destruct (String.eqb_spec type "kubernetes-events") as [Ht|Hn3]; (apply wp_ret; [done|]); (split; [done|]).
  - exists kubernetesAdapter. split_and!; [by apply admits_kubernetes|done..].
  - right. by intros a [].
Qed.

Section Reconciled.
Context {SC : StatusConditions} {CL : ConditionLaws SC}.

(** A status says Ready exactly when there is a source for the resource. *)
Definition readiness_of (s : DataSourceStatus) : option string :=
  cond_Status <$> find_condition (dss_Conditions s) conditionReady.
Definition status_tells (item : DataSourceResource) (s : DataSourceStatus) : Prop :=
  exists entry, registered_as item entry /\
    readiness_of s = Some (match entry with Some _ => ConditionTrue | None => ConditionFalse end).

Lemma source_status_readiness name item phase message readiness reason unsupported w :
  wp (env name) always (sourceStatus item phase message readiness reason unsupported) w
    (fun s w' => w' = w /\ readiness_of s = Some readiness).
Proof.
  unfold sourceStatus. do 3 (apply wp_vis; [done|]; intros ? ? ->). apply wp_ret; [done|]. split; [done|].
  unfold readiness_of, unsupportedCondition.
  destruct unsupported as [[? ?]|]; unfold setSourceCondition; cbn [dss_Conditions];
    (rewrite set_condition_other; [|done]);
    match goal with |- context [SetStatusCondition ?l ?c] => destruct (set_condition_same l c) as (c' & Hc & _ & Hs & _) end;
    cbn [cond_Type] in Hc; rewrite Hc; cbn in *; by rewrite Hs.
Qed.

(** What the world is once the reconciliation of [name] has finished. *)
Definition in_step (w w' : sworld) : Prop :=
  match sw_read w' with
  | Some (Ok item) => registered_as item (sw_entry w') /\
      exists sent, sw_sent w' = sw_sent w ++ sent /\ Forall (status_tells item) sent
  | Some (Err e) => sw_sent w' = sw_sent w /\ sw_entry w' = if is_not_found e then None else sw_entry w
  | None => False
  end.

Lemma update_status_step name item status w :
  wp (env name) always (updateSourceStatus item status) w
    (fun _ w' => sw_read w' = sw_read w /\ sw_entry w' = sw_entry w /\
       exists sent, sw_sent w' = sw_sent w ++ sent /\ Forall (eq status) sent).
Proof.
  unfold updateSourceStatus. case_bool_decide.
  - apply wp_ret; [done|]. split_and!; [done..|]. exists []. by rewrite app_nil_r.
  - apply wp_vis; [done|]. intros x w' ->. apply wp_ret; [done|]. cbn. split_and!; [done..|].
    exists [status]. split; [done|]. by constructor.
Qed.

Lemma observe_step name item built w :
  om_Name (dsr_Meta item) = name -> built_as item built -> sw_read w = Some (Ok item) ->
  wp (env name) always (observeSource true item built) w
    (fun s w' => sw_read w' = sw_read w /\ sw_sent w' = sw_sent w /\
       registered_as item (sw_entry w') /\ status_tells item s).
Proof.
  intros <- Hb Hr. unfold observeSource, built_as in *.
  destruct built as [b|err]; (apply wp_vis; [done|]); intros _ w1 ->; rewrite String.eqb_refl;
    (eapply wp_mono; [|apply source_status_readiness]); intros s w' _ [-> Hs]; cbn;
    (split_and!; [done..|]); eexists; (split; [exact Hb|exact Hs]).
Qed.

Lemma reconcile_in_step namespace name w :
  wp (env name) always (reconcileDataSource true namespace name) w (fun _ w' => in_step w w').
Proof.
  apply wp_vis; [done|]. intros got w1 [Hname ->]. destruct got as [item|e].
  - apply wp_bind. eapply wp_mono; [|apply build_spec]. intros built w2 _ [-> Hb].
    apply wp_bind. eapply wp_mono; [|apply observe_step; [by apply Hname|exact Hb|done]].
    intros status w2 _ (Hr & Hs & He & Ht). eapply wp_mono; [|apply update_status_step].
    intros _ w3 _ (Hr3 & He3 & sent & Hs3 & Hf). unfold in_step. rewrite Hr3, Hr, He3. cbn in *.
    split; [done|]. exists sent. rewrite Hs3, Hs. split; [done|]. eapply Forall_impl; [exact Hf|]. by intros ? <-.
  - unfold in_step. destruct (is_not_found e) eqn:Hn; cbn.
    + split; [done|]. intros _ w2 ->. rewrite String.eqb_refl. cbn. by rewrite Hn.
    + by rewrite Hn.
Qed.

(** C22: the registry follows the resources, fail closed: after a finished
    reconciliation the entry of a resource is the policied adapter of its type
    exactly when its query policy is valid and, for an HTTP source, its endpoint
    passes the network policy and its token can be read; otherwise, and when the
    resource is gone, there is no entry, whatever was registered before.  Every
    status sent is Ready exactly in the first case, and a failed read changes
    nothing. *)
Theorem registry_follows_resource namespace name w result w' :
  exec (source_env name) (reconcileDataSource true namespace name) w (Some result) w' -> in_step w w'.
Proof.
  intros Hrun. destruct (wp_exec _ _ _ _ _ _ _ (reconcile_in_step namespace name w) Hrun) as [_ H]. by apply (H result).
Qed.
End Reconciled.
End Spec.

(** ** A concrete resource *)

#[local] Existing Instance plain_tables.
#[local] Existing Instance plain_conditions.

(** Every URL is that of the cluster service, for the example. *)
Definition one_url : URLs := {| url_Parse _ := Ok (mkURL "http" "prometheus.monitoring.svc:9090") |}.
#[local] Existing Instance one_url.

Definition dsc_item (endpoint : string) : DataSourceResource :=
  mkDataSourceResource (mkObjectMeta "prom" "monitoring" "u1" "1" 3 ∅ ∅ [])
    (mkDataSourceSpec "Prometheus" endpoint 0 (mkDataSourceNetworkPolicy [] [] [])
       (mkDataSourceQueryPolicy "" [] 0 false false (mkPromQLPolicy [] [] None None None) (mkLogQLPolicy [] []))
       (mkDataClassification "" [] "" "") None None)
    (mkDataSourceStatus (mkResourceStatus "" "" 0 0) []).

(** A handler for runs: the given item, the clock at 5. *)
Definition dsc_handler (item : DataSourceResource) (w : sworld) (X : Type) (op : source_op X) : option (X * sworld) :=
  match op in source_op X return option (X * sworld) with
  | SNow => Some (5, w)
  | SGet _ n => if n == "prom" then Some (Ok item, mkSWorld (Some (Ok item)) (sw_entry w) (sw_sent w)) else None
  | SList => None
  | SGetSecret _ _ => None
  | SUpdateStatus r => Some (None, mkSWorld (sw_read w) (sw_entry w) (sw_sent w ++ [dsr_Status r]))
  | SRegister n built =>
      Some (tt, mkSWorld (sw_read w) (if n == "prom" then Some (bs_Source built) else sw_entry w) (sw_sent w))
  | SUnregister n => Some (tt, mkSWorld (sw_read w) (if n == "prom" then None else sw_entry w) (sw_sent w))
  end.

Definition dsc_before : sworld := mkSWorld None (Some lokiAdapter) [].
Definition dsc_run (endpoint : string) : option rresult * sworld :=
  run (dsc_handler (dsc_item endpoint)) (reconcileDataSource true "monitoring" "prom") dsc_before.

Lemma dsc_exec secrets endpoint :
  exec (source_env secrets "prom") (reconcileDataSource true "monitoring" "prom") dsc_before
    (dsc_run endpoint).1 (dsc_run endpoint).2.
Proof.
  apply run_exec. intros w X op x w' H. destruct op; cbn in *; simplify_eq; try done.
  destruct (String.eqb_spec name "prom") as [->|]; [|done]. simplify_eq. split; [|done]. by intros item [= <-].
Qed.

Lemma registry_follows_resource_witness :
  in_step (fun _ _ => Err (errorf "no secrets")) dsc_before (dsc_run "http://prometheus.monitoring.svc:9090").2 /\
  sw_entry (dsc_run " ").2 = None.
Proof.
  split; [|vm_compute; reflexivity].
  apply (registry_follows_resource (fun _ _ => Err (errorf "no secrets")) "monitoring" "prom" dsc_before done_ok).
  exact (dsc_exec (fun _ _ => Err (errorf "no secrets")) "http://prometheus.monitoring.svc:9090").
Defined.
