(* ===== verification/InvestigationProjection.v ===== *)
(** * Projection of a confirmed investigation to a RiskSignal

    What [promoteToRiskSignal] writes: the desired RiskSignal and the compact
    projection of the verdict in its status
    (internal/controllers/investigationrequest_controller.go, with the helpers
    of riskrule_controller.go that it calls). *)

From Stdlib Require Import ZArith Lia.
From stdpp Require Import base list strings gmap.
From S2P Require Import Prelude GoStrings Utf8 Float64 Api InvestigationApi Digest Prog Runtime AgentAction DataClassification Scope Observation Egress Gateway Verifier InvestigationGate InvestigationRCA InvestigationExecution InvestigationStatus InvestigationSpec.

Definition annotationTargetRef : string := "fluxseer-rca.aiops.platform/target-ref".
Definition annotationDetectionSource : string := "fluxseer-rca.aiops.platform/detection-source".
Definition annotationInvestigationRequest : string := "fluxseer-rca.aiops.platform/investigation-request".

Section Projection.
Context {U : UnicodeTables} {D : DigestPrims} {SC : StatusConditions} {CR : ControllerReferences}.
Implicit Type request : InvestigationRequest.
Implicit Type evidence : EvidenceCollectionResult.
Implicit Type preflight : PreflightResult.

(** ** Names and annotations *)

Definition dash_byte (c : Ascii.ascii) : Ascii.ascii :=
  if (byte_val c =? 95) || (byte_val c =? 46) then byte_of 45 else c.

Definition riskSignalName (ruleName targetName : string) : string :=
  let name := str_map dash_byte (to_lower (ruleName +:+ "-" +:+ targetName +:+ "-risk")) in
  if str_len name <=? 63 then name else trim_suffix (str_take 63 name) "-".
Definition investigationRiskSignalName (requestName targetName : string) : string :=
  riskSignalName (requestName +:+ "-investigation") targetName.

Definition investigationSignalType preflight : string :=
  match pf_CollectionPlan preflight with step :: _ => cs_QueryType step | [] => "investigation" end.

Definition applyFindingIdentityAnnotations (annotations : gmap string string) (identity : option FindingIdentity)
    : gmap string string :=
  match identity with
  | None => annotations
  | Some i =>
      <[annotationTargetGeneration := itoa (fi_TargetGeneration i)]>
      (<[annotationIncidentOccurrence := fi_IncidentOccurrence i]>
      (<[annotationLogicalFindingID := fi_LogicalFindingIdentity i]>
      (<[annotationObjectFindingID := fi_ObjectFindingIdentity i]>
      (<[annotationFindingType := fi_FindingType i]>
      (<[annotationFindingSchema := fi_SchemaVersion i]> annotations)))))
  end.

(** ** The mutate function of [CreateOrUpdate] *)

Definition requestIdentity request : option FindingIdentity :=
  match ist_Lineage (ir_Status request) with Some l => ln_FindingIdentity l | None => None end.
Definition slashed (namespace name : string) : string := namespace +:+ "/" +:+ name.

Definition projectedAnnotations request preflight (annotations : gmap string string) : gmap string string :=
  let target := pf_Target preflight in
  let meta := ir_Meta request in
  let annotations :=
    <[annotationInvestigationRequest := slashed (om_Namespace meta) (om_Name meta)]>
    (<[annotationDetectionSource := "investigation-request"]>
    (<[annotationTargetRef := slashed (rr_Namespace target) (rr_Name target)]> annotations)) in
  let annotations :=
    if lineageTargetUID (ist_Lineage (ir_Status request)) != ""
    then <[annotationTargetUID := lineageTargetUID (ist_Lineage (ir_Status request))]> annotations else annotations in
  applyFindingIdentityAnnotations annotations (requestIdentity request).

Definition projectedParameters request preflight : gmap string string :=
  let base : gmap string string :=
    <["channel" := "webhook"]> (<["mode" := "read-only"]>
    (<["investigationRequest" := om_Name (ir_Meta request)]>
    (<["targetRef" := slashed (rr_Namespace (pf_Target preflight)) (rr_Name (pf_Target preflight))]>
    (<["summaryMode" := "investigation-promoted"]> ∅)))) in
  match requestIdentity request with
  | None => base
  | Some i =>
      <["incidentOccurrence" := fi_IncidentOccurrence i]>
      (<["logicalFindingIdentity" := fi_LogicalFindingIdentity i]>
      (<["objectFindingIdentity" := fi_ObjectFindingIdentity i]> base))
  end.

Definition mutateRiskSignal request preflight evidence (reasoning : ReasoningOutput) (signal : RiskSignal)
    : result RiskSignal :=
  let requestMeta := ir_Meta request in
  meta <-! (if om_Namespace requestMeta == om_Namespace (rsk_Meta signal)
            then SetControllerReference "InvestigationRequest" requestMeta (rsk_Meta signal)
            else Ok (rsk_Meta signal));
  let meta := om_relabel meta
    (<[labelManagedBy := "investigationrequest-controller"]> (om_Labels meta))
    (projectedAnnotations request preflight (om_Annotations meta)) in
  let s := rsk_Spec signal in
  let spec := mkRiskSignalSpec (resourceToTargetRef (pf_Target preflight)) (investigationSignalType preflight)
    (match requestIdentity request with Some i => Some i | None => rss_FindingIdentity s end)
    (Some (mkNamespacedObjectReference (om_Name requestMeta) (om_Namespace requestMeta)))
    "notification.sendSlack" (ro_Severity reasoning) (cf_Score (ro_Confidence reasoning)) true 3600
    (ec_EvidenceRefs evidence) (projectedParameters request preflight) (rss_ApprovalTimeoutSeconds s) in
  Ok (mkRiskSignal meta spec (rsk_Status signal)).

(** ** The projected RCA result *)

Record rcaResult := mkRcaResult {
  rr_Reasoning : option ReasoningOutput;
  rr_ProviderName : string;
  rr_Condition : option Condition;
  rr_Projection : option RiskSignalRCAProjectionStatus;
  rr_Summary : string
}.

Definition rcaCondition (status reason message : string) (now : time) : Condition :=
  mkCondition conditionRCAReady status reason message 0 now.

Definition directProjection : RiskSignalRCAProjectionStatus :=
  mkProjectionStatus "DirectRiskSignalCompatibility" None true
    "RCA compatibility fields were written by direct RiskRule analysis; canonical RCA is owned by InvestigationRequest.status.".

(** The conditions after [applyRCAResult]. *)
Definition rcaResultConditions (conditions : list Condition) (condition : option Condition) (generation : Z) (now : time)
    : list Condition :=
  let conditions := RemoveStatusCondition (RemoveStatusCondition conditions conditionRCAReady) conditionRemediationReady in
  match condition with
  | None => conditions
  | Some c =>
      let conditions := SetStatusCondition conditions (c <| cond_ObservedGeneration := generation |>) in
      SetStatusCondition conditions
        (if cond_Status c == ConditionTrue then
           mkCondition conditionRemediationReady ConditionTrue "RootCauseVerified"
             "remediation planning is allowed after verified root-cause evidence" generation now
         else mkCondition conditionRemediationReady ConditionFalse (cond_Reason c)
                "remediation is not allowed without verified root-cause evidence" generation now)
  end.

Definition applyRCAResult (status : RiskSignalStatus) (rca : rcaResult) (generation : Z) (now : time) : RiskSignalStatus :=
  let '(summary, hypothesis, provider, causes) :=
    match rr_Reasoning rca with
    | Some r => (ro_RiskSummary r, rs_Hypothesis (ro_RCA r), rr_ProviderName rca,
                 map (fun cause => mkRCACause cause (cf_Score (ro_Confidence r))) (rs_Causes (ro_RCA r)))
    | None => (trim_space (rr_Summary rca), "",
               if trim_space (rr_ProviderName rca) != "" then rr_ProviderName rca else "", [])
    end in
  let projection := match rr_Projection rca, rr_Reasoning rca with
                    | Some p, _ => Some p
                    | None, Some _ => Some directProjection
                    | None, None => None
                    end in
  mkRiskSignalStatus (rst_ResourceStatus status) summary hypothesis provider causes projection
    (rcaResultConditions (rst_Conditions status) (rr_Condition rca) generation now).

Definition requestProjection request : RiskSignalRCAProjectionStatus :=
  mkProjectionStatus "InvestigationRequestProjection"
    (Some (mkNamespacedObjectReference (om_Name (ir_Meta request)) (om_Namespace (ir_Meta request)))) false
    "RiskSignal contains a compact projection; canonical RCA is owned by InvestigationRequest.status.".

(** The provider's reasoning cut down to what the verdict established. *)
Definition projectedReasoning request (verdict : RCAVerdict) (reasoning : ReasoningOutput) : ReasoningOutput :=
  let confirmed := ir_Outcome request == InvestigationOutcomeConfirmed in
  let rca := ro_RCA reasoning in
  let score := match vd_ConfidenceDetail verdict with
               | Some _ => int_of_float (float_mul (vd_Confidence verdict) (float_of_int 100))
               | None => cf_Score (ro_Confidence reasoning)
               end in
  reasoning <| ro_RiskSummary := vd_Summary verdict |>
            <| ro_RCA := mkRCASummary (if confirmed then ist_Hypothesis (ir_Status request) else "")
                 (verifiedCauseStatements (rootCauseClaims reasoning (ist_Claims (ir_Status request)))) (rs_Evidence rca) |>
            <| ro_Confidence := (ro_Confidence reasoning) <| cf_Score := score |> |>.

Definition applyProjectedInvestigationRCAResult (status : RiskSignalStatus) request (generation : Z)
    (reasoning : ReasoningOutput) (now : time) : RiskSignalStatus :=
  let provider := ist_Provider (ir_Status request) in
  match ist_Verdict (ir_Status request) with
  | None =>
      applyRCAResult status (mkRcaResult (Some reasoning) provider
        (Some (rcaCondition ConditionFalse "RCAUnverified"
                 "RCA projection is unavailable because canonical verdict is missing" now))
        (Some (requestProjection request)) "") generation now
  | Some verdict =>
      let condition :=
        if ir_Outcome request == InvestigationOutcomeConfirmed then
          rcaCondition ConditionTrue "RootCauseVerified" "RCA promoted from verified investigation request" now
        else rcaCondition ConditionFalse "RCAUnverified" "canonical investigation verdict is inconclusive" now in
      applyRCAResult status (mkRcaResult (Some (projectedReasoning request verdict reasoning)) provider (Some condition)
        (Some (requestProjection request)) "") generation now
  end.

(** The status [promoteToRiskSignal] wants on the stored signal. *)
Definition promotedStatus request evidence (reasoning : ReasoningOutput) (signal : RiskSignal) (now : time) : RiskSignalStatus :=
  let generation := om_Generation (rsk_Meta signal) in
  let outcome := ir_Outcome request in
  let phase := if outcome == "" then InvestigationOutcomeUnknown else outcome in
  let summary := ist_Summary (ir_Status request) in
  let message := if trim_space summary == "" then ro_RiskSummary reasoning else summary in
  let status := (rsk_Status signal) <| rst_ResourceStatus := mkResourceStatus phase message generation now |>
    <| rst_Conditions := SetStatusCondition (rst_Conditions (rsk_Status signal))
         (mkCondition conditionEvidenceReady ConditionTrue "EvidenceCollected" (ec_Summary evidence) generation now) |> in
  applyProjectedInvestigationRCAResult status request generation reasoning now.

Definition statusChangedRiskSignal (before after : RiskSignalStatus) : bool := negb (bool_decide (before = after)).

Definition freshRiskSignal (namespace name : string) : RiskSignal :=
  mkRiskSignal (mkObjectMeta name namespace "" "" 0 ∅ ∅ [])
    (mkRiskSignalSpec zeroTargetRef "" None None "" "" 0 false 0 [] ∅ 0)
    (mkRiskSignalStatus zeroResourceStatus "" "" "" [] None []).
End Projection.
