(* ===== verification/RiskRule.v ===== *)
(** * Risk rules: what is written for a finding (internal/controllers/riskrule_controller.go)

    The pure part of the RiskRule controller: the identity, fingerprint and names
    of a finding, the texts of its conditions and summaries, the queries of the
    investigation it opens, the conditions of the rule, and the spec of the
    RiskSignal or InvestigationRequest it writes. *)

From Stdlib Require Import ZArith Lia.
From stdpp Require Import base list strings gmap.
From S2P Require Import Prelude GoStrings Utf8 GoParse Float64 Api InvestigationApi Digest Runtime AgentAction Egress InvestigationGate InvestigationRCA InvestigationStatus InvestigationSpec InvestigationProjection Datasource RuleEvaluator RuleSelector.

(** ** The resource (api/v1alpha1/riskrule_types.go) *)

Definition RiskRuleInvestigationModeDirectRiskSignal : string := "DirectRiskSignal".
Definition RiskRuleInvestigationModeCreateRequest : string := "CreateRequest".

Record RiskRuleSpec := mkRiskRuleSpec {
  rus_TargetSelector : TargetSelector;
  rus_Interval : duration;
  rus_Window : duration;
  rus_Severity : string;
  rus_Signals : list RiskRuleSignal;
  rus_RCAEnabled : bool;
  rus_ProviderRef : string;
  rus_Mode : string;
  rus_CreateRiskSignal : bool;
  rus_EvidenceProfile : string
}.

Record RiskRuleStatus := mkRiskRuleStatus {
  rut_ResourceStatus : ResourceStatus;
  rut_Conditions : list Condition;
  rut_Coverage : option CoverageReport
}.

Record RiskRule := mkRiskRule { ru_Meta : ObjectMeta; ru_Spec : RiskRuleSpec; ru_Status : RiskRuleStatus }.

(** ** Issues of an evaluation *)

Record evaluationIssue := mkEvaluationIssue { ei_Reason : string; ei_Message : string }.

Record ruleEvaluationSummary := mkRuleEvaluationSummary {
  es_MissingDatasource : option evaluationIssue;
  es_CapabilityMismatch : option evaluationIssue;
  es_QueryFailure : option evaluationIssue;
  es_CoveragePartial : option evaluationIssue
}.
Definition noIssues : ruleEvaluationSummary := mkRuleEvaluationSummary None None None None.

Definition firstIssue (current : option evaluationIssue) (candidate : evaluationIssue) : option evaluationIssue :=
  match current with Some i => Some i | None => Some candidate end.

Definition first_of {A} (current next : option A) : option A := match current with Some x => Some x | None => next end.
Definition mergeRuleEvaluationSummary (current next : ruleEvaluationSummary) : ruleEvaluationSummary :=
  mkRuleEvaluationSummary (first_of (es_MissingDatasource current) (es_MissingDatasource next))
    (first_of (es_CapabilityMismatch current) (es_CapabilityMismatch next))
    (first_of (es_QueryFailure current) (es_QueryFailure next))
    (first_of (es_CoveragePartial current) (es_CoveragePartial next)).

(** ** Modes and values *)

Definition labelRiskRule : string := "fluxseer-rca.aiops.platform/risk-rule".
Definition findingIdentitySchemaVersion : string := "fluxseer-rca-finding-identity-v1".

Definition ruleRequeueAfter (interval : duration) : duration := if 0 <? interval then interval else minute.

(** [int64(d.Seconds())] of a positive duration. *)
Definition whole_seconds (d : duration) : Z :=
  int_of_float (float_add (float_of_int (Z.quot d second)) (float_div (float_of_int (Z.rem d second)) (float_of_int second))).
Definition signalTTLSeconds (interval : duration) : Z := wrap64 (whole_seconds (ruleRequeueAfter interval) * 6).

Definition effectiveWindow (window : duration) : duration := if window <=? 0 then 10 * minute else window.

(** [now.UTC().Truncate(window).Unix()]: the time counts from the year 1. *)
Definition unix_epoch : Z := 62135596800.
Definition normalizedWindowBucket (window : duration) (now : time) : string :=
  let w := effectiveWindow window in
  itoa ((now - now mod w) / second - unix_epoch).

Definition confidenceForSeverity (severity : string) (matches : Z) : Z :=
  let base := if severity == SeverityHigh then 86 else if severity == SeverityUnsafe then 92
              else if severity == SeverityLow then 58 else 65 in
  let base := if 1 <? matches then base + 4 * (matches - 1) else base in
  if 99 <? base then 99 else base.

(** [strings.ReplaceAll] of a text that is not empty; [skip] bytes are of a match. *)
Fixpoint replace_from (old new : string) (skip : nat) (s : string) : string :=
  match s with
  | EmptyString => ""
  | String c s' =>
      match skip with
      | S k => replace_from old new k s'
      | O => if has_prefix s old then new +:+ replace_from old new (String.length old - 1) s'
             else String c (replace_from old new 0 s')
      end
  end.
Definition abbreviatedRuleName (value : string) : string := replace_from "kubernetes" "k8s" 0 value.

(** The bytes that the tokens keep; every other rune separates. *)
Definition is_digit_char (c : Ascii.ascii) : bool := (48 <=? byte_val c) && (byte_val c <=? 57).
Definition is_lower_char (c : Ascii.ascii) : bool := (97 <=? byte_val c) && (byte_val c <=? 122).
Definition is_upper_char (c : Ascii.ascii) : bool := (65 <=? byte_val c) && (byte_val c <=? 90).
Definition dns_char (c : Ascii.ascii) : bool := is_digit_char c || is_lower_char c.
Definition token_char (c : Ascii.ascii) : bool := dns_char c || is_upper_char c.

(** [strings.ToUpper] of one kept byte. *)
Definition upper_byte (c : Ascii.ascii) : Ascii.ascii := if is_lower_char c then byte_of (byte_val c - 32) else c.

Section Rule.
Context {U : UnicodeTables}.

Definition normalizeRuleSeverity (severity : string) : string :=
  let s := to_lower (trim_space severity) in
  if mem_str s [SeverityLow; SeverityMedium; SeverityHigh; SeverityUnsafe] then s
  else if s == "warning" then SeverityMedium
  else if s == "critical" then SeverityHigh
  else SeverityMedium.

Definition investigationPolicyMode (mode : string) : string :=
  if trim_space mode == RiskRuleInvestigationModeDirectRiskSignal then RiskRuleInvestigationModeDirectRiskSignal
  else RiskRuleInvestigationModeCreateRequest.
Definition producedObjectKind (mode : string) : string :=
  if investigationPolicyMode mode == RiskRuleInvestigationModeCreateRequest then "InvestigationRequest" else "RiskSignal".

Definition signalWithRenderedQuery (signal : RiskRuleSignal) (renderedQuery : string) : RiskRuleSignal :=
  mkRiskRuleSignal (sig_Name signal) (sig_Type signal) (sig_DatasourceRef signal) (sig_QueryType signal) renderedQuery
    (if sig_QueryTemplate signal == "" then renderedQuery else sig_QueryTemplate signal) (sig_Reasons signal)
    (sig_Threshold signal).

Definition combineSummaries (matches : list Match) : string := join " | " (map m_Summary matches).
Definition flattenEvidence (matches : list Match) : list EvidenceRef := concat (map m_Evidence matches).

Definition investigationQueriesFromMatches (matches : list Match) : list InvestigationQuery :=
  omap (fun m =>
    let s := m_Signal m in
    match SourceRefForSignal s with
    | None => None
    | Some (sourceName, queryType) =>
        Some (mkInvestigationQuery (sig_Name s) sourceName queryType (sig_Query s) (sig_QueryTemplate s) (sig_Reasons s))
    end) matches.

Definition findingTargetUID (t : Target) : string :=
  if trim_space (tg_UID t) != "" then tg_UID t
  else rr_APIVersion (tg_Resource t) +:+ "/" +:+ rr_Kind (tg_Resource t) +:+ "/" +:+ rr_Namespace (tg_Resource t)
       +:+ "/" +:+ rr_Name (tg_Resource t).

(** ** Tokens *)

Definition normalizeConditionToken (value : string) : string := to_lower (str_concat (fields_func token_char value "")).

Definition capitalized (part : string) : string :=
  match part with String c rest => String (upper_byte c) (to_lower rest) | EmptyString => "" end.
Definition sanitizeConditionToken (value : string) : string := str_concat (map capitalized (fields_func token_char value "")).

Definition conditionReasonToken (value : string) : string :=
  let t := normalizeConditionToken value in
  if t == "backoff" then "BackOff"
  else if t == "crashloopbackoff" then "CrashLoopBackOff"
  else if t == "imagepullbackoff" then "ImagePullBackOff"
  else if t == "errimagepull" then "ErrImagePull"
  else if t == "invalidimagename" then "InvalidImageName"
  else if t == "oomkilled" then "OOMKilled"
  else if t == "oom" then "OOM"
  else if t == "unhealthy" then "Unhealthy"
  else if t == "failedscheduling" then "FailedScheduling"
  else sanitizeConditionToken value.

Definition findingConditionReason (m : Match) : string :=
  let name := sanitizeConditionToken (sig_Name (m_Signal m)) in
  let plain := if name != "" then name +:+ "Detected" else "SignalDetected" in
  match m_Evidence m with
  | [] => plain
  | ref :: _ =>
      let kind := sanitizeConditionToken (er_Kind ref) in
      let reason := conditionReasonToken (er_Reason ref) in
      if (kind != "") && (reason != "") then kind +:+ reason +:+ "Observed"
      else if kind != "" then kind +:+ "Observed"
      else if reason != "" then reason +:+ "Observed"
      else plain
  end.

(** [appendStringIfMissing] trims the value. *)
Definition appendStringIfMissing (values : list string) (value : string) : list string :=
  let v := trim_space value in
  if v == "" then values else if mem_str v values then values else values ++ [v].

Definition findingType (matches : list Match) : string :=
  join "+" (sort_strings (fold_left (fun types m => appendStringIfMissing types (SignalTypeForSignal (m_Signal m))) matches [])).

Definition firstReason (m : Match) : string := match m_Evidence m with ref :: _ => er_Reason ref | [] => "" end.
(** What the evidence of a match shows, by the reason or the signal's name. *)
Definition failureToken (m : Match) : string :=
  normalizeConditionToken (firstNonEmptyString [firstReason m; sig_Name (m_Signal m)]).
Definition failureNames : list (list string * (string * string)) :=
  [(["backoff"; "crashloopbackoff"], ("restart-backoff", "container restart backoff"));
   (["imagepullbackoff"; "errimagepull"; "invalidimagename"; "imagepullfailure"],
    ("image-pull", "container image pull failure"));
   (["oomkilled"; "oom"; "oomkilledevent"], ("oom-killed", "OOM termination"));
   (["unhealthy"; "unhealthyprobe"], ("probe-failure", "readiness or liveness probe failure"));
   (["failedscheduling"], ("scheduling", "pod scheduling failure"))].
Definition knownFailure (m : Match) : option (string * string) :=
  find_first (fun f => if mem_str (failureToken m) (fst f) then Some (snd f) else None) failureNames.

Definition observedFailureNameToken (m : Match) : string := default "" (fst <$> knownFailure m).
Definition observedFailureDescription (m : Match) : string :=
  match knownFailure m with
  | Some (_, description) => description
  | None =>
      if firstReason m != "" then trim_space (firstReason m) +:+ " event"
      else if trim_space (sig_Name (m_Signal m)) != "" then trim_space (sig_Name (m_Signal m)) +:+ " finding"
      else ""
  end.
Definition observedFailureDescriptions (matches : list Match) : list string :=
  fold_left (fun ds m =>
    if observedFailureDescription m != "" then appendStringIfMissing ds (observedFailureDescription m) else ds) matches [].

Definition findingNameToken (matches : list Match) : string :=
  match matches with
  | [] => ""
  | m :: _ =>
      if observedFailureNameToken m != "" then observedFailureNameToken m
      else if trim_space (sig_Name (m_Signal m)) != "" then trim_space (sig_Name (m_Signal m))
      else
        let reason := match m_Evidence m with ref :: _ => trim_space (er_Reason ref) | [] => "" end in
        if reason != "" then reason else findingType matches
  end.

(** [strings.Trim(s, slash) == empty]. *)
Definition only_slashes (s : string) : bool := str_all (fun c => byte_val c =? 47) s.
Definition directRiskSignalUnverifiedRCASummary (target : ResourceRef) (matches : list Match) : string :=
  let targetRef := rr_Namespace target +:+ "/" +:+ rr_Name target in
  let targetRef := if only_slashes targetRef then trim_space (rr_Name target) else targetRef in
  let observed := match observedFailureDescriptions matches with
                  | [] => "a rule-matched finding"
                  | ds => join "; " ds
                  end in
  "Observed " +:+ observed +:+ (if targetRef != "" then " for " +:+ targetRef else "")
  +:+ ". Underlying root cause remains unverified by collected evidence.".

(** ** Names *)

Definition dnsLabelToken (value : string) : string := join "-" (fields_func dns_char (to_lower (trim_space value)) "").

Section Hashed.
Context {D : DigestPrims}.

(** A base cut so that with the tail it fits a DNS label; the tail starts with a dash. *)
Definition labelWithTail (base tail : string) : string :=
  if str_len base + str_len tail <=? 63 then trim_suffix (base +:+ tail) "-"
  else trim_suffix (str_take (63 - String.length tail) base) "-" +:+ tail.

Definition investigationRequestName (ruleName targetName incidentOccurrence : string) : string :=
  let base := dnsLabelToken (ruleName +:+ "-" +:+ targetName) in
  labelWithTail (if base == "" then "investigation" else base) ("-" +:+ str_take 12 (sha256_hex incidentOccurrence)).

Definition directRiskSignalNameSuffix (identity : FindingIdentity) : string :=
  let source := firstNonEmptyString [fi_IncidentOccurrence identity; fi_LogicalFindingIdentity identity;
                                     fi_ObjectFindingIdentity identity] in
  str_take 8 (sha256_hex (if source == "" then "risk-signal" else source)).

Definition directRiskSignalName (ruleName targetName : string) (matches : list Match) (identity : FindingIdentity) : string :=
  let finding := dnsLabelToken (findingNameToken matches) in
  let base := dnsLabelToken (join "-" (nonEmptyStrings [abbreviatedRuleName ruleName; targetName; finding])) in
  labelWithTail (if base == "" then "risk-signal" else base) ("-" +:+ directRiskSignalNameSuffix identity +:+ "-risk").

(** ** Identity *)

(** The digest that stands for a piece of evidence. *)
Definition evidenceMark (ref : EvidenceRef) : string :=
  firstNonEmptyString [er_ContentDigest ref; er_QueryDigest ref;
                       er_Kind ref +:+ ":" +:+ er_Source ref +:+ ":" +:+ er_Summary ref].

(** [fmt.Sprint] of two strings held as [any] puts nothing between them. *)
Definition attributeKey (m : Match) : string := sig_Name (m_Signal m) +:+ SignalTypeForSignal (m_Signal m).
Definition findingAttribute (m : Match) : json :=
  JObj [("signal", JStr (sig_Name (m_Signal m))); ("signalType", JStr (SignalTypeForSignal (m_Signal m)));
        ("severity", JStr (m_Severity m));
        ("evidenceDigests", strings_json (sort_strings (map evidenceMark (m_Evidence m))))].
(** [sort.Slice] leaves the order of equal keys to the algorithm; for the lists of
    twelve or fewer that it sorts by insertion it is the order of the input. *)
Definition normalizedFindingAttributes (matches : list Match) : json :=
  JArr (map findingAttribute (sort_stable (fun a b => str_ltb (attributeKey a) (attributeKey b)) matches)).

Definition identity_digest (fields : list (string * json)) : string :=
  digestString ObservationJSONV1 (JObj (("schemaVersion", JStr findingIdentitySchemaVersion) :: fields)).

Definition findingIdentity (rule : RiskRule) (target : Target) (matches : list Match) (windowBucket : string)
    : FindingIdentity :=
  let kind := findingType matches in
  let attributes := normalizedFindingAttributes matches in
  let resource := tg_Resource target in
  let object := identity_digest
    [("sourceUID", JStr (om_UID (ru_Meta rule))); ("targetUID", JStr (findingTargetUID target)); ("findingType", JStr kind);
     ("attributes", attributes)] in
  let logical := identity_digest
    [("source", JObj [("apiVersion", JStr SchemeGroupVersion); ("kind", JStr "RiskRule");
                      ("namespace", JStr (om_Namespace (ru_Meta rule))); ("name", JStr (om_Name (ru_Meta rule)))]);
     ("target", JObj [("apiVersion", JStr (rr_APIVersion resource)); ("kind", JStr (rr_Kind resource));
                      ("namespace", JStr (rr_Namespace resource)); ("name", JStr (rr_Name resource))]);
     ("findingType", JStr kind); ("attributes", attributes)] in
  let occurrence := identity_digest
    [("objectFindingIdentity", JStr object); ("sourceGeneration", JNum (om_Generation (ru_Meta rule)));
     ("targetGeneration", JNum (tg_Generation target))] in
  mkFindingIdentity findingIdentitySchemaVersion object logical occurrence kind (tg_Generation target) windowBucket.

Definition fingerprintEvidence (ref : EvidenceRef) : json :=
  JObj [("kind", JStr (er_Kind ref)); ("source", JStr (er_Source ref)); ("query", JStr (er_Query ref));
        ("summary", JStr (er_Summary ref)); ("reason", JStr (er_Reason ref))].
Definition fingerprintKey (ref : EvidenceRef) : string := er_Kind ref +:+ er_Source ref +:+ er_Summary ref.
Definition fingerprintMatch (m : Match) : json :=
  JObj [("signal", JStr (sig_Name (m_Signal m))); ("summary", JStr (m_Summary m)); ("severity", JStr (m_Severity m));
        ("evidence", JArr (map fingerprintEvidence
           (sort_stable (fun a b => str_ltb (fingerprintKey a) (fingerprintKey b)) (m_Evidence m))))].
Definition matchKey (m : Match) : string := sig_Name (m_Signal m) +:+ m_Summary m.
Definition findingFingerprint (matches : list Match) : string :=
  digestString ObservationJSONV1
    (JArr (map fingerprintMatch (sort_stable (fun a b => str_ltb (matchKey a) (matchKey b)) matches))).
End Hashed.

(** ** Conditions *)

Definition issue_message (i : option evaluationIssue) : option string :=
  match i with Some e => if trim_space (ei_Message e) != "" then Some (ei_Message e) else None | None => None end.
Definition issue_reason (i : option evaluationIssue) : option string :=
  match i with Some e => if trim_space (ei_Reason e) != "" then Some (ei_Reason e) else None | None => None end.
Definition issues_of (s : ruleEvaluationSummary) : list (option evaluationIssue) :=
  [es_MissingDatasource s; es_CapabilityMismatch s; es_QueryFailure s; es_CoveragePartial s].
Definition firstNonEmptyIssueMessage (s : ruleEvaluationSummary) : string :=
  default "no evaluation issues recorded" (find_first issue_message (issues_of s)).
Definition firstNonEmptyIssueReason (s : ruleEvaluationSummary) : string :=
  default "EvaluationDegraded" (find_first issue_reason (issues_of s)).
Definition any_issue (l : list (option evaluationIssue)) : bool := existsb (fun i => bool_decide (i <> None)) l.

Definition conditionFindingReady : string := "FindingReady".

Section Conditions.
Context {SC : StatusConditions}.

Definition putCondition (type status reason message : string) (generation : Z) (now : time) (l : list Condition)
    : list Condition :=
  SetStatusCondition l (mkCondition type status reason message generation now).

(** A condition that is False with its issue, or True. *)
Definition issueCondition (type : string) (issue : option evaluationIssue) (reason message : string) (generation : Z)
    (now : time) (l : list Condition) : list Condition :=
  match issue with
  | Some i => putCondition type ConditionFalse (ei_Reason i) (ei_Message i) generation now l
  | None => putCondition type ConditionTrue reason message generation now l
  end.

Definition applyRiskRuleConditions (generation : Z) (summary : ruleEvaluationSummary) (now : time) (l : list Condition)
    : list Condition :=
  let l := issueCondition conditionDatasourceResolved (es_MissingDatasource summary) "AllDatasourcesResolved"
             "all referenced datasources were resolved" generation now l in
  let l := issueCondition conditionQueryTypeSupported (es_CapabilityMismatch summary) "AllQueryTypesSupported"
             "all datasource query types were supported" generation now l in
  if any_issue (issues_of summary) then
    let reason := firstNonEmptyIssueReason summary in
    let message := firstNonEmptyIssueMessage summary in
    putCondition conditionDegraded ConditionTrue reason message generation now
      (putCondition conditionReady ConditionFalse reason message generation now l)
  else
    putCondition conditionDegraded ConditionFalse "NoDegradation"
      "no datasource resolution or capability issues detected" generation now
      (putCondition conditionReady ConditionTrue "EvaluationReady" "risk rule evaluation inputs are ready" generation
         now l).

Definition applyEvidenceConditions (generation : Z) (summary : ruleEvaluationSummary) (now : time) (l : list Condition)
    : list Condition :=
  match first_of (es_MissingDatasource summary) (first_of (es_CapabilityMismatch summary) (es_QueryFailure summary)) with
  | Some issue =>
      putCondition conditionEvidenceReady ConditionFalse (ei_Reason issue) (firstNonEmptyIssueMessage summary)
        generation now l
  | None =>
      putCondition conditionEvidenceReady ConditionTrue "AllEvidenceSourcesReady"
        "all datasource references resolved and supported the requested query types" generation now l
  end.

Definition applyFindingCondition (generation : Z) (matches : list Match) (now : time) (l : list Condition)
    : list Condition :=
  match matches with
  | [] => putCondition conditionFindingReady ConditionFalse "NoSignalDetected" "no matching risk signal was detected"
            generation now l
  | m :: _ =>
      let message := combineSummaries matches in
      putCondition conditionFindingReady ConditionTrue (findingConditionReason m)
        (if trim_space message == "" then "risk finding was detected by RiskRule evaluation" else message) generation now l
  end.
End Conditions.

(** ** The objects written *)

Section Written.
Context {D : DigestPrims}.

Definition targetPath (target : Target) : string :=
  rr_Namespace (tg_Resource target) +:+ "/" +:+ rr_Name (tg_Resource target).

Definition directParameters (rule : RiskRule) (target : Target) (identity : FindingIdentity) : gmap string string :=
  <["channel" := "webhook"]> (<["mode" := "read-only"]> (<["riskRule" := om_Name (ru_Meta rule)]>
  (<["targetRef" := targetPath target]> (<["summaryMode" := "rule-evaluated"]>
  (<["objectFindingIdentity" := fi_ObjectFindingIdentity identity]>
  (<["logicalFindingIdentity" := fi_LogicalFindingIdentity identity]>
  (<["incidentOccurrence" := fi_IncidentOccurrence identity]> ∅))))))).

(** The mutate function of [upsertRiskSignal]. *)
Definition mutateDirectSignal (rule : RiskRule) (target : Target) (matches : list Match) (identity : FindingIdentity)
    (signal : RiskSignal) : result RiskSignal :=
  let meta := rsk_Meta signal in
  let spec := rsk_Spec signal in
  let labels := <[labelRiskRule := om_Name (ru_Meta rule)]> (<[labelManagedBy := "riskrule-controller"]> (om_Labels meta)) in
  let annotations :=
    applyFindingIdentityAnnotations
      (<[annotationTargetUID := findingTargetUID target]> (<[annotationDetectionSource := "risk-rule"]>
       (<[annotationTargetRef := targetPath target]> (om_Annotations meta)))) (Some identity) in
  let severity := normalizeRuleSeverity (rus_Severity (ru_Spec rule)) in
  Ok (mkRiskSignal (om_relabel meta labels annotations)
        (mkRiskSignalSpec (resourceToTargetRef (tg_Resource target))
           (match matches with m :: _ => SignalTypeForSignal (m_Signal m) | [] => "" end) (Some identity)
           (rss_InvestigationRef spec) "notification.sendSlack" severity
           (confidenceForSeverity severity (Z.of_nat (length matches))) true
           (signalTTLSeconds (rus_Interval (ru_Spec rule))) (flattenEvidence matches)
           (directParameters rule target identity) (rss_ApprovalTimeoutSeconds spec))
        (rsk_Status signal)).

Definition questionOf (rule : RiskRule) (target : Target) : string :=
  "Investigate RiskRule " +:+ om_Name (ru_Meta rule) +:+ " for " +:+ targetPath target.

Definition requestAnnotations (rule : RiskRule) (target : Target) (fingerprint windowBucket : string)
    (identity : FindingIdentity) (annotations : gmap string string) : gmap string string :=
  let m := ru_Meta rule in
  let annotations :=
    <[annotationFindingFingerprint := fingerprint]>
    (<[annotationTargetUID := findingTargetUID target]>
    (<[annotationLineageGeneration := itoa (om_Generation m)]>
    (<[annotationLineageSourceUID := om_UID m]>
    (<[annotationLineageSourceAPI := SchemeGroupVersion]>
    (<[annotationLineageSourceKind := "RiskRule"]>
    (<[annotationLineageSource := om_Namespace m +:+ "/" +:+ om_Name m]>
    (<[annotationTargetRef := targetPath target]>
    (<[annotationDetectionSource := "risk-rule"]> annotations)))))))) in
  <[annotationWindowBucket := windowBucket]>
  (<[annotationInvestigationDepth := "0"]> (applyFindingIdentityAnnotations annotations (Some identity))).

(** The mutate function of [upsertInvestigationRequest]; an update keeps the other
    fields of the spec. *)
Definition mutateRequest (rule : RiskRule) (target : Target) (matches : list Match) (identity : FindingIdentity)
    (request : InvestigationRequest) : result InvestigationRequest :=
  let meta := ir_Meta request in
  let s := ir_Spec request in
  let r := ru_Spec rule in
  let labels := <[labelRiskRule := om_Name (ru_Meta rule)]> (<[labelManagedBy := "riskrule-controller"]> (om_Labels meta)) in
  let meta := om_relabel meta labels
    (requestAnnotations rule target (findingFingerprint matches) (fi_WindowBucket identity) identity (om_Annotations meta)) in
  Ok (request <| ir_Meta := meta |>
        <| ir_Spec := mkInvestigationRequestSpec (resourceToTargetRef (tg_Resource target)) (irs_Purpose s)
             (irs_Correlation s) (rus_Window r) (questionOf rule target) (irs_DataSources s)
             (investigationQueriesFromMatches matches) (rus_ProviderRef r) InvestigationModeReadOnly
             (rus_CreateRiskSignal r) (rus_EvidenceProfile r) (irs_EvidenceRetention s) (irs_QueryRetention s)
             (irs_QueryBudget s) (irs_LoopPolicy s) (irs_TTLSeconds s) |>).
End Written.
End Rule.

(** ** DNS labels

    A scan of a label: [Some true] after a letter or digit, [Some false] at the
    start or after a dash, [None] once it cannot be a label with single dashes. *)

Definition is_dash (c : Ascii.ascii) : bool := byte_val c =? 45.
Definition scan_step (st : option bool) (c : Ascii.ascii) : option bool :=
  match st with
  | None => None
  | Some after => if dns_char c then Some true else if is_dash c && after then Some false else None
  end.
Fixpoint scan (st : option bool) (s : string) : option bool :=
  match s with EmptyString => st | String c s' => scan (scan_step st c) s' end.

(** A DNS label: 1 to 63 letters, digits and dashes, no dash at either end. *)
Definition dns_label (s : string) : Prop := scan (Some false) s = Some true /\ 1 <= str_len s <= 63.

Lemma scan_app st s t : scan st (s +:+ t) = scan (scan st s) t.
Proof. revert st. induction s as [|c s IH]; intros st; [done|]. apply IH. Qed.

Lemma scan_dash t : scan (Some true) ("-" +:+ t) = scan (Some false) t.
Proof. done. Qed.

Lemma scan_none s : scan None s = None.
Proof. by induction s. Qed.

Lemma scan_dns s b : str_all dns_char s = true -> s <> "" -> scan (Some b) s = Some true.
Proof.
  revert b. induction s as [|c s IH]; intros b; [done|]. cbn [str_all]. intros [Hc Hs]%andb_true_iff _. cbn. rewrite Hc.
  destruct s as [|d s]; [done|]. by apply IH.
Qed.

Lemma scan_take n s b x : scan (Some b) s = Some x -> exists y, scan (Some b) (str_take n s) = Some y.
Proof.
  intros H. rewrite <- (str_take_drop n s), scan_app in H. destruct (scan (Some b) (str_take n s)) as [y|]; [by exists y|].
  by rewrite scan_none in H.
Qed.

Lemma dash_not_dns c : is_dash c = true -> dns_char c = false.
Proof. unfold is_dash, dns_char, is_digit_char, is_lower_char. rewrite Z.eqb_eq. intros ->. done. Qed.

(** Cutting the last byte off a text that ends in a dash. *)
Lemma scan_snoc s c b : scan (Some b) (s +:+ String c "") = Some false ->
  is_dash c = true /\ scan (Some b) s = Some true.
Proof.
  rewrite scan_app. cbn. destruct (scan (Some b) s) as [[|]|]; cbn; [| |done];
    (destruct (dns_char c); [done|]); by destruct (is_dash c).
Qed.

Lemma str_last s : s = "" \/ exists s' c, s = s' +:+ String c "".
Proof.
  induction s as [|c s [->|(s' & d & ->)]]; [by left|right..]; [by exists "", c|by exists (String c s'), d].
Qed.

Lemma str_drop_end s c : str_drop (String.length (s +:+ String c "") - 1) (s +:+ String c "") = String c "".
Proof. rewrite append_length. cbn. rewrite Nat.add_sub. apply str_drop_app. Qed.

(** [strings.TrimSuffix(s, dash)] of a scanned text that is not empty leaves a label. *)
Lemma scan_trim s x : s <> "" -> scan (Some false) s = Some x -> scan (Some false) (trim_suffix s "-") = Some true.
Proof.
  intros Hne Hs. destruct (str_last s) as [->|(s' & c & ->)]; [done|].
  unfold trim_suffix, has_suffix. change (String.length "-") with 1%nat.
  rewrite str_drop_end, (leb_correct 1) by (rewrite append_length; cbn; lia).
  cbn [andb]. destruct (String.eqb_spec (String c "") "-") as [E|E].
  - simplify_eq. rewrite append_length. cbn [String.length]. rewrite Nat.add_sub, str_take_app.
    destruct x; [|by apply scan_snoc in Hs as [_ ?]]. rewrite scan_app in Hs. cbn in Hs.
    destruct (scan (Some false) s') as [[|]|]; done.
  - destruct x; [done|]. apply scan_snoc in Hs as [Hd _]. destruct E. f_equal. unfold is_dash in Hd.
    apply Z.eqb_eq in Hd. rewrite <- (byte_of_val c), Hd. done.
Qed.

Lemma trim_suffix_label s : scan (Some false) s = Some true -> trim_suffix s "-" = s.
Proof.
  intros H. unfold trim_suffix, has_suffix. destruct (str_last s) as [->|(s' & c & ->)]; [done|].
  change (String.length "-") with 1%nat. rewrite str_drop_end, andb_comm.
  destruct (String.eqb_spec (String c "") "-") as [E|E]; [|done]. simplify_eq. rewrite scan_app in H. cbn in H.
  by destruct (scan (Some false) s') as [[|]|].
Qed.

Lemma trim_suffix_length s p : (String.length (trim_suffix s p) <= String.length s)%nat.
Proof.
  unfold trim_suffix. case_match; [|done].
  pose proof (f_equal String.length (str_take_drop (String.length s - String.length p) s)) as H'.
  rewrite append_length in H'. lia.
Qed.

(** The parts of [strings.FieldsFunc]. *)
Lemma fields_func_parts keep s cur : str_all keep cur = true ->
  Forall (fun part => part <> "" /\ str_all keep part = true) (fields_func keep s cur).
Proof.
  revert cur. induction s as [|c s IH]; intros cur Hc; cbn [fields_func].
  - destruct (String.eqb_spec cur ""); constructor; [by split|constructor].
  - destruct (keep c) eqn:Hk.
    + apply IH. rewrite str_all_app, Hc. cbn. by rewrite Hk.
    + apply Forall_app. split; [|by apply IH]. destruct (String.eqb_spec cur ""); constructor; [by split|constructor].
Qed.

Lemma scan_join parts : Forall (fun part => part <> "" /\ str_all dns_char part = true) parts ->
  parts <> [] -> scan (Some false) (join "-" parts) = Some true.
Proof.
  induction 1 as [|part parts [Hne Hp] _ IH]; [done|]. intros _. destruct parts as [|q parts].
  - by apply scan_dns.
  - change (join "-" (part :: q :: parts)) with (part +:+ "-" +:+ join "-" (q :: parts)).
    rewrite scan_app, (scan_dns _ _ Hp Hne), scan_dash. by apply IH.
Qed.

Lemma dnsLabelToken_scan {U : UnicodeTables} value : dnsLabelToken value <> "" ->
  scan (Some false) (dnsLabelToken value) = Some true.
Proof.
  unfold dnsLabelToken. intros H. apply scan_join; [by apply fields_func_parts|]. intros E. by rewrite E in H.
Qed.

Lemma labelWithTail_label base tail :
  scan (Some false) base = Some true -> scan (Some true) tail = Some true -> 0 < str_len tail < 63 ->
  dns_label (labelWithTail base tail).
Proof.
  intros Hb Ht Hl. unfold labelWithTail, dns_label, str_len in *.
  assert (base <> "") as Hne by (by intros ->).
  destruct (Z.leb_spec (Z.of_nat (String.length base) + Z.of_nat (String.length tail)) 63).
  - assert (scan (Some false) (base +:+ tail) = Some true) as Hs by (by rewrite scan_app, Hb).
    rewrite (trim_suffix_label _ Hs), append_length. split; [done|]. lia.
  - set (n := (63 - String.length tail)%nat).
    destruct (scan_take n base false true Hb) as [x Hx].
    assert (String.length (str_take n base) = n) as Hn by (apply str_take_length; lia).
    assert (str_take n base <> "") as Hne' by (intros E; rewrite E in Hn; cbn in Hn; lia).
    rewrite scan_app, (scan_trim _ _ Hne' Hx). split; [done|]. rewrite append_length.
    pose proof (trim_suffix_length (str_take n base) "-"). lia.
Qed.

Section Names.
Context {U : UnicodeTables} {D : DigestPrims}.
(** What [sha256_hex] is: 64 digits and lower-case letters. *)
Hypothesis hash_hex : forall s, String.length (sha256_hex s) = 64%nat /\ str_all dns_char (sha256_hex s) = true.

Lemma hash_part n s : (0 < n <= 64)%nat ->
  str_all dns_char (str_take n (sha256_hex s)) = true /\ String.length (str_take n (sha256_hex s)) = n.
Proof.
  intros Hn. destruct (hash_hex s) as [Hl Ha]. split; [|apply str_take_length; lia].
  rewrite <- (str_take_drop n (sha256_hex s)), str_all_app in Ha. by apply andb_true_iff in Ha as [? _].
Qed.

Lemma scan_tail n s suffix : (0 < n <= 64)%nat -> scan (Some true) suffix = Some true ->
  scan (Some true) ("-" +:+ str_take n (sha256_hex s) +:+ suffix) = Some true.
Proof.
  intros Hn Hs. destruct (hash_part n s Hn) as [Ha Hl]. rewrite scan_dash, scan_app, scan_dns; [done..|]. intros E. rewrite E in Hl. cbn in Hl. lia.
Qed.

Lemma base_scan base fallback : scan (Some false) fallback = Some true ->
  (base <> "" -> scan (Some false) base = Some true) ->
  scan (Some false) (if base == "" then fallback else base) = Some true.
Proof. intros Hf Hb. destruct (String.eqb_spec base ""); [done|by apply Hb]. Qed.

(** The names of the objects a rule writes are DNS labels of at most 63
    bytes, whatever the names of the rule, the target and the signals are: no name
    makes the API server reject the object. *)
Theorem written_names_are_labels (ruleName targetName occurrence : string) (matches : list Match)
    (identity : FindingIdentity) :
  dns_label (investigationRequestName ruleName targetName occurrence) /\
  dns_label (directRiskSignalName ruleName targetName matches identity).
Proof.
  unfold investigationRequestName, directRiskSignalName, directRiskSignalNameSuffix.
  split; apply labelWithTail_label.
  - apply base_scan; [done|apply dnsLabelToken_scan].
  - rewrite <- (append_empty_r (str_take 12 _)). apply scan_tail; [lia|done].
  - unfold str_len. rewrite append_length, (proj2 (hash_part 12 _ ltac:(lia))). by cbn.
  - apply base_scan; [done|apply dnsLabelToken_scan].
  - apply scan_tail; [lia|done].
  - unfold str_len. rewrite !append_length, (proj2 (hash_part 8 _ ltac:(lia))). by cbn.
Qed.
End Names.

(** ** The identity of a finding *)

Section Identity.
Context {U : UnicodeTables} {D : DigestPrims}.

Lemma types_from matches seen :
  NoDup seen ->
  let out := fold_left (fun types m => appendStringIfMissing types (SignalTypeForSignal (m_Signal m))) matches seen in
  NoDup out /\ forall x, x ∈ out <-> x ∈ seen \/ (x <> "" /\ exists m, m ∈ matches /\ x = trim_space (SignalTypeForSignal (m_Signal m))).
Proof.
  revert seen. induction matches as [|m matches IH]; intros seen Hd; cbn.
  { split; [done|]. intros x. split; [by left|]. intros [?|(_ & m & Hm & _)]; [done|]. by apply not_elem_of_nil in Hm. }
  set (v := trim_space (SignalTypeForSignal (m_Signal m))).
  assert (Hn : NoDup (appendStringIfMissing seen (SignalTypeForSignal (m_Signal m))) /\
               forall x, x ∈ appendStringIfMissing seen (SignalTypeForSignal (m_Signal m)) <-> x ∈ seen \/ (x <> "" /\ x = v)).
  { unfold appendStringIfMissing. fold v. destruct (String.eqb_spec v "") as [Hv|Hv]; [split; [done|]; intros; naive_solver|].
    destruct (mem_str v seen) eqn:E.
    - apply mem_str_spec in E. split; [done|]. naive_solver.
    - apply mem_str_false in E. split.
      + apply NoDup_app. split; [done|]. split; [|apply NoDup_singleton]. intros x Hx ->%list_elem_of_singleton. done.
      + intros x. rewrite elem_of_app, list_elem_of_singleton. naive_solver. }
  destruct Hn as [Hn1 Hn2]. destruct (IH _ Hn1) as [H1 H2]. split; [done|]. intros x. rewrite H2, Hn2.
  setoid_rewrite elem_of_cons. naive_solver.
Qed.

Lemma findingType_perm m1 m2 : m1 ≡ₚ m2 -> findingType m1 = findingType m2.
Proof.
  intros Hp. unfold findingType. f_equal. apply sort_strings_perm_eq.
  destruct (types_from m1 [] NoDup_nil_2) as [Hd1 H1], (types_from m2 [] NoDup_nil_2) as [Hd2 H2].
  apply NoDup_Permutation; [done..|]. intros x. rewrite H1, H2. setoid_rewrite Hp. done.
Qed.

(** Sorting by a key that tells the elements apart. *)
Lemma sort_by_key_perm {A} (key : A -> string) (l1 l2 : list A) : NoDup (map key l1) -> l1 ≡ₚ l2 ->
  sort_stable (fun a b => str_ltb (key a) (key b)) l1 = sort_stable (fun a b => str_ltb (key a) (key b)) l2.
Proof.
  intros Hd Hp. apply sort_stable_perm_eq; [apply (strict_weak_key key str_ltb)| |done].
  intros a b Ha Hb H1 H2. pose proof (str_ltb_total _ _ H1 H2) as Hk.
  apply list_elem_of_lookup in Ha as [i Hi], Hb as [j Hj].
  assert (i = j) as ->; [|congruence].
  apply (NoDup_lookup (map key l1) i j (key a)); [done| |]; rewrite list_lookup_fmap.
  - by rewrite Hi.
  - by rewrite Hj, Hk.
Qed.

(** Two references to the same evidence: equal digests when there is one, and without
    any digest the same kind, source and summary. *)
Definition digested (e : EvidenceRef) : Prop :=
  trim_space (er_ContentDigest e) <> "" \/ trim_space (er_QueryDigest e) <> "".
Definition same_reference (a b : EvidenceRef) : Prop :=
  er_ContentDigest a = er_ContentDigest b /\ er_QueryDigest a = er_QueryDigest b /\
  (digested a \/ er_Kind a = er_Kind b /\ er_Source a = er_Source b /\ er_Summary a = er_Summary b).

(** Two matches that are the same finding: the summary of the match, the order of the
    evidence, and what is said about evidence that has a digest may differ. *)
Definition same_match (a b : Match) : Prop :=
  m_Signal a = m_Signal b /\ m_Severity a = m_Severity b /\
  exists evidence, m_Evidence a ≡ₚ evidence /\ Forall2 same_reference evidence (m_Evidence b).

Lemma same_reference_mark a b : same_reference a b -> evidenceMark a = evidenceMark b.
Proof.
  unfold evidenceMark, digested. intros (Hc & Hq & Hd). rewrite <- Hc, <- Hq. cbn.
  destruct (String.eqb_spec (trim_space (er_ContentDigest a)) "") as [E1|]; [|done].
  destruct (String.eqb_spec (trim_space (er_QueryDigest a)) "") as [E2|]; [|done].
  destruct Hd as [[?|?]|(-> & -> & ->)]; done.
Qed.

Lemma same_match_marks a b :
  same_match a b -> map evidenceMark (m_Evidence a) ≡ₚ map evidenceMark (m_Evidence b).
Proof.
  intros (_ & _ & evidence & -> & H). enough (map evidenceMark evidence = map evidenceMark (m_Evidence b)) as -> by done.
  induction H as [|x y l1 l2 Hxy H IH]; [done|]. by rewrite !map_cons, IH, (same_reference_mark _ _ Hxy).
Qed.

Definition same_findings (m1 m2 : list Match) : Prop := exists m, m1 ≡ₚ m /\ Forall2 same_match m m2.

Lemma same_match_attribute a b : same_match a b -> findingAttribute a = findingAttribute b.
Proof.
  intros H. pose proof (same_match_marks _ _ H) as Hp. destruct H as (Hs & Hv & _).
  unfold findingAttribute. rewrite Hs, Hv. do 6 f_equal. f_equal. by apply sort_strings_perm_eq.
Qed.

Lemma same_type a b : same_match a b -> SignalTypeForSignal (m_Signal a) = SignalTypeForSignal (m_Signal b).
Proof. by intros (-> & _). Qed.

Lemma findingType_same m1 m2 : Forall2 same_match m1 m2 -> findingType m1 = findingType m2.
Proof.
  intros H. unfold findingType. do 2 f_equal. generalize (@nil string).
  induction H as [|a b m1 m2 Hab H IH]; intros seen; [done|]. cbn. by rewrite (same_type _ _ Hab), IH.
Qed.

Lemma insert_stable_Forall2 {A} (less : A -> A -> bool) (R : A -> A -> Prop) x y l1 l2 :
  (forall a b c d, R a b -> R c d -> less a c = less b d) -> R x y -> Forall2 R l1 l2 ->
  Forall2 R (insert_stable less x l1) (insert_stable less y l2).
Proof.
  intros Hl Hxy. induction 1 as [|a b l1 l2 Hab H IH]; cbn; [by repeat constructor|].
  rewrite (Hl _ _ _ _ Hxy Hab). destruct (less y b); repeat constructor; done.
Qed.

Lemma sort_stable_Forall2 {A} (less : A -> A -> bool) (R : A -> A -> Prop) l1 l2 :
  (forall a b c d, R a b -> R c d -> less a c = less b d) -> Forall2 R l1 l2 ->
  Forall2 R (sort_stable less l1) (sort_stable less l2).
Proof.
  intros Hl H. unfold sort_stable. assert (Hn : Forall2 R [] []) by constructor. revert Hn. generalize (@nil A) at 1 3.
  generalize (@nil A). induction H as [|a b l1 l2 Hab H IH]; intros acc1 acc2 Hacc; [done|]. cbn. apply IH.
  by apply insert_stable_Forall2.
Qed.

(** C16: the identity of a finding - all of its digests - does not depend on the
    order in which the signals of the rule are evaluated, when the keys they are
    sorted by (name and type put together) differ, nor on the order of the evidence of a signal, nor on
    the summary of a match, nor on kind, source and summary of evidence that has a
    content or query digest.  Evidence that has neither, which is all evidence of
    metrics and logs, is named by kind, source and summary, so there the summary
    has to be the same ([another_value_another_incident] is what happens
    otherwise). *)
Theorem finding_identity_stable (rule : RiskRule) (target : Target) (m1 m2 : list Match) (windowBucket : string) :
  NoDup (map attributeKey m1) -> same_findings m1 m2 ->
  findingIdentity rule target m1 windowBucket = findingIdentity rule target m2 windowBucket.
Proof.
  intros Hd (m & Hp & Hs). unfold findingIdentity, normalizedFindingAttributes.
  rewrite (findingType_perm _ _ Hp), (sort_by_key_perm attributeKey _ _ Hd Hp), (findingType_same _ _ Hs).
  set (less := fun a b => str_ltb (attributeKey a) (attributeKey b)).
  assert (map findingAttribute (sort_stable less m) = map findingAttribute (sort_stable less m2)) as ->; [|done].
  assert (Forall2 same_match (sort_stable less m) (sort_stable less m2)) as H.
  { apply sort_stable_Forall2; [|done]. unfold less, attributeKey. intros a b c d Hab Hcd.
    by rewrite (proj1 Hab), (proj1 Hcd). }
  induction H as [|a b l1 l2 Hab H IH]; [done|]. cbn. by rewrite (same_match_attribute _ _ Hab), IH.
Qed.
End Identity.

(** ** Conditions *)

Section Ready.
Context {SC : StatusConditions} {CL : ConditionLaws SC}.

Lemma any_issue_false l : any_issue l = false <-> Forall (fun i => i = None) l.
Proof.
  unfold any_issue. rewrite Forall_forall. split.
  - intros H i Hi. pose proof (existsb_none _ _ _ H Hi) as Hb. cbn in Hb. apply bool_decide_eq_false in Hb.
    by apply dec_stable.
  - intros H. apply not_true_is_false. intros (i & Hi & Hb)%existsb_elem. apply bool_decide_eq_true in Hb.
    destruct Hb. by apply H.
Qed.

Definition condition_status (l : list Condition) (type : string) : option string := cond_Status <$> find_condition l type.
Definition status_word (b : bool) : string := if b then ConditionTrue else ConditionFalse.

Lemma set_status_same l type status reason message generation now :
  condition_status (putCondition type status reason message generation now l) type = Some status.
Proof.
  unfold condition_status, putCondition.
  destruct (set_condition_same l (mkCondition type status reason message generation now)) as (c & Hc & _ & Hs & _).
  cbn [cond_Type] in Hc. rewrite Hc. cbn in *. by rewrite Hs.
Qed.

Lemma set_status_other l type other status reason message generation now : type <> other ->
  condition_status (putCondition type status reason message generation now l) other = condition_status l other.
Proof. intros H. unfold condition_status, putCondition. by rewrite set_condition_other. Qed.

Lemma issue_condition_same l type issue reason message generation now :
  condition_status (issueCondition type issue reason message generation now l) type =
    Some (status_word (bool_decide (issue = None))).
Proof. destruct issue; unfold issueCondition; by rewrite set_status_same. Qed.

(** After a reconciliation the rule is Ready exactly when it is not Degraded,
    and that is exactly when no source was missing, no query type unsupported, no
    query failed or was refused, and every selected kind is covered; the two
    conditions of the sources say which of the first two it was. *)
Theorem rule_ready_iff (generation : Z) (summary : ruleEvaluationSummary) (now : time) (conditions : list Condition) :
  let after := applyRiskRuleConditions generation summary now conditions in
  condition_status after conditionReady = Some (status_word (bool_decide (Forall (fun i => i = None) (issues_of summary)))) /\
  condition_status after conditionDegraded =
    Some (status_word (negb (bool_decide (Forall (fun i => i = None) (issues_of summary))))) /\
  condition_status after conditionDatasourceResolved =
    Some (status_word (bool_decide (es_MissingDatasource summary = None))) /\
  condition_status after conditionQueryTypeSupported =
    Some (status_word (bool_decide (es_CapabilityMismatch summary = None))).
Proof.
  cbv zeta. unfold applyRiskRuleConditions.
  assert (Hi : any_issue (issues_of summary) = negb (bool_decide (Forall (fun i => i = None) (issues_of summary)))).
  { case_bool_decide as H; [by apply any_issue_false|]. apply not_false_is_true. by rewrite any_issue_false. }
  rewrite Hi. destruct (bool_decide (Forall _ _)); cbn [negb];
    repeat rewrite ?set_status_same, ?(set_status_other _ conditionDegraded), ?(set_status_other _ conditionReady) by done;
    (split_and!; [done|done| |by rewrite issue_condition_same]);
    unfold issueCondition at 1; destruct (es_CapabilityMismatch summary); rewrite set_status_other by done;
    by rewrite issue_condition_same.
Qed.
End Ready.

(** ** Concrete findings *)

Section Examples.
#[local] Existing Instance plain_tables.
#[local] Existing Instance plain_conditions.

(** A hash of the right shape. *)
Definition constant_digest : DigestPrims :=
  {| nfc := id; sha256_hex _ := str_concat (replicate 64 "a") |}.

Definition rr_resource : ResourceRef := mkResourceRef "in-cluster" "shop" "Deployment" "Cart_Service" "apps/v1" "cart".
Definition rr_target : Target := mkTarget rr_resource ∅ "uid-1" 4 [] noStatus [].
Definition rr_rule : RiskRule :=
  mkRiskRule (mkObjectMeta "kubernetes-errors" "ops" "uid-r" "1" 2 ∅ ∅ [])
    (mkRiskRuleSpec (mkTargetSelector [] ∅ []) 0 0 "critical" [] true "" "DirectRiskSignal" true "")
    (mkRiskRuleStatus (mkResourceStatus "" "" 0 0) [] None).
Definition rr_signal (name type : string) : RiskRuleSignal :=
  mkRiskRuleSignal name type "" "" "up" "" [] (mkRiskThreshold ">" 0).
Definition rr_match (name type summary value : string) : Match :=
  mkMatch (rr_signal name type) summary "high" [plainRef type "prometheus" "up" ("metric value " +:+ value) "" "" "" ""].
(** Evidence of an event has a digest. *)
Definition rr_event_match (text : string) : Match :=
  mkMatch (rr_signal "oom" "kubernetes-event") text "high"
    [plainRef "kubernetes-event" "kubernetes" "" text "OOMKilled" "digest" "sha256" ""].

Lemma written_names_are_labels_witness :
  dns_label (@investigationRequestName plain_tables constant_digest "kubernetes_errors" "Cart_Service" "o") /\
  dns_label (@directRiskSignalName plain_tables constant_digest "kubernetes_errors" "Cart_Service"
               [rr_match "errors" "prometheus" "s" "7"] (mkFindingIdentity "" "" "" "o" "" 0 "")).
Proof.
  apply (@written_names_are_labels plain_tables constant_digest); intros; by vm_compute.
Defined.

Lemma rr_name :
  @directRiskSignalName plain_tables constant_digest "kubernetes_errors" "Cart_Service"
    [rr_match "errors" "prometheus" "s" "7"] (mkFindingIdentity "" "" "" "o" "" 0 "")
  = "k8s-errors-cart-service-errors-aaaaaaaa-risk".
Proof. vm_compute. reflexivity. Qed.

Lemma finding_identity_stable_witness :
  @findingIdentity plain_tables plain_digest rr_rule rr_target
    [rr_event_match "seen once"; rr_match "lines" "loki" "second" "8"] "0" =
  @findingIdentity plain_tables plain_digest rr_rule rr_target
    [rr_match "lines" "loki" "another text" "8"; rr_event_match "seen twice"] "0".
Proof.
  apply (@finding_identity_stable plain_tables plain_digest).
  - vm_compute. repeat constructor; intros H; repeat (inversion H as [|? ? ? H']; subst; clear H; rename H' into H).
  - exists [rr_match "lines" "loki" "second" "8"; rr_event_match "seen once"]. split; [apply Permutation_swap|].
    constructor; [|constructor; [|constructor]]; (split; [reflexivity|]; split; [reflexivity|]);
      eexists; (split; [reflexivity|]); (constructor; [|constructor]);
      (split; [reflexivity|]; split; [reflexivity|]); [right; repeat split|left; left]; vm_compute; discriminate.
Defined.

(** Metric evidence has no content digest, so its mark is its text, which has the
    measured value in it: another measurement of the same condition is another
    incident, with another InvestigationRequest. *)
Lemma another_value_another_incident :
  fi_IncidentOccurrence (@findingIdentity plain_tables plain_digest rr_rule rr_target
    [rr_match "errors" "prometheus" "errors crossed threshold" "7.00"] "0") <>
  fi_IncidentOccurrence (@findingIdentity plain_tables plain_digest rr_rule rr_target
    [rr_match "errors" "prometheus" "errors crossed threshold" "8.00"] "0").
Proof. vm_compute. discriminate. Qed.

Lemma rule_ready_iff_witness :
  condition_status (applyRiskRuleConditions 1
    (mkRuleEvaluationSummary None None (Some (mkEvaluationIssue "QueryPolicyRejected" "no")) None) 5 []) conditionReady
  = Some ConditionFalse.
Proof.
  exact (proj1 (rule_ready_iff 1
    (mkRuleEvaluationSummary None None (Some (mkEvaluationIssue "QueryPolicyRejected" "no")) None) 5 [])).
Defined.
End Examples.
