(* ===== verification/RiskRuleController.v ===== *)
(** * The RiskRule reconciler (internal/controllers/riskrule_controller.go)

    [Reconcile] as a program over the clock, the API server, the registry of data
    sources and their queries, and the model gateway: discover the targets, ask
    the sources the rule's signals name, and write an InvestigationRequest or a
    RiskSignal for what matched. *)

From Stdlib Require Import ZArith Lia.
From stdpp Require Import base list strings gmap.
From S2P Require Import Prelude GoStrings Utf8 Float64 Api InvestigationApi Digest Prog Runtime AgentAction DataClassification Observation Egress Gateway Verifier InvestigationGate InvestigationRCA InvestigationVerdict InvestigationStatus InvestigationSpec InvestigationProjection Datasource QueryPolicy Preflight Normalize RuleEvaluator RuleSelector RiskRule.

(** [USelect] is a read of target discovery, [UGetSource] the registry's answer at
    that moment, [UQuery] the [Query] method of a source and [UAnalyze]
    [Gateway.Analyze] (modelled in Gateway); an empty provider name is a missing
    reference. *)
Inductive rule_op : Type -> Type :=
| UNow : rule_op time
| UGetRule (namespace name : string) : rule_op (result RiskRule)
| USelect (X : Type) (op : select_op X) : rule_op X
| UGetSource (name : string) : rule_op (option DataSource)
| UQuery (source : DataSource) (request : QueryRequest) : rule_op (QueryResult + query_error)
| UResolve (namespace name : string) : rule_op (ModelProvider + resolve_error)
| UAnalyze (provider : ModelProvider) (target : ResourceRef) (matches : list Match) (now : time)
    : rule_op (ReasoningOutput + gw_error)
| UEnsureRiskSignal (namespace name : string) (mutate : RiskSignal -> result RiskSignal) : rule_op (result RiskSignal)
| UEnsureRequest (namespace name : string) (mutate : InvestigationRequest -> result InvestigationRequest)
    : rule_op (result InvestigationRequest)
| UUpdateRiskSignalStatus (signal : RiskSignal) : rule_op (option error)
| UUpdateRuleStatus (rule : RiskRule) : rule_op (option error)
| UConflictMetric (resource : string) : rule_op unit.

Definition rprog : Type -> Type := prog rule_op.

(** What of the reconciler is configured. *)
Record RuleConfig := mkRuleConfig { rcf_Registry : bool; rcf_Resolver : bool; rcf_Gateway : bool }.


#[export] Instance CoverageReport_eq_dec : EqDecision CoverageReport.
Proof. solve_decision. Defined.
#[export] Instance RiskRuleStatus_eq_dec : EqDecision RiskRuleStatus.
Proof. solve_decision. Defined.

Section Reconciler.
Context {U : UnicodeTables} {D : DigestPrims} {V : ValueText} {SC : StatusConditions} {Q : QueryTemplates}.
Context (cfg : RuleConfig).
Implicit Types (rule : RiskRule) (target : Target) (matches : list Match).

(** An error of a status update, dropped when it is a conflict. *)
Definition unlessConflict (resource : string) (err : option error) : rprog (option error) :=
  match err with
  | None => Ret None
  | Some e => if is_conflict e then _ <~! UConflictMetric resource; Ret None else Ret (Some e)
  end.

(** ** Evaluation of a target *)

Definition rulePolicyRequest (target : Target) (signal : RiskRuleSignal) (sourceName queryType query : string)
    (window : duration) : PolicyRequest :=
  mkPolicyRequest sourceName (sig_Name signal) (trim_space (sig_QueryTemplate signal) != "") query queryType window
    (tg_Resource target) (tg_Labels target).

(** The limits and the classification are left at zero. *)
Definition zeroClassification : DataClassification := mkDataClassification "" [] "" "".
Definition ruleQuery (target : Target) (query queryType : string) (window : duration) (now : time) : QueryRequest :=
  mkQueryRequest query (time_add now (- window)) now minute (tg_Labels target) (tg_Resource target) queryType []
    zeroResultLimits zeroClassification.

Definition forSignal (signal : RiskRuleSignal) : string := " for signal " +:+ quote (sig_Name signal).

Definition with_missing (s : ruleEvaluationSummary) (i : evaluationIssue) : ruleEvaluationSummary :=
  mkRuleEvaluationSummary (firstIssue (es_MissingDatasource s) i) (es_CapabilityMismatch s) (es_QueryFailure s)
    (es_CoveragePartial s).
Definition with_mismatch (s : ruleEvaluationSummary) (i : evaluationIssue) : ruleEvaluationSummary :=
  mkRuleEvaluationSummary (es_MissingDatasource s) (firstIssue (es_CapabilityMismatch s) i) (es_QueryFailure s)
    (es_CoveragePartial s).
Definition with_failure (s : ruleEvaluationSummary) (i : evaluationIssue) : ruleEvaluationSummary :=
  mkRuleEvaluationSummary (es_MissingDatasource s) (es_CapabilityMismatch s) (firstIssue (es_QueryFailure s) i)
    (es_CoveragePartial s).

Definition evaluation : Type := list Match * ruleEvaluationSummary.

(** The body of the loop for a signal with a source. *)
Definition evaluateSignalFrom (rule : RiskRule) (target : Target) (now : time) (signal : RiskRuleSignal)
    (sourceName queryType : string) (e : evaluation) : rprog (result evaluation) :=
  let window := effectiveWindow (rus_Window (ru_Spec rule)) in
  let '(matches, summary) := e in
  found <~! UGetSource sourceName;
  match found with
  | None =>
      Ret (Ok (matches, with_missing summary (mkEvaluationIssue "DataSourceNotFound"
        ("DataSource " +:+ quote sourceName +:+ " was not found" +:+ forSignal signal))))
  | Some source =>
      if negb (SupportsQueryType (ds_Capabilities source) queryType) then
        Ret (Ok (matches, with_mismatch summary (mkEvaluationIssue "CapabilityMismatch"
          ("DataSource " +:+ quote sourceName +:+ " does not support queryType " +:+ quote queryType
           +:+ forSignal signal))))
      else
        match RenderQuery (QueryTemplateForSignal signal) (tg_Resource target) (tg_Labels target) with
        | Err err => Ret (Err err)
        | Ok query =>
            let decision := Validate (Some source) (rulePolicyRequest target signal sourceName queryType query window) in
            if pd_Decision decision == PolicyRejected then
              Ret (Ok (matches, with_failure summary (mkEvaluationIssue "QueryPolicyRejected" (pd_Message decision))))
            else
              answer <~! UQuery source (ruleQuery target query queryType window now);
              match answer with
              | inr err =>
                  Ret (Ok (matches, with_failure summary (mkEvaluationIssue (QueryErrorReason err "DatasourceQueryFailed")
                    ("query DataSource " +:+ quote sourceName +:+ " failed" +:+ forSignal signal +:+ ": "
                     +:+ query_error_text err))))
              | inl result =>
                  let evaluated := EvaluateSignal (signalWithRenderedQuery signal query) queryType result
                                     (tg_Resource target) (normalizeRuleSeverity (rus_Severity (ru_Spec rule))) in
                  Ret (Ok (matches ++ match evaluated with Some m => [m] | None => [] end, summary))
              end
        end
  end.

Fixpoint evaluateSignals (rule : RiskRule) (target : Target) (now : time) (signals : list RiskRuleSignal)
    (e : evaluation) : rprog (result evaluation) :=
  match signals with
  | [] => Ret (Ok e)
  | signal :: rest =>
      match SourceRefForSignal signal with
      | None => evaluateSignals rule target now rest e
      | Some (sourceName, queryType) =>
          evaluated <~ evaluateSignalFrom rule target now signal sourceName queryType e;
          match evaluated with
          | Err err => Ret (Err err)
          | Ok e => evaluateSignals rule target now rest e
          end
      end
  end.

Definition evaluateTarget (rule : RiskRule) (target : Target) (now : time) : rprog (result evaluation) :=
  evaluateSignals rule target now (rus_Signals (ru_Spec rule)) ([], noIssues).

(** ** Direct RCA *)

Definition evidenceCollectionResultFromMatches matches : EvidenceCollectionResult :=
  mkEvidenceCollectionResult (combineSummaries matches) (flattenEvidence matches) [] [] [] [] None.

Definition unverifiedProjection : RiskSignalRCAProjectionStatus :=
  mkProjectionStatus "DirectRiskSignalCompatibility" None true
    "Direct RiskRule RCA was not projected because proposed root-cause claims were not verified; canonical RCA is owned by InvestigationRequest.status.".

Definition failedRCA (provider reason message : string) (now : time) : rcaResult :=
  mkRcaResult None provider (Some (rcaCondition ConditionFalse reason message now)) None "".

(** What of the provider's reasoning the evidence of the matches bears out. *)
Definition verifiedDirectRCA (provider : string) target matches (reasoning : ReasoningOutput) (now : time) : rcaResult :=
  let evidence := evidenceCollectionResultFromMatches matches in
  let claims := (buildRCAClaims reasoning evidence "").1 in
  let confidence := float_div (float_of_int (cf_Score (ro_Confidence reasoning))) (float_of_int 100) in
  let ev := evaluateCanonicalVerdict reasoning evidence claims confidence "" in
  if ev_Outcome ev != InvestigationOutcomeConfirmed then
    mkRcaResult None provider
      (Some (rcaCondition ConditionFalse "RCAUnverified"
               "RCA completed but proposed root-cause claims were not supported by collected evidence" now))
      (Some unverifiedProjection) (directRiskSignalUnverifiedRCASummary (tg_Resource target) matches)
  else
    let rca := ro_RCA reasoning in
    let sanitized :=
      reasoning <| ro_RiskSummary := ev_Summary ev |>
        <| ro_RCA := mkRCASummary (rs_Hypothesis rca) (verifiedCauseStatements (rootCauseClaims reasoning claims)) (rs_Evidence rca) |>
        <| ro_Confidence := (ro_Confidence reasoning)
             <| cf_Score := int_of_float (float_mul (ev_VerifiedScore ev) (float_of_int 100)) |> |> in
    mkRcaResult (Some sanitized) provider
      (Some (rcaCondition ConditionTrue "ProviderSucceeded" ("RCA generated by ModelProvider " +:+ quote provider) now))
      None "".

Definition noRCA : rcaResult := mkRcaResult None "" None None "".

Definition analyzeRCA (rule : RiskRule) target matches (now : time) : rprog (result rcaResult) :=
  if negb (rus_RCAEnabled (ru_Spec rule)) then Ret (Ok noRCA)
  else if negb (rcf_Resolver cfg) then
    Ret (Ok (failedRCA "" "ResolverUnavailable" "model provider resolver is not configured" now))
  else
    let ref := rus_ProviderRef (ru_Spec rule) in
    resolved <~! UResolve (om_Namespace (ru_Meta rule)) (if trim_space ref == "" then "" else ref);
    match resolved with
    | inr (ResolveError reason message) => Ret (Ok (failedRCA "" reason message now))
    | inr (ReadError err) => Ret (Err err)
    | inl provider =>
        let name := om_Name (mpr_Meta provider) in
        if negb (rcf_Gateway cfg) then
          Ret (Ok (failedRCA name "GatewayUnavailable" "model gateway is not configured" now))
        else
          answer <~! UAnalyze provider (tg_Resource target) matches now;
          Ret (match answer with
               | inr (AnalyzeError reason message) => Ok (failedRCA name reason message now)
               | inr (OtherError err) => Err err
               | inl reasoning => Ok (verifiedDirectRCA name target matches reasoning now)
               end)
    end.

(** ** Writes *)

Definition directStatus (signal : RiskSignal) matches (rca : rcaResult) (summary : ruleEvaluationSummary) (now : time)
    : RiskSignalStatus :=
  let generation := om_Generation (rsk_Meta signal) in
  let status := rsk_Status signal in
  let conditions := applyEvidenceConditions generation summary now
                      (applyFindingCondition generation matches now (rst_Conditions status)) in
  applyRCAResult (status <| rst_ResourceStatus := mkResourceStatus PhaseConfirmed (combineSummaries matches) generation now |>
                         <| rst_Conditions := conditions |>) rca generation now.

Definition windowBucketOf (rule : RiskRule) (now : time) : string := normalizedWindowBucket (rus_Window (ru_Spec rule)) now.
Definition identityOf (rule : RiskRule) target matches (now : time) : FindingIdentity :=
  findingIdentity rule target matches (windowBucketOf rule now).

Definition updateSignal (signal : RiskSignal) (status : RiskSignalStatus) : rprog (option error) :=
  if statusChangedRiskSignal (rsk_Status signal) status then
    err <~! UUpdateRiskSignalStatus (signal <| rsk_Status := status |>);
    unlessConflict "RiskSignal" err
  else Ret None.

Definition upsertRiskSignal (rule : RiskRule) target matches (rca : rcaResult) (summary : ruleEvaluationSummary)
    (now : time) : rprog (option error) :=
  let identity := identityOf rule target matches now in
  let name := directRiskSignalName (om_Name (ru_Meta rule)) (rr_Name (tg_Resource target)) matches identity in
  ensured <~! UEnsureRiskSignal (rr_Namespace (tg_Resource target)) name (mutateDirectSignal rule target matches identity);
  match ensured with
  | Err e => Ret (Some e)
  | Ok signal => updateSignal signal (directStatus signal matches rca summary now)
  end.

Definition upsertInvestigationRequest (rule : RiskRule) target matches (now : time) : rprog (option error) :=
  let identity := identityOf rule target matches now in
  let name := investigationRequestName (om_Name (ru_Meta rule)) (rr_Name (tg_Resource target))
                (fi_IncidentOccurrence identity) in
  ensured <~! UEnsureRequest (om_Namespace (ru_Meta rule)) name (mutateRequest rule target matches identity);
  Ret (match ensured with Ok _ => None | Err e => Some e end).

Definition produceObject (rule : RiskRule) target matches (issues : ruleEvaluationSummary) (now : time)
    : rprog (option error) :=
  if investigationPolicyMode (rus_Mode (ru_Spec rule)) == RiskRuleInvestigationModeCreateRequest then
    upsertInvestigationRequest rule target matches now
  else
    rca <~ analyzeRCA rule target matches now;
    match rca with
    | Err e => Ret (Some e)
    | Ok rca => upsertRiskSignal rule target matches rca issues now
    end.

(** ** The targets *)

(** The loop, with the count of the targets that matched. *)
Fixpoint reconcileEach (rule : RiskRule) (now : time) (targets : list Target) (count : Z)
    (summary : ruleEvaluationSummary) : rprog (result (Z * ruleEvaluationSummary)) :=
  match targets with
  | [] => Ret (Ok (count, summary))
  | target :: rest =>
      evaluated <~ evaluateTarget rule target now;
      match evaluated with
      | Err e => Ret (Err e)
      | Ok (matches, issues) =>
          let summary := mergeRuleEvaluationSummary summary issues in
          match matches with
          | [] => reconcileEach rule now rest count summary
          | _ =>
              failed <~ produceObject rule target matches issues now;
              match failed with
              | Some e => Ret (Err e)
              | None => reconcileEach rule now rest (count + 1) summary
              end
          end
      end
  end.

(** The number of targets, of objects written, and the issues. *)
Definition reconcileTargets (rule : RiskRule) (now : time) : rprog (result (Z * Z * ruleEvaluationSummary)) :=
  targets <~ translate USelect (DiscoverTargets (rus_TargetSelector (ru_Spec rule)));
  match targets with
  | Err e => Ret (Err e)
  | Ok targets =>
      let n := Z.of_nat (length targets) in
      if negb (rcf_Registry cfg) then Ret (Ok (n, 0, noIssues))
      else
        counted <~ reconcileEach rule now targets 0 noIssues;
        Ret (c <-! counted; Ok (n, fst c, snd c))
  end.

(** ** Reconcile *)

Definition partialCoverage : evaluationIssue :=
  mkEvaluationIssue "PartialCoverage"
    "risk rule target selector includes unsupported Kubernetes resource kinds; see status.coverage".

Definition statusMessageOf (rule : RiskRule) (targets count : Z) : string :=
  if targets =? 0 then "no matching targets discovered for risk rule"
  else "processed " +:+ itoa targets +:+ " targets; " +:+ itoa count +:+ " produced "
       +:+ producedObjectKind (rus_Mode (ru_Spec rule)).

Definition coveredSummary (summary : ruleEvaluationSummary) (coverage : CoverageReport) : ruleEvaluationSummary :=
  if cr_Partial coverage then
    mkRuleEvaluationSummary (es_MissingDatasource summary) (es_CapabilityMismatch summary) (es_QueryFailure summary)
      (Some partialCoverage)
  else summary.

Definition reconcileRiskRule (namespace name : string) : rprog rresult :=
  got <~! UGetRule namespace name;
  match got with
  | Err e => Ret (ignoreNotFound e)
  | Ok rule =>
      now <~! UNow;
      reconciled <~ reconcileTargets rule now;
      match reconciled with
      | Err e => Ret (done_err e)
      | Ok (targets, count, summary) =>
          covered <~ translate USelect (DiscoverCoverage (rus_TargetSelector (ru_Spec rule)));
          match covered with
          | Err e => Ret (done_err e)
          | Ok coverage =>
              let generation := om_Generation (ru_Meta rule) in
              t1 <~! UNow;
              t2 <~! UNow;
              let status := mkRiskRuleStatus
                (mkResourceStatus PhaseObserved (statusMessageOf rule targets count) generation t1)
                (applyRiskRuleConditions generation (coveredSummary summary coverage) t2 (rut_Conditions (ru_Status rule)))
                (Some coverage) in
              failed <~ (if bool_decide (status = ru_Status rule) then Ret None
                         else err <~! UUpdateRuleStatus (mkRiskRule (ru_Meta rule) (ru_Spec rule) status);
                              unlessConflict "RiskRule" err);
              Ret (match failed with
                   | Some e => done_err e
                   | None => requeue (ruleRequeueAfter (rus_Interval (ru_Spec rule)))
                   end)
          end
      end
  end.
End Reconciler.

(** ** What the reconciler does, and why

    The log of a run up to an operation has to justify it. *)

Section Justification.
Context {U : UnicodeTables} {D : DigestPrims} {V : ValueText} {SC : StatusConditions} {Q : QueryTemplates}.
Context (cfg : RuleConfig) (namespace name : string).
Implicit Types (rule : RiskRule) (target : Target) (log : list (event rule_op)).

Definition rule_read log rule : Prop := Ev (UGetRule namespace name) (Ok rule) ∈ log.

(** The query of a signal of the rule for a target: to a registered source that
    supports it, allowed by the source's policy as it is sent. *)
Definition asked log rule target (signal : RiskRuleSignal) (source : DataSource) (query queryType : string)
    : Prop :=
  exists sourceName,
    signal ∈ rus_Signals (ru_Spec rule) /\ SourceRefForSignal signal = Some (sourceName, queryType) /\
    Ev (UGetSource sourceName) (Some source) ∈ log /\
    SupportsQueryType (ds_Capabilities source) queryType = true /\
    RenderQuery (QueryTemplateForSignal signal) (tg_Resource target) (tg_Labels target) = Ok query /\
    pd_Decision (Validate (Some source) (rulePolicyRequest target signal sourceName queryType query
                   (effectiveWindow (rus_Window (ru_Spec rule))))) <> PolicyRejected.

Definition sent rule target (now : time) (query queryType : string) : QueryRequest :=
  ruleQuery target query queryType (effectiveWindow (rus_Window (ru_Spec rule))) now.

(** A match is what the evaluator makes of an answer of such a query. *)
Definition matched log rule target (now : time) (m : Match) : Prop :=
  exists signal source query queryType result,
    asked log rule target signal source query queryType /\
    Ev (UQuery source (sent rule target now query queryType)) (inl result) ∈ log /\
    EvaluateSignal (signalWithRenderedQuery signal query) queryType result (tg_Resource target)
      (normalizeRuleSeverity (rus_Severity (ru_Spec rule))) = Some m.

(** A finding: a target with at least one match. *)
Definition found log rule target (now : time) (matches : list Match) : Prop :=
  rule_read log rule /\ matches <> [] /\ Forall (matched log rule target now) matches.

Definition creates_requests rule : bool :=
  investigationPolicyMode (rus_Mode (ru_Spec rule)) == RiskRuleInvestigationModeCreateRequest.

(** The RCA of a signal: none of a provider's reasoning, or what is verified of the answer
    the model gave for these matches. *)
Definition rca_justified log rule target (now : time) matches (rca : rcaResult) : Prop :=
  match rr_Reasoning rca with
  | None => True
  | Some _ =>
      exists provider reasoning,
        Ev (UAnalyze provider (tg_Resource target) matches now) (inl reasoning) ∈ log /\
        rca = verifiedDirectRCA (om_Name (mpr_Meta provider)) target matches reasoning now
  end.

Definition justified log (ev : event rule_op) : Prop :=
  match ev with
  | Ev op _ =>
      match op with
      | UQuery source request =>
          exists rule target now signal query queryType,
            rule_read log rule /\ asked log rule target signal source query queryType /\
            request = sent rule target now query queryType
      | UAnalyze provider resource matches now =>
          exists rule target,
            found log rule target now matches /\ resource = tg_Resource target /\
            creates_requests rule = false /\ rus_RCAEnabled (ru_Spec rule) = true /\
            exists ns n, Ev (UResolve ns n) (inl provider) ∈ log
      | UEnsureRequest ns n mutate =>
          exists rule target matches now,
            found log rule target now matches /\ creates_requests rule = true /\
            ns = om_Namespace (ru_Meta rule) /\
            mutate = mutateRequest rule target matches (identityOf rule target matches now)
      | UEnsureRiskSignal ns n mutate =>
          exists rule target matches now,
            found log rule target now matches /\ creates_requests rule = false /\
            ns = rr_Namespace (tg_Resource target) /\
            mutate = mutateDirectSignal rule target matches (identityOf rule target matches now)
      | UUpdateRiskSignalStatus signal =>
          exists rule target matches now ns n mutate stored rca issues,
            found log rule target now matches /\
            Ev (UEnsureRiskSignal ns n mutate) (Ok stored) ∈ log /\
            rca_justified log rule target now matches rca /\
            signal = stored <| rsk_Status := directStatus stored matches rca issues now |>
      | _ => True
      end
  end.

Lemma asked_mono log log' rule target signal source query queryType :
  continues log log' -> asked log rule target signal source query queryType ->
  asked log' rule target signal source query queryType.
Proof. intros Hc (n & H1 & H2 & H3 & H4). exists n. split_and!; [done|done|by eapply continues_elem|by apply H4..]. Qed.

Lemma matched_mono log log' rule target now m :
  continues log log' -> matched log rule target now m -> matched log' rule target now m.
Proof.
  intros Hc (s & src & q & qt & r & Ha & He & Hm). exists s, src, q, qt, r.
  split_and!; [by eapply asked_mono|by eapply continues_elem|done].
Qed.

Lemma all_matched_mono log log' rule target now matches :
  continues log log' -> Forall (matched log rule target now) matches -> Forall (matched log' rule target now) matches.
Proof. intros Hc H. eapply Forall_impl; [exact H|]. intros m. by apply matched_mono. Qed.

Lemma rule_read_mono log log' rule : continues log log' -> rule_read log rule -> rule_read log' rule.
Proof. intros Hc. by apply continues_elem. Qed.

Lemma found_mono log log' rule target now matches :
  continues log log' -> found log rule target now matches -> found log' rule target now matches.
Proof.
  intros Hc (H1 & H2 & H3). split_and!; [by eapply rule_read_mono|done|by eapply all_matched_mono].
Qed.

Abbreviation all_ok := (all_justified justified).

(** What the evaluation of a target's signals leaves. *)
Definition evaluated_ok rule target (now : time) (r : result evaluation) log : Prop :=
  match r with Ok (matches, _) => Forall (matched log rule target now) matches | Err _ => True end.

Lemma evaluateSignalFrom_ok rule target now signal sourceName queryType matches summary log :
  all_ok log -> rule_read log rule -> signal ∈ rus_Signals (ru_Spec rule) ->
  SourceRefForSignal signal = Some (sourceName, queryType) -> Forall (matched log rule target now) matches ->
  wp log_env all_ok (evaluateSignalFrom rule target now signal sourceName queryType (matches, summary)) log
    (evaluated_ok rule target now).
Proof.
  intros Hok Hr Hs Href Hm. unfold evaluateSignalFrom. apply wp_event; [done|done|]. intros [source|] Hok1.
  2:{ apply wp_ret; [done|]. cbn. eapply all_matched_mono; [|done]. log_steps. }
  destruct (SupportsQueryType _ _) eqn:Hq; cbn [negb].
  2:{ apply wp_ret; [done|]. cbn. eapply all_matched_mono; [|done]. log_steps. }
  destruct (RenderQuery _ _ _) as [query|e] eqn:Hrender; [|by apply wp_ret].
  destruct (String.eqb_spec (pd_Decision (Validate (Some source)
    (rulePolicyRequest target signal sourceName queryType query (effectiveWindow (rus_Window (ru_Spec rule)))))) PolicyRejected) as [Hd|Hd].
  { apply wp_ret; [done|]. cbn. eapply all_matched_mono; [|done]. log_steps. }
  assert (Ha : asked (log ++ [Ev (UGetSource sourceName) (Some source)]) rule target signal source query queryType).
  { exists sourceName. split_and!; [done..|apply snoc_elem|done|done|done]. }
  apply wp_event; [done| |].
  { intros x. exists rule, target, now, signal, query, queryType. split_and!; [|done|done]. eapply rule_read_mono; [|done]. log_steps. }
  intros [result|err] Hok2; (apply wp_ret; [done|]); cbn.
  - apply Forall_app. split; [eapply all_matched_mono; [|done]; log_steps|].
    destruct (EvaluateSignal _ _ _ _ _) as [m|] eqn:He; [|constructor]. constructor; [|constructor].
    exists signal, source, query, queryType, result. split_and!; [|apply snoc_elem|done].
    eapply asked_mono; [|done]. log_steps.
  - eapply all_matched_mono; [|done]. log_steps.
Qed.

Lemma evaluateSignals_ok rule target now signals e log :
  all_ok log -> rule_read log rule -> (forall s, s ∈ signals -> s ∈ rus_Signals (ru_Spec rule)) ->
  Forall (matched log rule target now) e.1 ->
  wp log_env all_ok (evaluateSignals rule target now signals e) log (evaluated_ok rule target now).
Proof.
  revert e log. induction signals as [|signal signals IH]; intros [matches summary] log Hok Hr Hin Hm.
  { by apply wp_ret. }
  cbn [evaluateSignals]. assert (Hin' : forall s, s ∈ signals -> s ∈ rus_Signals (ru_Spec rule)).
  { intros s Hs. apply Hin. by right. }
  destruct (SourceRefForSignal signal) as [[sourceName queryType]|] eqn:Href; [|by apply IH].
  eapply wp_bind_log; [apply evaluateSignalFrom_ok; [done|done|apply Hin; left|done|done]|].
  intros [[ms issues]|err] log' Hok' Hc H; [|by apply wp_ret]. apply IH; [done|by eapply rule_read_mono|done|exact H].
Qed.

Lemma evaluateTarget_ok rule target now log :
  all_ok log -> rule_read log rule ->
  wp log_env all_ok (evaluateTarget rule target now) log (evaluated_ok rule target now).
Proof. intros Hok Hr. apply evaluateSignals_ok; [done..|constructor]. Qed.

Lemma unlessConflict_ok resource err log :
  all_ok log -> wp log_env all_ok (unlessConflict resource err) log (fun _ _ => True).
Proof.
  intros Hok. unfold unlessConflict. destruct err as [e|]; [|by apply wp_ret]. destruct (is_conflict e); [|by apply wp_ret].
  apply wp_event; [done|done|]. intros. by apply wp_ret.
Qed.

Definition rca_ok rule target (now : time) matches (r : result rcaResult) log : Prop :=
  match r with Ok rca => rca_justified log rule target now matches rca | Err _ => True end.

Lemma analyzeRCA_ok rule target matches now log :
  all_ok log -> found log rule target now matches -> creates_requests rule = false ->
  wp log_env all_ok (analyzeRCA cfg rule target matches now) log (rca_ok rule target now matches).
Proof.
  intros Hok Hf Hm. unfold analyzeRCA.
  destruct (rus_RCAEnabled (ru_Spec rule)) eqn:He; cbn [negb]; [|by apply wp_ret].
  destruct (rcf_Resolver cfg); cbn [negb]; [|by apply wp_ret].
  apply wp_event; [done|done|]. intros [provider|[reason message|err]] Hok1; [|by apply wp_ret..].
  destruct (rcf_Gateway cfg); cbn [negb]; [|by apply wp_ret].
  apply wp_event; [done| |].
  - intros x. exists rule, target. split_and!; [eapply found_mono; [|done]; log_steps|done..|]. do 2 eexists. apply snoc_elem.
  - intros [reasoning|[reason message|err]] Hok2; (apply wp_ret; [done|]); [|done..]. cbn. unfold rca_justified.
    destruct (rr_Reasoning _); [|done]. exists provider, reasoning. split; [apply snoc_elem|done].
Qed.

Lemma upsertRiskSignal_ok rule target matches rca issues now log :
  all_ok log -> found log rule target now matches -> creates_requests rule = false ->
  rca_justified log rule target now matches rca ->
  wp log_env all_ok (upsertRiskSignal rule target matches rca issues now) log (fun _ _ => True).
Proof.
  intros Hok Hf Hm Hj. unfold upsertRiskSignal. apply wp_event; [done|intros x; by exists rule, target, matches, now|].
  intros [stored|e] Hok1; [|by apply wp_ret]. unfold updateSignal.
  destruct (statusChangedRiskSignal _ _); [|by apply wp_ret].
  apply wp_event; [done| |intros err Hok2; by apply unlessConflict_ok].
  intros x. exists rule, target, matches, now. do 3 eexists. exists stored, rca, issues.
  split_and!; [eapply found_mono; [|done]; log_steps|apply snoc_elem| |done].
  revert Hj. unfold rca_justified. destruct (rr_Reasoning rca); [|done]. intros (p & answer & Hin & Heq). exists p, answer.
  split; [|done]. eapply continues_elem; [|done]. log_steps.
Qed.

Lemma produceObject_ok rule target matches issues now log :
  all_ok log -> found log rule target now matches ->
  wp log_env all_ok (produceObject cfg rule target matches issues now) log (fun _ _ => True).
Proof.
  intros Hok Hf. unfold produceObject. fold (creates_requests rule). destruct (creates_requests rule) eqn:Hm.
  - unfold upsertInvestigationRequest. apply wp_event; [done|intros x; by exists rule, target, matches, now|].
    intros. by apply wp_ret.
  - eapply wp_bind_log; [by apply analyzeRCA_ok|]. intros [rca|e] log' Hok' Hc Hj; [|by apply wp_ret].
    apply upsertRiskSignal_ok; [done|by eapply found_mono|done|exact Hj].
Qed.

Lemma reconcileEach_ok rule now targets count summary log :
  all_ok log -> rule_read log rule ->
  wp log_env all_ok (reconcileEach cfg rule now targets count summary) log (fun _ _ => True).
Proof.
  revert count summary log. induction targets as [|target targets IH]; intros count summary log Hok Hr; [by apply wp_ret|].
  cbn [reconcileEach]. eapply wp_bind_log; [by apply evaluateTarget_ok|].
  intros [[matches issues]|e] log' Hok' Hc Hm; [|by apply wp_ret]. assert (Hr' := rule_read_mono _ _ _ Hc Hr).
  destruct matches as [|m matches]; [by apply IH|].
  eapply wp_bind_log; [by apply produceObject_ok; [|split_and!]|].
  intros [e|] log'' Hok'' Hc' _; [by apply wp_ret|]. apply IH; [done|by eapply rule_read_mono].
Qed.

Lemma reconcileTargets_ok rule now log :
  all_ok log -> rule_read log rule -> wp log_env all_ok (reconcileTargets cfg rule now) log (fun _ _ => True).
Proof.
  intros Hok Hr. unfold reconcileTargets.
  eapply wp_bind_log; [apply (wp_translate _ _ _ _ (fun _ => True)); [by apply ends_always|done|done]|].
  intros [targets|e] log' Hok' Hc _; [|by apply wp_ret]. destruct (rcf_Registry cfg); cbn [negb]; [|by apply wp_ret].
  eapply wp_bind_log; [apply reconcileEach_ok; [done|by eapply rule_read_mono]|]. intros. by apply wp_ret.
Qed.

Lemma reconcileRiskRule_ok :
  wp log_env all_ok (reconcileRiskRule cfg namespace name) [] (fun _ _ => True).
Proof.
  unfold reconcileRiskRule. apply wp_event; [apply all_justified_nil|done|].
  intros [rule|e] Hok; [|by apply wp_ret]. apply wp_event; [done|done|]. intros now Hok1.
  eapply wp_bind_log; [apply reconcileTargets_ok; [done|eapply rule_read_mono; [|apply snoc_elem]; log_steps]|].
  intros [[[targets count] summary]|e] log' Hok' _ _; [|by apply wp_ret].
  eapply wp_bind_log; [apply (wp_translate _ _ _ _ (fun _ => True)); [by apply ends_always|done|done]|].
  intros [coverage|e] log'' Hok'' _ _; [|by apply wp_ret].
  do 2 (apply wp_event; [done|done|]; intros ? ?).
  apply (wp_bind_log _ _ _ _ (fun _ _ => True)); [|intros [e|] log3 Hok3 _ _; by apply wp_ret].
  case_bool_decide; [by apply wp_ret|]. apply wp_event; [done|done|]. intros. by apply unlessConflict_ok.
Qed.

(** C14: everything a reconciliation of a rule does is justified by what it saw
    before, in any environment.  A query goes to the source the registry holds for
    a signal of the rule, which supports its type, and is the one the source's
    query policy did not reject, for the time range that was checked.  An object is
    written, and the model asked, only for a target with a match that the evaluator
    made of the answer to such a query; InvestigationRequests only in the mode that
    creates them, RiskSignals and model calls only in the direct one, the model
    only when the rule enables it and its provider was resolved.  A status with
    reasoning in it has what is verified of the answer the model gave for the same
    matches. *)
Theorem rule_effects_justified outcome log before ev after :
  logged (reconcileRiskRule cfg namespace name) outcome log -> log = before ++ ev :: after -> justified before ev.
Proof.
  intros Hrun Heq. exact (logged_justified _ _ _ _ reconcileRiskRule_ok Hrun before ev after Heq).
Qed.
End Justification.

(** ** The RCA of a direct RiskSignal *)

Section DirectRCA.
Context {U : UnicodeTables} {D : DigestPrims} {SC : StatusConditions} {CL : ConditionLaws SC}.

Lemma rca_conditions_ready conditions c generation now :
  condition_status (rcaResultConditions conditions (Some c) generation now) conditionRemediationReady =
    Some (if cond_Status c == ConditionTrue then ConditionTrue else ConditionFalse).
Proof.
  unfold rcaResultConditions. destruct (cond_Status c == ConditionTrue); apply set_status_same.
Qed.

Lemma verified_statement claims evs s :
  s ∈ verifiedCauseStatements (map (verified_as evs) claims) ->
  exists c, c ∈ claims /\ s = rc_Statement c /\ borne_out s evs /\ ~ contradicted s evs.
Proof.
  unfold verifiedCauseStatements. intros (v & -> & Hv)%list_elem_of_fmap.
  apply list_filter_elem in Hv as [(c & -> & Hc)%list_elem_of_fmap [Hb Hn]%verified_supported].
  by exists c.
Qed.

Lemma direct_claims reasoning evidence :
  rootCauseClaims reasoning (buildRCAClaims reasoning evidence "").1 =
    map (verified_as (refs_of evidence)) (rootCauseClaims reasoning (proposedClaims reasoning evidence "")).
Proof.
  cbn [fst buildRCAClaims]. rewrite applyClaimVerification_spec by apply proposed_nodup. apply rootCause_verified.
Qed.

(** C15: a RiskSignal of the direct path allows remediation exactly when some
    causal claim of the provider is borne out by the evidence of the matches and
    none is contradicted by it; otherwise the condition is False and no
    hypothesis or cause is shown.  Every cause that is shown is a claim the
    evidence bears out and does not contradict. *)
Theorem direct_rca_verified (provider : string) (target : Target) (matches : list Match) (reasoning : ReasoningOutput)
    (now : time) (status : RiskSignalStatus) (generation : Z) :
  let evidence := evidenceCollectionResultFromMatches matches in
  let causal := rootCauseClaims reasoning (proposedClaims reasoning evidence "") in
  let after := applyRCAResult status (verifiedDirectRCA provider target matches reasoning now) generation now in
  (condition_status (rst_Conditions after) conditionRemediationReady = Some ConditionTrue <->
     some_borne_out evidence causal /\ none_contradicted evidence causal) /\
  (condition_status (rst_Conditions after) conditionRemediationReady <> Some ConditionTrue ->
     condition_status (rst_Conditions after) conditionRemediationReady = Some ConditionFalse /\
     rst_RCACauses after = [] /\ rst_RCAHypothesis after = "") /\
  (forall cause, cause ∈ rst_RCACauses after ->
     borne_out (cause_Cause cause) (refs_of evidence) /\ ~ contradicted (cause_Cause cause) (refs_of evidence)).
Proof.
  cbv zeta. unfold verifiedDirectRCA. cbv zeta.
  set (evidence := evidenceCollectionResultFromMatches matches). set (confidence := float_div _ _).
  pose proof (confirmed_iff reasoning evidence "" confidence) as Hc. cbv zeta in Hc.
  destruct (String.eqb_spec (ev_Outcome (evaluateCanonicalVerdict reasoning evidence
    (buildRCAClaims reasoning evidence "").1 confidence "")) InvestigationOutcomeConfirmed) as [He|He]; cbn [negb];
    unfold applyRCAResult; cbn [rr_Reasoning rr_Projection rr_Summary rr_ProviderName rr_Condition rst_Conditions rst_RCACauses
      rst_RCAHypothesis]; rewrite rca_conditions_ready; cbn [rcaCondition cond_Status].
  - split; [tauto|]. split; [done|]. intros cause Hin.
    apply list_elem_of_fmap in Hin as (s & -> & Hs).
    change (s ∈ verifiedCauseStatements (rootCauseClaims reasoning (buildRCAClaims reasoning evidence "").1)) in Hs.
    rewrite direct_claims in Hs.
    by apply verified_statement in Hs as (c & _ & _ & ? & ?).
  - split; [split; [done|tauto]|]. split; [done|]. intros cause Hin. by apply elem_of_nil in Hin.
Qed.
End DirectRCA.

(** ** A concrete run *)

Section Examples.
#[local] Existing Instance plain_tables.
#[local] Existing Instance plain_digest.
#[local] Existing Instance plain_values.
#[local] Existing Instance plain_conditions.
#[local] Existing Instance plain_templates.

Definition run_rule : RiskRule :=
  mkRiskRule (mkObjectMeta "errors" "ops" "uid-r" "1" 2 ∅ ∅ [])
    (mkRiskRuleSpec (mkTargetSelector ["shop"] ∅ []) 0 0 "critical" [rr_signal "errors" "prometheus"] true ""
       "DirectRiskSignal" true "")
    (mkRiskRuleStatus (mkResourceStatus "" "" 0 0) [] None).
Definition run_deployment : DeploymentObject :=
  mkDeploymentObject (mkWorkloadObject (mkObjectMeta "cart" "shop" "uid-1" "1" 4 ∅ ∅ []) ∅) None 1 1.
Definition run_result : QueryResult :=
  mkQueryResult "prometheus" QueryTypeMetric "" [<["value" := AnyString "7"]> ∅] false "" "" 0 1 1
    (mkNativeResultCounts "" 0 0 0 0 0) None.

(** One deployment, a source whose series has the value 7, and no model provider. *)
Definition run_answer (X : Type) (op : rule_op X) : option X :=
  match op in rule_op X return option X with
  | UNow => Some (100 * second)
  | UGetRule _ _ => Some (Ok run_rule)
  | USelect Y select =>
      match select in select_op Y return option Y with LDeployments _ => Some (Ok [run_deployment]) | _ => None end
  | UGetSource _ => Some (Some prometheusAdapter)
  | UQuery _ _ => Some (inl run_result)
  | UResolve _ _ => Some (inr (ResolveError "ProviderNotFound" "no provider"))
  | UAnalyze _ _ _ _ => None
  | UEnsureRiskSignal ns n mutate => Some (mutate (freshRiskSignal ns n))
  | UEnsureRequest _ _ _ => None
  | UUpdateRiskSignalStatus _ => Some None
  | UUpdateRuleStatus _ => Some (Some (mkError ErrConflict "the object has been modified"))
  | UConflictMetric _ => Some tt
  end.
Definition run_handler (log : list (event rule_op)) (X : Type) (op : rule_op X) : option (X * list (event rule_op)) :=
  match run_answer X op with Some x => Some (x, log ++ [Ev op x]) | None => None end.

Definition rule_run : option rresult * list (event rule_op) :=
  run run_handler (reconcileRiskRule (mkRuleConfig true true true) "ops" "errors") [].

Lemma rule_run_logged :
  logged (reconcileRiskRule (mkRuleConfig true true true) "ops" "errors") rule_run.1 rule_run.2.
Proof.
  apply run_exec. intros w X op x w' H. unfold run_handler in H. destruct (run_answer X op) as [y|]; [|done].
  simplify_eq. done.
Qed.

Definition op_word (ev : event rule_op) : string :=
  match ev with
  | Ev op _ =>
      match op with
      | UNow => "now" | UGetRule _ _ => "get rule" | USelect _ _ => "list" | UGetSource name => "source " +:+ name
      | UQuery _ request => "query " +:+ qr_Query request | UResolve _ _ => "resolve" | UAnalyze _ _ _ _ => "analyze"
      | UEnsureRiskSignal ns n _ => "risk signal in " +:+ ns | UEnsureRequest ns n _ => "request in " +:+ ns
      | UUpdateRiskSignalStatus _ => "risk signal status" | UUpdateRuleStatus _ => "rule status"
      | UConflictMetric kind => "conflict " +:+ kind
      end
  end.

Example rule_run_steps :
  (rule_run.1, map op_word rule_run.2) =
  (Some (requeue minute),
   ["get rule"; "now"; "list"; "source prometheus"; "query up"; "resolve"; "risk signal in shop"; "risk signal status";
    "now"; "now"; "rule status"; "conflict RiskRule"]).
Proof. vm_compute. reflexivity. Qed.

(** Theorem [rule_effects_justified] at the write of the RiskSignal. *)
Lemma rule_effects_justified_witness :
  exists ev, rule_run.2 !! 6%nat = Some ev /\ op_word ev = "risk signal in shop" /\
    justified "ops" "errors" (take 6 rule_run.2) ev.
Proof.
  assert (Hw : op_word <$> (rule_run.2 !! 6%nat) = Some "risk signal in shop") by (vm_compute; reflexivity).
  destruct (rule_run.2 !! 6%nat) as [ev|] eqn:E; [|discriminate Hw].
  exists ev. split; [reflexivity|]. split; [by injection Hw|].
  apply (rule_effects_justified (mkRuleConfig true true true) "ops" "errors" rule_run.1 rule_run.2 _ ev (drop 7 rule_run.2)
    rule_run_logged).
  symmetry. by apply take_drop_middle.
Defined.

Lemma direct_rca_verified_witness :
  condition_status (rst_Conditions (applyRCAResult (rsk_Status (freshRiskSignal "" ""))
    (verifiedDirectRCA "p" rr_target []
       (mkReasoningOutput "" "" "" (mkConfidence 90 "" "" "") (mkRCASummary "guess" ["a disk is full"] [])
          (mkRemediation "" "" ∅ []) [] [] "p" "" 0 0) 7) 1 7)) conditionRemediationReady <> Some ConditionTrue.
Proof.
  intros H. apply direct_rca_verified in H as [(c & Hc & Hb & _) _].
  vm_compute in Hc. apply list_elem_of_singleton in Hc as ->. apply claimMatches_nonempty in Hb.
  vm_compute in Hb. discriminate Hb.
Defined.
End Examples.
