(* ===== verification/InvestigationController.v ===== *)
(** * The InvestigationRequest reconciler

    [Reconcile] of internal/controllers/investigationrequest_controller.go as a
    program over the clock, the API server and the investigation service. *)

From Stdlib Require Import ZArith Lia.
From stdpp Require Import base list strings gmap.
From S2P Require Import Prelude GoStrings Utf8 Float64 Api InvestigationApi Digest Prog Runtime AgentAction DataClassification Scope Observation Egress Gateway Verifier StatusBudget InvestigationGate InvestigationRCA InvestigationExecution InvestigationStatus InvestigationSpec InvestigationProjection.

(** The operations on the outside world.  The three of the service are
    [Service.Preflight], [Service.CollectEvidence] and [Service.GenerateRCA]
    (the last one is modelled in Gateway); a status update answers with the
    object as the server stored it. *)
Inductive inv_op : Type -> Type :=
| INow : inv_op time
| IGet (namespace name : string) : inv_op (result InvestigationRequest)
| IDelete (request : InvestigationRequest) : inv_op (option error)
| IUpdateStatus (request : InvestigationRequest) : inv_op (result InvestigationRequest)
| IPreflight (namespace : string) (spec : InvestigationRequestSpec) : inv_op (result PreflightResult)
| ICollectEvidence (spec : InvestigationRequestSpec) (preflight : PreflightResult) (now : time)
    : inv_op (result EvidenceCollectionResult)
| IGenerateRCA (spec : InvestigationRequestSpec) (preflight : PreflightResult) (evidence : EvidenceCollectionResult)
    (now : time) : inv_op (result RCA)
(** [controllerutil.CreateOrUpdate] with its mutate function. *)
| IEnsureRiskSignal (namespace name : string) (mutate : RiskSignal -> result RiskSignal) : inv_op (result RiskSignal)
| IUpdateRiskSignalStatus (signal : RiskSignal) : inv_op (option error)
| IConflictMetric (resource : string) : inv_op unit.

Definition iprog : Type -> Type := prog inv_op.

(** What the reconciler is built with. *)
Record InvestigationConfig := mkInvestigationConfig {
  icf_Service : bool;
  icf_ControllerVersion : string;
  icf_marshal : InvestigationRequestStatus -> result string
}.

Section Reconciler.
Context {U : UnicodeTables} {D : DigestPrims} {SC : StatusConditions} {CR : ControllerReferences}.
Context (cfg : InvestigationConfig).
Implicit Type request : InvestigationRequest.
Implicit Type evidence : EvidenceCollectionResult.
Implicit Type preflight : PreflightResult.
Implicit Type rca : RCA.

Definition recordInvestigationConflict (resource : string) (err : error) : iprog bool :=
  if negb (is_conflict err) then Ret false else _ <~! IConflictMetric resource; Ret true.

(** ** Retention *)

(** The result, and whether the reconciliation ends here. *)
Definition handleTTL request (now : time) : iprog (rresult * bool) :=
  if (irs_TTLSeconds (ir_Spec request) <=? 0) || bool_decide (ir_DeletionTimestamp request <> None)
     || negb (shouldSkipInvestigationExecution request) then Ret (done_ok, false)
  else
    let expiresAt := investigationExpiryTime request now in
    if negb (time_before now expiresAt) then
      err <~! IDelete request;
      match err with
      | Some e => if is_not_found e then Ret (done_ok, true) else Ret (done_err e, true)
      | None => Ret (done_ok, true)
      end
    else Ret (requeue (time_sub expiresAt now), true).

(** ** The service, or its absence *)

Definition serviceUnavailable : Issue :=
  mkIssue "InvestigationServiceUnavailable" "investigation service is not configured" None.
Definition noResource : ResourceRef := mkResourceRef "" "" "" "" "" "".

Definition runPreflight request : iprog (result PreflightResult) :=
  if icf_Service cfg then trigger (IPreflight (om_Namespace (ir_Meta request)) (ir_Spec request))
  else Ret (Ok (mkPreflightResult noResource ∅ [] [] None (Some serviceUnavailable) None None None)).
Definition runCollectEvidence request preflight (now : time) : iprog (result EvidenceCollectionResult) :=
  if icf_Service cfg then trigger (ICollectEvidence (ir_Spec request) preflight now)
  else Ret (Ok (mkEvidenceCollectionResult "" [] [] [] [] [] (Some serviceUnavailable))).
Definition runGenerateRCA request preflight evidence (now : time) : iprog (result RCA) :=
  if icf_Service cfg then trigger (IGenerateRCA (ir_Spec request) preflight evidence now)
  else Ret (Ok (mkRCAResult None (Some serviceUnavailable) [] None)).

(** ** Persisting *)

(** The model's budget never answers [None] (theorem [status_budget_enforced]). *)
Definition budgeted request (now : time) : InvestigationRequest :=
  default request (applyInvestigationStatusBudget (icf_marshal cfg) now request).

(** [reflect.DeepEqual(original.Status, updated.Status)], nil and empty lists
    identified; the quality metrics are in Metrics. *)
Definition persistStatus (original updated : InvestigationRequest) : iprog (option error) :=
  if bool_decide (ir_Status original = ir_Status updated) then Ret None
  else
    answer <~! IUpdateStatus updated;
    match answer with
    | Ok _ => Ret None
    | Err e => conflict <~ recordInvestigationConflict "InvestigationRequest" e;
               Ret (if conflict then None else Some e)
    end.

(** The last two steps of every path that reaches an outcome. *)
Definition finish (original updated : InvestigationRequest) (result : rresult) : iprog rresult :=
  now <~! INow;
  err <~ persistStatus original (budgeted updated now);
  Ret (match err with Some e => done_err e | None => result end).

Definition checkpointStatus request preflight evidence rca (executionID : string) (now : time) : InvestigationRequest :=
  let checkpoint := on_status (fun s =>
    s <| ist_Provider := providerNameForStatus request preflight rca |>
      <| ist_EvidenceRefs := ec_EvidenceRefs evidence |>) request in
  let execution := buildRCAExecution (icf_ControllerVersion cfg) checkpoint preflight evidence rca executionID
                     executionStateProviderCompleted now in
  budgeted
    (setInvestigationRequestStatus PhaseReasoning "provider result persisted for RCA verification" now
       (on_status (fun s => s <| ist_Execution := Some execution |>) checkpoint)) now.

(** The request with the stored resource version, or the error of the update. *)
Definition persistProviderCompletedCheckpoint request preflight evidence rca (executionID : string) (now : time)
    : iprog (result InvestigationRequest) :=
  answer <~! IUpdateStatus (checkpointStatus request preflight evidence rca executionID now);
  match answer with
  | Err e => _ <~ recordInvestigationConflict "InvestigationRequest" e; Ret (Err e)
  | Ok stored =>
      let m := ir_Meta request in
      Ret (Ok (request <| ir_Meta := mkObjectMeta (om_Name m) (om_Namespace m) (om_UID m)
                            (om_ResourceVersion (ir_Meta stored)) (om_Generation m) (om_Labels m) (om_Annotations m)
                            (om_OwnerReferences m) |>))
  end.

(** ** Projection *)

Definition promoteToRiskSignal request preflight evidence rca (now : time)
    : iprog (result (option NamespacedObjectReference)) :=
  match rca_Reasoning rca with
  | None => Ret (Ok None)
  | Some reasoning =>
      if negb (investigationOutcomeAllowsRiskSignalProjection (ir_Outcome request)) then Ret (Ok None)
      else
        let namespace := rr_Namespace (pf_Target preflight) in
        let name := investigationRiskSignalName (om_Name (ir_Meta request)) (rr_Name (pf_Target preflight)) in
        ensured <~! IEnsureRiskSignal namespace name (mutateRiskSignal request preflight evidence reasoning);
        match ensured with
        | Err e => Ret (Err e)
        | Ok signal =>
            let status := promotedStatus request evidence reasoning signal now in
            let link := Ok (Some (mkNamespacedObjectReference (om_Name (rsk_Meta signal)) (om_Namespace (rsk_Meta signal)))) in
            if statusChangedRiskSignal (rsk_Status signal) status then
              err <~! IUpdateRiskSignalStatus (signal <| rsk_Status := status |>);
              match err with
              | None => Ret link
              | Some e => conflict <~ recordInvestigationConflict "RiskSignal" e;
                          Ret (if conflict then link else Err e)
              end
            else Ret link
        end
  end.

(** ** Reconcile *)

(** The status a run starts from. *)
Definition startedRequest request (now startedAt : time) : InvestigationRequest :=
  let restarting := negb (rs_ObservedGeneration (ist_ResourceStatus (ir_Status request)) =? generation request)
                    || isTerminalInvestigationPhase (ir_Phase request) in
  let lineage := lineageForReconcile (ist_Lineage (ir_Status request)) (om_Annotations (ir_Meta request)) in
  on_status (fun s =>
    mkInvestigationRequestStatus (ist_ResourceStatus s) "" None "" "" float_zero "" None None [] [] [] None None
      (if bool_decide (ist_StartedAt s = None) || restarting then Some startedAt else ist_StartedAt s)
      None [] lineage None (ist_Conditions s))
    (setInvestigationRequestStatus PhaseCollecting "investigation execution started" now request).

(** The clock is read for [startedAt] only when it is set. *)
Definition startClock request : iprog time :=
  if bool_decide (ist_StartedAt (ir_Status request) = None)
     || negb (rs_ObservedGeneration (ist_ResourceStatus (ir_Status request)) =? generation request)
     || isTerminalInvestigationPhase (ir_Phase request)
  then trigger INow else Ret 0.

(** The provider's answer: the stored one of the same execution, or a new one,
    checkpointed before it is used. *)
Definition obtainRCA original request preflight evidence : iprog (result (InvestigationRequest * RCA)) :=
  let executionID := investigationExecutionID request preflight evidence in
  match reusableProviderResult (ist_Execution (ir_Status original)) executionID with
  | Some stored => Ret (Ok (request, mkRCAResult (reasoningFromProviderResult stored) None [] None))
  | None =>
      now <~! INow;
      generated <~ runGenerateRCA request preflight evidence now;
      match generated with
      | Err e => Ret (Err e)
      | Ok rca =>
          match rca_Reasoning rca with
          | None => Ret (Ok (request, rca))
          | Some _ =>
              now <~! INow;
              checkpointed <~ persistProviderCompletedCheckpoint request preflight evidence rca executionID now;
              match checkpointed with
              | Ok request => Ret (Ok (request, rca))
              | Err e => conflict <~ recordInvestigationConflict "InvestigationRequest" e;
                         Ret (if conflict then Ok (request, rca) else Err e)
              end
          end
      end
  end.

Definition promoteIfConfirmed request preflight evidence rca : iprog (result InvestigationRequest) :=
  if negb (bool_decide (rca_Reasoning rca = None)) && irs_CreateRiskSignal (ir_Spec request)
     && investigationOutcomeAllowsRiskSignalProjection (ir_Outcome request)
  then
    now <~! INow;
    promoted <~ promoteToRiskSignal request preflight evidence rca now;
    Ret (match promoted with
         | Err e => Err e
         | Ok link => Ok (on_status (fun s => s <| ist_LinkedRiskSignalRef := link |>) request)
         end)
  else Ret (Ok request).

(** From complete evidence to the outcome. *)
Definition analyze original request preflight evidence (ttlResult : rresult) : iprog rresult :=
  obtained <~ obtainRCA original request preflight evidence;
  match obtained with
  | Err e => Ret (done_err e)
  | Ok (request, rca) =>
      now <~! INow;
      let request := applyInvestigationExecutionStatus (icf_ControllerVersion cfg) preflight evidence rca now request in
      promoted <~ promoteIfConfirmed request preflight evidence rca;
      match promoted with
      | Err e => Ret (done_err e)
      | Ok request => finish original request ttlResult
      end
  end.

Definition withCoverage (gate : evidenceRequirementGate) : InvestigationRequest -> InvestigationRequest :=
  on_status (fun s => s <| ist_EvidenceCoverage := gt_Coverage gate |>).

Definition investigate original request (ttlResult : rresult) : iprog rresult :=
  preflighted <~ runPreflight request;
  match preflighted with
  | Err e => Ret (done_err e)
  | Ok preflight =>
      now <~! INow;
      collected <~ runCollectEvidence request preflight now;
      match collected with
      | Err e => Ret (done_err e)
      | Ok evidence =>
          match evaluateEvidenceRequirements (ir_Spec request) evidence with
          | None => analyze original request preflight evidence ttlResult
          | Some gate =>
              let request := withCoverage gate request in
              if negb (gt_Complete gate) then
                now <~! INow;
                finish original (applyEvidenceRequirementInconclusiveStatus evidence gate now request) ttlResult
              else if gt_NoIssueFound gate then
                now <~! INow;
                finish original (applyEvidenceRequirementNoIssueFoundStatus evidence gate now request) ttlResult
              else analyze original request preflight evidence ttlResult
          end
      end
  end.

Definition execute original (ttlResult : rresult) : iprog rresult :=
  now <~! INow;
  startedAt <~ startClock original;
  let request := startedRequest original now startedAt in
  match investigationLoopFailure request with
  | Some failure =>
      now <~! INow;
      finish original (applyLoopPreventedInvestigationStatus failure now request) ttlResult
  | None =>
      match validateInvestigationRequestSpecIssue (ir_Spec request) with
      | Some issue =>
          now <~! INow;
          finish original (applyInvalidInvestigationStatus (svi_Reason issue) (svi_Message issue) now request) ttlResult
      | None => investigate original request ttlResult
      end
  end.

Definition reconcileInvestigation (namespace name : string) : iprog rresult :=
  got <~! IGet namespace name;
  match got with
  | Err e => Ret (ignoreNotFound e)
  | Ok request =>
      now <~! INow;
      '(ttlResult, finished) <~ handleTTL request now;
      if finished || bool_decide (rec_err ttlResult <> None) then Ret ttlResult
      else if shouldSkipInvestigationExecution request then Ret ttlResult
      else execute request ttlResult
  end.
End Reconciler.
