(* ===== verification/InvestigationInvariant.v ===== *)
(** * The invariant of persisted investigation statuses

    Which combinations of phase, outcome, failure, verdict and execution the
    controller writes; conditions, texts and evidence aside, every function of
    InvestigationStatus is determined on this core. *)

From Stdlib Require Import ZArith Lia.
From stdpp Require Import base list strings gmap.
From S2P Require Import Prelude GoStrings Utf8 Float64 Api InvestigationApi Digest Prog Runtime AgentAction DataClassification Scope Observation Egress Gateway Verifier StatusBudget InvestigationGate InvestigationRCA InvestigationExecution InvestigationVerdict InvestigationStatus InvestigationSpec InvestigationProjection InvestigationController.

(** ** The core of a request *)

Record Core := mkCore {
  co_Meta : ObjectMeta;
  co_Spec : InvestigationRequestSpec;
  co_Phase : string;
  co_Observed : Z;
  co_Outcome : string;
  co_Failed : bool;
  co_Verdict : option string;
  co_CompletedAt : option time;
  co_Execution : option RCAExecution;
  co_Linked : option NamespacedObjectReference
}.

Definition core_of (r : InvestigationRequest) : Core :=
  let s := ir_Status r in
  mkCore (ir_Meta r) (ir_Spec r) (rs_Phase (ist_ResourceStatus s)) (rs_ObservedGeneration (ist_ResourceStatus s))
    (ist_Outcome s) (bool_decide (ist_Failure s <> None)) (option_map vd_Outcome (ist_Verdict s)) (ist_CompletedAt s)
    (ist_Execution s) (ist_LinkedRiskSignalRef s).

(** The outcomes a completed investigation may have, with the verdict and the
    execution record that go with each. *)
Definition completed_ok (c : Core) : Prop :=
  co_Outcome c = InvestigationOutcomeUnknown /\ co_Verdict c = None /\ co_Execution c = None /\ co_Linked c = None \/
  co_Outcome c ∈ [InvestigationOutcomeInconclusive; InvestigationOutcomeNoIssueFound] /\
    co_Verdict c = Some (co_Outcome c) /\ co_Execution c = None /\ co_Linked c = None \/
  co_Outcome c ∈ [InvestigationOutcomeConfirmed; InvestigationOutcomeInconclusive] /\
    co_Verdict c = Some (co_Outcome c) /\ (exists x, co_Execution c = Some x /\ rx_State x = executionStateFinalized) /\
    (co_Linked c <> None -> co_Outcome c = InvestigationOutcomeConfirmed).

Definition well_formed (c : Core) : Prop :=
  co_Observed c = om_Generation (co_Meta c) /\
  (co_Phase c = PhaseReasoning /\ co_CompletedAt c = None /\ co_Outcome c = "" /\ co_Failed c = false /\
     co_Verdict c = None /\ co_Linked c = None /\
     (exists x result, co_Execution c = Some x /\ rx_State x = executionStateProviderCompleted /\
        rx_ProviderResult x = Some result /\ prs_NormalizedResult result <> None) \/
   co_Phase c = PhaseFailed /\ co_CompletedAt c <> None /\ co_Outcome c = InvestigationOutcomeUnknown /\
     co_Failed c = true /\ co_Verdict c = None /\ co_Linked c = None \/
   co_Phase c = PhaseCompleted /\ co_CompletedAt c <> None /\ co_Failed c = false /\ completed_ok c).

(** A request whose run has started and reached no outcome. *)
Definition fresh (c : Core) : Prop :=
  co_Observed c = om_Generation (co_Meta c) /\ co_CompletedAt c = None /\ co_Outcome c = "" /\ co_Failed c = false /\
  co_Verdict c = None /\ co_Execution c = None /\ co_Linked c = None.

Section Invariant.
Context {U : UnicodeTables} {D : DigestPrims} {SC : StatusConditions}.
Context (version : string).
Implicit Type r : InvestigationRequest.

(** ** Conditions do not touch the core *)

Lemma core_condition type status reason message now r :
  core_of (setStatusCondition type status reason message now r) = core_of r.
Proof. by destruct r as [m ct dt sp []]. Qed.

Lemma core_not_runnable reason message now r :
  core_of (setInvestigationNotRunnableConditions reason message now r) = core_of r.
Proof. unfold setInvestigationNotRunnableConditions, andThen. by rewrite !core_condition. Qed.

Lemma core_gate_preconditions now r : core_of (setGatePreconditions now r) = core_of r.
Proof. unfold setGatePreconditions, andThen. by rewrite !core_condition. Qed.

Lemma core_target preflight now r : core_of (setTargetCondition preflight now r) = core_of r.
Proof. unfold setTargetCondition. destruct (pf_TargetIssue preflight); apply core_condition. Qed.

Lemma core_datasource preflight evidence now r : core_of (setDatasourceConditions preflight evidence now r) = core_of r.
Proof.
  unfold setDatasourceConditions, andThen.
  repeat case_match; by rewrite !core_condition.
Qed.

Lemma core_query preflight now r : core_of (setQueryConditions preflight now r) = core_of r.
Proof. unfold setQueryConditions, andThen. repeat case_match; by rewrite !core_condition. Qed.

Lemma core_rca preflight evidence rca now r : core_of (setRCACondition preflight evidence rca now r) = core_of r.
Proof. unfold setRCACondition. repeat case_match; apply core_condition. Qed.

Lemma core_outcome_conditions now r : core_of (setOutcomeConditions now r) = core_of r.
Proof.
  unfold setOutcomeConditions, setInvestigationRemediationBlocked, andThen. cbv zeta.
  repeat case_match; by rewrite !core_condition.
Qed.

Lemma core_fail issue undegraded now r : core_of (failInvestigation issue undegraded now r) = core_of r.
Proof. unfold failInvestigation, andThen. case_match; by rewrite !core_condition. Qed.

(** ** Paths to an outcome *)

Ltac core_tac := unfold andThen; rewrite ?core_condition.

Lemma core_status phase message now r :
  core_of (setInvestigationRequestStatus phase message now r) =
    (core_of r) <| co_Phase := phase |> <| co_Observed := om_Generation (co_Meta (core_of r)) |>.
Proof. by destruct r as [m ct dt sp []]. Qed.

Lemma core_completed_at now r : core_of (setCompletedAt now r) = (core_of r) <| co_CompletedAt := Some now |>.
Proof. by destruct r as [m ct dt sp []]. Qed.

Lemma core_failure code message stage r :
  core_of (applyInvestigationFailure code message stage r) =
    (core_of r) <| co_Outcome := InvestigationOutcomeUnknown |> <| co_Failed := true |>.
Proof. by destruct r as [m ct dt sp []]. Qed.

Lemma core_coverage gate r : core_of (withCoverage gate r) = core_of r.
Proof. by destruct r as [m ct dt sp []]. Qed.

(** The core a failed run ends with. *)
Definition failed_core (c : Core) (now : time) : Core :=
  c <| co_Phase := PhaseFailed |> <| co_Observed := om_Generation (co_Meta c) |>
    <| co_Outcome := InvestigationOutcomeUnknown |> <| co_Failed := true |> <| co_CompletedAt := Some now |>.

Lemma failed_well_formed c now : co_Verdict c = None -> co_Linked c = None -> well_formed (failed_core c now).
Proof. destruct c. cbn. intros -> ->. split; [done|]. right; left. done. Qed.

Lemma core_loop failure now r :
  co_Observed (core_of r) = om_Generation (co_Meta (core_of r)) ->
  core_of (applyLoopPreventedInvestigationStatus failure now r) = failed_core (core_of r) now.
Proof.
  intros Hg. unfold applyLoopPreventedInvestigationStatus, setInvestigationRemediationBlocked,
    setInvestigationVerificationUnknown, andThen.
  rewrite !core_condition, core_not_runnable, !core_condition.
  destruct r as [m ct dt sp []]. cbn in *. unfold constant, core_of, failed_core. cbn. by rewrite Hg.
Qed.

Lemma core_invalid reason message now r :
  core_of (applyInvalidInvestigationStatus reason message now r) = failed_core (core_of r) now.
Proof.
  unfold applyInvalidInvestigationStatus, setInvestigationRemediationBlocked, setInvestigationVerificationUnknown, andThen.
  rewrite !core_condition, core_not_runnable.
  destruct (validationFailureIsTargetResolution _); rewrite !core_condition; by destruct r as [m ct dt sp []].
Qed.

Lemma core_blocked issue now r : core_of (blockedByPreflight issue now r) = failed_core (core_of r) now.
Proof.
  unfold blockedByPreflight, setInvestigationRemediationBlocked, setInvestigationVerificationUnknown, andThen.
  rewrite !core_condition, core_fail, core_completed_at. unfold startFailure, andThen.
  by rewrite core_failure, core_status.
Qed.

Lemma core_evidence_failed issue now r : core_of (failedByEvidence issue now r) = failed_core (core_of r) now.
Proof.
  unfold failedByEvidence, setInvestigationRemediationBlocked, andThen.
  rewrite !core_condition, core_fail, core_completed_at.
  rewrite <- (core_completed_at now). by destruct r as [m ct dt sp []].
Qed.

Lemma core_rejected preflight evidence rca issue now r :
  exists x, core_of (recordRejectedExecution version preflight evidence rca issue now r) = (core_of r) <| co_Execution := x |>.
Proof.
  unfold recordRejectedExecution. destruct (_ || _); [eexists; by destruct r as [m ct dt sp []]|].
  exists (co_Execution (core_of r)). by destruct r as [m ct dt sp []].
Qed.

Lemma core_rca_failed preflight evidence rca issue now r :
  exists x, core_of (failedByRCA version preflight evidence rca issue now r) =
    failed_core ((core_of r) <| co_Execution := x |>) now.
Proof.
  unfold failedByRCA, setInvestigationRemediationBlocked, andThen.
  destruct (core_rejected preflight evidence rca issue now
              (startFailure issue (investigationFailureStage (iss_Reason issue)) now r)) as [x Hx].
  exists x. rewrite core_condition, core_fail, core_completed_at.
  transitivity ((core_of (recordRejectedExecution version preflight evidence rca issue now
    (startFailure issue (investigationFailureStage (iss_Reason issue)) now r))) <| co_CompletedAt := Some now |>);
    [by destruct (recordRejectedExecution _ _ _ _ _ _ _) as [m ct dt sp []]|].
  rewrite Hx. unfold startFailure, andThen. by rewrite core_failure, core_status.
Qed.

Definition gate_core (c : Core) (outcome : string) (now : time) : Core :=
  c <| co_Phase := PhaseCompleted |> <| co_Observed := om_Generation (co_Meta c) |> <| co_Outcome := outcome |>
    <| co_Failed := false |> <| co_Verdict := Some outcome |> <| co_Execution := None |> <| co_CompletedAt := Some now |>.

Lemma gate_well_formed c outcome now :
  outcome ∈ [InvestigationOutcomeInconclusive; InvestigationOutcomeNoIssueFound] -> co_Linked c = None ->
  well_formed (gate_core c outcome now).
Proof.
  destruct c. cbn. intros Ho ->. split; [done|]. right; right. cbn. split; [done|]. split; [done|]. split; [done|].
  right; left. done.
Qed.

Lemma core_inconclusive evidence gate now r :
  core_of (applyEvidenceRequirementInconclusiveStatus evidence gate now r)
    = gate_core (core_of r) InvestigationOutcomeInconclusive now.
Proof.
  unfold applyEvidenceRequirementInconclusiveStatus, setInvestigationRemediationBlocked,
    setInvestigationVerificationUnknown, andThen.
  rewrite !core_condition, core_gate_preconditions, core_status. by destruct r as [m ct dt sp []].
Qed.

Lemma core_no_issue evidence gate now r :
  core_of (applyEvidenceRequirementNoIssueFoundStatus evidence gate now r)
    = gate_core (core_of r) InvestigationOutcomeNoIssueFound now.
Proof.
  unfold applyEvidenceRequirementNoIssueFoundStatus, setInvestigationRemediationBlocked, andThen.
  rewrite !core_condition, core_gate_preconditions, core_status. by destruct r as [m ct dt sp []].
Qed.

(** The verdict of a request about a provider's answer. *)
Definition verdict_of r evidence (reasoning : ReasoningOutput) : canonicalVerdictEvaluation :=
  let profile := irs_EvidenceProfile (ir_Spec r) in
  evaluateCanonicalVerdict reasoning evidence (buildRCAClaims reasoning evidence profile).1
    (scoreFraction (cf_Score (ro_Confidence reasoning))) profile.

Lemma core_reasoning preflight evidence rca now r :
  match rca_Reasoning rca with
  | None => core_of (applyReasoning version preflight evidence rca now r) = core_of r
  | Some reasoning =>
      exists x, rx_State x = executionStateFinalized /\
        core_of (applyReasoning version preflight evidence rca now r) =
          (core_of r) <| co_Outcome := ev_Outcome (verdict_of r evidence reasoning) |>
            <| co_Verdict := Some (ev_Outcome (verdict_of r evidence reasoning)) |> <| co_Execution := Some x |>
  end.
Proof.
  unfold applyReasoning. destruct (rca_Reasoning rca) as [reasoning|]; [|done].
  unfold applyStructuredRCAStatus, verdict_of. cbv zeta.
  change (ir_Spec (on_status _ r)) with (ir_Spec r).
  destruct (buildRCAClaims reasoning evidence _) as [claims verification]. cbn [fst].
  destruct r as [m ct dt sp []]. eexists. split; [|reflexivity]. reflexivity.
Qed.

Lemma core_complete evidence now r :
  core_of (completeInvestigation evidence now r) =
    (core_of r) <| co_Phase := PhaseCompleted |> <| co_Observed := om_Generation (co_Meta (core_of r)) |>
      <| co_Outcome := if co_Outcome (core_of r) == "" then InvestigationOutcomeUnknown else co_Outcome (core_of r) |>
      <| co_Failed := false |> <| co_CompletedAt := Some now |>.
Proof.
  unfold completeInvestigation, andThen. cbv zeta. destruct (evidenceCoverageDegradation evidence) as [d|].
  - destruct (evidenceDegradationCondition _) as [reason message].
    rewrite core_condition, core_outcome_conditions, core_status. by destruct r as [m ct dt sp []].
  - rewrite core_condition, core_outcome_conditions, core_status. by destruct r as [m ct dt sp []].
Qed.

(** The conditions written before the outcome is decided. *)
Definition prelude preflight evidence rca now : InvestigationRequest -> InvestigationRequest :=
  andThen (on_status (fun s => s <| ist_Provider := "" |> <| ist_EvidenceRefs := ec_EvidenceRefs evidence |>))
    (andThen (setTargetCondition preflight now)
      (andThen (setDatasourceConditions preflight evidence now)
        (andThen (setQueryConditions preflight now) (setRCACondition preflight evidence rca now)))).

Lemma core_prelude preflight evidence rca now r : core_of (prelude preflight evidence rca now r) = core_of r.
Proof.
  unfold prelude, andThen. rewrite core_rca, core_query, core_datasource, core_target. by destruct r as [m ct dt sp []].
Qed.

(** The four ends of an execution. *)
Lemma applied_cases preflight evidence rca now r :
  let s := prelude preflight evidence rca now r in
  let out := applyInvestigationExecutionStatus version preflight evidence rca now r in
  (exists issue, FirstIssue preflight = Some issue /\ out = blockedByPreflight issue now s) \/
  (exists issue, ec_Issue evidence = Some issue /\ out = failedByEvidence issue now s) \/
  (exists issue, rca_Issue rca = Some issue /\ out = failedByRCA version preflight evidence rca issue now s) \/
  (FirstIssue preflight = None /\ ec_Issue evidence = None /\ rca_Issue rca = None /\
     out = completeInvestigation evidence now (applyReasoning version preflight evidence rca now s)).
Proof.
  cbv zeta. unfold applyInvestigationExecutionStatus, prelude, andThen.
  destruct (FirstIssue preflight) as [i|]; [left; by exists i|].
  destruct (ec_Issue evidence) as [i|]; [right; left; by exists i|].
  destruct (rca_Issue rca) as [i|]; [right; right; left; by exists i|]. by right; right; right.
Qed.

Definition terminal_core (c : Core) : Prop := co_Phase c ∈ [PhaseCompleted; PhaseFailed].

Lemma verdict_prelude preflight evidence rca now r reasoning :
  verdict_of (prelude preflight evidence rca now r) evidence reasoning = verdict_of r evidence reasoning.
Proof.
  unfold verdict_of. assert (Hs := f_equal co_Spec (core_prelude preflight evidence rca now r)). cbn in Hs. by rewrite Hs.
Qed.

Lemma verdict_cases r evidence reasoning :
  ev_Outcome (verdict_of r evidence reasoning) ∈ [InvestigationOutcomeConfirmed; InvestigationOutcomeInconclusive].
Proof. unfold verdict_of. cbv zeta. exact (outcome_cases _ _ _ _ _). Qed.

Lemma outcome_nonempty o :
  o ∈ [InvestigationOutcomeConfirmed; InvestigationOutcomeInconclusive] -> (o == "") = false.
Proof. intros H. apply String.eqb_neq. intros ->. by apply mem_str_spec in H. Qed.

Lemma unknown_completed c : co_Outcome c = InvestigationOutcomeUnknown -> co_Verdict c = None ->
  co_Execution c = None -> co_Linked c = None -> completed_ok c.
Proof. by left. Qed.

Lemma applied_core preflight evidence rca now r :
  fresh (core_of r) ->
  let out := core_of (applyInvestigationExecutionStatus version preflight evidence rca now r) in
  well_formed out /\ terminal_core out /\ co_Meta out = co_Meta (core_of r) /\ co_Spec out = co_Spec (core_of r) /\
  co_Linked out = None.
Proof.
  intros (Hg & Hc & Ho & Hf & Hv & Hx & Hl). cbv zeta.
  assert (Hp := core_prelude preflight evidence rca now r).
  destruct (applied_cases preflight evidence rca now r)
    as [(i & _ & ->)|[(i & _ & ->)|[(i & _ & ->)|(_ & _ & _ & ->)]]].
  - rewrite core_blocked, Hp. split; [by apply failed_well_formed|]. split; [right; left|]. done.
  - rewrite core_evidence_failed, Hp. split; [by apply failed_well_formed|]. split; [right; left|]. done.
  - destruct (core_rca_failed preflight evidence rca i now (prelude preflight evidence rca now r)) as [x ->].
    rewrite Hp. split; [by apply failed_well_formed|]. split; [right; left|]. done.
  - rewrite core_complete.
    assert (Hr := core_reasoning preflight evidence rca now (prelude preflight evidence rca now r)).
    destruct (rca_Reasoning rca) as [reasoning|].
    + destruct Hr as (x & Hfin & ->). rewrite Hp, verdict_prelude. assert (Hcase := verdict_cases r evidence reasoning).
      assert (Hne := outcome_nonempty _ Hcase). set (o := ev_Outcome (verdict_of _ _ _)) in *. clearbody o. destruct (core_of r). cbn -[String.eqb] in *. unfold constant. subst. rewrite Hne. split; [|split; [left|done]]. split; [done|]. right; right. cbn. split; [done|]. split; [done|].
      split; [done|]. right; right. cbn. split; [done|]. split; [done|]. split; [by exists x|done].
    + rewrite Hr, Hp. destruct (core_of r). cbn in *. unfold constant. subst. cbn. split; [|split; [left|done]].
      split; [done|]. right; right. cbn. split; [done|]. split; [done|]. split; [done|]. by apply unknown_completed.
Qed.

(** What a Confirmed outcome rests on. *)
Definition confirmed_by (spec : InvestigationRequestSpec) evidence (reasoning : ReasoningOutput) : Prop :=
  let causal := rootCauseClaims reasoning (proposedClaims reasoning evidence (irs_EvidenceProfile spec)) in
  some_borne_out evidence causal /\ none_contradicted evidence causal.

Lemma applied_confirmed preflight evidence rca now r :
  fresh (core_of r) ->
  ir_Outcome (applyInvestigationExecutionStatus version preflight evidence rca now r) = InvestigationOutcomeConfirmed ->
  FirstIssue preflight = None /\ ec_Issue evidence = None /\ rca_Issue rca = None /\
  exists reasoning, rca_Reasoning rca = Some reasoning /\ confirmed_by (ir_Spec r) evidence reasoning.
Proof.
  intros (Hg & Hc & Ho & Hf & Hv & Hx & Hl) Hout.
  assert (Hp := core_prelude preflight evidence rca now r). unfold ir_Outcome in Hout.
  change (ist_Outcome (ir_Status ?x)) with (co_Outcome (core_of x)) in Hout.
  destruct (applied_cases preflight evidence rca now r)
    as [(i & _ & Heq)|[(i & _ & Heq)|[(i & _ & Heq)|(H1 & H2 & H3 & Heq)]]]; rewrite Heq in Hout.
  - rewrite core_blocked in Hout. done.
  - rewrite core_evidence_failed in Hout. done.
  - destruct (core_rca_failed preflight evidence rca i now (prelude preflight evidence rca now r)) as [x Hx'].
    rewrite Hx' in Hout. done.
  - split; [done|]. split; [done|]. split; [done|]. rewrite core_complete in Hout.
    assert (Hr := core_reasoning preflight evidence rca now (prelude preflight evidence rca now r)).
    destruct (rca_Reasoning rca) as [reasoning|].
    + destruct Hr as (x & Hfin & Hr). rewrite Hr, verdict_prelude in Hout. exists reasoning. split; [done|].
      apply (confirmed_iff reasoning evidence (irs_EvidenceProfile (ir_Spec r)) (scoreFraction (cf_Score (ro_Confidence reasoning)))).
      fold (verdict_of r evidence reasoning). cbn -[String.eqb verdict_of] in Hout. unfold constant in Hout.
      rewrite outcome_nonempty in Hout; [exact Hout|apply verdict_cases].
    + rewrite Hr, Hp in Hout. cbn in Hout, Ho. unfold constant in Hout. by rewrite Ho in Hout.
Qed.

(** ** The budget keeps the core *)

Lemma compact_core r : core_of (r <| ir_Status := (compactStatus (ir_Status r)).1 |>) = core_of r.
Proof.
  destruct r as [m ct dt sp [rs oc fl su hy cf pr vd cv cl ah me dg ex sa ca er li lk cd]].
  unfold compactStatus. destruct vd as [v|], fl as [f|]; status_cbn; destruct (bool_decide _); status_cbn;
    destruct (CompactEvidenceRefs er) as [refs [|]]; reflexivity.
Qed.

Lemma dropped_core r s out :
  dropped_from s out -> core_of (r <| ir_Status := out |>) = core_of (r <| ir_Status := s |>).
Proof. intros (n & m & -> & _). by destruct r, s. Qed.

Lemma budget_core marshal now r out :
  applyInvestigationStatusBudget marshal now r = Some out ->
  core_of out = core_of r /\ within_bounds (ir_Status out).
Proof.
  unfold applyInvestigationStatusBudget.
  destruct (enforce_dropped marshal (ir_Status r)) as (s & t & -> & Hb & Hd).
  assert (Hc : core_of (r <| ir_Status := s |>) = core_of r)
    by (rewrite (dropped_core _ _ _ Hd); apply compact_core).
  destruct t; intros [= <-]; [|by split; [|destruct r]].
  unfold andThen. rewrite core_condition. split.
  - rewrite <- Hc. by destruct r as [m ct dt sp []], s.
  - destruct r as [m ct dt sp []], s, Hb. by split.
Qed.

Lemma budget_some marshal now r : exists out, applyInvestigationStatusBudget marshal now r = Some out.
Proof.
  unfold applyInvestigationStatusBudget. destruct (enforce_dropped marshal (ir_Status r)) as (s & t & -> & _).
  destruct t; by eexists.
Qed.

Context (cfg : InvestigationConfig).

Lemma budgeted_core r now :
  core_of (budgeted cfg r now) = core_of r /\ within_bounds (ir_Status (budgeted cfg r now)).
Proof.
  unfold budgeted. destruct (budget_some (icf_marshal cfg) now r) as [out Hout]. rewrite Hout. by eapply budget_core.
Qed.

(** ** The start and the checkpoint *)

Lemma started_fresh r now startedAt : fresh (core_of (startedRequest r now startedAt)).
Proof. by destruct r as [m ct dt sp []]. Qed.

Lemma started_core r now startedAt :
  co_Meta (core_of (startedRequest r now startedAt)) = ir_Meta r /\
  co_Spec (core_of (startedRequest r now startedAt)) = ir_Spec r.
Proof. by destruct r as [m ct dt sp []]. Qed.

Lemma classified_result preflight evidence rca reasoning :
  rca_Reasoning rca = Some reasoning ->
  exists result, classifiedProviderResult preflight evidence rca = Some result /\
    prs_NormalizedResult result = Some (normalizedResultFromReasoning reasoning) /\
    prs_ProviderRequestID result = trim_space (ro_ProviderRequestID reasoning).
Proof.
  intros Hr. unfold classifiedProviderResult, providerResultFromReasoning. rewrite Hr.
  destruct (pf_Provider preflight) as [p|]; [|by eexists]. destruct (isHostedProviderType _); by eexists.
Qed.

Lemma checkpoint_core r preflight evidence rca reasoning executionID now :
  fresh (core_of r) -> rca_Reasoning rca = Some reasoning ->
  let out := core_of (checkpointStatus cfg r preflight evidence rca executionID now) in
  well_formed out /\ co_Phase out = PhaseReasoning /\ co_Meta out = co_Meta (core_of r) /\ co_Spec out = co_Spec (core_of r).
Proof.
  intros (Hg & Hc & Ho & Hf & Hv & Hx & Hl) Hr. cbv zeta. unfold checkpointStatus. cbv zeta.
  rewrite (proj1 (budgeted_core _ _)), core_status.
  destruct (classified_result preflight evidence rca reasoning Hr) as (result & Hres & Hn & _).
  destruct r as [m ct dt sp []]. cbn in Hg, Hc, Ho, Hf, Hv, Hx, Hl. subst.
  split; [|done]. split; [done|]. left. cbn. repeat split; try done.
  eexists _, result. split; [done|]. split; [done|]. split; [exact Hres|]. by rewrite Hn.
Qed.
End Invariant.

(** ** The conditions that speak for the outcome *)

Section Conditions.
Context {U : UnicodeTables} {D : DigestPrims} {SC : StatusConditions} {CL : ConditionLaws SC}.
Context (version : string).
Implicit Type r : InvestigationRequest.

Definition cond_status r (type : string) : option string :=
  option_map cond_Status (find_condition (ist_Conditions (ir_Status r)) type).

Lemma conditions_set type status reason message now r :
  ist_Conditions (ir_Status (setStatusCondition type status reason message now r)) =
    SetStatusCondition (ist_Conditions (ir_Status r)) (mkCondition type status reason message (generation r) now).
Proof. by destruct r as [m ct dt sp []]. Qed.

Lemma cond_set_same type status reason message now r :
  cond_status (setStatusCondition type status reason message now r) type = Some status.
Proof.
  unfold cond_status. rewrite conditions_set.
  destruct (set_condition_same (ist_Conditions (ir_Status r)) (mkCondition type status reason message (generation r) now))
    as (c & Hc & _ & Hs & _).
  cbn [cond_Type] in Hc. rewrite Hc. cbn. by rewrite Hs.
Qed.

Lemma cond_set_other type type' status reason message now r :
  type' <> type -> cond_status (setStatusCondition type status reason message now r) type' = cond_status r type'.
Proof. intros Hne. unfold cond_status. rewrite conditions_set. by rewrite set_condition_other. Qed.

(** RemediationReady is True exactly for a Confirmed outcome, and Ready says
    whether the investigation completed. *)
Definition conditions_agree r : Prop :=
  cond_status r conditionRemediationReady
    = Some (if ir_Outcome r == InvestigationOutcomeConfirmed then ConditionTrue else ConditionFalse) /\
  cond_status r conditionReady = Some (if ir_Phase r == PhaseCompleted then ConditionTrue else ConditionFalse).

Ltac cond_tac :=
  unfold andThen, setInvestigationRemediationBlocked, setInvestigationVerificationUnknown in *;
  repeat first [rewrite cond_set_same | rewrite cond_set_other by discriminate].

Lemma agree_intro r outcome phase :
  co_Outcome (core_of r) = outcome -> co_Phase (core_of r) = phase ->
  cond_status r conditionRemediationReady
    = Some (if outcome == InvestigationOutcomeConfirmed then ConditionTrue else ConditionFalse) ->
  cond_status r conditionReady = Some (if phase == PhaseCompleted then ConditionTrue else ConditionFalse) ->
  conditions_agree r.
Proof. by intros <- <-. Qed.

Lemma agree_loop failure now r :
  co_Observed (core_of r) = om_Generation (co_Meta (core_of r)) ->
  conditions_agree (applyLoopPreventedInvestigationStatus failure now r).
Proof.
  intros Hg. assert (Hc := core_loop failure now r Hg).
  apply (agree_intro _ _ _ (f_equal co_Outcome Hc) (f_equal co_Phase Hc));
    unfold applyLoopPreventedInvestigationStatus, setInvestigationNotRunnableConditions; by cond_tac.
Qed.

Lemma agree_invalid reason message now r : conditions_agree (applyInvalidInvestigationStatus reason message now r).
Proof.
  assert (Hc := core_invalid reason message now r).
  apply (agree_intro _ _ _ (f_equal co_Outcome Hc) (f_equal co_Phase Hc));
    unfold applyInvalidInvestigationStatus, setInvestigationNotRunnableConditions; cond_tac; [done|];
    destruct (validationFailureIsTargetResolution _); by cond_tac.
Qed.

Lemma agree_inconclusive evidence gate now r :
  conditions_agree (applyEvidenceRequirementInconclusiveStatus evidence gate now r).
Proof.
  assert (Hc := core_inconclusive evidence gate now r).
  apply (agree_intro _ _ _ (f_equal co_Outcome Hc) (f_equal co_Phase Hc));
    unfold applyEvidenceRequirementInconclusiveStatus; by cond_tac.
Qed.

Lemma agree_no_issue evidence gate now r :
  conditions_agree (applyEvidenceRequirementNoIssueFoundStatus evidence gate now r).
Proof.
  assert (Hc := core_no_issue evidence gate now r).
  apply (agree_intro _ _ _ (f_equal co_Outcome Hc) (f_equal co_Phase Hc));
    unfold applyEvidenceRequirementNoIssueFoundStatus; by cond_tac.
Qed.

Lemma agree_fail issue undegraded now r :
  cond_status (failInvestigation issue undegraded now r) conditionReady = Some ConditionFalse /\
  cond_status (failInvestigation issue undegraded now r) conditionRemediationReady = cond_status r conditionRemediationReady.
Proof. unfold failInvestigation, andThen. destruct (shouldMarkInvestigationDegraded _); by cond_tac. Qed.

Lemma agree_blocked issue now r : conditions_agree (blockedByPreflight issue now r).
Proof.
  assert (Hc := core_blocked issue now r).
  apply (agree_intro _ _ _ (f_equal co_Outcome Hc) (f_equal co_Phase Hc));
    unfold blockedByPreflight; cond_tac; [done|]. apply agree_fail.
Qed.

Lemma agree_evidence issue now r : conditions_agree (failedByEvidence issue now r).
Proof.
  assert (Hc := core_evidence_failed issue now r).
  apply (agree_intro _ _ _ (f_equal co_Outcome Hc) (f_equal co_Phase Hc));
    unfold failedByEvidence; cond_tac; [done|]. apply agree_fail.
Qed.

Lemma agree_rca preflight evidence rca issue now r : conditions_agree (failedByRCA version preflight evidence rca issue now r).
Proof.
  destruct (core_rca_failed version preflight evidence rca issue now r) as [x Hc].
  apply (agree_intro _ _ _ (f_equal co_Outcome Hc) (f_equal co_Phase Hc));
    unfold failedByRCA; cond_tac; [done|]. apply agree_fail.
Qed.

Lemma agree_outcome_conditions now r :
  cond_status (setOutcomeConditions now r) conditionRemediationReady
    = Some (if ir_Outcome r == InvestigationOutcomeConfirmed then ConditionTrue else ConditionFalse) /\
  cond_status (setOutcomeConditions now r) conditionReady = Some ConditionTrue.
Proof.
  unfold setOutcomeConditions. cbv zeta. fold (ir_Outcome r). destruct (ir_Outcome r == InvestigationOutcomeConfirmed) eqn:Ho.
  - by cond_tac.
  - destruct (ir_Outcome r == InvestigationOutcomeInconclusive); by cond_tac.
Qed.

Lemma agree_complete evidence now r : conditions_agree (completeInvestigation evidence now r).
Proof.
  assert (Hc := core_complete evidence now r).
  assert (Ho := f_equal co_Outcome Hc). assert (Hp := f_equal co_Phase Hc).
  unfold conditions_agree. change (ir_Outcome ?x) with (co_Outcome (core_of x)). change (ir_Phase ?x) with (co_Phase (core_of x)).
  rewrite Ho, Hp. clear Hc Ho Hp. unfold completeInvestigation. cbv zeta. unfold andThen.
  set (q := on_status _ r). set (q' := setInvestigationRequestStatus _ _ _ q).
  assert (Hq : ir_Outcome q' = (if co_Outcome (core_of r) == "" then InvestigationOutcomeUnknown else co_Outcome (core_of r)))
    by (unfold q', q; by destruct r as [m ct dt sp []]).
  destruct (agree_outcome_conditions now q') as [Hr Hrd]. rewrite Hq in Hr.
  destruct (evidenceCoverageDegradation evidence); [destruct (evidenceDegradationCondition _)|]; cond_tac; by rewrite Hr, Hrd.
Qed.

Lemma agree_applied preflight evidence rca now r :
  conditions_agree (applyInvestigationExecutionStatus version preflight evidence rca now r).
Proof.
  destruct (applied_cases version preflight evidence rca now r)
    as [(i & _ & ->)|[(i & _ & ->)|[(i & _ & ->)|(_ & _ & _ & ->)]]].
  - apply agree_blocked.
  - apply agree_evidence.
  - apply agree_rca.
  - apply agree_complete.
Qed.

Lemma agree_linked link r :
  conditions_agree r -> conditions_agree (on_status (fun s => s <| ist_LinkedRiskSignalRef := link |>) r).
Proof. by destruct r as [m ct dt sp []]. Qed.

Lemma compact_conditions s : ist_Conditions (compactStatus s).1 = ist_Conditions s.
Proof.
  destruct s as [rs oc fl su hy cf pr vd cv cl ah me dg ex sa ca er li lk cd].
  unfold compactStatus. destruct vd as [v|], fl as [f|]; status_cbn; destruct (bool_decide _); status_cbn;
    destruct (CompactEvidenceRefs er) as [refs [|]]; reflexivity.
Qed.

Lemma dropped_conditions s out : dropped_from s out -> ist_Conditions out = ist_Conditions s.
Proof. intros (n & m & -> & _). by destruct s. Qed.

(** Only the Degraded condition may change. *)
Lemma budgeted_cond cfg r now type :
  type <> conditionDegraded -> cond_status (budgeted cfg r now) type = cond_status r type.
Proof.
  intros Hne. unfold budgeted, applyInvestigationStatusBudget.
  destruct (enforce_dropped (icf_marshal cfg) (ir_Status r)) as (s & t & -> & _ & Hd).
  apply dropped_conditions in Hd. rewrite compact_conditions in Hd.
  assert (Hs : cond_status (r <| ir_Status := s |>) type = cond_status r type)
    by (unfold cond_status; rewrite <- Hd; by destruct r).
  destruct t; cbn [default from_option id]; [|exact Hs]. unfold andThen. rewrite cond_set_other by done.
  rewrite <- Hs. by destruct r as [m ct dt sp []], s.
Qed.

Lemma agree_budgeted cfg r now : conditions_agree r -> conditions_agree (budgeted cfg r now).
Proof.
  unfold conditions_agree. rewrite !budgeted_cond by discriminate.
  change (ir_Outcome ?x) with (co_Outcome (core_of x)). change (ir_Phase ?x) with (co_Phase (core_of x)).
  by rewrite (proj1 (budgeted_core cfg r now)).
Qed.
End Conditions.
