(* ===== verification/InvestigationExamples.v ===== *)
(** * A concrete investigation

    A run of the InvestigationRequest reconciler from a new request to a
    Confirmed outcome with its RiskSignal, the run that resumes after the
    checkpoint, and the run that deletes the finished request. *)

From Stdlib Require Import ZArith Lia.
From stdpp Require Import base list strings gmap.
From S2P Require Import Prelude GoStrings Utf8 Float64 Api InvestigationApi Digest Prog Runtime AgentAction DataClassification Scope Observation Egress Gateway Verifier StatusBudget InvestigationGate InvestigationRCA InvestigationExecution InvestigationVerdict InvestigationStatus InvestigationSpec InvestigationProjection InvestigationController InvestigationInvariant.

#[local] Existing Instance plain_tables.
#[local] Existing Instance plain_digest.
#[local] Existing Instance plain_references.
#[local] Existing Instance plain_conditions.

Definition ex_config : InvestigationConfig := mkInvestigationConfig true "1.0.0" (fun _ => Ok "{}").

Definition ex_spec : InvestigationRequestSpec :=
  mkInvestigationRequestSpec sample_target "" None (15 * minute) "" ["k8s"] [] "" "readOnly" true ""
    zeroRetention "" zeroBudget (mkInvestigationLoopPolicy 0 false) 60.
Definition ex_request (status : InvestigationRequestStatus) : InvestigationRequest :=
  mkInvestigationRequest (mkObjectMeta "inv" "prod" "uid-1" "7" 1 ∅ ∅ []) 5 None ex_spec status.
Definition ex_target : ResourceRef := mkResourceRef "" "prod" "Deployment" "web" "apps/v1" "".
Definition ex_preflight : PreflightResult := mkPreflightResult ex_target ∅ ["k8s"] [] None None None None None.
Definition ex_evidence : EvidenceCollectionResult :=
  mkEvidenceCollectionResult "2 references"
    [evidence_ref "e1" "event" "k8s" "BackOff" "Back-off restarting failed container";
     evidence_ref "e2" "log" "loki" "" "panic: invalid configuration"] [] [] [] [] None.
Definition ex_rca : RCA :=
  mkRCAResult (Some (mkReasoningOutput "web is failing" "web restarts" "high" (mkConfidence 90 "high" "" "")
    (mkRCASummary "a bad configuration" ["Pods are in CrashLoopBackOff"] []) (mkRemediation "" "" ∅ []) [] [] "heuristic"
    "req-1" 0 0)) None [] None.

(** The world answers every operation the same way. *)
Definition ex_answer (status : InvestigationRequestStatus) (now : time) {X} (op : inv_op X) : option X :=
  match op in inv_op X return option X with
  | INow => Some now
  | IGet _ _ => Some (Ok (ex_request status))
  | IDelete _ => Some None
  | IUpdateStatus u => Some (Ok u)
  | IPreflight _ _ => Some (Ok ex_preflight)
  | ICollectEvidence _ _ _ => Some (Ok ex_evidence)
  | IGenerateRCA _ _ _ _ => Some (Ok ex_rca)
  | IEnsureRiskSignal ns name mutate => Some (mutate (freshRiskSignal ns name))
  | IUpdateRiskSignalStatus _ => Some None
  | IConflictMetric _ => Some tt
  end.

Definition ex_handler (status : InvestigationRequestStatus) (now : time) (log : list (event inv_op)) X (op : inv_op X)
    : option (X * list (event inv_op)) :=
  match ex_answer status now op with Some x => Some (x, log ++ [Ev op x]) | None => None end.

Definition ex_run (status : InvestigationRequestStatus) (now : time) : option rresult * list (event inv_op) :=
  run (ex_handler status now) (reconcileInvestigation ex_config "prod" "inv") [].

Lemma ex_logged status now :
  logged (reconcileInvestigation ex_config "prod" "inv") (ex_run status now).1 (ex_run status now).2.
Proof.
  apply run_exec. intros log X e x log'. unfold ex_handler, log_env. by destruct (ex_answer _ _ _); intros [= <- <-].
Qed.

(** The statuses a run stores. *)
Definition stored_of (ev : event inv_op) : option InvestigationRequestStatus :=
  match ev with Ev (IUpdateStatus u) _ => Some (ir_Status u) | _ => None end.
Definition stored (run : option rresult * list (event inv_op)) : list InvestigationRequestStatus := omap stored_of run.2.
Definition core_fields (s : InvestigationRequestStatus) : string * string * bool * option string :=
  (rs_Phase (ist_ResourceStatus s), ist_Outcome s, bool_decide (ist_LinkedRiskSignalRef s = None),
   option_map rx_State (ist_Execution s)).

Definition new_run := ex_run zeroInvestigationStatus 1000.

Example new_run_stores :
  (new_run.1, map core_fields (stored new_run)) =
  (Some done_ok, [("Reasoning", "", true, Some "ProviderCompleted"); ("Completed", "Confirmed", false, Some "Finalized")]).
Proof. vm_compute. reflexivity. Qed.

(** A run that finds the checkpoint asks nobody and ends the same. *)
Definition checkpointed : InvestigationRequestStatus := default zeroInvestigationStatus (head (stored new_run)).
Definition is_ask (ev : event inv_op) : bool := match ev with Ev (IGenerateRCA _ _ _ _) _ => true | _ => false end.

Example resumed_run :
  (existsb is_ask new_run.2, existsb is_ask (ex_run checkpointed 1000).2,
   bool_decide (last (stored (ex_run checkpointed 1000)) = last (stored new_run))) = (true, false, true).
Proof. vm_compute. reflexivity. Qed.

Definition finished : InvestigationRequestStatus := default zeroInvestigationStatus (last (stored new_run)).
Definition is_delete (ev : event inv_op) : bool := match ev with Ev (IDelete _) _ => true | _ => false end.

Example finished_runs :
  map (fun now => existsb is_delete (ex_run finished now).2) [1000; 1000 + seconds 59; 1000 + seconds 60]
    = [false; false; true].
Proof. vm_compute. reflexivity. Qed.

(** A log around an event of a kind it has. *)
Lemma log_split (p : event inv_op -> bool) (log : list (event inv_op)) :
  existsb p log = true -> exists before ev after, log = before ++ ev :: after /\ p ev = true.
Proof.
  intros (ev & Hin & Hp)%existsb_exists. apply in_split in Hin as (before & after & ->). eauto.
Qed.

(** A rerun that fails to collect evidence keeps the Verified condition of the
    earlier, Confirmed run; RemediationReady is reset. *)
Definition failing_evidence : EvidenceCollectionResult :=
  mkEvidenceCollectionResult "" [] [] [] [] [] (Some (mkIssue "DatasourceUnavailable" "down" None)).
Example stale_verified :
  let r := applyInvestigationExecutionStatus "1.0.0" ex_preflight failing_evidence emptyRCA 9
             (startedRequest (ex_request finished) 7 8) in
  (ir_Phase r, cond_status r conditionVerified, cond_status r conditionRemediationReady)
    = ("Failed", Some "True", Some "False").
Proof. vm_compute. reflexivity. Qed.

(** The projected confidence of 0.29 is 28, not 29. *)
Example projected_score_truncated : int_of_float (float_mul (scoreFraction 29) (float_of_int 100)) = 28.
Proof. vm_compute. reflexivity. Qed.
