(* ===== verification/RiskSignalController.v ===== *)
(** * RiskSignal reconcilers (internal/controllers/risksignal_controller.go, risksignal_notification_controller.go)

    One reconciler retains a RiskSignal for its TTL and, when remediation is
    enabled, materialises a RemediationPlan for it; the other notifies of it once. *)

From Stdlib Require Import ZArith Lia.
From stdpp Require Import base list strings gmap.
From S2P Require Import Prelude GoStrings Utf8 Api InvestigationApi Digest Prog Runtime AgentAction Observation Egress Gateway InvestigationGate InvestigationRCA InvestigationStatus InvestigationSpec InvestigationProjection RiskRule InvestigationController InvestigationExamples.

Definition annotationNotificationAt : string := "fluxseer-rca.aiops.platform/notified-at".
Definition annotationNotificationSource : string := "fluxseer-rca.aiops.platform/notification-source".

(** A RiskSignal with the times of its metadata that the reconcilers read. *)
Record StoredSignal := mkStoredSignal {
  ss_Signal : RiskSignal;
  ss_CreationTimestamp : time;
  ss_DeletionTimestamp : option time
}.

(** What a notification says (internal/notifier/interface.go); a field of the map
    [Fields] is a string or the confidence. *)
Record NotifierMessage := mkNotifierMessage {
  msg_Title : string;
  msg_Summary : string;
  msg_Body : string;
  msg_Fields : gmap string (string + Z)
}.

Inductive signal_op : Type -> Type :=
| KNow : signal_op time
| KGet (namespace name : string) : signal_op (result StoredSignal)
| KDelete (signal : StoredSignal) : signal_op (option error)
| KEnsurePlan (namespace name : string) (mutate : RemediationPlan -> result RemediationPlan) : signal_op (option error)
| KUpdate (signal : StoredSignal) : signal_op (option error)
| KUpdateStatus (signal : StoredSignal) : signal_op (option error)
| KNotify (message : NotifierMessage) : signal_op (option error)
| KConflictMetric (resource : string) : signal_op unit.

Definition kprog : Type -> Type := prog signal_op.

Definition with_signal_status (s : StoredSignal) (status : RiskSignalStatus) : StoredSignal :=
  mkStoredSignal ((ss_Signal s) <| rsk_Status := status |>) (ss_CreationTimestamp s) (ss_DeletionTimestamp s).

Definition setRiskSignalStatus (phase message : string) (generation : Z) (now : time) (status : RiskSignalStatus)
    : RiskSignalStatus :=
  status <| rst_ResourceStatus := mkResourceStatus phase message generation now |>.

(** The update unless it changes nothing; a conflict counts as done. *)
Definition pushStatus (original updated : StoredSignal) : kprog (option error) :=
  if statusChangedRiskSignal (rsk_Status (ss_Signal original)) (rsk_Status (ss_Signal updated)) then
    err <~! KUpdateStatus updated;
    match err with
    | None => Ret None
    | Some e => if is_conflict e then _ <~! KConflictMetric "RiskSignal"; Ret None else Ret (Some e)
    end
  else Ret None.

(** ** Remediation *)

Section Remediation.
Context {U : UnicodeTables} {SC : StatusConditions} {CR : ControllerReferences}.
Context (enabled : bool).

Definition signalExpiry (s : StoredSignal) (now : time) : time :=
  let ttl := seconds (rss_TTLSeconds (rsk_Spec (ss_Signal s))) in
  if is_zero_time (ss_CreationTimestamp s) then time_add now ttl else time_add (ss_CreationTimestamp s) ttl.

(** The result, and whether the reconciliation ends here. *)
Definition handleSignalTTL (s : StoredSignal) (now : time) : kprog (rresult * bool) :=
  if (rss_TTLSeconds (rsk_Spec (ss_Signal s)) <=? 0) || bool_decide (ss_DeletionTimestamp s <> None)
  then Ret (done_ok, false)
  else if negb (time_before now (signalExpiry s now)) then
    err <~! KDelete s;
    Ret (match err with
         | Some e => if is_not_found e then (done_ok, true) else (done_err e, true)
         | None => (done_ok, true)
         end)
  else Ret (requeue (time_sub (signalExpiry s now) now), false).

(** The loop over the conditions: the first RCAReady that is False or True. *)
Definition rcaVerdict (conditions : list Condition) : option bool :=
  find_first (fun c =>
    if cond_Type c == conditionRCAReady then
      if cond_Status c == ConditionFalse then Some true
      else if cond_Status c == ConditionTrue then Some false else None
    else None) conditions.

Definition hasUnverifiedInvestigationProjection (signal : RiskSignal) : bool :=
  match rss_InvestigationRef (rsk_Spec signal) with
  | None => false
  | Some _ =>
      match rcaVerdict (rst_Conditions (rsk_Status signal)) with
      | Some unverified => unverified
      | None => mem_str (rs_Phase (rst_ResourceStatus (rsk_Status signal)))
                  [""; InvestigationOutcomeInconclusive; InvestigationOutcomeNoIssueFound; InvestigationOutcomeUnknown]
      end
  end.

Definition evidenceSummaries (evidence : list EvidenceRef) : list string :=
  map (fun item => if er_Link item != "" then er_Link item else er_Summary item) evidence.

Definition defaultRollbackPlan (actionType : string) : list string :=
  if actionType == "kubernetes.rolloutRestart" then
    ["verify the restarted Deployment rollout and revert the triggering workload change if health does not recover"]
  else if actionType == "kubernetes.rolloutPause" then
    ["resume rollout after validation"; "revert deployment image if crash loop persists"]
  else if actionType == "kubernetes.scaleDeployment" then ["restore previous replica count"]
  else if actionType == "gitops.createPullRequest" then ["close PR if mitigation is not needed"]
  else if actionType == "runbook.triggerWorkflow" then ["cancel workflow run if approval is revoked"]
  else if actionType == "notification.sendSlack" then ["notify responders that the alert was informational only"]
  else ["manual rollback required"].

Definition planAnnotations (signal : RiskSignal) (annotations : gmap string string) : gmap string string :=
  let m := rsk_Meta signal in
  let uid := map_get (om_Annotations m) annotationTargetUID in
  let annotations := if uid != "" then <[annotationTargetUID := uid]> annotations else annotations in
  <[annotationRiskSignalUID := om_UID m]>
  (<[annotationRiskSignalRef := om_Namespace m +:+ "/" +:+ om_Name m]> annotations).

(** The mutate function of [CreateOrUpdate]. *)
Definition mutatePlan (signal : RiskSignal) (plan : RemediationPlan) : result RemediationPlan :=
  let s := rsk_Spec signal in
  meta <-! SetControllerReference "RiskSignal" (rsk_Meta signal) (plan_Meta plan);
  Ok (mkRemediationPlan (om_relabel meta (om_Labels meta) (planAnnotations signal (om_Annotations meta)))
        (mkRemediationPlanSpec (rss_Target s) "risk-signal-controller" (rss_Severity s) (rss_Confidence s) (rss_DryRun s)
           (rss_TTLSeconds s) (rss_ApprovalTimeoutSeconds s) ("Derived remediation plan for " +:+ rss_ActionType s)
           (defaultRollbackPlan (rss_ActionType s)) (evidenceSummaries (rss_Evidence s))
           [mkRemediationStep "prepare-action" (rss_ActionType s)
              ("Execute " +:+ rss_ActionType s +:+ " on target resource") (rss_Parameters s)])
        (plan_Status plan)).

Definition planName (signal : RiskSignal) : string := om_Name (rsk_Meta signal) +:+ "-plan".

Definition materialisePlan (s : StoredSignal) (ttlResult : rresult) : kprog rresult :=
  let signal := ss_Signal s in
  ensured <~! KEnsurePlan (om_Namespace (rsk_Meta signal)) (planName signal) (mutatePlan signal);
  match ensured with
  | Some e => Ret (done_err e)
  | None =>
      now <~! KNow;
      failed <~ pushStatus s (with_signal_status s
        (setRiskSignalStatus PhaseReadyForApproval "remediation plan materialized" (om_Generation (rsk_Meta signal)) now
           (rsk_Status signal)));
      Ret (match failed with Some e => done_err e | None => ttlResult end)
  end.

Definition reconcileRiskSignal (namespace name : string) : kprog rresult :=
  got <~! KGet namespace name;
  match got with
  | Err e => Ret (ignoreNotFound e)
  | Ok s =>
      now <~! KNow;
      '(ttlResult, over) <~ handleSignalTTL s now;
      if over then Ret ttlResult
      else if negb enabled then Ret ttlResult
      else if hasUnverifiedInvestigationProjection (ss_Signal s) then Ret ttlResult
      else materialisePlan s ttlResult
  end.
End Remediation.

(** ** Notification *)

Section Notification.
Context {U : UnicodeTables}.

Definition notifierSource (signal : RiskSignal) : string :=
  let m := rsk_Meta signal in
  if map_get (om_Annotations m) annotationDetectionSource != ""
  then map_get (om_Annotations m) annotationDetectionSource else map_get (om_Labels m) labelManagedBy.

Definition new_line : string := str1 10.

Definition notificationBody (signal : RiskSignal) : string :=
  let status := rsk_Status signal in
  let rule := map_get (om_Labels (rsk_Meta signal)) labelRiskRule in
  join new_line
    (["Summary: " +:+ rs_Message (rst_ResourceStatus status)]
     ++ (if rule != "" then ["Rule: " +:+ rule] else [])
     ++ ["Target: " +:+ targetRefString (rss_Target (rsk_Spec signal))]
     ++ (if trim_space (rst_RCASummary status) != "" then ["RCA Summary: " +:+ rst_RCASummary status] else [])
     ++ (if trim_space (rst_RCAHypothesis status) != "" then ["RCA Hypothesis: " +:+ rst_RCAHypothesis status] else [])
     ++ map (fun e => "[" +:+ (if er_Source e == "" then er_Kind e else er_Source e) +:+ "] " +:+ er_Summary e)
          (rss_Evidence (rsk_Spec signal))).

Definition field_unless_blank (key value : string) (m : gmap string (string + Z)) : gmap string (string + Z) :=
  if value != "" then <[key := inl value]> m else m.

Definition notificationFields (signal : RiskSignal) : gmap string (string + Z) :=
  let s := rsk_Spec signal in
  let base : gmap string (string + Z) :=
    <["namespace" := inl (om_Namespace (rsk_Meta signal))]> (<["severity" := inl (rss_Severity s)]>
    (<["signalType" := inl (rss_SignalType s)]> (<["confidence" := inr (rss_Confidence s)]>
    (<["target" := inl (targetRefString (rss_Target s))]> ∅)))) in
  field_unless_blank "origin" (notifierSource signal)
    (field_unless_blank "rcaProvider" (rst_RCAProvider (rsk_Status signal))
      (field_unless_blank "rcaSummary" (rst_RCASummary (rsk_Status signal))
        (field_unless_blank "riskRule" (map_get (om_Labels (rsk_Meta signal)) labelRiskRule) base))).

Definition notificationMessage (signal : RiskSignal) : NotifierMessage :=
  mkNotifierMessage ("RiskSignal detected: " +:+ om_Name (rsk_Meta signal)) (rs_Message (rst_ResourceStatus (rsk_Status signal)))
    (notificationBody signal) (notificationFields signal).

Definition notifiedSignal (s : StoredSignal) (now : time) : StoredSignal :=
  let signal := ss_Signal s in
  let m := rsk_Meta signal in
  let annotations := <[annotationNotificationSource := notifierSource signal]>
                       (<[annotationNotificationAt := rfc3339_seconds now]> (om_Annotations m)) in
  mkStoredSignal (signal <| rsk_Meta := om_relabel m (om_Labels m) annotations |>)
    (ss_CreationTimestamp s) (ss_DeletionTimestamp s).

Definition recordNotification (namespace name : string) (original : StoredSignal) : kprog rresult :=
  got <~! KGet namespace name;
  match got with
  | Err e => Ret (ignoreNotFound e)
  | Ok s =>
      now <~! KNow;
      let signal := ss_Signal s in
      let updated := with_signal_status s
        (setRiskSignalStatus PhaseNotified (rs_Message (rst_ResourceStatus (rsk_Status (ss_Signal original))))
           (om_Generation (rsk_Meta signal)) now (rsk_Status signal)) in
      failed <~ pushStatus original updated;
      Ret (match failed with Some e => done_err e | None => done_ok end)
  end.

Definition reconcileNotification (namespace name : string) : kprog rresult :=
  got <~! KGet namespace name;
  match got with
  | Err e => Ret (ignoreNotFound e)
  | Ok s =>
      if map_get (om_Annotations (rsk_Meta (ss_Signal s))) annotationNotificationAt != "" then Ret done_ok
      else
        sent <~! KNotify (notificationMessage (ss_Signal s));
        match sent with
        | Some e => Ret (done_err e)
        | None =>
            now <~! KNow;
            failed <~! KUpdate (notifiedSignal s now);
            match failed with
            | None => recordNotification namespace name s
            | Some e =>
                if is_conflict e then _ <~! KConflictMetric "RiskSignal"; recordNotification namespace name s
                else Ret (done_err e)
            end
        end
  end.
End Notification.

(** ** What the remediation reconciler does, and why *)

Section Justification.
Context {U : UnicodeTables} {SC : StatusConditions} {CR : ControllerReferences}.
Context (enabled : bool) (namespace name : string).
Implicit Types (log : list (event signal_op)) (s : StoredSignal).

Definition signal_read log s : Prop := Ev (KGet namespace name) (Ok s) ∈ log.
(** The signal has a TTL, is not being deleted yet, and has outlived it at [now]. *)
Definition ttl_over s (now : time) : Prop :=
  0 < rss_TTLSeconds (rsk_Spec (ss_Signal s)) /\ ss_DeletionTimestamp s = None /\ signalExpiry s now <= now.

(** The longest TTL that is a [time.Duration]. *)
Definition max_ttl_seconds : Z := 9223372036.

Lemma ttl_over_lifetime s now : ttl_over s now -> rss_TTLSeconds (rsk_Spec (ss_Signal s)) <= max_ttl_seconds ->
  ss_CreationTimestamp s <> 0 /\ ss_CreationTimestamp s + rss_TTLSeconds (rsk_Spec (ss_Signal s)) * second <= now.
Proof.
  unfold ttl_over, signalExpiry, seconds, max_ttl_seconds, is_zero_time, time_add. intros (H1 & _ & H2) H3.
  rewrite wrap64_id in H2 by (unfold second, min_int64, max_int64; lia).
  destruct (Z.eqb_spec (ss_CreationTimestamp s) 0); [unfold second in *; lia|done].
Qed.

(** The steps of a reconciliation with the signal read at [now]. *)
Definition signal_justified log (ev : event signal_op) : Prop :=
  match ev with
  | Ev op _ =>
      match op with
      | KDelete s =>
          exists now,
            signal_read log s /\ Ev KNow now ∈ log /\ ttl_over s now /\
            (rss_TTLSeconds (rsk_Spec (ss_Signal s)) <= max_ttl_seconds ->
             ss_CreationTimestamp s + rss_TTLSeconds (rsk_Spec (ss_Signal s)) * second <= now)
      | KEnsurePlan ns n mutate =>
          exists s now,
            signal_read log s /\ Ev KNow now ∈ log /\ ~ ttl_over s now /\ enabled = true /\
            hasUnverifiedInvestigationProjection (ss_Signal s) = false /\
            ns = om_Namespace (rsk_Meta (ss_Signal s)) /\ n = planName (ss_Signal s) /\ mutate = mutatePlan (ss_Signal s)
      | KUpdateStatus updated =>
          exists s now mutate ns n,
            signal_read log s /\ Ev (KEnsurePlan ns n mutate) None ∈ log /\
            updated = with_signal_status s (setRiskSignalStatus PhaseReadyForApproval "remediation plan materialized"
                        (om_Generation (rsk_Meta (ss_Signal s))) now (rsk_Status (ss_Signal s)))
      | KUpdate _ | KNotify _ => False
      | _ => True
      end
  end.

Abbreviation all_ok := (all_justified signal_justified).

Lemma pushStatus_ok original updated log :
  all_ok log -> (forall x, signal_justified log (Ev (KUpdateStatus updated) x)) ->
  wp log_env all_ok (pushStatus original updated) log (fun _ _ => True).
Proof.
  intros Hok Hj. unfold pushStatus. destruct (statusChangedRiskSignal _ _); [|by apply wp_ret].
  apply wp_event; [done|exact Hj|]. intros [e|] Hok1; [|by apply wp_ret]. destruct (is_conflict e); [|by apply wp_ret].
  apply wp_event; [done|done|]. intros. by apply wp_ret.
Qed.

Lemma handleSignalTTL_cases s now :
  (exists r, handleSignalTTL s now = Ret (r, false)) /\ ~ ttl_over s now \/
  handleSignalTTL s now =
    Vis (KDelete s) (fun err => Ret (match err with
         | Some e => if is_not_found e then (done_ok, true) else (done_err e, true)
         | None => (done_ok, true)
         end)) /\ ttl_over s now.
Proof.
  unfold handleSignalTTL, ttl_over.
  destruct ((rss_TTLSeconds (rsk_Spec (ss_Signal s)) <=? 0) || bool_decide (ss_DeletionTimestamp s <> None)) eqn:Hc.
  - left. split; [eauto|]. apply orb_true_iff in Hc as [Hc%Z.leb_le|Hc%bool_decide_eq_true]; [lia|naive_solver].
  - apply orb_false_iff in Hc as [H1%Z.leb_gt H2%bool_decide_eq_false]. apply dec_stable in H2.
    unfold time_before. destruct (Z.ltb_spec now (signalExpiry s now)) as [H3|H3]; cbn [negb]; [left|right].
    + split; [eauto|lia].
    + done.
Qed.

Lemma handleSignalTTL_ok s now log :
  all_ok log -> signal_read log s -> Ev KNow now ∈ log ->
  wp log_env all_ok (handleSignalTTL s now) log (fun r _ => r.2 = false -> ~ ttl_over s now).
Proof.
  intros Hok Hr Hn. destruct (handleSignalTTL_cases s now) as [[[r ->] Ho]|[-> Ho]]; [by apply wp_ret|].
  apply wp_event; [done| |].
  - intros x. exists now. split_and!; [done..|]. by intros [_ ?]%(ttl_over_lifetime s now Ho).
  - intros [e|] Hok1; apply wp_ret; try done. by destruct (is_not_found e).
Qed.

Lemma reconcileRiskSignal_ok :
  wp log_env all_ok (reconcileRiskSignal enabled namespace name) [] (fun _ _ => True).
Proof.
  unfold reconcileRiskSignal. apply wp_event; [apply all_justified_nil|done|].
  intros [s|e] Hok; [|by apply wp_ret]. apply wp_event; [done|done|]. intros now Hok1.
  set (log := _ ++ [Ev KNow now]). assert (Hr : signal_read log s) by (apply elem_of_app; left; apply snoc_elem).
  assert (Hn : Ev KNow now ∈ log) by apply snoc_elem.
  eapply wp_bind_log; [by apply handleSignalTTL_ok|]. intros [ttlResult over] log' Hok' Hc Hret.
  destruct over; [by apply wp_ret|]. specialize (Hret eq_refl).
  destruct enabled eqn:Hen; cbn [negb]; [|by apply wp_ret].
  destruct (hasUnverifiedInvestigationProjection (ss_Signal s)) eqn:Hu; [by apply wp_ret|].
  unfold materialisePlan. apply wp_event; [done| |].
  { intros x. exists s, now. split_and!; [by eapply continues_elem|by eapply continues_elem|done..]. }
  intros [e|] Hok2; [by apply wp_ret|]. apply wp_event; [done|done|]. intros now2 Hok3.
  apply (wp_bind_log _ _ _ _ (fun _ _ => True)); [|intros [e|] log3 Hok4 _ _; by apply wp_ret].
  apply pushStatus_ok; [done|]. intros x. exists s, now2. do 3 eexists.
  split_and!; [eapply continues_elem; [|exact Hr]; log_steps|apply elem_of_app; left; apply snoc_elem|done].
Qed.

(** C18: a RemediationPlan is made for a RiskSignal only when remediation is enabled,
    the signal has not outlived its TTL - or is being deleted already, which stops
    the TTL and not the plan - and it is not the projection of an investigation
    whose root cause is unverified, and it is the plan derived from the version
    that was read.  A signal is deleted only when it has a TTL, is not being deleted
    and the computed expiry has come, which for every TTL that fits a duration (up
    to max_ttl_seconds) is its creation plus its TTL.  It is marked ready for
    approval only after its plan was written. *)
Theorem plan_only_when_verified outcome log before ev after :
  logged (reconcileRiskSignal enabled namespace name) outcome log -> log = before ++ ev :: after ->
  signal_justified before ev.
Proof.
  intros Hrun Heq. exact (logged_justified _ _ _ _ reconcileRiskSignal_ok Hrun before ev after Heq).
Qed.

(** *** When a plan is asked for *)

Definition is_plan (ev : event signal_op) : bool := match ev with Ev (KEnsurePlan _ _ _) _ => true | _ => false end.
Definition plan_requested s log : Prop :=
  exists x, Ev (KEnsurePlan (om_Namespace (rsk_Meta (ss_Signal s))) (planName (ss_Signal s)) (mutatePlan (ss_Signal s))) x ∈ log.

(** The answers to a read and to the clock. *)
Definition got_of (ev : event signal_op) : option (result StoredSignal) :=
  match ev with
  | Ev op x => match op in signal_op X return X -> option (result StoredSignal) with
               | KGet _ _ => fun x => Some x | _ => fun _ => None end x
  end.
Definition now_of (ev : event signal_op) : option time :=
  match ev with
  | Ev op x => match op in signal_op X return X -> option time with KNow => fun t => Some t | _ => fun _ => None end x
  end.

Lemma read_inj {A} (f : event signal_op -> option A) ev1 ev2 : Some ev1 = Some ev2 -> f ev1 = f ev2.
Proof. by intros [= ->]. Qed.

(** What holds of a run that ended, when it read [s] at [now]. *)
Definition plan_asked s (now : time) log : Prop :=
  log !! 0%nat = Some (Ev (KGet namespace name) (Ok s)) -> log !! 1%nat = Some (Ev KNow now) ->
  let wanted := enabled = true /\ ~ ttl_over s now /\ hasUnverifiedInvestigationProjection (ss_Signal s) = false in
  (wanted -> plan_requested s log) /\ (existsb is_plan log = true -> wanted).

Lemma not_asked s now s' now' l :
  existsb is_plan l = false ->
  (enabled = true -> ~ ttl_over s' now' -> hasUnverifiedInvestigationProjection (ss_Signal s') <> false) ->
  plan_asked s now (Ev (KGet namespace name) (Ok s') :: Ev KNow now' :: l).
Proof.
  intros Hl Hn [= ->]%(read_inj got_of) [= ->]%(read_inj now_of). split; [intros (? & ? & ?); by destruct Hn|].
  cbn. by rewrite Hl.
Qed.

(** A run that ends and read [s] at [now] asks for the plan of [s], or for none. *)
Lemma reconcile_plans result log s now :
  logged (reconcileRiskSignal enabled namespace name) (Some result) log -> plan_asked s now log.
Proof.
  intros Hrun. refine (proj2 (wp_exec log_env (fun _ => True) _ _ (fun _ => plan_asked s now) _ _ _ Hrun) result eq_refl).
  apply wp_vis; [done|]. intros [s'|e] log1 ->; [|by apply wp_ret; [|intros H%(read_inj got_of)]].
  apply wp_vis; [done|]. intros now' log2 ->. cbn [app].
  destruct (handleSignalTTL_cases s' now') as [[[r ->] Ho]|[-> Ho]]; cbn [pbind].
  2:{ apply wp_vis; [done|]. intros x log3 ->.
      destruct x as [e|]; [destruct (is_not_found e)|]; by apply wp_ret, not_asked. }
  destruct enabled eqn:He; cbn [negb]; [|by apply wp_ret, not_asked; rewrite ?He].
  destruct (hasUnverifiedInvestigationProjection (ss_Signal s')) eqn:Hu; [by apply wp_ret, not_asked; rewrite ?Hu|].
  unfold materialisePlan. apply wp_vis; [done|]. intros x log3 ->.
  eapply wp_mono; [|apply wp_continues, wp_any]. intros ? log4 _ [_ [l ->]].
  intros [= ->]%(read_inj got_of) [= ->]%(read_inj now_of). split; [|done].
  intros _. exists x. apply elem_of_app. left. right. right. left.
Qed.
End Justification.

(** ** The projection of an investigation and the plan *)

Section Promoted.
Context {U : UnicodeTables} {D : DigestPrims} {SC : StatusConditions} {CL : ConditionLaws SC} {CR : ControllerReferences}.

Lemma mutateRiskSignal_ref request preflight evidence reasoning found stored :
  mutateRiskSignal request preflight evidence reasoning found = Ok stored ->
  rss_InvestigationRef (rsk_Spec stored) <> None.
Proof. unfold mutateRiskSignal. intros Hm. destruct (if _ == _ then _ else _); cbn in Hm; by simplify_eq. Qed.

Lemma rcaVerdict_found l c :
  find_condition l conditionRCAReady = Some c -> cond_Status c = ConditionTrue \/ cond_Status c = ConditionFalse ->
  rcaVerdict l = Some (cond_Status c == ConditionFalse).
Proof.
  unfold find_condition, rcaVerdict. induction l as [|d l IH]; [done|]. cbn -[String.eqb].
  destruct (cond_Type d == conditionRCAReady); [|exact IH].
  intros [= ->] [Hs|Hs]; by rewrite Hs.
Qed.

Lemma rcaVerdict_projected conditions c generation now :
  cond_Type c = conditionRCAReady -> cond_Status c = ConditionTrue \/ cond_Status c = ConditionFalse ->
  rcaVerdict (rcaResultConditions conditions (Some c) generation now) = Some (cond_Status c == ConditionFalse).
Proof.
  intros Ht Hs. unfold rcaResultConditions. set (l := RemoveStatusCondition _ _).
  destruct (set_condition_same l (c <| cond_ObservedGeneration := generation |>)) as (c' & Hf & _ & Hst & _).
  change (cond_Type (c <| cond_ObservedGeneration := generation |>)) with (cond_Type c) in Hf. rewrite Ht in Hf.
  change (cond_Status (c <| cond_ObservedGeneration := generation |>)) with (cond_Status c) in Hst.
  rewrite <- Hst. apply rcaVerdict_found; [|by rewrite Hst].
  rewrite <- Hf. apply set_condition_other. by destruct (cond_Status c' == ConditionTrue).
Qed.

Lemma promoted_unverified request preflight evidence reasoning found stored now :
  mutateRiskSignal request preflight evidence reasoning found = Ok stored ->
  hasUnverifiedInvestigationProjection
    (stored <| rsk_Status := promotedStatus request evidence reasoning stored now |>) =
  negb ((ir_Outcome request == InvestigationOutcomeConfirmed)
        && bool_decide (ist_Verdict (ir_Status request) <> None)).
Proof.
  intros Hm. pose proof (mutateRiskSignal_ref _ _ _ _ _ _ Hm) as Href.
  unfold hasUnverifiedInvestigationProjection.
  change (rsk_Spec (stored <| rsk_Status := promotedStatus request evidence reasoning stored now |>)) with (rsk_Spec stored).
  destruct (rss_InvestigationRef (rsk_Spec stored)) as [ref|]; [|done].
  set (st := promotedStatus request evidence reasoning stored now).
  change (rsk_Status (stored <| rsk_Status := st |>)) with st. subst st. unfold promotedStatus, applyProjectedInvestigationRCAResult.
  destruct (ist_Verdict (ir_Status request)) as [verdict|].
  - rewrite bool_decide_eq_true_2 by done. rewrite andb_true_r.
    unfold applyRCAResult. cbn [rr_Reasoning rr_Projection rr_Condition rst_Conditions].
    destruct (ir_Outcome request == InvestigationOutcomeConfirmed); rewrite rcaVerdict_projected; auto.
  - rewrite bool_decide_eq_false_2 by naive_solver. rewrite andb_false_r.
    unfold applyRCAResult. cbn [rr_Reasoning rr_Projection rr_Condition rst_Conditions].
    rewrite rcaVerdict_projected; auto.
Qed.

(** Created, and no status written yet. *)
Definition without_status (signal : RiskSignal) : Prop :=
  rs_Phase (rst_ResourceStatus (rsk_Status signal)) = "" /\ rst_Conditions (rsk_Status signal) = [].

Lemma without_status_unverified signal :
  rss_InvestigationRef (rsk_Spec signal) <> None -> without_status signal ->
  hasUnverifiedInvestigationProjection signal = true.
Proof.
  unfold hasUnverifiedInvestigationProjection. intros Href [Hp Hc]. destruct (rss_InvestigationRef _); [|done].
  by rewrite Hp, Hc.
Qed.

End Promoted.

(** ** Notification *)

Section Notified.
Context {U : UnicodeTables}.
Context (namespace name : string).
Implicit Types (log : list (event signal_op)) (s : StoredSignal).

Definition marked s : bool := map_get (om_Annotations (rsk_Meta (ss_Signal s))) annotationNotificationAt != "".
Definition is_notify (ev : event signal_op) : bool := match ev with Ev (KNotify _) _ => true | _ => false end.

Definition notify_justified log (ev : event signal_op) : Prop :=
  match ev with
  | Ev op _ =>
      match op with
      | KNotify message =>
          exists s, signal_read namespace name log s /\ marked s = false /\ message = notificationMessage (ss_Signal s) /\
            existsb is_notify log = false
      | KUpdate updated =>
          exists s now message, signal_read namespace name log s /\ Ev (KNotify message) None ∈ log /\
            updated = notifiedSignal s now /\ marked updated = true
      | KUpdateStatus _ => exists message, Ev (KNotify message) None ∈ log
      | KDelete _ | KEnsurePlan _ _ _ => False
      | _ => True
      end
  end.

Abbreviation all_ok := (all_justified notify_justified).

Lemma append_nonempty (a b : string) : b <> "" -> a +:+ b <> "".
Proof. by destruct a. Qed.

Lemma notified_marked s now : marked (notifiedSignal s now) = true.
Proof.
  unfold marked, notifiedSignal, map_get. cbn [ss_Signal].
  match goal with |- context [rsk_Meta (?r <| rsk_Meta := ?m |>)] => change (rsk_Meta (r <| rsk_Meta := m |>)) with m end.
  cbn [om_relabel om_Annotations]. rewrite lookup_insert_ne by done. rewrite lookup_insert_eq. cbn [default].
  apply negb_true_iff, String.eqb_neq. unfold rfc3339_seconds, CanonicalTime.
  destruct (civil _) as [[y m] d]. repeat (apply append_nonempty). done.
Qed.

Lemma pushMark_ok original updated log message :
  all_ok log -> Ev (KNotify message) None ∈ log ->
  wp log_env all_ok (pushStatus original updated) log (fun _ _ => True).
Proof.
  intros Hok Hj. unfold pushStatus. destruct (statusChangedRiskSignal _ _); [|by apply wp_ret].
  apply wp_event; [done|intros x; by exists message|]. intros [e|] Hok1; [|by apply wp_ret].
  destruct (is_conflict e); [|by apply wp_ret]. apply wp_event; [done|done|]. intros. by apply wp_ret.
Qed.

Lemma recordNotification_ok original log message :
  all_ok log -> Ev (KNotify message) None ∈ log ->
  wp log_env all_ok (recordNotification namespace name original) log (fun _ _ => True).
Proof.
  intros Hok Hj. unfold recordNotification. apply wp_event; [done|done|]. intros [s|e] Hok1; [|by apply wp_ret].
  apply wp_event; [done|done|]. intros now Hok2.
  apply (wp_bind_log _ _ _ _ (fun _ _ => True)); [|intros [e|] log3 Hok3 _ _; by apply wp_ret].
  apply (pushMark_ok _ _ _ message); [done|]. apply elem_of_app; left. by apply elem_of_app; left.
Qed.

Lemma reconcileNotification_ok :
  wp log_env all_ok (reconcileNotification namespace name) [] (fun _ _ => True).
Proof.
  unfold reconcileNotification. apply wp_event; [apply all_justified_nil|done|].
  intros [s|e] Hok; [|by apply wp_ret]. fold (marked s). destruct (marked s) eqn:Hm; [by apply wp_ret|].
  apply wp_event; [done| |].
  { intros x. exists s. split_and!; [apply snoc_elem|done|done|done]. }
  intros [e|] Hok1; [by apply wp_ret|]. apply wp_event; [done|done|]. intros now Hok2. apply wp_event; [done| |].
  { intros x. exists s, now, (notificationMessage (ss_Signal s)).
    split_and!; [|apply elem_of_app; left; apply snoc_elem|done|apply notified_marked].
    eapply continues_elem; [|apply snoc_elem]. log_steps. }
  intros [e|] Hok3.
  - destruct (is_conflict e); [|by apply wp_ret]. apply wp_event; [done|done|]. intros x Hok4.
    eapply recordNotification_ok; [done|]. do 3 (apply elem_of_app; left). apply snoc_elem.
  - eapply recordNotification_ok; [done|]. do 2 (apply elem_of_app; left). apply snoc_elem.
Qed.

(** A reconciliation notifies of a RiskSignal at most once, and only of a version
    that is not marked as notified; the signal is marked, and set to Notified, only
    after the notifier accepted the message, and the mark it writes is one that stops
    the next reconciliation. *)
Theorem notified_once_a_run outcome log before ev after :
  logged (reconcileNotification namespace name) outcome log -> log = before ++ ev :: after -> notify_justified before ev.
Proof.
  intros Hrun Heq. exact (logged_justified _ _ _ _ reconcileNotification_ok Hrun before ev after Heq).
Qed.
End Notified.

(** ** Concrete runs *)

Section Examples.
#[local] Existing Instance plain_tables.
#[local] Existing Instance plain_digest.
#[local] Existing Instance plain_conditions.
#[local] Existing Instance plain_references.

Definition sg_signal (ttl : Z) (ref : option NamespacedObjectReference) (conditions : list Condition) : RiskSignal :=
  mkRiskSignal (mkObjectMeta "cart-risk" "shop" "uid-s" "7" 1 ∅ ∅ [])
    (mkRiskSignalSpec zeroTargetRef "metric" None ref "notification.sendSlack" "high" 86 true ttl [] ∅ 0)
    (mkRiskSignalStatus (mkResourceStatus PhaseConfirmed "errors" 1 5) "" "" "" [] None conditions).
Definition sg_stored (s : RiskSignal) : StoredSignal := mkStoredSignal s (10 * second) None.

(** An API server with one signal; every update conflicts when [conflict] is set. *)
Definition sg_answer (s : StoredSignal) (conflict : bool) (X : Type) (op : signal_op X) : option X :=
  let write := Some (if conflict then Some (mkError ErrConflict "the object has been modified") else None) in
  match op in signal_op X return option X with
  | KNow => Some (20 * second)
  | KGet _ _ => Some (Ok s)
  | KDelete _ => Some None
  | KEnsurePlan _ _ mutate => Some None
  | KUpdate _ => write
  | KUpdateStatus _ => write
  | KNotify _ => Some None
  | KConflictMetric _ => Some tt
  end.
Definition sg_handler (s : StoredSignal) (conflict : bool) (log : list (event signal_op)) (X : Type) (op : signal_op X)
    : option (X * list (event signal_op)) :=
  match sg_answer s conflict X op with Some x => Some (x, log ++ [Ev op x]) | None => None end.

Lemma sg_logged {R} (p : kprog R) s conflict :
  logged p (run (sg_handler s conflict) p []).1 (run (sg_handler s conflict) p []).2.
Proof.
  apply run_exec. intros w X op x w' H. unfold sg_handler in H. destruct (sg_answer s conflict X op); [|done].
  by simplify_eq.
Qed.

Definition sg_word (ev : event signal_op) : string :=
  match ev with
  | Ev op _ =>
      match op with
      | KNow => "now" | KGet _ _ => "get" | KDelete _ => "delete" | KEnsurePlan _ n _ => "plan " +:+ n
      | KUpdate _ => "update" | KUpdateStatus s => "status " +:+ rs_Phase (rst_ResourceStatus (rsk_Status (ss_Signal s)))
      | KNotify m => "notify " +:+ msg_Title m | KConflictMetric _ => "conflict"
      end
  end.

Definition sg_plan_run (s : RiskSignal) : option rresult * list (event signal_op) :=
  run (sg_handler (sg_stored s) false) (reconcileRiskSignal true "shop" "cart-risk") [].

Definition unverified_rca : list Condition := [mkCondition conditionRCAReady ConditionFalse "RCAUnverified" "" 1 5;
  mkCondition conditionRemediationReady ConditionFalse "RCAUnverified"
    "remediation is not allowed without verified root-cause evidence" 1 5].

(** The projection of an unverified investigation is left alone, an expired signal is
    deleted; a signal of the direct path gets its plan although its
    RemediationReady condition is False. *)
Example sg_runs :
  map sg_word (sg_plan_run (sg_signal 600 (Some (mkNamespacedObjectReference "i" "shop")) unverified_rca)).2
    = ["get"; "now"] /\
  map sg_word (sg_plan_run (sg_signal 5 None [])).2 = ["get"; "now"; "delete"] /\
  map sg_word (sg_plan_run (sg_signal 600 None unverified_rca)).2
    = ["get"; "now"; "plan cart-risk-plan"; "now"; "status ReadyForApproval"].
Proof. vm_compute. auto. Qed.

Lemma plan_only_when_verified_witness :
  exists ev, (sg_plan_run (sg_signal 600 None [])).2 !! 2%nat = Some ev /\ sg_word ev = "plan cart-risk-plan" /\
    signal_justified true "shop" "cart-risk" (take 2 (sg_plan_run (sg_signal 600 None [])).2) ev.
Proof.
  assert (Hw : sg_word <$> ((sg_plan_run (sg_signal 600 None [])).2 !! 2%nat) = Some "plan cart-risk-plan")
    by (vm_compute; reflexivity).
  destruct ((sg_plan_run (sg_signal 600 None [])).2 !! 2%nat) as [ev|] eqn:E; [|discriminate Hw].
  exists ev. split; [reflexivity|]. split; [by injection Hw|].
  apply (plan_only_when_verified true "shop" "cart-risk" _ _ _ ev (drop 3 (sg_plan_run (sg_signal 600 None [])).2)
    (sg_logged (reconcileRiskSignal true "shop" "cart-risk") (sg_stored (sg_signal 600 None [])) false)).
  symmetry. by apply take_drop_middle.
Defined.

(** A conflict on the update that marks the signal is taken for success, so the next
    reconciliation sends the same notification again. *)
Definition sg_notify_run (conflict : bool) : option rresult * list (event signal_op) :=
  run (sg_handler (sg_stored (sg_signal 600 None [])) conflict) (reconcileNotification "shop" "cart-risk") [].
Example conflict_is_not_marked :
  (sg_notify_run true).1 = Some done_ok /\
  map sg_word (sg_notify_run true).2 =
    ["get"; "notify RiskSignal detected: cart-risk"; "now"; "update"; "conflict"; "get"; "now"; "status Notified"; "conflict"].
Proof. vm_compute. auto. Qed.

Lemma notified_once_a_run_witness :
  exists ev, (sg_notify_run false).2 !! 1%nat = Some ev /\ sg_word ev = "notify RiskSignal detected: cart-risk" /\
    notify_justified "shop" "cart-risk" (take 1 (sg_notify_run false).2) ev.
Proof.
  assert (Hw : sg_word <$> ((sg_notify_run false).2 !! 1%nat) = Some "notify RiskSignal detected: cart-risk")
    by (vm_compute; reflexivity).
  destruct ((sg_notify_run false).2 !! 1%nat) as [ev|] eqn:E; [|discriminate Hw].
  exists ev. split; [reflexivity|]. split; [by injection Hw|].
  apply (notified_once_a_run "shop" "cart-risk" _ _ _ ev (drop 2 (sg_notify_run false).2)
    (sg_logged (reconcileNotification "shop" "cart-risk") (sg_stored (sg_signal 600 None [])) false)).
  symmetry. by apply take_drop_middle.
Defined.

Definition default_reasoning (rca : RCA) : ReasoningOutput :=
  default (mkReasoningOutput "" "" "" (mkConfidence 0 "" "" "") (mkRCASummary "" [] []) (mkRemediation "" "" ∅ []) [] [] "" "" 0 0)
    (rca_Reasoning rca).

(** The signal of the finished example investigation. *)
Definition promoted_example : RiskSignal :=
  match mutateRiskSignal (ex_request finished) ex_preflight ex_evidence (default_reasoning ex_rca) (freshRiskSignal "prod" "web") with
  | Ok signal => signal
  | Err _ => freshRiskSignal "prod" "web"
  end.
Lemma promoted_example_ok :
  mutateRiskSignal (ex_request finished) ex_preflight ex_evidence (default_reasoning ex_rca) (freshRiskSignal "prod" "web")
    = Ok promoted_example.
Proof. reflexivity. Qed.

(** As the promotion leaves it, created at 10 s and read at 20 s. *)
Definition promoted_stored : StoredSignal :=
  sg_stored (promoted_example <| rsk_Status :=
    promotedStatus (ex_request finished) ex_evidence (default_reasoning ex_rca) promoted_example 9 |>).

End Examples.
