(* ===== verification/DeploymentRisk.v ===== *)
(** * Observed risk of deployments (internal/detector/service.go, internal/controllers/deployment_risk_controller.go)

    Deployments that ask for it by annotation are checked against three named data
    sources; what is found becomes an observed RiskSignal owned by the Deployment. *)

From Stdlib Require Import ZArith Lia.
From stdpp Require Import base list strings gmap.
From S2P Require Import Prelude GoStrings Utf8 GoParse Float64 Api InvestigationApi Digest Prog Runtime AgentAction DataClassification Observation Egress Gateway InvestigationGate InvestigationRCA InvestigationStatus InvestigationSpec Datasource Network QueryPolicy Preflight Normalize RuleEvaluator InvestigationProjection RiskRule RiskSignalController.

Definition AnnotationEnabled : string := "fluxseer-rca.aiops.platform/enabled".
Definition AnnotationPrometheusQuery : string := "fluxseer-rca.aiops.platform/prometheus-query".
Definition AnnotationPrometheusThreshold : string := "fluxseer-rca.aiops.platform/prometheus-threshold".
Definition AnnotationLokiQuery : string := "fluxseer-rca.aiops.platform/loki-query".
Definition AnnotationEventKeywords : string := "fluxseer-rca.aiops.platform/event-keywords".

Record DetectRequest := mkDetectRequest {
  dt_Target : ResourceRef;
  dt_Labels : gmap string string;
  dt_Annotations : gmap string string;
  dt_Window : duration
}.

Record Finding := mkFinding {
  fd_SignalType : string;
  fd_Severity : string;
  fd_Confidence : Z;
  fd_Summary : string;
  fd_Evidence : list Evidence
}.

(** What the reconciler reads of a Deployment. *)
Record RiskDeployment := mkRiskDeployment {
  rd_Meta : ObjectMeta;
  rd_Selector : bool;
  rd_TemplateLabels : gmap string string
}.

(** [YQuery] is the [Query] method of a source. *)
Inductive detect_op : Type -> Type :=
| YNow : detect_op time
| YGetDeployment (namespace name : string) : detect_op (result RiskDeployment)
| YGetSource (name : string) : detect_op (option DataSource)
| YQuery (source : DataSource) (request : QueryRequest) : detect_op (QueryResult + error)
| YEnsureRiskSignal (namespace name : string) (mutate : RiskSignal -> result RiskSignal) : detect_op (result RiskSignal)
| YUpdateRiskSignalStatus (signal : RiskSignal) : detect_op (option error)
| YConflictMetric (resource : string) : detect_op unit.

Definition yprog : Type -> Type := prog detect_op.

(** [strconv.ParseFloat]: the number it answers with an error, too (zero, or an
    infinity for a number out of range). *)
Class LooseFloats := { ParseFloatLoose : string -> Z }.

(** ** Merging *)

Definition findingSeverityRank (severity : string) : Z :=
  if severity == SeverityLow then 1 else if severity == SeverityMedium then 2
  else if severity == SeverityHigh then 3 else if severity == SeverityUnsafe then 4 else 0.

Definition mergeFinding (merged item : Finding) : Finding :=
  let worse := findingSeverityRank (fd_Severity merged) <? findingSeverityRank (fd_Severity item) in
  mkFinding (fd_SignalType (if worse then item else merged)) (fd_Severity (if worse then item else merged))
    (if fd_Confidence merged <? fd_Confidence item then fd_Confidence item else fd_Confidence merged)
    (fd_Summary (if worse then item else merged)) (fd_Evidence merged ++ fd_Evidence item).

Fixpoint mergeFrom (merged : option Finding) (items : list (option Finding)) : option Finding :=
  match items with
  | [] => merged
  | None :: rest => mergeFrom merged rest
  | Some item :: rest =>
      mergeFrom (Some (match merged with None => item | Some m => mergeFinding m item end)) rest
  end.
Definition mergeFindings : list (option Finding) -> option Finding := mergeFrom None.

Section Detector.
Context {U : UnicodeTables} {V : ValueText} {LF : LooseFloats}.

Definition detectorLabelApp (req : DetectRequest) : string :=
  if map_get (dt_Labels req) "app" != "" then map_get (dt_Labels req) "app"
  else if map_get (dt_Labels req) "app.kubernetes.io/name" != "" then map_get (dt_Labels req) "app.kubernetes.io/name"
  else rr_Name (dt_Target req).

Definition parseThreshold (raw : string) (fallback : Z) : Z := default fallback (ParseFloat64 (trim_space raw)).

Definition parseRecordFloat (value : option any_value) : Z :=
  match value with
  | Some (AnyString s) => ParseFloatLoose s
  | Some (AnyFloat bits) => bits
  | Some (AnyInt z) => bits_of_int z
  | _ => 0
  end.

Definition splitKeywords (raw : string) : list string :=
  if trim_space raw == "" then []
  else List.filter (fun k => k != "") (map (fun part => to_lower (trim_space part)) (split_byte 44 raw)).

(** float64 0.2. *)
Definition defaultErrorRate : Z := 4596373779694328218.

Definition double_quote : string := str1 34.
Definition quoted_pair (key value : string) : string := key +:+ "=" +:+ double_quote +:+ value +:+ double_quote.
Definition scopeLabels (req : DetectRequest) : string :=
  quoted_pair "namespace" (rr_Namespace (dt_Target req)) +:+ "," +:+ quoted_pair "app" (detectorLabelApp req).

Definition prometheusQuery (req : DetectRequest) : string :=
  let query := map_get (dt_Annotations req) AnnotationPrometheusQuery in
  if trim_space query == "" then
    "sum(rate(http_requests_total{" +:+ scopeLabels req +:+ ",status=~" +:+ double_quote +:+ "5.." +:+ double_quote +:+ "}[5m]))"
  else query.
Definition lokiQuery (req : DetectRequest) : string :=
  let query := map_get (dt_Annotations req) AnnotationLokiQuery in
  if trim_space query == "" then "{" +:+ scopeLabels req +:+ "} |= " +:+ double_quote +:+ "error" +:+ double_quote else query.

Definition detectQuery (req : DetectRequest) (query queryType : string) (window : duration) (now : time) : QueryRequest :=
  mkQueryRequest query (time_add now (- window)) now minute (dt_Labels req) (dt_Target req) queryType [] zeroResultLimits
    (mkDataClassification "" [] "" "").

Definition prometheusFinding (req : DetectRequest) (result : QueryResult) : option Finding :=
  let threshold := parseThreshold (map_get (dt_Annotations req) AnnotationPrometheusThreshold) defaultErrorRate in
  find_first (fun r =>
    let value := parseRecordFloat (r !! "value") in
    if float_le value threshold then None
    else Some (mkFinding "rollout.latency_regression" SeverityMedium 72
                 ("Prometheus detected elevated error or latency signal for " +:+ rr_Name (dt_Target req))
                 [mkEvidence "metric" "prometheus"
                    ("metric value " +:+ fixed2 value +:+ " crossed threshold " +:+ fixed2 threshold)
                    (prometheusQuery req) "" ""])) (qs_Records result).

Definition lokiFinding (req : DetectRequest) (result : QueryResult) : option Finding :=
  match qs_Records result with
  | [] => None
  | r :: _ =>
      Some (mkFinding "workload.error_logs" SeverityMedium 68 ("Loki found error logs for " +:+ rr_Name (dt_Target req))
              [mkEvidence "log" "loki" (any_string r "line") (lokiQuery req) "" ""])
  end.

Definition eventKeywords (req : DetectRequest) : list string :=
  match splitKeywords (map_get (dt_Annotations req) AnnotationEventKeywords) with
  | [] => ["backoff"; "oomkilled"; "unhealthy"; "failed"]
  | keywords => keywords
  end.
Definition eventFinding (req : DetectRequest) (result : QueryResult) : option Finding :=
  find_first (fun r =>
    let reason := any_string r "reason" in
    let message := any_string r "message" in
    if existsb (contains (to_lower (reason +:+ " " +:+ message))) (eventKeywords req)
    then Some (mkFinding "workload.kubernetes_event" SeverityHigh 90
                 ("Kubernetes reported " +:+ reason +:+ " for " +:+ rr_Name (dt_Target req))
                 [mkEvidence "event" "kubernetes-events" message "" reason ""])
    else None) (qs_Records result).

(** The three detectors: a source that is not registered finds nothing. *)
Definition detectWith (source query queryType : string) (finding : QueryResult -> option Finding) (req : DetectRequest)
    (now : time) (window : duration) : yprog (result (option Finding)) :=
  registered <~! YGetSource source;
  match registered with
  | None => Ret (Ok None)
  | Some s =>
      answer <~! YQuery s (detectQuery req query queryType window now);
      Ret (match answer with inl result => Ok (finding result) | inr e => Err e end)
  end.
Definition detectPrometheus (req : DetectRequest) := detectWith "prometheus" (prometheusQuery req) QueryTypeMetric (prometheusFinding req) req.
Definition detectLoki (req : DetectRequest) := detectWith "loki" (lokiQuery req) QueryTypeLog (lokiFinding req) req.
Definition detectEvents (req : DetectRequest) := detectWith "kubernetes-events" "recent-events" QueryTypeEvent (eventFinding req) req.

Definition Detect (req : DetectRequest) : yprog (result (option Finding)) :=
  if map_get (dt_Annotations req) AnnotationEnabled != "true" then Ret (Ok None)
  else
    now <~! YNow;
    let window := if dt_Window req <=? 0 then 10 * minute else dt_Window req in
    metrics <~ detectPrometheus req now window;
    match metrics with
    | Err e => Ret (Err e)
    | Ok metrics =>
        logs <~ detectLoki req now window;
        match logs with
        | Err e => Ret (Err e)
        | Ok logs =>
            events <~ detectEvents req now window;
            Ret (found <-! events; Ok (mergeFindings [metrics; logs; found]))
        end
    end.

(** ** The reconciler *)

Section Reconcile.
Context {CR : ControllerReferences}.
Context (interval : duration).

Definition deploymentRequeueAfter : duration := if 0 <? interval then interval else 30 * second.

Definition riskDeploymentToResource (d : RiskDeployment) : ResourceRef :=
  let m := rd_Meta d in
  let app := map_get (om_Labels m) "app" in
  let templateApp := map_get (rd_TemplateLabels d) "app" in
  mkResourceRef "in-cluster" (om_Namespace m) "Deployment" (om_Name m) "apps/v1"
    (if app != "" then app else if templateApp != "" then templateApp else om_Name m).

Definition findingRef (item : Evidence) : EvidenceRef :=
  mkEvidenceRef "" (evd_Kind item) (evd_Source item) (evd_Summary item) (evd_Query item) "" "" "" "" "" None false "" ""
    0 0 0 0 0 None None (evd_Reason item) (evd_Link item) [].
Definition findingRefs (finding : Finding) : list EvidenceRef :=
  sort_stable (fun a b => str_ltb (er_Kind a +:+ er_Summary a) (er_Kind b +:+ er_Summary b))
    (map findingRef (fd_Evidence finding)).

(** The mutate function of [CreateOrUpdate]. *)
Definition mutateObservedSignal (d : RiskDeployment) (finding : Finding) (signal : RiskSignal) : result RiskSignal :=
  let m := rd_Meta d in
  let s := rsk_Spec signal in
  meta <-! SetControllerReference "Deployment" m (rsk_Meta signal);
  let annotations := <[annotationTargetUID := om_UID m]> (<[annotationDetectionSource := "deployment-annotation"]>
                       (<[annotationTargetRef := om_Namespace m +:+ "/" +:+ om_Name m]> (om_Annotations meta))) in
  Ok (mkRiskSignal (om_relabel meta (<[labelManagedBy := "deployment-risk-controller"]> (om_Labels meta)) annotations)
        (mkRiskSignalSpec (resourceToTargetRef (riskDeploymentToResource d)) (fd_SignalType finding) (rss_FindingIdentity s)
           (rss_InvestigationRef s) "notification.sendSlack" (fd_Severity finding) (fd_Confidence finding) true
           (wrap64 (whole_seconds deploymentRequeueAfter * 6)) (findingRefs finding)
           (<["channel" := "webhook"]> (<["mode" := "read-only"]> ∅)) (rss_ApprovalTimeoutSeconds s))
        (rsk_Status signal)).

Definition observedName (d : RiskDeployment) : string := om_Name (rd_Meta d) +:+ "-observed-risk".

Definition writeObserved (d : RiskDeployment) (finding : Finding) : yprog rresult :=
  ensured <~! YEnsureRiskSignal (om_Namespace (rd_Meta d)) (observedName d) (mutateObservedSignal d finding);
  match ensured with
  | Err e => Ret (done_err e)
  | Ok signal =>
      now <~! YNow;
      let status := setRiskSignalStatus PhaseConfirmed (fd_Summary finding) (om_Generation (rsk_Meta signal)) now
                      (rsk_Status signal) in
      if statusChangedRiskSignal (rsk_Status signal) status then
        err <~! YUpdateRiskSignalStatus (signal <| rsk_Status := status |>);
        match err with
        | None => Ret (requeue deploymentRequeueAfter)
        | Some e => if is_conflict e then _ <~! YConflictMetric "RiskSignal"; Ret (requeue deploymentRequeueAfter)
                    else Ret (done_err e)
        end
      else Ret (requeue deploymentRequeueAfter)
  end.

Definition detectRequestOf (d : RiskDeployment) : DetectRequest :=
  mkDetectRequest (riskDeploymentToResource d) (rd_TemplateLabels d) (om_Annotations (rd_Meta d)) deploymentRequeueAfter.

Definition reconcileDeploymentRisk (namespace name : string) : yprog rresult :=
  got <~! YGetDeployment namespace name;
  match got with
  | Err e => Ret (ignoreNotFound e)
  | Ok d =>
      if negb (rd_Selector d) then Ret (requeue deploymentRequeueAfter)
      else
        detected <~ Detect (detectRequestOf d);
        match detected with
        | Err e => Ret (done_err e)
        | Ok None => Ret (requeue deploymentRequeueAfter)
        | Ok (Some finding) => writeObserved d finding
        end
  end.
End Reconcile.
End Detector.

(** ** What merging keeps *)

Section Merged.

(** [f] is the merge of [fs]: all the evidence in order, the highest confidence, and
    the type, severity and summary of one finding that no other is worse than. *)
Definition merge_of (fs : list Finding) (f : Finding) : Prop :=
  fd_Evidence f = concat (map fd_Evidence fs) /\
  (exists g, g ∈ fs /\ fd_SignalType f = fd_SignalType g /\ fd_Severity f = fd_Severity g /\ fd_Summary f = fd_Summary g) /\
  (exists g, g ∈ fs /\ fd_Confidence f = fd_Confidence g) /\
  (forall g, g ∈ fs -> findingSeverityRank (fd_Severity g) <= findingSeverityRank (fd_Severity f) /\
                     fd_Confidence g <= fd_Confidence f).

Lemma merge_of_one f : merge_of [f] f.
Proof.
  unfold merge_of. cbn. rewrite app_nil_r.
  split_and!; [done|exists f; split_and!; [left|done..]|exists f; split; [left|done]|].
  intros g ->%list_elem_of_singleton. lia.
Qed.

Lemma merge_of_snoc fs f item : merge_of fs f -> merge_of (fs ++ [item]) (mergeFinding f item).
Proof.
  intros (He & (g & Hg & H1 & H2 & H3) & (h & Hh & Hc) & Hmax). unfold merge_of, mergeFinding.
  cbn [fd_Evidence fd_SignalType fd_Severity fd_Confidence fd_Summary].
  assert (Hin : forall x, x ∈ fs -> x ∈ fs ++ [item]) by (intros; apply elem_of_app; by left).
  assert (Hlast : item ∈ fs ++ [item]) by (apply elem_of_app; right; left).
  split_and!.
  - rewrite map_app, concat_app, <- He. cbn. by rewrite app_nil_r.
  - destruct (_ <? _); [by exists item|exists g; split_and!; auto].
  - destruct (_ <? _); [by exists item|exists h; auto].
  - intros x [Hx| ->%list_elem_of_singleton]%elem_of_app; [specialize (Hmax x Hx)|];
      destruct (Z.ltb_spec (findingSeverityRank (fd_Severity f)) (findingSeverityRank (fd_Severity item))),
        (Z.ltb_spec (fd_Confidence f) (fd_Confidence item)); lia.
Qed.

Lemma mergeFrom_spec seen merged items :
  match merged with None => seen = [] | Some m => merge_of seen m end ->
  match mergeFrom merged items with
  | None => seen ++ omap id items = []
  | Some f => merge_of (seen ++ omap id items) f
  end.
Proof.
  revert seen merged. induction items as [|[item|] items IH]; intros seen merged H; cbn [mergeFrom].
  - change (omap id []) with (@nil Finding). rewrite app_nil_r. by destruct merged.
  - replace (seen ++ omap id (Some item :: items)) with ((seen ++ [item]) ++ omap id items) by (by rewrite <- app_assoc). apply IH.
    destruct merged as [m|]; [by apply merge_of_snoc|subst; apply merge_of_one].
  - by apply IH.
Qed.

(** Merging the findings of the detectors loses none of their evidence and
    understates nothing: the severity and the confidence are the highest of theirs,
    the type and summary those of a finding with that severity, and there is no
    merged finding exactly when there was none. *)
Lemma merged_worst (items : list (option Finding)) :
  match mergeFindings items with
  | None => omap id items = []
  | Some f => merge_of (omap id items) f
  end.
Proof. exact (mergeFrom_spec [] None items eq_refl). Qed.
End Merged.

(** ** What the reconciler does, and why *)

Section Justification.
Context {U : UnicodeTables} {V : ValueText} {LF : LooseFloats} {CR : ControllerReferences}.
Context (interval : duration) (namespace name : string).
Implicit Types (log : list (event detect_op)) (d : RiskDeployment).

Definition deployment_read log d : Prop :=
  Ev (YGetDeployment namespace name) (Ok d) ∈ log /\ rd_Selector d = true /\
  map_get (om_Annotations (rd_Meta d)) AnnotationEnabled = "true".

(** The detectors: the source each asks, its query and type, and what it makes of the
    answer. *)
Record detector := mkDetector {
  dc_Source : string;
  dc_Query : string;
  dc_Type : string;
  dc_Finding : QueryResult -> option Finding
}.
Definition metric_detector (req : DetectRequest) : detector :=
  mkDetector "prometheus" (prometheusQuery req) QueryTypeMetric (prometheusFinding req).
Definition log_detector (req : DetectRequest) : detector :=
  mkDetector "loki" (lokiQuery req) QueryTypeLog (lokiFinding req).
Definition event_detector (req : DetectRequest) : detector :=
  mkDetector "kubernetes-events" "recent-events" QueryTypeEvent (eventFinding req).
Definition detectors (req : DetectRequest) : list detector :=
  [metric_detector req; log_detector req; event_detector req].
Definition detect_window (req : DetectRequest) : duration := if dt_Window req <=? 0 then 10 * minute else dt_Window req.
Definition detector_request (req : DetectRequest) (now : time) (dc : detector) : QueryRequest :=
  detectQuery req (dc_Query dc) (dc_Type dc) (detect_window req) now.

(** What the detector found: nothing when its source is not registered, otherwise what
    it makes of the answer that the source gave to its query. *)
Definition detector_found log (req : DetectRequest) (now : time) (dc : detector) (found : option Finding) : Prop :=
  Ev (YGetSource (dc_Source dc)) None ∈ log /\ found = None \/
  exists source result, Ev (YGetSource (dc_Source dc)) (Some source) ∈ log /\
    Ev (YQuery source (detector_request req now dc)) (inl result) ∈ log /\ found = dc_Finding dc result.
Definition all_detected log (req : DetectRequest) (found : list (option Finding)) : Prop :=
  exists now, Ev YNow now ∈ log /\ Forall2 (detector_found log req now) (detectors req) found.

Definition detect_justified log (ev : event detect_op) : Prop :=
  match ev with
  | Ev op _ =>
      match op with
      | YQuery source request =>
          exists d now dc, deployment_read log d /\ Ev YNow now ∈ log /\ dc ∈ detectors (detectRequestOf interval d) /\
            Ev (YGetSource (dc_Source dc)) (Some source) ∈ log /\
            request = detector_request (detectRequestOf interval d) now dc
      | YEnsureRiskSignal ns n mutate =>
          exists d found finding,
            deployment_read log d /\ all_detected log (detectRequestOf interval d) found /\
            merge_of (omap id found) finding /\
            ns = om_Namespace (rd_Meta d) /\ n = observedName d /\ mutate = mutateObservedSignal interval d finding
      | YUpdateRiskSignalStatus signal =>
          exists d stored finding now,
            Ev (YEnsureRiskSignal (om_Namespace (rd_Meta d)) (observedName d) (mutateObservedSignal interval d finding))
              (Ok stored) ∈ log /\
            signal = stored <| rsk_Status := setRiskSignalStatus PhaseConfirmed (fd_Summary finding)
                                 (om_Generation (rsk_Meta stored)) now (rsk_Status stored) |>
      | _ => True
      end
  end.

(** How a run can end without asking for a signal. *)
Definition is_ensure (ev : event detect_op) : bool := match ev with Ev (YEnsureRiskSignal _ _ _) _ => true | _ => false end.
Definition nothing_to_signal log : Prop :=
  (exists e, Ev (YGetDeployment namespace name) (Err e) ∈ log) \/
  (exists d, Ev (YGetDeployment namespace name) (Ok d) ∈ log /\
     ~ (rd_Selector d = true /\ map_get (om_Annotations (rd_Meta d)) AnnotationEnabled = "true")) \/
  (exists source request e, Ev (YQuery source request) (inr e) ∈ log) \/
  (exists d found, deployment_read log d /\ all_detected log (detectRequestOf interval d) found /\ omap id found = []).

Abbreviation all_ok := (all_justified detect_justified).

Lemma deployment_read_mono log log' d : continues log log' -> deployment_read log d -> deployment_read log' d.
Proof. intros Hc (H1 & H2 & H3). split_and!; [by eapply continues_elem|done..]. Qed.

Lemma detected_mono log log' req now dc f : continues log log' -> detector_found log req now dc f -> detector_found log' req now dc f.
Proof.
  intros Hc [[H ->]|(s & r & H1 & H2 & ->)]; [left|right; exists s, r]; split_and!; try done; by eapply continues_elem.
Qed.

(** What a part of the detection answers: an error only when a source did. *)
Definition detection log (P : option Finding -> Prop) (r : result (option Finding)) : Prop :=
  match r with
  | Ok found => P found
  | Err _ => exists source request e, Ev (YQuery source request) (inr e) ∈ log
  end.

Lemma detectWith_ok d dc now log :
  all_ok log -> deployment_read log d -> Ev YNow now ∈ log -> dc ∈ detectors (detectRequestOf interval d) ->
  let req := detectRequestOf interval d in
  wp log_env all_ok (detectWith (dc_Source dc) (dc_Query dc) (dc_Type dc) (dc_Finding dc) req now (detect_window req)) log
    (fun r log' => detection log' (detector_found log' req now dc) r).
Proof.
  intros Hok Hr Hn Hdc req. unfold detectWith. apply wp_event; [done|done|].
  intros [s|] Hok1; [|by apply wp_ret; [|left; split; [apply snoc_elem|]]].
  apply wp_event; [done| |].
  { intros x. exists d, now, dc. split_and!; [eapply deployment_read_mono; [|done]; log_steps| |done|apply snoc_elem|done].
    eapply continues_elem; [|done]. log_steps. }
  intros [result|e] Hok2; (apply wp_ret; [done|]).
  - right. exists s, result. split_and!; [eapply continues_elem; [|apply snoc_elem]; log_steps|apply snoc_elem|done].
  - do 3 eexists. apply snoc_elem.
Qed.

Lemma Detect_ok d log :
  all_ok log -> deployment_read log d ->
  wp log_env all_ok (Detect (detectRequestOf interval d)) log
    (fun r log' => detection log' (fun found => exists all, all_detected log' (detectRequestOf interval d) all /\
                     found = mergeFindings all) r).
Proof.
  intros Hok Hr. unfold Detect. cbn [dt_Annotations detectRequestOf]. pose proof (proj2 (proj2 Hr)) as He.
  cbv zeta. rewrite He. cbn [negb].
  apply wp_event; [done|done|]. intros now Hok1. set (log0 := log ++ [Ev YNow now]).
  assert (Hr0 : deployment_read log0 d) by (eapply deployment_read_mono; [|done]; log_steps).
  assert (Hn0 : Ev YNow now ∈ log0) by apply snoc_elem.
  assert (Hin : forall l, continues log0 l -> deployment_read l d /\ Ev YNow now ∈ l).
  { intros l Hl. split; [by eapply deployment_read_mono|by eapply continues_elem]. }
  eapply wp_bind_log; [apply (detectWith_ok d (metric_detector (detectRequestOf interval d)) now); [done..|left]|].
  intros [metrics|e] log1 Hok2 Hc1 Hm; [|by apply wp_ret]. destruct (Hin _ Hc1) as [Hr1 Hn1].
  eapply wp_bind_log; [apply (detectWith_ok d (log_detector (detectRequestOf interval d)) now); [done..|right; left]|].
  intros [logs|e] log2 Hok3 Hc2 Hl; [|by apply wp_ret]. assert (Hc02 : continues log0 log2) by (by etrans).
  destruct (Hin _ Hc02) as [Hr2 Hn2].
  eapply wp_bind_log; [apply (detectWith_ok d (event_detector (detectRequestOf interval d)) now); [done..|right; right; left]|].
  intros [events|e] log3 Hok4 Hc3 He'; (apply wp_ret; [done|]); [|exact He'].
  exists [metrics; logs; events]. split; [|done]. exists now. split; [eapply continues_elem; [|exact Hn2]; done|].
  apply Forall2_cons; split; [|apply Forall2_cons; split; [|apply Forall2_cons; split; [|constructor]]]; [eapply detected_mono; [|exact Hm]; by etrans|by eapply detected_mono|exact He'].
Qed.

Lemma writeObserved_ok d found finding log :
  all_ok log -> deployment_read log d -> all_detected log (detectRequestOf interval d) found ->
  mergeFindings found = Some finding ->
  wp log_env all_ok (writeObserved interval d finding) log (fun _ log' => existsb is_ensure log' = true).
Proof.
  intros Hok Hr Hd Hm. unfold writeObserved.
  assert (Hens : forall x l, existsb is_ensure
    ((log ++ [Ev (YEnsureRiskSignal (om_Namespace (rd_Meta d)) (observedName d) (mutateObservedSignal interval d finding)) x])
     ++ l) = true).
  { intros x l. rewrite !existsb_app. cbn. by rewrite orb_true_r. }
  pose proof (merged_worst found) as Hw. rewrite Hm in Hw.
  apply wp_event; [done|intros x; by exists d, found, finding|].
  intros [signal|e] Hok1; [|apply wp_ret; [done|]; rewrite <- (app_nil_r (_ ++ _)); apply Hens].
  apply wp_event; [done|done|]. intros now Hok2.
  destruct (statusChangedRiskSignal _ _); [|apply wp_ret; [done|apply Hens]].
  apply wp_event; [done| |].
  { intros x. exists d, signal, finding, now. split; [apply elem_of_app; left; apply snoc_elem|done]. }
  intros x Hok3. rewrite <- (app_assoc _ [Ev YNow now]) in *.
  destruct x as [e|]; [destruct (is_conflict e)|]; [|apply wp_ret; [done|apply Hens]..].
  apply wp_event; [done|done|]. intros y Hok4. rewrite <- (app_assoc _ _ [Ev _ y]) in *. apply wp_ret; [done|apply Hens].
Qed.

Lemma reconcileDeploymentRisk_ok :
  wp log_env all_ok (reconcileDeploymentRisk interval namespace name) []
    (fun _ log => existsb is_ensure log = true \/ nothing_to_signal log).
Proof.
  unfold reconcileDeploymentRisk. apply wp_event; [apply all_justified_nil|done|].
  intros [d|e] Hok; [|apply wp_ret; [done|]; right; left; exists e; apply snoc_elem].
  assert (Hin : Ev (YGetDeployment namespace name) (Ok d) ∈ [] ++ [Ev (YGetDeployment namespace name) (Ok d)]) by apply snoc_elem.
  destruct (rd_Selector d) eqn:Hs; cbn [negb];
    [|apply wp_ret; [done|]; right; right; left; exists d; split; [done|]; intros [? _]; congruence].
  destruct (String.eqb_spec (map_get (om_Annotations (rd_Meta d)) AnnotationEnabled) "true") as [He|He].
  2:{ unfold Detect. cbn [dt_Annotations detectRequestOf]. apply String.eqb_neq in He as He'. rewrite He'. cbn [negb].
      apply wp_ret; [done|]. right; right; left. exists d. split; [done|]. by intros [_ ?]. }
  assert (Hr : deployment_read ([] ++ [Ev (YGetDeployment namespace name) (Ok d)]) d) by done.
  eapply wp_bind_log; [by apply Detect_ok|].
  intros [found|e] log' Hok' Hc H; [|apply wp_ret; [done|]; right; do 2 right; by left].
  destruct H as (all & Hall & ->). assert (Hr' : deployment_read log' d) by (by eapply deployment_read_mono).
  destruct (mergeFindings all) as [finding|] eqn:Hm.
  - eapply wp_mono; [|by eapply writeObserved_ok]. intros ? ? _ ?. by left.
  - apply wp_ret; [done|]. right; right; right; right. exists d, all. split_and!; [done..|].
    pose proof (merged_worst all) as Hw. by rewrite Hm in Hw.
Qed.

(** C19: an observed RiskSignal is what the three detectors found.  In every run of the
    reconciler, a source is asked only for an annotated Deployment with a selector,
    and only the query of the detector that asks this source; a RiskSignal is written
    only when each detector has its answer (or its source is not registered), and
    then it is made of the merge of all that they found: all of their evidence, the
    highest of their severities and confidences, type and summary of a finding of
    that severity.  A run that ends without asking for the signal read no such
    Deployment, had an error from a source, or no detector found anything. *)
Theorem observed_signal_justified outcome log :
  logged (reconcileDeploymentRisk interval namespace name) outcome log ->
  (forall before ev after, log = before ++ ev :: after -> detect_justified before ev) /\
  (is_Some outcome -> existsb is_ensure log = true \/ nothing_to_signal log).
Proof.
  intros Hrun. destruct (wp_exec _ _ _ _ _ _ _ reconcileDeploymentRisk_ok Hrun) as [Hj Hend].
  split; [exact Hj|]. intros [r ->]. by eapply Hend.
Qed.
End Justification.

(** ** Concrete runs *)

Section Examples.
#[local] Existing Instance plain_tables.
#[local] Existing Instance plain_values.
#[local] Existing Instance plain_references.
Definition plain_loose : LooseFloats := {| ParseFloatLoose s := default 0 (digits s) |}.
#[local] Existing Instance plain_loose.

Definition dr_deployment (annotations : gmap string string) : RiskDeployment :=
  mkRiskDeployment (mkObjectMeta "cart" "shop" "uid-1" "1" 4 ∅ (<[AnnotationEnabled := "true"]> annotations) []) true ∅.

(** The cluster's source allows one template and nothing else. *)
Definition dr_policy : DataSourceQueryPolicy :=
  mkDataSourceQueryPolicy DataSourceQueryPolicyModeTemplatesOnly ["errors"] 0 false true (mkPromQLPolicy [] [] None None None)
    (mkLogQLPolicy [] []).
Definition dr_source : DataSource := policyDataSource prometheusAdapter dr_policy (mkDataClassification "" [] "" "").
Definition dr_result (value : any_value) : QueryResult :=
  mkQueryResult "prometheus" QueryTypeMetric "" [<["value" := value]> ∅] false "" "" 0 1 1
    (mkNativeResultCounts "" 0 0 0 0 0) None.

Definition dr_answer (annotations : gmap string string) (X : Type) (op : detect_op X) : option X :=
  match op in detect_op X return option X with
  | YNow => Some (100 * second)
  | YGetDeployment _ _ => Some (Ok (dr_deployment annotations))
  | YGetSource source => Some (if source == "prometheus" then Some dr_source else None)
  | YQuery _ _ => Some (inl (dr_result (AnyInt 7)))
  | YEnsureRiskSignal ns n mutate => Some (mutate (freshRiskSignal ns n))
  | YUpdateRiskSignalStatus _ => Some None
  | YConflictMetric _ => Some tt
  end.
Definition dr_run (annotations : gmap string string) : option rresult * list (event detect_op) :=
  run (fun log X op => match dr_answer annotations X op with Some x => Some (x, log ++ [Ev op x]) | None => None end)
    (reconcileDeploymentRisk 0 "shop" "cart") [].

Lemma dr_logged annotations :
  logged (reconcileDeploymentRisk 0 "shop" "cart") (dr_run annotations).1 (dr_run annotations).2.
Proof.
  apply run_exec. intros w X op x w' H. destruct (dr_answer annotations X op); [|done]. by simplify_eq.
Qed.

Definition dr_word (ev : event detect_op) : string :=
  match ev with
  | Ev op _ =>
      match op with
      | YNow => "now" | YGetDeployment _ _ => "get" | YGetSource n => "source " +:+ n
      | YQuery _ request => "query " +:+ qr_Query request | YEnsureRiskSignal _ n _ => "risk signal " +:+ n
      | YUpdateRiskSignalStatus _ => "status" | YConflictMetric _ => "conflict"
      end
  end.

(** The query of the annotation goes to the source as it is, although the policy of
    the source rejects it. *)
Example annotation_query_unchecked :
  map dr_word (dr_run (<[AnnotationPrometheusQuery := "count(secret_metric)"]> ∅)).2 =
    ["get"; "now"; "source prometheus"; "query count(secret_metric)"; "source loki"; "source kubernetes-events";
     "risk signal cart-observed-risk"; "now"; "status"] /\
  pd_Decision (Validate (Some dr_source)
    (mkPolicyRequest "prometheus" "" false "count(secret_metric)" QueryTypeMetric (30 * second)
       (riskDeploymentToResource (dr_deployment ∅)) ∅)) = PolicyRejected.
Proof. vm_compute. auto. Qed.

(** A sample that is not a number is not at most the threshold, so it is a finding. *)
Example nan_is_a_finding :
  bool_decide (prometheusFinding (detectRequestOf 0 (dr_deployment ∅)) (dr_result (AnyFloat 9221120237041090561)) = None) = false.
Proof. vm_compute. reflexivity. Qed.

Lemma observed_signal_justified_witness :
  exists ev, (dr_run ∅).2 !! 6%nat = Some ev /\ dr_word ev = "risk signal cart-observed-risk" /\
    detect_justified 0 "shop" "cart" (take 6 (dr_run ∅).2) ev.
Proof.
  assert (Hw : dr_word <$> ((dr_run ∅).2 !! 6%nat) = Some "risk signal cart-observed-risk") by (vm_compute; reflexivity).
  destruct ((dr_run ∅).2 !! 6%nat) as [ev|] eqn:E; [|discriminate Hw].
  exists ev. split; [reflexivity|]. split; [by injection Hw|].
  apply (proj1 (observed_signal_justified 0 "shop" "cart" _ _ (dr_logged ∅)) _ ev (drop 7 (dr_run ∅).2)).
  symmetry. by apply take_drop_middle.
Defined.
End Examples.
