(* ===== verification/InvestigationResume.v ===== *)
(** * Resuming after the checkpoint

    A run that finds the checkpoint of an earlier one, which crashed after the
    provider had answered, uses the stored answer and reaches the same status;
    only the record of the execution differs, and this file says how. *)

From Stdlib Require Import ZArith Lia.
From stdpp Require Import base list strings gmap.
From S2P Require Import Prelude GoStrings Utf8 Float64 Api InvestigationApi Digest Prog Runtime AgentAction DataClassification Scope Observation Egress Gateway Verifier StatusBudget InvestigationGate InvestigationRCA InvestigationExecution InvestigationVerdict InvestigationStatus InvestigationSpec InvestigationProjection InvestigationController InvestigationInvariant InvestigationExamples.

Section Resume.
Context {U : UnicodeTables} {D : DigestPrims} {SC : StatusConditions}.
Context (cfg : InvestigationConfig).
Implicit Type request : InvestigationRequest.

(** What the stored answer does not hold: the egress attempts and audit of the
    call, and the token counts. *)
Definition forget preflight evidence (x : RCAExecution) : RCAExecution :=
  let audit := providerEgressAudit (pf_Provider preflight) evidence in
  x <| rx_EgressAudit := audit |>
    <| rx_EgressAttempts := providerEgressAttempts (pf_Provider preflight) audit "Allowed" |>
    <| rx_InputTokens := 0 |> <| rx_OutputTokens := 0 |>.

Definition forget_execution preflight evidence request : InvestigationRequest :=
  on_status (fun s => s <| ist_Execution := option_map (forget preflight evidence) (ist_Execution s) |>) request.

(** The answer a resumed run works with. *)
Definition resumed (result : RCAProviderResult) : RCA := mkRCAResult (reasoningFromProviderResult result) None [] None.

Lemma forget_complete preflight evidence now request :
  completeInvestigation evidence now (forget_execution preflight evidence request)
    = forget_execution preflight evidence (completeInvestigation evidence now request).
Proof.
  destruct request as [m ct dt sp []]. unfold completeInvestigation, setOutcomeConditions, andThen, forget_execution.
  cbv zeta. destruct (evidenceCoverageDegradation evidence) as [d|]; [destruct (evidenceDegradationCondition _)|];
    cbn -[String.eqb setStatusCondition]; unfold constant;
    repeat (destruct (_ == _)); reflexivity.
Qed.

Section Answer.
Context (rca : RCA) (reasoning : ReasoningOutput) (result : RCAProviderResult).
Hypothesis Hrca : rca_Reasoning rca = Some reasoning.
Hypothesis Hresult : reasoningFromProviderResult result = Some (restored reasoning).

Lemma stored_result : providerResultFromReasoning (resumed result) = providerResultFromReasoning rca.
Proof.
  unfold providerResultFromReasoning, resumed. cbn [rca_Reasoning]. rewrite Hrca, Hresult.
  cbn -[trim_space normalizedResultFromReasoning digestString]. by rewrite trim_space_idem.
Qed.

Lemma classified_resumed preflight evidence :
  classifiedProviderResult preflight evidence (resumed result) = classifiedProviderResult preflight evidence rca.
Proof. unfold classifiedProviderResult. by rewrite stored_result. Qed.

Lemma provider_name_resumed request preflight :
  providerNameForStatus request preflight (resumed result) = providerNameForStatus request preflight rca.
Proof. unfold providerNameForStatus, resumed. cbn [rca_Reasoning]. by rewrite Hrca, Hresult. Qed.

Lemma execution_resumed version request preflight evidence executionID state now :
  buildRCAExecution version request preflight evidence (resumed result) executionID state now
    = forget preflight evidence (buildRCAExecution version request preflight evidence rca executionID state now).
Proof.
  unfold buildRCAExecution. cbv zeta. rewrite classified_resumed, provider_name_resumed.
  unfold resumed, providerRequestIDFromRCA, reasoningInputTokens, reasoningOutputTokens.
  cbn [rca_Reasoning rca_PrimaryEgress rca_EgressAttempts]. rewrite Hrca, Hresult.
  unfold restored. cbn [ro_ProviderRequestID ro_InputTokens ro_OutputTokens]. rewrite trim_space_idem. reflexivity.
Qed.

Lemma reasoning_resumed version preflight evidence now request :
  applyReasoning version preflight evidence (resumed result) now request
    = forget_execution preflight evidence (applyReasoning version preflight evidence rca now request).
Proof.
  unfold applyReasoning. change (rca_Reasoning (resumed result)) with (reasoningFromProviderResult result).
  rewrite Hrca, Hresult. cbv zeta. unfold applyStructuredRCAStatus. cbv zeta.
  rewrite build_restored. change (cf_Score (ro_Confidence (restored reasoning))) with (cf_Score (ro_Confidence reasoning)).
  change (ro_RiskSummary (restored reasoning)) with (ro_RiskSummary reasoning).
  change (ro_RCA (restored reasoning)) with (ro_RCA reasoning).
  change (ro_Provider (restored reasoning)) with (ro_Provider reasoning).
  destruct (buildRCAClaims reasoning evidence _) as [claims verification]. rewrite evaluate_restored.
  rewrite execution_resumed. unfold forget_execution.
  match goal with |- on_status _ ?q = _ => destruct q as [m ct dt sp []] end. reflexivity.
Qed.

Lemma forget_none preflight evidence request :
  co_Execution (core_of request) = None -> forget_execution preflight evidence request = request.
Proof. destruct request as [m ct dt sp []]. cbn. by intros ->. Qed.

Lemma prelude_resumed preflight evidence now request :
  rca_Issue rca = None -> prelude preflight evidence (resumed result) now request = prelude preflight evidence rca now request.
Proof. intros Hi. unfold prelude, andThen, setRCACondition. cbn [rca_Issue resumed]. by rewrite Hi. Qed.

Lemma applied_resumed version preflight evidence now request :
  rca_Issue rca = None -> fresh (core_of request) ->
  applyInvestigationExecutionStatus version preflight evidence (resumed result) now request
    = forget_execution preflight evidence (applyInvestigationExecutionStatus version preflight evidence rca now request).
Proof.
  intros Hi (_ & _ & _ & _ & _ & Hx & _). assert (Hp := prelude_resumed preflight evidence now request Hi).
  assert (Hc := core_prelude preflight evidence rca now request).
  unfold applyInvestigationExecutionStatus. unfold prelude, andThen in *.
  cbn [rca_Issue resumed] in *. rewrite Hi, Hp. set (p := setRCACondition _ _ _ _ _) in *. clearbody p.
  destruct (FirstIssue preflight) as [issue|].
  { rewrite forget_none; [done|]. rewrite core_blocked, Hc. exact Hx. }
  destruct (ec_Issue evidence) as [issue|].
  { rewrite forget_none; [done|]. rewrite core_evidence_failed, Hc. exact Hx. }
  by rewrite reasoning_resumed, forget_complete.
Qed.
End Answer.

Lemma checkpoint_reusable request preflight evidence rca reasoning executionID now :
  rca_Reasoning rca = Some reasoning ->
  exists result,
    reusableProviderResult
      (ist_Execution (ir_Status (checkpointStatus cfg request preflight evidence rca executionID now))) executionID = Some result /\
    reasoningFromProviderResult result = Some (restored reasoning).
Proof.
  intros Hr. destruct (classified_result preflight evidence rca reasoning Hr) as (result & Hres & Hn & Hid).
  exists result. change (ist_Execution (ir_Status ?x)) with (co_Execution (core_of x)).
  unfold checkpointStatus. cbv zeta. rewrite (proj1 (budgeted_core _ _ _)), core_status. split.
  - destruct request as [m ct dt sp []]. cbn -[classifiedProviderResult]. unfold constant, reusableProviderResult.
    cbn -[classifiedProviderResult String.eqb]. rewrite String.eqb_refl, Hres. cbn -[String.eqb]. by rewrite Hn.
  - unfold reasoningFromProviderResult. rewrite Hn, Hid. unfold restored. cbn -[trim_space]. rewrite trim_space_idem.
    by destruct reasoning as [? ? ? [? ? ? ?] [? ? ?] [? ? ? ?] ? ? ? ? ? ?].
Qed.

(** C8: crashing after the checkpoint loses nothing but bookkeeping.  The
    checkpoint of a provider's answer is reusable by a run of the same execution
    identity; the status that run computes from it equals the status the
    uninterrupted run computes from the answer itself - phase, outcome, verdict,
    claims, confidence, conditions, all of it - except that in the execution
    record the egress audit and attempts are synthesised again and the token
    counts are zero. *)
Theorem resume_after_checkpoint request preflight evidence rca reasoning executionID now now' :
  fresh (core_of request) -> rca_Reasoning rca = Some reasoning -> rca_Issue rca = None ->
  exists result,
    reusableProviderResult
      (ist_Execution (ir_Status (checkpointStatus cfg request preflight evidence rca executionID now))) executionID = Some result /\
    applyInvestigationExecutionStatus (icf_ControllerVersion cfg) preflight evidence (resumed result) now' request
      = forget_execution preflight evidence
          (applyInvestigationExecutionStatus (icf_ControllerVersion cfg) preflight evidence rca now' request).
Proof.
  intros Hf Hr Hi. destruct (checkpoint_reusable request preflight evidence rca reasoning executionID now Hr) as (result & Hu & Hb).
  exists result. split; [exact Hu|]. by eapply applied_resumed.
Qed.
End Resume.

(** ** At the example run *)

Section Witness.
#[local] Existing Instance plain_tables.
#[local] Existing Instance plain_digest.
#[local] Existing Instance plain_conditions.

Lemma resume_after_checkpoint_witness :
  exists result,
    reusableProviderResult (ist_Execution (ir_Status (checkpointStatus ex_config
      (startedRequest (ex_request zeroInvestigationStatus) 1 2) ex_preflight ex_evidence ex_rca "id" 3))) "id" = Some result /\
    applyInvestigationExecutionStatus "1.0.0" ex_preflight ex_evidence (resumed result) 4
        (startedRequest (ex_request zeroInvestigationStatus) 1 2)
      = forget_execution ex_preflight ex_evidence
          (applyInvestigationExecutionStatus "1.0.0" ex_preflight ex_evidence ex_rca 4
             (startedRequest (ex_request zeroInvestigationStatus) 1 2)).
Proof.
  eapply (resume_after_checkpoint ex_config); [apply started_fresh|reflexivity|reflexivity].
Defined.

(** What is forgotten matters: of two attempts of a fallback chain, none is left
    after a restart with a local provider in the preflight. *)
Definition two_attempts : RCA :=
  ex_rca <| rca_EgressAttempts :=
    [mkProviderEgressAttempt 1 None 0 "openai" "Allowed" "ProviderCallFailed" "" "" [] [] false "" "" "" "";
     mkProviderEgressAttempt 2 None 0 "claude" "Allowed" "Allowed" "" "" [] [] false "" "" "" ""] |>.

Example attempts_forgotten :
  let run rca := applyInvestigationExecutionStatus "1.0.0" ex_preflight ex_evidence rca 4
                   (startedRequest (ex_request zeroInvestigationStatus) 1 2) in
  let attempts r := option_map (fun x => length (rx_EgressAttempts x)) (ist_Execution (ir_Status r)) in
  (attempts (run two_attempts),
   option_map (fun result => attempts (run (resumed result))) (providerResultFromReasoning two_attempts))
    = (Some 2%nat, Some (Some 0%nat)).
Proof. vm_compute. reflexivity. Qed.
End Witness.
