(* ===== verification/InvestigationSafety.v ===== *)
(** * Safety of the InvestigationRequest reconciler

    What every run of [reconcileInvestigation] may do, in any environment: the
    answers to its operations are arbitrary, and the run may stop anywhere.  A
    run is described by its log of operations and answers. *)

From Stdlib Require Import ZArith Lia.
From stdpp Require Import base list strings gmap.
From S2P Require Import Prelude GoStrings Utf8 Float64 Api InvestigationApi Digest Prog Runtime AgentAction DataClassification Scope Observation Egress Gateway Verifier StatusBudget InvestigationGate InvestigationRCA InvestigationExecution InvestigationVerdict InvestigationStatus InvestigationSpec InvestigationProjection InvestigationController InvestigationInvariant InvestigationExamples.

Definition ilog : Type := list (event inv_op).

(** ** What a log shows *)

Section Log.
Context {U : UnicodeTables} {D : DigestPrims} {CR : ControllerReferences}.
Implicit Type log : ilog.
Implicit Type r : InvestigationRequest.

(** The request the run read. *)
Definition read log r : Prop := exists namespace name, Ev (IGet namespace name) (Ok r) ∈ log.

(** The preflight and the evidence the run obtained for it. *)
Definition collected log r preflight evidence : Prop :=
  Ev (IPreflight (om_Namespace (ir_Meta r)) (ir_Spec r)) (Ok preflight) ∈ log /\
  exists now, Ev (ICollectEvidence (ir_Spec r) preflight now) (Ok evidence) ∈ log.

Definition asks (ev : event inv_op) : bool :=
  match ev with Ev (IGenerateRCA _ _ _ _) _ => true | _ => false end.

(** The profile's requirements are met and point at an issue, or there are none. *)
Definition gate_open (spec : InvestigationRequestSpec) evidence : Prop :=
  forall gate, evaluateEvidenceRequirements spec evidence = Some gate ->
    gt_Complete gate = true /\ gt_NoIssueFound gate = false.

Definition admitted r : Prop :=
  shouldSkipInvestigationExecution r = false /\ investigationLoopFailure (startedRequest r 0 0) = None /\
  valid_spec (ir_Spec r).

Definition executionID_of r preflight evidence : string := investigationExecutionID (startedRequest r 0 0) preflight evidence.

(** What the provider said, in this run or according to the stored record. *)
Definition provider_said log r preflight evidence (reasoning : ReasoningOutput) : Prop :=
  (exists now rca, Ev (IGenerateRCA (ir_Spec r) preflight evidence now) (Ok rca) ∈ log /\ rca_Reasoning rca = Some reasoning) \/
  (exists stored, reusableProviderResult (ist_Execution (ir_Status r)) (executionID_of r preflight evidence) = Some stored /\
     reasoningFromProviderResult stored = Some reasoning).

(** ** When an operation is justified *)

Definition may_ask log spec preflight evidence : Prop :=
  exists r, read log r /\ spec = ir_Spec r /\ admitted r /\ collected log r preflight evidence /\
    gate_open spec evidence /\
    reusableProviderResult (ist_Execution (ir_Status r)) (executionID_of r preflight evidence) = None /\
    existsb asks log = false.

Definition may_delete log r : Prop :=
  read log r /\ 0 < irs_TTLSeconds (ir_Spec r) /\ ir_DeletionTimestamp r = None /\
  shouldSkipInvestigationExecution r = true /\
  exists now, Ev INow now ∈ log /\ investigationExpiryTime r now <= now.

Definition may_ensure log (namespace name : string) (mutate : RiskSignal -> result RiskSignal) : Prop :=
  exists r request preflight evidence reasoning,
    read log r /\ admitted r /\ irs_CreateRiskSignal (ir_Spec r) = true /\
    collected log r preflight evidence /\ FirstIssue preflight = None /\ ec_Issue evidence = None /\
    gate_open (ir_Spec r) evidence /\
    provider_said log r preflight evidence reasoning /\ confirmed_by (ir_Spec r) evidence reasoning /\
    namespace = rr_Namespace (pf_Target preflight) /\
    name = investigationRiskSignalName (om_Name (ir_Meta r)) (rr_Name (pf_Target preflight)) /\
    mutate = mutateRiskSignal request preflight evidence reasoning /\
    ir_Spec request = ir_Spec r /\ om_Name (ir_Meta request) = om_Name (ir_Meta r).

Definition may_promote log (signal : RiskSignal) : Prop :=
  exists namespace name mutate ensured, Ev (IEnsureRiskSignal namespace name mutate) (Ok ensured) ∈ log /\
    rsk_Meta signal = rsk_Meta ensured /\ rsk_Spec signal = rsk_Spec ensured /\ rsk_Status signal <> rsk_Status ensured.

(** Only the resource version may differ. *)
Definition same_object (a b : ObjectMeta) : Prop :=
  om_Name a = om_Name b /\ om_Namespace a = om_Namespace b /\ om_UID a = om_UID b /\ om_Generation a = om_Generation b.

Definition may_store log (u : InvestigationRequest) : Prop :=
  (exists r, read log r /\ shouldSkipInvestigationExecution r = false /\ ir_Spec u = ir_Spec r /\
     same_object (ir_Meta u) (ir_Meta r)) /\
  well_formed (core_of u) /\ within_bounds (ir_Status u) /\ (terminal_core (core_of u) -> conditions_agree u).

Definition justified log (ev : event inv_op) : Prop :=
  match ev with
  | Ev (IDelete r) _ => may_delete log r
  | Ev (IUpdateStatus u) _ => may_store log u
  | Ev (IGenerateRCA spec preflight evidence _) _ => may_ask log spec preflight evidence
  | Ev (IEnsureRiskSignal namespace name mutate) _ => may_ensure log namespace name mutate
  | Ev (IUpdateRiskSignalStatus signal) _ => may_promote log signal
  | _ => True
  end.

(** ** Facts that last *)

Lemma read_mono log log' r : continues log log' -> read log r -> read log' r.
Proof. intros Hc (ns & n & H). exists ns, n. by eapply continues_elem. Qed.

Lemma collected_mono log log' r preflight evidence :
  continues log log' -> collected log r preflight evidence -> collected log' r preflight evidence.
Proof. intros Hc (H & now & H'). split; [by eapply continues_elem|]. exists now. by eapply continues_elem. Qed.

Lemma said_mono log log' r preflight evidence reasoning :
  continues log log' -> provider_said log r preflight evidence reasoning -> provider_said log' r preflight evidence reasoning.
Proof.
  intros Hc [(now & rca & H & Hr)|H]; [left|by right]. exists now, rca. split; [by eapply continues_elem|done].
Qed.
End Log.

(** ** Every run is justified *)

Section Runs.
Context {U : UnicodeTables} {D : DigestPrims} {SC : StatusConditions} {CL : ConditionLaws SC} {CR : ControllerReferences}.
Context (cfg : InvestigationConfig).
Implicit Type log : ilog.
Implicit Type r : InvestigationRequest.

#[local] Notation ok := (all_justified justified).
#[local] Notation wpl p log Q := (wp log_env ok p log Q).

Lemma wp_free {R X} (e : inv_op X) (k : X -> iprog R) log Q :
  ok log -> (forall x, justified log (Ev e x)) ->
  (forall x log', ok log' -> log' = log ++ [Ev e x] -> wpl (k x) log' Q) -> wpl (Vis e k) log Q.
Proof. intros Hok Hj Hk. apply wp_event; [done|done|]. intros x Hx. by eapply Hk. Qed.

(** The state of a run between its start and its outcome. *)
Record running r (request : InvestigationRequest) : Prop := mkRunning {
  ru_fresh : fresh (core_of request);
  ru_spec : ir_Spec request = ir_Spec r;
  ru_meta : same_object (ir_Meta request) (ir_Meta r);
  ru_id : forall preflight evidence, investigationExecutionID request preflight evidence = executionID_of r preflight evidence
}.

(** The status an ended run has tried to store. *)
Definition outcome_stored log r : Prop :=
  exists u answer, Ev (IUpdateStatus u) answer ∈ log /\ shouldSkipInvestigationExecution u = true /\
    ir_Spec u = ir_Spec r /\ same_object (ir_Meta u) (ir_Meta r).

Lemma wp_conflict resource e log :
  ok log -> wpl (recordInvestigationConflict resource e) log (fun _ _ => True).
Proof.
  intros Hok. unfold recordInvestigationConflict. destruct (negb _); [by apply wp_ret|].
  apply wp_free; [done|done|]. intros x log' Hok' _. by apply wp_ret.
Qed.

Lemma wp_persist original u log :
  ok log -> may_store log u ->
  wpl (persistStatus original u) log
    (fun err log' => err = None -> ir_Status original <> ir_Status u -> exists answer, Ev (IUpdateStatus u) answer ∈ log').
Proof.
  intros Hok Hu. unfold persistStatus. destruct (bool_decide _) eqn:Heq.
  { apply bool_decide_eq_true in Heq. by apply wp_ret. }
  apply wp_free; [done|done|]. intros [stored|e] log' Hok' ->.
  - apply wp_ret; [done|]. intros _ _. eexists. apply snoc_elem.
  - eapply wp_bind_log; [by apply wp_conflict|]. intros b log' Hok'' Hc _. apply wp_ret; [done|].
    intros _ _. eexists. eapply continues_elem; [exact Hc|apply snoc_elem].
Qed.

Lemma terminal_skip u : well_formed (core_of u) -> terminal_core (core_of u) -> shouldSkipInvestigationExecution u = true.
Proof.
  intros [Ho _] Ht. unfold shouldSkipInvestigationExecution, isTerminalInvestigationPhase.
  apply andb_true_iff. split; [by apply Z.eqb_eq|]. apply mem_str_spec. unfold terminal_core in Ht.
  cbn in Ht. unfold ir_Phase. set_solver.
Qed.

Lemma skip_same a b :
  ir_Status a = ir_Status b -> same_object (ir_Meta b) (ir_Meta a) ->
  shouldSkipInvestigationExecution a = shouldSkipInvestigationExecution b.
Proof.
  intros Hs (_ & _ & _ & Hg). unfold shouldSkipInvestigationExecution, ir_Phase. by rewrite Hs, Hg.
Qed.

Lemma wp_finish r u result log :
  ok log -> read log r -> shouldSkipInvestigationExecution r = false ->
  co_Spec (core_of u) = ir_Spec r -> same_object (co_Meta (core_of u)) (ir_Meta r) ->
  well_formed (core_of u) -> terminal_core (core_of u) -> conditions_agree u ->
  wpl (finish cfg r u result) log (fun res log' => rec_err res = None -> outcome_stored log' r).
Proof.
  intros Hok Hr Hns Hsp Hm Hwf Ht Hagree. unfold finish. apply wp_free; [done|done|]. intros now log1 Hok1 ->.
  destruct (budgeted_core cfg u now) as [Hcore Hbounds]. apply (agree_budgeted cfg u now) in Hagree. set (b := budgeted cfg u now) in *. clearbody b.
  assert (Hspb : ir_Spec b = ir_Spec r) by (change (ir_Spec b) with (co_Spec (core_of b)); by rewrite Hcore).
  assert (Hmb : same_object (ir_Meta b) (ir_Meta r))
    by (change (ir_Meta b) with (co_Meta (core_of b)); by rewrite Hcore).
  assert (Hst : shouldSkipInvestigationExecution b = true) by (apply terminal_skip; by rewrite Hcore).
  eapply wp_bind_log.
  { apply wp_persist; [done|]. split; [|by rewrite Hcore; split]. exists r. split; [|done].
    eapply read_mono; [|done]. log_steps. }
  intros err log2 Hok2 Hc Herr. apply wp_ret; [done|]. intros Hres. destruct err as [e|]; [done|].
  destruct (Herr eq_refl) as [answer Ha]; [|by exists b, answer].
  intros Heq. assert (Hs := skip_same _ _ Heq Hmb). congruence.
Qed.

(** ** Retention *)

Lemma wp_ttl r now log :
  ok log -> read log r -> Ev INow now ∈ log ->
  wpl (handleTTL r now) log
    (fun '(res, finished) log' => shouldSkipInvestigationExecution r = false ->
       finished = false /\ rec_err res = None /\ log' = log).
Proof.
  intros Hok Hr Hnow. unfold handleTTL.
  destruct (irs_TTLSeconds (ir_Spec r) <=? 0) eqn:Httl; cbn [orb]; [by apply wp_ret|].
  destruct (bool_decide _) eqn:Hdel; cbn [orb]; [by apply wp_ret|].
  destruct (shouldSkipInvestigationExecution r) eqn:Hskip; cbn [negb]; [|by apply wp_ret].
  apply Z.leb_gt in Httl. apply bool_decide_eq_false in Hdel.
  destruct (time_before now (investigationExpiryTime r now)) eqn:Hexp; cbn [negb]; [by apply wp_ret|].
  apply wp_free; [done| |].
  - intros x. split; [done|]. split; [done|]. split; [destruct (ir_DeletionTimestamp r); [exfalso; by apply Hdel|done]|].
    split; [done|]. exists now. split; [done|]. unfold time_before in Hexp. apply Z.ltb_ge in Hexp. lia.
  - intros [e|] log' Hok' _; [|by apply wp_ret]. destruct (is_not_found e); by apply wp_ret.
Qed.

(** ** The service *)

(** What preflight and collection obtained; without a service, an issue. *)
Definition obtained log r preflight evidence : Prop :=
  if icf_Service cfg then collected log r preflight evidence else FirstIssue preflight <> None.

Lemma obtained_mono log log' r preflight evidence :
  continues log log' -> obtained log r preflight evidence -> obtained log' r preflight evidence.
Proof. unfold obtained. destruct (icf_Service cfg); [apply collected_mono|done]. Qed.

Lemma obtained_collected log r preflight evidence :
  obtained log r preflight evidence -> FirstIssue preflight = None -> collected log r preflight evidence.
Proof. unfold obtained. by destruct (icf_Service cfg). Qed.

(** Without a service the preflight reports it. *)
Lemma unavailable_issue : FirstIssue (mkPreflightResult noResource ∅ [] [] None (Some serviceUnavailable) None None None) <> None.
Proof. done. Qed.

Lemma asks_snoc log ev : asks ev = false -> existsb asks log = false -> existsb asks (log ++ [ev]) = false.
Proof. intros He Hl. rewrite existsb_app, Hl. cbn. by rewrite He. Qed.

(** ** The provider's answer *)

Lemma running_reversion r request version' :
  running r request ->
  let m := ir_Meta request in
  running r (request <| ir_Meta := mkObjectMeta (om_Name m) (om_Namespace m) (om_UID m) version'
                           (om_Generation m) (om_Labels m) (om_Annotations m) (om_OwnerReferences m) |>).
Proof.
  intros [Hf Hs Hm Hi]. destruct request as [m ct dt sp []]. constructor; [exact Hf|exact Hs|exact Hm|exact Hi].
Qed.

Lemma wp_checkpoint r request preflight evidence rca reasoning executionID now log :
  ok log -> read log r -> shouldSkipInvestigationExecution r = false -> running r request ->
  rca_Reasoning rca = Some reasoning ->
  wpl (persistProviderCompletedCheckpoint cfg request preflight evidence rca executionID now) log
    (fun res _ => forall request', res = Ok request' -> running r request').
Proof.
  intros Hok Hr Hns Hrun Hrca. unfold persistProviderCompletedCheckpoint.
  destruct (checkpoint_core cfg request preflight evidence rca reasoning executionID now (ru_fresh _ _ Hrun) Hrca)
    as (Hwf & Hphase & Hm & Hsp).
  apply wp_free; [done| |].
  - intros x. split; [|split; [exact Hwf|split; [apply budgeted_core|]]].
    2:{ intros Ht. unfold terminal_core in Ht. rewrite Hphase in Ht. by apply mem_str_spec in Ht. }
    exists r. split; [done|]. split; [done|].
    change (ir_Spec ?u) with (co_Spec (core_of u)). change (ir_Meta ?u) with (co_Meta (core_of u)) at 1.
    rewrite Hsp, Hm. split; [apply Hrun|apply Hrun].
  - intros [stored|e] log' Hok' _.
    + apply wp_ret; [done|]. intros request' [= <-]. by apply running_reversion.
    + eapply wp_bind_log; [by apply wp_conflict|]. intros b log2 Hok2 _ _. by apply wp_ret.
Qed.

Lemma wp_obtain r request preflight evidence log :
  ok log -> read log r -> admitted r -> running r request -> obtained log r preflight evidence ->
  gate_open (ir_Spec r) evidence -> existsb asks log = false ->
  wpl (obtainRCA cfg r request preflight evidence) log (fun res log' =>
    forall request' rca, res = Ok (request', rca) ->
      running r request' /\
      forall reasoning, rca_Reasoning rca = Some reasoning -> provider_said log' r preflight evidence reasoning).
Proof.
  intros Hok Hr Hadm Hrun Hobt Hgate Hask. unfold obtainRCA. cbv zeta. rewrite (ru_id _ _ Hrun).
  destruct (reusableProviderResult _ _) as [stored|] eqn:Hreuse.
  { apply wp_ret; [done|]. intros request' rca [= <- <-]. split; [done|]. intros reasoning Hre. right. by exists stored. }
  apply wp_free; [done|done|]. intros now log1 Hok1 ->.
  eapply (wp_bind_log _ _ _ _ (fun res log' => forall rca reasoning, res = Ok rca -> rca_Reasoning rca = Some reasoning ->
    provider_said log' r preflight evidence reasoning)).
  - unfold runGenerateRCA. unfold obtained in Hobt.
    destruct (icf_Service cfg); [|apply wp_ret; [done|]; by intros rca reasoning [= <-]].
    apply wp_free; [done| |].
    + intros x. exists r. split; [eapply read_mono; [|done]; log_steps|]. split; [apply Hrun|]. split; [done|].
      split; [eapply collected_mono; [|done]; log_steps|]. rewrite (ru_spec _ _ Hrun).
      split; [done|]. split; [done|]. by apply asks_snoc.
    + intros x log2 Hok2 ->. apply wp_ret; [done|]. intros rca reasoning -> Hre. left. exists now, rca.
      split; [|done]. rewrite (ru_spec _ _ Hrun). apply snoc_elem.
  - intros res log2 Hok2 Hc Hsaid. destruct res as [rca|e]; [|by apply wp_ret].
    destruct (rca_Reasoning rca) as [reasoning|] eqn:Hre.
    2:{ apply wp_ret; [done|]. intros request' rca' [= <- <-]. split; [done|]. by rewrite Hre. }
    specialize (Hsaid rca reasoning eq_refl Hre).
    apply wp_free; [done|done|]. intros now' log3 Hok3 ->.
    eapply wp_bind_log.
    { eapply wp_checkpoint; [done| |apply Hadm|done|done]. eapply read_mono; [|done]. log_steps. }
    intros res log4 Hok4 Hc4 Hcp. destruct res as [request'|e].
    + apply wp_ret; [done|]. intros request'' rca' [= <- <-]. split; [by apply Hcp|]. intros re Hre'.
      rewrite Hre in Hre'. simplify_eq. eapply said_mono; [|done]. log_steps.
    + eapply wp_bind_log; [by apply wp_conflict|]. intros b log5 Hok5 Hc5 _. apply wp_ret; [done|].
      destruct b; [|done]. intros request'' rca' [= <- <-]. split; [done|]. intros re Hre'. rewrite Hre in Hre'. simplify_eq.
      eapply said_mono; [|done]. log_steps.
Qed.

(** ** Projection *)

Lemma wp_promote r request preflight evidence rca reasoning now log :
  ok log -> read log r -> admitted r -> irs_CreateRiskSignal (ir_Spec r) = true ->
  collected log r preflight evidence -> FirstIssue preflight = None -> ec_Issue evidence = None ->
  gate_open (ir_Spec r) evidence ->
  rca_Reasoning rca = Some reasoning -> provider_said log r preflight evidence reasoning ->
  confirmed_by (ir_Spec r) evidence reasoning ->
  ir_Spec request = ir_Spec r -> same_object (ir_Meta request) (ir_Meta r) ->
  wpl (promoteToRiskSignal request preflight evidence rca now) log (fun _ _ => True).
Proof.
  intros Hok Hr Hadm Hcreate Hcol Hfirst Hissue Hgate Hre Hsaid Hconf Hsp Hm. unfold promoteToRiskSignal. rewrite Hre.
  destruct (negb _); [by apply wp_ret|]. cbv zeta. apply wp_free; [done| |].
  - intros x. exists r, request, preflight, evidence, reasoning. destruct Hm as (Hn & Hns & Hu & Hg).
    rewrite Hn. by repeat (split; [done|]).
  - intros [signal|e] log1 Hok1 ->; [|by apply wp_ret]. cbv zeta.
    destruct (statusChangedRiskSignal _ _) eqn:Hchanged; [|by apply wp_ret].
    apply wp_free; [done| |].
    + intros x. exists (rr_Namespace (pf_Target preflight)), (investigationRiskSignalName (om_Name (ir_Meta request)) (rr_Name (pf_Target preflight))).
      eexists _, signal. split; [apply snoc_elem|].
      unfold statusChangedRiskSignal in Hchanged. apply negb_true_iff, bool_decide_eq_false in Hchanged.
      split; [by destruct signal|]. split; [by destruct signal|].
      intros Heq. apply Hchanged. rewrite <- Heq. by destruct signal.
    + intros [e|] log2 Hok2 _; [|by apply wp_ret].
      eapply wp_bind_log; [by apply wp_conflict|]. intros b log3 Hok3 _ _. by apply wp_ret.
Qed.

(** The core of an outcome, linked or not. *)
Definition outcome_core r (c : Core) : Prop :=
  well_formed c /\ terminal_core c /\ co_Spec c = ir_Spec r /\ same_object (co_Meta c) (ir_Meta r).

Lemma linked_outcome r request link :
  outcome_core r (core_of request) -> ir_Outcome request = InvestigationOutcomeConfirmed ->
  outcome_core r (core_of (on_status (fun s => s <| ist_LinkedRiskSignalRef := link |>) request)).
Proof.
  intros (Hwf & Ht & Hsp & Hm) Hout. destruct request as [m ct dt sp []]. cbn in *. unfold constant. subst.
  split; [|done]. destruct Hwf as [Hg Hw]. split; [done|]. cbn in *.
  destruct Hw as [(? & ? & ? & ?)|[(? & ? & ? & ?)|(Hp & Hc & Hf & Hok)]]; [done|done|].
  right; right. split; [done|]. split; [done|]. split; [done|].
  destruct Hok as [(? & ?)|[(Hin & ?)|(Hin & Hv & Hx & Hl)]]; cbn in *.
  - done.
  - by apply mem_str_spec in Hin.
  - right; right. done.
Qed.

Lemma wp_promote_if r request preflight evidence rca log now :
  ok log -> read log r -> admitted r -> running r request -> obtained log r preflight evidence ->
  gate_open (ir_Spec r) evidence ->
  (forall reasoning, rca_Reasoning rca = Some reasoning -> provider_said log r preflight evidence reasoning) ->
  wpl (promoteIfConfirmed
         (applyInvestigationExecutionStatus (icf_ControllerVersion cfg) preflight evidence rca now request)
         preflight evidence rca) log
    (fun res _ => forall request', res = Ok request' -> outcome_core r (core_of request') /\ conditions_agree request').
Proof.
  intros Hok Hr Hadm Hrun Hobt Hgate Hsaid.
  destruct (applied_core (icf_ControllerVersion cfg) preflight evidence rca now request (ru_fresh _ _ Hrun))
    as (Hwf & Ht & Hm & Hsp & Hl).
  assert (Hconf := applied_confirmed (icf_ControllerVersion cfg) preflight evidence rca now request (ru_fresh _ _ Hrun)).
  assert (Hagree := agree_applied (icf_ControllerVersion cfg) preflight evidence rca now request).
  set (applied := applyInvestigationExecutionStatus _ _ _ _ _ _) in *. clearbody applied.
  assert (Hsp' : ir_Spec applied = ir_Spec r) by (rewrite <- (ru_spec _ _ Hrun); exact Hsp).
  assert (Hm' : same_object (ir_Meta applied) (ir_Meta r))
    by (change (ir_Meta applied) with (co_Meta (core_of applied)); rewrite Hm; apply Hrun).
  assert (Hcore : outcome_core r (core_of applied)) by done.
  unfold promoteIfConfirmed. destruct (_ && _) eqn:Hcond; [|apply wp_ret; [done|]; by intros ? [= <-]].
  go_bool. rewrite Hsp' in *. unfold investigationOutcomeAllowsRiskSignalProjection in *. go_bool.
  match goal with H : ir_Outcome applied = _ |- _ => rename H into Hout end.
  destruct (Hconf Hout) as (Hfirst & Hissue & _ & reasoning & Hre & Hby). rewrite (ru_spec _ _ Hrun) in Hby.
  assert (Hcol := obtained_collected _ _ _ _ Hobt Hfirst).
  apply wp_free; [done|done|]. intros now' log1 Hok1 ->.
  eapply wp_bind_log.
  { eapply wp_promote; try done.
    - eapply read_mono; [|done]. log_steps.
    - eapply collected_mono; [|done]. log_steps.
    - eapply said_mono; [|by apply Hsaid]. log_steps. }
  intros [link|e] log2 Hok2 Hc _; apply wp_ret; try done. intros request' [= <-].
  split; [by apply linked_outcome|by apply agree_linked].
Qed.

(** ** The whole reconciliation *)

#[local] Notation ends_stored r := (fun res log' => rec_err res = None -> outcome_stored log' r).

Lemma wp_finish_core r request result log :
  ok log -> read log r -> admitted r -> outcome_core r (core_of request) -> conditions_agree request ->
  wpl (finish cfg r request result) log (ends_stored r).
Proof. intros Hok Hr Hadm (Hwf & Ht & Hsp & Hm) Hagree. apply wp_finish; try done. apply Hadm. Qed.

Lemma wp_analyze_run r request preflight evidence ttlResult log :
  ok log -> read log r -> admitted r -> running r request -> obtained log r preflight evidence ->
  gate_open (ir_Spec r) evidence -> existsb asks log = false ->
  wpl (analyze cfg r request preflight evidence ttlResult) log (ends_stored r).
Proof.
  intros Hok Hr Hadm Hrun Hobt Hgate Hask. unfold analyze.
  eapply wp_bind_log; [by apply wp_obtain|]. intros [[request' rca]|e] log1 Hok1 Hc1 Hpost; [|by apply wp_ret].
  destruct (Hpost request' rca eq_refl) as [Hrun' Hsaid].
  apply wp_free; [done|done|]. intros now log2 Hok2 ->. cbv zeta.
  eapply wp_bind_log.
  { eapply wp_promote_if; try done.
    - eapply read_mono; [|done]. log_steps.
    - eapply obtained_mono; [|done]. log_steps.
    - intros reasoning Hre. eapply said_mono; [|by apply Hsaid]. log_steps. }
  intros [linked|e] log3 Hok3 Hc3 Hcore; [|by apply wp_ret].
  apply wp_finish_core; [done| |done|by apply Hcore|by apply Hcore]. eapply read_mono; [|done]. log_steps.
Qed.

Lemma gate_running r request gate : running r request -> running r (withCoverage gate request).
Proof.
  intros [Hf Hs Hm Hi]. destruct request as [m ct dt sp []]. constructor; [exact Hf|exact Hs|exact Hm|exact Hi].
Qed.

Lemma gate_outcome r request outcome now :
  running r request -> outcome ∈ [InvestigationOutcomeInconclusive; InvestigationOutcomeNoIssueFound] ->
  outcome_core r (gate_core (core_of request) outcome now).
Proof.
  intros [Hf Hs Hm Hi] Ho. split; [apply gate_well_formed; [done|apply Hf]|]. split; [left|]. done.
Qed.

Lemma wp_investigate r request ttlResult log :
  ok log -> read log r -> admitted r -> running r request -> existsb asks log = false ->
  wpl (investigate cfg r request ttlResult) log (ends_stored r).
Proof.
  intros Hok Hr Hadm Hrun Hask. unfold investigate.
  assert (Hspec : ir_Spec request = ir_Spec r) by apply Hrun.
  assert (Hns : om_Namespace (ir_Meta request) = om_Namespace (ir_Meta r)) by apply Hrun.
  eapply (wp_bind_log _ _ _ _ (fun res log' => existsb asks log' = false /\ forall preflight, res = Ok preflight ->
    if icf_Service cfg then Ev (IPreflight (om_Namespace (ir_Meta r)) (ir_Spec r)) (Ok preflight) ∈ log'
    else FirstIssue preflight <> None)).
  { unfold runPreflight. destruct (icf_Service cfg); [|apply wp_ret; [done|]; split; [done|]; by intros p [= <-]].
    apply wp_free; [done|done|]. intros x log1 Hok1 ->. apply wp_ret; [done|]. split; [by apply asks_snoc|].
    intros p ->. rewrite Hspec, Hns. apply snoc_elem. }
  intros [preflight|e] log1 Hok1 Hc1 [Hask1 Hpre]; [|by apply wp_ret]. specialize (Hpre preflight eq_refl).
  apply wp_free; [done|done|]. intros now log2 Hok2 ->.
  eapply (wp_bind_log _ _ _ _ (fun res log' => existsb asks log' = false /\ forall evidence, res = Ok evidence ->
    obtained log' r preflight evidence)).
  { unfold runCollectEvidence, obtained. destruct (icf_Service cfg).
    - apply wp_free; [done|done|]. intros x log3 Hok3 ->. apply wp_ret; [done|].
      split; [by apply asks_snoc, asks_snoc|]. intros evidence ->. split.
      + eapply continues_elem; [|done]. log_steps.
      + exists now. rewrite Hspec. apply snoc_elem.
    - apply wp_ret; [done|]. split; [by apply asks_snoc|]. by intros evidence [= <-]. }
  intros [evidence|e] log3 Hok3 Hc3 [Hask3 Hobt]; [|by apply wp_ret]. specialize (Hobt evidence eq_refl).
  assert (Hr3 : read log3 r) by (eapply read_mono; [|done]; log_steps).
  rewrite Hspec. destruct (evaluateEvidenceRequirements (ir_Spec r) evidence) as [gate|] eqn:Hgate.
  - assert (Hrun' := gate_running _ _ gate Hrun). cbv zeta.
    destruct (gt_Complete gate) eqn:Hcomplete; cbn [negb]; [destruct (gt_NoIssueFound gate) eqn:Hnone|].
    + apply wp_free; [done|done|]. intros now' log4 Hok4 ->. apply wp_finish_core; [done| |done| |apply agree_no_issue].
      * eapply read_mono; [|done]. log_steps.
      * rewrite core_no_issue. apply gate_outcome; [done|]. right; left.
    + apply wp_analyze_run; try done. intros g Hg. rewrite Hgate in Hg. by simplify_eq.
    + apply wp_free; [done|done|]. intros now' log4 Hok4 ->. apply wp_finish_core; [done| |done| |apply agree_inconclusive].
      * eapply read_mono; [|done]. log_steps.
      * rewrite core_inconclusive. apply gate_outcome; [done|]. left.
  - apply wp_analyze_run; try done. intros g Hg. congruence.
Qed.

Lemma started_running r now startedAt : running r (startedRequest r now startedAt).
Proof.
  constructor; [apply started_fresh|by destruct r as [m ct dt sp []]|by destruct r as [m ct dt sp []]|].
  intros preflight evidence. by destruct r as [m ct dt sp []].
Qed.

Lemma started_loop r now startedAt :
  investigationLoopFailure (startedRequest r now startedAt) = investigationLoopFailure (startedRequest r 0 0).
Proof. by destruct r as [m ct dt sp []]. Qed.

Lemma failed_outcome r c now :
  fresh c -> co_Spec c = ir_Spec r -> same_object (co_Meta c) (ir_Meta r) -> outcome_core r (failed_core c now).
Proof.
  intros (Hg & Hc & Ho & Hf & Hv & Hx & Hl) Hsp Hm. split; [by apply failed_well_formed|]. split; [right; left|]. done.
Qed.

Lemma wp_execute r ttlResult log :
  ok log -> read log r -> shouldSkipInvestigationExecution r = false -> existsb asks log = false ->
  wpl (execute cfg r ttlResult) log (ends_stored r).
Proof.
  intros Hok Hr Hns Hask. unfold execute. apply wp_free; [done|done|]. intros now log1 Hok1 ->.
  eapply (wp_bind_log _ _ _ _ (fun _ log' => existsb asks log' = false)).
  { unfold startClock. destruct (_ || _); [|apply wp_ret; [done|]; by apply asks_snoc].
    apply wp_free; [done|done|]. intros t log2 Hok2 ->. apply wp_ret; [done|]. by apply asks_snoc, asks_snoc. }
  intros startedAt log2 Hok2 Hc2 Hask2. assert (Hr2 : read log2 r) by (eapply read_mono; [|done]; log_steps).
  cbv zeta. assert (Hrun := started_running r now startedAt). set (request := startedRequest r now startedAt) in *.
  destruct Hrun as [Hfresh Hsp Hm Hid] eqn:Hrun'.
  destruct (investigationLoopFailure request) as [failure|] eqn:Hloop.
  { apply wp_free; [done|done|]. intros now' log3 Hok3 ->. apply wp_finish; [done| |done|..|by apply agree_loop, Hfresh].
    1: eapply read_mono; [|done]; log_steps.
    all: rewrite core_loop by apply Hfresh; by apply (failed_outcome r (core_of request) now'). }
  rewrite Hsp. destruct (validateInvestigationRequestSpecIssue (ir_Spec r)) as [issue|] eqn:Hvalid.
  { apply wp_free; [done|done|]. intros now' log3 Hok3 ->. apply wp_finish; [done| |done|..|apply agree_invalid].
    1: eapply read_mono; [|done]; log_steps.
    all: rewrite core_invalid; by apply (failed_outcome r (core_of request) now'). }
  apply wp_investigate; try done. split; [done|]. split; [|by apply spec_valid].
  unfold request in Hloop. by rewrite started_loop in Hloop.
Qed.

(** How a run that reports no error has ended. *)
Definition reconciled namespace name log : Prop :=
  exists answer rest, log = Ev (IGet namespace name) answer :: rest /\
    match answer with
    | Err e => is_not_found e = true
    | Ok r => shouldSkipInvestigationExecution r = true \/ outcome_stored log r
    end.

Lemma reconciled_skip namespace name r log1 log :
  log1 = [Ev (IGet namespace name) (Ok r)] -> continues log1 log ->
  shouldSkipInvestigationExecution r = true \/ outcome_stored log r -> reconciled namespace name log.
Proof. intros -> [rest ->] H. by exists (Ok r), rest. Qed.

Lemma wp_reconcile namespace name :
  wpl (reconcileInvestigation cfg namespace name) [] (fun res log => rec_err res = None -> reconciled namespace name log).
Proof.
  unfold reconcileInvestigation. apply wp_free; [apply all_justified_nil|done|]. intros got log1 Hok1 Heq1.
  destruct got as [r|e].
  2:{ apply wp_ret; [done|]. intros Hres. exists (Err e), []. split; [done|]. unfold ignoreNotFound in Hres.
      by destruct (is_not_found e). }
  assert (Hr1 : read log1 r) by (exists namespace, name; subst; apply snoc_elem).
  assert (Hask1 : existsb asks log1 = false) by by subst.
  apply wp_free; [done|done|]. intros now log2 Hok2 ->.
  eapply wp_bind_log.
  { apply wp_ttl; [done|eapply read_mono; [|done]; log_steps|apply snoc_elem]. }
  intros [ttlResult finished] log3 Hok3 Hc3 Hpost.
  assert (Hc1 : continues log1 log3) by log_steps.
  destruct (shouldSkipInvestigationExecution r) eqn:Hskip.
  - destruct (_ || _); apply wp_ret; try done; intros _; by eapply reconciled_skip; [done| |left].
  - destruct (Hpost eq_refl) as (-> & Herr & ->). rewrite Herr, bool_decide_eq_false_2 by (by intros []). cbn [orb].
    eapply wp_mono; [|apply wp_continues, (wp_execute r)]; try done.
    + intros res log4 _ [Hst Hc4] Hres. eapply reconciled_skip; [done| |right; by apply Hst]. log_steps.
    + eapply read_mono; [|done]. log_steps.
    + by apply asks_snoc.
Qed.

Lemma reconcile_justified namespace name o log before ev after :
  logged (reconcileInvestigation cfg namespace name) o log -> log = before ++ ev :: after -> justified before ev.
Proof.
  intros Hrun Hlog. eapply (logged_justified justified); [|exact Hrun|exact Hlog].
  eapply wp_mono; [|apply wp_reconcile]. done.
Qed.
End Runs.

(** ** Theorems *)

(** The conditions a reader of a terminal status acts on. *)
Definition speaks_for_outcome (u : InvestigationRequest) : Prop :=
  (cond_status u conditionRemediationReady = Some ConditionTrue <-> ir_Outcome u = InvestigationOutcomeConfirmed) /\
  (cond_status u conditionReady = Some ConditionTrue <-> ir_Phase u = PhaseCompleted).

Section Theorems.
Context {U : UnicodeTables} {D : DigestPrims} {SC : StatusConditions} {CL : ConditionLaws SC} {CR : ControllerReferences}.
Context (cfg : InvestigationConfig).
Context (namespace name : string).
Implicit Type before after : ilog.

(** C5: the provider is asked only for an admitted request - one that is not
    already terminal at its generation, passes the loop policy and whose spec
    is valid - after this run's preflight and collection, on the evidence
    collected, when the required evidence is complete and points at an issue
    (or nothing is required), when no stored answer of the same execution can
    be reused; and never twice in a run. *)
Theorem provider_asked_justified o log before after spec preflight evidence now answer :
  logged (reconcileInvestigation cfg namespace name) o log ->
  log = before ++ Ev (IGenerateRCA spec preflight evidence now) answer :: after ->
  may_ask before spec preflight evidence.
Proof. intros Hrun Hlog. exact (reconcile_justified _ _ _ _ _ _ _ _ Hrun Hlog). Qed.

(** C6: a RiskSignal is created or updated only for an admitted request that
    asks for one, when preflight and collection of this run reported no issue
    and the gate was open, from what the provider said in this run or in the
    stored record of the same execution, and only when some causal claim of it
    is borne out by the collected evidence and none is contradicted. *)
Theorem risk_signal_confirmed o log before after ns signal mutate answer :
  logged (reconcileInvestigation cfg namespace name) o log ->
  log = before ++ Ev (IEnsureRiskSignal ns signal mutate) answer :: after ->
  may_ensure before ns signal mutate.
Proof. intros Hrun Hlog. exact (reconcile_justified _ _ _ _ _ _ _ _ Hrun Hlog). Qed.

(** A request is deleted only when it was read in this run, is not already
    being deleted, is terminal at its generation, has a positive TTL, and the
    TTL has passed since its completion (or the last update, or its creation). *)
Theorem investigation_deleted_only_expired o log before after r answer :
  logged (reconcileInvestigation cfg namespace name) o log ->
  log = before ++ Ev (IDelete r) answer :: after ->
  may_delete before r.
Proof. intros Hrun Hlog. exact (reconcile_justified _ _ _ _ _ _ _ _ Hrun Hlog). Qed.

(** C7: every status a run stores - checkpoint or outcome - is of a request
    read in this run that was not terminal at its generation, keeps its spec
    and identity, respects the bounds of the budget, has conditions that agree
    with its outcome, and is one of the combinations of [well_formed]: Reasoning with a reusable provider result
    and no outcome; Failed with a failure, Unknown and no verdict; Completed
    without failure, where a Confirmed or Inconclusive verdict carries the same
    outcome and a finalized execution, the gate's outcomes no execution, and
    only a Confirmed one a link to a RiskSignal. *)
Theorem stored_status_well_formed o log before after u answer :
  logged (reconcileInvestigation cfg namespace name) o log ->
  log = before ++ Ev (IUpdateStatus u) answer :: after ->
  may_store before u.
Proof. intros Hrun Hlog. exact (reconcile_justified _ _ _ _ _ _ _ _ Hrun Hlog). Qed.

(** In every terminal status a run stores, RemediationReady is True exactly
    when the outcome is Confirmed and Ready exactly when the investigation
    completed, whatever the conditions before the run were. *)
Theorem stored_conditions_agree o log before after u answer :
  logged (reconcileInvestigation cfg namespace name) o log ->
  log = before ++ Ev (IUpdateStatus u) answer :: after -> terminal_core (core_of u) ->
  speaks_for_outcome u.
Proof.
  intros Hrun Hlog Ht. destruct (reconcile_justified _ _ _ _ _ _ _ _ Hrun Hlog) as (_ & _ & _ & Hagree).
  unfold speaks_for_outcome. destruct (Hagree Ht) as [-> ->]. rewrite <- !String.eqb_eq. by destruct (ir_Outcome u == _), (ir_Phase u == _).
Qed.

(** C9: a run that ends without an error found no request, or one that was
    terminal at its generation, or has sent a status that is terminal at the
    generation of the request it read: no path gives up in between. *)
Theorem reconcile_reaches_outcome result log :
  logged (reconcileInvestigation cfg namespace name) (Some result) log ->
  rec_err result = None -> reconciled namespace name log.
Proof. intros Hrun Hres. eapply wp_exec in Hrun as [_ Hpost]; [|apply wp_reconcile]. exact (Hpost result eq_refl Hres). Qed.
End Theorems.

(** ** The theorems at the example runs *)

Section Witnesses.
#[local] Existing Instance plain_tables.
#[local] Existing Instance plain_digest.
#[local] Existing Instance plain_references.
#[local] Existing Instance plain_conditions.

Definition is_ensure (ev : event inv_op) : bool := match ev with Ev (IEnsureRiskSignal _ _ _) _ => true | _ => false end.
Definition is_store (ev : event inv_op) : bool := match ev with Ev (IUpdateStatus _) _ => true | _ => false end.

Lemma provider_asked_justified_witness :
  exists before spec preflight evidence now answer after,
    new_run.2 = before ++ Ev (IGenerateRCA spec preflight evidence now) answer :: after /\
    may_ask before spec preflight evidence.
Proof.
  destruct (log_split asks new_run.2 ltac:(vm_compute; reflexivity)) as (before & [X [] x] & after & Heq & Hp); try discriminate Hp.
  do 7 eexists. split; [exact Heq|].
  exact (provider_asked_justified ex_config "prod" "inv" _ _ _ _ _ _ _ _ _ (ex_logged zeroInvestigationStatus 1000) Heq).
Defined.

Lemma risk_signal_confirmed_witness :
  exists before ns signal mutate answer after,
    new_run.2 = before ++ Ev (IEnsureRiskSignal ns signal mutate) answer :: after /\ may_ensure before ns signal mutate.
Proof.
  destruct (log_split is_ensure new_run.2 ltac:(vm_compute; reflexivity)) as (before & [X [] x] & after & Heq & Hp); try discriminate Hp.
  do 6 eexists. split; [exact Heq|].
  exact (risk_signal_confirmed ex_config "prod" "inv" _ _ _ _ _ _ _ _ (ex_logged zeroInvestigationStatus 1000) Heq).
Defined.

Lemma investigation_deleted_only_expired_witness :
  exists before r answer after,
    (ex_run finished (1000 + seconds 60)).2 = before ++ Ev (IDelete r) answer :: after /\ may_delete before r.
Proof.
  destruct (log_split is_delete (ex_run finished (1000 + seconds 60)).2 ltac:(vm_compute; reflexivity))
    as (before & [X [] x] & after & Heq & Hp); try discriminate Hp.
  do 4 eexists. split; [exact Heq|].
  exact (investigation_deleted_only_expired ex_config "prod" "inv" _ _ _ _ _ _ (ex_logged finished (1000 + seconds 60)) Heq).
Defined.

Lemma stored_status_well_formed_witness :
  exists before u answer after,
    new_run.2 = before ++ Ev (IUpdateStatus u) answer :: after /\ may_store before u.
Proof.
  destruct (log_split is_store new_run.2 ltac:(vm_compute; reflexivity)) as (before & [X [] x] & after & Heq & Hp); try discriminate Hp.
  do 4 eexists. split; [exact Heq|].
  exact (stored_status_well_formed ex_config "prod" "inv" _ _ _ _ _ _ (ex_logged zeroInvestigationStatus 1000) Heq).
Defined.

Definition is_final (ev : event inv_op) : bool :=
  match ev with Ev (IUpdateStatus u) _ => ir_Phase u == PhaseCompleted | _ => false end.

Lemma stored_conditions_agree_witness :
  exists before u answer after,
    new_run.2 = before ++ Ev (IUpdateStatus u) answer :: after /\ terminal_core (core_of u) /\ speaks_for_outcome u.
Proof.
  destruct (log_split is_final new_run.2 ltac:(vm_compute; reflexivity)) as (before & [X [] x] & after & Heq & Hp); try discriminate Hp.
  assert (Ht : terminal_core (core_of request)) by (apply String.eqb_eq in Hp; apply elem_of_cons; left; exact Hp).
  do 4 eexists. split; [exact Heq|]. split; [exact Ht|].
  exact (stored_conditions_agree ex_config "prod" "inv" _ _ _ _ _ _ (ex_logged zeroInvestigationStatus 1000) Heq Ht).
Defined.

Lemma reconcile_reaches_outcome_witness :
  rec_err (default done_ok new_run.1) = None /\ reconciled "prod" "inv" new_run.2.
Proof.
  assert (Hres : new_run.1 = Some done_ok) by (vm_compute; reflexivity). rewrite Hres. split; [reflexivity|].
  apply (reconcile_reaches_outcome ex_config "prod" "inv" done_ok); [|reflexivity].
  rewrite <- Hres. exact (ex_logged zeroInvestigationStatus 1000).
Defined.
End Witnesses.
