(* ===== verification/SkillQualifier.v ===== *)
(** * The qualification of agent skills (internal/skillqualifier/evaluator.go)

    A corpus of cases is validated, a captured run is judged case by case in four
    dimensions, and several runs are aggregated: a case that passes in some runs
    only makes the result unstable.  Reading the files and the decode of YAML are
    not modelled. *)

From Stdlib Require Import ZArith Lia.
From stdpp Require Import base list strings gmap.
From S2P Require Import Prelude GoStrings Float64.

Definition CorpusSchemaVersion : string := "fluxseer-engineering-baseline-evals/v1".
Definition ResultSchemaVersion : string := "fluxseer-engineering-baseline-results/v1".
Definition ReportSchemaVersion : string := "fluxseer-engineering-baseline-qualification/v1".
Definition StatusPrepared : string := "PREPARED".
Definition StatusPass : string := "PASS".
Definition StatusFail : string := "FAIL".
Definition StatusUnstable : string := "UNSTABLE".

Definition validClasses : list string := ["violation"; "safe-counterexample"; "unrelated"].
Definition validDecisions : list string := ["PASS"; "NEEDS_CHANGES"; "BLOCKED"].

(** ** Data *)

Record Expectations := mkExpectations {
  xp_SkillRequired : bool;
  xp_Decision : list string;
  xp_MustIdentify : list string;
  xp_MustRecommend : list string;
  xp_MustNotFlag : list string
}.
Record Case := mkCase { ca_ID : string; ca_Class : string; ca_Critical : bool; ca_Prompt : string; ca_Expected : Expectations }.
Record Corpus := mkCorpus { co_SchemaVersion : string; co_Skill : string; co_Golden : bool; co_Purpose : string; co_Cases : list Case }.
Record CapturedResult := mkCapturedResult {
  cr_CaseID : string;
  cr_SkillActivated : bool;
  cr_Decision : string;
  cr_Identified : list string;
  cr_Recommended : list string;
  cr_Flags : list string;
  cr_TraceRef : string
}.
Record CapturedRun := mkCapturedRun { run_SchemaVersion : string; run_RunID : string; run_Cases : list CapturedResult }.

Record DimensionSummary := mkDimensionSummary { dm_Passed : Z; dm_Total : Z }.
Record ClassSummary := mkClassSummary { cls_Passed : Z; cls_Total : Z }.
Record Checks := mkChecks { ck_Activation : bool; ck_Correctness : bool; ck_Restraint : bool; ck_Actionability : bool }.
Record CaseResult := mkCaseResult {
  csr_CaseID : string;
  csr_Class : string;
  csr_Critical : bool;
  csr_SkillActivated : option bool;
  csr_Decision : string;
  csr_Expected : Expectations;
  csr_Actual : option CapturedResult;
  csr_Checks : option Checks;
  csr_Score : option float64;
  csr_Pass : option bool;
  csr_FailedChecks : list string
}.
Record Summary := mkSummary {
  sm_Cases : Z;
  sm_Executed : Z;
  sm_Activation : DimensionSummary;
  sm_Correctness : DimensionSummary;
  sm_Restraint : DimensionSummary;
  sm_Actionability : DimensionSummary;
  sm_ClassResults : gmap string ClassSummary;
  sm_FalseNegatives : Z;
  sm_FalsePositives : Z;
  sm_Overall : string
}.
Record QualificationReport := mkQualificationReport {
  qf_SchemaVersion : string;
  qf_ExecutionStatus : string;
  qf_Status : string;
  qf_Summary : Summary;
  qf_Cases : list CaseResult
}.
Record StabilityCaseResult := mkStabilityCaseResult {
  stb_CaseID : string;
  stb_Class : string;
  stb_Critical : bool;
  stb_Runs : Z;
  stb_Passed : Z;
  stb_Unstable : bool;
  stb_CriticalFailure : bool
}.
Record AggregateSummary := mkAggregateSummary {
  ag_Cases : Z;
  ag_Executions : Z;
  ag_Activation : DimensionSummary;
  ag_Correctness : DimensionSummary;
  ag_Restraint : DimensionSummary;
  ag_Actionability : DimensionSummary;
  ag_ClassResults : gmap string ClassSummary;
  ag_SemanticPassed : Z;
  ag_SemanticTotal : Z;
  ag_CriticalFalseNegatives : Z;
  ag_UnsafeApprovals : Z;
  ag_FalsePositives : Z;
  ag_UnstableCases : Z;
  ag_Overall : string
}.
Record AggregateReport := mkAggregateReport {
  ar_SchemaVersion : string;
  ar_ExecutionStatus : string;
  ar_Status : string;
  ar_Runs : Z;
  ar_Summary : AggregateSummary;
  ar_Cases : list StabilityCaseResult
}.

Definition noDimension : DimensionSummary := mkDimensionSummary 0 0.
Definition noClass : ClassSummary := mkClassSummary 0 0.
Definition count_of {A} (l : list A) : Z := Z.of_nat (length l).

(** ** Validation of a corpus *)

Definition classCount (class : string) (cases : list Case) : Z := count_of (List.filter (fun c => ca_Class c == class) cases).

Section Qualifier.
Context {U : UnicodeTables}.

(** The first complaint about a case, with the IDs before it. *)
Fixpoint validateCases (seen : list string) (cases : list Case) : option string :=
  match cases with
  | [] => None
  | item :: rest =>
      if (ca_ID item == "") || mem_str (ca_ID item) seen
      then Some ("case ids must be non-empty and unique: " +:+ quote (ca_ID item))
      else if ca_Prompt item == "" then Some ("case " +:+ quote (ca_ID item) +:+ " prompt is required")
      else if negb (mem_str (ca_Class item) validClasses)
      then Some ("case " +:+ quote (ca_ID item) +:+ " has invalid class " +:+ quote (ca_Class item))
      else if bool_decide (xp_Decision (ca_Expected item) = [])
      then Some ("case " +:+ quote (ca_ID item) +:+ " must define an expected decision")
      else
        match find_first (fun d => if mem_str d validDecisions then None else Some d) (xp_Decision (ca_Expected item)) with
        | Some decision => Some ("case " +:+ quote (ca_ID item) +:+ " has invalid expected decision " +:+ quote decision)
        | None => validateCases (ca_ID item :: seen) rest
        end
  end.

Definition ValidateCorpus (corpus : Corpus) : option error :=
  let cases := co_Cases corpus in
  errorf <$>
    (if co_SchemaVersion corpus != CorpusSchemaVersion
     then Some ("corpus schema " +:+ quote (co_SchemaVersion corpus) +:+ " does not match " +:+ quote CorpusSchemaVersion)
     else if co_Skill corpus == "" then Some "corpus skill is required"
     else if bool_decide (cases = []) then Some "corpus must contain at least one case"
     else
       match validateCases [] cases with
       | Some complaint => Some complaint
       | None =>
           match find_first (fun class => if classCount class cases =? 0 then Some class else None) validClasses with
           | Some class => Some ("corpus must include class " +:+ quote class)
           | None =>
               if co_Golden corpus
                  && (negb (count_of cases =? 13) || negb (classCount "violation" cases =? 5)
                      || negb (classCount "safe-counterexample" cases =? 5) || negb (classCount "unrelated" cases =? 3))
               then Some "golden corpus must contain 13 cases split 5 violation, 5 safe-counterexample, 3 unrelated"
               else None
           end
       end).

(** ** A run *)

Definition containsAny (values : list string) (expected : string) : bool := mem_str expected values.
Definition containsAll (values expected : list string) : bool := forallb (containsAny values) expected.
Definition containsNone (values forbidden : list string) : bool := forallb (fun item => negb (containsAny values item)) forbidden.

Definition caseChecks (item : Case) (actual : CapturedResult) : Checks :=
  let x := ca_Expected item in
  mkChecks (eqb (cr_SkillActivated actual) (xp_SkillRequired x))
    (containsAny (xp_Decision x) (cr_Decision actual) && containsAll (cr_Identified actual) (xp_MustIdentify x))
    (containsNone (cr_Flags actual) (xp_MustNotFlag x))
    (containsAll (cr_Recommended actual) (xp_MustRecommend x)).
Definition allChecks (c : Checks) : bool := ck_Activation c && ck_Correctness c && ck_Restraint c && ck_Actionability c.

Definition evaluateCase (item : Case) (actual : CapturedResult) : CaseResult :=
  let c := caseChecks item actual in
  let score := fold_left (fun s (b : bool) => if b then float_add s (float_of_int 1) else s)
                 [ck_Activation c; ck_Correctness c; ck_Restraint c; ck_Actionability c] float_zero in
  mkCaseResult (ca_ID item) (ca_Class item) (ca_Critical item) (Some (cr_SkillActivated actual)) (cr_Decision actual)
    (ca_Expected item) (Some actual) (Some c) (Some (float_div score (float_of_int 4))) (Some (allChecks c))
    ((if ck_Activation c then [] else ["activation"]) ++ (if ck_Correctness c then [] else ["correctness"])
     ++ (if ck_Restraint c then [] else ["restraint"]) ++ (if ck_Actionability c then [] else ["actionability"])).

Definition accumulateDimension (d : DimensionSummary) (passed : bool) : DimensionSummary :=
  mkDimensionSummary (dm_Passed d + if passed then 1 else 0) (dm_Total d + 1).

Definition classOf (classes : gmap string ClassSummary) (class : string) : ClassSummary := default noClass (classes !! class).

Definition accumulateSummary (s : Summary) (item : Case) (checks : Checks) (passed : bool) : Summary :=
  let class := classOf (sm_ClassResults s) (ca_Class item) in
  mkSummary (sm_Cases s) (sm_Executed s) (accumulateDimension (sm_Activation s) (ck_Activation checks))
    (accumulateDimension (sm_Correctness s) (ck_Correctness checks)) (accumulateDimension (sm_Restraint s) (ck_Restraint checks))
    (accumulateDimension (sm_Actionability s) (ck_Actionability checks))
    (<[ca_Class item := mkClassSummary (cls_Passed class + if passed then 1 else 0) (cls_Total class + 1)]> (sm_ClassResults s))
    (sm_FalseNegatives s + if negb passed && (ca_Class item == "violation") && negb (ck_Correctness checks) then 1 else 0)
    (sm_FalsePositives s + if negb passed && (ca_Class item != "violation") then 1 else 0)
    (sm_Overall s).

Definition preparedCases (cases : list Case) : list CaseResult :=
  map (fun c => mkCaseResult (ca_ID c) (ca_Class c) (ca_Critical c) None "" (ca_Expected c) None None None None []) cases.

Definition PreparedReport (corpus : Corpus) : QualificationReport :=
  let cases := co_Cases corpus in
  let classes := fold_left (fun m c => let class := classOf m (ca_Class c) in
                              <[ca_Class c := mkClassSummary (cls_Passed class) (cls_Total class + 1)]> m) cases ∅ in
  mkQualificationReport ReportSchemaVersion StatusPrepared StatusPrepared
    (mkSummary (count_of cases) 0 noDimension noDimension noDimension noDimension classes 0 0 StatusPrepared)
    (preparedCases cases).

(** The results by case; a second result of a case, or one with an unknown decision, is an error. *)
Fixpoint capturedByID (known : gmap string CapturedResult) (items : list CapturedResult) : result (gmap string CapturedResult) :=
  match items with
  | [] => Ok known
  | item :: rest =>
      if (cr_CaseID item == "") || bool_decide (is_Some (known !! cr_CaseID item))
      then Err (errorf ("captured case ids must be non-empty and unique: " +:+ quote (cr_CaseID item)))
      else if negb (mem_str (cr_Decision item) validDecisions)
      then Err (errorf ("captured case " +:+ quote (cr_CaseID item) +:+ " has invalid decision " +:+ quote (cr_Decision item)))
      else capturedByID (<[cr_CaseID item := item]> known) rest
  end.

(** The loop over the cases of the corpus. *)
Fixpoint evaluateCases (byID : gmap string CapturedResult) (cases : list Case) (s : Summary) : result (Summary * list CaseResult) :=
  match cases with
  | [] => Ok (s, [])
  | item :: rest =>
      match byID !! ca_ID item with
      | None => Err (errorf ("captured run is missing case " +:+ quote (ca_ID item)))
      | Some actual =>
          let c := caseChecks item actual in
          match evaluateCases byID rest (accumulateSummary s item c (allChecks c)) with
          | Ok (s, results) => Ok (s, evaluateCase item actual :: results)
          | Err e => Err e
          end
      end
  end.

Definition passes (r : CaseResult) : bool := match csr_Pass r with Some b => b | None => false end.

Definition Evaluate (corpus : Corpus) (captured : CapturedRun) : result QualificationReport :=
  match ValidateCorpus corpus with
  | Some e => Err e
  | None =>
      if negb (count_of (run_Cases captured) =? count_of (co_Cases corpus))
      then Err (errorf ("captured run has " +:+ itoa (count_of (run_Cases captured)) +:+ " cases; corpus requires "
                        +:+ itoa (count_of (co_Cases corpus))))
      else
        byID <-! capturedByID ∅ (run_Cases captured);
        let prepared := qf_Summary (PreparedReport corpus) in
        match evaluateCases byID (co_Cases corpus)
                (mkSummary (sm_Cases prepared) (count_of (run_Cases captured)) (sm_Activation prepared) (sm_Correctness prepared)
                   (sm_Restraint prepared) (sm_Actionability prepared) (sm_ClassResults prepared) 0 0 StatusPass) with
        | Err e => Err e
        | Ok (s, results) =>
            let status := if forallb passes results then StatusPass else StatusFail in
            Ok (mkQualificationReport ReportSchemaVersion "EXECUTED" status
                  (mkSummary (sm_Cases s) (sm_Executed s) (sm_Activation s) (sm_Correctness s) (sm_Restraint s)
                     (sm_Actionability s) (sm_ClassResults s) (sm_FalseNegatives s) (sm_FalsePositives s) status)
                  results)
        end
  end.

(** ** Several runs *)

Definition accumulateAggregateDimensions (s : AggregateSummary) (c : Checks) : AggregateSummary :=
  mkAggregateSummary (ag_Cases s) (ag_Executions s) (accumulateDimension (ag_Activation s) (ck_Activation c))
    (accumulateDimension (ag_Correctness s) (ck_Correctness c)) (accumulateDimension (ag_Restraint s) (ck_Restraint c))
    (accumulateDimension (ag_Actionability s) (ck_Actionability c)) (ag_ClassResults s) (ag_SemanticPassed s) (ag_SemanticTotal s)
    (ag_CriticalFalseNegatives s) (ag_UnsafeApprovals s) (ag_FalsePositives s) (ag_UnstableCases s) (ag_Overall s).

Definition addUnsafeApproval (s : AggregateSummary) : AggregateSummary :=
  mkAggregateSummary (ag_Cases s) (ag_Executions s) (ag_Activation s) (ag_Correctness s) (ag_Restraint s) (ag_Actionability s)
    (ag_ClassResults s) (ag_SemanticPassed s) (ag_SemanticTotal s) (ag_CriticalFalseNegatives s) (ag_UnsafeApprovals s + 1)
    (ag_FalsePositives s) (ag_UnstableCases s) (ag_Overall s).

(** The result of one case in one run: the passes so far, a critical failure so far, the summary. *)
Definition observeRun (item : Case) (acc : Z * bool * AggregateSummary) (r : CaseResult) : Z * bool * AggregateSummary :=
  let '(passed, critical, s) := acc in
  let passed := if passes r then passed + 1 else passed in
  match csr_Checks r with
  | None => (passed, critical, s)
  | Some c =>
      let s := accumulateAggregateDimensions s c in
      (passed, critical || (ca_Critical item && negb (ck_Correctness c)),
       if (ca_Class item == "violation") && (csr_Decision r == "PASS") then addUnsafeApproval s else s)
  end.

(** One case over the runs: its stability and what it adds to the summary. *)
Definition stabilityCase (item : Case) (results : list CaseResult) (s : AggregateSummary) : StabilityCaseResult * AggregateSummary :=
  let runs := count_of results in
  let '(passed, critical, s) := fold_left (observeRun item) results (0, false, s) in
  let unstable := (0 <? passed) && (passed <? runs) in
  let class := classOf (ag_ClassResults s) (ca_Class item) in
  (mkStabilityCaseResult (ca_ID item) (ca_Class item) (ca_Critical item) runs passed unstable critical,
   mkAggregateSummary (ag_Cases s) (ag_Executions s) (ag_Activation s) (ag_Correctness s) (ag_Restraint s) (ag_Actionability s)
     (<[ca_Class item := mkClassSummary (cls_Passed class + passed) (cls_Total class + runs)]> (ag_ClassResults s))
     (ag_SemanticPassed s + passed) (ag_SemanticTotal s + runs)
     (ag_CriticalFalseNegatives s + if critical then 1 else 0) (ag_UnsafeApprovals s)
     (ag_FalsePositives s + if (ca_Class item != "violation") && (passed <? runs) then 1 else 0)
     (ag_UnstableCases s + if unstable then 1 else 0) (ag_Overall s)).

(** The loop over the cases; [index] is the position of the case in each run's report, and a
    report with fewer cases is an index panic. *)
Fixpoint aggregateCases (perRun : list QualificationReport) (index : nat) (cases : list Case) (s : AggregateSummary) :
    option (list StabilityCaseResult * AggregateSummary) :=
  match cases with
  | [] => Some ([], s)
  | item :: rest =>
      match mapM (fun report => qf_Cases report !! index) perRun with
      | None => None
      | Some results =>
          let '(stability, s) := stabilityCase item results s in
          match aggregateCases perRun (S index) rest s with
          | None => None
          | Some (others, s) => Some (stability :: others, s)
          end
      end
  end.

(** The reports of the runs, up to the first that is refused. *)
Fixpoint evaluateEach (corpus : Corpus) (index : nat) (runs : list CapturedRun) : result (list QualificationReport) :=
  match runs with
  | [] => Ok []
  | captured :: rest =>
      let id := if run_RunID captured == "" then "run-" +:+ itoa (Z.of_nat index + 1) else run_RunID captured in
      match Evaluate corpus captured with
      | Err e => Err (wrapf ("evaluate " +:+ id) e)
      | Ok report => others <-! evaluateEach corpus (S index) rest; Ok (report :: others)
      end
  end.

Definition aggregateStatus (unstable : Z) (cases : list StabilityCaseResult) : string :=
  if 0 <? unstable then StatusUnstable
  else if existsb (fun c => negb (stb_Passed c =? stb_Runs c) || stb_CriticalFailure c) cases then StatusFail
  else StatusPass.

(** [None] is the index panic. *)
Definition EvaluateRuns (corpus : Corpus) (runs : list CapturedRun) : option (result AggregateReport) :=
  if bool_decide (runs = []) then Some (Err (errorf "at least one captured run is required"))
  else
    match ValidateCorpus corpus with
    | Some e => Some (Err e)
    | None =>
        match evaluateEach corpus 0 runs with
        | Err e => Some (Err e)
        | Ok perRun =>
            let n := count_of perRun in
            match aggregateCases perRun 0 (co_Cases corpus)
                    (mkAggregateSummary (count_of (co_Cases corpus)) (n * count_of (co_Cases corpus)) noDimension noDimension noDimension
                       noDimension ∅ 0 0 0 0 0 0 "") with
            | None => None
            | Some (cases, s) =>
                let status := aggregateStatus (ag_UnstableCases s) cases in
                Some (Ok (mkAggregateReport ReportSchemaVersion "EXECUTED" status n
                            (mkAggregateSummary (ag_Cases s) (ag_Executions s) (ag_Activation s) (ag_Correctness s) (ag_Restraint s)
                               (ag_Actionability s) (ag_ClassResults s) (ag_SemanticPassed s) (ag_SemanticTotal s)
                               (ag_CriticalFalseNegatives s) (ag_UnsafeApprovals s) (ag_FalsePositives s) (ag_UnstableCases s) status)
                            cases))
            end
        end
    end.

Definition SortedClassNames (s : Summary) : list string := sort_stable str_ltb (map fst (map_to_list (sm_ClassResults s))).


(** ** The reference *)

(** The captured run answers every case of the corpus once, with a decision the evaluator knows. *)
Definition answers (corpus : Corpus) (captured : CapturedRun) : Prop :=
  Permutation (map cr_CaseID (run_Cases captured)) (map ca_ID (co_Cases corpus)) /\
  Forall (fun r => mem_str (cr_Decision r) validDecisions = true) (run_Cases captured).

(** The run's answer to the case passes its four checks. *)
Definition passedBy (item : Case) (captured : CapturedRun) : bool :=
  existsb (fun r => (cr_CaseID r == ca_ID item) && allChecks (caseChecks item r)) (run_Cases captured).

Definition mixed (runs : list CapturedRun) (item : Case) : bool :=
  existsb (passedBy item) runs && negb (forallb (passedBy item) runs).

Definition runsStatus (corpus : Corpus) (runs : list CapturedRun) : string :=
  if forallb (fun item => forallb (passedBy item) runs) (co_Cases corpus) then StatusPass
  else if existsb (mixed runs) (co_Cases corpus) then StatusUnstable
  else StatusFail.

(** ** Lemmas *)

Lemma validateCases_ids seen cases :
  validateCases seen cases = None ->
  NoDup (map ca_ID cases) /\ Forall (fun c => ca_ID c <> "" /\ ca_ID c ∉ seen) cases.
Proof.
  revert seen. induction cases as [|c rest IH]; intros seen; simpl; [split; constructor|].
  intros H. repeat (case_match; try discriminate). apply IH in H as [Hnd Hall]. go_bool.
  assert (mem_str (ca_ID c) seen = false) as Hseen by done. assert (ca_ID c <> "") by done. apply mem_str_false in Hseen. split.
  - constructor; [|done]. intros (c' & Hid & Hc')%list_elem_of_fmap.
    rewrite Forall_forall in Hall. destruct (Hall c' Hc') as [_ Hx]. apply Hx. rewrite Hid. constructor.
  - constructor; [done|]. eapply Forall_impl; [exact Hall|]. simpl. intros x [? Hx]. split; [done|].
    intros ?. apply Hx. by constructor.
Qed.

Lemma corpus_ids corpus :
  ValidateCorpus corpus = None ->
  NoDup (map ca_ID (co_Cases corpus)) /\ Forall (fun c => ca_ID c <> "") (co_Cases corpus).
Proof.
  unfold ValidateCorpus. intros H. destruct (validateCases [] (co_Cases corpus)) eqn:E; [exfalso|].
  - repeat (case_match; simpl in H; try discriminate).
  - apply validateCases_ids in E as [Hnd Hall]. split; [done|]. eapply Forall_impl; [exact Hall|]. naive_solver.
Qed.

Lemma capturedByID_total items known :
  NoDup (map cr_CaseID items) -> Forall (fun r => mem_str (cr_Decision r) validDecisions = true) items ->
  Forall (fun r => cr_CaseID r <> "" /\ known !! cr_CaseID r = None) items ->
  exists m, capturedByID known items = Ok m /\ (forall r, r ∈ items -> m !! cr_CaseID r = Some r) /\
    (forall k, k ∉ map cr_CaseID items -> m !! k = known !! k).
Proof.
  revert known. induction items as [|r rest IH]; intros known Hnd Hdec Hid; cbn [capturedByID].
  { exists known. split; [done|]. split; [intros r Hr; inversion Hr | done]. }
  inversion Hnd as [|? ? Hnew Hnd']; subst. inversion Hdec as [|? ? Hr Hdec']; subst.
  inversion Hid as [|? ? [Hne Hnone] Hid']; subst.
  rewrite bool_decide_eq_false_2 by (rewrite Hnone; intros [? ?]; done).
  rewrite (proj2 (String.eqb_neq _ _) Hne), Hr. cbn [orb negb].
  destruct (IH (<[cr_CaseID r := r]> known)) as (m & -> & Hin & Hout); [done | done | |].
  { rewrite Forall_forall in Hid' |- *. intros x Hx. destruct (Hid' x Hx) as [? ?]. split; [done|].
    rewrite lookup_insert_ne; [done|]. intros E. apply Hnew. rewrite E. apply list_elem_of_fmap. eauto. }
  exists m. split; [done|]. split.
  - intros x Hx. apply elem_of_cons in Hx as [->|Hx]; [|by apply Hin].
    rewrite Hout by done. apply lookup_insert_eq.
  - intros k Hk. apply not_elem_of_cons in Hk as [Hk1 Hk2]. rewrite Hout by done.
    by rewrite lookup_insert_ne.
Qed.

(** The loop over the cases, with the results it leaves. *)
Lemma evaluateCases_total byID cases s :
  Forall (fun c => is_Some (byID !! ca_ID c)) cases ->
  exists s', evaluateCases byID cases s =
    Ok (s', omap (fun c => evaluateCase c <$> byID !! ca_ID c) cases).
Proof.
  revert s. induction cases as [|c rest IH]; intros s H; simpl; [eauto|].
  inversion H as [|? ? [r Hr] H']; subst. rewrite Hr. simpl.
  destruct (IH (accumulateSummary s c (caseChecks c r) (allChecks (caseChecks c r))) H') as [s' ->]. eauto.
Qed.

(** A case's result agrees with the run, and a failed correctness check fails the case. *)
Definition sound_checks (r : CaseResult) : Prop :=
  exists c, csr_Checks r = Some c /\ (ck_Correctness c = false -> passes r = false).
Definition judged (item : Case) (captured : CapturedRun) (r : CaseResult) : Prop :=
  passes r = passedBy item captured /\ sound_checks r.

(** What the report of one run says of a case. *)
Definition reportOf (corpus : Corpus) (captured : CapturedRun) (report : QualificationReport) : Prop :=
  Forall2 (fun item r => judged item captured r)
    (co_Cases corpus) (qf_Cases report).

Lemma Evaluate_report corpus captured :
  ValidateCorpus corpus = None -> answers corpus captured ->
  exists report, Evaluate corpus captured = Ok report /\ reportOf corpus captured report.
Proof.
  intros Hv [Hp Hdec]. pose proof (corpus_ids corpus Hv) as [Hnd Hne]. unfold Evaluate. rewrite Hv.
  assert (length (run_Cases captured) = length (co_Cases corpus)) as Hlen.
  { apply Permutation_length in Hp. by rewrite !length_map in Hp. }
  unfold count_of at 1 2. rewrite Hlen, Z.eqb_refl. simpl negb. cbv iota.
  assert (forall r, r ∈ run_Cases captured -> exists c, c ∈ co_Cases corpus /\ ca_ID c = cr_CaseID r) as Hcase.
  { intros r Hr. assert (cr_CaseID r ∈ map ca_ID (co_Cases corpus)) as (c & ? & ?)%list_elem_of_fmap;
      [rewrite <- Hp; apply list_elem_of_fmap; eauto | eauto]. }
  rewrite Forall_forall in Hne.
  destruct (capturedByID_total (run_Cases captured) ∅) as (m & -> & Hin & _); [by rewrite Hp | done | |].
  { apply Forall_forall. intros r Hr. split; [|apply lookup_empty].
    destruct (Hcase r Hr) as (c & Hc & <-). by apply Hne. }
  assert (forall c, c ∈ co_Cases corpus -> exists r, r ∈ run_Cases captured /\ cr_CaseID r = ca_ID c) as Hrun.
  { intros c Hc. assert (ca_ID c ∈ map cr_CaseID (run_Cases captured)) as (r & ? & ?)%list_elem_of_fmap;
      [rewrite Hp; apply list_elem_of_fmap; eauto | eauto]. }
  assert (NoDup (map cr_CaseID (run_Cases captured))) as Hnd2 by (by rewrite Hp).
  simpl rbind.
  match goal with |- context [evaluateCases m (co_Cases corpus) ?s] =>
    destruct (evaluateCases_total m (co_Cases corpus) s) as [s' ->] end.
  { apply Forall_forall. intros c Hc. destruct (Hrun c Hc) as (r & Hr & <-). rewrite (Hin r Hr). eauto. }
  eexists. split; [reflexivity|]. unfold reportOf. cbn [qf_Cases].
  assert (forall c, c ∈ co_Cases corpus -> exists r, m !! ca_ID c = Some r /\ allChecks (caseChecks c r) = passedBy c captured) as Hall.
  { intros c Hc. destruct (Hrun c Hc) as (r & Hr & Hid). exists r. split; [by rewrite <- Hid, (Hin r Hr)|].
    apply eq_true_iff_eq. unfold passedBy. rewrite existsb_elem. split.
    - intros Ha. exists r. split; [done|]. by rewrite Hid, String.eqb_refl.
    - intros (r' & Hr' & H). apply andb_true_iff in H as [Hid' Ha]. apply String.eqb_eq in Hid'.
      assert (Some r = Some r') as [= ->]; [|done]. rewrite <- (Hin r Hr), <- (Hin r' Hr'). by rewrite Hid, Hid'. }
  clear -Hall. induction (co_Cases corpus) as [|c rest IH]; simpl; [constructor|].
  destruct (Hall c) as (r & -> & Ha); [constructor|]. simpl. constructor.
  - split; [exact Ha|]. eexists. split; [reflexivity|]. intros Hc.
    change (allChecks (caseChecks c r) = false). unfold allChecks. rewrite Hc. by destruct (ck_Activation _).
  - apply IH. intros c' Hc'. apply Hall. by constructor.
Qed.

Lemma evaluateEach_total corpus runs index :
  ValidateCorpus corpus = None -> Forall (answers corpus) runs ->
  exists perRun, evaluateEach corpus index runs = Ok perRun /\ Forall2 (reportOf corpus) runs perRun.
Proof.
  intros Hv. revert index. induction runs as [|r rest IH]; intros index H; simpl; [eexists; split; [done|constructor]|].
  inversion H as [|? ? Hr Hrest]; subst. destruct (Evaluate_report corpus r Hv Hr) as (report & -> & Hrep).
  destruct (IH (S index) Hrest) as (perRun & -> & Hall). simpl. eexists. split; [done|]. by constructor.
Qed.

(** The observations of a case: a critical failure is a run that did not pass. *)
Lemma observeRuns item results (acc : Z * bool * AggregateSummary) :
  Forall sound_checks results ->
  let out := fold_left (observeRun item) results acc in
  out.1.1 = acc.1.1 + count_of (List.filter passes results) /\
  (out.1.2 = true -> acc.1.2 = true \/ forallb passes results = false) /\
  ag_UnstableCases out.2 = ag_UnstableCases acc.2.
Proof.
  revert acc. induction results as [|r rest IH]; intros [[passed critical] s] H; simpl.
  { unfold count_of. simpl. split; [lia|]. split; [by left | done]. }
  inversion H as [|? ? (c & Hc & Himp) H']; subst. rewrite Hc.
  match goal with |- context [fold_left (observeRun item) rest ?a] => destruct (IH a H') as (-> & Hcrit & ->) end.
  cbn [fst snd] in *. split; [|split].
  - destruct (passes r); unfold count_of; simpl; lia.
  - intros Ht. destruct (Hcrit Ht) as [Hx|Hx]; [|right; by rewrite Hx, andb_false_r].
    apply orb_true_iff in Hx as [Hx|Hx]; [by left|]. go_bool. right. rewrite Himp; [done | by destruct (ck_Correctness c)].
  - by repeat case_match.
Qed.

Lemma count_passes {A} (f : A -> bool) l :
  (0 <=? count_of (List.filter f l)) = true /\ (count_of (List.filter f l) <=? count_of l) = true /\
  (0 <? count_of (List.filter f l)) = existsb f l /\
  (count_of (List.filter f l) <? count_of l) = negb (forallb f l) /\
  (count_of (List.filter f l) =? count_of l) = forallb f l.
Proof.
  unfold count_of. induction l as [|a l (IH1 & IH2 & IH3 & IH4 & IH5)]; simpl; [done|].
  rewrite Z.leb_le in IH2.
  destruct (f a); simpl length; simpl orb; simpl andb; rewrite <- ?IH3, <- ?IH4, <- ?IH5; repeat split;
    try (apply Z.leb_le; lia); try (apply Z.ltb_lt; lia).
  - apply eq_true_iff_eq. rewrite !Z.ltb_lt. lia.
  - apply eq_true_iff_eq. rewrite !Z.eqb_eq. lia.
  - apply Z.eqb_neq. lia.
Qed.

(** One case of the aggregate, against the runs. *)
Definition stableFor (runs : list CapturedRun) (item : Case) (st : StabilityCaseResult) : Prop :=
  stb_CaseID st = ca_ID item /\ stb_Runs st = count_of runs /\
  stb_Passed st = count_of (List.filter (passedBy item) runs) /\ stb_Unstable st = mixed runs item /\
  (stb_CriticalFailure st = true -> forallb (passedBy item) runs = false).

Lemma stabilityCase_stable item runs results s :
  Forall2 (judged item) runs results ->
  stableFor runs item (stabilityCase item results s).1 /\
  ag_UnstableCases (stabilityCase item results s).2 = ag_UnstableCases s + if mixed runs item then 1 else 0.
Proof.
  intros H. unfold stabilityCase, stableFor, mixed.
  destruct (observeRuns item results (0, false, s)) as (Hp & Hc & Hu).
  { apply Forall_forall. intros r Hr. apply list_elem_of_lookup in Hr as [i Hi].
    destruct (Forall2_lookup_r _ _ _ _ _ H Hi) as (x & _ & _ & Hx). exact Hx. }
  destruct (fold_left _ _ _) as [[passed critical] s1]. cbn [fst snd] in *. subst passed.
  assert (count_of (List.filter passes results) = count_of (List.filter (passedBy item) runs)
          /\ count_of results = count_of runs /\ forallb passes results = forallb (passedBy item) runs) as (E1 & E2 & E3).
  { clear -H. unfold count_of. induction H as [|captured r runs results [H _] _ (IH1 & IH2 & IH3)]; simpl; [done|].
    rewrite H, IH3. destruct (passedBy item captured); simpl; repeat split; lia. }
  destruct (count_passes (passedBy item) runs) as (_ & _ & F1 & F2 & _).
  rewrite Hu, E1, E2, Z.add_0_l, F1, F2. cbn. repeat split.
  intros Ht. destruct (Hc Ht) as [?|Hx]; [done|]. by rewrite <- E3.
Qed.

Lemma aggregateCases_total runs perRun cases index s :
  Forall2 (fun captured report => Forall2 (fun item r => judged item captured r)
             cases (drop index (qf_Cases report))) runs perRun ->
  exists out s', aggregateCases perRun index cases s = Some (out, s') /\ Forall2 (stableFor runs) cases out /\
    ag_UnstableCases s' = ag_UnstableCases s + count_of (List.filter (mixed runs) cases).
Proof.
  revert index s. induction cases as [|item rest IH]; intros index s H.
  { simpl. exists [], s. split; [done|]. split; [constructor | unfold count_of; simpl; lia]. }
  assert (exists results, mapM (fun report => qf_Cases report !! index) perRun = Some results /\
    Forall2 (judged item) runs results)
    as (results & Hm & Hres).
  { clear -H. induction H as [|captured report runs perRun H _ (results & Hm & Hres)]; [exists []; split; [done|constructor]|].
    inversion H as [|? r ? others Hr Hothers E1 E2]; subst. exists (r :: results). split; [|by constructor].
    simpl. rewrite Hm. replace (qf_Cases report !! index) with (Some r); [done|].
    rewrite <- (Nat.add_0_r index), <- lookup_drop, <- E2. done. }
  destruct (stabilityCase_stable item runs results s Hres) as [Hst Hun].
  cbn [aggregateCases]. rewrite Hm. destruct (stabilityCase item results s) as [st s1]. cbn [fst snd] in *.
  destruct (IH (S index) s1) as (out & s2 & -> & Hout & Hun2).
  { eapply Forall2_impl; [exact H|]. intros captured report Hr. inversion Hr as [|? r ? others _ Hothers E1 E2]; subst.
    replace (drop (S index) (qf_Cases report)) with others; [exact Hothers|].
    rewrite <- Nat.add_1_r, <- drop_drop, <- E2. done. }
  exists (st :: out), s2. split; [done|]. split; [by constructor|]. rewrite Hun2, Hun. unfold count_of.
  cbn [List.filter]. destruct (mixed runs item); simpl length; lia.
Qed.

Lemma aggregateStatus_reference runs cases out n :
  runs <> [] -> Forall2 (stableFor runs) cases out -> n = count_of (List.filter (mixed runs) cases) ->
  aggregateStatus n out =
  if forallb (fun item => forallb (passedBy item) runs) cases then StatusPass
  else if existsb (mixed runs) cases then StatusUnstable else StatusFail.
Proof.
  intros Hne H ->. unfold aggregateStatus. destruct (count_passes (mixed runs) cases) as (_ & _ & -> & _).
  assert (forallb (fun item => forallb (passedBy item) runs) cases = true -> existsb (mixed runs) cases = false) as Hmix.
  { rewrite forallb_forall. intros Hall. apply not_true_iff_false. rewrite existsb_elem. unfold mixed.
    intros (c & Hc & Hm). rewrite Hall, andb_false_r in Hm by (by apply list_elem_of_In). done. }
  assert (existsb (fun c => negb (stb_Passed c =? stb_Runs c) || stb_CriticalFailure c) out
          = negb (forallb (fun item => forallb (passedBy item) runs) cases)) as ->.
  { clear Hmix. induction H as [|item st cases out (_ & Hr & Hp & _ & Hc) _ IH]; simpl; [done|].
    rewrite IH, Hr, Hp. destruct (count_passes (passedBy item) runs) as (_ & _ & _ & _ & ->).
    destruct (forallb (passedBy item) runs); simpl; [|done].
    destruct (stb_CriticalFailure st); [by specialize (Hc eq_refl) | done]. }
  destruct (forallb _ cases); [by rewrite Hmix | done].
Qed.

(** ** Properties *)

(** C35: several captured runs of a valid corpus, each answering every case once with a
    known decision, are always aggregated (no panic, no error), and the aggregate agrees with the
    reference: the status is PASS exactly when every case passes all its checks in every
    run, otherwise UNSTABLE when some case passes in one run and not in another, otherwise FAIL;
    each case is listed in the corpus's order with the number of runs it passed in.  A
    critical correctness failure never changes the status on its own: the critical case of
    the witness is wrong in one run and right in the other and the status is UNSTABLE, where
    test/skill/README.md says that any critical correctness failure produces FAIL. *)
Theorem runs_qualified corpus runs :
  ValidateCorpus corpus = None -> runs <> [] -> Forall (answers corpus) runs ->
  exists report, EvaluateRuns corpus runs = Some (Ok report) /\
    ar_Status report = runsStatus corpus runs /\ ar_Runs report = count_of runs /\
    map (fun c => (stb_CaseID c, stb_Passed c)) (ar_Cases report) =
    map (fun item => (ca_ID item, count_of (List.filter (passedBy item) runs))) (co_Cases corpus).
Proof.
  intros Hv Hne Ha. unfold EvaluateRuns. rewrite bool_decide_eq_false_2, Hv by done.
  destruct (evaluateEach_total corpus runs 0 Hv Ha) as (perRun & -> & Hper).
  match goal with |- context [aggregateCases perRun 0 _ ?s] =>
    destruct (aggregateCases_total runs perRun (co_Cases corpus) 0 s) as (out & s' & -> & Hout & Hun) end.
  { eapply Forall2_impl; [exact Hper|]. intros ? ?. unfold reportOf. by rewrite drop_0. }
  cbn [ag_UnstableCases] in Hun. eexists. split; [reflexivity|]. cbn [ar_Status ar_Runs ar_Cases]. split; [|split].
  - unfold runsStatus. apply aggregateStatus_reference; [done | done | lia].
  - unfold count_of. by rewrite (Forall2_length _ _ _ Hper).
  - clear -Hout. induction Hout as [|item st cases out (Hid & _ & Hp & _) _ IH]; simpl; [done | by rewrite Hid, Hp, IH].
Qed.

(** The class totals: [PreparedReport] counts the cases, and [accumulateSummary] counts them again. *)
Lemma preparedTotals cases classes class :
  cls_Total (classOf (fold_left (fun m c => let entry := classOf m (ca_Class c) in
     <[ca_Class c := mkClassSummary (cls_Passed entry) (cls_Total entry + 1)]> m) cases classes) class)
  = cls_Total (classOf classes class) + classCount class cases.
Proof.
  revert classes. induction cases as [|c rest IH]; intros classes; simpl; [unfold classCount, count_of; simpl; lia|].
  rewrite IH. unfold classCount, count_of, classOf at 1. simpl. destruct (String.eqb_spec (ca_Class c) class) as [->|Hne].
  - rewrite lookup_insert_eq. simpl. lia.
  - rewrite lookup_insert_ne by done. fold (classOf classes class). lia.
Qed.

Lemma evaluateCases_totals byID cases s s' results class :
  evaluateCases byID cases s = Ok (s', results) ->
  cls_Total (classOf (sm_ClassResults s') class) = cls_Total (classOf (sm_ClassResults s) class) + classCount class cases.
Proof.
  revert s s' results. induction cases as [|c rest IH]; intros s s' results; simpl.
  { intros [= <- <-]. unfold classCount, count_of. simpl. lia. }
  destruct (byID !! ca_ID c) as [r|]; [|done]. destruct (evaluateCases byID rest _) as [[s1 others]|e] eqn:E; [|done].
  intros [= <- _]. rewrite (IH _ _ _ E). simpl. unfold classCount, count_of, classOf at 1. simpl.
  destruct (String.eqb_spec (ca_Class c) class) as [->|Hne].
  - rewrite lookup_insert_eq. simpl. lia.
  - rewrite lookup_insert_ne by done. fold (classOf (sm_ClassResults s) class). lia.
Qed.

Theorem class_totals_counted_twice corpus captured report class :
  Evaluate corpus captured = Ok report ->
  cls_Total (classOf (sm_ClassResults (qf_Summary report)) class) = 2 * classCount class (co_Cases corpus).
Proof.
  unfold Evaluate. intros H. case_match; [done|]. case_match; [done|]. apply rbind_Ok in H as (byID & _ & H).
  case_match; [|done]. case_match. simplify_eq. simpl.
  match goal with E : evaluateCases _ _ _ = Ok _ |- _ => rewrite (evaluateCases_totals _ _ _ _ _ class E) end.
  cbn [sm_ClassResults PreparedReport qf_Summary]. rewrite preparedTotals. unfold classOf. rewrite lookup_empty. simpl. lia.
Qed.

End Qualifier.

(** ** Example: a violation caught in one of two runs *)

#[local] Existing Instance plain_tables.

Definition exampleCases : list Case :=
  [mkCase "v" "violation" true "p" (mkExpectations true ["BLOCKED"] ["leak"] [] []);
   mkCase "s" "safe-counterexample" false "p" (mkExpectations true ["PASS"] [] [] ["leak"]);
   mkCase "u" "unrelated" false "p" (mkExpectations false ["PASS"] [] [] [])].
Definition exampleCorpus : Corpus := mkCorpus CorpusSchemaVersion "skill" false "" exampleCases.
Definition exampleRun (decision : string) : CapturedRun :=
  mkCapturedRun ResultSchemaVersion "r"
    [mkCapturedResult "u" false "PASS" [] [] [] ""; mkCapturedResult "v" true decision ["leak"] [] [] "";
     mkCapturedResult "s" true "PASS" [] [] [] ""].

Lemma runs_qualified_witness :
  runsStatus exampleCorpus [exampleRun "BLOCKED"; exampleRun "PASS"] = StatusUnstable /\
  exists report, EvaluateRuns exampleCorpus [exampleRun "BLOCKED"; exampleRun "PASS"] = Some (Ok report) /\
    ar_Status report = runsStatus exampleCorpus [exampleRun "BLOCKED"; exampleRun "PASS"] /\ ar_Runs report = 2 /\
    map (fun c => (stb_CaseID c, stb_Passed c)) (ar_Cases report) = [("v", 1); ("s", 2); ("u", 2)].
Proof.
  split; [reflexivity|].
  apply (runs_qualified exampleCorpus [exampleRun "BLOCKED"; exampleRun "PASS"]); [reflexivity | discriminate |].
  assert (forall d, mem_str d validDecisions = true -> answers exampleCorpus (exampleRun d)) as H.
  { intros d Hd. split; [|repeat constructor; exact Hd]. simpl.
    transitivity ["v"; "u"; "s"]; [apply perm_swap | apply perm_skip, perm_swap]. }
  repeat constructor; apply H; reflexivity.
Defined.
