(* ===== verification/ShadowVerification.v ===== *)
(** * Shadow verification of reconciled candidates (internal/investigation/verifier_shadow.go, reconciliation.go)

    After the diagnostics have run, the collected references become an evidence
    inventory scoped to Pods, the candidates are reconciled against it, and the
    claims that reconciliation proposes go to the verifier.  The result stays
    internal.  The deep copy of the input and the goroutine are not modelled: the
    select of [runShadowVerificationSafely] is a choice. *)

From Stdlib Require Import ZArith Lia QArith.
From stdpp Require Import base list strings gmap.
From S2P Require Import Prelude GoStrings Utf8 Float64 Api InvestigationApi Digest Prog Scope Observation Accounting Verifier Diagnostic Egress Gateway InvestigationSpec Datasource Preflight Collection EvidenceCollection.

#[local] Open Scope Z_scope.
#[local] Open Scope list_scope.
#[local] Open Scope go_scope.

(** ** The evidence inventory *)

Record scopedEvidence := mkScopedEvidence { se_targetUID : string; se_incidentStart : time; se_incidentEnd : time }.

Section Shadow.
Context {U : UnicodeTables} {D : DigestPrims}.

(** What one scheduling observation says of its references, as the pairs the map is built from. *)
Definition scopedOf (incidentStart incidentEnd : time) (o : SchedulingObservation) : list (string * scopedEvidence) :=
  let uid := trim_space (so_PodUID o) in
  if uid == "" then []
  else
    let start := if is_zero_time (so_IncidentStart o) then incidentStart else so_IncidentStart o in
    let stop := if is_zero_time (so_IncidentEnd o) then incidentEnd else so_IncidentEnd o in
    map (fun id => (id, mkScopedEvidence uid start stop))
      (List.filter (fun id => id != "") (map trim_space (so_ID o :: so_EvidenceRefs o))).

(** [scoped[id]]. *)
Definition scopedMatches (scoped : list (string * scopedEvidence)) (id : string) : list scopedEvidence :=
  map snd (List.filter (fun p => p.1 == id) scoped).

(** The entries of one collected reference. *)
Definition inventoryOf (scoped : list (string * scopedEvidence)) (singleTargetUID : string) (incidentStart incidentEnd : time)
    (ref : EvidenceRef) : list EvidenceIdentity :=
  let id := trim_space (er_ID ref) in
  if id == "" then []
  else
    match scopedMatches scoped id with
    | [] => [mkEvidenceIdentity id singleTargetUID incidentStart incidentEnd true true (er_Truncated ref)]
    | matches =>
        map (fun m => mkEvidenceIdentity id (se_targetUID m) (se_incidentStart m) (se_incidentEnd m) true true (er_Truncated ref))
          matches
    end.

Definition inventoryLess (a b : EvidenceIdentity) : bool :=
  if ei_ID a != ei_ID b then str_ltb (ei_ID a) (ei_ID b)
  else if ei_TargetUID a != ei_TargetUID b then str_ltb (ei_TargetUID a) (ei_TargetUID b)
  else time_before (ei_IncidentStart a) (ei_IncidentStart b).

Definition sameEvidence (a b : EvidenceIdentity) : bool :=
  (ei_ID a == ei_ID b) && (ei_TargetUID a == ei_TargetUID b) && (ei_IncidentStart a =? ei_IncidentStart b)
  && (ei_IncidentEnd a =? ei_IncidentEnd b) && eqb (ei_Authorized a) (ei_Authorized b)
  && eqb (ei_Valid a) (ei_Valid b) && eqb (ei_Incomplete a) (ei_Incomplete b).

(** The loop that drops a repetition of the entry kept last. *)
Fixpoint dropRepeated (previous : option EvidenceIdentity) (l : list EvidenceIdentity) : list EvidenceIdentity :=
  match l with
  | [] => []
  | identity :: rest =>
      if match previous with Some p => sameEvidence p identity | None => false end
      then dropRepeated previous rest
      else identity :: dropRepeated (Some identity) rest
  end.

Definition diagnosticEvidenceInventory (refs : list EvidenceRef) (scheduling : list SchedulingObservation)
    (targetUIDs : list string) (incidentStart incidentEnd : time) : list EvidenceIdentity :=
  let scoped := flat_map (scopedOf incidentStart incidentEnd) scheduling in
  let singleTargetUID := match targetUIDs with [uid] => trim_space uid | _ => "" end in
  dropRepeated None
    (sort_stable inventoryLess (flat_map (inventoryOf scoped singleTargetUID incidentStart incidentEnd) refs)).

(** The Pods the reconciliation may attribute evidence to; none when the scope is not complete. *)
Definition reconciliationTargetUIDs (cfg : EvidenceConfig) (preflight : PreflightResult) : eprog (list string) :=
  refs <~ (if targetIs preflight "Deployment" then
             if negb (ev_ScopeResolver cfg) then Ret []
             else
               '(resolved, err) <~! EResolveDeployment (rr_Namespace (pf_Target preflight)) (rr_Name (pf_Target preflight));
               Ret (if bool_decide (err <> None) || negb (sr_Complete resolved) then [] else omap scopePodRef (sr_Pods resolved))
           else
             resolved <~ resolveSchedulingPodRefs cfg preflight;
             Ret (default [] resolved));
  Ret (sort_strings (dedup_first (List.filter (fun uid => uid != "") (map (fun r => trim_space (sp_UID r)) refs)))).

(** ** Verification *)

Inductive ShadowVerificationStatus :=
| ShadowVerificationCompleted
| ShadowVerificationFailed
| ShadowVerificationNoEligibleClaims.

Definition shadowVerificationSkipped : string := "Skipped".
Definition shadowVerificationErrorReconciliation : string := "ReconciliationNotCompleted".
Definition shadowVerificationErrorEvidence : string := "TrustedEvidenceUnavailable".
Definition shadowVerificationErrorPanic : string := "ShadowVerifierPanic".
Definition shadowVerificationErrorContext : string := "ShadowVerifierContextDeadline".

Record ShadowClaimVerification := mkShadowClaim {
  sv_CandidateID : string;
  sv_CandidateFingerprint : string;
  sv_ClaimFingerprint : string;
  sv_TargetUID : string;
  sv_Statement : string;
  sv_VerifierStatement : string;
  sv_Disposition : CandidateDisposition;
  sv_DuplicateOf : string;
  sv_Verification : string;
  sv_EvidenceRefs : list string;
  sv_EvidenceLinks : list EvidenceLink;
  sv_Reason : string
}.

Record ShadowVerificationResult := mkShadowResult {
  shr_Status : ShadowVerificationStatus;
  shr_Claims : list ShadowClaimVerification;
  shr_CoverageScore : float64;
  shr_Method : string;
  shr_Error : string
}.

Record ShadowVerificationInput := mkShadowInput {
  shi_Reconciliation : CandidateReconciliationResult;
  shi_EvidenceRefs : list EvidenceRef
}.

Definition shadowFailure (err : string) : ShadowVerificationResult :=
  mkShadowResult ShadowVerificationFailed [] float_zero "" err.

(** The select of the safe runner: the context may have expired before, and the deadline may
    be taken before the verifier's answer; [None] is a panic of the verifier. *)
Definition runShadowVerificationSafely (expired deadlineFirst : bool)
    (verify : ShadowVerificationInput -> option ShadowVerificationResult) (input : ShadowVerificationInput)
    : ShadowVerificationResult :=
  if expired then shadowFailure shadowVerificationErrorContext
  else if deadlineFirst then shadowFailure shadowVerificationErrorContext
  else match verify input with
       | Some result => result
       | None => shadowFailure shadowVerificationErrorPanic
       end.

(** The first record of each ID. *)
Definition recordsByCandidateID (records : list CandidateRecord) (id : string) : option CandidateRecord :=
  find_first (fun r => let key := trim_space (cc_ID (cr_Candidate r)) in
                       if (key != "") && (key == id) then Some r else None) records.

Definition verifierEvidence (id : string) (source : EvidenceRef) : VerifierRef :=
  mkVerifierRef id (er_Kind source) (er_Summary source) (er_Source source) (er_Reason source).

Definition sameVerifierRef (a b : VerifierRef) : bool :=
  (ve_Kind a == ve_Kind b) && (ve_Source a == ve_Source b) && (ve_Summary a == ve_Summary b) && (Verifier.ve_Reason a == Verifier.ve_Reason b).

(** [None]: two references of one ID differ. *)
Fixpoint trustedFrom (entries : gmap string VerifierRef) (refs : list EvidenceRef) : option (gmap string VerifierRef) :=
  match refs with
  | [] => Some entries
  | source :: rest =>
      let id := trim_space (er_ID source) in
      if id == "" then trustedFrom entries rest
      else
        let candidate := verifierEvidence id source in
        match entries !! id with
        | Some existing => if sameVerifierRef existing candidate then trustedFrom entries rest else None
        | None => trustedFrom (<[id := candidate]> entries) rest
        end
  end.
Definition trustedVerifierEvidence (refs : list EvidenceRef) : option (gmap string VerifierRef) := trustedFrom ∅ refs.

(** The identities of the record under one trimmed ID. *)
Definition identitiesOf (record : CandidateRecord) (id : string) : list EvidenceIdentity :=
  List.filter (fun v => (trim_space (ei_ID v) != "") && (trim_space (ei_ID v) == id)) (cr_Evidence record).

Definition shadowIncidentWindowCompatible (candidateStart candidateEnd evidenceStart evidenceEnd : time) : bool :=
  let zero := is_zero_time in
  if zero candidateStart && zero candidateEnd && zero evidenceStart && zero evidenceEnd then true
  else if zero candidateStart || zero candidateEnd || zero evidenceStart || zero evidenceEnd then false
  else if time_before candidateEnd candidateStart || time_before evidenceEnd evidenceStart then false
  else negb (time_before candidateEnd evidenceStart) && negb (time_before evidenceEnd candidateStart).

Definition usableIdentity (record : CandidateRecord) (identity : EvidenceIdentity) : bool :=
  ei_Authorized identity && ei_Valid identity && negb (ei_Incomplete identity) && (ei_TargetUID identity != "")
  && (ei_TargetUID identity == cc_TargetUID (cr_Candidate record))
  && shadowIncidentWindowCompatible (cr_IncidentStart record) (cr_IncidentEnd record) (ei_IncidentStart identity)
       (ei_IncidentEnd identity).

(** The loop over the candidate's references. *)
Fixpoint candidateEvidence (record : CandidateRecord) (refs : gmap string VerifierRef) (seen : list string) (ids : list string) :
    option (list VerifierRef) :=
  match ids with
  | [] => Some []
  | id :: rest =>
      let id := trim_space id in
      if id == "" then None
      else if mem_str id seen then candidateEvidence record refs seen rest
      else
        match refs !! id, identitiesOf record id with
        | Some entry, [identity] =>
            if usableIdentity record identity
            then others ← candidateEvidence record refs (id :: seen) rest; Some (entry :: others)
            else None
        | _, _ => None
        end
  end.

Definition refIDLess (a b : VerifierRef) : bool := str_ltb (ve_ID a) (ve_ID b).

Definition evidenceForCandidate (record : CandidateRecord) (refs : gmap string VerifierRef) : option (list VerifierRef) :=
  match candidateEvidence record refs [] (cc_EvidenceRefs (cr_Candidate record)) with
  | None | Some [] => None
  | Some result => Some (sort_stable refIDLess result)
  end.

Definition verifierStatement (record : CandidateRecord) : string :=
  let c := cr_Candidate record in
  if (cr_DiagnosticID record == "scheduling") && (cc_Type c == ClaimFailureMechanism)
     && has_prefix (cc_ID c) "scheduling-mechanism-unschedulable/"
  then "SchedulingUnschedulable is confirmed by UID-correlated scheduler condition or FailedScheduling evidence."
  else if (cr_DiagnosticID record == "service-port") && (cc_Type c == ClaimRootCause) && (cc_ID c == "service-port-mismatch")
  then "ServicePortMismatch is confirmed by Kubernetes Service targetPort and resolved workload/container port evidence."
  else cc_Statement c.

(** An entry that was not verified. *)
Definition skippedClaim (r : CandidateResolution) (uid statement reason : string) : ShadowClaimVerification :=
  mkShadowClaim (res_CandidateID r) (res_CandidateFingerprint r) (res_ClaimFingerprint r) uid statement "" (res_Disposition r)
    (res_DuplicateOf r) shadowVerificationSkipped [] [] reason.

(** What the loop does with one resolution: its entry, whether it was proposed to the verifier,
    whether it failed, and the method the verifier used. *)
Record shadowOutcome := mkShadowOutcome {
  so_entry : ShadowClaimVerification;
  so_proposed : bool;
  so_failed : bool;
  so_method : string
}.

Definition shadowStep (records : list CandidateRecord) (refs : gmap string VerifierRef) (r : CandidateResolution) : shadowOutcome :=
  let found := recordsByCandidateID records (res_CandidateID r) in
  let uid := match found with Some record => cc_TargetUID (cr_Candidate record) | None => "" end in
  let statement := match found with Some record => cc_Statement (cr_Candidate record) | None => "" end in
  if negb (bool_decide (res_Disposition r = CandidateDispositionProposedClaim))
  then mkShadowOutcome (skippedClaim r uid statement (res_Reason r)) false false ""
  else
    match found with
    | None => mkShadowOutcome (skippedClaim r "" "" shadowVerificationErrorEvidence) false true ""
    | Some record =>
        match evidenceForCandidate record refs with
        | None => mkShadowOutcome (skippedClaim r uid statement shadowVerificationErrorEvidence) true true ""
        | Some evidence =>
            let vs := verifierStatement record in
            let verification := VerifyClaims [mkClaim (cc_ID (cr_Candidate record)) vs] evidence in
            match vr_Claims verification with
            | [] =>
                mkShadowOutcome
                  (mkShadowClaim (res_CandidateID r) (res_CandidateFingerprint r) (res_ClaimFingerprint r) uid statement vs
                     (res_Disposition r) (res_DuplicateOf r) shadowVerificationSkipped [] [] shadowVerificationErrorEvidence)
                  true true (vr_Method verification)
            | verified :: _ =>
                mkShadowOutcome
                  (mkShadowClaim (res_CandidateID r) (res_CandidateFingerprint r) (res_ClaimFingerprint r) uid statement vs
                     (res_Disposition r) (res_DuplicateOf r) (cr_Verification verified) (cr_EvidenceRefs verified)
                     (cr_EvidenceLinks verified) (res_Reason r))
                  true false (vr_Method verification)
            end
        end
    end.

Definition shadowLess (a b : CandidateResolution) : bool :=
  if res_CandidateFingerprint a != res_CandidateFingerprint b
  then str_ltb (res_CandidateFingerprint a) (res_CandidateFingerprint b)
  else str_ltb (res_CandidateID a) (res_CandidateID b).

Definition countIf {A} (f : A -> bool) (l : list A) : Z := Z.of_nat (length (List.filter f l)).

Definition shadowSupported (c : ShadowClaimVerification) : bool := sv_Verification c == VerificationSupported.

Definition VerifyReconciledCandidates (input : ShadowVerificationInput) : ShadowVerificationResult :=
  let recon := shi_Reconciliation input in
  match rr_Status recon with
  | ReconciliationNoCandidates => mkShadowResult ShadowVerificationNoEligibleClaims [] float_zero "" ""
  | ReconciliationFailed => shadowFailure shadowVerificationErrorReconciliation
  | ReconciliationCompleted =>
      match trustedVerifierEvidence (shi_EvidenceRefs input) with
      | None => shadowFailure shadowVerificationErrorEvidence
      | Some refs =>
          let outcomes := map (shadowStep (rr_Records recon) refs) (sort_stable shadowLess (ar_Resolutions (rr_Accounting recon))) in
          let proposed := countIf so_proposed outcomes in
          let supported := countIf (fun o => shadowSupported (so_entry o)) outcomes in
          mkShadowResult (if existsb so_failed outcomes then ShadowVerificationFailed else ShadowVerificationCompleted)
            (map so_entry outcomes)
            (if 0 <? proposed then float_div (float_of_int supported) (float_of_int proposed) else float_zero)
            (default "" (find_first (fun o => if so_method o != "" then Some (so_method o) else None) outcomes)) ""
      end
  end.

(** ** The tail of [Service.CollectEvidence] *)

Definition shadowLineage (cfg : EvidenceConfig) (preflight : PreflightResult) (result : EvidenceCollectionResult)
    (now : time) (window : duration) (expired deadlineFirst : bool)
    : eprog (CandidateReconciliationResult * ShadowVerificationResult) :=
  let start := time_add now (wrap64 (- window)) in
  uids <~ reconciliationTargetUIDs cfg preflight;
  let reconciliation :=
    ReconcileDiagnosticCandidates
      (mkReconciliationInput (ec_Diagnostics result)
         (diagnosticEvidenceInventory (ec_EvidenceRefs result) (ec_Scheduling result) uids start now) true start now) in
  Ret (reconciliation,
       runShadowVerificationSafely expired deadlineFirst (fun input => Some (VerifyReconciledCandidates input))
         (mkShadowInput reconciliation (ec_EvidenceRefs result))).
End Shadow.

(** ** Lemmas *)

Section ShadowLemmas.
Context {U : UnicodeTables} {D : DigestPrims}.

Lemma sameEvidence_eq a b : sameEvidence a b = true -> a = b.
Proof.
  destruct a, b. unfold sameEvidence. cbn. intros H. go_bool. repeat match goal with
  | H : eqb _ _ = true |- _ => apply eqb_prop in H
  | H : (_ =? _) = true |- _ => apply Z.eqb_eq in H end. by subst.
Qed.

Lemma dropRepeated_sub prev l x : x ∈ dropRepeated prev l -> x ∈ l.
Proof.
  revert prev. induction l as [|y l IH]; intros prev; simpl; [done|]. case_match; rewrite ?elem_of_cons; naive_solver.
Qed.

Lemma dropRepeated_keeps prev l x : x ∈ l -> x ∈ dropRepeated prev l \/ prev = Some x.
Proof.
  revert prev. induction l as [|y l IH]; intros prev H; [inversion H|]. simpl. destruct prev as [p|].
  - destruct (sameEvidence p y) eqn:E.
    + apply sameEvidence_eq in E as ->. apply elem_of_cons in H as [->|H]; [by right | by apply IH].
    + left. apply elem_of_cons in H as [->|H]; [constructor|].
      destruct (IH (Some y) H) as [?|[= ->]]; [by constructor | constructor].
  - left. apply elem_of_cons in H as [->|H]; [constructor|].
    destruct (IH (Some y) H) as [?|[= ->]]; [by constructor | constructor].
Qed.

(** The observation names the evidence, as its own ID or as a reference. *)
Definition names (o : SchedulingObservation) (id : string) : Prop := id ∈ map trim_space (so_ID o :: so_EvidenceRefs o).

(** The Pod that evidence is about: one whose observation names it; without any such observation,
    the one Pod of the target. *)
Definition about (scheduling : list SchedulingObservation) (targetUIDs : list string) (id uid : string) : Prop :=
  (exists o, o ∈ scheduling /\ trim_space (so_PodUID o) = uid /\ names o id) \/
  ((forall o, o ∈ scheduling -> trim_space (so_PodUID o) <> "" -> ~ names o id) /\
   exists target, targetUIDs = [target] /\ trim_space target = uid).

Lemma scopedOf_elem s e o id m :
  (id, m) ∈ scopedOf s e o <->
  id <> "" /\ names o id /\ trim_space (so_PodUID o) <> "" /\ 
  m = mkScopedEvidence (trim_space (so_PodUID o)) (if is_zero_time (so_IncidentStart o) then s else so_IncidentStart o)
        (if is_zero_time (so_IncidentEnd o) then e else so_IncidentEnd o).
Proof.
  unfold scopedOf, names. destruct (String.eqb_spec (trim_space (so_PodUID o)) "") as [E|E].
  { rewrite elem_of_nil. naive_solver. }
  rewrite list_elem_of_fmap. split.
  - intros (x & [= -> ->] & [H Hne]%list_filter_elem). go_bool. naive_solver.
  - intros (Hne & Hn & _ & ->). exists id. split; [done|]. apply list_filter_elem. split; [done|].
    by apply negb_true_iff, String.eqb_neq.
Qed.

Lemma scopedMatches_elem scoped id m : m ∈ scopedMatches scoped id <-> (id, m) ∈ scoped.
Proof.
  unfold scopedMatches. rewrite list_elem_of_fmap. split.
  - intros ([id' m'] & -> & [H E]%list_filter_elem). simpl in *. apply String.eqb_eq in E as ->. done.
  - intros H. exists (id, m). split; [done|]. apply list_filter_elem. split; [done|]. simpl. apply String.eqb_refl.
Qed.

Lemma inventory_entry refs scheduling uids s e identity :
  identity ∈ diagnosticEvidenceInventory refs scheduling uids s e -> ei_TargetUID identity <> "" ->
  ei_ID identity <> "" /\ about scheduling uids (ei_ID identity) (ei_TargetUID identity).
Proof.
  unfold diagnosticEvidenceInventory. intros H%dropRepeated_sub Huid. rewrite sort_stable_elem in H.
  apply list_elem_of_In, in_flat_map in H as (ref & _ & H%list_elem_of_In). unfold inventoryOf in H.
  destruct (String.eqb_spec (trim_space (er_ID ref)) "") as [E|E]; [by apply elem_of_nil in H|].
  destruct (scopedMatches _ _) as [|m matches] eqn:Hm.
  - apply list_elem_of_singleton in H as ->. cbn in *. split; [done|]. right. split.
    + intros o Ho Hu Hn.
      match type of Hm with scopedMatches ?l ?i = _ => assert (exists m, m ∈ scopedMatches l i) as [m Hin] end.
      { eexists. apply scopedMatches_elem, list_elem_of_In, in_flat_map. exists o. split; [by apply list_elem_of_In|].
        apply list_elem_of_In, scopedOf_elem. eauto. }
      rewrite Hm in Hin. by apply elem_of_nil in Hin.
    + destruct uids as [|u [|? ?]]; [done| |done]. eauto.
  - rewrite <- Hm in H. apply list_elem_of_fmap in H as (m' & -> & Hin). cbn in *. split; [done|].
    apply scopedMatches_elem, list_elem_of_In, in_flat_map in Hin as (o & Ho%list_elem_of_In & Hin%list_elem_of_In).
    apply scopedOf_elem in Hin as (_ & Hn & _ & ->). left. exists o. done.
Qed.

Lemma inventory_covers refs scheduling uids s e ref :
  ref ∈ refs -> trim_space (er_ID ref) <> "" ->
  exists identity, identity ∈ diagnosticEvidenceInventory refs scheduling uids s e /\
    ei_ID identity = trim_space (er_ID ref) /\ ei_Incomplete identity = er_Truncated ref.
Proof.
  intros Hr Hid. unfold diagnosticEvidenceInventory.
  set (scoped := flat_map (scopedOf s e) scheduling). set (single := match uids with [uid] => trim_space uid | _ => "" end).
  assert (exists i, i ∈ inventoryOf scoped single s e ref /\ ei_ID i = trim_space (er_ID ref) /\ ei_Incomplete i = er_Truncated ref)
    as (i & Hi & H).
  { unfold inventoryOf. rewrite (proj2 (String.eqb_neq _ _) Hid). destruct (scopedMatches _ _) as [|m ms]; simpl.
    - eexists. split; [constructor|]. done.
    - eexists. split; [constructor|]. done. }
  exists i. split; [|exact H].
  edestruct (dropRepeated_keeps None) as [Hk|Hk]; [|exact Hk|done].
  rewrite sort_stable_elem. apply list_elem_of_In, in_flat_map. exists ref. split; by apply list_elem_of_In.
Qed.

Lemma trustedFrom_origin refs entries out id r :
  trustedFrom entries refs = Some out -> out !! id = Some r ->
  entries !! id = Some r \/ exists ref, ref ∈ refs /\ trim_space (er_ID ref) = id /\ id <> "" /\ r = verifierEvidence id ref.
Proof.
  revert entries. induction refs as [|ref refs IH]; intros entries; simpl; [naive_solver|].
  destruct (String.eqb_spec (trim_space (er_ID ref)) "") as [E|E].
  { intros H Hl. destruct (IH _ H Hl) as [?|(x & ? & ?)]; [by left|]. right. exists x. split; [by constructor|done]. }
  intros H Hl. destruct (entries !! trim_space (er_ID ref)) as [old|] eqn:Hold.
  - destruct (sameVerifierRef _ _); [|done].
    destruct (IH _ H Hl) as [?|(x & ? & ?)]; [by left|]. right. exists x. split; [by constructor|done].
  - destruct (IH _ H Hl) as [Hi|(x & ? & ?)]; [|right; exists x; split; [by constructor|done]].
    apply lookup_insert_Some in Hi as [[<- <-]|[_ ?]]; [|by left]. right. exists ref. split; [constructor|done].
Qed.

(** References of one ID that say the same. *)
Definition ref_body (r : EvidenceRef) : string * string * string * string := (er_Kind r, er_Source r, er_Summary r, er_Reason r).
Definition body_of (v : VerifierRef) : string * string * string * string :=
  (ve_Kind v, ve_Source v, ve_Summary v, Verifier.ve_Reason v).
Definition consistent (refs : list EvidenceRef) : Prop :=
  forall a b, a ∈ refs -> b ∈ refs -> trim_space (er_ID a) = trim_space (er_ID b) -> trim_space (er_ID a) <> "" ->
    ref_body a = ref_body b.
Definition consistent_with (entries : gmap string VerifierRef) (refs : list EvidenceRef) : Prop :=
  forall a e, a ∈ refs -> trim_space (er_ID a) <> "" -> entries !! trim_space (er_ID a) = Some e -> body_of e = ref_body a.

Lemma sameVerifierRef_body a b : sameVerifierRef a b = true <-> body_of a = body_of b.
Proof.
  unfold sameVerifierRef, body_of. rewrite !andb_true_iff, !String.eqb_eq.
  split; [by intros [[[-> ->] ->] ->]|by intros [= -> -> -> ->]].
Qed.

Lemma consistent_cons ref refs : consistent (ref :: refs) <->
  consistent refs /\ (trim_space (er_ID ref) <> "" ->
    forall a, a ∈ refs -> trim_space (er_ID a) = trim_space (er_ID ref) -> ref_body a = ref_body ref).
Proof.
  split.
  - intros H. split; [intros a b Ha Hb; by apply H; right|]. intros Hne a Ha E. apply H; [by right|left|done|congruence].
  - intros [H1 H2] a b [->|Ha]%elem_of_cons [->|Hb]%elem_of_cons E Hne; [done| | |by apply H1].
    + symmetry. by apply H2.
    + apply H2; [congruence|done..].
Qed.

Lemma trustedFrom_some entries refs :
  is_Some (trustedFrom entries refs) <-> consistent_with entries refs /\ consistent refs.
Proof.
  revert entries. induction refs as [|ref refs IH]; intros entries; cbn [trustedFrom].
  { split; [|by eexists]. intros _. split; intros a; [intros e|intros b]; by intros H%elem_of_nil. }
  rewrite consistent_cons. unfold consistent_with in *. destruct (String.eqb_spec (trim_space (er_ID ref)) "") as [E|E].
  { rewrite IH. setoid_rewrite elem_of_cons. naive_solver. }
  destruct (entries !! trim_space (er_ID ref)) as [old|] eqn:Hold.
  - destruct (sameVerifierRef old _) eqn:Hs.
    + apply sameVerifierRef_body in Hs. change (body_of (verifierEvidence _ ref)) with (ref_body ref) in Hs. rewrite IH. split.
      * intros [H1 H2]. split; [|split; [done|]].
        -- intros a e [->|Ha]%elem_of_cons Hne He; [congruence|by eapply H1].
        -- intros _ a Ha Ea. rewrite <- Hs. symmetry. apply H1; [done|congruence|by rewrite Ea].
      * intros [H1 [H2 _]]. split; [|done]. intros a e Ha. apply H1. by right.
    + split; [by intros []|]. intros [H1 _]. exfalso. apply not_true_iff_false in Hs. apply Hs, sameVerifierRef_body.
      apply (H1 ref old); [left|done|done].
  - rewrite IH. split.
    + intros [H1 H2]. split; [|split; [done|]].
      * intros a e [->|Ha]%elem_of_cons Hne He; [congruence|]. apply H1; [done|done|].
        rewrite lookup_insert_ne; [done|]. intros Ea. congruence.
      * intros _ a Ha Ea. symmetry. apply (H1 a (verifierEvidence (trim_space (er_ID ref)) ref)); [done|congruence|].
        by rewrite Ea, lookup_insert_eq.
    + intros [H1 [H2 H3]]. split; [|done]. intros a e Ha Hne He. apply lookup_insert_Some in He as [[Ea <-]|[_ He]].
      * symmetry. by apply H3.
      * apply H1; [by right|done|done].
Qed.

Lemma candidateEvidence_usable record refs seen ids out r :
  candidateEvidence record refs seen ids = Some out -> r ∈ out ->
  exists id identity, refs !! id = Some r /\ identitiesOf record id = [identity] /\ usableIdentity record identity = true.
Proof.
  revert seen out. induction ids as [|id ids IH]; intros seen out; simpl.
  { intros [= <-] H. by apply elem_of_nil in H. }
  destruct (_ == ""); [done|]. destruct (mem_str _ seen); [apply IH|].
  destruct (refs !! trim_space id) as [entry|] eqn:Hr; [|done].
  destruct (identitiesOf record (trim_space id)) as [|identity [|? ?]] eqn:Hi; try done.
  destruct (usableIdentity record identity) eqn:Hu; [|done].
  destruct (candidateEvidence record refs _ ids) as [others|] eqn:E; [|done]. simpl. intros [= <-] H.
  apply elem_of_cons in H as [->|H]; [eauto 10 | by eapply IH].
Qed.

Lemma candidateEvidence_complete record (entries : gmap string VerifierRef) seen ids :
  (forall id, id ∈ ids -> trim_space id <> "" /\ is_Some (entries !! trim_space id) /\
     exists identity, identitiesOf record (trim_space id) = [identity] /\ usableIdentity record identity = true) ->
  exists out, candidateEvidence record entries seen ids = Some out /\
    forall v, v ∈ out <-> exists id, id ∈ ids /\ trim_space id ∉ seen /\ entries !! trim_space id = Some v.
Proof.
  revert seen. induction ids as [|id ids IH]; intros seen H; cbn [candidateEvidence].
  { exists []. split; [done|]. intros v. split; [by intros ?%elem_of_nil|by intros (id & Hid%elem_of_nil & _)]. }
  destruct (H id ltac:(left)) as (Hne & [entry He] & identity & Hi & Hu). rewrite (proj2 (String.eqb_neq _ _) Hne).
  assert (Hrest : forall x, x ∈ ids -> trim_space x <> "" /\ is_Some (entries !! trim_space x) /\
     exists i, identitiesOf record (trim_space x) = [i] /\ usableIdentity record i = true) by (intros x Hx; apply H; by right).
  destruct (mem_str (trim_space id) seen) eqn:Hseen.
  - apply mem_str_spec in Hseen. destruct (IH seen Hrest) as (out & -> & Hout). exists out. split; [done|].
    intros v. rewrite Hout. split.
    + intros (x & Hx & H1 & H2). exists x. split; [by right|done].
    + intros (x & [->|Hx]%elem_of_cons & H1 & H2); [done|]. by exists x.
  - apply mem_str_false in Hseen. rewrite He, Hi, Hu. destruct (IH (trim_space id :: seen) Hrest) as (out & -> & Hout).
    exists (entry :: out). split; [done|]. intros v. rewrite elem_of_cons, Hout. split.
    + intros [->|(x & Hx & [H1 H2]%not_elem_of_cons & H3)]; [exists id; split; [left|done]|exists x; split; [by right|done]].
    + intros (x & [->|Hx]%elem_of_cons & H1 & H2); [left; congruence|].
      destruct (decide (trim_space x = trim_space id)) as [E|E]; [left; congruence|]. right. exists x.
      split; [done|]. by rewrite not_elem_of_cons.
Qed.

Lemma trustedFrom_covers entries refs out : trustedFrom entries refs = Some out ->
  (forall id, is_Some (entries !! id) -> is_Some (out !! id)) /\
  forall ref, ref ∈ refs -> trim_space (er_ID ref) <> "" -> is_Some (out !! trim_space (er_ID ref)).
Proof.
  revert entries. induction refs as [|ref refs IH]; intros entries; cbn [trustedFrom].
  { intros [= ->]. split; [done|]. by intros ref ?%elem_of_nil. }
  destruct (String.eqb_spec (trim_space (er_ID ref)) "") as [E|E].
  { intros [H1 H2]%IH. split; [done|]. intros r [->|Hr]%elem_of_cons Hne; [done|by apply H2]. }
  destruct (entries !! trim_space (er_ID ref)) as [old|] eqn:Hold.
  - destruct (sameVerifierRef _ _); [|done]. intros [H1 H2]%IH. split; [done|].
    intros r [->|Hr]%elem_of_cons Hne; [apply H1; by eexists|by apply H2].
  - intros [H1 H2]%IH. split.
    + intros id Hid. apply H1. destruct (decide (trim_space (er_ID ref) = id)) as [<-|];
        [rewrite lookup_insert_eq; by eexists|by rewrite lookup_insert_ne].
    + intros r [->|Hr]%elem_of_cons Hne; [|by apply H2]. apply H1. rewrite lookup_insert_eq. by eexists.
Qed.

(** What is known under an ID: what its references say, when they agree. *)
Lemma trusted_says refs entries ref : consistent refs -> trustedVerifierEvidence refs = Some entries ->
  ref ∈ refs -> trim_space (er_ID ref) <> "" ->
  entries !! trim_space (er_ID ref) = Some (verifierEvidence (trim_space (er_ID ref)) ref).
Proof.
  intros Hc Ht Hr Hne. destruct (proj2 (trustedFrom_covers _ _ _ Ht) ref Hr Hne) as [v Hv]. rewrite Hv. f_equal.
  destruct (trustedFrom_origin _ _ _ _ _ Ht Hv) as [Hn|(x & Hx & E & _ & ->)]; [by rewrite lookup_empty in Hn|].
  specialize (Hc x ref Hx Hr E ltac:(congruence)). unfold ref_body in Hc. injection Hc as H1 H2 H3 H4.
  unfold verifierEvidence. by rewrite H1, H2, H3, H4.
Qed.

Lemma evidenceForCandidate_usable record refs out r :
  evidenceForCandidate record refs = Some out -> r ∈ out ->
  exists id identity, refs !! id = Some r /\ identitiesOf record id = [identity] /\ usableIdentity record identity = true.
Proof.
  unfold evidenceForCandidate. destruct (candidateEvidence _ _ _ _) as [[|x l]|] eqn:E; [done| |done].
  intros [= <-] H. rewrite sort_stable_elem in H. by eapply candidateEvidence_usable.
Qed.

(** A record of a completed reconciliation carries the whole inventory. *)
Lemma reconciled_evidence input record :
  record ∈ rr_Records (ReconcileDiagnosticCandidates input) ->
  cr_Evidence record = sort_stable evidenceLess (ri_Evidence input).
Proof.
  unfold ReconcileDiagnosticCandidates. generalize (sort_stable evidenceLess (ri_Evidence input)) as evidence. intros evidence.
  assert (forall results records, reconciliationRecords input evidence results = Some records ->
    record ∈ records -> cr_Evidence record = evidence) as H.
  { induction results as [|r results IH]; intros records; simpl; [by intros [= <-] ?%elem_of_nil|].
    destruct (dr_Claims r) as [|c cs]; [apply IH|]. destruct (_ || _)%bool; [done|].
    destruct (reconciliationRecords input evidence results) as [rs|] eqn:E; [|done]. simpl. intros [= <-].
    change (reconciliationRecord input evidence r c :: map (reconciliationRecord input evidence r) cs ++ rs)
      with (map (reconciliationRecord input evidence r) (c :: cs) ++ rs).
    rewrite elem_of_app, (list_elem_of_fmap (reconciliationRecord input evidence r)).
    intros [(x & -> & _)|Hx]; [done | by eapply IH]. }
  destruct (reconciliationRecords _ _ _) as [[|c cs]|] eqn:E; cbn [rr_Records reconciliationFailure]; [by intros ?%elem_of_nil| |by intros ?%elem_of_nil].
  destruct (ri_EvidenceInventoryReady input); cbn [negb rr_Records reconciliationFailure]; [|by intros ?%elem_of_nil].
  rewrite sort_stable_elem. by apply (H _ _ E).
Qed.

(** A supported entry was proposed, and cites what the candidate may use and what bears it out. *)
Lemma shadowStep_supported records refs r :
  let c := so_entry (shadowStep records refs r) in
  sv_Verification c = VerificationSupported ->
  sv_Disposition c = CandidateDispositionProposedClaim /\
  exists record evidence, record ∈ records /\ evidenceForCandidate record refs = Some evidence /\
    sv_TargetUID c = cc_TargetUID (cr_Candidate record) /\ sv_EvidenceRefs c <> [] /\
    forall id, id ∈ sv_EvidenceRefs c -> exists ref, ref ∈ evidence /\ bears_out (sv_VerifierStatement c) ref /\ id = trim_space (ve_ID ref).
Proof.
  unfold shadowStep. destruct (bool_decide _) eqn:Hd; [|done]. cbn [negb]. apply bool_decide_eq_true in Hd.
  destruct (recordsByCandidateID records (res_CandidateID r)) as [record|] eqn:Hr; [|done].
  destruct (evidenceForCandidate record refs) as [evidence|] eqn:He; [|done].
  cbn [VerifyClaims vr_Claims map so_entry sv_Verification sv_Disposition sv_TargetUID sv_EvidenceRefs sv_VerifierStatement].
  intros Hs. split; [done|]. exists record, evidence. apply find_first_Some in Hr as (x & Hx & Hf).
  cbv zeta in Hf. case_match; [|done]. injection Hf as ->. split; [done|]. split; [done|]. split; [done|].
  rewrite verifyClaim_verification in Hs. cbn [cl_Statement] in Hs.
  destruct (nonempty (contradictoryEvidenceIDs _ _)) eqn:Hc; [done|].
  destruct (nonempty (claimMatches _ _)) eqn:Hm; [|destruct (nonempty evidence); done].
  assert (cr_EvidenceRefs (verifyClaim evidence (mkClaim (cc_ID (cr_Candidate record)) (verifierStatement record)))
          = claimMatches (verifierStatement record) evidence) as ->.
  { unfold verifyClaim. cbn [cl_Statement]. by rewrite Hc. }
  split; [by destruct (claimMatches _ _)|]. intros id Hid. by apply claimMatches_bears_out.
Qed.
End ShadowLemmas.

(** ** Properties *)

Definition lineageOf (c : ShadowClaimVerification) : string * string * string * CandidateDisposition :=
  (sv_CandidateID c, sv_CandidateFingerprint c, sv_ClaimFingerprint c, sv_Disposition c).
Definition lineageOfResolution (r : CandidateResolution) : string * string * string * CandidateDisposition :=
  (res_CandidateID r, res_CandidateFingerprint r, res_ClaimFingerprint r, res_Disposition r).

Section ShadowProperties.
Context {U : UnicodeTables} {D : DigestPrims}.
Context (diagnostics : list DiagnosticResult) (refs : list EvidenceRef) (scheduling : list SchedulingObservation).
Context (targetUIDs : list string) (start stop : time).

(** The shadow path from the collected evidence to the verdicts. *)
Definition shadowRecon : CandidateReconciliationResult :=
  ReconcileDiagnosticCandidates
    (mkReconciliationInput diagnostics (diagnosticEvidenceInventory refs scheduling targetUIDs start stop) true start stop).
Definition shadowVerdicts : ShadowVerificationResult := VerifyReconciledCandidates (mkShadowInput shadowRecon refs).

Lemma shadowStep_lineage records entries r :
  lineageOf (so_entry (shadowStep records entries r)) = lineageOfResolution r.
Proof.
  unfold shadowStep. destruct (negb _); [done|]. destruct (recordsByCandidateID _ _); [|done].
  by destruct (evidenceForCandidate _ _).
Qed.

(** An identity that is the only one of its reference in the inventory: the reference is collected in full. *)
Lemma single_identity record identity id :
  cr_Evidence record = sort_stable evidenceLess (diagnosticEvidenceInventory refs scheduling targetUIDs start stop) ->
  identitiesOf record id = [identity] -> usableIdentity record identity = true ->
  about scheduling targetUIDs id (cc_TargetUID (cr_Candidate record)) /\
  forall ref, ref ∈ refs -> trim_space (er_ID ref) = id -> er_Truncated ref = false.
Proof.
  intros He Hi Hu. unfold identitiesOf in Hi. rewrite He in Hi.
  assert (forall x, x ∈ [identity] <-> x ∈ diagnosticEvidenceInventory refs scheduling targetUIDs start stop /\
            (trim_space (ei_ID x) != "") && (trim_space (ei_ID x) == id) = true) as H.
  { intros x. rewrite <- Hi, list_filter_elem, sort_stable_elem. done. }
  unfold usableIdentity in Hu. go_bool.
  assert (Hid := proj1 (H identity) (proj2 (list_elem_of_singleton _ _) eq_refl)). destruct Hid as [Hin [Hne0 Hid]%andb_true_iff]. apply String.eqb_eq in Hid.
  assert (id <> "") as Hnid by (rewrite <- Hid; by apply String.eqb_neq, negb_true_iff). split.
  - match goal with E : ei_TargetUID identity = _ |- _ => rewrite <- E end.
    destruct (inventory_entry _ _ _ _ _ _ Hin) as [Hne Ha]; [done|].
    rewrite <- Hid. replace (trim_space (ei_ID identity)) with (ei_ID identity); [done|].
    clear -Hin. unfold diagnosticEvidenceInventory in Hin. apply dropRepeated_sub in Hin. rewrite sort_stable_elem in Hin.
    apply list_elem_of_In, in_flat_map in Hin as (ref & _ & Hin%list_elem_of_In). unfold inventoryOf in Hin.
    destruct (_ == ""); [by apply elem_of_nil in Hin|]. destruct (scopedMatches _ _).
    + apply list_elem_of_singleton in Hin as ->. cbn [ei_ID]. by rewrite trim_space_idem.
    + apply list_elem_of_fmap in Hin as (m & -> & _). cbn [ei_ID]. by rewrite trim_space_idem.
  - intros ref Hr Href. destruct (inventory_covers refs scheduling targetUIDs start stop ref Hr) as (i & Hin' & Hi' & Hinc);
      [congruence|].
    assert (i ∈ [identity]) as ->%list_elem_of_singleton.
    { apply H. split; [done|]. rewrite Hi', trim_space_idem, Href. apply andb_true_iff. split; [|apply String.eqb_refl].
      apply negb_true_iff, String.eqb_neq. congruence. }
    by rewrite <- Hinc.
Qed.

(** The verifier's answer when it has something to verify: the reconciliation completed,
    and no two references of one ID say different things. *)
Definition verifiable : Prop := rr_Status shadowRecon = ReconciliationCompleted /\ consistent refs.

(** The candidate's references can all be used: each is collected, and the one identity
    that the inventory has under its ID is of the claim's Pod, complete and in its time. *)
Definition usable_candidate (record : CandidateRecord) : Prop :=
  cc_EvidenceRefs (cr_Candidate record) <> [] /\
  forall id, id ∈ cc_EvidenceRefs (cr_Candidate record) ->
    trim_space id <> "" /\ (exists ref, ref ∈ refs /\ trim_space (er_ID ref) = trim_space id) /\
    exists identity, identitiesOf record (trim_space id) = [identity] /\ usableIdentity record identity = true.

(** What the candidate's references say. *)
Definition cites (record : CandidateRecord) (v : VerifierRef) : Prop :=
  exists id ref, id ∈ cc_EvidenceRefs (cr_Candidate record) /\ ref ∈ refs /\ trim_space (er_ID ref) = trim_space id /\
    v = verifierEvidence (trim_space id) ref.

Lemma evidence_cited record entries : consistent refs -> trustedVerifierEvidence refs = Some entries ->
  usable_candidate record ->
  exists evidence, evidenceForCandidate record entries = Some evidence /\ forall v, v ∈ evidence <-> cites record v.
Proof.
  intros Hc Ht [Hne Hu].
  assert (Hentry : forall id ref, ref ∈ refs -> trim_space (er_ID ref) = trim_space id -> trim_space id <> "" ->
    entries !! trim_space id = Some (verifierEvidence (trim_space id) ref)).
  { intros id ref Hr <- Hid. by apply (trusted_says refs). }
  destruct (candidateEvidence_complete record entries [] (cc_EvidenceRefs (cr_Candidate record))) as (out & Hout & Hin).
  { intros id Hid. destruct (Hu id Hid) as (H1 & (ref & Hr & E) & H3). split; [done|]. split; [|done].
    eexists. by apply Hentry. }
  assert (Hcites : forall v, v ∈ out <-> cites record v).
  { intros v. rewrite Hin. unfold cites. split.
    - intros (id & Hid & _ & He). destruct (Hu id Hid) as (H1 & (ref & Hr & E) & _). exists id, ref.
      split_and!; [done..|]. rewrite (Hentry id ref Hr E H1) in He. congruence.
    - intros (id & ref & Hid & Hr & E & ->). destruct (Hu id Hid) as (H1 & _ & _). exists id.
      split; [done|]. split; [apply not_elem_of_nil|]. by apply Hentry. }
  unfold evidenceForCandidate. rewrite Hout. destruct out as [|x l].
  - exfalso. destruct (cc_EvidenceRefs (cr_Candidate record)) as [|id ids] eqn:E; [done|].
    destruct (Hu id ltac:(left)) as (H1 & (ref & Hr & E2) & _).
    apply (not_elem_of_nil (verifierEvidence (trim_space id) ref)), Hcites. exists id, ref. rewrite E.
    split_and!; [left|done..].
  - eexists. split; [done|]. intros v. rewrite sort_stable_elem. apply Hcites.
Qed.

(** The entry of a proposed claim whose references can be used has the verifier's verdict. *)
Lemma shadowStep_verdict records entries r record : consistent refs -> trustedVerifierEvidence refs = Some entries ->
  res_Disposition r = CandidateDispositionProposedClaim ->
  recordsByCandidateID records (res_CandidateID r) = Some record -> usable_candidate record ->
  exists evidence, (forall v, v ∈ evidence <-> cites record v) /\
    (sv_Verification (so_entry (shadowStep records entries r)) = VerificationSupported <->
     borne_out (verifierStatement record) evidence /\ ~ contradicted (verifierStatement record) evidence).
Proof.
  intros Hc Ht Hd Hr Hu. destruct (evidence_cited record entries Hc Ht Hu) as (evidence & He & Hcites).
  exists evidence. split; [done|]. unfold shadowStep. rewrite Hd, bool_decide_eq_true_2 by done. cbn [negb].
  rewrite Hr, He. cbn [VerifyClaims vr_Claims map so_entry sv_Verification].
  rewrite verifyClaim_verification. cbn [cl_Statement].
  pose proof (contradictory_nonempty (verifierStatement record) evidence) as H1.
  pose proof (claimMatches_nonempty (verifierStatement record) evidence) as H2.
  destruct (nonempty (contradictoryEvidenceIDs _ _)); [split; [done|]; intros [_ Hn]; destruct Hn; by apply H1|].
  assert (Hn : ~ contradicted (verifierStatement record) evidence) by (by intros ?%H1).
  destruct (nonempty (claimMatches _ _)); [split; [split; [by apply H2|done]|done]|].
  split; [by destruct (nonempty evidence)|]. by intros [?%H2 _].
Qed.

(** C36: the shadow verdicts, from the collected references and observations.  When the
    reconciliation completed and no two references of one ID say different things, every
    resolution of the accounting keeps its identity and disposition in exactly one entry,
    and a proposed claim whose references can all be used is Supported exactly when they
    bear its statement out and none contradicts it.  Otherwise there is no entry and the
    result says why: no candidates, a failed reconciliation, or untrustworthy evidence.  An entry that is Supported was a
    proposed claim about some Pod, and cites at least one evidence reference, each of which
    was collected in full, bears the checked statement out and is about that very Pod -
    because its scheduling observation names it, or because no observation does and the Pod is
    the only one of the target. *)
Theorem shadow_supported_scoped :
  (verifiable ->
   map lineageOf (shr_Claims shadowVerdicts) ≡ₚ map lineageOfResolution (ar_Resolutions (rr_Accounting shadowRecon)) /\
   forall r record, r ∈ ar_Resolutions (rr_Accounting shadowRecon) -> res_Disposition r = CandidateDispositionProposedClaim ->
     recordsByCandidateID (rr_Records shadowRecon) (res_CandidateID r) = Some record -> usable_candidate record ->
     exists c evidence, c ∈ shr_Claims shadowVerdicts /\ lineageOf c = lineageOfResolution r /\
       (forall v, v ∈ evidence <-> cites record v) /\
       (sv_Verification c = VerificationSupported <->
        borne_out (verifierStatement record) evidence /\ ~ contradicted (verifierStatement record) evidence)) /\
  (~ verifiable -> shr_Claims shadowVerdicts = [] /\
     (shr_Status shadowVerdicts, shr_Error shadowVerdicts) =
       match rr_Status shadowRecon with
       | ReconciliationNoCandidates => (ShadowVerificationNoEligibleClaims, "")
       | ReconciliationFailed => (ShadowVerificationFailed, shadowVerificationErrorReconciliation)
       | ReconciliationCompleted => (ShadowVerificationFailed, shadowVerificationErrorEvidence)
       end) /\
  forall c, c ∈ shr_Claims shadowVerdicts -> sv_Verification c = VerificationSupported ->
    sv_Disposition c = CandidateDispositionProposedClaim /\ sv_EvidenceRefs c <> [] /\
    forall id, id ∈ sv_EvidenceRefs c ->
      about scheduling targetUIDs id (sv_TargetUID c) /\
      (exists ref, ref ∈ refs /\ trim_space (er_ID ref) = id /\ bears_out (sv_VerifierStatement c) (verifierEvidence id ref)) /\
      forall ref, ref ∈ refs -> trim_space (er_ID ref) = id -> er_Truncated ref = false.
Proof.
  unfold shadowVerdicts, VerifyReconciledCandidates, verifiable. cbn [shi_Reconciliation shi_EvidenceRefs].
  destruct (rr_Status shadowRecon); cbn [shr_Claims shr_Status shr_Error shadowFailure];
    [|by split_and!; [intros [? _]|..|intros ? ?%elem_of_nil]..].
  pose proof (trustedFrom_some ∅ refs) as Hsome. fold (trustedVerifierEvidence refs) in Hsome.
  destruct (trustedVerifierEvidence refs) as [entries|] eqn:Ht; cbn [shr_Claims shr_Status shr_Error shadowFailure].
  2:{ split_and!; [|done|by intros ? ?%elem_of_nil]. intros [_ Hc]. exfalso.
      destruct (proj2 Hsome) as [? ?]; [|done]. split; [|done]. intros a e _ _. by rewrite lookup_empty. }
  destruct (proj1 Hsome ltac:(by eexists)) as [_ Hc]. split_and!.
  - intros _. split.
    + rewrite !map_map. rewrite (map_ext _ lineageOfResolution) by (intros; apply shadowStep_lineage).
      by rewrite sort_stable_perm.
    + intros r record Hr Hd Hrec Hu.
      destruct (shadowStep_verdict (rr_Records shadowRecon) entries r record Hc Ht Hd Hrec Hu) as (evidence & Hev & Hv).
      exists (so_entry (shadowStep (rr_Records shadowRecon) entries r)), evidence.
      split_and!; [|apply shadowStep_lineage|done|done]. rewrite map_map. apply list_elem_of_fmap. exists r.
      split; [done|]. by apply sort_stable_elem.
  - intros Hn. by destruct Hn.
  - intros c Hc' Hs. apply list_elem_of_fmap in Hc' as (o & -> & Ho). apply list_elem_of_fmap in Ho as (r & -> & _).
    destruct (shadowStep_supported _ _ _ Hs) as (Hd & record & evidence & Hrec & He & Huid & Hne & Hcite).
    split; [done|]. split; [done|]. intros id Hid. destruct (Hcite id Hid) as (v & Hv & Hb & ->).
    destruct (evidenceForCandidate_usable _ _ _ _ He Hv) as (id & identity & Hl & Hi & Hu).
    destruct (trustedFrom_origin _ _ _ _ _ Ht Hl) as [Hn|(ref & Hr & Href & Hid0 & ->)]; [by rewrite lookup_empty in Hn|].
    rewrite Huid. cbn [verifierEvidence ve_ID] in *. assert (trim_space id = id) as -> by (rewrite <- Href; apply trim_space_idem).
    destruct (single_identity record identity id) as [Ha Hf]; [exact (reconciled_evidence _ _ Hrec) | done | done |].
    split; [done|]. split; [|done]. exists ref. done.
Qed.
End ShadowProperties.

(** ** Example: a claim about the only Pod of the target *)

Section ShadowExample.
#[local] Existing Instance plain_tables.
#[local] Existing Instance plain_digest.

Definition shadowRefs : list EvidenceRef :=
  [evidence_ref "e1" "event" "k8s" "BackOff" "Back-off restarting failed container";
   evidence_ref "e2" "log" "loki" "" "panic: invalid configuration"].
Definition shadowDiagnostic : DiagnosticResult :=
  mkDiagnosticResult "restarts" "v1" "Matched" ""
    [mkCandidateClaim "c1" ClaimObservation "Pods are in CrashLoopBackOff" "pod-1" ["e1"; "e2"];
     mkCandidateClaim "c2" ClaimObservation "Pods are in CrashLoopBackOff" "pod-2" ["e1"; "e2"]] [] [].
Definition exampleVerdicts (uids : list string) : ShadowVerificationResult :=
  shadowVerdicts [shadowDiagnostic] shadowRefs [] uids 5 9.

Example shadow_example :
  map (fun c => (sv_CandidateID c, sv_Verification c, length (sv_EvidenceRefs c))) (shr_Claims (exampleVerdicts ["pod-1"]))
  = [("c1", "Supported", 2%nat); ("c2", "Skipped", 0%nat)].
Proof. vm_compute. reflexivity. Qed.

(** Two Pods, no observation: the evidence is no Pod's, so no claim is verified. *)
Example shadow_ambiguous :
  map sv_Verification (shr_Claims (exampleVerdicts ["pod-1"; "pod-2"])) = ["Skipped"; "Skipped"].
Proof. vm_compute. reflexivity. Qed.

(** The same collection with a second text under e1: nothing is verified. *)
Definition conflictingRefs : list EvidenceRef := evidence_ref "e1" "event" "k8s" "BackOff" "another text" :: shadowRefs.
Example shadow_conflict :
  let verdicts := shadowVerdicts [shadowDiagnostic] conflictingRefs [] ["pod-1"] 5 9 in
  shr_Claims verdicts = [] /\ shr_Error verdicts = shadowVerificationErrorEvidence.
Proof. vm_compute. auto. Qed.

Lemma shadow_supported_scoped_witness :
  exists c, c ∈ shr_Claims (exampleVerdicts ["pod-1"]) /\ sv_Verification c = VerificationSupported /\
    sv_TargetUID c = "pod-1" /\ sv_EvidenceRefs c <> [] /\
    forall id, id ∈ sv_EvidenceRefs c -> about [] ["pod-1"] id "pod-1".
Proof.
  assert (Hc : match shr_Claims (exampleVerdicts ["pod-1"]) with
               | c :: _ => (sv_Verification c == VerificationSupported) && (sv_TargetUID c == "pod-1") | [] => false end = true)
    by (vm_compute; reflexivity).
  pose proof (proj2 (proj2 (shadow_supported_scoped [shadowDiagnostic] shadowRefs [] ["pod-1"] 5 9))) as H.
  change (shadowVerdicts [shadowDiagnostic] shadowRefs [] ["pod-1"] 5 9) with (exampleVerdicts ["pod-1"]) in H.
  destruct (shr_Claims (exampleVerdicts ["pod-1"])) as [|c l]; [discriminate Hc|].
  apply andb_true_iff in Hc as [Hs%String.eqb_eq Hu%String.eqb_eq]. exists c.
  destruct (H c ltac:(left) Hs) as (_ & Hne & Hids). split; [left|]. split; [exact Hs|]. split; [exact Hu|]. split; [exact Hne|].
  intros id Hid. pose proof (proj1 (Hids id Hid)) as Hab. rewrite Hu in Hab. exact Hab.
Defined.
End ShadowExample.
