(* ===== verification/ModelProviders.v ===== *)
(** * Model providers and the reasoning engine (internal/model, internal/reasoning, internal/knowledge)

    A provider answers a request with a map of values: the heuristic one from the
    text, the hosted ones (OpenAI, Claude, Gemini) over HTTP with retries, from
    the JSON text in their model's answer.  The engine turns an answer into the
    reasoning output of an investigation.  Sending, the clock and the timer are
    operations of a program; the text of a prompt, which holds the whole context
    as indented JSON, is a parameter. *)

From Stdlib Require Import ZArith Lia.
From stdpp Require Import base list strings gmap.
From S2P Require Import Prelude GoStrings Utf8 GoParse Api InvestigationApi Digest Prog Observation Egress Gateway Datasource Normalize GoJson DatasourceRequest.

(** ** Data (internal/domain/types.go, internal/model) *)

(** The values the providers put into an answer. *)
Inductive output_value :=
| OvString (s : string)
| OvInt (z : Z)
| OvStrings (l : list string)
| OvList (items : list output_value).

(** The context of a request, from which its map is filled. *)
Record RequestContext := mkRequestContext { rc_Input : IngestionOutput; rc_Runbooks : list string; rc_Docs : list string }.
Record ModelMessage := mkModelMessage { mm_Role : string; mm_Content : string }.
Record ModelRequest := mkModelRequest {
  mq_ProviderHint : string;
  mq_SystemPrompt : string;
  mq_Messages : list ModelMessage;
  mq_Context : RequestContext
}.
Record ModelResponse := mkModelResponse {
  mo_Provider : string;
  mo_Model : string;
  mo_ProviderRequestID : string;
  mo_InputTokens : Z;
  mo_OutputTokens : Z;
  mo_Output : gmap string output_value;
  mo_RawText : string;
  mo_Structured : bool
}.

Record StructuredOutput := mkStructuredOutput {
  st_RiskTitle : string;
  st_RiskSummary : string;
  st_Severity : string;
  st_ConfidenceScore : option Z;
  st_Rationale : string;
  st_RCAHypothesis : string;
  st_RCACauses : list string;
  st_ActionType : string
}.

Record RuntimeConfig := mkRuntimeConfig {
  cf_Model : string;
  cf_Endpoint : string;
  cf_Timeout : duration;
  cf_APIKey : string;
  cf_MaxTokens : Z
}.

(** The three hosted providers have the same fields. *)
Inductive hosted_kind := OpenAI | Claude | Gemini.
Record HostedProvider := mkHostedProvider { hp_Kind : hosted_kind; hp_Config : RuntimeConfig }.
Inductive Provider := HeuristicProvider | Hosted (p : HostedProvider).

Definition hostedName (k : hosted_kind) : string :=
  match k with OpenAI => "openai" | Claude => "claude" | Gemini => "gemini" end.
Definition providerTypeName (p : Provider) : string :=
  match p with HeuristicProvider => "heuristic" | Hosted h => hostedName (hp_Kind h) end.

(** [WithConfig]: what the runtime configuration sets replaces what the provider has. *)
Definition WithConfig (p : HostedProvider) (config : RuntimeConfig) : HostedProvider :=
  let c := hp_Config p in
  mkHostedProvider (hp_Kind p)
    (mkRuntimeConfig (if cf_Model config != "" then cf_Model config else cf_Model c)
       (if cf_Endpoint config != "" then cf_Endpoint config else cf_Endpoint c)
       (if 0 <? cf_Timeout config then cf_Timeout config else cf_Timeout c)
       (if cf_APIKey config != "" then cf_APIKey config else cf_APIKey c)
       (if 0 <? cf_MaxTokens config then cf_MaxTokens config else cf_MaxTokens c)).

(** The registry is a map; a second provider of a name replaces the first. *)
Definition registerProvider (registry : gmap string Provider) (p : Provider) : gmap string Provider :=
  <[providerTypeName p := p]> registry.
Definition NewRegistry (items : list Provider) : gmap string Provider := fold_left registerProvider items ∅.

Definition invalidResponse (message : string) : engine_error := ProviderError "InvalidProviderResponse" message.

(** ** Structured answers (internal/model/schema.go) *)

(** [json.MarshalIndent] of the messages and the context of a request, or its error; and the
    text of the error that decoding a marshalled answer gives. *)
Class ModelPrompts := {
  prompt_json : ModelRequest -> string + string;
  output_error_text : gmap string output_value -> string
}.

(** The error of [http.NewRequestWithContext] for an endpoint that is not a URL. *)
Class ModelEndpoints := { endpoint_error : string -> option string }.

Section Schema.
Context {U : UnicodeTables} {JE : JSONErrors} {P : ModelPrompts}.

Definition newline : string := str1 10.

Definition StructuredSystemPrompt (base : string) : string :=
  let base := trim_space base in
  let base := if base == "" then "Transform observability signals into guarded SRE reasoning output." else base in
  base +:+ newline
  +:+ "Return only valid JSON with keys riskTitle, riskSummary, severity, confidenceScore, rationale, rcaHypothesis, rcaCauses, actionType.".

Definition StructuredUserPrompt (req : ModelRequest) : string + engine_error :=
  match prompt_json req with
  | inl payload => inl ("Analyze this incident context and return JSON only." +:+ newline +:+ payload)
  | inr _ => inr EngineError
  end.

(** The texts before and after the first byte of a value. *)
Fixpoint from_byte (code : Z) (s : string) : option string :=
  match s with
  | String c s' => if is_byte code c then Some s else from_byte code s'
  | EmptyString => None
  end.
Fixpoint upto_last_byte (code : Z) (s : string) : option string :=
  match s with
  | String c s' =>
      match upto_last_byte code s' with
      | Some t => Some (String c t)
      | None => if is_byte code c then Some (String c "") else None
      end
  | EmptyString => None
  end.

Definition fence : string := str1 96 +:+ str1 96 +:+ str1 96.

(** From the first opening brace to the last closing one, when they come in this order. *)
Definition extractJSON (text : string) : string :=
  let text := trim_space text in
  let text := trim_prefix text (fence +:+ "json") in
  let text := trim_prefix text fence in
  let text := trim_suffix text fence in
  let text := trim_space text in
  match from_byte 123 text with
  | Some tail => default text (upto_last_byte 125 tail)
  | None => text
  end.

Definition normalizeStructuredOutput (payload : StructuredOutput) : StructuredOutput + engine_error :=
  let title := trim_space (st_RiskTitle payload) in
  let summary := trim_space (st_RiskSummary payload) in
  let severity := to_lower (trim_space (st_Severity payload)) in
  let rationale := trim_space (st_Rationale payload) in
  let hypothesis := trim_space (st_RCAHypothesis payload) in
  let action := trim_space (st_ActionType payload) in
  if (title == "") || (summary == "") || (rationale == "") || (hypothesis == "") || (action == "")
  then inr (invalidResponse "provider response is missing required RCA fields")
  else
    match st_ConfidenceScore payload with
    | None => inr (invalidResponse "provider response is missing confidenceScore")
    | Some score =>
        if negb (mem_str severity [SeverityLow; SeverityMedium; SeverityHigh; SeverityUnsafe])
        then inr (invalidResponse ("provider response used unsupported severity " +:+ quote severity))
        else if (score <? 0) || (100 <? score)
        then inr (invalidResponse ("provider response confidenceScore " +:+ itoa score +:+ " is out of range"))
        else
          match List.filter (fun c => c != "") (map trim_space (st_RCACauses payload)) with
          | [] => inr (invalidResponse "provider response is missing rcaCauses")
          | causes => inl (mkStructuredOutput title summary severity (Some score) rationale hypothesis causes action)
          end
    end.

(** The decoder of [*int]. *)
Definition read_int_ptr (v : jvalue) (old : option Z) : option (option Z) :=
  match v with
  | JvNull => Some None
  | JvNumber literal => let '(n, ok) := ParseInt literal 64 in if ok then Some (Some n) else None
  | _ => None
  end.
Definition read_int64 (v : jvalue) (old : Z) : option Z :=
  match v with
  | JvNull => Some old
  | JvNumber literal => let '(n, ok) := ParseInt literal 64 in if ok then Some n else None
  | _ => None
  end.

Definition read_structured_field (key : string) (x : jvalue) (s : StructuredOutput) : option StructuredOutput :=
  let '(mkStructuredOutput title summary severity score rationale hypothesis causes action) := s in
  if equal_fold key "riskTitle"
  then (fun t => mkStructuredOutput t summary severity score rationale hypothesis causes action) <$> read_string x title
  else if equal_fold key "riskSummary"
  then (fun t => mkStructuredOutput title t severity score rationale hypothesis causes action) <$> read_string x summary
  else if equal_fold key "severity"
  then (fun t => mkStructuredOutput title summary t score rationale hypothesis causes action) <$> read_string x severity
  else if equal_fold key "confidenceScore"
  then (fun n => mkStructuredOutput title summary severity n rationale hypothesis causes action) <$> read_int_ptr x score
  else if equal_fold key "rationale"
  then (fun t => mkStructuredOutput title summary severity score t hypothesis causes action) <$> read_string x rationale
  else if equal_fold key "rcaHypothesis"
  then (fun t => mkStructuredOutput title summary severity score rationale t causes action) <$> read_string x hypothesis
  else if equal_fold key "rcaCauses"
  then (fun l => mkStructuredOutput title summary severity score rationale hypothesis l action)
         <$> read_list (fun c => read_string c "") x
  else if equal_fold key "actionType"
  then mkStructuredOutput title summary severity score rationale hypothesis causes <$> read_string x action
  else Some s.
Definition emptyStructured : StructuredOutput := mkStructuredOutput "" "" "" None "" "" [] "".
Definition read_structured (v : jvalue) : option StructuredOutput := read_struct read_structured_field v emptyStructured.

Definition decodeStructuredOutput (text : string) : StructuredOutput + engine_error :=
  let jsonText := extractJSON (trim_space text) in
  match v ← parse_json jsonText; read_structured v with
  | None => inr (invalidResponse ("decode structured provider response: " +:+ json_error_text jsonText))
  | Some payload => normalizeStructuredOutput payload
  end.

(** What marshalling a value and decoding it again gives: bytes that are no UTF-8 become U+FFFD. *)
Fixpoint marshalled (v : output_value) : jvalue :=
  match v with
  | OvString s => JvString (decoded_string s)
  | OvInt z => JvNumber (itoa z)
  | OvStrings l => JvArray (map (fun s => JvString (decoded_string s)) l)
  | OvList items => JvArray (map marshalled items)
  end.
Definition keyLess (a b : string * output_value) : bool := str_ltb a.1 b.1.
Definition marshalledOutput (output : gmap string output_value) : jvalue :=
  JvObject (map (fun f => (decoded_string f.1, marshalled f.2)) (sort_stable keyLess (map_to_list output))).

Definition normalizedStructuredOutput (output : gmap string output_value) : StructuredOutput + engine_error :=
  match read_structured (marshalledOutput output) with
  | None => inr (invalidResponse ("decode structured provider output: " +:+ output_error_text output))
  | Some payload => normalizeStructuredOutput payload
  end.

(** [None]: the response is valid. *)
Definition ValidateModelResponse (resp : ModelResponse) : option engine_error :=
  if negb (mo_Structured resp) then Some (invalidResponse "provider returned unstructured response")
  else match normalizedStructuredOutput (mo_Output resp) with inl _ => None | inr e => Some e end.

Definition structuredMap (payload : StructuredOutput) (score : Z) : gmap string output_value :=
  list_to_map
    [("riskTitle", OvString (st_RiskTitle payload)); ("riskSummary", OvString (st_RiskSummary payload));
     ("severity", OvString (st_Severity payload)); ("confidenceScore", OvInt score);
     ("rationale", OvString (st_Rationale payload)); ("rcaHypothesis", OvString (st_RCAHypothesis payload));
     ("rcaCauses", OvStrings (st_RCACauses payload)); ("actionType", OvString (st_ActionType payload))].

(** [None] is the nil pointer of the score. *)
Definition buildStructuredResponse (provider modelName : string) (payload : StructuredOutput) : option ModelResponse :=
  score ← st_ConfidenceScore payload;
  Some (mkModelResponse provider modelName "" 0 0 (structuredMap payload score) (st_RiskSummary payload) true).

(** [None] is a panic. *)
Definition ParseStructuredText (provider modelName text : string) : option (ModelResponse + engine_error) :=
  match decodeStructuredOutput text with
  | inr e => Some (inr e)
  | inl payload => inl <$> buildStructuredResponse provider modelName payload
  end.

Definition WithProviderRequestID (resp : ModelResponse) (requestID : string) : ModelResponse :=
  mkModelResponse (mo_Provider resp) (mo_Model resp) (trim_space requestID) (mo_InputTokens resp) (mo_OutputTokens resp)
    (mo_Output resp) (mo_RawText resp) (mo_Structured resp).
Definition WithTokenUsage (resp : ModelResponse) (inputTokens outputTokens : Z) : ModelResponse :=
  mkModelResponse (mo_Provider resp) (mo_Model resp) (mo_ProviderRequestID resp)
    (if 0 <? inputTokens then inputTokens else mo_InputTokens resp)
    (if 0 <? outputTokens then outputTokens else mo_OutputTokens resp)
    (mo_Output resp) (mo_RawText resp) (mo_Structured resp).
End Schema.

(** ** Requests with retries (internal/model/http.go) *)

Definition DefaultProviderTimeout : duration := seconds 15.
Definition defaultProviderMaxAttempts : nat := 3.
Definition defaultProviderRetryDelay : duration := 100 * 1000000.

(** The payload is the value whose JSON text the body is. *)
Record ModelHTTPRequest := mkModelHTTPRequest {
  mh_Method : string;
  mh_Endpoint : string;
  mh_Headers : list (string * string);
  mh_Payload : jvalue
}.

(** A response: its status, its headers, the bytes of its body, or why reading failed. *)
Record ModelHTTPAnswer := mkModelHTTPAnswer {
  ma_StatusCode : Z;
  ma_Headers : list (string * string);
  ma_Body : string;
  ma_ReadError : option string
}.

(** [model.HTTPResponse]. *)
Record ProviderBody := mkProviderBody { pb_Body : string; pb_RequestID : string }.

Inductive provider_op : Type -> Type :=
| PDo (timeout : duration) (req : ModelHTTPRequest) : provider_op (ModelHTTPAnswer + transport_error)
| PClose : provider_op unit
| PNow : provider_op time
| PSleep (delay : duration) : provider_op (option string).

Abbreviation pprog := (prog provider_op).

Section Transport.
Context {U : UnicodeTables} {DT : HTTPDates} {JE : JSONErrors} {P : ModelPrompts} {EP : ModelEndpoints}.

(** [Header.Get]. *)
Definition header_get (headers : list (string * string)) (name : string) : string :=
  default "" (find_first (fun h => if to_lower h.1 == to_lower name then Some h.2 else None) headers).

Definition providerRequestID (resp : ModelHTTPAnswer) : string :=
  default "" (find_first (fun name => let value := trim_space (header_get (ma_Headers resp) name) in
                                      if value != "" then Some value else None)
                ["x-request-id"; "request-id"; "x-goog-request-id"; "anthropic-request-id"]).

Definition normalizeProviderTimeout (timeout : duration) : duration :=
  if 0 <? timeout then timeout else DefaultProviderTimeout.

Definition classifyProviderHTTPStatus (provider : string) (statusCode : Z) (body : string) : engine_error * bool :=
  let detail := trim_space body in
  let returned := provider +:+ " provider returned " +:+ itoa statusCode in
  let message := if detail != "" then returned +:+ ": " +:+ detail else returned in
  if (statusCode =? 401) || (statusCode =? 403) then (ProviderError "ProviderAuthFailed" message, false)
  else if statusCode =? 429 then (ProviderError "ProviderRateLimited" message, true)
  else if (statusCode =? 408) || (statusCode =? 425) then (ProviderError "ProviderUnavailable" message, true)
  else if (500 <=? statusCode) && (statusCode <=? 599) then (ProviderError "ProviderUnavailable" message, true)
  else if (400 <=? statusCode) && (statusCode <=? 499) then (ProviderError "ProviderRequestInvalid" message, false)
  else (ProviderError "ProviderUnavailable" message, false).

Definition classifyProviderTransportError (provider : string) (err : transport_error) : engine_error * bool :=
  match err with
  | TransportCanceled text => (ProviderError "ProviderUnavailable" (provider +:+ " provider request was canceled: " +:+ text), false)
  | TransportDeadline text => (ProviderError "ProviderUnavailable" (provider +:+ " provider request timed out: " +:+ text), true)
  | TransportNet text | TransportOther text =>
      (ProviderError "ProviderUnavailable" (provider +:+ " provider transport error: " +:+ text), true)
  end.

Definition readProviderResponse (resp : ModelHTTPAnswer) (provider : string) : string + engine_error * bool :=
  match ma_ReadError resp with
  | Some text => inr (ProviderError "ProviderUnavailable" (provider +:+ " provider read response: " +:+ text), true)
  | None =>
      if (200 <=? ma_StatusCode resp) && (ma_StatusCode resp <? 300) then inl (ma_Body resp)
      else inr (classifyProviderHTTPStatus provider (ma_StatusCode resp) (ma_Body resp))
  end.

Definition withProviderAttempts (err : engine_error) (attempts : Z) : engine_error :=
  if attempts <=? 1 then err
  else match err with
       | ProviderError reason message => ProviderError reason (message +:+ " after " +:+ itoa attempts +:+ " attempts")
       | EngineError => EngineError
       end.

Definition providerBackoff (attempt : Z) : duration := (if attempt <=? 0 then 1 else attempt) * defaultProviderRetryDelay.

Definition providerRetryDelay (attempt : Z) (resp : option ModelHTTPAnswer) : pprog duration :=
  let retryAfter := match resp with Some r => trim_space (header_get (ma_Headers r) "Retry-After") | None => "" end in
  if retryAfter == "" then Ret (providerBackoff attempt)
  else
    let '(n, ok) := ParseInt retryAfter 64 in
    if ok && (0 <? n) then Ret (seconds n)
    else
      match ParseHTTPTime retryAfter with
      | None => Ret (providerBackoff attempt)
      | Some when =>
          now <~! PNow;
          Ret (if 0 <? time_sub when now then time_sub when now else providerBackoff attempt)
      end.

Definition retryProvider (attempts : Z) (resp : option ModelHTTPAnswer) (failure : engine_error * bool)
    (again : pprog (ProviderBody + engine_error)) : pprog (ProviderBody + engine_error) :=
  let fail := Ret (inr (withProviderAttempts failure.1 attempts)) in
  if negb failure.2 || (Z.of_nat defaultProviderMaxAttempts <=? attempts) then fail
  else
    delay <~ providerRetryDelay attempts resp;
    stopped <~! PSleep delay;
    match stopped with Some _ => fail | None => again end.

(** [left] more attempts are allowed after [attempts]; [build] gives the request or its error. *)
Fixpoint providerLoop (provider : string) (timeout : duration) (build : ModelHTTPRequest + engine_error) (left : nat)
    (attempts : Z) : pprog (ProviderBody + engine_error) :=
  match left with
  | O => Ret (inr (ProviderError "ProviderUnavailable" (provider +:+ " provider request exhausted retry budget")))
  | S left' =>
      match build with
      | inr e => Ret (inr e)
      | inl req =>
          answer <~! PDo (normalizeProviderTimeout timeout) req;
          match answer with
          | inr err =>
              retryProvider (attempts + 1) None (classifyProviderTransportError provider err)
                (providerLoop provider timeout build left' (attempts + 1))
          | inl resp =>
              _ <~! PClose;
              match readProviderResponse resp provider with
              | inl body => Ret (inl (mkProviderBody body (providerRequestID resp)))
              | inr failure =>
                  retryProvider (attempts + 1) (Some resp) failure (providerLoop provider timeout build left' (attempts + 1))
              end
          end
      end
  end.

Definition DoRequestWithRetryMetadata (provider : string) (timeout : duration) (build : ModelHTTPRequest + engine_error)
    : pprog (ProviderBody + engine_error) :=
  providerLoop provider timeout build defaultProviderMaxAttempts 0.

(** ** The hosted providers (internal/model/openai, claude, gemini) *)

Definition maxTokens (value : Z) : Z := if 0 <? value then value else 800.
Definition firstSet (values : list string) : string :=
  default "" (find_first (fun v => if v != "" then Some v else None) values).

(** [url.PathEscape]. *)
Definition path_segment_byte (c : Ascii.ascii) : bool :=
  let b := byte_val c in
  ((97 <=? b) && (b <=? 122)) || ((65 <=? b) && (b <=? 90)) || ((48 <=? b) && (b <=? 57))
  || existsb (fun code => b =? code) [45; 95; 46; 126; 36; 38; 43; 61; 58; 64].
Definition upper_hex (n : Z) : string := str1 (if n <? 10 then 48 + n else 55 + n).
Fixpoint PathEscape (s : string) : string :=
  match s with
  | EmptyString => ""
  | String c s' =>
      (if path_segment_byte c then String c ""
       else "%" +:+ upper_hex (byte_val c / 16) +:+ upper_hex (byte_val c mod 16)) +:+ PathEscape s'
  end.

Definition hostedEndpoint (p : HostedProvider) : string :=
  let c := hp_Config p in
  match hp_Kind p with
  | OpenAI => firstSet [cf_Endpoint c; "https://api.openai.com/v1/chat/completions"]
  | Claude => firstSet [cf_Endpoint c; "https://api.anthropic.com/v1/messages"]
  | Gemini =>
      if cf_Endpoint c == ""
      then "https://generativelanguage.googleapis.com/v1beta/models/" +:+ PathEscape (cf_Model c) +:+ ":generateContent"
      else cf_Endpoint c
  end.

Definition openaiHeaders (key : string) : list (string * string) := [("Authorization", "Bearer " +:+ key)].
Definition claudeHeaders (key : string) : list (string * string) := [("x-api-key", key); ("anthropic-version", "2023-06-01")].
Definition geminiHeaders (key : string) : list (string * string) := [("x-goog-api-key", key)].
Definition hostedHeaders (p : HostedProvider) : list (string * string) :=
  let key := cf_APIKey (hp_Config p) in
  ("Content-Type", "application/json")
  :: match hp_Kind p with OpenAI => openaiHeaders key | Claude => claudeHeaders key | Gemini => geminiHeaders key end.

Definition textObject (fields : list (string * string)) : jvalue := JvObject (map (fun f => (f.1, JvString f.2)) fields).

(** The payloads: keys in the order [json.Marshal] writes those of a map. *)
Definition openaiPayload (c : RuntimeConfig) (systemPrompt userPrompt : string) : jvalue :=
  JvObject [("max_tokens", JvNumber (itoa (maxTokens (cf_MaxTokens c))));
            ("messages", JvArray [textObject [("content", systemPrompt); ("role", "system")];
                                  textObject [("content", userPrompt); ("role", "user")]]);
            ("model", JvString (cf_Model c));
            ("response_format", textObject [("type", "json_object")])].
Definition claudePayload (c : RuntimeConfig) (systemPrompt userPrompt : string) : jvalue :=
  JvObject [("max_tokens", JvNumber (itoa (maxTokens (cf_MaxTokens c))));
            ("messages", JvArray [JvObject [("content", JvArray [textObject [("text", userPrompt); ("type", "text")]]);
                                            ("role", JvString "user")]]);
            ("model", JvString (cf_Model c));
            ("system", JvString systemPrompt)].
Definition geminiPayload (c : RuntimeConfig) (systemPrompt userPrompt : string) : jvalue :=
  JvObject [("contents", JvArray [JvObject [("parts", JvArray [textObject [("text", userPrompt)]]); ("role", JvString "user")]]);
            ("generationConfig", JvObject [("maxOutputTokens", JvNumber (itoa (maxTokens (cf_MaxTokens c))));
                                           ("responseMimeType", JvString "application/json"); ("temperature", JvNumber "0.2")]);
            ("systemInstruction", JvObject [("parts", JvArray [textObject [("text", systemPrompt)]])])].
Definition hostedPayload (p : HostedProvider) : string -> string -> jvalue :=
  match hp_Kind p with
  | OpenAI => openaiPayload (hp_Config p)
  | Claude => claudePayload (hp_Config p)
  | Gemini => geminiPayload (hp_Config p)
  end.

Definition hostedRequest (p : HostedProvider) (systemPrompt userPrompt : string) : ModelHTTPRequest + engine_error :=
  match endpoint_error (hostedEndpoint p) with
  | Some text =>
      inr (ProviderError "ProviderUnavailable" ("create " +:+ hostedName (hp_Kind p) +:+ " request: " +:+ text))
  | None => inl (mkModelHTTPRequest "POST" (hostedEndpoint p) (hostedHeaders p) (hostedPayload p systemPrompt userPrompt))
  end.

(** What the answers of the three are decoded into: the texts they hold, an ID, the tokens. *)
Record hostedAnswer := mkHostedAnswer {
  ha_Texts : list (list string);
  ha_ID : string;
  ha_InputTokens : Z;
  ha_OutputTokens : Z
}.
Definition emptyAnswer : hostedAnswer := mkHostedAnswer [] "" 0 0.

(** A struct with one field of interest. *)
Definition read_field {A} (name : string) (read : jvalue -> A -> option A) (v : jvalue) (old : A) : option A :=
  read_struct (fun key x a => if equal_fold key name then read x a else Some a) v old.

Definition read_usage (input output : string) (v : jvalue) (a : hostedAnswer) : option hostedAnswer :=
  read_struct (fun key x a =>
    if equal_fold key input
    then (fun n => mkHostedAnswer (ha_Texts a) (ha_ID a) n (ha_OutputTokens a)) <$> read_int64 x (ha_InputTokens a)
    else if equal_fold key output
    then (fun n => mkHostedAnswer (ha_Texts a) (ha_ID a) (ha_InputTokens a) n) <$> read_int64 x (ha_OutputTokens a)
    else Some a) v a.

Definition with_texts (a : hostedAnswer) (texts : list (list string)) : hostedAnswer :=
  mkHostedAnswer texts (ha_ID a) (ha_InputTokens a) (ha_OutputTokens a).
Definition with_id (a : hostedAnswer) (id : string) : hostedAnswer :=
  mkHostedAnswer (ha_Texts a) id (ha_InputTokens a) (ha_OutputTokens a).

(** A choice of OpenAI: the content of its message. *)
Definition read_choice (v : jvalue) : option (list string) :=
  (fun s => [s]) <$> read_field "message" (read_field "content" read_string) v "".
Definition read_openai (v : jvalue) : option hostedAnswer :=
  read_struct (fun key x a =>
    if equal_fold key "id" then with_id a <$> read_string x (ha_ID a)
    else if equal_fold key "choices" then with_texts a <$> read_list read_choice x
    else if equal_fold key "usage" then read_usage "prompt_tokens" "completion_tokens" x a
    else Some a) v emptyAnswer.

(** An item of Claude's content: its text when its type is text, else the empty text. *)
Definition read_content (v : jvalue) : option (list string) :=
  (fun f : string * string => [if f.1 == "text" then f.2 else ""]) <$>
  read_struct (fun key x (f : string * string) =>
    if equal_fold key "type" then (fun t => (t, f.2)) <$> read_string x f.1
    else if equal_fold key "text" then (fun t => (f.1, t)) <$> read_string x f.2
    else Some f) v ("", "").
Definition read_claude (v : jvalue) : option hostedAnswer :=
  read_struct (fun key x a =>
    if equal_fold key "content" then with_texts a <$> read_list read_content x
    else if equal_fold key "usage" then read_usage "input_tokens" "output_tokens" x a
    else Some a) v emptyAnswer.

(** A candidate of Gemini: the texts of its parts. *)
Definition read_candidate (v : jvalue) : option (list string) :=
  read_field "content" (read_field "parts" (fun x _ => read_list (fun p => read_field "text" read_string p "") x)) v [].
Definition read_gemini (v : jvalue) : option hostedAnswer :=
  read_struct (fun key x a =>
    if equal_fold key "candidates" then with_texts a <$> read_list read_candidate x
    else if equal_fold key "usageMetadata" then read_usage "promptTokenCount" "candidatesTokenCount" x a
    else Some a) v emptyAnswer.

Definition read_hosted (k : hosted_kind) : jvalue -> option hostedAnswer :=
  match k with OpenAI => read_openai | Claude => read_claude | Gemini => read_gemini end.

(** The text the provider parses, or the message of its refusal. *)
Definition firstText (texts : list string) (message : string) : string + string :=
  match find_first (fun t => if t != "" then Some t else None) texts with Some t => inl t | None => inr message end.
Definition openaiText (choices : list (list string)) : string + string :=
  firstText (default [] (head choices)) "openai response did not include a message content payload".
Definition claudeText (contents : list (list string)) : string + string :=
  firstText (concat contents) "claude response did not include text content".
Definition geminiText (candidates : list (list string)) : string + string :=
  match candidates with
  | [] => inr "gemini response did not include any candidates"
  | candidate :: _ => firstText candidate "gemini response did not include text content"
  end.
Definition answerText (k : hosted_kind) (a : hostedAnswer) : string + string :=
  match k with OpenAI => openaiText (ha_Texts a) | Claude => claudeText (ha_Texts a) | Gemini => geminiText (ha_Texts a) end.

Definition hostedRequestID (k : hosted_kind) (body : ProviderBody) (a : hostedAnswer) : string :=
  match k with OpenAI => firstSet [pb_RequestID body; ha_ID a] | _ => pb_RequestID body end.

(** What the provider makes of a body; [None] is a panic. *)
Definition readAnswer (p : HostedProvider) (body : ProviderBody) : option (ModelResponse + engine_error) :=
  let k := hp_Kind p in
  match v ← parse_json (pb_Body body); read_hosted k v with
  | None => Some (inr (invalidResponse ("decode " +:+ hostedName k +:+ " response: " +:+ json_error_text (pb_Body body))))
  | Some a =>
      match answerText k a with
      | inr message => Some (inr (invalidResponse message))
      | inl text =>
          match ParseStructuredText (hostedName k) (cf_Model (hp_Config p)) text with
          | None => None
          | Some (inr e) => Some (inr e)
          | Some (inl resp) =>
              Some (inl (WithTokenUsage (WithProviderRequestID resp (hostedRequestID k body a)) (ha_InputTokens a) (ha_OutputTokens a)))
          end
      end
  end.

Definition completeHosted (p : HostedProvider) (req : ModelRequest) : pprog (option (ModelResponse + engine_error)) :=
  let name := hostedName (hp_Kind p) in
  let c := hp_Config p in
  if cf_Model c == "" then Ret (Some (inr (ProviderError "ProviderUnavailable" (name +:+ " model is not configured"))))
  else if cf_APIKey c == "" then Ret (Some (inr (ProviderError "APIKeyMissing" (name +:+ " provider api key is not configured"))))
  else
    match StructuredUserPrompt req with
    | inr e => Ret (Some (inr e))
    | inl userPrompt =>
        answer <~ DoRequestWithRetryMetadata name (cf_Timeout c)
                    (hostedRequest p (StructuredSystemPrompt (mq_SystemPrompt req)) userPrompt);
        Ret (match answer with inr e => Some (inr e) | inl body => readAnswer p body end)
    end.

(** ** The heuristic provider (internal/model/heuristic) *)

Definition heuristicOutput (crash : bool) : gmap string output_value :=
  let pick a b : string := if crash then a else b in
  list_to_map
    [("riskTitle", OvString (pick "Crash loop after rollout" "Workload degradation"));
     ("riskSummary", OvString (pick "Pods are restarting and entering backoff after a deployment change."
                                 "Service degradation detected from correlated signals."));
     ("severity", OvString (pick SeverityHigh SeverityLow));
     ("confidenceScore", OvInt (if crash then 86 else 35));
     ("rationale", OvString (pick "OOMKilled and BackOff signals raise blast-radius risk" "default heuristic"));
     ("rcaHypothesis", OvString (pick "A recent release likely introduced elevated memory or startup failures."
                                   "Deployment change increased memory pressure and restart frequency."));
     ("rcaCauses", OvStrings ["Recent rollout changed workload behavior"; "Pod memory usage crossed safe threshold"]);
     ("actionType", OvString (pick "kubernetes.rolloutPause" "kubernetes.scaleDeployment"))].

Definition completeHeuristic (req : ModelRequest) : ModelResponse :=
  let summary := match last (mq_Messages req) with Some m => mm_Content m | None => "" end in
  let crash := contains (to_lower summary) "oomkilled" || contains (to_lower summary) "backoff" in
  mkModelResponse "heuristic" "rule-based" "" 0 0 (heuristicOutput crash)
    (if crash then "Pods are restarting and entering backoff after a deployment change."
     else "Service degradation detected from correlated signals.") true.

Definition Complete (p : Provider) (req : ModelRequest) : pprog (option (ModelResponse + engine_error)) :=
  match p with
  | HeuristicProvider => Ret (Some (inl (completeHeuristic req)))
  | Hosted h => completeHosted h req
  end.
End Transport.

(** ** The knowledge base (internal/knowledge/base.go) *)

Record KnowledgeBase := mkKnowledgeBase { kb_Runbooks : gmap string (list string); kb_Docs : gmap string (list string) }.

Definition NewBase : KnowledgeBase :=
  mkKnowledgeBase
    {["payments-api" := ["runbook://payments-api/oom-restart-guide"; "runbook://payments-api/scale-and-throttle"]]}
    {["payments-api" := ["doc://payments-api/topology"; "doc://payments-api/release-playbook"]]}.

Section Engine.
Context {U : UnicodeTables} {DT : HTTPDates} {JE : JSONErrors} {P : ModelPrompts} {EP : ModelEndpoints}.

Definition Lookup (b : KnowledgeBase) (resource : ResourceRef) (summary : string) : list string * list string :=
  let key := to_lower (rr_Service resource) in
  let runbooks := default [] (kb_Runbooks b !! key) in
  let docs := default [] (kb_Docs b !! key) in
  (if contains (to_lower summary) "oom" && bool_decide (runbooks = []) then ["runbook://generic/oomkilled"] else runbooks, docs).

(** ** The reasoning engine (internal/reasoning/engine.go) *)

Definition asString (value : option output_value) (fallback : string) : string :=
  match value with Some (OvString text) => if text == "" then fallback else text | _ => fallback end.
Definition asInt (value : option output_value) (fallback : Z) : Z :=
  match value with Some (OvInt z) => z | _ => fallback end.
Definition asStringSlice (value : option output_value) : list string :=
  match value with
  | Some (OvStrings l) => l
  | Some (OvList items) => omap (fun v => match v with OvString t => if t != "" then Some t else None | _ => None end) items
  | _ => []
  end.

Definition remediationDescription (actionType : string) : string :=
  if actionType == "kubernetes.rolloutPause" then "Pause the rollout to stop additional unhealthy replicas."
  else if actionType == "notification.sendSlack" then "Send incident notification to the response channel."
  else "Scale the deployment to stabilize traffic while investigating the new release.".
Definition remediationParameters (actionType : string) : gmap string string :=
  if actionType == "kubernetes.rolloutPause" then {["reason" := "automatic-guardrail-pause"]}
  else if actionType == "notification.sendSlack" then {["channel" := "slack-webhook"]}
  else {["replicas" := "6"]}.

Definition analysisRequest (name : string) (input : IngestionOutput) (runbooks docs : list string) : ModelRequest :=
  mkModelRequest name "Transform observability signals into guarded SRE reasoning output."
    [mkModelMessage "user" (ic_Summary (io_Context input))] (mkRequestContext input runbooks docs).

Definition reasoningOf (input : IngestionOutput) (runbooks docs : list string) (response : ModelResponse) : ReasoningOutput :=
  let output := mo_Output response in
  let severity := asString (output !! "severity") SeverityLow in
  let actionType := asString (output !! "actionType") "kubernetes.scaleDeployment" in
  let causes := asStringSlice (output !! "rcaCauses") in
  mkReasoningOutput (asString (output !! "riskTitle") "Workload degradation")
    (asString (output !! "riskSummary") "Service degradation detected from correlated signals.") severity
    (mkConfidence (asInt (output !! "confidenceScore") 35) severity (asString (output !! "rationale") "default heuristic")
       "metrics+events+deployment-context")
    (mkRCASummary
       (asString (output !! "rcaHypothesis") "Deployment change increased memory pressure and restart frequency.")
       (match causes with
        | [] => ["Recent rollout changed workload behavior"; "Pod memory usage crossed safe threshold"]
        | _ => causes
        end)
       (eb_Events (io_Evidence input)))
    (mkRemediation actionType (remediationDescription actionType) (remediationParameters actionType)
       ["Scale deployment back to 4 replicas"; "Revert deployment image if restart rate remains elevated"])
    runbooks docs (mo_Provider response) (mo_ProviderRequestID response) (mo_InputTokens response) (mo_OutputTokens response).

(** [Engine.Analyze]; [None] is a panic of the provider. *)
Definition engineAnalyze (base : KnowledgeBase) (provider : Provider) (input : IngestionOutput)
    : pprog (option (ReasoningOutput + engine_error)) :=
  let '(runbooks, docs) := Lookup base (ic_Resource (io_Context input)) (ic_Summary (io_Context input)) in
  answer <~ Complete provider (analysisRequest (providerTypeName provider) input runbooks docs);
  Ret (match answer with
       | None => None
       | Some (inr e) => Some (inr e)
       | Some (inl response) =>
           match ValidateModelResponse response with
           | Some e => Some (inr e)
           | None => Some (inl (reasoningOf input runbooks docs response))
           end
       end).
End Engine.

(** ** Well-formed answers *)

Section WellFormed.
Context {U : UnicodeTables} {DT : HTTPDates} {JE : JSONErrors} {P : ModelPrompts} {EP : ModelEndpoints}.

Definition severities : list string := [SeverityLow; SeverityMedium; SeverityHigh; SeverityUnsafe].

Record payload_ok (s : StructuredOutput) (score : Z) : Prop := {
  po_title : st_RiskTitle s <> "";
  po_summary : st_RiskSummary s <> "";
  po_severity : mem_str (st_Severity s) severities = true;
  po_score : st_ConfidenceScore s = Some score;
  po_range : 0 <= score <= 100;
  po_rationale : st_Rationale s <> "";
  po_hypothesis : st_RCAHypothesis s <> "";
  po_causes : st_RCACauses s <> [] /\ "" ∉ st_RCACauses s;
  po_action : st_ActionType s <> ""
}.

(** What an analysis promises to its reader. *)
Record analysis_ok (out : ReasoningOutput) : Prop := {
  ao_title : ro_RiskTitle out <> "";
  ao_summary : ro_RiskSummary out <> "";
  ao_severity : mem_str (ro_Severity out) severities = true /\ cf_Severity (ro_Confidence out) = ro_Severity out;
  ao_score : 0 <= cf_Score (ro_Confidence out) <= 100;
  ao_rationale : cf_Rationale (ro_Confidence out) <> "";
  ao_hypothesis : rs_Hypothesis (ro_RCA out) <> "";
  ao_causes : rs_Causes (ro_RCA out) <> [] /\ "" ∉ rs_Causes (ro_RCA out);
  ao_action : rem_ActionType (ro_Remediation out) <> ""
}.

Lemma ends_true {E R} (p : prog E R) : ends (fun _ => True) p.
Proof. induction p; simpl; auto. Qed.

Lemma normalize_ok payload out :
  normalizeStructuredOutput payload = inl out -> exists score, payload_ok out score.
Proof.
  unfold normalizeStructuredOutput. destruct (_ || (trim_space (st_ActionType payload) == "")) eqn:E1; [done|].
  destruct (st_ConfidenceScore payload) as [score|]; [|done].
  destruct (negb (mem_str _ _)) eqn:E2; [done|]. destruct ((score <? 0) || _)%bool eqn:E3; [done|].
  destruct (List.filter _ _) as [|c causes] eqn:E4; [done|]. intros [= <-].
  apply negb_false_iff in E2. apply orb_false_iff in E3 as [? ?]. rewrite !orb_false_iff, !String.eqb_neq in E1.
  destruct E1 as ((((H1 & H2) & H3) & H4) & H5). exists score. split; try done; [cbn; lia|].
  split; [done|]. cbn [st_RCACauses]. rewrite <- E4. intros [_ Hc]%list_filter_elem. done.
Qed.

(** The structured answer of a payload that was decoded. *)
Definition response_ok (response : ModelResponse) : Prop :=
  exists s score, payload_ok s score /\ mo_Output response = structuredMap s score.

Lemma ParseStructuredText_ok provider modelName text :
  exists r, ParseStructuredText provider modelName text = Some r /\
    match r with inl response => response_ok response | inr _ => True end.
Proof.
  unfold ParseStructuredText, decodeStructuredOutput. destruct (_ ≫= _) as [payload|]; [|by eexists].
  destruct (normalizeStructuredOutput payload) as [s|e] eqn:E; [|by eexists].
  destruct (normalize_ok _ _ E) as [score Hs]. unfold buildStructuredResponse. rewrite (po_score _ _ Hs). simpl.
  eexists. split; [done|]. exists s, score. done.
Qed.

Lemma readAnswer_ok p body :
  exists r, readAnswer p body = Some r /\ match r with inl response => response_ok response | inr _ => True end.
Proof.
  unfold readAnswer. destruct (_ ≫= _) as [a|]; [|by eexists]. destruct (answerText _ _) as [text|]; [|by eexists].
  destruct (ParseStructuredText_ok (hostedName (hp_Kind p)) (cf_Model (hp_Config p)) text) as (r & -> & Hr).
  by destruct r as [response|]; eexists.
Qed.

(** Every provider's answers: of the hosted ones as decoded, of the heuristic one one of two. *)
Lemma Complete_ok provider req :
  ends (fun r => match r with
                 | Some (inl response) => response_ok response \/ exists crash, mo_Output response = heuristicOutput crash
                 | Some (inr _) => True
                 | None => False
                 end) (Complete provider req).
Proof.
  destruct provider as [|p]; cbn [Complete]; [cbn; right; by eexists|]. unfold completeHosted.
  destruct (cf_Model _ == ""); [done|]. destruct (cf_APIKey _ == ""); [done|].
  destruct (StructuredUserPrompt req) as [prompt|]; [|done]. apply ends_bind.
  eapply ends_mono; [|apply ends_true]. intros answer _. cbn [ends].
  destruct answer as [body|e]; [|done]. destruct (readAnswer_ok p body) as (r & -> & Hr). destruct r; [by left|done].
Qed.
Lemma asString_set text fallback : text <> "" -> asString (Some (OvString text)) fallback = text.
Proof. intros H. unfold asString. by rewrite (proj2 (String.eqb_neq _ _) H). Qed.

Lemma structured_analysis_ok input runbooks docs response :
  response_ok response -> analysis_ok (reasoningOf input runbooks docs response).
Proof.
  intros (s & score & [] & Ho). destruct po_causes0 as [Hne Hnot].
  assert (st_Severity s <> "") as Hsev by (intros E; by rewrite E in po_severity0).
  unfold reasoningOf. rewrite Ho.
  replace (structuredMap s score !! "severity") with (Some (OvString (st_Severity s))) by by simplify_map_eq.
  replace (structuredMap s score !! "actionType") with (Some (OvString (st_ActionType s))) by by simplify_map_eq.
  replace (structuredMap s score !! "rcaCauses") with (Some (OvStrings (st_RCACauses s))) by by simplify_map_eq.
  replace (structuredMap s score !! "riskTitle") with (Some (OvString (st_RiskTitle s))) by by simplify_map_eq.
  replace (structuredMap s score !! "riskSummary") with (Some (OvString (st_RiskSummary s))) by by simplify_map_eq.
  replace (structuredMap s score !! "confidenceScore") with (Some (OvInt score)) by by simplify_map_eq.
  replace (structuredMap s score !! "rationale") with (Some (OvString (st_Rationale s))) by by simplify_map_eq.
  replace (structuredMap s score !! "rcaHypothesis") with (Some (OvString (st_RCAHypothesis s))) by by simplify_map_eq.
  rewrite !asString_set by done. cbn [asInt asStringSlice]. destruct (st_RCACauses s); [done|]. by split.
Qed.

Lemma heuristic_analysis_ok input runbooks docs response crash :
  mo_Output response = heuristicOutput crash -> analysis_ok (reasoningOf input runbooks docs response).
Proof.
  intros Ho. unfold reasoningOf. rewrite Ho. destruct crash; split; cbn; try done; try lia; (split; [done|]); set_solver.
Qed.

(** C37: whatever a provider answers over HTTP, the engine ends without a panic, and an analysis
    it gives back is complete: a title, a summary, a rationale, a hypothesis, an action and at
    least one cause, none of them empty, one of the four severities - the same for the
    risk and its confidence - and a score between 0 and 100. *)
Theorem analysis_well_formed base provider input :
  ends (fun r => match r with
                 | Some (inl out) => analysis_ok out
                 | Some (inr _) => True
                 | None => False
                 end) (engineAnalyze base provider input).
Proof.
  unfold engineAnalyze. destruct (Lookup _ _ _) as [runbooks docs]. apply ends_bind.
  eapply ends_mono; [|apply Complete_ok]. intros r Hr. cbn [ends]. destruct r as [[response|e]|]; [|done|done].
  destruct (ValidateModelResponse response); [done|].
  destruct Hr as [Hr|[crash Hr]]; [by apply structured_analysis_ok | by eapply heuristic_analysis_ok].
Qed.
End WellFormed.

(** ** What is sent *)

Section Sent.
Context {U : UnicodeTables} {DT : HTTPDates} {JE : JSONErrors} {P : ModelPrompts} {EP : ModelEndpoints}.

Definition model_request (ev : event provider_op) : option ModelHTTPRequest :=
  match ev with Ev (PDo _ req) _ => Some req | _ => None end.

(** At most [n] requests, all of them [req]. *)
Definition only_sends (req : ModelHTTPRequest) (n : nat) (log : list (event provider_op)) : Prop :=
  exists m, (m <= n)%nat /\ omap model_request log = replicate m req.

Lemma only_sends_quiet req n log ev : model_request ev = None -> only_sends req n log -> only_sends req n (log ++ [ev]).
Proof. intros He (m & Hm & H). exists m. split; [done|]. rewrite omap_app, H. cbn. by rewrite He, app_nil_r. Qed.

Lemma only_sends_more req n log timeout answer :
  only_sends req n log -> only_sends req (S n) (log ++ [Ev (PDo timeout req) answer]).
Proof.
  intros (m & Hm & H). exists (S m). split; [lia|]. rewrite omap_app, H. cbn. by rewrite <- replicate_cons_app.
Qed.

Lemma only_sends_weaken req n n' log : (n <= n')%nat -> only_sends req n log -> only_sends req n' log.
Proof. intros ? (m & ? & ?). exists m. split; [lia|done]. Qed.

Lemma retryProvider_sends req n attempts resp failure again log :
  only_sends req 3 log ->
  (n <= 3)%nat -> only_sends req n log ->
  (forall log', only_sends req n log' -> wp log_env (only_sends req 3) again log' (fun _ _ => True)) ->
  wp log_env (only_sends req 3) (retryProvider attempts resp failure again) log (fun _ _ => True).
Proof.
  intros H3 Hn Hs Hagain. unfold retryProvider. destruct (_ || _); [by apply wp_ret|].
  assert (Hwait : forall d log', only_sends req n log' ->
    wp log_env (only_sends req 3) (stopped <~! PSleep d;
      match stopped with Some _ => Ret (inr (withProviderAttempts failure.1 attempts)) | None => again end) log' (fun _ _ => True)).
  { intros d log' Hl. apply wp_vis; [by eapply only_sends_weaken|]. intros stopped log1 ->.
    assert (only_sends req n (log' ++ [Ev (PSleep d) stopped])) by by apply only_sends_quiet.
    destruct stopped; [|by apply Hagain]. apply wp_ret; [by eapply only_sends_weaken|done]. }
  unfold providerRetryDelay. destruct (_ == ""); [by apply Hwait|]. destruct (ParseInt _ 64) as [k ok].
  destruct (ok && (0 <? k)); [by apply Hwait|]. destruct (ParseHTTPTime _); [|by apply Hwait].
  cbn [pbind]. apply wp_vis; [done|]. intros now log1 ->. apply Hwait. by apply only_sends_quiet.
Qed.

Lemma providerLoop_sends provider timeout req left attempts log :
  (left <= 3)%nat -> only_sends req (3 - left) log ->
  wp log_env (only_sends req 3) (providerLoop provider timeout (inl req) left attempts) log (fun _ _ => True).
Proof.
  revert attempts log. induction left as [|left IH]; intros attempts log Hleft Hs.
  { apply wp_ret; [|done]. by eapply only_sends_weaken; [|exact Hs]. }
  assert (Hnext : forall l t a, only_sends req (3 - S left) l -> only_sends req (3 - left) (l ++ [Ev (PDo t req) a])).
  { intros l t a H. eapply only_sends_weaken; [|apply only_sends_more, H]. lia. }
  cbn [providerLoop]. apply wp_vis; [eapply only_sends_weaken; [|exact Hs]; lia|]. intros answer log1 ->.
  specialize (Hnext _ (normalizeProviderTimeout timeout) answer Hs).
  assert (H3 : forall l, only_sends req (3 - left) l -> only_sends req 3 l) by (intros l; apply only_sends_weaken; lia).
  destruct answer as [resp|err].
  - apply wp_vis; [by apply H3|]. intros u log2 ->. apply (only_sends_quiet _ _ _ (Ev PClose u)) in Hnext; [|done].
    destruct (readProviderResponse resp provider); [apply wp_ret; [by apply H3|done]|].
    apply (retryProvider_sends req (3 - left)); [by apply H3 | lia | done |]. intros log' Hl. apply IH; [lia|done].
  - apply (retryProvider_sends req (3 - left)); [by apply H3 | lia | done |]. intros log' Hl. apply IH; [lia|done].
Qed.

(** The request an analysis may send: only a hosted provider with a model and a key has one. *)
Definition hostedCall (p : HostedProvider) (req : ModelRequest) : option ModelHTTPRequest :=
  if (cf_Model (hp_Config p) == "") || (cf_APIKey (hp_Config p) == "") then None
  else
    match StructuredUserPrompt req with
    | inr _ => None
    | inl prompt =>
        match hostedRequest p (StructuredSystemPrompt (mq_SystemPrompt req)) prompt with inl r => Some r | inr _ => None end
    end.

Definition call_bound (provider : Provider) (req : ModelRequest) (log : list (event provider_op)) : Prop :=
  match provider with
  | HeuristicProvider => omap model_request log = []
  | Hosted p => match hostedCall p req with Some r => only_sends r 3 log | None => omap model_request log = [] end
  end.

(** C38: at every moment of every analysis, the heuristic provider has sent nothing, and so has a
    hosted one without a model, a key, a prompt or a usable endpoint; and any other
    has sent one and the same request - to its endpoint, with its key and its payload -
    at most three times. *)
Theorem provider_requests_bounded base provider input r log :
  logged (engineAnalyze base provider input) r log ->
  exists req, mq_Messages req = [mkModelMessage "user" (ic_Summary (io_Context input))] /\ call_bound provider req log.
Proof.
  intros Hrun. unfold engineAnalyze in Hrun. destruct (Lookup _ _ _) as [runbooks docs].
  set (req := analysisRequest (providerTypeName provider) input runbooks docs) in Hrun.
  exists req. split; [done|].
  assert (Hend : forall (f : option (ModelResponse + engine_error) -> option (ReasoningOutput + engine_error)),
    wp log_env (call_bound provider req) (answer <~ Complete provider req; Ret (f answer)) [] (fun _ _ => True)).
  { intros f. apply wp_bind. destruct provider as [|p]; cbn [Complete].
    - by repeat (apply wp_ret; [done|]).
    - apply (wp_mono log_env _ _ _ (fun _ _ => True)); [intros x l Hl _; by apply wp_ret|]. unfold completeHosted, call_bound, hostedCall.
      destruct (cf_Model _ == ""); [by apply wp_ret|]. destruct (cf_APIKey _ == ""); [by apply wp_ret|]. cbn [orb].
      destruct (StructuredUserPrompt req) as [prompt|e]; [|by apply wp_ret]. apply wp_bind.
      destruct (hostedRequest p _ prompt) as [hr|e] eqn:E.
      + apply (wp_mono log_env _ _ _ (fun _ _ => True)); [|apply (providerLoop_sends _ _ hr 3 0); [done|]; exists 0%nat; done].
        intros x l Hl _. by apply wp_ret.
      + by apply wp_ret. }
  by apply (wp_exec _ _ _ _ _ _ _ (Hend _)) in Hrun as [? _].
Qed.
End Sent.

(** ** Examples *)

Section ModelExamples.
#[local] Existing Instance plain_tables.
#[local] Existing Instance no_dates.
#[local] Instance plain_prompts : ModelPrompts := {| prompt_json _ := inl "{}"; output_error_text _ := "" |}.
#[local] Instance any_endpoint : ModelEndpoints := {| endpoint_error _ := None |}.
#[local] Instance no_json_text : JSONErrors := {| json_error_text _ := "invalid" |}.

(** The JSON text of an object of texts. *)
Definition textFields (fields : list (string * json)) : string := json_text (JObj fields).
Definition structuredText (severity : string) : string :=
  textFields [("riskTitle", JStr " Restarts "); ("riskSummary", JStr "The Pods restart."); ("severity", JStr severity);
              ("confidenceScore", JNum 80); ("rationale", JStr "events"); ("rcaHypothesis", JStr "A bad release.");
              ("rcaCauses", JArr [JStr "release"; JStr " "]); ("actionType", JStr "kubernetes.rolloutPause")].
Definition openaiAnswer (severity : string) : string :=
  textFields [("id", JStr "r-1");
              ("choices", JArr [JObj [("message", JObj [("content", JStr ("Here it is: " +:+ structuredText severity))])]]);
              ("usage", JObj [("prompt_tokens", JNum 12)])].

Definition exampleResource : ResourceRef := mkResourceRef "" "prod" "Deployment" "web" "apps/v1" "payments-api".
Definition exampleInput : IngestionOutput :=
  mkIngestionOutput (mkIncidentContext "i" "" "payments-api" exampleResource "BackOff" [] ∅ 0)
    (mkEvidenceBundle [] ∅ ["BackOff"] [] []) [] exampleResource [] 1.
Definition exampleProvider (key : string) : Provider :=
  Hosted (mkHostedProvider OpenAI (mkRuntimeConfig "gpt" "https://models.example" 0 key 0)).

(** A provider that gives these answers one after another. *)
Definition model_server (answers : list (ModelHTTPAnswer + transport_error)) (log : list (event provider_op))
    (X : Type) (op : provider_op X) : option (X * list (event provider_op)) :=
  match op in provider_op Y return option (Y * list (event provider_op)) with
  | PDo t req =>
      match answers !! length (omap model_request log) with
      | Some a => Some (a, log ++ [Ev (PDo t req) a])
      | None => None
      end
  | PClose => Some (tt, log ++ [Ev PClose tt])
  | PNow => Some (0, log ++ [Ev PNow 0])
  | PSleep d => Some (None, log ++ [Ev (PSleep d) None])
  end.

Lemma model_server_logs answers log X op x log' :
  model_server answers log X op = Some (x, log') -> log_env log X op x log'.
Proof. destruct op; cbn; unfold log_env; try (by intros [= <- <-]). destruct (answers !! _); [by intros [= <- <-]|done]. Qed.

Definition busyAnswer : ModelHTTPAnswer + transport_error := inl (mkModelHTTPAnswer 503 [] "" None).
Definition goodAnswer (severity : string) : ModelHTTPAnswer + transport_error :=
  inl (mkModelHTTPAnswer 200 [("X-Request-Id", " q-7 ")] (openaiAnswer severity) None).
Definition exampleRun (key : string) (answers : list (ModelHTTPAnswer + transport_error)) :=
  run (model_server answers) (engineAnalyze NewBase (exampleProvider key) exampleInput) [].

Example engine_example :
  match (exampleRun "k" [busyAnswer; goodAnswer "High"]).1 with
  | Some (Some (inl out)) =>
      Some (ro_RiskTitle out, ro_Severity out, cf_Score (ro_Confidence out), rs_Causes (ro_RCA out), ro_ProviderRequestID out,
            ro_InputTokens out)
  | _ => None
  end = Some ("Restarts", "high", 80, ["release"], "q-7", 12).
Proof. vm_compute. reflexivity. Qed.

Example engine_unknown_severity :
  (exampleRun "k" [goodAnswer "critical"]).1
  = Some (Some (inr (invalidResponse ("provider response used unsupported severity " +:+ quote "critical")))).
Proof. vm_compute. reflexivity. Qed.

Lemma provider_requests_bounded_witness :
  omap model_request (exampleRun "k" [busyAnswer; goodAnswer "High"]).2 <> [] /\
  exists req, mq_Messages req = [mkModelMessage "user" "BackOff"] /\
    call_bound (exampleProvider "k") req (exampleRun "k" [busyAnswer; goodAnswer "High"]).2.
Proof.
  assert (Hrun : logged (engineAnalyze NewBase (exampleProvider "k") exampleInput)
                   (exampleRun "k" [busyAnswer; goodAnswer "High"]).1 (exampleRun "k" [busyAnswer; goodAnswer "High"]).2).
  { apply run_exec, model_server_logs. }
  split; [vm_compute; discriminate|]. exact (provider_requests_bounded _ _ _ _ _ Hrun).
Defined.
End ModelExamples.
