(* ===== verification/DeepCopy.v ===== *)
(** * Deep copies of the API objects (api/v1alpha1)

    The rest of the development gives every resource as a value, as if a
    handler's working copy shared nothing with the object it was copied from.
    The code gets its copies from hand-written methods.  Here an object is a
    value with references into a heap - pointers, slices and maps alike - and a
    copy is the term of a small language of the idioms the methods are written
    in, field by field; the terms are run on a heap. *)

From Stdlib Require Import ZArith Lia.
From stdpp Require Import base list strings.
From S2P Require Import Prelude.

(** ** Values with references *)

(** A cell of the heap holds what a pointer points to (one value), the elements of a
    slice or the entries of a map. *)
Inductive gval :=
| Atom (text : string)
| Nil
| Ref (cell : nat)
| Struct (fields : list (string * gval)).

Definition heap : Type := list (list gval).

(** The value without its references; nil and an empty slice stand for the same. *)
Inductive pval :=
| PAtom (text : string)
| PList (elements : list pval)
| PStruct (fields : list (string * pval)).

(** The types of [metav1] that have references ([ObjectMeta], [ListMeta],
    [LabelSelector]) are the library's, and so are their values and copies. *)
Class Library := {
  library_value : pval -> Prop;
  library_copy : gval -> heap -> gval * heap }.

Inductive gtype :=
| TAtom
| TLibrary
| TRef (element : gtype)
| TStruct (fields : list (string * gtype)).

(** What a method does with a value: keep it as the assignment of the struct left it; copy
    the cell a reference is to, and its contents with another copy ([make] and a loop, a new
    pointer, [DeepCopy]); append the elements to the nil slice; copy the named fields; call the library's method. *)
Inductive copier :=
| Keep
| Library_copy
| Fresh (element : copier)
| Append
| Fields (fields : list (string * copier)).

Definition alloc (cell : list gval) (h : heap) : gval * heap := (Ref (length h), h ++ [cell]).

(** [None] would be a reference outside the heap. *)
Fixpoint copy `{Library} (c : copier) (v : gval) (h : heap) {struct c} : gval * heap :=
  match c, v with
  | Fresh c', Ref l =>
      match h !! l with
      | None => (v, h)
      | Some cell =>
          let '(cell', h') :=
            (fix go (vs : list gval) (h : heap) : list gval * heap :=
               match vs with
               | [] => ([], h)
               | w :: vs =>
                   let '(w', h1) := copy c' w h in
                   let '(vs', h2) := go vs h1 in (w' :: vs', h2)
               end) cell h in
          alloc cell' h'
      end
  | Append, Ref l =>
      match h !! l with
      | None => (v, h)
      | Some [] => (Nil, h)
      | Some cell => alloc cell h
      end
  | Fields fs, Struct vs =>
      let '(vs', h') :=
        (fix go (vs : list (string * gval)) (h : heap) : list (string * gval) * heap :=
           match vs with
           | [] => ([], h)
           | (n, w) :: vs =>
               let '(w', h1) :=
                 (fix field (fs : list (string * copier)) : gval * heap :=
                    match fs with
                    | [] => (w, h)
                    | (m, c') :: fs => if m == n then copy c' w h else field fs
                    end) fs in
               let '(vs', h2) := go vs h1 in ((n, w') :: vs', h2)
           end) vs h in
      (Struct vs', h')
  | Library_copy, _ => library_copy v h
  | _, _ => (v, h)
  end.

(** ** Which references a copy shares *)

(** A type without references. *)
Fixpoint plain (t : gtype) : bool :=
  match t with
  | TAtom => true
  | TLibrary | TRef _ => false
  | TStruct fields => (fix go fs := match fs with [] => true | (_, t) :: fs => plain t && go fs end) fields
  end.

Fixpoint field_copier (n : string) (fs : list (string * copier)) : copier :=
  match fs with
  | [] => Keep
  | (m, c) :: fs => if m == n then c else field_copier n fs
  end.

(** The paths of the references of a type that the copy leaves shared. *)
Fixpoint shared (path : string) (t : gtype) (c : copier) {struct t} : list string :=
  match t with
  | TAtom => match c with Library_copy => [path] | _ => [] end
  | TLibrary => match c with Library_copy => [] | _ => [path] end
  | TRef e =>
      match c with
      | Fresh c' => shared (path +:+ "[]") e c'
      | Append => if plain e then [] else [path +:+ "[]"]
      | _ => [path]
      end
  | TStruct fields =>
      match c with
      | Keep | Fields _ =>
          let inner := match c with Fields fs => fs | _ => [] end in
          (fix go (ts : list (string * gtype)) : list string :=
             match ts with
             | [] => []
             | (n, t) :: ts => shared (path +:+ "." +:+ n) t (field_copier n inner) ++ go ts
             end) fields
      | Library_copy => [path]
      | _ => if plain t then [] else [path]
      end
  end.

(** ** The types of the objects *)

Definition type_ActionTypeRule : gtype :=
  TStruct [("ActionType", TAtom); ("Action", TAtom); ("Reason", TAtom)].
Definition type_SeverityRule : gtype :=
  TStruct [("MinSeverity", TAtom); ("MaxSeverity", TAtom); ("Action", TAtom); ("Reason", TAtom);
    ("TimeoutSec", TAtom)].
Definition type_EscalationRule : gtype :=
  TStruct [("Trigger", TAtom); ("Condition", TAtom); ("Action", TAtom); ("Targets", TRef TAtom);
    ("NotificationTemplate", TAtom)].
Definition type_NotificationChannel : gtype :=
  TStruct [("Type", TAtom); ("URL", TAtom); ("Headers", TRef TAtom); ("SlackTeams", TRef TAtom);
    ("EmailAddresses", TRef TAtom); ("PagerDutyKey", TAtom); ("Enabled", TAtom)].
Definition type_EscalationConfig : gtype :=
  TStruct [("EscalationChainRef", TAtom); ("Rules", TRef type_EscalationRule);
    ("NotificationChannels", TRef type_NotificationChannel)].
Definition type_ApprovalPolicySpec : gtype :=
  TStruct [("Scope", TAtom); ("ResourceSelector", TRef TLibrary); ("NamespaceSelector", TRef TLibrary);
    ("ActionTypeRules", TRef type_ActionTypeRule); ("SeverityRules", TRef type_SeverityRule);
    ("DefaultApprovalTimeout", TAtom); ("Escalation", TRef type_EscalationConfig); ("Priority", TAtom);
    ("Enabled", TAtom)].
Definition type_ApprovalPolicyStatus : gtype :=
  TStruct [("Phase", TAtom); ("Conditions", TRef TAtom); ("UpdatedAt", TRef TAtom); ("ValidationErrors", TRef TAtom);
    ("LastAppliedGeneration", TAtom)].
Definition type_ApprovalPolicy : gtype :=
  TStruct [("TypeMeta", TAtom); ("ObjectMeta", TLibrary); ("Spec", type_ApprovalPolicySpec);
    ("Status", type_ApprovalPolicyStatus)].
Definition type_ApprovalPolicyList : gtype :=
  TStruct [("TypeMeta", TAtom); ("ListMeta", TLibrary); ("Items", TRef type_ApprovalPolicy)].
Definition type_DataSourceNetworkPolicy : gtype :=
  TStruct [("AllowedHosts", TRef TAtom); ("AllowedCIDRs", TRef TAtom); ("DeniedCIDRs", TRef TAtom)].
Definition type_PromQLPolicy : gtype :=
  TStruct [("AllowedFunctions", TRef TAtom); ("DeniedFunctions", TRef TAtom); ("AllowSubqueries", TRef TAtom);
    ("AllowOffset", TRef TAtom); ("AllowAtModifier", TRef TAtom)].
Definition type_LogQLPolicy : gtype :=
  TStruct [("AllowedPipelineStages", TRef TAtom); ("DeniedPipelineStages", TRef TAtom)].
Definition type_DataSourceQueryPolicy : gtype :=
  TStruct [("Mode", TAtom); ("AllowedTemplates", TRef TAtom); ("MaxRange", TAtom); ("AllowRegexMatchers", TAtom);
    ("RequireTargetScope", TAtom); ("Prometheus", type_PromQLPolicy); ("Loki", type_LogQLPolicy)].
Definition type_DataClassification : gtype :=
  TStruct [("Level", TAtom); ("SensitivityTags", TRef TAtom); ("Source", TAtom); ("PolicyVersion", TAtom)].
Definition type_SecretKeyRef : gtype :=
  TStruct [("Name", TAtom); ("Key", TAtom)].
Definition type_DataSourceAuthSpec : gtype :=
  TStruct [("Type", TAtom); ("SecretRef", TRef type_SecretKeyRef)].
Definition type_DataSourceTLSSpec : gtype :=
  TStruct [("InsecureSkipVerify", TAtom)].
Definition type_DataSourceSpec : gtype :=
  TStruct [("Type", TAtom); ("Endpoint", TAtom); ("Timeout", TAtom); ("NetworkPolicy", type_DataSourceNetworkPolicy);
    ("QueryPolicy", type_DataSourceQueryPolicy); ("DataClassification", type_DataClassification);
    ("Auth", TRef type_DataSourceAuthSpec); ("TLS", TRef type_DataSourceTLSSpec)].
Definition type_ResourceStatus : gtype :=
  TStruct [("Phase", TAtom); ("Message", TAtom); ("ObservedGeneration", TAtom); ("UpdatedAt", TAtom)].
Definition type_DataSourceStatus : gtype :=
  TStruct [("ResourceStatus", type_ResourceStatus); ("Conditions", TRef TAtom)].
Definition type_DataSource : gtype :=
  TStruct [("TypeMeta", TAtom); ("ObjectMeta", TLibrary); ("Spec", type_DataSourceSpec);
    ("Status", type_DataSourceStatus)].
Definition type_DataSourceList : gtype :=
  TStruct [("TypeMeta", TAtom); ("ListMeta", TLibrary); ("Items", TRef type_DataSource)].
Definition type_EscalationCondition : gtype :=
  TStruct [("Type", TAtom); ("Threshold", TAtom); ("SeverityMin", TAtom); ("SeverityMax", TAtom)].
Definition type_EscalationAction : gtype :=
  TStruct [("Type", TAtom); ("Details", TRef TAtom); ("Enabled", TAtom)].
Definition type_Assignee : gtype :=
  TStruct [("Type", TAtom); ("Name", TAtom); ("Channels", TRef TAtom); ("Enabled", TAtom)].
Definition type_EscalationStage : gtype :=
  TStruct [("Name", TAtom); ("Delay", TAtom); ("Condition", TRef type_EscalationCondition);
    ("Actions", TRef type_EscalationAction); ("Assignees", TRef type_Assignee); ("NotificationTemplate", TAtom);
    ("Timeout", TAtom)].
Definition type_EscalationChainSpec : gtype :=
  TStruct [("ResourceSelector", TRef TLibrary); ("Priority", TAtom); ("Stages", TRef type_EscalationStage);
    ("Enabled", TAtom)].
Definition type_EscalationChainStatus : gtype :=
  TStruct [("Phase", TAtom); ("Conditions", TRef TAtom); ("UpdatedAt", TRef TAtom); ("ValidationErrors", TRef TAtom);
    ("LastAppliedGeneration", TAtom); ("TotalStages", TAtom)].
Definition type_EscalationChain : gtype :=
  TStruct [("TypeMeta", TAtom); ("ObjectMeta", TLibrary); ("Spec", type_EscalationChainSpec);
    ("Status", type_EscalationChainStatus)].
Definition type_EscalationChainList : gtype :=
  TStruct [("TypeMeta", TAtom); ("ListMeta", TLibrary); ("Items", TRef type_EscalationChain)].
Definition type_TargetRef : gtype :=
  TStruct [("Cluster", TAtom); ("Namespace", TAtom); ("Kind", TAtom); ("Name", TAtom); ("APIVersion", TAtom);
    ("Service", TAtom)].
Definition type_NamespacedObjectReference : gtype :=
  TStruct [("Name", TAtom); ("Namespace", TAtom)].
Definition type_InvestigationCorrelation : gtype :=
  TStruct [("AgentActionRef", type_NamespacedObjectReference); ("ExecutionID", TAtom); ("BaselineDigest", TAtom)].
Definition type_InvestigationTimeRange : gtype :=
  TStruct [("Lookback", TAtom)].
Definition type_LocalObjectReference : gtype :=
  TStruct [("Name", TAtom)].
Definition type_InvestigationQuery : gtype :=
  TStruct [("Name", TAtom); ("DatasourceRef", type_LocalObjectReference); ("QueryType", TAtom); ("Query", TAtom);
    ("QueryTemplate", TAtom); ("Reasons", TRef TAtom)].
Definition type_EvidenceRequirements : gtype :=
  TStruct [("Profile", TAtom)].
Definition type_EvidenceRetentionEncryption : gtype :=
  TStruct [("Required", TAtom)].
Definition type_EvidenceRetentionAccessPolicy : gtype :=
  TStruct [("NamespaceScoped", TAtom)].
Definition type_EvidenceRetentionPolicy : gtype :=
  TStruct [("Mode", TAtom); ("Retention", TAtom); ("StorageRef", type_LocalObjectReference);
    ("Encryption", type_EvidenceRetentionEncryption); ("DeletionPolicy", TAtom);
    ("AccessPolicy", type_EvidenceRetentionAccessPolicy)].
Definition type_QueryRetentionPolicy : gtype :=
  TStruct [("Mode", TAtom)].
Definition type_MetricResultLimits : gtype :=
  TStruct [("MaxSeries", TAtom); ("MaxSamples", TAtom)].
Definition type_LogResultLimits : gtype :=
  TStruct [("MaxStreams", TAtom); ("MaxEntries", TAtom); ("MaxLines", TAtom)].
Definition type_EventResultLimits : gtype :=
  TStruct [("MaxRecords", TAtom)].
Definition type_QueryResultLimits : gtype :=
  TStruct [("Metrics", type_MetricResultLimits); ("Logs", type_LogResultLimits); ("Events", type_EventResultLimits)].
Definition type_InvestigationQueryBudget : gtype :=
  TStruct [("MaxTimeRange", TAtom); ("MaxQueriesTotal", TAtom); ("MaxQueriesPerSource", TAtom);
    ("MaxConcurrentQueries", TAtom); ("MaxCumulativeDuration", TAtom); ("MaxCumulativeResponseBytes", TAtom);
    ("ResultLimits", type_QueryResultLimits)].
Definition type_InvestigationLoopPolicy : gtype :=
  TStruct [("MaxDepth", TAtom); ("AllowRiskSignalSource", TAtom)].
Definition type_InvestigationRequestSpec : gtype :=
  TStruct [("Target", type_TargetRef); ("Purpose", TAtom); ("Correlation", TRef type_InvestigationCorrelation);
    ("TimeRange", type_InvestigationTimeRange); ("Question", TAtom); ("DataSources", TRef type_LocalObjectReference);
    ("Queries", TRef type_InvestigationQuery); ("ModelProviderRef", type_LocalObjectReference); ("Mode", TAtom);
    ("CreateRiskSignal", TAtom); ("EvidenceRequirements", type_EvidenceRequirements);
    ("EvidenceRetention", type_EvidenceRetentionPolicy); ("QueryRetention", type_QueryRetentionPolicy);
    ("QueryBudget", type_InvestigationQueryBudget); ("LoopPolicy", type_InvestigationLoopPolicy);
    ("TTLSeconds", TAtom)].
Definition type_InvestigationFailure : gtype :=
  TStruct [("Code", TAtom); ("Message", TAtom); ("Stage", TAtom); ("Retryable", TAtom)].
Definition type_RCAConfidence : gtype :=
  TStruct [("ProviderScore", TAtom); ("VerifiedScore", TAtom); ("Level", TAtom); ("Method", TAtom)].
Definition type_RCAVerdict : gtype :=
  TStruct [("Outcome", TAtom); ("Summary", TAtom); ("RootCauseEntity", type_TargetRef); ("RootCauseType", TAtom);
    ("Confidence", TAtom); ("ConfidenceDetail", TRef type_RCAConfidence)].
Definition type_RCAEvidenceCoverage : gtype :=
  TStruct [("Profile", TAtom); ("RequiredChecks", TRef TAtom); ("CompletedChecks", TRef TAtom);
    ("IncompleteChecks", TRef TAtom); ("IssueMatches", TAtom)].
Definition type_RCAEvidenceLink : gtype :=
  TStruct [("EvidenceRef", TAtom); ("Role", TAtom); ("Strength", TAtom)].
Definition type_RCAClaim : gtype :=
  TStruct [("ID", TAtom); ("Statement", TAtom); ("EvidenceRefs", TRef TAtom);
    ("EvidenceLinks", TRef type_RCAEvidenceLink); ("Verification", TAtom)].
Definition type_RCAAlternativeHypothesis : gtype :=
  TStruct [("Statement", TAtom); ("Disposition", TAtom); ("EvidenceRefs", TRef TAtom)].
Definition type_RCAMissingEvidence : gtype :=
  TStruct [("Source", TAtom); ("Reason", TAtom)].
Definition type_RCADegradationReason : gtype :=
  TStruct [("Code", TAtom); ("Stage", TAtom); ("SourceRef", TRef type_NamespacedObjectReference); ("Message", TAtom)].
Definition type_RCADegradation : gtype :=
  TStruct [("Partial", TAtom); ("UnavailableSources", TRef TAtom); ("Reasons", TRef type_RCADegradationReason)].
Definition type_ProviderEgressAudit : gtype :=
  TStruct [("Decision", TAtom); ("Reason", TAtom); ("ProviderType", TAtom); ("EvidenceBundleDigest", TAtom);
    ("EvidenceKinds", TRef TAtom); ("SensitivityTagsSent", TRef TAtom); ("LogSamplesIncluded", TAtom);
    ("MaximumClassificationObserved", TAtom); ("MaximumClassificationAllowed", TAtom);
    ("MaximumClassificationSent", TAtom); ("ClassificationPolicyVersion", TAtom)].
Definition type_ProviderEgressAttempt : gtype :=
  TStruct [("Ordinal", TAtom); ("ProviderRef", TRef type_NamespacedObjectReference); ("ProviderGeneration", TAtom);
    ("ProviderType", TAtom); ("Decision", TAtom); ("Result", TAtom); ("Reason", TAtom);
    ("EvidenceBundleDigest", TAtom); ("EvidenceKinds", TRef TAtom); ("SensitivityTagsSent", TRef TAtom);
    ("LogSamplesIncluded", TAtom); ("MaximumClassificationObserved", TAtom); ("MaximumClassificationAllowed", TAtom);
    ("MaximumClassificationSent", TAtom); ("ClassificationPolicyVersion", TAtom)].
Definition type_RCAExecutionAttempt : gtype :=
  TStruct [("ID", TAtom); ("ProviderRequestID", TAtom); ("IdempotencyKey", TAtom); ("RetryReason", TAtom);
    ("Result", TAtom); ("StartedAt", TRef TAtom); ("CompletedAt", TRef TAtom)].
Definition type_RCADigest : gtype :=
  TStruct [("Algorithm", TAtom); ("Canonicalization", TAtom); ("Value", TAtom)].
Definition type_RCANormalizedResult : gtype :=
  TStruct [("RiskTitle", TAtom); ("RiskSummary", TAtom); ("Severity", TAtom); ("ConfidenceScore", TAtom);
    ("ConfidenceReason", TAtom); ("EvidenceCoverage", TAtom); ("RCAHypothesis", TAtom); ("RCACauses", TRef TAtom);
    ("RCAEvidence", TRef TAtom); ("ActionType", TAtom); ("ActionDescription", TAtom);
    ("ActionParameters", TRef TAtom); ("RollbackPlan", TRef TAtom); ("RunbookRefs", TRef TAtom);
    ("ServiceDocs", TRef TAtom); ("Provider", TAtom)].
Definition type_RCAProviderResult : gtype :=
  TStruct [("SchemaVersion", TAtom); ("ProviderRequestID", TAtom); ("Digest", TRef type_RCADigest);
    ("Classification", TRef type_DataClassification); ("NormalizedResult", TRef type_RCANormalizedResult)].
Definition type_RCAExecution : gtype :=
  TStruct [("ID", TAtom); ("State", TAtom); ("Provider", TAtom);
    ("ProviderRef", TRef type_NamespacedObjectReference); ("ProviderGeneration", TAtom); ("ProviderType", TAtom);
    ("Model", TAtom); ("RCASchemaVersion", TAtom); ("CanonicalizationVersion", TAtom);
    ("ReasoningPolicyVersion", TAtom); ("VerifierVersion", TAtom); ("EgressAudit", TRef type_ProviderEgressAudit);
    ("EgressAttempts", TRef type_ProviderEgressAttempt); ("ControllerVersion", TAtom); ("AttemptCount", TAtom);
    ("Attempts", TRef type_RCAExecutionAttempt); ("DurationSeconds", TAtom); ("InputTokens", TAtom);
    ("OutputTokens", TAtom); ("ProviderResult", TRef type_RCAProviderResult)].
Definition type_PayloadRef : gtype :=
  TStruct [("Scheme", TAtom); ("Digest", TAtom); ("Encrypted", TAtom); ("ExpiresAt", TRef TAtom);
    ("RetentionClass", TAtom)].
Definition type_EvidenceRef : gtype :=
  TStruct [("ID", TAtom); ("Kind", TAtom); ("Source", TAtom); ("Summary", TAtom); ("Query", TAtom);
    ("QueryDigest", TAtom); ("ContentDigest", TAtom); ("DigestAlgorithm", TAtom); ("DigestCanonicalization", TAtom);
    ("RedactionProfile", TAtom); ("Classification", TRef type_DataClassification); ("Truncated", TAtom);
    ("TruncationReason", TAtom); ("LimitDimension", TAtom); ("Limit", TAtom); ("OriginalCount", TAtom);
    ("RetainedCount", TAtom); ("OriginalBytes", TAtom); ("RetainedBytes", TAtom); ("CollectedAt", TRef TAtom);
    ("PayloadRef", TRef type_PayloadRef); ("Reason", TAtom); ("Link", TAtom);
    ("RelatedTargets", TRef type_TargetRef)].
Definition type_InvestigationLineageSource : gtype :=
  TStruct [("APIVersion", TAtom); ("Kind", TAtom); ("Namespace", TAtom); ("Name", TAtom); ("UID", TAtom);
    ("Generation", TAtom)].
Definition type_FindingIdentity : gtype :=
  TStruct [("SchemaVersion", TAtom); ("ObjectFindingIdentity", TAtom); ("LogicalFindingIdentity", TAtom);
    ("IncidentOccurrence", TAtom); ("FindingType", TAtom); ("TargetGeneration", TAtom); ("WindowBucket", TAtom)].
Definition type_InvestigationLineage : gtype :=
  TStruct [("Source", type_InvestigationLineageSource); ("TargetUID", TAtom); ("FindingFingerprint", TAtom);
    ("FindingIdentity", TRef type_FindingIdentity); ("InvestigationDepth", TAtom)].
Definition type_InvestigationRequestStatus : gtype :=
  TStruct [("ResourceStatus", type_ResourceStatus); ("Outcome", TAtom); ("Failure", TRef type_InvestigationFailure);
    ("Summary", TAtom); ("Hypothesis", TAtom); ("Confidence", TAtom); ("Provider", TAtom);
    ("Verdict", TRef type_RCAVerdict); ("EvidenceCoverage", TRef type_RCAEvidenceCoverage);
    ("Claims", TRef type_RCAClaim); ("AlternativeHypotheses", TRef type_RCAAlternativeHypothesis);
    ("MissingEvidence", TRef type_RCAMissingEvidence); ("Degradation", TRef type_RCADegradation);
    ("Execution", TRef type_RCAExecution); ("StartedAt", TRef TAtom); ("CompletedAt", TRef TAtom);
    ("EvidenceRefs", TRef type_EvidenceRef); ("Lineage", TRef type_InvestigationLineage);
    ("LinkedRiskSignalRef", TRef type_NamespacedObjectReference); ("Conditions", TRef TAtom)].
Definition type_InvestigationRequest : gtype :=
  TStruct [("TypeMeta", TAtom); ("ObjectMeta", TLibrary); ("Spec", type_InvestigationRequestSpec);
    ("Status", type_InvestigationRequestStatus)].
Definition type_InvestigationRequestList : gtype :=
  TStruct [("TypeMeta", TAtom); ("ListMeta", TLibrary); ("Items", TRef type_InvestigationRequest)].
Definition type_ModelProviderDataPolicy : gtype :=
  TStruct [("AllowExternalTransmission", TAtom); ("AllowedEvidenceKinds", TRef TAtom);
    ("DeniedSensitivityTags", TRef TAtom); ("AllowLogSamples", TAtom); ("RequireRedaction", TAtom);
    ("MaximumClassification", TAtom)].
Definition type_ModelProviderSpec : gtype :=
  TStruct [("Provider", TAtom); ("Model", TAtom); ("Endpoint", TAtom); ("APIKeySecretRef", TRef type_SecretKeyRef);
    ("Timeout", TAtom); ("MaxTokens", TAtom); ("DataPolicy", type_ModelProviderDataPolicy);
    ("FallbackProviderRef", type_LocalObjectReference)].
Definition type_ModelProvider : gtype :=
  TStruct [("TypeMeta", TAtom); ("ObjectMeta", TLibrary); ("Spec", type_ModelProviderSpec);
    ("Status", type_ResourceStatus)].
Definition type_ModelProviderList : gtype :=
  TStruct [("TypeMeta", TAtom); ("ListMeta", TLibrary); ("Items", TRef type_ModelProvider)].
Definition type_NamespaceThresholdSpec : gtype :=
  TStruct [("NamespaceSelector", TRef TLibrary); ("ActivePlansLimit", TAtom); ("PendingApprovalsLimit", TAtom);
    ("DefaultTTLSeconds", TAtom); ("DefaultApprovalTimeoutSeconds", TAtom); ("ProtectionLevel", TAtom);
    ("Priority", TAtom); ("Enabled", TAtom)].
Definition type_NamespaceThresholdStatus : gtype :=
  TStruct [("Phase", TAtom); ("EnforcedNamespaces", TRef TAtom); ("Conditions", TRef TAtom);
    ("UpdatedAt", TRef TAtom); ("ValidationErrors", TRef TAtom); ("LastAppliedGeneration", TAtom);
    ("TotalEnforcedCount", TAtom)].
Definition type_NamespaceThreshold : gtype :=
  TStruct [("TypeMeta", TAtom); ("ObjectMeta", TLibrary); ("Spec", type_NamespaceThresholdSpec);
    ("Status", type_NamespaceThresholdStatus)].
Definition type_NamespaceThresholdList : gtype :=
  TStruct [("TypeMeta", TAtom); ("ListMeta", TLibrary); ("Items", TRef type_NamespaceThreshold)].
Definition type_NamespaceSelector : gtype :=
  TStruct [("MatchNames", TRef TAtom)].
Definition type_WorkloadSelector : gtype :=
  TStruct [("MatchLabels", TRef TAtom); ("Kinds", TRef TAtom)].
Definition type_TargetSelector : gtype :=
  TStruct [("NamespaceSelector", type_NamespaceSelector); ("WorkloadSelector", type_WorkloadSelector)].
Definition type_RiskThreshold : gtype :=
  TStruct [("Operator", TAtom); ("Value", TAtom)].
Definition type_RiskRuleSignal : gtype :=
  TStruct [("Name", TAtom); ("Type", TAtom); ("DatasourceRef", type_LocalObjectReference); ("QueryType", TAtom);
    ("Query", TAtom); ("QueryTemplate", TAtom); ("Reasons", TRef TAtom); ("Threshold", type_RiskThreshold)].
Definition type_RiskRuleNotification : gtype :=
  TStruct [("WebhookRef", TRef type_SecretKeyRef)].
Definition type_RiskRuleAI : gtype :=
  TStruct [("RCAEnabled", TAtom); ("ProviderRef", type_LocalObjectReference)].
Definition type_RiskRuleInvestigationPolicy : gtype :=
  TStruct [("Mode", TAtom); ("CreateRiskSignal", TAtom); ("EvidenceRequirements", type_EvidenceRequirements)].
Definition type_RiskRuleSpec : gtype :=
  TStruct [("TargetSelector", type_TargetSelector); ("Interval", TAtom); ("Window", TAtom); ("Severity", TAtom);
    ("Signals", TRef type_RiskRuleSignal); ("Notification", type_RiskRuleNotification); ("AI", type_RiskRuleAI);
    ("InvestigationPolicy", type_RiskRuleInvestigationPolicy)].
Definition type_RiskRuleCoverage : gtype :=
  TStruct [("SupportedTargetKinds", TRef TAtom); ("UnsupportedDiscoveredKinds", TRef TAtom); ("Partial", TAtom)].
Definition type_RiskRuleStatus : gtype :=
  TStruct [("ResourceStatus", type_ResourceStatus); ("Conditions", TRef TAtom);
    ("Coverage", TRef type_RiskRuleCoverage)].
Definition type_RiskRule : gtype :=
  TStruct [("TypeMeta", TAtom); ("ObjectMeta", TLibrary); ("Spec", type_RiskRuleSpec);
    ("Status", type_RiskRuleStatus)].
Definition type_RiskRuleList : gtype :=
  TStruct [("TypeMeta", TAtom); ("ListMeta", TLibrary); ("Items", TRef type_RiskRule)].
Definition type_RiskSignalSpec : gtype :=
  TStruct [("Target", type_TargetRef); ("SignalType", TAtom); ("FindingIdentity", TRef type_FindingIdentity);
    ("InvestigationRef", TRef type_NamespacedObjectReference); ("ActionType", TAtom); ("Severity", TAtom);
    ("Confidence", TAtom); ("DryRun", TAtom); ("TTLSeconds", TAtom); ("Evidence", TRef type_EvidenceRef);
    ("Parameters", TRef TAtom); ("ApprovalTimeoutSeconds", TAtom)].
Definition type_RCACause : gtype :=
  TStruct [("Cause", TAtom); ("Confidence", TAtom)].
Definition type_RiskSignalRCAProjectionStatus : gtype :=
  TStruct [("Mode", TAtom); ("ProjectedFrom", TRef type_NamespacedObjectReference); ("CompatibilityPath", TAtom);
    ("Message", TAtom)].
Definition type_RiskSignalStatus : gtype :=
  TStruct [("ResourceStatus", type_ResourceStatus); ("RCASummary", TAtom); ("RCAHypothesis", TAtom);
    ("RCAProvider", TAtom); ("RCACauses", TRef type_RCACause);
    ("Projection", TRef type_RiskSignalRCAProjectionStatus); ("Conditions", TRef TAtom)].
Definition type_RiskSignal : gtype :=
  TStruct [("TypeMeta", TAtom); ("ObjectMeta", TLibrary); ("Spec", type_RiskSignalSpec);
    ("Status", type_RiskSignalStatus)].
Definition type_RiskSignalList : gtype :=
  TStruct [("TypeMeta", TAtom); ("ListMeta", TLibrary); ("Items", TRef type_RiskSignal)].
Definition type_RemediationStep : gtype :=
  TStruct [("Name", TAtom); ("ActionType", TAtom); ("Description", TAtom); ("Parameters", TRef TAtom)].
Definition type_RemediationPlanSpec : gtype :=
  TStruct [("Target", type_TargetRef); ("RecommendedBy", TAtom); ("Severity", TAtom); ("Confidence", TAtom);
    ("DryRun", TAtom); ("TTLSeconds", TAtom); ("ApprovalTimeoutSeconds", TAtom); ("Summary", TAtom);
    ("RollbackPlan", TRef TAtom); ("References", TRef TAtom); ("Steps", TRef type_RemediationStep)].
Definition type_RemediationPlanStatus : gtype :=
  TStruct [("ResourceStatus", type_ResourceStatus); ("FinishedAt", TRef TAtom)].
Definition type_RemediationPlan : gtype :=
  TStruct [("TypeMeta", TAtom); ("ObjectMeta", TLibrary); ("Spec", type_RemediationPlanSpec);
    ("Status", type_RemediationPlanStatus)].
Definition type_RemediationPlanList : gtype :=
  TStruct [("TypeMeta", TAtom); ("ListMeta", TLibrary); ("Items", TRef type_RemediationPlan)].
Definition type_AgentActionSpec : gtype :=
  TStruct [("Target", type_TargetRef); ("ActionType", TAtom); ("Parameters", TRef TAtom); ("ApprovedBy", TAtom);
    ("DryRunResult", TAtom); ("TTLSeconds", TAtom); ("ApprovalTimeoutSeconds", TAtom); ("RollbackPlan", TRef TAtom)].
Definition type_AgentActionApprovalStatus : gtype :=
  TStruct [("Approved", TAtom); ("ApprovedBy", TAtom); ("Source", TAtom); ("ActionDigest", TAtom);
    ("ApprovedGeneration", TAtom); ("ApprovedAt", TRef TAtom); ("EscalatedAt", TRef TAtom);
    ("DecidedAt", TRef TAtom); ("DecidedBy", TAtom)].
Definition type_AgentActionNotificationStatus : gtype :=
  TStruct [("LastAttemptAt", TRef TAtom); ("RetryCount", TAtom); ("LastError", TAtom)].
Definition type_AgentActionDryRunStatus : gtype :=
  TStruct [("Result", TAtom); ("RecordedAt", TRef TAtom)].
Definition type_AgentActionExecutionStatus : gtype :=
  TStruct [("Phase", TAtom); ("Outcome", TAtom); ("ExecutionID", TAtom); ("IdempotencyKey", TAtom);
    ("Attempt", TAtom); ("FailureReason", TAtom); ("Executor", TAtom); ("Summary", TAtom); ("StartedAt", TRef TAtom);
    ("FinishedAt", TRef TAtom); ("ExternalRef", TAtom); ("Retryable", TAtom)].
Definition type_EffectivenessHealthCondition : gtype :=
  TStruct [("Type", TAtom); ("Status", TAtom); ("Reason", TAtom); ("Message", TAtom)].
Definition type_EffectivenessHealthSnapshot : gtype :=
  TStruct [("Generation", TAtom); ("ObservedGeneration", TAtom); ("DesiredReplicas", TAtom);
    ("UpdatedReplicas", TAtom); ("AvailableReplicas", TAtom); ("ReadyReplicas", TAtom);
    ("Conditions", TRef type_EffectivenessHealthCondition)].
Definition type_EffectivenessBaseline : gtype :=
  TStruct [("CapturedAt", TRef TAtom); ("Target", type_TargetRef); ("TargetUID", TAtom);
    ("RiskSignalRef", TRef type_NamespacedObjectReference); ("EvidenceRefs", TRef type_EvidenceRef);
    ("Health", TRef type_EffectivenessHealthSnapshot); ("Digest", TAtom); ("UnavailableReason", TAtom)].
Definition type_AgentActionEffectivenessStatus : gtype :=
  TStruct [("Phase", TAtom); ("Outcome", TAtom); ("Message", TAtom);
    ("VerificationRef", TRef type_NamespacedObjectReference); ("Baseline", TRef type_EffectivenessBaseline);
    ("PostActionHealth", TRef type_EffectivenessHealthSnapshot); ("StartedAt", TRef TAtom);
    ("FinishedAt", TRef TAtom); ("SettlingUntil", TRef TAtom); ("ObservationUntil", TRef TAtom)].
Definition type_AgentActionStatus : gtype :=
  TStruct [("ResourceStatus", type_ResourceStatus); ("FinishedAt", TRef TAtom);
    ("Approval", TRef type_AgentActionApprovalStatus); ("Notification", TRef type_AgentActionNotificationStatus);
    ("DryRunResult", TRef type_AgentActionDryRunStatus); ("Execution", TRef type_AgentActionExecutionStatus);
    ("Effectiveness", TRef type_AgentActionEffectivenessStatus)].
Definition type_AgentAction : gtype :=
  TStruct [("TypeMeta", TAtom); ("ObjectMeta", TLibrary); ("Spec", type_AgentActionSpec);
    ("Status", type_AgentActionStatus)].
Definition type_AgentActionList : gtype :=
  TStruct [("TypeMeta", TAtom); ("ListMeta", TLibrary); ("Items", TRef type_AgentAction)].

(** ** Copies *)

Definition into_library : copier := Library_copy.
Definition into_map : copier := Fresh Keep.

(** The copy of a top-level object: its metadata, spec and status. *)
Definition into_object (spec status : copier) : copier :=
  Fields [("ObjectMeta", into_library); ("Spec", spec); ("Status", status)].
Definition into_list (item : copier) : copier :=
  Fields [("ListMeta", into_library); ("Items", Fresh item)].

Definition into_evidenceRef : copier :=
  Fields [("RelatedTargets", Append); ("Classification", Fresh (Fields [("SensitivityTags", Append)]));
    ("CollectedAt", Fresh Keep); ("PayloadRef", Fresh (Fields [("ExpiresAt", Fresh Keep)]))].
Definition deepcopyEvidenceRefs : copier := Fresh into_evidenceRef.

Definition into_RiskSignal : copier :=
  into_object
    (Fields [("Evidence", deepcopyEvidenceRefs); ("FindingIdentity", Fresh Keep); ("Parameters", into_map);
       ("InvestigationRef", Fresh Keep)])
    (Fields [("RCACauses", Append); ("Projection", Fresh (Fields [("ProjectedFrom", Fresh Keep)]));
       ("Conditions", Fresh Keep)]).
Definition into_RiskSignalList : copier := into_list into_RiskSignal.

Definition into_RemediationPlan : copier :=
  into_object
    (Fields [("RollbackPlan", Append); ("References", Append); ("Steps", Fresh (Fields [("Parameters", into_map)]))])
    (Fields [("FinishedAt", Fresh Keep)]).
Definition into_RemediationPlanList : copier := into_list into_RemediationPlan.

Definition into_healthSnapshot : copier := Fields [("Conditions", Append)].
Definition into_effectiveness : copier :=
  Fields [("VerificationRef", Fresh Keep); ("StartedAt", Fresh Keep); ("FinishedAt", Fresh Keep);
    ("SettlingUntil", Fresh Keep); ("ObservationUntil", Fresh Keep);
    ("Baseline", Fresh (Fields [("CapturedAt", Fresh Keep); ("RiskSignalRef", Fresh Keep);
                                ("EvidenceRefs", deepcopyEvidenceRefs); ("Health", Fresh into_healthSnapshot)]));
    ("PostActionHealth", Fresh into_healthSnapshot)].
Definition into_AgentAction : copier :=
  into_object
    (Fields [("Parameters", into_map); ("RollbackPlan", Append)])
    (Fields [("FinishedAt", Fresh Keep);
       ("Approval", Fresh (Fields [("ApprovedAt", Fresh Keep); ("EscalatedAt", Fresh Keep); ("DecidedAt", Fresh Keep)]));
       ("Notification", Fresh (Fields [("LastAttemptAt", Fresh Keep)]));
       ("DryRunResult", Fresh (Fields [("RecordedAt", Fresh Keep)]));
       ("Execution", Fresh (Fields [("FinishedAt", Fresh Keep)]));
       ("Effectiveness", Fresh into_effectiveness)]).
Definition into_AgentActionList : copier := into_list into_AgentAction.

Definition into_execution : copier :=
  Fields [("ProviderRef", Fresh Keep);
    ("EgressAudit", Fresh (Fields [("EvidenceKinds", Append); ("SensitivityTagsSent", Append)]));
    ("EgressAttempts", Fresh (Fields [("ProviderRef", Fresh Keep); ("EvidenceKinds", Append); ("SensitivityTagsSent", Append)]));
    ("Attempts", Fresh (Fields [("StartedAt", Fresh Keep); ("CompletedAt", Fresh Keep)]));
    ("ProviderResult",
     Fresh (Fields [("Digest", Fresh Keep); ("Classification", Fresh (Fields [("SensitivityTags", Append)]));
                    ("NormalizedResult",
                     Fresh (Fields [("RCACauses", Append); ("RCAEvidence", Append); ("ActionParameters", into_map);
                                    ("RollbackPlan", Append); ("RunbookRefs", Append); ("ServiceDocs", Append)]))]))].
Definition into_investigationSpec : copier :=
  Fields [("Correlation", Fresh Keep); ("DataSources", Append); ("Queries", Fresh (Fields [("Reasons", Append)]))].
Definition into_investigationStatus : copier :=
  Fields [("StartedAt", Fresh Keep); ("CompletedAt", Fresh Keep); ("EvidenceRefs", deepcopyEvidenceRefs);
    ("Verdict", Fresh (Fields [("ConfidenceDetail", Fresh Keep)]));
    ("EvidenceCoverage", Fresh (Fields [("RequiredChecks", Append); ("CompletedChecks", Append); ("IncompleteChecks", Append)]));
    ("Claims", Fresh (Fields [("EvidenceRefs", Append); ("EvidenceLinks", Append)]));
    ("AlternativeHypotheses", Fresh (Fields [("EvidenceRefs", Append)]));
    ("MissingEvidence", Append); ("Failure", Fresh Keep);
    ("Degradation", Fresh (Fields [("UnavailableSources", Append); ("Reasons", Fresh (Fields [("SourceRef", Fresh Keep)]))]));
    ("Execution", Fresh into_execution);
    ("Lineage", Fresh (Fields [("FindingIdentity", Fresh Keep)]));
    ("LinkedRiskSignalRef", Fresh Keep); ("Conditions", Fresh Keep)].
Definition into_InvestigationRequest : copier := into_object into_investigationSpec into_investigationStatus.
Definition into_InvestigationRequestList : copier := into_list into_InvestigationRequest.

Definition into_DataSource : copier :=
  into_object
    (Fields [("Auth", Fresh (Fields [("SecretRef", Fresh Keep)])); ("TLS", Fresh Keep);
       ("NetworkPolicy", Fields [("AllowedHosts", Append); ("AllowedCIDRs", Append); ("DeniedCIDRs", Append)]);
       ("QueryPolicy",
        Fields [("AllowedTemplates", Append);
          ("Prometheus", Fields [("AllowedFunctions", Append); ("DeniedFunctions", Append); ("AllowSubqueries", Fresh Keep);
                                 ("AllowOffset", Fresh Keep); ("AllowAtModifier", Fresh Keep)]);
          ("Loki", Fields [("AllowedPipelineStages", Append); ("DeniedPipelineStages", Append)])]);
       ("DataClassification", Fields [("SensitivityTags", Append)])])
    (Fields [("Conditions", Fresh Keep)]).
Definition into_DataSourceList : copier := into_list into_DataSource.

Definition into_ModelProvider : copier :=
  into_object
    (Fields [("APIKeySecretRef", Fresh Keep);
       ("DataPolicy", Fields [("AllowedEvidenceKinds", Append); ("DeniedSensitivityTags", Append)])])
    Keep.
Definition into_ModelProviderList : copier := into_list into_ModelProvider.

Definition into_RiskRule : copier :=
  into_object
    (Fields [("TargetSelector", Fields [("WorkloadSelector", Fields [("MatchLabels", into_map); ("Kinds", Append)]);
                                        ("NamespaceSelector", Fields [("MatchNames", Append)])]);
       ("Signals", Fresh (Fields [("Reasons", Append)])); ("Notification", Fields [("WebhookRef", Fresh Keep)])])
    (Fields [("Conditions", Fresh Keep);
       ("Coverage", Fresh (Fields [("SupportedTargetKinds", Append); ("UnsupportedDiscoveredKinds", into_map)]))]).
Definition into_RiskRuleList : copier := into_list into_RiskRule.

Definition into_NotificationChannel : copier :=
  Fields [("Headers", into_map); ("SlackTeams", Fresh Keep); ("EmailAddresses", Fresh Keep)].
Definition into_EscalationConfig : copier :=
  Fields [("Rules", Fresh Keep); ("NotificationChannels", Fresh into_NotificationChannel)].
Definition into_ApprovalPolicySpec : copier :=
  Fields [("ResourceSelector", Fresh into_library); ("NamespaceSelector", Fresh into_library);
    ("ActionTypeRules", Fresh Keep); ("SeverityRules", Fresh Keep); ("Escalation", Fresh into_EscalationConfig)].
Definition into_ApprovalPolicyStatus : copier :=
  Fields [("Conditions", Fresh Keep); ("UpdatedAt", Fresh Keep); ("ValidationErrors", Fresh Keep)].
Definition into_ApprovalPolicy : copier := into_object into_ApprovalPolicySpec into_ApprovalPolicyStatus.
Definition into_ApprovalPolicyList : copier := into_list into_ApprovalPolicy.

Definition into_NamespaceThresholdSpec : copier := Fields [("NamespaceSelector", Fresh into_library)].
Definition into_NamespaceThresholdStatus : copier :=
  Fields [("EnforcedNamespaces", Fresh Keep); ("Conditions", Fresh Keep); ("UpdatedAt", Fresh Keep);
    ("ValidationErrors", Fresh Keep)].
Definition into_NamespaceThreshold : copier := into_object into_NamespaceThresholdSpec into_NamespaceThresholdStatus.
Definition into_NamespaceThresholdList : copier := into_list into_NamespaceThreshold.

Definition into_EscalationAction : copier := Fields [("Details", into_map)].
Definition into_Assignee : copier := Fields [("Channels", Fresh Keep)].
Definition into_EscalationStage : copier :=
  Fields [("Condition", Fresh Keep); ("Actions", Fresh into_EscalationAction); ("Assignees", Fresh into_Assignee)].
Definition into_EscalationChainSpec : copier :=
  Fields [("ResourceSelector", Fresh into_library); ("Stages", Fresh into_EscalationStage)].
Definition into_EscalationChainStatus : copier :=
  Fields [("Conditions", Fresh Keep); ("UpdatedAt", Fresh Keep); ("ValidationErrors", Fresh Keep)].
Definition into_EscalationChain : copier := into_object into_EscalationChainSpec into_EscalationChainStatus.
Definition into_EscalationChainList : copier := into_list into_EscalationChain.

(** [DeepCopy]: nil of nil, else a pointer to a new copy. *)
Definition copy_RiskSignal : copier := Fresh into_RiskSignal.
Definition copy_RiskSignalList : copier := Fresh into_RiskSignalList.
Definition copy_RemediationPlan : copier := Fresh into_RemediationPlan.
Definition copy_RemediationPlanList : copier := Fresh into_RemediationPlanList.
Definition copy_AgentAction : copier := Fresh into_AgentAction.
Definition copy_AgentActionList : copier := Fresh into_AgentActionList.
Definition copy_InvestigationRequest : copier := Fresh into_InvestigationRequest.
Definition copy_InvestigationRequestList : copier := Fresh into_InvestigationRequestList.
Definition copy_DataSource : copier := Fresh into_DataSource.
Definition copy_DataSourceList : copier := Fresh into_DataSourceList.
Definition copy_ModelProvider : copier := Fresh into_ModelProvider.
Definition copy_ModelProviderList : copier := Fresh into_ModelProviderList.
Definition copy_RiskRule : copier := Fresh into_RiskRule.
Definition copy_RiskRuleList : copier := Fresh into_RiskRuleList.
Definition copy_ApprovalPolicy : copier := Fresh into_ApprovalPolicy.
Definition copy_ApprovalPolicyList : copier := Fresh into_ApprovalPolicyList.
Definition copy_NamespaceThreshold : copier := Fresh into_NamespaceThreshold.
Definition copy_NamespaceThresholdList : copier := Fresh into_NamespaceThresholdList.
Definition copy_EscalationChain : copier := Fresh into_EscalationChain.
Definition copy_EscalationChainList : copier := Fresh into_EscalationChainList.
Definition copy_ApprovalPolicySpec : copier := Fresh into_ApprovalPolicySpec.
Definition copy_ApprovalPolicyStatus : copier := Fresh into_ApprovalPolicyStatus.
Definition copy_NamespaceThresholdSpec : copier := Fresh into_NamespaceThresholdSpec.
Definition copy_NamespaceThresholdStatus : copier := Fresh into_NamespaceThresholdStatus.
Definition copy_EscalationChainSpec : copier := Fresh into_EscalationChainSpec.
Definition copy_EscalationStage : copier := Fresh into_EscalationStage.
Definition copy_EscalationAction : copier := Fresh into_EscalationAction.
Definition copy_Assignee : copier := Fresh into_Assignee.
Definition copy_EscalationChainStatus : copier := Fresh into_EscalationChainStatus.
Definition copy_EscalationConfig : copier := Fresh into_EscalationConfig.
Definition copy_EscalationCondition : copier := Fresh Keep.

(** The known types, with their pointer type and their copy. *)
Definition resources : list (string * gtype * copier) :=
  [("DataSource", TRef type_DataSource, copy_DataSource);
   ("DataSourceList", TRef type_DataSourceList, copy_DataSourceList);
   ("ModelProvider", TRef type_ModelProvider, copy_ModelProvider);
   ("ModelProviderList", TRef type_ModelProviderList, copy_ModelProviderList);
   ("RiskRule", TRef type_RiskRule, copy_RiskRule);
   ("RiskRuleList", TRef type_RiskRuleList, copy_RiskRuleList);
   ("InvestigationRequest", TRef type_InvestigationRequest, copy_InvestigationRequest);
   ("InvestigationRequestList", TRef type_InvestigationRequestList, copy_InvestigationRequestList);
   ("RiskSignal", TRef type_RiskSignal, copy_RiskSignal);
   ("RiskSignalList", TRef type_RiskSignalList, copy_RiskSignalList);
   ("RemediationPlan", TRef type_RemediationPlan, copy_RemediationPlan);
   ("RemediationPlanList", TRef type_RemediationPlanList, copy_RemediationPlanList);
   ("AgentAction", TRef type_AgentAction, copy_AgentAction);
   ("AgentActionList", TRef type_AgentActionList, copy_AgentActionList);
   ("ApprovalPolicy", TRef type_ApprovalPolicy, copy_ApprovalPolicy);
   ("ApprovalPolicyList", TRef type_ApprovalPolicyList, copy_ApprovalPolicyList);
   ("NamespaceThreshold", TRef type_NamespaceThreshold, copy_NamespaceThreshold);
   ("NamespaceThresholdList", TRef type_NamespaceThresholdList, copy_NamespaceThresholdList);
   ("EscalationChain", TRef type_EscalationChain, copy_EscalationChain);
   ("EscalationChainList", TRef type_EscalationChainList, copy_EscalationChainList)].

(** ** What a value stands for *)

(** In the heap, the value stands for [p], and its references are to cells of [P]. *)
Fixpoint holds (P : nat -> Prop) (h : heap) (p : pval) (v : gval) {struct p} : Prop :=
  match p, v with
  | PAtom a, Atom b => a = b
  | PList ps, Nil => ps = []
  | PList ps, Ref l =>
      P l /\ exists cell, h !! l = Some cell /\
        (fix go (ps : list pval) (vs : list gval) : Prop :=
           match ps, vs with
           | [], [] => True
           | p :: ps, v :: vs => holds P h p v /\ go ps vs
           | _, _ => False
           end) ps cell
  | PStruct ps, Struct vs =>
      (fix go (ps : list (string * pval)) (vs : list (string * gval)) : Prop :=
         match ps, vs with
         | [], [] => True
         | (n, p) :: ps, (m, v) :: vs => n = m /\ holds P h p v /\ go ps vs
         | _, _ => False
         end) ps vs
  | _, _ => False
  end.

Fixpoint has_type `{Library} (t : gtype) (p : pval) {struct t} : Prop :=
  match t, p with
  | TAtom, PAtom _ => True
  | TLibrary, _ => library_value p
  | TRef e, PList ps => (fix go (ps : list pval) : Prop := match ps with [] => True | p :: ps => has_type e p /\ go ps end) ps
  | TStruct ts, PStruct ps =>
      (fix go (ts : list (string * gtype)) (ps : list (string * pval)) : Prop :=
         match ts, ps with
         | [], [] => True
         | (n, t) :: ts, (m, p) :: ps => n = m /\ has_type t p /\ go ts ps
         | _, _ => False
         end) ts ps
  | _, _ => False
  end.

(** Every reference is to a cell, or to a new one. *)
Definition anywhere (l : nat) : Prop := True.
Definition beyond (h : heap) (l : nat) : Prop := (length h <= l)%nat.

(** What the library promises of its copies. *)
Class LibraryCopies `{Library} : Prop := {
  library_copy_separate h p v :
    library_value p -> holds anywhere h p v ->
    h `prefix_of` (library_copy v h).2 /\ holds (beyond h) (library_copy v h).2 p (library_copy v h).1 }.

(** ** Unfolded forms *)

Section copies.
Context `{Library}.

Definition all_hold (P : nat -> Prop) (h : heap) : list pval -> list gval -> Prop :=
  fix go ps vs := match ps, vs with [], [] => True | p :: ps, v :: vs => holds P h p v /\ go ps vs | _, _ => False end.
Definition fields_hold (P : nat -> Prop) (h : heap) : list (string * pval) -> list (string * gval) -> Prop :=
  fix go ps vs :=
    match ps, vs with
    | [], [] => True
    | (n, p) :: ps, (m, v) :: vs => n = m /\ holds P h p v /\ go ps vs
    | _, _ => False
    end.
Definition all_typed (e : gtype) : list pval -> Prop :=
  fix go ps := match ps with [] => True | p :: ps => has_type e p /\ go ps end.
Definition fields_typed : list (string * gtype) -> list (string * pval) -> Prop :=
  fix go ts ps :=
    match ts, ps with
    | [], [] => True
    | (n, t) :: ts, (m, p) :: ps => n = m /\ has_type t p /\ go ts ps
    | _, _ => False
    end.
Definition copy_all (c : copier) : list gval -> heap -> list gval * heap :=
  fix go vs h :=
    match vs with
    | [] => ([], h)
    | w :: vs => let '(w', h1) := copy c w h in let '(vs', h2) := go vs h1 in (w' :: vs', h2)
    end.
Definition copy_fields (fs : list (string * copier)) : list (string * gval) -> heap -> list (string * gval) * heap :=
  fix go vs h :=
    match vs with
    | [] => ([], h)
    | (n, w) :: vs =>
        let '(w', h1) := copy (field_copier n fs) w h in
        let '(vs', h2) := go vs h1 in ((n, w') :: vs', h2)
    end.

Lemma copy_keep v h : copy Keep v h = (v, h).
Proof. by destruct v. Qed.

Lemma copy_fresh c l h cell :
  h !! l = Some cell -> copy (Fresh c) (Ref l) h = (let '(cell', h') := copy_all c cell h in alloc cell' h').
Proof. intros Hl. cbn [copy]. by rewrite Hl. Qed.

Lemma copy_struct fs vs h : copy (Fields fs) (Struct vs) h = (let '(vs', h') := copy_fields fs vs h in (Struct vs', h')).
Proof.
  cbn [copy]. match goal with |- (let '(_, _) := ?a in _) = (let '(_, _) := ?b in _) => assert (a = b) as ->; [|done] end.
  revert h. induction vs as [|[n w] vs IH]; intros h; [done|]. cbn [copy_fields].
  assert (forall l, (fix field (fs : list (string * copier)) : gval * heap :=
             match fs with [] => (w, h) | (m, c') :: fs => if m == n then copy c' w h else field fs end) l
          = copy (field_copier n l) w h) as ->.
  { induction l as [|[m c] l IHl]; cbn [field_copier]; [by rewrite copy_keep|]. destruct (m == n); [done|exact IHl]. }
  destruct (copy (field_copier n fs) w h) as [w' h1]. by rewrite IH.
Qed.

(** Induction on types through the fields of structs. *)
Lemma gtype_fields_ind (Q : gtype -> Prop) :
  Q TAtom -> Q TLibrary -> (forall e, Q e -> Q (TRef e)) -> (forall fields, Forall (fun f => Q f.2) fields -> Q (TStruct fields)) ->
  forall t, Q t.
Proof.
  intros Ha Hl Hr Hs. fix IH 1. intros [| |e|fields]; [exact Ha | exact Hl | apply Hr, IH | apply Hs].
  induction fields as [|[n t] fields IHf]; constructor; [apply IH | exact IHf].
Qed.

Lemma pval_fields_ind (Q : pval -> Prop) :
  (forall a, Q (PAtom a)) -> (forall ps, Forall Q ps -> Q (PList ps)) ->
  (forall ps, Forall (fun f => Q f.2) ps -> Q (PStruct ps)) -> forall p, Q p.
Proof.
  intros Ha Hl Hs. fix IH 1. intros [a|ps|ps]; [apply Ha | apply Hl | apply Hs].
  - induction ps as [|p ps IHp]; constructor; [apply IH | exact IHp].
  - induction ps as [|[n p] ps IHp]; constructor; [apply IH | exact IHp].
Qed.

(** ** Heaps *)

(** A value stands for the same in a heap that agrees on the cells it refers to. *)
Lemma holds_mono (P Q : nat -> Prop) h h' p v :
  (forall l, P l -> Q l) -> (forall l cell, P l -> h !! l = Some cell -> h' !! l = Some cell) ->
  holds P h p v -> holds Q h' p v.
Proof.
  intros HPQ Hh. revert v. induction p as [a|ps IH|ps IH] using pval_fields_ind; intros v; destruct v as [b| |l|vs]; try done.
  - intros (Hl & cell & Hc & Hall). split; [by apply HPQ|]. exists cell. split; [by apply Hh|].
    clear Hc. revert cell Hall. induction IH as [|p ps Hp _ IHps]; intros [|w cell]; cbn; try done.
    intros [? ?]. split; [by apply Hp | by apply IHps].
  - intros Hall. cbn in *. revert vs Hall. induction IH as [|[n p] ps Hp _ IHps]; intros [|[m w] vs]; try done.
    intros (? & ? & ?). split; [done|]. split; [by apply Hp | by apply IHps].
Qed.

Lemma holds_prefix P h h' p v : h `prefix_of` h' -> holds P h p v -> holds P h' p v.
Proof. intros [k ->]. apply holds_mono; [done|]. intros l cell _ Hl. by apply lookup_app_l_Some. Qed.

Lemma all_hold_prefix P h h' ps vs : h `prefix_of` h' -> all_hold P h ps vs -> all_hold P h' ps vs.
Proof.
  intros Hp. revert vs. induction ps as [|p ps IH]; intros [|v vs]; try done. intros [? ?].
  split; [by eapply holds_prefix | by apply IH].
Qed.

Lemma fields_hold_prefix P h h' ps vs : h `prefix_of` h' -> fields_hold P h ps vs -> fields_hold P h' ps vs.
Proof.
  intros Hp. revert vs. induction ps as [|[n p] ps IH]; intros [|[m v] vs]; try done. intros (? & ? & ?).
  split; [done|]. split; [by eapply holds_prefix | by apply IH].
Qed.

(** Values of a type without references hold anywhere. *)
Lemma plain_holds t P Q h h' p v : plain t = true -> has_type t p -> holds P h p v -> holds Q h' p v.
Proof.
  revert p v. induction t as [| |e _|ts IH] using gtype_fields_ind; intros p v Hp; [by destruct p, v | done..|].
  destruct p as [a|ps|ps]; try done. destruct v as [b| |l|vs]; try done.
  change (fields_typed ts ps -> fields_hold P h ps vs -> fields_hold Q h' ps vs). cbn [plain] in Hp.
  revert ps vs. induction IH as [|[n t] ts Ht _ IHts]; intros [|[m p] ps] [|[m' v] vs]; try done.
  apply andb_true_iff in Hp as [Hp1 Hp2]. intros (-> & Ht1 & Ht2) (-> & Hh1 & Hh2).
  split; [done|]. split; [by eapply Ht | by eapply IHts].
Qed.

Lemma plain_all_hold e P Q h h' ps vs : plain e = true -> all_typed e ps -> all_hold P h ps vs -> all_hold Q h' ps vs.
Proof.
  intros He. revert vs. induction ps as [|p ps IH]; intros [|v vs]; try done. intros [? ?] [? ?].
  split; [by eapply plain_holds | by eapply IH].
Qed.

(** ** A copy that shares no path is separate *)

(** The heap grows, and the copy stands for the same with references to new cells only. *)
Definition separates (t : gtype) (c : copier) : Prop :=
  forall h p v, has_type t p -> holds anywhere h p v ->
    h `prefix_of` (copy c v h).2 /\ holds (beyond h) (copy c v h).2 p (copy c v h).1.

Lemma beyond_prefix h h' l : h `prefix_of` h' -> beyond h' l -> beyond h l.
Proof. unfold beyond. intros Hp%prefix_length. lia. Qed.

Lemma holds_beyond h h1 h2 p v : h `prefix_of` h1 -> holds (beyond h1) h2 p v -> holds (beyond h) h2 p v.
Proof. intros Hp. apply holds_mono; [|done]. intros l. by apply beyond_prefix. Qed.

Lemma plain_separates ts c :
  plain (TStruct ts) = true -> (forall vs h, copy c (Struct vs) h = (Struct vs, h)) -> separates (TStruct ts) c.
Proof.
  intros Hp Hc h [a|ps|ps] [b| |l|vs] Ht Hh; try done. rewrite Hc. split; [done|]. by eapply plain_holds.
Qed.

Lemma copy_all_separates e c : separates e c ->
  forall h ps vs, all_typed e ps -> all_hold anywhere h ps vs ->
    h `prefix_of` (copy_all c vs h).2 /\ all_hold (beyond h) (copy_all c vs h).2 ps (copy_all c vs h).1.
Proof.
  intros Hc h ps. revert h. induction ps as [|p ps IH]; intros h [|v vs]; try done. intros [Ht Hts] [Hh Hhs].
  cbn [copy_all]. destruct (Hc h p v Ht Hh) as [Hp1 Hv]. destruct (copy c v h) as [v' h1]. cbn [fst snd] in *.
  destruct (IH h1 vs Hts (all_hold_prefix _ _ _ _ _ Hp1 Hhs)) as [Hp2 Hvs].
  destruct (copy_all c vs h1) as [vs' h2]. cbn [fst snd] in *.
  split; [by etrans|]. split; [by eapply holds_prefix|].
  revert Hvs. clear -Hp1. revert vs'. induction ps as [|p ps IH]; intros [|v vs]; try done. intros [? ?].
  split; [by eapply holds_beyond | by apply IH].
Qed.

Lemma copy_fields_separates fs ts : Forall (fun f => separates f.2 (field_copier f.1 fs)) ts ->
  forall h ps vs, fields_typed ts ps -> fields_hold anywhere h ps vs ->
    h `prefix_of` (copy_fields fs vs h).2 /\ fields_hold (beyond h) (copy_fields fs vs h).2 ps (copy_fields fs vs h).1.
Proof.
  intros Hf. induction Hf as [|[n t] ts Hc _ IH]; intros h [|[m p] ps] [|[m' v] vs]; try done.
  intros (-> & Ht & Hts) (-> & Hh & Hhs). cbn [copy_fields fst snd] in *.
  destruct (Hc h p v Ht Hh) as [Hp1 Hv]. destruct (copy _ v h) as [v' h1]. cbn [fst snd] in *.
  destruct (IH h1 ps vs Hts (fields_hold_prefix _ _ _ _ _ Hp1 Hhs)) as [Hp2 Hvs].
  destruct (copy_fields fs vs h1) as [vs' h2]. cbn [fst snd] in *.
  split; [by etrans|]. split; [done|]. split; [by eapply holds_prefix|].
  revert Hvs. clear -Hp1. revert vs'. induction ps as [|[n p] ps IH]; intros [|[m v] vs]; try done. intros (? & ? & ?).
  split; [done|]. split; [by eapply holds_beyond | by apply IH].
Qed.

Lemma alloc_holds h h1 ps cell :
  h `prefix_of` h1 -> all_hold (beyond h) h1 ps cell -> holds (beyond h) (h1 ++ [cell]) (PList ps) (Ref (length h1)).
Proof.
  intros Hp Hc. split; [by apply prefix_length|]. exists cell. split; [by apply list_lookup_middle|].
  change (all_hold (beyond h) (h1 ++ [cell]) ps cell). eapply all_hold_prefix; [|done]. by apply prefix_app_r.
Qed.

(** The copies that go through the fields of a struct. *)
Definition fieldwise (c : copier) : bool := match c with Keep | Fields _ => true | _ => false end.
Definition struct_fields (c : copier) : list (string * copier) := match c with Fields fs => fs | _ => [] end.

Lemma copy_no_fields vs h : copy_fields [] vs h = (vs, h).
Proof. induction vs as [|[n v] vs IH]; [done|]. cbn [copy_fields field_copier]. by rewrite copy_keep, IH. Qed.

Lemma copy_struct_inner c vs h :
  fieldwise c = true ->
  copy c (Struct vs) h = (let '(vs', h') := copy_fields (struct_fields c) vs h in (Struct vs', h')).
Proof.
  intros Hc. destruct c as [| |e| |fs]; try done; [|apply copy_struct].
  cbn [struct_fields]. by rewrite copy_no_fields, copy_keep.
Qed.

Lemma struct_separates ts c :
  fieldwise c = true -> Forall (fun f => separates f.2 (field_copier f.1 (struct_fields c))) ts ->
  separates (TStruct ts) c.
Proof.
  intros Hc Hts h [a|ps|ps] [b| |l|vs] Ht Hh; try done. rewrite copy_struct_inner by done.
  destruct (copy_fields_separates _ _ Hts h ps vs Ht Hh) as [Hp Hv].
  by destruct (copy_fields (struct_fields c) vs h).
Qed.

Lemma fresh_separates e c : separates e c -> separates (TRef e) (Fresh c).
Proof.
  intros Hc h [a|ps|ps] [b| |l|vs] Ht Hh; try done. destruct Hh as (_ & cell & Hl & Hall).
  rewrite (copy_fresh _ _ _ _ Hl). destruct (copy_all_separates e c Hc h ps cell Ht Hall) as [Hp Hv].
  destruct (copy_all c cell h) as [cell' h']. split; [by apply prefix_app_r | by apply alloc_holds].
Qed.

Lemma append_separates e : plain e = true -> separates (TRef e) Append.
Proof.
  intros He h [a|ps|ps] [b| |l|vs] Ht Hh; try done. destruct Hh as (_ & cell & Hl & Hall).
  cbn [copy]. rewrite Hl. destruct cell as [|w cell].
  - split; [done|]. by destruct ps.
  - split; [by apply prefix_app_r|]. apply alloc_holds; [done|]. by eapply plain_all_hold.
Qed.

Context `{!LibraryCopies}.

(** A method that leaves no path shared makes a separate copy. *)
Lemma unshared_separates path t c : shared path t c = [] -> separates t c.
Proof.
  revert path c. induction t as [| |e IH|ts IH] using gtype_fields_ind; intros path c Hs.
  - intros h [a|ps|ps] [b| |l|vs]; try done. by destruct c.
  - destruct c; try done. intros h p v. apply library_copy_separate.
  - destruct c as [| |c'| |fs]; [done..|eapply fresh_separates, IH, Hs| |done].
    cbn [shared] in Hs. destruct (plain e) eqn:He; [by apply append_separates|done].
  - destruct (fieldwise c) eqn:Hc.
    + apply struct_separates; [done|].
      assert (shared path (TStruct ts) (Fields (struct_fields c)) = []) as Hs' by (by destruct c).
      clear Hs Hc. cbn [shared] in Hs'. induction IH as [|[n t] ts Ht _ IHts]; [constructor|].
      apply app_eq_nil in Hs' as [H1 H2]. constructor; [by eapply Ht | by apply IHts].
    + apply plain_separates; destruct c; try done; cbn [shared] in Hs; by destruct (plain (TStruct ts)).
Qed.

(** ** The two sides afterwards *)

(** The references of a value are to cells of its heap. *)
Lemma holds_bounded h p v : holds anywhere h p v -> holds (fun l => l < length h)%nat h p v.
Proof.
  revert v. induction p as [a|ps IH|ps IH] using pval_fields_ind; intros v; destruct v as [b| |l|vs]; try done.
  - intros (_ & cell & Hc & Hall). split; [by eapply lookup_lt_Some|]. exists cell. split; [done|].
    clear Hc. revert cell Hall. induction IH as [|p ps Hp _ IHps]; intros [|w cell]; cbn; try done.
    intros [? ?]. split; [by apply Hp | by apply IHps].
  - intros Hall. cbn in *. revert vs Hall. induction IH as [|[n p] ps Hp _ IHps]; intros [|[m w] vs]; try done.
    intros (? & ? & ?). split; [done|]. split; [by apply Hp | by apply IHps].
Qed.

(** Writes to the cells of one side leave what the other stands for. *)
Definition independent (h h' : heap) (p : pval) (v v' : gval) : Prop :=
  (forall h2, (forall l, length h <= l -> h2 !! l = h' !! l)%nat -> holds anywhere h2 p v') /\
  (forall h2, (forall l, l < length h -> h2 !! l = h' !! l)%nat -> holds anywhere h2 p v).

Lemma separate_independent t c h p v :
  separates t c -> has_type t p -> holds anywhere h p v -> independent h (copy c v h).2 p v (copy c v h).1.
Proof.
  intros Hs Ht Hh. destruct (Hs h p v Ht Hh) as [Hp Hv]. split; intros h2 H2.
  - eapply holds_mono; [|  |exact Hv]; [done|]. intros l cell Hl Hc. by rewrite H2.
  - eapply holds_mono; [|  |exact (holds_bounded _ _ _ Hh)]; [done|]. intros l cell Hl Hc. cbn in Hl. rewrite H2 by done.
    by eapply prefix_lookup_Some.
Qed.

(** The methods that leave references shared. *)
Definition sharing_kinds : list string := ["AgentAction"; "AgentActionList"; "ApprovalPolicy"; "ApprovalPolicyList"].

Definition shares_nothing (r : string * gtype * copier) : bool :=
  bool_decide (r.1.1 ∈ sharing_kinds) || bool_decide (shared "" r.1.2 r.2 = []).

Lemma resources_share_nothing : forallb shares_nothing resources = true.
Proof. by vm_compute. Qed.

(** C39: The hand-written [DeepCopy] of every API object and list, but for AgentAction and
    ApprovalPolicy, is a deep copy: provided that the library's own copies are, the copy
    stands for the same object, nothing of the original has changed, and whatever is later
    written through the one - in any cell it refers to, at any depth - the other stands for
    the same object still.  A field with a pointer, slice or map that a method forgot, or
    copied by assignment only, breaks it. *)
Theorem deep_copies_separate kind t c h p v :
  (kind, t, c) ∈ resources -> kind ∉ sharing_kinds ->
  has_type t p -> holds anywhere h p v ->
  h `prefix_of` (copy c v h).2 /\ holds anywhere (copy c v h).2 p (copy c v h).1 /\
  independent h (copy c v h).2 p v (copy c v h).1.
Proof.
  intros Hr Hk Ht Hh.
  assert (separates t c) as Hs.
  { apply (unshared_separates ""). pose proof resources_share_nothing as Hall.
    rewrite forallb_forall in Hall. specialize (Hall _ (proj1 (list_elem_of_In _ _) Hr)).
    apply orb_true_iff in Hall as [?%bool_decide_eq_true_1|?%bool_decide_eq_true_1]; done. }
  destruct (Hs h p v Ht Hh) as [Hp Hv]. split; [done|]. split.
  - by eapply holds_mono; [|  |exact Hv].
  - by apply (separate_independent t).
Qed.

End copies.

(** ** Examples *)

(** A library whose values are maps of scalars. *)
#[local] Instance flat_library : Library := {
  library_value p :=
    match p with PList ps => Forall (fun q => match q with PAtom _ => True | _ => False end) ps | _ => False end;
  library_copy v h :=
    match v with Ref l => match h !! l with Some cell => alloc cell h | None => (v, h) end | _ => (v, h) end }.

#[local] Instance flat_copies : LibraryCopies.
Proof.
  split. intros h [a|ps|ps] [b| |l|vs] Ht Hh; try done. destruct Hh as (_ & cell & Hl & Hall).
  cbn. rewrite Hl. split; [by apply prefix_app_r|]. apply alloc_holds; [done|].
  clear Hl. revert cell Hall. induction Ht as [|q ps Hq _ IH]; intros [|w cell]; try done.
  intros [Hw Hall]. split; [by destruct q, w | by apply IH].
Qed.

(** An object in which every reference is to one element. *)
Fixpoint filled (t : gtype) (h : heap) : gval * heap :=
  match t with
  | TAtom => (Atom "x", h)
  | TLibrary => alloc [Atom "x"] h
  | TRef e => let '(v, h1) := filled e h in alloc [v] h1
  | TStruct ts =>
      let '(vs, h1) :=
        (fix go (ts : list (string * gtype)) (h : heap) : list (string * gval) * heap :=
           match ts with
           | [] => ([], h)
           | (n, t) :: ts => let '(v, h1) := filled t h in let '(vs, h2) := go ts h1 in ((n, v) :: vs, h2)
           end) ts h in
      (Struct vs, h1)
  end.

Fixpoint filled_pval (t : gtype) : pval :=
  match t with
  | TAtom => PAtom "x"
  | TLibrary => PList [PAtom "x"]
  | TRef e => PList [filled_pval e]
  | TStruct ts =>
      PStruct ((fix go (ts : list (string * gtype)) : list (string * pval) :=
                  match ts with [] => [] | (n, t) :: ts => (n, filled_pval t) :: go ts end) ts)
  end.

Lemma deep_copies_separate_witness :
  let h := (filled (TRef type_RemediationPlan) []).2 in
  let v := (filled (TRef type_RemediationPlan) []).1 in
  independent h (copy copy_RemediationPlan v h).2 (filled_pval (TRef type_RemediationPlan)) v
    (copy copy_RemediationPlan v h).1 /\
  length h = 7%nat.
Proof.
  split; [|by vm_compute]. apply (deep_copies_separate "RemediationPlan" (TRef type_RemediationPlan) copy_RemediationPlan).
  - apply (list_elem_of_lookup_2 _ 10). reflexivity.
  - apply (bool_decide_unpack _). by vm_compute.
  - vm_compute. repeat first [exact I | split | constructor].
  - repeat (split || eexists || reflexivity).
Defined.

(** The references left shared: of an execution attempt the time it started, and of an
    escalation rule its targets. *)
Example shared_references :
  map (fun r => (r.1.1, shared "" r.1.2 r.2)) (filter (fun r => r.1.1 ∈ sharing_kinds) resources) =
  [("AgentAction", ["[].Status.Execution[].StartedAt"]);
   ("AgentActionList", ["[].Items[].Status.Execution[].StartedAt"]);
   ("ApprovalPolicy", ["[].Spec.Escalation[].Rules[].Targets"]);
   ("ApprovalPolicyList", ["[].Items[].Spec.Escalation[].Rules[].Targets"])].
Proof. vm_compute. reflexivity. Qed.

(** What a path of field names leads to, through the first element of every reference. *)
Fixpoint follow (path : list string) (v : gval) (h : heap) : option gval :=
  match path with
  | [] => Some v
  | n :: path =>
      fields ← (match v with
                | Ref l => match h !! l with Some (Struct fs :: _) => Some fs | _ => None end
                | Struct fs => Some fs
                | _ => None
                end);
      w ← snd <$> list_find (fun f => f.1 = n) fields; follow path w.2 h
  end.

(** The copy of an action has the pointer of the original to the time its execution
    started, but a pointer of its own to the time it finished. *)
Example execution_start_shared :
  let '(v, h) := filled (TRef type_AgentAction) [] in
  let '(v', h') := copy copy_AgentAction v h in
  (follow ["Status"; "Execution"; "StartedAt"] v h', follow ["Status"; "Execution"; "StartedAt"] v' h') =
    (Some (Ref 12), Some (Ref 12)) /\
  (follow ["Status"; "Execution"; "FinishedAt"] v h', follow ["Status"; "Execution"; "FinishedAt"] v' h') =
    (Some (Ref 13), Some (Ref 48)).
Proof. vm_compute. split; reflexivity. Qed.
