(* ===== verification/Report.v ===== *)
(** * Reports (internal/cli/report.go)

    The report on a RiskRule or an AgentAction: what is read for it, and the
    Markdown of a RiskRule report, in which every text of a resource is escaped.
    The JSON and YAML outputs are the library's encodings of the report. *)

From Stdlib Require Import ZArith Lia.
From stdpp Require Import base list strings gmap pretty.
From S2P Require Import Prelude GoStrings Utf8 Api InvestigationApi Digest Prog Runtime RiskRule RiskSignalController.

Definition riskRuleReportSchemaVersion : string := "fluxseer-riskrule-report/v1".
Definition agentActionReportSchemaVersion : string := "fluxseer-agentaction-report/v1".
Definition riskRuleLabelKey : string := "fluxseer-rca.aiops.platform/risk-rule".
Definition riskSignalRefAnnotation : string := "fluxseer-rca.aiops.platform/risk-signal-ref".

(** ** Building a report *)

Record riskRuleReport := mkRiskRuleReport {
  rrr_Namespace : string;
  rrr_Name : string;
  rrr_RiskRule : RiskRule;
  rrr_InvestigationRequests : list InvestigationRequest;
  rrr_RiskSignals : list StoredSignal
}.

Record agentActionReport := mkAgentActionReport {
  aar_Namespace : string;
  aar_Name : string;
  aar_AgentAction : AgentAction;
  aar_RemediationPlan : option RemediationPlan;
  aar_RiskSignal : option StoredSignal;
  aar_Verification : option InvestigationRequest
}.

(** The reads of the API server; a list of requests is of a namespace, one of signals of
    every namespace, both by the label of the rule. *)
Inductive report_op : Type -> Type :=
| PGetRule (namespace name : string) : report_op (result RiskRule)
| PGetAction (namespace name : string) : report_op (result AgentAction)
| PGetPlan (namespace name : string) : report_op (result RemediationPlan)
| PGetSignal (namespace name : string) : report_op (result StoredSignal)
| PGetRequest (namespace name : string) : report_op (result InvestigationRequest)
| PListRequests (namespace key rule : string) : report_op (result (list InvestigationRequest))
| PListSignals (key rule : string) : report_op (result (list StoredSignal)).

Abbreviation report_prog := (prog report_op).

Definition read_as {A B} (op : report_op (result A)) (what : string) (k : A -> report_prog (result B)) : report_prog (result B) :=
  got <~! op;
  match got with Ok a => k a | Err e => Ret (Err (wrapf what e)) end.

Definition signalNamespace (s : StoredSignal) : string := om_Namespace (rsk_Meta (ss_Signal s)).
Definition signalName (s : StoredSignal) : string := om_Name (rsk_Meta (ss_Signal s)).

Definition containsRiskSignal (items : list StoredSignal) (namespace name : string) : bool :=
  existsb (fun s => (signalNamespace s == namespace) && (signalName s == name)) items.

Definition requestEarlier (a b : InvestigationRequest) : bool :=
  if ir_CreationTimestamp a =? ir_CreationTimestamp b then str_ltb (om_Name (ir_Meta a)) (om_Name (ir_Meta b))
  else time_before (ir_CreationTimestamp a) (ir_CreationTimestamp b).
Definition sortInvestigationRequests : list InvestigationRequest -> list InvestigationRequest := sort_stable requestEarlier.

Definition signalEarlier (a b : StoredSignal) : bool :=
  if ss_CreationTimestamp a =? ss_CreationTimestamp b then
    if signalNamespace a == signalNamespace b then str_ltb (signalName a) (signalName b)
    else str_ltb (signalNamespace a) (signalNamespace b)
  else time_before (ss_CreationTimestamp a) (ss_CreationTimestamp b).
Definition sortRiskSignals : list StoredSignal -> list StoredSignal := sort_stable signalEarlier.

(** The signals that the requests link to, those that are not listed already. *)
Fixpoint linkedSignals (requests : list InvestigationRequest) (signals : list StoredSignal)
    : report_prog (result (list StoredSignal)) :=
  match requests with
  | [] => Ret (Ok signals)
  | request :: requests =>
      match ist_LinkedRiskSignalRef (ir_Status request) with
      | None => linkedSignals requests signals
      | Some ref =>
          if containsRiskSignal signals (nor_Namespace ref) (nor_Name ref) then linkedSignals requests signals
          else read_as (PGetSignal (nor_Namespace ref) (nor_Name ref))
                 ("get linked RiskSignal " +:+ nor_Namespace ref +:+ "/" +:+ nor_Name ref)
                 (fun signal => linkedSignals requests (signals ++ [signal]))
      end
  end.

Definition buildRiskRuleReport (namespace name : string) : report_prog (result riskRuleReport) :=
  let rule_name := namespace +:+ "/" +:+ name in
  read_as (PGetRule namespace name) ("get RiskRule " +:+ rule_name) (fun rule =>
  read_as (PListRequests namespace riskRuleLabelKey name) ("list InvestigationRequests for RiskRule " +:+ rule_name)
    (fun items =>
  let requests := sortInvestigationRequests items in
  read_as (PListSignals riskRuleLabelKey name) ("list RiskSignals for RiskRule " +:+ rule_name) (fun listed =>
  signals <~ linkedSignals requests listed;
  Ret (signals <-! signals;
       Ok (mkRiskRuleReport namespace name rule requests (sortRiskSignals signals)))))).

Section Report.
Context {U : UnicodeTables}.

(** [strings.SplitN(s, "/", 2)] of the trimmed value. *)
Definition namespacedReportRef (value defaultNamespace : string) : option NamespacedObjectReference :=
  match AgentAction.split_slash (trim_space value) with
  | None => if trim_space value == "" then None else Some (mkNamespacedObjectReference (trim_space value) defaultNamespace)
  | Some (first, rest) => if first == "" then None else Some (mkNamespacedObjectReference rest first)
  end.

(** The first owner that is a plan with a name. *)
Definition owningPlan (action : AgentAction) : option string :=
  find_first (fun o => if (or_Kind o == "RemediationPlan") && (or_Name o != "") then Some (or_Name o) else None)
    (om_OwnerReferences (act_Meta action)).

Definition reportPlan (namespace : string) (action : AgentAction) : report_prog (result (option RemediationPlan)) :=
  match owningPlan action with
  | None => Ret (Ok None)
  | Some name =>
      read_as (PGetPlan namespace name) ("get RemediationPlan " +:+ namespace +:+ "/" +:+ name) (fun plan => Ret (Ok (Some plan)))
  end.

Definition reportSignal (namespace : string) (action : AgentAction) : report_prog (result (option StoredSignal)) :=
  match namespacedReportRef (map_get (om_Annotations (act_Meta action)) riskSignalRefAnnotation) namespace with
  | None => Ret (Ok None)
  | Some ref =>
      read_as (PGetSignal (nor_Namespace ref) (nor_Name ref))
        ("get RiskSignal " +:+ nor_Namespace ref +:+ "/" +:+ nor_Name ref) (fun signal => Ret (Ok (Some signal)))
  end.

Definition reportVerification (action : AgentAction) : report_prog (result (option InvestigationRequest)) :=
  match st_Effectiveness (act_Status action) ≫= ef_VerificationRef with
  | None => Ret (Ok None)
  | Some ref =>
      read_as (PGetRequest (nor_Namespace ref) (nor_Name ref))
        ("get verification InvestigationRequest " +:+ nor_Namespace ref +:+ "/" +:+ nor_Name ref)
        (fun request => Ret (Ok (Some request)))
  end.

Definition buildAgentActionReport (namespace name : string) : report_prog (result agentActionReport) :=
  read_as (PGetAction namespace name) ("get AgentAction " +:+ namespace +:+ "/" +:+ name) (fun action =>
  plan <~ reportPlan namespace action;
  match plan with
  | Err e => Ret (Err e)
  | Ok plan =>
      signal <~ reportSignal namespace action;
      match signal with
      | Err e => Ret (Err e)
      | Ok signal =>
          verification <~ reportVerification action;
          Ret (verification <-! verification; Ok (mkAgentActionReport namespace name action plan signal verification))
      end
  end).

(** ** Markdown *)

Definition line_feed : string := str1 10.
Definition backslash_ : string := str1 92.

(** [strings.ReplaceAll] of a byte. *)
Definition replace_byte (code : Z) (new value : string) : string := replace_from (str1 code) new 0 value.

(** The escaped markers, in order: * _ [ ] < > |. *)
Definition markers : list Z := [42; 95; 91; 93; 60; 62; 124].

Definition markdownText (value : string) : string :=
  let value := replace_byte 92 (backslash_ +:+ backslash_) value in
  let value := replace_byte 96 (backslash_ +:+ str1 96) value in
  let value := foldl (fun value marker => replace_byte marker (backslash_ +:+ str1 marker) value) value markers in
  let value := replace_byte 10 " " value in
  let value := replace_byte 13 " " value in
  trim_space value.

(** A text in code style. *)
Definition code (value : string) : string := "`" +:+ markdownText value +:+ "`".

Definition nonEmptyReportStrings (values : list string) : list string :=
  List.filter (fun value => value != "") (map trim_space values).

Definition confirmedRequest (request : InvestigationRequest) : bool :=
  (ist_Outcome (ir_Status request) == InvestigationOutcomeConfirmed) &&
  match ist_Verdict (ir_Status request) with Some v => vd_Outcome v == InvestigationOutcomeConfirmed | None => false end.

Definition evidenceReferences (refs : list string) : string :=
  match refs with [] => "" | _ => " (evidence: " +:+ join ", " (map code refs) +:+ ")" end.

Definition writeEvidenceRef (ref : EvidenceRef) : string :=
  let label := trim_space (join " / " (nonEmptyReportStrings [er_Kind ref; er_Source ref; er_Reason ref])) in
  let label := if label == "" then "Evidence" else label in
  "- **" +:+ markdownText label +:+ "**"
    +:+ match er_CollectedAt ref with Some t => " (" +:+ rfc3339_seconds t +:+ ")" | None => "" end
    +:+ (if er_Summary ref == "" then "" else ": " +:+ markdownText (er_Summary ref)) +:+ line_feed.

Definition writeClaim (claim : RCAClaim) : string :=
  "- **" +:+ markdownText (rc_Verification claim) +:+ "** — " +:+ markdownText (rc_Statement claim)
    +:+ evidenceReferences (rc_EvidenceRefs claim) +:+ line_feed.

Definition writeHypothesis (hypothesis : RCAAlternativeHypothesis) : string :=
  "- " +:+ markdownText (ah_Statement hypothesis)
    +:+ (if ah_Disposition hypothesis == "" then "" else " — " +:+ code (ah_Disposition hypothesis))
    +:+ evidenceReferences (ah_EvidenceRefs hypothesis) +:+ line_feed.

(** The lines of checks, each check and gap once. *)
Fixpoint writeMissing (missing : list RCAMissingEvidence) (seen : list string) : string * list string :=
  match missing with
  | [] => ("", seen)
  | m :: missing =>
      let line := trim_space (join " — " (nonEmptyReportStrings [me_Source m; me_Reason m])) in
      if (line == "") || mem_str line seen then writeMissing missing seen
      else let '(text, seen') := writeMissing missing (line :: seen) in
           ("- Missing or insufficient: " +:+ code line +:+ line_feed +:+ text, seen')
  end.

Fixpoint writeIncomplete (checks seen : list string) : string * list string :=
  match checks with
  | [] => ("", seen)
  | check :: checks =>
      if mem_str check seen then writeIncomplete checks seen
      else let '(text, seen') := writeIncomplete checks (check :: seen) in
           ("- Incomplete check: " +:+ code check +:+ line_feed +:+ text, seen')
  end.

Definition writeEvidenceGapsMarkdown (request : InvestigationRequest) : string :=
  let status := ir_Status request in
  let '(failure, seen) :=
    match ist_Failure status with
    | Some f => ("- Collection stopped: " +:+ code (if_Code f) +:+ line_feed, [if_Code f])
    | None => ("", [])
    end in
  let '(completed, seen) :=
    match ist_EvidenceCoverage status with
    | Some c =>
        if ecv_Profile c == "" then ("", seen)
        else ("- Profile: " +:+ code (ecv_Profile c) +:+ line_feed
                +:+ str_concat (map (fun check => "- Completed check: " +:+ code check +:+ line_feed) (ecv_CompletedChecks c)),
              ecv_CompletedChecks c ++ seen)
    | None => ("", seen)
    end in
  let '(missing, seen) := writeMissing (ist_MissingEvidence status) seen in
  let '(incomplete, seen) :=
    match ist_EvidenceCoverage status with Some c => writeIncomplete (ecv_IncompleteChecks c) seen | None => ("", seen) end in
  let reasons := match ist_Degradation status with Some d => dg_Reasons d | None => [] end in
  let degradation :=
    str_concat (map (fun reason => "- Degradation: " +:+ code (dr_Code reason) +:+ line_feed)
      (List.filter (fun reason => dr_Code reason != "") reasons)) in
  "### Evidence status" +:+ line_feed +:+ line_feed +:+ failure +:+ completed +:+ missing +:+ incomplete +:+ degradation
    +:+ (if bool_decide (seen = []) && bool_decide (reasons = []) then "No evidence gaps are recorded." +:+ line_feed else "")
    +:+ line_feed.

(** *** The next steps of a crash loop *)

Definition isDatasourceQueryFailure (failure_code : string) : bool :=
  mem_str failure_code ["DatasourceQueryFailed"; "DatasourceAuthFailed"; "DatasourceRateLimited"; "DatasourceUnavailable";
    "DatasourceRequestInvalid"; "InvalidDatasourceResponse"].

Definition hasExplicitLogQuery (queries : list InvestigationQuery) : bool :=
  existsb (fun q => equal_fold (trim_space (iq_QueryType q)) "log") queries.

Definition hasMissingEvidenceReason (items : list RCAMissingEvidence) (reason : string) : bool :=
  existsb (fun item => me_Reason item == reason) items.

Definition requestReferencesDatasource (request : InvestigationRequest) (name : string) : bool :=
  existsb (fun source => equal_fold (trim_space source) name) (irs_DataSources (ir_Spec request)) ||
  existsb (fun q => equal_fold (trim_space (iq_DatasourceRef q)) name) (irs_Queries (ir_Spec request)).

Definition hasCrashLoopApplicationFailureLog (refs : list EvidenceRef) : bool :=
  existsb (fun ref => equal_fold (trim_space (er_Kind ref)) "log" &&
    contains_any (to_lower (er_Summary ref))
      ["panic"; "fatal"; "startup error"; "startup failure"; "failed to initialize"; "invalid configuration";
       "configuration error"; "exception"; "segmentation fault"]) refs.

Definition failureCode (request : InvestigationRequest) : option string := if_Code <$> ist_Failure (ir_Status request).

Definition crashLoopNextStep (request : InvestigationRequest) (v2 : bool) : string :=
  let missing := hasMissingEvidenceReason (ist_MissingEvidence (ir_Status request)) in
  let explicit := hasExplicitLogQuery (irs_Queries (ir_Spec request)) in
  if bool_decide (failureCode request = Some "DataSourceNotFound") || bool_decide (failureCode request = Some "DataSourceNotSpecified") then
    if requestReferencesDatasource request "loki"
    then "- Configure the referenced Loki datasource, then rerun the investigation. No root cause was inferred from the datasource failure."
    else "- Configure or correct the declared datasource, then rerun the investigation. No root cause was inferred from the datasource failure."
  else if match failureCode request with Some c => isDatasourceQueryFailure c | None => false end then
    if v2
    then "- Restore read access to the target Kubernetes Pods and configured Event source, then rerun the investigation for the same target and time window."
    else "- Restore access to the declared log datasource and rerun the investigation for the same target and time window."
  else if missing "CrashLoopApplicationEvidenceMissing" then
    if explicit
    then "- Check that the configured log query covers this workload and incident time window and returns application failure context."
    else if bool_decide (irs_DataSources (ir_Spec request) <> [])
    then "- Check that the controller-planned datasource set includes a log source such as Loki and returns application failure context for this workload and incident time window."
    else "- Check that a Loki datasource is configured and included in this investigation; query application logs for the target workload and incident time window."
  else if missing "CrashLoopApplicationLogRequired" then
    "- To confirm the process-level cause, add an explicitly scoped, policy-allowed Loki query for this workload and incident window; the retained termination status alone does not explain why the process exited."
  else if missing "ContainerTerminationEvidenceMissing" then
    "- Check that the target workload still has in-scope Pods and that the controller can read their container status; rerun within the incident time window."
  else if missing "ContainerTerminationEvidenceStale" then
    "- Collect a fresh container termination status and rerun with an incident window that includes its finish time; the retained status is outside the requested window."
  else if missing "ContainerTerminationEvidenceTruncated" then
    "- Narrow the target workload or reduce the number of matching Pods so the bounded termination status scan can cover the full target set."
  else if v2 && negb (hasCrashLoopApplicationFailureLog (ist_EvidenceRefs (ir_Status request))) then
    if explicit
    then "- Check that the scoped Loki query returns application failure context for this workload and incident window; termination status alone does not explain why the process exited."
    else "- To investigate a process-level cause, include an explicitly scoped, policy-allowed Loki query for this workload and incident window; termination status alone does not explain why the process exited."
  else "- Review the retained Event and log evidence for startup failure context. If it does not support a causal claim, retain the Inconclusive outcome and collect additional permitted evidence.".

Definition writeCrashLoopNextStepsMarkdown (request : InvestigationRequest) : string :=
  let profile := trim_space (irs_EvidenceProfile (ir_Spec request)) in
  if negb (equal_fold profile "CrashLoopBackOff") && negb (equal_fold profile "CrashLoopBackOffV2") then ""
  else if confirmedRequest request then ""
  else "### Suggested next steps (read-only)" +:+ line_feed +:+ line_feed
         +:+ crashLoopNextStep request (equal_fold profile "CrashLoopBackOffV2") +:+ line_feed
         +:+ "- Treat these steps as diagnostics only; they do not confirm a root cause or authorize remediation." +:+ line_feed +:+ line_feed.

(** *** The document *)

(** The root cause is the verdict's only when both outcomes say Confirmed. *)
Definition writeRootCause (request : InvestigationRequest) : string :=
  let status := ir_Status request in
  match ist_Verdict status with
  | Some verdict =>
      if confirmedRequest request then
        "- Root cause: **Confirmed** — " +:+ markdownText (vd_Summary verdict) +:+ line_feed
          +:+ (if vd_RootCauseType verdict == "" then ""
               else "- Root cause type: " +:+ code (vd_RootCauseType verdict) +:+ line_feed)
      else "- Root cause: **Not confirmed**" +:+ line_feed
             +:+ (if ist_Summary status == "" then "" else "- Assessment: " +:+ markdownText (ist_Summary status) +:+ line_feed)
  | None => "- Root cause: **Not confirmed**" +:+ line_feed
              +:+ (if ist_Summary status == "" then "" else "- Assessment: " +:+ markdownText (ist_Summary status) +:+ line_feed)
  end.

Definition writeInvestigationMarkdown (request : InvestigationRequest) : string :=
  let status := ir_Status request in
  let target := irs_Target (ir_Spec request) in
  "## InvestigationRequest: " +:+ markdownText (om_Name (ir_Meta request)) +:+ line_feed +:+ line_feed
    +:+ "- Target: `" +:+ markdownText (tr_Kind target) +:+ "/" +:+ markdownText (tr_Namespace target) +:+ "/"
    +:+ markdownText (tr_Name target) +:+ "`" +:+ line_feed
    +:+ "- Phase: " +:+ code (ir_Phase request) +:+ line_feed
    +:+ "- Outcome: " +:+ code (ir_Outcome request) +:+ line_feed
    +:+ writeRootCause request
    +:+ match ist_Failure status with
        | Some f => "- Investigation failure: " +:+ code (if_Code f)
                      +:+ (if if_Stage f == "" then "" else " (stage " +:+ code (if_Stage f) +:+ ")") +:+ line_feed
        | None => ""
        end
    +:+ line_feed
    +:+ "### Observed evidence" +:+ line_feed +:+ line_feed
    +:+ match ist_EvidenceRefs status with
        | [] => "No evidence references were retained." +:+ line_feed +:+ line_feed
        | refs => str_concat (map writeEvidenceRef refs) +:+ line_feed
        end
    +:+ match ist_Claims status with
        | [] => ""
        | claims => "### RCA claims" +:+ line_feed +:+ line_feed +:+ str_concat (map writeClaim claims) +:+ line_feed
        end
    +:+ (if (ist_Hypothesis status == "") && bool_decide (ist_AlternativeHypotheses status = []) then ""
         else "### Hypotheses (unconfirmed)" +:+ line_feed +:+ line_feed
                +:+ (if ist_Hypothesis status == "" then "" else "- " +:+ markdownText (ist_Hypothesis status) +:+ line_feed)
                +:+ str_concat (map writeHypothesis (ist_AlternativeHypotheses status)) +:+ line_feed)
    +:+ writeEvidenceGapsMarkdown request +:+ writeCrashLoopNextStepsMarkdown request.

Definition writeSignalLine (s : StoredSignal) : string :=
  let signal := ss_Signal s in
  "- `" +:+ markdownText (signalNamespace s) +:+ "/" +:+ markdownText (signalName s) +:+ "`: phase "
    +:+ code (rs_Phase (rst_ResourceStatus (rsk_Status signal))) +:+ ", severity " +:+ code (rss_Severity (rsk_Spec signal))
    +:+ ", type " +:+ code (rss_SignalType (rsk_Spec signal))
    +:+ (if rst_RCASummary (rsk_Status signal) == "" then "" else " — " +:+ markdownText (rst_RCASummary (rsk_Status signal)))
    +:+ line_feed.

Definition writeRiskRuleReportMarkdown (report : riskRuleReport) : string :=
  "# RiskRule report: " +:+ markdownText (om_Name (ru_Meta (rrr_RiskRule report))) +:+ line_feed +:+ line_feed
    +:+ "- Namespace: " +:+ code (om_Namespace (ru_Meta (rrr_RiskRule report))) +:+ line_feed
    +:+ "- Report schema: `" +:+ riskRuleReportSchemaVersion +:+ "`" +:+ line_feed +:+ line_feed
    +:+ match rrr_InvestigationRequests report with
        | [] => "No InvestigationRequest is linked to this RiskRule." +:+ line_feed
        | requests => str_concat (map writeInvestigationMarkdown requests)
        end
    +:+ match rrr_RiskSignals report with
        | [] => ""
        | signals => "## RiskSignals" +:+ line_feed +:+ line_feed +:+ str_concat (map writeSignalLine signals) +:+ line_feed
        end.

(** ** Lines *)

Definition not_newline (c : Ascii.ascii) : bool := negb (byte_val c =? 10).
Definition one_line (s : string) : bool := str_all not_newline s.
Definition unlines (lines : list string) : string := str_concat (map (fun l => l +:+ line_feed) lines).

(** The text between newlines. *)
Fixpoint split_lines (s : string) : list string :=
  match s with
  | EmptyString => []
  | String c s =>
      if byte_val c =? 10 then "" :: split_lines s
      else match split_lines s with l :: ls => String c l :: ls | [] => [String c ""] end
  end.

Lemma split_lines_line l s : one_line l = true -> split_lines (l +:+ line_feed +:+ s) = l :: split_lines s.
Proof.
  unfold one_line. induction l as [|c l IH]; [done|]. cbn [str_all]. intros [Hc%negb_true_iff Hl]%andb_true_iff.
  change (split_lines (String c (l +:+ line_feed +:+ s)) = String c l :: split_lines s).
  cbn [split_lines]. by rewrite Hc, IH.
Qed.

Lemma split_unlines ls : Forall (fun l => one_line l = true) ls -> split_lines (unlines ls) = ls.
Proof.
  induction 1 as [|l ls Hl _ IH]; [done|]. change (unlines (l :: ls)) with ((l +:+ line_feed) +:+ unlines ls).
  rewrite <- append_assoc, split_lines_line by done. by rewrite IH.
Qed.

(** ** Escaped text *)

Lemma replace_byte_cons code new c s :
  0 <= code < 256 ->
  replace_byte code new (String c s) = (if byte_val c =? code then new else String c "") +:+ replace_byte code new s.
Proof.
  intros Hc. unfold replace_byte, str1. cbn [replace_from has_prefix String.length Nat.sub].
  replace (has_prefix s "") with true by (by destruct s). rewrite andb_true_r.
  destruct (Ascii.eqb_spec (byte_of code) c) as [<-|Hne].
  - by rewrite byte_val_of, Z.eqb_refl.
  - destruct (Z.eqb_spec (byte_val c) code) as [He|]; [|done]. destruct Hne. by rewrite <- He, byte_of_val.
Qed.

Definition not_star (c : Ascii.ascii) : bool := negb (byte_val c =? 42).

Lemma replace_byte_all p code new s :
  0 <= code < 256 -> str_all p new = true -> str_all (fun c => (byte_val c =? code) || p c) s = true ->
  str_all p (replace_byte code new s) = true.
Proof.
  intros Hc Hn. induction s as [|c s IH]; [done|]. cbn [str_all]. intros [Ha Hs]%andb_true_iff.
  rewrite replace_byte_cons, str_all_app, IH, andb_true_r by done.
  destruct (byte_val c =? code); [done|]. cbn in *. by rewrite Ha.
Qed.

(** Every star follows a backslash; [prev]: the byte before is one. *)
Fixpoint escaped (prev : bool) (s : string) : bool :=
  match s with
  | EmptyString => true
  | String c s => (not_star c || prev) && escaped (byte_val c =? 92) s
  end.

Lemma escaped_weaken s prev : escaped false s = true -> escaped prev s = true.
Proof. destruct s as [|c s]; [done|]. cbn. rewrite orb_false_r. intros [-> ->]%andb_true_iff. done. Qed.

Lemma escaped_starless new t prev : str_all not_star new = true -> escaped false t = true -> escaped prev (new +:+ t) = true.
Proof.
  revert prev. induction new as [|c new IH]; intros prev; [intros _; apply escaped_weaken|].
  intros [Hc Hn]%andb_true_iff Ht. change (escaped prev (String c (new +:+ t)) = true). cbn [escaped].
  by rewrite Hc, IH.
Qed.

Lemma escape_stars s prev : escaped prev (replace_byte 42 (backslash_ +:+ str1 42) s) = true.
Proof.
  revert prev. induction s as [|c s IH]; intros prev; [done|]. rewrite replace_byte_cons by lia.
  destruct (byte_val c =? 42) eqn:Hc.
  - change (escaped prev (String (byte_of 92) (String (byte_of 42) (replace_byte 42 (backslash_ +:+ str1 42) s))) = true).
    cbn [escaped]. rewrite IH. by destruct prev.
  - change (escaped prev (String c (replace_byte 42 (backslash_ +:+ str1 42) s)) = true). cbn [escaped].
    unfold not_star at 1. by rewrite Hc, IH.
Qed.

Lemma escaped_replace code new s prev :
  0 <= code < 256 -> code <> 42 -> code <> 92 -> str_all not_star new = true ->
  escaped prev s = true -> escaped prev (replace_byte code new s) = true.
Proof.
  intros Hc H42 H92 Hn. revert prev. induction s as [|c s IH]; intros prev; [done|]. cbn [escaped].
  intros [Ha Hs]%andb_true_iff. rewrite replace_byte_cons by done. destruct (Z.eqb_spec (byte_val c) code) as [He|He].
  - apply escaped_starless; [done|]. apply IH. revert Hs. by destruct (Z.eqb_spec (byte_val c) 92) as [|_]; [lia|].
  - change (escaped prev (String c (replace_byte code new s)) = true). cbn [escaped]. by rewrite Ha, IH.
Qed.

Lemma escaped_no_bold s prev : escaped prev s = true -> contains s "**" = false.
Proof.
  revert prev. induction s as [|c s IH]; intros prev; [done|]. cbn [escaped]. intros [Hc Hs]%andb_true_iff.
  cbn [contains]. apply orb_false_iff. split; [|by eapply IH].
  cbn [has_prefix]. match goal with |- context [Ascii.eqb ?a c] => destruct (Ascii.eqb_spec a c) as [<-|] end; [|done].
  destruct s as [|d s]; [done|]. cbn [escaped has_prefix] in *.
  match goal with |- context [Ascii.eqb ?a d] => by destruct (Ascii.eqb_spec a d) as [<-|] end.
Qed.

Lemma str_all_true p s : (forall c, p c = true) -> str_all p s = true.
Proof. intros Hp. induction s as [|c s IH]; [done|]. cbn [str_all]. by rewrite Hp, IH. Qed.

(** Trimming takes from both ends. *)
Lemma trim_space_infix s : exists a b, s = a +:+ trim_space s +:+ b.
Proof.
  destruct (trim_segs_infix (segments s)) as (l1 & l2 & H). exists (unsegment l1), (unsegment l2).
  unfold trim_space. rewrite <- !unsegment_app, <- H. symmetry. apply unsegment_segments.
Qed.

Lemma contains_infix s t sub : contains t sub = true -> (exists a b, s = a +:+ t +:+ b) -> contains s sub = true.
Proof.
  intros (c & d & ->)%contains_spec (a & b & ->). apply contains_spec. exists (a +:+ c), (d +:+ b).
  by rewrite !append_assoc.
Qed.

(** A text of a resource stays within its line and never opens or closes bold type. *)
Definition contained (s : string) : Prop := one_line s = true /\ contains s "**" = false.

Lemma markdownText_contained value : contained (markdownText value).
Proof.
  unfold markdownText. cbn [foldl markers]. set (v := replace_byte 96 _ _). clearbody v. split.
  - unfold one_line. match goal with |- str_all _ (trim_space ?x) = true => destruct (trim_space_infix x) as (a & b & H); assert (str_all not_newline x = true) as Hx end.
    + apply replace_byte_all; [lia|done|]. apply replace_byte_all; [lia|done|]. apply str_all_true.
      intros c. unfold not_newline. destruct (byte_val c =? 10), (byte_val c =? 13); done.
    + rewrite H, !str_all_app in Hx. by apply andb_true_iff in Hx as [_ [? _]%andb_true_iff].
  - destruct (contains _ "**") eqn:Hb; [|done].
    eapply contains_infix in Hb; [|apply trim_space_infix]. rewrite (escaped_no_bold _ false) in Hb; [done|].
    do 8 (apply escaped_replace; [lia|lia|lia|done|]). apply escape_stars.
Qed.

Lemma markdownText_line value : one_line (markdownText value) = true.
Proof. apply markdownText_contained. Qed.

Lemma one_line_app s t : one_line (s +:+ t) = one_line s && one_line t.
Proof. apply str_all_app. Qed.

Lemma code_line value : one_line (code value) = true.
Proof. unfold code. by rewrite !one_line_app, markdownText_line. Qed.

Lemma join_line sep l : one_line sep = true -> Forall (fun s => one_line s = true) l -> one_line (join sep l) = true.
Proof.
  intros Hs. induction 1 as [|s l Hl Hall IH]; [done|]. cbn [join]. destruct l as [|t l]; [done|].
  by rewrite !one_line_app, Hl, Hs, IH.
Qed.

Lemma evidenceReferences_line refs : one_line (evidenceReferences refs) = true.
Proof.
  unfold evidenceReferences. destruct refs as [|ref refs]; [done|].
  rewrite !one_line_app, join_line; [done|done|]. apply Forall_forall. intros s. rewrite list_elem_of_fmap.
  intros (x & -> & _). apply code_line.
Qed.

Lemma pretty_N_go_line x s : one_line s = true -> one_line (pretty_N_go x s) = true.
Proof.
  revert s. induction (N.lt_wf_0 x) as [x _ IH]. intros s Hs. destruct (decide (0 < x)%N) as [Hx|Hx].
  - rewrite pretty_N_go_step by done. apply IH; [by apply N.div_lt|]. unfold one_line in *. cbn [str_all].
    rewrite Hs, andb_true_r. unfold pretty_N_char. by repeat case_match.
  - assert (x = 0%N) as -> by lia. done.
Qed.

Lemma itoa_line z : one_line (itoa z) = true.
Proof.
  assert (forall n, one_line (pretty (N.pos n)) = true) as H.
  { intros n. unfold pretty, pretty_N. case_decide; [done|]. by apply pretty_N_go_line. }
  unfold itoa, pretty, pretty_Z. destruct z as [|n|n]; [done|apply H|]. 
  change (one_line ("-" +:+ pretty (N.pos n)) = true). by rewrite one_line_app, H.
Qed.

Lemma pad_line n z : one_line (pad n z) = true.
Proof.
  unfold pad. rewrite one_line_app, itoa_line, andb_true_r. by induction (n - _)%nat as [|k IH].
Qed.

Lemma rfc3339_seconds_line t : one_line (rfc3339_seconds t) = true.
Proof.
  unfold rfc3339_seconds, CanonicalTime. destruct (civil _) as [[y m] d]. rewrite !one_line_app, !pad_line.
  replace ((t - t `mod` second) `mod` second) with 0; [done|].
  rewrite (Z.mod_eq t second) by done. replace (t - (t - second * (t / second))) with (t / second * second) by lia.
  by rewrite Z.mod_mul.
Qed.

(** ** The document line by line *)

Definition heading : string := "## InvestigationRequest: ".
Definition rootCause : string := "- Root cause: **".

(** The lines that open the part on a request or state its root cause. *)
Definition landmark (line : string) : bool := has_prefix line heading || has_prefix line rootCause.

(** [s] is made of whole lines, [marks] its landmarks in order. *)
Definition lined (s : string) (marks : list string) : Prop :=
  exists ls, s = unlines ls /\ Forall (fun l => one_line l = true) ls /\ List.filter landmark ls = marks.

Lemma lined_split s marks : lined s marks -> List.filter landmark (split_lines s) = marks.
Proof. intros (ls & -> & Hl & Hm). by rewrite split_unlines. Qed.

Lemma lined_nil : lined "" [].
Proof. by exists []. Qed.

Lemma lined_app s t m n : lined s m -> lined t n -> lined (s +:+ t) (m ++ n).
Proof.
  intros (l1 & -> & H1 & <-) (l2 & -> & H2 & <-). exists (l1 ++ l2). split; [|split].
  - unfold unlines. clear. induction l1 as [|l l1 IH]; [done|].
    change ((((l +:+ line_feed) +:+ unlines l1) +:+ unlines l2) = (l +:+ line_feed) +:+ unlines (l1 ++ l2)).
    rewrite <- append_assoc. f_equal. exact IH.
  - by apply Forall_app.
  - apply List.filter_app.
Qed.

Lemma lined_concat {A} (f : A -> string) (marks : A -> list string) l :
  (forall x, lined (f x) (marks x)) -> lined (str_concat (map f l)) (flat_map marks l).
Proof.
  intros Hf. induction l as [|x l IH]; [apply lined_nil|]. by apply (lined_app (f x) (str_concat (map f l))).
Qed.

Lemma lined_concat_nil {A} (f : A -> string) l : (forall x, lined (f x) []) -> lined (str_concat (map f l)) [].
Proof. intros Hf. replace [] with (flat_map (fun _ : A => @nil string) l) by (by induction l). by apply lined_concat. Qed.

(** The line begun with [p], and the rest [s]. *)
Lemma lined_line p s marks m :
  one_line p = true -> (if landmark p then [p] else []) = m -> lined s marks -> lined (p +:+ line_feed +:+ s) (m ++ marks).
Proof.
  intros Hp Hm Hs. rewrite append_assoc. apply lined_app; [|done]. exists [p].
  split; [by rewrite <- (append_empty_r (p +:+ line_feed))|]. split; [by repeat constructor|]. exact Hm.
Qed.

Lemma lined_last p m : one_line p = true -> (if landmark p then [p] else []) = m -> lined (p +:+ line_feed) m.
Proof. intros Hp Hm. rewrite <- (append_empty_r line_feed), <- (app_nil_r m). by apply lined_line; [..|apply lined_nil]. Qed.

#[local] Hint Rewrite one_line_app markdownText_line code_line evidenceReferences_line rfc3339_seconds_line : line_rw.

Ltac solve_line := autorewrite with line_rw; repeat (case_match; autorewrite with line_rw); done.

(** Takes the next line of the goal off. *)
Ltac next_line :=
  lazymatch goal with
  | |- lined (line_feed +:+ ?s) _ => change (line_feed +:+ s) with ("" +:+ line_feed +:+ s); apply (lined_line "" s _ []); [done|done|]
  | |- lined line_feed _ => apply (lined_last "" []); done
  | |- lined (?p +:+ line_feed +:+ ?s) _ => apply (lined_line p s _ []); [solve_line|reflexivity|]
  | |- lined (?p +:+ line_feed) _ => apply (lined_last p []); [solve_line|reflexivity]
  | |- lined (?p +:+ ?x +:+ ?s) _ => rewrite (append_assoc p x s); next_line
  end.

Lemma writeEvidenceRef_lined ref : lined (writeEvidenceRef ref) [].
Proof. unfold writeEvidenceRef. next_line. Qed.

Lemma writeClaim_lined claim : lined (writeClaim claim) [].
Proof. unfold writeClaim. next_line. Qed.

Lemma writeSignalLine_lined s : lined (writeSignalLine s) [].
Proof. unfold writeSignalLine. next_line. Qed.

(** A line that begins with a text of the resource does not state a root cause. *)
Definition tail_of_line (t : string) : Prop := t = "" \/ has_prefix t " —" = true \/ has_prefix t " (" = true.

Lemma has_prefix_split e t p :
  has_prefix (e +:+ t) p = true ->
  has_prefix e p = true \/ exists k, (k < String.length p)%nat /\ has_prefix t (str_drop k p) = true.
Proof.
  revert e. induction p as [|c p IH]; intros e; [left; by destruct e|]. destruct e as [|d e].
  - intros H. right. exists 0%nat. split; [cbn; lia|]. exact H.
  - intros [Hc H]%andb_true_iff. apply Ascii.eqb_eq in Hc as ->. destruct (IH e H) as [He|(k & Hk & Ht)].
    + left. cbn [has_prefix]. by rewrite Ascii.eqb_refl.
    + right. exists (S k). split; [cbn; lia|done].
Qed.

Lemma tail_not_root_cause t k :
  tail_of_line t -> (k < 14)%nat -> has_prefix t (str_drop k "Root cause: **") = false.
Proof.
  intros [->|[(b & ->)%has_prefix_spec|(b & ->)%has_prefix_spec]] Hk;
    do 14 (destruct k as [|k]; [reflexivity|]); lia.
Qed.

Lemma quiet_not_landmark e t : contains e "**" = false -> tail_of_line t -> landmark ("- " +:+ e +:+ t) = false.
Proof.
  intros He Ht. unfold landmark. apply orb_false_iff. split; [done|]. unfold rootCause.
  destruct (has_prefix ("- " +:+ e +:+ t) "- Root cause: **") eqn:Hp; [|done].
  assert (has_prefix (e +:+ t) "Root cause: **" = true) as [H|(k & Hk & H)]%has_prefix_split by exact Hp.
  - apply has_prefix_spec in H as [b ->]. assert (contains ("Root cause: **" +:+ b) "**" = true) as Hc.
    { apply contains_spec. by exists "Root cause: ", b. }
    congruence.
  - by rewrite tail_not_root_cause in H.
Qed.

Lemma evidenceReferences_tail refs : tail_of_line (evidenceReferences refs).
Proof. unfold evidenceReferences. destruct refs as [|ref refs]; [by left|]. right. right. apply (has_prefix_app " ("). Qed.

Lemma writeHypothesis_lined h : lined (writeHypothesis h) [].
Proof.
  unfold writeHypothesis. set (t := (if ah_Disposition h == "" then "" else _)).
  rewrite !append_assoc. apply lined_last; [subst t; solve_line|].
  rewrite <- !append_assoc, quiet_not_landmark; [done|apply markdownText_contained|].
  subst t. destruct (_ == _); [apply evidenceReferences_tail|]. right. left. apply (has_prefix_app " —").
Qed.

Lemma hypothesis_lined text : lined ("- " +:+ markdownText text +:+ line_feed) [].
Proof.
  rewrite append_assoc. apply lined_last; [solve_line|].
  rewrite <- (append_empty_r (markdownText text)), quiet_not_landmark; [done|apply markdownText_contained|by left].
Qed.

Lemma writeMissing_lined missing seen : lined (writeMissing missing seen).1 [].
Proof.
  revert seen. induction missing as [|m missing IH]; intros seen; [apply lined_nil|]. cbn [writeMissing].
  set (line := trim_space _). destruct (_ || _); [apply IH|]. specialize (IH (line :: seen)).
  destruct (writeMissing missing (line :: seen)) as [text seen']. cbn [fst] in *. next_line. exact IH.
Qed.

Lemma writeIncomplete_lined checks seen : lined (writeIncomplete checks seen).1 [].
Proof.
  revert seen. induction checks as [|check checks IH]; intros seen; [apply lined_nil|]. cbn [writeIncomplete].
  destruct (mem_str _ _); [apply IH|]. specialize (IH (check :: seen)).
  destruct (writeIncomplete checks (check :: seen)) as [text seen']. cbn [fst] in *. next_line. exact IH.
Qed.

(** Takes the next part of the goal off, by what it is known to be made of. *)
Ltac next_part := apply (lined_app _ _ [] _).

Lemma writeEvidenceGapsMarkdown_lined request : lined (writeEvidenceGapsMarkdown request) [].
Proof.
  unfold writeEvidenceGapsMarkdown. set (status := ir_Status request).
  assert (forall seen, lined (match ist_Failure status with
    | Some f => ("- Collection stopped: " +:+ code (if_Code f) +:+ line_feed, [if_Code f])
    | None => ("", seen)
    end).1 []) as Hf by (intros seen; destruct (ist_Failure status); [cbn [fst]; next_line|apply lined_nil]).
  specialize (Hf []). destruct (match ist_Failure status with Some _ => _ | None => _ end) as [failure seen]. 
  set (coverage := match ist_EvidenceCoverage status with Some c => if ecv_Profile c == "" then _ else _ | None => _ end).
  assert (lined coverage.1 []) as Hc.
  { subst coverage. destruct (ist_EvidenceCoverage status) as [c|]; [|apply lined_nil].
    destruct (_ == _); [apply lined_nil|]. cbn [fst]. next_line. apply lined_concat_nil. intros check. next_line. }
  destruct coverage as [completed seen1].
  pose proof (writeMissing_lined (ist_MissingEvidence status) seen1) as Hm.
  destruct (writeMissing _ _) as [missing seen2].
  set (rest := match ist_EvidenceCoverage status with Some c => writeIncomplete _ _ | None => _ end).
  assert (lined rest.1 []) as Hi.
  { subst rest. destruct (ist_EvidenceCoverage status); [apply writeIncomplete_lined|apply lined_nil]. }
  destruct rest as [incomplete seen3]. cbn [fst] in *. do 2 next_line. do 4 (next_part; [done|]). next_part.
  { apply lined_concat_nil. intros reason. next_line. }
  next_part; [destruct (_ && _); [next_line|apply lined_nil]|next_line].
Qed.

Lemma crashLoopNextStep_line request v2 :
  one_line (crashLoopNextStep request v2) = true /\ landmark (crashLoopNextStep request v2) = false.
Proof. unfold crashLoopNextStep. repeat case_match; split; reflexivity. Qed.

Lemma writeCrashLoopNextStepsMarkdown_lined request : lined (writeCrashLoopNextStepsMarkdown request) [].
Proof.
  unfold writeCrashLoopNextStepsMarkdown. destruct (_ && _); [apply lined_nil|].
  destruct (confirmedRequest request); [apply lined_nil|]. do 2 next_line.
  set (v2 := equal_fold _ _). destruct (crashLoopNextStep_line request v2) as [Hl Hn].
  apply (lined_line _ _ _ []); [done|by rewrite Hn|]. do 2 next_line.
Qed.

(** The two landmarks of a request. *)
Definition rootCauseLine (request : InvestigationRequest) : string :=
  if confirmedRequest request
  then "- Root cause: **Confirmed** — " +:+ markdownText (match ist_Verdict (ir_Status request) with Some v => vd_Summary v | None => "" end)
  else "- Root cause: **Not confirmed**".
Definition requestMarks (request : InvestigationRequest) : list string :=
  [heading +:+ markdownText (om_Name (ir_Meta request)); rootCauseLine request].

Lemma landmark_heading s : landmark (heading +:+ s) = true.
Proof. unfold landmark. by rewrite has_prefix_app. Qed.

Lemma landmark_root_cause s : landmark (rootCause +:+ s) = true.
Proof. unfold landmark. by rewrite has_prefix_app, orb_true_r. Qed.

Lemma assessment_lined status :
  lined ("- Root cause: **Not confirmed**" +:+ line_feed +:+
         (if ist_Summary status == "" then "" else "- Assessment: " +:+ markdownText (ist_Summary status) +:+ line_feed))
    ["- Root cause: **Not confirmed**"].
Proof.
  apply (lined_line _ _ [] [_]); [reflexivity..|]. destruct (_ == _); [apply lined_nil|next_line].
Qed.

Lemma writeRootCause_lined request : lined (writeRootCause request) [rootCauseLine request].
Proof.
  unfold writeRootCause, rootCauseLine. destruct (ist_Verdict (ir_Status request)) as [v|] eqn:Hv.
  - destruct (confirmedRequest request); [|apply assessment_lined].
    rewrite append_assoc. apply (lined_line _ _ [] [_]); [solve_line| |].
    + assert (landmark ("- Root cause: **Confirmed** — " +:+ markdownText (vd_Summary v)) = true) as ->; [|done].
      exact (landmark_root_cause ("Confirmed** — " +:+ markdownText (vd_Summary v))).
    + destruct (_ == _); [apply lined_nil|next_line].
  - unfold confirmedRequest. rewrite Hv, andb_false_r. apply assessment_lined.
Qed.

Lemma writeInvestigationMarkdown_lined request : lined (writeInvestigationMarkdown request) (requestMarks request).
Proof.
  unfold writeInvestigationMarkdown. set (status := ir_Status request). rewrite append_assoc.
  apply (lined_line _ _ [rootCauseLine request] [_]); [solve_line|by rewrite landmark_heading|].
  do 4 next_line. apply (lined_app _ _ [_] []); [apply writeRootCause_lined|].
  next_part; [destruct (ist_Failure status); [next_line|apply lined_nil]|]. do 3 next_line. next_part.
  { destruct (ist_EvidenceRefs status); [do 2 next_line|]. next_part; [|next_line].
    apply lined_concat_nil, writeEvidenceRef_lined. }
  next_part.
  { destruct (ist_Claims status); [apply lined_nil|]. do 2 next_line. next_part; [|next_line].
    apply lined_concat_nil, writeClaim_lined. }
  next_part.
  { destruct (_ && _); [apply lined_nil|]. do 2 next_line.
    next_part; [destruct (_ == _); [apply lined_nil|apply hypothesis_lined]|]. next_part; [|next_line].
    apply lined_concat_nil, writeHypothesis_lined. }
  next_part; [apply writeEvidenceGapsMarkdown_lined|apply writeCrashLoopNextStepsMarkdown_lined].
Qed.

(** C40: Whatever texts the resources carry, the lines of a RiskRule's Markdown report that
    open the part on a request or state its root cause are exactly one of each per request,
    in the order of the report: the heading with the request's name, then "Confirmed" with
    the verdict's summary when both the outcome and the verdict say so, and "Not confirmed"
    otherwise.  No name, summary, claim, hypothesis, reason or check of any resource can
    forge, hide or break such a line. *)
Theorem markdown_root_causes_exact (report : riskRuleReport) :
  List.filter landmark (split_lines (writeRiskRuleReportMarkdown report)) =
  flat_map requestMarks (rrr_InvestigationRequests report).
Proof.
  apply lined_split. unfold writeRiskRuleReportMarkdown. do 5 next_line.
  rewrite <- (app_nil_r (flat_map requestMarks _)). apply lined_app.
  - destruct (rrr_InvestigationRequests report) as [|r rs]; [next_line|].
    apply (lined_concat _ _ (r :: rs)), writeInvestigationMarkdown_lined.
  - destruct (rrr_RiskSignals report); [apply lined_nil|]. do 2 next_line. next_part; [|next_line].
    apply lined_concat_nil, writeSignalLine_lined.
Qed.

End Report.

(** ** What a rule's report holds *)

(** The API server answers with the object it was asked for. *)
Definition answers_named (log : list (event report_op)) : Prop :=
  forall namespace name s, Ev (PGetSignal namespace name) (Ok s) ∈ log ->
    signalNamespace s = namespace /\ signalName s = name.

Definition linked (request : InvestigationRequest) (ref : NamespacedObjectReference) : Prop :=
  ist_LinkedRiskSignalRef (ir_Status request) = Some ref.

(** The signals a report adds to the listed ones. *)
Definition followed (requests : list InvestigationRequest) (log : list (event report_op)) (s : StoredSignal) : Prop :=
  exists request ref, request ∈ requests /\ linked request ref /\
    Ev (PGetSignal (nor_Namespace ref) (nor_Name ref)) (Ok s) ∈ log.

Lemma containsRiskSignal_perm l1 l2 namespace name :
  l1 ≡ₚ l2 -> containsRiskSignal l1 namespace name = true -> containsRiskSignal l2 namespace name = true.
Proof. intros Hp. unfold containsRiskSignal. rewrite !existsb_elem. intros (s & Hs & H). exists s. by rewrite <- Hp. Qed.

Lemma containsRiskSignal_app l1 l2 namespace name :
  containsRiskSignal l1 namespace name = true -> containsRiskSignal (l1 ++ l2) namespace name = true.
Proof. unfold containsRiskSignal. rewrite existsb_app. by intros ->. Qed.

Definition linked_ok (requests : list InvestigationRequest) (signals : list StoredSignal)
    (r : result (list StoredSignal)) (log : list (event report_op)) : Prop :=
  forall out, r = Ok out ->
    (exists extra, out = signals ++ extra /\ Forall (followed requests log) extra) /\
    (answers_named log -> forall request ref, request ∈ requests -> linked request ref ->
       containsRiskSignal out (nor_Namespace ref) (nor_Name ref) = true).

(** One more request in front, which adds [new] to the signals. *)
Lemma linked_ok_cons request requests signals new r log :
  linked_ok requests (signals ++ new) r log -> Forall (followed (request :: requests) log) new ->
  (answers_named log -> forall ref, linked request ref ->
     containsRiskSignal (signals ++ new) (nor_Namespace ref) (nor_Name ref) = true) ->
  linked_ok (request :: requests) signals r log.
Proof.
  intros Hr Hnew Hnamed out Ho. destruct (Hr out Ho) as [(extra & -> & Hextra) Hc]. split.
  - exists (new ++ extra). split; [by rewrite app_assoc|]. apply Forall_app. split; [done|].
    eapply Forall_impl; [exact Hextra|]. intros s (q & ref & Hq & Hl). exists q, ref. split; [by apply list_elem_of_further|done].
  - intros Hn q ref [->|Hq]%elem_of_cons Hl; [|by eapply Hc]. by apply containsRiskSignal_app, Hnamed.
Qed.

Lemma linkedSignals_ok requests signals log :
  wp log_env (fun _ => True) (linkedSignals requests signals) log (linked_ok requests signals).
Proof.
  revert signals log. induction requests as [|request requests IH]; intros signals log; cbn [linkedSignals].
  - apply wp_ret; [done|]. intros out [= <-]. split; [exists []; by rewrite app_nil_r|]. by intros _ r ref ?%elem_of_nil.
  - destruct (ist_LinkedRiskSignalRef (ir_Status request)) as [ref|] eqn:Hr; [destruct (containsRiskSignal _ _ _) eqn:Hc|].
    + eapply wp_mono; [|apply IH]. intros r log' _ H. apply (linked_ok_cons _ _ _ []); rewrite ?app_nil_r; [done|constructor|].
      unfold linked. intros _ ref' H'. congruence.
    + split; [done|]. intros got log' ->. destruct got as [s|e]; [|apply wp_ret; done].
      eapply wp_mono; [|apply wp_continues, IH]. intros r log' _ [H Hlog].
      assert (Ev (PGetSignal (nor_Namespace ref) (nor_Name ref)) (Ok s) ∈ log') as Hin.
      { eapply continues_elem; [exact Hlog|]. apply snoc_elem. }
      apply (linked_ok_cons _ _ _ [s]); [done| |].
      * constructor; [|constructor]. exists request, ref. split; [apply list_elem_of_here|done].
      * unfold linked. intros Hn ref' H'. assert (ref' = ref) as -> by congruence. destruct (Hn _ _ _ Hin) as [H1 H2].
        unfold containsRiskSignal. rewrite existsb_app. cbn. by rewrite H1, H2, !String.eqb_refl, orb_true_r.
    + eapply wp_mono; [|apply IH]. intros r log' _ H. apply (linked_ok_cons _ _ _ []); rewrite ?app_nil_r; [done|constructor|].
      unfold linked. congruence.
Qed.

Definition rule_report_ok (namespace name : string) (report : riskRuleReport) (log : list (event report_op)) : Prop :=
  exists items listed,
    Ev (PGetRule namespace name) (Ok (rrr_RiskRule report)) ∈ log /\
    Ev (PListRequests namespace riskRuleLabelKey name) (Ok items) ∈ log /\ rrr_InvestigationRequests report ≡ₚ items /\
    Ev (PListSignals riskRuleLabelKey name) (Ok listed) ∈ log /\
    (exists extra, rrr_RiskSignals report ≡ₚ listed ++ extra /\
       Forall (followed (rrr_InvestigationRequests report) log) extra) /\
    (answers_named log -> forall request ref, request ∈ rrr_InvestigationRequests report -> linked request ref ->
       containsRiskSignal (rrr_RiskSignals report) (nor_Namespace ref) (nor_Name ref) = true).

(** The report on a rule: the requests the API server listed for it in its namespace, and
    the signals it listed for it; besides these only signals that such a request links to,
    and each of those is in the report. *)
Theorem rule_report_complete namespace name report log :
  logged (buildRiskRuleReport namespace name) (Some (Ok report)) log -> rule_report_ok namespace name report log.
Proof.
  intros Hrun.
  assert (Hwp : wp log_env (fun _ => True) (buildRiskRuleReport namespace name) [] (fun r log => forall report,
    r = Ok report -> rule_report_ok namespace name report log)).
  { unfold buildRiskRuleReport, read_as. split; [done|]. intros got log1 ->. destruct got as [rule|e]; [|by apply wp_ret].
    split; [done|]. intros got log1 ->. destruct got as [items|e]; [|by apply wp_ret].
    split; [done|]. intros got log1 ->. destruct got as [listed|e]; [|by apply wp_ret].
    apply wp_bind. eapply wp_mono; [|apply wp_continues, linkedSignals_ok]. intros r log' _ [Hl Hc]. apply wp_ret; [done|].
    intros report' Hr. destruct r as [signals|e]; [|done]. injection Hr as <-. destruct (Hl _ eq_refl) as [(extra & -> & Hextra) Hn].
    exists items, listed. cbn.
    split_and!; try (eapply continues_elem; [exact Hc|]; cbn; set_solver); [apply sort_stable_perm| |].
    - exists extra. split; [apply sort_stable_perm|done].
    - intros Ha request ref Hq Hr. eapply containsRiskSignal_perm; [symmetry; apply sort_stable_perm|]. by eapply Hn. }
  apply (wp_exec _ _ _ _ _ _ _ Hwp) in Hrun as [_ Hr]. by apply (Hr _ eq_refl).
Qed.

(** ** Examples *)

#[local] Existing Instance plain_tables.

(** A name and a hypothesis that would state a root cause of their own; the Markdown of
    both stays in its line and is not bold. *)
Definition forging_request : InvestigationRequest :=
  mkInvestigationRequest
    (mkObjectMeta ("r" +:+ line_feed +:+ "- Root cause: **Confirmed** — node") "ns" "" "" 1 ∅ ∅ []) 0 None
    (investigation_spec (mkTargetRef "" "ns" "Deployment" "d" "" "") "" None 0 "" [] "" false "CrashLoopBackOff")
    (zeroInvestigationStatus <| ist_Hypothesis := "Root cause: **Confirmed** — disk" |> <| ist_Outcome := InvestigationOutcomeConfirmed |>).

Example forged_root_cause :
  List.filter landmark (split_lines (writeInvestigationMarkdown forging_request)) =
  ["## InvestigationRequest: r - Root cause: \*\*Confirmed\*\* — node"; "- Root cause: **Not confirmed**"].
Proof. vm_compute. reflexivity. Qed.

(** Markers are escaped in code style too, where Markdown shows the backslash. *)
Example code_shows_backslash : code "max_surge" = "`max\_surge`".
Proof. vm_compute. reflexivity. Qed.
