(* ===== verification/Metrics.v ===== *)
(** * Metrics (internal/rcametrics, and what the investigation controller records)

    What each [Record] and [Observe] function adds to which series.  A sample is
    the metric, the label values and what happens to the series; the registry
    and the exposition are Prometheus's. *)

From Stdlib Require Import ZArith Lia.
From stdpp Require Import base list strings gmap.
From S2P Require Import Prelude GoStrings Utf8 Api InvestigationApi Observation InvestigationGate.

Inductive metric :=
| InvestigationTotal | ProviderRequestsTotal | ProviderFailuresTotal | DatasourceQueryDurationSeconds
| EvidenceTruncatedTotal | ClaimVerificationTotal | QueryPolicyDecisionsTotal | QueryResultLimitExceededTotal
| DatasourceQueryQueueDepth | DatasourceQueriesInFlight | DeduplicationHitsTotal | LoopPreventionTotal
| StatusUpdateConflictsTotal | DiagnosticCollectionRequestsTotal | DiagnosticCollectionDurationSeconds
| DiagnosticEvidenceCoverageTotal | InvestigationBudgetExhaustedTotal | DiagnosticClaimsTotal
| InvestigationQualityTotal | EvidenceSufficiencyTotal | RequiredEvidenceChecksTotal | ActionableInconclusiveTotal.

#[export] Instance metric_eq_dec : EqDecision metric.
Proof. solve_decision. Defined.

Definition metric_name (m : metric) : string :=
  match m with
  | InvestigationTotal => "fluxseer_rca_investigation_total"
  | ProviderRequestsTotal => "fluxseer_rca_provider_requests_total"
  | ProviderFailuresTotal => "fluxseer_rca_provider_failures_total"
  | DatasourceQueryDurationSeconds => "fluxseer_rca_datasource_query_duration_seconds"
  | EvidenceTruncatedTotal => "fluxseer_rca_evidence_truncated_total"
  | ClaimVerificationTotal => "fluxseer_rca_claim_verification_total"
  | QueryPolicyDecisionsTotal => "fluxseer_rca_query_policy_decisions_total"
  | QueryResultLimitExceededTotal => "fluxseer_rca_query_result_limit_exceeded_total"
  | DatasourceQueryQueueDepth => "fluxseer_rca_datasource_query_queue_depth"
  | DatasourceQueriesInFlight => "fluxseer_rca_datasource_queries_in_flight"
  | DeduplicationHitsTotal => "fluxseer_rca_deduplication_hits_total"
  | LoopPreventionTotal => "fluxseer_rca_loop_prevention_total"
  | StatusUpdateConflictsTotal => "fluxseer_rca_status_update_conflicts_total"
  | DiagnosticCollectionRequestsTotal => "fluxseer_diagnostic_collection_requests_total"
  | DiagnosticCollectionDurationSeconds => "fluxseer_diagnostic_collection_duration_seconds"
  | DiagnosticEvidenceCoverageTotal => "fluxseer_diagnostic_evidence_coverage_total"
  | InvestigationBudgetExhaustedTotal => "fluxseer_investigation_budget_exhausted_total"
  | DiagnosticClaimsTotal => "fluxseer_diagnostic_claims_total"
  | InvestigationQualityTotal => "fluxseer_rca_investigation_quality_total"
  | EvidenceSufficiencyTotal => "fluxseer_rca_evidence_sufficiency_total"
  | RequiredEvidenceChecksTotal => "fluxseer_rca_required_evidence_checks_total"
  | ActionableInconclusiveTotal => "fluxseer_rca_actionable_inconclusive_total"
  end.

Definition AllowedLabels : list (string * list string) :=
  [("fluxseer_rca_investigation_total", ["namespace"; "provider_type"; "result"; "root_cause_type"]);
   ("fluxseer_rca_provider_requests_total", ["provider_type"; "result"]);
   ("fluxseer_rca_provider_failures_total", ["provider_type"; "reason"]);
   ("fluxseer_rca_datasource_query_duration_seconds", ["datasource_type"; "result"]);
   ("fluxseer_rca_evidence_truncated_total", ["kind"; "reason"]);
   ("fluxseer_rca_claim_verification_total", ["verification_status"]);
   ("fluxseer_rca_query_policy_decisions_total", ["backend"; "decision"; "reason"]);
   ("fluxseer_rca_query_result_limit_exceeded_total", ["backend_type"; "dimension"]);
   ("fluxseer_rca_datasource_query_queue_depth", ["scheduler"]);
   ("fluxseer_rca_datasource_queries_in_flight", ["scheduler"]);
   ("fluxseer_rca_deduplication_hits_total", ["source"]);
   ("fluxseer_rca_loop_prevention_total", ["reason"]);
   ("fluxseer_rca_status_update_conflicts_total", ["resource"]);
   ("fluxseer_rca_investigation_quality_total", ["profile"; "provider_class"; "evidence_availability"; "phase"; "outcome"]);
   ("fluxseer_rca_evidence_sufficiency_total", ["profile"; "sufficient"]);
   ("fluxseer_rca_required_evidence_checks_total", ["profile"; "check"; "result"]);
   ("fluxseer_rca_actionable_inconclusive_total", ["profile"; "gap_reason"; "actionable"]);
   ("fluxseer_diagnostic_collection_requests_total", ["diagnostic"; "outcome"]);
   ("fluxseer_diagnostic_collection_duration_seconds", ["diagnostic"; "outcome"]);
   ("fluxseer_diagnostic_evidence_coverage_total", ["diagnostic"; "outcome"; "reason"]);
   ("fluxseer_investigation_budget_exhausted_total", ["diagnostic"; "reason"]);
   ("fluxseer_diagnostic_claims_total", ["diagnostic"; "claim_type"; "verification"])].

Definition forbiddenLabels : list string :=
  ["execution_id"; "idempotency_key"; "request_name"; "request_uid"; "finding_fingerprint"; "digest"; "evidence_digest";
   "query"; "pod"].

(** [AllowedLabels[name]], the labels the vector is created with. *)
Definition metric_labels (m : metric) : list string :=
  default [] (find_first (fun row => if row.1 == metric_name m then Some row.2 else None) AllowedLabels).

Inductive change :=
| Inc
| Add (n : Z)
| Observe (d : duration).

(** [m.WithLabelValues(values...)], which panics unless there is a value per label. *)
Record sample := mkSample { sm_metric : metric; sm_values : list string; sm_change : change }.

Section Metrics.
Context {U : UnicodeTables}.

Definition label_rune (r : Z) : Z :=
  if (97 <=? r) && (r <=? 122) then r
  else if (48 <=? r) && (r <=? 57) then r
  else if (r =? 95) || (r =? 45) || (r =? 46) then r
  else 95.

(** [strings.Map] with a mapping to ASCII. *)
Definition normalizeLabel (value fallback : string) : string :=
  let value := to_lower (trim_space value) in
  if value == "" then fallback
  else str_concat (map (fun seg => str1 (label_rune seg.1)) (segments value)).

Definition normalizeProviderType (value : string) : string := normalizeLabel value "heuristic".
Definition normalizeResult (value : string) : string := normalizeLabel value "unknown".
Definition normalizeMetricReason (value : string) : string := normalizeLabel value "unknown".

(** A value of the first list, a synonym of the table, or the default. *)
Definition pick (known : list string) (synonyms : list (string * string)) (other value : string) : string :=
  let value := to_lower (trim_space value) in
  if mem_str value known then value
  else default other (find_first (fun s => if s.1 == value then Some s.2 else None) synonyms).

Definition normalizeDiagnostic : string -> string :=
  pick ["imagepull"; "scheduling"] [("imagepullbackoff", "imagepull")] "other".
Definition normalizeDiagnosticOutcome : string -> string := pick ["success"; "partial"; "failure"] [] "failure".
Definition normalizeDiagnosticReason : string -> string :=
  pick ["complete"; "partial"; "truncated"; "stale"; "unauthorized"; "collection_failed"; "budget_exhausted"; "missing"]
    [("investigationquerybudgetexhausted", "budget_exhausted"); ("query_budget", "budget_exhausted")] "other".
Definition normalizeClaimType : string -> string :=
  pick ["observation"; "failure_mechanism"; "root_cause"; "provider"]
    [("failuremechanism", "failure_mechanism"); ("rootcause", "root_cause")] "other".
Definition normalizeClaimVerification : string -> string :=
  pick ["supported"; "unverified"; "inferred"; "unsupported"; "contradicted"; "candidate"] [("confirmed", "supported")] "unknown".

Definition normalizeProfile : string -> string :=
  pick ["crashloopbackoff"; "crashloopbackoffv2"; "imagepullbackoff"; "oomkilled"; "latencyregression";
        "rolloutlatencyregression"; "serviceportmismatch"; "failedscheduling"; "probefailure"; "highhttperror"]
    [("", "none"); ("schedulingsuccess", "failedscheduling"); ("highhttperrorrate", "highhttperror")] "other".
Definition normalizeProviderClass : string -> string :=
  pick ["heuristic"; "openai"; "claude"; "gemini"] [("", "heuristic"); ("anthropic", "claude")] "other".
Definition normalizeEvidenceAvailability : string -> string :=
  pick ["available"; "partial"; "unavailable"; "not_applicable"] [] "other".
Definition normalizePhase : string -> string := pick ["completed"; "failed"] [] "other".
Definition normalizeOutcome : string -> string :=
  pick ["confirmed"; "inconclusive"; "unknown"; "no_issue_found"] [("noissuefound", "no_issue_found")] "other".
Definition normalizeEvidenceCheck : string -> string :=
  pick []
    [("event:crashloopbackoff", "event_crashloopbackoff");
     ("log:applicationfailure", "log_applicationfailure");
     ("containertermination:lasttermination", "containertermination_lasttermination");
     ("event:imagepullbackoff", "event_imagepullbackoff");
     ("event:oomkilled", "event_oomkilled");
     ("metric:memory", "metric_memory");
     ("metric:latency", "metric_latency");
     ("deploymentcondition:rollout", "deploymentcondition_rollout");
     ("serviceconfiguration:serviceportmismatch", "serviceconfiguration_serviceportmismatch");
     ("event:failedscheduling", "event_failedscheduling");
     ("probeconfiguration:probeconfigurationmismatch", "probeconfiguration_probeconfigurationmismatch");
     ("metric:http5xx", "metric_http5xx");
     ("log:causaldependency", "log_causaldependency")] "other".
Definition normalizeEvidenceCheckResult : string -> string :=
  pick ["usable"; "empty"; "missing"; "stale"; "truncated"; "failed"; "unavailable"] [] "other".
Definition normalizeEvidenceGap : string -> string :=
  pick ["none"; "multiple"; "other"; "application_evidence_missing"; "application_log_required"; "termination_missing";
        "termination_stale"; "termination_truncated"] [] "other".
Definition boolLabel (value : bool) : string := if value then "true" else "false".

(** ** What is recorded *)

Definition RecordInvestigation (namespace providerType result rootCauseType : string) : list sample :=
  [mkSample InvestigationTotal [normalizeLabel namespace "unknown"; normalizeProviderType providerType;
     normalizeResult result; normalizeLabel rootCauseType "unknown"] Inc].
Definition RecordProviderRequest (providerType result : string) : list sample :=
  [mkSample ProviderRequestsTotal [normalizeProviderType providerType; normalizeResult result] Inc].
Definition RecordProviderFailure (providerType reason : string) : list sample :=
  [mkSample ProviderFailuresTotal [normalizeProviderType providerType; normalizeMetricReason reason] Inc].
Definition ObserveDatasourceQuery (datasourceType result : string) (d : duration) : list sample :=
  [mkSample DatasourceQueryDurationSeconds [normalizeLabel datasourceType "unknown"; normalizeResult result] (Observe d)].
Definition RecordEvidenceTruncated (kind reason : string) : list sample :=
  [mkSample EvidenceTruncatedTotal [normalizeLabel kind "unknown"; normalizeMetricReason reason] Inc].
Definition RecordClaimVerification (status : string) : list sample :=
  [mkSample ClaimVerificationTotal [normalizeLabel status "unknown"] Inc].
Definition RecordQueryPolicyDecision (backend decision reason : string) : list sample :=
  [mkSample QueryPolicyDecisionsTotal
     [normalizeLabel backend "unknown"; normalizeLabel decision "unknown"; normalizeMetricReason reason] Inc].
Definition RecordQueryResultLimitExceeded (backendType dimension : string) : list sample :=
  [mkSample QueryResultLimitExceededTotal [normalizeLabel backendType "unknown"; normalizeLabel dimension "unknown"] Inc].
Definition AddDatasourceQueryQueueDepth (scheduler : string) (delta : Z) : list sample :=
  [mkSample DatasourceQueryQueueDepth [normalizeLabel scheduler "unknown"] (Add delta)].
Definition AddDatasourceQueriesInFlight (scheduler : string) (delta : Z) : list sample :=
  [mkSample DatasourceQueriesInFlight [normalizeLabel scheduler "unknown"] (Add delta)].
Definition RecordDeduplicationHit (source : string) : list sample :=
  [mkSample DeduplicationHitsTotal [normalizeLabel source "unknown"] Inc].
Definition RecordLoopPrevention (reason : string) : list sample :=
  [mkSample LoopPreventionTotal [normalizeMetricReason reason] Inc].
Definition RecordStatusUpdateConflict (resource : string) : list sample :=
  [mkSample StatusUpdateConflictsTotal [normalizeLabel resource "unknown"] Inc].

(** No request is counted for a collection that made none; its duration is observed all the same. *)
Definition RecordDiagnosticCollection (diagnostic : string) (requests : Z) (outcome : string) (d : duration) : list sample :=
  let labels := [normalizeDiagnostic diagnostic; normalizeDiagnosticOutcome outcome] in
  (if 0 <? requests then [mkSample DiagnosticCollectionRequestsTotal labels (Add requests)] else []) ++
  [mkSample DiagnosticCollectionDurationSeconds labels (Observe d)].
Definition RecordDiagnosticEvidenceCoverage (diagnostic outcome reason : string) : list sample :=
  [mkSample DiagnosticEvidenceCoverageTotal
     [normalizeDiagnostic diagnostic; normalizeDiagnosticOutcome outcome; normalizeDiagnosticReason reason] Inc].
Definition RecordInvestigationBudgetExhausted (diagnostic reason : string) : list sample :=
  [mkSample InvestigationBudgetExhaustedTotal [normalizeDiagnostic diagnostic; normalizeDiagnosticReason reason] Inc].
Definition RecordDiagnosticClaim (diagnostic claimType verification : string) : list sample :=
  [mkSample DiagnosticClaimsTotal
     [normalizeDiagnostic diagnostic; normalizeClaimType claimType; normalizeClaimVerification verification] Inc].

Definition RecordInvestigationQuality (profile providerClass evidenceAvailability phase outcome : string) : list sample :=
  [mkSample InvestigationQualityTotal
     [normalizeProfile profile; normalizeProviderClass providerClass; normalizeEvidenceAvailability evidenceAvailability;
      normalizePhase phase; normalizeOutcome outcome] Inc].
Definition RecordEvidenceSufficiency (profile : string) (sufficient : bool) : list sample :=
  [mkSample EvidenceSufficiencyTotal [normalizeProfile profile; boolLabel sufficient] Inc].
Definition RecordRequiredEvidenceCheck (profile check result : string) : list sample :=
  [mkSample RequiredEvidenceChecksTotal
     [normalizeProfile profile; normalizeEvidenceCheck check; normalizeEvidenceCheckResult result] Inc].
Definition RecordActionableInconclusive (profile gapReason : string) (actionable : bool) : list sample :=
  [mkSample ActionableInconclusiveTotal
     [normalizeProfile profile; normalizeEvidenceGap gapReason; boolLabel actionable] Inc].

(** ** The quality of a finished investigation *)

Definition allRequiredChecksComplete (checks : list string) (coverage : option RCAEvidenceCoverage) : bool :=
  match coverage with
  | None => false
  | Some c => bool_decide (ecv_IncompleteChecks c = []) && forallb (fun check => mem_str check (ecv_CompletedChecks c)) checks
  end.

Definition evidenceAvailabilityForMetrics (request : InvestigationRequest) (checks : list string) : string :=
  let status := ir_Status request in
  if bool_decide (checks = []) then "not_applicable"
  else if ir_Phase request == PhaseFailed then "unavailable"
  else match ist_EvidenceCoverage status with
       | None => "unavailable"
       | Some c =>
           if allRequiredChecksComplete checks (Some c) then "available"
           else if bool_decide (ecv_CompletedChecks c <> []) || bool_decide (ist_MissingEvidence status <> []) ||
                   bool_decide (ist_Degradation status <> None) then "partial"
           else "unavailable"
       end.

(** [strings.SplitN(check, ":", 2)[0]]. *)
Fixpoint before_colon (s : string) : string :=
  match s with
  | EmptyString => ""
  | String c s => if byte_val c =? 58 then "" else String c (before_colon s)
  end.

(** The first reason of the check's source that decides, else the last that does not. *)
Fixpoint missingCheckResult (source : string) (missing : list RCAMissingEvidence) (fallback : string) : string :=
  match missing with
  | [] => fallback
  | m :: missing =>
      if to_lower (trim_space (me_Source m)) != source then missingCheckResult source missing fallback
      else if mem_str (me_Reason m) ["DatasourceQueryFailed"; "DatasourceAuthFailed"; "DatasourceRateLimited";
                "DatasourceUnavailable"; "DatasourceRequestInvalid"; "InvalidDatasourceResponse"] then "failed"
      else if me_Reason m == "ContainerTerminationEvidenceStale" then "stale"
      else if me_Reason m == "ContainerTerminationEvidenceTruncated" then "truncated"
      else if mem_str (me_Reason m) ["DataSourceNotFound"; "DataSourceNotSpecified"; "UnsupportedQueryType"] then "unavailable"
      else if mem_str (me_Reason m) ["RequiredEvidenceMissing"; "ContainerTerminationEvidenceMissing"]
      then missingCheckResult source missing "empty"
      else missingCheckResult source missing "missing"
  end.

Definition evidenceCheckResultForMetrics (request : InvestigationRequest) (check : string) : string :=
  let status := ir_Status request in
  if match ist_EvidenceCoverage status with Some c => mem_str check (ecv_CompletedChecks c) | None => false end then "usable"
  else if bool_decide (ist_Failure status <> None) then "unavailable"
  else missingCheckResult (to_lower (before_colon check)) (ist_MissingEvidence status) "missing".

(** The category of a reason; none of the summary reason [RequiredEvidenceMissing]. *)
Definition gapCategory (reason : string) : option string :=
  if reason == "RequiredEvidenceMissing" then None
  else if reason == "CrashLoopApplicationEvidenceMissing" then Some "application_evidence_missing"
  else if reason == "CrashLoopApplicationLogRequired" then Some "application_log_required"
  else if reason == "ContainerTerminationEvidenceMissing" then Some "termination_missing"
  else if reason == "ContainerTerminationEvidenceStale" then Some "termination_stale"
  else if reason == "ContainerTerminationEvidenceTruncated" then Some "termination_truncated"
  else Some "other".

Definition inconclusiveGapReason (request : InvestigationRequest) : string :=
  let missing := ist_MissingEvidence (ir_Status request) in
  match dedup_first (omap (fun m => gapCategory (me_Reason m)) missing) with
  | [] => if existsb (fun m => me_Reason m == "RequiredEvidenceMissing") missing then "other" else "none"
  | [category] => category
  | _ => "multiple"
  end.

Definition inconclusiveHasSpecificNextStep (request : InvestigationRequest) : bool :=
  let profile := to_lower (trim_space (irs_EvidenceProfile (ir_Spec request))) in
  mem_str profile ["crashloopbackoff"; "crashloopbackoffv2"] &&
  mem_str (inconclusiveGapReason request)
    ["application_evidence_missing"; "application_log_required"; "termination_missing"; "termination_stale"; "termination_truncated"].

Definition evidenceSufficient (request : InvestigationRequest) (checks : list string) : bool :=
  (ir_Phase request == PhaseCompleted) && allRequiredChecksComplete checks (ist_EvidenceCoverage (ir_Status request)).

Definition recordInvestigationQualityMetrics (request : InvestigationRequest) (providerClass : string) : list sample :=
  let profile := irs_EvidenceProfile (ir_Spec request) in
  let checks := requiredEvidenceChecksForProfile profile in
  RecordInvestigationQuality profile providerClass (evidenceAvailabilityForMetrics request checks) (ir_Phase request) (ir_Outcome request) ++
  if bool_decide (checks = []) then []
  else RecordEvidenceSufficiency profile (evidenceSufficient request checks)
         ++ flat_map (fun check => RecordRequiredEvidenceCheck profile check (evidenceCheckResultForMetrics request check)) checks
         ++ (if (ir_Phase request == PhaseCompleted) && (ir_Outcome request == InvestigationOutcomeInconclusive)
             then RecordActionableInconclusive profile (inconclusiveGapReason request) (inconclusiveHasSpecificNextStep request)
             else []).

(** ** The label values *)

(** A label value: letters, digits, dash, dot and underscore, at least one. *)
Definition label_byte (c : Ascii.ascii) : bool := label_rune (byte_val c) =? byte_val c.
Definition label_value (s : string) : Prop := s <> "" /\ str_all label_byte s = true.

Lemma label_rune_range r : 0 <= label_rune r < 256 /\ label_rune (label_rune r) = label_rune r.
Proof. unfold label_rune. repeat case_match; go_bool; split; try lia; repeat case_match; go_bool; try done; lia. Qed.

Lemma label_segs_value segs : str_all label_byte (str_concat (map (fun seg : Z * string => str1 (label_rune seg.1)) segs)) = true.
Proof.
  induction segs as [|[r t] segs IH]; [done|]. change (str_all label_byte (str1 (label_rune r) +:+ str_concat
    (map (fun seg : Z * string => str1 (label_rune seg.1)) segs)) = true). rewrite str_all_app, IH, andb_true_r.
  destruct (label_rune_range r) as [Hr Hl]. unfold str1. cbn [str_all]. unfold label_byte.
  by rewrite byte_val_of, Hl, Z.eqb_refl.
Qed.

Lemma normalizeLabel_value value fallback : label_value fallback -> label_value (normalizeLabel value fallback).
Proof.
  intros Hf. unfold normalizeLabel. set (v := to_lower _). destruct (v == "") eqn:Hv; [done|].
  apply String.eqb_neq in Hv. destruct v as [|c v]; [done|]. split; [by rewrite segments_cons|apply label_segs_value].
Qed.

(** The values a [pick] may give. *)
Definition pick_values (known : list string) (synonyms : list (string * string)) (other : string) : list string :=
  dedup_first (known ++ map snd synonyms ++ [other]).

Lemma pick_in known synonyms other value : pick known synonyms other value ∈ pick_values known synonyms other.
Proof.
  unfold pick, pick_values. set (v := to_lower _). apply dedup_first_elem. destruct (mem_str v known) eqn:Hk.
  - apply elem_of_app. left. by apply mem_str_spec.
  - apply elem_of_app. right. apply elem_of_app. destruct (find_first _ synonyms) as [t|] eqn:Hf; [left|right; apply list_elem_of_here].
    apply find_first_Some in Hf as ([a b] & Hin & H). cbn in H. case_match; simplify_eq/=.
    apply list_elem_of_fmap. by exists (a, t).
Qed.

(** ** Bounded series *)

Definition profiles : list string :=
  ["crashloopbackoff"; "crashloopbackoffv2"; "imagepullbackoff"; "oomkilled"; "latencyregression";
   "rolloutlatencyregression"; "serviceportmismatch"; "failedscheduling"; "probefailure"; "highhttperror"; "none"; "other"].
Definition provider_classes : list string := ["heuristic"; "openai"; "claude"; "gemini"; "other"].
Definition availabilities : list string := ["available"; "partial"; "unavailable"; "not_applicable"; "other"].
Definition phases : list string := ["completed"; "failed"; "other"].
Definition outcomes : list string := ["confirmed"; "inconclusive"; "unknown"; "no_issue_found"; "other"].
Definition checks_of_profiles : list string :=
  ["event_crashloopbackoff"; "log_applicationfailure"; "containertermination_lasttermination"; "event_imagepullbackoff";
   "event_oomkilled"; "metric_memory"; "metric_latency"; "deploymentcondition_rollout";
   "serviceconfiguration_serviceportmismatch"; "event_failedscheduling"; "probeconfiguration_probeconfigurationmismatch";
   "metric_http5xx"; "log_causaldependency"; "other"].
Definition check_results : list string := ["usable"; "empty"; "missing"; "stale"; "truncated"; "failed"; "unavailable"; "other"].
Definition gaps : list string :=
  ["none"; "multiple"; "other"; "application_evidence_missing"; "application_log_required"; "termination_missing";
   "termination_stale"; "termination_truncated"].
Definition booleans : list string := ["true"; "false"].
Definition diagnostics : list string := ["imagepull"; "scheduling"; "other"].
Definition diagnostic_outcomes : list string := ["success"; "partial"; "failure"].
Definition diagnostic_reasons : list string :=
  ["complete"; "partial"; "truncated"; "stale"; "unauthorized"; "collection_failed"; "budget_exhausted"; "missing"; "other"].
Definition claim_types : list string := ["observation"; "failure_mechanism"; "root_cause"; "provider"; "other"].
Definition verifications : list string :=
  ["supported"; "unverified"; "inferred"; "unsupported"; "contradicted"; "candidate"; "unknown"].

(** The values each label of a metric may have, where they are bounded. *)
Definition domains (m : metric) : option (list (list string)) :=
  match m with
  | DiagnosticCollectionRequestsTotal | DiagnosticCollectionDurationSeconds => Some [diagnostics; diagnostic_outcomes]
  | DiagnosticEvidenceCoverageTotal => Some [diagnostics; diagnostic_outcomes; diagnostic_reasons]
  | InvestigationBudgetExhaustedTotal => Some [diagnostics; diagnostic_reasons]
  | DiagnosticClaimsTotal => Some [diagnostics; claim_types; verifications]
  | InvestigationQualityTotal => Some [profiles; provider_classes; availabilities; phases; outcomes]
  | EvidenceSufficiencyTotal => Some [profiles; booleans]
  | RequiredEvidenceChecksTotal => Some [profiles; checks_of_profiles; check_results]
  | ActionableInconclusiveTotal => Some [profiles; gaps; booleans]
  | _ => None
  end.

(** What some call of a function of the package records. *)
Inductive recorded : sample -> Prop :=
| rec_investigation a b c d s : s ∈ RecordInvestigation a b c d -> recorded s
| rec_provider_request a b s : s ∈ RecordProviderRequest a b -> recorded s
| rec_provider_failure a b s : s ∈ RecordProviderFailure a b -> recorded s
| rec_datasource_query a b d s : s ∈ ObserveDatasourceQuery a b d -> recorded s
| rec_evidence_truncated a b s : s ∈ RecordEvidenceTruncated a b -> recorded s
| rec_claim_verification a s : s ∈ RecordClaimVerification a -> recorded s
| rec_query_policy a b c s : s ∈ RecordQueryPolicyDecision a b c -> recorded s
| rec_limit_exceeded a b s : s ∈ RecordQueryResultLimitExceeded a b -> recorded s
| rec_queue_depth a n s : s ∈ AddDatasourceQueryQueueDepth a n -> recorded s
| rec_in_flight a n s : s ∈ AddDatasourceQueriesInFlight a n -> recorded s
| rec_deduplication a s : s ∈ RecordDeduplicationHit a -> recorded s
| rec_loop_prevention a s : s ∈ RecordLoopPrevention a -> recorded s
| rec_status_conflict a s : s ∈ RecordStatusUpdateConflict a -> recorded s
| rec_collection a n b d s : s ∈ RecordDiagnosticCollection a n b d -> recorded s
| rec_coverage a b c s : s ∈ RecordDiagnosticEvidenceCoverage a b c -> recorded s
| rec_budget a b s : s ∈ RecordInvestigationBudgetExhausted a b -> recorded s
| rec_claim a b c s : s ∈ RecordDiagnosticClaim a b c -> recorded s
| rec_quality a b c d e s : s ∈ RecordInvestigationQuality a b c d e -> recorded s
| rec_sufficiency a b s : s ∈ RecordEvidenceSufficiency a b -> recorded s
| rec_check a b c s : s ∈ RecordRequiredEvidenceCheck a b c -> recorded s
| rec_actionable a b c s : s ∈ RecordActionableInconclusive a b c -> recorded s.

Lemma boolLabel_in b : boolLabel b ∈ booleans.
Proof. destruct b; set_solver. Qed.

(** Every value of a domain is a label value. *)
Definition label_valueb (s : string) : bool := (s != "") && str_all label_byte s.

Lemma domain_value domain s : forallb label_valueb domain = true -> s ∈ domain -> label_value s.
Proof.
  rewrite forallb_forall. intros Hd Hs. specialize (Hd s (proj1 (list_elem_of_In _ _) Hs)).
  apply andb_true_iff in Hd as [Hn Ha]. split; [|done]. by apply negb_true_iff, String.eqb_neq in Hn.
Qed.

Definition sample_ok (s : sample) : Prop :=
  length (sm_values s) = length (metric_labels (sm_metric s)) /\
  Forall label_value (sm_values s) /\
  match domains (sm_metric s) with Some ds => Forall2 (fun v d => v ∈ d) (sm_values s) ds | None => True end.

(** A bounded metric's sample, by its domains alone. *)
Lemma bounded_ok m values c ds :
  domains m = Some ds -> forallb (forallb label_valueb) ds = true -> length ds = length (metric_labels m) ->
  Forall2 (fun v d => v ∈ d) values ds -> sample_ok (mkSample m values c).
Proof.
  intros Hm Hd Hl Hv. unfold sample_ok. cbn [sm_metric sm_values]. rewrite Hm. split_and!; [by erewrite Forall2_length| |done].
  clear Hm Hl. induction Hv as [|v d vs ds Hv _ IH]; [constructor|]. cbn in Hd. apply andb_true_iff in Hd as [Hd Hds].
  constructor; [by eapply domain_value|by apply IH].
Qed.

Ltac free_label := apply normalizeLabel_value; split; [done|reflexivity].
Ltac bounded_labels :=
  repeat (constructor; [first [apply boolLabel_in | exact (pick_in _ _ _ _)]|]); constructor.

Ltac sample_tac :=
  first
  [ eapply bounded_ok; [reflexivity|vm_compute; reflexivity|vm_compute; reflexivity|bounded_labels]
  | split_and!; [vm_compute; reflexivity|repeat (constructor; [free_label|]); constructor|exact I] ].

Lemma recorded_ok s : recorded s -> sample_ok s.
Proof.
  intros [a b c d s' H|a b s' H|a b s' H|a b d s' H|a b s' H|a s' H|a b c s' H|a b s' H|a n s' H|a n s' H|a s' H|a s' H|a s' H
         |a n b d s' H|a b c s' H|a b s' H|a b c s' H|a b c d e s' H|a b s' H|a b c s' H|a b c s' H];
    try (apply list_elem_of_singleton in H as ->; sample_tac).
  apply elem_of_app in H as [H|H].
  - destruct (0 <? n); [|by apply elem_of_nil in H]. apply list_elem_of_singleton in H as ->. sample_tac.
  - apply list_elem_of_singleton in H as ->. sample_tac.
Qed.

(** Tuples with a value of each domain. *)
Fixpoint tuples (ds : list (list string)) : list (list string) :=
  match ds with
  | [] => [[]]
  | d :: ds => flat_map (fun v => map (cons v) (tuples ds)) d
  end.

Lemma tuples_elem values ds : Forall2 (fun v d => v ∈ d) values ds -> values ∈ tuples ds.
Proof.
  induction 1 as [|v d vs ds Hv _ IH]; [apply list_elem_of_here|]. cbn [tuples]. apply list_elem_of_In, in_flat_map.
  exists v. split; [by apply list_elem_of_In|]. apply in_map, list_elem_of_In, IH.
Qed.

Definition series_limit (ds : list (list string)) : nat := foldr Nat.mul 1%nat (map length ds).

Lemma tuples_length ds : length (tuples ds) = series_limit ds.
Proof.
  induction ds as [|d ds IH]; [done|]. cbn [tuples]. unfold series_limit in *. cbn [map foldr]. rewrite <- IH.
  clear IH. induction d as [|v d IH]; [done|]. cbn [flat_map]. rewrite length_app, IH, length_map. done.
Qed.

(** Whatever is recorded, in any number of calls with any arguments: a metric of bounded
    domains never has more series than they have tuples. *)
Theorem series_bounded m ds (seen : list (list string)) :
  domains m = Some ds -> NoDup seen ->
  (forall values, values ∈ seen -> exists s, recorded s /\ sm_metric s = m /\ sm_values s = values) ->
  (length seen <= series_limit ds)%nat.
Proof.
  intros Hm Hn Hs. rewrite <- tuples_length. apply submseteq_length, NoDup_submseteq; [done|].
  intros values (s & Hr & <- & <-)%Hs. apply recorded_ok in Hr as (_ & _ & H). rewrite Hm in H. by apply tuples_elem.
Qed.

(** A sample has a value for each label its vector was created with, so that no call panics;
    each value is a label value, and no label is forbidden. *)
Theorem samples_labelled s : recorded s ->
  length (sm_values s) = length (metric_labels (sm_metric s)) /\ Forall label_value (sm_values s) /\
  Forall (fun label => label ∉ forbiddenLabels) (metric_labels (sm_metric s)).
Proof.
  intros Hr. destruct (recorded_ok s Hr) as (H1 & H2 & _). split_and!; [done|done|].
  apply Forall_forall. intros label Hl Hf. apply mem_str_spec in Hf.
  assert (forall m, forallb (fun label => negb (mem_str label forbiddenLabels)) (metric_labels m) = true) as Hall
    by (intros []; reflexivity).
  specialize (Hall (sm_metric s)). rewrite forallb_forall in Hall.
  specialize (Hall label (proj1 (list_elem_of_In _ _) Hl)). by rewrite Hf in Hall.
Qed.

Definition bounded_metrics : list metric :=
  [InvestigationQualityTotal; EvidenceSufficiencyTotal; RequiredEvidenceChecksTotal; ActionableInconclusiveTotal;
   DiagnosticCollectionRequestsTotal; DiagnosticEvidenceCoverageTotal; InvestigationBudgetExhaustedTotal; DiagnosticClaimsTotal].

Example series_limits :
  map (fun m => series_limit (default [] (domains m))) bounded_metrics = [4500; 24; 1344; 192; 9; 81; 27; 105]%nat.
Proof. reflexivity. Qed.

(** ** The quality record agrees with itself *)

Lemma complete_checks checks c :
  allRequiredChecksComplete checks (Some c) = true <->
  ecv_IncompleteChecks c = [] /\ forall check, check ∈ checks -> check ∈ ecv_CompletedChecks c.
Proof.
  cbn [allRequiredChecksComplete]. rewrite andb_true_iff, bool_decide_eq_true, forallb_forall. apply and_iff_compat_l.
  split; intros H check Hc; [apply mem_str_spec, H; by apply list_elem_of_In|apply mem_str_spec, H; by apply list_elem_of_In].
Qed.

(** A completed investigation is recorded as sufficient exactly when its evidence is
    recorded as available, and then every required check is recorded as usable. *)
Theorem sufficiency_agrees (request : InvestigationRequest) (checks : list string) :
  checks <> [] -> ir_Phase request = PhaseCompleted ->
  (evidenceSufficient request checks = true <-> evidenceAvailabilityForMetrics request checks = "available") /\
  (evidenceSufficient request checks = true ->
   forall check, check ∈ checks -> evidenceCheckResultForMetrics request check = "usable").
Proof.
  intros Hne Hp. unfold evidenceSufficient, evidenceAvailabilityForMetrics, evidenceCheckResultForMetrics.
  rewrite Hp, bool_decide_eq_false_2 by done. cbn [andb].
  change (PhaseCompleted == PhaseCompleted) with true. change (PhaseCompleted == PhaseFailed) with false. cbn [andb].
  destruct (ist_EvidenceCoverage (ir_Status request)) as [c|]; [|done]. split.
  - destruct (allRequiredChecksComplete checks (Some c)); [done|]. by destruct (_ || _).
  - intros [_ H]%complete_checks check Hc%H. by apply mem_str_spec in Hc as ->.
Qed.
End Metrics.

(** The check of the probe profile on its Event has no value of its own: it is recorded
    as "other", as no check of any other profile is. *)
Example checks_recorded_as_other :
  let U := plain_tables in
  List.filter (fun check => normalizeEvidenceCheck check == "other")
    (flat_map requiredEvidenceChecksForProfile
       ["CrashLoopBackOff"; "CrashLoopBackOffV2"; "ImagePullBackOff"; "OOMKilled"; "LatencyRegression";
        "RolloutLatencyRegression"; "ServicePortMismatch"; "FailedScheduling"; "ProbeFailure"; "HighHTTPError"]) =
  ["event:Unhealthy"].
Proof. vm_compute. reflexivity. Qed.
