(* ===== verification/Offline.v ===== *)
(** * Replay bundles, adaptive plans and solution assessments (internal/replay, internal/adaptive, internal/solution)

    Packages that work on a finished investigation, or on the templates of a
    further one, without the cluster. *)

From Stdlib Require Import ZArith Lia Floats.SpecFloat.
From stdpp Require Import base list strings gmap.
From S2P Require Import Prelude GoStrings Utf8 Float64 Api InvestigationApi Digest.

(** ** Replay bundles *)

Definition BundleSchemaVersion : string := "fluxseer-rca-replay-bundle-v1".

Record BundleSource := mkBundleSource {
  bs_APIVersion : string;
  bs_Kind : string;
  bs_Namespace : string;
  bs_Name : string;
  bs_UID : string;
  bs_Generation : Z;
  bs_CreatedAt : time
}.

Record BundleStatus := mkBundleStatus {
  bst_Phase : string;
  bst_Outcome : string;
  bst_Failure : option InvestigationFailure;
  bst_Verdict : option RCAVerdict;
  bst_Claims : list RCAClaim;
  bst_MissingEvidence : list RCAMissingEvidence;
  bst_Degradation : option RCADegradation;
  bst_Execution : option RCAExecution;
  bst_EvidenceRefs : list EvidenceRef;
  bst_Lineage : option InvestigationLineage;
  bst_LinkedRiskSignalRef : option NamespacedObjectReference
}.

Record Bundle := mkBundle {
  bn_SchemaVersion : string;
  bn_Source : BundleSource;
  bn_Spec : InvestigationRequestSpec;
  bn_Status : BundleStatus;
  bn_Identity : string
}.

(** [json.Marshal] of a bundle. *)
Class BundleJSON := { marshal_bundle : Bundle -> result string }.

Section Replay.
Context {D : DigestPrims} {J : BundleJSON}.

Definition with_identity (identity : string) (b : Bundle) : Bundle :=
  mkBundle (bn_SchemaVersion b) (bn_Source b) (bn_Spec b) (bn_Status b) identity.

Definition BundleDigest (b : Bundle) : result string :=
  data <-! rmap_err (wrapf "marshal replay bundle") (marshal_bundle (with_identity "" b));
  Ok ("sha256:" +:+ sha256_hex data).

Definition apiVersion : string := "fluxseer-rca.aiops.platform/v1alpha1".

Definition bundle_of (request : InvestigationRequest) : Bundle :=
  let m := ir_Meta request in
  let st := ir_Status request in
  mkBundle BundleSchemaVersion
    (mkBundleSource apiVersion "InvestigationRequest" (om_Namespace m) (om_Name m) (om_UID m) (om_Generation m)
       (ir_CreationTimestamp request))
    (ir_Spec request)
    (mkBundleStatus (ir_Phase request) (ist_Outcome st) (ist_Failure st) (ist_Verdict st) (ist_Claims st)
       (ist_MissingEvidence st) (ist_Degradation st) (ist_Execution st) (ist_EvidenceRefs st) (ist_Lineage st)
       (ist_LinkedRiskSignalRef st))
    "".

Definition Export (request : option InvestigationRequest) : result Bundle :=
  match request with
  | None => Err (errorf "investigation request is nil")
  | Some request =>
      if (ir_Phase request != PhaseCompleted) && (ir_Phase request != PhaseFailed) then
        Err (errorf ("investigation request " +:+ om_Namespace (ir_Meta request) +:+ "/" +:+ om_Name (ir_Meta request)
          +:+ " is not terminal: phase=" +:+ ir_Phase request))
      else
        digest <-! BundleDigest (bundle_of request);
        Ok (with_identity digest (bundle_of request))
  end.
End Replay.

Record Evaluation := mkEvaluation { evl_Passed : bool; evl_Differences : list string }.

(** [reflect.DeepEqual] of two float64: as numbers, so that no NaN equals itself. *)
Definition float_deep_eq (a b : float64) : bool := SFeqb a b.

Definition verdictOutcome (v : option RCAVerdict) : string := match v with Some v => vd_Outcome v | None => "" end.
Definition verdictRootCauseType (v : option RCAVerdict) : string := match v with Some v => vd_RootCauseType v | None => "" end.
Definition verdictConfidence (v : option RCAVerdict) : float64 := match v with Some v => vd_Confidence v | None => float_zero end.
Definition claimSignatures (claims : list RCAClaim) : list (string * string * list string) :=
  map (fun c => (rc_Statement c, rc_Verification c, rc_EvidenceRefs c)) claims.

Definition compareField (out : Evaluation) (field : string) (equal : bool) : Evaluation :=
  if equal then out else mkEvaluation false (evl_Differences out ++ [field]).

Definition Compare (expected actual : Bundle) : Evaluation :=
  let e := bn_Status expected in
  let a := bn_Status actual in
  let out := mkEvaluation true [] in
  let out := compareField out "status.outcome" (bst_Outcome e == bst_Outcome a) in
  let out := compareField out "status.verdict.outcome" (verdictOutcome (bst_Verdict e) == verdictOutcome (bst_Verdict a)) in
  let out := compareField out "status.verdict.rootCauseType"
               (verdictRootCauseType (bst_Verdict e) == verdictRootCauseType (bst_Verdict a)) in
  let out := compareField out "status.verdict.confidence"
               (float_deep_eq (verdictConfidence (bst_Verdict e)) (verdictConfidence (bst_Verdict a))) in
  let out := compareField out "status.claims" (bool_decide (claimSignatures (bst_Claims e) = claimSignatures (bst_Claims a))) in
  compareField out "status.missingEvidence" (bool_decide (bst_MissingEvidence e = bst_MissingEvidence a)).

(** ** Adaptive plans *)

Record AdaptiveConfig := mkAdaptiveConfig {
  ad_Enabled : bool;
  ad_AllowedTemplates : list string;
  ad_MaxSteps : Z;
  ad_MaxQueries : Z
}.
Record AdaptiveStep := mkAdaptiveStep { ads_ID : string; ads_QueryTemplate : string; ads_Reason : string }.
Record AdaptiveIssue := mkAdaptiveIssue { adi_Reason : string; adi_Message : string }.
Record AdaptivePlan := mkAdaptivePlan {
  adp_Enabled : bool;
  adp_Steps : list AdaptiveStep;
  adp_Issue : option AdaptiveIssue
}.

Definition refusedPlan (reason message : string) : AdaptivePlan := mkAdaptivePlan true [] (Some (mkAdaptiveIssue reason message)).

Definition adaptiveLimit (config : AdaptiveConfig) : Z :=
  if (ad_MaxSteps config <=? 0) || ((0 <? ad_MaxQueries config) && (ad_MaxQueries config <? ad_MaxSteps config))
  then ad_MaxQueries config else ad_MaxSteps config.

Section Adaptive.
Context {U : UnicodeTables}.

(** The loop over the desired templates, the steps so far in front. *)
Fixpoint planTemplates (allowed : list string) (limit : Z) (reason : string) (steps : list AdaptiveStep)
    (desired : list string) : AdaptivePlan :=
  match desired with
  | [] => mkAdaptivePlan true steps None
  | template :: desired =>
      let template := trim_space template in
      if template == "" then planTemplates allowed limit reason steps desired
      else if negb (mem_str template allowed) then
        refusedPlan "TemplateNotAllowed" ("adaptive query template " +:+ quote template +:+ " is not allowlisted")
      else
        let steps := steps ++ [mkAdaptiveStep ("adaptive-step-" +:+ pad 3 (Z.of_nat (length steps) + 1)) template (trim_space reason)] in
        if limit <=? Z.of_nat (length steps) then mkAdaptivePlan true steps None
        else planTemplates allowed limit reason steps desired
  end.

Definition allowedTemplates (config : AdaptiveConfig) : list string :=
  List.filter (fun name => name != "") (map trim_space (ad_AllowedTemplates config)).

Definition PlanSteps (config : AdaptiveConfig) (desired : list string) (reason : string) : AdaptivePlan :=
  if negb (ad_Enabled config) then mkAdaptivePlan false [] None
  else if bool_decide (allowedTemplates config = []) then
    refusedPlan "NoAllowedTemplates" "adaptive investigation requires explicit allowed templates"
  else if adaptiveLimit config <=? 0 then
    refusedPlan "BudgetExhausted" "adaptive investigation query budget is exhausted"
  else planTemplates (allowedTemplates config) (adaptiveLimit config) reason [] desired.
End Adaptive.

(** ** Solution assessments *)

Definition AssessmentSchemaVersion : string := "fluxseer-rca-solution-assessment-v1".
Definition SolutionSupported : string := "Supported".
Definition SolutionUnverified : string := "Unverified".

Record Candidate := mkCandidate {
  cn_ID : string;
  cn_Summary : string;
  cn_ActionType : string;
  cn_Risk : string;
  cn_BlastRadius : string;
  cn_Prerequisites : list string;
  cn_RollbackNotes : list string;
  cn_EvidenceRefs : list string;
  cn_Verification : string;
  cn_ApprovalRequired : bool;
  cn_ExecutionAuthorized : bool
}.
Record Assessment := mkAssessment {
  asm_SchemaVersion : string;
  asm_Namespace : string;
  asm_Name : string;
  asm_Candidates : list Candidate
}.

Section Assess.
Context {U : UnicodeTables}.

Definition supportedEvidenceRefs (claims : list RCAClaim) : list string :=
  dedup_first (List.filter (fun ref => ref != "") (map trim_space
    (flat_map rc_EvidenceRefs (List.filter (fun claim => equal_fold (rc_Verification claim) SolutionSupported) claims)))).

Definition normalizedResult (request : InvestigationRequest) : option RCANormalizedResult :=
  execution ← ist_Execution (ir_Status request);
  result ← rx_ProviderResult execution;
  prs_NormalizedResult result.

Definition actionSummary (normalized : RCANormalizedResult) : string :=
  let summary := trim_space (nr_ActionDescription normalized) in
  if summary == "" then trim_space (nr_ActionType normalized) else summary.

Definition Assess (request : option InvestigationRequest) : Assessment :=
  match request with
  | None => mkAssessment AssessmentSchemaVersion "" "" []
  | Some request =>
      let candidates :=
        match normalizedResult request with
        | None => []
        | Some normalized =>
            if actionSummary normalized == "" then []
            else
              let refs := supportedEvidenceRefs (ist_Claims (ir_Status request)) in
              [mkCandidate "solution-001" (actionSummary normalized) (trim_space (nr_ActionType normalized)) "Unknown" "Unknown"
                 ["human review"] (nr_RollbackPlan normalized) refs
                 (if bool_decide (refs = []) then SolutionUnverified else SolutionSupported) true false]
        end in
      mkAssessment AssessmentSchemaVersion (om_Namespace (ir_Meta request)) (om_Name (ir_Meta request)) candidates
  end.

(** Whatever the investigation found, a solution is never authorised for execution and
    always wants an approval; it is called supported exactly when a claim verified as
    supported cites evidence. *)
Theorem assessment_never_authorises (request : InvestigationRequest) c :
  c ∈ asm_Candidates (Assess (Some request)) ->
  cn_ExecutionAuthorized c = false /\ cn_ApprovalRequired c = true /\ cn_Summary c <> "" /\
  (cn_Verification c = SolutionSupported <->
   exists claim ref, claim ∈ ist_Claims (ir_Status request) /\
     equal_fold (rc_Verification claim) SolutionSupported = true /\ ref ∈ rc_EvidenceRefs claim /\ trim_space ref <> "").
Proof.
  cbn [Assess asm_Candidates]. destruct (normalizedResult request) as [n|]; [|by intros ?%elem_of_nil].
  destruct (actionSummary n == "") eqn:Hs; [by intros ?%elem_of_nil|]. apply String.eqb_neq in Hs.
  intros ->%list_elem_of_singleton. cbn. split_and!; [done..|].
  set (refs := supportedEvidenceRefs _).
  assert (refs <> [] <-> exists claim ref, claim ∈ ist_Claims (ir_Status request) /\
    equal_fold (rc_Verification claim) SolutionSupported = true /\ ref ∈ rc_EvidenceRefs claim /\ trim_space ref <> "") as <-.
  { assert (refs <> [] <-> exists x, x ∈ refs) as ->.
    { destruct refs as [|x refs]; split; [done|by intros [x ?%elem_of_nil]|exists x; apply list_elem_of_here|done]. }
    subst refs. unfold supportedEvidenceRefs. setoid_rewrite dedup_first_elem. setoid_rewrite list_filter_elem.
    setoid_rewrite list_elem_of_fmap. setoid_rewrite list_elem_of_In. setoid_rewrite in_flat_map.
    setoid_rewrite <- list_elem_of_In. setoid_rewrite list_filter_elem. setoid_rewrite negb_true_iff.
    setoid_rewrite String.eqb_neq. naive_solver. }
  case_bool_decide; split; done.
Qed.
End Assess.

(** ** What the plans and bundles promise *)

(** A plan of steps: each is of an allowed template, they are numbered from one, and there
    are no more than the limit. *)
Definition plan_ok (allowed : list string) (limit : Z) (p : AdaptivePlan) : Prop :=
  match adp_Issue p with
  | Some _ => adp_Steps p = []
  | None =>
      Z.of_nat (length (adp_Steps p)) <= limit /\
      forall i s, adp_Steps p !! i = Some s ->
        ads_QueryTemplate s ∈ allowed /\ ads_ID s = "adaptive-step-" +:+ pad 3 (Z.of_nat i + 1)
  end.

Lemma planTemplates_ok `{UnicodeTables} allowed limit reason steps desired :
  plan_ok allowed limit (mkAdaptivePlan true steps None) -> Z.of_nat (length steps) < limit ->
  plan_ok allowed limit (planTemplates allowed limit reason steps desired).
Proof.
  revert steps. induction desired as [|template desired IH]; intros steps Hs Hl; [done|]. cbn [planTemplates].
  destruct (_ == _); [by apply IH|]. destruct (mem_str _ allowed) eqn:Hm; [|done]. cbn [negb].
  apply mem_str_spec in Hm. set (step := mkAdaptiveStep _ _ _).
  assert (plan_ok allowed limit (mkAdaptivePlan true (steps ++ [step]) None)) as Hs'.
  { destruct Hs as [_ Hs]. split; cbn [adp_Steps] in *; [rewrite length_app; cbn; lia|]. intros i s.
    rewrite lookup_app_Some. intros [?|[Hi Hx]]; [by apply Hs|]. apply list_lookup_singleton_Some in Hx as [Hi0 <-].
    split; [done|]. cbn. by replace i with (length steps) by lia. }
  destruct (Z.leb_spec limit (Z.of_nat (length (steps ++ [step])))); [done|]. by apply IH.
Qed.

Theorem plan_steps_ok `{UnicodeTables} config desired reason :
  plan_ok (allowedTemplates config) (Z.max 0 (adaptiveLimit config)) (PlanSteps config desired reason) /\
  (0 < ad_MaxQueries config -> adaptiveLimit config <= ad_MaxQueries config) /\
  (0 < ad_MaxSteps config -> adaptiveLimit config <= ad_MaxSteps config).
Proof.
  split.
  - unfold PlanSteps. destruct (ad_Enabled config); [|split; [cbn; lia|by intros i s]]. cbn [negb].
    case_bool_decide; [done|]. destruct (Z.leb_spec (adaptiveLimit config) 0) as [|Hl]; [done|].
    rewrite Z.max_r by lia. apply planTemplates_ok; [|cbn; lia]. split; [cbn; lia|by intros i s].
  - unfold adaptiveLimit. destruct (Z.leb_spec (ad_MaxSteps config) 0), (Z.ltb_spec 0 (ad_MaxQueries config)),
      (Z.ltb_spec (ad_MaxQueries config) (ad_MaxSteps config)); cbn; lia.
Qed.

(** An exported bundle is of a finished request, and its identity is the digest of itself. *)
Theorem exported_identity `{DigestPrims} `{BundleJSON} request b :
  Export (Some request) = Ok b ->
  (ir_Phase request = PhaseCompleted \/ ir_Phase request = PhaseFailed) /\
  BundleDigest b = Ok (bn_Identity b) /\ with_identity "" b = bundle_of request.
Proof.
  unfold Export. destruct (_ && _) eqn:Hp; [done|]. intros (digest & Hd & [= <-])%rbind_Ok. split; [|done].
  apply andb_false_iff in Hp as [Hp|Hp]; apply negb_false_iff, String.eqb_eq in Hp; auto.
Qed.

Lemma compareField_passed out field equal :
  evl_Passed (compareField out field equal) = evl_Passed out && equal.
Proof. unfold compareField. destruct equal; [by rewrite andb_true_r|by rewrite andb_false_r]. Qed.

(** A replay passes exactly when it differs in none of the six fields. *)
Theorem compare_passes expected actual :
  let e := bn_Status expected in let a := bn_Status actual in
  evl_Passed (Compare expected actual) = true <->
  bst_Outcome e = bst_Outcome a /\ verdictOutcome (bst_Verdict e) = verdictOutcome (bst_Verdict a) /\
  verdictRootCauseType (bst_Verdict e) = verdictRootCauseType (bst_Verdict a) /\
  float_deep_eq (verdictConfidence (bst_Verdict e)) (verdictConfidence (bst_Verdict a)) = true /\
  claimSignatures (bst_Claims e) = claimSignatures (bst_Claims a) /\ bst_MissingEvidence e = bst_MissingEvidence a.
Proof.
  intros e a. unfold Compare. fold e. fold a. rewrite !compareField_passed. cbn [evl_Passed andb].
  rewrite !andb_true_iff, !bool_decide_eq_true, !String.eqb_eq. tauto.
Qed.
