(* ===== verification/Harness.v ===== *)
(** * The runtime qualification harness (internal/runtimeharness)

    Runs a scenario against a cluster: what it creates and deletes, what it reads
    of the investigation the scenario causes, and the contract the result is
    held to.  The setup of a scenario is its own program; files are written by
    an operation. *)

From Stdlib Require Import ZArith Lia.
From stdpp Require Import base list strings gmap.
From S2P Require Import Prelude GoStrings Utf8 Api InvestigationApi Digest Datasource Normalize GoJson Prog RiskRule Observation.

Definition InternalReportSchemaVersion : string := "fluxseer-test-report/v1".
Definition PublicReportSchemaVersion : string := "fluxseer-riskrule-report/v1".
Definition SuiteSchemaVersion : string := "v0.5-runtime-rca-matrix/v1".

(** ** Scenarios and environments *)

Record ExpectedRuntimeResult := mkExpected {
  xp_InvestigationPhase : string;
  xp_InvestigationOutcome : string;
  xp_RootCauseType : string;
  xp_RootCauseEntity : string;
  xp_RequiredEvidenceSources : list string;
  xp_RequiredReasons : list string;
  xp_RiskSignalExpected : bool;
  xp_RiskSignalPhase : string;
  xp_FailureReason : string;
  xp_MaxUnexpectedSideEffects : Z
}.

(** The plans and actions there are, by namespace and name, with their UIDs. *)
Record SideEffectSnapshot := mkSideEffects {
  sf_RemediationPlans : gmap string string;
  sf_AgentActions : gmap string string
}.
Record SideEffectCounts := mkSideEffectCounts { sc_RemediationPlans : Z; sc_AgentActions : Z }.

(** An object of the cluster, as far as creation and deletion go. *)
Record ClusterObject := mkClusterObject { co_Kind : string; co_Meta : ObjectMeta }.

Definition clusterObjectKey (o : ClusterObject) : string := om_Namespace (co_Meta o) +:+ "/" +:+ om_Name (co_Meta o).

Record Environment := mkEnvironment {
  env_Namespace : string;
  env_ArtifactDir : string;
  env_Timeout : duration;
  env_PollInterval : duration;
  env_PublicReport : bool;
  env_created : list ClusterObject;
  env_namespaceCreated : bool;
  env_riskRuleName : string;
  env_scenarioID : string;
  env_baseline : SideEffectSnapshot
}.

Definition NewEnvironment (namespace artifactDir : string) : Environment :=
  mkEnvironment namespace artifactDir (90 * second) (250 * 1000000) false [] false "" "" (mkSideEffects ∅ ∅).

Record RuntimeSnapshot := mkRuntimeSnapshot {
  rsn_Namespace : string;
  rsn_RiskRuleName : string;
  rsn_RiskRule : option RiskRule;
  rsn_InvestigationRequest : option InvestigationRequest;
  rsn_InvestigationRequests : list InvestigationRequest;
  rsn_RiskSignals : list RiskSignal;
  rsn_UnexpectedSideEffects : SideEffectCounts;
  rsn_PublicReport : string;
  rsn_PublicReportError : string;
  rsn_RuntimeError : string;
  rsn_InvestigationRequestCount : Z
}.

Definition zeroSnapshot (namespace rule error : string) : RuntimeSnapshot :=
  mkRuntimeSnapshot namespace rule None None [] [] (mkSideEffectCounts 0 0) "" "" error 0.

(** The scope of a list: everything, or what has the rule's label in a namespace. *)
Definition scope : Type := option (string * string).

(** How a wait ends that has not found its investigation: the deadline, or the context. *)
Inductive wait_end := DeadlinePassed | ContextDone (e : error).

Inductive harness_op : Type -> Type :=
| WNow : harness_op time
| WGetNamespace (name : string) : harness_op (option error)
| WCreate (o : ClusterObject) : harness_op (option error)
| WDelete (o : ClusterObject) : harness_op (option error)
| WListActions (s : scope) : harness_op (result (list ObjectMeta))
| WListPlans (s : scope) : harness_op (result (list ObjectMeta))
| WListSignals : harness_op (result (list RiskSignal))
| WListRequests (namespace rule : string) : harness_op (result (list InvestigationRequest))
| WGetRule (namespace name : string) : harness_op (result RiskRule)
(** How many ticks of the ticker are taken before the wait ends. *)
| WTicks (timeout poll : duration) : harness_op nat
| WWaitEnd : harness_op wait_end
| WPublicReport (rule : string) : harness_op (result string)
| WWriteArtifacts (scenarioID : string) (s : RuntimeSnapshot) : harness_op (option error)
| WWriteReport : harness_op (option error).

Abbreviation harness_prog := (prog harness_op).

Definition hread {A B} (op : harness_op (result A)) (what : string) (k : A -> harness_prog (result B)) : harness_prog (result B) :=
  got <~! op;
  match got with Ok a => k a | Err e => Ret (Err (wrapf what e)) end.

(** [Setup] may create objects and register the rule. *)
Record RuntimeScenario := mkScenario {
  scn_ID : string;
  scn_Name : string;
  scn_Setup : option (Environment -> harness_prog (Environment * option error));
  scn_Expected : ExpectedRuntimeResult;
  scn_Public : bool
}.

(** ** Side effects *)

Definition newObjectsSince (before after : gmap string string) : Z :=
  Z.of_nat (length (List.filter (fun kv => negb (bool_decide (before !! kv.1 = Some kv.2))) (map_to_list after))).

Definition unexpectedSince (after before : SideEffectSnapshot) : SideEffectCounts :=
  mkSideEffectCounts (newObjectsSince (sf_RemediationPlans before) (sf_RemediationPlans after))
    (newObjectsSince (sf_AgentActions before) (sf_AgentActions after)).

Definition metaKey (m : ObjectMeta) : string := om_Namespace m +:+ "/" +:+ om_Name m.

(** Later objects of a list overwrite earlier ones of the same key. *)
Definition uids (items : list ObjectMeta) : gmap string string :=
  fold_left (fun m o => <[metaKey o := om_UID o]> m) items ∅.

Definition captureSideEffects : harness_prog (result SideEffectSnapshot) :=
  hread (WListPlans None) "list RemediationPlans" (fun plans =>
  hread (WListActions None) "list AgentActions" (fun actions =>
  Ret (Ok (mkSideEffects (uids plans) (uids actions))))).

(** ** The environment of a scenario *)

Definition begun (e : Environment) (scenarioID : string) (baseline : SideEffectSnapshot) : Environment :=
  mkEnvironment (env_Namespace e) (env_ArtifactDir e) (env_Timeout e) (env_PollInterval e) (env_PublicReport e)
    [] false "" scenarioID baseline.

Definition with_created (e : Environment) (o : ClusterObject) (namespaceCreated : bool) (rule : string) : Environment :=
  mkEnvironment (env_Namespace e) (env_ArtifactDir e) (env_Timeout e) (env_PollInterval e) (env_PublicReport e)
    (env_created e ++ [o]) namespaceCreated rule (env_scenarioID e) (env_baseline e).

Section Harness.
Context {U : UnicodeTables} {V : ValueText}.

Definition beginScenario (e : Environment) (s : RuntimeScenario) : harness_prog (result Environment) :=
  if (trim_space (scn_ID s) == "") || (trim_space (scn_Name s) == "") then
    Ret (Err (errorf "runtime scenario requires a non-empty ID and name"))
  else if match scn_Setup s with None => true | Some _ => false end then
    Ret (Err (errorf ("runtime scenario " +:+ quote (scn_ID s) +:+ " requires setup")))
  else if (xp_RootCauseType (scn_Expected s) != "") && (xp_RootCauseEntity (scn_Expected s) == "") then
    Ret (Err (errorf ("runtime scenario " +:+ quote (scn_ID s)
      +:+ " requires an exact root cause entity when root cause type is set")))
  else if env_Namespace e == "" then
    Ret (Err (errorf ("runtime scenario " +:+ quote (scn_ID s) +:+ " requires an environment namespace")))
  else
    baseline <~ captureSideEffects;
    Ret (match baseline with
         | Ok baseline => Ok (begun e (scn_ID s) baseline)
         | Err err => Err (wrapf "capture baseline side effects" err)
         end).

Definition namespaceObject (name : string) : ClusterObject :=
  mkClusterObject "Namespace" (mkObjectMeta name "" "" "" 0 ∅ ∅ []).

Definition EnsureNamespace (e : Environment) : harness_prog (Environment * option error) :=
  got <~! WGetNamespace (env_Namespace e);
  match got with
  | None => Ret (e, None)
  | Some err =>
      if negb (is_not_found err) then Ret (e, Some (wrapf ("get namespace " +:+ quote (env_Namespace e)) err))
      else
        created <~! WCreate (namespaceObject (env_Namespace e));
        Ret (match created with
             | Some err => (e, Some (wrapf ("create namespace " +:+ quote (env_Namespace e)) err))
             | None => (with_created e (namespaceObject (env_Namespace e)) true (env_riskRuleName e), None)
             end)
  end.

(** [Create], for setups. *)
Definition CreateFixture (e : Environment) (o : option ClusterObject) : harness_prog (Environment * option error) :=
  match o with
  | None => Ret (e, Some (errorf "cannot create a nil runtime fixture"))
  | Some o =>
      err <~! WCreate o;
      Ret (match err with
           | Some err => (e, Some err)
           | None => (with_created e o (env_namespaceCreated e)
                        (if co_Kind o == "RiskRule" then om_Name (co_Meta o) else env_riskRuleName e), None)
           end)
  end.

(** *** Waiting *)

Definition isTerminalInvestigation (phase : string) : bool := (phase == PhaseCompleted) || (phase == PhaseFailed).

Definition requestNewer (a b : InvestigationRequest) : bool :=
  if ir_CreationTimestamp a =? ir_CreationTimestamp b then str_ltb (om_Name (ir_Meta b)) (om_Name (ir_Meta a))
  else time_after (ir_CreationTimestamp a) (ir_CreationTimestamp b).

Definition latestInvestigation (e : Environment) : harness_prog (result (option InvestigationRequest)) :=
  hread (WListRequests (env_Namespace e) (env_riskRuleName e))
    ("list InvestigationRequests for RiskRule " +:+ env_Namespace e +:+ "/" +:+ env_riskRuleName e)
    (fun items => Ret (Ok (head (sort_stable requestNewer items)))).

Definition timedOut (e : Environment) (ended : wait_end) : error :=
  match ended with
  | ContextDone err => err
  | DeadlinePassed => errorf ("timed out waiting for InvestigationRequest for RiskRule "
                        +:+ env_Namespace e +:+ "/" +:+ env_riskRuleName e)
  end.

(** The loop: it looks once, and once more after each tick that is taken. *)
Fixpoint waitLoop (e : Environment) (ticks : nat) : harness_prog (result InvestigationRequest) :=
  found <~ latestInvestigation e;
  match found with
  | Err err => Ret (Err err)
  | Ok found =>
      match List.filter (fun request => isTerminalInvestigation (ir_Phase request)) (option_list found) with
      | request :: _ => Ret (Ok request)
      | [] =>
          match ticks with
          | S ticks => waitLoop e ticks
          | O => ended <~! WWaitEnd; Ret (Err (timedOut e ended))
          end
      end
  end.

Definition or_default (d fallback : duration) : duration := if d <=? 0 then fallback else d.

Definition waitForInvestigation (e : Environment) : harness_prog (result InvestigationRequest) :=
  if env_riskRuleName e == "" then Ret (Err (errorf "scenario setup did not register a RiskRule"))
  else
    ticks <~! WTicks (or_default (env_Timeout e) (90 * second)) (or_default (env_PollInterval e) (250 * 1000000));
    waitLoop e ticks.

(** *** Collecting *)

Definition linkedTo (request : InvestigationRequest) (signal : RiskSignal) : bool :=
  match ist_LinkedRiskSignalRef (ir_Status request) with
  | Some ref => (nor_Namespace ref == om_Namespace (rsk_Meta signal)) && (nor_Name ref == om_Name (rsk_Meta signal))
  | None => false
  end.

Definition ofScenario (e : Environment) (request : InvestigationRequest) (signal : RiskSignal) : bool :=
  (map_get (om_Labels (rsk_Meta signal)) labelRiskRule == env_riskRuleName e) || linkedTo request signal.

Definition collectSnapshot (e : Environment) (request : InvestigationRequest) : harness_prog (result RuntimeSnapshot) :=
  hread WListSignals "list RiskSignals" (fun signals =>
  hread (WListRequests (env_Namespace e) (env_riskRuleName e)) "list InvestigationRequests" (fun requests =>
  hread (WGetRule (env_Namespace e) (env_riskRuleName e))
    ("get RiskRule " +:+ env_Namespace e +:+ "/" +:+ env_riskRuleName e) (fun rule =>
  after <~ captureSideEffects;
  Ret (after <-! after;
       Ok (mkRuntimeSnapshot (env_Namespace e) (env_riskRuleName e) (Some rule) (Some request) requests
             (List.filter (ofScenario e request) signals) (unexpectedSince after (env_baseline e)) "" "" ""
             (Z.of_nat (length requests))))))).

Definition collectWithoutRequest (e : Environment) (runtimeErr : error) : harness_prog (result RuntimeSnapshot) :=
  after <~ captureSideEffects;
  Ret (after <-! after;
       Ok (mkRuntimeSnapshot (env_Namespace e) (env_riskRuleName e) None None [] []
             (unexpectedSince after (env_baseline e)) "" "" (err_msg runtimeErr) 0)).

(** *** Cleanup *)

Definition object (kind : string) (m : ObjectMeta) : ClusterObject := mkClusterObject kind m.

(** Deletes the objects in order; an object that is gone already is no error.  (The kind in
    the text is the one of the object's own metadata, which a list may leave blank.) *)
Fixpoint deleteList (objects : list ClusterObject) (errs : list string) : harness_prog (list string) :=
  match objects with
  | [] => Ret errs
  | o :: objects =>
      err <~! WDelete o;
      deleteList objects
        (match err with
         | Some err => if is_not_found err then errs
                       else errs ++ [co_Kind o +:+ " " +:+ clusterObjectKey o +:+ ": " +:+ err_msg err]
         | None => errs
         end)
  end.

(** Lists, and deletes those of the list that are to go. *)
Definition deleteListed {A} (op : harness_op (result (list A))) (what kind : string) (meta : A -> ObjectMeta)
    (goes : A -> bool) (errs : list string) : harness_prog (list string) :=
  got <~! op;
  match got with
  | Ok items => deleteList (map (fun a => object kind (meta a)) (List.filter goes items)) errs
  | Err err => Ret (errs ++ [what +:+ ": " +:+ err_msg err])
  end.

Definition notInBaseline (baseline : gmap string string) (m : ObjectMeta) : bool := bool_decide (baseline !! metaKey m = None).

Definition deleteGenerated (e : Environment) : harness_prog (list string) :=
  let labelled := Some (env_Namespace e, env_riskRuleName e) in
  if env_riskRuleName e == "" then Ret []
  else
    errs <~ deleteListed (WListActions None) "list all AgentActions" "AgentAction" id (notInBaseline (sf_AgentActions (env_baseline e))) [];
    errs <~ deleteListed (WListPlans None) "list all RemediationPlans" "RemediationPlan" id
              (notInBaseline (sf_RemediationPlans (env_baseline e))) errs;
    errs <~ deleteListed (WListActions labelled) "list AgentActions" "AgentAction" id (fun _ => true) errs;
    errs <~ deleteListed (WListPlans labelled) "list RemediationPlans" "RemediationPlan" id (fun _ => true) errs;
    errs <~ deleteListed WListSignals "list RiskSignals" "RiskSignal" rsk_Meta
              (fun s => map_get (om_Labels (rsk_Meta s)) labelRiskRule == env_riskRuleName e) errs;
    deleteListed (WListRequests (env_Namespace e) (env_riskRuleName e)) "list InvestigationRequests" "InvestigationRequest"
      ir_Meta (fun _ => true) errs.

(** The generated objects, then those the setup created, the last first. *)
Definition Cleanup (e : Environment) : harness_prog (option error) :=
  errs <~ deleteGenerated e;
  errs <~ deleteList (rev (env_created e)) errs;
  Ret (match errs with [] => None | _ => Some (errorf (join "; " errs)) end).

(** ** The contract *)

(** The values of assertions and differences. *)
Inductive reportedValue :=
| VStr (s : string)
| VInt (z : Z)
| VBool (b : bool)
| VStrs (l : list string)
| VMissing (values missing : list string)
| VRef (ref : NamespacedObjectReference)
| VSignals (signals : list RiskSignal).

Record Assertion := mkAssertion { asr_ID : string; asr_Result : string; asr_Expected : reportedValue; asr_Actual : reportedValue }.
Record Difference := mkDifference { dif_Path : string; dif_Expected : reportedValue; dif_Actual : reportedValue }.

Definition passedAssertion (id : string) (expected actual : reportedValue) : Assertion := mkAssertion id "PASS" expected actual.
Definition failedAssertion (id : string) (expected actual : reportedValue) : Assertion := mkAssertion id "FAIL" expected actual.

(** What a check appends: an assertion, and a difference when it fails. *)
Definition finding : Type := Assertion * option Difference.

Definition passed (id : string) (expected actual : reportedValue) : finding := (passedAssertion id expected actual, None).
Definition failed (id : string) (expected actual : reportedValue) (d : Difference) : finding :=
  (failedAssertion id expected actual, Some d).

(** [fmt.Sprint] of both is the same: of two strings, or of two integers. *)
Definition assertEqual (id : string) (want got : reportedValue) : finding :=
  if match want, got with
     | VStr a, VStr b => a == b
     | VInt a, VInt b => a =? b
     | _, _ => false
     end
  then passed id want got else failed id want got (mkDifference id want got).

Definition missingValues (required actual : list string) : list string :=
  List.filter (fun value => negb (mem_str value actual)) required.

Definition assertSubset (id : string) (required actual : list string) : finding :=
  match missingValues required actual with
  | [] => passed id (VStrs required) (VStrs actual)
  | missing => failed id (VStrs required) (VStrs actual) (mkDifference id (VStrs required) (VMissing actual missing))
  end.

Definition evidenceSources (request : InvestigationRequest) : list string :=
  sorted_set (List.filter (fun s => s != "") (map er_Source (ist_EvidenceRefs (ir_Status request)))).

Definition evidenceReasons (request : InvestigationRequest) : list string :=
  let st := ir_Status request in
  sorted_set (List.filter (fun s => s != "")
    (map er_Reason (ist_EvidenceRefs st) ++ map cond_Reason (ist_Conditions st)
     ++ match ist_Failure st with Some f => [if_Code f] | None => [] end
     ++ match ist_Degradation st with Some d => map dr_Code (dg_Reasons d) | None => [] end)).

Definition failureReason (request : InvestigationRequest) : string :=
  match ist_Failure (ir_Status request) with Some f => if_Code f | None => "" end.

Definition TargetIdentity (t : TargetRef) : string :=
  if (tr_Kind t == "") && (tr_Name t == "") && (tr_Namespace t == "") && (tr_APIVersion t == "") then ""
  else tr_APIVersion t +:+ "/" +:+ tr_Kind t +:+ "/" +:+ tr_Namespace t +:+ "/" +:+ tr_Name t.

Definition signalPhase (s : RiskSignal) : string := rs_Phase (rst_ResourceStatus (rsk_Status s)).
Definition riskSignalPhases (signals : list RiskSignal) : list string := sorted_set (map signalPhase signals).

Definition hasRiskSignal (signals : list RiskSignal) (ref : NamespacedObjectReference) : bool :=
  existsb (fun s => (om_Namespace (rsk_Meta s) == nor_Namespace ref) && (om_Name (rsk_Meta s) == nor_Name ref)) signals.

Definition verdictType (request : option InvestigationRequest) : string :=
  match request ≫= (fun r => ist_Verdict (ir_Status r)) with Some v => vd_RootCauseType v | None => "" end.
Definition verdictEntity (request : option InvestigationRequest) : string :=
  match request ≫= (fun r => ist_Verdict (ir_Status r)) with Some v => TargetIdentity (vd_RootCauseEntity v) | None => "" end.
Definition of_request {A} (zero : A) (f : InvestigationRequest -> A) (s : RuntimeSnapshot) : A :=
  match rsn_InvestigationRequest s with Some r => f r | None => zero end.

Definition causeCount (signals : list RiskSignal) : Z :=
  fold_left (fun n s => n + Z.of_nat (length (rst_RCACauses (rsk_Status s)))) signals 0.

Definition rootCauseFindings (expected : ExpectedRuntimeResult) (s : RuntimeSnapshot) : list finding :=
  let request := rsn_InvestigationRequest s in
  if xp_RootCauseType expected == "" then
    [assertEqual "invariant.no-fabricated-root-cause.type" (VStr "") (VStr (verdictType request));
     assertEqual "invariant.no-fabricated-root-cause.entity" (VStr "") (VStr (verdictEntity request));
     assertEqual "invariant.no-fabricated-root-cause.riskSignalCauses" (VInt 0) (VInt (causeCount (rsn_RiskSignals s)))]
  else
    [assertEqual "rootCause.type" (VStr (xp_RootCauseType expected)) (VStr (verdictType request));
     assertEqual "rootCause.entity" (VStr (xp_RootCauseEntity expected)) (VStr (verdictEntity request))].

Definition riskSignalFindings (expected : ExpectedRuntimeResult) (s : RuntimeSnapshot) : list finding :=
  let signals := rsn_RiskSignals s in
  if xp_RiskSignalExpected expected then
    match signals with
    | [] => [failed "riskSignal.expected" (VBool true) (VBool false) (mkDifference "riskSignal" (VStr "present") (VStr "absent"))]
    | _ =>
        [passed "riskSignal.expected" (VBool true) (VBool true)] ++
        (if xp_RiskSignalPhase expected == "" then []
         else [assertSubset "riskSignal.phases" [xp_RiskSignalPhase expected] (riskSignalPhases signals)]) ++
        match rsn_InvestigationRequest s ≫= (fun r => ist_LinkedRiskSignalRef (ir_Status r)) with
        | Some ref =>
            if hasRiskSignal signals ref
            then [passed "riskSignal.projection" (VStr "linked or direct public signal") (VStr "linked or direct public signal")]
            else [failed "riskSignal.projection" (VStr "linked signal present") (VStr "linked signal absent")
                    (mkDifference "riskSignal.projection" (VRef ref) (VSignals signals))]
        | None => [passed "riskSignal.projection" (VStr "linked or direct public signal") (VStr "linked or direct public signal")]
        end
    end
  else [assertEqual "riskSignal.expected" (VInt 0) (VInt (Z.of_nat (length signals)))].

Definition evaluateContract (expected : ExpectedRuntimeResult) (s : RuntimeSnapshot) : list finding :=
  [assertEqual "investigation.phase" (VStr (xp_InvestigationPhase expected)) (VStr (of_request "" ir_Phase s));
   assertEqual "investigation.outcome" (VStr (xp_InvestigationOutcome expected)) (VStr (of_request "" ir_Outcome s));
   assertEqual "investigation.failureReason" (VStr (xp_FailureReason expected)) (VStr (of_request "" failureReason s))] ++
  rootCauseFindings expected s ++
  [assertSubset "evidence.sources" (xp_RequiredEvidenceSources expected) (of_request [] evidenceSources s);
   assertSubset "evidence.reasons" (xp_RequiredReasons expected) (of_request [] evidenceReasons s)] ++
  riskSignalFindings expected s ++
  (let limit := VInt (xp_MaxUnexpectedSideEffects expected) in
   let unexpected := sc_RemediationPlans (rsn_UnexpectedSideEffects s) + sc_AgentActions (rsn_UnexpectedSideEffects s) in
   if unexpected <=? xp_MaxUnexpectedSideEffects expected
   then [passed "invariant.no-unauthorized-remediation-side-effect" limit (VInt unexpected)]
   else [failed "invariant.no-unauthorized-remediation-side-effect" limit (VInt unexpected)
           (mkDifference "sideEffects.unexpected" limit (VInt unexpected))]) ++
  (if rsn_RuntimeError s == "" then [passed "runtime.execution" (VStr "completed") (VStr "completed")]
   else [failed "runtime.execution" (VStr "completed") (VStr (rsn_RuntimeError s))
           (mkDifference "runtime.execution" (VStr "completed") (VStr (rsn_RuntimeError s)))]).

(** *** The public report *)

(** The entry a map has for a key: the last of the text. *)
Definition last_member (key : string) (fields : list (string * jvalue)) : option jvalue :=
  find_first (fun f => if f.1 == key then Some f.2 else None) (rev fields).

Definition internalFields : list string := ["expected"; "actual"; "assertions"; "differences"; "sideEffects"; "runtimeError"].

(** Members that a later one overwrites are not looked into. *)
Fixpoint containsInternalReportField (v : jvalue) : bool :=
  match v with
  | JvObject fields =>
      (fix go (fields : list (string * jvalue)) : bool :=
         match fields with
         | [] => false
         | (key, child) :: fields =>
             mem_str key internalFields ||
             (negb (existsb (fun f => f.1 == key) fields) && containsInternalReportField child) || go fields
         end) fields
  | JvArray items =>
      (fix go (items : list jvalue) : bool :=
         match items with [] => false | v :: items => containsInternalReportField v || go items end) items
  | _ => false
  end.

Definition is_string (v : option jvalue) (s : string) : bool := match v with Some (JvString t) => t == s | _ => false end.

(** [fmt] of the value of a member. *)
Definition member_text (v : option jvalue) : string :=
  match v ≫= read_any with Some a => sprint a | None => "<nil>" end.

Definition validatePublicReport (s : RuntimeSnapshot) (decode_error : string) : option error :=
  match parse_json (rsn_PublicReport s) with
  | None => Some (errorf ("decode public report: " +:+ decode_error))
  | Some v =>
      match (match v with
             | JvNull => Some []
             | JvObject fields => match read_any v with Some _ => Some fields | None => None end
             | _ => None
             end) with
      | None => Some (errorf ("decode public report: " +:+ decode_error))
      | Some fields =>
          if negb (is_string (last_member "schemaVersion" fields) PublicReportSchemaVersion) then
            Some (errorf ("expected schemaVersion " +:+ quote PublicReportSchemaVersion +:+ ", got "
              +:+ member_text (last_member "schemaVersion" fields)))
          else match last_member "selection" fields with
          | Some (JvObject selection) =>
              if negb (is_string (last_member "namespace" selection) (rsn_Namespace s)) ||
                 negb (is_string (last_member "riskRule" selection) (rsn_RiskRuleName s)) then
                Some (errorf ("public report selection does not match " +:+ rsn_Namespace s +:+ "/" +:+ rsn_RiskRuleName s))
              else match last_member "riskRule" fields with
              | None => Some (errorf "public report RiskRule is missing")
              | Some _ =>
                  match last_member "investigationRequests" fields, last_member "riskSignals" fields with
                  | Some (JvArray _), Some (JvArray _) =>
                      if containsInternalReportField (JvObject fields)
                      then Some (errorf "public report contains internal validation fields") else None
                  | Some (JvArray _), _ => Some (errorf "public report riskSignals must be an array")
                  | _, _ => Some (errorf "public report investigationRequests must be an array")
                  end
              end
          | _ => Some (errorf "public report selection is missing")
          end
      end
  end.

(** ** A scenario *)

Record ScenarioResult := mkScenarioResult {
  scr_ID : string;
  scr_Name : string;
  scr_Result : string;
  scr_Expected : ExpectedRuntimeResult;
  scr_Actual : option RuntimeSnapshot;
  scr_Findings : list finding;
  scr_Artifacts : list string
}.

Definition differences (findings : list finding) : list Difference := omap snd findings.

(** A step of the run that went wrong: [path], the assertion and the difference. *)
Definition wentWrong (id path expected : string) (actual : string) : finding :=
  failed id (VStr expected) (VStr actual) (mkDifference path (VStr expected) (VStr actual)).

Definition publicReportFindings (e : Environment) (s : RuntimeSnapshot) (public : bool) (decode_error : string)
    : harness_prog (RuntimeSnapshot * list finding) :=
  if negb public then Ret (s, [])
  else if negb (env_PublicReport e) then
    Ret (s, [failed "public-report.generator" (VStr "configured") (VStr "not configured")
               (mkDifference "publicReport" (VStr "configured generator") (VStr "not configured"))])
  else
    got <~! WPublicReport (env_riskRuleName e);
    Ret (match got with
         | Err err =>
             (s <| rsn_PublicReportError := err_msg err |>,
              [wentWrong "public-report.generator" "publicReport" "generated" (err_msg err)])
         | Ok report =>
             let s := s <| rsn_PublicReport := report |> in
             (s, [match validatePublicReport s decode_error with
                  | Some err => failed "public-report.contract" (VStr "valid public report") (VStr (err_msg err))
                                  (mkDifference "publicReport" (VStr PublicReportSchemaVersion) (VStr (err_msg err)))
                  | None => passed "public-report.contract" (VStr PublicReportSchemaVersion) (VStr PublicReportSchemaVersion)
                  end])
         end).

Definition scenarioArtifactPaths (id : string) (public : bool) : list string :=
  ["internal/scenarios/" +:+ id +:+ "/snapshot.json"] ++
  (if public then ["user-facing/scenarios/" +:+ id +:+ "/report.json"] else []).

Definition artifactFindings (e : Environment) (s : RuntimeScenario) (snapshot : RuntimeSnapshot)
    : harness_prog (list finding * list string) :=
  if env_ArtifactDir e == "" then Ret ([], [])
  else
    err <~! WWriteArtifacts (scn_ID s) snapshot;
    Ret (match err with
         | Some err => ([wentWrong "artifacts.write" "artifacts" "written" (err_msg err)], [])
         | None => ([], scenarioArtifactPaths (scn_ID s) (scn_Public s))
         end).

Definition scenarioResult (s : RuntimeScenario) (actual : option RuntimeSnapshot) (findings : list finding)
    (artifacts : list string) : ScenarioResult :=
  mkScenarioResult (scn_ID s) (scn_Name s)
    (if bool_decide (differences findings = []) then "PASS" else "FAIL") (scn_Expected s) actual findings artifacts.

(** The snapshot of whatever came of the wait. *)
Definition takeSnapshot (e : Environment) : harness_prog RuntimeSnapshot :=
  waited <~ waitForInvestigation e;
  match waited with
  | Ok request =>
      snapshot <~ collectSnapshot e request;
      Ret (match snapshot with
           | Ok snapshot => snapshot
           | Err err => mkRuntimeSnapshot (env_Namespace e) (env_riskRuleName e) None (Some request) [request] []
                          (mkSideEffectCounts 0 0) "" "" (err_msg err) 0
           end)
  | Err waitErr =>
      snapshot <~ collectWithoutRequest e waitErr;
      Ret (match snapshot with
           | Ok snapshot => snapshot
           | Err err => zeroSnapshot (env_Namespace e) (env_riskRuleName e)
                          (err_msg waitErr +:+ "; collect runtime state: " +:+ err_msg err)
           end)
  end.

(** What runs before the deferred cleanup. *)
Definition scenarioBody (e : Environment) (s : RuntimeScenario) (setup : Environment -> harness_prog (Environment * option error))
    (decode_error : string) : harness_prog (Environment * ScenarioResult) :=
  '(e, err) <~ EnsureNamespace e;
  match err with
  | Some err =>
      Ret (e, scenarioResult s None
                [wentWrong "orchestration.namespace" "orchestration.namespace" "created or already exists" (err_msg err)] [])
  | None =>
      '(e, err) <~ setup e;
      match err with
      | Some err =>
          Ret (e, scenarioResult s None [wentWrong "orchestration.setup" "orchestration.setup" "setup succeeds" (err_msg err)] [])
      | None =>
          snapshot <~ takeSnapshot e;
          '(snapshot, public) <~ publicReportFindings e snapshot (scn_Public s) decode_error;
          '(written, artifacts) <~ artifactFindings e s snapshot;
          Ret (e, scenarioResult s (Some snapshot) (evaluateContract (scn_Expected s) snapshot ++ public ++ written) artifacts)
      end
  end.

Definition runScenario (e : Environment) (s : RuntimeScenario) (decode_error : string)
    : harness_prog (Environment * ScenarioResult) :=
  begin <~ beginScenario e s;
  match begin, scn_Setup s with
  | Err err, _ => Ret (e, scenarioResult s None [wentWrong "scenario.setup" "scenario.setup" "runnable" (err_msg err)] [])
  | Ok e, None => Ret (e, scenarioResult s None [] [])
  | Ok e, Some setup =>
      '(e, r) <~ scenarioBody e s setup decode_error;
      err <~ Cleanup e;
      Ret (e, match err with
              | Some err => scenarioResult s (scr_Actual r)
                              (scr_Findings r ++ [wentWrong "cleanup" "cleanup" "no cleanup error" (err_msg err)]) (scr_Artifacts r)
              | None => r
              end)
  end.

(** *** A suite *)

Record ReportSummary := mkReportSummary { rsm_Result : string; rsm_Total : Z; rsm_Passed : Z; rsm_Failed : Z }.

Definition summarize (scenarios : list ScenarioResult) : ReportSummary :=
  let passed := Z.of_nat (length (List.filter (fun r => scr_Result r == "PASS") scenarios)) in
  let total := Z.of_nat (length scenarios) in
  mkReportSummary (if 0 <? total - passed then "FAIL" else "PASS") total passed (total - passed).

Fixpoint runScenarios (e : Environment) (scenarios : list RuntimeScenario) (decode_error : string)
    : harness_prog (list ScenarioResult) :=
  match scenarios with
  | [] => Ret []
  | s :: scenarios =>
      '(e, r) <~ runScenario e s decode_error;
      rs <~ runScenarios e scenarios decode_error;
      Ret (r :: rs)
  end.

Record SuiteRun := mkSuiteRun {
  sr_SuiteID : string;
  sr_SuiteName : string;
  sr_RunID : string;
  sr_SourceCommit : string;
  sr_Summary : ReportSummary;
  sr_Scenarios : list ScenarioResult
}.

Definition or_text (s fallback : string) : string := if s == "" then fallback else s.

(** [format]: [20060102T150405Z] of the time. *)
Definition RunSuite (e : Environment) (suiteID suiteName runID sourceCommit decode_error : string) (format : time -> string)
    (scenarios : list RuntimeScenario) : harness_prog (SuiteRun * option error) :=
  runID <~ (if runID == "" then now <~! WNow; Ret (format now) else Ret runID);
  rs <~ runScenarios e scenarios decode_error;
  let run := mkSuiteRun (or_text suiteID "runtime-rca-conformance") (or_text suiteName "Runtime RCA Conformance") runID
               (or_text sourceCommit "unknown") (summarize rs) rs in
  if env_ArtifactDir e == "" then Ret (run, None)
  else err <~! WWriteReport; Ret (run, err).

(** ** Cleanup is confined *)

(** An object that a cleanup may delete: one the setup created; an action or a plan that was not
    there before the scenario; or one that was listed with the rule's label (a request and
    a labelled action or plan in the namespace of the scenario). *)
Inductive deletable (e : Environment) (log : list (event harness_op)) : ClusterObject -> Prop :=
| del_created o : o ∈ env_created e -> deletable e log o
| del_new_action m items :
    Ev (WListActions None) (Ok items) ∈ log -> m ∈ items -> sf_AgentActions (env_baseline e) !! metaKey m = None ->
    deletable e log (object "AgentAction" m)
| del_new_plan m items :
    Ev (WListPlans None) (Ok items) ∈ log -> m ∈ items -> sf_RemediationPlans (env_baseline e) !! metaKey m = None ->
    deletable e log (object "RemediationPlan" m)
| del_rule_action m items :
    Ev (WListActions (Some (env_Namespace e, env_riskRuleName e))) (Ok items) ∈ log -> m ∈ items ->
    deletable e log (object "AgentAction" m)
| del_rule_plan m items :
    Ev (WListPlans (Some (env_Namespace e, env_riskRuleName e))) (Ok items) ∈ log -> m ∈ items ->
    deletable e log (object "RemediationPlan" m)
| del_rule_signal s items :
    Ev WListSignals (Ok items) ∈ log -> s ∈ items -> map_get (om_Labels (rsk_Meta s)) labelRiskRule = env_riskRuleName e ->
    deletable e log (object "RiskSignal" (rsk_Meta s))
| del_rule_request r items :
    Ev (WListRequests (env_Namespace e) (env_riskRuleName e)) (Ok items) ∈ log -> r ∈ items ->
    deletable e log (object "InvestigationRequest" (ir_Meta r)).

Definition deletes_confined (e : Environment) (before : list (event harness_op)) (ev : event harness_op) : Prop :=
  match ev with Ev (WDelete o) _ => deletable e before o | _ => True end.

Lemma deletable_continues e log log' o : continues log log' -> deletable e log o -> deletable e log' o.
Proof.
  intros Hc [o' H|m items H H1 H2|m items H H1 H2|m items H H1|m items H H1|s items H H1 H2|r items H H1];
    try apply (continues_elem _ _ _ Hc) in H;
    [by apply del_created|by eapply del_new_action|by eapply del_new_plan|by eapply del_rule_action|by eapply del_rule_plan
    |by eapply del_rule_signal|by eapply del_rule_request].
Qed.

Lemma deleteList_ok e objects errs log :
  all_justified (deletes_confined e) log -> Forall (deletable e log) objects ->
  wp log_env (all_justified (deletes_confined e)) (deleteList objects errs) log (fun _ _ => True).
Proof.
  revert errs log. induction objects as [|o objects IH]; intros errs log Hl Ho; [by apply wp_ret|].
  apply Forall_cons in Ho as [Ho Hos]. cbn [deleteList]. apply wp_event; [done|done|]. intros err Hl'.
  apply IH; [done|]. eapply Forall_impl; [exact Hos|]. intros o'. apply deletable_continues, continues_snoc.
Qed.

Lemma deleteListed_ok {A} e (op : harness_op (result (list A))) what kind meta goes errs log :
  (forall before x, deletes_confined e before (Ev op x)) ->
  (forall log items a, Ev op (Ok items) ∈ log -> a ∈ items -> goes a = true -> deletable e log (object kind (meta a))) ->
  all_justified (deletes_confined e) log ->
  wp log_env (all_justified (deletes_confined e)) (deleteListed op what kind meta goes errs) log (fun _ _ => True).
Proof.
  intros Hop Hd Hl. unfold deleteListed. apply wp_event; [done|by intros x; apply Hop|]. intros got Hl'.
  destruct got as [items|err]; [|by apply wp_ret]. apply deleteList_ok; [done|]. apply Forall_forall.
  intros o (a & -> & Ha)%list_elem_of_fmap. apply list_filter_elem in Ha as [Ha Hg]. eapply Hd; [apply snoc_elem|done|done].
Qed.

Lemma confined_then {R S} e (p : harness_prog R) (f : R -> harness_prog S) log Q :
  wp log_env (all_justified (deletes_confined e)) p log (fun _ _ => True) ->
  (forall r log', all_justified (deletes_confined e) log' -> wp log_env (all_justified (deletes_confined e)) (f r) log' Q) ->
  wp log_env (all_justified (deletes_confined e)) (pbind p f) log Q.
Proof. intros Hp Hf. apply wp_bind. eapply wp_mono; [|exact Hp]. intros r log' Hl _. by apply Hf. Qed.

Lemma deleteGenerated_ok e log :
  all_justified (deletes_confined e) log ->
  wp log_env (all_justified (deletes_confined e)) (deleteGenerated e) log (fun _ _ => True).
Proof.
  intros Hl. unfold deleteGenerated. destruct (env_riskRuleName e == ""); [by apply wp_ret|].
  apply confined_then; [apply deleteListed_ok; [done| |done]|intros errs1 log1 Hl1].
  { intros log' items m Hi Hm ?%bool_decide_eq_true_1. by eapply del_new_action. }
  apply confined_then; [apply deleteListed_ok; [done| |done]|intros errs2 log2 Hl2].
  { intros log' items m Hi Hm ?%bool_decide_eq_true_1. by eapply del_new_plan. }
  apply confined_then; [apply deleteListed_ok; [done| |done]|intros errs3 log3 Hl3].
  { intros log' items m Hi Hm _. by eapply del_rule_action. }
  apply confined_then; [apply deleteListed_ok; [done| |done]|intros errs4 log4 Hl4].
  { intros log' items m Hi Hm _. by eapply del_rule_plan. }
  apply confined_then; [apply deleteListed_ok; [done| |done]|intros errs5 log5 Hl5].
  { intros log' items s Hi Hm ?%String.eqb_eq. by eapply del_rule_signal. }
  apply deleteListed_ok; [done| |done]. intros log' items r Hi Hm _. by eapply del_rule_request.
Qed.

(** Every object a cleanup deletes is [deletable], whatever the API server answers. *)
Theorem cleanup_confined e o log :
  logged (Cleanup e) o log -> all_justified (deletes_confined e) log.
Proof.
  apply logged_justified. unfold Cleanup. apply confined_then; [apply deleteGenerated_ok, all_justified_nil|].
  intros errs log1 Hl1. apply confined_then.
  - apply deleteList_ok; [done|]. apply Forall_forall. intros x Hx. apply del_created. by apply list_elem_of_In, in_rev, list_elem_of_In.
  - intros errs' log2 Hl2. by apply wp_ret.
Qed.

(** ** The contract, exactly *)

Definition met (l : list finding) : Prop := differences l = [].

Lemma met_app l1 l2 : met (l1 ++ l2) <-> met l1 /\ met l2.
Proof. unfold met, differences. rewrite omap_app. split; [by intros [? ?]%app_eq_nil|by intros [-> ->]]. Qed.

Lemma met_cons f l : met (f :: l) <-> f.2 = None /\ met l.
Proof. destruct f as [a [d|]]; unfold met, differences; cbn; [split; [done|by intros []]|]. split; [done|by intros []]. Qed.

Lemma met_nil : met [] <-> True.
Proof. done. Qed.

Lemma equal_strings id a b : (assertEqual id (VStr a) (VStr b)).2 = None <-> a = b.
Proof. unfold assertEqual. destruct (String.eqb_spec a b); split; done. Qed.

Lemma equal_integers id a b : (assertEqual id (VInt a) (VInt b)).2 = None <-> a = b.
Proof. unfold assertEqual. destruct (Z.eqb_spec a b); split; done. Qed.

Lemma subset_met id required actual :
  (assertSubset id required actual).2 = None <-> forall x, x ∈ required -> x ∈ actual.
Proof.
  unfold assertSubset. destruct (missingValues required actual) as [|x l] eqn:Hm; split; try done.
  - intros _ x Hx. apply mem_str_spec. destruct (mem_str x actual) eqn:Ha; [done|].
    assert (x ∈ missingValues required actual) as H by (unfold missingValues; apply list_filter_elem; by rewrite Ha).
    rewrite Hm in H. by apply elem_of_nil in H.
  - intros H. assert (x ∈ missingValues required actual) as Hx by (rewrite Hm; apply list_elem_of_here).
    unfold missingValues in Hx. apply list_filter_elem in Hx as [Hx Ha]. apply H, mem_str_spec in Hx. by rewrite Hx in Ha.
Qed.

(** What a scenario expects of a snapshot. *)
Record contract (expected : ExpectedRuntimeResult) (s : RuntimeSnapshot) : Prop := {
  ct_phase : xp_InvestigationPhase expected = of_request "" ir_Phase s;
  ct_outcome : xp_InvestigationOutcome expected = of_request "" ir_Outcome s;
  ct_failure : xp_FailureReason expected = of_request "" failureReason s;
  ct_type : xp_RootCauseType expected = verdictType (rsn_InvestigationRequest s);
  ct_entity : verdictEntity (rsn_InvestigationRequest s) =
                if decide (xp_RootCauseType expected = "") then "" else xp_RootCauseEntity expected;
  ct_no_causes : xp_RootCauseType expected = "" -> causeCount (rsn_RiskSignals s) = 0;
  ct_sources : forall x, x ∈ xp_RequiredEvidenceSources expected -> x ∈ of_request [] evidenceSources s;
  ct_reasons : forall x, x ∈ xp_RequiredReasons expected -> x ∈ of_request [] evidenceReasons s;
  ct_signals : xp_RiskSignalExpected expected = bool_decide (rsn_RiskSignals s <> []);
  ct_signal_phase : xp_RiskSignalExpected expected = true -> xp_RiskSignalPhase expected <> "" ->
    xp_RiskSignalPhase expected ∈ map signalPhase (rsn_RiskSignals s);
  ct_linked : xp_RiskSignalExpected expected = true -> forall r ref, rsn_InvestigationRequest s = Some r ->
    ist_LinkedRiskSignalRef (ir_Status r) = Some ref -> hasRiskSignal (rsn_RiskSignals s) ref = true;
  ct_side_effects : sc_RemediationPlans (rsn_UnexpectedSideEffects s) + sc_AgentActions (rsn_UnexpectedSideEffects s)
                      <= xp_MaxUnexpectedSideEffects expected;
  ct_ran : rsn_RuntimeError s = ""
}.

Lemma root_cause_met expected s :
  met (rootCauseFindings expected s) <->
  xp_RootCauseType expected = verdictType (rsn_InvestigationRequest s) /\
  verdictEntity (rsn_InvestigationRequest s) = (if decide (xp_RootCauseType expected = "") then "" else xp_RootCauseEntity expected) /\
  (xp_RootCauseType expected = "" -> causeCount (rsn_RiskSignals s) = 0).
Proof.
  unfold rootCauseFindings. destruct (String.eqb_spec (xp_RootCauseType expected) "") as [->|Hne].
  - rewrite !met_cons, !equal_strings, equal_integers, met_nil. rewrite decide_True by done. naive_solver.
  - rewrite !met_cons, !equal_strings, met_nil. rewrite decide_False by done. naive_solver.
Qed.

Lemma phase_met expected signals :
  met (if xp_RiskSignalPhase expected == "" then []
       else [assertSubset "riskSignal.phases" [xp_RiskSignalPhase expected] (riskSignalPhases signals)]) <->
  (xp_RiskSignalPhase expected <> "" -> xp_RiskSignalPhase expected ∈ map signalPhase signals).
Proof.
  destruct (String.eqb_spec (xp_RiskSignalPhase expected) "") as [->|Hne]; [by rewrite met_nil|].
  rewrite met_cons, subset_met, met_nil. unfold riskSignalPhases. setoid_rewrite sorted_set_elem. split.
  - intros [H _] _. apply H, list_elem_of_here.
  - intros H. split; [|done]. intros x ->%list_elem_of_singleton. by apply H.
Qed.

Lemma linked_met request signals :
  met (match request ≫= (fun r => ist_LinkedRiskSignalRef (ir_Status r)) with
       | Some ref =>
           if hasRiskSignal signals ref
           then [passed "riskSignal.projection" (VStr "linked or direct public signal") (VStr "linked or direct public signal")]
           else [failed "riskSignal.projection" (VStr "linked signal present") (VStr "linked signal absent")
                   (mkDifference "riskSignal.projection" (VRef ref) (VSignals signals))]
       | None => [passed "riskSignal.projection" (VStr "linked or direct public signal") (VStr "linked or direct public signal")]
       end) <->
  (forall r ref, request = Some r -> ist_LinkedRiskSignalRef (ir_Status r) = Some ref -> hasRiskSignal signals ref = true).
Proof.
  destruct request as [r|]; cbn [mbind option_bind]; [|by rewrite met_cons, met_nil; split].
  destruct (ist_LinkedRiskSignalRef (ir_Status r)) as [ref|] eqn:Hr; [|rewrite met_cons, met_nil; split; [congruence|done]].
  destruct (hasRiskSignal signals ref) eqn:Hh; rewrite met_cons, met_nil; cbn; (split; [|intros H; split; [|done]]).
  - intros _ ? ? [= <-]. congruence.
  - done.
  - by intros [].
  - specialize (H r ref eq_refl Hr). congruence.
Qed.

Lemma risk_signal_met expected s :
  met (riskSignalFindings expected s) <->
  xp_RiskSignalExpected expected = bool_decide (rsn_RiskSignals s <> []) /\
  (xp_RiskSignalExpected expected = true -> xp_RiskSignalPhase expected <> "" ->
     xp_RiskSignalPhase expected ∈ map signalPhase (rsn_RiskSignals s)) /\
  (xp_RiskSignalExpected expected = true -> forall r ref, rsn_InvestigationRequest s = Some r ->
     ist_LinkedRiskSignalRef (ir_Status r) = Some ref -> hasRiskSignal (rsn_RiskSignals s) ref = true).
Proof.
  unfold riskSignalFindings. destruct (xp_RiskSignalExpected expected).
  - destruct (rsn_RiskSignals s) as [|signal signals] eqn:Hs.
    + rewrite met_cons. cbn. split; by intros [].
    + rewrite bool_decide_true by done. rewrite !met_app, met_cons, met_nil, phase_met, linked_met. cbn [passed snd]. naive_solver.
  - rewrite met_cons, equal_integers, met_nil. destruct (rsn_RiskSignals s); cbn; [naive_solver|].
    split; [lia|]. by intros [].
Qed.

Lemma side_effects_met limit n :
  met (if n <=? limit
       then [passed "invariant.no-unauthorized-remediation-side-effect" (VInt limit) (VInt n)]
       else [failed "invariant.no-unauthorized-remediation-side-effect" (VInt limit) (VInt n)
               (mkDifference "sideEffects.unexpected" (VInt limit) (VInt n))]) <-> n <= limit.
Proof. destruct (Z.leb_spec n limit); rewrite met_cons, met_nil; cbn; split; try done; [intros [? _]; done|lia]. Qed.

Lemma ran_met error :
  met (if error == "" then [passed "runtime.execution" (VStr "completed") (VStr "completed")]
       else [failed "runtime.execution" (VStr "completed") (VStr error)
               (mkDifference "runtime.execution" (VStr "completed") (VStr error))]) <-> error = "".
Proof. destruct (String.eqb_spec error ""); rewrite met_cons, met_nil; cbn; split; try done; by intros []. Qed.

(** A snapshot has no difference from what a scenario expects exactly when it keeps the contract:
    phase, outcome and failure are the expected ones, the root cause is the expected one
    and none is made up where none is expected, the required evidence is there, signals
    are there exactly when expected and the linked one among them, no more plans and
    actions came up than allowed, and nothing failed while it was taken. *)
Theorem contract_exact expected s : met (evaluateContract expected s) <-> contract expected s.
Proof.
  unfold evaluateContract. rewrite !met_app, !met_cons, !equal_strings, !subset_met, met_nil, root_cause_met, risk_signal_met,
    side_effects_met, ran_met.
  split.
  - intros ((?&?&?&_) & (?&?&?) & (?&?&_) & (?&?&?) & ? & ?). by split.
  - intros []. by split_and!.
Qed.

(** Every assertion that fails has its difference, and only those. *)
Definition finding_ok (f : finding) : Prop := asr_Result f.1 = if decide (f.2 = None) then "PASS" else "FAIL".

(** A scenario passes exactly when all its assertions do. *)
Definition result_ok (r : ScenarioResult) : Prop :=
  Forall finding_ok (scr_Findings r) /\
  (scr_Result r = "PASS" <-> Forall (fun f => asr_Result f.1 = "PASS") (scr_Findings r)).

Lemma passed_ok id a b : finding_ok (passed id a b).
Proof. done. Qed.

Lemma failed_ok id a b d : finding_ok (failed id a b d).
Proof. done. Qed.

Lemma assertEqual_ok id a b : finding_ok (assertEqual id a b).
Proof. unfold assertEqual. by destruct (match a, b with VStr _, VStr _ => _ | _, _ => _ end). Qed.

Lemma assertSubset_ok id a b : finding_ok (assertSubset id a b).
Proof. unfold assertSubset. by destruct (missingValues a b). Qed.

Lemma scenarioResult_ok s actual findings artifacts :
  Forall finding_ok findings -> result_ok (scenarioResult s actual findings artifacts).
Proof.
  intros Hf. split; [done|]. cbn. assert (differences findings = [] <-> Forall (fun f => asr_Result f.1 = "PASS") findings) as <-.
  { induction Hf as [|f findings Hf _ IH]; [done|]. fold (met (f :: findings)). rewrite met_cons, Forall_cons. unfold met.
    rewrite IH. apply and_iff_compat_r. unfold finding_ok in Hf. case_decide; rewrite Hf; split; done. }
  case_bool_decide; split; done.
Qed.

Lemma evaluateContract_ok expected s : Forall finding_ok (evaluateContract expected s).
Proof.
  unfold evaluateContract, rootCauseFindings, riskSignalFindings. rewrite !Forall_app. split_and!;
    repeat case_match; repeat (constructor; [first [apply assertEqual_ok | apply assertSubset_ok | done]|]); try constructor.
  all: rewrite ?Forall_app; split_and?; repeat case_match;
    repeat (constructor; [first [apply assertEqual_ok | apply assertSubset_ok | done]|]); try constructor.
Qed.

Lemma ends_any {E R} (p : prog E R) : ends (fun _ => True) p.
Proof. by induction p. Qed.

Lemma ends_all {E R} (Q : R -> Prop) (p : prog E R) : (forall r, Q r) -> ends Q p.
Proof. intros HQ. eapply ends_mono; [|apply ends_any]. auto. Qed.

Lemma publicReport_ok e s public decode_error :
  ends (fun r => Forall finding_ok r.2) (publicReportFindings e s public decode_error).
Proof.
  unfold publicReportFindings. destruct (negb public); [constructor|]. destruct (negb _); [by repeat constructor|].
  intros [report|err]; [|by repeat constructor]. cbn. repeat constructor. by destruct (validatePublicReport _ _).
Qed.

Lemma artifacts_ok e s snapshot : ends (fun r => Forall finding_ok r.1) (artifactFindings e s snapshot).
Proof. unfold artifactFindings. destruct (_ == _); [constructor|]. intros [err|]; by repeat constructor. Qed.

Lemma scenarioBody_ok e s setup decode_error : ends (fun r => result_ok r.2) (scenarioBody e s setup decode_error).
Proof.
  unfold scenarioBody. apply ends_bind, ends_all. intros [e1 [err|]]; [by apply scenarioResult_ok; repeat constructor|].
  apply ends_bind, ends_all. intros [e2 [err|]]; [by apply scenarioResult_ok; repeat constructor|].
  apply ends_bind, ends_all. intros snapshot. apply ends_bind. eapply ends_mono; [|apply publicReport_ok].
  intros [snapshot' public] Hp. apply ends_bind. eapply ends_mono; [|apply artifacts_ok]. intros [written artifacts] Hw.
  apply scenarioResult_ok. rewrite !Forall_app. split_and!; [apply evaluateContract_ok|done|done].
Qed.

(** Whatever the cluster, the setup and the report generator do: a scenario passes exactly
    when every assertion does, the cleanup's among them. *)
Theorem scenario_result_ok e s decode_error : ends (fun r => result_ok r.2) (runScenario e s decode_error).
Proof.
  unfold runScenario. apply ends_bind, ends_all. intros [e1|err]; [|by apply scenarioResult_ok; repeat constructor].
  destruct (scn_Setup s) as [setup|]; [|by apply scenarioResult_ok].
  apply ends_bind. eapply ends_mono; [|apply scenarioBody_ok]. intros [e2 r] Hr. apply ends_bind, ends_all.
  intros [err|]; [|exact Hr]. apply scenarioResult_ok. apply Forall_app. split; [apply Hr|by repeat constructor].
Qed.

Theorem summary_ok scenarios :
  let s := summarize scenarios in
  rsm_Total s = rsm_Passed s + rsm_Failed s /\ 0 <= rsm_Failed s /\
  (rsm_Result s = "PASS" <-> Forall (fun r => scr_Result r = "PASS") scenarios).
Proof.
  cbn. set (p := List.filter _ scenarios).
  assert ((length p <= length scenarios)%nat /\ (length p = length scenarios <-> Forall (fun r => scr_Result r = "PASS") scenarios)) as [Hle Heq].
  { subst p. induction scenarios as [|r rs [IH1 IH2]]; [done|]. cbn [List.filter]. rewrite Forall_cons.
    destruct (String.eqb_spec (scr_Result r) "PASS"); cbn [length]; split; [lia| |lia|]; rewrite <- IH2; split; lia || naive_solver lia. }
  split; [lia|]. split; [lia|]. rewrite <- Heq. destruct (Z.ltb_spec 0 (Z.of_nat (length scenarios) - Z.of_nat (length p))); split; try done; lia.
Qed.
End Harness.

(** ** Examples *)

Definition example_meta (namespace name : string) : ObjectMeta := mkObjectMeta name namespace "u" "" 1 ∅ ∅ [].

(** A cluster in which somebody created an action in another namespace while the scenario
    ran; nothing else is listed, and every deletion succeeds. *)
Definition example_answer (X : Type) (op : harness_op X) : option X :=
  match op with
  | WNow => Some 0
  | WGetNamespace _ | WCreate _ | WDelete _ | WWriteArtifacts _ _ | WWriteReport => Some None
  | WListActions None => Some (Ok [example_meta "team-b" "restart-db"])
  | WListActions (Some _) | WListPlans _ => Some (Ok [])
  | WListSignals => Some (Ok [])
  | WListRequests _ _ => Some (Ok [])
  | WGetRule _ _ | WPublicReport _ => Some (Err (errorf "absent"))
  | WTicks _ _ => Some O
  | WWaitEnd => Some DeadlinePassed
  end.

Definition example_handler (log : list (event harness_op)) (X : Type) (op : harness_op X) : option (X * list (event harness_op)) :=
  (fun x => (x, log ++ [Ev op x])) <$> example_answer X op.

Definition deleted (log : list (event harness_op)) : list (string * string) :=
  omap (fun ev => match ev with Ev (WDelete o) _ => Some (co_Kind o, clusterObjectKey o) | _ => None end) log.

(** The cleanup deletes the other namespace's action: it was not there before the scenario. *)
Example unrelated_action_deleted :
  let e := mkEnvironment "qualification" "" 0 0 false [] false "rule" "s1" (mkSideEffects ∅ ∅) in
  deleted (run example_handler (Cleanup e) []).2 = [("AgentAction", "team-b/restart-db")].
Proof. vm_compute. reflexivity. Qed.
