(* ===== verification/Pipeline.v ===== *)
(** * The in-process pipeline (internal/ingestion, internal/controlplane, internal/audit)

    The demo runs an incident without a cluster: signals are normalized, freed of
    repetitions and put in order, analysed, judged by the guardrails, and what
    those approve is executed.  The model provider, the executor and the clocks
    are operations of a program. *)

From Stdlib Require Import ZArith Lia Sorting.Sorted.
From stdpp Require Import base list strings gmap sorting.
From S2P Require Import Prelude GoStrings Utf8 Api InvestigationApi Digest Guardrails Prog Executor Observation Egress Gateway Normalize GoJson DatasourceRequest ModelProviders.

(** ** The audit trail (internal/audit/store.go)

    The store only grows; its lock makes every call one step. *)

Definition AuditStore : Type := list string.
Definition auditAppend (s : AuditStore) (entry : string) : AuditStore := s ++ [entry].
Definition auditEntries (s : AuditStore) : list string := s.

(** ** Ingestion (internal/ingestion/pipeline.go) *)

(** [fmt.Sscanf(text, verb, &parsed)] with the verb for a float64: the bits of what it leaves
    in [parsed], zero where it reads nothing. *)
Class FloatScans := { scan_float : string -> Z }.

(** A signal with its attributes, which only the pipeline reads. *)
Record PipelineSignal := mkPipelineSignal { pg_Signal : Signal; pg_Attributes : gmap string string }.

Record PipelineRequest := mkPipelineRequest {
  pr_ID : string;
  pr_Signals : list PipelineSignal;
  pr_Metadata : gmap string string
}.

Section Ingestion.
Context {U : UnicodeTables} {FS : FloatScans}.

Definition normalizeSignal (g : PipelineSignal) : PipelineSignal :=
  let s := pg_Signal g in
  let r := sig_Resource s in
  mkPipelineSignal
    (mkSignal (sig_ID s) (to_lower (trim_space (sig_Kind s))) (trim_space (sig_Source s)) (sig_Severity s) (sig_Message s)
       (if rr_Kind r == "" then mkResourceRef (rr_Cluster r) (rr_Namespace r) "Deployment" (rr_Name r) (rr_APIVersion r) (rr_Service r)
        else r)
       (sig_Timestamp s))
    (pg_Attributes g).
Definition normalizeSignals (signals : list PipelineSignal) : list PipelineSignal := map normalizeSignal signals.

Definition signalKey (g : PipelineSignal) : string :=
  let s := pg_Signal g in
  join "|" [sig_Kind s; rr_Namespace (sig_Resource s); rr_Name (sig_Resource s); sig_Message s].

(** The keys in [seen] belong to signals that were kept. *)
Fixpoint keepUnseen (seen : list string) (signals : list PipelineSignal) : list PipelineSignal :=
  match signals with
  | [] => []
  | g :: signals =>
      if mem_str (signalKey g) seen then keepUnseen seen signals
      else g :: keepUnseen (signalKey g :: seen) signals
  end.
Definition deduplicate (signals : list PipelineSignal) : list PipelineSignal := keepUnseen [] signals.

Definition summarizeSignals (signals : list PipelineSignal) : string :=
  join " | " (sort_strings (map (fun g => sig_Message (pg_Signal g)) signals)).

Definition collectMessagesByKind (signals : list PipelineSignal) (kind : string) : list string :=
  map (fun g => sig_Message (pg_Signal g)) (List.filter (fun g => sig_Kind (pg_Signal g) == kind) signals).

Definition collectMetric (metrics : gmap string Z) (g : PipelineSignal) : gmap string Z :=
  if sig_Kind (pg_Signal g) != "metric" then metrics
  else match pg_Attributes g !! "value" with
       | Some value => <[map_get (pg_Attributes g) "metric" := scan_float value]> metrics
       | None => metrics
       end.
Definition collectMetrics (signals : list PipelineSignal) : gmap string Z := fold_left collectMetric signals ∅.

(** [sort.Slice] by time; it is not stable beyond twelve elements, the model's sort is. *)
Definition earlier (a b : PipelineSignal) : bool := sig_Timestamp (pg_Signal a) <? sig_Timestamp (pg_Signal b).
Definition ingestedSignals (signals : list PipelineSignal) : list PipelineSignal :=
  sort_stable earlier (deduplicate (normalizeSignals signals)).

(** What [Run] returns for signals that are ingested already; the traces of the bundle, which
    nothing reads, and the attributes of the signals are left out. *)
Definition ingestionOutput (req : PipelineRequest) (deduped : list PipelineSignal) (primary : PipelineSignal)
    (now : time) : IngestionOutput :=
  let resource := sig_Resource (pg_Signal primary) in
  mkIngestionOutput
    (mkIncidentContext (pr_ID req) (rr_Cluster resource) (rr_Service resource) resource (summarizeSignals deduped)
       (map pg_Signal deduped) (pr_Metadata req) now)
    (mkEvidenceBundle (collectMessagesByKind deduped "log") (collectMetrics deduped) (collectMessagesByKind deduped "event")
       [mkEvidence "incident-context" "" "AI-ready incident context" "" "" ""] [])
    (map pg_Signal deduped) resource
    (map (fun g => mkTimelineEvent (sig_Timestamp (pg_Signal g)) (sig_Kind (pg_Signal g)) (sig_Message (pg_Signal g))) deduped)
    (Z.of_nat (length (pr_Signals req))).
End Ingestion.

(** ** The orchestrator (internal/controlplane/orchestrator.go) *)

(** The two clocks are those of the pipeline and of the orchestrator. *)
Inductive orchestrator_op : Type -> Type :=
| OIngestionNow : orchestrator_op time
| ONow : orchestrator_op time
| OModel {X : Type} (op : provider_op X) : orchestrator_op X
| OExecutor {X : Type} (op : exec_op X) : orchestrator_op X.
Definition oprog := prog orchestrator_op.

Record Orchestrator := mkOrchestrator {
  or_Base : KnowledgeBase;
  or_Provider : Provider;
  or_Guardrails : Policy;
  or_Executor : Router
}.

Record OrchestratorResult := mkOrchestratorResult {
  op_Ingestion : IngestionOutput;
  op_Reasoning : ReasoningOutput;
  op_RiskSignal : RiskSignal;
  op_RemediationPlan : RemediationPlan;
  op_AgentAction : AgentAction;
  op_Approval : ApprovalDecision;
  op_Execution : option ExecutionResult;
  op_AuditEntries : list string
}.

Inductive orchestrator_error := IngestionError (e : error) | ReasoningError (e : engine_error) | ExecutionError (e : error).

Definition PhaseRecommendation : string := "Recommendation".
Definition PhasePolicyChecked : string := "PolicyChecked".

Definition approvalWord (a : ApprovalAction) : string :=
  match a with ApprovalAuto => "auto_approve" | ApprovalManual => "needs_approval" | ApprovalReject => "reject" end.

Definition orchestratorTarget (r : ResourceRef) : TargetRef :=
  mkTargetRef (rr_Cluster r) (rr_Namespace r) (rr_Kind r) (rr_Name r) (rr_APIVersion r) (rr_Service r).
Definition orchestratorMeta (r : ResourceRef) (suffix : string) : ObjectMeta :=
  mkObjectMeta (rr_Name r +:+ suffix) (rr_Namespace r) "" "" 0 ∅ ∅ [].

Definition buildRiskSignal (input : IngestionOutput) (reasoning : ReasoningOutput) (now : time) : RiskSignal :=
  let resource := ic_Resource (io_Context input) in
  mkRiskSignal (orchestratorMeta resource "-risk")
    (mkRiskSignalSpec (orchestratorTarget resource) "incident" None None (rem_ActionType (ro_Remediation reasoning))
       (ro_Severity reasoning) (cf_Score (ro_Confidence reasoning)) true 1800
       (map (fun e => with_ref_text (evidence_ref "" (evd_Kind e) "" "" "") (evd_Summary e) "" (evd_Link e))
          (eb_References (io_Evidence input)))
       (rem_Parameters (ro_Remediation reasoning)) 0)
    (mkRiskSignalStatus (mkResourceStatus PhaseRecommendation (ro_RiskSummary reasoning) 0 now) (ro_RiskSummary reasoning)
       (rs_Hypothesis (ro_RCA reasoning)) (ro_Provider reasoning) [] None []).

Definition buildRemediationPlan (input : IngestionOutput) (reasoning : ReasoningOutput) (now : time) : RemediationPlan :=
  let resource := ic_Resource (io_Context input) in
  let remediation := ro_Remediation reasoning in
  mkRemediationPlan (orchestratorMeta resource "-plan")
    (mkRemediationPlanSpec (orchestratorTarget resource) (ro_Provider reasoning) (ro_Severity reasoning)
       (cf_Score (ro_Confidence reasoning)) true 1800 0 (rem_Description remediation) (rem_RollbackPlan remediation)
       (ro_RunbookRefs reasoning ++ ro_ServiceDocs reasoning)
       [mkRemediationStep "stabilize-workload" (rem_ActionType remediation) (rem_Description remediation) (rem_Parameters remediation)])
    (mkRemediationPlanStatus (mkResourceStatus PhaseReadyForApproval "plan created from reasoning output" 0 now) None).

Definition approvalTime (decision : ApprovalDecision) (now : time) : option time :=
  match ad_Action decision with ApprovalAuto => Some now | _ => None end.

Definition buildAgentAction (input : IngestionOutput) (reasoning : ReasoningOutput) (decision : ApprovalDecision)
    (now : time) : AgentAction :=
  let resource := ic_Resource (io_Context input) in
  let remediation := ro_Remediation reasoning in
  mkAgentAction (orchestratorMeta resource "-action")
    (mkAgentActionSpec (orchestratorTarget resource) (rem_ActionType remediation) (rem_Parameters remediation)
       (ad_ApprovedBy decision) (ad_DryRunResult decision) 1800 0 (rem_RollbackPlan remediation))
    (mkAgentActionStatus (mkResourceStatus PhasePolicyChecked (ad_Reason decision) 0 now) None
       (Some (mkApprovalStatus (bool_decide (ad_Action decision = ApprovalAuto)) (ad_ApprovedBy decision) "ControlPlane" "" 1
                (approvalTime decision now) None None ""))
       None (Some (mkDryRunStatus (ad_DryRunResult decision) (Some now))) None None).

(** [action.Status.Phase = phase; action.Status.Message = message]. *)
Definition setActionPhase (action : AgentAction) (phase message : string) : AgentAction :=
  let r := st_ResourceStatus (act_Status action) in
  set_status action (with_resource_status (act_Status action)
    (mkResourceStatus phase message (rs_ObservedGeneration r) (rs_UpdatedAt r))).

Definition decidedAction (action : AgentAction) (decision : ApprovalDecision) : AgentAction :=
  let message := rs_Message (st_ResourceStatus (act_Status action)) in
  match ad_Action decision with
  | ApprovalAuto => setActionPhase action PhaseApproved message
  | ApprovalManual => setActionPhase action PhaseWaitingApproval message
  | ApprovalReject => setActionPhase action PhaseRejected (ad_Reason decision)
  end.

Definition orchestratorRequest (input : IngestionOutput) (reasoning : ReasoningOutput) (decision : ApprovalDecision)
    : ExecutorRequest :=
  let remediation := ro_Remediation reasoning in
  mkExecutorRequest "" "" "" (rem_ActionType remediation) 0 (ic_Resource (io_Context input)) ""
    (StringParameters (rem_Parameters remediation)) zeroPolicySnapshot (ad_ApprovedBy decision) (ad_DryRunResult decision)
    (rem_RollbackPlan remediation) 0 0.

Section Orchestrator.
Context {U : UnicodeTables} {FS : FloatScans} {DT : HTTPDates} {JE : JSONErrors} {P : ModelPrompts} {EP : ModelEndpoints}.

Definition guardrailInput (input : IngestionOutput) (reasoning : ReasoningOutput) : ReviewInput :=
  mkReviewInput (ic_Resource (io_Context input)) reasoning (map_get (ic_Metadata (io_Context input)) "environment").

Definition ingestionRun (req : PipelineRequest) : oprog (result IngestionOutput) :=
  match pr_Signals req with
  | [] => Ret (Err (errorf "ingestion pipeline requires at least one signal"))
  | first :: _ =>
      let deduped := ingestedSignals (pr_Signals req) in
      (* one signal is kept at least: the last index is in range *)
      let primary := default first (last deduped) in
      now <~! OIngestionNow;
      Ret (Ok (ingestionOutput req deduped primary now))
  end.

(** From the reasoning on: the objects, the decision, and the execution if it is automatic. *)
Definition decideAndExecute (o : Orchestrator) (audit : AuditStore) (input : IngestionOutput) (reasoning : ReasoningOutput)
    : oprog (AuditStore * (OrchestratorResult + orchestrator_error)) :=
  riskNow <~! ONow;
  let riskSignal := buildRiskSignal input reasoning riskNow in
  planNow <~! ONow;
  let plan := buildRemediationPlan input reasoning planNow in
  let decision := engineEvaluate (or_Guardrails o) (guardrailInput input reasoning) in
  let audit := auditAppend audit ("guardrail decision: " +:+ approvalWord (ad_Action decision)) in
  actionNow <~! ONow;
  let action := decidedAction (buildAgentAction input reasoning decision actionNow) decision in
  if negb (bool_decide (ad_Action decision = ApprovalAuto)) then
    Ret (audit, inl (mkOrchestratorResult input reasoning riskSignal plan action decision None (auditEntries audit)))
  else
    '(executed, err) <~ translate (@OExecutor) (routerExecute (or_Executor o) (orchestratorRequest input reasoning decision));
    match err with
    | Some e => Ret (audit, inr (ExecutionError e))
    | None =>
        let action := setActionPhase action PhaseSucceeded (xr_Summary executed) in
        let audit := auditAppend audit "execution completed" in
        Ret (audit, inl (mkOrchestratorResult input reasoning riskSignal plan action decision (Some executed) (auditEntries audit)))
    end.

(** [Orchestrator.Run] with the entries of its store; an answer of [None] is a panic of the
    provider. *)
Definition orchestratorRun (o : Orchestrator) (audit : AuditStore) (req : PipelineRequest)
    : oprog (AuditStore * option (OrchestratorResult + orchestrator_error)) :=
  ingested <~ ingestionRun req;
  match ingested with
  | Err e => Ret (audit, Some (inr (IngestionError e)))
  | Ok input =>
      let audit := auditAppend audit "ingestion completed" in
      reasoned <~ translate (@OModel) (engineAnalyze (or_Base o) (or_Provider o) input);
      match reasoned with
      | None => Ret (audit, None)
      | Some (inr e) => Ret (audit, Some (inr (ReasoningError e)))
      | Some (inl reasoning) =>
          let audit := auditAppend audit "reasoning completed" in
          '(audit, answer) <~ decideAndExecute o audit input reasoning;
          Ret (audit, Some answer)
      end
  end.
End Orchestrator.

(** ** What ingestion keeps *)

Section Kept.
Context {U : UnicodeTables} {FS : FloatScans}.

(** The first signal of the list with its key. *)
Definition first_of_key (signals : list PipelineSignal) (g : PipelineSignal) : Prop :=
  exists i, signals !! i = Some g /\ forall j h, (j < i)%nat -> signals !! j = Some h -> signalKey h <> signalKey g.

Lemma keepUnseen_spec seen signals g :
  g ∈ keepUnseen seen signals <-> first_of_key signals g /\ signalKey g ∉ seen.
Proof.
  revert seen. induction signals as [|h signals IH]; intros seen; cbn [keepUnseen].
  { rewrite elem_of_nil. split; [done|]. by intros [(i & Hi & _) _]. }
  assert (Hcons : first_of_key (h :: signals) g <-> g = h \/ first_of_key signals g /\ signalKey g <> signalKey h).
  { split.
    - intros ([|i] & Hi & Hf); cbn in Hi; [left; congruence|right]. split.
      + exists i. split; [done|]. intros j k Hj Hk. apply (Hf (S j) k); [lia|done].
      + intros E. apply (Hf 0%nat h); [lia|done|done].
    - intros [->|[(i & Hi & Hf) Hne]]; [exists 0%nat; split; [done|lia]|]. exists (S i). split; [done|].
      intros [|j] k Hj Hk; cbn in Hk; [simplify_eq; congruence|]. apply (Hf j k); [lia|done]. }
  rewrite Hcons. destruct (mem_str (signalKey h) seen) eqn:E.
  - apply mem_str_spec in E. rewrite IH. split.
    + intros [Hf Hs]. split; [right; split; [done|]|done]. by intros Heq; rewrite Heq in Hs.
    + intros [[->|[Hf Hne]] Hs]; [done|by split].
  - apply mem_str_false in E. rewrite elem_of_cons, IH, not_elem_of_cons. split.
    + intros [->|(Hf & Hne & Hs)]; [by split; [left|]|by split; [right|]].
    + intros [[->|[Hf Hne]] Hs]; [by left|by right].
Qed.

Lemma keepUnseen_nodup seen signals : NoDup (map signalKey (keepUnseen seen signals)).
Proof.
  revert seen. induction signals as [|h signals IH]; intros seen; cbn [keepUnseen]; [constructor|].
  destruct (mem_str _ _); [done|]. cbn [map]. constructor; [|done].
  intros (g & Hk & Hg)%list_elem_of_fmap. apply keepUnseen_spec in Hg as [_ Hn]. apply Hn. rewrite Hk. left.
Qed.

(** Every key has a first signal. *)
Lemma first_of_key_exists signals g : g ∈ signals -> exists f, first_of_key signals f /\ signalKey f = signalKey g.
Proof.
  induction signals as [|h signals IH]; intros Hg; [by apply not_elem_of_nil in Hg|].
  destruct (decide (signalKey h = signalKey g)) as [E|E].
  - exists h. split; [|done]. exists 0%nat. split; [done|lia].
  - apply elem_of_cons in Hg as [->|Hg]; [done|]. destruct (IH Hg) as (f & (i & Hi & Hf) & Hk). exists f. split; [|done].
    exists (S i). split; [done|]. intros [|j] k Hj Hl; cbn in Hl; [simplify_eq; congruence|]. apply (Hf j k); [lia|done].
Qed.

#[export] Instance earlier_weak : StrictWeak earlier.
Proof.
  unfold earlier. split.
  - intros a. apply Z.ltb_irrefl.
  - intros a b c. rewrite !Z.ltb_ge. lia.
  - intros a b. rewrite Z.ltb_lt, Z.ltb_ge. lia.
Qed.

(** *** What tells two signals apart *)

Definition bar_free (s : string) : bool := str_all (fun c => negb (byte_val c =? 124)) s.
Definition signalFacts (s : Signal) : string * string * string * string :=
  (sig_Kind s, rr_Namespace (sig_Resource s), rr_Name (sig_Resource s), sig_Message s).
Definition plain_signal (s : Signal) : Prop :=
  bar_free (sig_Kind s) = true /\ bar_free (rr_Namespace (sig_Resource s)) = true /\ bar_free (rr_Name (sig_Resource s)) = true.

Lemma bar_split a b x y : bar_free a = true -> bar_free b = true -> a +:+ "|" +:+ x = b +:+ "|" +:+ y -> a = b /\ x = y.
Proof.
  revert b. induction a as [|c a IH]; intros [|d b]; cbn; intros Ha Hb E; simplify_eq; try done.
  apply andb_true_iff in Ha as [_ Ha], Hb as [_ Hb]. by destruct (IH b Ha Hb) as [-> ->].
Qed.

Lemma signalKey_facts g h : plain_signal (pg_Signal g) -> plain_signal (pg_Signal h) ->
  signalKey g = signalKey h <-> signalFacts (pg_Signal g) = signalFacts (pg_Signal h).
Proof.
  intros (Hg1 & Hg2 & Hg3) (Hh1 & Hh2 & Hh3). unfold signalKey, signalFacts. split; [|by intros [= -> -> -> ->]].
  cbn. intros E. apply bar_split in E as [-> E]; [|done..]. apply bar_split in E as [-> E]; [|done..].
  by apply bar_split in E as [-> ->].
Qed.
End Kept.

Section Theorems.
Context {U : UnicodeTables} {FS : FloatScans}.

Lemma ingestedSignals_elem signals g :
  g ∈ ingestedSignals signals <-> first_of_key (normalizeSignals signals) g.
Proof.
  unfold ingestedSignals, deduplicate. rewrite sort_stable_elem, keepUnseen_spec.
  split; [by intros [? _]|]. intros H. split; [done|]. apply not_elem_of_nil.
Qed.

Lemma ingestedSignals_last signals first :
  signals <> [] -> default first (last (ingestedSignals signals)) ∈ ingestedSignals signals /\
  forall g, g ∈ ingestedSignals signals ->
    sig_Timestamp (pg_Signal g) <= sig_Timestamp (pg_Signal (default first (last (ingestedSignals signals)))).
Proof.
  intros Hne. destruct signals as [|s signals]; [done|].
  destruct (first_of_key_exists (normalizeSignals (s :: signals)) (normalizeSignal s)) as (f & Hf & _); [left|].
  apply ingestedSignals_elem in Hf. pose proof (sort_stable_sorted earlier (deduplicate (normalizeSignals (s :: signals)))) as Hs.
  fold (ingestedSignals (s :: signals)) in Hs. destruct (ingestedSignals (s :: signals)) as [|x l _] eqn:E using rev_ind;
    [by apply not_elem_of_nil in Hf|]. rewrite last_snoc. cbn [default]. split; [apply elem_of_app; right; left|].
  intros g [Hg| ->%list_elem_of_singleton]%elem_of_app; [|done].
  assert (Hgx : no_later earlier g x) by (eapply StronglySorted_app_1_elem_of; [exact Hs|done|left]).
  by apply Z.ltb_ge in Hgx.
Qed.

(** What ingestion promises of its output. *)
Record ingested_ok (req : PipelineRequest) (out : IngestionOutput) : Prop := {
  in_kept : forall g, g ∈ pr_Signals req ->
    exists s, s ∈ io_Signals out /\ signalFacts s = signalFacts (pg_Signal (normalizeSignal g));
  in_source : forall s, s ∈ io_Signals out -> exists g, g ∈ pr_Signals req /\ s = pg_Signal (normalizeSignal g);
  in_distinct : NoDup (map signalFacts (io_Signals out));
  in_ordered : StronglySorted (fun a b => sig_Timestamp a <= sig_Timestamp b) (io_Signals out);
  in_latest : exists primary, primary ∈ io_Signals out /\ ic_Resource (io_Context out) = sig_Resource primary /\
    forall s, s ∈ io_Signals out -> sig_Timestamp s <= sig_Timestamp primary;
  in_events : eb_Events (io_Evidence out) = omap (fun s => if sig_Kind s == "event" then Some (sig_Message s) else None) (io_Signals out);
  in_count : io_DedupedFrom out = Z.of_nat (length (pr_Signals req))
}.

Lemma messages_of_kind kind signals :
  collectMessagesByKind signals kind = omap (fun s => if sig_Kind s == kind then Some (sig_Message s) else None) (map pg_Signal signals).
Proof.
  unfold collectMessagesByKind. induction signals as [|g signals IH]; [done|]. cbn. destruct (_ == _); cbn; by rewrite IH.
Qed.

Lemma normalized_elem signals n : n ∈ normalizeSignals signals <-> exists g, g ∈ signals /\ n = normalizeSignal g.
Proof. unfold normalizeSignals. rewrite list_elem_of_fmap. naive_solver. Qed.

Lemma first_of_key_elem signals g : first_of_key signals g -> g ∈ signals.
Proof. intros (i & Hi & _). by eapply list_elem_of_lookup_2. Qed.

Lemma ingestedSignals_distinct signals :
  (forall g, g ∈ signals -> plain_signal (pg_Signal (normalizeSignal g))) ->
  NoDup (map signalFacts (map pg_Signal (ingestedSignals signals))).
Proof.
  intros Hp. rewrite map_map. unfold ingestedSignals.
  assert (Hk : NoDup (map signalKey (sort_stable earlier (deduplicate (normalizeSignals signals))))).
  { rewrite (Permutation_map signalKey (sort_stable_perm earlier _)). apply keepUnseen_nodup. }
  assert (Hl : forall g, g ∈ sort_stable earlier (deduplicate (normalizeSignals signals)) -> plain_signal (pg_Signal g)).
  { intros g Hg. apply ingestedSignals_elem, first_of_key_elem, normalized_elem in Hg as (h & Hh & ->). by apply Hp. }
  revert Hk Hl. generalize (sort_stable earlier (deduplicate (normalizeSignals signals))).
  induction l as [|g l IH]; cbn; intros Hk Hl; [constructor|]. inversion_clear Hk as [|? ? Hn Hk'].
  constructor; [|apply IH; [done|]; intros h Hh; apply Hl; by right].
  intros (h & Heq & Hh)%list_elem_of_fmap. apply Hn. apply list_elem_of_fmap. exists h. split; [|done].
  apply signalKey_facts; [apply Hl; left|apply Hl; by right|done].
Qed.

Lemma ingestedSignals_ordered signals :
  StronglySorted (fun a b => sig_Timestamp a <= sig_Timestamp b) (map pg_Signal (ingestedSignals signals)).
Proof.
  pose proof (sort_stable_sorted earlier (deduplicate (normalizeSignals signals))) as Hs. unfold ingestedSignals.
  induction Hs as [|g l Hs IH Hg]; cbn; constructor; [done|]. apply Forall_map. eapply Forall_impl; [exact Hg|].
  intros h Hh. by apply Z.ltb_ge in Hh.
Qed.

(** When no kind, namespace or name of a signal has a bar, ingestion fails exactly for no
    signals, and otherwise keeps one signal, and no more, of each kind, namespace, name and
    message: in order of time, the context about the resource of a latest one. *)
Theorem ingestion_exact req :
  (forall g, g ∈ pr_Signals req -> plain_signal (pg_Signal (normalizeSignal g))) ->
  ends (fun r => match r with
                 | Err _ => pr_Signals req = []
                 | Ok out => pr_Signals req <> [] /\ ingested_ok req out
                 end) (ingestionRun req).
Proof.
  intros Hp. unfold ingestionRun. destruct (pr_Signals req) as [|first rest] eqn:E; [done|]. cbn [ends]. intros now.
  assert (Hne : first :: rest <> []) by done. split; [done|]. revert E Hp Hne. generalize (first :: rest). intros signals E Hp Hne.
  destruct (ingestedSignals_last signals first Hne) as [Hl Hlast].
  revert Hl Hlast. generalize (default first (last (ingestedSignals signals))). intros primary Hl Hlast.
  split; cbn [ingestionOutput io_Signals io_Context io_Evidence io_DedupedFrom ic_Resource eb_Events]; rewrite ?E.
  - intros g Hg. destruct (first_of_key_exists (normalizeSignals signals) (normalizeSignal g)) as (f & Hf & Hk).
    { apply normalized_elem. by exists g. }
    exists (pg_Signal f). split; [apply list_elem_of_fmap; exists f; split; [done|by apply ingestedSignals_elem]|].
    apply signalKey_facts; [|by apply Hp|done]. apply first_of_key_elem, normalized_elem in Hf as (h & Hh & ->). by apply Hp.
  - intros s (g & -> & Hg)%list_elem_of_fmap. apply ingestedSignals_elem, first_of_key_elem, normalized_elem in Hg as (h & Hh & ->).
    by exists h.
  - by apply ingestedSignals_distinct.
  - apply ingestedSignals_ordered.
  - exists (pg_Signal primary). split; [apply list_elem_of_fmap; by exists primary|]. split; [done|].
    intros s (g & -> & Hg)%list_elem_of_fmap. by apply Hlast.
  - apply messages_of_kind.
  - done.
Qed.
End Theorems.

(** ** Only what the guardrails approve is executed *)

Definition lift_event {E F : Type -> Type} (f : forall X, F X -> E X) (ev : event F) : event E :=
  match ev with Ev op x => Ev (f _ op) x end.

(** A part of a program, with what it does on its own: justified if each of its operations is
    after what the part may have done. *)
Lemma wp_translate_log {E F R} (J : list (event E) -> event E -> Prop) (f : forall X, F X -> E X) (p : prog F R) log l0 :
  all_justified J log -> (forall l X (op : F X) x, J (log ++ map (lift_event f) l) (Ev (f X op) x)) ->
  wp log_env (all_justified J) (translate f p) log
    (fun r log' => exists l, log' = log ++ map (lift_event f) l /\ exec log_env p l0 (Some r) (l0 ++ l)).
Proof.
  revert log l0. induction p as [r|X e k IH]; intros log l0 Hl Hj; cbn [translate].
  - apply wp_ret; [done|]. exists []. rewrite !app_nil_r. split; [done|]. right. done.
  - apply wp_event; [done|intros x; pose proof (Hj [] _ e x) as H; by rewrite app_nil_r in H|]. intros x Hl'.
    eapply wp_mono; [|apply (IH x _ (l0 ++ [Ev e x])); [done|]].
    + intros r log' _ (l & -> & Hr). exists (Ev e x :: l). cbn [map lift_event]. rewrite <- !app_assoc. split; [done|].
      right. exists x, (l0 ++ [Ev e x]). split; [done|]. by rewrite <- app_assoc in Hr.
    + intros l X' op y. pose proof (Hj (Ev e x :: l) X' op y) as H. cbn in H. by rewrite <- app_assoc.
Qed.

Definition model_event (ev : event orchestrator_op) : option (event provider_op) :=
  match ev with
  | Ev op x =>
      match op in orchestrator_op X return X -> option (event provider_op) with
      | OModel op => fun x => Some (Ev op x)
      | _ => fun _ => None
      end x
  end.
Definition is_execution (ev : event orchestrator_op) : bool :=
  match ev with Ev op _ => match op with OExecutor _ => true | _ => false end end.

Section Approved.
Context {U : UnicodeTables} {FS : FloatScans} {DT : HTTPDates} {JE : JSONErrors} {P : ModelPrompts} {EP : ModelEndpoints}.
Variables (o : Orchestrator) (audit : AuditStore) (req : PipelineRequest).

(** Before anything is executed, the engine has answered in this very run, about what was
    ingested, with an analysis that the guardrails approve. *)
Definition execution_justified (before : list (event orchestrator_op)) (ev : event orchestrator_op) : Prop :=
  is_execution ev = true ->
  exists l input reasoning,
    logged (ingestionRun req) (Some (Ok input)) l /\
    logged (engineAnalyze (or_Base o) (or_Provider o) input) (Some (Some (inl reasoning))) (omap model_event before) /\
    ad_Action (engineEvaluate (or_Guardrails o) (guardrailInput input reasoning)) = ApprovalAuto.

Definition audit_of (decision : ApprovalDecision) : list string :=
  audit ++ ["ingestion completed"; "reasoning completed"; "guardrail decision: " +:+ approvalWord (ad_Action decision)] ++
  match ad_Action decision with ApprovalAuto => ["execution completed"] | _ => [] end.

Record orchestrated_ok (r : OrchestratorResult) : Prop := {
  oo_decision : op_Approval r = engineEvaluate (or_Guardrails o) (guardrailInput (op_Ingestion r) (op_Reasoning r));
  oo_phase : act_Phase (op_AgentAction r) =
    match ad_Action (op_Approval r) with
    | ApprovalAuto => PhaseSucceeded | ApprovalManual => PhaseWaitingApproval | ApprovalReject => PhaseRejected
    end;
  oo_execution : op_Execution r = None <-> ad_Action (op_Approval r) <> ApprovalAuto;
  oo_approval : exists a, st_Approval (act_Status (op_AgentAction r)) = Some a /\
    ap_Approved a = bool_decide (ad_Action (op_Approval r) = ApprovalAuto) /\
    (ap_ApprovedAt a = None <-> ad_Action (op_Approval r) <> ApprovalAuto);
  oo_target : as_Target (act_Spec (op_AgentAction r)) = rss_Target (rsk_Spec (op_RiskSignal r)) /\
    ps_Target (plan_Spec (op_RemediationPlan r)) = rss_Target (rsk_Spec (op_RiskSignal r));
  oo_audit : op_AuditEntries r = audit_of (op_Approval r)
}.

Definition answer_ok (r : AuditStore * (OrchestratorResult + orchestrator_error)) : Prop :=
  match r.2 with inl result => orchestrated_ok result | inr _ => True end.

Lemma not_auto_ok input reasoning t1 t2 t3 :
  let decision := engineEvaluate (or_Guardrails o) (guardrailInput input reasoning) in
  ad_Action decision <> ApprovalAuto ->
  orchestrated_ok (mkOrchestratorResult input reasoning (buildRiskSignal input reasoning t1) (buildRemediationPlan input reasoning t2)
    (decidedAction (buildAgentAction input reasoning decision t3) decision) decision None
    (((audit ++ ["ingestion completed"]) ++ ["reasoning completed"]) ++ ["guardrail decision: " +:+ approvalWord (ad_Action decision)])).
Proof.
  intros decision Hn. unfold decidedAction. destruct (ad_Action decision) eqn:E; [done|..];
    (split; cbn [op_Approval op_Ingestion op_Reasoning op_AgentAction op_Execution op_RiskSignal op_RemediationPlan op_AuditEntries];
     rewrite ?E; try done;
     [eexists; split; [done|]; cbn; unfold approvalTime; by rewrite E|
      unfold audit_of; rewrite E, app_nil_r; by rewrite <- !app_assoc]).
Qed.

Lemma auto_ok input reasoning t1 t2 t3 x :
  let decision := engineEvaluate (or_Guardrails o) (guardrailInput input reasoning) in
  ad_Action decision = ApprovalAuto ->
  orchestrated_ok (mkOrchestratorResult input reasoning (buildRiskSignal input reasoning t1) (buildRemediationPlan input reasoning t2)
    (setActionPhase (decidedAction (buildAgentAction input reasoning decision t3) decision) PhaseSucceeded (xr_Summary x)) decision (Some x)
    ((((audit ++ ["ingestion completed"]) ++ ["reasoning completed"]) ++ ["guardrail decision: " +:+ approvalWord (ad_Action decision)])
       ++ ["execution completed"])).
Proof.
  intros decision E. unfold decidedAction. rewrite E.
  split; cbn [op_Approval op_Ingestion op_Reasoning op_AgentAction op_Execution op_RiskSignal op_RemediationPlan op_AuditEntries];
    rewrite ?E; try done.
  - eexists. split; [done|]. cbn. unfold approvalTime. by rewrite E.
  - unfold audit_of. rewrite E. by rewrite <- !app_assoc.
Qed.

#[local] Notation logs_ok := (all_justified execution_justified).

Lemma decide_ok input reasoning log l :
  logs_ok log -> logged (ingestionRun req) (Some (Ok input)) l ->
  logged (engineAnalyze (or_Base o) (or_Provider o) input) (Some (Some (inl reasoning))) (omap model_event log) ->
  wp log_env logs_ok (decideAndExecute o ((audit ++ ["ingestion completed"]) ++ ["reasoning completed"]) input reasoning) log
    (fun r _ => answer_ok r).
Proof.
  intros Hl Hi Ha. unfold decideAndExecute. apply wp_event; [done|done|]. intros t1 Hl1. apply wp_event; [done|done|].
  intros t2 Hl2. apply wp_event; [done|done|]. intros t3 Hl3.
  set (decision := engineEvaluate (or_Guardrails o) (guardrailInput input reasoning)).
  case_bool_decide as E; cbn [negb]; [|apply wp_ret; [done|]; by apply not_auto_ok].
  apply wp_bind. eapply wp_mono; [|apply (wp_translate_log _ (@OExecutor) _ _ []); [done|]].
  - intros [x [e|]] log' Hl' _; apply wp_ret; [done|done|done|]. by apply auto_ok.
  - intros events X op x _. exists l, input, reasoning. split_and!; [done| |done].
    rewrite !omap_app. cbn. rewrite !app_nil_r. replace (omap model_event (map _ events)) with (@nil (event provider_op)); [by rewrite app_nil_r|].
    induction events as [|[Y op' y] events IH]; [done|]. by cbn.
Qed.

(** In every run of the orchestrator, one that a crash cuts off included, nothing is executed
    unless the guardrails approved what the engine had answered in that run about the ingested
    signals; and a result says so: the decision is the guardrails' about what it shows, the
    action is approved, executed and succeeded exactly when that is automatic, otherwise it
    waits or is rejected, all objects have one target, and the audit has every step. *)
Theorem orchestrator_executes_approved answer log :
  logged (orchestratorRun o audit req) answer log ->
  logs_ok log /\
  match answer with
  | Some (_, Some (inl result)) => orchestrated_ok result
  | _ => True
  end.
Proof.
  intros Hrun. apply (wp_exec log_env logs_ok _ _ (fun r _ => match r.2 with Some (inl result) => orchestrated_ok result | _ => True end))
    in Hrun as [Hl Hq].
  { split; [done|]. destruct answer as [[audit' answer]|]; [|done]. apply (Hq _ eq_refl). }
  unfold orchestratorRun. apply wp_bind. unfold ingestionRun at 1.
  destruct (pr_Signals req) as [|first rest] eqn:E; [by apply wp_ret; [apply all_justified_nil|apply wp_ret; [apply all_justified_nil|]]|].
  apply wp_event; [apply all_justified_nil|done|]. intros now Hl. apply wp_ret; [done|].
  set (input := ingestionOutput _ _ _ _).
  assert (Hi : logged (ingestionRun req) (Some (Ok input)) [Ev OIngestionNow now]).
  { unfold ingestionRun, logged. rewrite E. right. exists now, [Ev OIngestionNow now]. split; [done|]. by right. }
  apply wp_bind. eapply wp_mono; [|apply (wp_translate_log _ (@OModel) _ _ []); [done|by intros]].
  intros reasoned log' Hl' (l & -> & Ha). destruct reasoned as [[reasoning|e]|]; [|by apply wp_ret..].
  apply wp_bind. eapply wp_mono; [|eapply decide_ok; [done|exact Hi|]].
  - intros [audit' r] log'' Hl'' Hr. apply wp_ret; [done|]. exact Hr.
  - rewrite omap_app. cbn. replace (omap model_event (map _ l)) with l; [exact Ha|].
    clear. induction l as [|[Y op y] l IH]; [done|]. cbn. by f_equal.
Qed.
End Approved.

(** ** The demo (internal/cli/demo.go)

    The time of the demo, [demoNow], is fixed; the result is printed as JSON. *)

Section Demo.
Context {U : UnicodeTables} {D : DigestPrims}.

Definition sampleResource : ResourceRef :=
  mkResourceRef "prod-cluster-apne1" "payments" "Deployment" "payments-api" "apps/v1" "payments-api".
Definition demoOrchestrator : Orchestrator :=
  mkOrchestrator NewBase HeuristicProvider
    (mkPolicy
       ["kubernetes.scaleDeployment"; "kubernetes.rolloutPause"; "kubernetes.rolloutRestart"; "gitops.createPullRequest";
        "runbook.triggerWorkflow"; "notification.sendSlack"]
       ["prod"] SeverityLow SeverityMedium)
    (mkRouter (KubernetesExecutor false) GitOpsExecutor RunbookExecutor (NotificationExecutor "")).
Definition demoSignal (id kind source severity message : string) (attributes : gmap string string) (at_time : time) : PipelineSignal :=
  mkPipelineSignal (mkSignal id kind source severity message sampleResource at_time) attributes.
Definition demoRequest (now : time) : PipelineRequest :=
  mkPipelineRequest "incident-prod-payments-api-001"
    [demoSignal "evt-1" "event" "kubernetes-events" SeverityHigh "Pod entered OOMKilled after deployment rollout" ∅ (now - 5 * minute);
     demoSignal "evt-2" "event" "kubernetes-events" SeverityHigh "BackOff restarting failed container" ∅ (now - 4 * minute);
     demoSignal "met-1" "metric" "prometheus" SeverityMedium "memory usage exceeded threshold"
       (<["metric" := "container_memory_working_set_bytes"]> {["value" := "983.2"]}) (now - 3 * minute);
     demoSignal "log-1" "log" "loki" SeverityMedium "application terminated with fatal out of memory error" ∅ (now - 2 * minute)]
    (<["environment" := "production"]> {["source" := "demo"]}).
End Demo.

Section PipelineExamples.
#[local] Existing Instance plain_tables.
#[local] Existing Instance plain_digest.
#[local] Existing Instance no_dates.
#[local] Existing Instance plain_prompts.
#[local] Existing Instance any_endpoint.
#[local] Existing Instance no_json_text.
#[local] Instance no_scan : FloatScans := {| scan_float _ := 0 |}.

(** Both clocks and the executor's stand still. *)
Definition still_world (now : time) (log : list (event orchestrator_op)) (X : Type) (op : orchestrator_op X)
    : option (X * list (event orchestrator_op)) :=
  match op in orchestrator_op Y return option (Y * list (event orchestrator_op)) with
  | OIngestionNow => Some (now, log ++ [Ev OIngestionNow now])
  | ONow => Some (now, log ++ [Ev ONow now])
  | OModel _ => None
  | @OExecutor Y op =>
      match op in exec_op Z return option (Z * list (event orchestrator_op)) with
      | XNow => Some (now, log ++ [Ev (OExecutor XNow) now])
      | _ => None
      end
  end.

Lemma still_world_logs now log X op x log' : still_world now log X op = Some (x, log') -> log_env log X op x log'.
Proof. destruct op as [| |Y op|Y op]; cbn; unfold log_env; try done; try (by intros [= <- <-]). destruct op; try done. by intros [= <- <-]. Qed.

Definition demo_run (policy : Policy) (req : PipelineRequest) :=
  run (still_world 1000) (orchestratorRun (mkOrchestrator NewBase HeuristicProvider policy (or_Executor demoOrchestrator)) [] req) [].

Definition shown (answer : option (AuditStore * option (OrchestratorResult + orchestrator_error))) :=
  match answer with
  | Some (_, Some (inl r)) =>
      Some (ro_Severity (op_Reasoning r), rem_ActionType (ro_Remediation (op_Reasoning r)), act_Phase (op_AgentAction r),
            xr_Outcome <$> op_Execution r, op_AuditEntries r)
  | _ => None
  end.

(** The demo waits for a human; with a policy that trusts its severity it is executed. *)
Example demo_waits :
  shown (demo_run (or_Guardrails demoOrchestrator) (demoRequest 1000)).1
  = Some (SeverityHigh, "kubernetes.rolloutPause", PhaseWaitingApproval, None,
          ["ingestion completed"; "reasoning completed"; "guardrail decision: needs_approval"]).
Proof. vm_compute. reflexivity. Qed.

Definition trusting : Policy := mkPolicy ["kubernetes.rolloutPause"] [] SeverityHigh "".

Example demo_executes :
  shown (demo_run trusting (demoRequest 1000)).1
  = Some (SeverityHigh, "kubernetes.rolloutPause", PhaseSucceeded, Some ExecutionOutcomeSucceeded,
          ["ingestion completed"; "reasoning completed"; "guardrail decision: auto_approve"; "execution completed"]).
Proof. vm_compute. reflexivity. Qed.

(** The run that executes something: its justification is not vacuous. *)
Lemma orchestrator_executes_approved_witness :
  existsb is_execution (demo_run trusting (demoRequest 1000)).2 = true /\
  all_justified
    (execution_justified (mkOrchestrator NewBase HeuristicProvider trusting (or_Executor demoOrchestrator)) (demoRequest 1000))
    (demo_run trusting (demoRequest 1000)).2.
Proof.
  assert (Hrun : logged (orchestratorRun (mkOrchestrator NewBase HeuristicProvider trusting (or_Executor demoOrchestrator)) []
                           (demoRequest 1000))
                   (demo_run trusting (demoRequest 1000)).1 (demo_run trusting (demoRequest 1000)).2).
  { apply run_exec, still_world_logs. }
  split; [vm_compute; reflexivity|]. pose proof (orchestrator_executes_approved _ _ _ _ _ Hrun) as [H _]. exact H.
Defined.

(** Two signals that differ in case, blanks and time only are one, the first. *)
Example repeated_signal :
  (run (still_world 1000)
     (ingestionRun (mkPipelineRequest "i" [demoSignal "a" "Event" "p" "" "latency" ∅ 7; demoSignal "b" " event" "q" "" "latency" ∅ 9] ∅)) []).1
  = Some (Ok (ingestionOutput (mkPipelineRequest "i" [demoSignal "a" "event" "p" "" "latency" ∅ 7; demoSignal "b" "event" "q" "" "latency" ∅ 9] ∅)
                [demoSignal "a" "event" "p" "" "latency" ∅ 7] (demoSignal "a" "event" "p" "" "latency" ∅ 7) 1000)).
Proof. vm_compute. reflexivity. Qed.

(** The key has neither the kind nor the cluster of the resource: of two signals about
    different resources the second is lost. *)
Example resources_merged :
  let signal cluster kind := mkPipelineSignal (mkSignal "" "event" "" "" "not ready" (mkResourceRef cluster "shop" kind "cart" "" "") 0) ∅ in
  deduplicate [signal "east" "Service"; signal "west" "Deployment"] = [signal "east" "Service"].
Proof. vm_compute. reflexivity. Qed.
End PipelineExamples.
