(* ===== verification/Commands.v ===== *)
(** * The command line (internal/cli, internal/version)

    The subcommands of fluxseer: the parse of their flags with packages flag and
    time, the InvestigationRequest that [investigate] writes, and how it waits for
    the result.  The decode of a query file as YAML is a parameter. *)

From Stdlib Require Import ZArith Lia.
From stdpp Require Import base list strings gmap pretty.
From S2P Require Import Prelude GoStrings Utf8 GoParse Float64 Api InvestigationApi Digest Prog InvestigationSpec RiskRule.

(** ** Durations (package time) *)

(** [leadingInt]: the digits a text starts with; [None] past 2^63. *)
Fixpoint leadingInt (acc : Z) (s : string) : option (Z * string) :=
  match s with
  | String c rest =>
      if is_ascii_digit c then
        if 2 ^ 63 / 10 <? acc then None
        else let acc := 10 * acc + digit_val c in if 2 ^ 63 <? acc then None else leadingInt acc rest
      else Some (acc, s)
  | EmptyString => Some (acc, s)
  end.

(** [leadingFraction]: the digits, as a number and the power of ten below them; digits past
    the range are dropped. *)
Fixpoint leadingFraction (acc : Z) (scale : float64) (overflow : bool) (s : string) : Z * float64 * string :=
  match s with
  | String c rest =>
      if is_ascii_digit c then
        if overflow || ((2 ^ 63 - 1) / 10 <? acc) then leadingFraction acc scale true rest
        else
          let next := 10 * acc + digit_val c in
          if 2 ^ 63 <? next then leadingFraction acc scale true rest
          else leadingFraction next (float_mul scale (float_of_int 10)) false rest
      else (acc, scale, s)
  | EmptyString => (acc, scale, s)
  end.

Fixpoint unit_from (s : string) : string * string :=
  match s with
  | String c rest =>
      if is_ascii_digit c || (byte_val c =? 46) then (EmptyString, s)
      else let '(u, rest) := unit_from rest in (String c u, rest)
  | EmptyString => (EmptyString, EmptyString)
  end.

Definition unitOf (u : string) : option Z :=
  if u == "ns" then Some 1
  else if (u == "us") || (u == "µs") || (u == "μs") then Some 1000
  else if u == "ms" then Some 1000000
  else if u == "s" then Some second
  else if u == "m" then Some minute
  else if u == "h" then Some (60 * minute)
  else None.

(** One number with its unit, and the rest of the text; [None] is an error. *)
Definition durationPart (s : string) : option (Z * string) :=
  number ← leadingInt 0 s;
  let '(v, rest) := number : Z * string in
  let pre := negb (rest == s) in
  let '(f, scale, rest', post) :=
    match rest with
    | String c after =>
        if byte_val c =? 46 then
          let '(f, scale, rest') := leadingFraction 0 (float_of_int 1) false after in (f, scale, rest', negb (rest' == after))
        else (0, float_of_int 1, rest, false)
    | EmptyString => (0, float_of_int 1, rest, false)
    end in
  if negb pre && negb post then None
  else
    let '(u, rest'') := unit_from rest' in
    if u == "" then None
    else
      unit ← unitOf u;
      if 2 ^ 63 / unit <? v then None
      else
        let v := v * unit in
        let v := if 0 <? f then v + int_of_float (float_mul (float_of_int f) (float_div (float_of_int unit) scale)) else v in
        if 2 ^ 63 <? v then None else Some (v, rest'').

(** Every part takes a byte at least: the length of the text is fuel enough. *)
Fixpoint durationParts (fuel : nat) (d : Z) (s : string) : option Z :=
  match fuel, s with
  | _, EmptyString => Some d
  | O, _ => None
  | S fuel, _ =>
      part ← durationPart s;
      let '(v, rest) := part : Z * string in
      if 2 ^ 63 <? d + v then None else durationParts fuel (d + v) rest
  end.

(** [time.ParseDuration]. *)
Definition ParseDuration (s : string) : option duration :=
  let '(negative, rest) :=
    match s with
    | String c rest => if byte_val c =? 45 then (true, rest) else if byte_val c =? 43 then (false, rest) else (false, s)
    | EmptyString => (false, s)
    end in
  if rest == "0" then Some 0
  else if rest == "" then None
  else
    d ← durationParts (String.length rest) 0 rest;
    if negative then Some (- d) else if 2 ^ 63 - 1 <? d then None else Some d.

Example durations :
  map ParseDuration ["90s"; "1h15m30.918s"; "-1.5h"; ".5m"; "0"; "+5us"; "1µs"; "15"; "1d"; ""; "."; "9223372036854775808ns"; "-9223372036854775808ns"; "0.1ns1"]
  = [Some (90 * second); Some (4530 * second + 918000000); Some (- 5400 * second); Some (30 * second); Some 0; Some 5000; Some 1000;
     None; None; None; None; None; Some (- 2 ^ 63); None].
Proof. vm_compute. reflexivity. Qed.

(** ** Flags (package flag)

    A flag set names the variables it fills; here a variable is how a value is put into the
    options. *)

Inductive flag_value (A : Type) :=
| StringFlag (put : string -> A -> A)
| BoolFlag (put : bool -> A -> A)
| DurationFlag (put : duration -> A -> A).
Arguments StringFlag {A} _.
Arguments BoolFlag {A} _.
Arguments DurationFlag {A} _.

(** [strconv.ParseBool]. *)
Definition ParseBool (s : string) : option bool :=
  if mem_str s ["1"; "t"; "T"; "true"; "TRUE"; "True"] then Some true
  else if mem_str s ["0"; "f"; "F"; "false"; "FALSE"; "False"] then Some false
  else None.

Section Flags.
Context {U : UnicodeTables}.

Definition badValue (what name value : string) : error :=
  errorf ("invalid " +:+ what +:+ " " +:+ quote value +:+ " for " +:+ name +:+ ": parse error").

(** [Value.Set]. *)
Definition putValue {A} (flag : flag_value A) (name value : string) (opts : A) : A + error :=
  match flag with
  | StringFlag put => inl (put value opts)
  | BoolFlag put =>
      match ParseBool value with
      | Some b => inl (put b opts)
      | None => inr (badValue "boolean value" ("-" +:+ name) value)
      end
  | DurationFlag put =>
      match ParseDuration value with
      | Some d => inl (put d opts)
      | None => inr (badValue "value" ("flag -" +:+ name) value)
      end
  end.

(** What an argument is to [FlagSet.parseOne]. *)
Inductive flag_arg :=
| NoFlag
| EndOfFlags
| BadFlag
| FlagArg (name : string) (value : option string).

(** The text up to the first equals sign, and what is after it. *)
Fixpoint split_equals (s : string) : string * option string :=
  match s with
  | EmptyString => (EmptyString, None)
  | String c rest =>
      if byte_val c =? 61 then (EmptyString, Some rest)
      else let '(name, value) := split_equals rest in (String c name, value)
  end.

Definition flagArg (s : string) : flag_arg :=
  match s with
  | String d (String c rest) =>
      if negb (byte_val d =? 45) then NoFlag
      else
        let name := if byte_val c =? 45 then rest else String c rest in
        if (byte_val c =? 45) && (rest == "") then EndOfFlags
        else match name with
             | EmptyString => BadFlag
             | String f more =>
                 if (byte_val f =? 45) || (byte_val f =? 61) then BadFlag
                 else let '(name, value) := split_equals more in FlagArg (String f name) value
             end
  | _ => NoFlag
  end.

Definition errHelp : error := errorf "flag: help requested".

(** [FlagSet.Parse], with the arguments that are left. *)
Fixpoint parseFlags {A} (formal : string -> option (flag_value A)) (args : list string) (opts : A)
    : (A * list string) + error :=
  match args with
  | [] => inl (opts, [])
  | s :: args' =>
      match flagArg s with
      | NoFlag => inl (opts, args)
      | EndOfFlags => inl (opts, args')
      | BadFlag => inr (errorf ("bad flag syntax: " +:+ s))
      | FlagArg name value =>
          match formal name with
          | None =>
              inr (if (name == "help") || (name == "h") then errHelp
                   else errorf ("flag provided but not defined: -" +:+ name))
          | Some (BoolFlag put as flag) =>
              match putValue flag name (default "true" value) opts with
              | inl opts => parseFlags formal args' opts
              | inr e => inr e
              end
          | Some flag =>
              match value, args' with
              | Some value, _ =>
                  match putValue flag name value opts with
                  | inl opts => parseFlags formal args' opts
                  | inr e => inr e
                  end
              | None, value :: args'' =>
                  match putValue flag name value opts with
                  | inl opts => parseFlags formal args'' opts
                  | inr e => inr e
                  end
              | None, [] => inr (errorf ("flag needs an argument: -" +:+ name))
              end
          end
      end
  end.

(** ** The arguments of the subcommands *)

Record investigateOptions := mkInvestigateOptions {
  io_targetNamespace : string;
  io_requestNamespace : string;
  io_requestName : string;
  io_question : string;
  io_lookback : duration;
  io_datasources : list string;
  io_queryFile : string;
  io_provider : string;
  io_createRiskSignal : bool;
  io_wait : bool;
  io_timeout : duration
}.

Definition defaultInvestigateOptions : investigateOptions :=
  mkInvestigateOptions "default" "fluxseer-rca-system" "" "" (15 * minute) [] "" "" false true (90 * second).

(** [stringSliceFlag.Set] appends. *)
Definition investigateFlags (name : string) : option (flag_value investigateOptions) :=
  if (name == "namespace") || (name == "n") then Some (StringFlag (fun v o => o <| io_targetNamespace := v |>))
  else if name == "request-namespace" then Some (StringFlag (fun v o => o <| io_requestNamespace := v |>))
  else if name == "request-name" then Some (StringFlag (fun v o => o <| io_requestName := v |>))
  else if name == "question" then Some (StringFlag (fun v o => o <| io_question := v |>))
  else if name == "lookback" then Some (DurationFlag (fun v o => o <| io_lookback := v |>))
  else if name == "datasource" then Some (StringFlag (fun v o => o <| io_datasources := io_datasources o ++ [v] |>))
  else if name == "query-file" then Some (StringFlag (fun v o => o <| io_queryFile := v |>))
  else if name == "provider" then Some (StringFlag (fun v o => o <| io_provider := v |>))
  else if name == "create-risk-signal" then Some (BoolFlag (fun v o => o <| io_createRiskSignal := v |>))
  else if name == "wait" then Some (BoolFlag (fun v o => o <| io_wait := v |>))
  else if name == "timeout" then Some (DurationFlag (fun v o => o <| io_timeout := v |>))
  else None.

Definition investigateUsage : error := errorf "usage: fluxseer investigate <kind> <name> [flags]".

(** The two words before the flags, when they are there. *)
Definition leadingWords (args : list string) : option (string * string * list string) :=
  match args with
  | kind :: name :: rest =>
      if negb (has_prefix kind "-") && negb (has_prefix name "-") then Some (kind, name, rest) else None
  | _ => None
  end.

Definition parseInvestigateArgs (args : list string) : (investigateOptions * string * string) + error :=
  let '(kind, name, parseArgs) := default ("", "", args) (leadingWords args) in
  match parseFlags investigateFlags parseArgs defaultInvestigateOptions with
  | inr e => inr e
  | inl (opts, remaining) =>
      let target :=
        if (kind == "") || (name == "") then
          match remaining with [k; n] => Some (k, n) | _ => None end
        else Some (kind, name) in
      match target with
      | None => inr investigateUsage
      | Some (kind, name) =>
          if negb (bool_decide (remaining = [])) && ((kind != "") && (name != ""))
             && negb (bool_decide (length parseArgs = length args)) then inr investigateUsage
          else inl (opts, kind, name)
      end
  end.

Record reportOptions := mkReportOptions { ro_namespace : string; ro_output : string }.

Definition reportFlags (name : string) : option (flag_value reportOptions) :=
  if (name == "namespace") || (name == "n") then Some (StringFlag (fun v o => o <| ro_namespace := v |>))
  else if (name == "output") || (name == "o") then Some (StringFlag (fun v o => o <| ro_output := v |>))
  else None.

Definition reportUsage : error := errorf "usage: fluxseer report <riskrule|agentaction> <name> [flags]".

Definition parseReportArgs (args : list string) : (reportOptions * string * string) + error :=
  match leadingWords args with
  | None => inr reportUsage
  | Some (resource, name, rest) =>
      let resource := to_lower (trim_space resource) in
      let name := trim_space name in
      match parseFlags reportFlags rest (mkReportOptions "fluxseer-rca-system" "json") with
      | inr e => inr e
      | inl (opts, remaining) =>
          if negb (bool_decide (remaining = [])) || (name == "") then inr reportUsage
          else
            let output := to_lower (trim_space (ro_output opts)) in
            if mem_str output ["json"; "yaml"; "markdown"] then inl (opts <| ro_output := output |>, resource, name)
            else inr (errorf ("unsupported output format " +:+ quote output +:+ "; use json, yaml, or markdown"))
      end
  end.

(** What [runReport] refuses before it reads anything. *)
Definition reportRequest (args : list string) : (reportOptions * string * string) + error :=
  match parseReportArgs args with
  | inr e => inr e
  | inl (opts, resource, name) =>
      if negb (mem_str resource ["riskrule"; "agentaction"]) then
        inr (errorf ("unsupported report resource " +:+ quote resource +:+ "; use riskrule or agentaction"))
      else if (ro_output opts == "markdown") && (resource != "riskrule") then
        inr (errorf "markdown output is currently supported for riskrule reports only")
      else inl (opts, resource, name)
  end.

(** [version.ParseOutput]. *)
Fixpoint versionOutput (output : string) (args : list string) : string + error :=
  match args with
  | [] => if (output != "json") && (output != "text") then inr (errorf ("unsupported version output " +:+ quote output)) else inl output
  | "--output=json" :: args => versionOutput "json" args
  | "--output=text" :: args => versionOutput "text" args
  | "--output" :: args =>
      match args with
      | [] => inr (errorf "--output requires a value")
      | value :: args => versionOutput value args
      end
  | arg :: _ => inr (errorf ("unknown version flag " +:+ quote arg))
  end.
Definition ParseOutput (args : list string) : string + error := versionOutput "text" args.

(** What [Run] makes of the arguments of the program; the usage goes to standard output for
    [PrintUsage], to standard error for an unknown command. *)
Inductive command :=
| RunDemo
| RunInvestigate (args : list string)
| RunReport (args : list string)
| WriteVersion (output : string)
| PrintUsage
| Refused (e : error).

Definition commandOf (args : list string) : command :=
  match args with
  | [] => RunDemo
  | word :: args =>
      if word == "demo" then RunDemo
      else if word == "investigate" then RunInvestigate args
      else if word == "report" then RunReport args
      else if word == "version" then match ParseOutput args with inl output => WriteVersion output | inr e => Refused e end
      else if (word == "help") || (word == "-h") || (word == "--help") then PrintUsage
      else Refused (errorf ("unknown fluxseer subcommand " +:+ quote word))
  end.
End Flags.

(** ** The request that [investigate] writes *)

(** [strings.ReplaceAll] of one byte by another. *)
Definition replace_byte (old new : Z) (s : string) : string :=
  str_map (fun c => if byte_val c =? old then byte_of new else c) s.

(** [yaml.Unmarshal] of a file into the payload with queries, or into a list: the queries, or
    none where it fails. *)
Class QueryFiles := {
  wrapped_queries : string -> option (list InvestigationQuery);
  listed_queries : string -> option (list InvestigationQuery)
}.

(** [ILoadConfig] ends the process where it fails, which is a stop of the program. *)
Inductive command_op : Type -> Type :=
| IReadFile (path : string) : command_op (result string)
| INow : command_op time
| ISleep (d : duration) : command_op unit
| ILoadConfig : command_op unit
| INewClient : command_op (option error)
| ICreateRequest (request : InvestigationRequest) : command_op (option error)
| IGetRequest (namespace name : string) : command_op (result InvestigationRequest)
| IPrint (line : string) : command_op unit.
Abbreviation command_prog := (prog command_op).

Section Request.
Context {U : UnicodeTables} {QF : QueryFiles}.

Definition investigateKind (kind : string) : option (string * string) :=
  let kind := to_lower (trim_space kind) in
  if mem_str kind ["deployment"; "deploy"] then Some ("Deployment", "apps/v1")
  else if mem_str kind ["statefulset"; "sts"] then Some ("StatefulSet", "apps/v1")
  else if mem_str kind ["daemonset"; "ds"] then Some ("DaemonSet", "apps/v1")
  else if mem_str kind ["replicaset"; "rs"] then Some ("ReplicaSet", "apps/v1")
  else if mem_str kind ["pod"; "po"] then Some ("Pod", "v1")
  else None.
Definition normalizeTargetKind (kind : string) : string := default kind (fst <$> investigateKind kind).
Definition apiVersionForKind (kind : string) : string := default "" (snd <$> investigateKind kind).

Definition investigateBase (kind name : string) : string :=
  let base := to_lower ("investigate-" +:+ normalizeTargetKind kind +:+ "-" +:+ name) in
  let base := replace_byte 46 45 (replace_byte 95 45 base) in
  if 50 <? str_len base then trim_suffix (str_take 50 base) "-" else base.

(** [time.Now().Unix()]: whole seconds, rounded down. *)
Definition generatedInvestigationRequestName (kind name : string) (now : time) : string :=
  investigateBase kind name +:+ "-" +:+ itoa (now / second).

Definition loadQueriesFile (path : string) : command_prog (result (list InvestigationQuery)) :=
  if trim_space path == "" then Ret (Ok [])
  else
    body <~! IReadFile path;
    match body with
    | Err e => Ret (Err (wrapf ("read query file " +:+ quote path) e))
    | Ok body =>
        Ret (match wrapped_queries body, listed_queries body with
             | Some ((_ :: _) as queries), _ => Ok queries
             | _, Some ((_ :: _) as queries) => Ok queries
             | _, _ => Err (errorf ("query file " +:+ quote path +:+ " must contain either a queries: list or a top-level list"))
             end)
    end.

Definition investigateSpec (kind name : string) (opts : investigateOptions) (queries : list InvestigationQuery)
    : InvestigationRequestSpec :=
  (investigation_spec
     (mkTargetRef "" (io_targetNamespace opts) (normalizeTargetKind kind) name (apiVersionForKind kind) name)
     "" None (io_lookback opts) (io_question opts) queries InvestigationModeReadOnly (io_createRiskSignal opts) "")
    <| irs_DataSources := if bool_decide (queries = []) then io_datasources opts else [] |>
    <| irs_ModelProviderRef := io_provider opts |>.

Definition buildInvestigationRequest (kind name : string) (opts : investigateOptions)
    : command_prog (result InvestigationRequest) :=
  queries <~ loadQueriesFile (io_queryFile opts);
  match queries with
  | Err e => Ret (Err e)
  | Ok queries =>
      if bool_decide (queries = []) && bool_decide (io_datasources opts = []) then
        Ret (Err (errorf "at least one --datasource or --query-file is required"))
      else
        requestName <~ (if trim_space (io_requestName opts) == "" then
                          now <~! INow; Ret (generatedInvestigationRequestName kind name now)
                        else Ret (io_requestName opts));
        Ret (Ok (mkInvestigationRequest (mkObjectMeta requestName (io_requestNamespace opts) "" "" 0 ∅ ∅ []) 0 None
                   (investigateSpec kind name opts queries) zeroInvestigationStatus))
  end.

(** ** Waiting *)

Definition requestKey (namespace name : string) : string := namespace +:+ "/" +:+ name.

(** The loop, which looks again every two seconds: [None] is the fuel run out, which
    [wait_ends] excludes. *)
Fixpoint waitUntil (fuel : nat) (namespace name : string) (deadline : time)
    : command_prog (option (result InvestigationRequest)) :=
  match fuel with
  | O => Ret None
  | S fuel =>
      got <~! IGetRequest namespace name;
      match got with
      | Err e => Ret (Some (Err (wrapf ("get InvestigationRequest " +:+ requestKey namespace name) e)))
      | Ok request =>
          if mem_str (ir_Phase request) [PhaseCompleted; PhaseFailed] then Ret (Some (Ok request))
          else
            now <~! INow;
            if time_after now deadline then
              Ret (Some (Err (errorf ("timed out waiting for InvestigationRequest " +:+ requestKey namespace name))))
            else _ <~! ISleep (2 * second); waitUntil fuel namespace name deadline
      end
  end.

(** One look at once, and one after each sleep of two seconds that starts within the timeout. *)
Definition waitFuel (timeout : duration) : nat := Z.to_nat (Z.max 0 timeout / (2 * second) + 2).

Definition waitForInvestigationRequest (namespace name : string) (timeout : duration)
    : command_prog (option (result InvestigationRequest)) :=
  now <~! INow;
  waitUntil (waitFuel timeout) namespace name (time_add now timeout).

(** ** The subcommand *)

Definition printAll (lines : list string) : command_prog unit :=
  fold_right (fun line rest => _ <~! IPrint line; rest) (Ret tt) lines.

Definition resultLines (final : InvestigationRequest) : list string :=
  let s := ir_Status final in
  ["phase: " +:+ ir_Phase final] ++
  (if ist_Provider s != "" then ["provider: " +:+ ist_Provider s] else []) ++
  (if ist_Summary s != "" then ["summary: " +:+ ist_Summary s] else []) ++
  (if ist_Hypothesis s != "" then ["hypothesis: " +:+ ist_Hypothesis s] else []) ++
  (match ist_LinkedRiskSignalRef s with
   | Some ref => ["riskSignal: " +:+ requestKey (nor_Namespace ref) (nor_Name ref)]
   | None => []
   end).

(** [runInvestigate]: the error it returns; [None] outside is the fuel of the wait. *)
Definition runInvestigate (args : list string) : command_prog (option (option error)) :=
  match parseInvestigateArgs args with
  | inr e => Ret (Some (Some e))
  | inl (opts, kind, name) =>
      built <~ buildInvestigationRequest kind name opts;
      match built with
      | Err e => Ret (Some (Some e))
      | Ok request =>
          let namespace := om_Namespace (ir_Meta request) in
          let requestName := om_Name (ir_Meta request) in
          _ <~! ILoadConfig;
          client <~! INewClient;
          match client with
          | Some e => Ret (Some (Some (wrapf "create kubernetes client" e)))
          | None =>
              created <~! ICreateRequest request;
              match created with
              | Some e => Ret (Some (Some (wrapf ("create InvestigationRequest " +:+ requestKey namespace requestName) e)))
              | None =>
                  _ <~! IPrint ("created InvestigationRequest " +:+ requestKey namespace requestName);
                  if negb (io_wait opts) then Ret (Some None)
                  else
                    final <~ waitForInvestigationRequest namespace requestName (io_timeout opts);
                    match final with
                    | None => Ret None
                    | Some (Err e) => Ret (Some (Some e))
                    | Some (Ok final) =>
                        _ <~ printAll (resultLines final);
                        Ret (Some (if ir_Phase final == PhaseFailed then Some (errorf (rs_Message (ist_ResourceStatus (ir_Status final))))
                                   else None))
                    end
              end
          end
      end
  end.
End Request.

(** ** The wait ends *)

(** A world with a clock that does not go back, and that a sleep moves on; the answers of
    everything else are free. *)
Definition clock_env (t : time) (X : Type) (op : command_op X) : X -> time -> Prop :=
  match op in command_op Y return Y -> time -> Prop with
  | INow => fun now t' => now = t' /\ t <= t'
  | ISleep d => fun _ t' => t + d <= t'
  | _ => fun _ t' => t <= t'
  end.

Section Wait.
Context {U : UnicodeTables} {QF : QueryFiles}.

Lemma waitUntil_ends fuel namespace name deadline t :
  deadline < t + (Z.of_nat fuel - 1) * (2 * second) -> (0 < fuel)%nat ->
  wp clock_env (fun _ => True) (waitUntil fuel namespace name deadline) t (fun r _ => r <> None).
Proof.
  revert t. induction fuel as [|fuel IH]; intros t Hd Hf; [lia|]. cbn [waitUntil].
  apply wp_vis; [done|]. intros got t1 Ht1. destruct got as [request|e]; [|by apply wp_ret].
  destruct (mem_str _ _); [by apply wp_ret|]. apply wp_vis; [done|]. intros now t2 [-> Ht2].
  unfold time_after. destruct (Z.ltb_spec deadline t2); [by apply wp_ret|]. apply wp_vis; [done|].
  intros [] t3 Ht3. cbn [clock_env] in Ht1, Ht3. unfold second in *. apply IH; unfold second; lia.
Qed.

(** The wait for the result has its answer, a final state or an error, before its fuel runs
    out: no more looks are needed than the timeout has room for. *)
Theorem wait_ends namespace name timeout t r t' :
  exec clock_env (waitForInvestigationRequest namespace name timeout) t (Some r) t' -> r <> None.
Proof.
  intros Hrun. apply (wp_exec clock_env (fun _ => True) _ _ (fun r _ => r <> None)) in Hrun as [_ Hq]; [by apply Hq|].
  apply wp_vis; [done|]. intros now t1 [-> Ht]. unfold waitFuel, time_add.
  pose proof (Z.div_mod (Z.max 0 timeout) (2 * second) ltac:(done)) as Hm.
  pose proof (Z.mod_pos_bound (Z.max 0 timeout) (2 * second) ltac:(done)) as Hb.
  pose proof (Z.div_pos (Z.max 0 timeout) (2 * second) ltac:(lia) ltac:(done)) as Hp.
  generalize dependent (Z.max 0 timeout mod (2 * second)). generalize dependent (Z.max 0 timeout / (2 * second)).
  intros n Hn r0 Hm Hr. unfold second in *. apply waitUntil_ends; unfold second; lia.
Qed.

(** ** What is written is admitted *)

Lemma loadQueriesFile_ok path :
  ends (fun r => match r with Ok queries => trim_space path = "" /\ queries = [] \/ queries <> [] | Err _ => True end)
    (loadQueriesFile path).
Proof.
  unfold loadQueriesFile. destruct (String.eqb_spec (trim_space path) ""); [by left|]. cbn [ends]. intros [body|e]; cbn; [|done].
  destruct (wrapped_queries body) as [[|q l]|], (listed_queries body) as [[|q' l']|]; cbn; try done; by right.
Qed.

(** The spec of a request that [investigate] builds passes the validation of the controller
    exactly when its target is named and its queries name source and type: mode, sources,
    retention and budget are right by construction. *)
Theorem built_request_admitted kind name opts :
  ends (fun r => match r with
                 | Err _ => True
                 | Ok request =>
                     validateInvestigationRequestSpecIssue (ir_Spec request) = None <->
                     (~ blank (io_targetNamespace opts) /\ ~ blank (normalizeTargetKind kind) /\ ~ blank name) /\
                     Forall (fun q => ~ blank (iq_DatasourceRef q) /\ ~ blank (iq_QueryType q)) (irs_Queries (ir_Spec request))
                 end) (buildInvestigationRequest kind name opts).
Proof.
  unfold buildInvestigationRequest. apply ends_bind. eapply ends_mono; [|apply loadQueriesFile_ok].
  intros [queries|e] Hq; [|done]. destruct (bool_decide _ && _)%bool eqn:E; [done|].
  assert (Hs : irs_DataSources (investigateSpec kind name opts queries) = [] /\ queries <> [] \/
               irs_DataSources (investigateSpec kind name opts queries) <> [] /\ queries = []).
  { unfold investigateSpec. cbn. case_bool_decide; [right|by left]. split; [|done].
    cbn [andb] in E. by apply bool_decide_eq_false in E. }
  apply ends_bind. assert (Hgoal : forall n : string, validateInvestigationRequestSpecIssue (investigateSpec kind name opts queries) = None <->
    (~ blank (io_targetNamespace opts) /\ ~ blank (normalizeTargetKind kind) /\ ~ blank name) /\
     Forall (fun q => ~ blank (iq_DatasourceRef q) /\ ~ blank (iq_QueryType q)) queries).
  { intros _. rewrite spec_valid. split; [intros []; by split|]. intros [Ht Hqs]. split; try done.
    - by right.
    - by left.
    - left.
    - split; cbn; try lia. unfold negativeLimits. cbn. repeat constructor; cbn; lia. }
  destruct (_ == ""); cbn [ends pbind]; [intros now|]; by apply Hgoal.
Qed.
End Wait.

(** ** What [investigate] does *)

Section Investigate.
Context {U : UnicodeTables} {QF : QueryFiles}.

(** The requests that were written, with whether they were created. *)
Definition creation (ev : event command_op) : option (InvestigationRequest * bool) :=
  match ev with
  | Ev op x =>
      match op in command_op X return X -> option (InvestigationRequest * bool) with
      | ICreateRequest request => fun answer => Some (request, bool_decide (answer = None))
      | _ => fun _ => None
      end x
  end.

Definition investigation_step (before : list (event command_op)) (ev : event command_op) : Prop :=
  match ev with
  | Ev op _ =>
      match op with
      | ICreateRequest _ => omap creation before = []
      | IGetRequest namespace name =>
          exists request, omap creation before = [(request, true)] /\
            om_Namespace (ir_Meta request) = namespace /\ om_Name (ir_Meta request) = name
      | _ => True
      end
  end.
#[local] Notation logs_ok := (all_justified investigation_step).

(** A final state, and whether it is one that the command reports as a success. *)
Definition completed_seen (namespace name : string) (log : list (event command_op)) : Prop :=
  exists final, Ev (IGetRequest namespace name) (Ok final) ∈ log /\ ir_Phase final = PhaseCompleted.
Definition seen_final (namespace name : string) (log : list (event command_op)) (final : InvestigationRequest) : Prop :=
  Ev (IGetRequest namespace name) (Ok final) ∈ log /\ ir_Phase final ∈ [PhaseCompleted; PhaseFailed].

Lemma creation_other log {X} (op : command_op X) x :
  creation (Ev op x) = None -> omap creation (log ++ [Ev op x]) = omap creation log.
Proof. intros H. rewrite omap_app. cbn in *. rewrite H. apply app_nil_r. Qed.

Lemma build_step kind name opts log :
  logs_ok log ->
  wp log_env logs_ok (buildInvestigationRequest kind name opts) log (fun _ log' => omap creation log' = omap creation log).
Proof.
  intros Hl. unfold buildInvestigationRequest. apply wp_bind.
  apply wp_mono with (Q := fun _ log' => omap creation log' = omap creation log).
  - intros [queries|e] log1 Hl1 H1; [|by apply wp_ret]. destruct (bool_decide _ && _)%bool; [by apply wp_ret|].
    apply wp_bind. destruct (_ == ""); [|by apply wp_ret; [|apply wp_ret]].
    apply wp_event; [done|done|]. intros now Hl2. apply wp_ret; [done|]. apply wp_ret; [done|]. by rewrite creation_other.
  - unfold loadQueriesFile. destruct (_ == ""); [by apply wp_ret|]. apply wp_event; [done|done|]. intros [body|e] Hl1;
      (apply wp_ret; [done|]; by rewrite creation_other).
Qed.

Lemma wait_step fuel request deadline log :
  logs_ok log -> omap creation log = [(request, true)] ->
  let namespace := om_Namespace (ir_Meta request) in
  let name := om_Name (ir_Meta request) in
  wp log_env logs_ok (waitUntil fuel namespace name deadline) log
    (fun r log' => omap creation log' = [(request, true)] /\
       match r with Some (Ok final) => seen_final namespace name log' final | _ => True end).
Proof.
  intros Hl Hc namespace name. revert log Hl Hc. induction fuel as [|fuel IH]; intros log Hl Hc; [by apply wp_ret|]. cbn [waitUntil].
  apply wp_event; [done|by intros x; exists request|]. intros got Hl1.
  assert (Hc1 : omap creation (log ++ [Ev (IGetRequest namespace name) got]) = [(request, true)]) by (by rewrite creation_other).
  destruct got as [final|e]; [|by apply wp_ret]. destruct (mem_str _ _) eqn:E.
  { apply wp_ret; [done|]. split; [done|]. split; [apply snoc_elem|by apply mem_str_spec]. }
  apply wp_event; [done|done|]. intros now Hl2. destruct (time_after now deadline).
  { apply wp_ret; [done|]. split; [by rewrite creation_other|done]. }
  apply wp_event; [done|done|]. intros [] Hl3. apply IH; [done|]. by rewrite !creation_other.
Qed.

Lemma print_step lines log :
  logs_ok log -> wp log_env logs_ok (printAll lines) log
    (fun _ log' => omap creation log' = omap creation log /\ forall ev, ev ∈ log -> ev ∈ log').
Proof.
  revert log. induction lines as [|line lines IH]; intros log Hl; cbn [printAll fold_right]; [by apply wp_ret|].
  apply wp_event; [done|done|]. intros [] Hl1. eapply wp_mono; [|by apply IH]. intros _ log' _ [Hc He].
  split; [by rewrite Hc, creation_other|]. intros ev Hev. apply He. apply elem_of_app. by left.
Qed.

(** What a run that returns no error has done. *)
Definition investigated (args : list string) (log : list (event command_op)) : Prop :=
  exists opts kind name request,
    parseInvestigateArgs args = inl (opts, kind, name) /\ omap creation log = [(request, true)] /\
    (io_wait opts = true -> completed_seen (om_Namespace (ir_Meta request)) (om_Name (ir_Meta request)) log).

Definition no_error_means (args : list string) (r : option (option error)) (log : list (event command_op)) : Prop :=
  match r with Some None => investigated args log | _ => True end.

(** The part after the creation. *)
Lemma wait_and_print_ok args opts kind name request log :
  parseInvestigateArgs args = inl (opts, kind, name) -> logs_ok log -> omap creation log = [(request, true)] ->
  wp log_env logs_ok
    (final <~ waitForInvestigationRequest (om_Namespace (ir_Meta request)) (om_Name (ir_Meta request)) (io_timeout opts);
     match final with
     | None => Ret None
     | Some (Err e) => Ret (Some (Some e))
     | Some (Ok final) =>
         _ <~ printAll (resultLines final);
         Ret (Some (if ir_Phase final == PhaseFailed then Some (errorf (rs_Message (ist_ResourceStatus (ir_Status final))))
                    else None))
     end) log (no_error_means args).
Proof.
  intros Hp Hl Hc. unfold waitForInvestigationRequest. apply wp_event; [done|done|]. intros now Hl1.
  apply wp_bind. eapply wp_mono; [|apply (wait_step _ request); [done|by rewrite creation_other]].
  intros [[final|e]|] log1 Hl2 [Hc1 Hf]; [|by apply wp_ret..]. apply wp_bind. eapply wp_mono; [|by apply print_step].
  intros _ log2 Hl3 [Hc2 He]. apply wp_ret; [done|]. destruct Hf as [Hseen Hphase].
  destruct (String.eqb_spec (ir_Phase final) PhaseFailed) as [E|E]; [done|]. exists opts, kind, name, request.
  split_and!; [done|congruence|]. intros _. exists final. split; [by apply He|].
  apply elem_of_cons in Hphase as [?|[?|[]%not_elem_of_nil]%elem_of_cons]; done.
Qed.

(** In every run of [investigate] at most one request is written, only what was created is
    waited for, under its own name; and a run that returns no error has created its request
    and, unless told not to wait, has seen it Completed. *)
Theorem investigate_honest args answer log :
  logged (runInvestigate args) answer log ->
  logs_ok log /\ match answer with Some r => no_error_means args r log | None => True end.
Proof.
  intros Hrun. apply (wp_exec log_env logs_ok _ _ (no_error_means args)) in Hrun as [Hl Hq].
  { split; [done|]. destruct answer; [by apply Hq|done]. }
  unfold runInvestigate. destruct (parseInvestigateArgs args) as [[[opts kind] name]|e] eqn:Hp;
    [|apply wp_ret; [apply all_justified_nil|done]].
  apply wp_bind. eapply wp_mono; [|apply build_step, all_justified_nil]. clear log Hrun.
  intros [request|e] log Hl Hc; [|by apply wp_ret].
  cbn [omap list_omap] in Hc. apply wp_event; [done|done|]. intros [] Hl1. apply wp_event; [done|done|]. intros [e|] Hl2; [by apply wp_ret|].
  apply wp_event; [done|intros x; unfold investigation_step; by rewrite !creation_other|]. intros [e|] Hl3; [by apply wp_ret|].
  apply wp_event; [done|done|]. intros [] Hl4.
  assert (Hcr : forall log', omap creation log' = [] ->
    omap creation ((log' ++ [Ev (ICreateRequest request) None]) ++ [Ev (IPrint ("created InvestigationRequest " +:+
      requestKey (om_Namespace (ir_Meta request)) (om_Name (ir_Meta request)))) tt]) = [(request, true)]).
  { intros log' H. rewrite creation_other by done. rewrite omap_app, H. done. }
  destruct (io_wait opts) eqn:Hw; cbn [negb].
  - apply (wait_and_print_ok args opts kind name); [done|done|]. apply Hcr. by rewrite !creation_other.
  - apply wp_ret; [done|]. exists opts, kind, name, request. split_and!; [done| |by rewrite Hw].
    apply Hcr. by rewrite !creation_other.
Qed.
End Investigate.

(** ** Arguments as they are written *)

Section Arguments.
Context {U : UnicodeTables}.

Definition boolWord (b : bool) : string := if b then "true" else "false".
(** The options as flags; the two durations are left at their defaults. *)
Definition investigateArgs (kind name : string) (o : investigateOptions) : list string :=
  [kind; name; "-n"; io_targetNamespace o; "--request-namespace"; io_requestNamespace o; "--request-name"; io_requestName o;
   "--question"; io_question o; "--query-file"; io_queryFile o; "--provider"; io_provider o;
   "--create-risk-signal=" +:+ boolWord (io_createRiskSignal o); "--wait=" +:+ boolWord (io_wait o)] ++
  flat_map (fun d => ["--datasource"; d]) (io_datasources o).

Lemma parse_datasources sources o :
  parseFlags investigateFlags (flat_map (fun d => ["--datasource"; d]) sources) o
  = inl (o <| io_datasources := io_datasources o ++ sources |>, []).
Proof.
  revert o. induction sources as [|d sources IH]; intros o.
  - cbn. unfold constant. rewrite app_nil_r. by destruct o.
  - cbn [flat_map app]. change (parseFlags investigateFlags ("--datasource" :: d :: flat_map (fun d => ["--datasource"; d]) sources) o)
      with (parseFlags investigateFlags (flat_map (fun d => ["--datasource"; d]) sources) (o <| io_datasources := io_datasources o ++ [d] |>)).
    rewrite IH. cbn. unfold constant. by rewrite <- app_assoc.
Qed.

Lemma parse_target_first kind name rest o :
  kind <> "" -> name <> "" -> has_prefix kind "-" = false -> has_prefix name "-" = false ->
  parseFlags investigateFlags rest defaultInvestigateOptions = inl (o, []) ->
  parseInvestigateArgs (kind :: name :: rest) = inl (o, kind, name).
Proof.
  intros Hk Hn Hpk Hpn Hf. unfold parseInvestigateArgs. cbn [leadingWords]. rewrite Hpk, Hpn. cbn.
  rewrite Hf. apply String.eqb_neq in Hk, Hn. by rewrite Hk, Hn.
Qed.

(** Options written as flags after the target are read back as they were, whatever the texts
    are: a value may start with a dash, be empty or hold an equals sign. *)
Theorem investigate_args_roundtrip kind name o :
  kind <> "" -> name <> "" -> has_prefix kind "-" = false -> has_prefix name "-" = false ->
  io_lookback o = 15 * minute -> io_timeout o = 90 * second ->
  parseInvestigateArgs (investigateArgs kind name o) = inl (o, kind, name).
Proof.
  intros Hk Hn Hpk Hpn Hl Ht. unfold investigateArgs. cbn [app]. apply parse_target_first; [done..|].
  destruct o as [ns rns rn q lb ds qf pr create wait to]; cbn in Hl, Ht; subst.
  transitivity (parseFlags investigateFlags (flat_map (fun d => ["--datasource"; d]) ds)
                  (mkInvestigateOptions ns rns rn q (15 * minute) [] qf pr create wait (90 * second))).
  - by destruct create, wait.
  - by rewrite parse_datasources.
Qed.
End Arguments.

(** ** The generated name *)

Section Name.
Context {U : UnicodeTables}.

Definition label_char (c : Ascii.ascii) : bool := dns_char c || is_dash c.
(** What the names of workloads are made of, and more. *)
Definition name_char (c : Ascii.ascii) : bool :=
  label_char c || ((65 <=? byte_val c) && (byte_val c <=? 90)) || (byte_val c =? 46) || (byte_val c =? 95).

Definition label_from (c : Ascii.ascii) : Ascii.ascii :=
  let c := lower_byte c in
  let c := if byte_val c =? 95 then byte_of 45 else c in
  if byte_val c =? 46 then byte_of 45 else c.

Lemma name_chars : forallb (fun n => implb (name_char (byte_of n)) (label_char (label_from (byte_of n)) && is_ascii_byte (byte_of n)))
  (map Z.of_nat (seq 0 256)) = true.
Proof. by vm_compute. Qed.

Lemma byte_cases (p : Ascii.ascii -> bool) : forallb (fun n => p (byte_of n)) (map Z.of_nat (seq 0 256)) = true -> forall c, p c = true.
Proof.
  intros H c. rewrite <- (byte_of_val c). rewrite forallb_forall in H. apply H. apply List.in_map_iff.
  exists (Z.to_nat (byte_val c)). unfold byte_val. split; [by rewrite Z2Nat.id by lia|].
  apply in_seq. pose proof (Ascii.N_ascii_bounded c). lia.
Qed.

Lemma name_char_label c : name_char c = true -> label_char (label_from c) = true /\ is_ascii_byte c = true.
Proof.
  pose proof (byte_cases (fun c => implb (name_char c) (label_char (label_from c) && is_ascii_byte c)) name_chars c) as H. cbn beta in H. intros E. rewrite E in H. cbn in H. by apply andb_true_iff in H.
Qed.

Lemma str_map_map f g s : str_map f (str_map g s) = str_map (fun c => f (g c)) s.
Proof. induction s as [|c s IH]; [done|]. cbn. by rewrite IH. Qed.

Lemma name_ascii s : str_all name_char s = true -> is_ascii s = true.
Proof.
  unfold is_ascii. induction s as [|c s IH]; [done|]. cbn. intros [Hc Hs]%andb_true_iff.
  rewrite (proj2 (name_char_label _ Hc)). by apply IH.
Qed.

(** Lower case, and dashes for underscores and dots. *)
Lemma labelled s : str_all name_char s = true ->
  replace_byte 46 45 (replace_byte 95 45 (to_lower s)) = str_map label_from s /\ str_all label_char (str_map label_from s) = true.
Proof.
  intros H. unfold to_lower, replace_byte. rewrite (name_ascii _ H), !str_map_map. split; [done|].
  induction s as [|c s IH]; [done|]. cbn in *. apply andb_true_iff in H as [Hc Hs].
  rewrite (proj1 (name_char_label _ Hc)). by apply IH.
Qed.

(** *** Decimal numbers *)

Lemma pretty_N_go_digits x s : str_all is_ascii_digit s = true -> str_all is_ascii_digit (pretty_N_go x s) = true.
Proof.
  revert s. induction (N.lt_wf_0 x) as [x _ IH]. intros s Hs. destruct (decide (0 < x)%N) as [Hx|Hx].
  - rewrite pretty_N_go_step by done. apply IH; [by apply N.div_lt|]. cbn [str_all].
    rewrite Hs, andb_true_r. unfold pretty_N_char. by repeat case_match.
  - assert (x = 0%N) as -> by lia. done.
Qed.

Lemma pretty_N_go_length k x s : (x < 10 ^ N.of_nat k)%N -> (String.length (pretty_N_go x s) <= k + String.length s)%nat.
Proof.
  revert x s. induction k as [|k IH]; intros x s Hx.
  - assert (x = 0%N) as -> by (cbn in Hx; lia). done.
  - destruct (decide (0 < x)%N) as [Hp|Hp]; [|assert (x = 0%N) as -> by lia; rewrite pretty_N_go_0; lia].
    rewrite pretty_N_go_step by done. etransitivity; [apply IH|cbn; lia].
    apply N.Div0.div_lt_upper_bound. rewrite Nat2N.inj_succ, N.pow_succ_r' in Hx. lia.
Qed.

Lemma itoa_number n : 0 <= n < 10 ^ 12 -> str_all is_ascii_digit (itoa n) = true /\ (1 <= String.length (itoa n) <= 12)%nat.
Proof.
  intros Hn. destruct n as [|p|p]; [by cbn; split; [|lia]| |lia]. change (itoa (Z.pos p)) with (pretty (N.pos p)).
  unfold pretty, pretty_N. rewrite decide_False by done. split; [by apply pretty_N_go_digits|]. split.
  - rewrite pretty_N_go_step by lia. destruct (pretty_N_go _ _) eqn:E; [|cbn; lia].
    assert (forall x s, (String.length s <= String.length (pretty_N_go x s))%nat) as Hge.
    { intros x. induction (N.lt_wf_0 x) as [x _ IH]. intros s. destruct (decide (0 < x)%N).
      - rewrite pretty_N_go_step by done. etransitivity; [|apply IH; by apply N.div_lt]. cbn. lia.
      - assert (x = 0%N) as -> by lia. done. }
    specialize (Hge (N.pos p `div` 10)%N (String (pretty_N_char (N.pos p `mod` 10)) "")). rewrite E in Hge. cbn in Hge. lia.
  - etransitivity; [apply (pretty_N_go_length 12)|cbn; lia]. change (10 ^ N.of_nat 12)%N with 1000000000000%N. lia.
Qed.

(** *** The parts together *)

Lemma str_all_take p n s : str_all p s = true -> str_all p (str_take n s) = true.
Proof. rewrite <- (str_take_drop n s) at 1. rewrite str_all_app. by intros [? _]%andb_true_iff. Qed.

Lemma str_take_take m n s : (m <= n)%nat -> str_take m (str_take n s) = str_take m s.
Proof.
  revert n s. induction m as [|m IH]; intros [|n] s H; [done..|lia|]. destruct s as [|c s]; [done|]. cbn. f_equal. apply IH. lia.
Qed.

Lemma str_take_ge n s : (String.length s <= n)%nat -> str_take n s = s.
Proof. revert s. induction n as [|n IH]; intros [|c s] H; cbn in *; [done|lia|done|]. f_equal. apply IH. lia. Qed.

(** The base is the first bytes, at most fifty, of the kind and the name. *)
Lemma investigateBase_take kind name :
  str_all name_char (normalizeTargetKind kind) = true -> str_all name_char name = true ->
  exists rest n, investigateBase kind name = str_take n (String (byte_of 105) rest) /\ (1 <= n <= 50)%nat /\
    str_all label_char (String (byte_of 105) rest) = true /\ (String.length (str_take n (String (byte_of 105) rest)) <= 50)%nat.
Proof.
  intros Hk Hn. unfold investigateBase.
  assert (Ha : str_all name_char ("investigate-" +:+ normalizeTargetKind kind +:+ "-" +:+ name) = true).
  { rewrite !str_all_app, Hk, Hn. done. }
  destruct (labelled _ Ha) as [-> Hl].
  change (str_map label_from ("investigate-" +:+ normalizeTargetKind kind +:+ "-" +:+ name))
    with (String (byte_of 105) (str_map label_from ("nvestigate-" +:+ normalizeTargetKind kind +:+ "-" +:+ name))) in *.
  set (rest := str_map label_from _) in *. exists rest. unfold str_len.
  destruct (Z.ltb_spec 50 (Z.of_nat (String.length (String (byte_of 105) rest)))) as [H|H].
  - assert (E : String.length (str_take 50 (String (byte_of 105) rest)) = 50%nat) by (apply str_take_length; lia).
    unfold trim_suffix. destruct (has_suffix _ _); [exists 49%nat|exists 50%nat]; (split; [|split; [lia|split; [done|]]]).
    + rewrite E. cbn [String.length]. change (50 - 1)%nat with 49%nat. apply str_take_take. lia.
    + rewrite str_take_length; [lia|]. lia.
    + done.
    + by rewrite E.
  - exists 50%nat. assert (E : str_take 50 (String (byte_of 105) rest) = String (byte_of 105) rest) by (apply str_take_ge; lia).
    rewrite E. split; [done|]. split; [lia|]. split; [done|]. lia.
Qed.

(** A label of RFC 1123: letters, digits and dashes, at most 63, no dash at either end. *)
Record rfc1123_label (s : string) : Prop := {
  rl_chars : str_all label_char s = true;
  rl_first : exists c rest, s = String c rest /\ dns_char c = true;
  rl_last : exists rest c, s = rest +:+ String c "" /\ dns_char c = true;
  rl_length : (1 <= String.length s <= 63)%nat
}.

(** The generated name of a request about a workload, whose name has letters of either case,
    digits, dashes, dots and underscores only, is a label that the API server accepts, however
    long the name of the workload is, until the year 33658. *)
Theorem generated_name_valid kind name now :
  str_all name_char (normalizeTargetKind kind) = true -> str_all name_char name = true ->
  0 <= now / second < 10 ^ 12 ->
  rfc1123_label (generatedInvestigationRequestName kind name now).
Proof.
  intros Hk Hn Ht. unfold generatedInvestigationRequestName.
  destruct (investigateBase_take kind name Hk Hn) as (rest & n & -> & Hb & Ha & Hl). destruct (itoa_number _ Ht) as [Hd Hi].
  assert (Hdns : forall c, is_ascii_digit c = true -> dns_char c = true).
  { intros c H. unfold dns_char, is_digit_char. unfold is_ascii_digit in H. by rewrite H. }
  assert (Hid : str_all label_char (itoa (now / second)) = true).
  { clear Hi. revert Hd. induction (itoa (now / second)) as [|c s IH]; [done|]. cbn. intros [Hc Hs]%andb_true_iff.
    unfold label_char at 1. rewrite (Hdns _ Hc). by apply IH. }
  split.
  - rewrite !str_all_app, Hid, (str_all_take _ _ _ Ha). done.
  - destruct n as [|n]; [lia|]. exists (byte_of 105), (str_take n rest +:+ "-" +:+ itoa (now / second)). by split.
  - destruct (str_last (itoa (now / second))) as [E|(s & c & E)]; [rewrite E in Hi; cbn in Hi; lia|].
    exists (str_take n (String (byte_of 105) rest) +:+ "-" +:+ s), c. rewrite E. split; [by rewrite !append_assoc|].
    apply Hdns. rewrite E, str_all_app in Hd. apply andb_true_iff in Hd as [_ Hd]. cbn in Hd. by apply andb_true_iff in Hd as [? _].
  - rewrite !append_length. cbn [String.length] in *. lia.
Qed.
End Name.

(** ** Examples *)

Section CommandExamples.
#[local] Existing Instance plain_tables.

Example usage_order :
  parseInvestigateArgs ["deployment"; "open-api"; "--namespace"; "prod"; "--datasource"; "prometheus"; "--create-risk-signal"]
  = inl (mkInvestigateOptions "prod" "fluxseer-rca-system" "" "" (15 * minute) ["prometheus"] "" "" true true (90 * second),
         "deployment", "open-api").
Proof. vm_compute. reflexivity. Qed.

(** The flags may come first, and a boolean takes its value with an equals sign only. *)
Example flags_first :
  map (fun args => match parseInvestigateArgs args with inl (o, k, n) => Some (io_wait o, io_lookback o, k, n) | inr _ => None end)
    [["-wait=f"; "--lookback=1h"; "pod"; "web-1"]; ["pod"; "web-1"; "--wait"; "false"]; ["pod"; "-n"; "prod"; "web-1"];
     ["pod"; "web-1"; "--lookback"; "1d"]; ["pod"; "web-1"; "extra"]; ["-n"; "prod"; "--"; "pod"; "web-1"]]
  = [Some (false, 60 * minute, "pod", "web-1"); None; None; None; None; Some (true, 15 * minute, "pod", "web-1")].
Proof. vm_compute. reflexivity. Qed.

Example commands :
  map commandOf [[]; ["demo"]; ["version"; "--output"; "json"]; ["investigate"; "pod"; "a"]; ["--help"]]
  = [RunDemo; RunDemo; WriteVersion "json"; RunInvestigate ["pod"; "a"]; PrintUsage].
Proof. vm_compute. reflexivity. Qed.

Example report_requests :
  map (fun args => match reportRequest args with inl (o, r, n) => Some (ro_namespace o, ro_output o, r, n) | inr _ => None end)
    [["RiskRule"; "errors"; "-n"; "ops"; "-o"; "Markdown"]; ["agentaction"; "a"; "-o"; "markdown"]; ["-n"; "ops"; "riskrule"; "errors"]]
  = [Some ("ops", "markdown", "riskrule", "errors"); None; None].
Proof. vm_compute. reflexivity. Qed.

Example kinds :
  map (fun k => (normalizeTargetKind k, apiVersionForKind k)) ["deployment"; " STS "; "rs"; "po"; "CronJob"]
  = [("Deployment", "apps/v1"); ("StatefulSet", "apps/v1"); ("ReplicaSet", "apps/v1"); ("Pod", "v1"); ("CronJob", "")].
Proof. vm_compute. reflexivity. Qed.

(** A file is one query in its first line, or a list of none. *)
#[local] Instance line_files : QueryFiles := {|
  wrapped_queries body := if body == "" then None else Some [mkInvestigationQuery "q" body "metric" "up" "" []];
  listed_queries _ := Some []
|}.

(** A cluster in which the request has these phases one after another, and a clock that only
    sleeping moves. *)
Record cli_world := mkCliWorld { cw_Now : time; cw_Phases : list string; cw_Log : list (event command_op) }.
Definition cli_step (w : cli_world) (X : Type) (op : command_op X) : option (X * cli_world) :=
  let next {Y} (o : command_op Y) (x : Y) (now : time) (phases : list string) := Some (x, mkCliWorld now phases (cw_Log w ++ [Ev o x])) in
  match op in command_op Y return option (Y * cli_world) with
  | IReadFile path => next (IReadFile path) (Ok "prometheus") (cw_Now w) (cw_Phases w)
  | INow => next INow (cw_Now w) (cw_Now w) (cw_Phases w)
  | ISleep d => next (ISleep d) tt (cw_Now w + d) (cw_Phases w)
  | ILoadConfig => next ILoadConfig tt (cw_Now w) (cw_Phases w)
  | INewClient => next INewClient None (cw_Now w) (cw_Phases w)
  | ICreateRequest r => next (ICreateRequest r) None (cw_Now w) (cw_Phases w)
  | IGetRequest namespace name =>
      let request phase := mkInvestigationRequest (mkObjectMeta name namespace "" "" 1 ∅ ∅ []) 0 None
        (investigateSpec "pod" "web" defaultInvestigateOptions [])
        (zeroInvestigationStatus <| ist_ResourceStatus := mkResourceStatus phase "over budget" 1 0 |>) in
      next (IGetRequest namespace name) (Ok (request (default PhasePending (head (cw_Phases w))))) (cw_Now w) (tail (cw_Phases w))
  | IPrint line => next (IPrint line) tt (cw_Now w) (cw_Phases w)
  end.

Definition cli_run (args : list string) (phases : list string) : option (option (option error)) * cli_world :=
  run cli_step (runInvestigate args) (mkCliWorld 1700000000999999999 phases []).

Definition printed (w : cli_world) : list string :=
  omap (fun ev => match ev with
                  | Ev op _ => match op with IPrint line => Some line | _ => None end
                  end) (cw_Log w).

Example investigate_completed :
  let r := cli_run ["deploy"; "Open_Api.v2"; "--datasource"; "prometheus"] [PhasePending; PhaseReasoning; PhaseCompleted] in
  (r.1, printed r.2, cw_Now r.2) =
  (Some (Some None),
   ["created InvestigationRequest fluxseer-rca-system/investigate-deployment-open-api-v2-1700000000"; "phase: Completed"],
   1700000004999999999).
Proof. vm_compute. reflexivity. Qed.

Example investigate_failed :
  let r := cli_run ["pod"; "web"; "--query-file"; "q.yaml"; "--request-name"; "r"] [PhaseFailed] in
  (r.1, printed r.2) =
  (Some (Some (Some (errorf "over budget"))), ["created InvestigationRequest fluxseer-rca-system/r"; "phase: Failed"]).
Proof. vm_compute. reflexivity. Qed.

Example investigate_times_out :
  let r := cli_run ["pod"; "web"; "--datasource"; "a"; "--request-name"; "r"; "--timeout"; "3s"] [] in
  (r.1, cw_Now r.2) =
  (Some (Some (Some (errorf "timed out waiting for InvestigationRequest fluxseer-rca-system/r"))), 1700000004999999999).
Proof. vm_compute. reflexivity. Qed.

(** The documented call without a source is refused before anything is read or written. *)
Example documented_call_refused :
  let r := cli_run ["deployment"; "open-api"; "-n"; "prod"; "--lookback"; "15m";
                    "--question"; "Why did latency increase after rollout?"] [] in
  (r.1, cw_Log r.2) = (Some (Some (Some (errorf "at least one --datasource or --query-file is required"))), []).
Proof. vm_compute. reflexivity. Qed.

(** A source named beside a file of queries is dropped without a word. *)
Example datasources_dropped :
  let opts := defaultInvestigateOptions <| io_datasources := ["loki"] |> <| io_queryFile := "q.yaml" |> <| io_requestName := "r" |> in
  match (run cli_step (buildInvestigationRequest "pod" "web" opts) (mkCliWorld 0 [] [])).1 with
  | Some (Ok request) => Some (irs_DataSources (ir_Spec request), length (irs_Queries (ir_Spec request)))
  | _ => None
  end = Some ([], 1%nat).
Proof. vm_compute. reflexivity. Qed.

Lemma generated_name_valid_witness :
  rfc1123_label (generatedInvestigationRequestName "deployment" "a-Service.with_a-very-long-name-of-more-than-fifty-bytes" 1700000000999999999).
Proof. apply generated_name_valid; [vm_compute; reflexivity|vm_compute; reflexivity|by vm_compute]. Defined.
End CommandExamples.
